(* ===== verification/_CoqProject ===== *)
-Q . S2P
Prelude.v
GoStr.v
TimeText.v
Base64.v
SqlM.v
FleetDb.v
Incidents.v
Monitor.v
Claims.v
Scheduler.v
Netguard.v
Requestmeta.v
RateLimit.v
Access.v
Auth.v
Routes.v
Sites.v
Replicated.v
ReplicatedView.v
Crawler.v
Analytics.v
Notifications.v
Gantry.v
Cluster.v
Pairing.v
Transport.v
ClusterLife.v
Credentials.v
Handshake.v
Propagation.v
Geo.v
Oidc.v
SiteApi.v
GoPath.v
GoFlag.v
Sha256.v
UnitFile.v
DataDir.v
Config.v
Schema.v
Migrations.v
Service.v
ServiceDemo.v
ServiceFacts.v
ServiceUpdate.v
CommandLine.v
Audits.v
AuditBrowser.v
Reports.v
Observe.v
Parts.v
SiteHandlers.v
Tenants.v
AccountHandlers.v
FrontDoor.v
Backups.v
Contracts.v
Admin.v
