(* ===== verification/Prelude.v ===== *)
(** * Web Fleet: a verification development

    Web Fleet ([src/], a Go program) watches a fleet of web sites: it checks
    them over HTTP, opens and resolves incidents, notifies webhooks, crawls
    sites, collects anonymous analytics, serves an HTTP API to users and API
    tokens, and joins with other installations into a cluster that replicates
    the configuration of the fleet.  This library models that program in the
    Rocq functions of the files below and proves what makes it correct.

    ** How the program is modelled

    - A database table is the list of its rows; the tables of a component are a
      record; a service operation is a computation in the monad of [SqlM],
      whose state is the tables and a _fault plan_ that says of each SQL
      statement whether the database refuses it.  So every theorem about an
      operation also covers the runs in which statements fail, and
      [SqlM.transact] gives transactions their rollback.  Constraints of the
      schema ([UNIQUE], [CHECK], [NOT NULL], foreign keys with their cascades)
      are refused statements.
    - An instant is a number of nanoseconds, its stored form the RFC 3339 text
      of [TimeText], whose bytewise order is the order SQL sees.  It differs
      from the order of time within one second, and the theorems say where that
      shows.
    - A Go [int] or [int64] is a [Z]; where the code can reach the width, the
      model wraps or tests it ([GoStr.parse_int], [RateLimit], [Scheduler]).
      Strings are byte strings; see [GoStr] for case mapping.
    - Go's [(T, error)] is [result T].  Loops over data are structural;
      [Crawler.crawl_loop] has fuel, and [Crawler.crawl_always_answers] proves
      that [crawl_fuel], computed from the sitemaps, is enough.
    - Randomness, the clock, the network, the resolver, [url.Parse], regular
      expressions, JSON and the cryptographic libraries are parameters
      (section variables).  The rules of [gantry-core/cluster] are the class
      [Gantry.GantryCore]; what the code relies on of them are the classes
      [MemberStates], [PairingStates], [Envelopes], [Verifies] and [Signs], and
      [Gantry.Toy] shows that they can hold together.

    ** The parts

    - [Prelude], [GoStr], [TimeText], [Base64], [SqlM]: shared notions, the
      standard library functions the program calls, the database monad with a
      Hoare logic ([triple]) and the relations a run preserves ([within]).
    - [FleetDb], [Incidents], [Monitor], [Claims], [Scheduler]: the monitoring
      path ([internal/incidents], [internal/monitor], [internal/scheduler], and
      [ClaimDue], [RenewClaim], [CompleteClaim] of [internal/store]).  The
      scheduler claims a site, checks it with [Monitor], whose health machine
      calls [Incidents.Transition], which fills the webhook outbox.
    - [Notifications] ([internal/notifications]): the worker that empties that
      outbox.
    - [Netguard], [Requestmeta], [RateLimit] ([internal/netguard],
      [internal/requestmeta], [server/ratelimit.go]): which destinations are
      dialed, whom a request comes from, how often it may.
    - [Access], [Auth], [Routes] ([internal/rbac], [internal/apitokens],
      [internal/auth], [authorize] and the route table of
      [internal/server/server.go]): who may do what.
    - [Sites] ([internal/sites]): sites, groups and tags.
    - [Replicated], [ReplicatedView] ([internal/replicated/fsm.go] and the tag
      handler of [server.go]): the replicated state machine on the tables, and
      the abstract machine it implements.
    - [Crawler] ([internal/crawler]), [Analytics] ([internal/analytics] and
      [internal/maintenance]).
    - [Gantry], [Cluster], [Pairing], [Transport], [ClusterLife], [Credentials]
      ([internal/cluster] and the signed routes of [server/cluster.go]): the
      membership of a cluster, the pairing of two nodes, the signed requests
      between them and the rotation of their credentials.
    - [Propagation] ([internal/propagation]), [Geo] ([internal/geo]), [Oidc]
      ([internal/oidc]): definitions carried from one node to another, the
      country database, logins through an identity provider.
    - [SiteApi] ([internal/server/server.go], [internal/replicated/controller.go],
      [internal/server/replication.go]): the handlers of groups, sites and tags on
      a single node and on a replicated one.  [Handshake]
      ([internal/replicated/authenticator.go]): who may join a consensus
      connection.
    ** What is proved

    - Refinement: [ReplicatedView.apply_refines_machine] and
      [faulty_node_keeps_a_prefix] (replication), [transition_refines_lifecycle]
      (incidents), [authorize_refines] (authorization).
    - Histories: [health_tracks_history] and [one_notice_per_outage] follow the
      health of a site and its incidents through any checks;
      [claim_generations_increase], [stale_owner_is_fenced] and
      [no_duplicate_work] follow a lease through any interleaving of workers;
      [rollups_count_events] follows analytics through any requests;
      [apply_exactly_once] and [restart_recovers] follow the log.
    - Two nodes: [pairing_agrees], [invitation_used_once],
      [credential_collected_once], [one_identity], [revoked_member_stays_out],
      [replay_refused]; [pair_never_stranded] says when rotating credentials
      keeps a pair able to talk, [expired_rotations_strand_pair] when not.
    - Termination and results: [crawl_always_answers], [crawl_report_is_true],
      [round_settles_its_rows], [summary_adds_up], [pages_cover_the_fleet].
    - Boundaries: [mutations_need_more_than_read], [tenant_isolation],
      [transition_tenant_boundary], [dial_avoids_blocked], [blocked_ranges],
      [spoofed_entries_are_ignored], [limiter_window_bound], [token_lifecycle],
      [session_lifetime], [setup_once], [password_change],
      [ingest_records_and_forgets].
    - Errors: [transition_atomic_and_wf], and the theorems that state a defect
      of the code as it is: [duplicate_tags_wedge_replication],
      [refused_recovery_leaves_incident_open], [rename_breaks_restore],
      [live_lease_can_be_stolen], [robots_groups_are_split] and others.
    - Propagation: [propagation_reproduces], [rollback_restores] and
      [archived_sites_defeat_propagation].  Country database:
      [lookup_is_a_scan], [network_rows_are_networks], [refresh_is_atomic].
      OpenID Connect: [callback_is_checked], [transaction_used_once].
    - The two modes of the server: [modes_agree], [key_changes_once].  Handshakes:
      [handshake_accepted_once], [rotation_breaks_handshakes].
    ** Not modelled

    Goroutines and tickers are modelled by the interleavings and rounds they
    produce, not as threads.  HTTP request decoding and response encoding are
    left out, except where a handler decides something.
    Left for later: the operator handlers of [server/cluster.go] and
    [server/propagation.go], browser audits ([internal/audit]), TLS, DNS,
    performance and deployments, configuration and the command line, the
    migration runner and the database setup.  Not planned: operating-system
    services ([internal/service]), drivers, the wiring of the consensus library
    ([internal/runtime]) and everything that is only I/O. *)
From Stdlib Require Export ZArith Lia String Ascii Bool.
From stdpp Require Export base option list strings gmap pretty.

#[global] Set Default Proof Using "Type".

Create HintDb wf.
Create Rewrite HintDb wf.

(** ** Results: Go's [(T, error)] pairs *)

Inductive result (A : Type) : Type :=
| Ok (a : A)
| Err (e : string).
Arguments Ok {A} a.
Arguments Err {A} e.

Definition is_ok {A} (r : result A) : bool :=
  match r with Ok _ => true | Err _ => false end.

#[export] Instance result_eq_dec {A} `{EqDecision A} : EqDecision (result A).
Proof. solve_decision. Defined.

Declare Scope wf_scope.
Delimit Scope wf_scope with wf.
Notation "x =?s y" := (String.eqb x y) (at level 70, no associativity) : wf_scope.

(** ** Tactics *)

(** Splits every boolean connective and comparison of the context. *)
Ltac bool_to_prop :=
  repeat match goal with
  | H : (_ && _)%bool = true |- _ => apply andb_true_iff in H; destruct H
  | H : (_ || _)%bool = false |- _ => apply orb_false_iff in H; destruct H
  | H : negb _ = true |- _ => apply negb_true_iff in H
  | H : negb _ = false |- _ => apply negb_false_iff in H
  | H : Z.eqb _ _ = true |- _ => apply Z.eqb_eq in H
  | H : Z.eqb _ _ = false |- _ => apply Z.eqb_neq in H
  | H : Z.leb _ _ = true |- _ => apply Z.leb_le in H
  | H : Z.leb _ _ = false |- _ => apply Z.leb_gt in H
  | H : Z.ltb _ _ = true |- _ => apply Z.ltb_lt in H
  | H : Z.ltb _ _ = false |- _ => apply Z.ltb_ge in H
  | H : Nat.eqb _ _ = true |- _ => apply Nat.eqb_eq in H
  | H : Nat.eqb _ _ = false |- _ => apply Nat.eqb_neq in H
  | H : Nat.leb _ _ = true |- _ => apply Nat.leb_le in H
  | H : Nat.leb _ _ = false |- _ => apply Nat.leb_gt in H
  | H : Nat.ltb _ _ = true |- _ => apply Nat.ltb_lt in H
  | H : Nat.ltb _ _ = false |- _ => apply Nat.ltb_ge in H
  | H : String.eqb _ _ = true |- _ => apply String.eqb_eq in H
  | H : String.eqb _ _ = false |- _ => apply String.eqb_neq in H
  end.

(** Case analysis on every [if]/[match] scrutinee of the goal, keeping the
    equations. *)
Ltac cases_in_goal :=
  repeat match goal with
  | |- context [match ?x with _ => _ end] => let E := fresh "E" in destruct x eqn:E
  end.

(** ** Lists *)

(** [find_first p l]: the first row satisfying [p] ([LIMIT 1] in id order). *)
Definition find_first {A} (p : A -> bool) (l : list A) : option A := List.find p l.

(** [find_last p l]: the last row satisfying [p] ([ORDER BY id DESC LIMIT 1]
    on a table kept in id order). *)
Definition find_last {A} (p : A -> bool) (l : list A) : option A :=
  List.fold_left (fun acc x => if p x then Some x else acc) l None.

(** [upd p f l]: [UPDATE ... SET f WHERE p]. *)
Definition upd {A} (p : A -> bool) (f : A -> A) (l : list A) : list A :=
  List.map (fun x => if p x then f x else x) l.

(** [del p l]: [DELETE ... WHERE p]. *)
Definition del {A} (p : A -> bool) (l : list A) : list A :=
  List.filter (fun x => negb (p x)) l.

(** [count p l]: [SELECT COUNT( * ) ... WHERE p]. *)
Definition count {A} (p : A -> bool) (l : list A) : Z :=
  Z.of_nat (length (List.filter p l)).

(** The row id SQLite assigns: one more than the largest id in use. *)
Definition fresh_id (ids : list Z) : Z := 1 + List.fold_right Z.max 0%Z ids.

Definition Zmem (x : Z) (l : list Z) : bool := existsb (Z.eqb x) l.
Definition Smem (x : string) (l : list string) : bool := existsb (String.eqb x) l.

Section Lists.
Context {A : Type}.
Implicit Types (p q : A -> bool) (f : A -> A) (l : list A).

Lemma upd_length p f l : length (upd p f l) = length l.
Proof. apply length_map. Qed.

Lemma upd_none p f l : (forall x, In x l -> p x = false) -> upd p f l = l.
Proof.
  unfold upd. induction l as [|a l IH]; intros H; [done|]; cbn.
  rewrite (H a (or_introl eq_refl)), IH; [done|].
  intros x Hx. apply H. by right.
Qed.

Lemma in_upd p f l y :
  In y (upd p f l) <-> exists x, In x l /\ y = if p x then f x else x.
Proof. unfold upd. rewrite in_map_iff. split; intros (x & ? & ?); exists x; done. Qed.

Lemma in_del p l x : In x (del p l) <-> In x l /\ p x = false.
Proof. unfold del. rewrite filter_In, negb_true_iff. done. Qed.

Lemma del_none p l : (forall x, In x l -> p x = false) -> del p l = l.
Proof.
  unfold del. induction l as [|a l IH]; intros H; [done|]; cbn.
  rewrite (H a (or_introl eq_refl)); cbn. f_equal. apply IH.
  intros x Hx. apply H. by right.
Qed.

Lemma filter_none p l : (forall x, In x l -> p x = false) -> List.filter p l = [].
Proof.
  induction l as [|a l IH]; intros H; [done|]; cbn.
  rewrite (H a (or_introl eq_refl)). apply IH. intros x Hx. apply H. by right.
Qed.

Lemma count_app p l1 l2 : count p (l1 ++ l2) = (count p l1 + count p l2)%Z.
Proof. unfold count. rewrite List.filter_app, length_app. lia. Qed.

Lemma count_nonneg p l : (0 <= count p l)%Z.
Proof. unfold count. lia. Qed.

Lemma find_first_app p l1 l2 :
  find_first p (l1 ++ l2) = match find_first p l1 with Some x => Some x | None => find_first p l2 end.
Proof. unfold find_first. induction l1 as [|a l1 IH]; cbn; [done|]. by destruct (p a). Qed.

Lemma find_first_None p l : find_first p l = None <-> forall x, In x l -> p x = false.
Proof.
  unfold find_first. induction l as [|a l IH]; cbn; [by split|].
  destruct (p a) eqn:E.
  - split; [done|]. intros H. by rewrite (H a (or_introl eq_refl)) in E.
  - rewrite IH. split; [|by auto]. intros H x [<-|Hx]; auto.
Qed.

Lemma find_first_Some p l x : find_first p l = Some x -> In x l /\ p x = true.
Proof. apply List.find_some. Qed.

Lemma find_first_upd p q f l :
  (forall x, q x = true -> p (f x) = p x) ->
  find_first p (upd q f l) = (fun x => if q x then f x else x) <$> find_first p l.
Proof.
  intros H. unfold find_first, upd. induction l as [|a l IH]; [done|]. cbn [List.map List.find].
  destruct (q a) eqn:E; [rewrite (H a E)|]; (destruct (p a) eqn:Ep; [cbn; by rewrite E|exact IH]).
Qed.

Lemma find_first_ext p q l : (forall x, In x l -> p x = q x) -> find_first p l = find_first q l.
Proof.
  unfold find_first. induction l as [|a l IH]; intros H; [done|]. cbn [List.find].
  rewrite (H a (or_introl eq_refl)), IH; [done|]. intros x Hx. apply H. by right.
Qed.

Lemma find_first_del_keep p q l :
  (forall x, In x l -> p x = true -> q x = false) -> find_first p (del q l) = find_first p l.
Proof.
  unfold find_first, del. induction l as [|a l IH]; intros H; [done|]. cbn [List.filter List.find].
  destruct (p a) eqn:Ep.
  - rewrite (H a (or_introl eq_refl) Ep). cbn. by rewrite Ep.
  - assert (List.find p (List.filter (fun x => negb (q x)) l) = List.find p l) as IH'.
    { apply IH. intros x Hx. apply H. by right. }
    destruct (q a); cbn; by rewrite ?Ep.
Qed.

Lemma find_first_del_gone p q l : (forall x, p x = true -> q x = true) -> find_first p (del q l) = None.
Proof.
  intros H. apply find_first_None. intros x Hx. apply in_del in Hx as [_ Hx].
  destruct (p x) eqn:E; [|done]. by rewrite (H x E) in Hx.
Qed.

Lemma find_first_unique p l x :
  (forall y, In y l -> p y = true -> y = x) -> In x l -> p x = true -> find_first p l = Some x.
Proof.
  intros Hu Hx Hp. destruct (find_first p l) as [y|] eqn:E.
  - apply find_first_Some in E as [Hy Hpy]. by rewrite (Hu y Hy Hpy).
  - by rewrite (proj1 (find_first_None _ _) E x Hx) in Hp.
Qed.

Lemma upd_app p f l1 l2 : upd p f (l1 ++ l2) = upd p f l1 ++ upd p f l2.
Proof. apply map_app. Qed.

Lemma find_last_app p l x :
  find_last p (l ++ [x]) = if p x then Some x else find_last p l.
Proof. unfold find_last. by rewrite List.fold_left_app. Qed.

Lemma find_last_Some p l x : find_last p l = Some x -> In x l /\ p x = true.
Proof.
  induction l as [|a l IH] using rev_ind; [done|].
  rewrite find_last_app. destruct (p a) eqn:Ea.
  - intros [= <-]. split; [apply in_or_app; cbn; by auto|done].
  - intros H. destruct (IH H). split; [apply in_or_app; by left|done].
Qed.

Lemma find_last_None p l : find_last p l = None <-> forall x, In x l -> p x = false.
Proof.
  induction l as [|a l IH] using rev_ind; [cbn; naive_solver|].
  rewrite find_last_app. destruct (p a) eqn:Ea.
  - split; [done|]. intros H. rewrite (H a) in Ea; [done|].
    apply in_or_app; cbn; by auto.
  - rewrite IH. split; intros H x Hx.
    + apply in_app_or in Hx as [Hx|[<-|[]]]; auto.
    + apply H, in_or_app. by left.
Qed.
End Lists.

Lemma existsb_none_iff {A} (p : A -> bool) l : existsb p l = false <-> forall x, In x l -> p x = false.
Proof.
  rewrite <- not_true_iff_false, existsb_exists. split.
  - intros H x Hx. apply not_true_iff_false. eauto.
  - intros H (x & Hx & Hp). by rewrite (H x Hx) in Hp.
Qed.

Lemma NoDup_map_inj {A B} (f : A -> B) l x y :
  NoDup (List.map f l) -> In x l -> In y l -> f x = f y -> x = y.
Proof.
  induction l as [|a l IH]; [done|]. cbn. intros [Ha Hl]%NoDup_cons [->|Hx] [->|Hy] E; try done.
  - exfalso. apply Ha, list_elem_of_In. rewrite E. by apply in_map.
  - exfalso. apply Ha, list_elem_of_In. rewrite <- E. by apply in_map.
  - by apply IH.
Qed.

Lemma in_map_del {A B} (k : A -> B) q l x : In x (List.map k (del q l)) -> In x (List.map k l).
Proof. rewrite !in_map_iff. intros (y & <- & Hy). apply in_del in Hy as [Hy _]. by exists y. Qed.

Lemma NoDup_map_del {A B} (k : A -> B) q l : NoDup (List.map k l) -> NoDup (List.map k (del q l)).
Proof.
  unfold del. induction l as [|x l IH]; [done|]. cbn. intros [Hx Hl]%NoDup_cons.
  destruct (negb (q x)); [|by apply IH]. cbn. apply NoDup_cons. split; [|by apply IH].
  intros Hin. apply Hx. apply list_elem_of_In. apply list_elem_of_In in Hin. by apply (in_map_del k q).
Qed.

Lemma NoDup_map_snoc {A B} (k : A -> B) l x : NoDup (List.map k l) -> ~ In (k x) (List.map k l) -> NoDup (List.map k (l ++ [x])).
Proof.
  intros Hl Hx. rewrite List.map_app. apply NoDup_app. split_and!; [done| |apply NoDup_singleton].
  intros y Hy Hy'. apply list_elem_of_singleton in Hy' as ->. by apply Hx, list_elem_of_In.
Qed.

(** *** Sorting by a comparison, and lists side by side *)

(** [sort.Slice] by a comparison. *)
Fixpoint insert_less {A} (less : A -> A -> bool) (x : A) (l : list A) : list A :=
  match l with
  | [] => [x]
  | y :: l' => if less x y then x :: l else y :: insert_less less x l'
  end.
Definition sort_less {A} (less : A -> A -> bool) (l : list A) : list A :=
  List.fold_left (fun acc x => insert_less less x acc) l [].
Lemma insert_less_perm {A} (less : A -> A -> bool) x l : Permutation (insert_less less x l) (x :: l).
Proof.
  induction l as [|y l IH]; cbn; [done|]. destruct (less x y); [done|]. rewrite IH. apply perm_swap.
Qed.

Lemma sort_less_perm {A} (less : A -> A -> bool) l : Permutation (sort_less less l) l.
Proof.
  unfold sort_less. cut (forall acc, Permutation (List.fold_left (fun acc x => insert_less less x acc) l acc) (l ++ acc)).
  { intros H. rewrite H. by rewrite app_nil_r. }
  induction l as [|x l IH]; intros acc; [done|]. cbn. rewrite IH, insert_less_perm. by rewrite <- Permutation_middle.
Qed.

Lemma Forall2_in_r {A B} (P : A -> B -> Prop) l k y : Forall2 P l k -> In y k -> exists x, In x l /\ P x y.
Proof. induction 1 as [|x z l k H _ IH]; [by intros []|]. intros [->|Hy]; [exists x; auto using in_eq|]. destruct (IH Hy) as (u & ? & ?). exists u. auto using in_cons. Qed.

Lemma Forall2_in_l {A B} (P : A -> B -> Prop) l k x : Forall2 P l k -> In x l -> exists y, In y k /\ P x y.
Proof. intros H Hx. apply Forall2_flip in H. destruct (Forall2_in_r _ _ _ _ H Hx) as (y & ? & ?). by exists y. Qed.

Lemma In_snoc {A} (l : list A) x y : In y (l ++ [x]) <-> In y l \/ y = x.
Proof. rewrite in_app_iff. cbn. naive_solver. Qed.

Lemma count_snoc {A} (q : A -> bool) l x : count q (l ++ [x]) = (count q l + if q x then 1 else 0)%Z.
Proof. rewrite count_app. f_equal. unfold count. cbn. by destruct (q x). Qed.

Lemma count_cons {A} (q : A -> bool) x l : count q (x :: l) = ((if q x then 1 else 0) + count q l)%Z.
Proof. unfold count. cbn [List.filter]. destruct (q x); cbn [length]; lia. Qed.
Lemma count_perm {A} (q : A -> bool) l l' : l ≡ₚ l' -> count q l = count q l'.
Proof. induction 1; rewrite ?count_cons; lia. Qed.

Lemma fresh_id_gt ids x : In x ids -> (x < fresh_id ids)%Z.
Proof.
  unfold fresh_id. induction ids as [|a ids IH]; cbn; [done|].
  intros [->|H]; [lia|]. specialize (IH H). lia.
Qed.

Lemma fresh_id_pos ids : (0 < fresh_id ids)%Z.
Proof. unfold fresh_id. induction ids; cbn; lia. Qed.

Lemma fresh_id_notin ids : ~ In (fresh_id ids) ids.
Proof. intros H. apply fresh_id_gt in H. lia. Qed.

Lemma Zmem_In x l : Zmem x l = true <-> In x l.
Proof.
  unfold Zmem. rewrite existsb_exists. split.
  - intros (y & H & E). by apply Z.eqb_eq in E as ->.
  - intros H. exists x. by rewrite Z.eqb_refl.
Qed.

Lemma Smem_In x l : Smem x l = true <-> In x l.
Proof.
  unfold Smem. rewrite existsb_exists. split.
  - intros (y & H & E). by apply String.eqb_eq in E as ->.
  - intros H. exists x. by rewrite String.eqb_refl.
Qed.

(** ** Tables whose rows evolve and are never deleted *)

Section Grows.
Context {A : Type} (ev : A -> A -> Prop).

(** Every old row is still there, evolved by [ev], before the new ones. *)
Definition grows (l l' : list A) : Prop := exists m e, l' = m ++ e /\ Forall2 ev l m.

Lemma grows_nil l : grows [] l.
Proof. by exists [], l. Qed.

Lemma grows_refl `{!Reflexive ev} l : grows l l.
Proof. exists l, []. rewrite app_nil_r. split; [done|]. by induction l; constructor. Qed.

Lemma grows_trans `{!Transitive ev} a b c : grows a b -> grows b c -> grows a c.
Proof.
  intros (m & e & -> & H) (m' & e' & -> & H').
  apply Forall2_app_inv_l in H' as (m1 & m2 & H1 & H2 & ->).
  exists m1, (m2 ++ e'). rewrite app_assoc. split; [done|]. by etransitivity.
Qed.

Lemma grows_app `{!Reflexive ev} l e : grows l (l ++ e).
Proof. exists l, e. split; [done|]. by induction l; constructor. Qed.

Lemma grows_upd `{!Reflexive ev} p f l : (forall x, In x l -> p x = true -> ev x (f x)) -> grows l (upd p f l).
Proof.
  intros H. exists (upd p f l), []. rewrite app_nil_r. split; [done|].
  unfold upd. induction l as [|x l IH]; [constructor|]. cbn. constructor.
  - destruct (p x) eqn:E; [apply H; [by left|done]|reflexivity].
  - apply IH. intros y Hy. apply H. by right.
Qed.

(** A search by columns that do not evolve finds the evolved row. *)
Lemma grows_find p l l' x : (forall a b, ev a b -> p b = p a) ->
  grows l l' -> find_first p l = Some x -> exists y, find_first p l' = Some y /\ ev x y.
Proof.
  intros Hp (m & e & -> & H) Hx. rewrite find_first_app.
  enough (exists y, find_first p m = Some y /\ ev x y) as (y & -> & Hy) by by exists y.
  unfold find_first in *. induction H as [|a b l m Hab H IH]; [done|]. cbn in *.
  rewrite (Hp a b Hab). destruct (p a); [|by apply IH]. exists b. split; [done|]. congruence.
Qed.

Lemma grows_map {B} (k : A -> B) l l' : (forall a b, ev a b -> k b = k a) -> grows l l' ->
  exists e, List.map k l' = List.map k l ++ e.
Proof.
  intros Hk (m & e & -> & H). exists (List.map k e). rewrite List.map_app. f_equal.
  induction H as [|a b l m Hab H IH]; [done|]. cbn. by rewrite (Hk a b Hab), IH.
Qed.
End Grows.

#[export] Hint Rewrite @upd_length @count_app : wf.
#[export] Hint Resolve fresh_id_pos fresh_id_notin count_nonneg : wf.

(** Go's [int64] wrap-around. *)
Definition wrap64 (z : Z) : Z := ((z + 2 ^ 63) mod 2 ^ 64 - 2 ^ 63)%Z.

Lemma wrap64_small z : (- 2 ^ 63 <= z < 2 ^ 63)%Z -> wrap64 z = z.
Proof. intros H. unfold wrap64. rewrite Z.mod_small; lia. Qed.

Lemma wrap64_range z : (- 2 ^ 63 <= wrap64 z < 2 ^ 63)%Z.
Proof. unfold wrap64. pose proof (Z.mod_pos_bound (z + 2 ^ 63) (2 ^ 64)). lia. Qed.

(** ** Traces *)

Section Star.
Context {A : Type} (R : A -> A -> Prop).

Inductive star : A -> A -> Prop :=
| star_refl a : star a a
| star_step a b c : star a b -> R b c -> star a c.

Lemma star_invariant (P : A -> Prop) a b :
  (forall x y, P x -> R x y -> P y) -> P a -> star a b -> P b.
Proof. intros H Ha Hs. induction Hs; eauto. Qed.
End Star.
