(* ===== verification/GoStr.v ===== *)
(** The part of Go's [strings] and [strconv] packages the program uses, on byte
    strings.  Case mapping and white space are those of ASCII: bytes above 127
    are left alone, where Go also maps the other Unicode letters and spaces. *)
From S2P Require Import Prelude.
Open Scope string_scope.
Open Scope wf_scope.

(** ** Definitions *)

Definition lower_ascii (c : ascii) : ascii :=
  let n := nat_of_ascii c in
  if (65 <=? n)%nat && (n <=? 90)%nat then ascii_of_nat (n + 32) else c.

Fixpoint to_lower (s : string) : string :=
  match s with
  | EmptyString => EmptyString
  | String c s' => String (lower_ascii c) (to_lower s')
  end.

Definition is_space (c : ascii) : bool :=
  let n := nat_of_ascii c in ((9 <=? n)%nat && (n <=? 13)%nat) || (n =? 32)%nat.

Fixpoint trim_left (p : ascii -> bool) (s : string) : string :=
  match s with
  | EmptyString => EmptyString
  | String c s' => if p c then trim_left p s' else s
  end.

Fixpoint trim_right (p : ascii -> bool) (s : string) : string :=
  match s with
  | EmptyString => EmptyString
  | String c s' =>
      match trim_right p s' with
      | EmptyString => if p c then EmptyString else String c EmptyString
      | r => String c r
      end
  end.

(** [strings.TrimSpace]. *)
Definition trim_space (s : string) : string := trim_right is_space (trim_left is_space s).

(** [strings.TrimRight(s, "/")]. *)
Definition trim_slash (s : string) : string := trim_right (Ascii.eqb "/"%char) s.

(** [strings.HasPrefix] and [strings.HasSuffix]. *)
Definition has_prefix (s p : string) : bool := String.prefix p s.
Definition has_suffix (s p : string) : bool :=
  (String.length p <=? String.length s)%nat &&
  (substring (String.length s - String.length p) (String.length p) s =?s p).

(** [strings.Contains]. *)
Fixpoint contains (s sub : string) : bool :=
  String.prefix sub s ||
  match s with EmptyString => false | String _ s' => contains s' sub end.

Definition trim_prefix (s p : string) : string :=
  if has_prefix s p
  then substring (String.length p) (String.length s - String.length p) s else s.
Definition trim_suffix (s p : string) : string :=
  if has_suffix s p then substring 0 (String.length s - String.length p) s else s.

(** [strings.EqualFold] on ASCII. *)
Definition equal_fold (a b : string) : bool := to_lower a =?s to_lower b.

(** [strings.Split(s, sep)] for a one-byte separator. *)
Fixpoint split_on (sep : ascii) (s : string) : list string :=
  match s with
  | EmptyString => [EmptyString]
  | String c s' =>
      if Ascii.eqb c sep then EmptyString :: split_on sep s'
      else match split_on sep s' with
           | [] => [String c EmptyString]
           | h :: t => String c h :: t
           end
  end.

(** [strings.SplitN(s, sep, 2)] for a one-byte separator. *)
Fixpoint split2 (sep : ascii) (s : string) : string * option string :=
  match s with
  | EmptyString => (EmptyString, None)
  | String c s' =>
      if Ascii.eqb c sep then (EmptyString, Some s')
      else let '(a, b) := split2 sep s' in (String c a, b)
  end.

(** [strings.Join]. *)
Definition join (sep : string) (l : list string) : string := String.concat sep l.

Definition len (s : string) : Z := Z.of_nat (String.length s).

(** [io.ReadAll(io.LimitReader(r, n))]. *)
Definition limit_read (n : Z) (s : string) : string :=
  if (len s <=? n)%Z then s else substring 0 (Z.to_nat n) s.

Definition is_digit (c : ascii) : bool :=
  let n := nat_of_ascii c in (48 <=? n)%nat && (n <=? 57)%nat.
Definition digit_val (c : ascii) : Z := Z.of_nat (nat_of_ascii c) - 48.

Fixpoint digits_val (acc : Z) (s : string) : option Z :=
  match s with
  | EmptyString => Some acc
  | String c s' => if is_digit c then digits_val (acc * 10 + digit_val c) s' else None
  end.

(** Unsigned decimal digits, at least one of them. *)
Definition parse_udec (s : string) : option Z :=
  match s with EmptyString => None | _ => digits_val 0 s end.

Definition int64_min : Z := - 2 ^ 63.
Definition int64_max : Z := 2 ^ 63 - 1.
Definition in_int64 (z : Z) : bool := (int64_min <=? z)%Z && (z <=? int64_max)%Z.

(** [strconv.ParseInt(s, 10, 64)] and [strconv.Atoi]: an optional sign and
    decimal digits, an error when out of the 64-bit range. *)
Definition parse_int (s : string) : option Z :=
  let v := match s with
           | String "-"%char s' => Z.opp <$> parse_udec s'
           | String "+"%char s' => parse_udec s'
           | _ => parse_udec s
           end in
  match v with
  | Some z => if in_int64 z then Some z else None
  | None => None
  end.

(** The value [strconv.ParseInt(s, 10, 64)] and [strconv.Atoi] return next to an
    error that the caller drops: 0 for bad syntax, the nearest 64-bit number when
    out of range, where the digits that overflow end the scan. *)
Fixpoint digits_sat (acc : Z) (s : string) : option Z :=
  match s with
  | EmptyString => Some acc
  | String c s' =>
      if is_digit c then
        let n := (acc * 10 + digit_val c)%Z in
        if (2 ^ 64 <=? n)%Z then Some (2 ^ 64 - 1)%Z else digits_sat n s'
      else None
  end.
Definition parse_int_val (s : string) : Z :=
  let '(neg, b) := match s with
                   | String "-"%char s' => (true, s')
                   | String "+"%char s' => (false, s')
                   | _ => (false, s)
                   end in
  match (if b =?s "" then None else digits_sat 0 b) with
  | None => 0
  | Some u => if neg : bool then if (2 ^ 63 <? u)%Z then int64_min else (- u)%Z
              else if (2 ^ 63 <=? u)%Z then int64_max else u
  end.

(** [strconv.ParseUint(s, 10, 64)]. *)
Definition parse_uint (s : string) : option Z :=
  match parse_udec s with
  | Some z => if (z <? 2 ^ 64)%Z then Some z else None
  | None => None
  end.

(** [strconv.FormatInt(z, 10)]. *)
Definition format_int (z : Z) : string := pretty z.

(** ** Lemmas *)

Lemma to_lower_lower_ascii c : lower_ascii (lower_ascii c) = lower_ascii c.
Proof. destruct c as [[] [] [] [] [] [] [] []]; reflexivity. Qed.

Lemma to_lower_idem s : to_lower (to_lower s) = to_lower s.
Proof. induction s as [|c s IH]; cbn; [done|]. by rewrite to_lower_lower_ascii, IH. Qed.

Lemma to_lower_length s : String.length (to_lower s) = String.length s.
Proof. induction s as [|c s IH]; simpl; [done|by rewrite IH]. Qed.

Lemma to_lower_app a b : to_lower (a ++ b) = to_lower a ++ to_lower b.
Proof. induction a as [|c a IH]; simpl; [done|by rewrite IH]. Qed.

Lemma trim_right_idem p s : trim_right p (trim_right p s) = trim_right p s.
Proof.
  induction s as [|c s IH]; cbn; [done|].
  destruct (trim_right p s) as [|d r] eqn:E; cbn in *.
  - destruct (p c) eqn:Ec; cbn; [done|]. by rewrite Ec.
  - by rewrite IH.
Qed.

Lemma trim_left_idem p s : trim_left p (trim_left p s) = trim_left p s.
Proof.
  induction s as [|c s IH]; cbn; [done|].
  destruct (p c) eqn:Ec; cbn; [done|]. by rewrite Ec.
Qed.

Lemma trim_left_right p s :
  trim_left p (trim_right p (trim_left p s)) = trim_right p (trim_left p s).
Proof.
  induction s as [|c s IH]; [done|]. cbn [trim_left].
  destruct (p c) eqn:Ec; [done|]. cbn [trim_right].
  destruct (trim_right p s) as [|d r]; rewrite ?Ec; cbn; by rewrite ?Ec.
Qed.

Lemma trim_space_idem s : trim_space (trim_space s) = trim_space s.
Proof. unfold trim_space. by rewrite trim_left_right, trim_right_idem. Qed.

Lemma append_cons c a b : String c a ++ b = String c (a ++ b).
Proof. reflexivity. Qed.

Lemma append_nil_l b : "" ++ b = b.
Proof. reflexivity. Qed.

Lemma prefix_app p s : String.prefix p (p ++ s) = true.
Proof.
  induction p as [|c p IH]; [by destruct s|].
  rewrite append_cons; cbn. destruct (ascii_dec c c); [apply IH|done].
Qed.

Lemma prefix_spec p s : String.prefix p s = true <-> exists r, s = p ++ r.
Proof.
  split.
  - revert s. induction p as [|c p IH]; intros s H; [by exists s|].
    destruct s as [|d s]; [done|]. cbn in H.
    destruct (ascii_dec c d) as [->|]; [|done].
    destruct (IH s H) as [r ->]. by exists r.
  - intros [r ->]. apply prefix_app.
Qed.

Lemma contains_app a sub b : contains (a ++ sub ++ b) sub = true.
Proof.
  induction a as [|c a IH].
  - cut (forall r, String.prefix sub r = true -> contains r sub = true).
    { intros H. rewrite append_nil_l. apply H, prefix_app. }
    intros r H. destruct r; cbn [contains]; by rewrite H.
  - rewrite append_cons; cbn. rewrite IH. apply orb_true_r.
Qed.

Lemma contains_spec s sub : contains s sub = true <-> exists a b, s = a ++ sub ++ b.
Proof.
  split; [|by intros (a & b & ->); apply contains_app].
  induction s as [|c s IH]; cbn [contains]; rewrite orb_true_iff.
  - intros [H|H]; [|done]. apply prefix_spec in H as [r H]. by exists "", r.
  - intros [H|H].
    + apply prefix_spec in H as [r H]. by exists "", r.
    + destruct (IH H) as (a & b & ->). by exists (String c a), b.
Qed.

Lemma split_on_nonempty sep s : split_on sep s <> [].
Proof. destruct s as [|c s]; cbn; [done|]. destruct (Ascii.eqb c sep), (split_on sep s); done. Qed.

(** Splitting on a byte and joining with it again gives the string back. *)
Lemma join_split_on sep s : join (String sep "") (split_on sep s) = s.
Proof.
  unfold join. induction s as [|c s IH]; [done|]. cbn [split_on].
  destruct (split_on sep s) as [|h t] eqn:E; [by apply split_on_nonempty in E|].
  destruct (Ascii.eqb c sep) eqn:Ec.
  - apply Ascii.eqb_eq in Ec as ->. cbn in *. by rewrite IH.
  - cbn in *. destruct t; cbn in *; by rewrite <- IH.
Qed.

Lemma split_on_app sep a b :
  split_on sep (a ++ String sep b) = (split_on sep a ++ split_on sep b)%list.
Proof.
  induction a as [|c a IH].
  - rewrite append_nil_l. cbn. by rewrite Ascii.eqb_refl.
  - rewrite append_cons. cbn [split_on]. rewrite IH. destruct (Ascii.eqb c sep); [done|].
    destruct (split_on sep a) as [|h t] eqn:E; [by apply split_on_nonempty in E|done].
Qed.

(** Joining parts that hold no separator and splitting gives the parts back. *)
Lemma split_on_join sep l :
  l <> [] -> (forall p, In p l -> split_on sep p = [p]) -> split_on sep (join (String sep "") l) = l.
Proof.
  unfold join. induction l as [|p [|q l] IH]; intros Hne H; [done| |].
  - cbn. apply H. by left.
  - change (String.concat (String sep "") (p :: q :: l))
      with (p ++ String sep "" ++ String.concat (String sep "") (q :: l)).
    rewrite append_cons, append_nil_l, split_on_app, (H p (or_introl eq_refl)), IH;
      [done|done|]. intros x Hx. apply H. by right.
Qed.

Lemma parse_int_range s z : parse_int s = Some z -> (int64_min <= z <= int64_max)%Z.
Proof.
  unfold parse_int, in_int64. cases_in_goal; intros [= <-]; bool_to_prop; lia.
Qed.

Lemma digits_val_pretty_go n : forall s, (0 < n)%N ->
  digits_val 0 (pretty_N_go n s) = digits_val (Z.of_N n) s.
Proof.
  induction (N.lt_wf_0 n) as [n _ IH]. intros s Hn.
  rewrite pretty_N_go_step by done.
  assert (Hd : forall acc r, digits_val acc (String (pretty_N_char (n `mod` 10)) r)
    = digits_val (acc * 10 + Z.of_N (n `mod` 10)) r).
  { intros acc r. pose proof (N.mod_lt n 10 ltac:(done)) as Hm. cbn [digits_val].
    destruct (n `mod` 10)%N as [|q]; [done|].
    do 4 (destruct q as [q|q|]; try done). all: exfalso; lia. }
  destruct (N.eq_dec (n / 10)%N 0%N) as [Hz|Hz].
  - rewrite Hz. rewrite pretty_N_go_0, Hd. f_equal.
    pose proof (N.div_mod n 10 ltac:(done)). lia.
  - assert (0 < n / 10)%N as Hp by (destruct (n / 10)%N; [done|reflexivity]).
    rewrite IH; [|apply N.div_lt; done|exact Hp]. rewrite Hd. f_equal.
    pose proof (N.div_mod n 10 ltac:(done)). lia.
Qed.

(** Reading back a printed number. *)
Lemma parse_udec_format z : (0 <= z)%Z -> parse_udec (format_int z) = Some z.
Proof.
  intros Hz. unfold format_int. destruct z as [|p|p]; [done| |lia].
  change (pretty (Z.pos p)) with (pretty_N_go (N.pos p) "").
  assert (Hne : pretty_N_go (N.pos p) "" <> "").
  { intros He. pose proof (digits_val_pretty_go (N.pos p) "" ltac:(done)) as H.
    rewrite He in H. cbn in H. injection H as H. done. }
  unfold parse_udec. destruct (pretty_N_go (N.pos p) "") eqn:E; [done|].
  rewrite <- E, digits_val_pretty_go by done. done.
Qed.

Lemma parse_uint_format z : (0 <= z < 2 ^ 64)%Z -> parse_uint (format_int z) = Some z.
Proof.
  intros Hz. unfold parse_uint. rewrite parse_udec_format by lia.
  destruct (Z.ltb_spec z (2 ^ 64)); [done|lia].
Qed.

Lemma substring_app p s n : substring (String.length p) n (p ++ s)%string = substring 0 n s.
Proof. induction p as [|c p IH]; [done|]. cbn. destruct n; exact IH. Qed.

Lemma substring_all s : substring 0 (String.length s) s = s.
Proof. induction s as [|c s IH]; [done|]. cbn. by rewrite IH. Qed.

Lemma append_length p s : String.length (p ++ s)%string = (String.length p + String.length s)%nat.
Proof. induction p as [|c p IH]; [done|]. change (S (String.length (p ++ s)%string) = S (String.length p + String.length s)%nat). by rewrite IH. Qed.

Lemma trim_prefix_app p s : trim_prefix (p ++ s)%string p = s.
Proof.
  unfold trim_prefix, has_prefix. rewrite prefix_app, append_length, substring_app.
  replace (String.length p + String.length s - String.length p)%nat with (String.length s) by lia. apply substring_all.
Qed.
