(* ===== verification/TimeText.v ===== *)
(** Instants and the order of their stored text.  The program stores every
    instant as [time.RFC3339Nano] text in UTC and lets SQL compare the text
    bytewise.  An instant is a count of nanoseconds; for the years 0000-9999 the
    19-byte date-time prefix of the text is ordered as the count of seconds, and
    the rest of the text is the fraction without trailing zeros and a [Z]. *)
From S2P Require Import Prelude GoStr.
Open Scope Z_scope.

Definition second : Z := 1000000000.
Definition millisecond : Z := 1000000.
Definition minute : Z := 60 * second.
Definition hour : Z := 60 * minute.
Definition day : Z := 24 * hour.

Definition secs (t : Z) : Z := t / second.
Definition nanos (t : Z) : Z := t mod second.

(** The nine decimal digits of the fraction, most significant first. *)
Fixpoint frac_digits (n : nat) (v : Z) : string :=
  match n with
  | O => EmptyString
  | S n' => let p := 10 ^ Z.of_nat n' in
            String (ascii_of_nat (48 + Z.to_nat (v / p))) (frac_digits n' (v mod p))
  end.

(** What [Format(time.RFC3339Nano)] writes after the seconds. *)
Definition text_suffix (t : Z) : string :=
  if nanos t =? 0 then "Z"%string
  else ("." ++ trim_right (Ascii.eqb "0"%char) (frac_digits 9 (nanos t)) ++ "Z")%string.

Definition text_compare (a b : Z) : comparison :=
  match secs a ?= secs b with
  | Eq => String.compare (text_suffix a) (text_suffix b)
  | c => c
  end.

(** [a <= b] and [a < b] as SQL sees two stored timestamps. *)
Definition text_leb (a b : Z) : bool := match text_compare a b with Gt => false | _ => true end.
Definition text_ltb (a b : Z) : bool := match text_compare a b with Lt => true | _ => false end.

(** ** Lemmas *)

Lemma secs_bounds t : secs t * second <= t < secs t * second + second.
Proof. unfold secs, second. pose proof (Z.div_mod t 1000000000). pose proof (Z.mod_pos_bound t 1000000000). lia. Qed.

Lemma text_compare_secs a b : secs a <> secs b -> text_compare a b = (secs a ?= secs b).
Proof.
  intros H. unfold text_compare. destruct (secs a ?= secs b) eqn:E; [|done|done].
  by apply Z.compare_eq in E.
Qed.

(** The text order and the order of the instants differ by less than a second. *)
Lemma text_leb_skew a b : text_leb a b = true -> a < b + second.
Proof.
  intros H. pose proof (secs_bounds a). pose proof (secs_bounds b).
  destruct (Z.eq_dec (secs a) (secs b)) as [E|E]; [rewrite E in *; lia|].
  unfold text_leb in H. rewrite text_compare_secs in H by done.
  destruct (Z.compare_spec (secs a) (secs b)); [lia| |done].
  unfold second in *. lia.
Qed.

Lemma text_leb_far a b : a + second <= b -> text_leb a b = true.
Proof.
  intros H. pose proof (secs_bounds a). pose proof (secs_bounds b).
  unfold text_leb. unfold second in *.
  assert (secs a < secs b) by lia.
  rewrite text_compare_secs by lia. by destruct (Z.compare_spec (secs a) (secs b)); try lia.
Qed.

Lemma text_ltb_leb a b : text_ltb a b = negb (text_leb b a).
Proof.
  unfold text_ltb, text_leb, text_compare. rewrite (Z.compare_antisym (secs a) (secs b)).
  destruct (secs a ?= secs b); cbn; [|done|done].
  rewrite (String.compare_antisym (text_suffix b)).
  by destruct (String.compare (text_suffix a) (text_suffix b)).
Qed.

Lemma text_ltb_skew a b : text_ltb a b = true -> a < b + second.
Proof.
  intros H. apply text_leb_skew. unfold text_ltb, text_leb in *. by destruct (text_compare a b).
Qed.

Lemma text_ltb_far a b : a + second <= b -> text_ltb a b = true.
Proof.
  intros H. rewrite text_ltb_leb. destruct (text_leb b a) eqn:E; [|done].
  apply text_leb_skew in E. lia.
Qed.

(** Whole seconds are ordered exactly. *)
Lemma text_leb_whole a b : nanos a = 0 -> nanos b = 0 -> text_leb a b = (a <=? b).
Proof.
  unfold nanos, text_leb, text_compare, text_suffix, nanos, secs.
  intros Ha Hb. rewrite Ha, Hb.
  rewrite (Z.div_mod a second), (Z.div_mod b second), Ha, Hb by (unfold second; lia).
  rewrite !Z.add_0_r, !(Z.mul_comm second), !Z.div_mul by (unfold second; lia).
  destruct (Z.compare_spec (a / second) (b / second)) as [E|E|E]; cbn [String.compare];
    symmetry; [apply Z.leb_le|apply Z.leb_le|apply Z.leb_gt]; unfold second in *; lia.
Qed.

Lemma text_leb_refl a : text_leb a a = true.
Proof.
  unfold text_leb, text_compare. rewrite Z.compare_refl.
  pose proof (String.compare_antisym (text_suffix a) (text_suffix a)) as H.
  by destruct (String.compare (text_suffix a) (text_suffix a)).
Qed.

#[export] Hint Resolve text_leb_refl text_leb_far text_ltb_far : wf.
