(* ===== verification/Base64.v ===== *)
(** [base64.RawURLEncoding]: the encoding of six-bit groups in the URL alphabet
    without padding, as [EncodeToString] and [DecodeString] compute it, and
    that decoding undoes encoding. *)
From S2P Require Import Prelude GoStr.
Open Scope string_scope.
Open Scope Z_scope.

Definition alphabet : string := "ABCDEFGHIJKLMNOPQRSTUVWXYZabcdefghijklmnopqrstuvwxyz0123456789-_".

Definition sym (v : Z) : ascii :=
  match String.get (Z.to_nat v) alphabet with Some c => c | None => "A"%char end.

Fixpoint index_of (c : ascii) (s : string) : option Z :=
  match s with
  | EmptyString => None
  | String a s' => if Ascii.eqb a c then Some 0 else Z.succ <$> index_of c s'
  end.
Definition val (c : ascii) : option Z := index_of c alphabet.

Definition byte_of (c : ascii) : Z := Z.of_nat (nat_of_ascii c).
Definition char_of (z : Z) : ascii := ascii_of_nat (Z.to_nat z).

Fixpoint EncodeToString (s : string) : string :=
  match s with
  | EmptyString => ""
  | String a EmptyString =>
      let a := byte_of a in
      String (sym (a / 4)) (String (sym ((a mod 4) * 16)) "")
  | String a (String b EmptyString) =>
      let a := byte_of a in let b := byte_of b in
      String (sym (a / 4)) (String (sym ((a mod 4) * 16 + b / 16)) (String (sym ((b mod 16) * 4)) ""))
  | String a (String b (String c s')) =>
      let a := byte_of a in let b := byte_of b in let c := byte_of c in
      String (sym (a / 4)) (String (sym ((a mod 4) * 16 + b / 16))
        (String (sym ((b mod 16) * 4 + c / 64)) (String (sym (c mod 64)) (EncodeToString s'))))
  end.

(** [\r] and [\n] are skipped wherever they stand. *)
Definition newline (c : ascii) : bool := Ascii.eqb c "010"%char || Ascii.eqb c "013"%char.
Fixpoint skip_newlines (s : string) : string :=
  match s with
  | EmptyString => ""
  | String c s' => if newline c then skip_newlines s' else String c (skip_newlines s')
  end.

(** The bytes of the quanta before the first bad one, and whether none is. *)
Fixpoint quanta (s : string) : string * bool :=
  match s with
  | EmptyString => ("", true)
  | String a (String b EmptyString) =>
      match val a, val b with
      | Some a, Some b => (String (char_of (a * 4 + b / 16)) "", true)
      | _, _ => ("", false)
      end
  | String a (String b (String c EmptyString)) =>
      match val a, val b, val c with
      | Some a, Some b, Some c =>
          (String (char_of (a * 4 + b / 16)) (String (char_of ((b mod 16) * 16 + c / 4)) ""), true)
      | _, _, _ => ("", false)
      end
  | String a (String b (String c (String d s'))) =>
      match val a, val b, val c, val d with
      | Some a, Some b, Some c, Some d =>
          let '(r, ok) := quanta s' in
          (String (char_of (a * 4 + b / 16)) (String (char_of ((b mod 16) * 16 + c / 4))
             (String (char_of ((c mod 4) * 64 + d)) r)), ok)
      | _, _, _, _ => ("", false)
      end
  | String _ EmptyString => ("", false)
  end.
Definition DecodeString (s : string) : string * bool := quanta (skip_newlines s).

(** ** Lemmas *)

Definition sextets : list Z := List.map Z.of_nat (List.seq 0 64).

Lemma sextet_in v : 0 <= v < 64 -> In v sextets.
Proof.
  intros H. unfold sextets. apply in_map_iff. exists (Z.to_nat v). split; [lia|]. apply in_seq. lia.
Qed.

Lemma sextet_forall (p : Z -> bool) v : List.forallb p sextets = true -> 0 <= v < 64 -> p v = true.
Proof. intros H Hv. eapply List.forallb_forall; [exact H|]. by apply sextet_in. Qed.

Lemma val_sym v : 0 <= v < 64 -> val (sym v) = Some v.
Proof.
  intros H. apply (sextet_forall (fun v => bool_decide (val (sym v) = Some v))) in H; [|vm_compute; reflexivity].
  by apply bool_decide_eq_true in H.
Qed.

Lemma newline_sym v : 0 <= v < 64 -> newline (sym v) = false.
Proof.
  intros H. apply (sextet_forall (fun v => negb (newline (sym v)))) in H; [|vm_compute; reflexivity].
  by apply negb_true_iff in H.
Qed.

Lemma byte_of_range c : 0 <= byte_of c < 256.
Proof. unfold byte_of. pose proof (nat_ascii_bounded c). lia. Qed.

Lemma char_of_byte c : char_of (byte_of c) = c.
Proof. unfold char_of, byte_of. rewrite Nat2Z.id. apply ascii_nat_embedding. Qed.

Lemma string_ind3 (P : string -> Prop) :
  P "" -> (forall a, P (String a "")) -> (forall a b, P (String a (String b ""))) ->
  (forall a b c s, P s -> P (String a (String b (String c s)))) -> forall s, P s.
Proof.
  intros H0 H1 H2 H3. fix IH 1. intros [|a [|b [|c s]]]; [exact H0|apply H1|apply H2|]. apply H3, IH.
Qed.

(** The regrouping of three bytes into four sextets and back. *)
Lemma regroup a b c : 0 <= a < 256 -> 0 <= b < 256 -> 0 <= c < 256 ->
  (0 <= a / 4 < 64 /\ 0 <= (a mod 4) * 16 + b / 16 < 64 /\ 0 <= (b mod 16) * 4 + c / 64 < 64 /\ 0 <= c mod 64 < 64)
  /\ a / 4 * 4 + ((a mod 4) * 16 + b / 16) / 16 = a
  /\ ((a mod 4) * 16 + b / 16) mod 16 * 16 + ((b mod 16) * 4 + c / 64) / 4 = b
  /\ ((b mod 16) * 4 + c / 64) mod 4 * 64 + c mod 64 = c.
Proof. intros. Z.to_euclidean_division_equations. lia. Qed.

Lemma skip_encoded s : skip_newlines (EncodeToString s) = EncodeToString s.
Proof.
  induction s as [|a|a b|a b c s IH] using string_ind3; [done| | |]; cbn [EncodeToString].
  - pose proof (byte_of_range a). destruct (regroup (byte_of a) 0 0) as ((? & ? & _) & _); [lia..|].
    rewrite Z.add_0_r in *. cbn [skip_newlines]. by rewrite !newline_sym.
  - pose proof (byte_of_range a). pose proof (byte_of_range b).
    destruct (regroup (byte_of a) (byte_of b) 0) as ((? & ? & ? & _) & _); [lia..|].
    rewrite Z.add_0_r in *. cbn [skip_newlines]. by rewrite !newline_sym.
  - pose proof (byte_of_range a). pose proof (byte_of_range b). pose proof (byte_of_range c).
    destruct (regroup (byte_of a) (byte_of b) (byte_of c)) as ((? & ? & ? & ?) & _); [lia..|].
    cbn [skip_newlines]. rewrite !newline_sym by done. by rewrite IH.
Qed.

Lemma decode_encode s : DecodeString (EncodeToString s) = (s, true).
Proof.
  unfold DecodeString. rewrite skip_encoded.
  induction s as [|a|a b|a b c s IH] using string_ind3; [done| | |]; cbn [EncodeToString].
  - pose proof (byte_of_range a). destruct (regroup (byte_of a) 0 0) as ((? & ? & _) & Ea & _); [lia..|].
    cbn [quanta]. rewrite Z.add_0_r in *. rewrite !val_sym by done. by rewrite Ea, char_of_byte.
  - pose proof (byte_of_range a). pose proof (byte_of_range b).
    destruct (regroup (byte_of a) (byte_of b) 0) as ((? & ? & ? & _) & Ea & Eb & _); [lia..|].
    cbn [quanta]. rewrite Z.add_0_r in *. rewrite !val_sym by done. by rewrite Ea, Eb, !char_of_byte.
  - pose proof (byte_of_range a). pose proof (byte_of_range b). pose proof (byte_of_range c).
    destruct (regroup (byte_of a) (byte_of b) (byte_of c)) as ((? & ? & ? & ?) & Ea & Eb & Ec); [lia..|].
    cbn [quanta]. rewrite !val_sym by done. rewrite IH. by rewrite Ea, Eb, Ec, !char_of_byte.
Qed.

Example decode_skips_newlines : DecodeString ("AQ" ++ String "010"%char "ID") = (String "001"%char (String "002"%char (String "003"%char "")), true).
Proof. reflexivity. Qed.
