(* ===== verification/SqlM.v ===== *)
(** The state-and-error monad of the services that talk to the database.

    A computation runs on the tables [S] and a fault plan: a list saying, for
    each statement in turn, whether the database refuses it.  A refused
    statement leaves the tables alone, as does one that violates a constraint;
    the end of the plan means that nothing more fails.  [transact] is
    [BeginTx] with the deferred [Rollback]: its body says whether it reached
    [Commit]. *)
From S2P Require Import Prelude.
Open Scope string_scope.

Abbreviation faults := (list bool).
Definition M (S A : Type) : Type := S * faults -> result A * (S * faults).

Definition ret {S A} (a : A) : M S A := fun w => (Ok a, w).
Definition throw {S A} (e : string) : M S A := fun w => (Err e, w).
Definition bind {S A B} (m : M S A) (k : A -> M S B) : M S B := fun w =>
  match m w with
  | (Ok a, w') => k a w'
  | (Err e, w') => (Err e, w')
  end.

Declare Scope sql_scope.
Delimit Scope sql_scope with sql.
Notation "'let*' x := m 'in' k" := (bind m (fun x => k))
  (at level 10, x name, m at level 100, k at level 200) : sql_scope.
Notation "m ;;; k" := (bind m (fun _ => k)) (at level 100, right associativity) : sql_scope.
Open Scope sql_scope.

(** A statement: [None] is a violated constraint. *)
Definition stmt {S A} (f : S -> option (A * S)) : M S A := fun '(s, fl) =>
  match fl with
  | true :: fl' => (Err "database error", (s, fl'))
  | _ => match f s with
         | Some (a, s') => (Ok a, (s', List.tl fl))
         | None => (Err "constraint failed", (s, List.tl fl))
         end
  end.

Definition query {S A} (f : S -> A) : M S A := stmt (fun s => Some (f s, s)).
Definition exec {S} (f : S -> S) : M S unit := stmt (fun s => Some (tt, f s)).
Definition exec_opt {S} (f : S -> option S) : M S unit := stmt (fun s => s' ← f s; Some (tt, s')).

(** [if e != nil { return errors.New(msg) }]. *)
Definition or_fail {S A} (m : M S A) (msg : string) : M S A := fun w =>
  match m w with
  | (Err _, w') => (Err msg, w')
  | r => r
  end.

(** [_, _ = m]: the error is dropped. *)
Definition ignore {S A} (d : A) (m : M S A) : M S A := fun w =>
  match m w with
  | (Err _, w') => (Ok d, w')
  | r => r
  end.

(** [BeginTx ... defer tx.Rollback() ... tx.Commit()]; begin and commit are
    statements that can fail too. *)
Definition transact {S A} (body : M S (A * bool)) : M S A := fun '(s, fl) =>
  match fl with
  | true :: fl' => (Err "database error", (s, fl'))
  | _ => match body (s, List.tl fl) with
         | (Err e, (_, fl')) => (Err e, (s, fl'))
         | (Ok (a, false), (_, fl')) => (Ok a, (s, fl'))
         | (Ok (a, true), (s', fl')) =>
             match fl' with
             | true :: fl'' => (Err "database error", (s, fl''))
             | _ => (Ok a, (s', List.tl fl'))
             end
         end
  end.

Fixpoint for_each {S A} (l : list A) (f : A -> M S unit) : M S unit :=
  match l with
  | [] => ret tt
  | x :: l' => f x ;;; for_each l' f
  end.

(** [if err != nil { return err }] for an error that no statement made. *)
Definition lift {S A} (r : result A) : M S A := match r with Ok a => ret a | Err e => throw e end.

(** The result and the tables of a run in which no statement is refused. *)
Definition run {S A} (m : M S A) (s : S) : result A * S :=
  let '(r, (s', _)) := m (s, []) in (r, s').

(** A computation is [honest] when every successful run, whatever the fault
    plan, is the run in which nothing is refused. *)
Definition honest {S A} (m : M S A) : Prop := forall s fl a s' fl',
  m (s, fl) = (Ok a, (s', fl')) -> m (s, []) = (Ok a, (s', [])).

(** A computation is [atomic] when a failed run leaves the tables alone. *)
Definition atomic {S A} (m : M S A) : Prop := forall s fl e s' fl',
  m (s, fl) = (Err e, (s', fl')) -> s' = s.

(** ** Lemmas *)

Section Laws.
Context {S A B : Type}.

Lemma honest_ret (a : A) : honest (ret (S:=S) a).
Proof. by intros s fl a' s' fl' [= -> -> ->]. Qed.

Lemma honest_throw e : honest (throw (S:=S) (A:=A) e).
Proof. by intros s fl a' s' fl' [=]. Qed.

Lemma honest_bind (m : M S A) (k : A -> M S B) :
  honest m -> (forall a, honest (k a)) -> honest (bind m k).
Proof.
  intros Hm Hk s fl b s' fl' H. unfold bind in *.
  destruct (m (s, fl)) as [[a|e] [s1 fl1]] eqn:E; [|done].
  rewrite (Hm _ _ _ _ _ E). eapply Hk; eauto.
Qed.

Lemma honest_stmt (f : S -> option (A * S)) : honest (stmt f).
Proof.
  intros s fl a s' fl' H. unfold stmt in *. cbn.
  destruct fl as [|[] fl]; [|done|]; destruct (f s) as [[a1 s1]|]; naive_solver.
Qed.

Lemma honest_or_fail (m : M S A) msg : honest m -> honest (or_fail m msg).
Proof.
  intros Hm s fl a s' fl' H. unfold or_fail in *.
  destruct (m (s, fl)) as [[a1|e] [s1 fl1]] eqn:E; [|done].
  rewrite (Hm _ _ _ _ _ E). naive_solver.
Qed.

Lemma honest_transact (body : M S (A * bool)) : honest body -> honest (transact body).
Proof.
  intros Hb s fl a s' fl' H. unfold transact in *. cbn.
  assert (G : match body (s, List.tl fl) with
    | (Err e, (_, fl')) => (Err e, (s, fl'))
    | (Ok (a, false), (_, fl')) => (Ok a, (s, fl'))
    | (Ok (a, true), (s', true :: fl'')) => (Err "database error", (s, fl''))
    | (Ok (a, true), (s', fl')) => (Ok a, (s', List.tl fl'))
    end = (Ok a, (s', fl'))) by by destruct fl as [|[] fl].
  clear H.
  destruct (body (s, List.tl fl)) as [[[a1 []]|e] [s1 fl1]] eqn:E; [| |done];
    rewrite (Hb _ _ _ _ _ E); [|naive_solver].
  destruct fl1 as [|[] fl1]; naive_solver.
Qed.

Lemma atomic_transact (body : M S (A * bool)) : atomic (transact body).
Proof.
  intros s fl e s' fl' H. unfold transact in H.
  destruct fl as [|[] fl];
    repeat (case_match; simplify_eq/=); naive_solver.
Qed.

Lemma atomic_stmt (f : S -> option (A * S)) : atomic (stmt f).
Proof.
  intros s fl e s' fl' H. unfold stmt in H.
  destruct fl as [|[] fl]; repeat (case_match; simplify_eq/=); naive_solver.
Qed.

Lemma run_honest (m : M S A) s fl a s' fl' :
  honest m -> m (s, fl) = (Ok a, (s', fl')) -> run m s = (Ok a, s').
Proof. intros Hm H. unfold run. by rewrite (Hm _ _ _ _ _ H). Qed.

(** Fault-free statements compute. *)
Lemma stmt_nil (f : S -> option (A * S)) s :
  stmt f (s, []) = match f s with
                   | Some (a, s') => (Ok a, (s', []))
                   | None => (Err "constraint failed", (s, []))
                   end.
Proof. unfold stmt. cbn. by destruct (f s) as [[]|]. Qed.

Lemma query_nil (f : S -> A) s : query f (s, []) = (Ok (f s), (s, [])).
Proof. reflexivity. Qed.

Lemma exec_nil (f : S -> S) s : exec f (s, []) = (Ok tt, (f s, [])).
Proof. reflexivity. Qed.
End Laws.

Lemma honest_for_each {S A} (l : list A) (f : A -> M S unit) :
  (forall x, honest (f x)) -> honest (for_each l f).
Proof.
  intros H. induction l as [|x l IH]; cbn; [apply honest_ret|].
  apply honest_bind; auto.
Qed.

(** An honest transaction is all or nothing under every fault plan: it either
    fails and changes nothing or does exactly what its fault-free run does. *)
Lemma for_each_app {S A} (l1 l2 : list A) (f : A -> M S unit) w :
  for_each (l1 ++ l2)%list f w = (for_each l1 f ;;; for_each l2 f) w.
Proof.
  unfold bind. revert w. induction l1 as [|x l1 IH]; intros w; [done|]. cbn. unfold bind.
  destruct (f x w) as [[[]|e] w']; [apply IH|done].
Qed.

Lemma transact_all_or_nothing {S A} (body : M S (A * bool)) s fl :
  honest body ->
  let '(r, (s', _)) := transact body (s, fl) in
  match r with
  | Ok a => run (transact body) s = (Ok a, s')
  | Err _ => s' = s
  end.
Proof.
  intros Hb. destruct (transact body (s, fl)) as [[a|e] [s' fl']] eqn:E.
  - eapply run_honest; [|done]. by apply honest_transact.
  - by apply atomic_transact in E.
Qed.

Ltac solve_honest :=
  repeat (intros; first
    [ apply honest_ret | apply honest_throw | apply honest_stmt
    | apply honest_bind | apply honest_or_fail | apply honest_transact
    | apply honest_for_each
    | match goal with
      | |- honest (match ?x with _ => _ end) => destruct x
      | |- honest (query _) => apply honest_stmt
      | |- honest (exec _) => apply honest_stmt
      | |- honest (exec_opt _) => apply honest_stmt
      end ]).

#[export] Hint Rewrite @query_nil @exec_nil @stmt_nil : wf.

Lemma honest_run_nil {S A} (m : M S A) s a s' :
  honest m -> run m s = (Ok a, s') -> m (s, []) = (Ok a, (s', [])).
Proof.
  intros Hm H. unfold run in H. destruct (m (s, [])) as [r [s1 fl1]] eqn:E. injection H as -> ->.
  by rewrite (Hm _ _ _ _ _ E) in E.
Qed.

Lemma run_bind {S A B} (m : M S A) (k : A -> M S B) s a s' :
  honest m -> run m s = (Ok a, s') -> run (bind m k) s = run (k a) s'.
Proof.
  intros Hm H. apply honest_run_nil in H; [|done]. unfold run, bind. by rewrite H.
Qed.

(** [x, err := m] where the caller only logs [err]. *)
Definition attempt {S A} (m : M S A) : M S (result A) := fun w =>
  let '(r, w') := m w in (Ok r, w').

(** A computation is [readonly] when it leaves the tables alone. *)
Definition readonly {S A} (m : M S A) : Prop := forall s fl r s' fl', m (s, fl) = (r, (s', fl')) -> s' = s.

Section Readonly.
Context {S A B : Type}.

Lemma readonly_ret (a : A) : readonly (ret (S:=S) a).
Proof. by intros s fl r s' fl' [= _ -> _]. Qed.
Lemma readonly_throw e : readonly (throw (S:=S) (A:=A) e).
Proof. by intros s fl r s' fl' [= _ -> _]. Qed.
Lemma readonly_query (f : S -> A) : readonly (query f).
Proof. intros s fl r s' fl' H. unfold query, stmt in H. destruct fl as [|[] fl]; by simplify_eq. Qed.
Lemma readonly_bind (m : M S A) (k : A -> M S B) :
  readonly m -> (forall a, readonly (k a)) -> readonly (bind m k).
Proof.
  intros Hm Hk s fl r s' fl' H. unfold bind in H.
  destruct (m (s, fl)) as [[a|e] [s1 fl1]] eqn:E; apply Hm in E; subst.
  - eapply Hk; eauto.
  - by simplify_eq.
Qed.
Lemma readonly_or_fail (m : M S A) msg : readonly m -> readonly (or_fail m msg).
Proof.
  intros Hm s fl r s' fl' H. unfold or_fail in H.
  destruct (m (s, fl)) as [[a|e] [s1 fl1]] eqn:E; apply Hm in E; by simplify_eq.
Qed.
End Readonly.

Ltac solve_readonly :=
  repeat (intros; first
    [ apply readonly_ret | apply readonly_throw | apply readonly_query
    | apply readonly_bind | apply readonly_or_fail
    | match goal with |- readonly (match ?x with _ => _ end) => destruct x end ]).

Lemma bind_attempt {S A B} (m : M S A) (k : result A -> M S B) w :
  bind (attempt m) k w = let '(r, w') := m w in k r w'.
Proof. unfold bind, attempt. by destruct (m w). Qed.

(** [within R m]: whatever fails, [m] moves the tables along [R]. *)
Definition within {S A} (R : S -> S -> Prop) (m : M S A) : Prop := forall s fl, R s (m (s, fl)).2.1.

Section Within.
Context {S : Type} (R : S -> S -> Prop) `{!Reflexive R} `{!Transitive R}.

Lemma within_ret {A} (a : A) : within R (ret a).
Proof using Reflexive0. intros s fl. cbn. reflexivity. Qed.
Lemma within_throw {A} e : within R (throw (A:=A) e).
Proof using Reflexive0. intros s fl. cbn. reflexivity. Qed.
Lemma within_readonly {A} (m : M S A) : readonly m -> within R m.
Proof using Reflexive0. intros H s fl. destruct (m (s, fl)) as [r [s' fl']] eqn:E. by rewrite (H _ _ _ _ _ E). Qed.
Lemma within_stmt {A} (f : S -> option (A * S)) :
  (forall s a s', f s = Some (a, s') -> R s s') -> within R (stmt f).
Proof using Reflexive0.
  intros H s fl. unfold stmt. destruct fl as [|[] fl]; cbn; [|reflexivity|];
    (destruct (f s) as [[a s']|] eqn:E; cbn; [by eapply H|reflexivity]).
Qed.
Lemma within_exec (f : S -> S) : (forall s, R s (f s)) -> within R (exec f).
Proof using Reflexive0. intros H. apply within_stmt. by intros s a s' [= _ <-]. Qed.
Lemma within_exec_opt (f : S -> option S) : (forall s s', f s = Some s' -> R s s') -> within R (exec_opt f).
Proof using Reflexive0.
  intros H. apply within_stmt. intros s a s' Hs. destruct (f s) eqn:E; cbn in Hs; [|done].
  injection Hs as _ <-. by apply H.
Qed.
Lemma within_bind {A B} (m : M S A) (k : A -> M S B) :
  within R m -> (forall a, within R (k a)) -> within R (bind m k).
Proof using Transitive0.
  intros Hm Hk s fl. unfold bind. pose proof (Hm s fl) as H1.
  destruct (m (s, fl)) as [[a|e] [s1 fl1]]; cbn in *; [|done].
  etransitivity; [exact H1|]. apply (Hk a s1 fl1).
Qed.
Lemma within_lift {A B} (r : result A) (k : A -> M S B) :
  (forall a, r = Ok a -> within R (k a)) -> within R (bind (lift r) k).
Proof using Reflexive0. intros H s fl. destruct r as [a|e]; [by apply (H a)|]. cbn. reflexivity. Qed.
Lemma within_or_fail {A} (m : M S A) msg : within R m -> within R (or_fail m msg).
Proof. intros H s fl. specialize (H s fl). unfold or_fail. by destruct (m (s, fl)) as [[] []]. Qed.
Lemma within_ignore {A} (a : A) (m : M S A) : within R m -> within R (ignore a m).
Proof. intros H s fl. specialize (H s fl). unfold ignore. by destruct (m (s, fl)) as [[] []]. Qed.
Lemma within_transact {A} (body : M S (A * bool)) : within R body -> within R (transact body).
Proof using Reflexive0.
  intros H s fl. unfold transact. pose proof (H s (List.tl fl)) as G.
  destruct fl as [|[] fl]; [|cbn; reflexivity|];
    destruct (body (s, _)) as [[[a []]|e] [s1 fl1]]; cbn in *; try reflexivity; by destruct fl1 as [|[] ?].
Qed.
End Within.

Lemma within_for_each {S A} (R : S -> S -> Prop) `{!Reflexive R} `{!Transitive R} (l : list A) f :
  (forall x, within R (f x)) -> within R (for_each l f).
Proof.
  intros H. induction l as [|x l IH]; cbn; [by apply within_ret|]. apply within_bind; [done|done|]. by intros _.
Qed.

(** Leaves the statements that write, as goals about their functions. *)
Ltac solve_within :=
  repeat (intros; first
    [ apply within_ret; apply _ | apply within_throw; apply _
    | apply within_bind; [apply _| |] | apply within_for_each; [apply _|apply _|]
    | apply within_readonly; [apply _|apply readonly_query]
    | apply within_or_fail | apply within_ignore | apply within_transact; [apply _|]
    | match goal with
      | |- within _ (match ?x with _ => _ end) => destruct x
      | |- within _ (lift ?x) => destruct x; cbn [lift]
      | |- within _ (exec _) => apply within_exec; [apply _|]
      | |- within _ (exec_opt _) => apply within_exec_opt; [apply _|]
      | |- within _ (stmt _) => apply within_stmt; [apply _|]
      end ]).

(** A computation is [faithful] when a refused statement shows: a run under any
    fault plan ends with the database's error, or as if nothing were refused. *)
Definition faithful {S A} (m : M S A) : Prop := forall s fl r s' fl',
  m (s, fl) = (r, (s', fl')) -> r = Err "database error" \/ m (s, []) = (r, (s', [])).

Section Faithful.
Context {S A B : Type}.

Lemma faithful_ret (a : A) : faithful (ret (S:=S) a).
Proof. intros s fl r s' fl' [= <- <- <-]. by right. Qed.
Lemma faithful_throw e : faithful (throw (S:=S) (A:=A) e).
Proof. intros s fl r s' fl' [= <- <- <-]. by right. Qed.
Lemma faithful_stmt (f : S -> option (A * S)) : faithful (stmt f).
Proof.
  intros s fl r s' fl' H. unfold stmt in *. destruct fl as [|[] fl]; [| left; congruence |];
    right; cbn [List.tl]; destruct (f s) as [[]|]; congruence.
Qed.
Lemma faithful_bind (m : M S A) (k : A -> M S B) :
  faithful m -> (forall a, faithful (k a)) -> faithful (bind m k).
Proof.
  intros Hm Hk s fl r s' fl' H. unfold bind in *.
  destruct (m (s, fl)) as [[a|e] [s1 fl1]] eqn:E; destruct (Hm _ _ _ _ _ E) as [He|He].
  - done.
  - rewrite He. exact (Hk a _ _ _ _ _ H).
  - left. congruence.
  - right. rewrite He. congruence.
Qed.
Lemma faithful_transact (body : M S (A * bool)) : faithful body -> faithful (transact body).
Proof.
  intros Hb s fl r s' fl' H.
  enough (forall fl0, transact body (s, false :: fl0) = (r, (s', fl')) ->
    r = Err "database error" \/ transact body (s, []) = (r, (s', []))) as G.
  { destruct fl as [|[] fl]; [by apply (G [])| |by apply (G fl)]. left. cbn in H. congruence. }
  clear H. intros fl0 H. unfold transact in *. cbn [List.tl] in *.
  destruct (body (s, fl0)) as [[[a b]|e] [s1 fl1]] eqn:E; destruct (Hb _ _ _ _ _ E) as [He|He]; try done.
  - rewrite He. destruct b; [|right; congruence].
    destruct fl1 as [|[] fl1]; [right; cbn in *; congruence|left; congruence|right; cbn in *; congruence].
  - left. congruence.
  - rewrite He. right. congruence.
Qed.
End Faithful.

Lemma faithful_for_each {S A} (l : list A) (f : A -> M S unit) :
  (forall x, faithful (f x)) -> faithful (for_each l f).
Proof.
  intros H. induction l as [|x l IH]; cbn; [apply faithful_ret|].
  apply faithful_bind; [apply H|]. intros _. exact IH.
Qed.

Ltac solve_faithful :=
  repeat (intros; first
    [ apply faithful_ret | apply faithful_throw | apply faithful_stmt | apply faithful_bind
    | apply faithful_transact | apply faithful_for_each
    | match goal with
      | |- faithful (match ?x with _ => _ end) => destruct x
      | |- faithful (query _) => apply faithful_stmt
      | |- faithful (exec _) => apply faithful_stmt
      | |- faithful (exec_opt _) => apply faithful_stmt
      end ]).

(** ** Triples *)

(** From tables that satisfy [P], under any fault plan, the answer and the tables
    left satisfy [Q]. *)
Definition triple {S A} (P : S -> Prop) (m : M S A) (Q : result A -> S -> Prop) : Prop :=
  forall s fl, P s -> Q (m (s, fl)).1 (m (s, fl)).2.1.

Section Triples.
Context {S : Type}.

Lemma triple_conseq {A} (P P' : S -> Prop) (m : M S A) (Q Q' : result A -> S -> Prop) :
  triple P m Q -> (forall s, P' s -> P s) -> (forall r s, Q r s -> Q' r s) -> triple P' m Q'.
Proof. intros H HP HQ s fl Hs. by apply HQ, H, HP. Qed.

Lemma triple_ret {A} (P : S -> Prop) (a : A) (Q : result A -> S -> Prop) : (forall s, P s -> Q (Ok a) s) -> triple P (ret a) Q.
Proof. intros H s fl Hs. by apply H. Qed.
Lemma triple_throw {A} (P : S -> Prop) e (Q : result A -> S -> Prop) : (forall s, P s -> Q (Err e) s) -> triple P (throw e) Q.
Proof. intros H s fl Hs. by apply H. Qed.
Lemma triple_lift {A} (P : S -> Prop) (r : result A) (Q : result A -> S -> Prop) : (forall s, P s -> Q r s) -> triple P (lift r) Q.
Proof. intros H s fl Hs. destruct r; by apply H. Qed.
Lemma triple_bind {A B} (P : S -> Prop) (m : M S A) (k : A -> M S B) (P' : A -> S -> Prop) (Q : result B -> S -> Prop) :
  triple P m (fun r s => match r with Ok a => P' a s | Err e => Q (Err e) s end) ->
  (forall a, triple (P' a) (k a) Q) -> triple P (bind m k) Q.
Proof.
  intros Hm Hk s fl Hs. unfold bind. specialize (Hm s fl Hs).
  destruct (m (s, fl)) as [[a|e] [s1 fl1]]; [|done]. by apply Hk.
Qed.
Lemma triple_stmt {A} (P : S -> Prop) (f : S -> option (A * S)) (Q : result A -> S -> Prop) :
  (forall s a s', P s -> f s = Some (a, s') -> Q (Ok a) s') -> (forall s e, P s -> Q (Err e) s) -> triple P (stmt f) Q.
Proof.
  intros Hf He s fl Hs. unfold stmt. destruct fl as [|[] fl]; [|by apply He|];
    (destruct (f s) as [[a s']|] eqn:E; [by eapply Hf|by apply He]).
Qed.
Lemma triple_query {A} (P : S -> Prop) (f : S -> A) (Q : result A -> S -> Prop) :
  (forall s, P s -> Q (Ok (f s)) s) -> (forall s e, P s -> Q (Err e) s) -> triple P (query f) Q.
Proof. intros Hf He. apply triple_stmt; [|done]. intros s a s' Hs [= <- <-]. by apply Hf. Qed.
Lemma triple_ignore {A} (P : S -> Prop) (a : A) (m : M S A) (Q : S -> Prop) :
  triple P m (fun _ => Q) -> triple P (ignore a m) (fun _ => Q).
Proof. intros H s fl Hs. specialize (H s fl Hs). unfold ignore. by destruct (m (s, fl)) as [[] []]. Qed.
Lemma triple_or_fail {A} (P : S -> Prop) (m : M S A) msg (Q : result A -> S -> Prop) :
  triple P m (fun r s => match r with Ok a => Q (Ok a) s | Err _ => Q (Err msg) s end) -> triple P (or_fail m msg) Q.
Proof. intros H s fl Hs. specialize (H s fl Hs). unfold or_fail. by destruct (m (s, fl)) as [[] []]. Qed.
Lemma triple_pre {A} (P : S -> Prop) (m : M S A) (Q : result A -> S -> Prop) : (forall s, P s -> triple (eq s) m Q) -> triple P m Q.
Proof. intros H s fl Hs. by apply (H s Hs). Qed.
Lemma triple_const {A} (P : S -> Prop) (m : M S A) (Q : S -> Prop) : triple P m (fun _ => Q) ->
  triple P m (fun r s => match r with Ok _ => Q s | Err _ => Q s end).
Proof. intros H s fl Hs. specialize (H s fl Hs). by destruct (m (s, fl)).1. Qed.
Lemma triple_run {A} s (m : M S A) (Q : result A -> S -> Prop) : triple (eq s) m Q ->
  triple (eq s) m (fun r s' => Q r s' /\ exists fl fl', m (s, fl) = (r, (s', fl'))).
Proof.
  intros H ? fl <-. specialize (H s fl eq_refl). destruct (m (s, fl)) as [r [s' fl']] eqn:E. cbn in *.
  split; [done|]. by exists fl, fl'.
Qed.
Lemma triple_bind_lift {A B} (P : S -> Prop) (r : result A) (k : A -> M S B) (Q : result B -> S -> Prop) :
  (forall a, r = Ok a -> triple P (k a) Q) -> (forall e s, P s -> Q (Err e) s) -> triple P (bind (lift r) k) Q.
Proof. intros Hk He s fl Hs. destruct r as [a|e]; [by apply (Hk a)|by apply He]. Qed.
Lemma triple_bind_query {A B} b (f : S -> A) msg (k : A -> M S B) (Q : result B -> S -> Prop) :
  triple (eq b) (k (f b)) Q -> (forall e, Q (Err e) b) -> triple (eq b) (bind (or_fail (query f) msg) k) Q.
Proof.
  intros Hk He. eapply triple_bind with (P' := fun a s => a = f b /\ b = s).
  - apply triple_or_fail, triple_query; [by intros ? <-|by intros ? ? <-].
  - intros a s fl [-> <-]. by apply Hk.
Qed.
Lemma triple_within {A} (R : S -> S -> Prop) s (m : M S A) : within R m -> triple (eq s) m (fun _ => R s).
Proof. intros H ? fl <-. apply H. Qed.
End Triples.

(** ** Inverting successful runs *)

Lemma stmt_ok {S A} (f : S -> option (A * S)) s fl a s' fl' :
  stmt f (s, fl) = (Ok a, (s', fl')) -> f s = Some (a, s') /\ fl' = List.tl fl.
Proof. unfold stmt. destruct fl as [|[] fl]; [|done|]; destruct (f s) as [[]|]; try done; intros H; by simplify_eq/=. Qed.

Section Inversion.
Context {S A B : Type}.

Lemma bind_ok (m : M S A) (k : A -> M S B) w b w' :
  bind m k w = (Ok b, w') -> exists a s1 fl1, m w = (Ok a, (s1, fl1)) /\ k a (s1, fl1) = (Ok b, w').
Proof. unfold bind. destruct (m w) as [[a|e] [s1 fl1]]; [|done]. intros H. by exists a, s1, fl1. Qed.

Lemma lift_ok (r : result A) (s : S) fl a s' fl' :
  lift r (s, fl) = (Ok a, (s', fl')) -> r = Ok a /\ s' = s /\ fl' = fl.
Proof. destruct r; cbn; [|done]. by intros [= -> -> ->]. Qed.

Lemma query_ok (f : S -> A) s fl a s' fl' :
  query f (s, fl) = (Ok a, (s', fl')) -> a = f s /\ s' = s /\ fl' = List.tl fl.
Proof. intros [[= -> ->] ->]%stmt_ok. done. Qed.

Lemma exec_ok (f : S -> S) s fl a s' fl' :
  exec f (s, fl) = (Ok a, (s', fl')) -> s' = f s /\ fl' = List.tl fl.
Proof. by intros [[= _ <-] ->]%stmt_ok. Qed.

Lemma exec_opt_ok (f : S -> option S) s fl a s' fl' :
  exec_opt f (s, fl) = (Ok a, (s', fl')) -> f s = Some s' /\ fl' = List.tl fl.
Proof. intros [H ->]%stmt_ok. destruct (f s); [|done]. cbn in H. by injection H as _ ->. Qed.

Lemma or_fail_ok (m : M S A) msg w a w' : or_fail m msg w = (Ok a, w') -> m w = (Ok a, w').
Proof. unfold or_fail. by destruct (m w) as [[] []]. Qed.

Lemma transact_ok (body : M S (A * bool)) s fl a s' fl' :
  transact body (s, fl) = (Ok a, (s', fl')) ->
  exists b s1 fl1, body (s, List.tl fl) = (Ok (a, b), (s1, fl1)) /\ s' = if b then s1 else s.
Proof.
  unfold transact. destruct fl as [|[] fl]; [|done|]; cbn [List.tl].
  all: destruct (body (s, _)) as [[[a1 b]|e] [s1 fl1]]; [|done]; destruct b; [|by intros [= -> -> _]; exists false, s1, fl1].
  all: destruct fl1 as [|[] fl1]; try done; intros [= -> -> _]; by eexists true, _, _.
Qed.
End Inversion.

(** Takes a successful run apart into its statements. *)
Ltac sql_inv :=
  repeat (match goal with
  | H : bind _ _ _ = (Ok _, _) |- _ => apply bind_ok in H as (? & ? & ? & ? & H)
  | H : lift _ (_, _) = (Ok _, _) |- _ => apply lift_ok in H as (? & ? & ?)
  | H : query _ (_, _) = (Ok _, _) |- _ => apply query_ok in H as (? & ? & ?)
  | H : exec _ (_, _) = (Ok _, _) |- _ => apply exec_ok in H as (? & ?)
  | H : exec_opt _ (_, _) = (Ok _, _) |- _ => apply exec_opt_ok in H as (? & ?)
  | H : stmt _ (_, _) = (Ok _, _) |- _ => apply stmt_ok in H as (? & ?)
  | H : or_fail _ _ _ = (Ok _, _) |- _ => apply or_fail_ok in H
  | H : transact _ (_, _) = (Ok _, _) |- _ => apply transact_ok in H as (? & ? & ? & H & ?)
  | H : throw _ _ = (Ok _, _) |- _ => discriminate H
  | H : ret _ _ = (Ok _, _) |- _ => injection H as ? ? ?
  | H : (if ?b then throw _ else _) _ = (Ok _, _) |- _ => let E := fresh "E" in destruct b eqn:E; [discriminate H|]
  | H : (match ?x with Some _ => _ | None => throw _ end) _ = (Ok _, _) |- _ =>
      let E := fresh "E" in destruct x eqn:E; [|discriminate H]
  end; subst; cbn [fst snd] in * ).
