(* ===== verification/FleetDb.v ===== *)
(** The fleet tables: the rows the schema of [internal/store/store.go] declares
    and the program's SQL reads and writes, with the constraints the schema
    puts on them.  A table is the list of its rows in id order; [NULL] is
    [None]; the [INTEGER] booleans are [bool].

    The tables are those of migrations 1, 3-6, 9, 18, 22-24 and 40 that
    monitoring, incidents, sites and the replicated fleet configuration share. *)
From S2P Require Import Prelude GoStr TimeText SqlM.
Open Scope string_scope.
Open Scope Z_scope.
Open Scope wf_scope.

(** ** Rows *)

Record group_row := mk_group {
  g_id : Z; g_org : Z; g_name : string; g_created : Z; g_cluster : option string }.

Record site_row := mk_site {
  s_id : Z; s_org : Z; s_name : string; s_url : string; s_enabled : bool;
  s_group : option Z; s_archived : option Z; s_created : Z; s_updated : Z;
  s_cluster : option string }.

Record monitor_row := mk_monitor {
  m_id : Z; m_site : Z; m_kind : string; m_timeout : Z; m_min : Z; m_max : Z;
  m_created : Z }.

Record check_row := mk_check {
  c_id : Z; c_site : Z; c_monitor : Z; c_ok : bool; c_status : Z; c_latency : Z;
  c_bytes : Z; c_final_url : string; c_class : string; c_error : string;
  c_checked_at : Z }.

Record health_row := mk_health {
  h_site : Z; h_state : string; h_fails : Z; h_last_check : option Z;
  h_last_change : Z; h_last_success : option Z; h_last_failure : option Z }.

Record incident_row := mk_incident {
  i_id : Z; i_site : Z; i_state : string; i_summary : string; i_opened : Z;
  i_closed : option Z; i_acked : option Z }.

Record alert_row := mk_alert {
  a_id : Z; a_incident : Z; a_site : Z; a_transport : string; a_kind : string;
  a_status : string; a_created : Z }.

Record webhook_row := mk_webhook {
  w_id : Z; w_org : Z; w_name : string; w_url : string; w_secret : string;
  w_enabled : bool; w_created : Z }.

(** The JSON object an incident event puts in [payload_json]. *)
Record payload := mk_payload {
  p_site : Z; p_incident : Z; p_state : string; p_summary : string; p_at : Z }.

Record delivery_row := mk_delivery {
  d_id : Z; d_webhook : Z; d_kind : string; d_status : string; d_attempts : Z;
  d_code : Z; d_error : string; d_payload : payload; d_created : Z;
  d_delivered : option Z }.

Record hexp_row := mk_hexp { e_site : Z; e_name : string; e_required : bool }.

Record hobs_row := mk_hobs {
  o_id : Z; o_site : Z; o_check : Z; o_chain : list string;
  o_headers : list (string * string); o_missing : string; o_changed : bool; o_at : Z }.

#[export] Instance group_row_eq_dec : EqDecision group_row.
Proof. solve_decision. Defined.
#[export] Instance site_row_eq_dec : EqDecision site_row.
Proof. solve_decision. Defined.
#[export] Instance monitor_row_eq_dec : EqDecision monitor_row.
Proof. solve_decision. Defined.
#[export] Instance check_row_eq_dec : EqDecision check_row.
Proof. solve_decision. Defined.
#[export] Instance health_row_eq_dec : EqDecision health_row.
Proof. solve_decision. Defined.
#[export] Instance incident_row_eq_dec : EqDecision incident_row.
Proof. solve_decision. Defined.
#[export] Instance alert_row_eq_dec : EqDecision alert_row.
Proof. solve_decision. Defined.
#[export] Instance webhook_row_eq_dec : EqDecision webhook_row.
Proof. solve_decision. Defined.
#[export] Instance payload_eq_dec : EqDecision payload.
Proof. solve_decision. Defined.
#[export] Instance delivery_row_eq_dec : EqDecision delivery_row.
Proof. solve_decision. Defined.
#[export] Instance hexp_row_eq_dec : EqDecision hexp_row.
Proof. solve_decision. Defined.
#[export] Instance hobs_row_eq_dec : EqDecision hobs_row.
Proof. solve_decision. Defined.

Record db := mk_db {
  orgs : list Z;
  groups : list group_row;
  sites : list site_row;
  monitors : list monitor_row;
  checks : list check_row;
  healths : list health_row;
  incidents : list incident_row;
  alerts : list alert_row;
  webhooks : list webhook_row;
  deliveries : list delivery_row;
  hexp : list hexp_row;
  hobs : list hobs_row;
  tags : list (Z * string);
  meta : list (string * string) }.

Definition set_orgs (v : list Z) (d : db) : db :=
  mk_db v (d.(groups)) (d.(sites)) (d.(monitors)) (d.(checks)) (d.(healths)) (d.(incidents)) (d.(alerts)) (d.(webhooks)) (d.(deliveries)) (d.(hexp)) (d.(hobs)) (d.(tags)) (d.(meta)).
Definition set_groups (v : list group_row) (d : db) : db :=
  mk_db (d.(orgs)) v (d.(sites)) (d.(monitors)) (d.(checks)) (d.(healths)) (d.(incidents)) (d.(alerts)) (d.(webhooks)) (d.(deliveries)) (d.(hexp)) (d.(hobs)) (d.(tags)) (d.(meta)).
Definition set_sites (v : list site_row) (d : db) : db :=
  mk_db (d.(orgs)) (d.(groups)) v (d.(monitors)) (d.(checks)) (d.(healths)) (d.(incidents)) (d.(alerts)) (d.(webhooks)) (d.(deliveries)) (d.(hexp)) (d.(hobs)) (d.(tags)) (d.(meta)).
Definition set_monitors (v : list monitor_row) (d : db) : db :=
  mk_db (d.(orgs)) (d.(groups)) (d.(sites)) v (d.(checks)) (d.(healths)) (d.(incidents)) (d.(alerts)) (d.(webhooks)) (d.(deliveries)) (d.(hexp)) (d.(hobs)) (d.(tags)) (d.(meta)).
Definition set_checks (v : list check_row) (d : db) : db :=
  mk_db (d.(orgs)) (d.(groups)) (d.(sites)) (d.(monitors)) v (d.(healths)) (d.(incidents)) (d.(alerts)) (d.(webhooks)) (d.(deliveries)) (d.(hexp)) (d.(hobs)) (d.(tags)) (d.(meta)).
Definition set_healths (v : list health_row) (d : db) : db :=
  mk_db (d.(orgs)) (d.(groups)) (d.(sites)) (d.(monitors)) (d.(checks)) v (d.(incidents)) (d.(alerts)) (d.(webhooks)) (d.(deliveries)) (d.(hexp)) (d.(hobs)) (d.(tags)) (d.(meta)).
Definition set_incidents (v : list incident_row) (d : db) : db :=
  mk_db (d.(orgs)) (d.(groups)) (d.(sites)) (d.(monitors)) (d.(checks)) (d.(healths)) v (d.(alerts)) (d.(webhooks)) (d.(deliveries)) (d.(hexp)) (d.(hobs)) (d.(tags)) (d.(meta)).
Definition set_alerts (v : list alert_row) (d : db) : db :=
  mk_db (d.(orgs)) (d.(groups)) (d.(sites)) (d.(monitors)) (d.(checks)) (d.(healths)) (d.(incidents)) v (d.(webhooks)) (d.(deliveries)) (d.(hexp)) (d.(hobs)) (d.(tags)) (d.(meta)).
Definition set_webhooks (v : list webhook_row) (d : db) : db :=
  mk_db (d.(orgs)) (d.(groups)) (d.(sites)) (d.(monitors)) (d.(checks)) (d.(healths)) (d.(incidents)) (d.(alerts)) v (d.(deliveries)) (d.(hexp)) (d.(hobs)) (d.(tags)) (d.(meta)).
Definition set_deliveries (v : list delivery_row) (d : db) : db :=
  mk_db (d.(orgs)) (d.(groups)) (d.(sites)) (d.(monitors)) (d.(checks)) (d.(healths)) (d.(incidents)) (d.(alerts)) (d.(webhooks)) v (d.(hexp)) (d.(hobs)) (d.(tags)) (d.(meta)).
Definition set_hexp (v : list hexp_row) (d : db) : db :=
  mk_db (d.(orgs)) (d.(groups)) (d.(sites)) (d.(monitors)) (d.(checks)) (d.(healths)) (d.(incidents)) (d.(alerts)) (d.(webhooks)) (d.(deliveries)) v (d.(hobs)) (d.(tags)) (d.(meta)).
Definition set_hobs (v : list hobs_row) (d : db) : db :=
  mk_db (d.(orgs)) (d.(groups)) (d.(sites)) (d.(monitors)) (d.(checks)) (d.(healths)) (d.(incidents)) (d.(alerts)) (d.(webhooks)) (d.(deliveries)) (d.(hexp)) v (d.(tags)) (d.(meta)).
Definition set_tags (v : list (Z * string)) (d : db) : db :=
  mk_db (d.(orgs)) (d.(groups)) (d.(sites)) (d.(monitors)) (d.(checks)) (d.(healths)) (d.(incidents)) (d.(alerts)) (d.(webhooks)) (d.(deliveries)) (d.(hexp)) (d.(hobs)) v (d.(meta)).
Definition set_meta (v : list (string * string)) (d : db) : db :=
  mk_db (d.(orgs)) (d.(groups)) (d.(sites)) (d.(monitors)) (d.(checks)) (d.(healths)) (d.(incidents)) (d.(alerts)) (d.(webhooks)) (d.(deliveries)) (d.(hexp)) (d.(hobs)) (d.(tags)) v.

Definition empty_db : db := mk_db [] [] [] [] [] [] [] [] [] [] [] [] [] [].

#[export] Instance db_eq_dec : EqDecision db.
Proof. solve_decision. Defined.

(** ** Statements shared by several services *)

Definition opt_eqb (o : option string) (s : string) : bool :=
  match o with Some x => x =?s s | None => false end.

Definition org_exists (o : Z) (d : db) : bool := Zmem o d.(orgs).
Definition site_by_id (id : Z) (d : db) : option site_row :=
  find_first (fun s => s.(s_id) =? id) d.(sites).
Definition group_by_id (id : Z) (d : db) : option group_row :=
  find_first (fun g => g.(g_id) =? id) d.(groups).
Definition site_by_cluster (c : string) (d : db) : option site_row :=
  find_first (fun s => opt_eqb s.(s_cluster) c) d.(sites).
Definition group_by_cluster (c : string) (d : db) : option group_row :=
  find_first (fun g => opt_eqb g.(g_cluster) c) d.(groups).
Definition group_by_name (org : Z) (n : string) (d : db) : option group_row :=
  find_first (fun g => (g.(g_org) =? org) && (g.(g_name) =?s n)) d.(groups).
Definition site_exists (id : Z) (d : db) : bool :=
  match site_by_id id d with Some _ => true | None => false end.
Definition group_ref_ok (g : option Z) (d : db) : bool :=
  match g with
  | None => true
  | Some id => match group_by_id id d with Some _ => true | None => false end
  end.

Lemma site_exists_In d s : In s d.(sites) -> site_exists s.(s_id) d = true.
Proof.
  intros Hs. unfold site_exists, site_by_id. destruct (find_first _ _) eqn:E; [done|].
  pose proof (proj1 (find_first_None _ _) E s Hs) as H. cbn in H. by rewrite Z.eqb_refl in H.
Qed.

(** [INSERT INTO groups ... RETURNING id]: the organization exists, the name is
    unique in it and the cluster id is unique. *)
Definition insert_group (org : Z) (name : string) (created : Z) (cid : option string)
    (d : db) : option (Z * db) :=
  let id := fresh_id (List.map g_id d.(groups)) in
  if org_exists org d
     && match group_by_name org name d with Some _ => false | None => true end
     && match cid with
        | Some c => match group_by_cluster c d with Some _ => false | None => true end
        | None => true
        end
  then Some (id, set_groups (d.(groups) ++ [mk_group id org name created cid]) d)
  else None.

(** [INSERT INTO sites ... RETURNING id]. *)
Definition insert_site (org : Z) (name url : string) (enabled : bool) (grp archived : option Z)
    (created updated : Z) (cid : option string) (d : db) : option (Z * db) :=
  let id := fresh_id (List.map s_id d.(sites)) in
  if org_exists org d && group_ref_ok grp d
     && match cid with
        | Some c => match site_by_cluster c d with Some _ => false | None => true end
        | None => true
        end
  then Some (id, set_sites (d.(sites)
                   ++ [mk_site id org name url enabled grp archived created updated cid]) d)
  else None.

(** [INSERT INTO monitors(site_id,kind,...)], unique on (site, kind). *)
Definition insert_monitor (site : Z) (kind : string) (timeout mn mx created : Z)
    (d : db) : option (unit * db) :=
  if site_exists site d
     && negb (existsb (fun m => (m.(m_site) =? site) && (m.(m_kind) =?s kind)) d.(monitors))
  then Some (tt, set_monitors (d.(monitors)
         ++ [mk_monitor (fresh_id (List.map m_id d.(monitors))) site kind timeout mn mx created]) d)
  else None.

(** [INSERT INTO site_health(site_id,state,last_change_at)]. *)
Definition insert_health (h : health_row) (d : db) : option (unit * db) :=
  if site_exists h.(h_site) d
     && negb (existsb (fun x => x.(h_site) =? h.(h_site)) d.(healths))
  then Some (tt, set_healths (d.(healths) ++ [h]) d)
  else None.

(** [INSERT INTO header_expectations(site_id,name,required)], unique. *)
Definition insert_hexp (e : hexp_row) (d : db) : option (unit * db) :=
  if site_exists e.(e_site) d
     && negb (existsb (fun x => (x.(e_site) =? e.(e_site)) && (x.(e_name) =?s e.(e_name)))
                d.(hexp))
  then Some (tt, set_hexp (d.(hexp) ++ [e]) d)
  else None.

(** [INSERT INTO site_tags(site_id,tag)], primary key (site, tag). *)
Definition insert_tag (site : Z) (tag : string) (d : db) : option (unit * db) :=
  if site_exists site d
     && negb (existsb (fun t => (t.1 =? site) && (t.2 =?s tag)) d.(tags))
  then Some (tt, set_tags (d.(tags) ++ [(site, tag)]) d)
  else None.

(** [DELETE FROM sites WHERE p] with the [ON DELETE CASCADE]s of the schema. *)
Definition delete_sites (p : site_row -> bool) (d : db) : db :=
  let gone := List.map s_id (List.filter p d.(sites)) in
  let keep {A} (f : A -> Z) (l : list A) := del (fun x => Zmem (f x) gone) l in
  set_tags (keep fst d.(tags))
  (set_hobs (keep o_site d.(hobs))
  (set_hexp (keep e_site d.(hexp))
  (set_alerts (keep a_site d.(alerts))
  (set_incidents (keep i_site d.(incidents))
  (set_healths (keep h_site d.(healths))
  (set_checks (keep c_site d.(checks))
  (set_monitors (keep m_site d.(monitors))
  (set_sites (del p d.(sites)) d)))))))).

(** [DELETE FROM groups WHERE p]; [sites.group_id] is [ON DELETE SET NULL]. *)
Definition delete_groups (p : group_row -> bool) (d : db) : db :=
  let gone := List.map g_id (List.filter p d.(groups)) in
  let unlink (s : site_row) : site_row :=
    mk_site s.(s_id) s.(s_org) s.(s_name) s.(s_url) s.(s_enabled) None s.(s_archived)
            s.(s_created) s.(s_updated) s.(s_cluster) in
  set_sites (upd (fun s => match s.(s_group) with Some g => Zmem g gone | None => false end)
                 unlink d.(sites))
  (set_groups (del p d.(groups)) d).

(** [DELETE FROM check_results WHERE p]: observations of the checks go with
    them, and the health rows forget them. *)
Definition delete_checks (p : check_row -> bool) (d : db) : db :=
  let gone := List.map c_id (List.filter p d.(checks)) in
  let forget (h : health_row) : health_row :=
    mk_health h.(h_site) h.(h_state) h.(h_fails) None h.(h_last_change) h.(h_last_success) h.(h_last_failure) in
  set_healths (upd (fun h => match h.(h_last_check) with Some c => Zmem c gone | None => false end) forget d.(healths))
  (set_hobs (del (fun o => Zmem o.(o_check) gone) d.(hobs))
  (set_checks (del p d.(checks)) d)).

(** [DELETE FROM monitors WHERE p]: their checks go with them. *)
Definition delete_monitors (p : monitor_row -> bool) (d : db) : db :=
  let gone := List.map m_id (List.filter p d.(monitors)) in
  set_monitors (del p d.(monitors)) (delete_checks (fun c => Zmem c.(c_monitor) gone) d).

(** The rows every new site gets: its monitor, its health and the expected
    headers. *)
Definition default_headers : list string :=
  ["Content-Security-Policy"; "Strict-Transport-Security"; "X-Content-Type-Options";
   "Referrer-Policy"].

(** ** A small fleet, for the examples *)

Definition demo_db : db :=
  set_orgs [1; 2]
  (set_sites [mk_site 1 1 "shop" "https://shop.example/" true None None 0 0 None;
              mk_site 2 2 "blog" "https://blog.example/" true None None 0 0 None]
  (set_monitors [mk_monitor 1 1 "http" 10000 200 399 0; mk_monitor 2 2 "http" 10000 200 399 0]
  (set_healths [mk_health 1 "unknown" 0 None 0 None None; mk_health 2 "unknown" 0 None 0 None None]
  (set_webhooks [mk_webhook 1 1 "ops" "https://hook.example/" "k" true 0;
                 mk_webhook 2 2 "other" "https://other.example/" "k" true 0;
                 mk_webhook 3 1 "off" "https://off.example/" "k" false 0] empty_db)))).
