(* ===== verification/Incidents.v ===== *)
(** Incidents ([internal/incidents/incidents.go]): the transition that a health
    change applies, its in-app alert and webhook outbox rows, acknowledgement
    and listing. *)
From S2P Require Import Prelude GoStr TimeText SqlM FleetDb.
Open Scope string_scope.
Open Scope Z_scope.
Open Scope wf_scope.
Open Scope sql_scope.

(** ** Definitions *)

Definition is_open (site : Z) (i : incident_row) : bool :=
  (i.(i_site) =? site) && match i.(i_closed) with None => true | Some _ => false end.

(** [SELECT id ... WHERE site_id=? AND closed_at IS NULL ORDER BY id DESC LIMIT 1];
    0 when there is none. *)
Definition openID (site : Z) : M db Z :=
  query (fun d => match find_last (is_open site) d.(incidents) with
                  | Some i => i.(i_id)
                  | None => 0
                  end).

Definition with_state (st : string) (closed : option Z) (i : incident_row) : incident_row :=
  mk_incident i.(i_id) i.(i_site) st i.(i_summary) i.(i_opened) closed i.(i_acked).

(** [INSERT INTO incidents(...) RETURNING id]. *)
Definition insert_incident (site : Z) (st summary : string) (at_ : Z) (d : db) : option (Z * db) :=
  let id := fresh_id (List.map i_id d.(incidents)) in
  if site_exists site d
  then Some (id, set_incidents (d.(incidents)
                   ++ [mk_incident id site st summary at_ None None]) d)
  else None.

(** [INSERT INTO alert_deliveries ...]; the incident and the site exist. *)
Definition insert_alert (inc site : Z) (kind : string) (at_ : Z) (d : db) : option (unit * db) :=
  if existsb (fun i => i.(i_id) =? inc) d.(incidents) && site_exists site d
  then Some (tt, set_alerts (d.(alerts)
         ++ [mk_alert (fresh_id (List.map a_id d.(alerts))) inc site "in_app" kind "delivered" at_]) d)
  else None.

Definition recordDelivery (inc site : Z) (kind : string) (at_ : Z) : M db unit :=
  stmt (insert_alert inc site kind at_).

(** The webhooks [enqueueWebhooks] selects: enabled, and of the organization
    of the persisted site. *)
Definition webhooks_for (site : Z) (d : db) : list webhook_row :=
  match site_by_id site d with
  | Some s => List.filter (fun w => w.(w_enabled) && (w.(w_org) =? s.(s_org))) d.(webhooks)
  | None => []
  end.

Fixpoint enqueue_rows (ws : list webhook_row) (next : Z) (kind : string) (p : payload)
    (at_ : Z) : list delivery_row :=
  match ws with
  | [] => []
  | w :: ws' => mk_delivery next w.(w_id) kind "pending" 0 0 "" p at_ None
                :: enqueue_rows ws' (next + 1) kind p at_
  end.

Definition enqueueWebhooks (site inc : Z) (kind st summary : string) (at_ : Z) : M db unit :=
  exec (fun d => set_deliveries (d.(deliveries)
    ++ enqueue_rows (webhooks_for site d) (fresh_id (List.map d_id d.(deliveries))) kind
         (mk_payload site inc st summary at_) at_) d).

Definition opened_summary (next : string) : string := "Website entered " ++ next ++ " state".

Definition transition_body (site : Z) (next : string) (at_ : Z) : M db (unit * bool) :=
  let* id := openID site in
  if next =?s "healthy" then
    if id =? 0 then ret (tt, true) else
    exec (fun d => set_incidents (upd (fun i => i.(i_id) =? id)
                     (with_state "resolved" (Some at_)) d.(incidents)) d) ;;;
    recordDelivery id site "recovery" at_ ;;;
    enqueueWebhooks site id "incident.recover" "resolved" "Website recovered" at_ ;;;
    ret (tt, true)
  else if 0 <? id then
    exec (fun d => set_incidents (upd (fun i => i.(i_id) =? id)
                     (fun i => with_state next i.(i_closed) i) d.(incidents)) d) ;;;
    ret (tt, true)
  else
    let* id' := stmt (insert_incident site next (opened_summary next) at_) in
    recordDelivery id' site "open" at_ ;;;
    enqueueWebhooks site id' "incident.open" next (opened_summary next) at_ ;;;
    ret (tt, true).

(** [Service.Transition]. *)
Definition Transition (site : Z) (prev next : string) (at_ : Z) : M db unit :=
  if (next =?s prev) || (next =?s "unknown") then ret tt
  else transact (transition_body site next at_).

(** [Service.Acknowledge]. *)
Definition Acknowledge (org id at_ : Z) : M db unit :=
  let* n := or_fail (query (fun d => List.filter (fun i => (i.(i_id) =? id) &&
              match site_by_id i.(i_site) d with
              | Some s => s.(s_org) =? org
              | None => false
              end) d.(incidents))) "incident not found" in
  match n with
  | [] => throw "incident not found"
  | _ => exec (fun d => set_incidents (upd (fun i => i.(i_id) =? id)
           (fun i => mk_incident i.(i_id) i.(i_site) i.(i_state) i.(i_summary) i.(i_opened)
                       i.(i_closed) (Some at_)) d.(incidents)) d)
  end.

(** [Service.List]: the site's newest hundred incidents, newest first. *)
Definition List_ (site : Z) : M db (list incident_row) :=
  query (fun d => take 100 (rev (List.filter (fun i => i.(i_site) =? site) d.(incidents)))).

Definition NormalizeState (s : string) : string := to_lower (trim_space s).

(** ** The promise to the caller *)

(** What the rest of the program sees of a site's incidents: the state of the
    open one, if any. *)
Definition incident_view (site : Z) (d : db) : option string :=
  i_state <$> find_last (is_open site) d.(incidents).

Inductive notice := NOpen (state : string) | NRecover.

(** The lifecycle: an incident opens on the first unhealthy state, changes
    state silently while open, and closes on health. *)
Definition lifecycle (o : option string) (next : string) : option string * option notice :=
  if next =?s "healthy" then
    (None, match o with Some _ => Some NRecover | None => None end)
  else match o with
       | Some _ => (Some next, None)
       | None => (Some next, Some (NOpen next))
       end.

Definition notice_kind (n : notice) : string :=
  match n with NOpen _ => "incident.open" | NRecover => "incident.recover" end.

(** Incident ids are positive and distinct and a site has at most one open
    incident. *)
Record incidents_wf (d : db) : Prop := {
  iw_nodup : NoDup (List.map i_id d.(incidents));
  iw_pos : forall i, In i d.(incidents) -> 0 < i.(i_id);
  iw_one_open : forall site i j, In i d.(incidents) -> In j d.(incidents) ->
    is_open site i = true -> is_open site j = true -> i = j }.

(** ** Lemmas *)

Lemma transition_body_honest site next at_ : honest (transition_body site next at_).
Proof. unfold transition_body, openID, recordDelivery, enqueueWebhooks. solve_honest. Qed.

Lemma site_exists_set_incidents site v d :
  site_exists site (set_incidents v d) = site_exists site d.
Proof. reflexivity. Qed.

Lemma nodup_id_inj d i j : incidents_wf d -> In i d.(incidents) -> In j d.(incidents) ->
  i.(i_id) = j.(i_id) -> i = j.
Proof.
  intros W Hi Hj E. pose proof (iw_nodup d W) as N. revert N Hi Hj.
  induction (d.(incidents)) as [|a l IH]; [done|].
  cbn. rewrite NoDup_cons. intros [Hn N] [->|Hi] [->|Hj]; auto; exfalso; apply Hn;
    rewrite list_elem_of_In, in_map_iff; eauto.
Qed.

Lemma find_last_map {A} (p q : A -> bool) (f : A -> A) l :
  (forall x, In x l -> q (f x) = p x) -> find_last q (List.map f l) = f <$> find_last p l.
Proof.
  induction l as [|a l IH] using rev_ind; [done|]. intros H.
  rewrite List.map_app. cbn [List.map]. rewrite !find_last_app, H by (apply in_or_app; cbn; auto).
  destruct (p a); [done|]. apply IH. intros x Hx. apply H, in_or_app. by left.
Qed.

(** The row [openID] finds, with the id it returns. *)
Lemma openID_run site d : openID site (d, []) =
  (Ok (match find_last (is_open site) d.(incidents) with Some i => i.(i_id) | None => 0 end), (d, [])).
Proof. reflexivity. Qed.

Lemma open_id_pos d site i :
  incidents_wf d -> find_last (is_open site) d.(incidents) = Some i -> 0 < i.(i_id).
Proof. intros W H. apply find_last_Some in H as [H _]. by apply (iw_pos d W). Qed.

Lemma existsb_id_upd (f : incident_row -> incident_row) (p : incident_row -> bool) l i :
  (forall x, (f x).(i_id) = x.(i_id)) -> In i l ->
  existsb (fun x => x.(i_id) =? i.(i_id)) (upd p f l) = true.
Proof.
  intros Hf Hi. apply existsb_exists. exists (if p i then f i else i). split.
  - apply in_upd. eauto.
  - destruct (p i); rewrite ?Hf; apply Z.eqb_refl.
Qed.

(** The three effects of a transition, as the tables it leaves. *)
Definition resolved_db (i : incident_row) (site at_ : Z) (d : db) : db :=
  let d1 := set_incidents (upd (fun x => x.(i_id) =? i.(i_id))
              (with_state "resolved" (Some at_)) d.(incidents)) d in
  let d2 := set_alerts (d.(alerts) ++ [mk_alert (fresh_id (List.map a_id d.(alerts))) i.(i_id)
              site "in_app" "recovery" "delivered" at_]) d1 in
  set_deliveries (d.(deliveries) ++ enqueue_rows (webhooks_for site d)
    (fresh_id (List.map d_id d.(deliveries))) "incident.recover"
    (mk_payload site i.(i_id) "resolved" "Website recovered" at_) at_) d2.

Definition escalated_db (i : incident_row) (next : string) (d : db) : db :=
  set_incidents (upd (fun x => x.(i_id) =? i.(i_id))
                   (fun x => with_state next x.(i_closed) x) d.(incidents)) d.

Definition opened_db (site : Z) (next : string) (at_ : Z) (d : db) : db :=
  let id := fresh_id (List.map i_id d.(incidents)) in
  let d1 := set_incidents (d.(incidents)
              ++ [mk_incident id site next (opened_summary next) at_ None None]) d in
  let d2 := set_alerts (d.(alerts) ++ [mk_alert (fresh_id (List.map a_id d.(alerts))) id
              site "in_app" "open" "delivered" at_]) d1 in
  set_deliveries (d.(deliveries) ++ enqueue_rows (webhooks_for site d)
    (fresh_id (List.map d_id d.(deliveries))) "incident.open"
    (mk_payload site id next (opened_summary next) at_) at_) d2.

Definition transition_db (site : Z) (next : string) (at_ : Z) (d : db) : db :=
  match find_last (is_open site) d.(incidents) with
  | Some i => if next =?s "healthy" then resolved_db i site at_ d else escalated_db i next d
  | None => if next =?s "healthy" then d else opened_db site next at_ d
  end.

Lemma transition_nil site prev next at_ d :
  incidents_wf d -> site_exists site d = true ->
  Transition site prev next at_ (d, []) =
  (Ok tt, (if (next =?s prev) || (next =?s "unknown") then d else transition_db site next at_ d, [])).
Proof.
  intros W Hs. unfold Transition, transact, transition_db.
  destruct ((next =?s prev) || (next =?s "unknown")); [done|]. cbn [List.tl].
  unfold transition_body, bind at 1. rewrite openID_run.
  destruct (find_last (is_open site) (incidents d)) as [i|] eqn:E.
  - pose proof (open_id_pos _ _ _ W E) as Hp. apply find_last_Some in E as [Hi _].
    destruct (next =?s "healthy").
    + destruct (Z.eqb_spec (i_id i) 0) as [?|_]; [lia|].
      unfold bind, exec, recordDelivery, stmt, insert_alert; cbn -[existsb site_exists].
      rewrite existsb_id_upd, !site_exists_set_incidents, Hs by done. reflexivity.
    + apply Z.ltb_lt in Hp as ->. reflexivity.
  - destruct (next =?s "healthy"); [done|]. cbn [Z.ltb].
    unfold bind, recordDelivery, stmt, insert_incident, insert_alert.
    cbn -[existsb site_exists]. rewrite Hs.
    cbn -[existsb site_exists]. rewrite existsb_app, !site_exists_set_incidents, Hs. cbn. rewrite Z.eqb_refl, orb_true_r.
    reflexivity.
Qed.

Lemma is_open_site site i : is_open site i = true -> i.(i_site) = site.
Proof. unfold is_open. intros H. bool_to_prop. done. Qed.

(** Updating the one open incident [i] of [site]: how each row looks after. *)
Lemma upd_row d i (f : incident_row -> incident_row) x :
  incidents_wf d -> In i d.(incidents) -> In x d.(incidents) ->
  (if x.(i_id) =? i.(i_id) then f x else x) = if decide (x = i) then f i else x.
Proof.
  intros W Hi Hx. case_decide as Hd.
  - by rewrite Hd, Z.eqb_refl.
  - destruct (Z.eqb_spec x.(i_id) i.(i_id)) as [E|]; [|done].
    destruct Hd. by apply (nodup_id_inj d).
Qed.

Lemma escalate_view d site i next other :
  incidents_wf d -> find_last (is_open site) d.(incidents) = Some i ->
  incident_view other (escalated_db i next d) =
  if decide (other = site) then Some next else incident_view other d.
Proof.
  intros W E. pose proof (find_last_Some _ _ _ E) as [Hi Ho].
  unfold incident_view, escalated_db; cbn [incidents set_incidents].
  unfold upd. rewrite (find_last_map (is_open other)) by (intros x Hx; by case_match).
  case_decide as Hd; [subst other; rewrite E; cbn; by rewrite Z.eqb_refl|].
  destruct (find_last (is_open other) (incidents d)) as [j|] eqn:Ej; [|done].
  apply find_last_Some in Ej as [Hj Hjo]. cbn. rewrite (upd_row d) by done.
  rewrite decide_False; [done|]. intros ->. apply is_open_site in Ho, Hjo. congruence.
Qed.

Lemma resolve_view d site i at_ other :
  incidents_wf d -> find_last (is_open site) d.(incidents) = Some i ->
  incident_view other (resolved_db i site at_ d) =
  if decide (other = site) then None else incident_view other d.
Proof.
  intros W E. pose proof (find_last_Some _ _ _ E) as [Hi Ho].
  unfold incident_view, resolved_db; cbn [incidents set_incidents set_alerts set_deliveries].
  case_decide as Hd.
  - subst other.
    rewrite (proj2 (find_last_None _ _)); [done|]. intros y Hy.
    apply in_upd in Hy as (x & Hx & ->). rewrite (upd_row d) by done.
    case_decide as Hxi; [by unfold is_open; cbn; rewrite andb_false_r|].
    destruct (is_open site x) eqn:Eo; [|done]. by destruct Hxi; eapply (iw_one_open d W).
  - assert (Hoi : is_open other i = false).
    { unfold is_open. apply is_open_site in Ho. by destruct (Z.eqb_spec (i_site i) other); [congruence|]. }
    unfold upd. rewrite (find_last_map (is_open other)).
    + destruct (find_last (is_open other) (incidents d)) as [j|] eqn:Ej; [|done].
      apply find_last_Some in Ej as [Hj Hjo]. cbn. rewrite (upd_row d) by done.
      rewrite decide_False; [done|]. intros ->. congruence.
    + intros x Hx. rewrite (upd_row d) by done. case_decide; [|done]. subst x. rewrite Hoi.
      unfold is_open in *; cbn. by rewrite andb_false_r.
Qed.

Lemma open_view d site next at_ other :
  find_last (is_open site) d.(incidents) = None ->
  incident_view other (opened_db site next at_ d) =
  if decide (other = site) then Some next else incident_view other d.
Proof.
  intros E. unfold incident_view, opened_db; cbn [incidents set_incidents set_alerts set_deliveries].
  rewrite find_last_app. unfold is_open at 1; cbn. case_decide as Hd.
  - subst. by rewrite Z.eqb_refl.
  - by destruct (Z.eqb_spec site other); [congruence|].
Qed.

Lemma upd_wf d i (f : incident_row -> incident_row) :
  incidents_wf d ->
  (forall x, (f x).(i_id) = x.(i_id)) ->
  (forall site x, is_open site (f x) = true -> is_open site x = true) ->
  incidents_wf (set_incidents (upd (fun x => x.(i_id) =? i.(i_id)) f d.(incidents)) d).
Proof.
  intros W Hid Hop. set (g := fun x : incident_row => if i_id x =? i_id i then f x else x).
  assert (Hgid : forall x, (g x).(i_id) = x.(i_id)) by (intros x; unfold g; case_match; auto).
  assert (Hgop : forall site x, is_open site (g x) = true -> is_open site x = true)
    by (intros site x; unfold g; case_match; auto).
  split; cbn; unfold upd; fold g.
  - rewrite List.map_map. erewrite map_ext; [apply (iw_nodup d W)|done].
  - intros x Hx. apply in_map_iff in Hx as (y & <- & Hy). rewrite Hgid. by apply (iw_pos d W).
  - intros site x y Hx Hy Ox Oy. apply in_map_iff in Hx as (x0 & <- & Hx0), Hy as (y0 & <- & Hy0).
    f_equal. eapply (iw_one_open d W); eauto.
Qed.

Lemma open_wf d site next at_ :
  incidents_wf d -> find_last (is_open site) d.(incidents) = None ->
  incidents_wf (opened_db site next at_ d).
Proof.
  intros W E. rewrite find_last_None in E.
  split; cbn [incidents opened_db set_incidents set_alerts set_deliveries].
  - rewrite List.map_app; cbn. apply NoDup_app. split_and!; [apply (iw_nodup d W)| |apply NoDup_singleton].
    intros x Hx Hn. apply list_elem_of_singleton in Hn as ->. apply list_elem_of_In in Hx.
    by apply fresh_id_notin in Hx.
  - intros i Hi. apply in_app_or in Hi as [Hi|[<-|[]]]; [by apply (iw_pos d W)|]. apply fresh_id_pos.
  - intros s i j Hi Hj Oi Oj. apply in_app_or in Hi as [Hi|[<-|[]]], Hj as [Hj|[<-|[]]]; [|..|done].
    + by eapply (iw_one_open d W).
    + apply is_open_site in Oj; cbn in Oj; subst s. by rewrite E in Oi.
    + apply is_open_site in Oi; cbn in Oi; subst s. by rewrite E in Oj.
Qed.

Lemma transition_db_wf site next at_ d :
  incidents_wf d -> incidents_wf (transition_db site next at_ d).
Proof.
  intros W. unfold transition_db.
  destruct (find_last (is_open site) (incidents d)) as [i|] eqn:E; destruct (next =?s "healthy").
  - assert (W' : incidents_wf (set_incidents (upd (fun x => i_id x =? i_id i)
      (with_state "resolved" (Some at_)) (incidents d)) d)).
    { apply upd_wf; [done|done|]. intros s x. unfold is_open; cbn. by rewrite andb_false_r. }
    by destruct W'; split.
  - apply upd_wf; [done|done|]. intros s x. by unfold is_open; cbn.
  - done.
  - by apply open_wf.
Qed.

Lemma enqueue_rows_webhooks ws n k p t : List.map d_webhook (enqueue_rows ws n k p t) = List.map w_id ws.
Proof. revert n. induction ws as [|w ws IH]; intros n; cbn; [done|by rewrite IH]. Qed.

Lemma enqueue_rows_in ws n k p t r : In r (enqueue_rows ws n k p t) ->
  In r.(d_webhook) (List.map w_id ws) /\ r.(d_kind) = k /\ r.(d_status) = "pending" /\ r.(d_payload) = p.
Proof.
  revert n. induction ws as [|w ws IH]; intros n; cbn; [done|].
  intros [<-|H]; [cbn; auto|]. destruct (IH _ H) as (? & ? & ? & ?). auto.
Qed.

Lemma transition_run site prev next at_ d :
  incidents_wf d -> site_exists site d = true ->
  run (Transition site prev next at_) d =
  (Ok tt, if (next =?s prev) || (next =?s "unknown") then d else transition_db site next at_ d).
Proof. intros W Hs. unfold run. by rewrite transition_nil. Qed.

(** What one transition does to the tables. *)
Lemma transition_step site next at_ d :
  incidents_wf d ->
  let d' := transition_db site next at_ d in
  let '(view, note) := lifecycle (incident_view site d) next in
  (forall other, incident_view other d' = if decide (other = site) then view
                                          else incident_view other d) /\
  exists rows, d'.(deliveries) = (d.(deliveries) ++ rows)%list /\
    List.map d_webhook rows =
      match note with Some _ => List.map w_id (webhooks_for site d) | None => [] end /\
    forall row, In row rows -> row.(d_status) = "pending" /\ Some row.(d_kind) = notice_kind <$> note.
Proof.
  intros W. unfold transition_db, lifecycle.
  change (incident_view site d) with (i_state <$> find_last (is_open site) (incidents d)).
  destruct (find_last (is_open site) (incidents d)) as [i|] eqn:E; destruct (next =?s "healthy"); cbn [fmap option_fmap option_map].
  - split; [intros o; by apply resolve_view|]. eexists; split_and!; [done|apply enqueue_rows_webhooks|].
    intros row H. apply enqueue_rows_in in H as (? & -> & -> & ?). done.
  - split; [intros o; by apply escalate_view|]. exists []. by rewrite app_nil_r.
  - split; [|exists []; by rewrite app_nil_r]. intros o. unfold incident_view.
    case_decide; [subst; by rewrite E|done].
  - split; [intros o; by apply open_view|]. eexists; split_and!; [done|apply enqueue_rows_webhooks|].
    intros row H. apply enqueue_rows_in in H as (? & -> & -> & ?). done.
Qed.

(** A transition writes incidents, alerts and deliveries only. *)
Lemma transition_frame site next at_ d :
  let d' := transition_db site next at_ d in
  d'.(sites) = d.(sites) /\ d'.(webhooks) = d.(webhooks) /\ d'.(healths) = d.(healths).
Proof. unfold transition_db. repeat case_match; done. Qed.

(** ** Properties *)

(** C2: a health change drives the incidents of its site through the promised
    lifecycle: on a well-formed store, whatever the tables hold, the open
    incident of the site afterwards is the one the lifecycle prescribes, no
    other site's incident moves, and the outbox gains exactly one pending row
    for each enabled webhook of the site's organization when the incident opens
    or closes, and none when it only changes state. *)
Theorem transition_refines_lifecycle site prev next at_ d :
  incidents_wf d -> site_exists site d = true -> next <> prev -> next <> "unknown" ->
  let '(r, d') := run (Transition site prev next at_) d in
  let '(view, note) := lifecycle (incident_view site d) next in
  r = Ok tt /\
  (forall other, incident_view other d' = if decide (other = site) then view
                                          else incident_view other d) /\
  exists rows, d'.(deliveries) = (d.(deliveries) ++ rows)%list /\
    List.map d_webhook rows =
      match note with Some _ => List.map w_id (webhooks_for site d) | None => [] end /\
    forall row, In row rows -> row.(d_status) = "pending" /\ Some row.(d_kind) = notice_kind <$> note.
Proof.
  intros W Hs Hp Hu. rewrite transition_run by done.
  apply String.eqb_neq in Hp as ->. apply String.eqb_neq in Hu as ->. cbn [orb].
  pose proof (transition_step site next at_ d W) as H. cbv zeta in H.
  destruct (lifecycle _ _). by destruct H.
Qed.

(** Incident, alert and outbox work commit together: whatever statements the
    database refuses, a transition that reports an error leaves every table as
    it was and one that succeeds is the fault-free transition; and the store
    stays well formed (positive distinct ids, one open incident per site). *)
Theorem transition_atomic_and_wf site prev next at_ d fl :
  incidents_wf d -> site_exists site d = true ->
  let '(r, (d', _)) := Transition site prev next at_ (d, fl) in
  incidents_wf d' /\
  match r with
  | Ok _ => run (Transition site prev next at_) d = (Ok tt, d')
  | Err _ => d' = d
  end.
Proof.
  intros W Hs. pose proof (transition_run site prev next at_ d W Hs) as R.
  unfold Transition in *. destruct ((next =?s prev) || (next =?s "unknown")); [done|].
  pose proof (transact_all_or_nothing _ d fl (transition_body_honest site next at_)) as H.
  destruct (transact _ (d, fl)) as [[[]|e] [d' fl']]; [|by subst].
  rewrite R in H. injection H as <-. split; [|done]. by apply transition_db_wf.
Qed.

(** An incident event stays inside its tenant: under every fault plan, each
    outbox row a transition adds is for a webhook that is enabled and belongs
    to the organization of the persisted site, and carries that site's id. *)
Theorem transition_tenant_boundary site prev next at_ d fl row :
  incidents_wf d -> site_exists site d = true ->
  In row (Transition site prev next at_ (d, fl)).2.1.(deliveries) ->
  In row d.(deliveries) \/
  exists w s, In w d.(webhooks) /\ w.(w_id) = row.(d_webhook) /\ w.(w_enabled) = true /\
    site_by_id site d = Some s /\ w.(w_org) = s.(s_org) /\ row.(d_payload).(p_site) = site.
Proof.
  intros W Hs Hin.
  assert (Hd : (Transition site prev next at_ (d, fl)).2.1 = d \/
               (Transition site prev next at_ (d, fl)).2.1 = transition_db site next at_ d).
  { pose proof (transition_run site prev next at_ d W Hs) as R.
    unfold Transition in *. destruct ((next =?s prev) || (next =?s "unknown")); [by left|].
    pose proof (transact_all_or_nothing _ d fl (transition_body_honest site next at_)) as H.
    destruct (transact _ (d, fl)) as [[[]|e] [d' fl']]; [|by left; subst].
    right. rewrite R in H. by injection H as <-. }
  destruct Hd as [Hd|Hd]; rewrite Hd in Hin; [by left|].
  assert (Hrow : forall n k p, p.(p_site) = site -> In row (enqueue_rows (webhooks_for site d) n k p at_) ->
    exists w s, In w d.(webhooks) /\ w.(w_id) = row.(d_webhook) /\ w.(w_enabled) = true /\
      site_by_id site d = Some s /\ w.(w_org) = s.(s_org) /\ row.(d_payload).(p_site) = site).
  { intros n k p Hp H. apply enqueue_rows_in in H as (Hw & _ & _ & ->).
    unfold webhooks_for in Hw. destruct (site_by_id site d) as [s|]; [|done].
    apply in_map_iff in Hw as (w & Ew & Hw). apply filter_In in Hw as [Hw Hc].
    bool_to_prop. exists w, s. done. }
  unfold transition_db in Hin.
  destruct (find_last (is_open site) (incidents d)); destruct (next =?s "healthy"); cbn in Hin;
    try (by left); (apply in_app_or in Hin as [Hin|Hin]; [by left|right; refine (Hrow _ _ _ _ Hin); done]).
Qed.

Lemma demo_incidents_wf : incidents_wf demo_db.
Proof. split; cbn; [constructor|done|done]. Qed.

Lemma transition_refines_lifecycle_witness :
  incident_view 1 (run (Transition 1 "healthy" "down" 7) demo_db).2 = Some "down".
Proof.
  assert (H : "down" <> "healthy" /\ "down" <> "unknown") by done.
  pose proof (transition_refines_lifecycle 1 "healthy" "down" 7 demo_db
                demo_incidents_wf eq_refl (proj1 H) (proj2 H)) as T.
  destruct (run (Transition 1 "healthy" "down" 7) demo_db) as [r d'].
  exact (proj1 (proj2 T) 1).
Defined.

Lemma transition_atomic_and_wf_witness :
  (Transition 1 "healthy" "down" 7 (demo_db, [false; false; true])).2.1 = demo_db.
Proof.
  exact (proj2 (transition_atomic_and_wf 1 "healthy" "down" 7 demo_db [false; false; true]
                  demo_incidents_wf eq_refl)).
Defined.

Lemma transition_tenant_boundary_witness :
  let row := mk_delivery 1 1 "incident.open" "pending" 0 0 ""
               (mk_payload 1 1 "down" (opened_summary "down") 7) 7 None in
  In row [] \/ exists w s, In w demo_db.(webhooks) /\ w.(w_id) = 1 /\ w.(w_enabled) = true /\
    site_by_id 1 demo_db = Some s /\ w.(w_org) = s.(s_org) /\ p_site (d_payload row) = 1.
Proof.
  exact (transition_tenant_boundary 1 "healthy" "down" 7 demo_db [] _
           demo_incidents_wf eq_refl (or_introl eq_refl)).
Defined.
