(* ===== verification/Monitor.v ===== *)
(** HTTP monitoring ([internal/monitor/monitor.go]): one check of a site from
    the outcome of its request, the stored result, the health state machine
    with its incidents, the header observation and the expectations. *)
From S2P Require Import Prelude GoStr TimeText SqlM FleetDb Incidents.
Open Scope string_scope.
Open Scope Z_scope.
Open Scope wf_scope.
Open Scope sql_scope.

(** ** Definitions *)

(** What the network did with the request: the text of an error, or the
    response after its redirects. *)
Inductive probe :=
| PBadURL (e : string)
| PBlocked (e : string)
| PNoRequest (e : string)
| PFailed (latency : Z) (deadline : bool) (e : string)
| PResponse (latency status bytes : Z) (final : string) (redirects : list string)
            (headers : list (string * string)).

Definition effective_timeout (t : Z) : Z := if t <=? 0 then 10 * second else t.

(** The client's redirect policy, from the number of requests already made and
    the guard's verdict on the next URL. *)
Definition redirect_ok (via : Z) (allowed : bool) : bool := (via <? 10) && allowed.

(** [classifyError]; [deadline] is [errors.Is(err, context.DeadlineExceeded)]. *)
Definition classifyError (deadline : bool) (err : string) : string :=
  let msg := to_lower err in
  if deadline || contains msg "timeout" || contains msg "deadline exceeded" then "timeout"
  else if contains msg "blocked target" then "blocked"
  else if contains msg "no such host" || contains msg "lookup" || contains msg "resolve" then "dns"
  else if contains msg "tls" || contains msg "certificate" || contains msg "x509" then "tls"
  else if contains msg "redirect" then "redirect"
  else "connection".

(** The body of [updateHealth]: the next state and failure count. *)
Definition next_health (state : string) (fails : Z) (ok : bool) (class : string) : string * Z :=
  if ok then ("healthy", 0)
  else let fails := fails + 1 in
       let next := if fails =? 1 then "warning" else "down" in
       let next := if (class =?s "http_status") && (fails =? 1) then "degraded" else next in
       (next, fails).

Definition find_health (site : Z) (d : db) : option health_row :=
  find_first (fun h => h.(h_site) =? site) d.(healths).

Definition coalesce {A} (a b : option A) : option A := match a with Some _ => a | None => b end.

(** The two [UPDATE site_health] statements: the state and its change time are
    set only when the state changed. *)
Definition health_update (res : check_row) (next : string) (fails : Z) (changed : bool)
    (h : health_row) : health_row :=
  let now := res.(c_checked_at) in
  mk_health h.(h_site) (if changed then next else h.(h_state)) fails (Some res.(c_id))
    (if changed then now else h.(h_last_change))
    (coalesce (if res.(c_ok) then Some now else None) h.(h_last_success))
    (coalesce (if res.(c_ok) then None else Some now) h.(h_last_failure)).

(** [last_check_id] refers to a row of [check_results]. *)
Definition check_stored (id : Z) (d : db) : bool := existsb (fun c => c.(c_id) =? id) d.(checks).
Definition updateHealth (res : check_row) : M db unit :=
  let site := res.(c_site) in
  let* row := query (find_health site) in
  let state := match row with Some h => h.(h_state) | None => "unknown" end in
  let fails := match row with Some h => h.(h_fails) | None => 0 end in
  let now := res.(c_checked_at) in
  let '(next, fails') := next_health state fails res.(c_ok) res.(c_class) in
  let success := if res.(c_ok) then Some now else None in
  let failure := if res.(c_ok) then None else Some now in
  let changed := negb (next =?s state) in
  match row with
  | None => stmt (fun d => if check_stored res.(c_id) d
                           then insert_health (mk_health site next fails' (Some res.(c_id)) now success failure) d else None)
  | Some _ => exec_opt (fun d => if check_stored res.(c_id) d
                                 then Some (set_healths (upd (fun h => h.(h_site) =? site) (health_update res next fails' changed) d.(healths)) d)
                                 else None)
  end ;;;
  if changed then Transition site state next now else ret tt.

(** [INSERT INTO check_results ... RETURNING id]. *)
Definition insert_check (c : check_row) (d : db) : option (check_row * db) :=
  let c' := mk_check (fresh_id (List.map c_id d.(checks))) c.(c_site) c.(c_monitor) c.(c_ok)
    c.(c_status) c.(c_latency) c.(c_bytes) c.(c_final_url) c.(c_class) c.(c_error) c.(c_checked_at) in
  if site_exists c.(c_site) d && existsb (fun m => m.(m_id) =? c.(c_monitor)) d.(monitors)
  then Some (c', set_checks (d.(checks) ++ [c']) d)
  else None.

Definition persist (res : check_row) : M db check_row :=
  let* res' := stmt (insert_check res) in
  updateHealth res' ;;;
  ret res'.

Definition header_get (h : list (string * string)) (name : string) : string :=
  match find_first (fun kv => equal_fold kv.1 name) h with
  | Some kv => kv.2
  | None => ""
  end.

Definition selected_names : list string :=
  ["Content-Security-Policy"; "Strict-Transport-Security"; "X-Content-Type-Options";
   "Referrer-Policy"; "Permissions-Policy"; "X-Frame-Options"; "Server"; "Content-Type"].

Definition select_headers (h : list (string * string)) : list (string * string) :=
  List.filter (fun kv => negb (kv.2 =?s "")) (List.map (fun n => (n, header_get h n)) selected_names).

(** The expected names of the response that are missing; HSTS is not asked of
    a final URL that is not https ([None]: the URL did not parse). *)
Definition missing_headers (scheme : option string) (h : list (string * string))
    (expected : list string) : list string :=
  List.filter (fun n =>
    negb (equal_fold n "Strict-Transport-Security" &&
          match scheme with Some s => negb (s =?s "https") | None => false end)
    && (header_get h n =?s "")) expected.

(** [ORDER BY lower(name)]. *)
Fixpoint insert_by_lower (e : hexp_row) (l : list hexp_row) : list hexp_row :=
  match l with
  | [] => [e]
  | x :: l' => if String.leb (to_lower x.(e_name)) (to_lower e.(e_name))
               then x :: insert_by_lower e l' else e :: l
  end.
Definition sort_by_lower (l : list hexp_row) : list hexp_row :=
  List.fold_left (fun acc e => insert_by_lower e acc) l [].

Definition required_headers (site : Z) (d : db) : list string :=
  List.map e_name (sort_by_lower
    (List.filter (fun e => (e.(e_site) =? site) && e.(e_required)) d.(hexp))).

Definition newline : string := String (ascii_of_nat 10) "".

Section Check.
(** [url.Parse(u).Scheme], [None] when the URL does not parse. *)
Variable scheme_of : string -> option string.

Definition persistHTTPObservation (res : check_row) (redirects : list string)
    (h : list (string * string)) : M db hobs_row :=
  let selected := select_headers h in
  let* exp := query (required_headers res.(c_site)) in
  let missing := join newline (missing_headers (scheme_of res.(c_final_url)) h exp) in
  let* prev := ignore None (query (fun d =>
    find_last (fun o => o.(o_site) =? res.(c_site)) d.(hobs))) in
  let changed := match prev with
    | Some o => negb (bool_decide (o.(o_chain) = redirects)
                      && bool_decide (o.(o_headers) = selected)
                      && (o.(o_missing) =?s missing))
    | None => false
    end in
  stmt (fun d =>
    let o := mk_hobs (fresh_id (List.map o_id d.(hobs))) res.(c_site) res.(c_id) redirects
               selected missing changed res.(c_checked_at) in
    if site_exists res.(c_site) d && existsb (fun c => c.(c_id) =? res.(c_id)) d.(checks)
    then Some (o, set_hobs (d.(hobs) ++ [o]) d) else None).

(** The result [check] stores for an outcome, [None] when it returns an error
    before storing anything. *)
Definition check_result (site mon : Z) (raw : string) (mn mx now : Z) (p : probe) : option check_row :=
  match p with
  | PBadURL _ | PNoRequest _ => None
  | PBlocked e => Some (mk_check 0 site mon false 0 0 0 raw "blocked" e now)
  | PFailed lat dl e => Some (mk_check 0 site mon false 0 lat 0 raw (classifyError dl e) e now)
  | PResponse lat st n final _ _ =>
      let ok := (mn <=? st) && (st <=? mx) in
      Some (mk_check 0 site mon ok st lat (Z.min n 8388608) final
              (if ok then "" else "http_status")
              (if ok then "" else "unexpected HTTP status " ++ format_int st) now)
  end.

Definition probe_error (p : probe) : string :=
  match p with PBadURL e | PNoRequest e => e | _ => "" end.

(** [check], after the network has answered. *)
Definition check (site mon : Z) (raw : string) (mn mx now : Z) (p : probe) : M db check_row :=
  match check_result site mon raw mn mx now p with
  | None => throw (probe_error p)
  | Some res =>
      let* res' := persist res in
      match p with
      | PResponse _ _ _ _ redirects h =>
          persistHTTPObservation res' (raw :: redirects) h ;;; ret res'
      | _ => ret res'
      end
  end.

(** [CheckSite]: the first monitor of an enabled, unarchived site. *)
Definition CheckSite (site now : Z) (p : probe) : M db check_row :=
  let* row := query (fun d =>
    match site_by_id site d with
    | Some s => if s.(s_enabled) && match s.(s_archived) with None => true | _ => false end
                then (fun m => (m, s)) <$> find_first (fun m => m.(m_site) =? site) d.(monitors)
                else None
    | None => None
    end) in
  match row with
  | None => throw "enabled site monitor not found"
  | Some (m, s) => check site m.(m_id) s.(s_url) m.(m_min) m.(m_max) now p
  end.
End Check.

Definition HTTPHistory (site : Z) : M db (list hobs_row) :=
  query (fun d => take 50 (rev (List.filter (fun o => o.(o_site) =? site) d.(hobs)))).

Definition HeaderExpectations (site : Z) : M db (list (string * bool)) :=
  query (fun d => List.map (fun e => (e.(e_name), e.(e_required)))
           (sort_by_lower (List.filter (fun e => e.(e_site) =? site) d.(hexp)))).

(** [http.CanonicalHeaderKey]: when every byte is a token byte, the first
    letter and each letter after a dash in upper case, the rest in lower. *)
Definition upper_ascii (c : ascii) : ascii :=
  let n := nat_of_ascii c in
  if (97 <=? n)%nat && (n <=? 122)%nat then ascii_of_nat (n - 32) else c.
Definition is_token (c : ascii) : bool :=
  let n := nat_of_ascii c in
  ((48 <=? n)%nat && (n <=? 57)%nat) || ((65 <=? n)%nat && (n <=? 90)%nat) ||
  ((94 <=? n)%nat && (n <=? 122)%nat) || existsb (Nat.eqb n) [33; 35; 36; 37; 38; 39; 42; 43; 45; 46; 124; 126]%nat.
Fixpoint all_bytes (p : ascii -> bool) (s : string) : bool :=
  match s with EmptyString => true | String c s' => p c && all_bytes p s' end.
Fixpoint canonical_from (upper : bool) (s : string) : string :=
  match s with
  | EmptyString => EmptyString
  | String c s' => String (if upper then upper_ascii c else lower_ascii c)
                     (canonical_from (Ascii.eqb c "-"%char) s')
  end.
Definition CanonicalHeaderKey (s : string) : string :=
  if all_bytes is_token s then canonical_from true s else s.

Definition expectable : list string :=
  ["Content-Security-Policy"; "Strict-Transport-Security"; "X-Content-Type-Options";
   "Referrer-Policy"; "Permissions-Policy"; "X-Frame-Options"].

Definition upsert_hexp (site : Z) (name : string) (required : bool) (d : db) : option db :=
  if site_exists site d then
    let hit e := (e.(e_site) =? site) && (e.(e_name) =?s name) in
    Some (set_hexp (if existsb hit d.(hexp)
                    then upd hit (fun e => mk_hexp e.(e_site) e.(e_name) required) d.(hexp)
                    else d.(hexp) ++ [mk_hexp site name required])%list d)
  else None.

Definition SetHeaderExpectation (site : Z) (name : string) (required : bool) : M db unit :=
  let name := CanonicalHeaderKey (trim_space name) in
  if Smem name expectable then exec_opt (upsert_hexp site name required)
  else throw "unsupported header expectation".

(** [Recent]: the limit is 20 below 1 and at most 200. *)
Definition recent_limit (limit : Z) : Z :=
  let l := if limit <? 1 then 20 else limit in if 200 <? l then 200 else l.
Definition Recent (site limit : Z) : M db (list check_row) :=
  query (fun d => take (Z.to_nat (recent_limit limit))
                    (rev (List.filter (fun c => c.(c_site) =? site) d.(checks)))).

(** ** The promise of a history of checks *)

(** A stored check, as the state machine sees it. *)
Definition obs : Type := bool * string.
Definition obs_of (c : check_row) : obs := (c.(c_ok), c.(c_class)).

(** The failures since the last success. *)
Fixpoint failing_since (newest_first : list obs) : Z :=
  match newest_first with
  | (false, _) :: l => 1 + failing_since l
  | _ => 0
  end.

(** The state a history, newest first, deserves: healthy after a success, after
    one failure degraded (an unexpected status) or warning, after more down. *)
Definition verdict (newest_first : list obs) : string :=
  match newest_first with
  | [] => "unknown"
  | (true, _) :: _ => "healthy"
  | (false, class) :: l =>
      if failing_since l =? 0 then if class =?s "http_status" then "degraded" else "warning"
      else "down"
  end.

(** One notice when an outage begins and one when it ends. *)
Fixpoint outage_notices (failing : bool) (oldest_first : list obs) : list string :=
  match oldest_first with
  | [] => []
  | (true, _) :: l => (if failing then ["incident.recover"] else []) ++ outage_notices false l
  | (false, _) :: l => (if failing then [] else ["incident.open"]) ++ outage_notices true l
  end%list.

Definition unhealthy (state : string) : bool := negb ((state =?s "healthy") || (state =?s "unknown")).

(** Health and incidents of a site agree with a state and a failure count. *)
Record tracks (site : Z) (d : db) (state : string) (fails : Z) : Prop := {
  tr_wf : incidents_wf d;
  tr_site : site_exists site d = true;
  tr_health : match find_health site d with
              | Some h => h.(h_site) = site /\ h.(h_state) = state /\ h.(h_fails) = fails
              | None => state = "unknown" /\ fails = 0
              end;
  tr_incident : incident_view site d = if unhealthy state then Some state else None }.

(** ** Lemmas *)

Lemma next_health_unknown st f ok cl : (next_health st f ok cl).1 <> "unknown".
Proof. unfold next_health. by destruct ok, (f + 1 =? 1), (cl =?s "http_status"). Qed.

Lemma failing_since_nonneg l : 0 <= failing_since l.
Proof. induction l as [|[[] c] l IH]; cbn; lia. Qed.

Lemma next_health_verdict st l o :
  next_health st (failing_since l) o.1 o.2 = (verdict (o :: l), failing_since (o :: l)).
Proof.
  destruct o as [[] cl]; [done|]. cbn. pose proof (failing_since_nonneg l).
  unfold next_health. rewrite (Z.add_comm 1).
  destruct (Z.eqb_spec (failing_since l) 0) as [->|]; cbn.
  - by destruct (cl =?s "http_status").
  - destruct (Z.eqb_spec (failing_since l + 1) 1); [lia|]. by rewrite andb_false_r.
Qed.

Lemma verdict_unhealthy l : unhealthy (verdict l) = match l with (false, _) :: _ => true | _ => false end.
Proof. destruct l as [|[[] cl] l]; [done|done|]. cbn. by repeat case_match. Qed.

Lemma find_first_upd_same {A} (p : A -> bool) (f : A -> A) l :
  (forall x, p x = true -> p (f x) = true) ->
  find_first p (upd p f l) = f <$> find_first p l.
Proof.
  intros H. unfold find_first, upd. induction l as [|x l IH]; [done|]. cbn.
  destruct (p x) eqn:E; [by rewrite (H x E)|]. rewrite E. apply IH.
Qed.

Lemma find_first_app_none {A} (p : A -> bool) l x :
  find_first p l = None -> p x = true -> find_first p (l ++ [x])%list = Some x.
Proof.
  unfold find_first. induction l as [|y l IH]; cbn; [by intros _ ->|].
  destruct (p y); [done|exact IH].
Qed.

Lemma find_first_none_existsb {A} (p : A -> bool) l : find_first p l = None -> existsb p l = false.
Proof. unfold find_first. induction l as [|y l IH]; cbn; [done|]. by destruct (p y). Qed.

Lemma find_first_prop {A} (p : A -> bool) l x : find_first p l = Some x -> p x = true.
Proof. intros H. exact (proj2 (List.find_some _ _ H)). Qed.

(** The health write alone: a row with the next state, nothing else touched. *)
Definition health_after (res : check_row) (row : option health_row) : health_row :=
  let state := match row with Some h => h.(h_state) | None => "unknown" end in
  let fails := match row with Some h => h.(h_fails) | None => 0 end in
  let '(next, fails') := next_health state fails res.(c_ok) res.(c_class) in
  let changed := negb (next =?s state) in
  let now := res.(c_checked_at) in
  let success := if res.(c_ok) then Some now else None in
  let failure := if res.(c_ok) then None else Some now in
  match row with
  | None => mk_health res.(c_site) next fails' (Some res.(c_id)) now success failure
  | Some h => health_update res next fails' changed h
  end.

Lemma updateHealth_run d res st f :
  tracks res.(c_site) d st f -> check_stored res.(c_id) d = true ->
  let n := next_health st f res.(c_ok) res.(c_class) in
  exists h, h.(h_site) = res.(c_site) /\ h.(h_state) = n.1 /\ h.(h_fails) = n.2 /\
    exists hs, find_first (fun x => x.(h_site) =? res.(c_site)) hs = Some h /\
    run (updateHealth res) d =
      (Ok tt, if n.1 =?s st then set_healths hs d
              else transition_db res.(c_site) n.1 res.(c_checked_at) (set_healths hs d)).
Proof.
  intros [W Hs Hh Hi] Hst n. exists (health_after res (find_health res.(c_site) d)).
  unfold health_after, updateHealth, run, bind. rewrite query_nil.
  assert (Hw : forall hs, incidents_wf (set_healths hs d)) by (intros hs; by destruct W; split).
  assert (Ht : forall hs, Transition (c_site res) st n.1 (c_checked_at res) (set_healths hs d, []) =
    (Ok (), (if n.1 =?s st then set_healths hs d
             else transition_db (c_site res) n.1 (c_checked_at res) (set_healths hs d), []))).
  { intros hs. pose proof (next_health_unknown st f (c_ok res) (c_class res)) as Hn.
    apply String.eqb_neq in Hn. fold n in Hn.
    by rewrite transition_nil, Hn, orb_false_r by auto. }
  destruct (find_health (c_site res) d) as [h|] eqn:E.
  - destruct Hh as (Hsite & <- & <-). fold n. destruct n as [next fails] eqn:En. cbn [fst snd] in *.
    split_and!; [done|cbn; by destruct (String.eqb_spec next (h_state h))|done|].
    exists (upd (fun x => x.(h_site) =? c_site res)
              (health_update res next fails (negb (next =?s h_state h))) d.(healths)). split.
    + rewrite find_first_upd_same; [unfold find_health in E; rewrite E; reflexivity|].
      intros x Hx. exact Hx.
    + unfold exec_opt. rewrite stmt_nil, Hst. cbn [option_bind mbind].
      destruct (String.eqb_spec next (h_state h)) as [->|]; cbn [negb].
      * reflexivity.
      * by rewrite Ht.
  - destruct Hh as [-> ->]. fold n. destruct n as [next fails] eqn:En. cbn [fst snd] in *.
    split_and!; [done|done|done|].
    pose proof (find_first_none_existsb _ _ E) as Ex.
    exists (d.(healths) ++ [mk_health (c_site res) next fails (Some (c_id res)) (c_checked_at res)
              (if c_ok res then Some (c_checked_at res) else None)
              (if c_ok res then None else Some (c_checked_at res))])%list. split.
    + apply find_first_app_none; [done|]. cbn. apply Z.eqb_refl.
    + rewrite stmt_nil, Hst. unfold insert_health. cbn [h_site]. rewrite Hs, Ex. cbn [andb negb].
      destruct (String.eqb_spec next "unknown") as [->|]; cbn [negb]; [done|]. by rewrite Ht.
Qed.

Lemma site_by_id_sites id d d' : d'.(sites) = d.(sites) -> site_by_id id d' = site_by_id id d.
Proof. unfold site_by_id. by intros ->. Qed.

Lemma webhooks_for_frame site d d' :
  d'.(sites) = d.(sites) -> d'.(webhooks) = d.(webhooks) -> webhooks_for site d' = webhooks_for site d.
Proof. intros Hs Hw. unfold webhooks_for. by rewrite (site_by_id_sites _ d), Hw. Qed.

Lemma next_health_healthy st f ok cl : ((next_health st f ok cl).1 =?s "healthy") = ok.
Proof. unfold next_health. by destruct ok, (f + 1 =? 1), (cl =?s "http_status"). Qed.

Lemma next_health_unhealthy st f ok cl : unhealthy (next_health st f ok cl).1 = negb ok.
Proof. unfold next_health. by destruct ok, (f + 1 =? 1), (cl =?s "http_status"). Qed.

(** One health update keeps health and incidents together, and notifies exactly
    when the site starts or stops failing. *)
Lemma updateHealth_step d res st f :
  tracks res.(c_site) d st f -> check_stored res.(c_id) d = true ->
  let n := next_health st f res.(c_ok) res.(c_class) in
  exists d', run (updateHealth res) d = (Ok tt, d') /\
    tracks res.(c_site) d' n.1 n.2 /\
    webhooks_for res.(c_site) d' = webhooks_for res.(c_site) d /\ d'.(monitors) = d.(monitors) /\
    exists rows, d'.(deliveries) = (d.(deliveries) ++ rows)%list /\
      List.map d_kind rows =
        if Bool.eqb (unhealthy st) (negb res.(c_ok)) then []
        else List.map (fun _ => if res.(c_ok) then "incident.recover" else "incident.open")
               (webhooks_for res.(c_site) d).
Proof.
  intros T Hck. destruct (updateHealth_run _ _ _ _ T Hck) as (h & Hs & Hst & Hf & hs & Hh & R).
  destruct T as [W Hx _ Hi].
  assert (W' : incidents_wf (set_healths hs d)) by (by destruct W; split).
  pose proof (next_health_healthy st f (c_ok res) (c_class res)) as Hn1.
  pose proof (next_health_unhealthy st f (c_ok res) (c_class res)) as Hn2.
  set (n := next_health st f (c_ok res) (c_class res)) in *. cbv zeta.
  eexists. split; [exact R|]. clear R.
  destruct (String.eqb_spec n.1 st) as [En|En].
  - split_and!.
    + split; [done|done|unfold find_health; cbn [healths set_healths]; by rewrite Hh, Hs|].
      change (incident_view (c_site res) (set_healths hs d)) with (incident_view (c_site res) d).
      by rewrite Hi, En.
    + done.
    + done.
    + exists []. rewrite app_nil_r. split; [done|]. rewrite <- En, Hn2. by destruct (c_ok res).
  - pose proof (transition_step (c_site res) n.1 (c_checked_at res) _ W') as S. cbv zeta in S.
    pose proof (transition_frame (c_site res) n.1 (c_checked_at res) (set_healths hs d)) as F. cbv zeta in F.
    pose proof (transition_db_wf (c_site res) n.1 (c_checked_at res) _ W') as W2.
    assert ((transition_db (c_site res) n.1 (c_checked_at res) (set_healths hs d)).(monitors) = d.(monitors)) as F4 by (unfold transition_db; by repeat case_match).
    set (d2 := transition_db _ _ _ _) in *. destruct F as (F1 & F2 & F3). cbn in F1, F2, F3.
    change (incident_view (c_site res) (set_healths hs d)) with (incident_view (c_site res) d) in S.
    rewrite Hi in S. unfold lifecycle in S. rewrite Hn1 in S.
    destruct (c_ok res) eqn:Eok; cbn [negb] in *.
    + destruct S as (S1 & rows & S2 & S3 & S4). split_and!.
      * split; [done|unfold site_exists; by rewrite (site_by_id_sites _ d)|unfold find_health; rewrite F3, Hh; done|].
        rewrite S1, decide_True, Hn2; done.
      * by apply webhooks_for_frame.
      * exact F4.
      * exists rows. split; [done|]. destruct (unhealthy st); cbn.
        -- rewrite webhooks_for_frame with (d := d) in S3 by done.
           rewrite <- (List.map_map w_id (fun _ => "incident.recover")), <- S3, List.map_map.
           apply map_ext_in. intros r Hr. destruct (S4 r Hr) as [_ E]. by injection E.
        -- apply map_eq_nil in S3 as ->. done.
    + destruct (unhealthy st) eqn:Eu; destruct S as (S1 & rows & S2 & S3 & S4); split_and!.
      * split; [done|unfold site_exists; by rewrite (site_by_id_sites _ d)|unfold find_health; rewrite F3, Hh; done|].
        rewrite S1, decide_True, Hn2; done.
      * by apply webhooks_for_frame.
      * exact F4.
      * exists rows. split; [done|]. cbn. by apply map_eq_nil in S3 as ->.
      * split; [done|unfold site_exists; by rewrite (site_by_id_sites _ d)|unfold find_health; rewrite F3, Hh; done|].
        rewrite S1, decide_True, Hn2; done.
      * by apply webhooks_for_frame.
      * exact F4.
      * exists rows. split; [done|]. cbn.
        rewrite webhooks_for_frame with (d := d) in S3 by done.
        rewrite <- (List.map_map w_id (fun _ => "incident.open")), <- S3, List.map_map.
        apply map_ext_in. intros r Hr. destruct (S4 r Hr) as [_ E]. by injection E.
Qed.

Lemma transition_honest site prev next at_ : honest (Transition site prev next at_).
Proof.
  unfold Transition. case_match; [apply honest_ret|].
  apply honest_transact, transition_body_honest.
Qed.

Lemma updateHealth_honest res : honest (updateHealth res).
Proof.
  unfold updateHealth. apply honest_bind; [apply honest_stmt|]. intros row.
  destruct (next_health _ _ _ _) as [next fails]. apply honest_bind; [solve_honest|].
  intros _. case_match; [apply transition_honest|apply honest_ret].
Qed.

(** Storing a check and the health that follows from it. *)
Definition monitored (d : db) (r : check_row) : Prop := existsb (fun m => m.(m_id) =? r.(c_monitor)) d.(monitors) = true.
Lemma persist_step d r st f : tracks r.(c_site) d st f -> monitored d r ->
  let n := next_health st f r.(c_ok) r.(c_class) in
  exists c d', run (persist r) d = (Ok c, d') /\ tracks r.(c_site) d' n.1 n.2 /\ webhooks_for r.(c_site) d' = webhooks_for r.(c_site) d /\ d'.(monitors) = d.(monitors) /\
    exists rows, d'.(deliveries) = (d.(deliveries) ++ rows)%list /\
      List.map d_kind rows =
        if Bool.eqb (unhealthy st) (negb r.(c_ok)) then []
        else List.map (fun _ => if r.(c_ok) then "incident.recover" else "incident.open") (webhooks_for r.(c_site) d).
Proof.
  intros T Hm n. pose proof T as [W Hs Hh Hi].
  set (c := mk_check (fresh_id (List.map c_id d.(checks))) r.(c_site) r.(c_monitor) r.(c_ok) r.(c_status) r.(c_latency) r.(c_bytes) r.(c_final_url) r.(c_class) r.(c_error) r.(c_checked_at)).
  set (d1 := set_checks (d.(checks) ++ [c])%list d).
  assert (tracks c.(c_site) d1 st f) as T1 by (split; [by destruct W; split|exact Hs|exact Hh|exact Hi]).
  assert (check_stored c.(c_id) d1 = true) as Hck.
  { unfold check_stored. cbn [checks set_checks d1]. rewrite existsb_app. cbn. by rewrite Z.eqb_refl, orb_true_r. }
  destruct (updateHealth_step d1 c st f T1 Hck) as (d2 & R & T2 & Hw & Hmn & rows & D & K).
  exists c, d2. split; [|split_and!; try done; by exists rows]. unfold persist.
  assert (run (stmt (insert_check r)) d = (Ok c, d1)) as R1.
  { unfold run. rewrite stmt_nil. unfold insert_check. unfold monitored in Hm. by rewrite Hs, Hm. }
  rewrite (run_bind _ _ _ _ _ (honest_stmt _) R1). by rewrite (run_bind _ _ _ _ _ (updateHealth_honest c) R).
Qed.
Lemma persist_honest r : honest (persist r).
Proof. unfold persist. apply honest_bind; [apply honest_stmt|]. intros c. apply honest_bind; [apply updateHealth_honest|]. intros _. apply honest_ret. Qed.

(** Checks stored one after the other. *)
Definition stored_in_order (rs : list check_row) : M db unit := for_each rs (fun r => persist r ;;; ret tt).

(** A history of checks of one site, from any past. *)
Lemma history_run site rs : forall past d,
  Forall (fun r => r.(c_site) = site) rs -> Forall (monitored d) rs ->
  tracks site d (verdict past) (failing_since past) ->
  exists d', run (stored_in_order rs) d = (Ok tt, d') /\
    tracks site d' (verdict (rev (List.map obs_of rs) ++ past)%list)
                   (failing_since (rev (List.map obs_of rs) ++ past)%list) /\
    exists rows, d'.(deliveries) = (d.(deliveries) ++ rows)%list /\
      List.map d_kind rows =
        flat_map (fun k => List.map (fun _ => k) (webhooks_for site d))
          (outage_notices (unhealthy (verdict past)) (List.map obs_of rs)).
Proof.
  induction rs as [|r rs IH]; intros past d Hrs Hms T.
  - exists d. split_and!; [done|exact T|]. exists []. by rewrite app_nil_r.
  - inversion_clear Hrs as [|? ? Hr Hrs']. inversion_clear Hms as [|? ? Hm Hms']. subst site.
    destruct (persist_step d r _ _ T Hm) as (c & d1 & R & T1 & Hw & Hmn & rows1 & D1 & K1).
    change (next_health (verdict past) (failing_since past) (c_ok r) (c_class r))
      with (next_health (verdict past) (failing_since past) (obs_of r).1 (obs_of r).2) in T1.
    rewrite next_health_verdict in T1. cbn [fst snd] in T1.
    destruct (IH (obs_of r :: past) d1 Hrs') as (d2 & R2 & T2 & rows2 & D2 & K2); [|exact T1|].
    { eapply Forall_impl; [exact Hms'|]. intros x Hx. unfold monitored. by rewrite Hmn. }
    exists d2. unfold stored_in_order in *. cbn [for_each List.map rev]. rewrite <- app_assoc.
    assert (run (persist r ;;; ret tt) d = (Ok tt, d1)) as R1 by by rewrite (run_bind _ _ _ _ _ (persist_honest r) R).
    rewrite (run_bind _ _ _ _ _ (honest_bind _ _ (persist_honest r) (fun _ => honest_ret tt)) R1). split_and!; [done|done|].
    exists (rows1 ++ rows2)%list. rewrite D2, D1, <- app_assoc. split; [done|].
    rewrite List.map_app, K1, K2, Hw.
    rewrite (verdict_unhealthy (obs_of r :: past)). unfold obs_of. cbn [outage_notices].
    by destruct (c_ok r), (unhealthy (verdict past)); cbn; rewrite ?app_nil_r.
Qed.

(** ** Properties *)

(** C3: after any history of checks of a site by monitors that exist, stored in order with
    no database error, the health row holds the verdict of that history and its run of
    failures, and the site has an open incident exactly while the verdict is
    unhealthy, in that very state. *)
Theorem health_tracks_history site rs d :
  tracks site d "unknown" 0 -> Forall (fun r => r.(c_site) = site) rs -> Forall (monitored d) rs ->
  let newest := rev (List.map obs_of rs) in
  exists d', run (stored_in_order rs) d = (Ok tt, d') /\
    (rs <> [] -> exists h, find_health site d' = Some h /\
      h.(h_state) = verdict newest /\ h.(h_fails) = failing_since newest) /\
    incident_view site d' = if unhealthy (verdict newest) then Some (verdict newest) else None.
Proof.
  intros T Hrs Hms newest. destruct (history_run site rs [] d Hrs Hms T) as (d' & R & T' & _).
  rewrite app_nil_r in T'. fold newest in T'. exists d'. split_and!; [done| |apply tr_incident with (1 := T')].
  intros Hne. pose proof (tr_health _ _ _ _ T') as H.
  destruct (find_health site d') as [h|]; [by exists h; destruct H as (? & ? & ?)|].
  destruct H as [H _]. exfalso. subst newest.
  destruct rs as [|r rs] using rev_ind; [done|].
  rewrite List.map_app, rev_app_distr in H. cbn in H.
  unfold obs_of in H at 1. destruct (c_ok r); cbn in H; by repeat case_match.
Qed.

(** Over a whole history each enabled webhook of the organization is told
    once when an outage begins and once when it ends, however long the outage
    and whatever states it passes through. *)
Theorem one_notice_per_outage site rs d :
  tracks site d "unknown" 0 -> Forall (fun r => r.(c_site) = site) rs -> Forall (monitored d) rs ->
  exists d' rows, run (stored_in_order rs) d = (Ok tt, d') /\
    d'.(deliveries) = (d.(deliveries) ++ rows)%list /\
    List.map d_kind rows =
      flat_map (fun k => List.map (fun _ => k) (webhooks_for site d))
        (outage_notices false (List.map obs_of rs)).
Proof.
  intros T Hrs Hms. destruct (history_run site rs [] d Hrs Hms T) as (d' & R & _ & rows & D & K). eauto 6.
Qed.

(** An outage of site 1 after two failed checks, and a check that succeeds. *)
Definition fail_check : check_row := mk_check 1 1 1 false 500 3 0 "u" "http_status" "e" 10.
Definition ok_check : check_row := mk_check 2 1 1 true 200 3 0 "u" "" "" 20.
Definition outage_db : db := (run (for_each [fail_check; fail_check] updateHealth) (set_checks [fail_check; ok_check] demo_db)).2.

(** Health and incident do not commit together. When the database refuses
    the incident transaction of a recovery, the health row is already healthy,
    so no later success closes the incident, however many follow: the site is
    healthy with an incident open in state down. *)
Theorem refused_recovery_leaves_incident_open n :
  let d1 := (updateHealth ok_check (outage_db, [false; false; true])).2.1 in
  let d2 := (run (for_each (List.repeat ok_check n) updateHealth) d1).2 in
  (updateHealth ok_check (outage_db, [false; false; true])).1 = Err "database error" /\
  h_state <$> find_health 1 d2 = Some "healthy" /\ incident_view 1 d2 = Some "down".
Proof.
  intros d1 d2. split; [vm_compute; reflexivity|]. subst d2.
  assert (H : run (updateHealth ok_check) d1 = (Ok tt, d1)) by (vm_compute; reflexivity).
  assert (Hn : run (for_each (List.repeat ok_check n) updateHealth) d1 = (Ok tt, d1)).
  { induction n as [|n IH]; [done|]. cbn [List.repeat for_each].
    by rewrite (run_bind _ _ _ _ _ (updateHealth_honest ok_check) H). }
  rewrite Hn. split; vm_compute; reflexivity.
Qed.

Lemma demo_tracks : tracks 1 demo_db "unknown" 0.
Proof. split; [apply demo_incidents_wf|done|done|done]. Qed.

Lemma health_tracks_history_witness :
  exists d', run (stored_in_order [fail_check; fail_check; ok_check; fail_check]) demo_db = (Ok tt, d') /\
    incident_view 1 d' = Some "degraded".
Proof.
  destruct (health_tracks_history 1 [fail_check; fail_check; ok_check; fail_check] demo_db demo_tracks
    ltac:(repeat constructor) ltac:(repeat constructor)) as (d' & R & _ & V).
  exists d'. exact (conj R V).
Defined.

Lemma one_notice_per_outage_witness :
  exists d' rows, run (stored_in_order [fail_check; fail_check; ok_check]) demo_db = (Ok tt, d') /\
    d'.(deliveries) = rows /\ List.map d_kind rows = ["incident.open"; "incident.recover"].
Proof.
  destruct (one_notice_per_outage 1 [fail_check; fail_check; ok_check] demo_db demo_tracks
    ltac:(repeat constructor) ltac:(repeat constructor)) as (d' & rows & R & D & K).
  exists d', rows. exact (conj R (conj D K)).
Defined.
