(* ===== verification/Claims.v ===== *)
(** Scheduler claims ([ClaimDue], [RenewClaim], [CompleteClaim] of
    [internal/store/store.go]): leases with a generation as fencing token, and
    the interleavings of any number of workers as sequences of statements. *)
From Stdlib Require Import Sorted.
From S2P Require Import Prelude GoStr TimeText SqlM.
Open Scope string_scope.
Open Scope Z_scope.
Open Scope wf_scope.
Open Scope sql_scope.

(** ** Definitions *)

(** A row of [scheduler_claims]; [owner = ""] is a released claim and a lease
    of [None] is the empty text. *)
Record claim := mk_claim {
  next_due : Z; owner : string; generation : Z; lease_until : option Z }.

#[export] Instance claim_eq_dec : EqDecision claim.
Proof. solve_decision. Defined.

(** The table, keyed by (claim_kind, site_id). *)
Abbreviation claims := (gmap (string * Z) claim).

(** [lease_until <= now] in SQL: the empty text is below every timestamp. *)
Definition lease_expired (l : option Z) (now : Z) : bool :=
  match l with None => true | Some t => text_leb t now end.

(** The [WHERE] of the upsert. *)
Definition claimable (c : claim) (now : Z) : bool :=
  text_leb c.(next_due) now && ((c.(owner) =?s "") || lease_expired c.(lease_until) now).

(** [INSERT ... ON CONFLICT DO UPDATE ... WHERE ... RETURNING generation]. *)
Definition claim_upsert (kind : string) (site : Z) (o : string) (now lease : Z) (t : claims)
    : option Z * claims :=
  match t !! (kind, site) with
  | None => (Some 1, <[(kind, site) := mk_claim now o 1 (Some lease)]> t)
  | Some c =>
      if claimable c now
      then let g := c.(generation) + 1 in
           (Some g, <[(kind, site) := mk_claim c.(next_due) o g (Some lease)]> t)
      else (None, t)
  end.

(** The row a stale owner must not match. *)
Definition holds (c : claim) (o : string) (g : Z) : bool :=
  (c.(owner) =?s o) && (c.(generation) =? g).

Definition renew_update (kind : string) (site : Z) (o : string) (g lease : Z) (t : claims)
    : bool * claims :=
  match t !! (kind, site) with
  | Some c => if holds c o g
              then (true, <[(kind, site) := mk_claim c.(next_due) c.(owner) c.(generation) (Some lease)]> t)
              else (false, t)
  | None => (false, t)
  end.

Definition complete_update (kind : string) (site : Z) (o : string) (g due : Z) (t : claims) : claims :=
  match t !! (kind, site) with
  | Some c => if holds c o g
              then <[(kind, site) := mk_claim due "" c.(generation) None]> t
              else t
  | None => t
  end.

(** The three store operations. *)
Definition ClaimDue (kind : string) (site : Z) (o : string) (now lease : Z) : M claims (option Z) :=
  stmt (fun t => Some (claim_upsert kind site o now lease t)).
Definition RenewClaim (kind : string) (site : Z) (o : string) (g lease : Z) : M claims bool :=
  stmt (fun t => Some (renew_update kind site o g lease t)).
Definition CompleteClaim (kind : string) (site : Z) (o : string) (g due : Z) : M claims unit :=
  exec (complete_update kind site o g due).

(** ** Interleavings *)

(** A statement some worker sends; [refused] ones fail and change nothing. *)
Inductive op :=
| OClaim (kind : string) (site : Z) (o : string) (now lease : Z)
| ORenew (kind : string) (site : Z) (o : string) (g lease : Z)
| OComplete (kind : string) (site : Z) (o : string) (g due : Z).

(** What the worker learns: a generation from a claim, whether a renewal
    matched. *)
Inductive answer := AClaim (g : option Z) | ARenew (b : bool) | ADone.

Definition step (t : claims) (x : op) : answer * claims :=
  match x with
  | OClaim k s o now l => let '(g, t') := claim_upsert k s o now l t in (AClaim g, t')
  | ORenew k s o g l => let '(b, t') := renew_update k s o g l t in (ARenew b, t')
  | OComplete k s o g due => (ADone, complete_update k s o g due t)
  end.

Fixpoint steps (t : claims) (l : list op) : list answer * claims :=
  match l with
  | [] => ([], t)
  | x :: l' => let '(a, t1) := step t x in let '(al, t2) := steps t1 l' in (a :: al, t2)
  end.

(** The generation of a slot; 0 before its first claim. *)
Definition gen (slot : string * Z) (t : claims) : Z :=
  match t !! slot with Some c => c.(generation) | None => 0 end.

(** The generations a run of statements hands out for a slot, in order. *)
Fixpoint granted (slot : string * Z) (l : list op) (al : list answer) : list Z :=
  match l, al with
  | OClaim k s _ _ _ :: l', AClaim (Some g) :: al' =>
      (if decide ((k, s) = slot) then [g] else []) ++ granted slot l' al'
  | _ :: l', _ :: al' => granted slot l' al'
  | _, _ => []
  end%list.

(** The statements by which the holder of (owner, generation) could write. *)
Definition stale_write (slot : string * Z) (o : string) (g : Z) (x : op) : bool :=
  match x with
  | ORenew k s o' g' _ | OComplete k s o' g' _ =>
      bool_decide ((k, s) = slot) && (o' =?s o) && (g' =? g)
  | _ => false
  end.

(** ** Lemmas *)

Lemma claim_upsert_gen k s o now l t slot :
  gen slot (claim_upsert k s o now l t).2 =
  gen slot t + if decide ((k, s) = slot)
               then match (claim_upsert k s o now l t).1 with Some _ => 1 | None => 0 end else 0.
Proof.
  unfold claim_upsert, gen. case_decide as E.
  - subst slot. destruct (t !! (k, s)) as [c|] eqn:Ec; [destruct (claimable c now)|];
      cbn; rewrite ?lookup_insert_eq, ?Ec; cbn; lia.
  - destruct (t !! (k, s)) as [c|] eqn:Ec; [destruct (claimable c now)|];
      cbn; rewrite ?lookup_insert_ne by done; lia.
Qed.

Lemma claim_upsert_granted k s o now l t g :
  (claim_upsert k s o now l t).1 = Some g -> g = gen (k, s) t + 1.
Proof. unfold claim_upsert, gen. repeat case_match; cbn; intros; simplify_eq; lia. Qed.

Lemma renew_update_gen k s o g l t slot : gen slot (renew_update k s o g l t).2 = gen slot t.
Proof.
  unfold renew_update, gen. destruct (t !! (k, s)) as [c|] eqn:Ec; [|done].
  destruct (holds c o g); [|done]. cbn. destruct (decide ((k, s) = slot)) as [<-|Hn].
  - by rewrite lookup_insert_eq, Ec.
  - by rewrite lookup_insert_ne.
Qed.

Lemma complete_update_gen k s o g due t slot : gen slot (complete_update k s o g due t) = gen slot t.
Proof.
  unfold complete_update, gen. destruct (t !! (k, s)) as [c|] eqn:Ec; [|done].
  destruct (holds c o g); [|done]. cbn. destruct (decide ((k, s) = slot)) as [<-|Hn].
  - by rewrite lookup_insert_eq, Ec.
  - by rewrite lookup_insert_ne.
Qed.

Lemma step_gen_mono t x slot : gen slot t <= gen slot (step t x).2.
Proof.
  destruct x as [k s o now l|k s o g l|k s o g due]; cbn.
  - pose proof (claim_upsert_gen k s o now l t slot) as H.
    destruct (claim_upsert k s o now l t) as [r t']; cbn in *.
    rewrite H. destruct (decide _), r; lia.
  - pose proof (renew_update_gen k s o g l t slot) as H.
    destruct (renew_update k s o g l t) as [r t']; cbn in *. lia.
  - rewrite complete_update_gen. lia.
Qed.

(** A renewal or a completion under a generation the slot has left behind. *)
Lemma stale_step t x slot o g :
  g < gen slot t -> stale_write slot o g x = true ->
  (step t x).2 = t /\ (step t x).1 <> ARenew true.
Proof.
  intros Hg Hs. destruct x as [|k s o' g' l|k s o' g' due]; [done| |]; cbn in *;
    bool_to_prop; apply bool_decide_eq_true in H as <-; subst o' g'; unfold gen in Hg.
  - unfold renew_update. destruct (t !! (k, s)) as [c|]; [|done].
    unfold holds. destruct (Z.eqb_spec (generation c) g); [lia|]. by rewrite andb_false_r.
  - unfold complete_update. destruct (t !! (k, s)) as [c|]; [|done].
    unfold holds. destruct (Z.eqb_spec (generation c) g); [lia|]. by rewrite andb_false_r.
Qed.

Lemma granted_above slot l : forall t,
  Forall (fun g => gen slot t < g) (granted slot l (steps t l).1) /\
  StronglySorted Z.lt (granted slot l (steps t l).1).
Proof.
  induction l as [|x l IH]; intros t; [by split; constructor|]. cbn.
  pose proof (step_gen_mono t x slot) as Hm.
  destruct (step t x) as [a t1] eqn:E1. specialize (IH t1).
  destruct (steps t1 l) as [al t2] eqn:E2. cbn in *. destruct IH as [IH1 IH2].
  assert (IH1' : Forall (fun g => gen slot t < g) (granted slot l al))
    by (eapply Forall_impl; [exact IH1|]; cbn; lia).
  destruct x as [k s o now lz|k s o g lz|k s o g due]; [|done..].
  destruct a as [[g|]| |]; [|done..]. case_decide as Ed; [|done]. cbn.
  cbn in E1. destruct (claim_upsert k s o now lz t) as [r t'] eqn:Eu. injection E1 as -> ->.
  pose proof (claim_upsert_granted k s o now lz t g) as Hg. rewrite Eu in Hg.
  specialize (Hg eq_refl). pose proof (claim_upsert_gen k s o now lz t slot) as Hg'.
  rewrite Eu in Hg'; cbn in Hg'. rewrite decide_True in Hg' by done. rewrite Ed in Hg.
  split; constructor; [lia|done|done|]. eapply Forall_impl; [exact IH1|]. cbn. lia.
Qed.

(** ** Properties *)

(** Each successful claim of a slot returns a new fencing token: in every
    interleaving of any workers' statements, from any table, the generations
    handed out for a slot are strictly increasing and above the current one. *)
Theorem claim_generations_increase slot t l :
  let answers := (steps t l).1 in
  StronglySorted Z.lt (granted slot l answers) /\
  forall g, In g (granted slot l answers) -> gen slot t < g.
Proof.
  destruct (granted_above slot l t) as [H1 H2]. split; [done|].
  intros g Hg. rewrite Forall_forall in H1. apply H1. by apply list_elem_of_In.
Qed.

(** C12: a stale owner is fenced for good: once a slot has moved past generation
    [g], in every later interleaving each renewal or completion under [g] leaves
    the whole table as it finds it, and no such renewal reports success. *)
Theorem stale_owner_is_fenced slot t o g before x after :
  g < gen slot t -> stale_write slot o g x = true ->
  let t1 := (steps t before).2 in
  (step t1 x).2 = t1 /\ (step t1 x).1 <> ARenew true /\ g < gen slot (steps t1 (x :: after)).2.
Proof.
  intros Hg Hs t1.
  assert (Hmono : forall l t, gen slot t <= gen slot (steps t l).2).
  { clear. induction l as [|y l IH]; intros t; [done|]. cbn.
    pose proof (step_gen_mono t y slot). destruct (step t y) as [a t1].
    specialize (IH t1). destruct (steps t1 l). cbn in *. lia. }
  pose proof (Hmono before t). fold t1 in H.
  destruct (stale_step t1 x slot o g ltac:(lia) Hs) as [H1 H2].
  split_and!; [done|done|]. pose proof (Hmono (x :: after) t1). lia.
Qed.

(** A claim is granted only for due work that nobody holds, up to the
    second the stored text can misjudge: the slot was due before [now + 1s],
    and it was released, or its lease ended before [now + 1s]; and work that
    has been due for a second, released or expired for a second, is granted. *)
Theorem claim_due_exclusive kind site o now lease t c :
  t !! (kind, site) = Some c ->
  (forall g, (claim_upsert kind site o now lease t).1 = Some g ->
     c.(next_due) < now + second /\
     (c.(owner) = "" \/ forall l, c.(lease_until) = Some l -> l < now + second)) /\
  (c.(next_due) + second <= now ->
   c.(owner) = "" \/ (exists l, c.(lease_until) = Some l /\ l + second <= now) ->
   exists g, (claim_upsert kind site o now lease t).1 = Some g).
Proof.
  intros Hc. unfold claim_upsert. rewrite Hc. split.
  - intros g. destruct (claimable c now) eqn:E; [|done]. intros _.
    unfold claimable in E. bool_to_prop. split; [by apply text_leb_skew|].
    apply orb_true_iff in H0 as [H0|H0]; [left; by apply String.eqb_eq|right].
    intros l Hl. rewrite Hl in H0. by apply text_leb_skew.
  - intros Hd Hf. unfold claimable. rewrite text_leb_far by done. cbn [andb].
    destruct Hf as [->|(l & Hl & Hle)]; [by eexists|].
    rewrite Hl. cbn. rewrite text_leb_far by done. rewrite orb_true_r. by eexists.
Qed.

(** Finished work rests until it is due again: after the holder completes a
    slot with [due], no claim of it succeeds while the clock is more than a
    second short of [due], whoever asks and however often. *)
Theorem completed_slot_rests kind site o g due t c now l o' :
  t !! (kind, site) = Some c -> holds c o g = true -> now + second <= due ->
  claim_upsert kind site o' now l (complete_update kind site o g due t) =
    (None, complete_update kind site o g due t) /\
  (complete_update kind site o g due t) !! (kind, site) = Some (mk_claim due "" c.(generation) None).
Proof.
  intros Hc Hh Hd. unfold complete_update. rewrite Hc, Hh. unfold claim_upsert.
  rewrite lookup_insert_eq. split; [|done]. unfold claimable; cbn.
  destruct (text_leb due now) eqn:E; [|done].
  rewrite <- (negb_involutive (text_leb due now)), <- text_ltb_leb in E.
  rewrite text_ltb_far in E by done. done.
Qed.

(** The stored text lets a live lease be stolen: a lease that ends half a
    second after a whole second is taken by another worker at that whole
    second, while the lease still has half a second to run. *)
Theorem live_lease_can_be_stolen :
  let t0 : claims := ∅ in
  let t1 := (step t0 (OClaim "check" 1 "worker-a" 0 (100 * second + second / 2))).2 in
  let '(a, t2) := step t1 (OClaim "check" 1 "worker-b" (100 * second) (200 * second)) in
  a = AClaim (Some 2) /\ (step t2 (ORenew "check" 1 "worker-a" 1 (300 * second))).1 = ARenew false.
Proof. vm_compute. split; reflexivity. Qed.

(** ** Witnesses *)

Definition demo_claims : claims :=
  {[ ("check", 1) := mk_claim 0 "worker-a" 3 (Some (60 * second)) ]}.

Lemma stale_owner_is_fenced_witness :
  (step demo_claims (OComplete "check" 1 "worker-z" 2 (90 * second))).2 = demo_claims.
Proof.
  exact (proj1 (stale_owner_is_fenced ("check", 1) demo_claims "worker-z" 2 []
           (OComplete "check" 1 "worker-z" 2 (90 * second)) [] eq_refl eq_refl)).
Defined.

Lemma claim_due_exclusive_witness :
  exists g, (claim_upsert "check" 1 "worker-b" (61 * second) (120 * second) demo_claims).1 = Some g.
Proof.
  refine (proj2 (claim_due_exclusive "check" 1 "worker-b" (61 * second) (120 * second) demo_claims
            (mk_claim 0 "worker-a" 3 (Some (60 * second))) eq_refl) _ _).
  - vm_compute. discriminate.
  - right. exists (60 * second). split; [reflexivity|]. vm_compute. discriminate.
Defined.

Lemma completed_slot_rests_witness :
  (claim_upsert "check" 1 "worker-b" (88 * second) (120 * second)
    (complete_update "check" 1 "worker-a" 3 (90 * second) demo_claims)).1 = None.
Proof.
  pose proof (completed_slot_rests "check" 1 "worker-a" 3 (90 * second) demo_claims
    (mk_claim 0 "worker-a" 3 (Some (60 * second))) (88 * second) (120 * second) "worker-b"
    eq_refl eq_refl ltac:(vm_compute; discriminate)) as H.
  exact (f_equal fst (proj1 H)).
Defined.
