(* ===== verification/Scheduler.v ===== *)
(** The scheduler ([internal/scheduler/scheduler.go]): its configuration, the
    jitter of its timers, the unit of work it runs for a site under a claim,
    the renewal tick and the bounded fan-out. *)
From Stdlib Require Import Permutation.
From S2P Require Import Prelude GoStr TimeText SqlM FleetDb Claims.
Open Scope string_scope.
Open Scope Z_scope.
Open Scope wf_scope.
Open Scope sql_scope.

(** ** Definitions *)

Record scheduler := mk_scheduler {
  interval : Z; crawlInterval : Z; concurrency : Z; checkLeaseTTL : Z; crawlLeaseTTL : Z }.

(** [New]; durations are [int64] nanoseconds. *)
Definition New (iv civ conc : Z) : scheduler :=
  let iv := if iv <=? 0 then minute else iv in
  let civ := if civ <=? 0 then 6 * hour else civ in
  let conc := if conc <? 1 then 1 else conc in
  let ttl := wrap64 (2 * iv) in
  let ttl := if ttl <? minute then minute else ttl in
  let cttl := Z.quot civ 4 in
  let cttl := if cttl <? 30 * minute then 30 * minute else cttl in
  mk_scheduler iv civ conc ttl cttl.

(** [jitter(d)], for the value [r] that [rand.Int63n(2*spread)] draws. *)
Definition spread (d : Z) : Z := let s := Z.quot d 10 in if s <? second then second else s.
Definition jitter (d r : Z) : Z := d - spread d + r.

(** [siteIDs]. *)
Definition siteIDs : M db (list Z) :=
  query (fun d => List.map s_id (List.filter (fun s =>
    s.(s_enabled) && match s.(s_archived) with None => true | Some _ => false end) d.(sites))).

(** The workers of a crawl round. *)
Definition crawl_workers (s : scheduler) : Z :=
  let w := Z.quot s.(concurrency) 2 in
  let w := if w <? 1 then 1 else w in
  if 4 <? w then 4 else w.

(** [observationDue]: [last] is the newest [checked_at], [Some None] when it
    does not parse. *)
Definition observationDue (last : option (option Z)) (now maxAge : Z) : bool :=
  match last with
  | None => true
  | Some None => true
  | Some (Some t) => maxAge <? now - t
  end.

Inductive action := ACheck | ATls | ADns | ACrawl.

(** What the check round does for a claimed site: [tls] and [dns] are the
    configured services with their last observations. *)
Definition check_actions (tls dns : option (option (option Z))) (now : Z) : list action :=
  ([ACheck]
   ++ match tls with Some last => if observationDue last now (12 * hour) then [ATls] else [] | None => [] end
   ++ match dns with Some last => if observationDue last now hour then [ADns] else [] | None => [] end)%list.

(** The function [RunOnce] and [RunCrawlOnce] give to [runBounded]: claim, work,
    complete.  Errors of the store are logged.  [now] is the clock before the
    claim and [later] the clock when the work is done.  What goes on between the two,
    the renewals and the cancellation of the work, is in [round] below. *)
Definition begin_unit (kind : string) (id : Z) (o : string) (ttl now : Z) : M claims (option Z) :=
  let* r := attempt (ClaimDue kind id o now (now + ttl)) in
  ret (match r with Err _ => None | Ok g => g end).
Definition end_unit (kind : string) (id : Z) (o : string) (g step_ later : Z) : M claims unit :=
  attempt (CompleteClaim kind id o g (later + step_)) ;;; ret tt.
Definition run_unit (kind : string) (id : Z) (o : string) (ttl step_ : Z) (now later : Z)
    (work : list action) : M claims (list action) :=
  let* r := begin_unit kind id o ttl now in
  match r with
  | None => ret []
  | Some g => end_unit kind id o g step_ later ;;; ret work
  end.

Definition RunOnce_unit (s : scheduler) (id : Z) (o : string) (now later : Z)
    (tls dns : option (option (option Z))) : M claims (list action) :=
  run_unit "check" id o s.(checkLeaseTTL) s.(interval) now later (check_actions tls dns later).

Definition RunCrawlOnce_unit (s : scheduler) (id : Z) (o : string) (now later : Z) : M claims (list action) :=
  run_unit "crawl" id o s.(crawlLeaseTTL) s.(crawlInterval) now later [ACrawl].

(** One tick of [renewLoop]: keep going, or cancel the operation and stop. *)
Inductive tick := Keep | Cancel.
Definition lease_ttl (s : scheduler) (kind : string) : Z :=
  if kind =?s "crawl" then s.(crawlLeaseTTL) else s.(checkLeaseTTL).
Definition renew_every (s : scheduler) (kind : string) : Z := Z.quot (lease_ttl s kind) 3.
Definition renew_tick (s : scheduler) (kind : string) (id : Z) (o : string) (g now : Z) : M claims tick :=
  let* r := attempt (RenewClaim kind id o g (now + lease_ttl s kind)) in
  match r with
  | Err _ => ret Keep
  | Ok true => ret Keep
  | Ok false => ret Cancel
  end.

(** *** Many schedulers at work *)

(** A unit between its claim and its completion: [Cancelled] when a renewal found that
    the lease was lost and [cancel()] was called on the context of the work. *)
Inductive phase := Working (g : Z) | Cancelled (g : Z).
Abbreviation unit_of := (string * (string * Z))%type.
(** The table, the clock, and the units that are under way, by the owner that runs
    them and their slot. *)
Record shift := mk_shift { sh_claims : claims; sh_now : Z; sh_units : gmap unit_of phase }.
Definition due_after (s : scheduler) (kind : string) : Z := if kind =?s "crawl" then s.(crawlInterval) else s.(interval).

Section Rounds.
(** The configuration of each owner; [newOwnerID] never gives the empty name. *)
Variable conf : string -> scheduler.

Definition begins (o kind : string) (id : Z) (fl : faults) (st : shift) : shift :=
  let '(r, (t, _)) := begin_unit kind id o (lease_ttl (conf o) kind) st.(sh_now) (st.(sh_claims), fl) in
  mk_shift t st.(sh_now) (match r with Ok (Some g) => <[(o, (kind, id)) := Working g]> st.(sh_units) | _ => st.(sh_units) end).
Definition renews (o kind : string) (id g : Z) (fl : faults) (st : shift) : shift :=
  let '(r, (t, _)) := renew_tick (conf o) kind id o g st.(sh_now) (st.(sh_claims), fl) in
  mk_shift t st.(sh_now) (match r with Ok Cancel => <[(o, (kind, id)) := Cancelled g]> st.(sh_units) | _ => st.(sh_units) end).
Definition completes (o kind : string) (id g : Z) (fl : faults) (st : shift) : shift :=
  let '(_, (t, _)) := end_unit kind id o g (due_after (conf o) kind) st.(sh_now) (st.(sh_claims), fl) in
  mk_shift t st.(sh_now) (delete (o, (kind, id)) st.(sh_units)).
(** Work that was cancelled is completed too, with the context of the scheduler; a
    scheduler that dies leaves its claim behind. *)
Inductive round : shift -> shift -> Prop :=
| round_begins o kind id fl st : o <> "" -> st.(sh_units) !! (o, (kind, id)) = None -> round st (begins o kind id fl st)
| round_renews o kind id g fl st : st.(sh_units) !! (o, (kind, id)) = Some (Working g) -> round st (renews o kind id g fl st)
| round_completes o kind id g fl st : st.(sh_units) !! (o, (kind, id)) = Some (Working g) \/ st.(sh_units) !! (o, (kind, id)) = Some (Cancelled g) ->
    round st (completes o kind id g fl st)
| round_dies o k st : round st (mk_shift st.(sh_claims) st.(sh_now) (delete (o, k) st.(sh_units)))
| round_waits now' st : st.(sh_now) <= now' -> round st (mk_shift st.(sh_claims) now' st.(sh_units)).

(** The lease of whoever is at work has a second to run. *)
Definition timely (st : shift) : Prop := forall o k g c e, st.(sh_units) !! (o, k) = Some (Working g) -> st.(sh_claims) !! k = Some c -> holds c o g = true ->
  c.(lease_until) = Some e -> st.(sh_now) + second <= e.
Definition timely_round (st st' : shift) : Prop := round st st' /\ timely st'.
End Rounds.

(** [runBounded]: a goroutine per id waits for a slot of the semaphore or for
    cancellation, runs, and frees the slot. *)
Record pool := mk_pool { waiting : list Z; running : list Z; finished : list Z; skipped : list Z }.

Inductive pool_step (limit : Z) : pool -> pool -> Prop :=
| pool_acquire w1 id w2 r f s : Z.of_nat (length r) < limit ->
    pool_step limit (mk_pool (w1 ++ id :: w2)%list r f s) (mk_pool (w1 ++ w2)%list (id :: r) f s)
| pool_cancelled w1 id w2 r f s :
    pool_step limit (mk_pool (w1 ++ id :: w2)%list r f s) (mk_pool (w1 ++ w2)%list r f (id :: s))
| pool_release w r1 id r2 f s :
    pool_step limit (mk_pool w (r1 ++ id :: r2)%list f s) (mk_pool w (r1 ++ r2)%list (id :: f) s).

Definition pool_init (ids : list Z) : pool := mk_pool ids [] [] [].

(** ** Lemmas *)

(** The statements of a unit, whether they are refused or not. *)
Lemma begin_unit_cases kind id o ttl now t fl : let '(r, (t', _)) := begin_unit kind id o ttl now (t, fl) in
  (r = Ok None /\ t' = t) \/ exists g, r = Ok (Some g) /\ claim_upsert kind id o now (now + ttl) t = (Some g, t').
Proof.
  unfold begin_unit, ClaimDue. rewrite bind_attempt. unfold stmt.
  destruct fl as [|[] fl]; cbn; try by left.
  all: destruct (claim_upsert kind id o now (now + ttl) t) as [[g|] t1] eqn:E; cbn; [right; by exists g|left; split; [done|]].
  all: unfold claim_upsert in E; repeat case_match; by simplify_eq.
Qed.
Lemma renew_tick_cases s kind id o g now t fl : let '(r, (t', _)) := renew_tick s kind id o g now (t, fl) in
  (r = Ok Keep /\ t' = t) \/ (r = Ok Keep /\ renew_update kind id o g (now + lease_ttl s kind) t = (true, t')) \/
  (r = Ok Cancel /\ t' = t /\ forall c, t !! (kind, id) = Some c -> holds c o g = false).
Proof.
  unfold renew_tick, RenewClaim. rewrite bind_attempt. unfold stmt. destruct fl as [|[] fl]; cbn; try by left.
  all: unfold renew_update; destruct (t !! (kind, id)) as [c|] eqn:E; [destruct (holds c o g) eqn:Eh|]; cbn; right; [by left|right; split_and!; try done..].
  all: intros c' E'; by simplify_eq.
Qed.
Lemma end_unit_cases kind id o g iv now t fl : let '(_, (t', _)) := end_unit kind id o g iv now (t, fl) in
  t' = t \/ t' = complete_update kind id o g (now + iv) t.
Proof. unfold end_unit, CompleteClaim. rewrite bind_attempt. unfold exec, stmt. destruct fl as [|[] fl]; cbn; auto. Qed.
Lemma holds_same c o g o' g' : holds c o g = true -> holds c o' g' = true -> o = o' /\ g = g'.
Proof. unfold holds. intros H1 H2. bool_to_prop. split; congruence. Qed.
Lemma other_slot kind id o now l t k : (kind, id) <> k -> (claim_upsert kind id o now l t).2 !! k = t !! k.
Proof. intros H. unfold claim_upsert. repeat case_match; cbn; by rewrite ?lookup_insert_ne. Qed.
Lemma other_slot_renew kind id o g l t k : (kind, id) <> k -> (renew_update kind id o g l t).2 !! k = t !! k.
Proof. intros H. unfold renew_update. repeat case_match; cbn; by rewrite ?lookup_insert_ne. Qed.
Lemma other_slot_complete kind id o g due t k : (kind, id) <> k -> complete_update kind id o g due t !! k = t !! k.
Proof. intros H. unfold complete_update. repeat case_match; cbn; by rewrite ?lookup_insert_ne. Qed.

Lemma claim_upsert_holds kind id o now l t g :
  (claim_upsert kind id o now l t).1 = Some g ->
  exists c, (claim_upsert kind id o now l t).2 !! (kind, id) = Some c /\ holds c o g = true /\
            c.(lease_until) = Some l.
Proof.
  unfold claim_upsert, holds. repeat case_match; cbn; intros; simplify_eq;
    rewrite lookup_insert_eq; eexists; split_and!; try done; cbn -[Z.eqb Z.add];
    rewrite ?String.eqb_refl, ?Z.eqb_refl; done.
Qed.

Lemma claim_upsert_held kind id o now l t c e :
  t !! (kind, id) = Some c -> c.(owner) <> "" -> c.(lease_until) = Some e -> now + second <= e ->
  claim_upsert kind id o now l t = (None, t).
Proof.
  intros Hc Ho Hl Hle. unfold claim_upsert, claimable. rewrite Hc, Hl.
  apply String.eqb_neq in Ho as ->. cbn.
  assert (text_leb e now = false) as ->.
  { rewrite <- (negb_involutive (text_leb e now)), <- text_ltb_leb, text_ltb_far; done. }
  by rewrite andb_false_r.
Qed.

Lemma spread_small d : second < d -> spread d < d.
Proof.
  unfold spread. destruct (Z.ltb_spec (Z.quot d 10) second) as [_|Hq]; [done|].
  intros H. apply Z.quot_lt; [|lia]. assert (0 < second) by done. lia.
Qed.

(** ** Properties *)

Section Exclusion.
Context (conf : string -> scheduler).

(** Whoever is at work holds the row of its slot. *)
Definition exclusive (st : shift) : Prop := forall o k p, st.(sh_units) !! (o, k) = Some p ->
  o <> "" /\ exists g c e, p = Working g /\ st.(sh_claims) !! k = Some c /\ holds c o g = true /\ c.(lease_until) = Some e.
Lemma begins_exclusive o kind id fl st : exclusive st -> timely st -> o <> "" -> exclusive (begins conf o kind id fl st).
Proof using.
  intros Hx Ht Ho. unfold begins. pose proof (begin_unit_cases kind id o (lease_ttl (conf o) kind) (sh_now st) (sh_claims st) fl) as H.
  destruct (begin_unit _ _ _ _ _ _) as [r [t fl']]. destruct H as [[-> ->]|(g & -> & E)]; [exact Hx|]. intros o' k' q. cbn [sh_units sh_claims].
  destruct (decide ((o', k') = (o, (kind, id)))) as [E'|Hn].
  - injection E' as -> ->. rewrite lookup_insert_eq. intros [= <-]. split; [done|].
    destruct (claim_upsert_holds kind id o (sh_now st) (sh_now st + lease_ttl (conf o) kind) (sh_claims st) g) as (c & Hc & Hh & Hl); [by rewrite E|]. rewrite E in Hc. by exists g, c, (sh_now st + lease_ttl (conf o) kind).
  - rewrite lookup_insert_ne by done. intros Hq. destruct (Hx _ _ _ Hq) as (Ho' & g' & c & e & -> & Hc & Hh & Hl). split; [done|].
    destruct (decide ((kind, id) = k')) as [<-|Hk].
    + exfalso. pose proof (Ht _ _ _ _ _ Hq Hc Hh Hl) as Hlt. rewrite (claim_upsert_held _ _ _ _ _ _ c e Hc) in E; try done. unfold holds in Hh. bool_to_prop. congruence.
    + exists g', c, e. split_and!; try done. pose proof (other_slot kind id o (sh_now st) (sh_now st + lease_ttl (conf o) kind) (sh_claims st) k' Hk) as Hs. rewrite E in Hs. cbn in Hs. by rewrite Hs.
Qed.
Lemma renews_exclusive o kind id g fl st : exclusive st -> st.(sh_units) !! (o, (kind, id)) = Some (Working g) -> exclusive (renews conf o kind id g fl st).
Proof using.
  intros Hx Hu. unfold renews. pose proof (renew_tick_cases (conf o) kind id o g (sh_now st) (sh_claims st) fl) as H.
  destruct (renew_tick _ _ _ _ _ _ _) as [r [t fl']]. destruct (Hx _ _ _ Hu) as (Ho & g0 & c & e & [= <-] & Hc & Hh & Hl).
  destruct H as [[-> ->]|[[-> E]|(_ & _ & H)]]; [exact Hx| |by rewrite (H c Hc) in Hh]. intros o' k' q. cbn [sh_units sh_claims]. intros Hq.
  destruct (Hx _ _ _ Hq) as (Ho' & g' & c' & e' & -> & Hc' & Hh' & Hl'). split; [done|]. destruct (decide ((kind, id) = k')) as [<-|Hk].
  - rewrite Hc in Hc'. injection Hc' as <-. unfold renew_update in E. rewrite Hc, Hh in E. injection E as <-. eexists g', _, _. split; [done|]. rewrite lookup_insert_eq. by split_and!.
  - exists g', c', e'. pose proof (other_slot_renew kind id o g (sh_now st + lease_ttl (conf o) kind) (sh_claims st) k' Hk) as Hs. rewrite E in Hs. cbn in Hs. by rewrite Hs.
Qed.
Lemma completes_exclusive o kind id g fl st : exclusive st -> st.(sh_units) !! (o, (kind, id)) = Some (Working g) -> exclusive (completes conf o kind id g fl st).
Proof using.
  intros Hx Hu. unfold completes. pose proof (end_unit_cases kind id o g (due_after (conf o) kind) (sh_now st) (sh_claims st) fl) as H.
  destruct (end_unit _ _ _ _ _ _ _) as [r [t fl']]. destruct (Hx _ _ _ Hu) as (Ho & g0 & c & e & [= <-] & Hc & Hh & Hl).
  intros o' k' q. cbn [sh_units sh_claims]. intros [Hn Hq]%lookup_delete_Some. destruct (Hx _ _ _ Hq) as (Ho' & g' & c' & e' & -> & Hc' & Hh' & Hl'). split; [done|]. exists g', c', e'.
  split_and!; try done. destruct H as [->| ->]; [done|]. destruct (decide ((kind, id) = k')) as [<-|Hk]; [|by rewrite other_slot_complete].
  rewrite Hc in Hc'. injection Hc' as <-. by destruct (holds_same _ _ _ _ _ Hh Hh') as [-> _].
Qed.
Lemma round_exclusive st st' : exclusive st -> timely st -> round conf st st' -> exclusive st'.
Proof using.
  intros Hx Ht H. destruct H as [o kind id fl st Ho Hu|o kind id g fl st Hu|o kind id g fl st Hu|o k st|now' st Hn].
  - by apply begins_exclusive.
  - by apply renews_exclusive.
  - destruct Hu as [Hu|Hu]; [by apply completes_exclusive|]. by destruct (Hx _ _ _ Hu) as (_ & g' & c & e & [=] & _).
  - intros o' k' q Hq. cbn in Hq. apply lookup_delete_Some in Hq as [_ Hq]. exact (Hx _ _ _ Hq).
  - exact Hx.
Qed.
Lemma shift_exclusive t0 n0 st : star (timely_round conf) (mk_shift t0 n0 ∅) st -> exclusive st /\ timely st.
Proof using.
  apply (star_invariant (timely_round conf) (fun st => exclusive st /\ timely st)).
  - intros x y [Hx Ht] [Hr Ht']. split; [by eapply round_exclusive|done].
  - split; [intros o k q Hq|intros o k g c e Hq]; cbn in Hq; by rewrite lookup_empty in Hq.
Qed.

(** A slot that rests until [due]: its row is free, and nobody is at work. *)
Definition rests (k : string * Z) (due : Z) (st : shift) : Prop :=
  (exists c, st.(sh_claims) !! k = Some c /\ c.(owner) = "" /\ c.(next_due) = due) /\ (forall o, st.(sh_units) !! (o, k) = None).
Lemma round_rests k due st st' : (st.(sh_now) + second <= due -> rests k due st) -> round conf st st' -> st'.(sh_now) + second <= due -> rests k due st'.
Proof using.
  intros Hx H. destruct H as [o kind id fl st Ho Hu|o kind id g fl st Hu|o kind id g fl st Hu|o k' st|now' st Hn]; unfold begins, renews, completes.
  - pose proof (begin_unit_cases kind id o (lease_ttl (conf o) kind) (sh_now st) (sh_claims st) fl) as H. destruct (begin_unit _ _ _ _ _ _) as [r [t fl']].
    destruct H as [[-> ->]|(g & -> & E)]; [exact Hx|]. cbn [sh_now sh_units sh_claims]. intros Hd. destruct (Hx Hd) as [(c & Hc & Ho' & Hdue) Hun]. destruct (decide ((kind, id) = k)) as [<-|Hk].
    + exfalso. unfold claim_upsert, claimable in E. rewrite Hc, Hdue in E. assert (text_leb due (sh_now st) = false) as Hf; [|by rewrite Hf in E].
      rewrite <- (negb_involutive (text_leb _ _)), <- text_ltb_leb, text_ltb_far; done.
    + split; [|intros o'; cbn; by rewrite lookup_insert_ne by congruence]. exists c. split; [|done].
      pose proof (other_slot kind id o (sh_now st) (sh_now st + lease_ttl (conf o) kind) (sh_claims st) k Hk) as Hs. rewrite E in Hs. cbn in Hs |- *. by rewrite Hs.
  - pose proof (renew_tick_cases (conf o) kind id o g (sh_now st) (sh_claims st) fl) as H. destruct (renew_tick _ _ _ _ _ _ _) as [r [t fl']]. cbn [sh_now sh_units sh_claims].
    assert (sh_now st + second <= due -> (kind, id) <> k) as Hk by (intros Hd <-; by rewrite (proj2 (Hx Hd) o) in Hu).
    destruct H as [[-> ->]|[[-> E]|(-> & -> & _)]]; [exact Hx| |]; intros Hd; destruct (Hx Hd) as [(c & Hc & Ho' & Hdue) Hun]; specialize (Hk Hd).
    + split; [|done]. exists c. split; [|done]. pose proof (other_slot_renew kind id o g (sh_now st + lease_ttl (conf o) kind) (sh_claims st) k Hk) as Hs. rewrite E in Hs. cbn in Hs |- *. by rewrite Hs.
    + split; [by exists c|]. intros o'. cbn. by rewrite lookup_insert_ne by congruence.
  - pose proof (end_unit_cases kind id o g (due_after (conf o) kind) (sh_now st) (sh_claims st) fl) as H. destruct (end_unit _ _ _ _ _ _ _) as [r [t fl']]. cbn [sh_now sh_units sh_claims].
    intros Hd. destruct (Hx Hd) as [(c & Hc & Ho' & Hdue) Hun]. assert ((kind, id) <> k) as Hk by (intros <-; rewrite (Hun o) in Hu; by destruct Hu). split.
    + exists c. split; [|done]. destruct H as [->| ->]; [done|cbn; by rewrite other_slot_complete].
    + intros o'. apply lookup_delete_None. auto.
  - cbn. intros Hd. destruct (Hx Hd) as [Hc Hun]. split; [done|]. intros o'. apply lookup_delete_None. auto.
  - cbn. intros Hd. apply Hx. lia.
Qed.

(** C11: no work is done twice.  Any number of schedulers claim, renew, complete and die
    in any order, whatever statements are refused; as long as the lease of each unit at
    work has a second to run, no two owners are ever at work on the same slot, and no
    work is cancelled.  When a unit is then completed, nobody works on its slot until a
    second before it is due again, whatever else happens, late leases included. *)
Theorem no_duplicate_work t0 n0 st : star (timely_round conf) (mk_shift t0 n0 ∅) st ->
  (forall o o' k p p', st.(sh_units) !! (o, k) = Some p -> st.(sh_units) !! (o', k) = Some p' -> o = o' /\ exists g, p = Working g) /\
  (forall o kind id g st2, st.(sh_units) !! (o, (kind, id)) = Some (Working g) -> star (round conf) (completes conf o kind id g [] st) st2 ->
     st2.(sh_now) + second <= st.(sh_now) + due_after (conf o) kind -> forall o', st2.(sh_units) !! (o', (kind, id)) = None).
Proof using.
  intros Hs. apply shift_exclusive in Hs as [Hx Ht]. assert (forall o o' k p p', st.(sh_units) !! (o, k) = Some p -> st.(sh_units) !! (o', k) = Some p' -> o = o' /\ exists g, p = Working g) as Hone.
  { intros o o' k p p' H1 H2. destruct (Hx _ _ _ H1) as (_ & g & c & e & -> & Hc & Hh & _), (Hx _ _ _ H2) as (_ & g' & c' & e' & -> & Hc' & Hh' & _).
    rewrite Hc in Hc'. injection Hc' as <-. split; [by destruct (holds_same _ _ _ _ _ Hh Hh')|by exists g]. }
  split; [exact Hone|]. intros o kind id g st2 Hu Hstar. set (due := sh_now st + due_after (conf o) kind).
  enough (sh_now st2 + second <= due -> rests (kind, id) due st2) as H by (intros Hd; apply H, Hd).
  revert Hstar. apply (star_invariant (round conf) (fun st2 => sh_now st2 + second <= due -> rests (kind, id) due st2)).
  - intros x y Hr Hxy. exact (round_rests _ _ x y Hr Hxy).
  - intros _. destruct (Hx _ _ _ Hu) as (Ho & g0 & c & e & [= <-] & Hc & Hh & Hl). unfold completes, end_unit, CompleteClaim. rewrite bind_attempt. cbn [exec stmt ret sh_claims sh_units].
    unfold complete_update. rewrite Hc, Hh. cbn [sh_claims sh_units]. split.
    + eexists. cbn [sh_claims]. rewrite lookup_insert_eq. split; [reflexivity|done].
    + intros o'. cbn [sh_units]. destruct (decide (o' = o)) as [->|Hn]; [apply lookup_delete_eq|]. rewrite lookup_delete_ne by congruence.
      destruct (sh_units st !! (o', (kind, id))) as [q|] eqn:Eq; [|done]. by destruct (Hone _ _ _ _ _ Hu Eq) as [-> _].
Qed.
End Exclusion.

(** The configuration is safe: whatever the operator gives, the interval,
    the concurrency and both leases are positive, a lease is renewed at least
    twice before it would end, a crawl round has one to four workers, and (for
    intervals below 146 years) a check lease outlives two rounds. *)
Theorem scheduler_configuration iv civ conc :
  let s := New iv civ conc in
  0 < s.(interval) /\ 0 < s.(crawlInterval) /\ 1 <= s.(concurrency) /\
  minute <= s.(checkLeaseTTL) /\ 30 * minute <= s.(crawlLeaseTTL) /\
  1 <= crawl_workers s <= 4 /\
  (forall kind, 0 < renew_every s kind /\ 2 * renew_every s kind < lease_ttl s kind) /\
  (s.(interval) < 2 ^ 62 -> 2 * s.(interval) <= s.(checkLeaseTTL)).
Proof.
  unfold New; cbn. unfold crawl_workers, renew_every, lease_ttl; cbn.
  unfold minute, hour, minute, second.
  set (i := if iv <=? 0 then _ else iv). set (ci := if civ <=? 0 then _ else civ).
  set (n := if conc <? 1 then 1 else conc).
  assert (0 < i) by (unfold i; destruct (Z.leb_spec iv 0); unfold minute, second; lia).
  assert (0 < ci) by (unfold ci; destruct (Z.leb_spec civ 0); unfold hour, minute, second; lia).
  assert (1 <= n) by (unfold n; destruct (Z.ltb_spec conc 1); lia).
  assert (Hq : forall x k, 0 <= x -> 0 < k -> k * Z.quot x k <= x < k * Z.quot x k + k).
  { intros x k Hx Hk. pose proof (Z.quot_rem' x k). pose proof (Z.rem_bound_pos x k). lia. }
  split_and!; try lia.
  - destruct (Z.ltb_spec (wrap64 (2 * i)) (60 * 1000000000)); lia.
  - destruct (Z.ltb_spec (Z.quot ci 4) (30 * (60 * 1000000000))); lia.
  - destruct (Z.ltb_spec (Z.quot n 2) 1); case_match; bool_to_prop; lia.
  - destruct (Z.ltb_spec (Z.quot n 2) 1); case_match; bool_to_prop; lia.
  - set (c1 := if wrap64 (2 * i) <? _ then _ else _). set (c2 := if Z.quot ci 4 <? _ then _ else _).
    assert (60 * 1000000000 <= c1) by (unfold c1; destruct (Z.ltb_spec (wrap64 (2 * i)) (60 * 1000000000)); lia).
    assert (30 * (60 * 1000000000) <= c2) by (unfold c2; destruct (Z.ltb_spec (Z.quot ci 4) (30 * (60 * 1000000000))); lia).
    intros kind. destruct (kind =?s "crawl");
      [pose proof (Hq c2 3)|pose proof (Hq c1 3)]; lia.
  - intros Hi. rewrite wrap64_small by lia. destruct (Z.ltb_spec (2 * i) (60 * 1000000000)); lia.
Qed.

(** A timer fires within a tenth of its interval (or a second) of it:
    whatever the generator draws below [2*spread]. *)
Theorem jitter_within_spread d r :
  0 < d -> 0 <= r < 2 * spread d ->
  d - spread d <= jitter d r < d + spread d /\ (second < d -> 0 < jitter d r).
Proof.
  intros Hd Hr. pose proof (spread_small d) as Hs. unfold jitter.
  generalize dependent (spread d). intros x Hr Hs. split; [lia|]. intros H. specialize (Hs H). lia.
Qed.

(** The fan-out is bounded and loses nothing: in every reachable state at
    most [limit] sites are being worked on, and the ids waiting, running,
    finished and skipped by cancellation are exactly the ids it was given. *)
Theorem run_bounded_invariant limit ids p :
  0 <= limit -> star (pool_step limit) (pool_init ids) p ->
  Z.of_nat (length p.(running)) <= limit /\
  Permutation ids (p.(waiting) ++ p.(running) ++ p.(finished) ++ p.(skipped))%list.
Proof.
  intros Hl. apply (star_invariant (pool_step limit) (fun p =>
    Z.of_nat (length p.(running)) <= limit /\
    Permutation ids (p.(waiting) ++ p.(running) ++ p.(finished) ++ p.(skipped))%list)).
  - intros x y [H1 H2] Hs. destruct Hs; cbn in *.
    + split; [lia|]. rewrite H2, <- !app_assoc. cbn. rewrite <- !Permutation_middle. done.
    + split; [done|]. rewrite H2, <- !app_assoc. cbn. rewrite <- Permutation_middle.
      rewrite !(app_assoc _ _ (id :: _)), <- Permutation_middle, <- !app_assoc. done.
    + rewrite length_app in *; cbn in *. split; [lia|].
      rewrite H2, <- !app_assoc. cbn. by rewrite <- !Permutation_middle.
  - cbn. rewrite app_nil_r. split; [lia|done].
Qed.

(** ** Witnesses *)

(** Two schedulers, of which the first gets the slot; the second tries in vain while the
    first has still to renew, and again later. *)
Definition demo_conf (_ : string) : scheduler := New minute 0 1.
Definition demo_free : shift := mk_shift ∅ 0 ∅.
Definition demo_taken : shift := begins demo_conf "worker-a" "check" 1 [] demo_free.
Definition demo_tried : shift := begins demo_conf "worker-b" "check" 1 [] (mk_shift demo_taken.(sh_claims) minute demo_taken.(sh_units)).
Lemma timely_one st o k g c e : st.(sh_units) = {[(o, k) := Working g]} -> st.(sh_claims) !! k = Some c -> c.(lease_until) = Some e -> st.(sh_now) + second <= e -> timely st.
Proof.
  intros Hu Hc Hl Ht o' k' g' c' e' Hu' Hc' _ Hl'. rewrite Hu in Hu'. apply lookup_singleton_Some in Hu' as [[= <- <-] _]. congruence.
Qed.
Lemma no_duplicate_work_witness : demo_tried.(sh_units) !! ("worker-a", ("check", 1)) = Some (Working 1) /\
  (completes demo_conf "worker-a" "check" 1 1 [] demo_tried).(sh_units) !! ("worker-b", ("check", 1)) = None.
Proof.
  split; [vm_compute; reflexivity|].
  refine (proj2 (no_duplicate_work demo_conf ∅ 0 demo_tried _) "worker-a" "check" 1 1 (completes demo_conf "worker-a" "check" 1 1 [] demo_tried) _ (star_refl _ _) _ "worker-b").
  - eapply star_step; [eapply star_step; [eapply star_step; [apply star_refl|]|]|].
    + split; [by apply (round_begins demo_conf "worker-a" "check" 1 [] demo_free)|]. eapply (timely_one _ "worker-a" ("check", 1)); vm_compute; reflexivity || discriminate.
    + split; [by apply (round_waits demo_conf minute demo_taken)|]. eapply (timely_one _ "worker-a" ("check", 1)); vm_compute; reflexivity || discriminate.
    + split; [by apply (round_begins demo_conf "worker-b" "check" 1 [] (mk_shift demo_taken.(sh_claims) minute demo_taken.(sh_units)))|].
      eapply (timely_one _ "worker-a" ("check", 1)); vm_compute; reflexivity || discriminate.
  - vm_compute. reflexivity.
  - vm_compute. discriminate.
Defined.

Lemma jitter_within_spread_witness :
  minute - spread minute <= jitter minute 7 < minute + spread minute /\ (second < minute -> 0 < jitter minute 7).
Proof. apply (jitter_within_spread minute 7); vm_compute; [done|split; [discriminate|done]]. Defined.

Lemma run_bounded_invariant_witness :
  let p := mk_pool [6] [5] [] [4] in
  Z.of_nat (length p.(running)) <= 1 /\ Permutation [4; 5; 6] (p.(waiting) ++ p.(running) ++ p.(finished) ++ p.(skipped))%list.
Proof.
  cbv zeta. apply (run_bounded_invariant 1 [4; 5; 6] (mk_pool [6] [5] [] [4])); [done|].
  eapply star_step; [eapply star_step; [apply star_refl|]|].
  - apply (pool_cancelled 1 [] 4 [5; 6] [] [] []).
  - apply (pool_acquire 1 [] 5 [6] [] [] [4]). done.
Defined.
