(* ===== verification/Netguard.v ===== *)
(** The network guard ([internal/netguard/netguard.go]): which addresses are
    blocked, how a target is validated, and how a connection is dialed.

    An address is a [netip.Addr]: 32 or 128 bits, the latter with a zone.  The
    resolver and the dialer are the network's: parameters of the definitions. *)
From S2P Require Import Prelude GoStr.
Open Scope string_scope.
Open Scope Z_scope.
Open Scope wf_scope.

(** ** Addresses ([net/netip]) *)

Inductive addr :=
| V4 (a : Z)
| V6 (a : Z) (zone : string).

#[export] Instance addr_eq_dec : EqDecision addr.
Proof. solve_decision. Defined.

Definition addr_ok (ip : addr) : Prop :=
  match ip with V4 a => 0 <= a < 2 ^ 32 | V6 a _ => 0 <= a < 2 ^ 128 end.

(** [Unmap]: [::ffff:a.b.c.d] becomes [a.b.c.d]. *)
Definition Unmap (ip : addr) : addr :=
  match ip with
  | V6 a _ => if Z.shiftr a 32 =? 65535 then V4 (Z.land a (Z.ones 32)) else ip
  | V4 _ => ip
  end.

(** The byte of weight [i] of a 32-bit address, the first one being 0. *)
Definition v4 (a i : Z) : Z := Z.land (Z.shiftr a (24 - 8 * i)) 255.
Definition v6 (a i : Z) : Z := Z.land (Z.shiftr a (120 - 8 * i)) 255.
Definition v6u16 (a i : Z) : Z := Z.land (Z.shiftr a (112 - 16 * i)) 65535.

Definition IsLoopback (ip : addr) : bool :=
  match ip with V4 a => v4 a 0 =? 127 | V6 a _ => a =? 1 end.
Definition IsPrivate (ip : addr) : bool :=
  match ip with
  | V4 a => (v4 a 0 =? 10) || ((v4 a 0 =? 172) && (Z.land (v4 a 1) 240 =? 16))
            || ((v4 a 0 =? 192) && (v4 a 1 =? 168))
  | V6 a _ => Z.land (v6 a 0) 254 =? 252
  end.
Definition IsLinkLocalUnicast (ip : addr) : bool :=
  match ip with
  | V4 a => (v4 a 0 =? 169) && (v4 a 1 =? 254)
  | V6 a _ => Z.land (v6u16 a 0) 65472 =? 65152
  end.
Definition IsLinkLocalMulticast (ip : addr) : bool :=
  match ip with
  | V4 a => (v4 a 0 =? 224) && (v4 a 1 =? 0) && (v4 a 2 =? 0)
  | V6 a _ => Z.land (v6u16 a 0) 65295 =? 65282
  end.
Definition IsMulticast (ip : addr) : bool :=
  match ip with V4 a => Z.land (v4 a 0) 240 =? 224 | V6 a _ => v6 a 0 =? 255 end.
Definition IsUnspecified (ip : addr) : bool :=
  bool_decide (ip = V4 0) || bool_decide (ip = V6 0 "").

Record prefix := mk_prefix { p_addr : addr; p_bits : Z }.
(** [Prefix.Contains]: families must agree and zones never match. *)
Definition Contains (p : prefix) (ip : addr) : bool :=
  match p.(p_addr), ip with
  | V4 n, V4 a => Z.shiftr (Z.lxor a n) (32 - p.(p_bits)) =? 0
  | V6 n _, V6 a z => (z =?s "") && (Z.shiftr (Z.lxor a n) (128 - p.(p_bits)) =? 0)
  | _, _ => false
  end.

Definition quad (a b c d : Z) : Z := ((a * 256 + b) * 256 + c) * 256 + d.

(** ** The guard *)

Definition reserved : list prefix :=
  [mk_prefix (V4 (quad 0 0 0 0)) 8; mk_prefix (V4 (quad 100 64 0 0)) 10;
   mk_prefix (V4 (quad 192 0 0 0)) 24; mk_prefix (V4 (quad 192 0 2 0)) 24;
   mk_prefix (V4 (quad 198 18 0 0)) 15; mk_prefix (V4 (quad 198 51 100 0)) 24;
   mk_prefix (V4 (quad 203 0 113 0)) 24; mk_prefix (V4 (quad 240 0 0 0)) 4;
   mk_prefix (V6 (Z.shiftl 536939960 96) "") 32].

Definition Blocked (ip : addr) : bool :=
  let ip := Unmap ip in
  if IsLoopback ip || IsPrivate ip || IsLinkLocalUnicast ip || IsLinkLocalMulticast ip
     || IsMulticast ip || IsUnspecified ip
  then true
  else existsb (fun p => Contains p ip) reserved.

Section Guard.
(** [Guard]: the resolver and the test-only permission. *)
Variable LookupNetIP : string -> result (list addr).
Variable AllowPrivate : bool.
Variable addr_string : addr -> string.

Fixpoint validate_ips (ips : list addr) : result unit :=
  match ips with
  | [] => Ok tt
  | ip :: ips' =>
      if negb AllowPrivate && Blocked ip
      then Err ("target resolved to blocked address " ++ addr_string ip)
      else validate_ips ips'
  end.

Definition ValidateHost (host : string) : result unit :=
  if host =?s "" then Err "target has no hostname" else
  match LookupNetIP host with
  | Err e => Err ("resolve target: " ++ e)
  | Ok [] => Err "target resolved to no addresses"
  | Ok ips => validate_ips ips
  end.

(** [ValidateURL], on the scheme and the host name of the URL. *)
Definition ValidateURL (scheme hostname : string) : result unit :=
  if negb (scheme =?s "http") && negb (scheme =?s "https")
  then Err "only http/https targets are allowed"
  else ValidateHost hostname.

(** The loop over the answer: the first blocked address and the allowed ones. *)
Fixpoint partition_ips (ips : list addr) (blocked : option addr) (allowed : list addr)
    : option addr * list addr :=
  match ips with
  | [] => (blocked, allowed)
  | ip :: ips' =>
      let ip := Unmap ip in
      if negb AllowPrivate && Blocked ip
      then partition_ips ips' (match blocked with None => Some ip | Some _ => blocked end) allowed
      else partition_ips ips' blocked (allowed ++ [ip])%list
  end.

Variable Conn : Type.
(** [net.Dialer.DialContext] to an address and a port. *)
Variable dial : addr -> string -> result Conn.

(** The dial loop: the outcome and the addresses a connection was tried to. *)
Fixpoint dial_loop (ips : list addr) (port last : string) : result Conn * list addr :=
  match ips with
  | [] => (Err last, [])
  | ip :: ips' =>
      match dial ip port with
      | Ok c => (Ok c, [ip])
      | Err e => let '(r, tried) := dial_loop ips' port e in (r, ip :: tried)
      end
  end.

(** [DialContext], [hp] being what [net.SplitHostPort] made of the address. *)
Definition DialContext (hp : result (string * string)) : result Conn * list addr :=
  match hp with
  | Err e => (Err e, [])
  | Ok (host, port) =>
      match LookupNetIP host with
      | Err e => (Err e, [])
      | Ok [] => (Err ("no addresses returned for " ++ host), [])
      | Ok ips =>
          match partition_ips ips None [] with
          | (Some b, _) => (Err ("target resolution contains blocked address " ++ addr_string b), [])
          | (None, []) => (Err ("no usable target addresses for " ++ host), [])
          | (None, allowed) => dial_loop allowed port "no usable target addresses"
          end
      end
  end.
End Guard.

(** ** The ranges, as intervals *)

(** Every blocked range of the two families: first and last address. *)
Definition blocked4 : list (Z * Z) :=
  [(quad 0 0 0 0, quad 0 255 255 255); (quad 10 0 0 0, quad 10 255 255 255);
   (quad 100 64 0 0, quad 100 127 255 255); (quad 127 0 0 0, quad 127 255 255 255);
   (quad 169 254 0 0, quad 169 254 255 255); (quad 172 16 0 0, quad 172 31 255 255);
   (quad 192 0 0 0, quad 192 0 0 255); (quad 192 0 2 0, quad 192 0 2 255);
   (quad 192 168 0 0, quad 192 168 255 255); (quad 198 18 0 0, quad 198 19 255 255);
   (quad 198 51 100 0, quad 198 51 100 255); (quad 203 0 113 0, quad 203 0 113 255);
   (quad 224 0 0 0, quad 255 255 255 255)].
Definition blocked6 : list (Z * Z) :=
  [(0, 1);
   (Z.shiftl 64512 112, Z.shiftl 65024 112 - 1);          (* fc00::/7 *)
   (Z.shiftl 65152 112, Z.shiftl 65216 112 - 1);          (* fe80::/10 *)
   (Z.shiftl 65280 112, 2 ^ 128 - 1);                     (* ff00::/8 *)
   (Z.shiftl 536939960 96, Z.shiftl 536939961 96 - 1)].   (* 2001:db8::/32 *)
Definition in_ranges (l : list (Z * Z)) (a : Z) : bool :=
  existsb (fun '(lo, hi) => (lo <=? a) && (a <=? hi)) l.
(** The reference: a mapped address is judged as the IPv4 address in it. *)
Definition blocked_spec (ip : addr) : bool :=
  match ip with
  | V4 a => in_ranges blocked4 a
  | V6 a _ => if (Z.shiftl 65535 32 <=? a) && (a <? Z.shiftl 65536 32)
              then in_ranges blocked4 (a - Z.shiftl 65535 32)
              else in_ranges blocked6 a
  end.

(** ** Lemmas *)

Lemma land_255 x : Z.land x 255 = x mod 256.
Proof. apply (Z.land_ones x 8). done. Qed.

Fixpoint zseq (n : nat) (lo : Z) : list Z :=
  match n with O => [] | S n' => lo :: zseq n' (lo + 1) end.

Lemma in_zseq n lo x : lo <= x < lo + Z.of_nat n -> In x (zseq n lo).
Proof.
  revert lo. induction n as [|n IH]; intros lo H; [lia|].
  destruct (decide (x = lo)) as [->|]; [by left|]. right. apply IH. lia.
Qed.

(** Exhaustive check of the fields of [n] values. *)
Lemma forallb_range (P : Z -> bool) n x :
  List.forallb P (zseq (Z.to_nat n) 0) = true -> 0 <= x < n -> P x = true.
Proof. rewrite List.forallb_forall. intros H Hx. apply H, in_zseq. lia. Qed.

Lemma v4_div a i : 0 <= 24 - 8 * i -> v4 a i = (a / 2 ^ (24 - 8 * i)) mod 256.
Proof. intros H. unfold v4. by rewrite land_255, Z.shiftr_div_pow2. Qed.

Lemma contains4 n b a : 0 <= 32 - b ->
  Contains (mk_prefix (V4 n) b) (V4 a) = (a / 2 ^ (32 - b) =? n / 2 ^ (32 - b)).
Proof.
  intros Hb. cbn. apply eq_true_iff_eq. rewrite !Z.eqb_eq, Z.shiftr_lxor, Z.lxor_eq_0_iff.
  by rewrite !Z.shiftr_div_pow2.
Qed.

Lemma contains6 n b a : 0 <= 128 - b ->
  Contains (mk_prefix (V6 n "") b) (V6 a "") = (a / 2 ^ (128 - b) =? n / 2 ^ (128 - b)).
Proof.
  intros Hb. cbn. apply eq_true_iff_eq. rewrite !Z.eqb_eq, Z.shiftr_lxor, Z.lxor_eq_0_iff.
  by rewrite !Z.shiftr_div_pow2.
Qed.

Definition between (lo hi a : Z) : bool := (lo <=? a) && (a <=? hi).

(** A field of an address has a value exactly when the address lies in an
    interval. *)
Ltac by_division :=
  unfold between, quad; apply eq_true_iff_eq;
  rewrite ?orb_true_iff, ?andb_true_iff, ?Z.eqb_eq, ?Z.leb_le, ?Z.ltb_lt;
  Z.div_mod_to_equations; lia.

Lemma mask4 m v lo hi : In (m, v, lo, hi) [(240, 16, 16, 31); (240, 224, 224, 239); (254, 252, 252, 253)] ->
  forall x, 0 <= x < 256 -> (Z.land x m =? v) = between lo hi x.
Proof.
  intros H x Hx. apply eqb_true_iff.
  apply (forallb_range (fun x => eqb (Z.land x m =? v) (between lo hi x)) 256); [|done].
  destruct H as [H|[H|[H|[]]]]; simplify_eq; vm_compute; reflexivity.
Qed.

Lemma mask_link_local x : 0 <= x < 65536 -> (Z.land x 65472 =? 65152) = between 65152 65215 x.
Proof.
  intros Hx. apply eqb_true_iff.
  apply (forallb_range (fun x => eqb (Z.land x 65472 =? 65152) (between 65152 65215 x)) 65536); [|done].
  vm_compute. reflexivity.
Qed.

Lemma mask_link_multicast x : 0 <= x < 65536 ->
  (Z.land x 65295 =? 65282) = true -> between 65280 65535 x = true.
Proof.
  intros Hx H.
  assert (implb (Z.land x 65295 =? 65282) (between 65280 65535 x) = true) as Hi; [|by rewrite H in Hi].
  apply (forallb_range (fun x => implb (Z.land x 65295 =? 65282) (between 65280 65535 x)) 65536); [|done].
  vm_compute. reflexivity.
Qed.

(** The tests on the bytes of an IPv4 address, as intervals. *)
Section Fields.
Variable a : Z.
Hypothesis Ha : 0 <= a < 2 ^ 32.
Abbreviation byte i := ((a / 2 ^ (24 - 8 * i)) mod 256) (only parsing).

Lemma byte0 n : 0 <= n < 256 -> (byte 0 =? n) = between (quad n 0 0 0) (quad n 255 255 255) a.
Proof using Ha. intros Hn. change (24 - 8 * 0) with 24. by_division. Qed.

Lemma byte0_between m n : 0 <= m <= n -> n < 256 ->
  between m n (byte 0) = between (quad m 0 0 0) (quad n 255 255 255) a.
Proof using Ha. intros Hm Hn. change (24 - 8 * 0) with 24. by_division. Qed.

Lemma byte01 m n : 0 <= m < 256 -> 0 <= n < 256 ->
  (byte 0 =? m) && (byte 1 =? n) = between (quad m n 0 0) (quad m n 255 255) a.
Proof using Ha.
  intros Hm Hn. change (24 - 8 * 0) with 24. change (24 - 8 * 1) with 16. by_division.
Qed.

Lemma byte01_between m n p : 0 <= m < 256 -> 0 <= n <= p -> p < 256 ->
  (byte 0 =? m) && between n p (byte 1) = between (quad m n 0 0) (quad m p 255 255) a.
Proof using Ha.
  intros Hm Hn Hp. change (24 - 8 * 0) with 24. change (24 - 8 * 1) with 16. by_division.
Qed.

Lemma byte012 m n p : 0 <= m < 256 -> 0 <= n < 256 -> 0 <= p < 256 ->
  (byte 0 =? m) && (byte 1 =? n) && (byte 2 =? p) = between (quad m n p 0) (quad m n p 255) a.
Proof using Ha.
  intros Hm Hn Hp. change (24 - 8 * 0) with 24. change (24 - 8 * 1) with 16.
  change (24 - 8 * 2) with 8. by_division.
Qed.

Lemma contains_between n k : 0 <= k <= 32 ->
  Contains (mk_prefix (V4 n) (32 - k)) (V4 a)
  = between (n / 2 ^ k * 2 ^ k) (n / 2 ^ k * 2 ^ k + 2 ^ k - 1) a.
Proof using Ha.
  intros Hk. rewrite contains4 by lia. replace (32 - (32 - k)) with k by lia.
  assert (Hp : 0 < 2 ^ k) by lia. generalize dependent (2 ^ k); intros p Hp.
  generalize (n / p); intros q. unfold between. apply eq_true_iff_eq.
  rewrite andb_true_iff, Z.eqb_eq, !Z.leb_le. split.
  - intros <-. pose proof (Z.mul_div_le a p Hp). pose proof (Z.mul_succ_div_gt a p Hp). lia.
  - intros H. symmetry. apply (Z.div_unique a p q (a - q * p)); lia.
Qed.
End Fields.

(** Computes the ends of the intervals of the goal. *)
Ltac normal_ends :=
  repeat match goal with
  | |- context [between ?l ?h ?a] =>
      let l' := eval vm_compute in l in
      let h' := eval vm_compute in h in
      first [constr_eq l l'; constr_eq h h'; fail 1 | change (between l h a) with (between l' h' a)]
  end.

(** IPv4: the tests of [net/netip] and the reserved prefixes are the ranges. *)
Lemma blocked_v4 a : 0 <= a < 2 ^ 32 ->
  (let ip := V4 a in
   IsLoopback ip || IsPrivate ip || IsLinkLocalUnicast ip || IsLinkLocalMulticast ip
     || IsMulticast ip || IsUnspecified ip || existsb (fun p => Contains p ip) reserved)
  = in_ranges blocked4 a.
Proof.
  intros Ha. cbv zeta. cbn [IsLoopback IsPrivate IsLinkLocalUnicast IsLinkLocalMulticast IsMulticast].
  unfold IsUnspecified. rewrite (bool_decide_eq_false_2 (V4 a = V6 0 "")) by done.
  assert (bool_decide (V4 a = V4 0) = between 0 0 a) as ->.
  { unfold between. case_bool_decide; simplify_eq; [done|]. symmetry.
    apply andb_false_iff. rewrite !Z.leb_gt. assert (a <> 0) by congruence. lia. }
  rewrite !v4_div by lia.
  rewrite (mask4 240 16 16 31), (mask4 240 224 224 239)
    by (first [by cbn; auto | apply Z.mod_pos_bound; lia]).
  rewrite byte012, !byte01, byte01_between, !byte0, byte0_between by lia.
  cbn [reserved existsb]. replace (Contains (mk_prefix (V6 (Z.shiftl 536939960 96) "") 32) (V4 a)) with false by done.
  pose proof (fun n k => contains_between a Ha n k) as Hc.
  rewrite (Hc _ 24), !(Hc _ 8), (Hc _ 22), (Hc _ 17), (Hc _ 28) by lia.
  change (in_ranges blocked4 a) with (existsb (fun '(lo, hi) => between lo hi a) blocked4).
  cbn [existsb blocked4]. normal_ends. apply eq_true_iff_eq. rewrite !orb_true_iff.
  unfold between. rewrite !andb_true_iff, !Z.leb_le.
  split; intros H; repeat (destruct H as [H|H]); try done; try lia.
Qed.

Lemma between_div m n p a : 0 < p -> between m n (a / p) = between (m * p) ((n + 1) * p - 1) a.
Proof.
  intros Hp. unfold between. apply eq_true_iff_eq. rewrite !andb_true_iff, !Z.leb_le.
  pose proof (Z.mul_div_le a p Hp). pose proof (Z.mul_succ_div_gt a p Hp). nia.
Qed.

Section Fields6.
Variable a : Z.
Hypothesis Ha : 0 <= a < 2 ^ 128.

Lemma v6_between m n : 0 <= m <= n -> n < 256 ->
  between m n (v6 a 0) = between (m * 2 ^ 120) ((n + 1) * 2 ^ 120 - 1) a.
Proof using Ha.
  intros Hm Hn. unfold v6. rewrite land_255, Z.shiftr_div_pow2 by lia.
  change (120 - 8 * 0) with 120.
  rewrite (Z.mod_small (a / 2 ^ 120)) by (split; [apply Z.div_pos|apply Z.div_lt_upper_bound]; lia).
  by apply between_div.
Qed.

Lemma v6u16_between m n : 0 <= m <= n -> n < 65536 ->
  between m n (v6u16 a 0) = between (m * 2 ^ 112) ((n + 1) * 2 ^ 112 - 1) a.
Proof using Ha.
  intros Hm Hn. unfold v6u16. rewrite Z.shiftr_div_pow2 by lia.
  change 65535 with (Z.ones 16). rewrite Z.land_ones by lia.
  change (112 - 16 * 0) with 112.
  rewrite (Z.mod_small (a / 2 ^ 112)) by (split; [apply Z.div_pos|apply Z.div_lt_upper_bound]; lia).
  by apply between_div.
Qed.

Lemma v6_field : 0 <= v6 a 0 < 256.
Proof. unfold v6. rewrite land_255. apply Z.mod_pos_bound. lia. Qed.

Lemma v6u16_field : 0 <= v6u16 a 0 < 65536.
Proof.
  unfold v6u16. change 65535 with (Z.ones 16). rewrite Z.land_ones by lia.
  apply Z.mod_pos_bound. lia.
Qed.
End Fields6.

Lemma eqb_between n x : (x =? n) = between n n x.
Proof.
  unfold between. apply eq_true_iff_eq. rewrite andb_true_iff, Z.eqb_eq, !Z.leb_le. lia.
Qed.

(** The IPv6 test for link-local multicast adds nothing to that for multicast. *)
Lemma link_multicast_v6 a : 0 <= a < 2 ^ 128 ->
  IsLinkLocalMulticast (V6 a "") = true -> IsMulticast (V6 a "") = true.
Proof.
  intros Ha H. cbn [IsLinkLocalMulticast IsMulticast] in *.
  apply mask_link_multicast in H; [|apply v6u16_field].
  rewrite eqb_between, v6_between by (done || lia).
  rewrite v6u16_between in H by (done || lia).
  revert H. normal_ends. by change (2 ^ 128) with 340282366920938463463374607431768211456.
Qed.

Lemma orb_absorb x y : (y = true -> x = true) -> y || x = x.
Proof. destruct x, y; cbn; intros H; try done. by symmetry; apply H. Qed.

Lemma blocked_v6 a : 0 <= a < 2 ^ 128 ->
  (let ip := V6 a "" in
   IsLoopback ip || IsPrivate ip || IsLinkLocalUnicast ip || IsLinkLocalMulticast ip
     || IsMulticast ip || IsUnspecified ip || existsb (fun p => Contains p ip) reserved)
  = in_ranges blocked6 a.
Proof.
  intros Ha. cbv zeta. pose proof (link_multicast_v6 a Ha) as Hm.
  rewrite <- (orb_assoc _ (IsLinkLocalMulticast _)), (orb_absorb _ _ Hm). clear Hm.
  cbn [IsLoopback IsPrivate IsLinkLocalUnicast IsMulticast].
  unfold IsUnspecified. rewrite (bool_decide_eq_false_2 (V6 a "" = V4 0)) by done.
  assert (bool_decide (V6 a "" = V6 0 "") = (a =? 0)) as ->.
  { case_bool_decide; simplify_eq; [done|]. symmetry. apply Z.eqb_neq. congruence. }
  pose proof (v6_field a) as H0. pose proof (v6u16_field a) as H1.
  rewrite (mask4 254 252 252 253 ltac:(by do 2 right; left) _ H0), (mask_link_local _ H1), (eqb_between 255).
  clear H0 H1.
  rewrite !v6_between, v6u16_between by (done || lia).
  cbn [reserved existsb]. rewrite contains6 by lia.
  replace (a `div` 2 ^ (128 - 32) =? Z.shiftl 536939960 96 `div` 2 ^ (128 - 32))
    with (between (536939960 * 2 ^ 96) (536939961 * 2 ^ 96 - 1) a)
    by (change (128 - 32) with 96; rewrite eqb_between, Z.shiftl_mul_pow2, Z.div_mul by done;
        rewrite between_div by done; by normal_ends).
  change (in_ranges blocked6 a) with (existsb (fun '(lo, hi) => between lo hi a) blocked6).
  rewrite !eqb_between. cbn [existsb blocked6 orb Contains p_addr]. normal_ends.
  apply eq_true_iff_eq. rewrite !orb_true_iff.
  unfold between. rewrite !andb_true_iff, !Z.leb_le.
  split; intros H; repeat (destruct H as [H|H]); try done; try lia.
Qed.

Lemma unmap_between a z : 0 <= a < 2 ^ 128 ->
  Unmap (V6 a z) = if (Z.shiftl 65535 32 <=? a) && (a <? Z.shiftl 65536 32)
                   then V4 (a - Z.shiftl 65535 32) else V6 a z.
Proof.
  intros Ha. cbn [Unmap]. rewrite Z.shiftr_div_pow2, Z.land_ones by lia.
  replace (a `div` 2 ^ 32 =? 65535) with ((Z.shiftl 65535 32 <=? a) && (a <? Z.shiftl 65536 32)).
  - destruct (_ && _) eqn:E; [|done]. f_equal. bool_to_prop.
    rewrite Z.shiftl_mul_pow2 in * by lia. Z.div_mod_to_equations; lia.
  - rewrite eqb_between, between_div by done. unfold between.
    apply eq_true_iff_eq. rewrite !andb_true_iff, !Z.leb_le, Z.ltb_lt.
    change (Z.shiftl 65536 32) with ((65535 + 1) * 2 ^ 32). change (Z.shiftl 65535 32) with (65535 * 2 ^ 32). lia.
Qed.

Section GuardLemmas.
Context (R : string -> result (list addr)) (priv : bool) (str : addr -> string).
Context (Conn : Type) (dial : addr -> string -> result Conn).

Lemma Unmap_idem ip : addr_ok ip -> Unmap (Unmap ip) = Unmap ip.
Proof. destruct ip as [a|a z]; cbn; [done|]. destruct (Z.shiftr a 32 =? 65535) eqn:E; cbn; by rewrite ?E. Qed.

Lemma Blocked_Unmap ip : Blocked (Unmap ip) = Blocked ip.
Proof.
  destruct ip as [a|a z]; [done|]. cbn [Unmap].
  destruct (Z.shiftr a 32 =? 65535) eqn:E; [|done]. unfold Blocked. cbn [Unmap]. by rewrite E.
Qed.

Lemma partition_ips_none ips b acc acc' :
  partition_ips priv ips b acc = (None, acc') ->
  b = None /\ acc' = (acc ++ List.map Unmap ips)%list /\
  forall ip, In ip ips -> negb priv && Blocked ip = false.
Proof.
  revert b acc. induction ips as [|ip ips IH]; cbn; intros b acc.
  - intros [= -> ->]. split_and!; [done|by rewrite app_nil_r|done].
  - rewrite Blocked_Unmap. destruct (negb priv && Blocked ip) eqn:E; intros H; apply IH in H.
    + destruct H as (H & _). by destruct b.
    + destruct H as (-> & -> & Hall). rewrite <- app_assoc.
      split_and!; [done|done|]. intros x [<-|Hx]; auto.
Qed.

Lemma partition_ips_some ips b acc ip :
  In ip ips -> negb priv && Blocked ip = true -> exists c l, partition_ips priv ips b acc = (Some c, l).
Proof.
  assert (Hs : forall ips c acc, exists c' l, partition_ips priv ips (Some c) acc = (Some c', l)).
  { intros l. induction l as [|x l IH]; intros c a; cbn; [eauto|]. destruct (negb priv && _); eauto. }
  revert b acc. induction ips as [|x ips IH]; intros b acc; [done|].
  cbn. rewrite Blocked_Unmap. intros [->|Hin] Hb.
  - rewrite Hb. destruct b; apply Hs.
  - destruct (negb priv && Blocked x); eauto.
Qed.

(** The loop tries the addresses in order up to the first that connects. *)
Lemma dial_loop_spec ips port last :
  let '(r, tried) := dial_loop Conn dial ips port last in
  exists rest, ips = (tried ++ rest)%list /\
    match r with
    | Ok c => exists pre ip, tried = (pre ++ [ip])%list /\ dial ip port = Ok c /\
                forall x, In x pre -> is_ok (dial x port) = false
    | Err _ => rest = [] /\ forall x, In x tried -> is_ok (dial x port) = false
    end.
Proof.
  revert last. induction ips as [|ip ips IH]; intros last; cbn; [by exists []|].
  destruct (dial ip port) as [c|e] eqn:E.
  - exists ips. split; [done|]. exists [], ip. done.
  - specialize (IH e). destruct (dial_loop Conn dial ips port e) as [r tried].
    destruct IH as (rest & -> & H). exists rest. split; [done|]. destruct r as [c|e'].
    + destruct H as (pre & x & -> & Hc & Hpre). exists (ip :: pre), x. split_and!; [done|done|].
      intros y [<-|Hy]; [by rewrite E|auto].
    + destruct H as [-> H]. split; [done|]. intros x [<-|Hx]; [by rewrite E|auto].
Qed.
End GuardLemmas.

Lemma validate_ips_ok priv str ips :
  validate_ips priv str ips = Ok tt <-> forall ip, In ip ips -> negb priv && Blocked ip = false.
Proof.
  induction ips as [|ip ips IH]; cbn; [naive_solver|].
  destruct (negb priv && Blocked ip) eqn:E.
  - split; [done|]. intros H. by rewrite H in E by by left.
  - rewrite IH. split; [|by auto]. intros H x [<-|Hx]; auto.
Qed.

(** ** Properties *)

(** The addresses the guard blocks are exactly the loopback, private,
    link-local, multicast, unspecified and reserved ranges, an IPv4-mapped
    address being judged as the IPv4 address in it. *)
Theorem blocked_ranges ip :
  addr_ok ip -> (forall a z, ip = V6 a z -> z = "") -> Blocked ip = blocked_spec ip.
Proof.
  intros Hok Hz. unfold Blocked. destruct ip as [a|a z]; cbn [addr_ok] in Hok.
  - cbn [Unmap blocked_spec]. rewrite <- (blocked_v4 a) by done. reflexivity.
  - rewrite (Hz a z eq_refl), unmap_between by done. cbn [blocked_spec].
    destruct (_ && _) eqn:E.
    + bool_to_prop. rewrite <- blocked_v4; [reflexivity|].
      change (Z.shiftl 65535 32) with 281470681743360 in *. change (Z.shiftl 65536 32) with 281474976710656 in *.
      lia.
    + rewrite <- blocked_v6 by done. reflexivity.
Qed.

(** C39: whatever the resolver answers and the network does, no connection is
    tried to a blocked address; an answer with a blocked address in it, at any
    place, is not dialed at all; and otherwise the addresses are tried in the
    order of the answer until one connects, so that the dial fails only when
    every address fails. *)
Theorem dial_avoids_blocked R str Conn (dial : addr -> string -> result Conn) host port ips :
  R host = Ok ips ->
  let '(r, tried) := DialContext R false str Conn dial (Ok (host, port)) in
  (forall ip, In ip tried -> Blocked ip = false) /\
  (existsb Blocked ips = true -> tried = [] /\ is_ok r = false) /\
  (existsb Blocked ips = false ->
     exists rest, List.map Unmap ips = (tried ++ rest)%list /\
     match r with
     | Ok c => exists pre ip, tried = (pre ++ [ip])%list /\ dial ip port = Ok c /\
                 forall x, In x pre -> is_ok (dial x port) = false
     | Err _ => rest = [] /\ forall x, In x tried -> is_ok (dial x port) = false
     end).
Proof.
  intros HR. unfold DialContext. rewrite HR.
  destruct (existsb Blocked ips) eqn:Eb.
  - apply existsb_exists in Eb as (ip & Hin & Hb).
    destruct ips as [|x ips]; [done|].
    destruct (partition_ips_some false (x :: ips) None [] ip Hin Hb) as (c & l & ->).
    split_and!; naive_solver.
  - assert (Hall : forall ip, In ip ips -> Blocked ip = false).
    { intros ip Hin. destruct (Blocked ip) eqn:E; [|done].
      rewrite <- Eb. symmetry. apply existsb_exists. eauto. }
    destruct ips as [|x ips]; [by split_and!; try done; exists []|].
    destruct (partition_ips false (x :: ips) None []) as [[b|] l] eqn:E.
    + exfalso. clear -E Hall. revert E. generalize (@nil addr). revert Hall.
      generalize (x :: ips). intros ys. induction ys as [|y ys IH]; cbn; intros Hall acc; [done|].
      rewrite Blocked_Unmap, (Hall y (or_introl eq_refl)). intros E. eapply IH; [|exact E].
      intros z Hz. apply Hall. by right.
    + apply partition_ips_none in E as (_ & -> & _). cbn [List.app].
      change (List.map Unmap (x :: ips)) with (Unmap x :: List.map Unmap ips).
      cbv iota zeta. change (Unmap x :: List.map Unmap ips) with (List.map Unmap (x :: ips)).
      pose proof (dial_loop_spec Conn dial (List.map Unmap (x :: ips)) port "no usable target addresses") as Hd.
      destruct (dial_loop _ _ _ _ _) as [r tried]. split_and!; [|done|by intros _].
      destruct Hd as (rest & Hl & _). intros ip Hin.
      assert (In ip (List.map Unmap (x :: ips))) as Hm by (rewrite Hl; apply in_or_app; by left).
      apply in_map_iff in Hm as (y & <- & Hy). rewrite Blocked_Unmap. auto.
Qed.

(** A URL passes validation exactly when its scheme is http or https, it
    names a host, the host resolves to at least one address and none of them is
    blocked (unless private targets were allowed). *)
Theorem validate_url_iff R priv str scheme host :
  ValidateURL R priv str scheme host = Ok tt <->
  (scheme = "http" \/ scheme = "https") /\ host <> "" /\
  exists ips, R host = Ok ips /\ ips <> [] /\
    (priv = true \/ forall ip, In ip ips -> Blocked ip = false).
Proof.
  unfold ValidateURL, ValidateHost.
  destruct (String.eqb_spec scheme "http"), (String.eqb_spec scheme "https"); cbn [negb andb];
    try (split; [done|naive_solver]).
  all: destruct (String.eqb_spec host ""); [split; [done|naive_solver]|].
  all: destruct (R host) as [[|ip ips]|err]; try (split; [done|naive_solver]).
  all: rewrite validate_ips_ok; split;
    [intros H; split_and!; [by auto|done|]; eexists; split_and!; [done|done|];
       destruct priv; [by left|by right]
    |intros (_ & _ & l & [= <-] & _ & [->|H]); [done|]; intros x Hx; rewrite (H x Hx); apply andb_false_r].
Qed.

(** ** Witnesses *)

Lemma blocked_ranges_witness :
  Blocked (V6 (Z.shiftl 65535 32 + quad 127 0 0 1) "") = blocked_spec (V6 (Z.shiftl 65535 32 + quad 127 0 0 1) "")
  /\ Blocked (V4 (quad 8 8 8 8)) = blocked_spec (V4 (quad 8 8 8 8)).
Proof.
  split; apply blocked_ranges.
  - vm_compute. split; [discriminate|done].
  - by intros a z [= _ ->].
  - vm_compute. split; [discriminate|done].
  - discriminate.
Defined.

Definition demo_resolver (host : string) : result (list addr) :=
  if host =?s "rebind" then Ok [V4 (quad 93 184 216 34); V4 (quad 127 0 0 1)]
  else Ok [V4 (quad 93 184 216 34); V4 (quad 93 184 216 35)].
Definition demo_dial (ip : addr) (port : string) : result addr :=
  if bool_decide (ip = V4 (quad 93 184 216 34)) then Err "connection refused" else Ok ip.

Lemma dial_avoids_blocked_witness :
  let '(r, tried) := DialContext demo_resolver false (fun _ => "ip") addr demo_dial (Ok ("rebind", "443")) in
  tried = [] /\ is_ok r = false.
Proof.
  pose proof (dial_avoids_blocked demo_resolver (fun _ => "ip") addr demo_dial "rebind" "443" _ eq_refl) as H.
  destruct (DialContext _ _ _ _ _ _) as [r tried]. destruct H as (_ & H & _). apply H. vm_compute. reflexivity.
Defined.
