(* ===== verification/Requestmeta.v ===== *)
(** The trusted-proxy boundary ([internal/requestmeta/requestmeta.go]): the
    scheme and the client address of a request.

    [net.SplitHostPort], [netip.ParseAddr] and [Addr.String] are parameters:
    the theorems hold for every parser. *)
From S2P Require Import Prelude GoStr Netguard.
Open Scope string_scope.
Open Scope wf_scope.

(** What the boundary reads of an [http.Request]. *)
Record request := mk_request {
  RemoteAddr : string; TLS : bool; XForwardedProto : string; XForwardedFor : string }.

Section Requestmeta.
Variable split_host_port : string -> option (string * string).
Variable parse_addr : string -> option addr.
Variable addr_string : addr -> string.

(** [Config.Trusted]. *)
Variable Trusted : list prefix.

Definition trusted (ip : addr) : bool := existsb (fun p => Contains p ip) Trusted.

Definition peerIP (r : request) : option addr :=
  match split_host_port r.(RemoteAddr) with
  | Some (host, _) => parse_addr host
  | None => parse_addr r.(RemoteAddr)
  end.

Definition Scheme (r : request) : string :=
  if r.(TLS) then "https" else
  match peerIP r with
  | Some ip =>
      if trusted ip && ((r.(XForwardedProto) =?s "https") || (r.(XForwardedProto) =?s "http"))
      then r.(XForwardedProto) else "http"
  | None => "http"
  end.

Definition Secure (r : request) : bool := Scheme r =?s "https".

(** The loop of [ClientIP], over the entries from the right. *)
Fixpoint rightmost_untrusted (rev_parts : list string) : option addr :=
  match rev_parts with
  | [] => None
  | p :: rest =>
      match parse_addr (trim_space p) with
      | None => rightmost_untrusted rest
      | Some ip => if trusted ip then rightmost_untrusted rest else Some ip
      end
  end.

Definition ClientIP (r : request) : string :=
  match peerIP r with
  | None => ""
  | Some peer =>
      if negb (trusted peer) then addr_string peer
      else if r.(XForwardedFor) =?s "" then addr_string peer
      else match rightmost_untrusted (rev (split_on "," r.(XForwardedFor))) with
           | Some ip => addr_string ip
           | None => addr_string peer
           end
  end.
End Requestmeta.

(** ** Lemmas *)

Section Rightmost.
Context (parse_addr : string -> option addr) (Trusted : list prefix).

Lemma rightmost_untrusted_app l1 l2 :
  rightmost_untrusted parse_addr Trusted (l1 ++ l2) =
  match rightmost_untrusted parse_addr Trusted l1 with
  | Some ip => Some ip
  | None => rightmost_untrusted parse_addr Trusted l2
  end.
Proof.
  induction l1 as [|p l1 IH]; cbn; [done|].
  destruct (parse_addr (trim_space p)) as [ip|]; [destruct (trusted Trusted ip)|]; done.
Qed.

Lemma rightmost_untrusted_none l :
  (forall p, In p l -> match parse_addr (trim_space p) with Some x => trusted Trusted x = true | None => True end) ->
  rightmost_untrusted parse_addr Trusted l = None.
Proof.
  induction l as [|p l IH]; cbn; intros H; [done|].
  pose proof (H p (or_introl eq_refl)) as Hp.
  destruct (parse_addr (trim_space p)) as [x|]; [rewrite Hp|]; apply IH; intros q Hq; apply H; by right.
Qed.
End Rightmost.

(** ** Properties *)

(** A direct, untrusted peer has no influence through forwarded headers:
    the client address is the peer and the scheme is that of the connection,
    whatever the headers say. *)
Theorem untrusted_peer_has_no_say shp parse str T r peer :
  peerIP shp parse r = Some peer -> trusted T peer = false ->
  forall proto xff,
    let r' := mk_request r.(RemoteAddr) r.(TLS) proto xff in
    ClientIP shp parse str T r' = str peer /\
    Scheme shp parse T r' = (if r.(TLS) then "https" else "http") /\
    Secure shp parse T r' = r.(TLS).
Proof.
  intros Hp Ht proto xff r'.
  assert (Hp' : peerIP shp parse r' = Some peer) by exact Hp.
  unfold ClientIP, Secure, Scheme. rewrite Hp', Ht. cbn. by destruct (TLS r).
Qed.

(** Behind a trusted proxy the client is the rightmost entry of
    X-Forwarded-For that is not itself a trusted proxy: what the client wrote
    to the left of it, and trusted proxies or unreadable entries to its right,
    change nothing. *)
Theorem spoofed_entries_are_ignored shp parse str T r peer entry ip left_part right_parts :
  peerIP shp parse r = Some peer -> trusted T peer = true ->
  parse (trim_space entry) = Some ip -> trusted T ip = false ->
  (forall p, In p (entry :: right_parts) -> split_on "," p = [p]) ->
  (forall p, In p right_parts ->
     match parse (trim_space p) with Some x => trusted T x = true | None => True end) ->
  let xff := left_part ++ "," ++ join "," (entry :: right_parts) in
  ClientIP shp parse str T (mk_request r.(RemoteAddr) r.(TLS) r.(XForwardedProto) xff) = str ip.
Proof.
  intros Hp Ht Hip Hu Hs Hr xff. unfold ClientIP.
  change (peerIP shp parse (mk_request _ _ _ xff)) with (peerIP shp parse r).
  rewrite Hp, Ht. cbn [negb XForwardedFor].
  assert (Hx : split_on "," xff = (split_on "," left_part ++ entry :: right_parts)%list).
  { unfold xff. rewrite append_cons, append_nil_l, split_on_app. f_equal. by apply split_on_join. }
  destruct (String.eqb_spec xff "") as [E|_].
  { rewrite E in Hx. pose proof (split_on_nonempty "," left_part).
    destruct (split_on "," left_part) as [|? []]; cbn in Hx; naive_solver. }
  rewrite Hx, rev_app_distr. cbn [rev]. rewrite !rightmost_untrusted_app.
  rewrite (rightmost_untrusted_none _ _ (rev right_parts)) by (intros p Hin; apply in_rev in Hin; by apply Hr).
  cbn. by rewrite Hip, Hu.
Qed.

(** ** Witnesses *)

(** Dotted quads. *)
Definition demo_parse (s : string) : option addr :=
  match List.map parse_udec (split_on "." s) with
  | [Some a; Some b; Some c; Some d] => Some (V4 (quad a b c d))
  | _ => None
  end.
Definition demo_split (s : string) : option (string * string) :=
  match split2 ":" s with (h, Some p) => Some (h, p) | _ => None end.
Definition demo_show (ip : addr) : string := match ip with V4 a => format_int a | V6 a _ => format_int a end.
Definition demo_trusted : list prefix := [mk_prefix (V4 (quad 10 0 0 0)) 8].

Lemma untrusted_peer_has_no_say_witness :
  ClientIP demo_split demo_parse demo_show demo_trusted
    (mk_request "203.0.113.9:4444" false "https" "10.0.0.1") = demo_show (V4 (quad 203 0 113 9)).
Proof.
  refine (proj1 (untrusted_peer_has_no_say demo_split demo_parse demo_show demo_trusted
    (mk_request "203.0.113.9:4444" false "" "") (V4 (quad 203 0 113 9)) _ _ "https" "10.0.0.1"));
    vm_compute; reflexivity.
Defined.

Lemma spoofed_entries_are_ignored_witness :
  ClientIP demo_split demo_parse demo_show demo_trusted
    (mk_request "10.0.0.1:4444" false "" "127.0.0.1, 203.0.113.9 ,10.0.0.7")
  = demo_show (V4 (quad 203 0 113 9)).
Proof.
  refine (spoofed_entries_are_ignored demo_split demo_parse demo_show demo_trusted
    (mk_request "10.0.0.1:4444" false "" "") (V4 (quad 10 0 0 1)) " 203.0.113.9 "
    (V4 (quad 203 0 113 9)) "127.0.0.1" ["10.0.0.7"] _ _ _ _ _ _); try (vm_compute; reflexivity).
  - intros p [<-|[<-|[]]]; vm_compute; reflexivity.
  - intros p [<-|[]]; vm_compute; reflexivity.
Defined.
