(* ===== verification/RateLimit.v ===== *)
(** The fixed-window limiter ([internal/server/ratelimit.go]). *)
From S2P Require Import Prelude GoStr TimeText.
Open Scope string_scope.
Open Scope Z_scope.

(** ** Definitions *)

Record rateBucket := mk_bucket { b_count : Z; b_reset : Z }.
Record rateLimiter := mk_limiter {
  window : Z; limit : Z; maxKeys : Z; buckets : gmap string rateBucket }.

Definition newRateLimiter (window limit maxKeys : Z) : rateLimiter :=
  mk_limiter window limit maxKeys ∅.

Definition with_buckets (b : gmap string rateBucket) (l : rateLimiter) : rateLimiter :=
  mk_limiter l.(window) l.(limit) l.(maxKeys) b.

(** The loop that deletes the buckets whose window has passed. *)
Definition evict (now : Z) (b : gmap string rateBucket) : gmap string rateBucket :=
  filter (fun kb => ~ kb.2.(b_reset) < now) b.

(** [Allow(key)] at the instant [now]. *)
Definition Allow (key : string) (now : Z) (l : rateLimiter) : bool * rateLimiter :=
  let enter (b : rateBucket) (l : rateLimiter) :=
    let b := if b.(b_reset) <? now then mk_bucket 0 (now + l.(window)) else b in
    if l.(limit) <=? b.(b_count)
    then (false, with_buckets (<[key := b]> l.(buckets)) l)
    else (true, with_buckets (<[key := mk_bucket (b.(b_count) + 1) b.(b_reset)]> l.(buckets)) l) in
  match l.(buckets) !! key with
  | Some b => enter b l
  | None =>
      let l := with_buckets (evict now l.(buckets)) l in
      if l.(maxKeys) <=? Z.of_nat (size l.(buckets)) then (false, l)
      else enter (mk_bucket 0 (now + l.(window))) l
  end.

(** A run of the limiter: calls are (instant, key). *)
Definition call : Type := Z * string.
Fixpoint allow_all (calls : list call) (l : rateLimiter) : list (string * bool) * rateLimiter :=
  match calls with
  | [] => ([], l)
  | (now, key) :: rest =>
      let '(ok, l1) := Allow key now l in
      let '(out, l2) := allow_all rest l1 in ((key, ok) :: out, l2)
  end.

(** How often [key] was let through. *)
Definition grants (key : string) (out : list (string * bool)) : Z :=
  count (fun kb => (kb.1 =? key)%string && kb.2) out.

(** ** Lemmas *)

(** What the limiter keeps true: it never holds more keys than allowed and no
    count exceeds the limit. *)
Record limiter_wf (l : rateLimiter) : Prop := {
  lw_size : Z.of_nat (size l.(buckets)) <= Z.max 0 l.(maxKeys);
  lw_count : forall k b, l.(buckets) !! k = Some b -> 0 <= b.(b_count) <= Z.max 0 l.(limit) }.

Definition same_config (l l' : rateLimiter) : Prop :=
  l'.(window) = l.(window) /\ l'.(limit) = l.(limit) /\ l'.(maxKeys) = l.(maxKeys).

Lemma evict_lookup now b k x : evict now b !! k = Some x <-> b !! k = Some x /\ now <= x.(b_reset).
Proof. unfold evict. rewrite map_lookup_filter_Some. cbn. by rewrite Z.nlt_ge. Qed.

Lemma evict_size now b : (size (evict now b) <= size b)%nat.
Proof. apply map_subseteq_size, map_filter_subseteq. Qed.

Lemma Allow_config key now l : same_config l (Allow key now l).2.
Proof. unfold Allow, same_config. repeat case_match; done. Qed.

Lemma Allow_wf key now l : limiter_wf l -> limiter_wf (Allow key now l).2.
Proof.
  intros [Hs Hc]. unfold Allow.
  assert (Hins : forall (m : gmap string rateBucket) b, 0 <= b.(b_count) <= Z.max 0 l.(limit) ->
    (forall k x, m !! k = Some x -> 0 <= x.(b_count) <= Z.max 0 l.(limit)) ->
    forall k x, <[key := b]> m !! k = Some x -> 0 <= x.(b_count) <= Z.max 0 l.(limit)).
  { intros m b Hb Hm k x. rewrite lookup_insert_Some. naive_solver. }
  destruct (l.(buckets) !! key) as [b|] eqn:E.
  - pose proof (Hc _ _ E) as Hb.
    set (b' := if b_reset b <? now then _ else b).
    assert (Hb' : 0 <= b'.(b_count) <= Z.max 0 l.(limit)) by (unfold b'; destruct (_ <? _); cbn; lia).
    destruct (Z.leb_spec l.(limit) b'.(b_count)); split; cbn.
    1,3: rewrite map_size_insert_Some by eauto; done.
    + apply Hins; done.
    + apply Hins; [cbn; lia|done].
  - pose proof (evict_size now l.(buckets)).
    assert (He : evict now l.(buckets) !! key = None).
    { apply eq_None_not_Some. intros [x Hx]. apply evict_lookup in Hx as [Hx _]. congruence. }
    assert (Hec : forall k x, evict now l.(buckets) !! k = Some x -> 0 <= x.(b_count) <= Z.max 0 l.(limit)).
    { intros k x Hx. apply evict_lookup in Hx as [Hx _]. eauto. }
    cbn [with_buckets buckets maxKeys limit window].
    destruct (Z.leb_spec l.(maxKeys) (Z.of_nat (size (evict now l.(buckets))))).
    { split; cbn; [lia|done]. }
    cbn [b_reset b_count].
    assert ((if now + l.(window) <? now then mk_bucket 0 (now + l.(window)) else mk_bucket 0 (now + l.(window)))
            = mk_bucket 0 (now + l.(window))) as -> by by destruct (_ <? _).
    cbn [b_count b_reset]. destruct (Z.leb_spec l.(limit) 0); split; cbn;
      rewrite ?map_size_insert_None by done; try lia; apply Hins; cbn; try done; lia.
Qed.

Lemma allow_all_wf calls l : limiter_wf l ->
  limiter_wf (allow_all calls l).2 /\ same_config l (allow_all calls l).2.
Proof.
  revert l. induction calls as [|[now key] rest IH]; intros l H; [done|]. cbn [allow_all].
  pose proof (Allow_wf key now l H) as H1. pose proof (Allow_config key now l) as C1.
  destruct (Allow key now l) as [ok l1]. cbn in H1, C1. specialize (IH l1 H1) as [H2 C2].
  destruct (allow_all rest l1) as [out l2]. cbn in *. split; [done|].
  unfold same_config in *. destruct C1 as (?&?&?), C2 as (?&?&?). split_and!; congruence.
Qed.

Lemma Allow_other key key' now l b :
  key <> key' -> l.(buckets) !! key = Some b -> now <= b.(b_reset) ->
  (Allow key' now l).2.(buckets) !! key = Some b.
Proof.
  intros Hk Hb Hr.
  assert (evict now l.(buckets) !! key = Some b) by (apply evict_lookup; done).
  unfold Allow. repeat case_match; cbn -[Z.max Z.mul grants] in *; rewrite ?lookup_insert_ne by congruence; done.
Qed.

Lemma Allow_other_back key key' now l b :
  key <> key' -> (Allow key' now l).2.(buckets) !! key = Some b -> l.(buckets) !! key = Some b.
Proof.
  intros Hk. unfold Allow.
  repeat case_match; cbn -[Z.max Z.mul grants] in *; rewrite ?lookup_insert_ne by congruence; try done;
    by intros [??]%evict_lookup.
Qed.

Lemma Allow_live key now l b :
  l.(buckets) !! key = Some b -> now <= b.(b_reset) ->
  let ok := negb (l.(limit) <=? b.(b_count)) in
  (Allow key now l).1 = ok /\
  (Allow key now l).2.(buckets) !! key
    = Some (mk_bucket (b.(b_count) + if ok then 1 else 0) b.(b_reset)).
Proof.
  intros Hb Hr. unfold Allow. rewrite Hb.
  assert ((b_reset b <? now) = false) as -> by (apply Z.ltb_ge; lia).
  destruct (l.(limit) <=? b.(b_count)); cbn; rewrite lookup_insert_eq; [|done].
  split; [done|]. rewrite Z.add_0_r. by destruct b.
Qed.

Lemma Allow_new key now l :
  (forall b, l.(buckets) !! key = Some b -> b.(b_reset) < now) ->
  (Allow key now l).1 = false /\ (Allow key now l).2.(buckets) !! key = None \/
  (Allow key now l).2.(buckets) !! key
    = Some (mk_bucket (if (Allow key now l).1 then 1 else 0) (now + l.(window))).
Proof.
  intros Hd. unfold Allow. destruct (l.(buckets) !! key) as [b|] eqn:Hb.
  - specialize (Hd b eq_refl). apply Z.ltb_lt in Hd as ->. right.
    destruct (_ <=? _); cbn; by rewrite lookup_insert_eq.
  - destruct (_ <=? _); cbn.
    + left. split; [done|]. apply eq_None_not_Some. intros [x Hx].
      apply evict_lookup in Hx as [Hx _]. congruence.
    + right. destruct (_ <? _); cbn; destruct (_ <=? _); cbn; by rewrite lookup_insert_eq.
Qed.

Lemma grants_cons key k ok out :
  grants key ((k, ok) :: out) = (if (k =? key)%string && ok then 1 else 0) + grants key out.
Proof. unfold grants, count. cbn [List.filter fst snd]. destruct (_ && ok); cbn [length]; lia. Qed.

(** While the bucket of [key] is alive, what is left of its limit is a bound. *)
Lemma grants_live key calls : forall l b,
  limiter_wf l -> l.(buckets) !! key = Some b ->
  (forall c, In c calls -> c.1 <= b.(b_reset)) ->
  grants key (allow_all calls l).1 <= Z.max 0 l.(limit) - b.(b_count).
Proof.
  induction calls as [|[now k] rest IH]; intros l b Hwf Hb Ht.
  - pose proof (lw_count _ Hwf _ _ Hb). change (0 <= Z.max 0 l.(limit) - b.(b_count)). lia.
  - cbn [allow_all]. pose proof (Allow_wf k now l Hwf) as Hwf'.
    pose proof (Allow_config k now l) as (_ & Hl & _). pose proof (Ht _ (or_introl eq_refl)) as Hn. cbn in Hn.
    destruct (String.eqb_spec k key) as [->|Hk].
    + destruct (Allow_live key now l b Hb Hn) as [Ho Hb']. pose proof (lw_count _ Hwf' _ _ Hb') as Hc.
      destruct (Allow key now l) as [ok l1]. cbn [fst snd] in *.
      specialize (IH l1 _ Hwf' Hb' ltac:(intros c Hin; exact (Ht c (or_intror Hin)))). rewrite Hl in *.
      destruct (allow_all rest l1). cbn [fst snd] in *. rewrite grants_cons, String.eqb_refl, <- Ho in *.
      destruct ok; bool_to_prop; cbn -[Z.max Z.mul grants] in *; lia.
    + pose proof (Allow_other key k now l b (not_eq_sym Hk) Hb Hn) as Hb'.
      destruct (Allow k now l) as [ok l1]. cbn [fst snd] in *.
      specialize (IH l1 _ Hwf' Hb' ltac:(intros c Hin; exact (Ht c (or_intror Hin)))). rewrite Hl in *.
      destruct (allow_all rest l1). cbn [fst] in *. rewrite grants_cons.
      apply String.eqb_neq in Hk as ->. cbn [andb]. lia.
Qed.

Definition potential (key : string) (l : rateLimiter) : Z :=
  match l.(buckets) !! key with
  | Some b => 2 * Z.max 0 l.(limit) - b.(b_count)
  | None => Z.max 0 l.(limit)
  end.

Lemma live_or_dead key now l :
  (exists b, l.(buckets) !! key = Some b /\ now <= b.(b_reset)) \/
  (forall b, l.(buckets) !! key = Some b -> b.(b_reset) < now).
Proof.
  destruct (l.(buckets) !! key) as [b|]; [|by right].
  destruct (Z.le_gt_cases now b.(b_reset)); [by left; eauto|right]. by intros b' [= <-].
Qed.

Lemma grants_in_window key t0 calls : forall l,
  limiter_wf l -> (forall c, In c calls -> t0 <= c.1 <= t0 + l.(window)) ->
  grants key (allow_all calls l).1 <= potential key l.
Proof.
  induction calls as [|[now k] rest IH]; intros l Hwf Ht.
  { unfold potential. pose proof (lw_count _ Hwf key) as Hc.
    change (grants key (allow_all [] l).1) with 0.
    destruct (l.(buckets) !! key) as [b|]; [specialize (Hc b eq_refl)|]; lia. }
  cbn [allow_all]. pose proof (Allow_wf k now l Hwf) as Hwf'.
  pose proof (Allow_config k now l) as (Hw & Hl & _).
  pose proof (Ht _ (or_introl eq_refl)) as Hn. cbn in Hn.
  assert (Hrest : forall c, In c rest -> t0 <= c.1 <= t0 + (Allow k now l).2.(window)).
  { rewrite Hw. intros c Hin. exact (Ht c (or_intror Hin)). }
  specialize (IH _ Hwf' Hrest).
  destruct (String.eqb_spec k key) as [->|Hk].
  - destruct (live_or_dead key now l) as [(b & Hb & Hr)|Hd].
    + destruct (Allow_live key now l b Hb Hr) as [Ho Hb'].
      unfold potential in *. rewrite Hb, Hb', Hl in *.
      destruct (Allow key now l) as [ok l1]. cbn [fst snd] in *. destruct (allow_all rest l1). cbn in *.
      rewrite grants_cons, String.eqb_refl, <- Ho in *. destruct ok; cbn -[Z.max Z.mul grants] in *; lia.
    + pose proof (lw_count _ Hwf key) as Hc.
      assert (Z.max 0 l.(limit) <= potential key l) as Hp.
      { unfold potential. destruct (l.(buckets) !! key) as [b|]; [specialize (Hc b eq_refl)|]; lia. }
      destruct (Allow_new key now l Hd) as [[Ho Hb']|Hb'].
      * unfold potential in IH at 1. rewrite Hb', Hl in IH.
        destruct (Allow key now l) as [ok l1]. cbn [fst snd] in *. subst ok.
        destruct (allow_all rest l1). cbn [fst] in *. rewrite grants_cons, andb_false_r. lia.
      * pose proof (lw_count _ Hwf' _ _ Hb') as Hc'. clear IH.
        assert (H := grants_live key rest _ _ Hwf' Hb').
        destruct (Allow key now l) as [ok l1]. cbn [fst snd b_count b_reset] in *.
        rewrite Hl in *. specialize (H ltac:(intros c Hin; specialize (Hrest c Hin); lia)).
        destruct (allow_all rest l1). cbn [fst] in *. rewrite grants_cons, String.eqb_refl.
        destruct ok; cbn [andb]; lia.
  - assert (potential key (Allow k now l).2 <= potential key l) as Hp.
    { unfold potential. rewrite Hl. destruct ((Allow k now l).2.(buckets) !! key) as [b|] eqn:Hb.
      - apply Allow_other_back in Hb; [|congruence]. rewrite Hb. lia.
      - pose proof (lw_count _ Hwf key) as Hc.
        destruct (l.(buckets) !! key) as [b|]; [specialize (Hc b eq_refl)|]; lia. }
    destruct (Allow k now l) as [ok l1]. cbn [fst snd] in *.
    destruct (allow_all rest l1). cbn [fst] in *. rewrite grants_cons.
    apply String.eqb_neq in Hk as ->. cbn [andb]. lia.
Qed.

Lemma newRateLimiter_wf w n k : limiter_wf (newRateLimiter w n k).
Proof. split; cbn; [rewrite map_size_empty; lia|]. intros key b. by rewrite lookup_empty. Qed.

(** ** Properties *)

(** The limiter limits: whatever was called before, in any span of time as
    long as the window a key is let through at most twice its limit (a fixed
    window: one limit at the end of a window and one at the start of the next). *)
Theorem limiter_window_bound w n mk before key t0 calls :
  (forall c, In c calls -> t0 <= c.1 <= t0 + w) ->
  let l := (allow_all before (newRateLimiter w n mk)).2 in
  grants key (allow_all calls l).1 <= 2 * Z.max 0 n.
Proof.
  intros Ht l. destruct (allow_all_wf before _ (newRateLimiter_wf w n mk)) as [Hwf (Hw & Hl & _)].
  fold l in Hwf, Hw, Hl. cbn [newRateLimiter window limit] in Hw, Hl.
  transitivity (potential key l).
  - apply (grants_in_window key t0); [done|]. by rewrite Hw.
  - unfold potential. pose proof (lw_count _ Hwf key) as Hc. rewrite Hl in *.
    destruct (l.(buckets) !! key) as [b|]; [specialize (Hc b eq_refl)|]; lia.
Qed.

(** Its memory is bounded: after any calls, with keys chosen by anyone, it
    holds at most [maxKeys] buckets, and none of them counts above the limit. *)
Theorem limiter_memory_bound w n mk calls :
  let l := (allow_all calls (newRateLimiter w n mk)).2 in
  Z.of_nat (size l.(buckets)) <= Z.max 0 mk /\
  forall k b, l.(buckets) !! k = Some b -> 0 <= b.(b_count) <= Z.max 0 n.
Proof.
  intros l. destruct (allow_all_wf calls _ (newRateLimiter_wf w n mk)) as [[Hs Hc] (_ & Hl & Hm)].
  fold l in Hs, Hc, Hl, Hm. rewrite Hl in Hc. rewrite Hm in Hs. done.
Qed.

(** ** Witnesses *)

(** The login limiter: ten a minute.  Twenty calls around the end of a window
    are let through and no more. *)
Lemma limiter_window_bound_witness :
  let l := (allow_all [(0, "a")] (newRateLimiter minute 10 10000)).2 in
  grants "a" (allow_all (replicate 9 (minute, "a") ++ replicate 12 (minute + second, "a")) l).1 <= 2 * Z.max 0 10.
Proof.
  apply (limiter_window_bound minute 10 10000 [(0, "a")] "a" minute).
  intros c Hc. apply in_app_or in Hc as [Hc|Hc]; cbn in Hc;
    repeat destruct Hc as [<-|Hc]; try done; cbn; lia.
Defined.
