(* ===== verification/Access.v ===== *)
(** Access control: the identity tables, the roles ([internal/rbac/rbac.go])
    and the API tokens ([internal/apitokens/tokens.go]). *)
From S2P Require Import Prelude GoStr TimeText SqlM.
Open Scope string_scope.
Open Scope Z_scope.
Open Scope wf_scope.
Open Scope sql_scope.

(** ** Tables (migrations 2, 18, 19 and 39) *)

Record user_row := mk_user {
  u_id : Z; u_name : string; u_email : string; u_hash : string; u_role : string; u_created : Z }.
Record session_row := mk_session {
  se_id : Z; se_hash : string; se_user : Z; se_csrf : string; se_expires : Z; se_created : Z }.
Record member_row := mk_member { mb_org : Z; mb_user : Z; mb_role : string; mb_created : Z }.
Record token_row := mk_token {
  t_id : Z; t_user : Z; t_org : Z; t_name : string; t_hash : string; t_prefix : string;
  t_scopes : string; t_last : option Z; t_revoked : option Z; t_created : Z }.
Record audit_row := mk_audit { au_kind : string; au_detail : string; au_at : Z }.
Record saudit_row := mk_saudit {
  sa_actor : Z; sa_org : Z; sa_action : string; sa_target : string; sa_at : Z }.

#[export] Instance user_row_eq_dec : EqDecision user_row.
Proof. solve_decision. Defined.
#[export] Instance session_row_eq_dec : EqDecision session_row.
Proof. solve_decision. Defined.
#[export] Instance member_row_eq_dec : EqDecision member_row.
Proof. solve_decision. Defined.
#[export] Instance token_row_eq_dec : EqDecision token_row.
Proof. solve_decision. Defined.
#[export] Instance audit_row_eq_dec : EqDecision audit_row.
Proof. solve_decision. Defined.
#[export] Instance saudit_row_eq_dec : EqDecision saudit_row.
Proof. solve_decision. Defined.

Record adb := mk_adb {
  ad_orgs : list Z; users : list user_row; sessions : list session_row;
  members : list member_row; tokens : list token_row;
  audits : list audit_row; saudits : list saudit_row }.

#[export] Instance adb_eq_dec : EqDecision adb.
Proof. solve_decision. Defined.

Definition set_users v d := mk_adb d.(ad_orgs) v d.(sessions) d.(members) d.(tokens) d.(audits) d.(saudits).
Definition set_sessions v d := mk_adb d.(ad_orgs) d.(users) v d.(members) d.(tokens) d.(audits) d.(saudits).
Definition set_members v d := mk_adb d.(ad_orgs) d.(users) d.(sessions) v d.(tokens) d.(audits) d.(saudits).
Definition set_tokens v d := mk_adb d.(ad_orgs) d.(users) d.(sessions) d.(members) v d.(audits) d.(saudits).
Definition set_audits v d := mk_adb d.(ad_orgs) d.(users) d.(sessions) d.(members) d.(tokens) v d.(saudits).
Definition set_saudits v d := mk_adb d.(ad_orgs) d.(users) d.(sessions) d.(members) d.(tokens) d.(audits) v.

Definition user_by_id (id : Z) (d : adb) : option user_row :=
  find_first (fun u => u.(u_id) =? id) d.(users).
Definition user_exists (id : Z) (d : adb) : bool :=
  match user_by_id id d with Some _ => true | None => false end.

(** ** Roles *)

(** [Can]: the role/action matrix. *)
Definition Can (role action : string) : bool :=
  if role =?s "owner" then true
  else if role =?s "admin" then negb (action =?s "organization.delete")
  else if role =?s "operator" then
    if has_suffix action ".read" then true
    else if has_prefix action "monitor." then true
    else if has_prefix action "site." && negb (action =?s "site.delete") then true
    else Smem action ["audit.run"; "crawl.run"; "tls.run"; "dns.run"; "analytics.manage";
                      "deployments.record"; "incidents.acknowledge"]
  else if role =?s "viewer" then has_suffix action ".read"
  else false.

(** [ORDER BY organization_id LIMIT 1]: the row of the smallest organization. *)
Definition lowest_org (l : list member_row) : option member_row :=
  List.fold_right (fun m acc => match acc with
    | None => Some m
    | Some x => if m.(mb_org) <=? x.(mb_org) then Some m else acc
    end) None l.

Definition Resolve (user : Z) : M adb (Z * string) :=
  let* r := or_fail (query (fun d =>
    lowest_org (List.filter (fun m => m.(mb_user) =? user) d.(members)))) "membership not found" in
  match r with
  | None => throw "membership not found"
  | Some m => ret (m.(mb_org), m.(mb_role))
  end.

Definition is_member (user org : Z) (m : member_row) : bool := (m.(mb_user) =? user) && (m.(mb_org) =? org).

Definition Role (user org : Z) : M adb string :=
  let* r := or_fail (query (fun d => find_first (is_member user org) d.(members))) "membership not found" in
  match r with
  | None => throw "membership not found"
  | Some m => ret m.(mb_role)
  end.

(** [ORDER BY lower(u.email)]. *)
Fixpoint insert_by_email (x : Z * string * string) (l : list (Z * string * string)) :=
  match l with
  | [] => [x]
  | y :: l' => if String.leb (to_lower y.1.2) (to_lower x.1.2) then y :: insert_by_email x l' else x :: l
  end.
Definition Members (org : Z) : M adb (list (Z * string * string)) :=
  query (fun d => List.fold_left (fun acc x => insert_by_email x acc)
    (omap (fun m => if m.(mb_org) =? org
                    then (fun u => (u.(u_id), u.(u_email), m.(mb_role))) <$> user_by_id m.(mb_user) d
                    else None) d.(members)) []).

Definition role_ok (role : string) : bool := Smem role ["owner"; "admin"; "operator"; "viewer"].

(** [INSERT ... ON CONFLICT(organization_id,user_id) DO UPDATE SET role]. *)
Definition upsert_member (org user : Z) (role : string) (now : Z) (d : adb) : option adb :=
  if Zmem org d.(ad_orgs) && user_exists user d && role_ok role then
    Some (set_members
      (if existsb (is_member user org) d.(members)
       then upd (is_member user org) (fun m => mk_member m.(mb_org) m.(mb_user) role m.(mb_created)) d.(members)
       else d.(members) ++ [mk_member org user role now])%list d)
  else None.

(** [INSERT INTO organization_memberships], failing on a second one. *)
Definition insert_member (org user : Z) (role : string) (now : Z) (d : adb) : option adb :=
  if existsb (is_member user org) d.(members) then None else upsert_member org user role now d.

Definition insert_saudit (actor org : Z) (action target : string) (now : Z) (d : adb) : option adb :=
  if user_exists actor d && Zmem org d.(ad_orgs)
  then Some (set_saudits (d.(saudits) ++ [mk_saudit actor org action target now]) d)
  else None.

Definition Add (actor org : Z) (email role : string) (now : Z) : M adb unit :=
  let role := to_lower role in
  if negb (role_ok role) then throw "invalid role" else
  let* r := or_fail (query (fun d => find_first (fun u => equal_fold u.(u_email) email) d.(users))) "user not found" in
  match r with
  | None => throw "user not found"
  | Some u =>
      exec_opt (upsert_member org u.(u_id) role now) ;;;
      exec_opt (insert_saudit actor org "membership.update" email now)
  end.

(** ** API tokens *)

Definition token_scopes : list string :=
  ["sites:read"; "sites:write"; "fleet:read"; "analytics:read"; "audit:run"].

Definition HasScope (scopes : list string) (want : string) : bool := Smem want scopes.

Section Tokens.
(** [hex(sha256(v))]. *)
Variable hash : string -> string.

Definition insert_token (user org : Z) (name tok : string) (scopes : list string) (now : Z)
    (d : adb) : option (Z * adb) :=
  let id := fresh_id (List.map t_id d.(tokens)) in
  if user_exists user d && Zmem org d.(ad_orgs)
     && negb (existsb (fun t => t.(t_hash) =?s hash tok) d.(tokens))
  then Some (id, set_tokens (d.(tokens) ++
         [mk_token id user org name (hash tok) (substring 0 10 tok) (join "," scopes) None None now]) d)
  else None.

(** [Create]; [tok] is the random token, [wf_] and base64. *)
Definition Create (user org : Z) (name : string) (scopes : list string) (tok : string) (now : Z)
    : M adb (Z * string * string * string * list string) :=
  let name := trim_space name in
  if name =?s "" then throw "token name required"
  else if negb (forallb (fun x => Smem x token_scopes) scopes) then throw "unsupported token scope"
  else let* id := stmt (insert_token user org name tok scopes now) in
       ret (id, name, tok, substring 0 10 tok, scopes).

Definition live_token (tok : string) (t : token_row) : bool :=
  (t.(t_hash) =?s hash tok) && match t.(t_revoked) with None => true | Some _ => false end.

(** [Authenticate]: the user, the organization and the scopes. *)
Definition Authenticate (tok : string) (now : Z) : M adb (Z * Z * list string) :=
  let* r := or_fail (query (fun d => find_first (live_token tok) d.(tokens))) "invalid API token" in
  match r with
  | None => throw "invalid API token"
  | Some t =>
      let scopes := if t.(t_scopes) =?s "" then [] else split_on "," t.(t_scopes) in
      ignore tt (exec (fun d => set_tokens (upd (fun x => x.(t_id) =? t.(t_id))
        (fun x => mk_token x.(t_id) x.(t_user) x.(t_org) x.(t_name) x.(t_hash) x.(t_prefix) x.(t_scopes)
                    (Some now) x.(t_revoked) x.(t_created)) d.(tokens)) d)) ;;;
      ret (t.(t_user), t.(t_org), scopes)
  end.

Definition Revoke (id user org now : Z) : M adb unit :=
  exec (fun d => set_tokens (upd
    (fun x => (x.(t_id) =? id) && (x.(t_user) =? user) && (x.(t_org) =? org))
    (fun x => mk_token x.(t_id) x.(t_user) x.(t_org) x.(t_name) x.(t_hash) x.(t_prefix) x.(t_scopes)
                x.(t_last) (Some now) x.(t_created)) d.(tokens)) d).
End Tokens.

(** ** Lemmas *)

Lemma allowed_scopes_split scopes x :
  forallb (fun x => Smem x token_scopes) scopes = true -> In x scopes -> split_on "," x = [x] /\ x <> "".
Proof.
  intros H Hx. rewrite List.forallb_forall in H. specialize (H x Hx). apply Smem_In in H.
  cbn in H. repeat destruct H as [<-|H]; try done.
Qed.

Section TokenLemmas.
Context (hash : string -> string).

Lemma insert_token_Some user org name tok scopes now d id d' :
  insert_token hash user org name tok scopes now d = Some (id, d') ->
  id = fresh_id (List.map t_id d.(tokens)) /\
  (forall t, In t d.(tokens) -> t.(t_hash) <> hash tok) /\
  d' = set_tokens (d.(tokens) ++ [mk_token id user org name (hash tok) (substring 0 10 tok)
                                    (join "," scopes) None None now]) d.
Proof.
  unfold insert_token. destruct (_ && _) eqn:E; [|done]. intros [= <- <-]. bool_to_prop.
  split_and!; [done| |done]. intros t Ht He.
  match goal with H : existsb _ _ = false |- _ => rewrite existsb_none_iff in H; specialize (H t Ht) end.
  bool_to_prop. done.
Qed.

(** What [Authenticate] answers without faults. *)
Lemma Authenticate_run tok now d :
  (run (Authenticate hash tok now) d).1 =
  match find_first (live_token hash tok) d.(tokens) with
  | None => Err "invalid API token"
  | Some t => Ok (t.(t_user), t.(t_org), if t.(t_scopes) =?s "" then [] else split_on "," t.(t_scopes))
  end.
Proof. unfold run, Authenticate, bind, or_fail. cbn. by destruct (find_first _ _). Qed.
End TokenLemmas.

Definition revoked (id user org now : Z) (l : list token_row) : list token_row :=
  upd (fun x => (x.(t_id) =? id) && (x.(t_user) =? user) && (x.(t_org) =? org))
      (fun x => mk_token x.(t_id) x.(t_user) x.(t_org) x.(t_name) x.(t_hash) x.(t_prefix) x.(t_scopes)
                  x.(t_last) (Some now) x.(t_created)) l.

Lemma Revoke_run id user org now d :
  run (Revoke id user org now) d = (Ok tt, set_tokens (revoked id user org now d.(tokens)) d).
Proof. reflexivity. Qed.

Lemma revoked_none id user org now l :
  (forall x, In x l -> x.(t_id) <> id) -> revoked id user org now l = l.
Proof.
  intros H. apply upd_none. intros x Hx. specialize (H x Hx). by apply Z.eqb_neq in H as ->.
Qed.

(** ** Properties *)

(** The roles are nested: what a viewer may do an operator may, what an
    operator may an admin may, an owner may everything; an unknown role may
    nothing; only deleting the organization is kept from admins, and deleting
    a site is kept from operators. *)
Theorem roles_are_nested action role :
  (Can "viewer" action = true -> Can "operator" action = true) /\
  (Can "operator" action = true -> Can "admin" action = true) /\
  Can "owner" action = true /\
  (Can "admin" action = false <-> action = "organization.delete") /\
  (action = "site.delete" -> Can "operator" action = false) /\
  (role_ok role = false -> Can role action = false).
Proof.
  unfold Can, role_ok. cbn [String.eqb Ascii.eqb Bool.eqb Smem existsb]. split_and!.
  - by intros ->.
  - intros H. apply negb_true_iff. destruct (String.eqb_spec action "organization.delete") as [->|]; [|done].
    vm_compute in H. done.
  - done.
  - rewrite negb_false_iff. apply String.eqb_eq.
  - by intros ->.
  - destruct (role =?s "owner"), (role =?s "admin"), (role =?s "operator"), (role =?s "viewer"); done.
Qed.

(** The life of a token: once created it authenticates as its creator, in
    its organization, with exactly the scopes asked for; another user or an
    other organization cannot revoke it; its owner's revocation ends it, and
    then every token is answered as before the creation. *)
Theorem token_lifecycle hash user org name scopes tok now d id r d1 later :
  run (Create hash user org name scopes tok now) d = (Ok (id, r.1.1, tok, r.1.2, r.2), d1) ->
  (run (Authenticate hash tok later) d1).1 = Ok (user, org, scopes) /\
  (forall user' org', user' <> user \/ org' <> org ->
     run (Revoke id user' org' later) d1 = (Ok tt, d1)) /\
  (run (Authenticate hash tok later) (run (Revoke id user org later) d1).2).1 = Err "invalid API token" /\
  (forall tok',
     (run (Authenticate hash tok' later) (run (Revoke id user org later) d1).2).1
     = (run (Authenticate hash tok' later) d).1).
Proof.
  unfold run at 1, Create. destruct (_ =?s ""); [done|]. destruct (forallb _ _) eqn:Es; [|done].
  cbn [negb]. unfold bind. rewrite stmt_nil.
  destruct (insert_token _ _ _ _ _ _ _ _) as [[id0 d0]|] eqn:E; [|done].
  intros H. cbn in H. injection H as -> _ _ _ ->. apply insert_token_Some in E as (Hid & Hfresh & ->).
  set (t := mk_token id user org (trim_space name) (hash tok) (substring 0 10 tok) (join "," scopes) None None now).
  assert (Hnone : find_first (live_token hash tok) d.(tokens) = None).
  { apply find_first_None. intros x Hx. unfold live_token.
    specialize (Hfresh x Hx). apply String.eqb_neq in Hfresh as ->. done. }
  assert (Hold : forall user' org', revoked id user' org' later d.(tokens) = d.(tokens)).
  { intros user' org'. apply revoked_none. intros x Hx Hxid.
    apply (fresh_id_notin (List.map t_id d.(tokens))). rewrite <- Hid, <- Hxid. by apply in_map. }
  assert (Hrev : forall user' org', revoked id user' org' later (d.(tokens) ++ [t])
    = (d.(tokens) ++ revoked id user' org' later [t])%list).
  { intros user' org'. unfold revoked at 1. rewrite upd_app. by rewrite <- (Hold user' org') at 2. }
  split_and!.
  - rewrite Authenticate_run. cbn [tokens set_tokens]. rewrite find_first_app, Hnone. cbn.
    unfold live_token. cbn [t_hash t_revoked]. rewrite String.eqb_refl. cbn. f_equal. f_equal.
    destruct scopes as [|x l]; [done|].
    destruct (String.eqb_spec (join "," (x :: l)) "") as [Ej|_].
    + exfalso. pose proof (allowed_scopes_split _ x Es (or_introl eq_refl)) as [_ Hx].
      destruct l; cbn in Ej; [done|]. by destruct x.
    + apply split_on_join; [done|]. intros p Hp. by apply (allowed_scopes_split (x :: l)).
  - intros user' org' Hne. rewrite Revoke_run. cbn [tokens set_tokens]. rewrite Hrev.
    unfold revoked, upd, t; cbn [List.map t_id t_user t_org]. rewrite Z.eqb_refl.
    assert ((user =? user') && (org =? org') = false) as E2; [|cbn [andb]; rewrite E2; reflexivity].
    apply andb_false_iff. rewrite !Z.eqb_neq. destruct Hne; [left|right]; congruence.
  - rewrite Authenticate_run, Revoke_run. cbn [tokens set_tokens snd].
    rewrite Hrev, find_first_app, Hnone. unfold revoked, upd, t; cbn [List.map t_id t_user t_org].
    rewrite !Z.eqb_refl. cbn [andb]. unfold find_first, List.find, live_token.
    cbn [t_revoked]. rewrite andb_false_r. reflexivity.
  - intros tok'. rewrite !Authenticate_run, Revoke_run. cbn [tokens set_tokens snd].
    rewrite Hrev, find_first_app.
    assert (find_first (live_token hash tok') (revoked id user org later [t]) = None) as ->.
    { unfold revoked, upd, t; cbn [List.map t_id t_user t_org]. rewrite !Z.eqb_refl. cbn [andb].
      unfold find_first, List.find, live_token. cbn [t_revoked]. by rewrite andb_false_r. }
    by destruct (find_first (live_token hash tok') d.(tokens)).
Qed.

(** ** Witnesses *)

Definition demo_adb : adb :=
  mk_adb [1; 2]
    [mk_user 1 "ann" "ann@example.com" "h:secret12" "admin" 0; mk_user 2 "bob" "bob@example.com" "h:hunter22" "viewer" 0]
    [] [mk_member 1 1 "owner" 0; mk_member 1 2 "viewer" 0; mk_member 2 2 "operator" 0] [] [] [].

Lemma token_lifecycle_witness :
  let d1 := (run (Create id 1 1 " ci " ["sites:read"; "fleet:read"] "wf_abcdefghijkl" 5) demo_adb).2 in
  (run (Authenticate id "wf_abcdefghijkl" 9) d1).1 = Ok (1, 1, ["sites:read"; "fleet:read"]).
Proof.
  exact (proj1 (token_lifecycle id 1 1 " ci " ["sites:read"; "fleet:read"] "wf_abcdefghijkl" 5 demo_adb 1
    ("ci", "wf_abcdefg", ["sites:read"; "fleet:read"]) _ 9 eq_refl)).
Defined.
