(* ===== verification/Auth.v ===== *)
(** Accounts and sessions ([internal/auth/auth.go] and [model.go]): first-run
    setup, login, the session lookup, logout and the password change.

    The account model is gantry-core's: what it checks when it loads accounts,
    how it authenticates a password, and its password hashing are parameters,
    as are the hash of session tokens and the random tokens drawn. *)
From S2P Require Import Prelude GoStr TimeText SqlM Access.
Open Scope string_scope.
Open Scope Z_scope.
Open Scope wf_scope.
Open Scope sql_scope.

(** ** Definitions *)

Definition MinPasswordLength : Z := 7.

(** [coreauth.Account], the fields [LoadAccounts] fills. *)
Record account := mk_account {
  ac_id : Z; ac_display : string; ac_role : string;
  ac_password : option (string * string * string);  (* username, email, hash *)
  ac_email : string }.

Record session := mk_sess { UserID : Z; Email : string; CSRF : string; Expires : Z }.

Fixpoint insert_by_uemail (u : user_row) (l : list user_row) : list user_row :=
  match l with
  | [] => [u]
  | x :: l' => if String.leb x.(u_email) u.(u_email) then x :: insert_by_uemail u l' else u :: l
  end.

(** [LoadAccounts]. *)
Definition account_of (u : user_row) : account :=
  mk_account u.(u_id) u.(u_name)
    (if u.(u_role) =?s "admin" then "administrator" else u.(u_role))
    (if u.(u_hash) =?s "" then None else Some (u.(u_name), u.(u_email), u.(u_hash)))
    u.(u_email).
Definition LoadAccounts : M adb (list account) :=
  query (fun d => List.map account_of
    (List.fold_left (fun acc u => insert_by_uemail u acc) d.(users) [])).

Definition insert_audit (kind detail : string) (now : Z) (d : adb) : adb :=
  set_audits (d.(audits) ++ [mk_audit kind detail now]) d.
Definition audit (kind detail : string) (now : Z) : M adb unit := exec (insert_audit kind detail now).

(** [PrimaryOrgID]. *)
Definition PrimaryOrgID : M adb Z :=
  let* r := query (fun d => List.fold_right (fun o acc =>
    match acc with None => Some o | Some x => Some (Z.min o x) end) None d.(ad_orgs)) in
  match r with Some o => ret o | None => throw "no organization exists for this deployment" end.

Section Auth.
(** What gantry-core says of the accounts it is given. *)
Variable accept : list account -> result unit.
Variable AuthenticatePassword : list account -> string -> string -> option account.
(** Password hashing, and the hash of session tokens. *)
Variable Hash : string -> result string.
Variable Verify : string -> string -> bool.
Variable sha : string -> string.

Definition Reload : M adb (list account) :=
  let* l := LoadAccounts in
  match accept l with Ok _ => ret l | Err e => throw e end.

Definition NeedsSetup : M adb bool :=
  let* l := Reload in ret (match l with [] => true | _ => false end).

(** [INSERT INTO users ... SELECT ... WHERE NOT EXISTS(SELECT 1 FROM users)]:
    the number of rows. *)
Definition insert_first_admin (username email h : string) (now : Z) (d : adb) : option (Z * adb) :=
  match d.(users) with
  | [] => Some (1, set_users [mk_user 1 username email h "admin" now] d)
  | _ => Some (0, d)
  end.

Definition setup_body (org : Z) (username email h : string) (now : Z) : M adb (unit * bool) :=
  let* n := stmt (insert_first_admin username email h now) in
  if n =? 0 then throw "setup already completed" else
  let* uid := stmt (fun d => u ← find_first (fun u => to_lower u.(u_email) =?s email) d.(users);
                             Some (u.(u_id), d)) in
  exec_opt (insert_member org uid "owner" now) ;;;
  ret (tt, true).

Definition CreateAdmin (username email pw : string) (now : Z) : M adb unit :=
  let username := trim_space username in
  let email := trim_space (to_lower email) in
  if (username =?s "") || negb (contains email "@") || (len pw <? MinPasswordLength)
  then throw "valid username, email and password of at least 7 characters required" else
  let* need := NeedsSetup in
  if negb need then throw "setup already completed" else
  match Hash pw with
  | Err e => throw e
  | Ok h =>
      let* org := PrimaryOrgID in
      transact (setup_body org username email h now) ;;;
      let* _r := Reload in
      audit "first_admin_created" email now
  end.

Definition insert_session (raw : string) (user : Z) (csrf : string) (exp now : Z) (d : adb) : option adb :=
  if user_exists user d && negb (existsb (fun x => x.(se_hash) =?s sha raw) d.(sessions))
  then Some (set_sessions (d.(sessions) ++
         [mk_session (fresh_id (List.map se_id d.(sessions))) (sha raw) user csrf exp now]) d)
  else None.

(** [Login]; [raw] and [csrf] are the tokens drawn. *)
Definition Login (email pw raw csrf : string) (now : Z) : M adb (string * session) :=
  let* accounts := Reload in
  match AuthenticatePassword accounts email pw with
  | None => throw "invalid credentials"
  | Some a =>
      let exp := now + 24 * hour in
      exec_opt (insert_session raw a.(ac_id) csrf exp now) ;;;
      ignore tt (audit "login" a.(ac_display) now) ;;;
      ret (raw, mk_sess a.(ac_id) a.(ac_display) csrf exp)
  end.

Definition CreateSessionForUser (user : Z) (email raw csrf : string) (now : Z) : M adb (string * session) :=
  let* _r := Reload in
  let exp := now + 24 * hour in
  exec_opt (insert_session raw user csrf exp now) ;;;
  ignore tt (audit "oidc_login" email now) ;;;
  ret (raw, mk_sess user email csrf exp).

Definition delete_session (raw : string) (d : adb) : adb :=
  set_sessions (del (fun x => x.(se_hash) =?s sha raw) d.(sessions)) d.

(** [Session(raw)] at the instant [now]. *)
Definition Session (raw : string) (now : Z) : M adb session :=
  if raw =?s "" then throw "no session" else
  let* r := or_fail (query (fun d =>
    x ← find_first (fun x => x.(se_hash) =?s sha raw) d.(sessions);
    u ← user_by_id x.(se_user) d; Some (x, u))) "invalid session" in
  match r with
  | None => throw "invalid session"
  | Some (x, u) =>
      if x.(se_expires) <? now then
        ignore tt (exec (delete_session raw)) ;;; throw "expired session"
      else ret (mk_sess x.(se_user) u.(u_email) x.(se_csrf) x.(se_expires))
  end.

Definition Logout (raw : string) (now : Z) : M adb unit :=
  ignore tt (exec (delete_session raw)) ;;; ignore tt (audit "logout" "" now).

Definition with_hash (h : string) (u : user_row) : user_row :=
  mk_user u.(u_id) u.(u_name) u.(u_email) h u.(u_role) u.(u_created).

Definition change_body (user : Z) (h keep : string) (now : Z) : M adb (unit * bool) :=
  exec (fun d => set_users (upd (fun u => u.(u_id) =? user) (with_hash h) d.(users)) d) ;;;
  exec (fun d => set_sessions (del (fun x => (x.(se_user) =? user) && negb (x.(se_hash) =?s sha keep))
                                 d.(sessions)) d) ;;;
  exec (insert_audit "password_changed" "self-service password change" now) ;;;
  ret (tt, true).

Definition ChangePassword (user : Z) (current new keep : string) (now : Z) : M adb unit :=
  if len new <? MinPasswordLength then throw "password must be at least 7 characters" else
  let* row := or_fail (query (user_by_id user)) "current password is incorrect" in
  if negb (match row with Some u => Verify u.(u_hash) current | None => false end)
  then throw "current password is incorrect" else
  match Hash new with
  | Err e => throw e
  | Ok h => transact (change_body user h keep now) ;;; let* _r := Reload in ret tt
  end.
End Auth.

(** ** Lemmas *)

Lemma lower_trim_left p s : to_lower s = s -> to_lower (trim_left p s) = trim_left p s.
Proof.
  induction s as [|c s IH]; cbn; [done|]. intros H. injection H as Hc Hs.
  destruct (p c); [auto|]. cbn. by rewrite Hc, Hs.
Qed.

Lemma lower_trim_right p s : to_lower s = s -> to_lower (trim_right p s) = trim_right p s.
Proof.
  induction s as [|c s IH]; cbn; [done|]. intros H. injection H as Hc Hs. specialize (IH Hs).
  destruct (trim_right p s) as [|d r]; [destruct (p c); cbn; by rewrite ?Hc|].
  cbn in *. by rewrite Hc, IH.
Qed.

Lemma lower_trim_space s : to_lower (trim_space (to_lower s)) = trim_space (to_lower s).
Proof. unfold trim_space. apply lower_trim_right, lower_trim_left, to_lower_idem. Qed.

(** The tables after a successful setup. *)
Definition setup_db (org : Z) (username email h : string) (now : Z) (d : adb) : adb :=
  set_members (d.(members) ++ [mk_member org 1 "owner" now])
    (set_users [mk_user 1 username email h "admin" now] d).

Lemma setup_body_honest org n e h now : honest (setup_body org n e h now).
Proof. unfold setup_body. solve_honest. Qed.

Lemma setup_run org n e h now d :
  run (transact (setup_body org n (trim_space (to_lower e)) h now)) d =
  match d.(users) with
  | [] => if Zmem org d.(ad_orgs) && negb (existsb (is_member 1 org) d.(members))
          then (Ok tt, setup_db org n (trim_space (to_lower e)) h now d)
          else (Err "constraint failed", d)
  | _ => (Err "setup already completed", d)
  end.
Proof.
  unfold run, transact, setup_body, bind. rewrite stmt_nil. unfold insert_first_admin.
  destruct (users d) eqn:Eu; [|done]. cbn [Z.eqb]. rewrite stmt_nil. cbn [users set_users find_first List.find u_email].
  rewrite lower_trim_space, String.eqb_refl. cbn [option_bind mbind u_id].
  unfold exec_opt. rewrite stmt_nil. unfold insert_member, upsert_member.
  cbn [members set_users ad_orgs].
  destruct (existsb (is_member 1 org) (members d)) eqn:Em.
  { cbn. by rewrite andb_false_r. }
  assert (user_exists 1 (set_users [mk_user 1 n (trim_space (to_lower e)) h "admin" now] d) = true) as -> by done.
  destruct (Zmem org (ad_orgs d)) eqn:Eo; [|done]. cbn [andb negb]. done.
Qed.

(** Whatever fails on the way, the transaction of the setup either leaves the
    tables alone or is the whole setup. *)
Lemma setup_all_or_nothing org n e h now d fl :
  let '(r, (d', _)) := transact (setup_body org n (trim_space (to_lower e)) h now) (d, fl) in
  match r with
  | Ok _ => d.(users) = [] /\ d' = setup_db org n (trim_space (to_lower e)) h now d
  | Err _ => d' = d
  end.
Proof.
  pose proof (transact_all_or_nothing (setup_body org n (trim_space (to_lower e)) h now) d fl
    (setup_body_honest _ _ _ _ _)) as H.
  destruct (transact _ _) as [[[]|err] [d' fl']]; [|done].
  rewrite setup_run in H. destruct (users d); [|done]. destruct (_ && _); [|done]. by injection H.
Qed.

Lemma PrimaryOrgID_readonly : readonly PrimaryOrgID.
Proof. unfold PrimaryOrgID. solve_readonly. Qed.

Section AuthLemmas.
Context (accept : list account -> result unit)
  (AuthenticatePassword : list account -> string -> string -> option account)
  (Hash : string -> result string) (Verify : string -> string -> bool) (sha : string -> string).

Lemma Reload_readonly : readonly (Reload accept).
Proof. unfold Reload, LoadAccounts. solve_readonly. Qed.

Lemma CreateAdmin_cases n e pw now d fl :
  let '(r, (d', _)) := CreateAdmin accept Hash n e pw now (d, fl) in
  d' = d /\ is_ok r = false \/
  d.(users) = [] /\ exists org h extra, Hash pw = Ok h /\
    d' = set_audits (d.(audits) ++ extra) (setup_db org (trim_space n) (trim_space (to_lower e)) h now d) /\
    (is_ok r = true -> extra = [mk_audit "first_admin_created" (trim_space (to_lower e)) now]).
Proof.
  unfold CreateAdmin. destruct (_ || _); [by left|]. unfold NeedsSetup, bind at 1 2.
  destruct (Reload accept (d, fl)) as [[l|e1] [d1 f1]] eqn:ER; apply Reload_readonly in ER; subst d1; [|by left].
  cbn [ret]. destruct (negb _); [by left|]. destruct (Hash pw) as [h|e2] eqn:Eh; [|by left].
  unfold bind at 1. destruct (PrimaryOrgID (d, f1)) as [[org|e3] [d2 f2]] eqn:EP;
    apply PrimaryOrgID_readonly in EP; subst d2; [|by left].
  unfold bind at 1. pose proof (setup_all_or_nothing org (trim_space n) e h now d f2) as HS.
  destruct (transact _ _) as [[[]|e4] [d3 f3]]; [|by left; subst]. destruct HS as [Hu ->].
  unfold bind. set (d4 := setup_db _ _ _ _ _ _).
  destruct (Reload accept (d4, f3)) as [[l2|e5] [d5 f5]] eqn:ER2; apply Reload_readonly in ER2; subst d5.
  2: { right. split; [done|]. exists org, h, []. rewrite app_nil_r. by split_and!. }
  unfold audit, exec, stmt. destruct f5 as [|[] f5]; right; (split; [done|]).
  + exists org, h, [mk_audit "first_admin_created" (trim_space (to_lower e)) now]. by split_and!.
  + exists org, h, []. rewrite app_nil_r. by split_and!.
  + exists org, h, [mk_audit "first_admin_created" (trim_space (to_lower e)) now]. by split_and!.
Qed.
End AuthLemmas.

Lemma PrimaryOrgID_honest : honest PrimaryOrgID.
Proof. unfold PrimaryOrgID. solve_honest. Qed.

Lemma PrimaryOrgID_run d : d.(ad_orgs) <> [] ->
  exists org, run PrimaryOrgID d = (Ok org, d) /\ In org d.(ad_orgs).
Proof.
  intros H.
  assert (exists o, List.fold_right (fun o acc => match acc with None => Some o | Some x => Some (Z.min o x) end)
            None d.(ad_orgs) = Some o /\ In o d.(ad_orgs)) as (o & Ho & Hin).
  { clear -H. induction (ad_orgs d) as [|a l IH]; [done|]. cbn.
    destruct l as [|b l]; [exists a; cbn; auto|].
    destruct (IH ltac:(done)) as (o & -> & Hin). exists (Z.min a o). split; [done|].
    destruct (Z.min_dec a o) as [->| ->]; auto. }
  exists o. split; [|done]. unfold run, PrimaryOrgID, bind. rewrite query_nil, Ho. done.
Qed.

Section ReloadLemmas.
Context (accept : list account -> result unit).

Lemma Reload_honest : honest (Reload accept).
Proof. unfold Reload, LoadAccounts. solve_honest. Qed.

Lemma NeedsSetup_honest : honest (NeedsSetup accept).
Proof. unfold NeedsSetup. apply honest_bind; [apply Reload_honest|]. solve_honest. Qed.

Definition accounts_of (d : adb) : list account :=
  List.map account_of (List.fold_left (fun acc u => insert_by_uemail u acc) d.(users) []).

Lemma Reload_run_cases d :
  run (Reload accept) d = match accept (accounts_of d) with
                          | Ok _ => (Ok (accounts_of d), d)
                          | Err e => (Err e, d)
                          end.
Proof.
  unfold run, Reload, LoadAccounts, bind. rewrite query_nil. fold (accounts_of d).
  by destruct (accept (accounts_of d)).
Qed.

Lemma Reload_run d : (forall l, accept l = Ok tt) -> run (Reload accept) d = (Ok (accounts_of d), d).
Proof. intros H. unfold run, Reload, LoadAccounts, bind. rewrite query_nil. by rewrite H. Qed.

Lemma insert_by_uemail_nonempty u l : insert_by_uemail u l <> [].
Proof. destruct l; cbn; [done|]. by destruct (String.leb _ _). Qed.

Lemma NeedsSetup_run d : (forall l, accept l = Ok tt) ->
  run (NeedsSetup accept) d = (Ok (match d.(users) with [] => true | _ => false end), d).
Proof.
  intros H. unfold NeedsSetup. erewrite run_bind; [|apply Reload_honest|by apply Reload_run].
  unfold run, ret, accounts_of. f_equal. f_equal. destruct (users d) as [|u l]; [done|].
  assert (Hf : forall l acc, acc <> [] -> List.fold_left (fun acc u => insert_by_uemail u acc) l acc <> []).
  { clear. induction l as [|u l IH]; cbn; [done|]. intros acc _. apply IH, insert_by_uemail_nonempty. }
  cbn. specialize (Hf l [u] ltac:(done)). by destruct (List.fold_left _ l [u]).
Qed.
End ReloadLemmas.

Section SessionLemmas.
Context (sha : string -> string).

Definition session_of (raw : string) (d : adb) : option (session_row * user_row) :=
  x ← find_first (fun x => x.(se_hash) =?s sha raw) d.(sessions);
  u ← user_by_id x.(se_user) d; Some (x, u).

(** The answer of [Session] without faults. *)
Lemma Session_run raw later d :
  run (Session sha raw later) d =
  if raw =?s "" then (Err "no session", d) else
  match session_of raw d with
  | None => (Err "invalid session", d)
  | Some (x, u) =>
      if x.(se_expires) <? later then (Err "expired session", delete_session sha raw d)
      else (Ok (mk_sess x.(se_user) u.(u_email) x.(se_csrf) x.(se_expires)), d)
  end.
Proof.
  unfold run, Session. destruct (raw =?s ""); [done|]. unfold bind at 1, or_fail. rewrite query_nil.
  fold (session_of raw d). destruct (session_of raw d) as [[x u]|]; [|done]. by destruct (_ <? later).
Qed.

Lemma find_deleted raw l : find_first (fun x => x.(se_hash) =?s sha raw) (del (fun x => x.(se_hash) =?s sha raw) l) = None.
Proof. apply find_first_None. intros x Hx. by apply in_del in Hx as [_ Hx]. Qed.

Lemma session_deleted raw d : session_of raw (delete_session sha raw d) = None.
Proof. unfold session_of, delete_session. cbn [sessions set_sessions]. by rewrite find_deleted. Qed.

Lemma insert_session_Some raw user csrf exp now d d' :
  insert_session sha raw user csrf exp now d = Some d' ->
  exists u, user_by_id user d = Some u /\
    session_of raw d' = Some (mk_session (fresh_id (List.map se_id d.(sessions))) (sha raw) user csrf exp now, u) /\
    d'.(users) = d.(users).
Proof.
  unfold insert_session, user_exists. destruct (user_by_id user d) as [u|] eqn:Eu; [|done].
  destruct (existsb _ _) eqn:Ex; [done|]. cbn [negb andb]. intros [= <-]. exists u. split; [done|].
  split; [|done]. unfold session_of. cbn [sessions set_sessions]. rewrite find_first_app.
  rewrite (proj2 (find_first_None _ _) (proj1 (existsb_none_iff _ _) Ex)).
  cbn [find_first List.find se_hash]. rewrite String.eqb_refl. cbn [option_bind mbind se_user].
  match goal with |- context [user_by_id user ?d'] => change (user_by_id user d') with (user_by_id user d) end.
  by rewrite Eu.
Qed.
End SessionLemmas.

Lemma user_by_id_with_hash user h id d l :
  user_by_id id (set_users (upd (fun u => u.(u_id) =? user) (with_hash h) d.(users)) (set_sessions l d))
  = (fun u => if u.(u_id) =? user then with_hash h u else u) <$> user_by_id id d.
Proof.
  unfold user_by_id. cbn [users set_users]. induction d.(users) as [|u us IH]; [done|]. cbn in *.
  destruct (Z.eqb_spec (u_id u) user) as [E|E]; cbn; destruct (u_id u =? id) eqn:E2; cbn; try done.
  - apply Z.eqb_eq in E. by rewrite E.
  - apply Z.eqb_neq in E. by rewrite E.
Qed.

(** The tables after a password change. *)
Definition changed_db (sha : string -> string) (user : Z) (h keep : string) (now : Z) (d : adb) : adb :=
  insert_audit "password_changed" "self-service password change" now
    (set_users (upd (fun u => u.(u_id) =? user) (with_hash h) d.(users))
      (set_sessions (del (fun x => (x.(se_user) =? user) && negb (x.(se_hash) =?s sha keep)) d.(sessions)) d)).

Lemma change_all_or_nothing sha user h keep now d fl :
  let '(r, (d', _)) := transact (change_body sha user h keep now) (d, fl) in
  match r with Ok _ => d' = changed_db sha user h keep now d | Err _ => d' = d end.
Proof.
  pose proof (transact_all_or_nothing (change_body sha user h keep now) d fl) as H.
  destruct (transact _ _) as [[a|err] [d' fl']].
  - specialize (H ltac:(unfold change_body; solve_honest)). by injection H as _ <-.
  - apply H. unfold change_body. solve_honest.
Qed.

Lemma change_then_reload accept sha user h keep now d fl :
  let '(r, (d', _)) := (transact (change_body sha user h keep now) ;;; let* _r := Reload accept in ret tt) (d, fl) in
  d' = d /\ is_ok r = false \/ d' = changed_db sha user h keep now d.
Proof.
  pose proof (change_all_or_nothing sha user h keep now d fl) as HC. unfold bind at 1.
  destruct (transact _ _) as [[[]|e] [d1 f1]]; [|by left]. subst d1. unfold bind.
  destruct (Reload accept (_, f1)) as [[l|e] [d2 f2]] eqn:ER; apply Reload_readonly in ER; by right.
Qed.

Lemma ChangePassword_cases accept Hash Verify sha user current new keep now d fl :
  let '(r, (d', _)) := ChangePassword accept Hash Verify sha user current new keep now (d, fl) in
  d' = d /\ is_ok r = false \/
  7 <= len new /\ exists u h, user_by_id user d = Some u /\ Verify u.(u_hash) current = true /\ Hash new = Ok h /\
    d' = changed_db sha user h keep now d.
Proof.
  unfold ChangePassword. destruct (Z.ltb_spec (len new) MinPasswordLength) as [|Hl]; [by left|].
  unfold bind at 1. destruct (or_fail _ _ (d, fl)) as [[row|e] [d1 f1]] eqn:E;
    pose proof (readonly_or_fail _ _ (readonly_query (user_by_id user)) _ _ _ _ _ E); subst d1; [|by left].
  assert (row = user_by_id user d) as ->.
  { revert E. unfold or_fail, query, stmt. destruct fl as [|[] fl]; intros; by simplify_eq. }
  destruct (user_by_id user d) as [u|] eqn:Eu; [|by left].
  destruct (Verify (u_hash u) current) eqn:Ev; [|by left]. cbn [negb].
  destruct (Hash new) as [h|e] eqn:Eh; [|by left].
  pose proof (change_then_reload accept sha user h keep now d f1) as HC.
  destruct (bind _ _ _) as [r [d' f']]. destruct HC as [HC| ->]; [by left|right]. split; [done|]. by exists u, h.
Qed.

Lemma find_first_del_hash (sha : string -> string) raw p l :
  NoDup (List.map se_hash l) ->
  find_first (fun x => x.(se_hash) =?s sha raw) (del p l) =
  match find_first (fun x => x.(se_hash) =?s sha raw) l with
  | Some x => if p x then None else Some x
  | None => None
  end.
Proof.
  unfold find_first, del. induction l as [|x l IH]; [done|].
  cbn [List.map List.filter List.find]. intros [Hx Hnd]%NoDup_cons. specialize (IH Hnd).
  destruct (String.eqb_spec (se_hash x) (sha raw)) as [E|E].
  - destruct (p x); cbn [negb List.find]; [|by rewrite E, String.eqb_refl].
    rewrite IH. destruct (List.find _ l) as [y|] eqn:Ey; [|done].
    apply List.find_some in Ey as [Hy Ey]. apply String.eqb_eq in Ey. exfalso.
    apply Hx. rewrite E, <- Ey. apply list_elem_of_In. by apply in_map.
  - apply String.eqb_neq in E. destruct (p x); cbn [negb List.find]; by rewrite ?E.
Qed.

Lemma session_of_changed sha user h keep now raw d :
  NoDup (List.map se_hash d.(sessions)) ->
  session_of sha raw (changed_db sha user h keep now d) =
  match session_of sha raw d with
  | Some (x, u) => if (x.(se_user) =? user) && negb (sha raw =?s sha keep) then None
                   else Some (x, if u.(u_id) =? user then with_hash h u else u)
  | None => None
  end.
Proof.
  intros Hnd. unfold session_of.
  change (sessions (changed_db sha user h keep now d))
    with (del (fun x => (x.(se_user) =? user) && negb (x.(se_hash) =?s sha keep)) d.(sessions)).
  rewrite find_first_del_hash by done.
  destruct (find_first _ (sessions d)) as [x|] eqn:Ex; [|done].
  apply find_first_Some in Ex as [_ Ex]. apply String.eqb_eq in Ex. rewrite Ex.
  cbn [option_bind mbind]. destruct (_ && _) eqn:E; cbn [option_bind mbind].
  - destruct (user_by_id (se_user x) d); cbn; by rewrite ?E.
  - match goal with |- context [user_by_id ?i (changed_db ?a ?b ?c ?k ?n ?e)] =>
      change (user_by_id i (changed_db a b c k n e)) with (user_by_id i (set_users
        (upd (fun u => u.(u_id) =? b) (with_hash c) e.(users)) (set_sessions [] e))) end.
    rewrite user_by_id_with_hash. destruct (user_by_id (se_user x) d); cbn; by rewrite ?E.
Qed.

(** ** Properties *)

(** The first-run setup happens once and as a whole.  With valid input on
    a fresh installation it succeeds; under any pattern of refused statements
    it either changes nothing, or there was no user and there is now exactly
    the administrator together with its owner membership; and once there is a
    user no setup changes anything, not even one that passed the check before
    that user appeared. *)
Theorem setup_once accept Hash n e pw now d fl :
  (let '(r, (d', _)) := CreateAdmin accept Hash n e pw now (d, fl) in
   d' = d /\ is_ok r = false \/
   d.(users) = [] /\ exists org h, Hash pw = Ok h /\
     d'.(users) = [mk_user 1 (trim_space n) (trim_space (to_lower e)) h "admin" now] /\
     d'.(members) = (d.(members) ++ [mk_member org 1 "owner" now])%list /\
     d'.(sessions) = d.(sessions) /\ d'.(tokens) = d.(tokens)) /\
  (d.(users) <> [] -> forall org h,
     let '(r, (d', _)) := transact (setup_body org (trim_space n) (trim_space (to_lower e)) h now) (d, fl) in
     d' = d /\ is_ok r = false) /\
  (d.(users) = [] -> d.(members) = [] -> d.(ad_orgs) <> [] -> (forall l, accept l = Ok tt) ->
   is_ok (Hash pw) = true -> trim_space n <> "" -> contains (trim_space (to_lower e)) "@" = true -> 7 <= len pw ->
   is_ok (run (CreateAdmin accept Hash n e pw now) d).1 = true).
Proof.
  split_and!.
  - pose proof (CreateAdmin_cases accept Hash n e pw now d fl) as H.
    destruct (CreateAdmin _ _ _ _ _ _ _) as [r [d' f']]. destruct H as [H|(Hu & org & h & x & Hh & -> & _)]; [by left|].
    right. split; [done|]. by exists org, h.
  - intros Hu org h. pose proof (setup_all_or_nothing org (trim_space n) e h now d fl) as H.
    destruct (transact _ _) as [[|] [d' f']]; naive_solver.
  - intros Hu Hm Ho Ha Hh Hn He Hp. destruct (PrimaryOrgID_run d Ho) as (org & HP & Hin).
    unfold CreateAdmin. apply String.eqb_neq in Hn as ->. rewrite He.
    assert ((len pw <? MinPasswordLength) = false) as -> by (apply Z.ltb_ge; done). cbn [orb negb].
    destruct (Hash pw) as [h|]; [|done].
    erewrite run_bind; [|apply NeedsSetup_honest|apply NeedsSetup_run; done]. rewrite Hu. cbn [negb].
    erewrite run_bind; [|apply PrimaryOrgID_honest|exact HP].
    erewrite run_bind; [|apply honest_transact, setup_body_honest|].
    2: { rewrite setup_run, Hu, Hm, (proj2 (Zmem_In _ _) Hin). reflexivity. }
    erewrite run_bind; [|apply Reload_honest|apply Reload_run; done]. reflexivity.
Qed.

(** A login opens a session that is good for 24 hours and no longer, and
    until logout: in that time the token answers for the account that logged in
    with its CSRF token; afterwards it is refused and the row is gone. *)
Theorem session_lifetime accept auth sha email pw raw csrf now d raw' s d1 later :
  raw <> "" -> run (Login accept auth sha email pw raw csrf now) d = (Ok (raw', s), d1) ->
  raw' = raw /\ s.(Auth.CSRF) = csrf /\ s.(Expires) = now + 24 * hour /\
  (exists a, auth (accounts_of d) email pw = Some a /\ s.(UserID) = a.(ac_id)) /\
  (later <= now + 24 * hour -> exists u, user_by_id s.(UserID) d = Some u /\
     run (Session sha raw later) d1 = (Ok (mk_sess s.(UserID) u.(u_email) csrf (now + 24 * hour)), d1)) /\
  (now + 24 * hour < later ->
     run (Session sha raw later) d1 = (Err "expired session", delete_session sha raw d1)) /\
  (forall d2, d2 = delete_session sha raw d1 \/ d2 = (run (Logout sha raw later) d1).2 ->
     forall t, (run (Session sha raw t) d2).1 = Err "invalid session").
Proof.
  intros Hraw H. unfold Login in H. pose proof (Reload_honest accept) as Hh.
  destruct (run (Reload accept) d) as [[l|e] dr] eqn:ER.
  2: { unfold run, bind in *. destruct (Reload accept (d, [])) as [[|] []]; naive_solver. }
  assert (dr = d /\ l = accounts_of d) as [-> ->].
  { rewrite Reload_run_cases in ER. destruct (accept (accounts_of d)); by simplify_eq. }
  rewrite (run_bind _ _ _ _ _ Hh ER) in H.
  destruct (auth (accounts_of d) email pw) as [a|] eqn:Ea; [|done].
  unfold run, bind, exec_opt in H. rewrite stmt_nil in H.
  destruct (insert_session sha raw (ac_id a) csrf (now + 24 * hour) now d) as [di|] eqn:Ei; [|done].
  cbn in H. injection H as <- <- <-. apply insert_session_Some in Ei as (u & Hu & Hs & Hus).
  set (d1 := insert_audit "login" (ac_display a) now di).
  assert (session_of sha raw d1 = session_of sha raw di) as Hs1 by done.
  cbn [Auth.CSRF UserID Expires]. apply String.eqb_neq in Hraw. split_and!; try done.
  - by exists a.
  - intros Hl. exists u. split; [done|]. rewrite Session_run, Hraw, Hs1, Hs. cbn [se_expires].
    assert ((now + 24 * hour <? later) = false) as -> by (apply Z.ltb_ge; done). done.
  - intros Hl. rewrite Session_run, Hraw, Hs1, Hs. cbn [se_expires]. by apply Z.ltb_lt in Hl as ->.
  - assert (forall t, (run (Session sha raw t) (delete_session sha raw d1)).1 = Err "invalid session") as Hd.
    { intros t. by rewrite Session_run, Hraw, session_deleted. }
    intros d2 [->| ->] t; [apply Hd|]. rewrite Session_run, Hraw.
    assert (session_of sha raw (run (Logout sha raw later) d1).2 = None) as ->
      by exact (session_deleted sha raw d1). done.
Qed.

(** A password change under any pattern of refused statements either leaves
    everything alone (always with the wrong current password, or a new one
    that is too short) or sets the new hash, ends every other session of the
    user and keeps the one that asked and those of other users. *)
Theorem password_change accept Hash Verify sha user current new keep now d fl :
  NoDup (List.map se_hash d.(sessions)) ->
  (let '(r, (d', _)) := ChangePassword accept Hash Verify sha user current new keep now (d, fl) in
  d' = d /\ is_ok r = false \/
  7 <= len new /\ exists u h, user_by_id user d = Some u /\ Verify u.(u_hash) current = true /\ Hash new = Ok h /\
    d'.(users) = upd (fun u => u.(u_id) =? user) (with_hash h) d.(users) /\
    d'.(members) = d.(members) /\ d'.(tokens) = d.(tokens) /\
    forall raw later, raw <> "" ->
      (run (Session sha raw later) d').1 =
      match session_of sha raw d with
      | Some (x, _) => if (x.(se_user) =? user) && negb (sha raw =?s sha keep) then Err "invalid session"
                       else (run (Session sha raw later) d).1
      | None => Err "invalid session"
      end) /\
  (7 <= len new -> (forall l, accept l = Ok tt) -> is_ok (Hash new) = true ->
   (exists u, user_by_id user d = Some u /\ Verify u.(u_hash) current = true) ->
   is_ok (run (ChangePassword accept Hash Verify sha user current new keep now) d).1 = true).
Proof.
  intros Hnd. split.
  2: { intros Hl Ha Hh (u & Hu & Hv). unfold run, ChangePassword.
    assert ((len new <? MinPasswordLength) = false) as -> by (apply Z.ltb_ge; done).
    unfold bind at 1, or_fail. rewrite query_nil, Hu. cbn [negb]. rewrite Hv. cbn [negb].
    destruct (Hash new) as [h|]; [|done].
    change (is_ok (run (transact (change_body sha user h keep now) ;;; let* _r := Reload accept in ret tt) d).1 = true).
    erewrite run_bind; [|apply honest_transact; unfold change_body; solve_honest|reflexivity].
    erewrite run_bind; [|apply Reload_honest|by apply Reload_run]. done. }
  pose proof (ChangePassword_cases accept Hash Verify sha user current new keep now d fl) as H.
  destruct (ChangePassword _ _ _ _ _ _ _ _ _ _) as [r [d' f']].
  destruct H as [H|(Hl & u & h & Hu & Hv & Hh & ->)]; [by left|]. right. split; [done|].
  exists u, h. split_and!; try done. intros raw later Hraw.
  rewrite !Session_run. apply String.eqb_neq in Hraw as ->.
  rewrite (session_of_changed sha user h keep now raw d Hnd).
  destruct (session_of sha raw d) as [[x w]|]; [|done].
  destruct (_ && _); [done|]. destruct (u_id w =? user); by destruct (_ <? later).
Qed.

(** ** Witnesses *)

Definition demo_accept (l : list account) : result unit := Ok tt.
Definition demo_hash (pw : string) : result string := Ok ("h:" ++ pw).
Definition demo_verify (encoded pw : string) : bool := encoded =?s ("h:" ++ pw).
Definition demo_authenticate (l : list account) (email pw : string) : option account :=
  find_first (fun a => equal_fold a.(ac_email) email &&
    match a.(ac_password) with Some (_, _, h) => demo_verify h pw | None => false end) l.
Definition empty_adb : adb := mk_adb [1] [] [] [] [] [] [].
Definition logged_in : adb :=
  mk_adb [1; 2] demo_adb.(users)
    [mk_session 1 "raw1" 1 "c1" 1000 0; mk_session 2 "raw2" 1 "c2" 1000 0; mk_session 3 "raw3" 2 "c3" 1000 0]
    demo_adb.(members) [] [] [].

Lemma setup_once_witness :
  is_ok (run (CreateAdmin demo_accept demo_hash "Ann" "Ann@Example.com" "secret12" 5) empty_adb).1 = true /\
  (let '(r, (d', _)) := transact (setup_body 1 (trim_space "Ann") (trim_space (to_lower "Ann@Example.com")) "h" 5) (demo_adb, []) in
   d' = demo_adb /\ is_ok r = false).
Proof.
  split.
  - apply (setup_once demo_accept demo_hash "Ann" "Ann@Example.com" "secret12" 5 empty_adb []); try done; vm_compute; discriminate.
  - apply (proj1 (proj2 (setup_once demo_accept demo_hash "Ann" "Ann@Example.com" "secret12" 5 demo_adb [])) ltac:(discriminate)).
Defined.

Lemma session_lifetime_witness :
  let d1 := (run (Login demo_accept demo_authenticate id "ann@example.com" "secret12" "raw" "csrf" 5) demo_adb).2 in
  run (Session id "raw" (5 + 25 * hour)) d1 = (Err "expired session", delete_session id "raw" d1).
Proof.
  intros d1. unshelve eapply (session_lifetime demo_accept demo_authenticate id "ann@example.com" "secret12" "raw" "csrf" 5
    demo_adb "raw" (mk_sess 1 "ann" "csrf" (5 + 24 * hour)) d1 (5 + 25 * hour)); [discriminate|vm_compute; reflexivity|vm_compute; reflexivity].
Defined.

Lemma password_change_witness :
  is_ok (run (ChangePassword demo_accept demo_hash demo_verify id 1 "secret12" "changed1" "raw1" 7) logged_in).1 = true.
Proof.
  refine (proj2 (password_change demo_accept demo_hash demo_verify id 1 "secret12" "changed1" "raw1" 7 logged_in [] _) _ _ _ _).
  - cbn. repeat (apply NoDup_cons; split; [set_solver|]). apply NoDup_nil. done.
  - vm_compute. discriminate.
  - done.
  - done.
  - eexists. split; [reflexivity|]. vm_compute. reflexivity.
Defined.
