(* ===== verification/Routes.v ===== *)
(** The HTTP authorization boundary ([internal/server/server.go]): the route
    table, [authorize] and [tokenPrincipal].

    A handler is reached with a principal or the request is answered with an
    error; what the handlers do is not part of this file.  The state is the
    identity tables and the limiter of invalid tokens. *)
From S2P Require Import Prelude GoStr TimeText SqlM RateLimit Access Auth.
Open Scope string_scope.
Open Scope Z_scope.
Open Scope wf_scope.
Open Scope sql_scope.

(** ** Definitions *)

Record routeDef := mk_route {
  rt_method : string; rt_path : string; rt_action : string; rt_csrf : bool; rt_scopes : list string }.

Definition apiRouteDefs : list routeDef :=
  [mk_route "GET" "/healthz" "" false [];
   mk_route "GET" "/wf.js" "" false [];
   mk_route "POST" "/api/analytics/event" "" false [];
   mk_route "GET" "/api/setup/status" "" false [];
   mk_route "GET" "/api/setup/database" "" false [];
   mk_route "POST" "/api/setup/database" "" false [];
   mk_route "POST" "/api/setup" "" false [];
   mk_route "POST" "/api/login" "" false [];
   mk_route "GET" "/api/oidc/login" "" false [];
   mk_route "GET" "/api/oidc/callback" "" false [];
   mk_route "GET" "/api/oidc/config" "organization.read" false [];
   mk_route "PUT" "/api/oidc/config" "organization.update" true [];
   mk_route "POST" "/api/logout" "session" true [];
   mk_route "GET" "/api/session" "session" false [];
   mk_route "GET" "/api/launcher/instances" "" false [];
   mk_route "PUT" "/api/launcher/config" "launcher.configure.all" true [];
   mk_route "GET" "/api/cluster/v1/identity" "organization.read" false [];
   mk_route "GET" "/api/cluster/v1/members" "organization.read" false [];
   mk_route "POST" "/api/cluster/v1/invitations" "membership.update" true [];
   mk_route "GET" "/api/cluster/v1/joins" "organization.read" false [];
   mk_route "POST" "/api/cluster/v1/joins/{id}/{action}" "membership.update" true [];
   mk_route "GET" "/api/cluster/v1/outbound" "organization.read" false [];
   mk_route "POST" "/api/cluster/v1/outbound" "membership.update" true [];
   mk_route "POST" "/api/cluster/v1/outbound/{id}/collect" "membership.update" true [];
   mk_route "POST" "/api/cluster/v1/members/{id}/{action}" "membership.update" true [];
   mk_route "GET" "/api/cluster/v1/status" "organization.read" false [];
   mk_route "GET" "/api/cluster/v1/audit" "organization.read" false [];
   mk_route "GET" "/api/cluster/v1/compare" "organization.read" false [];
   mk_route "GET" "/api/cluster/v1/propagation/kinds" "organization.read" false [];
   mk_route "POST" "/api/cluster/v1/propagation/export" "membership.update" true [];
   mk_route "POST" "/api/cluster/v1/propagation/preview" "membership.update" true [];
   mk_route "POST" "/api/cluster/v1/propagation/apply" "membership.update" true [];
   mk_route "POST" "/api/cluster/v1/propagation/propagate" "membership.update" true [];
   mk_route "GET" "/api/cluster/v1/propagation/history" "organization.read" false [];
   mk_route "GET" "/api/cluster/v1/propagation/profiles" "organization.read" false [];
   mk_route "PUT" "/api/cluster/v1/propagation/profiles/{id}" "membership.update" true [];
   mk_route "DELETE" "/api/cluster/v1/propagation/profiles/{id}" "membership.update" true [];
   mk_route "POST" "/api/cluster/v1/propagation/profiles/run-due" "membership.update" true [];
   mk_route "GET" "/api/cluster/v1/replication/status" "membership.update" false [];
   mk_route "POST" "/api/cluster/v1/replication/join" "membership.update" true [];
   mk_route "POST" "/api/cluster/v1/replication/snapshot" "membership.update" true [];
   mk_route "POST" "/api/me/password" "session" true [];
   mk_route "POST" "/api/tokens" "tokens.manage" true [];
   mk_route "DELETE" "/api/tokens/{id}" "tokens.manage" true [];
   mk_route "GET" "/api/notifications/webhooks" "webhooks.read" false [];
   mk_route "POST" "/api/notifications/webhooks" "webhooks.manage" true [];
   mk_route "GET" "/api/notifications/deliveries" "webhooks.read" false [];
   mk_route "GET" "/api/organization/members" "organization.read" false [];
   mk_route "POST" "/api/organization/members" "membership.update" true [];
   mk_route "GET" "/api/groups" "site.read" false ["sites:read"];
   mk_route "POST" "/api/groups" "site.create" true ["sites:write"];
   mk_route "GET" "/api/sites" "site.read" false ["sites:read"];
   mk_route "POST" "/api/sites" "site.create" true ["sites:write"];
   mk_route "GET" "/api/sites/{id}/tags" "site.read" false ["sites:read"];
   mk_route "PUT" "/api/sites/{id}/tags" "site.update" true ["sites:write"];
   mk_route "GET" "/api/sites/{id}" "site.read" false ["sites:read"];
   mk_route "PUT" "/api/sites/{id}" "site.update" true ["sites:write"];
   mk_route "POST" "/api/sites/{id}/archive" "site.archive" true ["sites:write"];
   mk_route "DELETE" "/api/sites/{id}" "site.delete" true ["sites:write"];
   mk_route "GET" "/api/sites/{id}/analytics" "analytics.read" false ["analytics:read"];
   mk_route "POST" "/api/sites/{id}/analytics" "analytics.manage" true ["sites:write"];
   mk_route "GET" "/api/sites/{id}/analytics/summary" "analytics.read" false ["analytics:read"];
   mk_route "GET" "/api/sites/{id}/analytics/pages" "analytics.read" false ["analytics:read"];
   mk_route "GET" "/api/sites/{id}/analytics/countries" "analytics.read" false ["analytics:read"];
   mk_route "POST" "/api/sites/{id}/analytics/disable" "analytics.manage" true ["sites:write"];
   mk_route "POST" "/api/analytics/geo/update" "analytics.manage" true ["sites:write"];
   mk_route "GET" "/api/sites/{id}/analytics/goals" "analytics.read" false ["analytics:read"];
   mk_route "POST" "/api/sites/{id}/analytics/goals" "analytics.manage" true ["sites:write"];
   mk_route "GET" "/api/maintenance" "maintenance.read" false [];
   mk_route "PUT" "/api/maintenance" "maintenance.manage" true [];
   mk_route "POST" "/api/maintenance/run" "maintenance.manage" true [];
   mk_route "GET" "/api/fleet" "fleet.read" false ["fleet:read"];
   mk_route "GET" "/api/fleet/analytics" "analytics.read" false ["analytics:read"];
   mk_route "GET" "/api/sites/{id}/audit" "audit.read" false ["sites:read"];
   mk_route "POST" "/api/sites/{id}/audit" "audit.run" true ["audit:run"];
   mk_route "PUT" "/api/sites/{id}/audit/history" "audit.configure" true ["sites:write"];
   mk_route "POST" "/api/audits/resolve" "audit.read" true ["audit:run"];
   mk_route "POST" "/api/audits/batch" "audit.run" true ["audit:run"];
   mk_route "POST" "/api/sites/{id}/check" "monitor.run" true ["sites:write"];
   mk_route "GET" "/api/sites/{id}/deployments" "deployments.read" false ["sites:read"];
   mk_route "POST" "/api/sites/{id}/deployments" "deployments.record" true ["sites:write"];
   mk_route "GET" "/api/sites/{id}/deployments/correlation" "deployments.read" false ["sites:read"];
   mk_route "GET" "/api/sites/{id}/checks" "monitor.read" false ["sites:read"];
   mk_route "GET" "/api/sites/{id}/performance" "monitor.read" false ["sites:read"];
   mk_route "GET" "/api/sites/{id}/incidents" "incidents.read" false ["sites:read"];
   mk_route "POST" "/api/incidents/{id}/ack" "incidents.acknowledge" true ["sites:write"];
   mk_route "GET" "/api/sites/{id}/tls" "tls.read" false ["sites:read"];
   mk_route "POST" "/api/sites/{id}/tls/inspect" "tls.run" true ["sites:write"];
   mk_route "GET" "/api/fleet/tls" "tls.read" false ["fleet:read"];
   mk_route "GET" "/api/sites/{id}/dns" "dns.read" false ["sites:read"];
   mk_route "POST" "/api/sites/{id}/dns/observe" "dns.run" true ["sites:write"];
   mk_route "GET" "/api/sites/{id}/http-observations" "monitor.read" false ["sites:read"];
   mk_route "GET" "/api/sites/{id}/crawl" "crawl.read" false ["sites:read"];
   mk_route "POST" "/api/sites/{id}/crawl" "crawl.run" true ["sites:write"];
   mk_route "GET" "/api/fleet/link-regressions" "crawl.read" false ["fleet:read"];
   mk_route "GET" "/api/sites/{id}/header-expectations" "monitor.read" false ["sites:read"];
   mk_route "PUT" "/api/sites/{id}/header-expectations" "monitor.update" true ["sites:write"]].

Record principal := mk_principal {
  pr_user : Z; pr_email : string; pr_csrf : string; pr_org : Z; pr_role : string }.

(** What [authorize] reads of the request; [rq_client] is [proxy.ClientIP]. *)
Record request := mk_request {
  rq_cookie : option string; rq_csrf : string; rq_authorization : string; rq_client : string }.

Inductive outcome :=
| Reject (status : Z) (msg : string)
| Serve (p : principal).

Record world := mk_world { w_db : adb; w_lim : rateLimiter }.

Definition on_db {A} (m : M adb A) : M world A := fun '(w, fl) =>
  let '(r, (d, fl')) := m (w.(w_db), fl) in (r, (mk_world d w.(w_lim), fl')).

(** [s.tokenLim.Allow]. *)
Definition token_allow (key : string) (now : Z) : M world bool := fun '(w, fl) =>
  let '(ok, l) := Allow key now w.(w_lim) in (Ok ok, (mk_world w.(w_db) l, fl)).

(** [(principal, ok, handled)] of [tokenPrincipal]. *)
Inductive token_answer :=
| NotBearer
| Handled (o : outcome)
| Granted (p : principal).

Definition bearer (authz : string) : option string :=
  if has_prefix (to_lower authz) "bearer "
  then Some (trim_space (substring 7 (String.length authz - 7) authz)) else None.

Section Authorize.
Variable sha : string -> string.    (* of session tokens *)
Variable hash : string -> string.   (* of API tokens *)

Definition tokenPrincipal (rq : request) (requiredScopes : list string) (now : Z) : M world token_answer :=
  match bearer rq.(rq_authorization) with
  | None => ret NotBearer
  | Some raw =>
      let* r := attempt (on_db (Authenticate hash raw now)) in
      match r with
      | Err _ =>
          let* ok := token_allow ("token:" ++ rq.(rq_client)) now in
          if negb ok then ret (Handled (Reject 429 "too many invalid token attempts"))
          else ret (Handled (Reject 401 "invalid API token"))
      | Ok (uid, org, tokScopes) =>
          if negb (existsb (HasScope tokScopes) requiredScopes)
          then ret (Handled (Reject 403 "token scope denied"))
          else ret (Granted (mk_principal uid "" "" org "token"))
      end
  end.

Definition authorize (rt : routeDef) (rq : request) (now : Z) : M world outcome :=
  match rq.(rq_cookie) with
  | Some c =>
      let* s := attempt (on_db (Session sha c now)) in
      match s with
      | Err _ => ret (Reject 401 "authentication required")
      | Ok sess =>
          if rt.(rt_csrf) && negb (rq.(rq_csrf) =?s sess.(Auth.CSRF))
          then ret (Reject 403 "invalid CSRF token") else
          let* m := attempt (on_db (Resolve sess.(UserID))) in
          match m with
          | Err _ => ret (Reject 403 "no organization membership")
          | Ok (org, role) =>
              if negb (rt.(rt_action) =?s "session") && negb (Can role rt.(rt_action))
              then ret (Reject 403 "permission denied")
              else ret (Serve (mk_principal sess.(UserID) sess.(Email) sess.(Auth.CSRF) org role))
          end
      end
  | None =>
      match rt.(rt_scopes) with
      | [] => ret (Reject 401 "authentication required")
      | _ =>
          let* t := tokenPrincipal rq rt.(rt_scopes) now in
          match t with
          | Handled o => ret o
          | Granted p => ret (Serve p)
          | NotBearer => ret (Reject 401 "authentication required")
          end
      end
  end.

(** What [routes] registers for a definition: the routes without an action
    are public. *)
Definition dispatch (rt : routeDef) (rq : request) (now : Z) : M world outcome :=
  if rt.(rt_action) =?s "" then ret (Serve (mk_principal 0 "" "" 0 "")) else authorize rt rq now.

(** ** The promise *)

(** Who may be served on a route, in terms of the stored rows. *)
Definition by_session (rt : routeDef) (rq : request) (now : Z) (d : adb) (p : principal) : Prop :=
  exists c x u m, rq.(rq_cookie) = Some c /\ c <> "" /\
    session_of sha c d = Some (x, u) /\ now <= x.(se_expires) /\
    (rt.(rt_csrf) = true -> rq.(rq_csrf) = x.(se_csrf)) /\
    lowest_org (List.filter (fun m => m.(mb_user) =? x.(se_user)) d.(members)) = Some m /\
    (rt.(rt_action) = "session" \/ Can m.(mb_role) rt.(rt_action) = true) /\
    p = mk_principal x.(se_user) u.(u_email) x.(se_csrf) m.(mb_org) m.(mb_role).

Definition scopes_of (t : token_row) : list string :=
  if t.(t_scopes) =?s "" then [] else split_on "," t.(t_scopes).

Definition by_token (rt : routeDef) (rq : request) (d : adb) (p : principal) : Prop :=
  rq.(rq_cookie) = None /\ exists raw t, bearer rq.(rq_authorization) = Some raw /\
    find_first (live_token hash raw) d.(tokens) = Some t /\
    (exists s, In s rt.(rt_scopes) /\ In s (scopes_of t)) /\
    p = mk_principal t.(t_user) "" "" t.(t_org) "token".
End Authorize.

(** ** Lemmas *)

Lemma existsb_scopes (have need : list string) :
  existsb (HasScope have) need = true <-> exists s, In s need /\ In s have.
Proof.
  rewrite existsb_exists. split; intros (s & H1 & H2); exists s; (split; [done|]);
    unfold HasScope in *; by apply Smem_In.
Qed.

Section RoutesLemmas.
Context (sha hash : string -> string).

Lemma Session_nil c now d : Session sha c now (d, []) =
  let '(r, d') := run (Session sha c now) d in (r, (d', [])).
Proof.
  unfold run, Session. destruct (c =?s ""); [done|]. unfold bind at 1 3, or_fail. rewrite query_nil.
  destruct (_ ≫= _) as [[x u]|]; [|done]. by destruct (_ <? now).
Qed.

Lemma Resolve_nil user d : Resolve user (d, []) =
  (match lowest_org (List.filter (fun m => m.(mb_user) =? user) d.(members)) with
   | None => Err "membership not found"
   | Some m => Ok (m.(mb_org), m.(mb_role))
   end, (d, [])).
Proof. unfold Resolve, bind, or_fail. rewrite query_nil. by destruct (lowest_org _). Qed.

Lemma Authenticate_nil tok now d : exists d', Authenticate hash tok now (d, []) =
  (match find_first (live_token hash tok) d.(tokens) with
   | None => Err "invalid API token"
   | Some t => Ok (t.(t_user), t.(t_org), scopes_of t)
   end, (d', [])).
Proof.
  unfold Authenticate, bind, or_fail. rewrite query_nil.
  destruct (find_first _ _) as [t|]; [|by exists d]. eexists. reflexivity.
Qed.

(** The session half of [authorize]. *)
Lemma authorize_session rt rq now w c p :
  rq.(rq_cookie) = Some c ->
  (run (authorize sha hash rt rq now) w).1 = Ok (Serve p) <-> by_session sha rt rq now w.(w_db) p.
Proof.
  intros Hc. unfold run, authorize. rewrite Hc.
  rewrite bind_attempt. unfold on_db. cbv beta iota. rewrite Session_nil, Session_run.
  assert (Hno : forall (P : Prop), (forall x u, c <> "" -> session_of sha c (w_db w) = Some (x, u) ->
      now <= se_expires x -> P) -> by_session sha rt rq now (w_db w) p -> P).
  { intros P HP (c' & x & u & m & Hc' & Hne & Hs & Hle & _). rewrite Hc in Hc'. injection Hc' as <-. eauto. }
  destruct (String.eqb_spec c "") as [->|Hne].
  { cbn. split; [done|]. apply Hno. done. }
  destruct (session_of sha c (w_db w)) as [[x u]|] eqn:Es.
  2: { cbn. split; [done|]. apply Hno. done. }
  destruct (Z.ltb_spec (se_expires x) now) as [Hexp|Hexp].
  { cbn. split; [done|]. apply Hno. intros x' u' _ [= <- <-]. lia. }
  cbn [Auth.CSRF UserID Email]. destruct (rt_csrf rt && negb (rq_csrf rq =?s se_csrf x)) eqn:Ecs.
  { cbn. split; [done|]. intros (c' & x' & u' & m & Hc' & _ & Hs & _ & Hcs & _).
    rewrite Hc in Hc'. injection Hc' as <-. rewrite Es in Hs. injection Hs as <- <-.
    bool_to_prop. by rewrite Hcs in *. }
  rewrite bind_attempt. unfold on_db. cbv beta iota. cbn [w_db]. rewrite Resolve_nil.
  destruct (lowest_org _) as [m|] eqn:Em.
  2: { cbn. split; [done|]. intros (c' & x' & u' & m & Hc' & _ & Hs & _ & _ & Hm & _).
       rewrite Hc in Hc'. injection Hc' as <-. rewrite Es in Hs. injection Hs as <- <-. congruence. }
  destruct (negb (rt_action rt =?s "session") && negb (Can (mb_role m) (rt_action rt))) eqn:Ea.
  { cbn. split; [done|]. intros (c' & x' & u' & m' & Hc' & _ & Hs & _ & _ & Hm & Hcan & _).
    rewrite Hc in Hc'. injection Hc' as <-. rewrite Es in Hs. injection Hs as <- <-.
    rewrite Em in Hm. injection Hm as <-. bool_to_prop. destruct Hcan; congruence. }
  cbn [run ret fst]. split.
  - intros [= <-]. exists c, x, u, m. split_and!; try done.
    + intros Hr. rewrite Hr in Ecs. cbn in Ecs. by bool_to_prop.
    + apply andb_false_iff in Ea as [Ea|Ea]; bool_to_prop; auto.
  - intros (c' & x' & u' & m' & Hc' & _ & Hs & _ & _ & Hm & _ & ->).
    rewrite Hc in Hc'. injection Hc' as <-. rewrite Es in Hs. injection Hs as <- <-.
    rewrite Em in Hm. by injection Hm as <-.
Qed.

Lemma tokenPrincipal_answer rq req now w : exists r w',
  tokenPrincipal hash rq req now (w, []) = (Ok r, (w', [])) /\
  match bearer rq.(rq_authorization) with
  | None => r = NotBearer
  | Some raw =>
      match find_first (live_token hash raw) w.(w_db).(tokens) with
      | None => exists st msg, r = Handled (Reject st msg)
      | Some t => if existsb (HasScope (scopes_of t)) req
                  then r = Granted (mk_principal t.(t_user) "" "" t.(t_org) "token")
                  else exists st msg, r = Handled (Reject st msg)
      end
  end.
Proof.
  unfold tokenPrincipal. destruct (bearer (rq_authorization rq)) as [raw|]; [|by eexists _, w].
  rewrite bind_attempt. unfold on_db. cbv beta iota. destruct (Authenticate_nil raw now (w_db w)) as [d' HA].
  destruct (find_first _ _) as [t|].
  - destruct (existsb _ _) eqn:Ex; eexists _, _; rewrite HA, Ex; cbn [negb]; (split; [reflexivity|]); eauto.
  - destruct (Allow ("token:" ++ rq_client rq) now (w_lim w)) as [[] l] eqn:EA;
      eexists _, _; rewrite HA; unfold bind, token_allow; cbn [w_lim]; rewrite EA; cbn [negb];
      (split; [reflexivity|]); eauto.
Qed.

Lemma authorize_token rt rq now w p :
  rq.(rq_cookie) = None ->
  (run (authorize sha hash rt rq now) w).1 = Ok (Serve p) <-> by_token hash rt rq w.(w_db) p.
Proof.
  intros Hc. unfold run, authorize. rewrite Hc. destruct (rt_scopes rt) as [|sc scs] eqn:Esc.
  { cbn. split; [done|]. intros (_ & raw & t & _ & _ & (s & Hs & _) & _). by rewrite Esc in Hs. }
  rewrite <- Esc. unfold bind. destruct (tokenPrincipal_answer rq (rt_scopes rt) now w) as (r & w' & -> & Hr).
  unfold by_token. destruct (bearer (rq_authorization rq)) as [raw|].
  2: { subst r. cbn. split; [done|]. intros (_ & raw & t & Hb & _). done. }
  destruct (find_first (live_token hash raw) (tokens (w_db w))) as [t|] eqn:Et.
  2: { destruct Hr as (st & msg & ->). cbn. split; [done|].
       intros (_ & raw' & t' & [= <-] & Ht & _). congruence. }
  destruct (existsb _ _) eqn:Ex.
  - subst r. cbn. apply existsb_scopes in Ex. split.
    + intros [= <-]. split; [done|]. by exists raw, t.
    + intros (_ & raw' & t' & [= <-] & Ht & _ & ->). rewrite Et in Ht. by injection Ht as <-.
  - destruct Hr as (st & msg & ->). cbn. split; [done|].
    intros (_ & raw' & t' & [= <-] & Ht & Hs & _). rewrite Et in Ht. injection Ht as <-.
    apply existsb_scopes in Hs. congruence.
Qed.
End RoutesLemmas.

#[export] Instance routeDef_eq_dec : EqDecision routeDef.
Proof. solve_decision. Defined.

Lemma route_in (rt : routeDef) l : existsb (fun x => bool_decide (x = rt)) l = true -> In rt l.
Proof. rewrite existsb_exists. by intros (x & Hx & ->%bool_decide_eq_true). Qed.

(** Facts of the table, by evaluation. *)
Definition viewer_may_post : list string := ["/api/logout"; "/api/me/password"; "/api/audits/resolve"].
Definition table_ok (rt : routeDef) : bool :=
  (rt.(rt_action) =?s "") || (rt.(rt_method) =?s "GET") ||
  (rt.(rt_csrf) && (Smem rt.(rt_path) viewer_may_post
                    || negb (rt.(rt_action) =?s "session") && negb (Can "viewer" rt.(rt_action)))
   && forallb (fun s => Smem s ["sites:write"; "audit:run"]) rt.(rt_scopes)).

Lemma table_checked rt : In rt apiRouteDefs -> table_ok rt = true.
Proof.
  assert (forallb table_ok apiRouteDefs = true) as H by (vm_compute; reflexivity).
  rewrite List.forallb_forall in H. apply H.
Qed.

(** ** Properties *)

(** C36: a request reaches a handler exactly when it may, and as whom it may: by
    a cookie, when the session exists and has not expired, the CSRF header is
    the session's where the route asks for it, the user is a member and the role
    of the membership in the lowest organization permits the action; or, without
    a cookie, by a live API token one of whose scopes the route names, then in
    the token's organization and with no role. *)
Theorem authorize_refines sha hash rt rq now w p :
  (run (authorize sha hash rt rq now) w).1 = Ok (Serve p) <->
  by_session sha rt rq now w.(w_db) p \/ by_token hash rt rq w.(w_db) p.
Proof.
  destruct (rq_cookie rq) as [c|] eqn:Hc.
  - rewrite (authorize_session sha hash rt rq now w c p Hc). split; [auto|]. intros [H|[H _]]; [done|congruence].
  - rewrite (authorize_token sha hash rt rq now w p Hc). split; [auto|].
    intros [(c & x & u & m & H & _)|H]; [congruence|done].
Qed.

(** On the shipped route table no request changes anything by a read
    permission: every route with an action that is not a GET demands the CSRF
    token of a session, refuses viewers but for logging out, changing their own
    password and resolving sites for an audit, and refuses tokens that have only
    read scopes. *)
Theorem mutations_need_more_than_read sha hash rt rq now w p :
  In rt apiRouteDefs -> rt.(rt_action) <> "" -> rt.(rt_method) <> "GET" ->
  (run (dispatch sha hash rt rq now) w).1 = Ok (Serve p) ->
  match rq.(rq_cookie) with
  | Some _ => rq.(rq_csrf) = p.(pr_csrf) /\ (p.(pr_role) = "viewer" -> In rt.(rt_path) viewer_may_post)
  | None => exists raw t, bearer rq.(rq_authorization) = Some raw /\
      find_first (live_token hash raw) w.(w_db).(tokens) = Some t /\
      (In "sites:write" (scopes_of t) \/ In "audit:run" (scopes_of t))
  end.
Proof.
  intros Hin Ha Hm. pose proof (table_checked rt Hin) as Ht. unfold table_ok in Ht.
  apply String.eqb_neq in Ha, Hm. rewrite Ha, Hm in Ht. unfold dispatch. rewrite Ha. cbn [orb] in Ht.
  bool_to_prop. destruct (rq_cookie rq) as [c|] eqn:Hc.
  - rewrite (authorize_session sha hash rt rq now w c p Hc).
    intros (c' & x & u & m & _ & _ & _ & _ & Hcs & _ & Hcan & ->). cbn [pr_csrf pr_role]. split; [auto|].
    intros Hv. rewrite Hv in Hcan. apply Smem_In.
    destruct (Smem _ _); [done|]. cbn [orb] in *. bool_to_prop. destruct Hcan; congruence.
  - rewrite (authorize_token sha hash rt rq now w p Hc).
    intros (_ & raw & t & Hb & Hf & (s & Hs & Hs') & ->). exists raw, t. split_and!; [done|done|].
    match goal with H : forallb _ _ = true |- _ => rewrite List.forallb_forall in H; specialize (H s Hs) as Hsc end.
    apply Smem_In in Hsc as [<-|[<-|[]]]; auto.
Qed.

(** ** Witnesses *)

Definition demo_world : world := mk_world logged_in (newRateLimiter minute 20 10000).

Lemma mutations_need_more_than_read_witness :
  let rq := mk_request (Some "raw1") "c1" "" "" in
  rq.(rq_csrf) = "c1" /\ ("owner" = "viewer" -> In "/api/sites" viewer_may_post).
Proof.
  exact (mutations_need_more_than_read id id (mk_route "POST" "/api/sites" "site.create" true ["sites:write"])
    (mk_request (Some "raw1") "c1" "" "") 5 demo_world (mk_principal 1 "ann@example.com" "c1" 1 "owner")
    ltac:(apply route_in; vm_compute; reflexivity) ltac:(discriminate) ltac:(discriminate) ltac:(vm_compute; reflexivity)).
Defined.
