(* ===== verification/Sites.v ===== *)
(** Sites, groups and tags ([internal/sites/sites.go]).

    [url.Parse] and [URL.String] are parameters; the fields of a URL that the
    program reads and writes are a record. *)
From S2P Require Import Prelude GoStr TimeText SqlM FleetDb.
Open Scope string_scope.
Open Scope Z_scope.
Open Scope wf_scope.
Open Scope sql_scope.

(** ** Definitions *)

(** A parsed URL: [u_rest] is what the program never looks at. *)
Record url := mk_url {
  u_scheme : string; u_user : bool; u_host : string; u_path : string; u_fragment : string; u_rest : string }.

(** [sites.Site], as [rowSite] fills it. *)
Record Site := mk_Site {
  st_id : Z; st_name : string; st_url : string; st_enabled : bool; st_group : Z; st_group_name : string;
  st_archived : bool; st_health : string; st_fails : Z; st_last : option Z; st_created : Z; st_updated : Z }.

(** The row of a site joined with its group, its health and its last check. *)
Definition site_view (d : db) (s : site_row) : Site :=
  let g := gid ← s.(s_group); group_by_id gid d in
  let h := find_first (fun h => h.(h_site) =? s.(s_id)) d.(healths) in
  mk_Site s.(s_id) s.(s_name) s.(s_url) s.(s_enabled)
    (match s.(s_group) with Some g => g | None => 0 end)
    (match g with Some g => g.(g_name) | None => "" end)
    (match s.(s_archived) with Some _ => true | None => false end)
    (match h with Some h => h.(h_state) | None => "unknown" end)
    (match h with Some h => h.(h_fails) | None => 0 end)
    (c_checked_at <$> find_last (fun c => c.(c_site) =? s.(s_id)) d.(checks))
    s.(s_created) s.(s_updated).

Definition GetForOrg (org id : Z) : M db Site :=
  let* r := or_fail (query (fun d => site_view d <$>
    find_first (fun s => (s.(s_id) =? id) && (s.(s_org) =? org)) d.(sites))) "site not found" in
  match r with Some s => ret s | None => throw "site not found" end.

(** [NULLIF(?,0)]. *)
Definition nullif0 (z : Z) : option Z := if z =? 0 then None else Some z.

Definition check_group (org gid : Z) : M db unit :=
  if 0 <? gid then
    let* r := or_fail (query (fun d =>
      find_first (fun g => (g.(g_id) =? gid) && (g.(g_org) =? org)) d.(groups))) "group not found" in
    match r with Some _ => ret tt | None => throw "group not found" end
  else ret tt.

Definition CreateGroup (org : Z) (name : string) (now : Z) : M db (Z * string) :=
  let name := trim_space name in
  if (name =?s "") || (80 <? len name) then throw "group name must be 1..80 characters" else
  let* id := stmt (insert_group org name now None) in ret (id, name).

(** [Groups]: [(id, name, number of unarchived sites)], by lower-case name. *)
Fixpoint insert_by {A} (key : A -> string) (x : A) (l : list A) : list A :=
  match l with
  | [] => [x]
  | y :: l' => if String.leb (key y) (key x) then y :: insert_by key x l' else x :: l
  end.
Definition sort_by {A} (key : A -> string) (l : list A) : list A :=
  List.fold_left (fun acc x => insert_by key x acc) l [].
Definition unarchived (s : site_row) : bool := match s.(s_archived) with None => true | Some _ => false end.
Definition in_group (gid : Z) (s : site_row) : bool :=
  match s.(s_group) with Some g => g =? gid | None => false end.
Definition Groups (org : Z) : M db (list (Z * string * Z)) :=
  query (fun d => List.map (fun g => (g.(g_id), g.(g_name),
      count (fun s => in_group g.(g_id) s && unarchived s) d.(sites)))
    (sort_by (fun g => to_lower g.(g_name)) (List.filter (fun g => g.(g_org) =? org) d.(groups)))).

Section Urls.
Variable parse : string -> option url.
Variable hostname : url -> string.
Variable url_string : url -> string.

Definition CanonicalURL (raw : string) : result string :=
  match parse (trim_space raw) with
  | None => Err "invalid URL"
  | Some u =>
      if negb (u.(u_scheme) =?s "http") && negb (u.(u_scheme) =?s "https")
      then Err "URL must use http or https"
      else if (hostname u =?s "") || u.(u_user)
      then Err "URL must contain a hostname and no credentials"
      else Ok (url_string (mk_url u.(u_scheme) u.(u_user) (to_lower u.(u_host))
                  (if u.(u_path) =?s "" then "/" else u.(u_path)) "" u.(u_rest)))
  end.

Definition Create (org : Z) (name raw : string) (gid now : Z) : M db Site :=
  let name := trim_space name in
  if (name =?s "") || (120 <? len name) then throw "site name must be 1..120 characters" else
  let* u := lift (CanonicalURL raw) in
  check_group org gid ;;;
  let* id := stmt (insert_site org name u true (nullif0 gid) None now now None) in
  stmt (insert_monitor id "http" 10000 200 399 now) ;;;
  stmt (insert_health (mk_health id "unknown" 0 None now None None)) ;;;
  for_each default_headers (fun h => stmt (insert_hexp (mk_hexp id h true))) ;;;
  GetForOrg org id.

Definition own (org id : Z) (s : site_row) : bool := (s.(s_id) =? id) && (s.(s_org) =? org).

(** [UPDATE sites SET ... WHERE id=? AND organization_id=?]. *)
Definition update_site (org id : Z) (name u : string) (grp : option Z) (enabled : bool) (now : Z)
    (d : db) : option db :=
  if existsb (own org id) d.(sites) && negb (group_ref_ok grp d) then None
  else Some (set_sites (upd (own org id) (fun s => mk_site s.(s_id) s.(s_org) name u enabled grp
               s.(s_archived) s.(s_created) now s.(s_cluster)) d.(sites)) d).

Definition Update (org id : Z) (name raw : string) (gid : Z) (enabled : bool) (now : Z) : M db Site :=
  let* _s := GetForOrg org id in
  let name := trim_space name in
  if (name =?s "") || (120 <? len name) then throw "site name must be 1..120 characters" else
  let* u := lift (CanonicalURL raw) in
  check_group org gid ;;;
  exec_opt (update_site org id name u (nullif0 gid) enabled now) ;;;
  GetForOrg org id.
End Urls.

Definition Archive (org id : Z) (archived : bool) (now : Z) : M db unit :=
  let* _s := GetForOrg org id in
  exec (fun d => set_sites (upd (own org id) (fun s => mk_site s.(s_id) s.(s_org) s.(s_name) s.(s_url)
    s.(s_enabled) s.(s_group) (if archived then Some now else None) s.(s_created) now s.(s_cluster)) d.(sites)) d).

Definition Delete (org id : Z) : M db unit :=
  let* s := GetForOrg org id in
  if negb s.(st_archived) then throw "archive site before deleting it"
  else exec (delete_sites (own org id)).

(** [ParseID]. *)
Definition ParseID (raw : string) : result Z :=
  match parse_int raw with
  | Some id => if id <? 1 then Err "invalid id" else Ok id
  | None => Err "invalid id"
  end.

(** SQL [LIKE]: [%] any bytes, [_] one byte, letters without case. *)
Fixpoint like (p s : string) : bool :=
  match p with
  | EmptyString => match s with EmptyString => true | _ => false end
  | String c p' =>
      if Ascii.eqb c "%" then
        (fix any (s : string) : bool :=
           like p' s || match s with EmptyString => false | String _ s' => any s' end) s
      else match s with
           | EmptyString => false
           | String e s' => (Ascii.eqb c "_" || Ascii.eqb (lower_ascii c) (lower_ascii e)) && like p' s'
           end
  end.

Definition matches (q : string) (s : site_row) : bool :=
  let q := trim_space q in
  if q =?s "" then true
  else let term := "%" ++ to_lower q ++ "%" in
       like term (to_lower s.(s_name)) || like term (to_lower s.(s_url)).

Record listing := mk_listing { pg_sites : list Site; pg_page : Z; pg_size : Z; pg_total : Z; pg_pages : Z }.

Definition clamp_size (n : Z) : Z := let n := if n <? 1 then 20 else n in if 100 <? n then 100 else n.

(** The two statements of [List]: the count and the page of the rows. *)
Definition paged (sel : db -> site_row -> bool) (page size : Z) : M db listing :=
  let* total := query (fun d => count (sel d) d.(sites)) in
  let pages := Z.quot (total + size - 1) size in
  let pages := if pages <? 1 then 1 else pages in
  let page := if page <? 1 then 1 else page in
  let page := if pages <? page then pages else page in
  let* rows := query (fun d =>
    List.map (site_view d) (take (Z.to_nat size) (drop (Z.to_nat ((page - 1) * size))
      (sort_by (fun s => to_lower s.(s_name)) (List.filter (sel d) d.(sites)))))) in
  ret (mk_listing rows page size total pages).

Definition list_sel (org : Z) (q : string) (gid : Z) (all : bool) (d : db) (s : site_row) : bool :=
  (s.(s_org) =? org) && (all || unarchived s) && matches q s && (negb (0 <? gid) || in_group gid s).

Definition List_ (org : Z) (q : string) (gid page size : Z) (includeArchived : bool) : M db listing :=
  paged (list_sel org q gid includeArchived) page (clamp_size size).

Definition has_tag (tag : string) (d : db) (s : site_row) : bool :=
  existsb (fun t => (t.1 =? s.(s_id)) && (t.2 =?s tag)) d.(tags).

Definition ListByTag (org : Z) (q : string) (gid : Z) (tag : string) (page size : Z) : M db listing :=
  if trim_space tag =?s "" then List_ org q gid page size false
  else paged (fun d s => list_sel org q gid false d s && has_tag (to_lower (trim_space tag)) d s)
         page (clamp_size size).

Definition Tags (org id : Z) : M db (list string) :=
  let* _s := GetForOrg org id in
  query (fun d => sort_by to_lower (List.map snd (List.filter (fun t => t.1 =? id) d.(tags)))).

(** The loop of [SetTags]. *)
Fixpoint put_tags (site : Z) (tags seen : list string) : M db unit :=
  match tags with
  | [] => ret tt
  | tag :: rest =>
      let tag := to_lower (trim_space tag) in
      if (tag =?s "") || Smem tag seen then put_tags site rest seen
      else if 40 <? len tag then throw "tag too long"
      else stmt (insert_tag site tag) ;;; put_tags site rest (tag :: seen)
  end.

Definition delete_tags (site : Z) (d : db) : db := set_tags (del (fun t => t.1 =? site) d.(tags)) d.

Definition SetTags (org id : Z) (tags : list string) : M db unit :=
  let* _s := GetForOrg org id in
  exec (delete_tags id) ;;;
  put_tags id tags [].

Definition ClusterIDForSite (org id : Z) : M db string :=
  let* r := or_fail (query (fun d => s ← find_first (own org id) d.(sites); s.(s_cluster)))
              "site is not cluster-managed" in
  match r with Some c => ret c | None => throw "site is not cluster-managed" end.

Definition ClusterIDForGroup (org id : Z) : M db string :=
  if id =? 0 then ret "" else
  let* r := or_fail (query (fun d =>
    g ← find_first (fun g => (g.(g_id) =? id) && (g.(g_org) =? org)) d.(groups); g.(g_cluster)))
    "group is not cluster-managed" in
  match r with Some c => ret c | None => throw "group is not cluster-managed" end.

Definition GetByClusterID (org : Z) (cid : string) : M db Site :=
  let* r := or_fail (query (fun d =>
    find_first (fun s => opt_eqb s.(s_cluster) cid && (s.(s_org) =? org)) d.(sites))) "site not found" in
  match r with Some s => GetForOrg org s.(s_id) | None => throw "site not found" end.

Definition GroupByClusterID (org : Z) (cid : string) : M db (Z * string) :=
  let* r := or_fail (query (fun d =>
    find_first (fun g => opt_eqb g.(g_cluster) cid && (g.(g_org) =? org)) d.(groups))) "group not found" in
  match r with Some g => ret (g.(g_id), g.(g_name)) | None => throw "group not found" end.

(** ** Lemmas *)

Section Sorting.
Context {A : Type} (key : A -> string).

Lemma insert_by_perm x l : Permutation (insert_by key x l) (x :: l).
Proof.
  induction l as [|y l IH]; cbn; [done|]. destruct (String.leb _ _); [|done].
  rewrite IH. apply perm_swap.
Qed.

Lemma sort_by_perm l : Permutation (sort_by key l) l.
Proof.
  unfold sort_by. cut (forall acc, Permutation (List.fold_left (fun acc x => insert_by key x acc) l acc) (l ++ acc)).
  { intros H. rewrite H. by rewrite app_nil_r. }
  induction l as [|x l IH]; cbn; intros acc; [done|]. rewrite IH, insert_by_perm.
  by rewrite <- Permutation_middle.
Qed.

Lemma sort_by_length l : length (sort_by key l) = length l.
Proof. apply Permutation_length, sort_by_perm. Qed.
End Sorting.

(** Cutting a list into pieces of [n] and putting them together again. *)
Lemma chunks_concat {A} (n k : nat) (l : list A) :
  List.concat (List.map (fun i => take n (drop (i * n) l)) (List.seq 0 k)) = take (k * n) l.
Proof.
  induction k as [|k IH]; [done|].
  rewrite List.seq_S, List.map_app, List.concat_app, IH. cbn [List.map List.concat plus].
  rewrite app_nil_r. replace (S k * n)%nat with (k * n + n)%nat by lia. apply take_take_drop.
Qed.

Definition rows_of (sel : db -> site_row -> bool) (d : db) : list Site :=
  List.map (site_view d) (sort_by (fun s => to_lower s.(s_name)) (List.filter (sel d) d.(sites))).

Lemma rows_of_length sel d : Z.of_nat (length (rows_of sel d)) = count (sel d) d.(sites).
Proof. unfold rows_of, count. by rewrite length_map, sort_by_length. Qed.

Definition page_count (n size : Z) : Z := let p := Z.quot (n + size - 1) size in if p <? 1 then 1 else p.
Definition page_clamp (pages page : Z) : Z :=
  let p := if page <? 1 then 1 else page in if pages <? p then pages else p.

Lemma page_count_enough n size : 0 <= n -> 0 < size ->
  1 <= page_count n size /\ n <= page_count n size * size.
Proof.
  intros Hn Hs. unfold page_count. rewrite Z.quot_div_nonneg by lia.
  pose proof (Z.div_mod (n + size - 1) size). pose proof (Z.mod_pos_bound (n + size - 1) size).
  destruct (Z.ltb_spec ((n + size - 1) / size) 1); nia.
Qed.

Lemma page_clamp_bounds pages page : 1 <= pages -> 1 <= page_clamp pages page <= pages.
Proof.
  intros H. unfold page_clamp. destruct (Z.ltb_spec page 1).
  - destruct (Z.ltb_spec pages 1); lia.
  - destruct (Z.ltb_spec pages page); lia.
Qed.

Lemma paged_run sel page size d :
  run (paged sel page size) d =
  (let total := count (sel d) d.(sites) in
   let pages := page_count total size in
   let p := page_clamp pages page in
   (Ok (mk_listing (take (Z.to_nat size) (drop (Z.to_nat ((p - 1) * size)) (rows_of sel d))) p size total pages), d)).
Proof.
  unfold run, paged, bind. rewrite query_nil. cbn [ret]. rewrite query_nil. cbn [ret].
  unfold rows_of. by rewrite skipn_map, firstn_map.
Qed.

(** No row of the organization has the id. *)
Lemma GetForOrg_none org id d fl :
  find_first (own org id) d.(sites) = None ->
  exists fl', GetForOrg org id (d, fl) = (Err "site not found", (d, fl')).
Proof.
  intros H. unfold GetForOrg, bind, or_fail, query, stmt. change (find_first _ (sites d)) with (find_first (own org id) (sites d)).
  destruct fl as [|[] fl]; rewrite ?H; eexists; reflexivity.
Qed.

Lemma GetForOrg_readonly org id : readonly (GetForOrg org id).
Proof. unfold GetForOrg. solve_readonly. Qed.

Lemma GetForOrg_run org id d :
  run (GetForOrg org id) d =
  (match find_first (own org id) d.(sites) with Some s => Ok (site_view d s) | None => Err "site not found" end, d).
Proof.
  unfold run, GetForOrg, bind, or_fail. rewrite query_nil.
  change (find_first _ (sites d)) with (find_first (own org id) (sites d)). by destruct (find_first _ _).
Qed.

Lemma bind_GetForOrg_none {A} org id (k : Site -> M db A) d fl :
  find_first (own org id) d.(sites) = None ->
  exists fl', bind (GetForOrg org id) k (d, fl) = (Err "site not found", (d, fl')).
Proof.
  intros H. destruct (GetForOrg_none org id d fl H) as [fl' Hg]. exists fl'. unfold bind. by rewrite Hg.
Qed.

(** ** Properties *)

(** Listing is paging: walking the pages from the first to the last gives
    every matching site exactly once and in the listed order, every page is
    within its size, and a page number outside the range is the nearest page. *)
Theorem pages_cover_the_fleet sel size d :
  1 <= size ->
  let at_ p := (run (paged sel p size) d).1 in
  let pages := page_count (count (sel d) d.(sites)) size in
  (forall p, exists l, at_ p = Ok l /\ l.(pg_pages) = pages /\ l.(pg_total) = count (sel d) d.(sites) /\
     1 <= l.(pg_page) <= pages /\ (1 <= p <= pages -> l.(pg_page) = p) /\
     Z.of_nat (length l.(pg_sites)) <= size) /\
  List.concat (List.map (fun i => match at_ (Z.of_nat i + 1) with Ok l => l.(pg_sites) | Err _ => [] end)
                 (List.seq 0 (Z.to_nat pages))) = rows_of sel d /\
  Permutation (List.map st_id (rows_of sel d)) (List.map s_id (List.filter (sel d) d.(sites))).
Proof.
  intros Hs at_ pages. pose proof (count_nonneg (sel d) (sites d)) as Hn.
  destruct (page_count_enough _ size Hn ltac:(lia)) as [Hp1 Hp2]. fold pages in Hp1, Hp2. split_and!.
  - intros p. unfold at_. rewrite paged_run. cbv zeta. fold pages. eexists. split; [reflexivity|]. cbn [pg_pages pg_total pg_page pg_sites].
    split_and!; try done; try apply (page_clamp_bounds pages p Hp1).
    + intros Hp. unfold page_clamp. destruct (Z.ltb_spec p 1); [lia|]. destruct (Z.ltb_spec pages p); lia.
    + rewrite length_take. lia.
  - transitivity (take (Z.to_nat pages * Z.to_nat size)%nat (rows_of sel d)).
    + rewrite <- chunks_concat. f_equal. apply List.map_ext_in. intros i Hi. apply in_seq in Hi.
      unfold at_. rewrite paged_run. cbv zeta. fold pages. cbn [fst pg_sites].
      assert (page_clamp pages (Z.of_nat i + 1) = Z.of_nat i + 1) as ->.
      { unfold page_clamp. destruct (Z.ltb_spec (Z.of_nat i + 1) 1); [lia|].
        destruct (Z.ltb_spec pages (Z.of_nat i + 1)); lia. }
      f_equal. f_equal. lia.
    + apply take_ge. pose proof (rows_of_length sel d). nia.
  - unfold rows_of. rewrite List.map_map. cbn. by rewrite sort_by_perm.
Qed.

(** The operations that change a site, behind one name. *)
Inductive site_op :=
| OUpdate (name raw : string) (gid : Z) (enabled : bool) (now : Z)
| OArchive (archived : bool) (now : Z)
| ODelete
| OSetTags (tags : list string).

Definition run_op parse hostname str (org id : Z) (o : site_op) : M db unit :=
  match o with
  | OUpdate name raw gid en now => let* _s := Update parse hostname str org id name raw gid en now in ret tt
  | OArchive b now => Archive org id b now
  | ODelete => Delete org id
  | OSetTags tags => SetTags org id tags
  end.

(** What an operation of organization [org] on site [id] leaves alone: the
    sites of other organizations, and the tags of other sites. *)
Definition foreign_same (org id : Z) (d d' : db) : Prop :=
  List.filter (fun s => negb (s.(s_org) =? org)) d'.(sites) = List.filter (fun s => negb (s.(s_org) =? org)) d.(sites) /\
  List.filter (fun t => negb (t.1 =? id)) d'.(tags) = List.filter (fun t => negb (t.1 =? id)) d.(tags).

#[export] Instance foreign_same_refl org id : Reflexive (foreign_same org id).
Proof. by split. Qed.
#[export] Instance foreign_same_trans org id : Transitive (foreign_same org id).
Proof. intros a b c [H1 H2] [H3 H4]. split; congruence. Qed.

Lemma filter_upd_foreign {A} (p q : A -> bool) (f : A -> A) l :
  (forall x, q x = true -> p x = false /\ p (f x) = false) ->
  List.filter p (upd q f l) = List.filter p l.
Proof.
  intros H. unfold upd. induction l as [|x l IH]; cbn; [done|].
  destruct (q x) eqn:E; [destruct (H x E) as [-> ->]; done|]. by rewrite IH.
Qed.

Lemma filter_del_foreign {A} (p q : A -> bool) l :
  (forall x, q x = true -> p x = false) -> List.filter p (del q l) = List.filter p l.
Proof.
  intros H. unfold del. induction l as [|x l IH]; cbn; [done|].
  destruct (q x) eqn:E; cbn; rewrite IH; [by rewrite (H x E)|done].
Qed.

Lemma own_spec org id s : own org id s = true <-> s.(s_id) = id /\ s.(s_org) = org.
Proof. unfold own. rewrite andb_true_iff, !Z.eqb_eq. done. Qed.

Lemma put_tags_within org id tags : forall seen, within (foreign_same org id) (put_tags id tags seen).
Proof.
  induction tags as [|t tags IH]; intros seen; cbn [put_tags]; [apply within_ret; apply _|].
  destruct (_ || _); [apply IH|]. destruct (40 <? _); [apply within_throw; apply _|].
  apply within_bind; [apply _| |intros _; apply IH]. apply within_stmt; [apply _|].
  intros s a s'. unfold insert_tag. destruct (_ && _); [|done]. intros [= _ <-].
  split; [done|]. cbn. rewrite List.filter_app. cbn. rewrite Z.eqb_refl. cbn. by rewrite app_nil_r.
Qed.

Lemma run_op_within parse hostname str org id o :
  within (foreign_same org id) (run_op parse hostname str org id o).
Proof.
  assert (Hg : within (foreign_same org id) (GetForOrg org id)) by (apply within_readonly; [apply _|apply GetForOrg_readonly]).
  assert (Hu : forall f, (forall s, s.(s_id) = id -> (f s).(s_id) = id /\ (f s).(s_org) = s.(s_org)) ->
    forall d, foreign_same org id d (set_sites (upd (own org id) f d.(sites)) d)).
  { intros f Hf d. split; [|done]. cbn. apply filter_upd_foreign. intros s Hs. apply own_spec in Hs as [Hi Ho].
    destruct (Hf s Hi) as [_ ->]. by rewrite Ho, Z.eqb_refl. }
  destruct o as [name raw gid en now|b now| |tags]; cbn [run_op].
  - apply within_bind; [apply _| |intros; apply within_ret; apply _]. unfold Update.
    apply within_bind; [apply _|done|intros _]. destruct (_ || _); [apply within_throw; apply _|].
    apply within_bind; [apply _|unfold lift; destruct (CanonicalURL _ _ _ _); [apply within_ret|apply within_throw]; apply _|intros u].
    apply within_bind; [apply _| |intros _].
    { apply within_readonly; [apply _|]. unfold check_group. solve_readonly. }
    apply within_bind; [apply _| |intros _; done]. apply within_exec_opt; [apply _|].
    intros d d'. unfold update_site. destruct (_ && _); [done|]. intros [= <-]. by apply Hu.
  - unfold Archive. apply within_bind; [apply _|done|intros _]. apply within_exec; [apply _|].
    intros d. by apply Hu.
  - unfold Delete. apply within_bind; [apply _|done|intros s]. destruct (negb _); [apply within_throw; apply _|].
    apply within_exec; [apply _|]. intros d. split; cbn.
    + apply filter_del_foreign. intros x Hx. apply own_spec in Hx as [_ ->]. by rewrite Z.eqb_refl.
    + apply filter_del_foreign. intros t Ht. apply Zmem_In, in_map_iff in Ht as (s' & Hs1 & Hs2).
      apply filter_In in Hs2 as [_ Hs2]. apply own_spec in Hs2 as [Hi _]. rewrite <- Hs1, Hi. by rewrite Z.eqb_refl.
  - unfold SetTags. apply within_bind; [apply _|done|intros _].
    apply within_bind; [apply _| |intros _; apply put_tags_within]. apply within_exec; [apply _|].
    intros d. split; [done|]. cbn. apply filter_del_foreign. intros t Ht. by rewrite Ht.
Qed.

Lemma run_op_none parse hostname str org id o d fl :
  find_first (own org id) d.(sites) = None ->
  exists fl', run_op parse hostname str org id o (d, fl) = (Err "site not found", (d, fl')).
Proof.
  intros Hn. destruct o as [name raw gid en now|b now| |tags]; cbn [run_op];
    [|by apply bind_GetForOrg_none..].
  destruct (bind_GetForOrg_none org id (fun _ =>
    if (trim_space name =?s "") || (120 <? len (trim_space name))
    then throw "site name must be 1..120 characters" else
    let* u := lift (CanonicalURL parse hostname str raw) in
    check_group org gid ;;; exec_opt (update_site org id (trim_space name) u (nullif0 gid) en now) ;;;
    GetForOrg org id) d fl Hn) as [fl1 H1].
  exists fl1. change (bind (Update parse hostname str org id name raw gid en now) (fun _ => ret tt) (d, fl)
    = (Err "site not found", (d, fl1))). unfold bind at 1. unfold Update. by rewrite H1.
Qed.

(** Organizations are separate: whatever one does to a site, and whatever
    the database refuses on the way, the sites of the others and the tags of
    other sites stay as they are; on a site that is not its own every operation
    answers "site not found" and changes nothing at all. *)
Theorem tenant_isolation parse hostname str org id o d fl :
  let '(r, (d', _)) := run_op parse hostname str org id o (d, fl) in
  foreign_same org id d d' /\
  (find_first (own org id) d.(sites) = None -> r = Err "site not found" /\ d' = d).
Proof.
  pose proof (run_op_within parse hostname str org id o d fl) as H.
  destruct (run_op _ _ _ _ _ _ _) as [r [d' fl']] eqn:E. split; [done|]. intros Hn.
  destruct (run_op_none parse hostname str org id o d fl Hn) as [fl1 H1].
  rewrite H1 in E. by injection E as <- <- _.
Qed.

(** Every monitoring row belongs to a site: the foreign keys of the schema. *)
Record no_orphans (d : db) : Prop := {
  no_monitors : forall m, In m d.(monitors) -> In m.(m_site) (List.map s_id d.(sites));
  no_healths : forall h, In h d.(healths) -> In h.(h_site) (List.map s_id d.(sites));
  no_hexp : forall e, In e d.(hexp) -> In e.(e_site) (List.map s_id d.(sites)) }.

Definition new_site (org : Z) (name u : string) (gid now : Z) (d : db) : site_row :=
  mk_site (fresh_id (List.map s_id d.(sites))) org name u true (nullif0 gid) None now now None.

(** The tables after a site has been created. *)
Definition created_db (org : Z) (name u : string) (gid now : Z) (d : db) : db :=
  let id := fresh_id (List.map s_id d.(sites)) in
  set_hexp (d.(hexp) ++ List.map (fun h => mk_hexp id h true) default_headers)
  (set_healths (d.(healths) ++ [mk_health id "unknown" 0 None now None None])
  (set_monitors (d.(monitors) ++ [mk_monitor (fresh_id (List.map m_id d.(monitors))) id "http" 10000 200 399 now])
  (set_sites (d.(sites) ++ [new_site org name u gid now d]) d))).

Lemma fresh_not_here {A} (f : A -> Z) (l : list A) (ids : list Z) (q : A -> bool) :
  (forall x, In x l -> In (f x) ids) -> existsb (fun x => (f x =? fresh_id ids) && q x) l = false.
Proof.
  intros H. apply existsb_none_iff. intros x Hx. specialize (H x Hx).
  assert (f x <> fresh_id ids) as Hne by (intros E; rewrite E in H; by apply fresh_id_notin in H).
  by apply Z.eqb_neq in Hne as ->.
Qed.

Lemma site_by_id_fresh d s l : s.(s_id) = fresh_id (List.map s_id d.(sites)) ->
  l = (d.(sites) ++ [s])%list -> find_first (fun x => x.(s_id) =? s.(s_id)) l = Some s.
Proof.
  intros Hs ->. rewrite find_first_app.
  assert (find_first (fun x => x.(s_id) =? s.(s_id)) d.(sites) = None) as ->.
  { apply find_first_None. intros x Hx. apply Z.eqb_neq. rewrite Hs. intros E.
    apply (fresh_id_notin (List.map s_id d.(sites))). rewrite <- E. by apply in_map. }
  cbn. by rewrite Z.eqb_refl.
Qed.

(** Inserting the default header expectations of a new site. *)
Lemma headers_run id d :
  site_exists id d = true -> existsb (fun x => x.(e_site) =? id) d.(hexp) = false ->
  for_each default_headers (fun h => stmt (insert_hexp (mk_hexp id h true))) (d, []) =
  (Ok tt, (set_hexp (d.(hexp) ++ List.map (fun h => mk_hexp id h true) default_headers) d, [])).
Proof.
  intros He Hx.
  assert (Hins : forall l names h, existsb (String.eqb h) names = false ->
    l = (d.(hexp) ++ List.map (fun h => mk_hexp id h true) names)%list ->
    insert_hexp (mk_hexp id h true) (set_hexp l d)
    = Some (tt, set_hexp (d.(hexp) ++ List.map (fun h => mk_hexp id h true) (names ++ [h])) d)).
  { intros l names h Hn ->. unfold insert_hexp. cbn [e_site e_name hexp set_hexp].
    change (site_exists id (set_hexp _ d)) with (site_exists id d). rewrite He, existsb_app.
    assert (existsb (fun x => (e_site x =? id) && (e_name x =?s h)) (hexp d) = false) as ->.
    { apply existsb_none_iff. intros x Hin. rewrite existsb_none_iff in Hx. by rewrite (Hx x Hin). }
    assert (existsb (fun x => (e_site x =? id) && (e_name x =?s h)) (List.map (fun h => mk_hexp id h true) names) = false) as ->.
    { clear -Hn. induction names as [|n names IH]; [done|]. cbn in *. apply orb_false_iff in Hn as [Hh Hn].
      rewrite IH by done. rewrite String.eqb_sym, Hh, Z.eqb_refl. done. }
    cbn. by rewrite List.map_app, <- app_assoc. }
  unfold default_headers. cbn [for_each].
  assert (d = set_hexp (d.(hexp) ++ List.map (fun h => mk_hexp id h true) []) d) as Hd.
  { cbn. rewrite app_nil_r. by destruct d. }
  rewrite Hd at 1. unfold bind, ret.
  rewrite stmt_nil, (Hins _ [] "Content-Security-Policy" eq_refl eq_refl).
  cbn [List.app]. rewrite stmt_nil, (Hins _ ["Content-Security-Policy"] "Strict-Transport-Security" eq_refl eq_refl).
  cbn [List.app]. rewrite stmt_nil, (Hins _ ["Content-Security-Policy"; "Strict-Transport-Security"] "X-Content-Type-Options" eq_refl eq_refl).
  cbn [List.app]. rewrite stmt_nil, (Hins _ ["Content-Security-Policy"; "Strict-Transport-Security"; "X-Content-Type-Options"] "Referrer-Policy" eq_refl eq_refl).
  reflexivity.
Qed.

(** The rows that come with a site. *)
Definition new_rows (id now : Z) (d : db) : db :=
  set_hexp (d.(hexp) ++ List.map (fun h => mk_hexp id h true) default_headers)
  (set_healths (d.(healths) ++ [mk_health id "unknown" 0 None now None None])
  (set_monitors (d.(monitors) ++ [mk_monitor (fresh_id (List.map m_id d.(monitors))) id "http" 10000 200 399 now]) d)).

Lemma new_rows_run {A} (k : M db A) s now d :
  no_orphans d -> s.(s_id) = fresh_id (List.map s_id d.(sites)) ->
  let d1 := set_sites (d.(sites) ++ [s]) d in
  (stmt (insert_monitor s.(s_id) "http" 10000 200 399 now) ;;;
   stmt (insert_health (mk_health s.(s_id) "unknown" 0 None now None None)) ;;;
   for_each default_headers (fun h => stmt (insert_hexp (mk_hexp s.(s_id) h true))) ;;; k) (d1, []) =
  k (new_rows s.(s_id) now d1, []).
Proof.
  intros Ho Hid d1. assert (He : site_exists s.(s_id) d1 = true).
  { unfold site_exists, site_by_id. by erewrite site_by_id_fresh. }
  unfold bind at 1. rewrite stmt_nil. unfold insert_monitor. rewrite He.
  change (monitors d1) with (monitors d).
  pose proof (fresh_not_here m_site d.(monitors) (List.map s_id d.(sites)) (fun m => m_kind m =?s "http")
    (no_monitors d Ho)) as Hm. rewrite <- Hid in Hm. rewrite Hm.
  cbn [negb andb]. set (d2 := set_monitors _ d1).
  unfold bind at 1. rewrite stmt_nil. unfold insert_health. cbn [h_site].
  change (site_exists s.(s_id) d2) with (site_exists s.(s_id) d1). rewrite He. change (healths d2) with (healths d).
  assert (existsb (fun x => h_site x =? s_id s) (healths d) = false) as ->.
  { apply existsb_none_iff. intros x Hx. apply Z.eqb_neq. intros E.
    apply (fresh_id_notin (List.map s_id d.(sites))). rewrite <- Hid, <- E. by apply Ho. }
  cbn [negb andb]. set (d3 := set_healths _ d2).
  unfold bind at 1. rewrite headers_run; [reflexivity|exact He|].
  change (hexp d3) with (hexp d). apply existsb_none_iff. intros x Hx. apply Z.eqb_neq. intros E.
  apply (fresh_id_notin (List.map s_id d.(sites))). rewrite <- Hid, <- E. by apply Ho.
Qed.

Lemma check_group_run org gid d :
  run (check_group org gid) d =
  (if 0 <? gid then
     if existsb (fun g => (g.(g_id) =? gid) && (g.(g_org) =? org)) d.(groups) then Ok tt else Err "group not found"
   else Ok tt, d).
Proof.
  unfold run, check_group. destruct (0 <? gid); [|done]. unfold bind, or_fail. rewrite query_nil.
  destruct (find_first _ _) as [g|] eqn:E.
  - apply find_first_Some in E as [H1 H2].
    assert (existsb (fun g => (g_id g =? gid) && (g_org g =? org)) (groups d) = true) as -> by (apply existsb_exists; eauto).
    done.
  - assert (existsb (fun g => (g_id g =? gid) && (g_org g =? org)) (groups d) = false) as ->; [|done].
    apply existsb_none_iff. exact (proj1 (find_first_None _ _) E).
Qed.

Section CreateLemmas.
Context (parse : string -> option url) (hostname str : url -> string).

Definition create_tail (org : Z) (name u : string) (gid now : Z) : M db Site :=
  let* id := stmt (insert_site org name u true (nullif0 gid) None now now None) in
  stmt (insert_monitor id "http" 10000 200 399 now) ;;;
  stmt (insert_health (mk_health id "unknown" 0 None now None None)) ;;;
  for_each default_headers (fun h => stmt (insert_hexp (mk_hexp id h true))) ;;;
  GetForOrg org id.

(** The rows of a new site go in together. *)
Lemma create_tail_run org name u gid now d :
  no_orphans d ->
  run (create_tail org name u gid now) d =
  if org_exists org d && group_ref_ok (nullif0 gid) d
  then (Ok (site_view (created_db org name u gid now d) (new_site org name u gid now d)),
        created_db org name u gid now d)
  else (Err "constraint failed", d).
Proof.
  intros Ho. set (id := fresh_id (List.map s_id d.(sites))). set (s := new_site org name u gid now d).
  unfold run, create_tail, bind at 1. rewrite stmt_nil. unfold insert_site. rewrite andb_true_r.
  destruct (org_exists org d && group_ref_ok (nullif0 gid) d); [|done]. fold id.
  change (mk_site id org name u true (nullif0 gid) None now now None) with s.
  change id with s.(s_id). rewrite (new_rows_run _ s now d Ho eq_refl).
  change (new_rows _ now _) with (created_db org name u gid now d).
  pose proof (GetForOrg_run org id (created_db org name u gid now d)) as HG. unfold run in HG.
  assert (find_first (own org id) (sites (created_db org name u gid now d)) = Some s) as Hf.
  { change (sites (created_db org name u gid now d)) with (sites d ++ [s])%list.
    rewrite find_first_app. assert (find_first (own org id) (sites d) = None) as ->.
    { apply find_first_None. intros x Hx. unfold own. apply andb_false_iff. left. apply Z.eqb_neq. intros E.
      apply (fresh_id_notin (List.map s_id d.(sites))). fold id. rewrite <- E. by apply in_map. }
    cbn. unfold own. cbn. fold id. by rewrite !Z.eqb_refl. }
  rewrite Hf in HG. exact HG.
Qed.
End CreateLemmas.

(** Creating a site.  On tables without orphans it succeeds exactly when the
    trimmed name has 1 to 120 bytes, the URL is canonical, the group (if one is
    given) is the organization's, and the organization exists; then the site is
    there, enabled and unarchived, under a new id, with one HTTP monitor, an
    unknown health and the four expected headers, and nothing else changed;
    otherwise nothing changed. *)
Theorem create_site parse hostname str org name raw gid now d :
  no_orphans d -> gid = 0 \/ 0 < gid ->
  let '(r, d') := run (Create parse hostname str org name raw gid now) d in
  let valid := negb (trim_space name =?s "") && (len (trim_space name) <=? 120)
    && (negb (0 <? gid) || existsb (fun g => (g.(g_id) =? gid) && (g.(g_org) =? org)) d.(groups))
    && org_exists org d in
  match CanonicalURL parse hostname str raw with
  | Ok u => if valid then r = Ok (site_view d' (new_site org (trim_space name) u gid now d)) /\
                          d' = created_db org (trim_space name) u gid now d
            else is_ok r = false /\ d' = d
  | Err _ => is_ok r = false /\ d' = d
  end.
Proof.
  intros Ho Hg. unfold Create.
  destruct (_ || _) eqn:En.
  { cbn [run throw]. assert ((negb (trim_space name =?s "") && (len (trim_space name) <=? 120)) = false) as ->.
    { apply orb_true_iff in En as [->|En]; [done|]. rewrite Z.ltb_lt in En.
      assert ((len (trim_space name) <=? 120) = false) as -> by (apply Z.leb_gt; lia). apply andb_false_r. }
    by destruct (CanonicalURL _ _ _ _). }
  apply orb_false_iff in En as [-> En]. apply Z.ltb_ge, Z.leb_le in En as ->. cbn [negb andb].
  destruct (CanonicalURL parse hostname str raw) as [u|e]; cbn [lift]; [|done].
  change (run _ d) with (run (check_group org gid ;;; create_tail org (trim_space name) u gid now) d).
  assert (Hh : honest (check_group org gid)) by (unfold check_group; solve_honest).
  pose proof (check_group_run org gid d) as HC.
  destruct (negb (0 <? gid) || existsb _ (groups d)) eqn:Eg.
  - assert (run (check_group org gid) d = (Ok tt, d)) as Hok.
    { rewrite HC. destruct (0 <? gid); [|done]. cbn [negb orb] in Eg. by rewrite Eg. }
    rewrite (run_bind _ _ _ _ _ Hh Hok), create_tail_run by done. cbn [andb].
    assert (group_ref_ok (nullif0 gid) d = true) as ->.
    { unfold group_ref_ok, nullif0. destruct Hg as [->|Hg]; [done|].
      destruct (Z.eqb_spec gid 0); [lia|]. apply Z.ltb_lt in Hg. rewrite Hg in Eg. cbn [negb orb] in Eg.
      apply existsb_exists in Eg as (g & Hin & Hp). apply andb_true_iff in Hp as [Hp _].
      unfold group_by_id. destruct (find_first _ (groups d)) eqn:Ef; [done|].
      rewrite (proj1 (find_first_None _ _) Ef g Hin) in Hp. done. }
    rewrite andb_true_r. destruct (org_exists org d); done.
  - assert (run (check_group org gid) d = (Err "group not found", d)) as Herr.
    { rewrite HC. destruct (0 <? gid); [|done]. cbn [negb orb] in Eg. by rewrite Eg. }
    cbn [andb]. unfold run, bind in *. destruct (check_group org gid (d, [])) as [[|] [dd ff]]; [done|].
    by injection Herr as -> ->.
Qed.

(** What is left when the database fails half-way: creating a site is
    several statements without a transaction.  A refused second statement is
    reported as an error, yet the site stays, with no monitor, so that every
    check of it fails. *)
Theorem create_is_not_atomic :
  let d := demo_db in
  let parse := fun s => Some (mk_url "https" false "new.example" "/" "" "") in
  let '(r, (d', _)) := Create parse u_host (fun _ => "https://new.example/") 1 "new" "https://new.example/" 0 7
                         (d, [false; true]) in
  r = Err "database error" /\
  (exists s, In s d'.(sites) /\ s.(s_id) = 3 /\ s.(s_enabled) = true) /\
  find_first (fun m => m.(m_site) =? 3) d'.(monitors) = None.
Proof. vm_compute. split_and!; [done| |done]. eexists. split; [right; right; left; reflexivity|done]. Qed.

(** The tags a list asks for: trimmed, in lower case, not empty, each once;
    [false] when one is longer than 40 bytes, and then only those before it. *)
Fixpoint norm_tags (tags seen : list string) : list string * bool :=
  match tags with
  | [] => ([], true)
  | t :: rest =>
      let t := to_lower (trim_space t) in
      if (t =?s "") || Smem t seen then norm_tags rest seen
      else if 40 <? len t then ([], false)
      else let '(l, ok) := norm_tags rest (t :: seen) in (t :: l, ok)
  end.

Lemma put_tags_run id tags : forall seen d,
  site_exists id d = true ->
  (forall t, In t d.(FleetDb.tags) -> t.1 = id -> In t.2 seen) ->
  put_tags id tags seen (d, []) =
  (let '(l, ok) := norm_tags tags seen in
   (if ok then Ok tt else Err "tag too long",
    (set_tags (d.(FleetDb.tags) ++ List.map (fun t => (id, t)) l) d, []))).
Proof.
  assert (Hnil : forall d, set_tags (d.(FleetDb.tags) ++ []) d = d) by (intros []; cbn; by rewrite app_nil_r).
  induction tags as [|t tags IH]; intros seen d He Hs; cbn [put_tags norm_tags].
  { cbn [List.map]. by rewrite Hnil. }
  set (x := to_lower (trim_space t)). destruct (_ || _) eqn:E; [by apply IH|].
  apply orb_false_iff in E as [Ex Es]. destruct (40 <? len x).
  { cbn [List.map]. by rewrite Hnil. }
  unfold bind. rewrite stmt_nil. unfold insert_tag. rewrite He.
  assert (existsb (fun t => (t.1 =? id) && (t.2 =?s x)) d.(FleetDb.tags) = false) as ->.
  { apply existsb_none_iff. intros y Hy. destruct (Z.eqb_spec y.1 id) as [Hi|]; [|done]. cbn.
    apply String.eqb_neq. intros <-. apply (Hs y Hy) in Hi. apply Smem_In in Hi. congruence. }
  cbn [negb andb]. rewrite IH.
  - destruct (norm_tags tags (x :: seen)) as [l ok]. cbn [FleetDb.tags set_tags List.map].
    by rewrite <- app_assoc.
  - done.
  - intros y Hy Hi. cbn in Hy. apply in_app_or in Hy as [Hy|[<-|[]]]; [right; by apply Hs|by left].
Qed.

Lemma norm_tags_spec tags : forall seen,
  let '(l, ok) := norm_tags tags seen in
  NoDup l /\ (forall t, In t l -> ~ In t seen /\ t <> "" /\ len t <= 40 /\ exists r, In r tags /\ t = to_lower (trim_space r)) /\
  (ok = true -> forall r, In r tags -> to_lower (trim_space r) = "" \/ In (to_lower (trim_space r)) (l ++ seen)) /\
  (ok = false -> exists r, In r tags /\ 40 < len (to_lower (trim_space r))).
Proof.
  induction tags as [|t tags IH]; intros seen; cbn [norm_tags].
  { split_and!; try done. constructor. }
  set (x := to_lower (trim_space t)). destruct (_ || _) eqn:E.
  - specialize (IH seen). destruct (norm_tags tags seen) as [l ok]. destruct IH as (H1 & H2 & H3 & H4).
    split_and!; [done| | |].
    + intros y Hy. destruct (H2 y Hy) as (? & ? & ? & r & Hr & ->). split_and!; try done. exists r. split; [by right|done].
    + intros Hok r [<-|Hr]; [|by apply H3]. apply orb_true_iff in E as [E|E].
      * left. by apply String.eqb_eq in E.
      * right. apply in_or_app. right. by apply Smem_In.
    + intros Hok. destruct (H4 Hok) as (r & Hr & ?). exists r. split; [by right|done].
  - apply orb_false_iff in E as [Ex Es]. apply String.eqb_neq in Ex.
    destruct (Z.ltb_spec 40 (len x)) as [Hl|Hl].
    { split_and!; try done; [constructor|]. intros _. exists t. split; [by left|done]. }
    specialize (IH (x :: seen)). destruct (norm_tags tags (x :: seen)) as [l ok]. destruct IH as (H1 & H2 & H3 & H4).
    split_and!.
    + constructor; [|done]. intros Hin. apply list_elem_of_In in Hin. destruct (H2 x Hin) as (Hn & _). apply Hn. by left.
    + intros y [<-|Hy].
      * split_and!; try done; [|exists t; split; [by left|done]]. intros Hin. apply Smem_In in Hin. congruence.
      * destruct (H2 y Hy) as (Hn & ? & ? & r & Hr & ->). split_and!; try done.
        -- intros Hin. apply Hn. by right.
        -- exists r. split; [by right|done].
    + intros Hok r [<-|Hr]; [right; by left|]. destruct (H3 Hok r Hr) as [?|Hin]; [by left|right].
      apply in_app_or in Hin as [Hin|[<-|Hin]]; [right; apply in_or_app; by left|by left|right; apply in_or_app; by right].
    + intros Hok. destruct (H4 Hok) as (r & Hr & ?). exists r. split; [by right|done].
Qed.

Lemma own_exists org id d s : find_first (own org id) d.(sites) = Some s -> site_exists id d = true.
Proof.
  intros H. apply find_first_Some in H as [Hin Hp]. apply own_spec in Hp as [Hi _].
  unfold site_exists, site_by_id. destruct (find_first _ _) eqn:E; [done|].
  pose proof (proj1 (find_first_None _ _) E s Hin) as Hn. cbn in Hn. rewrite Hi, Z.eqb_refl in Hn. done.
Qed.

(** Setting tags replaces them by the normalised ones: each is a requested
    tag trimmed and in lower case, not empty, at most 40 bytes long and stored
    once, and every requested tag is there.  The tags of a site are gone,
    however, as soon as one of the new ones is too long: the error is found only
    after the old ones have been deleted. *)
Theorem set_tags_normalises org id d s tags :
  find_first (own org id) d.(sites) = Some s ->
  let '(r, d') := run (SetTags org id tags) d in
  let mine := List.map snd (List.filter (fun t => t.1 =? id) d'.(FleetDb.tags)) in
  NoDup mine /\
  (forall t, In t mine -> t <> "" /\ len t <= 40 /\ exists x, In x tags /\ t = to_lower (trim_space x)) /\
  (r = Ok tt -> forall x, In x tags -> to_lower (trim_space x) = "" \/ In (to_lower (trim_space x)) mine) /\
  (r = Ok tt <-> (norm_tags tags []).2 = true) /\
  (is_ok r = false -> exists x, In x tags /\ 40 < len (to_lower (trim_space x))) /\
  List.filter (fun t => negb (t.1 =? id)) d'.(FleetDb.tags) = List.filter (fun t => negb (t.1 =? id)) d.(FleetDb.tags).
Proof.
  intros Hs. pose proof (own_exists org id d s Hs) as He.
  assert (run (SetTags org id tags) d = (if (norm_tags tags []).2 then Ok tt else Err "tag too long",
    set_tags ((delete_tags id d).(FleetDb.tags) ++ List.map (fun t => (id, t)) (norm_tags tags []).1) d)) as ->.
  { unfold SetTags. erewrite run_bind; [|unfold GetForOrg; solve_honest|].
    2: { rewrite GetForOrg_run, Hs. reflexivity. }
    unfold run, bind. rewrite exec_nil, put_tags_run; [|exact He|].
    - by destruct (norm_tags tags []) as [l ok].
    - intros t Ht Hi. cbn in Ht. apply in_del in Ht as [_ Ht]. apply Z.eqb_neq in Ht. done. }
  pose proof (norm_tags_spec tags []) as Hn. destruct (norm_tags tags []) as [l ok]. destruct Hn as (H1 & H2 & H3 & H4).
  cbn [fst snd FleetDb.tags set_tags delete_tags].
  assert (Hm : List.map snd (List.filter (fun t => t.1 =? id) (del (fun t => t.1 =? id) d.(FleetDb.tags)
      ++ List.map (fun t => (id, t)) l)) = l).
  { rewrite List.filter_app. rewrite filter_none by (intros x Hx; by apply in_del in Hx as [_ Hx]).
    cbn [List.app]. clear. induction l as [|t l IH]; [done|]. cbn. rewrite Z.eqb_refl. cbn. by rewrite IH. }
  rewrite Hm. split_and!.
  - done.
  - intros t Ht. destruct (H2 t Ht) as (_ & ? & ? & ?). done.
  - intros Hr x Hx. rewrite app_nil_r in H3. apply H3; [|done]. by destruct ok.
  - by destruct ok.
  - intros Hr. apply H4. by destruct ok.
  - rewrite List.filter_app. rewrite (filter_none _ (List.map _ l)).
    + rewrite app_nil_r. apply filter_del_foreign. intros x Hx. by rewrite Hx.
    + intros x Hx. apply in_map_iff in Hx as (t & <- & _). cbn. by rewrite Z.eqb_refl.
Qed.

(** Deleting is for archived sites and is complete: on an archived site of
    the organization it removes the site and everything recorded for it, and
    keeps every row of other sites; on an unarchived one it does nothing. *)
Theorem delete_is_complete org id d s :
  find_first (own org id) d.(sites) = Some s ->
  let '(r, d') := run (Delete org id) d in
  if unarchived s then r = Err "archive site before deleting it" /\ d' = d
  else r = Ok tt /\
    (forall x, In x d'.(sites) -> own org id x = false) /\
    (forall x, In x d.(sites) -> own org id x = false -> In x d'.(sites)) /\
    (forall m, In m d'.(monitors) <-> In m d.(monitors) /\ m.(m_site) <> id) /\
    (forall c, In c d'.(checks) <-> In c d.(checks) /\ c.(c_site) <> id) /\
    (forall i, In i d'.(incidents) <-> In i d.(incidents) /\ i.(i_site) <> id) /\
    (forall t, In t d'.(FleetDb.tags) <-> In t d.(FleetDb.tags) /\ t.1 <> id) /\
    (forall h, In h d'.(healths) <-> In h d.(healths) /\ h.(h_site) <> id) /\
    d'.(webhooks) = d.(webhooks) /\ d'.(groups) = d.(groups).
Proof.
  intros Hs. unfold Delete. pose proof (find_first_Some _ _ _ Hs) as [Hin Hp].
  erewrite run_bind; [|unfold GetForOrg; solve_honest|].
  2: { rewrite GetForOrg_run, Hs. reflexivity. }
  unfold unarchived. cbn [st_archived site_view]. destruct (s_archived s); [|done]. cbn [negb].
  unfold run. rewrite exec_nil. split; [done|].
  assert (Hgone : forall z, Zmem z (List.map s_id (List.filter (own org id) d.(sites))) = true <-> z = id).
  { intros k. rewrite Zmem_In, in_map_iff. split.
    - intros (x & <- & Hx). apply filter_In in Hx as [_ Hx]. by apply own_spec in Hx as [-> _].
    - intros ->. exists s. split; [by apply own_spec in Hp as [-> _]|by apply filter_In]. }
  assert (Hgone' : forall z, Zmem z (List.map s_id (List.filter (own org id) d.(sites))) = false <-> z <> id).
  { intros k. rewrite <- not_true_iff_false, Hgone. done. }
  split_and!; try done; cbn.
  - intros x Hx. by apply in_del in Hx as [_ Hx].
  - intros x Hx Ho. by apply in_del.
  - intros m. by rewrite in_del, Hgone'.
  - intros c. by rewrite in_del, Hgone'.
  - intros i. by rewrite in_del, Hgone'.
  - intros t. by rewrite in_del, Hgone'.
  - intros h. by rewrite in_del, Hgone'.
Qed.

(** ** Witnesses *)

Definition demo_url (s : string) : option url := Some (mk_url "https" false "Shop.example" "" "" "").
Definition demo_show_url (u : url) : string := u.(u_scheme) ++ "://" ++ u.(u_host) ++ u.(u_path).

Lemma pages_cover_the_fleet_witness :
  Permutation (List.map st_id (rows_of (list_sel 1 "" 0 false) demo_db))
    (List.map s_id (List.filter (list_sel 1 "" 0 false demo_db) demo_db.(sites))).
Proof. apply (pages_cover_the_fleet (list_sel 1 "" 0 false) 20 demo_db). lia. Defined.

Lemma tenant_isolation_witness :
  let '(r, (d', _)) := run_op demo_url u_host demo_show_url 1 2 ODelete (demo_db, []) in
  r = Err "site not found" /\ d' = demo_db.
Proof.
  pose proof (tenant_isolation demo_url u_host demo_show_url 1 2 ODelete demo_db []) as H.
  destruct (run_op _ _ _ _ _ _ _) as [r [d' fl]]. apply H. vm_compute. reflexivity.
Defined.

Lemma create_site_witness :
  let '(r, d') := run (Create demo_url u_host demo_show_url 1 " new " "https://Shop.example" 0 7) demo_db in
  r = Ok (site_view d' (new_site 1 "new" "https://shop.example/" 0 7 demo_db)) /\
  d' = created_db 1 "new" "https://shop.example/" 0 7 demo_db.
Proof.
  assert (Ho : no_orphans demo_db).
  { split; intros x Hx; vm_compute in Hx; repeat destruct Hx as [<-|Hx]; try done; vm_compute; auto. }
  exact (create_site demo_url u_host demo_show_url 1 " new " "https://Shop.example" 0 7 demo_db Ho (or_introl eq_refl)).
Defined.

Lemma set_tags_normalises_witness :
  let '(r, d') := run (SetTags 1 1 [" Shop "; "shop"; "EU"]) demo_db in
  NoDup (List.map snd (List.filter (fun t => t.1 =? 1) d'.(FleetDb.tags))).
Proof.
  pose proof (set_tags_normalises 1 1 demo_db (mk_site 1 1 "shop" "https://shop.example/" true None None 0 0 None)
    [" Shop "; "shop"; "EU"] eq_refl) as H.
  destruct (run _ _) as [r d']. apply H.
Defined.

Lemma delete_is_complete_witness :
  let '(r, d') := run (Delete 1 1) demo_db in r = Err "archive site before deleting it" /\ d' = demo_db.
Proof.
  exact (delete_is_complete 1 1 demo_db (mk_site 1 1 "shop" "https://shop.example/" true None None 0 0 None) eq_refl).
Defined.
