(* ===== verification/Replicated.v ===== *)
(** The replicated fleet configuration ([internal/replicated/fsm.go]): the state
    machine that every node of a cluster drives with the same log.

    The codec of operations (gantry-core and JSON) is a parameter: decoding the
    log entry, the digest of an operation, and encoding and decoding the three
    payloads.  Instants in payloads are the stored ones.  Every statement of a
    transaction can be refused, as everywhere. *)
From S2P Require Import Prelude GoStr TimeText SqlM FleetDb Sites.
Open Scope string_scope.
Open Scope Z_scope.
Open Scope wf_scope.
Open Scope sql_scope.

(** ** Definitions *)

Definition KindGroupPut : string := "webfleet.group.put".
Definition KindSitePut : string := "webfleet.site.put".
Definition KindSiteArchive : string := "webfleet.site.archive".
Definition KindSiteDelete : string := "webfleet.site.delete".
Definition KindTagsSet : string := "webfleet.site.tags.set".
Definition ErrGroupConflict : string := "group conflict".

Record GroupPayload := mk_gp { gp_cid : string; gp_org : Z; gp_name : string; gp_created : Z }.
Record SitePayload := mk_sp {
  sp_cid : string; sp_org : Z; sp_name : string; sp_url : string; sp_group : string;
  sp_enabled : bool; sp_archived : bool; sp_created : Z; sp_updated : Z }.
Record TagsPayload := mk_tp { tp_cid : string; tp_tags : list string }.

Record operation := mk_op { op_id : string; op_kind : string; op_object : string; op_payload : string }.
(** A committed log entry. *)
Record log := mk_log { l_index : Z; l_term : Z; l_data : string }.

Record fsm := mk_fsm {
  f_db : db; f_applied : gmap string string; f_index : Z; f_term : Z; f_failure : option string }.

(** What [Apply] returns: a result naming the operation, or an error. *)
Definition ApplyResult : Type := result (Z * Z * string * string * string).

(** *** The materialized rows *)

Definition group_taken (org : Z) (name : string) (cid : string) (d : db) : bool :=
  match group_by_name org name d with
  | Some g => negb (match g.(g_cluster) with Some c => c | None => "" end =?s cid)
  | None => false
  end.

(** [UPDATE groups SET organization_id=?,name=? WHERE cluster_id=?]. *)
Definition update_group (p : GroupPayload) (d : db) : option db :=
  let hit g := opt_eqb g.(g_cluster) p.(gp_cid) in
  if existsb hit d.(groups) &&
     (negb (org_exists p.(gp_org) d)
      || existsb (fun g => (g.(g_org) =? p.(gp_org)) && (g.(g_name) =?s p.(gp_name)) && negb (hit g)) d.(groups))
  then None
  else Some (set_groups (upd hit (fun g => mk_group g.(g_id) p.(gp_org) p.(gp_name) g.(g_created) g.(g_cluster))
               d.(groups)) d).

Definition put_group (p : GroupPayload) : M db unit :=
  let* taken := query (group_taken p.(gp_org) p.(gp_name) p.(gp_cid)) in
  if taken then throw ErrGroupConflict else
  let* row := query (group_by_cluster p.(gp_cid)) in
  match row with
  | None => let* _id := stmt (insert_group p.(gp_org) p.(gp_name) p.(gp_created) (Some p.(gp_cid))) in ret tt
  | Some _ => exec_opt (update_group p)
  end.

Definition archived_at (p : SitePayload) : option Z := if p.(sp_archived) then Some p.(sp_updated) else None.

(** [UPDATE sites SET name=?,... WHERE id=?]. *)
Definition update_by_id (id : Z) (f : site_row -> site_row) (d : db) : db :=
  set_sites (upd (fun s => s.(s_id) =? id) f d.(sites)) d.

Definition put_site_row (p : SitePayload) (gid : option Z) (s : site_row) : site_row :=
  mk_site s.(s_id) s.(s_org) p.(sp_name) p.(sp_url) p.(sp_enabled) gid (archived_at p)
          s.(s_created) p.(sp_updated) s.(s_cluster).

Definition put_site (p : SitePayload) : M db unit :=
  let* gid :=
    if p.(sp_group) =?s "" then ret None
    else stmt (fun d => g ← group_by_cluster p.(sp_group) d; Some (Some g.(g_id), d)) in
  let* row := query (site_by_cluster p.(sp_cid)) in
  match row with
  | None =>
      let* id := stmt (insert_site p.(sp_org) p.(sp_name) p.(sp_url) p.(sp_enabled) gid (archived_at p)
                         p.(sp_created) p.(sp_updated) (Some p.(sp_cid))) in
      stmt (insert_monitor id "http" 10000 200 399 p.(sp_created)) ;;;
      stmt (insert_health (mk_health id "unknown" 0 None p.(sp_created) None None)) ;;;
      for_each default_headers (fun h => stmt (insert_hexp (mk_hexp id h true)))
  | Some s => exec (update_by_id s.(s_id) (put_site_row p gid))
  end.

Definition archive_site (p : SitePayload) : M db unit :=
  exec (fun d => set_sites (upd (fun s => opt_eqb s.(s_cluster) p.(sp_cid))
    (fun s => mk_site s.(s_id) s.(s_org) s.(s_name) s.(s_url) s.(s_enabled) s.(s_group) (archived_at p)
                s.(s_created) p.(sp_updated) s.(s_cluster)) d.(sites)) d).

Definition delete_site (cid : string) : M db unit :=
  exec (delete_sites (fun s => opt_eqb s.(s_cluster) cid)).

Definition set_site_tags (p : TagsPayload) : M db unit :=
  let* id := stmt (fun d => s ← site_by_cluster p.(tp_cid) d; Some (s.(s_id), d)) in
  exec (delete_tags id) ;;;
  for_each p.(tp_tags) (fun tag => stmt (insert_tag id tag)).

(** [webfleet_replicated_meta]. *)
Definition put_meta (k v : string) (d : db) : db :=
  set_meta (if existsb (fun kv => kv.1 =?s k) d.(meta)
            then upd (fun kv => kv.1 =?s k) (fun kv => (kv.1, v)) d.(meta)
            else d.(meta) ++ [(k, v)])%list d.
Definition insert_meta (k v : string) (d : db) : option db :=
  if existsb (fun kv => kv.1 =?s k) d.(meta) then None
  else Some (set_meta (d.(meta) ++ [(k, v)])%list d).

(** [NewFSM]: the meta table read back. *)
Definition load_row (f : fsm) (kv : string * string) : fsm :=
  let num := match parse_uint kv.2 with Some z => z | None => 0 end in
  if kv.1 =?s "index" then mk_fsm f.(f_db) f.(f_applied) num f.(f_term) f.(f_failure)
  else if kv.1 =?s "term" then mk_fsm f.(f_db) f.(f_applied) f.(f_index) num f.(f_failure)
  else if (3 <? len kv.1) && has_prefix kv.1 "op:"
  then mk_fsm f.(f_db) (<[substring 3 (String.length kv.1 - 3) kv.1 := kv.2]> f.(f_applied))
         f.(f_index) f.(f_term) f.(f_failure)
  else f.
Definition NewFSM (d : db) : fsm := List.fold_left load_row d.(meta) (mk_fsm d ∅ 0 0 None).

Definition OpKnown (id : string) (f : fsm) : option string := f.(f_applied) !! id.
Definition AppliedIndex (f : fsm) : Z * Z := (f.(f_index), f.(f_term)).

(** [snapshot]. *)
Record snapshot := mk_snap {
  sn_groups : list GroupPayload; sn_sites : list SitePayload;
  sn_tags : gmap string (list string); sn_applied : gmap string string; sn_index : Z; sn_term : Z }.

Section Codec.
Variable DecodeOperation : string -> result operation.
Variable Digest : operation -> result string.
Variable decode_group : string -> result GroupPayload.
Variable decode_site : string -> result SitePayload.
Variable decode_tags : string -> result TagsPayload.
Variable encode_group : GroupPayload -> string.
Variable encode_site : SitePayload -> string.
Variable encode_tags : TagsPayload -> string.

Definition materialize (op : operation) : M db unit :=
  if op.(op_kind) =?s KindGroupPut then
    let* p := lift (decode_group op.(op_payload)) in put_group p
  else if op.(op_kind) =?s KindSitePut then
    let* p := lift (decode_site op.(op_payload)) in put_site p
  else if op.(op_kind) =?s KindSiteArchive then
    let* p := lift (decode_site op.(op_payload)) in archive_site p
  else if op.(op_kind) =?s KindSiteDelete then delete_site op.(op_object)
  else if op.(op_kind) =?s KindTagsSet then
    let* p := lift (decode_tags op.(op_payload)) in set_site_tags p
  else throw ("unsupported Webfleet replication operation " ++ op.(op_kind)).

(** The transaction of [Apply]. *)
Definition apply_body (op : operation) (d : string) (l : log) : M db (unit * bool) :=
  materialize op ;;;
  exec (put_meta ("op:" ++ op.(op_id)) d) ;;;
  exec (fun s => put_meta "term" (format_int l.(l_term)) (put_meta "index" (format_int l.(l_index)) s)) ;;;
  ret (tt, true).

Definition applied_result (l : log) (op : operation) : ApplyResult :=
  Ok (l.(l_index), l.(l_term), op.(op_id), op.(op_object), op.(op_kind)).

Definition fail (e : string) (f : fsm) : fsm :=
  mk_fsm f.(f_db) f.(f_applied) f.(f_index) f.(f_term)
    (match f.(f_failure) with None => Some e | old => old end).

Definition Apply (l : log) (f : fsm) (fl : faults) : ApplyResult * fsm :=
  match DecodeOperation l.(l_data) with
  | Err e => (Err e, fail e f)
  | Ok op =>
      match f.(f_failure) with
      | Some e => (Err e, f)
      | None =>
          match Digest op with
          | Err e => (Err e, f)
          | Ok d =>
              match f.(f_applied) !! op.(op_id) with
              | Some old =>
                  if negb (old =?s d) then (Err "operation id reused with different payload", f)
                  else (applied_result l op,
                        mk_fsm f.(f_db) f.(f_applied) l.(l_index) l.(l_term) f.(f_failure))
              | None =>
                  match transact (apply_body op d l) (f.(f_db), fl) with
                  | (Err e, (s, _)) =>
                      if e =?s ErrGroupConflict then (Err e, mk_fsm s f.(f_applied) f.(f_index) f.(f_term) None)
                      else (Err e, mk_fsm s f.(f_applied) f.(f_index) f.(f_term) (Some e))
                  | (Ok _, (s, _)) =>
                      (applied_result l op,
                       mk_fsm s (<[op.(op_id) := d]> f.(f_applied)) l.(l_index) l.(l_term) None)
                  end
              end
          end
      end
  end.

(** The log, each entry with what the database refuses while it is applied. *)
Fixpoint apply_log (ls : list (log * faults)) (f : fsm) : list ApplyResult * fsm :=
  match ls with
  | [] => ([], f)
  | (l, fl) :: rest => let '(r, f1) := Apply l f fl in
                 let '(rs, f2) := apply_log rest f1 in (r :: rs, f2)
  end.

(** [Snapshot]: the clustered rows, ordered by cluster id, and the applied
    operations. *)
Definition snap_groups (d : db) : list GroupPayload :=
  sort_by gp_cid (omap (fun g => c ← g.(g_cluster); Some (mk_gp c g.(g_org) g.(g_name) g.(g_created))) d.(groups)).
Definition group_cid (d : db) (s : site_row) : string :=
  match gid ← s.(s_group); g ← group_by_id gid d; g.(g_cluster) with Some c => c | None => "" end.
Definition snap_site (d : db) (s : site_row) : option SitePayload :=
  c ← s.(s_cluster);
  Some (mk_sp c s.(s_org) s.(s_name) s.(s_url) (group_cid d s) s.(s_enabled)
          (match s.(s_archived) with Some _ => true | None => false end) s.(s_created) s.(s_updated)).
Definition snap_sites (d : db) : list SitePayload := sort_by sp_cid (omap (snap_site d) d.(sites)).
Definition snap_tags (d : db) (p : SitePayload) : list string :=
  match site_by_cluster p.(sp_cid) d with
  | Some s => sort_by id (List.map snd (List.filter (fun t => t.1 =? s.(s_id)) d.(tags)))
  | None => []
  end.
Definition Snapshot (f : fsm) : snapshot :=
  let d := f.(f_db) in
  mk_snap (snap_groups d) (snap_sites d)
    (List.fold_right (fun p m => match snap_tags d p with [] => m | ts => <[p.(sp_cid) := ts]> m end) ∅ (snap_sites d))
    f.(f_applied) f.(f_index) f.(f_term).

Definition stale {A} (cid : A -> option string) (kept : list string) (l : list A) : list string :=
  List.filter (fun c => negb (Smem c kept)) (omap cid l).

(** [Restore], with the entries of the applied map in an order of the run. *)
Definition restore_body (s : snapshot) : M db (unit * bool) :=
  for_each s.(sn_groups) (fun p => materialize (mk_op "" KindGroupPut "" (encode_group p))) ;;;
  for_each s.(sn_sites) (fun p => materialize (mk_op "" KindSitePut "" (encode_site p))) ;;;
  let* gone := query (fun d => stale s_cluster (List.map sp_cid s.(sn_sites)) d.(sites)) in
  for_each gone delete_site ;;;
  let* gone := query (fun d => stale g_cluster (List.map gp_cid s.(sn_groups)) d.(groups)) in
  for_each gone (fun c => exec (delete_groups (fun g => opt_eqb g.(g_cluster) c))) ;;;
  for_each s.(sn_sites) (fun p => materialize (mk_op "" KindTagsSet ""
    (encode_tags (mk_tp p.(sp_cid) (match s.(sn_tags) !! p.(sp_cid) with Some l => l | None => [] end))))) ;;;
  exec (set_meta []) ;;;
  for_each (map_to_list s.(sn_applied)) (fun kv => exec_opt (insert_meta ("op:" ++ kv.1) kv.2)) ;;;
  exec_opt (fun d => d ← insert_meta "index" (format_int s.(sn_index)) d;
                     insert_meta "term" (format_int s.(sn_term)) d) ;;;
  ret (tt, true).

Definition Restore (s : snapshot) (f : fsm) (fl : faults) : result unit * fsm :=
  match transact (restore_body s) (f.(f_db), fl) with
  | (Err e, (d, _)) => (Err e, mk_fsm d f.(f_applied) f.(f_index) f.(f_term) f.(f_failure))
  | (Ok _, (d, _)) => (Ok tt, mk_fsm d s.(sn_applied) s.(sn_index) s.(sn_term) None)
  end.
End Codec.

(** What [handleSiteTagsUpdate] of the server does with the tags of a request:
    with replication it proposes them, otherwise it stores them. *)
Definition handleSiteTagsUpdate (replicated : bool) (org id : Z) (tags : list string) : M db (option TagsPayload) :=
  let* _s := GetForOrg org id in
  if replicated then
    let* cid := ClusterIDForSite org id in ret (Some (mk_tp cid tags))
  else SetTags org id tags ;;; ret None.

(** ** Lemmas *)

Lemma put_meta_other k v d : set_meta d.(meta) (put_meta k v d) = d.
Proof. unfold put_meta. by destruct (existsb _ _), d. Qed.

Definition meta_get (k : string) (l : list (string * string)) : option string :=
  snd <$> find_first (fun kv => kv.1 =?s k) l.

Section MetaLemmas.
Implicit Types (l : list (string * string)) (k v : string).

Lemma meta_get_cons k kv l : meta_get k (kv :: l) = if kv.1 =?s k then Some kv.2 else meta_get k l.
Proof. unfold meta_get, find_first. cbn [List.find]. by destruct (kv.1 =?s k). Qed.

Lemma meta_get_upd_ne k v k' l :
  k' <> k -> meta_get k' (upd (fun kv => kv.1 =?s k) (fun kv => (kv.1, v)) l) = meta_get k' l.
Proof.
  intros Hne. induction l as [|[a b] l IH]; [done|]. cbn [upd List.map fst].
  rewrite !meta_get_cons. destruct (String.eqb_spec a k) as [->|Ha]; cbn [fst snd].
  - assert ((k =?s k') = false) as -> by (apply String.eqb_neq; congruence). exact IH.
  - destruct (a =?s k'); [done|exact IH].
Qed.

Lemma meta_get_upd_eq k v l :
  existsb (fun kv => kv.1 =?s k) l = true ->
  meta_get k (upd (fun kv => kv.1 =?s k) (fun kv => (kv.1, v)) l) = Some v.
Proof.
  induction l as [|[a b] l IH]; [done|]. cbn [existsb upd List.map fst]. intros H.
  destruct (a =?s k) eqn:E; rewrite meta_get_cons; cbn [fst snd]; rewrite E; [done|by apply IH].
Qed.

Lemma meta_get_app k l1 l2 :
  meta_get k (l1 ++ l2) = match meta_get k l1 with Some v => Some v | None => meta_get k l2 end.
Proof. unfold meta_get. rewrite find_first_app. by destruct (find_first _ l1). Qed.

Lemma meta_get_None k l : existsb (fun kv => kv.1 =?s k) l = false -> meta_get k l = None.
Proof.
  intros H. unfold meta_get. by rewrite (proj2 (find_first_None _ _) (proj1 (existsb_none_iff _ _) H)).
Qed.

Lemma meta_get_put k v d k' :
  meta_get k' (put_meta k v d).(meta) = if k' =?s k then Some v else meta_get k' d.(meta).
Proof.
  unfold put_meta. cbn [meta set_meta].
  destruct (existsb (fun kv => kv.1 =?s k) d.(meta)) eqn:E; destruct (String.eqb_spec k' k) as [->|Hk].
  - by apply meta_get_upd_eq.
  - by apply meta_get_upd_ne.
  - rewrite meta_get_app, meta_get_None by done. rewrite meta_get_cons. cbn. by rewrite String.eqb_refl.
  - rewrite meta_get_app, meta_get_cons. cbn [fst snd].
    assert ((k =?s k') = false) as -> by (apply String.eqb_neq; congruence).
    by destruct (meta_get k' d.(meta)).
Qed.
End MetaLemmas.

Section ApplyLemmas.
Context (dec : string -> result operation) (digest : operation -> result string)
  (dg : string -> result GroupPayload) (ds : string -> result SitePayload) (dt : string -> result TagsPayload).
Let apply := Apply dec digest dg ds dt.

Lemma Apply_ok_inv l f fl r f' op :
  dec l.(l_data) = Ok op -> apply l f fl = (r, f') -> is_ok r = true ->
  f.(f_failure) = None /\ exists d, digest op = Ok d /\ f'.(f_failure) = None /\
    f'.(f_applied) = <[op.(op_id) := d]> f.(f_applied) /\ r = applied_result l op.
Proof.
  intros Hd H Hr. unfold apply, Apply in H. rewrite Hd in H.
  destruct (f_failure f) eqn:Ef; [by simplify_eq|]. split; [done|].
  destruct (digest op) as [d|]; [|by simplify_eq]. exists d. split; [done|].
  destruct (f_applied f !! op_id op) as [old|] eqn:Eo.
  - destruct (old =?s d) eqn:E; cbn [negb] in H; [|by simplify_eq].
    apply String.eqb_eq in E as ->. injection H as <- <-. cbn. split_and!; [done| |done]. by rewrite insert_id.
  - destruct (transact _ _) as [[[]|e] [s fl']]; [|destruct (e =?s ErrGroupConflict); by simplify_eq].
    by simplify_eq.
Qed.
End ApplyLemmas.

(** *** The materialized rows leave the meta table alone *)

Definition same_meta (d d' : db) : Prop := d'.(meta) = d.(meta).
#[export] Instance same_meta_refl : Reflexive same_meta.
Proof. by intros d. Qed.
#[export] Instance same_meta_trans : Transitive same_meta.
Proof. intros a b c H1 H2. unfold same_meta in *. congruence. Qed.

Lemma materialize_meta dg ds dt op : within same_meta (materialize dg ds dt op).
Proof.
  unfold materialize, put_group, put_site, archive_site, delete_site, set_site_tags.
  solve_within; unfold same_meta; intros;
    unfold insert_group, update_group, insert_site, insert_monitor, insert_health, insert_hexp, insert_tag in *;
    try match goal with H : _ ≫= _ = Some _ |- _ => apply bind_Some in H as (? & ? & ?) end;
    repeat case_match; simplify_eq/=; done.
Qed.

(** A failed state machine refuses everything. *)
Lemma stuck dec digest dg ds dt f :
  is_Some f.(f_failure) -> forall ls,
  (apply_log dec digest dg ds dt ls f).2 = f /\
  Forall (fun r => is_ok r = false) (apply_log dec digest dg ds dt ls f).1.
Proof.
  intros [e0 He0] ls. induction ls as [|[x fl] ls IH]; [by split; [|constructor]|]. cbn [apply_log].
  assert (exists e, Apply dec digest dg ds dt x f fl = (Err e, f)) as [e HA].
  { unfold Apply. destruct (dec (l_data x)) as [o|e].
    - rewrite He0. by eexists.
    - exists e. f_equal. unfold fail. rewrite He0. destruct f; cbn in *. by subst. }
  rewrite HA. destruct IH as [IH1 IH2]. destruct (apply_log dec digest dg ds dt ls f) as [rs f2].
  cbn [fst snd] in *. split; [done|]. by constructor.
Qed.

(** ** Properties *)

(** What happens to a machine after an operation, on this node or, when it hands its
    state over in a snapshot, on another: further log entries, and the restoration of
    its snapshot, into whatever state that node was in. *)
Inductive goes_on dec digest dg ds dt (f : fsm) : fsm -> Prop :=
| goes_on_applies l fl : goes_on dec digest dg ds dt f (Apply dec digest dg ds dt l f fl).2
| goes_on_restored eg es et g fl f' : Restore dg ds dt eg es et (Snapshot f) g fl = (Ok tt, f') -> goes_on dec digest dg ds dt f f'.
Lemma known_stays dec digest dg ds dt id d f f' : goes_on dec digest dg ds dt f f' -> OpKnown id f = Some d -> OpKnown id f' = Some d.
Proof.
  unfold OpKnown. intros [l fl|eg es et g fl f2 HR] Hk.
  - unfold Apply. destruct (dec (l_data l)) as [op|e]; [|done]. destruct (f_failure f); [done|]. destruct (digest op) as [x|]; [|done].
    destruct (f_applied f !! op_id op) as [old|] eqn:Eo; [by destruct (negb _)|].
    destruct (transact _ _) as [[[]|e] [s fl']]; [|by destruct (e =?s ErrGroupConflict)].
    cbn [snd f_applied]. rewrite lookup_insert_ne; [done|]. intros E. congruence.
  - unfold Restore in HR. destruct (transact _ _) as [[[]|e] [s fl']]; [|done]. by injection HR as <-.
Qed.

(** C37: an operation takes effect at most once.  After it has been applied, and
    whatever the machine has applied and handed over in snapshots since, every further
    log entry with its id is answered without touching the tables or the record of
    applied operations: with a result if the entry is the same operation (a retried
    proposal), with an error if it reuses the id for something else, or if the machine
    has stopped on a failure. *)
Theorem apply_exactly_once dec digest dg ds dt l1 f fl r1 f1 f2 l2 fl2 op1 op2 :
  dec l1.(l_data) = Ok op1 -> dec l2.(l_data) = Ok op2 -> op2.(op_id) = op1.(op_id) ->
  Apply dec digest dg ds dt l1 f fl = (r1, f1) -> is_ok r1 = true -> is_ok (digest op2) = true ->
  star (goes_on dec digest dg ds dt) f1 f2 ->
  OpKnown op1.(op_id) f2 = Some (match digest op1 with Ok d => d | Err _ => "" end) /\
  let '(r3, f3) := Apply dec digest dg ds dt l2 f2 fl2 in
  f3.(f_db) = f2.(f_db) /\ f3.(f_applied) = f2.(f_applied) /\ f3.(f_failure) = f2.(f_failure) /\
  match f2.(f_failure) with
  | Some e => r3 = Err e /\ f3 = f2
  | None =>
      if bool_decide (digest op2 = digest op1) then r3 = applied_result l2 op2 /\ AppliedIndex f3 = (l2.(l_index), l2.(l_term))
      else r3 = Err "operation id reused with different payload" /\ f3 = f2
  end.
Proof.
  intros H1 H2 Hid HA Hr Hd2 Hs. destruct (Apply_ok_inv _ _ _ _ _ _ _ _ _ _ _ H1 HA Hr) as (_ & d & Hd & _ & Ha & _).
  assert (OpKnown op1.(op_id) f2 = Some d) as Hk.
  { refine (star_invariant _ (fun g => OpKnown op1.(op_id) g = Some d) _ _ _ _ Hs); [intros x y Hx Hg; by apply (known_stays _ _ _ _ _ _ _ _ _ Hg)|].
    unfold OpKnown. by rewrite Ha, lookup_insert_eq. }
  rewrite Hk, Hd. split; [done|]. unfold OpKnown in Hk.
  unfold Apply. rewrite H2. destruct (f_failure f2) as [e|] eqn:Ef; [by split_and!|]. destruct (digest op2) as [d2|]; [|done].
  rewrite Hid, Hk. destruct (String.eqb_spec d d2) as [->|Hne]; cbn [negb].
  - rewrite bool_decide_eq_true_2 by done. split_and!; done.
  - rewrite bool_decide_eq_false_2 by congruence. split_and!; done.
Qed.

(** A duplicate tag stops replication.  The request that a single node
    accepts (its tags are trimmed, lowered and made unique before they are
    stored) is proposed as it is when the node is clustered; the entry violates
    the primary key of the tags, and from then on the state machine refuses
    every entry and never changes again. *)
Theorem duplicate_tags_wedge_replication dec digest dg ds dt l op d :
  let s := mk_site 1 1 "shop" "https://shop.example/" true None None 0 0 (Some "wfs_1") in
  let start := set_sites [s] demo_db in
  let f := mk_fsm start ∅ 0 0 None in
  let tags := ["eu"; "eu"] in
  is_ok (run (handleSiteTagsUpdate false 1 1 tags) start).1 = true /\
  run (handleSiteTagsUpdate true 1 1 tags) start = (Ok (Some (mk_tp "wfs_1" tags)), start) /\
  (dec l.(l_data) = Ok op -> digest op = Ok d -> op.(op_kind) = KindTagsSet ->
   dt op.(op_payload) = Ok (mk_tp "wfs_1" tags) ->
   let '(r, f') := Apply dec digest dg ds dt l f [] in
   r = Err "constraint failed" /\ f'.(f_failure) = Some "constraint failed" /\ f'.(f_db) = start /\
   forall ls, (apply_log dec digest dg ds dt ls f').2 = f' /\
     Forall (fun r => is_ok r = false) (apply_log dec digest dg ds dt ls f').1).
Proof.
  intros s start f tags. split; [vm_compute; reflexivity|]. split; [vm_compute; reflexivity|].
  intros Hdec Hdig Hk Hp. unfold Apply. rewrite Hdec, Hdig. change (f_failure f) with (@None string). change (f_applied f) with (∅ : gmap string string).
  rewrite lookup_empty. change (f_db f) with start.
  assert (transact (apply_body dg ds dt op d l) (start, []) = (Err "constraint failed", (start, []))) as ->.
  { unfold transact, apply_body, materialize. rewrite Hk. cbn [String.eqb Ascii.eqb Bool.eqb].
    unfold bind at 1. rewrite Hp. vm_compute. reflexivity. }
  split_and!; [done..|]. apply stuck. done.
Qed.

(** *** What the meta table records *)

Definition keys_ok (l : list (string * string)) : Prop := NoDup (List.map fst l).

(** The table holds exactly the applied operations and a last position. *)
Record meta_ok (f : fsm) (pos : Z * Z) : Prop := {
  mo_keys : keys_ok f.(f_db).(meta);
  mo_ops : forall i, meta_get ("op:" ++ i) f.(f_db).(meta) = f.(f_applied) !! i;
  mo_index : meta_get "index" f.(f_db).(meta) = if bool_decide (f.(f_db).(meta) = []) then None else Some (format_int pos.1);
  mo_term : meta_get "term" f.(f_db).(meta) = if bool_decide (f.(f_db).(meta) = []) then None else Some (format_int pos.2) }.

Lemma meta_get_In k v l : keys_ok l -> meta_get k l = Some v <-> In (k, v) l.
Proof.
  unfold keys_ok. induction l as [|[a b] l IH]; [done|]. cbn [List.map fst]. intros [Ha Hl]%NoDup_cons.
  rewrite meta_get_cons. cbn [fst snd In]. destruct (String.eqb_spec a k) as [->|Hne].
  - split; [intros [= ->]; by left|]. intros [[= ->]|Hin]; [done|]. exfalso. apply Ha, list_elem_of_In.
    apply in_map_iff. by exists (k, v).
  - rewrite IH by done. split; [by right|]. intros [[= -> ->]|?]; done.
Qed.

Lemma put_meta_keys k v d : keys_ok d.(meta) -> keys_ok (put_meta k v d).(meta).
Proof.
  unfold keys_ok, put_meta. cbn [meta set_meta]. intros H. destruct (existsb _ _) eqn:E.
  - unfold upd. rewrite List.map_map. rewrite (List.map_ext _ fst); [done|]. intros [a b]. cbn. by destruct (a =?s k).
  - rewrite List.map_app. apply NoDup_app. split_and!; [done| |apply NoDup_singleton].
    intros x Hx Hk. cbn [List.map fst] in Hk. apply list_elem_of_singleton in Hk. subst x. apply list_elem_of_In, in_map_iff in Hx as ([a b] & Hab & Hin). cbn in Hab. subst a.
    rewrite existsb_none_iff in E. specialize (E _ Hin). cbn in E. by rewrite String.eqb_refl in E.
Qed.

Lemma put_meta_nonempty k v d : (put_meta k v d).(meta) <> [].
Proof.
  unfold put_meta. cbn [meta set_meta]. destruct (existsb _ _) eqn:E.
  - destruct d.(meta); [done|]. cbn. done.
  - by destruct d.(meta).
Qed.

Lemma op_key_inj a b : "op:" ++ a = "op:" ++ b -> a = b.
Proof. rewrite !append_cons, !append_nil_l. by intros [= ->]. Qed.

Lemma substring_drop3 a : substring 3 (String.length ("op:" ++ a) - 3) ("op:" ++ a) = a.
Proof.
  rewrite !append_cons, append_nil_l. cbn [substring String.length]. rewrite !Nat.sub_succ, Nat.sub_0_r.
  induction a as [|c a IH]; [done|]. cbn [String.length substring]. by rewrite IH.
Qed.

(** Reading the table back, row by row. *)
Lemma load_row_op f i v : i <> "" ->
  load_row f ("op:" ++ i, v) = mk_fsm f.(f_db) (<[i := v]> f.(f_applied)) f.(f_index) f.(f_term) f.(f_failure).
Proof.
  intros Hi. unfold load_row. cbn [fst snd].
  assert (("op:" ++ i =?s "index") = false) as -> by (apply String.eqb_neq; rewrite append_cons; discriminate).
  assert (("op:" ++ i =?s "term") = false) as -> by (apply String.eqb_neq; rewrite append_cons; discriminate).
  assert (has_prefix ("op:" ++ i) "op:" = true) as -> by apply prefix_app.
  assert ((3 <? len ("op:" ++ i)) = true) as ->.
  { apply Z.ltb_lt. unfold len. rewrite !append_cons, append_nil_l. cbn [String.length]. destruct i; [done|]. cbn [String.length]. lia. }
  by rewrite substring_drop3.
Qed.

Definition numeral (o : option string) : Z :=
  match o with Some s => match parse_uint s with Some z => z | None => 0 end | None => 0 end.

Definition is_op_key (k : string) : bool := (3 <? len k) && has_prefix k "op:".

Lemma op_key_spec k : is_op_key k = true -> exists i, i <> "" /\ k = "op:" ++ i.
Proof.
  unfold is_op_key. intros [Hl Hp]%andb_true_iff. apply prefix_spec in Hp as [i ->]. exists i. split; [|done].
  intros ->. done.
Qed.

(** A row does not touch the applied operation of another key. *)
Lemma load_row_frame f k v i : k <> "op:" ++ i -> (load_row f (k, v)).(f_applied) !! i = f.(f_applied) !! i.
Proof.
  intros Hk. destruct (is_op_key k) eqn:E.
  - apply op_key_spec in E as (j & Hj & ->). rewrite load_row_op by done. cbn [f_applied].
    apply lookup_insert_ne. congruence.
  - unfold load_row. cbn [fst snd]. fold (is_op_key k). rewrite E. by destruct (k =?s "index"), (k =?s "term").
Qed.

Lemma load_row_rest f k v :
  let num := match parse_uint v with Some z => z | None => 0 end in
  (load_row f (k, v)).(f_db) = f.(f_db) /\ (load_row f (k, v)).(f_failure) = f.(f_failure) /\
  (load_row f (k, v)).(f_index) = (if k =?s "index" then num else f.(f_index)) /\
  (load_row f (k, v)).(f_term) = (if k =?s "term" then num else f.(f_term)).
Proof.
  unfold load_row. cbn [fst snd]. destruct (String.eqb_spec k "index") as [->|]; [done|].
  destruct (String.eqb_spec k "term") as [->|]; [done|]. by destruct (_ && _).
Qed.

Lemma load_rows l : keys_ok l -> forall f,
  let f' := List.fold_left load_row l f in
  (forall i, i <> "" -> f'.(f_applied) !! i = match meta_get ("op:" ++ i) l with Some v => Some v | None => f.(f_applied) !! i end) /\
  f'.(f_index) = match meta_get "index" l with Some v => numeral (Some v) | None => f.(f_index) end /\
  f'.(f_term) = match meta_get "term" l with Some v => numeral (Some v) | None => f.(f_term) end.
Proof.
  unfold keys_ok. induction l as [|[k v] l IH]; intros Hk f; [by split_and!|]. cbn [List.map fst] in Hk.
  apply NoDup_cons in Hk as [Hk Hl]. cbn [List.fold_left]. specialize (IH Hl (load_row f (k, v))).
  cbv zeta in *. destruct IH as (H1 & H2 & H3).
  assert (Hnone : meta_get k l = None).
  { destruct (meta_get k l) as [w|] eqn:E; [|done]. exfalso. apply Hk, list_elem_of_In.
    apply (meta_get_In _ _ _ Hl) in E. apply in_map_iff. by exists (k, w). }
  destruct (load_row_rest f k v) as (_ & _ & Hi & Ht). rewrite !meta_get_cons. cbn [fst snd]. split_and!.
  - intros i Hne. rewrite meta_get_cons. cbn [fst snd]. rewrite (H1 i Hne).
    destruct (String.eqb_spec k ("op:" ++ i)) as [->|Hki].
    + rewrite Hnone, load_row_op by done. cbn. by rewrite lookup_insert_eq.
    + by rewrite load_row_frame.
  - rewrite H2, Hi. destruct (String.eqb_spec k "index") as [->|]; [by rewrite Hnone|done].
  - rewrite H3, Ht. destruct (String.eqb_spec k "term") as [->|]; [by rewrite Hnone|done].
Qed.

(** A state machine whose table is in order is recovered by reading it. *)
Lemma NewFSM_recovers f pos :
  meta_ok f pos -> f.(f_applied) !! "" = None -> 0 <= pos.1 < 2 ^ 64 -> 0 <= pos.2 < 2 ^ 64 ->
  (f.(f_db).(meta) = [] -> pos = (0, 0)) ->
  NewFSM f.(f_db) = mk_fsm f.(f_db) f.(f_applied) pos.1 pos.2 None.
Proof.
  intros [Hk Ho Hi Ht] He H1 H2 Hnil. unfold NewFSM.
  pose proof (load_rows _ Hk (mk_fsm f.(f_db) ∅ 0 0 None)) as (HA & HI & HT).
  assert (Hrest : forall l g, (List.fold_left load_row l g).(f_db) = g.(f_db) /\
      (List.fold_left load_row l g).(f_failure) = g.(f_failure) /\
      ((forall kv, In kv l -> kv.1 <> "op:") -> (List.fold_left load_row l g).(f_applied) !! "" = g.(f_applied) !! "")).
  { clear. induction l as [|[k v] l IH]; intros g; [done|]. cbn [List.fold_left].
    destruct (IH (load_row g (k, v))) as (E1 & E2 & E3). destruct (load_row_rest g k v) as (R1 & R2 & _ & _).
    rewrite E1, E2, R1, R2. split_and!; [done..|]. intros Hn. rewrite E3 by (intros kv Hin; apply Hn; by right).
    apply load_row_frame. exact (Hn (k, v) (or_introl eq_refl)). }
  destruct (Hrest (meta (f_db f)) (mk_fsm f.(f_db) ∅ 0 0 None)) as (Hdb & Hfl & Hemp).
  destruct (List.fold_left _ _ _) as [d a i t fa]. cbn [f_db f_applied f_index f_term f_failure] in *. subst d fa.
  f_equal.
  - apply map_eq. intros k. destruct (String.eqb_spec k "") as [->|Hne].
    + rewrite Hemp, lookup_empty; [by symmetry|]. intros [k v] Hin E. cbn in E. subst k.
      apply (meta_get_In _ _ _ Hk) in Hin. specialize (Ho ""). change ("op:" ++ "") with "op:" in Ho. congruence.
    + rewrite (HA k Hne), Ho. by destruct (f_applied f !! k).
  - rewrite HI, Hi. case_bool_decide as E; [by rewrite (Hnil E)|]. cbn [numeral]. by rewrite parse_uint_format.
  - rewrite HT, Ht. case_bool_decide as E; [by rewrite (Hnil E)|]. cbn [numeral]. by rewrite parse_uint_format.
Qed.

Lemma materialize_honest dg ds dt op : honest (materialize dg ds dt op).
Proof.
  unfold materialize, put_group, put_site, archive_site, delete_site, set_site_tags, lift. solve_honest.
Qed.

Lemma apply_body_honest dg ds dt op d l : honest (apply_body dg ds dt op d l).
Proof. unfold apply_body. apply honest_bind; [apply materialize_honest|]. solve_honest. Qed.

(** The tables after the transaction of [Apply], from those after [materialize]. *)
Definition recorded (op : operation) (d : string) (l : log) (s : db) : db :=
  put_meta "term" (format_int l.(l_term)) (put_meta "index" (format_int l.(l_index)) (put_meta ("op:" ++ op.(op_id)) d s)).

(** The transaction of [Apply] is [materialize] and the record of it, or nothing. *)
Lemma apply_transaction dg ds dt op d l s fl :
  let '(r, (s', _)) := transact (apply_body dg ds dt op d l) (s, fl) in
  match r with
  | Ok _ => exists s1, run (materialize dg ds dt op) s = (Ok tt, s1) /\ s1.(meta) = s.(meta) /\ s' = recorded op d l s1
  | Err _ => s' = s
  end.
Proof.
  pose proof (transact_all_or_nothing (apply_body dg ds dt op d l) s fl (apply_body_honest _ _ _ _ _ _)) as H.
  destruct (transact _ _) as [[a|e] [s' fl']]; [|done].
  unfold run, transact in H. cbn [List.tl] in H. unfold apply_body, bind at 1 in H.
  destruct (materialize dg ds dt op (s, [])) as [[[]|e] [s1 f1]] eqn:Em; [|by simplify_eq].
  pose proof (materialize_meta dg ds dt op s []) as Hm. rewrite Em in Hm. cbn in Hm.
  pose proof (materialize_honest _ _ _ _ _ _ _ _ _ Em) as Hh. rewrite Em in Hh. injection Hh as ->.
  exists s1. split; [unfold run; by rewrite Em|]. split; [done|].
  unfold bind in H. rewrite !exec_nil in H. by injection H as _ <-.
Qed.

Lemma transact_run_ok dg ds dt op d l s s1 :
  run (materialize dg ds dt op) s = (Ok tt, s1) ->
  transact (apply_body dg ds dt op d l) (s, []) = (Ok tt, (recorded op d l s1, [])).
Proof.
  intros H. apply (honest_run_nil _ _ _ _ (materialize_honest _ _ _ _)) in H.
  unfold transact, apply_body, bind at 1. cbn [List.tl]. rewrite H. unfold bind. rewrite !exec_nil. reflexivity.
Qed.

Lemma recorded_get op d l s k :
  meta_get k (recorded op d l s).(meta) =
  if k =?s "term" then Some (format_int l.(l_term))
  else if k =?s "index" then Some (format_int l.(l_index))
  else if k =?s ("op:" ++ op.(op_id)) then Some d else meta_get k s.(meta).
Proof. unfold recorded. by rewrite !meta_get_put. Qed.

Section Restart.
Context (dec : string -> result operation) (digest : operation -> result string)
  (dg : string -> result GroupPayload) (ds : string -> result SitePayload) (dt : string -> result TagsPayload).

(** The last position the table records. *)
Definition next_pos (l : log) (f : fsm) (fl : faults) (pos : Z * Z) : Z * Z :=
  match dec l.(l_data) with
  | Ok op => if is_ok (Apply dec digest dg ds dt l f fl).1 && bool_decide (OpKnown op.(op_id) f = None)
             then (l.(l_index), l.(l_term)) else pos
  | Err _ => pos
  end.

Lemma Apply_meta_ok l f fl pos :
  meta_ok f pos -> meta_ok (Apply dec digest dg ds dt l f fl).2 (next_pos l f fl pos).
Proof.
  intros Hm. unfold next_pos, OpKnown. unfold Apply.
  destruct (dec (l_data l)) as [op|e]; [|destruct Hm as [H1 H2 H3 H4]; by split].
  destruct (f_failure f); [exact Hm|]. destruct (digest op) as [d|]; [|exact Hm].
  destruct (f_applied f !! op_id op) as [old|] eqn:Eo.
  { rewrite bool_decide_eq_false_2, andb_false_r by done. destruct (negb _); [exact Hm|].
    destruct Hm as [H1 H2 H3 H4]. by split. }
  rewrite bool_decide_eq_true_2 by done.
  pose proof (apply_transaction dg ds dt op d l (f_db f) fl) as HT.
  destruct (transact _ _) as [[[]|e] [s fl']].
  2: { subst s. destruct Hm as [H1 H2 H3 H4]. destruct (e =?s ErrGroupConflict); by split. }
  destruct HT as (s1 & _ & Hs1 & ->). cbn [is_ok applied_result fst snd andb].
  destruct Hm as [H1 H2 H3 H4]. split; cbn [f_db f_applied].
  - unfold recorded. do 3 apply put_meta_keys. by rewrite Hs1.
  - intros i. rewrite recorded_get.
    assert (("op:" ++ i =?s "term") = false) as -> by (apply String.eqb_neq; rewrite append_cons; discriminate).
    assert (("op:" ++ i =?s "index") = false) as -> by (apply String.eqb_neq; rewrite append_cons; discriminate).
    destruct (String.eqb_spec ("op:" ++ i) ("op:" ++ op_id op)) as [E|E].
    + apply op_key_inj in E as ->. by rewrite lookup_insert_eq.
    + rewrite lookup_insert_ne by congruence. by rewrite Hs1.
  - rewrite recorded_get. cbn [String.eqb Ascii.eqb Bool.eqb]. rewrite bool_decide_eq_false_2; [done|apply put_meta_nonempty].
  - rewrite recorded_get. cbn [String.eqb Ascii.eqb Bool.eqb]. rewrite bool_decide_eq_false_2; [done|apply put_meta_nonempty].
Qed.

Definition position_ok (f : fsm) (pos : Z * Z) : Prop :=
  meta_ok f pos /\ f.(f_applied) !! "" = None /\ 0 <= pos.1 < 2 ^ 64 /\ 0 <= pos.2 < 2 ^ 64 /\
  (f.(f_db).(meta) = [] -> pos = (0, 0)).

Hypothesis Hid : forall data op, dec data = Ok op -> op.(op_id) <> "".

Lemma Apply_position_ok l f fl pos :
  0 <= l.(l_index) < 2 ^ 64 /\ 0 <= l.(l_term) < 2 ^ 64 -> position_ok f pos ->
  position_ok (Apply dec digest dg ds dt l f fl).2 (next_pos l f fl pos).
Proof using Hid.
  intros Hl (H1 & H2 & H3 & H4 & H5). split; [by apply Apply_meta_ok|].
  unfold next_pos, OpKnown, Apply. destruct (dec (l_data l)) as [op|e] eqn:Ed; [|done].
  destruct (f_failure f); [done|]. destruct (digest op) as [d|]; [|done].
  destruct (f_applied f !! op_id op) as [old|] eqn:Eo.
  { rewrite bool_decide_eq_false_2, andb_false_r by done. by destruct (negb _). }
  rewrite bool_decide_eq_true_2 by done.
  pose proof (apply_transaction dg ds dt op d l (f_db f) fl) as HT.
  destruct (transact _ _) as [[[]|e] [s fl']]; [|subst s; by destruct (e =?s ErrGroupConflict)].
  destruct HT as (s1 & _ & _ & ->). cbn [is_ok applied_result fst snd andb f_applied f_db].
  split_and!; try apply Hl.
  - rewrite lookup_insert_ne; [done|]. apply (Hid _ _ Ed).
  - intros Hn. by apply put_meta_nonempty in Hn.
Qed.

Fixpoint last_pos (ls : list (log * faults)) (f : fsm) (pos : Z * Z) : Z * Z :=
  match ls with
  | [] => pos
  | (l, fl) :: rest => last_pos rest (Apply dec digest dg ds dt l f fl).2 (next_pos l f fl pos)
  end.

Lemma apply_log_cons l fl rest f :
  (apply_log dec digest dg ds dt ((l, fl) :: rest) f).2
  = (apply_log dec digest dg ds dt rest (Apply dec digest dg ds dt l f fl).2).2.
Proof. cbn [apply_log]. destruct (Apply _ _ _ _ _ _ _ _) as [r f1]. cbn [snd]. by destruct (apply_log _ _ _ _ _ _ _). Qed.

Lemma apply_log_meta_ok ls : forall f pos, meta_ok f pos ->
  meta_ok (apply_log dec digest dg ds dt ls f).2 (last_pos ls f pos).
Proof.
  induction ls as [|[l fl] ls IH]; intros f pos H; [done|]. rewrite apply_log_cons. cbn [last_pos].
  apply IH. by apply Apply_meta_ok.
Qed.
End Restart.

(** A restart loses nothing: on a fresh table, after any log applied under
    any pattern of refused statements, reading the table back gives exactly the
    applied operations; and the position it gives is the one in memory, unless
    what came last was only the repetition of an operation. *)
Theorem restart_recovers dec digest dg ds dt d0 ls l fl :
  d0.(meta) = [] ->
  (forall data op, dec data = Ok op -> op.(op_id) <> "") ->
  (forall x, In x ((l, fl) :: ls) -> 0 <= x.1.(l_index) < 2 ^ 64 /\ 0 <= x.1.(l_term) < 2 ^ 64) ->
  let f := (apply_log dec digest dg ds dt ls (NewFSM d0)).2 in
  let '(r, f') := Apply dec digest dg ds dt l f fl in
  (NewFSM f'.(f_db)).(f_applied) = f'.(f_applied) /\
  (NewFSM f'.(f_db)).(f_failure) = None /\
  (is_ok r = true -> (forall op, dec l.(l_data) = Ok op -> OpKnown op.(op_id) f = None) ->
   AppliedIndex (NewFSM f'.(f_db)) = AppliedIndex f').
Proof.
  intros Hm Hid Hr f.
  assert (H0 : meta_ok (NewFSM d0) (0, 0) /\ (NewFSM d0).(f_applied) !! "" = None).
  { unfold NewFSM. rewrite Hm. cbn [List.fold_left]. split; [|done].
    split; cbn [f_db f_applied]; rewrite Hm; try done. apply NoDup_nil_2. }
  destruct H0 as [H0 He0].
  assert (Hrun : forall ls g pos, (forall x, In x ls -> 0 <= x.1.(l_index) < 2 ^ 64 /\ 0 <= x.1.(l_term) < 2 ^ 64) ->
    position_ok g pos -> position_ok (apply_log dec digest dg ds dt ls g).2 (last_pos dec digest dg ds dt ls g pos)).
  { clear -Hid. induction ls as [|[l fl] ls IH]; intros g pos Hx Hp; [done|].
    rewrite apply_log_cons. cbn [last_pos]. apply IH; [intros x Hin; apply Hx; by right|].
    apply Apply_position_ok; [done| |done]. exact (Hx (l, fl) (or_introl eq_refl)). }
  assert (Hp : position_ok f (last_pos dec digest dg ds dt ls (NewFSM d0) (0, 0))).
  { apply Hrun; [intros x Hin; apply Hr; by right|]. split_and!; cbn; try done; lia. }
  pose proof (Apply_position_ok dec digest dg ds dt Hid l f fl _ (Hr _ (or_introl eq_refl)) Hp) as Hp'.
  unfold next_pos in Hp'. destruct (Apply dec digest dg ds dt l f fl) as [r f'] eqn:EA. cbn [fst snd] in Hp'.
  destruct Hp' as (M1 & M2 & M3 & M4 & M5). rewrite (NewFSM_recovers _ _ M1 M2 M3 M4 M5). cbn [f_applied f_failure].
  split_and!; [done..|]. intros Hok Hnew. unfold AppliedIndex. cbn [f_index f_term].
  destruct (dec (l_data l)) as [op|e] eqn:Ed.
  2: { unfold Apply in EA. rewrite Ed in EA. by injection EA as <- _. }
  rewrite Hok, bool_decide_eq_true_2 by (by apply Hnew). cbn [andb fst snd].
  specialize (Hnew op eq_refl). unfold OpKnown in Hnew.
  unfold Apply in EA. rewrite Ed in EA. destruct (f_failure f); [by simplify_eq|].
  destruct (digest op); [|by simplify_eq]. rewrite Hnew in EA.
  destruct (transact _ _) as [[[]|e] [s fl']]; [by simplify_eq|]. destruct (e =?s _); by simplify_eq.
Qed.

(** ** A small codec, for the examples: fields between bars *)

Definition demo_dec (data : string) : result operation :=
  match split_on "|" data with
  | [k; i; o; p] => if i =?s "" then Err "no id" else Ok (mk_op i k o p)
  | _ => Err "malformed operation"
  end.
Definition demo_digest (op : operation) : result string :=
  Ok (op.(op_kind) ++ "|" ++ op.(op_object) ++ "|" ++ op.(op_payload)).
Definition demo_decode_group (s : string) : result GroupPayload :=
  match split2 ":" s with (c, Some n) => Ok (mk_gp c 1 n 0) | _ => Err "malformed group" end.
Definition demo_encode_group (p : GroupPayload) : string := p.(gp_cid) ++ ":" ++ p.(gp_name).
Definition demo_decode_site (s : string) : result SitePayload :=
  match split_on ":" s with
  | [c; n; g] => Ok (mk_sp c 1 n "https://x.example/" g true false 0 0)
  | _ => Err "malformed site"
  end.
Definition demo_encode_site (p : SitePayload) : string := p.(sp_cid) ++ ":" ++ p.(sp_name) ++ ":" ++ p.(sp_group).
Definition demo_decode_tags (s : string) : result TagsPayload :=
  match split2 ":" s with (c, Some t) => Ok (mk_tp c (split_on "," t)) | _ => Err "malformed tags" end.
Definition demo_encode_tags (p : TagsPayload) : string := p.(tp_cid) ++ ":" ++ join "," p.(tp_tags).

Definition demo_entry (n : Z) (data : string) : log := mk_log n 1 data.
Definition demo_run (ls : list string) (f : fsm) : list ApplyResult * fsm :=
  apply_log demo_dec demo_digest demo_decode_group demo_decode_site demo_decode_tags
    (List.map (fun d => (demo_entry 1 d, [])) ls) f.
Definition fresh_node : fsm := NewFSM (set_orgs [1] empty_db).

(** A snapshot that cannot be restored.  A group is renamed and its old name
    given to a new group whose id sorts before it; the leader applies both.  A
    follower that still has the first group under its old name cannot take the
    leader's snapshot: the groups are put in the order of their ids, and the
    new group meets the old name.  It keeps what it had and stays behind. *)
Theorem rename_breaks_restore :
  let old := ["webfleet.group.put|o1||wfg_b:europe"] in
  let new := ["webfleet.group.put|o2||wfg_b:eu"; "webfleet.group.put|o3||wfg_a:europe"] in
  let follower := (demo_run old fresh_node).2 in
  let leader := (demo_run new follower).2 in
  Forall (fun r => is_ok r = true) (demo_run new follower).1 /\
  Restore demo_decode_group demo_decode_site demo_decode_tags demo_encode_group demo_encode_site demo_encode_tags
    (Snapshot leader) follower [] = (Err "group conflict", follower).
Proof. vm_compute. split; [|reflexivity]. repeat constructor. Qed.

(** A group that is only local breaks the agreement of the nodes.  Two nodes
    apply the same log from tables with the same replicated rows; the one that
    happens to have a local group of the name refuses the group, then fails on
    the first site in it and never applies anything again, while the other
    applies both. *)
Theorem local_group_breaks_agreement :
  let log := ["webfleet.group.put|o1||wfg_1:eu"; "webfleet.site.put|o2||wfs_1:shop:wfg_1"] in
  let local := NewFSM (set_groups [mk_group 1 1 "eu" 0 None] (set_orgs [1] empty_db)) in
  Forall (fun r => is_ok r = true) (demo_run log fresh_node).1 /\
  (demo_run log local).1 = [Err "group conflict"; Err "constraint failed"] /\
  f_failure (demo_run log local).2 = Some "constraint failed" /\
  f_db (demo_run log local).2 = f_db local.
Proof. vm_compute. split_and!; try reflexivity. repeat constructor. Qed.

(** ** Witnesses *)

Lemma apply_exactly_once_witness :
  let f1 := (demo_run ["webfleet.group.put|o1||wfg_1:eu"] fresh_node).2 in
  let f2 := (demo_run ["webfleet.group.put|o2||wfg_2:us"] f1).2 in
  OpKnown "o1" f2 = Some "webfleet.group.put||wfg_1:eu".
Proof.
  refine (proj1 (apply_exactly_once demo_dec demo_digest demo_decode_group demo_decode_site demo_decode_tags
    (demo_entry 1 "webfleet.group.put|o1||wfg_1:eu") fresh_node [] _ _ _
    (demo_entry 2 "webfleet.group.put|o1||wfg_1:us") []
    (mk_op "o1" "webfleet.group.put" "" "wfg_1:eu") (mk_op "o1" "webfleet.group.put" "" "wfg_1:us")
    _ _ _ (surjective_pairing _) _ _ (star_step _ _ _ _ (star_refl _ _) (goes_on_applies _ _ _ _ _ _ (demo_entry 1 "webfleet.group.put|o2||wfg_2:us") [])))); vm_compute; reflexivity.
Defined.

Lemma duplicate_tags_wedge_replication_witness :
  let f := mk_fsm (set_sites [mk_site 1 1 "shop" "https://shop.example/" true None None 0 0 (Some "wfs_1")] demo_db) ∅ 0 0 None in
  let '(r, f') := Apply demo_dec demo_digest demo_decode_group demo_decode_site demo_decode_tags
    (demo_entry 1 "webfleet.site.tags.set|o1||wfs_1:eu,eu") f [] in
  r = Err "constraint failed" /\ f'.(f_failure) = Some "constraint failed".
Proof.
  pose proof (duplicate_tags_wedge_replication demo_dec demo_digest demo_decode_group demo_decode_site demo_decode_tags
    (demo_entry 1 "webfleet.site.tags.set|o1||wfs_1:eu,eu") (mk_op "o1" KindTagsSet "" "wfs_1:eu,eu")
    "webfleet.site.tags.set||wfs_1:eu,eu") as (_ & _ & H).
  specialize (H eq_refl eq_refl eq_refl eq_refl). cbv zeta. destruct (Apply _ _ _ _ _ _ _ _) as [r f'].
  destruct H as (? & ? & _). done.
Defined.

Lemma restart_recovers_witness :
  let l := demo_entry 2 "webfleet.site.put|o2||wfs_1:shop:wfg_1" in
  let f := (demo_run ["webfleet.group.put|o1||wfg_1:eu"] fresh_node).2 in
  let '(r, f') := Apply demo_dec demo_digest demo_decode_group demo_decode_site demo_decode_tags l f [] in
  (NewFSM f'.(f_db)).(f_applied) = f'.(f_applied).
Proof.
  pose proof (restart_recovers demo_dec demo_digest demo_decode_group demo_decode_site demo_decode_tags
    (set_orgs [1] empty_db) [(demo_entry 1 "webfleet.group.put|o1||wfg_1:eu", [])]
    (demo_entry 2 "webfleet.site.put|o2||wfs_1:shop:wfg_1") [] eq_refl) as H.
  cbv zeta. cbv zeta in H.
  change (demo_run ["webfleet.group.put|o1||wfg_1:eu"] fresh_node) with
    (apply_log demo_dec demo_digest demo_decode_group demo_decode_site demo_decode_tags
      [(demo_entry 1 "webfleet.group.put|o1||wfg_1:eu", [])] (NewFSM (set_orgs [1] empty_db))).
  destruct (Apply _ _ _ _ _ _ _ _) as [r f']. apply H.
  - intros data op. unfold demo_dec. repeat case_match; try done. intros [= <-]. cbn. by apply String.eqb_neq.
  - intros x [<-|[<-|[]]]; cbn; lia.
Defined.
