(* ===== verification/ReplicatedView.v ===== *)
(** What the replicated state machine promises: an abstract machine on the
    fleet configuration, indexed by cluster identities only, and the proof that
    [Apply] on the tables of a node implements it.

    Row ids, monitoring history, unclustered sites and the meta table are not
    part of the abstract state, so two nodes that represent the same
    configuration go on agreeing however their tables differ otherwise. *)
From S2P Require Import Prelude GoStr TimeText SqlM FleetDb Sites Replicated.
Open Scope string_scope.
Open Scope Z_scope.
Open Scope wf_scope.
Open Scope sql_scope.

(** ** The abstract machine *)

(** The configuration: the organizations, the groups, and the sites with their
    tags, by cluster id. *)
Record fleet := mk_fleet {
  fl_orgs : list Z;
  fl_groups : gmap string GroupPayload;
  fl_sites : gmap string (SitePayload * list string) }.

Definition with_groups g (a : fleet) := mk_fleet a.(fl_orgs) g a.(fl_sites).
Definition with_sites s (a : fleet) := mk_fleet a.(fl_orgs) a.(fl_groups) s.

Definition constraint {A} : result A := Err "constraint failed".

Definition name_conflict (p : GroupPayload) (a : fleet) : bool :=
  existsb (fun cg => negb (cg.1 =?s p.(gp_cid)) && (cg.2.(gp_org) =? p.(gp_org)) && (cg.2.(gp_name) =?s p.(gp_name)))
    (map_to_list a.(fl_groups)).

Definition spec_put_group (p : GroupPayload) (a : fleet) : result fleet :=
  if name_conflict p a then Err ErrGroupConflict
  else if negb (Zmem p.(gp_org) a.(fl_orgs)) then constraint
  else let created := match a.(fl_groups) !! p.(gp_cid) with Some g => g.(gp_created) | None => p.(gp_created) end in
       Ok (with_groups (<[p.(gp_cid) := mk_gp p.(gp_cid) p.(gp_org) p.(gp_name) created]> a.(fl_groups)) a).

Definition spec_put_site (p : SitePayload) (a : fleet) : result fleet :=
  if negb (p.(sp_group) =?s "") && bool_decide (a.(fl_groups) !! p.(sp_group) = None) then constraint
  else match a.(fl_sites) !! p.(sp_cid) with
       | None => if Zmem p.(sp_org) a.(fl_orgs)
                 then Ok (with_sites (<[p.(sp_cid) := (p, [])]> a.(fl_sites)) a) else constraint
       | Some (q, tags) =>
           Ok (with_sites (<[p.(sp_cid) := (mk_sp p.(sp_cid) q.(sp_org) p.(sp_name) p.(sp_url) p.(sp_group)
                 p.(sp_enabled) p.(sp_archived) q.(sp_created) p.(sp_updated), tags)]> a.(fl_sites)) a)
       end.

Definition spec_archive (p : SitePayload) (a : fleet) : fleet :=
  with_sites (alter (fun qt => (mk_sp qt.1.(sp_cid) qt.1.(sp_org) qt.1.(sp_name) qt.1.(sp_url) qt.1.(sp_group)
    qt.1.(sp_enabled) p.(sp_archived) qt.1.(sp_created) p.(sp_updated), qt.2)) p.(sp_cid) a.(fl_sites)) a.

Definition spec_set_tags (p : TagsPayload) (a : fleet) : result fleet :=
  match a.(fl_sites) !! p.(tp_cid) with
  | None => constraint
  | Some (q, _) => if bool_decide (NoDup p.(tp_tags))
                   then Ok (with_sites (<[p.(tp_cid) := (q, p.(tp_tags))]> a.(fl_sites)) a) else constraint
  end.

(** The abstract replicated machine: the configuration, the operations seen, the
    position, and the error that stopped it. *)
Record machine := mk_machine {
  ma_fleet : fleet; ma_applied : gmap string string; ma_index : Z; ma_term : Z; ma_failure : option string }.

Section Machine.
Variable DecodeOperation : string -> result operation.
Variable Digest : operation -> result string.
Variable decode_group : string -> result GroupPayload.
Variable decode_site : string -> result SitePayload.
Variable decode_tags : string -> result TagsPayload.

Definition decoded {A} (r : result A) (k : A -> result fleet) : result fleet :=
  match r with Ok p => k p | Err e => Err e end.

Definition spec_op (op : operation) (a : fleet) : result fleet :=
  if op.(op_kind) =?s KindGroupPut then decoded (decode_group op.(op_payload)) (fun p => spec_put_group p a)
  else if op.(op_kind) =?s KindSitePut then decoded (decode_site op.(op_payload)) (fun p => spec_put_site p a)
  else if op.(op_kind) =?s KindSiteArchive then decoded (decode_site op.(op_payload)) (fun p => Ok (spec_archive p a))
  else if op.(op_kind) =?s KindSiteDelete then Ok (with_sites (delete op.(op_object) a.(fl_sites)) a)
  else if op.(op_kind) =?s KindTagsSet then decoded (decode_tags op.(op_payload)) (fun p => spec_set_tags p a)
  else Err ("unsupported Webfleet replication operation " ++ op.(op_kind)).

Definition stop (e : string) (m : machine) : machine :=
  mk_machine m.(ma_fleet) m.(ma_applied) m.(ma_index) m.(ma_term)
    (match m.(ma_failure) with None => Some e | old => old end).

Definition spec_apply (l : log) (m : machine) : ApplyResult * machine :=
  match DecodeOperation l.(l_data), m.(ma_failure) with
  | Err e, _ => (Err e, stop e m)
  | Ok _, Some e => (Err e, m)
  | Ok op, None =>
      match Digest op with
      | Err e => (Err e, m)
      | Ok d =>
          match m.(ma_applied) !! op.(op_id) with
          | Some old => if old =?s d then (applied_result l op, mk_machine m.(ma_fleet) m.(ma_applied) l.(l_index) l.(l_term) None)
                        else (Err "operation id reused with different payload", m)
          | None =>
              match spec_op op m.(ma_fleet) with
              | Ok a => (applied_result l op, mk_machine a (<[op.(op_id) := d]> m.(ma_applied)) l.(l_index) l.(l_term) None)
              | Err e => (Err e, if e =?s ErrGroupConflict then m else stop e m)
              end
          end
      end
  end.

Fixpoint spec_log (ls : list log) (m : machine) : list ApplyResult * machine :=
  match ls with
  | [] => ([], m)
  | l :: rest => let '(r, m1) := spec_apply l m in let '(rs, m2) := spec_log rest m1 in (r :: rs, m2)
  end.
End Machine.

(** ** Representation *)

Definition config (d : db) (c : string) (s : site_row) : SitePayload :=
  mk_sp c s.(s_org) s.(s_name) s.(s_url) (group_cid d s) s.(s_enabled)
    (match s.(s_archived) with Some _ => true | None => false end) s.(s_created) s.(s_updated).
Definition tags_of (d : db) (id : Z) : list string :=
  List.map snd (List.filter (fun t => t.1 =? id) d.(tags)).

Record represents (d : db) (a : fleet) : Prop := {
  rp_orgs : a.(fl_orgs) = d.(orgs);
  rp_groups : forall c, a.(fl_groups) !! c =
    (fun g => mk_gp c g.(g_org) g.(g_name) g.(g_created)) <$> group_by_cluster c d;
  rp_sites : forall c, a.(fl_sites) !! c =
    (fun s => (config d c s, tags_of d s.(s_id))) <$> site_by_cluster c d }.

(** The tables of a clustered node: keys are unique, references resolve, and
    every group is replicated. *)
Record node_wf (d : db) : Prop := {
  nw_group_ids : NoDup (List.map g_id d.(groups));
  nw_group_clusters : NoDup (List.map g_cluster d.(groups));
  nw_group_names : forall g1 g2, In g1 d.(groups) -> In g2 d.(groups) ->
    g1.(g_org) = g2.(g_org) -> g1.(g_name) = g2.(g_name) -> g1 = g2;
  nw_no_local : forall g, In g d.(groups) -> g.(g_cluster) <> None;
  nw_site_ids : NoDup (List.map s_id d.(sites));
  nw_site_clusters : forall s1 s2 c, In s1 d.(sites) -> In s2 d.(sites) ->
    s1.(s_cluster) = Some c -> s2.(s_cluster) = Some c -> s1 = s2;
  nw_refs : forall s g, In s d.(sites) -> s.(s_group) = Some g -> In g (List.map g_id d.(groups));
  nw_rows : no_orphans d;
  nw_tags : forall t, In t d.(tags) -> In t.1 (List.map s_id d.(sites)) }.

(** A node implements the abstract machine in a state. *)
Record sim (f : fsm) (m : machine) : Prop := {
  sim_wf : node_wf f.(f_db);
  sim_fleet : represents f.(f_db) m.(ma_fleet);
  sim_applied : f.(f_applied) = m.(ma_applied);
  sim_index : f.(f_index) = m.(ma_index);
  sim_term : f.(f_term) = m.(ma_term);
  sim_failure : f.(f_failure) = m.(ma_failure) }.

(** ** Lemmas *)

Lemma opt_eqb_spec o s : opt_eqb o s = true <-> o = Some s.
Proof. destruct o; cbn; [rewrite String.eqb_eq|]; naive_solver. Qed.

Lemma group_by_cluster_Some d c g : node_wf d ->
  group_by_cluster c d = Some g <-> In g d.(groups) /\ g.(g_cluster) = Some c.
Proof.
  intros Hw. unfold group_by_cluster. split.
  - intros H. apply find_first_Some in H as [H1 H2]. by apply opt_eqb_spec in H2.
  - intros [H1 H2]. apply find_first_unique; [|done|by apply opt_eqb_spec].
    intros y Hy Hc. apply opt_eqb_spec in Hc. apply (NoDup_map_inj g_cluster d.(groups)); [apply Hw|done..|congruence].
Qed.

Lemma site_by_cluster_Some d c s : node_wf d ->
  site_by_cluster c d = Some s <-> In s d.(sites) /\ s.(s_cluster) = Some c.
Proof.
  intros Hw. unfold site_by_cluster. split.
  - intros H. apply find_first_Some in H as [H1 H2]. by apply opt_eqb_spec in H2.
  - intros [H1 H2]. apply find_first_unique; [|done|by apply opt_eqb_spec].
    intros y Hy Hc. apply opt_eqb_spec in Hc. by apply (nw_site_clusters d Hw y s c).
Qed.

Lemma group_by_id_Some d g : node_wf d -> In g d.(groups) -> group_by_id g.(g_id) d = Some g.
Proof.
  intros Hw Hg. unfold group_by_id. apply find_first_unique; [|done|apply Z.eqb_refl].
  intros y Hy Hc. apply Z.eqb_eq in Hc. apply (NoDup_map_inj g_id d.(groups)); [apply Hw|done..].
Qed.

(** The two views of a name conflict. *)
Lemma name_conflict_spec p d a : node_wf d -> represents d a ->
  group_taken p.(gp_org) p.(gp_name) p.(gp_cid) d = name_conflict p a.
Proof.
  intros Hw Hr. apply eq_true_iff_eq. unfold group_taken, name_conflict. rewrite existsb_exists. split.
  - destruct (group_by_name _ _ d) as [g|] eqn:E; [|done]. intros Hc.
    apply find_first_Some in E as [Hg Hp]. apply andb_true_iff in Hp as [Ho Hn].
    destruct (g_cluster g) as [c|] eqn:Ec; [|by apply (nw_no_local d Hw g Hg) in Ec].
    exists (c, mk_gp c g.(g_org) g.(g_name) g.(g_created)). cbn [fst snd gp_org gp_name]. rewrite Hc, Ho, Hn. split; [|done].
    apply list_elem_of_In, elem_of_map_to_list. rewrite (rp_groups _ _ Hr).
    rewrite (proj2 (group_by_cluster_Some d c g Hw) (conj Hg Ec)). done.
  - intros ([c g'] & Hin & Hp). cbn [fst snd] in Hp. apply andb_true_iff in Hp as [Hp Hn]. apply andb_true_iff in Hp as [Hc Ho].
    apply list_elem_of_In, elem_of_map_to_list in Hin. rewrite (rp_groups _ _ Hr) in Hin.
    destruct (group_by_cluster c d) as [g|] eqn:E; [|done]. injection Hin as <-. cbn in Ho, Hn.
    apply (group_by_cluster_Some d c g Hw) in E as [Hg Ec]. apply Z.eqb_eq in Ho. apply String.eqb_eq in Hn.
    assert (group_by_name p.(gp_org) p.(gp_name) d = Some g) as ->.
    { unfold group_by_name. apply find_first_unique; [|done|by rewrite Ho, Hn, Z.eqb_refl, String.eqb_refl].
      intros y Hy Hyp. apply andb_true_iff in Hyp as [Hy1 Hy2]. apply Z.eqb_eq in Hy1. apply String.eqb_eq in Hy2.
      apply (nw_group_names d Hw); try done; congruence. }
    by rewrite Ec.
Qed.

(** [m] implements an answer of the abstract machine. *)
Definition implements (m : M db unit) (d : db) (s : result fleet) : Prop :=
  match s with
  | Ok a => exists d', run m d = (Ok tt, d') /\ node_wf d' /\ represents d' a
  | Err e => (run m d).1 = Err e
  end.

Lemma node_wf_frame d d' : node_wf d ->
  d'.(groups) = d.(groups) -> d'.(sites) = d.(sites) -> d'.(tags) = d.(tags) -> no_orphans d' -> node_wf d'.
Proof. intros [] Hg Hs Ht Ho. by split; rewrite ?Hg, ?Hs, ?Ht. Qed.

Lemma represents_frame d d' a : represents d a ->
  d'.(orgs) = d.(orgs) -> d'.(groups) = d.(groups) -> d'.(sites) = d.(sites) -> d'.(tags) = d.(tags) -> represents d' a.
Proof.
  intros [H1 H2 H3] Ho Hg Hs Ht. split.
  - congruence.
  - intros c. rewrite H2. unfold group_by_cluster. by rewrite Hg.
  - intros c. rewrite H3. unfold site_by_cluster. rewrite Hs.
    unfold config, tags_of, group_cid, group_by_id. by rewrite Hg, Ht.
Qed.

(** *** Updating sites in place *)

Definition keeps_key (f : site_row -> site_row) : Prop :=
  forall s, (f s).(s_id) = s.(s_id) /\ (f s).(s_cluster) = s.(s_cluster).

Lemma upd_keeps {A B} (k : A -> B) q f l : (forall x, k (f x) = k x) -> List.map k (upd q f l) = List.map k l.
Proof. intros H. unfold upd. rewrite map_map. apply map_ext. intros x. by destruct (q x). Qed.

Lemma site_by_cluster_upd q f c d : keeps_key f ->
  site_by_cluster c (set_sites (upd q f d.(sites)) d) = (fun s => if q s then f s else s) <$> site_by_cluster c d.
Proof. intros Hf. unfold site_by_cluster. cbn [sites set_sites]. apply find_first_upd. intros x _. by rewrite (proj2 (Hf x)). Qed.

Lemma no_orphans_sites l d : no_orphans d -> (forall x, In x (List.map s_id d.(sites)) -> In x (List.map s_id l)) ->
  no_orphans (set_sites l d).
Proof. intros [H1 H2 H3] Hl. split; cbn; auto. Qed.

Lemma node_wf_upd_sites q f d : node_wf d -> keeps_key f ->
  (forall s g, In s d.(sites) -> (f s).(s_group) = Some g -> In g (List.map g_id d.(groups))) ->
  node_wf (set_sites (upd q f d.(sites)) d).
Proof.
  intros Hw Hf Hg.
  assert (Hids : List.map s_id (upd q f d.(sites)) = List.map s_id d.(sites)) by (apply upd_keeps; apply Hf).
  split; cbn [groups sites tags set_sites]; rewrite ?Hids; try apply Hw.
  - intros s1 s2 c H1 H2. apply in_upd in H1 as (x1 & Hx1 & ->), H2 as (x2 & Hx2 & ->). intros E1 E2.
    assert (x1 = x2) as ->; [|done]. apply (nw_site_clusters d Hw x1 x2 c); try done.
    + destruct (q x1); [by rewrite <- (proj2 (Hf x1))|done].
    + destruct (q x2); [by rewrite <- (proj2 (Hf x2))|done].
  - intros s g H1. apply in_upd in H1 as (x & Hx & ->). destruct (q x); [by apply Hg|by apply Hw].
  - apply no_orphans_sites; [apply Hw|]. by rewrite Hids.
Qed.

(** Where the row of cluster id [c] is rewritten, the configuration changes
    there only. *)
Lemma represents_upd_site d a q f c new : node_wf d -> represents d a -> keeps_key f ->
  (forall s, In s d.(sites) -> q s = true <-> s.(s_cluster) = Some c) ->
  (forall s, site_by_cluster c d = Some s -> config d c (f s) = new (config d c s)) ->
  represents (set_sites (upd q f d.(sites)) d)
    (with_sites (alter (fun pt => (new pt.1, pt.2)) c a.(fl_sites)) a).
Proof.
  intros Hw Hr Hf Hq Hn. split; cbn [fl_orgs fl_groups fl_sites with_sites orgs set_sites]; [apply Hr|apply Hr|].
  intros c'. rewrite (site_by_cluster_upd q f c' d Hf). destruct (decide (c' = c)) as [->|Hc].
  - rewrite lookup_alter, (rp_sites _ _ Hr). destruct (decide (c = c)); [|done]. destruct (site_by_cluster c d) as [s|] eqn:E; [|done]. cbn [fmap option_fmap option_map].
    specialize (Hn s eq_refl). apply (site_by_cluster_Some d c s Hw) in E as [Hs Hc].
    rewrite (proj2 (Hq s Hs) Hc). cbn [fst snd]. rewrite <- Hn. f_equal. f_equal.
    unfold tags_of. cbn [tags set_sites]. by rewrite (proj1 (Hf s)).
  - rewrite lookup_alter_ne by done. rewrite (rp_sites _ _ Hr). destruct (site_by_cluster c' d) as [s|] eqn:E; [|done].
    cbn [fmap option_fmap option_map]. apply (site_by_cluster_Some d c' s Hw) in E as [Hs Hc'].
    destruct (q s) eqn:Eq; [|done]. apply (Hq s Hs) in Eq. congruence.
Qed.

Lemma run_exec {S} (f : S -> S) s : run (exec f) s = (Ok tt, f s).
Proof. reflexivity. Qed.

Lemma archived_at_some p : (match archived_at p with Some _ => true | None => false end) = p.(sp_archived).
Proof. unfold archived_at. by destruct (sp_archived p). Qed.

Lemma archive_implements p d a : node_wf d -> represents d a ->
  implements (archive_site p) d (Ok (spec_archive p a)).
Proof.
  intros Hw Hr. eexists. split; [apply run_exec|]. split.
  - apply node_wf_upd_sites; [done|done|]. intros s g Hs Hg. by apply (nw_refs d Hw s).
  - unfold spec_archive. eapply (represents_upd_site d a _ _ p.(sp_cid)
      (fun q => mk_sp q.(sp_cid) q.(sp_org) q.(sp_name) q.(sp_url) q.(sp_group) q.(sp_enabled) p.(sp_archived)
                  q.(sp_created) p.(sp_updated))); [done|done|done| |].
    + intros s _. apply opt_eqb_spec.
    + intros s _. unfold config. cbn. by rewrite archived_at_some.
Qed.

Lemma Zmem_gone (f : site_row -> bool) l id :
  Zmem id (List.map s_id (List.filter f l)) = true <-> exists s, In s l /\ f s = true /\ s.(s_id) = id.
Proof.
  rewrite Zmem_In, in_map_iff. split.
  - intros (s & <- & Hs). apply filter_In in Hs as [Hs Hf]. by exists s.
  - intros (s & Hs & Hf & <-). exists s. split; [done|]. by apply filter_In.
Qed.

Lemma delete_implements c d a : node_wf d -> represents d a ->
  implements (delete_site c) d (Ok (with_sites (delete c a.(fl_sites)) a)).
Proof.
  intros Hw Hr. eexists. split; [apply run_exec|].
  set (q := fun s => opt_eqb s.(s_cluster) c). set (d' := delete_sites q d).
  assert (Hsites : d'.(sites) = del q d.(sites)) by done.
  assert (Hkeep : forall id, Zmem id (List.map s_id (List.filter q d.(sites))) = false ->
    In id (List.map s_id d.(sites)) -> In id (List.map s_id d'.(sites))).
  { intros id Hz Hin. apply in_map_iff in Hin as (s & <- & Hs). rewrite Hsites. apply in_map_iff. exists s.
    split; [done|]. apply in_del. split; [done|]. destruct (q s) eqn:E; [|done].
    enough (Zmem s.(s_id) (List.map s_id (List.filter q d.(sites))) = true) by congruence. apply Zmem_gone. eauto. }
  split.
  - split; try apply Hw; rewrite ?Hsites.
    + apply NoDup_map_del, Hw.
    + intros s1 s2 c' H1 H2. apply in_del in H1 as [H1 _], H2 as [H2 _]. by apply Hw.
    + intros s g H1. apply in_del in H1 as [H1 _]. by apply Hw.
    + split; intros x Hx; apply in_del in Hx as [Hx Hz]; apply Hkeep; try done; by apply Hw.
    + intros t Ht. apply in_del in Ht as [Ht Hz]. apply Hkeep; [done|]. by apply Hw.
  - split; [apply Hr|apply Hr|]. intros c'. cbn [fl_sites with_sites]. unfold site_by_cluster. rewrite Hsites.
    destruct (decide (c' = c)) as [->|Hc].
    + rewrite lookup_delete_eq, find_first_del_gone by done. done.
    + rewrite lookup_delete_ne by done. rewrite (rp_sites _ _ Hr), find_first_del_keep.
      * unfold site_by_cluster. destruct (find_first _ d.(sites)) as [s|] eqn:E; [|done]. cbn [fmap option_fmap option_map].
        apply (site_by_cluster_Some d c' s Hw) in E as [Hs Hc']. f_equal. f_equal. unfold tags_of. f_equal.
        change (tags d') with (del (fun t : Z * string => Zmem t.1 (List.map s_id (List.filter q d.(sites)))) d.(tags)).
        unfold del. induction d.(tags) as [|t l IH]; [done|]. cbn [List.filter].
        destruct (Z.eqb_spec t.1 s.(s_id)) as [Ht|Ht].
        -- assert (Zmem t.1 (List.map s_id (List.filter q d.(sites))) = false) as ->.
           { apply not_true_iff_false. intros H. apply Zmem_gone in H as (s' & Hs' & Hq & Hid). unfold q in Hq. apply opt_eqb_spec in Hq.
             assert (s' = s) as -> by (apply (NoDup_map_inj s_id d.(sites)); [apply Hw|done|done|congruence]). congruence. }
           cbn. by rewrite (proj2 (Z.eqb_eq _ _) Ht), IH.
        -- destruct (negb _); [|exact IH]. cbn. by rewrite (proj2 (Z.eqb_neq _ _) Ht).
      * intros s _ H1. apply opt_eqb_spec in H1. unfold q. rewrite H1. cbn. by apply String.eqb_neq.
Qed.

(** Inserting the tags of a site that has those of [pre]. *)
Lemma insert_tags_run id l : forall d T pre, site_exists id d = true -> (forall t, In t T -> t.1 <> id) ->
  d.(tags) = (T ++ List.map (pair id) pre)%list -> NoDup pre ->
  if bool_decide (NoDup (pre ++ l))
  then for_each l (fun tag => stmt (insert_tag id tag)) (d, []) =
         (Ok tt, (set_tags (T ++ List.map (pair id) (pre ++ l)) d, []))
  else (for_each l (fun tag => stmt (insert_tag id tag)) (d, [])).1 = Err "constraint failed".
Proof.
  induction l as [|x l IH]; intros d T pre He HT Ht Hp.
  - rewrite app_nil_r. rewrite bool_decide_eq_true_2 by done. cbn. by destruct d; cbn in *; subst.
  - cbn [for_each]. unfold bind at 1 2. rewrite stmt_nil. unfold insert_tag. rewrite He. cbn [andb].
    assert (existsb (fun t => (t.1 =? id) && (t.2 =?s x)) d.(tags) = Smem x pre) as ->.
    { rewrite Ht, existsb_app. assert (existsb (fun t => (t.1 =? id) && (t.2 =?s x)) T = false) as ->.
      { apply existsb_none_iff. intros t Hin. apply andb_false_iff. left. by apply Z.eqb_neq, HT. }
      cbn [orb]. clear. unfold Smem. induction pre as [|y pre IH]; [done|]. cbn. by rewrite Z.eqb_refl, String.eqb_sym, IH. }
    destruct (Smem x pre) eqn:Ex; cbn [negb].
    + rewrite bool_decide_eq_false_2; [done|]. intros H. apply NoDup_app in H as (_ & H & _).
      apply Smem_In, list_elem_of_In in Ex. by apply (H x Ex), list_elem_of_here.
    + specialize (IH (set_tags (d.(tags) ++ [(id, x)]) d) T (pre ++ [x])%list). cbn [tags set_tags] in IH.
      rewrite <- app_assoc in IH. cbn [List.app] in IH.
      assert (Hpre : NoDup (pre ++ [x])).
      { apply NoDup_app. split_and!; [done| |apply NoDup_singleton].
        intros y Hy H%list_elem_of_singleton. subst y. apply list_elem_of_In, Smem_In in Hy. congruence. }
      specialize (IH He HT). rewrite Ht, List.map_app, <- app_assoc in IH. specialize (IH eq_refl Hpre).
      rewrite Ht, <- app_assoc. destruct (bool_decide (NoDup (pre ++ x :: l))); exact IH.
Qed.

Lemma set_tags_implements p d a : node_wf d -> represents d a ->
  implements (set_site_tags p) d (spec_set_tags p a).
Proof.
  intros Hw Hr. unfold spec_set_tags. rewrite (rp_sites _ _ Hr).
  destruct (site_by_cluster p.(tp_cid) d) as [s|] eqn:E; cbn [fmap option_fmap option_map];
    [|cbn; unfold run, set_site_tags, bind; by rewrite stmt_nil, E].
  set (rest := del (fun t : Z * string => t.1 =? s.(s_id)) d.(tags)).
  apply (site_by_cluster_Some d _ s Hw) in E as Hs. destruct Hs as [Hs Hc].
  assert (Hrest : forall t, In t rest -> t.1 <> s.(s_id)) by (intros t Ht; apply in_del in Ht as [_ Ht]; by apply Z.eqb_neq).
  pose proof (insert_tags_run s.(s_id) p.(tp_tags) (delete_tags s.(s_id) d) rest [] (site_exists_In d s Hs) Hrest) as H.
  rewrite app_nil_r in H. specialize (H eq_refl (NoDup_nil_2)). cbn [List.app] in H.
  assert (Hrun : forall r, for_each p.(tp_tags) (fun tag => stmt (insert_tag s.(s_id) tag)) (delete_tags s.(s_id) d, []) = r ->
    set_site_tags p (d, []) = r).
  { intros r <-. unfold set_site_tags, bind. rewrite stmt_nil, E. reflexivity. }
  destruct (bool_decide (NoDup p.(tp_tags))); cbn [implements].
  2: { unfold constraint, implements, run. rewrite (Hrun _ eq_refl). by destruct (for_each _ _ _) as [? []]. }
  eexists. split; [unfold run; by rewrite (Hrun _ H)|].
  assert (Htags : forall id, tags_of (set_tags (rest ++ List.map (pair s.(s_id)) p.(tp_tags)) (delete_tags s.(s_id) d)) id =
    if id =? s.(s_id) then p.(tp_tags) else tags_of d id).
  { intros id. unfold tags_of. cbn [tags set_tags]. rewrite List.filter_app, List.map_app. destruct (Z.eqb_spec id s.(s_id)) as [->|Hid].
    - rewrite filter_none by (intros t Ht; by apply Z.eqb_neq, Hrest). cbn [List.map List.app].
      clear. induction p.(tp_tags) as [|t l IH]; [done|]. cbn. rewrite Z.eqb_refl. cbn. by rewrite IH.
    - rewrite (filter_none _ (List.map _ _)).
      2: { intros t Ht. apply in_map_iff in Ht as (x & <- & _). cbn. by apply Z.eqb_neq. }
      rewrite app_nil_r. f_equal. unfold rest, del. clear -Hid. induction d.(tags) as [|t l IH]; [done|]. cbn.
      destruct (Z.eqb_spec t.1 s.(s_id)) as [Ht|Ht]; cbn; [|by rewrite IH].
      rewrite IH. assert ((t.1 =? id) = false) as -> by (apply Z.eqb_neq; congruence). done. }
  split.
  - split; try apply Hw; [by destruct (nw_rows d Hw)|]. intros t Ht. apply in_app_or in Ht as [Ht|Ht].
    + apply in_del in Ht as [Ht _]. by apply (nw_tags d Hw).
    + apply in_map_iff in Ht as (x & <- & _). cbn. by apply in_map.
  - split; [apply Hr|apply Hr|]. intros c. cbn [fl_sites with_sites].
    change (site_by_cluster c _) with (site_by_cluster c d). destruct (decide (c = p.(tp_cid))) as [->|Hne].
    + rewrite lookup_insert_eq, E. cbn [fmap option_fmap option_map]. by rewrite Htags, Z.eqb_refl.
    + rewrite lookup_insert_ne by done. rewrite (rp_sites _ _ Hr). destruct (site_by_cluster c d) as [s'|] eqn:E'; [|done].
      cbn [fmap option_fmap option_map]. rewrite Htags. destruct (Z.eqb_spec s'.(s_id) s.(s_id)) as [Heq|]; [|done].
      apply (site_by_cluster_Some d _ s' Hw) in E' as [Hs' Hc'].
      assert (s' = s) as -> by (apply (NoDup_map_inj s_id d.(sites)); [apply Hw|done..]). congruence.
Qed.

Lemma bind_tail {S A B} (m1 : M S A) (m2 : M S B) (m3 : M S unit) w :
  (m1 ;;; m2 ;;; m3) w = (m1 ;;; m2 ;;; m3 ;;; ret tt) w.
Proof.
  unfold bind. destruct (m1 w) as [[?|?] w1]; [|done]. destruct (m2 w1) as [[?|?] w2]; [|done].
  by destruct (m3 w2) as [[[]|?] ?].
Qed.

(** The group a payload names, as a row id. *)
Definition group_ref (c : string) (d : db) : option (option Z) :=
  if c =?s "" then Some None else (fun g => Some g.(g_id)) <$> group_by_cluster c d.

Lemma group_ref_spec c d gid : node_wf d -> group_ref c d = Some gid ->
  match gid with
  | None => c = ""
  | Some id => exists g, In g d.(groups) /\ g.(g_id) = id /\ group_by_id id d = Some g /\ g.(g_cluster) = Some c
  end.
Proof.
  intros Hw. unfold group_ref. destruct (String.eqb_spec c "") as [->|Hc]; [by intros [= <-]|].
  destruct (group_by_cluster c d) as [g|] eqn:E; [|done]. intros [= <-].
  apply (group_by_cluster_Some d c g Hw) in E as [Hg Hgc]. exists g. split_and!; try done. by apply group_by_id_Some.
Qed.

Lemma group_ref_None c d a : node_wf d -> represents d a ->
  negb (c =?s "") && bool_decide (a.(fl_groups) !! c = None) = bool_decide (group_ref c d = None).
Proof.
  intros Hw Hr. unfold group_ref. rewrite (rp_groups _ _ Hr). destruct (c =?s ""); [done|].
  by destruct (group_by_cluster c d).
Qed.

Lemma put_site_start p d : put_site p (d, []) =
  match group_ref p.(sp_group) d with
  | None => (Err "constraint failed", (d, []))
  | Some gid =>
      match site_by_cluster p.(sp_cid) d with
      | None => (let* id := stmt (insert_site p.(sp_org) p.(sp_name) p.(sp_url) p.(sp_enabled) gid (archived_at p)
                             p.(sp_created) p.(sp_updated) (Some p.(sp_cid))) in
                 stmt (insert_monitor id "http" 10000 200 399 p.(sp_created)) ;;;
                 stmt (insert_health (mk_health id "unknown" 0 None p.(sp_created) None None)) ;;;
                 for_each default_headers (fun h => stmt (insert_hexp (mk_hexp id h true)))) (d, [])
      | Some s => (Ok tt, (update_by_id s.(s_id) (put_site_row p gid) d, []))
      end
  end.
Proof.
  unfold put_site, group_ref. unfold bind at 1. destruct (p.(sp_group) =?s ""); cbn [ret].
  - unfold bind at 1. rewrite query_nil. by destruct (site_by_cluster _ d).
  - rewrite stmt_nil. destruct (group_by_cluster _ d) as [g|]; cbn [mbind option_bind fmap option_fmap option_map]; [|done].
    unfold bind at 1. rewrite query_nil. by destruct (site_by_cluster _ d).
Qed.

Lemma alter_insert_Some {A} (f : A -> A) (m : gmap string A) i x : m !! i = Some x -> alter f i m = <[i:=f x]> m.
Proof.
  intros H. apply map_eq. intros j. destruct (decide (i = j)) as [->|Hj].
  - by rewrite lookup_alter_eq, lookup_insert_eq, H.
  - by rewrite lookup_alter_ne, lookup_insert_ne.
Qed.

Lemma put_site_update p d a gid s : node_wf d -> represents d a ->
  group_ref p.(sp_group) d = Some gid -> site_by_cluster p.(sp_cid) d = Some s ->
  node_wf (update_by_id s.(s_id) (put_site_row p gid) d) /\
  represents (update_by_id s.(s_id) (put_site_row p gid) d)
    (with_sites (<[p.(sp_cid) := (mk_sp p.(sp_cid) s.(s_org) p.(sp_name) p.(sp_url) p.(sp_group) p.(sp_enabled)
       p.(sp_archived) s.(s_created) p.(sp_updated), tags_of d s.(s_id))]> a.(fl_sites)) a).
Proof.
  intros Hw Hr Hg E. pose proof (group_ref_spec _ _ _ Hw Hg) as Hgid.
  apply (site_by_cluster_Some d _ s Hw) in E as Hs. destruct Hs as [Hs Hc]. split.
  - apply node_wf_upd_sites; [done|done|]. cbn. intros s' g _ ->. destruct Hgid as (r & Hr' & <- & _). by apply in_map.
  - pose proof (represents_upd_site d a (fun s' => s'.(s_id) =? s.(s_id)) (put_site_row p gid) p.(sp_cid)
      (fun q => mk_sp p.(sp_cid) q.(sp_org) p.(sp_name) p.(sp_url) p.(sp_group) p.(sp_enabled) p.(sp_archived)
                  q.(sp_created) p.(sp_updated)) Hw Hr) as H.
    rewrite (alter_insert_Some _ _ _ (config d p.(sp_cid) s, tags_of d s.(s_id))) in H by (rewrite (rp_sites _ _ Hr), E; done).
    apply H; [done| |].
    + intros s' Hs'. rewrite Z.eqb_eq. split; [intros Hid|intros Hcl].
      * assert (s' = s) as -> by (apply (NoDup_map_inj s_id d.(sites)); [apply Hw|done..]). done.
      * by rewrite (nw_site_clusters d Hw s' s p.(sp_cid)).
    + intros s' _. unfold config. cbn. rewrite archived_at_some. f_equal. unfold group_cid. cbn [s_group put_site_row].
      destruct gid as [id|]; [|by cbn]. destruct Hgid as (g & _ & _ & Hid & Hcl). cbn. by rewrite Hid; cbn; rewrite Hcl.
Qed.

Lemma new_site_wf s now d : node_wf d -> s.(s_id) = fresh_id (List.map s_id d.(sites)) ->
  (forall x c, In x d.(sites) -> s.(s_cluster) = Some c -> x.(s_cluster) <> Some c) ->
  (forall g, s.(s_group) = Some g -> In g (List.map g_id d.(groups))) ->
  node_wf (new_rows s.(s_id) now (set_sites (d.(sites) ++ [s]) d)).
Proof.
  intros Hw Hid Hc Hg.
  assert (Hin : forall id, In id (List.map s_id d.(sites)) \/ id = s.(s_id) -> In id (List.map s_id (d.(sites) ++ [s]))).
  { intros id [H| ->]; rewrite List.map_app; apply in_or_app; [by left|right; by left]. }
  split; try apply Hw; cbn [sites groups tags new_rows set_sites set_monitors set_healths set_hexp].
  - apply NoDup_map_snoc; [apply Hw|]. rewrite Hid. apply fresh_id_notin.
  - intros s1 s2 c [H1| ->]%In_snoc [H2| ->]%In_snoc E1 E2; [by apply (nw_site_clusters d Hw s1 s2 c)| | |done].
    + by destruct (Hc s1 c H1 E2).
    + by destruct (Hc s2 c H2 E1).
  - intros s1 g [H1| ->]%In_snoc; [by apply Hw|by apply Hg].
  - destruct (nw_rows d Hw) as [H1 H2 H3].
    split; cbn; intros x Hx; apply Hin; apply in_app_or in Hx as [Hx|Hx]; auto; right; cbn in Hx; intuition (subst; done).
  - intros t Ht. apply Hin. left. by apply Hw.
Qed.

Lemma tags_of_fresh d : node_wf d -> tags_of d (fresh_id (List.map s_id d.(sites))) = [].
Proof.
  intros Hw. unfold tags_of. rewrite filter_none; [done|]. intros t Ht. apply Z.eqb_neq. intros E.
  apply (nw_tags d Hw) in Ht. rewrite E in Ht. by apply fresh_id_notin in Ht.
Qed.

Lemma new_site_represents s c now d a : node_wf d -> represents d a ->
  s.(s_id) = fresh_id (List.map s_id d.(sites)) -> s.(s_cluster) = Some c -> site_by_cluster c d = None ->
  represents (new_rows s.(s_id) now (set_sites (d.(sites) ++ [s]) d))
    (with_sites (<[c := (config d c s, [])]> a.(fl_sites)) a).
Proof.
  intros Hw Hr Hid Hc E. split; [apply Hr|apply Hr|]. intros c'. cbn [fl_sites with_sites].
  assert (site_by_cluster c' (new_rows s.(s_id) now (set_sites (d.(sites) ++ [s]) d)) =
    match site_by_cluster c' d with Some x => Some x | None => if opt_eqb s.(s_cluster) c' then Some s else None end) as ->.
  { unfold site_by_cluster. cbn [sites new_rows set_sites set_monitors set_healths set_hexp]. rewrite find_first_app.
    destruct (find_first _ d.(sites)); [done|]. unfold find_first. cbn. by destruct (opt_eqb _ _). }
  rewrite Hc. cbn [opt_eqb]. destruct (decide (c' = c)) as [->|Hne].
  - rewrite lookup_insert_eq, E, String.eqb_refl. cbn [fmap option_fmap option_map]. f_equal. f_equal.
    rewrite Hid. symmetry. exact (tags_of_fresh d Hw).
  - rewrite lookup_insert_ne, (rp_sites _ _ Hr) by done. destruct (site_by_cluster c' d); [done|].
    assert ((c =?s c') = false) as -> by (apply String.eqb_neq; congruence). done.
Qed.

Lemma put_site_implements p d a : node_wf d -> represents d a ->
  implements (put_site p) d (spec_put_site p a).
Proof.
  intros Hw Hr. unfold spec_put_site. rewrite (group_ref_None _ d a Hw Hr), (rp_sites _ _ Hr).
  pose proof (put_site_start p d) as Hs.
  destruct (group_ref p.(sp_group) d) as [gid|] eqn:Eg; cbn [bool_decide decide_rel] in *.
  2: { rewrite bool_decide_eq_true_2 by done. unfold constraint, implements, run. by rewrite Hs. }
  rewrite bool_decide_eq_false_2 by done.
  destruct (site_by_cluster p.(sp_cid) d) as [s|] eqn:E; cbn [fmap option_fmap option_map].
  { eexists. split; [unfold run; by rewrite Hs|]. by apply put_site_update. }
  pose proof (group_ref_spec _ _ _ Hw Eg) as Hgid.
  assert (group_ref_ok gid d = true) as Hok by (destruct gid; [destruct Hgid as (g & _ & _ & H & _); cbn; by rewrite H|done]).
  unfold bind at 1 in Hs. rewrite stmt_nil in Hs. unfold insert_site in Hs. rewrite Hok, E, !andb_true_r in Hs.
  rewrite (rp_orgs _ _ Hr).
  change (Zmem p.(sp_org) d.(orgs)) with (org_exists p.(sp_org) d). destruct (org_exists p.(sp_org) d).
  2: { unfold constraint, implements, run. by rewrite Hs. }
  set (s := mk_site _ _ _ _ _ _ _ _ _ _) in Hs. change (fresh_id _) with s.(s_id) in Hs.
  rewrite bind_tail in Hs. rewrite (new_rows_run _ s _ d (nw_rows d Hw) eq_refl) in Hs.
  assert (Hcfg : config d p.(sp_cid) s = p).
  { unfold config, group_cid. cbn. rewrite archived_at_some. destruct gid as [id|].
    - destruct Hgid as (g & _ & _ & Hid & Hcl). cbn. rewrite Hid. cbn. rewrite Hcl. by destruct p.
    - cbn. rewrite <- Hgid. by destruct p. }
  eexists. split; [unfold run; rewrite Hs; reflexivity|]. split.
  - apply new_site_wf; [done|done| |].
    + intros x c Hx Hc Hx'. cbn in Hc. injection Hc as <-.
      by rewrite (proj2 (site_by_cluster_Some d _ x Hw) (conj Hx Hx')) in E.
    + intros g. cbn. intros ->. destruct Hgid as (r & Hr' & <- & _). by apply in_map.
  - pose proof (new_site_represents s p.(sp_cid) p.(sp_created) d a Hw Hr eq_refl eq_refl E) as H. by rewrite Hcfg in H.
Qed.

(** *** Groups *)

Lemma with_created_groups_config d d' c s :
  (forall id, In id (List.map g_id d.(groups)) -> g_cluster <$> group_by_id id d' = g_cluster <$> group_by_id id d) ->
  (forall g, s.(s_group) = Some g -> In g (List.map g_id d.(groups))) ->
  config d' c s = config d c s.
Proof.
  intros H Hs. unfold config. f_equal. unfold group_cid. destruct (s_group s) as [id|]; [|done]. cbn.
  specialize (H id (Hs id eq_refl)).
  destruct (group_by_id id d'), (group_by_id id d); cbn in *; try done. injection H as H. by rewrite H.
Qed.

(** Changing the groups alone. *)
Lemma represents_groups l d a gs : node_wf d -> represents d a ->
  (forall c, gs !! c = (fun g => mk_gp c g.(g_org) g.(g_name) g.(g_created)) <$>
     find_first (fun g => opt_eqb g.(g_cluster) c) l) ->
  (forall id, In id (List.map g_id d.(groups)) ->
     g_cluster <$> find_first (fun g => g.(g_id) =? id) l = g_cluster <$> group_by_id id d) ->
  represents (set_groups l d) (with_groups gs a).
Proof.
  intros Hw Hr Hgs Hid. split; [apply Hr|exact Hgs|]. intros c. cbn [fl_sites with_groups].
  rewrite (rp_sites _ _ Hr). change (site_by_cluster c (set_groups l d)) with (site_by_cluster c d).
  destruct (site_by_cluster c d) as [s|] eqn:E; [|done]. cbn [fmap option_fmap option_map].
  apply (site_by_cluster_Some d c s Hw) in E as [Hs _].
  rewrite (with_created_groups_config d (set_groups l d)); [done|exact Hid|]. intros g. by apply (nw_refs d Hw).
Qed.

Lemma put_group_update_implements p d a g : node_wf d -> represents d a ->
  group_taken p.(gp_org) p.(gp_name) p.(gp_cid) d = false -> org_exists p.(gp_org) d = true ->
  group_by_cluster p.(gp_cid) d = Some g ->
  exists d', update_group p d = Some d' /\ node_wf d' /\
    represents d' (with_groups (<[p.(gp_cid) := mk_gp p.(gp_cid) p.(gp_org) p.(gp_name) g.(g_created)]> a.(fl_groups)) a).
Proof.
  intros Hw Hr Ht Ho E. apply (group_by_cluster_Some d _ g Hw) in E as Hg. destruct Hg as [Hg Hc].
  set (q := fun g => opt_eqb g.(g_cluster) p.(gp_cid)).
  set (f := fun g => mk_group g.(g_id) p.(gp_org) p.(gp_name) g.(g_created) g.(g_cluster)).
  assert (Hone : forall x, In x d.(groups) -> q x = true <-> x = g).
  { intros x Hx. unfold q. rewrite opt_eqb_spec. split; [|by intros ->]. intros H.
    apply (NoDup_map_inj g_cluster d.(groups)); [apply Hw|done..|congruence]. }
  assert (Hfree : forall x, In x d.(groups) -> x.(g_org) = p.(gp_org) -> x.(g_name) = p.(gp_name) -> q x = true).
  { intros x Hx Hxo Hxn. unfold group_taken, group_by_name in Ht.
    rewrite (find_first_unique _ d.(groups) x) in Ht; [|
      intros y Hy Hp; apply andb_true_iff in Hp as [H1 H2]; apply Z.eqb_eq in H1; apply String.eqb_eq in H2;
      apply (nw_group_names d Hw); congruence | done | by rewrite Hxo, Hxn, Z.eqb_refl, String.eqb_refl].
    apply negb_false_iff in Ht. unfold q. destruct (g_cluster x) eqn:Ex; [done|]. by apply (nw_no_local d Hw x Hx) in Ex. }
  exists (set_groups (upd q f d.(groups)) d). split; [|split].
  - unfold update_group. cbv zeta. match goal with |- (if ?b then _ else _) = _ => replace b with false; [done|] end.
    symmetry. rewrite Ho. apply andb_false_iff. right. apply existsb_none_iff. intros x Hx. apply not_true_iff_false.
    intros H. bool_to_prop. assert (q x = true) as Hq by (by apply Hfree). unfold q in Hq. congruence.
  - split; try apply Hw; cbn [groups set_groups].
    + rewrite upd_keeps by done. apply Hw.
    + rewrite upd_keeps by done. apply Hw.
    + intros x1 x2 H1 H2. apply in_upd in H1 as (y1 & Hy1 & ->), H2 as (y2 & Hy2 & ->).
      destruct (q y1) eqn:E1, (q y2) eqn:E2; cbn [f g_org g_name]; intros Hox Hnx.
      * apply Hone in E1, E2; [|done..]. by subst.
      * rewrite Hfree in E2; by auto.
      * rewrite Hfree in E1; by auto.
      * by apply (nw_group_names d Hw).
    + intros x Hx. apply in_upd in Hx as (y & Hy & ->). apply (nw_no_local d Hw) in Hy. by destruct (q y).
    + intros s g' Hs Hg'. rewrite upd_keeps by done. by apply (nw_refs d Hw s).
    + by destruct (nw_rows d Hw).
  - apply represents_groups; [done|done| |].
    + intros c. rewrite find_first_upd by done. change (find_first _ d.(groups)) with (group_by_cluster c d).
      destruct (decide (c = p.(gp_cid))) as [->|Hne].
      * rewrite lookup_insert_eq, E. cbn [fmap option_fmap option_map]. by rewrite (proj2 (Hone g Hg) eq_refl).
      * rewrite lookup_insert_ne, (rp_groups _ _ Hr) by done. destruct (group_by_cluster c d) as [x|] eqn:Ex; [|done].
        cbn [fmap option_fmap option_map]. apply (group_by_cluster_Some d c x Hw) in Ex as [Hx Hxc].
        destruct (q x) eqn:Eq; [|done]. apply Hone in Eq; [|done]. congruence.
    + intros id _. rewrite find_first_upd by done. change (find_first _ d.(groups)) with (group_by_id id d).
      destruct (group_by_id id d) as [x|]; [|done]. cbn. by destruct (q x).
Qed.

Lemma put_group_insert_implements p d a : node_wf d -> represents d a -> group_by_cluster p.(gp_cid) d = None ->
  (forall g, In g d.(groups) -> g.(g_org) = p.(gp_org) -> g.(g_name) <> p.(gp_name)) ->
  let d' := set_groups (d.(groups) ++ [mk_group (fresh_id (List.map g_id d.(groups))) p.(gp_org) p.(gp_name)
                                          p.(gp_created) (Some p.(gp_cid))]) d in
  node_wf d' /\ represents d' (with_groups (<[p.(gp_cid) := p]> a.(fl_groups)) a).
Proof.
  intros Hw Hr E Hn. set (new := mk_group _ _ _ _ _). cbv zeta.
  assert (Hc : forall x, In x d.(groups) -> x.(g_cluster) <> Some p.(gp_cid)).
  { intros x Hx Hxc. by rewrite (proj2 (group_by_cluster_Some d _ x Hw) (conj Hx Hxc)) in E. }
  split.
  - split; try apply Hw; cbn [groups set_groups].
    + apply NoDup_map_snoc; [apply Hw|apply fresh_id_notin].
    + apply NoDup_map_snoc; [apply Hw|]. intros (x & Hxc & Hx)%in_map_iff. by apply (Hc x Hx).
    + intros g1 g2 [H1| ->]%In_snoc [H2| ->]%In_snoc Ho Hna; [by apply (nw_group_names d Hw)| | |done].
      * by destruct (Hn g1 H1 Ho).
      * by destruct (Hn g2 H2).
    + intros g [H| ->]%In_snoc; [by apply (nw_no_local d Hw)|done].
    + intros s g Hs Hg. rewrite List.map_app. apply in_or_app. left. by apply (nw_refs d Hw s).
    + by destruct (nw_rows d Hw).
  - apply represents_groups; [done|done| |].
    + intros c. rewrite find_first_app. change (find_first _ d.(groups)) with (group_by_cluster c d).
      destruct (decide (c = p.(gp_cid))) as [->|Hne].
      * rewrite lookup_insert_eq, E. unfold find_first. cbn. rewrite String.eqb_refl. cbn. by destruct p.
      * rewrite lookup_insert_ne, (rp_groups _ _ Hr) by done. destruct (group_by_cluster c d); [done|].
        unfold find_first. cbn. assert ((p.(gp_cid) =?s c) = false) as -> by (apply String.eqb_neq; congruence). done.
    + intros id Hid. rewrite find_first_app. change (find_first _ d.(groups)) with (group_by_id id d).
      destruct (group_by_id id d) eqn:Eg; [done|]. apply in_map_iff in Hid as (x & <- & Hx).
      by rewrite (group_by_id_Some d x Hw Hx) in Eg.
Qed.

Lemma put_group_implements p d a : node_wf d -> represents d a ->
  implements (put_group p) d (spec_put_group p a).
Proof.
  intros Hw Hr. unfold spec_put_group. rewrite <- (name_conflict_spec p d a Hw Hr).
  assert (Hs : forall r, (let* row := query (group_by_cluster p.(gp_cid)) in
    match row with
    | None => let* _id := stmt (insert_group p.(gp_org) p.(gp_name) p.(gp_created) (Some p.(gp_cid))) in ret tt
    | Some _ => exec_opt (update_group p)
    end) (d, []) = r -> put_group p (d, []) =
    if group_taken p.(gp_org) p.(gp_name) p.(gp_cid) d then (Err ErrGroupConflict, (d, [])) else r).
  { intros r <-. unfold put_group, bind at 1. rewrite query_nil. by destruct (group_taken _ _ _ d). }
  specialize (Hs _ eq_refl). destruct (group_taken _ _ _ d) eqn:Ht; [unfold implements, run; by rewrite Hs|].
  unfold bind at 1 in Hs. rewrite query_nil in Hs. rewrite (rp_orgs _ _ Hr).
  change (Zmem p.(gp_org) d.(orgs)) with (org_exists p.(gp_org) d). rewrite (rp_groups _ _ Hr).
  destruct (group_by_cluster p.(gp_cid) d) as [g|] eqn:E; cbn [fmap option_fmap option_map gp_created].
  - unfold exec_opt in Hs. rewrite stmt_nil in Hs. destruct (org_exists p.(gp_org) d) eqn:Eo; cbn [negb].
    + destruct (put_group_update_implements p d a g Hw Hr Ht Eo E) as (d' & Hu & Hw' & Hr').
      rewrite Hu in Hs. exists d'. unfold run. by rewrite Hs.
    + assert (update_group p d = None) as Hu.
      { unfold update_group. rewrite Eo. cbn [negb orb]. rewrite andb_true_r.
        assert (existsb (fun g => opt_eqb (g_cluster g) (gp_cid p)) (groups d) = true) as ->; [|done].
        apply (group_by_cluster_Some d _ g Hw) in E as [Hg Hc]. apply existsb_exists. exists g. split; [done|]. by apply opt_eqb_spec. }
      rewrite Hu in Hs. unfold constraint, implements, run. by rewrite Hs.
  - assert (Hname : group_by_name p.(gp_org) p.(gp_name) d = None).
    { unfold group_taken in Ht. destruct (group_by_name _ _ d) as [g|] eqn:Eg; [|done]. apply find_first_Some in Eg as [Hg _].
      destruct (g_cluster g) as [c|] eqn:Ec; [|by apply (nw_no_local d Hw) in Ec]. apply negb_false_iff, String.eqb_eq in Ht as ->.
      by rewrite (proj2 (group_by_cluster_Some d _ g Hw) (conj Hg Ec)) in E. }
    unfold bind in Hs. rewrite stmt_nil in Hs. unfold insert_group in Hs. rewrite Hname, E, !andb_true_r in Hs.
    destruct (org_exists p.(gp_org) d); cbn [negb]; [|unfold constraint, implements, run; by rewrite Hs].
    eexists. split; [unfold run; rewrite Hs; reflexivity|].
    pose proof (put_group_insert_implements p d a Hw Hr E) as H. replace (mk_gp _ _ _ _) with p by (by destruct p).
    apply H. intros g Hg Ho Hn. pose proof (proj1 (find_first_None _ _) Hname g Hg) as Hx. cbn in Hx.
    by rewrite Ho, Hn, Z.eqb_refl, String.eqb_refl in Hx.
Qed.

(** *** Operations and logs *)

Section Refinement.
Context (dec : string -> result operation) (digest : operation -> result string)
  (dg : string -> result GroupPayload) (ds : string -> result SitePayload) (dt : string -> result TagsPayload).

Lemma materialize_implements op d a : node_wf d -> represents d a ->
  implements (materialize dg ds dt op) d (spec_op dg ds dt op a).
Proof.
  intros Hw Hr. unfold materialize, spec_op.
  repeat match goal with |- context [if ?b then _ else _] => destruct b end.
  - destruct (dg _) as [p|e]; [|reflexivity]. by apply put_group_implements.
  - destruct (ds _) as [p|e]; [|reflexivity]. by apply put_site_implements.
  - destruct (ds _) as [p|e]; [|reflexivity]. by apply archive_implements.
  - by apply delete_implements.
  - destruct (dt _) as [p|e]; [|reflexivity]. by apply set_tags_implements.
  - reflexivity.
Qed.

Lemma recorded_fleet op h l d : (recorded op h l d).(orgs) = d.(orgs) /\ (recorded op h l d).(groups) = d.(groups) /\
  (recorded op h l d).(sites) = d.(sites) /\ (recorded op h l d).(tags) = d.(tags) /\
  (no_orphans d -> no_orphans (recorded op h l d)).
Proof. unfold recorded, put_meta. cbn. split_and!; try done. by intros []. Qed.

Lemma recorded_sim op h l d a : node_wf d -> represents d a ->
  node_wf (recorded op h l d) /\ represents (recorded op h l d) a.
Proof.
  intros Hw Hr. destruct (recorded_fleet op h l d) as (H1 & H2 & H3 & H4 & H5). split.
  - apply (node_wf_frame d); try done. apply H5, Hw.
  - by apply (represents_frame d).
Qed.

Lemma transact_run_err op h l d e :
  (run (materialize dg ds dt op) d).1 = Err e ->
  transact (apply_body dg ds dt op h l) (d, []) = (Err e, (d, (materialize dg ds dt op (d, [])).2.2)).
Proof.
  unfold run, transact, apply_body, bind at 1. cbn [List.tl].
  destruct (materialize dg ds dt op (d, [])) as [r [d' fl]]. cbn. by intros ->.
Qed.

Let apply := Apply dec digest dg ds dt.
Let spec := spec_apply dec digest dg ds dt.

Lemma apply_body_faithful op h l : faithful (apply_body dg ds dt op h l).
Proof.
  unfold apply_body. apply faithful_bind; [|solve_faithful].
  unfold materialize, put_group, put_site, archive_site, delete_site, set_site_tags, lift. solve_faithful.
Qed.

(** A node in step with the abstract machine takes the next entry as it does;
    or the database refuses a statement, and it keeps its tables and fails. *)
Lemma Apply_sim l f m fl : sim f m ->
  let '(r, f') := apply l f fl in
  r = (spec l m).1 /\ sim f' (spec l m).2 \/ fl <> [] /\ f'.(f_db) = f.(f_db) /\ is_Some f'.(f_failure).
Proof.
  intros Hsim. destruct (Hsim) as [Hw Hr Ha Hi Ht Hf]. unfold apply, Apply, spec, spec_apply.
  destruct (dec (l_data l)) as [op|e].
  2: { left. split; [done|]. by split; try done; cbn; rewrite Hf. }
  rewrite <- Hf. destruct (f_failure f) as [e|] eqn:Ef; [left; by split; [|exact Hsim]|].
  destruct (digest op) as [h|e]; [|left; by split; [|exact Hsim]]. rewrite <- Ha.
  destruct (f_applied f !! op_id op) as [old|].
  { destruct (old =?s h); cbn [negb]; left; (split; [done|]); [|exact Hsim]. by split. }
  pose proof (materialize_implements op _ _ Hw Hr) as Hm.
  destruct (transact _ _) as [r [s' fl']] eqn:E.
  assert ((exists fl0, transact (apply_body dg ds dt op h l) (f.(f_db), []) = (r, (s', fl0))) \/
          fl <> [] /\ r = Err "database error" /\ s' = f.(f_db)) as [[fl0 E0]|(Hfl & -> & ->)].
  { destruct (decide (fl = [])) as [->|Hfl]; [left; by eexists|].
    destruct (faithful_transact _ (apply_body_faithful op h l) _ _ _ _ _ E) as [->|E0]; [right|left; by eexists].
    split_and!; [done..|by apply atomic_transact in E]. }
  2: { right. split_and!; [done..|by eexists]. }
  destruct (spec_op dg ds dt op (ma_fleet m)) as [a|e] eqn:Es; cbn [implements] in Hm.
  - destruct Hm as (d1 & Hrun & Hw1 & Hr1). rewrite (transact_run_ok dg ds dt op h l _ _ Hrun) in E0. injection E0 as <- <- _.
    left. split; [done|]. destruct (recorded_sim op h l d1 a Hw1 Hr1). by split; cbn; rewrite ?Ha.
  - rewrite (transact_run_err op h l _ _ Hm) in E0. injection E0 as <- <- _.
    destruct (e =?s ErrGroupConflict); left; (split; [done|]); [by split|]. split; try done. cbn. by rewrite <- Hf.
Qed.

Lemma log_sim ls : forall f m, sim f m ->
  let '(rs, f') := apply_log dec digest dg ds dt ls f in
  let n := List.map fst ls in
  rs = (spec_log dec digest dg ds dt n m).1 /\ sim f' (spec_log dec digest dg ds dt n m).2 \/
  Exists (fun x => x.2 <> []) ls /\ is_Some f'.(f_failure) /\ exists k, (k <= length ls)%nat /\
    node_wf f'.(f_db) /\ represents f'.(f_db) (spec_log dec digest dg ds dt (firstn k n) m).2.(ma_fleet).
Proof.
  induction ls as [|[l fl] ls IH]; intros f m Hs; [by left|]. cbn [apply_log List.map fst spec_log length].
  pose proof (Apply_sim l f m fl Hs) as H. unfold apply, spec in H. destruct (Apply _ _ _ _ _ l f fl) as [r f1].
  destruct H as [[-> H]|(Hfl & Hdb & Hf)].
  - specialize (IH f1 _ H). destruct (apply_log _ _ _ _ _ ls f1) as [rs f2]. cbv zeta in IH.
    destruct (spec_apply _ _ _ _ _ l m) as [r1 m1] eqn:E1. cbn [fst snd] in *.
    destruct IH as [[-> IH]|(Hx & Hf & k & Hk & Hw & Hr)].
    + left. by destruct (spec_log _ _ _ _ _ _ m1).
    + right. split; [by apply Exists_cons_tl|]. split; [done|]. exists (S k). split; [lia|]. split; [done|].
      cbn [firstn spec_log]. rewrite E1. by destruct (spec_log _ _ _ _ _ (firstn k _) m1).
  - destruct (stuck dec digest dg ds dt f1 Hf ls) as [Hst _]. destruct (apply_log _ _ _ _ _ ls f1) as [rs f2]. cbn in Hst. subst f2.
    right. split; [by apply Exists_cons_hd|]. split; [done|]. exists 0%nat. split; [lia|]. rewrite Hdb. split; apply Hs.
Qed.
End Refinement.

(** ** Properties *)

(** C1: the state machine implements the abstract machine: on tables that
    represent a configuration, any log gives the answers the abstract machine
    gives, and leaves tables that represent its configuration, with the same
    operations seen, the same position and the same verdict.  So nodes agree
    whatever their row ids, their histories and their local sites. *)
Theorem apply_refines_machine dec digest dg ds dt ls f m :
  sim f m ->
  let '(rs, f') := apply_log dec digest dg ds dt (List.map (fun l => (l, [])) ls) f in
  rs = (spec_log dec digest dg ds dt ls m).1 /\ sim f' (spec_log dec digest dg ds dt ls m).2.
Proof.
  intros Hs. pose proof (log_sim dec digest dg ds dt (List.map (fun l => (l, [])) ls) f m Hs) as H.
  destruct (apply_log _ _ _ _ _ _ f) as [rs f']. cbv zeta in H. rewrite map_map, map_id in H.
  destruct H as [H|[H _]]; [done|]. apply Exists_exists in H as (x & Hx & Hne).
  apply list_elem_of_In, in_map_iff in Hx as (l & <- & _). by cbn in Hne.
Qed.

(** A node whose database refuses statements may stop, but it never
    diverges: after any log under any fault plan, either it gave every answer of
    the abstract machine and represents its configuration, or it has failed and
    its tables are well formed and represent the configuration after some
    prefix of the log. *)
Theorem faulty_node_keeps_a_prefix dec digest dg ds dt ls f m :
  sim f m ->
  let '(rs, f') := apply_log dec digest dg ds dt ls f in
  let after k := spec_log dec digest dg ds dt (firstn k (List.map fst ls)) m in
  rs = (after (length ls)).1 /\ sim f' (after (length ls)).2 \/
  is_Some f'.(f_failure) /\ exists k, (k <= length ls)%nat /\
    node_wf f'.(f_db) /\ represents f'.(f_db) (after k).2.(ma_fleet).
Proof.
  intros Hs. pose proof (log_sim dec digest dg ds dt ls f m Hs) as H.
  destruct (apply_log _ _ _ _ _ _ f) as [rs f']. cbv zeta beta in *.
  rewrite firstn_all2 by (by rewrite length_map). destruct H as [H|(_ & H)]; [by left|by right].
Qed.

(** ** Witnesses *)

Definition fresh_machine : machine := mk_machine (mk_fleet [1] ∅ ∅) ∅ 0 0 None.

Lemma fresh_sim : sim fresh_node fresh_machine.
Proof.
  split; try done. split; try done; try constructor; try done. all: constructor.
Qed.

Definition demo_log : list log :=
  [demo_entry 1 "webfleet.group.put|o1||wfg_1:eu"; demo_entry 2 "webfleet.site.put|o2||wfs_1:shop:wfg_1"].

Lemma apply_refines_machine_witness :
  let '(rs, f') := apply_log demo_dec demo_digest demo_decode_group demo_decode_site demo_decode_tags
    (List.map (fun l => (l, [])) demo_log) fresh_node in
  sim f' (spec_log demo_dec demo_digest demo_decode_group demo_decode_site demo_decode_tags demo_log fresh_machine).2.
Proof.
  pose proof (apply_refines_machine demo_dec demo_digest demo_decode_group demo_decode_site demo_decode_tags
    demo_log fresh_node fresh_machine fresh_sim) as H.
  destruct (apply_log _ _ _ _ _ _ _) as [rs f']. apply H.
Defined.

Lemma faulty_node_keeps_a_prefix_witness :
  let '(rs, f') := apply_log demo_dec demo_digest demo_decode_group demo_decode_site demo_decode_tags
    (List.map (fun l => (l, [false; false; true])) demo_log) fresh_node in
  sim f' (spec_log demo_dec demo_digest demo_decode_group demo_decode_site demo_decode_tags demo_log fresh_machine).2 \/
  is_Some f'.(f_failure).
Proof.
  pose proof (faulty_node_keeps_a_prefix demo_dec demo_digest demo_decode_group demo_decode_site demo_decode_tags
    (List.map (fun l => (l, [false; false; true])) demo_log) fresh_node fresh_machine fresh_sim) as H.
  destruct (apply_log _ _ _ _ _ _ _) as [rs f']. cbv zeta in H. destruct H as [[_ H]|[H _]]; [left; exact H|by right].
Defined.
