(* ===== verification/Crawler.v ===== *)
(** The crawler ([internal/crawler/crawler.go]): a breadth-first walk of one
    site under robots.txt, with its limits, its inventory of assets, its link
    checks and the rows it leaves.

    Parameters: [url.Parse], [URL.String] and [ResolveReference]; the matches
    of the regular expressions; the HTTP client, whose answer may depend on how
    many requests were made before; the resolver behind the guard.  The client
    is given the redirect policy.  The context is never cancelled. *)
From S2P Require Import Prelude GoStr TimeText SqlM FleetDb Netguard Sites.
Open Scope string_scope.
Open Scope Z_scope.
Open Scope wf_scope.
Open Scope sql_scope.

(** ** Definitions *)

Definition MaxPages : Z := 500.
Definition MaxDepth : Z := 8.
Definition MaxLinksPerPage : nat := 1000.
Definition MaxExternalChecks : nat := 20.
Definition MaxBodyBytes : Z := 2 * 2 ^ 20.

Record Run := mk_run {
  r_id : Z; r_site : Z; r_status : string; r_crawled : Z; r_discovered : Z; r_limit : Z; r_limit_reached : bool;
  r_sitemap_urls : Z; r_current : string; r_failed : Z;
  r_css : Z; r_javascript : Z; r_image : Z; r_font : Z; r_media : Z; r_document : Z; r_data : Z; r_other : Z;
  r_internal : Z; r_external : Z; r_broken_internal : Z; r_broken_external : Z; r_new_broken : Z;
  r_robots : bool; r_sitemap : bool; r_error : string; r_started : Z; r_finished : option Z }.

Record Page := mk_page {
  p_url : string; p_status : Z; p_depth : Z; p_error : string; p_kind : string; p_class : string;
  p_origin : string; p_ok : bool }.

Record Link := mk_link {
  k_from : string; k_to : string; k_kind : string; k_status : Z; k_broken : bool; k_error : string }.

Record Detail := mk_detail { t_run : Run; t_pages : list Page; t_assets : list Page; t_links : list Link }.

(** The crawl tables beside the fleet's. *)
Record cdb := mk_cdb {
  c_fleet : db; c_runs : list Run; c_pages : list (Z * Page); c_links : list (Z * Link) }.

Definition set_runs v (d : cdb) := mk_cdb d.(c_fleet) v d.(c_pages) d.(c_links).
Definition set_pages v (d : cdb) := mk_cdb d.(c_fleet) d.(c_runs) v d.(c_links).
Definition set_links v (d : cdb) := mk_cdb d.(c_fleet) d.(c_runs) d.(c_pages) v.

Record fetchResult := mk_fetch {
  f_status : Z; f_body : string; f_final : string; f_ctype : string; f_err : option string }.
Definition fetch_error (e : string) : fetchResult := mk_fetch 0 "" "" "" (Some e).

(** A response: its status, the URL it came from, its content type, and the
    body read up to a limit. *)
Record response := mk_resp { rs_status : Z; rs_url : string; rs_ctype : string; rs_read : Z -> result string }.

(** A URL, as far as the crawler looks at it. *)
Record curl := mk_curl {
  l_scheme : string; l_hostname : string; l_path : string; l_query : string; l_fragment : string; l_more : string }.
Definition with_path (p q : string) (u : curl) := mk_curl u.(l_scheme) u.(l_hostname) p q u.(l_fragment) u.(l_more).
Definition no_fragment (u : curl) := mk_curl u.(l_scheme) u.(l_hostname) u.(l_path) u.(l_query) "" u.(l_more).

(** *** Classification of resources *)

(** [path.Ext] without its dot. *)
Fixpoint last_ext (s acc : string) (found : bool) : string :=
  match s with
  | EmptyString => if found then acc else ""
  | String c s' =>
      if Ascii.eqb c "/"%char then last_ext s' "" false
      else if Ascii.eqb c "."%char then last_ext s' "" true
      else last_ext s' (acc ++ String c "") found
  end.

Definition assetClassByExt : list (string * list string) :=
  [("css", ["css"; "scss"; "sass"]);
   ("javascript", ["js"; "mjs"; "cjs"]);
   ("image", ["png"; "jpg"; "jpeg"; "gif"; "webp"; "svg"; "ico"; "avif"; "bmp"]);
   ("font", ["woff"; "woff2"; "ttf"; "otf"; "eot"]);
   ("media", ["mp4"; "mp3"; "webm"; "ogg"; "mov"; "m4a"; "wav"]);
   ("document", ["pdf"; "zip"; "tar"; "gz"; "7z"; "rar"; "doc"; "docx"; "xls"; "xlsx"; "ppt"; "pptx"; "epub"]);
   ("data", ["json"; "xml"; "atom"; "rss"; "txt"; "yaml"; "yml"; "toml"; "webmanifest"])].

Definition assetClass (u : curl) : string :=
  let ext := to_lower (last_ext u.(l_path) "" false) in
  match find_first (fun ce => Smem ext ce.2) assetClassByExt with Some ce => ce.1 | None => "" end.
Definition isAsset (u : curl) : bool := negb (assetClass u =?s "").

Definition isAssetLinkRel (rel : string) : bool :=
  let rel := to_lower rel in
  contains rel "stylesheet" || contains rel "icon" || contains rel "manifest"
  || contains rel "preload" || contains rel "prefetch" || (rel =?s "mask-icon").

Definition assetClassByContentType (ct : string) : string :=
  let ct := to_lower ct in
  if contains ct "text/css" then "css"
  else if contains ct "javascript" || contains ct "ecmascript" then "javascript"
  else if has_prefix ct "image/" then "image"
  else if contains ct "font" then "font"
  else if has_prefix ct "audio/" || has_prefix ct "video/" then "media"
  else if contains ct "pdf" || contains ct "zip" || contains ct "octet-stream" then "document"
  else if contains ct "json" || contains ct "xml" || contains ct "rss" || contains ct "atom"
          || contains ct "text/plain" || contains ct "text/csv" then "data"
  else "other".

Fixpoint contains_any (p : ascii -> bool) (s : string) : bool :=
  match s with EmptyString => false | String c s' => p c || contains_any p s' end.

Definition isTemplateLiteral (raw : string) : bool :=
  contains_any (fun c => Ascii.eqb c " "%char || Ascii.eqb c "009"%char) raw
  || contains raw "$[" || contains raw "@path(" || contains raw "{{" || contains raw "{%".

Fixpoint disallowed (rules : list string) (path : string) : bool :=
  match rules with
  | [] => false
  | r :: rest => if negb (r =?s "/") && has_prefix path r then true
                 else if r =?s "/" then true else disallowed rest path
  end.

(** *** robots.txt *)

Record robots_state := mk_rs { rb_active : bool; rb_rules : list string; rb_maps : list string }.

Definition robots_line (s : robots_state) (line : string) : robots_state :=
  let line := trim_space (split2 "#" line).1 in
  match split2 ":" line with
  | (_, None) => s
  | (k, Some v) =>
      let k := to_lower (trim_space k) in
      let v := trim_space v in
      if k =?s "user-agent" then mk_rs (v =?s "*") s.(rb_rules) s.(rb_maps)
      else if k =?s "disallow"
      then if s.(rb_active) && negb (v =?s "") then mk_rs s.(rb_active) (s.(rb_rules) ++ [v])%list s.(rb_maps) else s
      else if k =?s "sitemap"
      then if negb (v =?s "") then mk_rs s.(rb_active) s.(rb_rules) (s.(rb_maps) ++ [v])%list else s
      else s
  end.

Definition newline : ascii := "010"%char.
Definition parse_robots (body : string) : robots_state :=
  List.fold_left robots_line (split_on newline body) (mk_rs false [] []).

(** [strings.Fields], on ASCII. *)
Fixpoint fields_from (s cur : string) : list string :=
  let emit := if cur =?s "" then [] else [cur] in
  match s with
  | EmptyString => emit
  | String c s' => if is_space c then (emit ++ fields_from s' "")%list else fields_from s' (cur ++ String c "")
  end.
Definition fields (s : string) : list string := fields_from s "".

(** The URLs of a list, each once, in order of first appearance. *)
Definition add_once (x : string) (out : list string) : list string := if Smem x out then out else (out ++ [x])%list.

(** The local variables of [CrawlSite]. *)
Record crawl := mk_crawl {
  queue : list (string * Z); seen : gset string; known : gset string; discovered : Z;
  sitemapPages : gset string; internalPages : gset string; assets : gmap string string;
  pages : list Page; InternalLinks : Z; ExternalLinks : Z; external : gmap string Link;
  brokenNow : gset string; CurrentURL : string; SitemapFound : bool; requests : nat }.

Definition pop rest u (c : crawl) := mk_crawl rest ({[u]} ∪ c.(seen)) c.(known) c.(discovered) c.(sitemapPages)
  c.(internalPages) c.(assets) c.(pages) c.(InternalLinks) c.(ExternalLinks) c.(external) c.(brokenNow) u
  c.(SitemapFound) c.(requests).
Definition drop_head rest (c : crawl) := mk_crawl rest c.(seen) c.(known) c.(discovered) c.(sitemapPages)
  c.(internalPages) c.(assets) c.(pages) c.(InternalLinks) c.(ExternalLinks) c.(external) c.(brokenNow) c.(CurrentURL)
  c.(SitemapFound) c.(requests).
Definition requested n (c : crawl) := mk_crawl c.(queue) c.(seen) c.(known) c.(discovered) c.(sitemapPages)
  c.(internalPages) c.(assets) c.(pages) c.(InternalLinks) c.(ExternalLinks) c.(external) c.(brokenNow) c.(CurrentURL)
  c.(SitemapFound) (c.(requests) + n).
Definition discover q u (c : crawl) := mk_crawl q c.(seen) ({[u]} ∪ c.(known)) (c.(discovered) + 1) c.(sitemapPages)
  c.(internalPages) c.(assets) c.(pages) c.(InternalLinks) c.(ExternalLinks) c.(external) c.(brokenNow) c.(CurrentURL)
  c.(SitemapFound) c.(requests).
Definition undiscover (c : crawl) := mk_crawl c.(queue) c.(seen) c.(known)
  (if 0 <? c.(discovered) then c.(discovered) - 1 else c.(discovered)) c.(sitemapPages)
  c.(internalPages) c.(assets) c.(pages) c.(InternalLinks) c.(ExternalLinks) c.(external) c.(brokenNow) c.(CurrentURL)
  c.(SitemapFound) c.(requests).
Definition in_sitemap u (c : crawl) := mk_crawl c.(queue) c.(seen) c.(known) c.(discovered) ({[u]} ∪ c.(sitemapPages))
  c.(internalPages) c.(assets) c.(pages) c.(InternalLinks) c.(ExternalLinks) c.(external) c.(brokenNow) c.(CurrentURL)
  c.(SitemapFound) c.(requests).
Definition sitemap_found (c : crawl) := mk_crawl c.(queue) c.(seen) c.(known) c.(discovered) c.(sitemapPages)
  c.(internalPages) c.(assets) c.(pages) c.(InternalLinks) c.(ExternalLinks) c.(external) c.(brokenNow) c.(CurrentURL)
  true c.(requests).
Definition linked u (c : crawl) := mk_crawl c.(queue) c.(seen) c.(known) c.(discovered) c.(sitemapPages)
  ({[u]} ∪ c.(internalPages)) c.(assets) c.(pages) c.(InternalLinks) c.(ExternalLinks) c.(external) c.(brokenNow)
  c.(CurrentURL) c.(SitemapFound) c.(requests).
Definition with_assets a (c : crawl) := mk_crawl c.(queue) c.(seen) c.(known) c.(discovered) c.(sitemapPages)
  c.(internalPages) a c.(pages) c.(InternalLinks) c.(ExternalLinks) c.(external) c.(brokenNow)
  c.(CurrentURL) c.(SitemapFound) c.(requests).
Definition with_page p (c : crawl) := mk_crawl c.(queue) c.(seen) c.(known) c.(discovered) c.(sitemapPages)
  c.(internalPages) c.(assets) (c.(pages) ++ [p])%list c.(InternalLinks) c.(ExternalLinks) c.(external) c.(brokenNow)
  c.(CurrentURL) c.(SitemapFound) c.(requests).
Definition count_links i x (c : crawl) := mk_crawl c.(queue) c.(seen) c.(known) c.(discovered) c.(sitemapPages)
  c.(internalPages) c.(assets) c.(pages) (c.(InternalLinks) + i) (c.(ExternalLinks) + x) c.(external) c.(brokenNow)
  c.(CurrentURL) c.(SitemapFound) c.(requests).
Definition with_external e (c : crawl) := mk_crawl c.(queue) c.(seen) c.(known) c.(discovered) c.(sitemapPages)
  c.(internalPages) c.(assets) c.(pages) c.(InternalLinks) c.(ExternalLinks) e c.(brokenNow)
  c.(CurrentURL) c.(SitemapFound) c.(requests).
Definition broken u (c : crawl) := mk_crawl c.(queue) c.(seen) c.(known) c.(discovered) c.(sitemapPages)
  c.(internalPages) c.(assets) c.(pages) c.(InternalLinks) c.(ExternalLinks) c.(external) ({[u]} ∪ c.(brokenNow))
  c.(CurrentURL) c.(SitemapFound) c.(requests).

Section Crawl.
Variable parse : string -> option curl.
Variable url_string : curl -> string.
Variable resolve : curl -> curl -> curl.
Variable LookupNetIP : string -> result (list addr).
Variable AllowPrivate : bool.
Variable addr_string : addr -> string.
(** [client.Do]: the policy on redirects, the number of requests before. *)
Variable Do : (Z -> curl -> result unit) -> nat -> string -> string -> result response.
(** The matches of [aHrefRE], [linkTagRE], [linkRelRE], [linkHrefRE], [srcRE],
    [srcsetRE] and (at most so many) of [locRE]. *)
Variable aHref linkTag : string -> list string.
Variable linkRel linkHref : string -> option string.
Variable srcs srcsets : string -> list string.
Variable locs : nat -> string -> list string.

Definition validate (u : curl) : result unit :=
  ValidateURL LookupNetIP AllowPrivate addr_string u.(l_scheme) u.(l_hostname).

Definition CheckRedirect (via : Z) (u : curl) : result unit :=
  if 8 <=? via then Err "too many redirects" else validate u.

Definition fetch (t : nat) (method raw : string) (max : Z) : fetchResult :=
  match parse raw with
  | None => fetch_error "invalid URL"
  | Some u =>
      match validate u with
      | Err e => fetch_error e
      | Ok _ =>
          match Do CheckRedirect t method raw with
          | Err e => fetch_error e
          | Ok r =>
              if method =?s "HEAD" then mk_fetch r.(rs_status) "" r.(rs_url) r.(rs_ctype) None
              else match r.(rs_read) max with
                   | Err e => mk_fetch r.(rs_status) "" "" "" (Some e)
                   | Ok body => mk_fetch r.(rs_status) body r.(rs_url) r.(rs_ctype) None
                   end
          end
      end
  end.

Definition resolveURL (raw base : string) : option string :=
  u ← parse raw; b ← parse base;
  let u := resolve b u in
  if negb (u.(l_scheme) =?s "http") && negb (u.(l_scheme) =?s "https") then None
  else Some (url_string (no_fragment u)).

Definition extractNavigationLinks (body base : string) : list string :=
  List.fold_left (fun out m =>
      let raw := trim_space m in
      if isTemplateLiteral raw then out
      else match resolveURL raw base with Some x => add_once x out | None => out end)
    (aHref body) [].

Definition add_resource (base : string) (out : list string) (raw : string) : list string :=
  match resolveURL (trim_space raw) base with Some x => add_once x out | None => out end.

Definition link_resource (base : string) (out : list string) (tag : string) : list string :=
  let rel := match linkRel tag with Some r => r | None => "" end in
  if negb (isAssetLinkRel rel) then out
  else match linkHref tag with Some h => add_resource base out h | None => out end.

Definition srcset_resource (base : string) (out : list string) (set_ : string) : list string :=
  List.fold_left (fun out cand => match fields cand with p :: _ => add_resource base out p | [] => out end)
    (split_on "," set_) out.

Definition extractResources (body base : string) : list string :=
  let out := List.fold_left (link_resource base) (linkTag body) [] in
  let out := List.fold_left (add_resource base) (srcs body) out in
  List.fold_left (srcset_resource base) (srcsets body) out.

(** [loadRobots]: the rules, whether there was a file, and its sitemaps. *)
Definition loadRobots (t : nat) (root : curl) : list string * bool * list string :=
  let fr := fetch t "GET" (url_string (with_path "/robots.txt" "" root)) (256 * 2 ^ 10) in
  match fr.(f_err) with
  | Some _ => ([], false, [])
  | None => if negb (fr.(f_status) =? 200) then ([], false, [])
            else let s := parse_robots fr.(f_body) in (s.(rb_rules), true, s.(rb_maps))
  end.

(** [loadSitemap] and the number of requests it made. *)
Definition loadSitemap (t : nat) (raw : string) (root : curl) : list string * nat :=
  match parse raw with
  | None => ([], 0%nat)
  | Some u =>
      if negb (equal_fold u.(l_hostname) root.(l_hostname)) then ([], 0%nat) else
      let fr := fetch t "GET" (url_string u) MaxBodyBytes in
      match fr.(f_err) with
      | Some _ => ([], 1%nat)
      | None =>
          if negb (fr.(f_status) =? 200) then ([], 1%nat)
          else (omap (fun m => v ← parse (trim_space m);
                       if equal_fold v.(l_hostname) root.(l_hostname) then Some (url_string (no_fragment v)) else None)
                     (locs (Z.to_nat MaxPages) fr.(f_body)), 1%nat)
      end
  end.

(** *** The walk *)

Definition no_run : Run :=
  mk_run 0 0 "" 0 0 0 false 0 "" 0 0 0 0 0 0 0 0 0 0 0 0 0 0 false false "" 0 None.

(** [INSERT INTO crawl_pages] and [crawl_links]: the run and the site exist. *)
Definition insert_page (run site : Z) (p : Page) (d : cdb) : option (unit * cdb) :=
  if existsb (fun r => r.(r_id) =? run) d.(c_runs) && site_exists site d.(c_fleet)
  then Some (tt, set_pages (d.(c_pages) ++ [(run, p)])%list d) else None.
Definition insert_link (run site : Z) (l : Link) (d : cdb) : option (unit * cdb) :=
  if existsb (fun r => r.(r_id) =? run) d.(c_runs) && site_exists site d.(c_fleet)
  then Some (tt, set_links (d.(c_links) ++ [(run, l)])%list d) else None.

Definition asset_page (u cls : string) : Page := mk_page u 0 0 "" "asset" cls "internal" false.

(** An asset enters the inventory once. *)
Definition add_asset (run site : Z) (u cls : string) (c : crawl) : M cdb crawl :=
  match c.(assets) !! u with
  | Some _ => ret c
  | None => ignore tt (stmt (insert_page run site (asset_page u cls))) ;;; ret (with_assets (<[u := cls]> c.(assets)) c)
  end.

(** [UPDATE crawl_runs SET ... WHERE id=?]. *)
Definition update_run (run : Z) (f : Run -> Run) : M cdb unit :=
  exec (fun d => set_runs (upd (fun r => r.(r_id) =? run) f d.(c_runs)) d).

Definition progress (c : crawl) (r : Run) : Run :=
  mk_run r.(r_id) r.(r_site) r.(r_status) (Z.of_nat (length c.(pages))) c.(discovered) r.(r_limit) r.(r_limit_reached)
    r.(r_sitemap_urls) c.(CurrentURL) r.(r_failed) r.(r_css) r.(r_javascript) r.(r_image) r.(r_font) r.(r_media)
    r.(r_document) r.(r_data) r.(r_other) r.(r_internal) r.(r_external) r.(r_broken_internal) r.(r_broken_external)
    r.(r_new_broken) r.(r_robots) r.(r_sitemap) r.(r_error) r.(r_started) r.(r_finished).
Definition persistProgress (run : Z) (c : crawl) : M cdb unit := ignore tt (update_run run (progress c)).

(** A URL of a sitemap. *)
Definition sitemap_url (c : crawl) (u : string) : crawl :=
  match parse u with
  | Some pu => if isAsset pu then c else
      let c := if bool_decide (u ∈ c.(sitemapPages)) then c else in_sitemap u c in
      if bool_decide (u ∈ c.(known)) then c else discover (c.(queue) ++ [(u, 0)])%list u c
  | None =>
      let c := if bool_decide (u ∈ c.(sitemapPages)) then c else in_sitemap u c in
      if bool_decide (u ∈ c.(known)) then c else discover (c.(queue) ++ [(u, 0)])%list u c
  end.

Definition visit_sitemap (root : curl) (c : crawl) (sm : string) : crawl :=
  let '(urls, n) := loadSitemap c.(requests) sm root in
  let c := requested n c in
  match urls with
  | [] => c
  | _ => List.fold_left sitemap_url urls (sitemap_found c)
  end.

(** One link of a page. *)
Definition visit_link (run site : Z) (root : curl) (from : string) (depth : Z) (c : crawl) (target : string)
    : M cdb crawl :=
  match parse target with
  | None => ret c
  | Some tu =>
      if tu.(l_hostname) =?s "" then ret c
      else if equal_fold tu.(l_hostname) root.(l_hostname) then
        let c := count_links 1 0 c in
        let* c :=
          if isAsset tu then add_asset run site target (assetClass tu) c
          else let c := linked target c in
               ret (if negb (bool_decide (target ∈ c.(known))) && (depth <? MaxDepth)
                    then discover (c.(queue) ++ [(target, depth + 1)])%list target c else c) in
        ignore tt (stmt (insert_link run site (mk_link from target "internal" 0 false ""))) ;;; ret c
      else
        let c := count_links 0 1 c in
        let c := if (size c.(external) <? MaxExternalChecks)%nat
                 then with_external (<[target := mk_link from target "external" 0 false ""]> c.(external)) c else c in
        ignore tt (stmt (insert_link run site (mk_link from target "external" 0 false ""))) ;;; ret c
  end.

Definition visit_resource (run site : Z) (root : curl) (c : crawl) (res : string) : M cdb crawl :=
  match parse res with
  | None => ret c
  | Some ru =>
      if negb (equal_fold ru.(l_hostname) root.(l_hostname)) then ret c
      else add_asset run site res (if assetClass ru =?s "" then "other" else assetClass ru) c
  end.

Fixpoint fold_m {A} (f : crawl -> A -> M cdb crawl) (l : list A) (c : crawl) : M cdb crawl :=
  match l with
  | [] => ret c
  | x :: l' => let* c := f c x in fold_m f l' c
  end.

(** What a fetched URL is, from its content type and its outcome. *)
Definition is_html (fr : fetchResult) : bool :=
  let ct := to_lower fr.(f_ctype) in (ct =?s "") || contains ct "text/html".
Definition fetched_ok (fr : fetchResult) : bool :=
  match fr.(f_err) with None => fr.(f_status) <? 400 | Some _ => false end.

Definition page_of (c : crawl) (u : string) (depth : Z) (fr : fetchResult) : Page :=
  let origin := if bool_decide (u ∈ c.(sitemapPages))
                then if bool_decide (u ∈ c.(internalPages)) then "both" else "sitemap" else "internal" in
  mk_page u fr.(f_status) depth (match fr.(f_err) with Some e => e | None => "" end) "page" "" origin (fetched_ok fr).

Definition visit_page (run site : Z) (root : curl) (u : string) (depth : Z) (fr : fetchResult) (c : crawl) : M cdb crawl :=
  if negb (is_html fr) && fetched_ok fr then
    let* c := add_asset run site u (assetClassByContentType fr.(f_ctype)) c in
    let c := undiscover c in
    persistProgress run c ;;; ret c
  else
    let page := page_of c u depth fr in
    let c := with_page page c in
    ignore tt (stmt (insert_page run site page)) ;;;
    if negb page.(p_ok) then
      let c := broken u c in persistProgress run c ;;; ret c
    else
      let* c := fold_m (visit_link run site root u depth)
                  (firstn MaxLinksPerPage (extractNavigationLinks fr.(f_body) fr.(f_final))) c in
      let* c := fold_m (visit_resource run site root) (extractResources fr.(f_body) fr.(f_final)) c in
      persistProgress run c ;;; ret c.

(** The body of the loop.  [url.Parse] of a queued URL that fails gives a nil
    URL, whose path Go panics on. *)
Definition crawl_step (run site : Z) (root : curl) (robots : list string) (c : crawl) : M cdb crawl :=
  match c.(queue) with
  | [] => ret c
  | (u, depth) :: rest =>
      if bool_decide (u ∈ c.(seen)) || (MaxDepth <? depth) then ret (drop_head rest c) else
      let c := pop rest u c in
      match parse u with
      | None => throw "panic: nil URL"
      | Some pu =>
          if disallowed robots pu.(l_path) then ret c else
          let fr := fetch c.(requests) "GET" u MaxBodyBytes in
          visit_page run site root u depth fr (requested 1 c)
      end
  end.

Definition stopped (c : crawl) : bool :=
  match c.(queue) with [] => true | _ => MaxPages <=? Z.of_nat (length c.(pages)) end.

Fixpoint crawl_loop (fuel : nat) (run site : Z) (root : curl) (robots : list string) (c : crawl) : M cdb crawl :=
  match fuel with
  | O => throw "out of fuel"
  | S fuel => if stopped c then ret c
              else let* c := crawl_step run site root robots c in crawl_loop fuel run site root robots c
  end.

(** *** The checks of external links *)

Definition check_external (s : crawl * Z) (target : string) : crawl * Z :=
  let '(c, n) := s in
  match c.(external) !! target with
  | None => s
  | Some l =>
      let fr := fetch c.(requests) "HEAD" target (64 * 2 ^ 10) in
      let c := requested 1 c in
      let again := match fr.(f_err) with None => (fr.(f_status) =? 405) || (fr.(f_status) =? 501) | Some _ => false end in
      let '(fr, c) := if again then (fetch c.(requests) "GET" target (64 * 2 ^ 10), requested 1 c) else (fr, c) in
      let bad := match fr.(f_err) with Some _ => true | None => 400 <=? fr.(f_status) end in
      let l := mk_link l.(k_from) l.(k_to) l.(k_kind) fr.(f_status) bad
                 (match fr.(f_err) with Some e => e | None => "" end) in
      let c := with_external (<[target := l]> c.(external)) c in
      if bad then (broken target c, n + 1) else (c, n)
  end.

Definition bad_page (p : Page) : bool := negb (p.(p_error) =?s "") || (400 <=? p.(p_status)).

Definition update_links (run : Z) (kind to : string) (status : Z) (bad : bool) (e : string) : M cdb unit :=
  ignore tt (exec (fun d => set_links (upd
    (fun rl => (rl.1 =? run) && (rl.2.(k_kind) =?s kind) && (rl.2.(k_to) =?s to))
    (fun rl => (rl.1, mk_link rl.2.(k_from) rl.2.(k_to) rl.2.(k_kind) status bad e)) d.(c_links)) d)).

(** [SELECT DISTINCT to_url FROM crawl_links WHERE run_id=? AND broken=1]. *)
Definition broken_of (run : Z) (d : cdb) : gset string :=
  list_to_set (List.map (fun rl => rl.2.(k_to)) (List.filter (fun rl => (rl.1 =? run) && rl.2.(k_broken)) d.(c_links))).

Definition count_class (cls : string) (a : gmap string string) : Z :=
  count (fun kv => kv.2 =?s cls) (map_to_list a).
Definition named_classes : list string := ["css"; "javascript"; "image"; "font"; "media"; "document"; "data"].

Definition finished_run (c : crawl) (robots : bool) (broken_int broken_ext new now : Z) (r : Run) : Run :=
  let n := Z.of_nat (length c.(pages)) in
  mk_run r.(r_id) r.(r_site) "complete" n c.(discovered) MaxPages
    ((MaxPages <=? n) && negb (bool_decide (c.(queue) = []))) (Z.of_nat (size c.(sitemapPages))) ""
    (count (fun p => negb p.(p_ok)) c.(pages))
    (count_class "css" c.(assets)) (count_class "javascript" c.(assets)) (count_class "image" c.(assets))
    (count_class "font" c.(assets)) (count_class "media" c.(assets)) (count_class "document" c.(assets))
    (count_class "data" c.(assets)) (count (fun kv => negb (Smem kv.2 named_classes)) (map_to_list c.(assets)))
    c.(InternalLinks) c.(ExternalLinks) broken_int broken_ext new robots c.(SitemapFound) r.(r_error) r.(r_started) (Some now).

Definition mark_broken (c : crawl) (p : Page) : crawl := if bad_page p then broken p.(p_url) c else c.

(** *** Reading runs back *)

Definition pages_where (run : Z) (kind : string) (d : cdb) : list Page :=
  List.map snd (List.filter (fun rp => (rp.1 =? run) && (rp.2.(p_kind) =?s kind)) d.(c_pages)).
Definition links_where (run : Z) (d : cdb) : list Link :=
  List.map snd (List.filter (fun rl => rl.1 =? run) d.(c_links)).

Definition DetailOf (run : Z) : M cdb Detail :=
  let* r := or_fail (query (fun d => find_first (fun r => r.(r_id) =? run) d.(c_runs))) "crawl run not found" in
  match r with
  | None => throw "crawl run not found"
  | Some r =>
      let* ps := query (pages_where run "page") in
      let* ass := query (pages_where run "asset") in
      let* ls := query (links_where run) in
      ret (mk_detail r ps ass (firstn 1000 ls))
  end.
Definition Latest (site : Z) : M cdb Run :=
  let* r := or_fail (query (fun d => find_last (fun r => r.(r_site) =? site) d.(c_runs))) "no crawl run" in
  match r with None => throw "no crawl run" | Some r => ret r end.
Definition LatestDetail (site : Z) : M cdb Detail := let* r := Latest site in DetailOf r.(r_id).

(** [FleetRegressions]: the last complete run of each site of the organization
    that has broken links, the most new ones first. *)
Fixpoint insert_run (r : Run) (l : list Run) : list Run :=
  match l with
  | [] => [r]
  | x :: l' => if (x.(r_new_broken) <? r.(r_new_broken))
                  || (x.(r_new_broken) =? r.(r_new_broken)) && (x.(r_id) <? r.(r_id))
               then r :: l else x :: insert_run r l'
  end.
Definition last_complete (d : cdb) (r : Run) : bool :=
  (r.(r_status) =?s "complete")
  && forallb (fun x => negb ((x.(r_site) =? r.(r_site)) && (x.(r_status) =?s "complete") && (r.(r_id) <? x.(r_id)))) d.(c_runs).
Definition FleetRegressions (org : Z) : M cdb (list Run) :=
  query (fun d => firstn 50 (List.fold_right insert_run [] (List.filter (fun r =>
    last_complete d r
    && match site_by_id r.(r_site) d.(c_fleet) with Some s => s.(s_org) =? org | None => false end
    && ((0 <? r.(r_new_broken)) || (0 <? r.(r_broken_internal)) || (0 <? r.(r_broken_external)))) d.(c_runs)))).

(** *** One crawl *)

Definition insert_crawl_run (site now : Z) (d : cdb) : option (Z * cdb) :=
  if site_exists site d.(c_fleet)
  then let id := fresh_id (List.map r_id d.(c_runs)) in
       Some (id, set_runs (d.(c_runs) ++ [mk_run id site "running" 0 0 0 false 0 "" 0 0 0 0 0 0 0 0 0 0 0 0 0 0
                                            false false "" now None])%list d)
  else None.

(** The state before the walk: robots.txt and the sitemaps have been read. *)
Definition start_crawl (root : curl) : list string * bool * crawl :=
  let '(rules, found, sitemaps) := loadRobots 0 root in
  let sitemaps := match sitemaps with [] => [url_string (with_path "/sitemap.xml" "" root)] | _ => sitemaps end in
  let r := url_string root in
  (rules, found, List.fold_left (visit_sitemap root) sitemaps
    (mk_crawl [(r, 0)] ∅ {[r]} 1 ∅ {[r]} ∅ [] 0 0 ∅ ∅ "" false 1)).

(** After the walk: the checks, the verdicts on the links, and the run's row. *)
Definition finish_crawl (run prev now : Z) (robots : bool) (c : crawl) : M cdb Run :=
  let broken_int := count bad_page c.(pages) in
  let c := List.fold_left mark_broken c.(pages) c in
  let keys := sort_by id (List.map fst (map_to_list c.(external))) in
  let '(c, broken_ext) := List.fold_left check_external keys (c, 0) in
  for_each keys (fun target => match c.(external) !! target with
    | Some l => update_links run "external" target l.(k_status) l.(k_broken) l.(k_error) | None => ret tt end) ;;;
  for_each (map_to_list (list_to_map (M:=gmap string Page) (rev (List.map (fun p => (p.(p_url), p)) c.(pages)))))
    (fun up => update_links run "internal" up.1 up.2.(p_status) (bad_page up.2) up.2.(p_error)) ;;;
  let* old := if 0 <? prev then ignore ∅ (query (broken_of prev)) else ret ∅ in
  let new := Z.of_nat (size (c.(brokenNow) ∖ old)) in
  let fin := finished_run c robots broken_int broken_ext new now in
  ignore tt (update_run run fin) ;;;
  ret (fin no_run).

(** The run as stored or, if it cannot be read back, as counted. *)
Definition crawl_answer (run site started finished : Z) (c : crawl) (fin : Run) : M cdb Detail := fun w =>
  match DetailOf run w with
  | (Err _, w') => (Ok (mk_detail (mk_run run site fin.(r_status) fin.(r_crawled) fin.(r_discovered)
      fin.(r_limit) fin.(r_limit_reached) fin.(r_sitemap_urls) fin.(r_current) fin.(r_failed) fin.(r_css)
      fin.(r_javascript) fin.(r_image) fin.(r_font) fin.(r_media) fin.(r_document) fin.(r_data) fin.(r_other)
      fin.(r_internal) fin.(r_external) fin.(r_broken_internal) fin.(r_broken_external) fin.(r_new_broken)
      fin.(r_robots) fin.(r_sitemap) "" started (Some finished)) c.(pages) [] []), w')
  | r => r
  end.

Definition CrawlSite (fuel : nat) (site started finished : Z) : M cdb Detail :=
  let* u := or_fail (query (fun d => s_url <$> find_first (fun s => (s.(s_id) =? site) && unarchived s) d.(c_fleet).(sites)))
              "site not found" in
  match u with
  | None => throw "site not found"
  | Some u =>
      match parse u with
      | None => throw "invalid URL"
      | Some root =>
          let root := no_fragment root in
          let* prev := ignore None (query (fun d =>
            find_last (fun r => (r.(r_site) =? site) && (r.(r_status) =?s "complete")) d.(c_runs))) in
          let prev := match prev with Some r => r.(r_id) | None => 0 end in
          let* run := stmt (insert_crawl_run site started) in
          let '(rules, found, c) := start_crawl root in
          let* c := crawl_loop fuel run site root rules c in
          let* fin := finish_crawl run prev finished found c in
          crawl_answer run site started finished c fin
      end
  end.
End Crawl.

(** *** One crawl of a site at a time *)

Definition Claim (site : Z) (inflight : gset Z) : bool * gset Z :=
  if bool_decide (site ∈ inflight) then (false, inflight) else (true, {[site]} ∪ inflight).
Definition Release (site : Z) (inflight : gset Z) : gset Z := inflight ∖ {[site]}.

(** ** The walk: lemmas *)

(** From tables and faults in [P], [m] returns, in [Q]. *)
Definition returns {S A} (P : S * faults -> Prop) (m : M S A) (Q : A -> S * faults -> Prop) : Prop :=
  forall w, P w -> exists a w', m w = (Ok a, w') /\ Q a w'.

Section Returns.
Context {S A B : Type}.

Lemma returns_ret (P : S * faults -> Prop) (a : A) (Q : A -> S * faults -> Prop) :
  (forall w, P w -> Q a w) -> returns P (ret a) Q.
Proof. intros H w Hw. exists a, w. auto. Qed.

Lemma returns_bind (P : S * faults -> Prop) (m : M S A) (k : A -> M S B) R Q :
  returns P m R -> (forall a, returns (R a) (k a) Q) -> returns P (bind m k) Q.
Proof.
  intros Hm Hk w Hw. destruct (Hm w Hw) as (a & w' & E & Ha). destruct (Hk a w' Ha) as (b & w'' & E' & Hb).
  exists b, w''. split; [|done]. unfold bind. by rewrite E.
Qed.

Lemma returns_weaken (P P' : S * faults -> Prop) (m : M S A) (Q Q' : A -> S * faults -> Prop) :
  returns P m Q -> (forall w, P' w -> P w) -> (forall a w, Q a w -> Q' a w) -> returns P' m Q'.
Proof. intros Hm HP HQ w Hw. destruct (Hm w (HP w Hw)) as (a & w' & E & Ha). eauto 6. Qed.

Lemma returns_pure (P : S * faults -> Prop) (m : M S A) Q (X : Prop) :
  (X -> returns P m Q) -> returns (fun w => X /\ P w) m Q.
Proof. intros H w [HX Hw]. by apply H. Qed.

(** A statement whose error is dropped. *)
Lemma returns_ignore (f : S -> option (A * S)) (a0 : A) (P : S * faults -> Prop) (Q : A -> S * faults -> Prop) :
  (forall s fl, P (s, fl) ->
     (forall a s', f s = Some (a, s') -> Q a (s', List.tl fl)) /\ (f s = None -> Q a0 (s, List.tl fl)) /\
     (fl <> [] -> Q a0 (s, List.tl fl))) ->
  returns P (ignore a0 (stmt f)) Q.
Proof.
  intros H [s fl] Hw. destruct (H s fl Hw) as (H1 & H2 & H3). unfold ignore, stmt.
  destruct fl as [|[] fl]; [| by eauto | ].
  all: destruct (f s) as [[a s']|] eqn:E; eauto.
Qed.
End Returns.

Section Walk.
Context (parse : string -> option curl) (url_string : curl -> string).
Context (run site : Z) (root : curl) (rules : list string).

(** The URL belongs to the site: it names the root's host, or it is the text of
    a URL that does. *)
Definition on_site (u : string) : Prop :=
  exists v, (parse u = Some v \/ u = url_string v) /\ equal_fold v.(l_hostname) root.(l_hostname) = true.

Record Inv (c : crawl) : Prop := {
  iv_queue_once : NoDup (List.map fst c.(queue));
  iv_queue : forall u k, In (u, k) c.(queue) ->
    (u ∈ c.(known)) /\ (u ∉ c.(seen)) /\ 0 <= k <= MaxDepth /\ parse u <> None /\ on_site u;
  iv_pages_once : NoDup (List.map p_url c.(pages));
  iv_pages : forall p, In p c.(pages) ->
    p.(p_url) ∈ c.(seen) /\ 0 <= p.(p_depth) <= MaxDepth /\ on_site p.(p_url) /\
    exists v, parse p.(p_url) = Some v /\ disallowed rules v.(l_path) = false;
  iv_seen : c.(seen) ⊆ c.(known);
  iv_discovered : Z.of_nat (length c.(pages) + length c.(queue)) <= c.(discovered);
  iv_external : (size c.(external) <= MaxExternalChecks)%nat;
  iv_pages_max : Z.of_nat (length c.(pages)) <= MaxPages }.

(** What the tables hold of a walk in which nothing was refused, [o] being the
    links counted whose rows are still to come. *)
Record stored (o : Z * Z) (c : crawl) (d : cdb) : Prop := {
  sd_run : existsb (fun r => r.(r_id) =? run) d.(c_runs) = true;
  sd_site : site_exists site d.(c_fleet) = true;
  sd_pages : pages_where run "page" d = c.(pages);
  sd_assets : List.map (fun p => (p.(p_url), p.(p_class))) (pages_where run "asset" d) ≡ₚ map_to_list c.(assets);
  sd_internal : count (fun rl => (rl.1 =? run) && (rl.2.(k_kind) =?s "internal")) d.(c_links) + o.1 = c.(InternalLinks);
  sd_external : count (fun rl => (rl.1 =? run) && (rl.2.(k_kind) =?s "external")) d.(c_links) + o.2 = c.(ExternalLinks) }.

(** The two together; [clean] says that nothing is refused. *)
Variable clean : Prop.
Definition good (o : Z * Z) (c : crawl) (w : cdb * faults) : Prop := Inv c /\ (clean -> w.2 = [] /\ stored o c w.1).

(** Steps that leave the pages alone and queue at most [n] URLs. *)
Definition grows (n : nat) (c c' : crawl) : Prop :=
  c'.(pages) = c.(pages) /\ (length c'.(queue) <= length c.(queue) + n)%nat.

Lemma pages_where_app k r p d : pages_where run k (set_pages (d.(c_pages) ++ [(r, p)])%list d) =
  (pages_where run k d ++ if (r =? run) && (p.(p_kind) =?s k) then [p] else [])%list.
Proof.
  unfold pages_where. cbn [c_pages set_pages]. rewrite List.filter_app, List.map_app. f_equal. cbn.
  by destruct ((r =? run) && (p_kind p =?s k)).
Qed.

(** A statement whose error is dropped keeps the walk good. *)
Lemma ignored_good o o' c c' (f : cdb -> option (unit * cdb)) (g : cdb -> cdb) :
  Inv c' -> (forall d, stored o c d -> f d = Some (tt, g d)) -> (forall d, stored o c d -> stored o' c' (g d)) ->
  returns (good o c) (ignore tt (stmt f)) (fun _ w => good o' c' w).
Proof.
  intros Hi Hf Hs. apply returns_ignore. intros s fl [_ Hc]. cbn [fst snd] in Hc. split_and!.
  - intros [] s' E. split; [done|]. intros Hcl. destruct (Hc Hcl) as [-> Hst].
    rewrite (Hf _ Hst) in E. injection E as <-. split; [done|]. by apply Hs.
  - intros E. split; [done|]. intros Hcl. destruct (Hc Hcl) as [-> Hst]. by rewrite (Hf _ Hst) in E.
  - intros Hfl. split; [done|]. intros Hcl. by destruct (Hc Hcl) as [-> _].
Qed.

Lemma insert_page_ok o c p d : stored o c d ->
  insert_page run site p d = Some (tt, set_pages (d.(c_pages) ++ [(run, p)])%list d).
Proof. intros Hst. unfold insert_page. by rewrite (sd_run _ _ _ Hst), (sd_site _ _ _ Hst). Qed.
Lemma insert_link_ok o c l d : stored o c d ->
  insert_link run site l d = Some (tt, set_links (d.(c_links) ++ [(run, l)])%list d).
Proof. intros Hst. unfold insert_link. by rewrite (sd_run _ _ _ Hst), (sd_site _ _ _ Hst). Qed.

Lemma run_kept (f : Run -> Run) l : (forall r, (f r).(r_id) = r.(r_id)) ->
  existsb (fun r => r.(r_id) =? run) (upd (fun r => r.(r_id) =? run) f l) = existsb (fun r => r.(r_id) =? run) l.
Proof.
  intros Hf. induction l as [|r l IH]; [done|]. cbn [upd List.map existsb]. change (List.map _ l) with (upd (fun r => r.(r_id) =? run) f l).
  rewrite IH. destruct (r_id r =? run) eqn:E; [by rewrite Hf, E|by rewrite E].
Qed.

Lemma update_run_good o c f : (forall r, (f r).(r_id) = r.(r_id)) -> Inv c ->
  returns (good o c) (ignore tt (update_run run f)) (fun _ w => good o c w).
Proof.
  intros Hf Hi. unfold update_run. eapply ignored_good; [done|done|]. intros d [H1 H2 H3 H4 H5 H6].
  split; try done. cbn [c_runs set_runs]. by rewrite run_kept.
Qed.

Lemma Inv_with_assets a c : Inv c -> Inv (with_assets a c).
Proof. intros []. by split. Qed.

Lemma add_asset_good o u cls c : Inv c ->
  returns (good o c) (add_asset run site u cls c) (fun c' w => (exists a, c' = with_assets a c) /\ good o c' w).
Proof.
  intros Hi. unfold add_asset. destruct (c.(assets) !! u) eqn:E.
  - apply returns_ret. intros w Hw. split; [|done]. exists c.(assets). by destruct c.
  - eapply returns_bind with (R := fun _ w => good o (with_assets (<[u := cls]> c.(assets)) c) w).
    + eapply ignored_good; [by apply Inv_with_assets|intros d Hd; by apply (insert_page_ok o c)|].
      intros d Hd. destruct Hd as [H1 H2 H3 H4 H5 H6]. split; try done.
      * rewrite pages_where_app, Z.eqb_refl. cbn. by rewrite app_nil_r.
      * rewrite pages_where_app, Z.eqb_refl. cbn [andb p_kind asset_page String.eqb Ascii.eqb Bool.eqb assets with_assets].
        rewrite List.map_app, map_to_list_insert by done. cbn. rewrite H4. symmetry. apply Permutation_cons_append.
    + intros _. apply returns_ret. intros w Hw. split; [by eexists|done].
Qed.

Lemma Inv_discover u depth c : Inv c -> u ∉ c.(known) -> 0 <= depth <= MaxDepth -> parse u <> None -> on_site u ->
  Inv (discover (c.(queue) ++ [(u, depth)])%list u c).
Proof.
  intros [H1 H2 H3 H4 H5 H6 H7] Hu Hd Hp Hon. split; cbn [queue pages seen known discovered external discover]; try done.
  - rewrite List.map_app. cbn. apply NoDup_app. split_and!; [done| |apply NoDup_singleton].
    intros x Hx Hx'. apply list_elem_of_singleton in Hx' as ->. apply list_elem_of_In, in_map_iff in Hx as ([x k] & <- & Hin).
    by apply H2 in Hin as [Hin _].
  - intros x k Hin. apply in_app_or in Hin as [Hin|[[= <- <-]|[]]].
    + destruct (H2 x k Hin) as (? & ? & ? & ? & ?). split_and!; try done; try lia. set_solver.
    + split_and!; try done; try lia. { set_solver. } intros Hs. by apply H5 in Hs.
  - set_solver.
  - rewrite length_app. cbn. lia.
Qed.

Lemma Inv_same c c' : Inv c -> c'.(queue) = c.(queue) -> c'.(pages) = c.(pages) -> c'.(seen) = c.(seen) ->
  c'.(known) = c.(known) -> c'.(discovered) = c.(discovered) -> (size c'.(external) <= MaxExternalChecks)%nat -> Inv c'.
Proof. intros [] Hq Hp Hs Hk Hd He. by split; rewrite ?Hq, ?Hp, ?Hs, ?Hk, ?Hd. Qed.

Lemma stored_same o c c' d : stored o c d -> c'.(pages) = c.(pages) -> c'.(assets) = c.(assets) ->
  c'.(InternalLinks) = c.(InternalLinks) -> c'.(ExternalLinks) = c.(ExternalLinks) -> stored o c' d.
Proof. intros [] Hp Ha Hi He. by split; rewrite ?Hp, ?Ha, ?Hi, ?He. Qed.

Lemma good_same o c c' w : good o c w -> Inv c' -> c'.(pages) = c.(pages) -> c'.(assets) = c.(assets) ->
  c'.(InternalLinks) = c.(InternalLinks) -> c'.(ExternalLinks) = c.(ExternalLinks) -> good o c' w.
Proof. intros [_ Hc] Hi Hp Ha Hl He. split; [done|]. intros Hcl. destruct (Hc Hcl). split; [done|]. by apply (stored_same o c). Qed.

(** The row of a link that has been counted. *)
Lemma insert_link_good o c l : Inv c ->
  (l.(k_kind), o) = ("internal", (1, 0)) \/ (l.(k_kind), o) = ("external", (0, 1)) ->
  returns (good o c) (ignore tt (stmt (insert_link run site l))) (fun _ w => good (0, 0) c w).
Proof.
  intros Hi Hk. eapply ignored_good; [done|intros d Hd; by apply (insert_link_ok o c)|].
  intros d [H1 H2 H3 H4 H5 H6]. split; try done.
  all: cbn [c_links set_links]; rewrite count_snoc; cbn [fst snd]; rewrite Z.eqb_refl; cbn [andb].
  - rewrite <- H5. destruct Hk as [Hk|Hk]; injection Hk as -> ->; cbn; lia.
  - rewrite <- H6. destruct Hk as [Hk|Hk]; injection Hk as -> ->; cbn; lia.
Qed.

Lemma good_counted i x c w : good (0, 0) c w -> good (i, x) (count_links i x c) w.
Proof.
  intros [Hi Hc]. split; [by apply (Inv_same c); try done; apply Hi|]. intros Hcl. destruct (Hc Hcl) as [? [H1 H2 H3 H4 H5 H6]].
  split; [done|]. split; try done; cbn in *; lia.
Qed.

Lemma returns_good {A} o c (m : M cdb A) Q : (Inv c -> returns (good o c) m Q) -> returns (good o c) m Q.
Proof. intros H w Hw. apply H; [apply Hw|done]. Qed.

(** One link: it queues at most one URL. *)
Lemma visit_link_good from depth target c : 0 <= depth ->
  returns (good (0, 0) c) (visit_link parse run site root from depth c target)
    (fun c' w => grows 1 c c' /\ good (0, 0) c' w).
Proof.
  intros Hd. apply returns_good. intros Hi. unfold visit_link.
  assert (Hid : returns (good (0, 0) c) (ret c) (fun c' w => grows 1 c c' /\ good (0, 0) c' w)).
  { apply returns_ret. intros w Hw. split; [split; [done|lia]|done]. }
  destruct (parse target) as [tu|] eqn:Ep; [|done]. destruct (tu.(l_hostname) =?s ""); [done|]. clear Hid.
  assert (Hc : forall i x, Inv (count_links i x c)) by (intros i x; by apply (Inv_same c); try done; apply Hi).
  assert (Hend : forall o kind c2, grows 1 c c2 -> (kind, o) = ("internal", (1, 0)) \/ (kind, o) = ("external", (0, 1)) ->
    returns (good o c2) (ignore tt (stmt (insert_link run site (mk_link from target kind 0 false ""))) ;;; ret c2)
      (fun c' w => grows 1 c c' /\ good (0, 0) c' w)).
  { intros o kind c2 Hg Hk. apply returns_good. intros Hi2. eapply returns_bind; [by apply insert_link_good|].
    intros []. apply returns_ret. intros w Hw. by split. }
  destruct (equal_fold _ _) eqn:Eh.
  - set (c1 := count_links 1 0 c).
    eapply returns_bind with (R := fun c' w => grows 1 c c' /\ good (1, 0) c' w).
    2: { intros c2. apply returns_pure. intros Hg. by apply (Hend (1, 0)); [|left]. }
    eapply returns_weaken with (P := good (1, 0) c1); [|intros w Hw; by apply good_counted|intros a w Ha; exact Ha].
    destruct (isAsset tu).
    + eapply returns_weaken; [by apply add_asset_good; apply Hc|by intros w Hw|].
      intros a w [[x ->] Hg]. split; [split; [done|cbn; lia]|done].
    + apply returns_ret. intros w Hw.
      assert (Hi2 : Inv (linked target c1)) by (by apply (Inv_same c); try done; apply Hi).
      destruct (negb _ && _) eqn:E.
      * apply andb_true_iff in E as [E1 E2]. apply negb_true_iff, bool_decide_eq_false in E1. apply Z.ltb_lt in E2.
        split; [split; [done|cbn; rewrite length_app; cbn; lia]|].
        apply (good_same (1, 0) c1); try done. apply (Inv_discover target (depth + 1) (linked target c1)); try done.
        { lia. } { congruence. } exists tu. auto.
      * split; [split; [done|cbn; lia]|]. by apply (good_same (1, 0) c1).
  - set (c1 := count_links 0 1 c).
    set (c2 := if (size (external c1) <? MaxExternalChecks)%nat then _ else _).
    eapply returns_weaken with (P := good (0, 1) c2); [apply Hend; [|by right]| |by intros a w Ha].
    + subst c2. destruct (_ <? _)%nat; (split; [done|cbn; lia]).
    + intros w Hw. apply (good_counted 0 1) in Hw. subst c2. destruct (size (external c1) <? MaxExternalChecks)%nat eqn:E; [|done].
      apply Nat.ltb_lt in E. apply (good_same (0, 1) c1); try done. apply (Inv_same c1); try done; [apply Hc|].
      cbn [external with_external]. destruct (decide (is_Some (c1.(external) !! target))) as [Hs|Hn].
      * rewrite map_size_insert_Some by done. lia.
      * rewrite map_size_insert_None by (by apply eq_None_not_Some). lia.
Qed.

Lemma visit_resource_good res c :
  returns (good (0, 0) c) (visit_resource parse run site root c res) (fun c' w => grows 0 c c' /\ good (0, 0) c' w).
Proof.
  apply returns_good. intros Hi. unfold visit_resource.
  assert (Hid : returns (good (0, 0) c) (ret c) (fun c' w => grows 0 c c' /\ good (0, 0) c' w)).
  { apply returns_ret. intros w Hw. split; [split; [done|lia]|done]. }
  destruct (parse res); [|done]. destruct (negb _); [done|]. eapply returns_weaken; [by apply add_asset_good|done|].
  intros a w [[x ->] Hg]. split; [split; [done|cbn; lia]|done].
Qed.

Lemma fold_good {A} (f : crawl -> A -> M cdb crawl) n l :
  (forall c x, returns (good (0, 0) c) (f c x) (fun c' w => grows n c c' /\ good (0, 0) c' w)) -> forall c,
  returns (good (0, 0) c) (fold_m f l c) (fun c' w => grows (n * length l) c c' /\ good (0, 0) c' w).
Proof.
  intros Hf. induction l as [|x l IH]; intros c; cbn [fold_m].
  - apply returns_ret. intros w Hw. split; [split; [done|lia]|done].
  - eapply returns_bind; [apply Hf|]. intros c1. apply returns_pure. intros [Hp Hq].
    eapply returns_weaken; [apply IH|by intros w Hw|]. intros a w [[Hp' Hq'] Hg]. split; [|done].
    split; [congruence|]. cbn [length]. lia.
Qed.

Definition measure (c : crawl) : nat :=
  length c.(queue) + MaxLinksPerPage * (Z.to_nat MaxPages - length c.(pages)).

(** The state from which a URL that was waiting is visited. *)
Record visiting (u : string) (depth : Z) (c : crawl) : Prop := {
  vs_slack : Z.of_nat (length c.(pages) + length c.(queue)) < c.(discovered);
  vs_seen : u ∈ c.(seen);
  vs_new : ~ In u (List.map p_url c.(pages));
  vs_depth : 0 <= depth <= MaxDepth;
  vs_site : on_site u;
  vs_allowed : exists v, parse u = Some v /\ disallowed rules v.(l_path) = false;
  vs_room : Z.of_nat (length c.(pages)) < MaxPages }.

Lemma Inv_with_page p depth c : Inv c -> visiting p.(p_url) depth c -> p.(p_depth) = depth -> Inv (with_page p c).
Proof.
  intros [H1 H2 H3 H4 H5 H6 H7 H8] [V1 V2 V3 V4 V5 V6 V7] <-. split; cbn [queue pages seen known discovered external with_page]; try done.
  - by apply NoDup_map_snoc.
  - intros q Hq. apply in_app_or in Hq as [Hq|[<-|[]]]; [by apply H4|done].
  - rewrite length_app. cbn [length]. lia.
  - rewrite length_app. cbn [length]. lia.
Qed.

Lemma stored_with_page p c d : stored (0, 0) c d -> p.(p_kind) = "page" ->
  stored (0, 0) (with_page p c) (set_pages (d.(c_pages) ++ [(run, p)])%list d).
Proof.
  intros [H1 H2 H3 H4 H5 H6] Hk. split; try done; rewrite pages_where_app, Z.eqb_refl, Hk; cbn.
  - by rewrite H3.
  - by rewrite app_nil_r.
Qed.

Lemma progress_good c : returns (good (0, 0) c) (persistProgress run c ;;; ret c)
  (fun c' w => c' = c /\ good (0, 0) c' w).
Proof.
  apply returns_good. intros Hi. eapply returns_bind; [by apply update_run_good|]. intros []. by apply returns_ret.
Qed.

Lemma pop_visiting u depth rest v c : Inv c -> c.(queue) = (u, depth) :: rest ->
  parse u = Some v -> disallowed rules v.(l_path) = false -> Z.of_nat (length c.(pages)) < MaxPages ->
  visiting u depth (pop rest u c).
Proof.
  intros [H1 H2 H3 H4 H5 H6 H7 H8] Hq Hv Hd Hm. rewrite Hq in *.
  destruct (H2 u depth (or_introl eq_refl)) as (K1 & K2 & K3 & K4 & K5).
  split; cbn [pages queue discovered seen pop]; try done.
  - cbn [length] in H6. lia.
  - set_solver.
  - intros Hin. apply in_map_iff in Hin as (p & Hu & Hp). apply H4 in Hp as [Hp _]. by rewrite Hu in Hp.
  - eauto.
Qed.

Lemma Inv_pop u depth rest c : Inv c -> c.(queue) = (u, depth) :: rest -> Inv (pop rest u c).
Proof.
  intros [H1 H2 H3 H4 H5 H6 H7 H8] Hq. rewrite Hq in *. cbn [List.map] in H1. apply NoDup_cons in H1 as [Hu H1].
  split; cbn [pages queue discovered seen known external pop]; try done.
  - intros x k Hx. destruct (H2 x k (or_intror Hx)) as (K1 & K2 & K3 & K4 & K5). split_and!; try done; try lia.
    apply not_elem_of_union. split; [|done]. intros E%elem_of_singleton. subst x. apply Hu, list_elem_of_In.
    apply in_map_iff. by exists (u, k).
  - intros p Hp. destruct (H4 p Hp) as (K1 & K2). split; [set_solver|done].
  - destruct (H2 u depth (or_introl eq_refl)) as (K1 & _). set_solver.
  - cbn [length] in H6. lia.
Qed.
End Walk.

Section Loop.
Context (parse : string -> option curl) (url_string : curl -> string) (resolve : curl -> curl -> curl)
  (R : string -> result (list addr)) (priv : bool) (str : addr -> string)
  (Do : (Z -> curl -> result unit) -> nat -> string -> string -> result response)
  (aHref linkTag : string -> list string) (linkRel linkHref : string -> option string)
  (srcs srcsets : string -> list string) (locs : nat -> string -> list string).
Context (run site : Z) (root : curl) (rules : list string) (clean : Prop).
Let inv := Inv parse url_string root rules.
Let ok := good parse url_string run site root rules clean (0, 0).
Let page_visit := visit_page parse url_string resolve aHref linkTag linkRel linkHref srcs srcsets run site root.
Let step := crawl_step parse url_string resolve R priv str Do aHref linkTag linkRel linkHref srcs srcsets run site root rules.
Let loop fuel := crawl_loop parse url_string resolve R priv str Do aHref linkTag linkRel linkHref srcs srcsets fuel run site root rules.

Lemma measure_mono n c c' : grows n c c' -> (measure c' <= measure c + n)%nat.
Proof. intros [Hp Hq]. unfold measure. rewrite Hp. lia. Qed.

(** Visiting a page queues fewer URLs than a page is worth. *)
Lemma visit_page_good u depth fr c : visiting parse url_string root rules u depth c ->
  returns (ok c) (page_visit u depth fr c) (fun c' w => (measure c' <= measure c)%nat /\ ok c' w).
Proof.
  intros Hv. apply returns_good. intros Hi. unfold page_visit, visit_page.
  destruct (negb (is_html fr) && fetched_ok fr).
  - eapply returns_bind; [by apply add_asset_good|]. intros c1. apply returns_pure. intros [a ->].
    apply returns_good. intros Hi1. eapply returns_weaken with (P := ok (undiscover (with_assets a c))); [apply progress_good| |].
    + intros w Hw. apply (good_same parse url_string run site root rules clean (0, 0) (with_assets a c)); try done.
      destruct Hi1 as [H1 H2 H3 H4 H5 H6 H7 H8]. destruct Hv as [V1 _ _ _ _ _ _]. split; try done.
      cbn [pages queue discovered undiscover with_assets] in *. destruct (0 <? discovered c) eqn:E; bool_to_prop; lia.
    + intros c2 w [-> Hg]. split; [reflexivity|done].
  - set (p := page_of c u depth fr). assert (Hi1 : inv (with_page p c)) by (by apply (Inv_with_page _ _ _ _ p depth)).
    assert (Hm : (measure (with_page p c) + MaxLinksPerPage <= measure c)%nat).
    { unfold measure. cbn [pages queue with_page]. rewrite length_app. destruct Hv as [_ _ _ _ _ _ V7]. cbn [length].
      assert (Z.to_nat MaxPages - length (pages c) = S (Z.to_nat MaxPages - (length (pages c) + 1)))%nat as -> by (unfold MaxPages in *; lia). lia. }
    eapply returns_bind with (R := fun _ w => ok (with_page p c) w).
    { eapply ignored_good; [done|intros d Hd; by eapply insert_page_ok|]. intros d Hd. by apply stored_with_page. }
    intros []. destruct (negb (p_ok p)).
    + eapply returns_weaken with (P := ok (broken u (with_page p c))); [apply progress_good| |].
      * intros w Hw. apply (good_same parse url_string run site root rules clean (0, 0) (with_page p c)); try done.
        apply (Inv_same _ _ _ _ (with_page p c)); try done. apply Hi1.
      * intros c2 w [-> Hg]. split; [|done]. change (measure (broken u (with_page p c))) with (measure (with_page p c)). lia.
    + eapply returns_bind; [apply (fold_good parse url_string run site root rules clean _ 1); intros c0 x; apply visit_link_good; apply Hv|].
      intros c2. apply returns_pure. intros Hg2. eapply returns_bind; [apply (fold_good parse url_string run site root rules clean _ 0); intros c0 x; apply visit_resource_good|].
      intros c3. apply returns_pure. intros Hg3. eapply returns_weaken; [apply progress_good|intros w Hw; exact Hw|].
      intros c4 w [-> Hg]. split; [|done]. apply measure_mono in Hg2, Hg3. rewrite Nat.mul_1_l in Hg2. rewrite Nat.mul_0_l in Hg3.
      pose proof (firstn_le_length MaxLinksPerPage (extractNavigationLinks parse url_string resolve aHref (f_body fr) (f_final fr))). lia.
Qed.

Lemma crawl_step_good c : stopped c = false ->
  returns (ok c) (step c) (fun c' w => (measure c' < measure c)%nat /\ ok c' w).
Proof.
  intros Hs. apply returns_good. intros Hi. unfold step, crawl_step, stopped in *.
  destruct (queue c) as [|[u depth] rest] eqn:Eq; [done|]. apply Z.leb_gt in Hs.
  destruct (iv_queue _ _ _ _ _ Hi u depth) as (K1 & K2 & K3 & K4 & K5); [rewrite Eq; by left|].
  rewrite bool_decide_eq_false_2 by done. destruct (MaxDepth <? depth) eqn:Ed; [bool_to_prop; lia|]. cbn [orb].
  destruct (parse u) as [v|] eqn:Ep; [|done].
  assert (Hi1 : inv (pop rest u c)) by (by apply (Inv_pop _ _ _ _ _ depth)).
  assert (Hm : (measure (pop rest u c) < measure c)%nat) by (unfold measure; cbn [queue pages pop]; rewrite Eq; cbn [length]; lia).
  assert (Hok : forall w, ok c w -> ok (pop rest u c) w) by (intros w Hw; by apply (good_same parse url_string run site root rules clean (0, 0) c)).
  destruct (disallowed rules v.(l_path)) eqn:Er.
  - apply returns_ret. intros w Hw. split; [done|by apply Hok].
  - pose proof (pop_visiting _ _ _ _ u depth rest v c Hi Eq Ep Er Hs) as Hv.
    eapply returns_weaken; [apply (visit_page_good u depth _ (requested 1 (pop rest u c)))| |].
    + destruct Hv as [V1 V2 V3 V4 V5 V6 V7]. by split.
    + intros w Hw. apply (good_same parse url_string run site root rules clean (0, 0) (pop rest u c)); try done; [by apply Hok|].
      apply (Inv_same _ _ _ _ (pop rest u c)); try done. apply Hi1.
    + intros c' w [Hm' Hg]. split; [|done]. change (measure (requested 1 (pop rest u c))) with (measure (pop rest u c)) in Hm'. lia.
Qed.

Lemma crawl_loop_good fuel : forall c, (measure c < fuel)%nat ->
  returns (ok c) (loop fuel c) (fun c' w => stopped c' = true /\ ok c' w).
Proof.
  induction fuel as [|fuel IH]; intros c Hf; [lia|]. unfold loop. cbn [crawl_loop]. destruct (stopped c) eqn:E.
  - apply returns_ret. auto.
  - eapply returns_bind; [by apply crawl_step_good|]. intros c1. apply returns_pure. intros Hm. apply IH. lia.
Qed.
End Loop.

(** *** The start of a crawl *)

Section Start.
Context (parse : string -> option curl) (url_string : curl -> string) (resolve : curl -> curl -> curl)
  (R : string -> result (list addr)) (priv : bool) (str : addr -> string)
  (Do : (Z -> curl -> result unit) -> nat -> string -> string -> result response)
  (locs : nat -> string -> list string) (root : curl).
Hypothesis parse_string : forall u, parse (url_string u) <> None.
Hypothesis locs_max : forall n b, (length (locs n b) <= n)%nat.
Let inv := Inv parse url_string root.
Let sitemap := visit_sitemap parse url_string R priv str Do locs root.

(** What reading sitemaps leaves as it was at the start. *)
Definition unvisited (c : crawl) : Prop :=
  c.(pages) = [] /\ c.(assets) = ∅ /\ c.(InternalLinks) = 0 /\ c.(ExternalLinks) = 0.

Lemma on_site_parsed u : on_site parse url_string root u ->
  (exists v, u = url_string v /\ equal_fold v.(l_hostname) root.(l_hostname) = true) -> parse u <> None.
Proof using parse_string. intros _ (v & -> & _). apply parse_string. Qed.

Lemma sitemap_url_ok rules c u : inv rules c -> unvisited c ->
  (exists v, u = url_string v /\ equal_fold v.(l_hostname) root.(l_hostname) = true) ->
  inv rules (sitemap_url parse c u) /\ unvisited (sitemap_url parse c u) /\
  (length (queue (sitemap_url parse c u)) <= length (queue c) + 1)%nat.
Proof using parse_string.
  intros Hi Hu Hv. assert (Hon : on_site parse url_string root u) by (destruct Hv as (v & -> & Hv); exists v; auto).
  pose proof (on_site_parsed u Hon Hv) as Hp. unfold sitemap_url. destruct (parse u) as [pu|] eqn:E; [|done].
  destruct (isAsset pu); [split_and!; [done|done|lia]|].
  set (c1 := if bool_decide (u ∈ sitemapPages c) then c else in_sitemap u c).
  assert (inv rules c1 /\ unvisited c1 /\ queue c1 = queue c) as (Hi1 & Hu1 & Hq).
  { subst c1. destruct (bool_decide _); [done|]. split; [|done]. apply (Inv_same _ _ _ _ c); try done. apply Hi. }
  destruct (bool_decide (u ∈ known c1)) eqn:Ek; [rewrite Hq; split_and!; [done|done|lia]|].
  apply bool_decide_eq_false in Ek. split_and!.
  - apply Inv_discover; try done. congruence.
  - done.
  - cbn [queue discover]. rewrite length_app, Hq. cbn. lia.
Qed.

Lemma sitemap_urls_ok rules l : forall c, inv rules c -> unvisited c ->
  (forall u, In u l -> exists v, u = url_string v /\ equal_fold v.(l_hostname) root.(l_hostname) = true) ->
  let c' := List.fold_left (sitemap_url parse) l c in
  inv rules c' /\ unvisited c' /\ (length (queue c') <= length (queue c) + length l)%nat.
Proof using parse_string.
  induction l as [|u l IH]; intros c Hi Hu Hl; cbn [List.fold_left length]; [split_and!; [done|done|lia]|].
  destruct (sitemap_url_ok rules c u Hi Hu (Hl u (or_introl eq_refl))) as (H1 & H2 & H3).
  destruct (IH _ H1 H2) as (H4 & H5 & H6); [intros x Hx; apply Hl; by right|]. split_and!; [done|done|lia].
Qed.

Lemma loadSitemap_ok t sm u : In u (loadSitemap parse url_string R priv str Do locs t sm root).1 ->
  exists v, u = url_string v /\ equal_fold v.(l_hostname) root.(l_hostname) = true.
Proof.
  unfold loadSitemap. destruct (parse sm) as [s|]; [|done]. destruct (negb _); [done|].
  destruct (f_err _); [done|]. destruct (negb _); [done|]. cbn [fst]. intros Hin.
  apply list_elem_of_In, list_elem_of_omap in Hin as (m & _ & Hm). destruct (parse (trim_space m)) as [v|]; [|done]. cbn in Hm.
  destruct (equal_fold _ _) eqn:E; [|done]. injection Hm as <-. exists (no_fragment v). done.
Qed.

Lemma omap_le {A B} (f : A -> option B) l : (length (omap f l) <= length l)%nat.
Proof. induction l as [|x l IH]; [done|]. cbn. destruct (f x); cbn; lia. Qed.

Lemma loadSitemap_length t sm :
  (length (loadSitemap parse url_string R priv str Do locs t sm root).1 <= Z.to_nat MaxPages)%nat.
Proof using locs_max.
  unfold loadSitemap. destruct (parse sm) as [s|]; [|cbn; lia]. destruct (negb _); [cbn; lia|].
  destruct (f_err _); [cbn; lia|]. destruct (negb _); [cbn; lia|]. cbn [fst].
  etransitivity; [apply omap_le|apply locs_max].
Qed.

Lemma visit_sitemap_ok rules sm c : inv rules c -> unvisited c ->
  inv rules (sitemap c sm) /\ unvisited (sitemap c sm) /\
  (length (queue (sitemap c sm)) <= length (queue c) + Z.to_nat MaxPages)%nat.
Proof using parse_string locs_max.
  intros Hi Hu. unfold sitemap, visit_sitemap.
  pose proof (loadSitemap_ok (requests c) sm) as Hl. pose proof (loadSitemap_length (requests c) sm) as Hn.
  destruct (loadSitemap _ _ _ _ _ _ _ _ _ _) as [urls n]. cbn [fst] in *.
  assert (Hr : forall k c, inv rules c -> inv rules (requested k c)) by (intros k c0 H; apply (Inv_same _ _ _ _ c0); try done; apply H).
  assert (Hf : forall c, inv rules c -> inv rules (sitemap_found c)) by (intros c0 H; apply (Inv_same _ _ _ _ c0); try done; apply H).
  destruct urls as [|u urls]; [split_and!; [by apply Hr|done|cbn [queue requested]; lia]|].
  destruct (sitemap_urls_ok rules (u :: urls) (sitemap_found (requested n c))) as (H1 & H2 & H3); [by apply Hf, Hr|done|done|].
  split_and!; [done|done|]. etransitivity; [exact H3|]. cbn [queue sitemap_found requested]. lia.
Qed.

Lemma visit_sitemaps_ok rules l : forall c, inv rules c -> unvisited c ->
  let c' := List.fold_left sitemap l c in
  inv rules c' /\ unvisited c' /\ (length (queue c') <= length (queue c) + Z.to_nat MaxPages * length l)%nat.
Proof using parse_string locs_max.
  induction l as [|sm l IH]; intros c Hi Hu; cbn [List.fold_left]; [split_and!; [done|done|lia]|].
  destruct (visit_sitemap_ok rules sm c Hi Hu) as (H1 & H2 & H3). destruct (IH _ H1 H2) as (H4 & H5 & H6).
  split_and!; [done|done|]. etransitivity; [exact H6|]. unfold length at 4. fold (length l). lia.
Qed.

(** The sitemaps a crawl reads. *)
Definition sitemaps_of : list string :=
  match (loadRobots parse url_string R priv str Do 0 root).2 with
  | [] => [url_string (with_path "/sitemap.xml" "" root)] | l => l
  end.

Lemma start_crawl_ok : let '(rules, found, c) := start_crawl parse url_string R priv str Do locs root in
  inv rules c /\ unvisited c /\
  (measure c <= 1 + Z.to_nat MaxPages * length sitemaps_of + MaxLinksPerPage * Z.to_nat MaxPages)%nat.
Proof using parse_string locs_max.
  unfold start_crawl, sitemaps_of. destruct (loadRobots _ _ _ _ _ _ _ _) as [[rules found] maps]. cbn [snd].
  set (maps' := match maps with [] => _ | _ => _ end). set (r := url_string root).
  destruct (visit_sitemaps_ok rules maps' (mk_crawl [(r, 0)] ∅ {[r]} 1 ∅ {[r]} ∅ [] 0 0 ∅ ∅ "" false 1)) as (H1 & H2 & H3).
  - split; cbn [queue seen known discovered pages external List.map fst length]; try done.
    + apply NoDup_singleton.
    + intros u k [[= <- <-]|[]]. split_and!; [set_solver|set_solver|unfold MaxDepth; lia|unfold MaxDepth; lia|apply parse_string|].
      exists root. split; [by right|]. unfold equal_fold. apply String.eqb_refl.
    + constructor.
    + rewrite map_size_empty. lia.
  - done.
  - split_and!; [done|done|]. unfold measure, sitemap in *. destruct H2 as (-> & _). cbn [length queue] in H3.
    rewrite Nat.sub_0_r. subst maps'. destruct maps; exact (proj1 (Nat.add_le_mono_r _ _ _) H3).
Qed.
End Start.

(** *** The end of a crawl *)

(** What the crawl's row says of the state of the walk. *)
Record reports (c : crawl) (r : Run) : Prop := {
  rp_status : r.(r_status) = "complete";
  rp_crawled : r.(r_crawled) = Z.of_nat (length c.(pages));
  rp_discovered : r.(r_discovered) = c.(discovered);
  rp_limit : r.(r_limit_reached) = (MaxPages <=? Z.of_nat (length c.(pages))) && negb (bool_decide (c.(queue) = []));
  rp_failed : r.(r_failed) = count (fun p => negb p.(p_ok)) c.(pages);
  rp_assets : [r.(r_css); r.(r_javascript); r.(r_image); r.(r_font); r.(r_media); r.(r_document); r.(r_data)]
              = List.map (fun cls => count_class cls c.(assets)) named_classes;
  rp_other : r.(r_other) = count (fun kv => negb (Smem kv.2 named_classes)) (map_to_list c.(assets));
  rp_internal : r.(r_internal) = c.(InternalLinks);
  rp_external : r.(r_external) = c.(ExternalLinks);
  rp_broken : r.(r_broken_internal) = count bad_page c.(pages) }.

(** The parts of the walk that the checks leave alone. *)
Definition settled (c c' : crawl) : Prop :=
  c'.(pages) = c.(pages) /\ c'.(discovered) = c.(discovered) /\ c'.(queue) = c.(queue) /\ c'.(assets) = c.(assets) /\
  c'.(InternalLinks) = c.(InternalLinks) /\ c'.(ExternalLinks) = c.(ExternalLinks).

#[export] Instance settled_refl : Reflexive settled.
Proof. by intros c. Qed.
#[export] Instance settled_trans : Transitive settled.
Proof. intros a b c (H1 & H2 & H3 & H4 & H5 & H6) (K1 & K2 & K3 & K4 & K5 & K6). unfold settled. repeat split; congruence. Qed.

(** Every asset is counted in one class. *)
Lemma classes_partition (l : list (string * string)) :
  let n cls := count (fun kv => kv.2 =?s cls) l in
  n "css" + n "javascript" + n "image" + n "font" + n "media" + n "document" + n "data"
  + count (fun kv => negb (Smem kv.2 named_classes)) l = Z.of_nat (length l).
Proof.
  cbv zeta. induction l as [|[k v] l IH]; [done|]. rewrite !count_cons. cbn [snd length].
  enough ((if v =?s "css" then 1 else 0) + (if v =?s "javascript" then 1 else 0) + (if v =?s "image" then 1 else 0)
    + (if v =?s "font" then 1 else 0) + (if v =?s "media" then 1 else 0) + (if v =?s "document" then 1 else 0)
    + (if v =?s "data" then 1 else 0) + (if negb (Smem v named_classes) then 1 else 0) = 1) by lia.
  unfold named_classes, Smem. cbn [existsb].
  repeat match goal with |- context [String.eqb v ?x] => destruct (String.eqb_spec v x) as [->|]; [reflexivity|] end.
  reflexivity.
Qed.

Section Finish.
Context (parse : string -> option curl) (url_string : curl -> string)
  (R : string -> result (list addr)) (priv : bool) (str : addr -> string)
  (Do : (Z -> curl -> result unit) -> nat -> string -> string -> result response).
Context (run site : Z) (clean : Prop).

Lemma finished_reports c c' robots be new now r : settled c c' ->
  reports c (finished_run c' robots (count bad_page c.(pages)) be new now r).
Proof.
  intros (H1 & H2 & H3 & H4 & H5 & H6). split; cbn; rewrite ?H1, ?H2, ?H3, ?H4, ?H5, ?H6; done.
Qed.

Lemma mark_broken_settled l : forall c, settled c (List.fold_left mark_broken l c).
Proof.
  induction l as [|p l IH]; intros c; [done|]. cbn [List.fold_left]. etransitivity; [|apply IH].
  unfold mark_broken. by destruct (bad_page p).
Qed.

Lemma check_external_settled l : forall s,
  settled s.1 (List.fold_left (check_external parse R priv str Do) l s).1.
Proof.
  induction l as [|x l IH]; intros s; [done|]. cbn [List.fold_left]. etransitivity; [|apply IH].
  destruct s as [c n]. unfold check_external. destruct (external c !! x); [|done].
  match goal with |- context [if ?b then (?x, ?y) else _] => destruct b end.
  all: match goal with |- context [if ?b then (broken _ _, _) else _] => destruct b end; done.
Qed.

(** The tables of a finished walk. *)
Definition kept (c : crawl) (w : cdb * faults) : Prop := clean -> w.2 = [] /\ stored run site (0, 0) c w.1.

Lemma update_links_kept kind to status bad e c :
  returns (kept c) (update_links run kind to status bad e) (fun _ w => kept c w).
Proof.
  unfold update_links, exec. apply returns_ignore. intros s fl Hk. unfold kept in *. cbn [fst snd] in *. split_and!.
  - intros [] s' [= <-] Hcl. destruct (Hk Hcl) as [-> [H1 H2 H3 H4 H5 H6]]. split; [done|].
    split; try done; cbn [c_links set_links]; rewrite <- ?H5, <- ?H6; f_equal.
    all: clear; induction (c_links s) as [|[r l] ls IH]; [done|]; cbn [upd List.map]; rewrite !count_cons.
    all: unfold upd in IH; rewrite IH; f_equal; cbn [fst snd]; by destruct (_ && _ && _).
  - done.
  - intros Hfl Hcl. by destruct (Hk Hcl) as [-> _].
Qed.

Lemma for_each_kept {A} (l : list A) (f : A -> M cdb unit) c :
  (forall x, returns (kept c) (f x) (fun _ w => kept c w)) -> returns (kept c) (for_each l f) (fun _ w => kept c w).
Proof.
  intros Hf. induction l as [|x l IH]; cbn [for_each]; [by apply returns_ret|].
  eapply returns_bind; [apply Hf|]. intros []. exact IH.
Qed.

Lemma finish_crawl_ok prev now robots c :
  returns (kept c) (finish_crawl parse R priv str Do run prev now robots c)
    (fun _ w => clean -> w.2 = [] /\ stored run site (0, 0) c w.1 /\
       exists r, find_first (fun r => r.(r_id) =? run) w.1.(c_runs) = Some r /\ r.(r_id) = run /\ reports c r).
Proof.
  unfold finish_crawl. set (c1 := List.fold_left mark_broken (pages c) c).
  set (keys := sort_by id _). pose proof (check_external_settled keys (c1, 0)) as Hs.
  destruct (List.fold_left _ keys (c1, 0)) as [c2 be]. cbn [fst] in Hs.
  assert (Hset : settled c c2) by (etransitivity; [apply mark_broken_settled|exact Hs]).
  eapply returns_bind. { apply for_each_kept. intros x. destruct (external c2 !! x); [apply update_links_kept|by apply returns_ret]. }
  intros []. eapply returns_bind. { apply for_each_kept. intros x. apply update_links_kept. }
  intros []. eapply returns_bind with (R := fun _ w => kept c w).
  { destruct (0 <? prev); [|by apply returns_ret]. unfold query. apply returns_ignore. intros s fl Hk. unfold kept in *. cbn [fst snd] in *. split_and!.
    - intros a s' [= <- <-] Hcl. destruct (Hk Hcl) as [-> Hst]. done.
    - done.
    - intros Hfl Hcl. by destruct (Hk Hcl) as [-> _]. }
  intros old. set (fin := finished_run c2 robots _ be _ now).
  eapply returns_bind with (R := fun _ w => clean -> w.2 = [] /\ stored run site (0, 0) c w.1 /\
       exists r, find_first (fun r => r.(r_id) =? run) w.1.(c_runs) = Some r /\ r.(r_id) = run /\ reports c r).
  - unfold update_run, exec. apply returns_ignore. intros s fl Hk. unfold kept in *. cbn [fst snd] in *. split_and!.
    + intros [] s' [= <-] Hcl. destruct (Hk Hcl) as [-> [H1 H2 H3 H4 H5 H6]]. split; [done|]. split.
      * split; try done. cbn [c_runs set_runs]. by rewrite run_kept.
      * cbn [fst c_runs set_runs]. rewrite find_first_upd by done.
        destruct (find_first (fun r => r_id r =? run) (c_runs s)) as [r|] eqn:E.
        -- apply find_first_Some in E as [_ E]. cbn. rewrite E. exists (fin r). apply Z.eqb_eq in E. split_and!; try done.
           by apply finished_reports.
        -- apply existsb_exists in H1 as (r & Hr & Hid). by rewrite (proj1 (find_first_None _ _) E r Hr) in Hid.
    + done.
    + intros Hfl Hcl. by destruct (Hk Hcl) as [-> _].
  - intros []. by apply returns_ret.
Qed.
End Finish.

(** *** The whole crawl *)

Lemma or_fail_query_cases {S A} (f : S -> A) msg s fl :
  or_fail (query f) msg (s, fl) = (Err msg, (s, List.tl fl)) /\ fl <> [] \/
  or_fail (query f) msg (s, fl) = (Ok (f s), (s, List.tl fl)).
Proof. unfold or_fail, query, stmt. destruct fl as [|[] fl]; auto. Qed.

Lemma ignore_query {S A} (a0 : A) (f : S -> A) s fl : exists a, ignore a0 (query f) (s, fl) = (Ok a, (s, List.tl fl)).
Proof. unfold ignore, query, stmt. destruct fl as [|[] fl]; eauto. Qed.


(** Pages and links belong to a run. *)
Definition crawl_wf (d : cdb) : Prop :=
  (forall rp, In rp d.(c_pages) -> In rp.1 (List.map r_id d.(c_runs))) /\
  (forall rl, In rl d.(c_links) -> In rl.1 (List.map r_id d.(c_runs))).

Lemma count_map {A B} (f : A -> B) (q : B -> bool) l : count q (List.map f l) = count (fun x => q (f x)) l.
Proof. induction l as [|x l IH]; [done|]. cbn [List.map]. by rewrite !count_cons, IH. Qed.
(** The assets of an answer are those of the walk, each once. *)
Lemma class_count_perm q (l : list Page) (a : gmap string string) : List.map (fun p => (p.(p_url), p.(p_class))) l ≡ₚ map_to_list a ->
  count (fun p => q p.(p_class)) l = count (fun kv => q kv.2) (map_to_list a).
Proof. intros H. rewrite <- (count_perm _ _ _ H). by rewrite count_map. Qed.
Lemma assets_once (l : list Page) (a : gmap string string) : List.map (fun p => (p.(p_url), p.(p_class))) l ≡ₚ map_to_list a -> NoDup (List.map p_url l).
Proof.
  intros H. pose proof (NoDup_fst_map_to_list a) as Hn. rewrite <- (fmap_Permutation fst _ _ H) in Hn.
  assert (List.map p_url l = (List.map (fun p => (p.(p_url), p.(p_class))) l).*1) as -> by (clear; induction l as [|x l IH]; [done|]; cbn; by rewrite IH). done.
Qed.
(** The links of one kind, in the table and among those of the run. *)
Lemma count_links_where run k d : count (fun rl => (rl.1 =? run) && (rl.2.(k_kind) =?s k)) d.(c_links) = count (fun l => l.(k_kind) =?s k) (links_where run d).
Proof.
  unfold links_where. induction d.(c_links) as [|[r l] ls IH]; [done|]. rewrite count_cons, IH. cbn [List.filter fst snd].
  destruct (r =? run); cbn [andb List.map]; [by rewrite count_cons|lia].
Qed.

(** The answer of a crawl tells the state of its walk, and is what is stored. *)
Record told (c : crawl) (t : Detail) (d : cdb) : Prop := {
  td_reports : reports c t.(t_run);
  td_pages : t.(t_pages) = c.(pages);
  td_assets : List.map (fun p => (p.(p_url), p.(p_class))) t.(t_assets) ≡ₚ map_to_list c.(assets);
  td_links : t.(t_links) = firstn 1000 (links_where t.(t_run).(r_id) d);
  td_internal : count (fun l => l.(k_kind) =?s "internal") (links_where t.(t_run).(r_id) d) = c.(InternalLinks);
  td_external : count (fun l => l.(k_kind) =?s "external") (links_where t.(t_run).(r_id) d) = c.(ExternalLinks);
  td_stored : find_first (fun r => r.(r_id) =? t.(t_run).(r_id)) d.(c_runs) = Some t.(t_run) }.

Lemma crawl_answer_ok run site t0 t1 c fin d fl : exists t fl', crawl_answer run site t0 t1 c fin (d, fl) = (Ok t, (d, fl')) /\
  (fl = [] -> forall r, find_first (fun r => r.(r_id) =? run) d.(c_runs) = Some r -> r.(r_id) = run ->
     stored run site (0, 0) c d -> reports c r -> told c t d).
Proof.
  unfold crawl_answer. assert (Hro : readonly (DetailOf run)) by (unfold DetailOf; solve_readonly).
  destruct (DetailOf run (d, fl)) as [[t|e] [d' fl']] eqn:E; pose proof (Hro _ _ _ _ _ E) as ->.
  - exists t, fl'. split; [done|]. intros -> r Hr Hid Hst Hrep. unfold DetailOf, or_fail, bind in E.
    rewrite query_nil, Hr, !query_nil in E. cbn in E. injection E as <- _. split; cbn [t_run t_pages t_assets t_links].
    + done.
    + apply Hst.
    + apply Hst.
    + by rewrite Hid.
    + rewrite Hid, <- count_links_where, <- (sd_internal _ _ _ _ _ Hst). cbn. lia.
    + rewrite Hid, <- count_links_where, <- (sd_external _ _ _ _ _ Hst). cbn. lia.
    + by rewrite Hid.
  - eexists _, fl'. split; [done|]. intros -> r Hr Hid Hst Hrep. exfalso. unfold DetailOf, or_fail, bind in E.
    rewrite query_nil, Hr, !query_nil in E. by cbn in E.
Qed.

Section Whole.
Context (parse : string -> option curl) (url_string : curl -> string) (resolve : curl -> curl -> curl)
  (R : string -> result (list addr)) (priv : bool) (str : addr -> string)
  (Do : (Z -> curl -> result unit) -> nat -> string -> string -> result response)
  (aHref linkTag : string -> list string) (linkRel linkHref : string -> option string)
  (srcs srcsets : string -> list string) (locs : nat -> string -> list string).
Hypothesis parse_string : forall u, parse (url_string u) <> None.
Hypothesis locs_max : forall n b, (length (locs n b) <= n)%nat.
Context (site : Z) (root : curl).
Let start := start_crawl parse url_string R priv str Do locs root.
Let rules := start.1.1.
Let crawl_site fuel := CrawlSite parse url_string resolve R priv str Do aHref linkTag linkRel linkHref srcs srcsets locs fuel site.

Definition crawl_fuel : nat :=
  2 + Z.to_nat MaxPages * length (sitemaps_of parse url_string R priv str Do root) + MaxLinksPerPage * Z.to_nat MaxPages.

(** The walk and its checks, from a run that has just been inserted. *)
Definition walk (fuel : nat) (run prev now : Z) : M cdb (crawl * Run) :=
  let* c := crawl_loop parse url_string resolve R priv str Do aHref linkTag linkRel linkHref srcs srcsets fuel run site root rules start.2 in
  let* fin := finish_crawl parse R priv str Do run prev now start.1.2 c in ret (c, fin).

Lemma walk_ok fuel run prev now (clean : Prop) : (crawl_fuel <= fuel)%nat ->
  returns (fun w => clean -> w.2 = [] /\ existsb (fun r => r.(r_id) =? run) w.1.(c_runs) = true /\
             site_exists site w.1.(c_fleet) = true /\ (forall k, pages_where run k w.1 = []) /\
             (forall rl, In rl w.1.(c_links) -> rl.1 <> run))
    (walk fuel run prev now)
    (fun cf w => Inv parse url_string root rules cf.1 /\ (clean -> w.2 = [] /\ stored run site (0, 0) cf.1 w.1 /\
       exists r, find_first (fun r => r.(r_id) =? run) w.1.(c_runs) = Some r /\ r.(r_id) = run /\ reports cf.1 r)).
Proof using parse_string locs_max.
  intros Hf. unfold walk.
  assert (Hst : let '(rules, found, c) := start in Inv parse url_string root rules c /\ unvisited c /\
    (measure c <= 1 + Z.to_nat MaxPages * length (sitemaps_of parse url_string R priv str Do root) + MaxLinksPerPage * Z.to_nat MaxPages)%nat)
    by exact (start_crawl_ok parse url_string R priv str Do locs root parse_string locs_max).
  unfold rules. destruct start as [[rs found] c0]. cbn [fst snd]. destruct Hst as (Hi & (Hp & Ha & Hl & He) & Hm).
  eapply returns_bind.
  { eapply returns_weaken; [apply (crawl_loop_good parse url_string resolve R priv str Do aHref linkTag linkRel linkHref srcs srcsets run site root rs clean fuel c0)| |intros a w Hw; exact Hw].
    - unfold crawl_fuel in Hf. unfold measure in *. lia.
    - intros w Hw. split; [done|]. intros Hcl. destruct (Hw Hcl) as (H1 & H2 & H3 & H4 & H5). split; [done|].
      split; rewrite ?Hp, ?Ha, ?Hl, ?He, ?H4; try done.
      all: cbn [fst snd]; rewrite Z.add_0_r; unfold count; rewrite filter_none; [done|].
      all: intros rl Hrl; apply andb_false_iff; left; apply Z.eqb_neq; by apply H5. }
  intros c. apply returns_pure. intros _. apply returns_good. intros Hic. eapply returns_bind.
  { eapply returns_weaken; [apply (finish_crawl_ok parse R priv str Do run site clean prev now found c)|by intros w [_ Hw]|intros a w Hw; exact Hw]. }
  intros fin. apply returns_ret. intros w Hw. by split.
Qed.

(** [CrawlSite], once the site has been found. *)
Lemma CrawlSite_run fuel t0 t1 d fl s : (crawl_fuel <= fuel)%nat ->
  find_first (fun s => (s.(s_id) =? site) && unarchived s) d.(c_fleet).(sites) = Some s ->
  no_fragment <$> parse s.(s_url) = Some root ->
  let '(r, (d', _)) := crawl_site fuel t0 t1 (d, fl) in
  (r = Err "site not found" \/ r = Err "database error") /\ fl <> [] \/
  exists t c, r = Ok t /\ Inv parse url_string root rules c /\
    (fl = [] -> crawl_wf d -> told c t d').
Proof using parse_string locs_max.
  intros Hf Hs Hr. unfold crawl_site, CrawlSite. unfold bind at 1.
  destruct (or_fail_query_cases (fun d => s_url <$> find_first (fun s => (s.(s_id) =? site) && unarchived s) d.(c_fleet).(sites))
    "site not found" d fl) as [[-> Hfl]| ->]; [left; auto|].
  rewrite Hs. cbn [fmap option_fmap option_map]. destruct (parse (s_url s)) as [root0|] eqn:Ep; [|done]. injection Hr as Hr. rewrite Hr.
  unfold bind at 1. destruct (ignore_query None (fun d => find_last (fun r => (r.(r_site) =? site) && (r.(r_status) =?s "complete")) d.(c_runs))
    d (List.tl fl)) as [prev ->]. set (prev_id := match prev with Some r => _ | None => 0 end).
  unfold bind at 1. assert (Hse : site_exists site d.(c_fleet) = true).
  { apply find_first_Some in Hs as [Hin Hp]. apply andb_true_iff in Hp as [Hp _]. apply Z.eqb_eq in Hp. subst site. by apply site_exists_In. }
  unfold stmt at 1. unfold insert_crawl_run at 1 2. rewrite Hse.
  set (run := fresh_id _). set (d1 := set_runs _ d). set (fl2 := List.tl (List.tl fl)).
  assert (Hwalk : forall fl3, (fl = [] -> fl3 = []) -> exists t c d' fl4,
    (let '(rules, found, c) := start in
      let* c := crawl_loop parse url_string resolve R priv str Do aHref linkTag linkRel linkHref srcs srcsets fuel run site root rules c in
      let* fin := finish_crawl parse R priv str Do run prev_id t1 found c in crawl_answer run site t0 t1 c fin) (d1, fl3)
    = (Ok t, (d', fl4)) /\ Inv parse url_string root rules c /\
    (fl = [] -> crawl_wf d -> told c t d')).
  { intros fl3 Hfl3. destruct (walk_ok fuel run prev_id t1 (fl = [] /\ crawl_wf d) Hf (d1, fl3)) as ([c fin] & [d2 fl4] & E & Hi & Hcl).
    { intros [Hfl [Hw1 Hw2]]. cbn [fst snd]. split_and!; [by apply Hfl3| | | |].
      - cbn. rewrite existsb_app. cbn. by rewrite Z.eqb_refl, orb_true_r.
      - done.
      - intros k. unfold pages_where. rewrite filter_none; [done|]. intros rp Hrp. apply andb_false_iff. left. apply Z.eqb_neq. intros Hx.
        apply Hw1 in Hrp. rewrite Hx in Hrp. by apply fresh_id_notin in Hrp.
      - intros rl Hrl Hx. apply Hw2 in Hrl. rewrite Hx in Hrl. by apply fresh_id_notin in Hrl. }
    unfold walk in E. unfold start, rules in *. destruct (start_crawl _ _ _ _ _ _ _ _) as [[rs found] c0]. cbn [fst snd] in *.
    unfold bind in *. destruct (crawl_loop _ _ _ _ _ _ _ _ _ _ _ _ _ _ _ _ _ _ _ _) as [[c1|] [d3 fl5]]; [|done].
    destruct (finish_crawl _ _ _ _ _ _ _ _ _ _ _) as [[fin1|] [d4 fl6]] eqn:Efin; [|done]. injection E as -> -> -> ->.
    destruct (crawl_answer_ok run site t0 t1 c fin d2 fl4) as (t & fl7 & -> & Ht).
    exists t, c, d2, fl7. split; [done|]. split; [done|]. intros Hfl Hwf.
    destruct (Hcl (conj Hfl Hwf)) as (Hfl4 & Hst & r & Hrow & Hid & Hrep). cbn [fst snd] in *.
    apply (Ht Hfl4 r Hrow Hid Hst Hrep). }
  unfold start in Hwalk. fold fl2.
  destruct fl2 as [|[] fl3] eqn:Efl.
  - destruct (Hwalk (List.tl []) ltac:(done)) as (t & c & d' & fl4 & -> & H). right. by exists t, c.
  - left. split; [by right|]. by destruct fl.
  - destruct (Hwalk (List.tl (false :: fl3))) as (t & c & d' & fl4 & -> & H); [by intros ->|]. right. by exists t, c.
Qed.
End Whole.

(** ** Properties *)

(** C5: a crawl always comes to an end: whatever the site answers, however its
    links and sitemaps are made and whatever statements the database refuses,
    a number of steps known from the number of its sitemaps is enough for it to
    return; it fails only when the site or its new run cannot be stored or
    read, and it never visits a URL that does not parse. *)
Theorem crawl_always_answers parse url_string resolve R priv str Do aHref linkTag linkRel linkHref srcs srcsets locs
    site root fuel t0 t1 d fl s :
  (forall u, parse (url_string u) <> None) -> (forall n b, (length (locs n b) <= n)%nat) ->
  find_first (fun s => (s.(s_id) =? site) && unarchived s) d.(c_fleet).(sites) = Some s ->
  no_fragment <$> parse s.(s_url) = Some root ->
  (crawl_fuel parse url_string R priv str Do root <= fuel)%nat ->
  let r := (CrawlSite parse url_string resolve R priv str Do aHref linkTag linkRel linkHref srcs srcsets locs fuel
              site t0 t1 (d, fl)).1 in
  is_ok r = true \/ (r = Err "site not found" \/ r = Err "database error") /\ fl <> [].
Proof.
  intros Hp Hl Hs Hr Hf. cbv zeta.
  pose proof (CrawlSite_run parse url_string resolve R priv str Do aHref linkTag linkRel linkHref srcs srcsets locs Hp Hl
    site root fuel t0 t1 d fl s Hf Hs Hr) as H.
  cbv zeta beta in H. destruct (CrawlSite _ _ _ _ _ _ _ _ _ _ _ _ _ _ _ _ _ _ _) as [r [d' fl']]. cbn [fst].
  destruct H as [H|(t & c & -> & _)]; [by right|by left].
Qed.

(** C4: the report of a crawl is true, and the crawl keeps its limits: every page
    in it is a distinct URL of the site that robots.txt allows, at most eight
    links from the root or a sitemap, and there are at most 500.  The run that is
    answered is the stored one.  Its counters of crawled, failed and broken pages are
    those of the pages of the answer; its counters of the eight classes of assets are
    those of the assets of the answer, which are distinct URLs; its counters of
    internal and external links are those of the links that are stored for it, of
    which the answer has the first thousand; and it says that it was cut short only
    with 500 pages.  (No statement is refused; the counters of sitemap URLs, of broken
    external links and of newly broken ones are not spoken of.) *)
Theorem crawl_report_is_true parse url_string resolve R priv str Do aHref linkTag linkRel linkHref srcs srcsets locs
    site root fuel t0 t1 d s :
  (forall u, parse (url_string u) <> None) -> (forall n b, (length (locs n b) <= n)%nat) ->
  find_first (fun s => (s.(s_id) =? site) && unarchived s) d.(c_fleet).(sites) = Some s ->
  no_fragment <$> parse s.(s_url) = Some root -> crawl_wf d ->
  (crawl_fuel parse url_string R priv str Do root <= fuel)%nat ->
  let rules := (loadRobots parse url_string R priv str Do 0 root).1.1 in
  exists t d', run (CrawlSite parse url_string resolve R priv str Do aHref linkTag linkRel linkHref srcs srcsets locs fuel
                      site t0 t1) d = (Ok t, d') /\
    let r := t.(t_run) in
    find_first (fun x => x.(r_id) =? r.(r_id)) d'.(c_runs) = Some r /\ r.(r_status) = "complete" /\
    NoDup (List.map p_url t.(t_pages)) /\
    (forall p, In p t.(t_pages) -> on_site parse url_string root p.(p_url) /\ 0 <= p.(p_depth) <= 8 /\
       exists v, parse p.(p_url) = Some v /\ disallowed rules v.(l_path) = false) /\
    r.(r_crawled) = Z.of_nat (length t.(t_pages)) /\ r.(r_crawled) <= 500 /\ r.(r_crawled) <= r.(r_discovered) /\
    r.(r_failed) = count (fun p => negb p.(p_ok)) t.(t_pages) /\ r.(r_broken_internal) = count bad_page t.(t_pages) /\
    NoDup (List.map p_url t.(t_assets)) /\
    [r.(r_css); r.(r_javascript); r.(r_image); r.(r_font); r.(r_media); r.(r_document); r.(r_data)]
      = List.map (fun cls => count (fun p => p.(p_class) =?s cls) t.(t_assets)) named_classes /\
    r.(r_other) = count (fun p => negb (Smem p.(p_class) named_classes)) t.(t_assets) /\
    r.(r_css) + r.(r_javascript) + r.(r_image) + r.(r_font) + r.(r_media) + r.(r_document) + r.(r_data) + r.(r_other)
      = Z.of_nat (length t.(t_assets)) /\
    (let links := links_where r.(r_id) d' in t.(t_links) = firstn 1000 links /\
       r.(r_internal) = count (fun l => l.(k_kind) =?s "internal") links /\ r.(r_external) = count (fun l => l.(k_kind) =?s "external") links) /\
    (r.(r_limit_reached) = true -> r.(r_crawled) = 500).
Proof.
  intros Hp Hl Hs Hr Hw Hf. cbv zeta.
  pose proof (CrawlSite_run parse url_string resolve R priv str Do aHref linkTag linkRel linkHref srcs srcsets locs Hp Hl
    site root fuel t0 t1 d [] s Hf Hs Hr) as H.
  cbv zeta beta in H. unfold run. destruct (CrawlSite _ _ _ _ _ _ _ _ _ _ _ _ _ _ _ _ _ _ _) as [r [d' fl']].
  destruct H as [[_ H]|(t & c & -> & Hi & H)]; [done|]. destruct (H eq_refl Hw) as [[R1 R2 R3 R4 R5 R6 R6' R7 R8 R9] Tp Ta Tl Ti Te Ts].
  assert (Hrules : (start_crawl parse url_string R priv str Do locs root).1.1 = (loadRobots parse url_string R priv str Do 0 root).1.1)
    by (unfold start_crawl; by destruct (loadRobots _ _ _ _ _ _ _ _) as [[? ?] ?]).
  rewrite Hrules in Hi. destruct Hi as [I1 I2 I3 I4 I5 I6 I7 I8]. unfold MaxPages in *.
  pose proof (fun q => class_count_perm q _ _ Ta) as Hn.
  assert ([r_css t.(t_run); r_javascript t.(t_run); r_image t.(t_run); r_font t.(t_run); r_media t.(t_run); r_document t.(t_run); r_data t.(t_run)]
      = List.map (fun cls => count (fun p => p.(p_class) =?s cls) t.(t_assets)) named_classes) as R6a.
  { rewrite R6. unfold count_class. cbn [List.map named_classes]. by rewrite <- !(Hn (fun v => v =?s _)). }
  assert (r_other t.(t_run) = count (fun p => negb (Smem p.(p_class) named_classes)) t.(t_assets)) as R6b by (rewrite R6'; symmetry; apply (Hn (fun v => negb (Smem v named_classes)))).
  exists t, d'. rewrite Tp. split; [done|]. split_and!; try done; try lia.
  - intros p Hin. destruct (I4 p Hin) as (_ & H2 & H3 & H4). done.
  - apply (assets_once _ _ Ta).
  - pose proof (classes_partition (List.map (fun p => (p.(p_url), p.(p_class))) t.(t_assets))) as Hsum. cbv zeta in Hsum. rewrite length_map in Hsum.
    rewrite <- Hsum, R6b. injection R6a as -> -> -> -> -> -> ->. by rewrite !count_map.
  - intros Hlim. rewrite R4 in Hlim. apply andb_true_iff in Hlim as [Hlim _]. apply Z.leb_le in Hlim. lia.
Qed.

(** A site whose sitemap names a page that is gone and that no page links to. *)
Definition demo_parse (s : string) : option curl :=
  if has_prefix s "http://" then
    let '(h, p) := split2 "/" (trim_prefix s "http://") in
    Some (mk_curl "http" h (match p with Some p => "/" ++ p | None => "" end) "" "" "")
  else Some (mk_curl "" "" s "" "" "").
Definition demo_show (u : curl) : string :=
  if u.(l_scheme) =?s "" then u.(l_path) else u.(l_scheme) ++ "://" ++ u.(l_hostname) ++ u.(l_path).
Definition demo_do (_ : Z -> curl -> result unit) (_ : nat) (method u : string) : result response :=
  if u =?s "http://h/" then Ok (mk_resp 200 u "text/html" (fun _ => Ok "home"))
  else if u =?s "http://h/sitemap.xml" then Ok (mk_resp 200 u "text/xml" (fun _ => Ok "http://h/gone"))
  else Ok (mk_resp 404 u "text/html" (fun _ => Ok "")).
Definition demo_locs (n : nat) (b : string) : list string := firstn n [b].
Definition demo_cdb : cdb :=
  mk_cdb (set_orgs [1] (set_sites [mk_site 1 1 "h" "http://h/" true None None 0 0 None] empty_db)) [] [] [].
Definition demo_crawl (fuel : nat) (t0 t1 : Z) : M cdb Detail :=
  CrawlSite demo_parse demo_show (fun _ u => u) (fun _ => Ok [V4 134744072]) false (fun _ => "") demo_do
    (fun _ => []) (fun _ => []) (fun _ => None) (fun _ => None) (fun _ => []) (fun _ => []) demo_locs fuel 1 t0 t1.

(** A regression that never ends: a broken page that only the sitemap names
    is counted as newly broken by every crawl, since the verdicts of the last
    crawl are looked up among its links and no link leads to the page. *)
Theorem unlinked_broken_page_is_always_new :
  let '(r1, d1) := run (demo_crawl 10 1 2) demo_cdb in
  let '(r2, d2) := run (demo_crawl 10 3 4) d1 in
  let '(r3, _) := run (demo_crawl 10 5 6) d2 in
  Forall (fun r => exists t, r = Ok t /\ List.map p_url t.(t_pages) = ["http://h/"; "http://h/gone"] /\
    t.(t_run).(r_new_broken) = 1 /\ t.(t_links) = []) [r1; r2; r3].
Proof. vm_compute. repeat constructor; eexists; split_and!; reflexivity. Qed.

(** A group of robots.txt that names two agents is split: its rules apply to
    every agent only when the star is named last. *)
Theorem robots_groups_are_split :
  let file a b := "User-agent: " ++ a ++ String newline ("User-agent: " ++ b ++ String newline "Disallow: /private") in
  (parse_robots (file "other" "*")).(rb_rules) = ["/private"] /\ (parse_robots (file "*" "other")).(rb_rules) = [].
Proof. vm_compute. split; reflexivity. Qed.

(** ** Witnesses *)

Lemma demo_parses u : demo_parse (demo_show u) <> None.
Proof. unfold demo_parse. destruct (has_prefix _ _); [|done]. by destruct (split2 _ _). Qed.

Lemma crawl_always_answers_witness :
  is_ok (demo_crawl (crawl_fuel demo_parse demo_show (fun _ => Ok [V4 134744072]) false (fun _ => "") demo_do
           (mk_curl "http" "h" "/" "" "" "")) 1 2 (demo_cdb, [])).1 = true.
Proof.
  destruct (crawl_always_answers demo_parse demo_show (fun _ u => u) (fun _ => Ok [V4 134744072]) false (fun _ => "") demo_do
    (fun _ => []) (fun _ => []) (fun _ => None) (fun _ => None) (fun _ => []) (fun _ => []) demo_locs 1
    (mk_curl "http" "h" "/" "" "" "") _ 1 2 demo_cdb [] (mk_site 1 1 "h" "http://h/" true None None 0 0 None)
    demo_parses (fun n b => firstn_le_length n [b]) eq_refl eq_refl (le_n _)) as [H|[_ H]]; [exact H|by destruct H].
Defined.

Lemma crawl_report_is_true_witness : exists t d',
  run (demo_crawl (crawl_fuel demo_parse demo_show (fun _ => Ok [V4 134744072]) false (fun _ => "") demo_do
           (mk_curl "http" "h" "/" "" "" "")) 1 2) demo_cdb = (Ok t, d') /\ t.(t_run).(r_crawled) <= 500.
Proof.
  destruct (crawl_report_is_true demo_parse demo_show (fun _ u => u) (fun _ => Ok [V4 134744072]) false (fun _ => "") demo_do
    (fun _ => []) (fun _ => []) (fun _ => None) (fun _ => None) (fun _ => []) (fun _ => []) demo_locs 1
    (mk_curl "http" "h" "/" "" "" "") _ 1 2 demo_cdb (mk_site 1 1 "h" "http://h/" true None None 0 0 None)
    demo_parses (fun n b => firstn_le_length n [b]) eq_refl eq_refl
    (conj (fun _ H => False_ind _ H) (fun _ H => False_ind _ H)) (le_n _)) as (t & d' & E & _ & _ & _ & _ & _ & H & _).
  exists t, d'. split; [exact E|exact H].
Defined.
