(* ===== verification/Analytics.v ===== *)
(** Site analytics ([internal/analytics/analytics.go]) and the retention of
    [internal/maintenance/maintenance.go]: properties, the ingestion of tracker
    events with its limits and its anonymous visitors, the daily rollups, the
    reports over a window of days, goals, and the deletion of old rows.

    A day is the number of the UTC day, in place of its text, which orders the
    same.  Parameters: the HMAC, the two address parsers, JSON validation, the
    country database, [url.Parse] and the random keys. *)
From S2P Require Import Prelude GoStr TimeText SqlM FleetDb RateLimit Sites.
Open Scope string_scope.
Open Scope Z_scope.
Open Scope wf_scope.
Open Scope sql_scope.

(** ** Definitions *)

Record Property := mk_prop {
  ap_id : Z; ap_site : Z; ap_key : string; ap_enabled : bool; ap_origin : string; ap_created : Z }.
Record event_row := mk_ev {
  ev_pid : Z; ev_kind : string; ev_path : string; ev_referrer : string; ev_visitor : string;
  ev_class : string; ev_payload : string; ev_country : string; ev_at : Z }.
Record daily_row := mk_daily { dy_pid : Z; dy_day : Z; dy_pageviews : Z; dy_visitors : Z }.
Record goal_row := mk_goal {
  gl_id : Z; gl_pid : Z; gl_name : string; gl_kind : string; gl_path : string; gl_created : Z }.
Record retention := mk_retention { check_days : Z; analytics_raw_days : Z; audit_days : Z }.

(** The analytics tables, the checks and audits that retention deletes, and the
    two limiters of the service. *)
Record adb := mk_adb {
  a_fleet : db; props : list Property; events : list event_row; daily : list daily_row;
  seen_visitors : list (Z * Z * string); goals : list goal_row;
  audits : list (Z * Z); audit_history : list Z; kept_for : retention;
  validLim : rateLimiter; badLim : rateLimiter }.

Definition set_props v d := mk_adb d.(a_fleet) v d.(events) d.(daily) d.(seen_visitors) d.(goals) d.(audits) d.(audit_history) d.(kept_for) d.(validLim) d.(badLim).
Definition set_events v d := mk_adb d.(a_fleet) d.(props) v d.(daily) d.(seen_visitors) d.(goals) d.(audits) d.(audit_history) d.(kept_for) d.(validLim) d.(badLim).
Definition set_daily v d := mk_adb d.(a_fleet) d.(props) d.(events) v d.(seen_visitors) d.(goals) d.(audits) d.(audit_history) d.(kept_for) d.(validLim) d.(badLim).
Definition set_visitors v d := mk_adb d.(a_fleet) d.(props) d.(events) d.(daily) v d.(goals) d.(audits) d.(audit_history) d.(kept_for) d.(validLim) d.(badLim).
Definition set_goals v d := mk_adb d.(a_fleet) d.(props) d.(events) d.(daily) d.(seen_visitors) v d.(audits) d.(audit_history) d.(kept_for) d.(validLim) d.(badLim).
Definition set_limiters v b d := mk_adb d.(a_fleet) d.(props) d.(events) d.(daily) d.(seen_visitors) d.(goals) d.(audits) d.(audit_history) d.(kept_for) v b.
Definition set_retention v d := mk_adb d.(a_fleet) d.(props) d.(events) d.(daily) d.(seen_visitors) d.(goals) d.(audits) d.(audit_history) v d.(validLim) d.(badLim).
Definition set_fleet v d := mk_adb v d.(props) d.(events) d.(daily) d.(seen_visitors) d.(goals) d.(audits) d.(audit_history) d.(kept_for) d.(validLim) d.(badLim).
Definition set_audits v d := mk_adb d.(a_fleet) d.(props) d.(events) d.(daily) d.(seen_visitors) d.(goals) v d.(audit_history) d.(kept_for) d.(validLim) d.(badLim).

(** The limiters of [NewWithOptions]. *)
Definition newLimiters : rateLimiter * rateLimiter :=
  (newRateLimiter minute 300 20000, newRateLimiter minute 60 20000).

(** A step on the memory of the service, which no statement of a database
    refuses. *)
Definition act {S A} (f : S -> A * S) : M S A := fun '(s, fl) => let '(a, s') := f s in (Ok a, (s', fl)).

Definition allow_valid (key : string) (t : Z) (d : adb) : bool * adb :=
  let '(ok, l) := Allow key t d.(validLim) in (ok, set_limiters l d.(badLim) d).
Definition allow_bad (key : string) (t : Z) (d : adb) : bool * adb :=
  let '(ok, l) := Allow key t d.(badLim) in (ok, set_limiters d.(validLim) l d).

Record Event := mk_Event { e_key : string; e_kind : string; e_path : string; e_referrer : string; e_payload : string }.

Fixpoint hasControlChars (s : string) : bool :=
  match s with
  | EmptyString => false
  | String c s' => (nat_of_ascii c <? 32)%nat || (nat_of_ascii c =? 127)%nat || hasControlChars s'
  end.

(** [weeklyBucket]: the week since 2024-01-01, in seven digits; [time.Time.Sub]
    saturates. *)
Definition weeklyEpoch : Z := 19723 * day.
Definition week : Z := 7 * day.
Fixpoint zeros (n : nat) : string := match n with O => "" | S n => String "0" (zeros n) end.
Definition pad (n : nat) (s : string) : string := zeros (n - String.length s) ++ s.
Definition weeklyBucket (t : Z) : string :=
  let w := Z.quot (Z.max int64_min (Z.min int64_max (t - weeklyEpoch))) week in
  "W" ++ if w <? 0 then "-" ++ pad 6 (format_int (- w)) else pad 7 (format_int w).

Definition clientClass (ua : string) : string :=
  let l := to_lower ua in
  if contains l "bot" || contains l "crawler" || contains l "spider" then "bot"
  else if contains l "mobile" then "mobile" else "desktop".

Definition day_of (t : Z) : Z := t / day.

(** The statements of the rollup. *)
Definition is_daily (pid day : Z) (r : daily_row) : bool := (r.(dy_pid) =? pid) && (r.(dy_day) =? day).
Definition count_pageview (pid day : Z) (d : adb) : adb :=
  if existsb (is_daily pid day) d.(daily)
  then set_daily (upd (is_daily pid day) (fun r => mk_daily r.(dy_pid) r.(dy_day) (r.(dy_pageviews) + 1) r.(dy_visitors)) d.(daily)) d
  else set_daily (d.(daily) ++ [mk_daily pid day 1 0])%list d.
Definition count_visitor (pid day : Z) (d : adb) : adb :=
  set_daily (upd (is_daily pid day) (fun r => mk_daily r.(dy_pid) r.(dy_day) r.(dy_pageviews) (r.(dy_visitors) + 1)) d.(daily)) d.
Definition visited (pid day : Z) (v : string) (d : adb) : bool :=
  existsb (fun x => (x.1.1 =? pid) && (x.1.2 =? day) && (x.2 =?s v)) d.(seen_visitors).
Definition insert_visitor (pid day : Z) (v : string) (d : adb) : option (unit * adb) :=
  if visited pid day v d then None else Some (tt, set_visitors (d.(seen_visitors) ++ [(pid, day, v)])%list d).

(** The rollup of one request: statements of their own, not a transaction.  [Ingest]
    runs them in a row; what two requests at once may do is an example below
    ([two_first_views_count_twice]). *)
Definition first_view (pid day : Z) (v : string) (before : bool) : M adb unit :=
  if before then ret tt
  else ignore tt (stmt (insert_visitor pid day v)) ;;; ignore tt (exec (count_visitor pid day)).
Definition rollup (pid day : Z) (v : string) : M adb unit :=
  ignore tt (exec (count_pageview pid day)) ;;;
  let* before := ignore false (query (visited pid day v)) in
  first_view pid day v before.

Section Analytics.
Variable hmac : string -> string -> string.
Variable ParseAddr ParseAddrPort : string -> option string.
Variable json_valid : string -> bool.
(** The loaded country database, or none. *)
Variable gdb : option (string -> string).
(** [url.Parse]: the scheme and the host. *)
Variable parse : string -> option (string * string).
Variable salt : string.
Variable allowNoOrigin : bool.

Definition normalizedIP (ip : string) : string :=
  match ParseAddr ip with
  | Some a => a
  | None => match ParseAddrPort ip with Some a => a | None => trim_space ip end
  end.

Definition visitor_key (ip : string) (now : Z) : string := hmac salt (weeklyBucket now ++ "|" ++ normalizedIP ip).
Definition country_of (ip : string) : string := match gdb with Some f => f ip | None => "" end.

(** [Ingest], at the instants [t] of the limiter, [now] of the day and the
    bucket, and [at_] of the row. *)
Definition Ingest (ev : Event) (origin ip ua : string) (t now at_ : Z) : M adb unit :=
  let* x := attempt (query (fun d => find_first (fun p => p.(ap_key) =?s ev.(e_key)) d.(props))) in
  match x with
  | Err _ | Ok None =>
      let* ok := act (allow_bad ("ip:" ++ ip) t) in
      throw (if ok then "unknown analytics property" else "analytics rate limited")
  | Ok (Some p) =>
      if negb p.(ap_enabled) then throw "analytics disabled"
      else if (origin =?s "") && negb allowNoOrigin then throw "analytics origin required"
      else if negb (origin =?s "") && negb (origin =?s p.(ap_origin)) then throw "origin not allowed"
      else
        let kind := if ev.(e_kind) =?s "" then "pageview" else ev.(e_kind) in
        if (64 <? len kind) || hasControlChars kind then throw "invalid analytics event kind" else
        let path := if ev.(e_path) =?s "" then "/" else ev.(e_path) in
        if (2048 <? len path) || (2048 <? len ev.(e_referrer)) || (8192 <? len ev.(e_payload))
        then throw "analytics event too large"
        else if negb (ev.(e_payload) =?s "") && negb (json_valid ev.(e_payload))
        then throw "analytics payload must be valid JSON"
        else
          let* ok := act (allow_valid ("ip:" ++ ip ++ ":pid:" ++ format_int p.(ap_id)) t) in
          if negb ok then throw "analytics rate limited" else
          let v := visitor_key ip now in
          let class := clientClass ua in
          if class =?s "bot" then ret tt else
          exec (fun d => set_events (d.(events) ++ [mk_ev p.(ap_id) kind path ev.(e_referrer) v class ev.(e_payload)
                                                     (country_of ip) at_])%list d) ;;;
          if kind =?s "pageview" then rollup p.(ap_id) (day_of now) v else ret tt
  end.

Definition Enable (site : Z) (key : string) (now : Z) : M adb Property :=
  let* s := or_fail (query (fun d => site_by_id site d.(a_fleet))) "site not found" in
  match s with
  | None => throw "site not found"
  | Some s =>
      match parse s.(s_url) with
      | None => throw "invalid URL"
      | Some (scheme, host) =>
          let origin := scheme ++ "://" ++ host in
          stmt (fun d =>
            match find_first (fun p => p.(ap_site) =? site) d.(props) with
            | Some p => let p' := mk_prop p.(ap_id) site p.(ap_key) true origin p.(ap_created) in
                Some (p', set_props (upd (fun p => p.(ap_site) =? site) (fun _ => p') d.(props)) d)
            | None => if existsb (fun p => p.(ap_key) =?s key) d.(props) then None else
                let p' := mk_prop (fresh_id (List.map ap_id d.(props))) site key true origin now in
                Some (p', set_props (d.(props) ++ [p'])%list d)
            end)
      end
  end.
End Analytics.

Definition PropertyOf (site : Z) : M adb (option Property) :=
  query (fun d => find_first (fun p => p.(ap_site) =? site) d.(props)).

Definition Disable (site : Z) : M adb unit :=
  let* p := or_fail (PropertyOf site) "analytics not enabled for this site" in
  match p with
  | None => throw "analytics not enabled for this site"
  | Some p => exec (fun d => set_props (upd (fun x => x.(ap_id) =? p.(ap_id))
                (fun x => mk_prop x.(ap_id) x.(ap_site) x.(ap_key) false x.(ap_origin) x.(ap_created)) d.(props)) d)
  end.

Definition TrackerSnippet (origin key : string) : string :=
  "<script defer src=" ++ String "034" (trim_slash origin ++ "/wf.js") ++ String "034" " data-webfleet="
  ++ String "034" key ++ String "034" "></script>".

(** *** Reports *)

(** The pageviews of a property from the first instant of a day. *)
Definition viewed (pid since : Z) (e : event_row) : bool :=
  (e.(ev_pid) =? pid) && (e.(ev_kind) =?s "pageview") && (since <=? day_of e.(ev_at)).
Definition distinct (l : list string) : Z := Z.of_nat (length (nodup String.string_dec l)).

(** [SELECT key,COUNT( * ) n ... GROUP BY key ORDER BY n DESC,key]. *)
Fixpoint insert_count (x : string * Z) (l : list (string * Z)) : list (string * Z) :=
  match l with
  | [] => [x]
  | y :: l' => if (y.2 <? x.2) || (y.2 =? x.2) && String.leb x.1 y.1 then x :: l else y :: insert_count x l'
  end.
Definition ranked (l : list (string * Z)) : list (string * Z) := List.fold_right insert_count [] l.
Definition group_count (f : event_row -> string) (l : list event_row) : list (string * Z) :=
  ranked (List.map (fun k => (k, count (fun e => f e =?s k) l)) (nodup String.string_dec (List.map f l))).
Definition group_visitors (f : event_row -> string) (l : list event_row) : list (string * Z) :=
  ranked (List.map (fun k => (k, distinct (List.map ev_visitor (List.filter (fun e => f e =?s k) l))))
            (nodup String.string_dec (List.map f l))).

Record Summary := mk_summary {
  sm_pageviews : Z; sm_visitors : Z; sm_daily : list daily_row;
  sm_pages : list (string * Z); sm_sources : list (string * Z) }.

(** Rows sorted by day. *)
Fixpoint insert_day (r : daily_row) (l : list daily_row) : list daily_row :=
  match l with
  | [] => [r]
  | x :: l' => if r.(dy_day) <=? x.(dy_day) then r :: l else x :: insert_day r l'
  end.

Definition SummaryOf (site days now : Z) : M adb Summary :=
  let days := if days <? 1 then 7 else days in
  let days := if 365 <? days then 365 else days in
  let* p := PropertyOf site in
  match p with
  | None => ret (mk_summary 0 0 [] [] [])
  | Some p =>
      let since := day_of now - days + 1 in
      let hit := viewed p.(ap_id) since in
      let* rows := query (fun d => List.fold_right insert_day []
                     (List.filter (fun r => (r.(dy_pid) =? p.(ap_id)) && (since <=? r.(dy_day))) d.(daily))) in
      let* visitors := ignore 0 (query (fun d => distinct (List.map ev_visitor (List.filter hit d.(events))))) in
      let* views := ignore 0 (query (fun d => count hit d.(events))) in
      let* pages := ignore [] (query (fun d => firstn 10 (group_count ev_path (List.filter hit d.(events))))) in
      let* sources := ignore [] (query (fun d => firstn 10 (group_count ev_referrer
                        (List.filter (fun e => hit e && negb (e.(ev_referrer) =?s "")) d.(events))))) in
      ret (mk_summary views visitors rows pages sources)
  end.

(** The property of an event belongs to a site of the organization. *)
Definition prop_in (org : Z) (d : adb) (pid : Z) : bool :=
  match p ← find_first (fun p => p.(ap_id) =? pid) d.(props); site_by_id p.(ap_site) d.(a_fleet) with
  | Some s => s.(s_org) =? org | None => false
  end.
(** [Fleet]: pageviews, visitors and sites with analytics. *)
Definition Fleet (org days now : Z) : M adb (Z * Z * Z) :=
  let days := if days <? 1 then 1 else days in
  let since := day_of now - days + 1 in
  query (fun d =>
    let l := List.filter (fun e => prop_in org d e.(ev_pid) && (e.(ev_kind) =?s "pageview") && (since <=? day_of e.(ev_at))) d.(events) in
    (Z.of_nat (length l), distinct (List.map ev_visitor l), count (fun p => p.(ap_enabled) && prop_in org d p.(ap_id)) d.(props))).

Record PageViews := mk_views { vw_page : Z; vw_size : Z; vw_total : Z; vw_pages : Z; vw_rows : list (string * Z) }.

(** [LIMIT ? OFFSET ?]; the product wraps, and a negative offset is none. *)
Definition paging (total page size : Z) (rows : list (string * Z)) : PageViews :=
  mk_views page size total ((total + size - 1) / size)
    (firstn (Z.to_nat size) (skipn (Z.to_nat (wrap64 ((page - 1) * size))) rows)).
Definition page_no (page : Z) : Z := if page <? 1 then 1 else page.
Definition size_of (size : Z) : Z := if (size <? 1) || (50 <? size) then 10 else size.

Definition Pages (site days page size now : Z) : M adb PageViews :=
  let days := if days <? 1 then 7 else days in
  let* p := PropertyOf site in
  match p with
  | None => ret (mk_views 0 0 0 0 [])
  | Some p =>
      let hit := viewed p.(ap_id) (day_of now - days + 1) in
      let* total := ignore 0 (query (fun d => distinct (List.map ev_path (List.filter hit d.(events))))) in
      let* rows := query (fun d => group_count ev_path (List.filter (fun e => hit e && negb (e.(ev_path) =?s "")) d.(events))) in
      ret (paging total (page_no page) (size_of size) rows)
  end.

Definition Countries (site days page size now : Z) : M adb PageViews :=
  let days := if days <? 1 then 7 else days in
  let* p := PropertyOf site in
  match p with
  | None => ret (mk_views 0 0 0 0 [])
  | Some p =>
      let hit e := viewed p.(ap_id) (day_of now - days + 1) e && negb (e.(ev_country) =?s "") in
      let* total := ignore 0 (query (fun d => distinct (List.map ev_country (List.filter hit d.(events))))) in
      let* rows := query (fun d => group_visitors ev_country (List.filter hit d.(events))) in
      ret (paging total (page_no page) (size_of size) rows)
  end.

Definition CreateGoal (site : Z) (name kind path : string) (now : Z) : M adb goal_row :=
  let name := trim_space name in
  let kind := trim_space kind in
  if (name =?s "") || (kind =?s "") then throw "goal name and event kind are required" else
  let* p := or_fail (PropertyOf site) "analytics is not enabled" in
  match p with
  | None => throw "analytics is not enabled"
  | Some p => stmt (fun d =>
      if existsb (fun g => (g.(gl_pid) =? p.(ap_id)) && (g.(gl_name) =?s name)) d.(goals) then None else
      let g := mk_goal (fresh_id (List.map gl_id d.(goals))) p.(ap_id) name kind path now in
      Some (g, set_goals (d.(goals) ++ [g])%list d))
  end.

(** [Goals]: each goal with its conversions. *)
Definition converts (g : goal_row) (e : event_row) : bool :=
  (e.(ev_pid) =? g.(gl_pid)) && (e.(ev_kind) =?s g.(gl_kind)) && ((g.(gl_path) =?s "") || (e.(ev_path) =?s g.(gl_path))).
Definition Goals (site : Z) : M adb (list (goal_row * Z)) :=
  let* p := PropertyOf site in
  match p with
  | None => ret []
  | Some p => query (fun d => List.map (fun g => (g, count (converts g) d.(events)))
                                (List.filter (fun g => g.(gl_pid) =? p.(ap_id)) d.(goals)))
  end.

(** *** Retention *)

Definition Settings : M adb retention := query kept_for.
Definition Set_ (v : retention) : M adb unit :=
  if (v.(check_days) <? 7) || (v.(analytics_raw_days) <? 1) || (v.(audit_days) <? 1)
  then throw "retention values are below safe minimums" else exec (set_retention v).

(** [Run] of maintenance; the stored texts are compared. *)
Definition Maintain (now : Z) : M adb unit :=
  let* v := Settings in
  let cut days := now - days * day in
  exec (fun d => set_fleet (delete_checks (fun c => text_ltb c.(c_checked_at) (cut v.(check_days))) d.(a_fleet)) d) ;;;
  exec (fun d => set_events (del (fun e => text_ltb e.(ev_at) (cut v.(analytics_raw_days))) d.(events)) d) ;;;
  exec (fun d => set_audits (del (fun a => text_ltb a.2 (cut v.(audit_days)) && Zmem a.1 d.(audit_history)) d.(audits)) d).

(** [Status]: the counts. *)
Definition StatusOf : M adb (retention * Z * Z * Z) :=
  let* v := Settings in
  let* c := query (fun d => Z.of_nat (length (checks d.(a_fleet)))) in
  let* e := query (fun d => Z.of_nat (length d.(events))) in
  let* a := query (fun d => Z.of_nat (length d.(audits))) in
  ret (v, c, e, a).

(** ** Lemmas *)

(** What the rollup says of a property on a day. *)
Definition rolled (pid day : Z) (d : adb) : Z * Z :=
  match find_first (is_daily pid day) d.(daily) with Some r => (r.(dy_pageviews), r.(dy_visitors)) | None => (0, 0) end.
Definition on_day (pid day : Z) (e : event_row) : bool :=
  (e.(ev_pid) =? pid) && (e.(ev_kind) =?s "pageview") && (day_of e.(ev_at) =? day).

Record rollup_ok (d : adb) : Prop := {
  ro_once : NoDup (List.map (fun r => (r.(dy_pid), r.(dy_day))) d.(daily));
  ro_visits_once : NoDup d.(seen_visitors);
  ro_views : forall pid day, (rolled pid day d).1 = count (on_day pid day) d.(events);
  ro_visits : forall pid day, (rolled pid day d).2 = count (fun x => (x.1.1 =? pid) && (x.1.2 =? day)) d.(seen_visitors);
  ro_keys : forall pid day v, In (pid, day, v) d.(seen_visitors) <->
    exists e, In e d.(events) /\ on_day pid day e = true /\ e.(ev_visitor) = v }.

Lemma is_daily_spec pid day r : is_daily pid day r = true <-> (r.(dy_pid), r.(dy_day)) = (pid, day).
Proof. unfold is_daily. rewrite andb_true_iff, !Z.eqb_eq. split; [intros [-> ->]; done|by intros [= -> ->]]. Qed.

Lemma find_daily_upd pid day f pid' day' l :
  (forall r, (f r).(dy_pid) = r.(dy_pid) /\ (f r).(dy_day) = r.(dy_day)) ->
  find_first (is_daily pid' day') (upd (is_daily pid day) f l) =
  (fun r => if is_daily pid day r then f r else r) <$> find_first (is_daily pid' day') l.
Proof.
  intros Hf. apply find_first_upd. intros r _. unfold is_daily. destruct (Hf r) as [-> ->]. done.
Qed.

Lemma daily_other pid day pid' day' r : (pid', day') <> (pid, day) -> is_daily pid' day' r = true -> is_daily pid day r = false.
Proof.
  intros Hne Hr. apply not_true_iff_false. intros Hr'. apply is_daily_spec in Hr, Hr'. congruence.
Qed.

Lemma rolled_count_pageview pid day pid' day' d :
  rolled pid' day' (count_pageview pid day d) =
  if bool_decide ((pid', day') = (pid, day)) then ((rolled pid day d).1 + 1, (rolled pid day d).2) else rolled pid' day' d.
Proof.
  unfold rolled, count_pageview. destruct (existsb (is_daily pid day) d.(daily)) eqn:E; cbn [daily set_daily].
  - rewrite find_daily_upd by done. case_bool_decide as Hk.
    + injection Hk as -> ->. destruct (find_first (is_daily pid day) d.(daily)) as [r|] eqn:Ef.
      * apply find_first_Some in Ef as [_ Ef]. cbn. by rewrite Ef.
      * apply existsb_exists in E as (r & Hr & Hp). by rewrite (proj1 (find_first_None _ _) Ef r Hr) in Hp.
    + destruct (find_first (is_daily pid' day') d.(daily)) as [r|] eqn:Ef; [|done].
      apply find_first_Some in Ef as [_ Ef]. cbn. by rewrite (daily_other pid day pid' day').
  - rewrite find_first_app. case_bool_decide as Hk.
    + injection Hk as -> ->. rewrite (proj2 (find_first_None _ _) (proj1 (existsb_none_iff _ _) E)).
      unfold find_first, is_daily. cbn. by rewrite !Z.eqb_refl.
    + destruct (find_first (is_daily pid' day') d.(daily)); [done|]. unfold find_first. cbn [List.find].
      destruct (is_daily pid' day' (mk_daily pid day 1 0)) eqn:Ed; [|done]. apply is_daily_spec in Ed. cbn in Ed. congruence.
Qed.

Lemma rolled_count_visitor pid day pid' day' d : existsb (is_daily pid day) d.(daily) = true ->
  rolled pid' day' (count_visitor pid day d) =
  if bool_decide ((pid', day') = (pid, day)) then ((rolled pid day d).1, (rolled pid day d).2 + 1) else rolled pid' day' d.
Proof.
  intros E. unfold rolled, count_visitor. cbn [daily set_daily]. rewrite find_daily_upd by done. case_bool_decide as Hk.
  - injection Hk as -> ->. destruct (find_first (is_daily pid day) d.(daily)) as [r|] eqn:Ef.
    + apply find_first_Some in Ef as [_ Ef]. cbn. by rewrite Ef.
    + apply existsb_exists in E as (r & Hr & Hp). by rewrite (proj1 (find_first_None _ _) Ef r Hr) in Hp.
  - destruct (find_first (is_daily pid' day') d.(daily)) as [r|] eqn:Ef; [|done].
    apply find_first_Some in Ef as [_ Ef]. cbn. by rewrite (daily_other pid day pid' day').
Qed.

Lemma daily_present pid day d : existsb (is_daily pid day) (count_pageview pid day d).(daily) = true.
Proof.
  unfold count_pageview. destruct (existsb (is_daily pid day) d.(daily)) eqn:E; cbn [daily set_daily].
  - apply existsb_exists in E as (r & Hr & Hp). apply existsb_exists.
    exists (mk_daily r.(dy_pid) r.(dy_day) (r.(dy_pageviews) + 1) r.(dy_visitors)). split; [|done].
    apply in_upd. exists r. by rewrite Hp.
  - rewrite existsb_app. cbn. unfold is_daily. cbn. by rewrite !Z.eqb_refl, orb_true_r.
Qed.

Lemma daily_keys_upd (q : daily_row -> bool) f l :
  (forall r, (f r).(dy_pid) = r.(dy_pid) /\ (f r).(dy_day) = r.(dy_day)) ->
  List.map (fun r => (r.(dy_pid), r.(dy_day))) (upd q f l) = List.map (fun r => (r.(dy_pid), r.(dy_day))) l.
Proof.
  intros Hf. unfold upd. rewrite map_map. apply map_ext. intros r. destruct (q r); [|done]. by destruct (Hf r) as [-> ->].
Qed.

Lemma daily_keys_pageview pid day d : NoDup (List.map (fun r => (r.(dy_pid), r.(dy_day))) d.(daily)) ->
  NoDup (List.map (fun r => (r.(dy_pid), r.(dy_day))) (count_pageview pid day d).(daily)).
Proof.
  intros H. unfold count_pageview. destruct (existsb (is_daily pid day) d.(daily)) eqn:E; cbn [daily set_daily].
  - by rewrite daily_keys_upd.
  - apply NoDup_map_snoc; [done|]. cbn. intros Hin. apply in_map_iff in Hin as (r & Hk & Hr).
    rewrite existsb_none_iff in E. specialize (E r Hr). apply is_daily_spec in Hk. congruence.
Qed.

(** The rollup in one equation. *)
Definition rolled_up (pid day : Z) (v : string) (d : adb) : adb :=
  let d1 := count_pageview pid day d in
  if visited pid day v d then d1 else count_visitor pid day (set_visitors (d1.(seen_visitors) ++ [(pid, day, v)])%list d1).

Lemma rollup_nil pid day v d : rollup pid day v (d, []) = (Ok tt, (rolled_up pid day v d, [])).
Proof.
  unfold rollup, first_view, rolled_up, bind, ignore. rewrite exec_nil, query_nil. cbv zeta.
  assert (Hv : visited pid day v (count_pageview pid day d) = visited pid day v d)
    by (unfold visited, count_pageview; by destruct (existsb (is_daily pid day) _)).
  rewrite Hv. destruct (visited pid day v d) eqn:E; [done|].
  rewrite stmt_nil. unfold insert_visitor. rewrite Hv. by rewrite exec_nil.
Qed.

Lemma visited_spec pid day v d : visited pid day v d = true <-> In (pid, day, v) d.(seen_visitors).
Proof.
  unfold visited. rewrite existsb_exists. split.
  - intros ([[p dy] x] & Hin & H). cbn in H. bool_to_prop. by subst.
  - intros Hin. exists (pid, day, v). split; [done|]. cbn. by rewrite !Z.eqb_refl, String.eqb_refl.
Qed.

Lemma on_day_pair pid day pid' day' e : on_day pid day e = true ->
  on_day pid' day' e = bool_decide ((pid', day') = (pid, day)).
Proof.
  unfold on_day. intros H. apply andb_true_iff in H as [H Hd]. apply andb_true_iff in H as [Hp Hk].
  apply Z.eqb_eq in Hp as <-, Hd as <-. rewrite Hk, andb_true_r. case_bool_decide as E.
  - injection E as -> ->. by rewrite !Z.eqb_refl.
  - apply not_true_iff_false. intros H. bool_to_prop. congruence.
Qed.

(** An event that is not a pageview leaves the rollup as it is. *)
Lemma record_other d e : rollup_ok d -> (e.(ev_kind) =?s "pageview") = false ->
  rollup_ok (set_events (d.(events) ++ [e])%list d).
Proof.
  intros [H1 H2 H3 H4 H5] Hk. assert (Hno : forall pid day, on_day pid day e = false).
  { intros pid day. unfold on_day. by rewrite Hk, andb_false_r. }
  split; cbn [events daily seen_visitors set_events]; try done.
  - intros pid day. rewrite count_snoc, Hno, Z.add_0_r. apply H3.
  - intros pid day v. rewrite H5. split; intros (x & Hx & ? & ?); exists x.
    + split_and!; try done. apply in_or_app. by left.
    + apply in_app_or in Hx as [Hx|[<-|[]]]; [done|]. by rewrite Hno in *.
Qed.

(** A pageview, and its rollup. *)
Lemma record_pageview d e : rollup_ok d -> e.(ev_kind) = "pageview" ->
  let pid := e.(ev_pid) in let day := day_of e.(ev_at) in
  rollup_ok (rolled_up pid day e.(ev_visitor) (set_events (d.(events) ++ [e])%list d)).
Proof.
  intros [H1 H2 H3 H4 H5] Hk. cbv zeta. set (pid := ev_pid e). set (day := day_of (ev_at e)). set (v := ev_visitor e).
  assert (Hon : on_day pid day e = true) by (unfold on_day; by rewrite Hk, !Z.eqb_refl).
  set (d0 := set_events _ d). unfold rolled_up. cbv zeta.
  change (visited pid day v d0) with (visited pid day v d).
  set (d1 := count_pageview pid day d0).
  assert (Hs : d1.(seen_visitors) = d.(seen_visitors)) by (subst d1; unfold count_pageview; by destruct (existsb _ _)).
  assert (He : d1.(events) = (d.(events) ++ [e])%list) by (subst d1; unfold count_pageview; by destruct (existsb _ _)).
  assert (Hr1 : forall p dy, rolled p dy d1 = if bool_decide ((p, dy) = (pid, day)) then ((rolled pid day d).1 + 1, (rolled pid day d).2) else rolled p dy d)
    by (intros p dy; subst d1; by rewrite rolled_count_pageview).
  assert (Hkeys : NoDup (List.map (fun r => (r.(dy_pid), r.(dy_day))) d1.(daily))) by (by apply daily_keys_pageview).
  assert (Hev : forall p dy, count (on_day p dy) (d.(events) ++ [e])%list =
    (if bool_decide ((p, dy) = (pid, day)) then count (on_day pid day) d.(events) + 1 else count (on_day p dy) d.(events))).
  { intros p dy. rewrite count_snoc, (on_day_pair pid day) by done. case_bool_decide as Hp; [injection Hp as -> ->; lia|lia]. }
  destruct (visited pid day v d) eqn:Ev.
  - apply visited_spec in Ev. split; rewrite ?Hs, ?He; try done.
    + intros p dy. rewrite Hr1, Hev. case_bool_decide; cbn; by rewrite H3.
    + intros p dy. rewrite Hr1. case_bool_decide as Hp; [injection Hp as -> ->; cbn|]; by rewrite H4.
    + intros p dy x. rewrite H5. split.
      * intros (e' & Hin & ? & ?). exists e'. split_and!; try done. apply in_or_app. by left.
      * intros (e' & Hin & Ho & Hx). apply in_app_or in Hin as [Hin|[<-|[]]]; [by exists e'|].
        rewrite (on_day_pair pid day) in Ho by done. apply bool_decide_eq_true in Ho as [= -> ->]. subst x. by apply H5.
  - assert (Hnv : ~ In (pid, day, v) d.(seen_visitors)) by (intros Hin; apply visited_spec in Hin; congruence).
    set (d2 := set_visitors _ d1).
    assert (Hr2 : forall p dy, rolled p dy (count_visitor pid day d2) =
      if bool_decide ((p, dy) = (pid, day)) then ((rolled pid day d1).1, (rolled pid day d1).2 + 1) else rolled p dy d1).
    { intros p dy. rewrite rolled_count_visitor; [done|]. apply daily_present. }
    set (d3 := count_visitor pid day d2) in *.
    assert (He3 : d3.(events) = (d.(events) ++ [e])%list) by exact He.
    assert (Hs3 : d3.(seen_visitors) = (d.(seen_visitors) ++ [(pid, day, v)])%list) by (rewrite <- Hs; reflexivity).
    split; rewrite ?Hs3, ?He3.
    + unfold d3, count_visitor. cbn [daily set_daily]. by rewrite daily_keys_upd.
    + apply NoDup_app. split_and!; [done| |apply NoDup_singleton].
      intros x Hx Hx'. apply list_elem_of_singleton in Hx' as ->. by apply Hnv, list_elem_of_In.
    + intros p dy. rewrite Hr2, !Hr1. rewrite Hev.
      case_bool_decide; [rewrite bool_decide_eq_true_2 by done|]; cbn; by rewrite H3.
    + intros p dy. rewrite Hr2, !Hr1. rewrite count_snoc. cbn [fst snd].
      case_bool_decide as Hp.
      * injection Hp as -> ->. rewrite bool_decide_eq_true_2 by done. cbn. rewrite H4, !Z.eqb_refl. done.
      * rewrite H4. assert ((pid =? p) && (day =? dy) = false) as ->; [|lia].
        apply not_true_iff_false. intros Hx. bool_to_prop. subst. done.
    + intros p dy x. rewrite in_app_iff, H5. split.
      * intros [(e' & Hin & ? & ?)|[[= <- <- <-]|[]]].
        -- exists e'. split_and!; try done. apply in_or_app. by left.
        -- exists e. split_and!; try done. apply in_or_app. right. by left.
      * intros (e' & Hin & Ho & Hx). apply in_app_or in Hin as [Hin|[<-|[]]]; [left; by exists e'|right; left].
        rewrite (on_day_pair pid day) in Ho by done. apply bool_decide_eq_true in Ho as [= -> ->]. by subst x.
Qed.

Lemma rollup_limiters v b d : rollup_ok d -> rollup_ok (set_limiters v b d).
Proof. intros []. by split. Qed.

(** A request of a tracker, with its instants. *)
Record request := mk_request {
  rq_event : Event; rq_origin : string; rq_ip : string; rq_agent : string; rq_limit_at : Z; rq_now : Z; rq_stored_at : Z }.

Section IngestLemmas.
Context (hmac : string -> string -> string) (ParseAddr ParseAddrPort : string -> option string)
  (json_valid : string -> bool) (gdb : option (string -> string)) (salt : string) (allowNoOrigin : bool).
Let ingest r := Ingest hmac ParseAddr ParseAddrPort json_valid gdb salt allowNoOrigin
  r.(rq_event) r.(rq_origin) r.(rq_ip) r.(rq_agent) r.(rq_limit_at) r.(rq_now) r.(rq_stored_at).

(** The row of a request for a property. *)
Definition row_of (r : request) (p : Property) : event_row :=
  let ev := r.(rq_event) in
  mk_ev p.(ap_id) (if ev.(e_kind) =?s "" then "pageview" else ev.(e_kind)) (if ev.(e_path) =?s "" then "/" else ev.(e_path))
    ev.(e_referrer) (visitor_key hmac ParseAddr ParseAddrPort salt r.(rq_ip) r.(rq_now)) (clientClass r.(rq_agent))
    ev.(e_payload) (country_of gdb r.(rq_ip)) r.(rq_stored_at).

(** What the request must be to be recorded, but for the limiter. *)
Definition acceptable (r : request) (p : Property) : bool :=
  let ev := r.(rq_event) in let e := row_of r p in
  p.(ap_enabled) && (if r.(rq_origin) =?s "" then allowNoOrigin else r.(rq_origin) =?s p.(ap_origin))
  && (len e.(ev_kind) <=? 64) && negb (hasControlChars e.(ev_kind))
  && (len e.(ev_path) <=? 2048) && (len ev.(e_referrer) <=? 2048) && (len ev.(e_payload) <=? 8192)
  && ((ev.(e_payload) =?s "") || json_valid ev.(e_payload)).

Definition stored_event (r : request) (p : Property) (d : adb) : adb :=
  let e := row_of r p in
  let d := set_events (d.(events) ++ [e])%list d in
  if e.(ev_kind) =?s "pageview" then rolled_up p.(ap_id) (day_of r.(rq_now)) e.(ev_visitor) d else d.

(** [Ingest] in one equation, when nothing is refused. *)
Lemma Ingest_run r d :
  exists vl bl, run (ingest r) d =
  let d' := set_limiters vl bl d in
  match find_first (fun p => p.(ap_key) =?s r.(rq_event).(e_key)) d.(props) with
  | Some p => if acceptable r p then
                let key := "ip:" ++ r.(rq_ip) ++ ":pid:" ++ format_int p.(ap_id) in
                if (Allow key r.(rq_limit_at) d.(validLim)).1
                then (Ok tt, if clientClass r.(rq_agent) =?s "bot" then d' else stored_event r p d')
                else (Err "analytics rate limited", d')
              else ((run (ingest r) d).1, d')
  | None => ((run (ingest r) d).1, d')
  end.
Proof.
  unfold run, ingest, Ingest. rewrite bind_attempt, query_nil.
  destruct (find_first _ _) as [p|] eqn:Ef.
  2: { unfold bind, act, allow_bad, throw. destruct (Allow _ _ (badLim d)) as [ok l]. exists d.(validLim), l. reflexivity. }
  assert (Hsame : set_limiters d.(validLim) d.(badLim) d = d) by by destruct d.
  unfold acceptable. cbv zeta. cbn [ev_kind ev_path row_of].
  assert (Hstop : forall (m : M adb unit) e, m = throw e -> exists vl bl,
    (let '(r0, (s', _)) := m (d, []) in (r0, s')) = ((let '(r0, (s', _)) := m (d, []) in (r0, s')).1, set_limiters vl bl d)).
  { intros m e ->. exists d.(validLim), d.(badLim). by rewrite Hsame. }
  destruct (ap_enabled p); cbn [negb andb]; [|by eapply Hstop].
  destruct (rq_origin r =?s "") eqn:Eo; cbn [negb andb].
  1: destruct allowNoOrigin; cbn [negb andb]; [|by eapply Hstop].
  2: destruct (rq_origin r =?s ap_origin p); cbn [negb andb]; [|by eapply Hstop].
  all: set (kind := if _ =?s "" then "pageview" else _); rewrite Z.leb_antisym; destruct (64 <? len kind); cbn [negb andb orb]; [by eapply Hstop|].
  all: destruct (hasControlChars kind); cbn [negb andb orb]; [by eapply Hstop|].
  all: set (path := if _ =?s "" then "/" else _); rewrite !Z.leb_antisym.
  all: destruct (2048 <? len path); cbn [negb andb orb]; [by eapply Hstop|].
  all: destruct (2048 <? len (e_referrer _)); cbn [negb andb orb]; [by eapply Hstop|].
  all: destruct (8192 <? len (e_payload _)); cbn [negb andb orb]; [by eapply Hstop|].
  all: destruct (e_payload _ =?s ""); cbn [negb andb orb]; [|destruct (json_valid _); cbn [negb]; [|by eapply Hstop]].
  all: unfold bind, act, allow_valid; destruct (Allow _ _ (validLim d)) as [ok l]; exists l, d.(badLim); cbn [fst].
  all: destruct ok; cbn [negb]; [|reflexivity].
  all: destruct (clientClass (rq_agent r) =?s "bot"); [reflexivity|]; rewrite exec_nil.
  all: unfold stored_event; cbn [ev_kind row_of ev_visitor]; fold kind path; destruct (kind =?s "pageview"); [|reflexivity].
  all: cbv beta; rewrite rollup_nil; reflexivity.
Qed.
End IngestLemmas.

Lemma Ingest_rollup hmac pa pap jv gdb salt ano r d : rollup_ok d -> day_of r.(rq_now) = day_of r.(rq_stored_at) ->
  rollup_ok (run (Ingest hmac pa pap jv gdb salt ano r.(rq_event) r.(rq_origin) r.(rq_ip) r.(rq_agent) r.(rq_limit_at)
                    r.(rq_now) r.(rq_stored_at)) d).2.
Proof.
  intros Hok Hday. destruct (Ingest_run hmac pa pap jv gdb salt ano r d) as (vl & bl & ->). cbv zeta.
  assert (Hok' : rollup_ok (set_limiters vl bl d)) by by apply rollup_limiters.
  destruct (find_first _ _) as [p|]; [|done]. destruct (acceptable _ _ _ _ _ _ _ _ _); [|done].
  destruct (Allow _ _ _).1; [|done]. destruct (clientClass _ =?s "bot"); [done|]. cbn [snd]. unfold stored_event. cbv zeta.
  set (e := row_of _ _ _ _ _ _ _). destruct (ev_kind e =?s "pageview") eqn:Ek; [|by apply record_other].
  rewrite Hday. apply String.eqb_eq in Ek. by apply (record_pageview _ e).
Qed.

Lemma NoDup_filter_list {A} (q : A -> bool) (l : list A) : NoDup l -> NoDup (List.filter q l).
Proof. intros H. apply NoDup_ListNoDup, List.NoDup_filter. by apply NoDup_ListNoDup. Qed.

(** The rollup of a day holds its pageviews and its visitors. *)
Lemma rolled_exact d pid day : rollup_ok d ->
  rolled pid day d = (count (on_day pid day) d.(events),
                      distinct (List.map ev_visitor (List.filter (on_day pid day) d.(events)))).
Proof.
  intros [H1 H2 H3 H4 H5]. rewrite (surjective_pairing (rolled pid day d)), H3, H4. f_equal. unfold count, distinct. f_equal.
  set (q := fun x : Z * Z * string => (x.1.1 =? pid) && (x.1.2 =? day)).
  assert (Hq : forall x, In x (List.filter q (seen_visitors d)) -> x = (pid, day, x.2)).
  { intros [[p dy] v] Hx. apply filter_In in Hx as [_ Hx]. unfold q in Hx. cbn in Hx. bool_to_prop. by subst. }
  rewrite <- (length_map snd). apply Permutation_length, NoDup_Permutation.
  - apply NoDup_fmap_2_strong; [|by apply NoDup_filter_list].
    intros x y Hx Hy Hxy. apply list_elem_of_In in Hx, Hy. rewrite (Hq x Hx), (Hq y Hy). congruence.
  - apply NoDup_ListNoDup, List.NoDup_nodup.
  - intros v. rewrite !list_elem_of_In, List.nodup_In, !in_map_iff. split.
    + intros (x & <- & Hx). pose proof (Hq x Hx) as E. apply filter_In in Hx as [Hx _]. rewrite E in Hx.
      apply H5 in Hx as (e & He & Ho & Hv). exists e. split; [done|]. by apply filter_In.
    + intros (e & <- & He). apply filter_In in He as [He Ho]. exists (pid, day, e.(ev_visitor)). split; [done|].
      apply filter_In. split; [apply H5; eauto|]. unfold q. cbn. by rewrite !Z.eqb_refl.
Qed.

Section Sums.
Definition sum_of {A} (f : A -> Z) (l : list A) : Z := List.fold_right (fun x s => f x + s) 0 l.

Lemma sum_of_plus {A} (f g : A -> Z) l : sum_of (fun x => f x + g x) l = sum_of f l + sum_of g l.
Proof. induction l as [|x l IH]; [done|]. unfold sum_of in *. cbn. rewrite IH. lia. Qed.

Lemma sum_of_ext {A} (f g : A -> Z) l : (forall x, In x l -> f x = g x) -> sum_of f l = sum_of g l.
Proof.
  induction l as [|x l IH]; intros H; [done|]. cbn. rewrite (H x (or_introl eq_refl)). f_equal. apply IH.
  intros y Hy. apply H. by right.
Qed.

Lemma sum_of_zero {A} (f : A -> Z) l : (forall x, In x l -> f x = 0) -> sum_of f l = 0.
Proof.
  induction l as [|x l IH]; intros H; [done|]. change (f x + sum_of f l = 0).
  rewrite (H x (or_introl eq_refl)), IH; [done|]. intros y Hy. apply H. by right.
Qed.

Lemma sum_of_one {A} (p : A -> bool) l x : NoDup l -> In x l -> (forall y, In y l -> p y = true <-> y = x) ->
  sum_of (fun y => if p y then 1 else 0) l = 1.
Proof.
  induction l as [|y l IH]; intros Hn Hx Hp; [done|]. apply NoDup_cons in Hn as [Hy Hn]. cbn.
  destruct Hx as [->|Hx].
  - rewrite (proj2 (Hp x (or_introl eq_refl)) eq_refl). change (1 + sum_of (fun y => if p y then 1 else 0) l = 1).
    rewrite sum_of_zero; [done|]. intros z Hz.
    destruct (p z) eqn:E; [|done]. apply Hp in E; [|by right]. subst z. by apply list_elem_of_In in Hz.
  - destruct (p y) eqn:E.
    + apply Hp in E; [|by left]. subst y. by apply list_elem_of_In in Hx.
    + cbn. apply IH; [done|done|]. intros z Hz. apply Hp. by right.
Qed.
End Sums.

(** The pageviews of a window are the sum of its days. *)
Lemma window_sum d pid since : rollup_ok d ->
  let rows := List.filter (fun r => (r.(dy_pid) =? pid) && (since <=? r.(dy_day))) d.(daily) in
  sum_of dy_pageviews rows = count (viewed pid since) d.(events).
Proof.
  intros Hok. cbv zeta. set (w := fun r => _). set (rows := List.filter w d.(daily)).
  assert (Hrow : forall r, In r d.(daily) -> rolled r.(dy_pid) r.(dy_day) d = (r.(dy_pageviews), r.(dy_visitors))).
  { intros r Hr. unfold rolled. rewrite (find_first_unique _ _ r); [done| |done|by apply is_daily_spec].
    intros y Hy Hp. apply is_daily_spec in Hp. apply (NoDup_map_inj (fun r => (r.(dy_pid), r.(dy_day))) d.(daily)); try done. apply Hok. }
  rewrite (sum_of_ext dy_pageviews (fun r => count (on_day pid r.(dy_day)) d.(events))).
  2: { intros r Hr. apply filter_In in Hr as [Hr Hw]. unfold w in Hw. bool_to_prop. subst pid.
       rewrite <- (ro_views d Hok), (Hrow r Hr). done. }
  assert (Hcover : forall e, In e d.(events) -> viewed pid since e = true ->
    exists r, In r rows /\ r.(dy_day) = day_of e.(ev_at)).
  { intros e He Hv. unfold viewed in Hv. bool_to_prop.
    assert (Hon : on_day pid (day_of e.(ev_at)) e = true) by (unfold on_day; by rewrite H, H1, !Z.eqb_refl).
    assert (Hpos : 0 < (rolled pid (day_of e.(ev_at)) d).1).
    { rewrite (ro_views d Hok). unfold count. destruct (List.filter (on_day pid (day_of e.(ev_at))) d.(events)) eqn:E; [|cbn; lia].
      assert (In e []) as [] by (rewrite <- E; by apply filter_In). }
    unfold rolled in Hpos. destruct (find_first _ d.(daily)) as [r|] eqn:Ef; [|cbn in Hpos; lia].
    apply find_first_Some in Ef as [Hr Hp]. apply is_daily_spec in Hp. injection Hp as Hp1 Hp2. exists r. split; [|done].
    apply filter_In. split; [done|]. unfold w. rewrite Hp1, Hp2, Z.eqb_refl. by apply Z.leb_le. }
  assert (Hnodup : NoDup rows) by (apply NoDup_filter_list; apply (NoDup_fmap_1 (fun r => (r.(dy_pid), r.(dy_day)))); apply Hok).
  assert (Hin : forall r, In r rows -> r.(dy_pid) = pid /\ since <= r.(dy_day) /\ In r d.(daily)).
  { intros r Hr. apply filter_In in Hr as [Hr Hw]. unfold w in Hw. bool_to_prop. done. }
  clearbody rows. clear Hrow w. revert Hcover. induction d.(events) as [|e l IH]; intros Hcover.
  { cbn. apply sum_of_zero. done. }
  rewrite (sum_of_ext _ (fun r => (if on_day pid r.(dy_day) e then 1 else 0) + count (on_day pid r.(dy_day)) l))
    by (intros r _; apply count_cons).
  rewrite sum_of_plus, IH, count_cons by (intros x Hx; apply Hcover; by right). f_equal.
  destruct (viewed pid since e) eqn:Ev.
  - destruct (Hcover e (or_introl eq_refl) Ev) as (r & Hr & Hd). apply (sum_of_one _ rows r); [done|done|].
    intros y Hy. unfold viewed, on_day in *. bool_to_prop. rewrite H, H1, !Z.eqb_refl. cbn. rewrite Z.eqb_eq. split; [|by intros ->].
    intros E. apply (NoDup_map_inj (fun r => (r.(dy_pid), r.(dy_day))) d.(daily)); [apply Hok|by apply Hin|by apply Hin|].
    destruct (Hin y Hy) as (-> & _). destruct (Hin r Hr) as (-> & _). congruence.
  - apply sum_of_zero. intros r Hr. destruct (on_day pid r.(dy_day) e) eqn:Eo; [|done]. exfalso.
    unfold viewed, on_day in *. bool_to_prop. destruct (Hin r Hr) as (_ & Hs & _). rewrite H, H1, H0, Z.eqb_refl in Ev. cbn in Ev. bool_to_prop. lia.
Qed.

(** ** Properties *)

(** C38: the rollups are the events: from tables in which they agree, after any
    requests that are handled one after the other (each within one day, and no
    statement refused), the rollup of every property on every day holds the number of
    its recorded pageviews and the number of its different visitors. *)
Theorem rollups_count_events hmac pa pap jv gdb salt ano reqs d :
  rollup_ok d -> Forall (fun r => day_of r.(rq_now) = day_of r.(rq_stored_at)) reqs ->
  let ingest r := Ingest hmac pa pap jv gdb salt ano r.(rq_event) r.(rq_origin) r.(rq_ip) r.(rq_agent) r.(rq_limit_at)
                    r.(rq_now) r.(rq_stored_at) in
  let d' := List.fold_left (fun d r => (run (ingest r) d).2) reqs d in
  forall pid day, rolled pid day d' =
    (count (on_day pid day) d'.(events), distinct (List.map ev_visitor (List.filter (on_day pid day) d'.(events)))).
Proof.
  intros Hok Hreqs. cbv zeta. enough (rollup_ok (List.fold_left (fun d r => (run (Ingest hmac pa pap jv gdb salt ano r.(rq_event)
    r.(rq_origin) r.(rq_ip) r.(rq_agent) r.(rq_limit_at) r.(rq_now) r.(rq_stored_at)) d).2) reqs d)) by (intros pid day; by apply rolled_exact).
  revert d Hok. induction Hreqs as [|r reqs Hr _ IH]; intros d Hok; [done|]. cbn [List.fold_left]. apply IH.
  by apply Ingest_rollup.
Qed.

(** An event is recorded exactly when it names an enabled property, comes
    from its origin (or from none, if that is allowed), is within the size
    limits with valid JSON, passes the limiter and is not from a bot; it adds
    one row, and what is neither recorded nor refused is a bot's.  The address
    leaves no trace: two requests that differ only in addresses with the same
    normal form and country, and pass the limiter alike, leave the same events,
    rollups and visitors. *)
Theorem ingest_records_and_forgets hmac pa pap jv gdb salt ano r d :
  let ingest r := run (Ingest hmac pa pap jv gdb salt ano r.(rq_event) r.(rq_origin) r.(rq_ip) r.(rq_agent)
                    r.(rq_limit_at) r.(rq_now) r.(rq_stored_at)) in
  let allowed r p := (Allow ("ip:" ++ r.(rq_ip) ++ ":pid:" ++ format_int p.(ap_id)) r.(rq_limit_at) d.(validLim)).1 in
  (ingest r d).2.(events) = (d.(events) ++
    match find_first (fun p => p.(ap_key) =?s r.(rq_event).(e_key)) d.(props) with
    | Some p => if acceptable hmac pa pap jv gdb salt ano r p && allowed r p && negb (clientClass r.(rq_agent) =?s "bot")
                then [row_of hmac pa pap gdb salt r p] else []
    | None => []
    end)%list /\
  (forall ip', normalizedIP pa pap ip' = normalizedIP pa pap r.(rq_ip) -> country_of gdb ip' = country_of gdb r.(rq_ip) ->
   let r' := mk_request r.(rq_event) r.(rq_origin) ip' r.(rq_agent) r.(rq_limit_at) r.(rq_now) r.(rq_stored_at) in
   (forall p, allowed r' p = allowed r p) ->
   let d1 := (ingest r d).2 in let d2 := (ingest r' d).2 in
   d1.(events) = d2.(events) /\ d1.(daily) = d2.(daily) /\ d1.(seen_visitors) = d2.(seen_visitors)).
Proof.
  cbv zeta. split.
  - destruct (Ingest_run hmac pa pap jv gdb salt ano r d) as (vl & bl & ->). cbv zeta.
    destruct (find_first _ _) as [p|]; [|by rewrite app_nil_r].
    destruct (acceptable _ _ _ _ _ _ _ _ _); [|by rewrite app_nil_r]. destruct (Allow _ _ _).1; cbn [andb]; [|by rewrite app_nil_r].
    destruct (clientClass _ =?s "bot"); cbn [negb snd]; [by rewrite app_nil_r|]. unfold stored_event. cbv zeta.
    destruct (_ =?s "pageview"); [|done]. unfold rolled_up, count_visitor, count_pageview. cbv zeta.
    destruct (existsb _ _), (visited _ _ _ _); reflexivity.
  - intros ip' Hip Hc Hal. set (r' := mk_request _ _ ip' _ _ _ _) in *.
    assert (Hrow : forall p, row_of hmac pa pap gdb salt r' p = row_of hmac pa pap gdb salt r p).
    { intros p. unfold row_of, visitor_key. cbn [rq_event rq_ip rq_now rq_agent rq_stored_at r']. by rewrite Hip, Hc. }
    assert (Hacc : forall p, acceptable hmac pa pap jv gdb salt ano r' p = acceptable hmac pa pap jv gdb salt ano r p).
    { intros p. unfold acceptable. by rewrite Hrow. }
    destruct (Ingest_run hmac pa pap jv gdb salt ano r d) as (v1 & b1 & ->).
    destruct (Ingest_run hmac pa pap jv gdb salt ano r' d) as (v2 & b2 & ->). cbv zeta.
    change (e_key (rq_event r')) with (e_key (rq_event r)). destruct (find_first _ _) as [p|]; [|done].
    rewrite Hacc, Hal. destruct (acceptable _ _ _ _ _ _ _ _ _); [|done]. destruct (Allow _ _ _).1; [|done].
    change (rq_agent r') with (rq_agent r). destruct (clientClass _ =?s "bot"); [done|]. cbn [snd].
    unfold stored_event. cbv zeta. rewrite Hrow. destruct (_ =?s "pageview"); [|done].
    unfold rolled_up, count_visitor, count_pageview. cbv zeta. change (rq_now r') with (rq_now r).
    cbn [daily set_events set_limiters]. destruct (existsb _ d.(daily)); cbn [daily set_daily set_events set_limiters seen_visitors];
      (match goal with |- context [visited ?a ?b ?c (set_events ?l (set_limiters ?x ?y d))] =>
         change (visited a b c (set_events l (set_limiters x y d))) with (visited a b c d) end);
      (match goal with |- context [visited ?a ?b ?c (set_events ?l (set_limiters ?x ?y d))] =>
         change (visited a b c (set_events l (set_limiters x y d))) with (visited a b c d) end);
      destruct (visited _ _ _ d); split_and!; reflexivity.
Qed.

(** The report adds up: the headline pageviews of a site are the sum of the
    pageviews of the days it lists, however long the window (at most a year). *)
Theorem summary_adds_up site days now d p s d' :
  rollup_ok d -> find_first (fun p => p.(ap_site) =? site) d.(props) = Some p ->
  run (SummaryOf site days now) d = (Ok s, d') ->
  sum_of dy_pageviews s.(sm_daily) = s.(sm_pageviews) /\ d' = d.
Proof.
  intros Hok Hp H. unfold SummaryOf, PropertyOf in H. set (dd := if 365 <? _ then _ else _) in H.
  unfold run, bind in H. rewrite query_nil, Hp in H. unfold ignore in H. rewrite !query_nil in H. injection H as <- <-.
  split; [|done]. cbn [sm_daily sm_pageviews]. rewrite <- (window_sum d p.(ap_id) (day_of now - dd + 1) Hok).
  cbv zeta. generalize (List.filter (fun r => (dy_pid r =? ap_id p) && (day_of now - dd + 1 <=? dy_day r)) (daily d)). clear.
  induction l as [|r l IH]; [done|]. cbn [List.fold_right].
  assert (Hins : forall r l, sum_of dy_pageviews (insert_day r l) = dy_pageviews r + sum_of dy_pageviews l).
  { clear. intros r l. induction l as [|x l IH]; [done|]. cbn [insert_day]. destruct (dy_day r <=? dy_day x); [done|].
    change (dy_pageviews x + sum_of dy_pageviews (insert_day r l) = dy_pageviews r + (dy_pageviews x + sum_of dy_pageviews l)). lia. }
  rewrite Hins, IH. done.
Qed.

(** A property with one pageview today and one 40 days ago. *)
Definition demo_adb : adb :=
  mk_adb demo_db [mk_prop 1 1 "k" true "https://shop.example" 0]
    [mk_ev 1 "pageview" "/" "" "v1" "desktop" "" "" 0; mk_ev 1 "pageview" "/" "" "v2" "desktop" "" "" (40 * day)]
    [mk_daily 1 0 1 1; mk_daily 1 40 1 1] [(1, 0, "v1"); (1, 40, "v2")] [] [] [] (mk_retention 90 30 180)
    newLimiters.1 newLimiters.2.

(** Retention takes the headline away: with the retention the program ships
    (30 days of events) a report over 90 days whose headline was the sum of its
    days shows, after the nightly deletion, fewer pageviews and visitors in the
    headline than the days below it. *)
Theorem retention_breaks_the_headline :
  let report d := match (run (SummaryOf 1 90 (40 * day)) d).1 with
                  | Ok s => (s.(sm_pageviews), s.(sm_visitors), sum_of dy_pageviews s.(sm_daily)) | Err _ => (0, 0, 0) end in
  let d' := (run (Maintain (40 * day)) demo_adb).2 in
  (run (Maintain (40 * day)) demo_adb).1 = Ok tt /\ report demo_adb = (2, 2, 2) /\ report d' = (1, 1, 2).
Proof. vm_compute. split_and!; reflexivity. Qed.

(** Two first views of one visitor at once: both look before either has been recorded,
    one of the two rows of the visitor is refused and that is ignored, and both count. *)
Example two_first_views_count_twice :
  let views : M adb unit :=
    ignore tt (exec (count_pageview 1 41)) ;;; ignore tt (exec (count_pageview 1 41)) ;;;
    let* before := ignore false (query (visited 1 41 "v")) in let* before' := ignore false (query (visited 1 41 "v")) in
    first_view 1 41 "v" before ;;; first_view 1 41 "v" before' in
  let d' := (run views demo_adb).2 in
  rolled 1 41 d' = (2, 2) /\ count (fun x => (x.1.1 =? 1) && (x.1.2 =? 41)) d'.(seen_visitors) = 1.
Proof. vm_compute. split; reflexivity. Qed.

(** ** Witnesses *)

Lemma demo_rollup : rollup_ok demo_adb.
Proof.
  split.
  - repeat constructor; vm_compute; set_solver.
  - repeat constructor; vm_compute; set_solver.
  - intros pid dy. unfold rolled, find_first, is_daily, count, on_day. cbn [events daily demo_adb List.find List.filter ev_pid ev_kind ev_at dy_pid dy_day].
    rewrite (eq_refl : day_of 0 = 0), (eq_refl : day_of (40 * day) = 40). cbn [String.eqb Ascii.eqb Bool.eqb].
    rewrite !andb_true_r. destruct (Z.eqb_spec 1 pid); cbn [andb]; [|done].
    destruct (Z.eqb_spec 0 dy); destruct (Z.eqb_spec 40 dy); subst; try done.
  - intros pid dy. unfold rolled, find_first, is_daily, count. cbn [seen_visitors daily demo_adb List.find List.filter dy_pid dy_day fst snd].
    destruct (Z.eqb_spec 1 pid); cbn [andb]; [|done]. destruct (Z.eqb_spec 0 dy); destruct (Z.eqb_spec 40 dy); subst; try done.
  - intros pid dy v. cbn [seen_visitors events demo_adb]. split.
    + intros [[= <- <- <-]|[[= <- <- <-]|[]]].
      * eexists. split; [left; reflexivity|]. by split.
      * eexists. split; [right; left; reflexivity|]. by split.
    + intros (e & [<-|[<-|[]]] & Ho & <-); unfold on_day in Ho; cbn [ev_pid ev_kind ev_at] in Ho; bool_to_prop; subst.
      * by left.
      * right. by left.
Qed.

Definition demo_request (ip : string) (t : Z) : request :=
  mk_request (mk_Event "k" "" "/home" "" "") "https://shop.example" ip "Mozilla" t t t.

Lemma rollups_count_events_witness :
  let ingest r := Ingest (fun k m => m) (fun s => Some s) (fun _ => None) (fun _ => true) None "salt" false r.(rq_event)
                    r.(rq_origin) r.(rq_ip) r.(rq_agent) r.(rq_limit_at) r.(rq_now) r.(rq_stored_at) in
  let d' := List.fold_left (fun d r => (run (ingest r) d).2)
              [demo_request "1.2.3.4" (41 * day); demo_request "1.2.3.4" (41 * day); demo_request "5.6.7.8" (41 * day)] demo_adb in
  rolled 1 41 d' = (3, 2).
Proof.
  cbv zeta.
  refine (eq_trans (rollups_count_events (fun k m => m) (fun s => Some s) (fun _ => None) (fun _ => true) None "salt" false
    [demo_request "1.2.3.4" (41 * day); demo_request "1.2.3.4" (41 * day); demo_request "5.6.7.8" (41 * day)] demo_adb
    demo_rollup ltac:(repeat constructor) 1 41) _).
  vm_compute. reflexivity.
Defined.

Lemma summary_adds_up_witness : exists s, run (SummaryOf 1 90 (40 * day)) demo_adb = (Ok s, demo_adb) /\
  sum_of dy_pageviews s.(sm_daily) = s.(sm_pageviews).
Proof.
  destruct (run (SummaryOf 1 90 (40 * day)) demo_adb) as [[s|e] d'] eqn:E; [|vm_compute in E; discriminate].
  pose proof (summary_adds_up 1 90 (40 * day) demo_adb (mk_prop 1 1 "k" true "https://shop.example" 0) s d' demo_rollup eq_refl E) as [H ->].
  exists s. split; [reflexivity|exact H].
Defined.

Lemma ingest_records_and_forgets_witness :
  let ingest r := run (Ingest (fun k m => m) (fun s => Some "1.2.3.4") (fun _ => None) (fun _ => true) None "salt" false
                    r.(rq_event) r.(rq_origin) r.(rq_ip) r.(rq_agent) r.(rq_limit_at) r.(rq_now) r.(rq_stored_at)) in
  (ingest (demo_request "1.2.3.4" (41 * day)) demo_adb).2.(daily) = (ingest (demo_request "001.2.3.4" (41 * day)) demo_adb).2.(daily).
Proof.
  destruct (ingest_records_and_forgets (fun k m => m) (fun s => Some "1.2.3.4") (fun _ => None) (fun _ => true) None "salt" false
    (demo_request "1.2.3.4" (41 * day)) demo_adb) as [_ H].
  exact (proj1 (proj2 (H "001.2.3.4" eq_refl eq_refl (fun p => eq_refl)))).
Defined.
