(* ===== verification/Notifications.v ===== *)
(** The webhook outbox ([internal/notifications/worker.go] and
    [notifications.go]): the delivery worker that empties the rows incidents
    have queued, with its retries and its signatures, and the webhooks' own
    operations.

    Parameters: the JSON envelope, the HMAC, [http.NewRequest] as a test of the
    URL, and the answer of the destination to each attempt.  The goroutines of
    a round work on different rows; the order they get the semaphore in is an
    argument. *)
From S2P Require Import Prelude GoStr TimeText SqlM FleetDb Incidents Netguard.
Open Scope string_scope.
Open Scope Z_scope.
Open Scope wf_scope.
Open Scope sql_scope.

(** ** Definitions *)

Definition deliveryRetries : nat := 3.
Definition deliveryBatch : nat := 20.

(** One POST: the row it is for, the URL, the body and its signature. *)
Record post := mk_post { po_id : Z; po_url : string; po_body : string; po_signature : string }.

Definition redact (v : string) : string :=
  let v := if 500 <? len v then substring 0 500 v else v in
  if contains (to_lower v) "secret" then "delivery failed (redacted)" else v.

(** The three updates of a row. *)
Definition delivered (attempt code now : Z) (r : delivery_row) : delivery_row :=
  mk_delivery r.(d_id) r.(d_webhook) r.(d_kind) "delivered" attempt code r.(d_error) r.(d_payload) r.(d_created) (Some now).
Definition attempted (attempt code : Z) (e : string) (r : delivery_row) : delivery_row :=
  mk_delivery r.(d_id) r.(d_webhook) r.(d_kind) r.(d_status) attempt code e r.(d_payload) r.(d_created) r.(d_delivered).
Definition failed (r : delivery_row) : delivery_row :=
  mk_delivery r.(d_id) r.(d_webhook) r.(d_kind) "failed" r.(d_attempts) r.(d_code) r.(d_error) r.(d_payload) r.(d_created) r.(d_delivered).

Definition update_delivery (id : Z) (f : delivery_row -> delivery_row) : M db unit :=
  ignore tt (exec (fun d => set_deliveries (upd (fun r => r.(d_id) =? id) f d.(deliveries)) d)).

Section Worker.
Variable envelope : string -> payload -> Z -> string.
Variable hmac : string -> string -> string.
Variable request_ok : string -> bool.
Variable send : Z -> post -> result Z.
Variable now : Z.
(** The context ends while the worker waits, after so many attempts for a row; before
    the first it waits for a place among those that run. *)
Variable stop : Z -> Z -> bool.

Definition http_error (code : Z) : string := "webhook returned HTTP " ++ format_int code.

(** The attempts that are left, from the number [attempt] on; the answer is the
    posts that went out. *)
Fixpoint attempts (n : nat) (attempt code : Z) (p : post) : M db (list post) :=
  match n with
  | O => update_delivery p.(po_id) failed ;;; ret []
  | S n =>
      if negb (request_ok p.(po_url)) then update_delivery p.(po_id) failed ;;; ret [] else
      match send attempt p with
      | Ok c =>
          if (200 <=? c) && (c <? 300)
          then update_delivery p.(po_id) (delivered attempt c now) ;;; ret [p]
          else update_delivery p.(po_id) (attempted attempt c (redact (http_error c))) ;;;
               if negb (Nat.eqb n 0) && stop p.(po_id) attempt then ret [p]
               else let* rest := attempts n (attempt + 1) c p in ret (p :: rest)
      | Err e =>
          update_delivery p.(po_id) (attempted attempt code (redact e)) ;;;
          if negb (Nat.eqb n 0) && stop p.(po_id) attempt then ret [p]
          else let* rest := attempts n (attempt + 1) code p in ret (p :: rest)
      end
  end.

(** The post of a row: the body names the row, and the signature is of the body
    under the secret of the webhook. *)
Definition post_of (w : webhook_row) (r : delivery_row) : post :=
  let body := envelope r.(d_kind) r.(d_payload) r.(d_id) in
  mk_post r.(d_id) w.(w_url) body ("sha256=" ++ hmac w.(w_secret) body).

Definition deliver (w : webhook_row) (r : delivery_row) : M db (list post) := attempts deliveryRetries 1 0 (post_of w r).
(** A goroutine of [runOnce]. *)
Definition deliver_in_turn (w : webhook_row) (r : delivery_row) : M db (list post) := if stop r.(d_id) 0 then ret [] else deliver w r.

(** The rows of a round: pending, of an enabled webhook, the oldest first. *)
Definition due (d : db) : list (webhook_row * delivery_row) :=
  firstn deliveryBatch (omap (fun r =>
    if r.(d_status) =?s "pending"
    then w ← find_first (fun w => (w.(w_id) =? r.(d_webhook)) && w.(w_enabled)) d.(webhooks); Some (w, r)
    else None) d.(deliveries)).

Fixpoint deliver_all (l : list (webhook_row * delivery_row)) : M db (list post) :=
  match l with
  | [] => ret []
  | (w, r) :: l' => let* ps := deliver_in_turn w r in let* qs := deliver_all l' in ret (ps ++ qs)%list
  end.

(** [runOnce], the goroutines running in the order [order] puts the rows. *)
Definition runOnce (order : list (webhook_row * delivery_row) -> list (webhook_row * delivery_row)) : M db (list post) :=
  let* rows := attempt (query due) in
  match rows with Err _ => ret [] | Ok rows => deliver_all (order rows) end.
End Worker.

(** *** Webhooks *)

Section Webhooks.
(** [url.Parse]: the scheme, the host and the host name. *)
Variable parse : string -> option (string * string * string).
Variable LookupNetIP : string -> result (list addr).
Variable addr_string : addr -> string.

Definition Create (org : Z) (name rawURL secret : string) (now : Z) : M db (webhook_row * string) :=
  match parse rawURL with
  | None => throw "webhook URL must use HTTPS"
  | Some (scheme, host, hostname) =>
      if negb (scheme =?s "https") || (host =?s "") then throw "webhook URL must use HTTPS" else
      match ValidateHost LookupNetIP false addr_string hostname with
      | Err _ => throw "webhook URL must resolve to a public address"
      | Ok _ =>
          let* id := stmt (fun d => if org_exists org d
            then let id := fresh_id (List.map w_id d.(webhooks)) in
                 Some (id, set_webhooks (d.(webhooks) ++ [mk_webhook id org (trim_space name) rawURL secret true now])%list d)
            else None) in
          ret (mk_webhook id org name rawURL "" true now, secret)
      end
  end.
End Webhooks.

Definition List_ (org : Z) : M db (list webhook_row) :=
  query (fun d => List.map (fun w => mk_webhook w.(w_id) w.(w_org) w.(w_name) w.(w_url) "" w.(w_enabled) w.(w_created))
                    (List.filter (fun w => w.(w_org) =? org) d.(webhooks))).

Definition History (org : Z) : M db (list delivery_row) :=
  query (fun d => firstn 100 (rev (List.filter (fun r =>
    existsb (fun w => (w.(w_id) =? r.(d_webhook)) && (w.(w_org) =? org)) d.(webhooks)) d.(deliveries)))).

(** ** Lemmas *)

Lemma upd_upd {A} (p : A -> bool) f g l : (forall x, p (f x) = p x) -> upd p g (upd p f l) = upd p (fun x => g (f x)) l.
Proof.
  intros Hp. unfold upd. rewrite map_map. apply map_ext. intros x. destruct (p x) eqn:E; [by rewrite Hp, E|by rewrite E].
Qed.

Lemma update_delivery_nil id f d : update_delivery id f (d, []) =
  (Ok tt, (set_deliveries (upd (fun r => r.(d_id) =? id) f d.(deliveries)) d, [])).
Proof. reflexivity. Qed.

(** Whatever is refused, delivering one row returns, posts at most three times
    and always the same message, and touches no other row. *)
Definition only_row (id : Z) (d d' : db) : Prop :=
  exists f, d' = set_deliveries (upd (fun r => r.(d_id) =? id) f d.(deliveries)) d /\ forall r, (f r).(d_id) = r.(d_id).

#[export] Instance only_row_refl id : Reflexive (only_row id).
Proof.
  intros d. exists (fun x => x). split; [|done]. unfold upd. rewrite (map_ext _ (fun x => x)), map_id; [by destruct d|]. intros x. by destruct (_ =? _).
Qed.
#[export] Instance only_row_trans id : Transitive (only_row id).
Proof.
  intros a b c (f & -> & Hf) (g & -> & Hg). exists (fun x => g (f x)). split; [|intros r; by rewrite Hg, Hf].
  cbn [deliveries set_deliveries]. rewrite upd_upd; [done|]. intros x. by rewrite Hf.
Qed.

Lemma update_delivery_any id f s fl : (forall r, (f r).(d_id) = r.(d_id)) ->
  exists s' fl', update_delivery id f (s, fl) = (Ok tt, (s', fl')) /\ only_row id s s' /\
    (fl = [] -> fl' = [] /\ s' = set_deliveries (upd (fun r => r.(d_id) =? id) f s.(deliveries)) s).
Proof.
  intros Hf. unfold update_delivery, ignore, exec, stmt. destruct fl as [|[] fl]; eexists _, _; (split; [reflexivity|]); split; try done.
  all: by exists f.
Qed.

Section Delivery.
Context (envelope : string -> payload -> Z -> string) (hmac : string -> string -> string) (request_ok : string -> bool)
  (send : Z -> post -> result Z) (now : Z) (stop : Z -> Z -> bool).
Let go := attempts request_ok send now stop.

(** Under any faults: at most [n] posts, all the same. *)
Lemma attempts_any n : forall k code p s fl,
  exists ps s' fl', go n k code p (s, fl) = (Ok ps, (s', fl')) /\ (length ps <= n)%nat /\
    Forall (fun x => x = p) ps /\ only_row p.(po_id) s s'.
Proof.
  induction n as [|n IH]; intros k code p s fl; unfold go; cbn [attempts].
  - destruct (update_delivery_any p.(po_id) failed s fl) as (s' & fl' & E & Ho & _); [done|].
    exists [], s', fl'. unfold bind. rewrite E. split_and!; [done|cbn; lia|constructor|done].
  - destruct (request_ok (po_url p)); cbn [negb].
    2: { destruct (update_delivery_any p.(po_id) failed s fl) as (s' & fl' & E & Ho & _); [done|].
         exists [], s', fl'. unfold bind. rewrite E. split_and!; [done|cbn; lia|constructor|done]. }
    assert (Hmore : forall c e, exists ps s' fl',
      (update_delivery p.(po_id) (attempted k c (redact e)) ;;;
       if negb (Nat.eqb n 0) && stop p.(po_id) k then ret [p]
       else let* rest := attempts request_ok send now stop n (k + 1) c p in ret (p :: rest)) (s, fl) = (Ok ps, (s', fl')) /\
      (length ps <= S n)%nat /\ Forall (fun x => x = p) ps /\ only_row p.(po_id) s s').
    { intros c e. destruct (update_delivery_any p.(po_id) (attempted k c (redact e)) s fl) as (s1 & fl1 & E & Ho & _); [done|].
      unfold bind at 1. rewrite E. destruct (negb _ && _).
      - exists [p], s1, fl1. split_and!; [done|cbn; lia|by constructor|done].
      - destruct (IH (k + 1) c p s1 fl1) as (ps & s2 & fl2 & E2 & Hn & Hp & Ho2). unfold go in E2.
        exists (p :: ps), s2, fl2. unfold bind. rewrite E2. split_and!; [done|cbn; lia|by constructor|by etransitivity]. }
    destruct (send k p) as [c|e]; [|apply Hmore]. destruct ((200 <=? c) && (c <? 300)); [|apply Hmore].
    destruct (update_delivery_any p.(po_id) (delivered k c now) s fl) as (s' & fl' & E & Ho & _); [done|].
    exists [p], s', fl'. unfold bind. rewrite E. split_and!; [done|cbn; lia|by constructor|done].
Qed.

(** What a row becomes, and how often it is posted, when nothing is refused. *)
Fixpoint settle (n : nat) (k code : Z) (p : post) (r : delivery_row) : delivery_row :=
  match n with
  | O => failed r
  | S n => if negb (request_ok p.(po_url)) then failed r else
      match send k p with
      | Ok c => if (200 <=? c) && (c <? 300) then delivered k c now r
                else let r := attempted k c (redact (http_error c)) r in
                     if negb (Nat.eqb n 0) && stop p.(po_id) k then r else settle n (k + 1) c p r
      | Err e => let r := attempted k code (redact e) r in
                 if negb (Nat.eqb n 0) && stop p.(po_id) k then r else settle n (k + 1) code p r
      end
  end.
Fixpoint tries (n : nat) (k : Z) (p : post) : nat :=
  match n with
  | O => O
  | S n => if negb (request_ok p.(po_url)) then O else
      match send k p with
      | Ok c => if (200 <=? c) && (c <? 300) then 1%nat else if negb (Nat.eqb n 0) && stop p.(po_id) k then 1%nat else S (tries n (k + 1) p)
      | Err _ => if negb (Nat.eqb n 0) && stop p.(po_id) k then 1%nat else S (tries n (k + 1) p)
      end
  end.
Definition settled (wr : webhook_row * delivery_row) (r : delivery_row) : delivery_row :=
  if stop wr.2.(d_id) 0 then r else settle deliveryRetries 1 0 (post_of envelope hmac wr.1 wr.2) r.
Definition tried (wr : webhook_row * delivery_row) : nat := if stop wr.2.(d_id) 0 then 0%nat else tries deliveryRetries 1 (post_of envelope hmac wr.1 wr.2).

Lemma settle_id n : forall k code p r, (settle n k code p r).(d_id) = r.(d_id).
Proof.
  induction n as [|n IH]; intros k code p r; [done|]. cbn [settle]. destruct (negb (request_ok _)); [done|].
  destruct (send k p) as [c|e]; [destruct ((200 <=? c) && _); [done|]|]; (destruct (_ && _); [done|by rewrite IH]).
Qed.
Lemma settled_id wr r : (settled wr r).(d_id) = r.(d_id).
Proof. unfold settled. destruct (stop _ _); [done|apply settle_id]. Qed.

Lemma attempts_run n : forall k code p d, go n k code p (d, []) =
  (Ok (List.repeat p (tries n k p)),
   (set_deliveries (upd (fun r => r.(d_id) =? p.(po_id)) (settle n k code p) d.(deliveries)) d, [])).
Proof using.
  induction n as [|n IH]; intros k code p d; unfold go in *; cbn [attempts tries].
  - unfold bind. by rewrite update_delivery_nil.
  - destruct (request_ok (po_url p)) eqn:Er; cbn [negb].
    2: { unfold bind. rewrite update_delivery_nil. cbn [settle]. by rewrite Er. }
    assert (Hstep : forall (f : delivery_row -> delivery_row) c, (forall r, (f r).(d_id) = r.(d_id)) ->
      (update_delivery p.(po_id) f ;;;
       if negb (Nat.eqb n 0) && stop p.(po_id) k then ret [p]
       else let* rest := attempts request_ok send now stop n (k + 1) c p in ret (p :: rest)) (d, []) =
      (Ok (List.repeat p (if negb (Nat.eqb n 0) && stop p.(po_id) k then 1%nat else S (tries n (k + 1) p))),
       (set_deliveries (upd (fun r => r.(d_id) =? p.(po_id)) (fun r => if negb (Nat.eqb n 0) && stop p.(po_id) k then f r else settle n (k + 1) c p (f r)) d.(deliveries)) d, []))).
    { intros f c Hf. unfold bind at 1. rewrite update_delivery_nil. destruct (negb _ && _); [done|].
      unfold bind. rewrite IH. cbn [deliveries set_deliveries List.repeat]. rewrite upd_upd by (intros x; by rewrite Hf). done. }
    cbn [settle]. destruct (send k p) as [c|e] eqn:Es.
    + destruct ((200 <=? c) && (c <? 300)) eqn:Ec.
      * unfold bind. rewrite update_delivery_nil. cbn [List.repeat]. f_equal. f_equal. f_equal. unfold upd.
        apply map_ext. intros r. by rewrite ?Er, ?Es, ?Ec.
      * rewrite Hstep by done. f_equal. f_equal. f_equal. unfold upd. apply map_ext. intros r. by rewrite ?Er, ?Es, ?Ec.
    + rewrite Hstep by done. f_equal. f_equal. f_equal. unfold upd. apply map_ext. intros r. by rewrite ?Er, ?Es.
Qed.

Lemma upd_same {A} (q : A -> bool) l : upd q (fun x => x) l = l.
Proof using. unfold upd. rewrite (map_ext _ (fun x => x)), map_id; [done|]. intros x. by destruct (q x). Qed.
Lemma deliver_all_run l : forall d, deliver_all envelope hmac request_ok send now stop l (d, []) =
  (Ok (List.concat (List.map (fun wr => List.repeat (post_of envelope hmac wr.1 wr.2) (tried wr)) l)),
   (set_deliveries (List.fold_left (fun ds wr => upd (fun r => r.(d_id) =? wr.2.(d_id)) (settled wr) ds) l d.(deliveries)) d, [])).
Proof using.
  induction l as [|[w r] l IH]; intros d; cbn [deliver_all List.map List.concat List.fold_left]; [by destruct d|].
  unfold bind at 1, deliver_in_turn, tried at 1, settled at 2. cbn [fst snd]. destruct (stop (d_id r) 0).
  - cbn [ret List.repeat app]. unfold bind. rewrite IH. cbn [ret app]. by rewrite upd_same.
  - unfold deliver. pose proof (attempts_run deliveryRetries 1 0 (post_of envelope hmac w r) d) as H. unfold go in H.
    rewrite H. unfold bind. rewrite IH. reflexivity.
Qed.
End Delivery.

Lemma fold_upd_rows (f : webhook_row * delivery_row -> delivery_row -> delivery_row) l : forall ds,
  (forall wr r, (f wr r).(d_id) = r.(d_id)) -> NoDup (List.map (fun wr => wr.2.(d_id)) l) ->
  List.fold_left (fun ds wr => upd (fun r => r.(d_id) =? wr.2.(d_id)) (f wr) ds) l ds =
  List.map (fun r => match find_first (fun wr => wr.2.(d_id) =? r.(d_id)) l with Some wr => f wr r | None => r end) ds.
Proof.
  induction l as [|wr l IH]; intros ds Hf Hn; cbn [List.fold_left].
  - cbn. by rewrite map_id.
  - cbn [List.map] in Hn. apply NoDup_cons in Hn as [Hx Hn]. rewrite IH by done. unfold upd. rewrite map_map. apply map_ext. intros r.
    unfold find_first. cbn [List.find]. rewrite (Z.eqb_sym wr.2.(d_id) r.(d_id)). destruct (d_id r =? d_id wr.2) eqn:E; [|done].
    rewrite Hf. destruct (List.find _ l) as [wr'|] eqn:Ef; [|done]. exfalso. apply Hx, list_elem_of_In.
    apply List.find_some in Ef as [Hin He]. bool_to_prop. apply in_map_iff. exists wr'. split; [congruence|done].
Qed.

Lemma due_In d w r : In (w, r) (due d) ->
  In r d.(deliveries) /\ r.(d_status) = "pending" /\ In w d.(webhooks) /\ w.(w_enabled) = true /\ w.(w_id) = r.(d_webhook).
Proof.
  intros H. unfold due in H. apply list_elem_of_In, subseteq_take, list_elem_of_omap in H as (x & Hx & E).
  destruct (d_status x =?s "pending") eqn:Es; [|done]. destruct (find_first _ _) as [w'|] eqn:Ef; [|done]. injection E as <- <-.
  apply find_first_Some in Ef as [Hw Hp]. bool_to_prop. split_and!; try done. by apply list_elem_of_In.
Qed.

Lemma omap_rows (f : delivery_row -> option (webhook_row * delivery_row)) l :
  (forall r wr, f r = Some wr -> wr.2 = r) -> sublist (List.map (fun wr => wr.2.(d_id)) (omap f l)) (List.map d_id l).
Proof.
  intros Hf. induction l as [|r l IH]; [constructor|]. cbn. destruct (f r) as [wr|] eqn:E; cbn.
  - rewrite (Hf r wr E). by constructor.
  - by constructor.
Qed.

Lemma due_once d : NoDup (List.map d_id d.(deliveries)) -> NoDup (List.map (fun wr => wr.2.(d_id)) (due d)).
Proof.
  intros H. eapply sublist_NoDup; [exact H|]. unfold due. rewrite <- firstn_map.
  etransitivity; [apply sublist_take|]. apply omap_rows. intros r wr E.
  destruct (d_status r =?s "pending"); [|done]. destruct (find_first _ _); [|done]. by injection E as <-.
Qed.

(** ** Properties *)

Section Outcome.
Context (request_ok : string -> bool) (send : Z -> post -> result Z) (stop : Z -> Z -> bool).

(** How many attempts a row may have before the worker is stopped while it waits. *)
Definition allowed (p : post) : Z := match find_first (stop p.(po_id)) [0; 1; 2] with Some k => k | None => 3 end.
(** The first of the attempts that is answered with a 2xx. *)
Definition answered (p : post) : option (Z * Z) :=
  if request_ok p.(po_url) then
    find_first (fun kc => match send kc.1 p with Ok c => (c =? kc.2) && (200 <=? c) && (c <? 300) | Err _ => false end)
      (omap (fun k => match send k p with Ok c => if k <=? allowed p then Some (k, c) else None | Err _ => None end) [1; 2; 3])
  else None.

(** Of the row [r], that was taken, [r'] is left. *)
Definition outcome (now : Z) (p : post) (r r' : delivery_row) : Prop :=
  match answered p with
  | Some (k, c) => r'.(d_status) = "delivered" /\ r'.(d_attempts) = k /\ r'.(d_code) = c /\ r'.(d_delivered) = Some now
  | None => if (allowed p =? 3) || (0 <? allowed p) && negb (request_ok p.(po_url)) then r'.(d_status) = "failed"
            else r'.(d_status) = r.(d_status) /\ r'.(d_attempts) = (if allowed p =? 0 then r.(d_attempts) else allowed p)
  end.

Lemma settle_outcome now p r :
  let n := if stop p.(po_id) 0 then 0%nat else tries request_ok send stop deliveryRetries 1 p in
  outcome now p r (if stop p.(po_id) 0 then r else settle request_ok send now stop deliveryRetries 1 0 p r) /\
  (n <= 3)%nat /\ Z.of_nat n <= allowed p /\ match answered p with Some (k, _) => Z.of_nat n = k | None => True end.
Proof.
  cbv zeta. unfold outcome, answered, deliveryRetries, allowed, find_first. cbn [List.find].
  destruct (stop (po_id p) 0) eqn:S0.
  { destruct (request_ok (po_url p)); [|cbn; split_and!; done || lia]. cbn [omap list_omap]. change (1 <=? 0) with false. change (2 <=? 0) with false. change (3 <=? 0) with false.
    destruct (send 1 p), (send 2 p), (send 3 p); cbn; split_and!; done || lia. }
  cbn [settle tries]. destruct (request_ok (po_url p)); cbn [negb].
  2: { destruct (stop (po_id p) 1); [|destruct (stop (po_id p) 2)]; cbn; split_and!; done || lia. }
  change (1 + 1) with 2. change (2 + 1) with 3. cbn [Nat.eqb negb andb].
  assert (Hb : forall c, (200 <=? c) && (c <? 300) = true \/ (200 <=? c) && (c <? 300) = false) by (intros c; by destruct (_ && _); auto).
  destruct (stop (po_id p) 1) eqn:S1; [|destruct (stop (po_id p) 2) eqn:S2];
  (destruct (send 1 p) as [c1|e1] eqn:E1; [destruct (Hb c1) as [B1|B1]|]);
    (destruct (send 2 p) as [c2|e2] eqn:E2; [destruct (Hb c2) as [B2|B2]|]);
    (destruct (send 3 p) as [c3|e3] eqn:E3; [destruct (Hb c3) as [B3|B3]|]);
    rewrite ?B1, ?B2, ?B3; cbn [omap list_omap]; rewrite ?E1, ?E2, ?E3; cbn [Z.leb Z.compare Pos.compare Pos.compare_cont];
    cbn [omap list_omap List.find fst snd]; rewrite ?E1, ?E2, ?E3, ?Z.eqb_refl; cbn [andb]; rewrite ?B1, ?B2, ?B3; cbn; repeat split; lia || done.
Qed.
Lemma settled_outcome envelope hmac now w r : let p := post_of envelope hmac w r in
  outcome now p r (settled envelope hmac request_ok send now stop (w, r) r) /\
  (tried envelope hmac request_ok send stop (w, r) <= 3)%nat /\ Z.of_nat (tried envelope hmac request_ok send stop (w, r)) <= allowed p /\
  match answered p with Some (k, _) => Z.of_nat (tried envelope hmac request_ok send stop (w, r)) = k | None => True end.
Proof. exact (settle_outcome now (post_of envelope hmac w r) r). Qed.
End Outcome.

(** C35: a round of the worker settles every row it takes, when no statement is refused:
    whatever the destinations answer and in whatever order the rows get their turn, a
    row is delivered exactly when one of its three attempts is answered with a 2xx (and
    records which), and failed otherwise.  When the worker is stopped while a row waits
    for its turn or for its next attempt, the attempts so far count: the row is
    delivered if one of them was answered, and else stays as pending as it was, with
    their number.  All other rows, and all other tables, stay as they are.  Each post of
    a row is the same envelope, signed with the secret of the row's webhook, and no post
    goes out after the one that was answered, nor more than three. *)
Theorem round_settles_its_rows envelope hmac request_ok send now stop order d :
  NoDup (List.map d_id d.(deliveries)) -> (forall l, Permutation (order l) l) ->
  exists posts d', run (runOnce envelope hmac request_ok send now stop order) d = (Ok posts, d') /\
    d' = set_deliveries d'.(deliveries) d /\ List.map d_id d'.(deliveries) = List.map d_id d.(deliveries) /\
    (forall w r, In (w, r) (due d) -> let p := post_of envelope hmac w r in
       (exists r', In r' d'.(deliveries) /\ r'.(d_id) = r.(d_id) /\ outcome request_ok send stop now p r r') /\
       exists n, List.filter (fun x => x.(po_id) =? r.(d_id)) posts = List.repeat p n /\ (n <= 3)%nat /\ Z.of_nat n <= allowed stop p /\
         (forall k c, answered request_ok send stop p = Some (k, c) -> Z.of_nat n = k)) /\
    (forall r, In r d.(deliveries) -> (forall w, ~ In (w, r) (due d)) -> In r d'.(deliveries)).
Proof.
  intros Hn Hord. pose proof (due_once d Hn) as Hdue. pose proof (Hord (due d)) as Hp.
  assert (Hord_once : NoDup (List.map (fun wr => wr.2.(d_id)) (order (due d)))).
  { by rewrite (Permutation_map _ Hp). }
  unfold run, runOnce. rewrite bind_attempt, query_nil.
  rewrite (deliver_all_run envelope hmac request_ok send now stop (order (due d)) d).
  rewrite (fold_upd_rows (settled envelope hmac request_ok send now stop)) by (done || (intros; apply settled_id)).
  set (g := fun r => match _ with Some wr => _ | None => r end). set (posts := List.concat _).
  exists posts, (set_deliveries (List.map g d.(deliveries)) d). split; [done|]. split; [done|].
  assert (Hg : forall r, (g r).(d_id) = r.(d_id)) by (intros r; unfold g; destruct (find_first _ _); [apply settled_id|done]).
  assert (Hfind : forall w r, In (w, r) (due d) -> find_first (fun wr => wr.2.(d_id) =? r.(d_id)) (order (due d)) = Some (w, r)).
  { intros w r Hin. apply find_first_unique; [|by eapply Permutation_in; [symmetry; exact Hp|]|apply Z.eqb_refl].
    intros y Hy He. apply Z.eqb_eq in He. apply (NoDup_map_inj (fun wr => wr.2.(d_id)) (due d)); try done. by eapply Permutation_in. }
  split; [cbn [deliveries set_deliveries]; rewrite map_map; by apply map_ext|]. split.
  - intros w r Hin. cbv zeta. destruct (settled_outcome request_ok send stop envelope hmac now w r) as (Ho & Ht & Hl & Ha). split.
    + exists (g r). split; [cbn [deliveries set_deliveries]; apply in_map; by apply (due_In d w r)|]. split; [apply Hg|].
      unfold g. rewrite (Hfind w r Hin). exact Ho.
    + exists (tried envelope hmac request_ok send stop (w, r)). split; [|split; [done|split; [done|]]].
      2: { intros k c E. by rewrite E in Ha. }
      assert (Hino : In (w, r) (order (due d))) by (eapply Permutation_in; [symmetry; exact Hp|done]).
      subst posts. clear -Hord_once Hino. induction (order (due d)) as [|[w' r'] l IH]; [done|].
      cbn [List.map] in Hord_once. apply NoDup_cons in Hord_once as [Hx Hn]. cbn [List.map List.concat fst snd]. rewrite List.filter_app.
      assert (Hrep : forall id n p, List.filter (fun x => x.(po_id) =? id) (List.repeat p n) = if p.(po_id) =? id then List.repeat p n else []).
      { intros id n p. induction n as [|n IHn]; cbn [List.repeat List.filter]; [by destruct (_ =? _)|]. rewrite IHn. by destruct (po_id p =? id). }
      rewrite Hrep. cbn [po_id post_of]. destruct Hino as [[= -> ->]|Hino].
      * rewrite Z.eqb_refl. rewrite filter_none; [by rewrite app_nil_r|]. intros x Hxin.
        apply in_concat in Hxin as (ys & Hys & Hxin). apply in_map_iff in Hys as ([w2 r2] & <- & Hin2). apply repeat_spec in Hxin as ->.
        cbn [fst snd po_id post_of]. apply Z.eqb_neq. intros E. apply Hx, list_elem_of_In, in_map_iff. by exists (w2, r2).
      * assert ((d_id r' =? d_id r) = false) as ->; [|by apply IH]. apply Z.eqb_neq. intros E. apply Hx, list_elem_of_In, in_map_iff. by exists (w, r).
  - intros r Hr Hnot. cbn [deliveries set_deliveries]. apply in_map_iff. exists r. split; [|done]. unfold g.
    destruct (find_first _ _) as [[w r0]|] eqn:Ef; [|done]. exfalso. apply find_first_Some in Ef as [Hin He]. cbn [snd] in He. apply Z.eqb_eq in He.
    assert (Hin' : In (w, r0) (due d)) by (by eapply Permutation_in). apply due_In in Hin' as Hd. destruct Hd as [Hd _].
    assert (r0 = r) as -> by (by apply (NoDup_map_inj d_id d.(deliveries))). by apply (Hnot w).
Qed.

(** ** Witnesses *)

Definition demo_outbox : db :=
  set_deliveries [mk_delivery 1 1 "incident.opened" "pending" 0 0 "" (mk_payload 1 1 "down" "s" 0) 0 None;
                  mk_delivery 2 3 "incident.opened" "pending" 0 0 "" (mk_payload 1 1 "down" "s" 0) 0 None;
                  mk_delivery 3 2 "incident.recovered" "pending" 0 0 "" (mk_payload 2 2 "resolved" "s" 0) 0 None] demo_db.
(** The first destination answers the second attempt, the other never. *)
Definition demo_send (k : Z) (p : post) : result Z :=
  if p.(po_id) =? 1 then if k =? 2 then Ok 204 else Ok 500 else Err "connection refused".

(** The worker is stopped after the first attempt for the third row. *)
Definition demo_stop (id k : Z) : bool := (id =? 3) && (1 <=? k).
Lemma round_settles_its_rows_witness : exists posts d',
  run (runOnce (fun k _ _ => k) (fun s b => s ++ b) (fun _ => true) demo_send 9 demo_stop (fun l => rev l)) demo_outbox = (Ok posts, d') /\
  List.map d_status d'.(deliveries) = ["delivered"; "pending"; "pending"] /\ length posts = 3%nat.
Proof.
  destruct (round_settles_its_rows (fun k _ _ => k) (fun s b => s ++ b) (fun _ => true) demo_send 9 demo_stop (fun l => rev l) demo_outbox
    ltac:(repeat constructor; vm_compute; set_solver) (fun l => Permutation_sym (Permutation_rev l))) as (posts & d' & E & _).
  exists posts, d'. split; [exact E|]. vm_compute in E. injection E as <- <-. split; reflexivity.
Defined.
