(* ===== verification/Gantry.v ===== *)
(** What the cluster code uses of [gantry-core/cluster], which is not part of
    this repository: an interface of operations, and the laws the code relies
    on.  Every definition takes the operations as an argument; a theorem that
    needs a law asks for it. *)
From S2P Require Import Prelude GoStr TimeText SqlM.
Open Scope string_scope.
Open Scope Z_scope.

(** [core.Identity]; the creation time is an instant. *)
Record identity := mk_identity {
  NodeID : string; InstallationID : string; DisplayName : string; PublicEndpoint : string;
  PublicKey : string; Capabilities : list string; ProtocolVersion : Z; ProductVersion : string;
  CreatedAt : Z }.

(** [core.JoinSubmission], [core.JoinReceipt], [core.PairingResult]. *)
Record submission := mk_submission {
  InvitationToken : string; SubIdentity : identity; CredentialForHost : string }.
Record receipt := mk_receipt { RequestID : string; RequestSecret : string; ReceiptState : string }.
Record pairing_result := mk_pairing { ResultState : string; Remote : option identity; Credential : string }.

(** [core.AuthMaterial] with [core.VerifyRequestInput]'s other fields, for an
    envelope type [E]. *)
Record auth_material := mk_material {
  am_state : string; am_protocol : Z; am_caps : list string; am_current : string;
  am_pending : option string; am_expires : option Z }.
Record verify_input E := mk_input {
  vi_material : auth_material; vi_capability : string; vi_secret : string; vi_method : string;
  vi_uri : string; vi_envelope : E; vi_body : string; vi_now : Z }.
Arguments mk_input {E}. Arguments vi_material {E}. Arguments vi_capability {E}. Arguments vi_secret {E}.
Arguments vi_method {E}. Arguments vi_uri {E}. Arguments vi_envelope {E}. Arguments vi_body {E}. Arguments vi_now {E}.

Record envelope := mk_envelope { e_node : string; e_nonce : string; e_request : string; e_at : Z }.

Class GantryCore := {
  core_protocol : Z;
  MemberActive : string; MemberDisabled : string; MemberRevoked : string;
  HealthDisabled : string; HealthRevoked : string; HealthDegraded : string;
  HealthOffline : string; HealthOnline : string;
  PairingPending : string; PairingUsed : string; PairingApproved : string;
  PairingRejected : string; PairingExpired : string;
  PairingLifetime : Z; ClockSkew : Z; MaxRequestBytes : Z;
  Compatible : Z -> Z -> list string -> list string -> string -> result unit;
  NormalizeCapabilities : list string -> list string;
  ValidateEndpoint : identity -> bool -> result unit;
  (** id, state, expiry, now *)
  ValidateInvitation : string -> string -> Z -> Z -> result unit;
  ValidateJoinSubmission : submission -> Z -> bool -> result unit;
  SecretDigest : string -> string;
  (** the headers of a signed request *)
  header : Type;
  WriteEnvelope : string -> string -> string -> string -> string -> Z -> string -> Z -> string -> string -> header;
  ReadEnvelope : header -> Z -> result envelope;
  HeaderNode : header -> string;
  (** [Ok promote], or the reason of the refusal *)
  VerifyIncoming : verify_input envelope -> result bool
}.

Section Laws.
Context {GC : GantryCore}.

(** The states of a member are those the schema's [CHECK] names. *)
Class MemberStates : Prop := {
  active_is : MemberActive = "active";
  disabled_is : MemberDisabled = "disabled";
  revoked_is : MemberRevoked = "revoked" }.

(** The states of a pairing differ, and only a pending invitation that has not
    expired is valid. *)
Class PairingStates : Prop := {
  pairing_distinct : NoDup [PairingPending; PairingUsed; PairingApproved; PairingRejected; PairingExpired];
  invitation_live : forall id st exp now, ValidateInvitation id st exp now = Ok tt <-> st = PairingPending /\ now < exp }.

(** The envelope carries the node, the nonce and the time of the request, and is
    read within the clock skew of that time. *)
Class Envelopes : Prop := {
  skew_pos : second <= ClockSkew;
  read_node : forall h now e, ReadEnvelope h now = Ok e -> e_node e = HeaderNode h;
  read_fixed : forall h t1 t2 e1 e2, ReadEnvelope h t1 = Ok e1 -> ReadEnvelope h t2 = Ok e2 -> e1 = e2;
  read_recent : forall h now e, ReadEnvelope h now = Ok e -> now - ClockSkew <= e_at e <= now + ClockSkew }.

(** The credential of a material that a secret matches: the current one, or the
    pending one until it expires. *)
Definition matches_current (m : auth_material) (secret : string) : bool :=
  String.eqb m.(am_current) (SecretDigest secret).
Definition matches_pending (m : auth_material) (secret : string) (now : Z) : bool :=
  match m.(am_pending), m.(am_expires) with
  | Some p, Some e => String.eqb p (SecretDigest secret) && (now <? e)%Z
  | _, _ => false
  end.

(** A request is only let in for an active member and with one of its two
    credentials, and asks for promotion when it used the pending one alone. *)
Class Verifies : Prop := {
  verify_active : forall i p, VerifyIncoming i = Ok p -> i.(vi_material).(am_state) = MemberActive;
  verify_secret : forall i p, VerifyIncoming i = Ok p ->
    if p then matches_pending i.(vi_material) i.(vi_secret) i.(vi_now) = true
    else matches_current i.(vi_material) i.(vi_secret) = true }.

(** A request written with a credential is let in by a peer for which the sender
    is an active, compatible member with the capability, if the credential is
    the current one or the pending one. *)
Class Signs (serves : string -> Z -> list string -> string -> Prop) : Prop := {
  read_written : forall node cred meth uri cap proto body t nonce rid now,
    Z.abs (now - t) < ClockSkew ->
    exists e, ReadEnvelope (WriteEnvelope node cred meth uri cap proto body t nonce rid) now = Ok e
      /\ e_node e = node /\ e_nonce e = nonce /\ e_request e = rid;
  verify_written : forall m cap cred node meth uri proto body t nonce rid now e,
    ReadEnvelope (WriteEnvelope node cred meth uri cap proto body t nonce rid) now = Ok e ->
    serves m.(am_state) m.(am_protocol) m.(am_caps) cap -> proto = m.(am_protocol) ->
    VerifyIncoming (mk_input m cap cred meth uri e body now) =
      if matches_current m cred then Ok false
      else if matches_pending m cred now then Ok true
      else VerifyIncoming (mk_input m cap cred meth uri e body now) }.
End Laws.

(** ** An instance *)

(** The smallest core with the laws above: a digest that pads to 32 bytes and an
    envelope that is its own header.  It only shows that the laws can hold
    together. *)
Module Toy.
Definition pad (s : string) : string := substring 0 32 (s ++ "                                ").
Definition verify (i : verify_input envelope) : result bool :=
  let m := i.(vi_material) in
  if negb (String.eqb m.(am_state) "active") then Err "member is not active"
  else if String.eqb m.(am_current) (pad i.(vi_secret)) then Ok false
  else match m.(am_pending), m.(am_expires) with
       | Some p, Some e => if String.eqb p (pad i.(vi_secret)) && (i.(vi_now) <? e)%Z then Ok true else Err "invalid credential"
       | _, _ => Err "invalid credential"
       end.
#[export] Instance core : GantryCore := {|
  core_protocol := 1; MemberActive := "active"; MemberDisabled := "disabled"; MemberRevoked := "revoked";
  HealthDisabled := "disabled"; HealthRevoked := "revoked"; HealthDegraded := "degraded";
  HealthOffline := "offline"; HealthOnline := "online";
  PairingPending := "pending"; PairingUsed := "used"; PairingApproved := "approved";
  PairingRejected := "rejected"; PairingExpired := "expired";
  PairingLifetime := 15 * minute; ClockSkew := 5 * minute; MaxRequestBytes := 1048576;
  Compatible := fun a b _ _ _ => if (a =? b)%Z then Ok tt else Err "incompatible protocol";
  NormalizeCapabilities := fun l => l;
  ValidateEndpoint := fun _ _ => Ok tt;
  ValidateInvitation := fun _ st exp now => if String.eqb st "pending" && (now <? exp)%Z then Ok tt else Err "invitation unavailable";
  ValidateJoinSubmission := fun _ _ _ => Ok tt;
  SecretDigest := pad;
  header := envelope;
  WriteEnvelope := fun node _ _ _ _ _ _ t nonce rid => mk_envelope node nonce rid t;
  ReadEnvelope := fun h now => if (Z.abs (now - h.(e_at)) <=? 5 * minute)%Z then Ok h else Err "stale request";
  HeaderNode := e_node;
  VerifyIncoming := verify |}.

#[export] Instance member_states : MemberStates.
Proof. by split. Qed.
#[export] Instance pairing_states : PairingStates.
Proof.
  split; [by apply (bool_decide_unpack _); vm_compute|]. intros id st exp now. cbn.
  destruct (String.eqb_spec st "pending"), (Z.ltb_spec now exp); cbn; split; try done; intros []; (done || lia).
Qed.
#[export] Instance envelopes : Envelopes.
Proof.
  split; cbn; [done| | |]; intros h.
  - intros now e. case_match; by intros [= <-].
  - intros t1 t2 e1 e2. do 2 case_match; by intros [= <-] [= <-].
  - intros now e. case_match; intros [= <-]. bool_to_prop. unfold minute, second in *. lia.
Qed.
#[export] Instance verifies : Verifies.
Proof.
  split; cbn; unfold verify, matches_current, matches_pending; intros i p; destruct (String.eqb_spec (am_state (vi_material i)) "active");
    cbn; try done; repeat case_match; try done; by intros [= <-].
Qed.
#[export] Instance signs : Signs (fun st _ _ _ => st = "active").
Proof.
  split; cbn.
  - intros node cred meth uri cap proto body t nonce rid now H. exists (mk_envelope node nonce rid t). split; [|done].
    case_match; [done|]. bool_to_prop. unfold minute, second in *. lia.
  - unfold verify, matches_current, matches_pending. cbn. intros m cap cred node meth uri proto body t nonce rid now e _ -> _. cbn.
    repeat case_match; done.
Qed.
End Toy.
