(* ===== verification/Cluster.v ===== *)
(** Cluster membership ([internal/cluster/cluster.go], [policy.go], [audit.go]):
    the cluster tables of a node, its identity, invitations, members and their
    states, the summaries it reports and their aggregation.

    [gantry-core] is the interface of [Gantry]; [url.Parse] is a parameter.
    Capabilities are stored as the list the JSON text stands for, instants as
    instants, and the random identities, tokens and secrets are arguments. *)
From S2P Require Import Prelude GoStr TimeText Base64 SqlM FleetDb Claims Sites Gantry.
Open Scope string_scope.
Open Scope Z_scope.
Open Scope wf_scope.
Open Scope sql_scope.

(** ** Definitions *)

(** *** Tables *)

Record identity_row := mk_identity_row {
  id_node : string; id_install : string; id_name : string; id_endpoint : string; id_public : string;
  id_private : string; id_caps : list string; id_protocol : Z; id_product : string; id_created : Z }.
Record invitation_row := mk_invitation {
  iv_id : string; iv_hash : string; iv_state : string; iv_created : Z; iv_expires : Z; iv_used : option Z }.
Record member_row := mk_member {
  mb_node : string; mb_install : string; mb_name : string; mb_endpoint : string; mb_public : string;
  mb_caps : list string; mb_protocol : Z; mb_product : string; mb_state : string; mb_outbound : string;
  mb_inbound : string; mb_version : Z; mb_created : Z; mb_paired : Z; mb_seen : option Z;
  mb_latency : option Z; mb_revoked : option Z; mb_pending : option string; mb_pending_expires : option Z;
  mb_previous : option string }.
Record join_row := mk_join {
  jn_id : string; jn_hash : string; jn_invitation : string; jn_node : string; jn_install : string;
  jn_name : string; jn_endpoint : string; jn_public : string; jn_caps : list string; jn_protocol : Z;
  jn_product : string; jn_credential : string; jn_state : string; jn_expires : Z; jn_created : Z;
  jn_decided : option Z; jn_consumed : option Z }.
Record outbound_row := mk_outbound {
  ob_id : string; ob_url : string; ob_request : string; ob_secret : string; ob_inbound : string;
  ob_state : string; ob_created : Z; ob_updated : Z; ob_error : string }.
Record nonce_row := mk_nonce { nc_node : string; nc_nonce : string; nc_seen : Z }.
Record audit_row := mk_audit_row {
  au_actor : Z; au_org : Z; au_action : string; au_target : string; au_detail : string; au_at : Z }.

Record node := mk_node {
  identities : list identity_row;
  invitations : list invitation_row;
  members : list member_row;
  joins : list join_row;
  outbounds : list outbound_row;
  nonces : list nonce_row;
  audit_log : list audit_row;
  fleet : db;
  claim_rows : claims;
  alert_policies : Z }.

Definition set_identities (v : list identity_row) (n : node) : node :=
  mk_node v n.(invitations) n.(members) n.(joins) n.(outbounds) n.(nonces) n.(audit_log) n.(fleet) n.(claim_rows) n.(alert_policies).
Definition set_invitations (v : list invitation_row) (n : node) : node :=
  mk_node n.(identities) v n.(members) n.(joins) n.(outbounds) n.(nonces) n.(audit_log) n.(fleet) n.(claim_rows) n.(alert_policies).
Definition set_members (v : list member_row) (n : node) : node :=
  mk_node n.(identities) n.(invitations) v n.(joins) n.(outbounds) n.(nonces) n.(audit_log) n.(fleet) n.(claim_rows) n.(alert_policies).
Definition set_joins (v : list join_row) (n : node) : node :=
  mk_node n.(identities) n.(invitations) n.(members) v n.(outbounds) n.(nonces) n.(audit_log) n.(fleet) n.(claim_rows) n.(alert_policies).
Definition set_outbounds (v : list outbound_row) (n : node) : node :=
  mk_node n.(identities) n.(invitations) n.(members) n.(joins) v n.(nonces) n.(audit_log) n.(fleet) n.(claim_rows) n.(alert_policies).
Definition set_nonces (v : list nonce_row) (n : node) : node :=
  mk_node n.(identities) n.(invitations) n.(members) n.(joins) n.(outbounds) v n.(audit_log) n.(fleet) n.(claim_rows) n.(alert_policies).
Definition set_audit_log (v : list audit_row) (n : node) : node :=
  mk_node n.(identities) n.(invitations) n.(members) n.(joins) n.(outbounds) n.(nonces) v n.(fleet) n.(claim_rows) n.(alert_policies).

(** *** Statements *)

Definition member_by (id : string) (n : node) : option member_row :=
  find_first (fun m => m.(mb_node) =?s id) n.(members).
Definition invitation_by_hash (h : string) (n : node) : option invitation_row :=
  find_first (fun i => i.(iv_hash) =?s h) n.(invitations).

(** The [CHECK] on a member's state. *)
Definition check_state (st : string) : bool := Smem st ["active"; "disabled"; "revoked"].

(** [INSERT INTO cluster_members]: both identities are unique. *)
Definition insert_member (m : member_row) (n : node) : option node :=
  if check_state m.(mb_state)
     && negb (existsb (fun x => (x.(mb_node) =?s m.(mb_node)) || (x.(mb_install) =?s m.(mb_install))) n.(members))
  then Some (set_members (n.(members) ++ [m]) n) else None.

(** [... ON CONFLICT(node_id) DO UPDATE SET ...]: a known node is made active
    again with the new identity and credentials; its pending and previous
    credentials are columns the statement does not name. *)
Definition repair (m x : member_row) : member_row :=
  mk_member x.(mb_node) m.(mb_install) m.(mb_name) m.(mb_endpoint) m.(mb_public) m.(mb_caps)
    m.(mb_protocol) m.(mb_product) "active" m.(mb_outbound) m.(mb_inbound) (x.(mb_version) + 1)
    x.(mb_created) m.(mb_paired) x.(mb_seen) x.(mb_latency) None
    x.(mb_pending) x.(mb_pending_expires) x.(mb_previous).
Definition upsert_member (m : member_row) (n : node) : option node :=
  if existsb (fun x => x.(mb_node) =?s m.(mb_node)) n.(members) then
    if check_state m.(mb_state)
       && negb (existsb (fun x => negb (x.(mb_node) =?s m.(mb_node)) && (x.(mb_install) =?s m.(mb_install))) n.(members))
    then Some (set_members (upd (fun x => x.(mb_node) =?s m.(mb_node)) (repair m) n.(members)) n) else None
  else insert_member m n.

Definition with_mstate (st : string) (rv : option Z) (m : member_row) : member_row :=
  mk_member m.(mb_node) m.(mb_install) m.(mb_name) m.(mb_endpoint) m.(mb_public) m.(mb_caps) m.(mb_protocol)
    m.(mb_product) st m.(mb_outbound) m.(mb_inbound) m.(mb_version) m.(mb_created) m.(mb_paired) m.(mb_seen)
    m.(mb_latency) rv m.(mb_pending) m.(mb_pending_expires) m.(mb_previous).
Definition with_pending (p : option string) (e : option Z) (m : member_row) : member_row :=
  mk_member m.(mb_node) m.(mb_install) m.(mb_name) m.(mb_endpoint) m.(mb_public) m.(mb_caps) m.(mb_protocol)
    m.(mb_product) m.(mb_state) m.(mb_outbound) m.(mb_inbound) m.(mb_version) m.(mb_created) m.(mb_paired) m.(mb_seen)
    m.(mb_latency) m.(mb_revoked) p e m.(mb_previous).
Definition with_inbound (h : string) (m : member_row) : member_row :=
  mk_member m.(mb_node) m.(mb_install) m.(mb_name) m.(mb_endpoint) m.(mb_public) m.(mb_caps) m.(mb_protocol)
    m.(mb_product) m.(mb_state) m.(mb_outbound) h (m.(mb_version) + 1) m.(mb_created) m.(mb_paired) m.(mb_seen)
    m.(mb_latency) m.(mb_revoked) m.(mb_pending) m.(mb_pending_expires) m.(mb_previous).
Definition with_outbound (o : string) (p : option string) (m : member_row) : member_row :=
  mk_member m.(mb_node) m.(mb_install) m.(mb_name) m.(mb_endpoint) m.(mb_public) m.(mb_caps) m.(mb_protocol)
    m.(mb_product) m.(mb_state) o m.(mb_inbound) m.(mb_version) m.(mb_created) m.(mb_paired) m.(mb_seen)
    m.(mb_latency) m.(mb_revoked) m.(mb_pending) m.(mb_pending_expires) p.
Definition with_seen (s l : option Z) (m : member_row) : member_row :=
  mk_member m.(mb_node) m.(mb_install) m.(mb_name) m.(mb_endpoint) m.(mb_public) m.(mb_caps) m.(mb_protocol)
    m.(mb_product) m.(mb_state) m.(mb_outbound) m.(mb_inbound) m.(mb_version) m.(mb_created) m.(mb_paired) s
    l m.(mb_revoked) m.(mb_pending) m.(mb_pending_expires) m.(mb_previous).

(** An [UPDATE cluster_members]: how many rows it matched. *)
Definition update_members (p : member_row -> bool) (f : member_row -> member_row) (n : node) : option (Z * node) :=
  Some (count p n.(members), set_members (upd p f n.(members)) n).

(** [if n != 1 { return errors.New(msg) }]. *)
Definition one_row {S} (msg : string) (n : Z) : M S unit := if n =? 1 then ret tt else throw msg.

Section Membership.
Context {GC : GantryCore}.
Variable parse : string -> option url.
(** [core.GenerateIdentity] with the private key, by product version and time. *)
Variable GenerateIdentity : string -> Z -> result (identity * string).
(** [insecurePlaintext]. *)
Variable insecure : bool.

Definition DefaultCapabilities : list string :=
  ["cluster.health"; "cluster.webfleet.summary"; "cluster.webfleet.compare"; "cluster.propagation"; "replication"].

Definition validateEndpointScheme (endpoint : string) : result unit :=
  if trim_space endpoint =?s "" then Ok tt else
  match parse endpoint with
  | None => Err "invalid cluster endpoint"
  | Some u =>
      if u.(u_host) =?s "" then Err "invalid cluster endpoint"
      else if u.(u_scheme) =?s "https" then Ok tt
      else if u.(u_scheme) =?s "http" then
        if insecure then Ok tt
        else Err "cluster endpoint must use https unless insecure plaintext transport is explicitly enabled"
      else Err "cluster endpoint must use https"
  end.

Definition identity_of (r : identity_row) : identity :=
  mk_identity r.(id_node) r.(id_install) r.(id_name) r.(id_endpoint) (EncodeToString r.(id_public))
    r.(id_caps) r.(id_protocol) r.(id_product) r.(id_created).

(** [INSERT ... ON CONFLICT(singleton) DO NOTHING]. *)
Definition insert_identity (g : identity) (priv product : string) (n : node) : node :=
  match n.(identities) with
  | [] => set_identities [mk_identity_row g.(NodeID) g.(InstallationID) "" ""
             (DecodeString g.(PublicKey)).1 priv g.(Capabilities) core_protocol product g.(CreatedAt)] n
  | _ => n
  end.

(** What a caller that found no identity does; another may have been faster. *)
Definition first_identity (product : string) (now : Z) : M node identity :=
  let* g := lift (GenerateIdentity product now) in
  exec (insert_identity g.1 g.2 product) ;;;
  let* c := query (fun n => List.head n.(identities)) in
  match c with Some i => ret (identity_of i) | None => throw "sql: no rows in result set" end.

Definition EnsureIdentity (product : string) (now : Z) : M node identity :=
  let* r := query (fun n => List.head n.(identities)) in
  match r with
  | Some i => ret (identity_of i)
  | None => first_identity product now
  end.

Definition UpdateIdentity (name endpoint version : string) (now : Z) : M node identity :=
  lift (validateEndpointScheme endpoint) ;;;
  let* _i := EnsureIdentity version now in
  exec (fun n => set_identities (List.map (fun r => mk_identity_row r.(id_node) r.(id_install)
    (trim_space name) (trim_slash endpoint) r.(id_public) r.(id_private) r.(id_caps) r.(id_protocol)
    version r.(id_created)) n.(identities)) n) ;;;
  EnsureIdentity version now.

Definition insert_invitation (i : invitation_row) (n : node) : option node :=
  if existsb (fun x => (x.(iv_id) =?s i.(iv_id)) || (x.(iv_hash) =?s i.(iv_hash))) n.(invitations) then None
  else Some (set_invitations (n.(invitations) ++ [i]) n).

(** [Invite]; [inv] and [token] are what [core.NewInvitation] draws. *)
Definition Invite (id state : string) (created expires : Z) (token : string) : M node string :=
  exec_opt (insert_invitation (mk_invitation id (SecretDigest token) state created expires None)) ;;;
  ret token.

Definition use_invitation (id : string) (now : Z) (n : node) : node :=
  set_invitations (upd (fun i => (i.(iv_id) =?s id) && (i.(iv_state) =?s PairingPending))
    (fun i => mk_invitation i.(iv_id) i.(iv_hash) PairingUsed i.(iv_created) i.(iv_expires) (Some now))
    n.(invitations)) n.

(** The row of a new member. *)
Definition new_member (remote : identity) (outbound inbound : string) (now : Z) : member_row :=
  mk_member remote.(NodeID) remote.(InstallationID) remote.(DisplayName) remote.(PublicEndpoint)
    (DecodeString remote.(PublicKey)).1 (NormalizeCapabilities remote.(Capabilities))
    remote.(ProtocolVersion) remote.(ProductVersion) MemberActive outbound (SecretDigest inbound)
    1 now now None None None None None None.

Definition compatible (remote : identity) : result unit :=
  Compatible core_protocol remote.(ProtocolVersion) DefaultCapabilities remote.(Capabilities) "".

(** [Pair]; [outbound] and [inbound] are the secrets drawn. *)
Definition Pair (token : string) (remote : identity) (outbound inbound : string) (now : Z)
    : M node (identity * string) :=
  lift (ValidateEndpoint remote insecure) ;;;
  let* r := query (invitation_by_hash (SecretDigest token)) in
  match r with
  | None => throw "sql: no rows in result set"
  | Some i =>
      lift (ValidateInvitation i.(iv_id) i.(iv_state) i.(iv_expires) now) ;;;
      lift (compatible remote) ;;;
      transact (exec_opt (insert_member (new_member remote outbound inbound now)) ;;;
                exec (use_invitation i.(iv_id) now) ;;;
                ret (tt, true)) ;;;
      let* local := EnsureIdentity "" now in
      ret (local, inbound)
  end.

Definition AddMember (remote : identity) (outbound inbound : string) (now : Z) : M node unit :=
  lift (compatible remote) ;;;
  exec_opt (insert_member (new_member remote outbound inbound now)).

(** [Member]. *)
Record Member := mk_Member {
  mv_identity : identity; mv_state : string; mv_health : string; mv_compatible : bool;
  mv_version : Z; mv_latency : option Z; mv_seen : option Z }.

Definition health (state : string) (compatible : bool) (seen : option Z) (now : Z) : string :=
  if state =?s MemberDisabled then HealthDisabled
  else if state =?s MemberRevoked then HealthRevoked
  else if negb compatible then HealthDegraded
  else match seen with
       | None => HealthOffline
       | Some t => if 10 * minute <? now - t then HealthOffline
                   else if 2 * minute <? now - t then HealthDegraded
                   else HealthOnline
       end.

Definition member_view (now : Z) (m : member_row) : Member :=
  let c := is_ok (Compatible core_protocol m.(mb_protocol) DefaultCapabilities m.(mb_caps) "") in
  mk_Member (mk_identity m.(mb_node) m.(mb_install) m.(mb_name) m.(mb_endpoint) (EncodeToString m.(mb_public))
               m.(mb_caps) m.(mb_protocol) m.(mb_product) m.(mb_created))
    m.(mb_state) (health m.(mb_state) c m.(mb_seen) now) c m.(mb_version) m.(mb_latency) m.(mb_seen).

Definition Members (now : Z) : M node (list Member) :=
  query (fun n => List.map (member_view now) (sort_by mb_node n.(members))).

Definition not_revoked (id : string) (m : member_row) : bool :=
  (m.(mb_node) =?s id) && negb (m.(mb_state) =?s MemberRevoked).

Definition SetEnabled (id : string) (enabled : bool) : M node unit :=
  let state := if enabled then MemberActive else MemberDisabled in
  let* n := stmt (update_members (not_revoked id) (fun m => with_mstate state m.(mb_revoked) m)) in
  one_row "cluster member unavailable" n.

(** [%q] of a text in which nothing needs escaping. *)
Definition quoted (s : string) : string := String "034"%char (s ++ String "034"%char "").

Definition EligibleVoter (id : string) : M node unit :=
  let* r := query (member_by id) in
  match r with
  | None => throw ("member " ++ quoted id ++ " is not paired; pair/authenticate the node before joining it as a voter")
  | Some m =>
      if negb (m.(mb_state) =?s MemberActive)
      then throw ("member " ++ quoted id ++ " is not active (state=" ++ m.(mb_state) ++ "); enable/repair the peer before joining it")
      else match Compatible core_protocol m.(mb_protocol) DefaultCapabilities m.(mb_caps) "" with
           | Ok _ => ret tt
           | Err e => throw ("member " ++ quoted id ++ " is not a compatible replication peer: " ++ e)
           end
  end.

Definition Revoke (id : string) (now : Z) : M node unit :=
  let* n := stmt (update_members (not_revoked id) (with_mstate MemberRevoked (Some now))) in
  one_row "cluster member unavailable" n.

(** [DELETE FROM cluster_members]; the nonces of the member go with it. *)
Definition delete_member (id : string) (n : node) : Z * node :=
  let p := fun m => (m.(mb_node) =?s id) && (m.(mb_state) =?s MemberRevoked) in
  let gone := fun c => existsb (fun m => p m && (m.(mb_node) =?s c.(nc_node))) n.(members) in
  (count p n.(members), set_nonces (del gone n.(nonces)) (set_members (del p n.(members)) n)).
Definition Remove (id : string) : M node unit :=
  let* n := stmt (fun n => Some (delete_member id n)) in
  one_row "revoke member before removal" n.

Definition RotateInbound (id hash : string) (expires : Z) : M node unit :=
  let* n := stmt (update_members (fun m => (m.(mb_node) =?s id) && (m.(mb_state) =?s MemberActive))
                    (with_pending (Some hash) (Some expires))) in
  one_row "cluster member unavailable" n.

(** The statement of [Rotate] that switches to the new secret. *)
Definition switch_outbound (id sec current : string) : M node unit :=
  let* n := stmt (update_members (fun m => (m.(mb_node) =?s id) && (m.(mb_state) =?s MemberActive))
                    (with_outbound sec (Some current))) in
  one_row "cluster member unavailable" n.

(** *** Summaries *)

Record Summary := mk_summary {
  sm_node : string; sm_sites : Z; sm_monitors : Z; sm_incidents : Z; sm_claims : Z }.
Record Comparison := mk_comparison {
  cp_node : string; cp_sites : Z; cp_monitors : Z; cp_groups : Z; cp_policies : Z; cp_claims : Z }.

Definition rows {A} (l : list A) : Z := Z.of_nat (length l).
Definition active_site (s : site_row) : bool := s.(s_enabled) && unarchived s.

Definition LocalSummary (now : Z) : M node Summary :=
  let* i := EnsureIdentity "" now in
  let* a := query (fun n => count unarchived n.(fleet).(sites)) in
  let* b := query (fun n => rows (List.filter
      (fun m => existsb (fun s => (s.(s_id) =? m.(m_site)) && active_site s) n.(fleet).(sites)) n.(fleet).(monitors))) in
  let* c := query (fun n => count (fun i => negb (i.(i_state) =?s "closed")) n.(fleet).(incidents)) in
  let* d := query (fun n => Z.of_nat (size n.(claim_rows))) in
  ret (mk_summary i.(NodeID) a b c d).

Definition LocalComparison (now : Z) : M node Comparison :=
  let* i := EnsureIdentity "" now in
  let* a := query (fun n => rows n.(fleet).(sites)) in
  let* b := query (fun n => rows n.(fleet).(monitors)) in
  let* c := query (fun n => rows n.(fleet).(groups)) in
  let* d := query alert_policies in
  let* e := query (fun n => Z.of_nat (size n.(claim_rows))) in
  ret (mk_comparison i.(NodeID) a b c d e).

(** *** Aggregation *)

Inductive target_kind := TargetLocal | TargetMembers | TargetNode | TargetOther.
Record target := mk_target { tg_kind : target_kind; tg_node : string }.
Record node_result (T : Type) := mk_result { nr_node : string; nr_owner : string; nr_ok : bool; nr_value : option T }.
Arguments mk_result {T}. Arguments nr_node {T}. Arguments nr_owner {T}. Arguments nr_ok {T}. Arguments nr_value {T}.

Definition kind_eqb (a b : target_kind) : bool :=
  match a, b with
  | TargetLocal, TargetLocal | TargetMembers, TargetMembers | TargetNode, TargetNode | TargetOther, TargetOther => true
  | _, _ => false
  end.

Definition wants_local (t : target) (local : string) : bool :=
  negb (kind_eqb t.(tg_kind) TargetMembers)
  && (negb (kind_eqb t.(tg_kind) TargetNode) || (t.(tg_node) =?s local)).
Definition wants_member (t : target) (m : Member) : bool :=
  (m.(mv_state) =?s MemberActive) && negb (kind_eqb t.(tg_kind) TargetLocal)
  && (negb (kind_eqb t.(tg_kind) TargetNode) || (m.(mv_identity).(NodeID) =?s t.(tg_node))).

Section Aggregate.
Context {T : Type}.
(** [core.ParseTarget], [core.FanOut] with a bound of four, [core.IsPartial]. *)
Variable ParseTarget : string -> result target.
Variable FanOut : list string -> list (node_result T).
Variable IsPartial : list (node_result T) -> bool.

Definition Aggregate (local : string) (v : T) (ms : list Member) (tgt : string)
    : result (bool * list (node_result T)) :=
  match ParseTarget tgt with
  | Err e => Err e
  | Ok t =>
      let own := if wants_local t local then [mk_result local local true (Some v)] else [] in
      let ids := List.map (fun m => m.(mv_identity).(NodeID)) (List.filter (wants_member t) ms) in
      let results := sort_by nr_node (own ++ FanOut ids) in
      Ok (IsPartial results, results)
  end.
End Aggregate.

(** *** Audit trail *)

(** [known]: the acting user and the organization exist. *)
Definition Audit (known : Z -> Z -> bool) (actor org : Z) (action target request : string) (now : Z) : M node unit :=
  if action =?s "" then ret tt else
  let detail := if request =?s "" then "" else "request_id=" ++ request in
  exec_opt (fun n => if known actor org
    then Some (set_audit_log (n.(audit_log) ++ [mk_audit_row actor org action target detail now]) n) else None).

Definition RecentAudit (limit : Z) : M node (list audit_row) :=
  let limit := if (limit <? 1) || (100 <? limit) then 25 else limit in
  query (fun n => firstn (Z.to_nat limit)
    (List.filter (fun a => like "cluster.%" a.(au_action)) (List.rev n.(audit_log)))).
End Membership.

(** *** Policies *)

Record OperationPolicy := mk_policy {
  Operation : string; FanOutRead : bool; TargetedRemote : bool; PropagatableLater : bool;
  AuthoritativeOwner : bool; NodeLocalOnly : bool }.

Definition Policies : list OperationPolicy :=
  [mk_policy "cluster.health" true true false false false;
   mk_policy "monitor.status" true true false true false;
   mk_policy "monitor.definition" false true true true false;
   mk_policy "request.definition" false true true true false;
   mk_policy "environment.definition" false true true true false;
   mk_policy "schedule.definition" false true true true false;
   mk_policy "execution.run" false true false true false;
   mk_policy "results.history" true true false true false;
   mk_policy "secrets" false false false true true;
   mk_policy "scheduler.runtime" false false false true true;
   mk_policy "browser.runtime" false false false false true].

Definition PolicyFor (op : string) : option OperationPolicy :=
  find_first (fun p => p.(Operation) =?s op) Policies.
