(* ===== verification/Pairing.v ===== *)
(** Pairing ([internal/cluster/pairing.go]): the join request a node submits
    under an invitation, the decision of the host, the one collection of the
    result, and the joining side that follows it.

    The HTTP exchange of the joining side is a parameter: what the host answers
    to the submission and to each poll. *)
From S2P Require Import Prelude GoStr TimeText Base64 SqlM FleetDb Claims Sites Gantry Cluster.
Open Scope string_scope.
Open Scope Z_scope.
Open Scope wf_scope.
Open Scope sql_scope.

(** ** Definitions *)

Definition insert_join (j : join_row) (n : node) : option node :=
  if existsb (fun x => (x.(jn_id) =?s j.(jn_id)) || (x.(jn_hash) =?s j.(jn_hash))) n.(joins)
     || negb (existsb (fun i => i.(iv_id) =?s j.(jn_invitation)) n.(invitations)) then None
  else Some (set_joins (n.(joins) ++ [j]) n).

Definition with_jstate (st : string) (decided consumed : option Z) (j : join_row) : join_row :=
  mk_join j.(jn_id) j.(jn_hash) j.(jn_invitation) j.(jn_node) j.(jn_install) j.(jn_name) j.(jn_endpoint)
    j.(jn_public) j.(jn_caps) j.(jn_protocol) j.(jn_product) j.(jn_credential) st j.(jn_expires)
    j.(jn_created) decided consumed.

(** [JoinRequest], the columns it shows an operator. *)
Record JoinRequest := mk_jrequest {
  jr_id : string; jr_identity : identity; jr_fingerprint : string; jr_state : string; jr_expires : Z }.
(** [OutboundJoin]. *)
Record OutboundJoin := mk_ojoin {
  oj_id : string; oj_url : string; oj_request : string; oj_state : string; oj_created : Z;
  oj_updated : Z; oj_error : string }.

Fixpoint insert_time {A} (key : A -> Z) (x : A) (l : list A) : list A :=
  match l with
  | [] => [x]
  | y :: l' => if text_leb (key y) (key x) then y :: insert_time key x l' else x :: l
  end.
(** [ORDER BY created_at] on the stored text. *)
Definition sort_time {A} (key : A -> Z) (l : list A) : list A :=
  List.fold_left (fun acc x => insert_time key x acc) l [].

Section Pairing.
Context {GC : GantryCore}.
Variable parse : string -> option url.
Variable GenerateIdentity : string -> Z -> result (identity * string).
Variable insecure : bool.
(** [core.Identity.Fingerprint] of a public key. *)
Variable Fingerprint : string -> string.

(** [SubmitJoin]; [id] and [secret] are the request's id and secret drawn. *)
Definition submit_body (s : submission) (id secret : string) (now : Z) : M node (receipt * bool) :=
  let i := s.(SubIdentity) in
  let* r := or_fail (query (invitation_by_hash (SecretDigest s.(InvitationToken)))) "invitation unavailable" in
  match r with
  | None => throw "invitation unavailable"
  | Some iv =>
      lift (ValidateInvitation iv.(iv_id) iv.(iv_state) iv.(iv_expires) now) ;;;
      let '(pub, ok) := DecodeString i.(PublicKey) in
      if negb ok then throw "invalid node public key" else
      exec_opt (insert_join (mk_join id (SecretDigest secret) iv.(iv_id) i.(NodeID) i.(InstallationID)
        i.(DisplayName) (trim_slash i.(PublicEndpoint)) pub (NormalizeCapabilities i.(Capabilities))
        i.(ProtocolVersion) i.(ProductVersion) s.(CredentialForHost) PairingPending (now + PairingLifetime)
        now None None)) ;;;
      exec (use_invitation iv.(iv_id) now) ;;;
      ret (mk_receipt id secret PairingPending, true)
  end.

Definition SubmitJoin (s : submission) (id secret : string) (now : Z) : M node receipt :=
  lift (ValidateJoinSubmission s now insecure) ;;;
  let* local := EnsureIdentity GenerateIdentity "" now in
  let i := s.(SubIdentity) in
  if (local.(NodeID) =?s i.(NodeID)) || (local.(InstallationID) =?s i.(InstallationID))
  then throw "cannot pair node with itself" else
  lift (compatible i) ;;;
  transact (submit_body s id secret now).

Definition join_view (j : join_row) : JoinRequest :=
  let pub := EncodeToString j.(jn_public) in
  mk_jrequest j.(jn_id) (mk_identity j.(jn_node) j.(jn_install) j.(jn_name) j.(jn_endpoint) pub
    (NormalizeCapabilities j.(jn_caps)) j.(jn_protocol) j.(jn_product) j.(jn_created))
    (Fingerprint pub) j.(jn_state) j.(jn_expires).

Definition PendingJoins : M node (list JoinRequest) :=
  query (fun n => List.map join_view (sort_time jn_created
    (List.filter (fun j => j.(jn_state) =?s PairingPending) n.(joins)))).

Definition pending_join (id : string) (n : node) : option join_row :=
  find_first (fun j => (j.(jn_id) =?s id) && (j.(jn_state) =?s PairingPending)) n.(joins).

(** The row an approval writes; [placeholder] is a secret nobody keeps. *)
Definition approved_member (j : join_row) (placeholder : string) (now : Z) : member_row :=
  mk_member j.(jn_node) j.(jn_install) j.(jn_name) j.(jn_endpoint) j.(jn_public) j.(jn_caps)
    j.(jn_protocol) j.(jn_product) MemberActive j.(jn_credential) (SecretDigest placeholder) 1 now now
    None None None None None None.

Definition decide_body (id : string) (approve : bool) (placeholder : string) (now : Z) : M node (unit * bool) :=
  let* r := or_fail (query (pending_join id)) "pending join request unavailable" in
  match r with
  | None => throw "pending join request unavailable"
  | Some j =>
      if j.(jn_expires) <=? now then throw "join request expired" else
      (if approve then
         lift (Compatible core_protocol j.(jn_protocol) DefaultCapabilities j.(jn_caps) "") ;;;
         exec_opt (upsert_member (approved_member j placeholder now))
       else ret tt) ;;;
      exec (fun n => set_joins (upd (fun j => (j.(jn_id) =?s id) && (j.(jn_state) =?s PairingPending))
        (fun j => with_jstate (if approve then PairingApproved else PairingRejected) (Some now) j.(jn_consumed) j)
        n.(joins)) n) ;;;
      ret (tt, true)
  end.
Definition DecideJoin (id : string) (approve : bool) (placeholder : string) (now : Z) : M node unit :=
  transact (decide_body id approve placeholder now).

(** [PollJoin]; [credential] is the secret drawn.  Only the last branch commits. *)
Definition poll_body (host : identity) (id secret credential : string) (now : Z) : M node (pairing_result * bool) :=
  let* r := or_fail (query (fun n =>
    find_first (fun j => (j.(jn_id) =?s id) && (j.(jn_hash) =?s SecretDigest secret)) n.(joins)))
    "join request unavailable" in
  match r with
  | None => throw "join request unavailable"
  | Some j =>
      if (j.(jn_state) =?s PairingPending) && (j.(jn_expires) <=? now)
      then ret (mk_pairing PairingExpired None "", false)
      else if j.(jn_state) =?s PairingRejected then ret (mk_pairing PairingRejected None "", false)
      else if negb (j.(jn_state) =?s PairingApproved) then ret (mk_pairing j.(jn_state) None "", false)
      else match j.(jn_consumed) with
      | Some _ => throw "pairing result already collected"
      | None =>
          exec (fun n => set_members (upd (fun m => m.(mb_node) =?s j.(jn_node))
            (with_inbound (SecretDigest credential)) n.(members)) n) ;;;
          exec (fun n => set_joins (upd (fun x => x.(jn_id) =?s id)
            (fun x => with_jstate PairingUsed x.(jn_decided) (Some now) x) n.(joins)) n) ;;;
          ret (mk_pairing PairingApproved (Some host) credential, true)
      end
  end.
Definition PollJoin (id secret credential : string) (now : Z) : M node pairing_result :=
  let* host := EnsureIdentity GenerateIdentity "" now in
  transact (poll_body host id secret credential now).

Definition AcceptRemote (remote : identity) (outbound inbound : string) (now : Z) : M node unit :=
  lift (ValidateEndpoint remote insecure) ;;;
  if (outbound =?s "") || (inbound =?s "") then throw "incomplete pairing result" else
  let '(pub, ok) := DecodeString remote.(PublicKey) in
  if negb ok then throw "illegal base64 data" else
  exec_opt (upsert_member (mk_member remote.(NodeID) remote.(InstallationID) remote.(DisplayName)
    remote.(PublicEndpoint) pub (NormalizeCapabilities remote.(Capabilities)) remote.(ProtocolVersion)
    remote.(ProductVersion) MemberActive outbound (SecretDigest inbound) 1 now now None None None None None None)).

(** *** The joining side *)

Definition insert_outbound (o : outbound_row) (n : node) : option node :=
  if existsb (fun x => x.(ob_id) =?s o.(ob_id)) n.(outbounds) then None
  else Some (set_outbounds (n.(outbounds) ++ [o]) n).

(** [BeginOutbound]; [post] is what the host's URL answers to a submission,
    [inbound] the secret and [oid] the id drawn. *)
Definition BeginOutbound (post : string -> submission -> result receipt) (raw token inbound oid : string)
    (now : Z) : M node OutboundJoin :=
  let u := trim_slash (trim_space raw) in
  lift (validateEndpointScheme parse insecure u) ;;;
  let* local := EnsureIdentity GenerateIdentity "" now in
  if local.(PublicEndpoint) =?s "" then throw "configure this Webfleet public HTTPS endpoint before joining a cluster" else
  let* r := lift (post u (mk_submission token local inbound)) in
  exec_opt (insert_outbound (mk_outbound oid u r.(RequestID) r.(RequestSecret) inbound PairingPending now now "")) ;;;
  ret (mk_ojoin oid u r.(RequestID) PairingPending now now "").

Definition outbound_view (o : outbound_row) : OutboundJoin :=
  mk_ojoin o.(ob_id) o.(ob_url) o.(ob_request) o.(ob_state) o.(ob_created) o.(ob_updated) o.(ob_error).
Definition ListOutbound : M node (list OutboundJoin) :=
  query (fun n => List.map outbound_view (sort_time ob_created n.(outbounds))).

Definition with_ostate (st : string) (now : Z) (o : outbound_row) : outbound_row :=
  mk_outbound o.(ob_id) o.(ob_url) o.(ob_request) o.(ob_secret) o.(ob_inbound) st o.(ob_created) now "".

(** [CollectOutbound]; [get] is the answer to a poll of a request with its secret. *)
Definition CollectOutbound (get : string -> string -> string -> result pairing_result) (id : string)
    (now : Z) : M node OutboundJoin :=
  let* r := or_fail (query (fun n => find_first (fun o => o.(ob_id) =?s id) n.(outbounds))) "outbound join unavailable" in
  match r with
  | None => throw "outbound join unavailable"
  | Some o =>
      if negb (o.(ob_state) =?s PairingPending) then ret (outbound_view o) else
      let* res := lift (get o.(ob_url) o.(ob_request) o.(ob_secret)) in
      let* st :=
        if res.(ResultState) =?s PairingApproved then
          match res.(Remote) with
          | Some remote =>
              if res.(Credential) =?s "" then throw "remote approval incomplete"
              else AcceptRemote remote res.(Credential) o.(ob_inbound) now ;;; ret PairingApproved
          | None => throw "remote approval incomplete"
          end
        else if (res.(ResultState) =?s PairingRejected) || (res.(ResultState) =?s PairingExpired)
        then ret res.(ResultState)
        else ret PairingPending in
      exec (fun n => set_outbounds (upd (fun o => o.(ob_id) =?s id) (with_ostate st now) n.(outbounds)) n) ;;;
      ret (mk_ojoin o.(ob_id) o.(ob_url) o.(ob_request) st o.(ob_created) now o.(ob_error))
  end.
End Pairing.
