(* ===== verification/Transport.v ===== *)
(** The signed transport between nodes ([internal/cluster/transport.go]), the
    credential rotation of [cluster.go], and the peer's side of both in
    [internal/server/cluster.go].

    The world of a node is its tables and whatever its HTTP client talks to, of
    any type [W]; a peer is such a [W].  The random nonces, request ids and
    secrets are arguments, and one instant stands for every reading of the
    clock in a call. *)
From S2P Require Import Prelude GoStr TimeText Base64 SqlM FleetDb Claims Sites Gantry Cluster Pairing.
Open Scope string_scope.
Open Scope Z_scope.
Open Scope wf_scope.
Open Scope sql_scope.

(** ** Definitions *)

Section Transport.
Context {GC : GantryCore}.
Variable parse : string -> option url.
Variable GenerateIdentity : string -> Z -> result (identity * string).
Variable insecure : bool.

(** A request as the receiver sees it; [None] is a body that cannot be read. *)
Record request := mk_request {
  rq_method : string; rq_uri : string; rq_auth : string; rq_header : header; rq_body : option string }.
Record response := mk_response { rs_status : Z; rs_body : string }.

(** *** Receiving *)

(** [UPDATE ... SET inbound=pending, pending=NULL ...]: the column is [NOT NULL]. *)
Definition promote_pending (id : string) (n : node) : option node :=
  if existsb (fun m => (m.(mb_node) =?s id) && match m.(mb_pending) with None => true | Some _ => false end) n.(members)
  then None
  else Some (set_members (upd (fun m => m.(mb_node) =?s id)
    (fun m => with_pending None None
       (with_inbound (match m.(mb_pending) with Some p => p | None => "" end) m)) n.(members)) n).

Definition insert_nonce (id nonce : string) (now : Z) (n : node) : option node :=
  if existsb (fun c => (c.(nc_node) =?s id) && (c.(nc_nonce) =?s nonce)) n.(nonces)
     || negb (existsb (fun m => m.(mb_node) =?s id) n.(members)) then None
  else Some (set_nonces (n.(nonces) ++ [mk_nonce id nonce now]) n).

Definition purge_nonces (now : Z) (n : node) : node :=
  set_nonces (del (fun c => text_ltb c.(nc_seen) (now - 2 * ClockSkew)) n.(nonces)) n.

Definition touch_member (id : string) (now : Z) (n : node) : node :=
  set_members (upd (fun m => m.(mb_node) =?s id) (fun m => with_seen (Some now) m.(mb_latency) m) n.(members)) n.

Definition material_of (m : member_row) : auth_material :=
  mk_material m.(mb_state) m.(mb_protocol) m.(mb_caps) m.(mb_inbound) m.(mb_pending) m.(mb_pending_expires).

Definition Authenticate (rq : request) (capability : string) (now : Z) : M node (string * string) :=
  match rq.(rq_body) with
  | None => throw "cluster request too large"
  | Some body =>
      if MaxRequestBytes <? len body then throw "cluster request too large" else
      let* env := lift (ReadEnvelope rq.(rq_header) now) in
      let secret := trim_prefix rq.(rq_auth) "Bearer " in
      if secret =?s "" then throw "cluster credential required" else
      let* r := or_fail (query (member_by env.(e_node))) "cluster member unavailable" in
      match r with
      | None => throw "cluster member unavailable"
      | Some m =>
          let* promote := lift (VerifyIncoming (mk_input (material_of m) capability secret rq.(rq_method)
                                  rq.(rq_uri) env body now)) in
          (if promote then exec_opt (promote_pending env.(e_node)) else ret tt) ;;;
          ignore tt (exec (purge_nonces now)) ;;;
          or_fail (exec_opt (insert_nonce env.(e_node) env.(e_nonce) now)) "cluster replay rejected" ;;;
          ignore tt (exec (touch_member env.(e_node) now)) ;;;
          ret (body, env.(e_request))
      end
  end.

(** *** Sending *)

Section Sending.
Context {W : Type}.
(** [client.Do] and the request URI of a target URL, which may not parse. *)
Variable client : string -> request -> W -> result response * W.
Variable request_uri : string -> option string.

Definition on_node {A} (m : M node A) : M (node * W) A := fun '((n, w), fl) =>
  let '(r, (n', fl')) := m (n, fl) in (r, ((n', w), fl')).
Definition call (target : string) (rq : request) : M (node * W) response := fun '((n, w), fl) =>
  let '(r, w') := client target rq w in (r, ((n, w'), fl)).

Definition send (local target method capability body credential : string) (draw : string * string) (now : Z)
    : M (node * W) response :=
  match request_uri target with
  | None => throw "invalid request URL"
  | Some uri =>
      call target (mk_request method uri ("Bearer " ++ credential)
        (WriteEnvelope local credential method uri capability core_protocol body now draw.1 draw.2) (Some body))
  end.

Definition note_seen (id : string) (now latency : Z) (m : member_row) : member_row :=
  with_seen (Some now) (Some latency) m.
Definition upd_member (id : string) (f : member_row -> member_row) (n : node) : node :=
  set_members (upd (fun m => m.(mb_node) =?s id) f n.(members)) n.

(** [Do]; [d1] and [d2] are the nonce and request id of the two attempts. *)
Definition Do (id method path capability body : string) (d1 d2 : string * string) (now latency : Z)
    : M (node * W) response :=
  let* r := on_node (query (member_by id)) in
  match r with
  | None => throw "sql: no rows in result set"
  | Some m =>
      if negb (m.(mb_state) =?s MemberActive) || negb (m.(mb_protocol) =? core_protocol)
      then throw "cluster member unavailable or incompatible" else
      lift (validateEndpointScheme parse insecure m.(mb_endpoint)) ;;;
      let path := if has_prefix path "/" then path else "/" ++ path in
      let target := trim_slash m.(mb_endpoint) ++ path in
      let previous := match m.(mb_previous) with Some p => p | None => "" end in
      let* local := on_node (EnsureIdentity GenerateIdentity "" now) in
      let* resp := send local.(NodeID) target method capability body m.(mb_outbound) d1 now in
      if negb (previous =?s "") && negb (previous =?s m.(mb_outbound))
         && ((resp.(rs_status) =? 401) || (resp.(rs_status) =? 403)) then
        let* resp := send local.(NodeID) target method capability body previous d2 now in
        (if resp.(rs_status) <? 400
         then ignore tt (on_node (exec (upd_member id (note_seen id now latency)))) else ret tt) ;;;
        ret resp
      else
        (if (resp.(rs_status) <? 400) && negb (previous =?s "")
         then ignore tt (on_node (exec (upd_member id
                (fun m => note_seen id now latency (with_outbound m.(mb_outbound) None m)))))
         else ignore tt (on_node (exec (upd_member id (note_seen id now latency))))) ;;;
        ret resp
  end.

Variable rotation_body : string -> Z -> string.

(** [Rotate] with a transport; [sec] is the secret drawn. *)
Definition Rotate (id sec : string) (d1 d2 : string * string) (now latency : Z) : M (node * W) string :=
  let* r := or_fail (on_node (query (member_by id))) "cluster member unavailable" in
  match r with
  | None => throw "cluster member unavailable"
  | Some m =>
      let* resp := (fun w => match Do id "POST" "/api/cluster/v1/rpc/rotate-inbound" "cluster.health"
                        (rotation_body (EncodeToString (SecretDigest sec)) (now + 15 * minute)) d1 d2 now latency w with
                    | (Err e, w') => (Err ("peer did not accept the rotation: " ++ e), w')
                    | r => r end) in
      if negb (resp.(rs_status) =? 200)
      then throw ("peer rejected the inbound rotation (" ++ format_int resp.(rs_status) ++ "): "
                  ++ trim_space (substring 0 1024 resp.(rs_body))) else
      on_node (switch_outbound id sec m.(mb_outbound)) ;;;
      ret sec
  end.
End Sending.

(** *** The peer *)

(** The two fields of a rotation's body: the digest's text, and the expiry if
    its text is an instant. *)
Variable decode_rotation : string -> option (string * option Z).
Variable show_summary : Summary -> string.
Variable show_comparison : Comparison -> string.

Definition answer {A} (m : M node A) (code : Z) (k : A -> M node response) : M node response := fun w =>
  match m w with
  | (Err e, w') => (Ok (mk_response code e), w')
  | (Ok a, w') => k a w'
  end.

Definition handleClusterRPCSummary (rq : request) (now : Z) : M node response :=
  answer (Authenticate rq "cluster.webfleet.summary" now) 401 (fun _ =>
  answer (LocalSummary GenerateIdentity now) 500 (fun v => ret (mk_response 200 (show_summary v)))).

Definition handleClusterRPCCompare (rq : request) (now : Z) : M node response :=
  answer (Authenticate rq "cluster.webfleet.compare" now) 401 (fun _ =>
  answer (LocalComparison GenerateIdentity now) 500 (fun v => ret (mk_response 200 (show_comparison v)))).

Definition handleClusterRPCRotateInbound (rq : request) (now : Z) : M node response :=
  answer (Authenticate rq "cluster.health" now) 401 (fun '(body, _) =>
  let id := HeaderNode rq.(rq_header) in
  match decode_rotation body with
  | None => ret (mk_response 400 "invalid rotation payload")
  | Some (text, e) =>
      let '(h, ok) := DecodeString text in
      if negb ok || negb (len h =? 32) then ret (mk_response 400 "invalid credential digest") else
      match e with
      | None => ret (mk_response 400 "invalid rotation expiry")
      | Some e => answer (RotateInbound id h e) 409 (fun _ => ret (mk_response 200 ""))
      end
  end).

(** The three RPC routes. *)
Definition serve_rpc (rq : request) (now : Z) : M node response :=
  if (rq.(rq_method) =?s "GET") && (rq.(rq_uri) =?s "/api/cluster/v1/rpc/summary") then handleClusterRPCSummary rq now
  else if (rq.(rq_method) =?s "GET") && (rq.(rq_uri) =?s "/api/cluster/v1/rpc/compare") then handleClusterRPCCompare rq now
  else if (rq.(rq_method) =?s "POST") && (rq.(rq_uri) =?s "/api/cluster/v1/rpc/rotate-inbound")
  then handleClusterRPCRotateInbound rq now
  else ret (mk_response 404 "not found").
End Transport.
