(* ===== verification/ClusterLife.v ===== *)
(** The life of a node's cluster tables: every operation of [Cluster],
    [Pairing] and [Transport] as a step, how the tables evolve along any run of
    steps under any refused statements, and what follows: one use of an
    invitation, one collection of a credential, one identity, no way back for a
    revoked member but a new pairing, and the agreement of the two nodes of a
    pairing. *)
From S2P Require Import Prelude GoStr TimeText Base64 SqlM FleetDb Claims Sites Gantry Cluster Pairing Transport.
Open Scope string_scope.
Open Scope Z_scope.
Open Scope wf_scope.
Open Scope sql_scope.

(** ** Definitions *)

Section Life.
Context {GC : GantryCore}.
Variable parse : string -> option url.
Variable GenerateIdentity : string -> Z -> result (identity * string).
Variable insecure : bool.

(** The operations, with whatever their callers, their peers and the random
    source give them. *)
Inductive op :=
| OEnsure (product : string) (now : Z)
| OUpdate (name endpoint version : string) (now : Z)
| OInvite (id state : string) (created expires : Z) (token : string)
| OPair (token : string) (remote : identity) (outbound inbound : string) (now : Z)
| OAdd (remote : identity) (outbound inbound : string) (now : Z)
| OEnable (id : string) (enabled : bool)
| ORevoke (id : string) (now : Z)
| ORemove (id : string)
| ORotateInbound (id hash : string) (expires : Z)
| OSubmit (s : submission) (id secret : string) (now : Z)
| ODecide (id : string) (approve : bool) (placeholder : string) (now : Z)
| OPoll (id secret credential : string) (now : Z)
| OAccept (remote : identity) (outbound inbound : string) (now : Z)
| OBegin (post : string -> submission -> result receipt) (raw token inbound oid : string) (now : Z)
| OCollect (get : string -> string -> string -> result pairing_result) (id : string) (now : Z)
| OAuthenticate (rq : request) (capability : string) (now : Z)
| ODo (client : string -> request -> nat -> result response * nat) (uri : string -> option string)
      (id method path capability body : string) (d1 d2 : string * string) (now latency : Z)
| ORotate (client : string -> request -> nat -> result response * nat) (uri : string -> option string)
      (rotation_body : string -> Z -> string) (id sec : string) (d1 d2 : string * string) (now latency : Z)
| OAudit (known : Z -> Z -> bool) (actor org : Z) (action target request : string) (now : Z).

(** An operation whose result and peer do not matter. *)
Definition silent {A} (m : M node A) : M node unit := m ;;; ret tt.
Definition alone {A} (m : M (node * nat) A) : M node unit := fun '(n, fl) =>
  let '(r, ((n', _), fl')) := m ((n, O), fl) in
  (match r with Ok _ => Ok tt | Err e => Err e end, (n', fl')).

Definition run_op (o : op) : M node unit :=
  match o with
  | OEnsure p now => silent (EnsureIdentity GenerateIdentity p now)
  | OUpdate a b c now => silent (UpdateIdentity parse GenerateIdentity insecure a b c now)
  | OInvite a b c d e => silent (Invite a b c d e)
  | OPair a b c d now => silent (Pair GenerateIdentity insecure a b c d now)
  | OAdd a b c now => AddMember a b c now
  | OEnable a b => SetEnabled a b
  | ORevoke a now => Revoke a now
  | ORemove a => Remove a
  | ORotateInbound a b c => RotateInbound a b c
  | OSubmit a b c now => silent (SubmitJoin GenerateIdentity insecure a b c now)
  | ODecide a b c now => DecideJoin a b c now
  | OPoll a b c now => silent (PollJoin GenerateIdentity a b c now)
  | OAccept a b c now => AcceptRemote insecure a b c now
  | OBegin p a b c d now => silent (BeginOutbound parse GenerateIdentity insecure p a b c d now)
  | OCollect g a now => silent (CollectOutbound insecure g a now)
  | OAuthenticate a b now => silent (Authenticate a b now)
  | ODo cl u a b c d e d1 d2 now l => alone (Do parse GenerateIdentity insecure cl u a b c d e d1 d2 now l)
  | ORotate cl u rb a b d1 d2 now l => alone (Rotate parse GenerateIdentity insecure cl u rb a b d1 d2 now l)
  | OAudit k a b c d e now => Audit k a b c d e now
  end.

(** Any operation, whatever statements the database refuses during it. *)
Definition step (n n' : node) : Prop := exists o fl, n' = (run_op o (n, fl)).2.1.

(** ** How the tables evolve *)

Definition id_ev (a b : identity_row) : Prop :=
  (b.(id_node), b.(id_install), b.(id_public), b.(id_private), b.(id_created))
  = (a.(id_node), a.(id_install), a.(id_public), a.(id_private), a.(id_created)).
Definition iv_ev (a b : invitation_row) : Prop :=
  (b.(iv_id), b.(iv_hash), b.(iv_created), b.(iv_expires)) = (a.(iv_id), a.(iv_hash), a.(iv_created), a.(iv_expires))
  /\ (b.(iv_state) = a.(iv_state) \/ a.(iv_state) = PairingPending /\ b.(iv_state) = PairingUsed).

(** A join request is decided while it is pending and collected once approved. *)
Definition jn_progress (a b : string) : Prop :=
  a = b \/ a = PairingPending /\ (b = PairingApproved \/ b = PairingRejected \/ b = PairingUsed)
  \/ a = PairingApproved /\ b = PairingUsed.
Definition jn_key (j : join_row) :=
  (j.(jn_id), j.(jn_hash), j.(jn_invitation), j.(jn_node), j.(jn_install), j.(jn_name),
   (j.(jn_endpoint), j.(jn_public), j.(jn_caps), j.(jn_protocol), j.(jn_product), j.(jn_credential), j.(jn_expires))).
Definition jn_ev (a b : join_row) : Prop := jn_key b = jn_key a /\ jn_progress a.(jn_state) b.(jn_state).
Definition ob_key (o : outbound_row) := (o.(ob_id), o.(ob_url), o.(ob_request), o.(ob_secret), o.(ob_inbound)).
Definition ob_ev (a b : outbound_row) : Prop := ob_key b = ob_key a.

(** Primary keys are unique, and there is at most one identity. *)
Definition tables_wf (n : node) : Prop :=
  NoDup (List.map jn_id n.(joins)) /\ (length n.(identities) <= 1)%nat.

Definition evolves (n n' : node) : Prop := tables_wf n ->
  tables_wf n' /\ grows id_ev n.(identities) n'.(identities)
  /\ grows iv_ev n.(invitations) n'.(invitations)
  /\ grows jn_ev n.(joins) n'.(joins) /\ grows ob_ev n.(outbounds) n'.(outbounds).
End Life.

(** ** Lemmas *)

Section Evolution.
Context {GC : GantryCore}.
Variable parse : string -> option url.
Variable GenerateIdentity : string -> Z -> result (identity * string).
Variable insecure : bool.

#[export] Instance id_ev_preorder : PreOrder id_ev.
Proof. split; [done|]. unfold id_ev. intros a b c H1 H2. congruence. Qed.
#[export] Instance ob_ev_preorder : PreOrder ob_ev.
Proof. split; [done|]. unfold ob_ev. intros a b c H1 H2. congruence. Qed.

(** Rows of invitations and joins evolve transitively when the states differ. *)
Context {PS : PairingStates}.

Lemma pairing_states_ne : PairingPending <> PairingUsed /\ PairingPending <> PairingApproved
  /\ PairingPending <> PairingRejected /\ PairingUsed <> PairingApproved /\ PairingUsed <> PairingRejected
  /\ PairingApproved <> PairingRejected /\ PairingApproved <> PairingExpired.
Proof using PS.
  pose proof pairing_distinct as H. rewrite !NoDup_cons, !not_elem_of_cons in H. naive_solver.
Qed.

#[export] Instance iv_ev_preorder : PreOrder iv_ev.
Proof using PS.
  pose proof pairing_states_ne. split; [by split; [|left]|]. unfold iv_ev. intros a b c [H1 S1] [H2 S2].
  split; [congruence|]. destruct S1 as [S1|[S1 S1']], S2 as [S2|[S2 S2']]; first [left; congruence|right; split; congruence].
Qed.
#[export] Instance jn_ev_preorder : PreOrder jn_ev.
Proof using PS.
  pose proof pairing_states_ne. split; [by split; [|left]|]. unfold jn_ev, jn_progress. intros a b c [H1 S1] [H2 S2].
  split; [congruence|]. intuition congruence.
Qed.

#[export] Instance evolves_refl : Reflexive evolves.
Proof using PS. intros n H. repeat split; try apply H; apply grows_refl; apply _. Qed.
#[export] Instance evolves_trans : Transitive evolves.
Proof using PS.
  intros a b c H1 H2 W. destruct (H1 W) as (W1 & A1 & B1 & C1 & D1). destruct (H2 W1) as (W2 & A2 & B2 & C2 & D2).
  split; [done|]. repeat split; (eapply grows_trans; [apply _|done|done]).
Qed.

(** Statements that leave the four tables alone. *)
Definition other_tables (n n' : node) : Prop :=
  n'.(identities) = n.(identities) /\ n'.(invitations) = n.(invitations)
  /\ n'.(joins) = n.(joins) /\ n'.(outbounds) = n.(outbounds).

Lemma evolves_other n n' : other_tables n n' -> evolves n n'.
Proof using PS.
  intros (H1 & H2 & H3 & H4) W. unfold tables_wf in *. rewrite H1, H2, H3, H4.
  repeat split; try apply W; apply grows_refl; apply _.
Qed.

Lemma evolves_identities v n : (length v <= 1)%nat -> grows id_ev n.(identities) v -> evolves n (set_identities v n).
Proof using PS.
  intros Hl Hg W. repeat split; try apply W; try done; apply grows_refl; apply _.
Qed.

Lemma evolves_invitations v n : grows iv_ev n.(invitations) v -> evolves n (set_invitations v n).
Proof using PS. intros Hg W. repeat split; try apply W; try done; apply grows_refl; apply _. Qed.

Lemma evolves_joins v n : (tables_wf n -> NoDup (List.map jn_id v) /\ grows jn_ev n.(joins) v) -> evolves n (set_joins v n).
Proof using PS.
  intros Hg W. destruct (Hg W). repeat split; try apply W; try done; apply grows_refl; apply _.
Qed.

Lemma evolves_outbounds v n : grows ob_ev n.(outbounds) v -> evolves n (set_outbounds v n).
Proof using PS. intros Hg W. repeat split; try apply W; try done; apply grows_refl; apply _. Qed.

(** *** The statements *)

Lemma insert_identity_evolves g priv product n : evolves n (insert_identity g priv product n).
Proof using PS.
  unfold insert_identity. destruct (identities n) eqn:E; [|reflexivity].
  apply evolves_identities; [cbn; lia|]. rewrite E. apply grows_nil.
Qed.

Lemma insert_invitation_evolves i n n' : insert_invitation i n = Some n' -> evolves n n'.
Proof using PS.
  unfold insert_invitation. case_match; [done|]. intros [= <-]. apply evolves_invitations, grows_app; apply _.
Qed.

Lemma use_invitation_evolves id now n : evolves n (use_invitation id now n).
Proof using PS.
  apply evolves_invitations, grows_upd; [apply _|]. intros x _ Hx. bool_to_prop. split; [done|]. right. by split.
Qed.

Lemma insert_member_other m n n' : insert_member m n = Some n' -> other_tables n n'.
Proof. unfold insert_member. case_match; [|done]. by intros [= <-]. Qed.

Lemma upsert_member_other m n n' : upsert_member m n = Some n' -> other_tables n n'.
Proof. unfold upsert_member. repeat case_match; try done; [by intros [= <-]|]. apply insert_member_other. Qed.

Lemma insert_join_evolves j n n' : insert_join j n = Some n' -> evolves n n'.
Proof using PS.
  unfold insert_join. destruct (_ || _) eqn:E; [done|]. intros [= <-]. apply orb_false_iff in E as [E _].
  apply evolves_joins. intros [W _]. split; [|apply grows_app; apply _].
  apply NoDup_map_snoc; [done|]. intros (x & Hx & Hin)%in_map_iff.
  pose proof (proj1 (existsb_none_iff _ _) E x Hin) as G. cbn in G. rewrite Hx, String.eqb_refl in G. done.
Qed.

Lemma insert_outbound_evolves o n n' : insert_outbound o n = Some n' -> evolves n n'.
Proof using PS.
  unfold insert_outbound. case_match; [done|]. intros [= <-]. apply evolves_outbounds, grows_app; apply _.
Qed.

(** An update of join rows that keeps their columns but the state. *)
Lemma upd_joins_evolves p f n :
  (forall x, jn_key (f x) = jn_key x) ->
  (tables_wf n -> forall x, In x n.(joins) -> p x = true -> jn_progress x.(jn_state) (f x).(jn_state)) ->
  evolves n (set_joins (upd p f n.(joins)) n).
Proof using PS.
  intros Hk Hs. apply evolves_joins. intros W. split.
  - assert (List.map jn_id (upd p f n.(joins)) = List.map jn_id n.(joins)) as ->; [|apply W].
    unfold upd. rewrite List.map_map. apply map_ext. intros x. destruct (p x); [|done].
    pose proof (Hk x) as G. unfold jn_key in G. congruence.
  - apply grows_upd; [apply _|]. intros x Hx Hp. split; [done|]. by apply Hs.
Qed.

(** *** The operations *)

Abbreviation keeps := (within evolves).

Ltac evolve_statement := intros; first
  [ apply insert_identity_evolves | apply use_invitation_evolves
  | eapply insert_invitation_evolves; eassumption | eapply insert_join_evolves; eassumption
  | eapply insert_outbound_evolves; eassumption
  | eapply evolves_other, insert_member_other; eassumption
  | eapply evolves_other, upsert_member_other; eassumption
  | by apply evolves_other ].
Ltac solve_keeps := solve_within; try evolve_statement.

Lemma EnsureIdentity_keeps product now : keeps (EnsureIdentity GenerateIdentity product now).
Proof using PS. unfold EnsureIdentity. solve_keeps. Qed.

Lemma UpdateIdentity_keeps name endpoint version now :
  keeps (UpdateIdentity parse GenerateIdentity insecure name endpoint version now).
Proof using PS.
  unfold UpdateIdentity. solve_keeps.
  intros n W. refine (evolves_identities _ _ _ _ W); [by rewrite length_map; apply W|].
  set (f := fun r => _). change (List.map f n.(identities)) with (upd (fun _ => true) f n.(identities)).
  by apply grows_upd; [apply _|].
Qed.

Lemma Invite_keeps id st a b token : keeps (Invite id st a b token).
Proof using PS. unfold Invite. solve_keeps. Qed.

Lemma Pair_keeps token remote o i now : keeps (Pair GenerateIdentity insecure token remote o i now).
Proof using PS.
  unfold Pair. solve_keeps.
Qed.

Lemma AddMember_keeps remote o i now : keeps (AddMember remote o i now).
Proof using PS. unfold AddMember. solve_keeps. Qed.

Lemma update_members_keeps p f : keeps (stmt (update_members p f)).
Proof using PS. solve_within. intros s a s' [= _ <-]. by apply evolves_other. Qed.

Lemma one_row_keeps msg n : keeps (one_row msg n).
Proof using PS. unfold one_row. solve_within. Qed.

Lemma SetEnabled_keeps id b : keeps (SetEnabled id b).
Proof using PS. unfold SetEnabled. apply within_bind; [apply _|apply update_members_keeps|apply one_row_keeps]. Qed.
Lemma Revoke_keeps id now : keeps (Revoke id now).
Proof using PS. apply within_bind; [apply _|apply update_members_keeps|apply one_row_keeps]. Qed.
Lemma Remove_keeps id : keeps (Remove id).
Proof using PS.
  apply within_bind; [apply _| |apply one_row_keeps]. solve_within. intros s a s' [= _ <-]. by apply evolves_other.
Qed.
Lemma RotateInbound_keeps id h e : keeps (RotateInbound id h e).
Proof using PS. apply within_bind; [apply _|apply update_members_keeps|apply one_row_keeps]. Qed.
Lemma switch_outbound_keeps id sec c : keeps (switch_outbound id sec c).
Proof using PS. apply within_bind; [apply _|apply update_members_keeps|intros; apply one_row_keeps]. Qed.

Lemma SubmitJoin_keeps s id secret now : keeps (SubmitJoin GenerateIdentity insecure s id secret now).
Proof using PS.
  unfold SubmitJoin, submit_body. solve_keeps.
Qed.

Lemma DecideJoin_keeps id approve ph now : keeps (DecideJoin id approve ph now).
Proof using PS.
  unfold DecideJoin, decide_body. solve_keeps.
  all: intros; apply upd_joins_evolves; [done|]; intros _ x _ Hx; bool_to_prop; cbn; unfold jn_progress; right; left; split; [done|]; destruct approve; [by left|by right; left].
Qed.

(** The row a poll finds approved is the only one with its id, so the update by
    id alone moves no other. *)
Lemma poll_body_keeps host id secret cred now : keeps (poll_body host id secret cred now).
Proof using PS.
  intros s fl. unfold poll_body, bind at 1. destruct (or_fail _ _ _) as [[r|e] [s1 fl1]] eqn:E.
  - assert (s1 = s /\ r = find_first (fun j => (jn_id j =?s id) && (jn_hash j =?s SecretDigest secret)) (joins s)) as [-> ->].
    { unfold or_fail, query, stmt in E. destruct fl as [|[] fl]; cbn in E; simplify_eq; done. }
    destruct (find_first _ _) as [j|] eqn:Ej; [|cbn; reflexivity].
    apply find_first_Some in Ej as [Hj Hid]. bool_to_prop.
    repeat case_match; cbn; try reflexivity. bool_to_prop.
    assert (keeps (exec (S:=node) (fun n => set_members (upd (fun m => mb_node m =?s jn_node j)
               (with_inbound (SecretDigest cred)) (members n)) n))) as K1.
    { solve_within. intros. by apply evolves_other. }
    specialize (K1 s fl1). unfold bind. destruct (exec _ (s, fl1)) as [[[]|e] [s2 fl2]] eqn:E1; [|done]. cbn in K1.
    assert (joins s2 = joins s) as Hs2. { unfold exec, stmt in E1. destruct fl1 as [|[] ?]; cbn in E1; by simplify_eq. }
    etransitivity; [exact K1|]. unfold exec, stmt.
    destruct fl2 as [|[] ?]; cbn; try reflexivity.
    all: apply upd_joins_evolves; [done|]; intros [W _] x Hx Hp; bool_to_prop.
    all: rewrite Hs2 in *; assert (x = j) as -> by (eapply NoDup_map_inj; [exact W|done|done|congruence]).
    all: cbn; unfold jn_progress; by auto.
  - unfold or_fail, query, stmt in E. destruct fl as [|[] fl]; cbn in E; simplify_eq; cbn; reflexivity.
Qed.

Lemma PollJoin_keeps id secret cred now : keeps (PollJoin GenerateIdentity id secret cred now).
Proof using PS.
  apply within_bind; [apply _|apply EnsureIdentity_keeps|]. intros h. apply within_transact; [apply _|]. apply poll_body_keeps.
Qed.

Lemma AcceptRemote_keeps remote o i now : keeps (AcceptRemote insecure remote o i now).
Proof using PS.
  unfold AcceptRemote. solve_keeps.
Qed.

Lemma BeginOutbound_keeps post raw token inb oid now :
  keeps (BeginOutbound parse GenerateIdentity insecure post raw token inb oid now).
Proof using PS.
  unfold BeginOutbound. solve_keeps.
Qed.

Lemma CollectOutbound_keeps get id now : keeps (CollectOutbound insecure get id now).
Proof using PS.
  unfold CollectOutbound. solve_keeps.
  all: intros; apply evolves_outbounds, grows_upd; [apply _|]; done.
Qed.

Lemma Authenticate_keeps rq cap now : keeps (Authenticate rq cap now).
Proof using PS.
  unfold Authenticate, promote_pending, insert_nonce, purge_nonces, touch_member.
  solve_within; intros; repeat case_match; simplify_eq/=; intros; by apply evolves_other.
Qed.

(** A world with a client: the tables still only evolve. *)
Section Client.
Context {W : Type}.
Definition evolves_with (a b : node * W) : Prop := evolves a.1 b.1.
#[export] Instance evolves_with_refl : Reflexive evolves_with.
Proof using PS. intros [n w]. unfold evolves_with. reflexivity. Qed.
#[export] Instance evolves_with_trans : Transitive evolves_with.
Proof using PS. intros a b c H1 H2. unfold evolves_with in *. by etransitivity. Qed.

Lemma on_node_keeps {A} (m : M node A) : keeps m -> within evolves_with (on_node (W:=W) m).
Proof. intros H [n w] fl. specialize (H n fl). unfold on_node, evolves_with. by destruct (m (n, fl)) as [? []]. Qed.

Variable client : string -> request -> W -> result response * W.
Variable uri : string -> option string.
Lemma send_keeps a b c d e f g now : within evolves_with (send client uri a b c d e f g now).
Proof using PS.
  unfold send. solve_within. intros [n w] fl. unfold call, evolves_with. destruct (client _ _ _). cbn. reflexivity.
Qed.

Lemma Do_keeps id method path cap body d1 d2 now lat :
  within evolves_with (Do parse GenerateIdentity insecure client uri id method path cap body d1 d2 now lat).
Proof using PS.
  unfold Do, upd_member. solve_within; try apply send_keeps; try (apply on_node_keeps; solve_within);
    try apply insert_identity_evolves; intros; by apply evolves_other.
Qed.

Lemma Rotate_keeps rb id sec d1 d2 now lat :
  within evolves_with (Rotate parse GenerateIdentity insecure client uri rb id sec d1 d2 now lat).
Proof using PS.
  unfold Rotate. solve_within; try (apply on_node_keeps; first [apply switch_outbound_keeps|solve_within]).
  - intros w fl. pose proof (Do_keeps id "POST" "/api/cluster/v1/rpc/rotate-inbound" "cluster.health"
      (rb (EncodeToString (SecretDigest sec)) (now + 15 * minute)) d1 d2 now lat w fl) as K.
    by destruct (Do _ _ _ _ _ _ _ _ _ _ _ _ _ _ (w, fl)) as [[] []].
Qed.
End Client.

Lemma alone_keeps {A} (m : M (node * nat) A) : within evolves_with m -> keeps (alone m).
Proof. intros H n fl. specialize (H (n, O) fl). unfold alone. by destruct (m ((n, O), fl)) as [? [[] ]]. Qed.

Lemma Audit_keeps known a b c d e now : keeps (Audit known a b c d e now).
Proof using PS. unfold Audit. solve_within. intros s s' E. case_match; simplify_eq. by apply evolves_other. Qed.

Lemma run_op_keeps o : keeps (run_op parse GenerateIdentity insecure o).
Proof using PS.
  destruct o; cbn [run_op]; unfold silent; try (apply within_bind; [apply _| |intros; apply within_ret; apply _]);
  eauto using EnsureIdentity_keeps, UpdateIdentity_keeps, Invite_keeps, Pair_keeps, AddMember_keeps, SetEnabled_keeps,
    Revoke_keeps, Remove_keeps, RotateInbound_keeps, SubmitJoin_keeps, DecideJoin_keeps, PollJoin_keeps,
    AcceptRemote_keeps, BeginOutbound_keeps, CollectOutbound_keeps, Authenticate_keeps, Audit_keeps,
    alone_keeps, Do_keeps, Rotate_keeps.
Qed.

Lemma star_evolves n n' : star (step parse GenerateIdentity insecure) n n' -> evolves n n'.
Proof using PS.
  induction 1 as [|a b c _ IH (o & fl & ->)]; [reflexivity|]. etransitivity; [exact IH|]. apply run_op_keeps.
Qed.
End Evolution.

(** ** Properties *)

Section Properties.
Context {GC : GantryCore} {PS : PairingStates}.
Variable parse : string -> option url.
Variable GenerateIdentity : string -> Z -> result (identity * string).
Variable insecure : bool.

Abbreviation steps := (star (step parse GenerateIdentity insecure)).

Lemma evolved_invitation n n' h i : evolves n n' -> tables_wf n -> invitation_by_hash h n = Some i ->
  exists i', invitation_by_hash h n' = Some i' /\ iv_ev i i'.
Proof.
  intros H W Hi. destruct (H W) as (_ & _ & G & _). eapply grows_find; [|exact G|exact Hi].
  intros a b [E _]. cbn. congruence.
Qed.

Lemma evolved_join n n' p j : (forall a b, jn_key b = jn_key a -> p b = p a) -> evolves n n' -> tables_wf n ->
  find_first p n.(joins) = Some j -> exists j', find_first p n'.(joins) = Some j' /\ jn_ev j j'.
Proof.
  intros Hp H W Hj. destruct (H W) as (_ & _ & _ & G & _). eapply grows_find; [|exact G|exact Hj].
  intros a b [E _]. by apply Hp.
Qed.

(** A token by which a node was admitted has a used invitation. *)
Lemma use_invitation_used i now n h : invitation_by_hash h n = Some i -> i.(iv_state) = PairingPending ->
  exists i', invitation_by_hash h (use_invitation i.(iv_id) now n) = Some i' /\ i'.(iv_state) = PairingUsed.
Proof.
  intros Hi Hs. unfold invitation_by_hash, use_invitation in *. cbn [invitations set_invitations].
  rewrite find_first_upd by done. rewrite Hi. cbn. rewrite String.eqb_refl, Hs, String.eqb_refl. cbn. eauto.
Qed.

Lemma submit_uses sub id secret now n fl r n1 fl1 :
  SubmitJoin GenerateIdentity insecure sub id secret now (n, fl) = (Ok r, (n1, fl1)) ->
  exists i, invitation_by_hash (SecretDigest sub.(InvitationToken)) n1 = Some i /\ i.(iv_state) = PairingUsed.
Proof using PS.
  unfold SubmitJoin, submit_body. intros H. sql_inv. destruct (DecodeString _) as [pub ok]. sql_inv.
  match goal with H : ValidateInvitation _ _ _ _ = Ok ?u |- _ => destruct u; apply invitation_live in H as [? _] end.
  apply use_invitation_used; [|done].
  match goal with H : insert_join _ _ = Some _ |- _ => unfold insert_join in H; destruct (_ || _) in H; [done|]; injection H as <- end.
  done.
Qed.

Definition used (h : string) (n : node) : Prop :=
  exists i, invitation_by_hash h n = Some i /\ i.(iv_state) = PairingUsed.

Lemma used_stays h n n' : evolves n n' -> tables_wf n -> used h n -> used h n'.
Proof using PS.
  intros H W (i & Hi & Hs). destruct (evolved_invitation _ _ _ _ H W Hi) as (i' & Hi' & _ & Ev).
  exists i'. split; [done|]. pose proof pairing_states_ne as (? & _). destruct Ev as [Ev|[Ev _]]; congruence.
Qed.

Lemma used_not_live h n i now u : used h n -> invitation_by_hash h n = Some i ->
  ValidateInvitation i.(iv_id) i.(iv_state) i.(iv_expires) now <> Ok u.
Proof using PS.
  intros (i' & Hi' & Hs) Hi Hv. destruct u. apply invitation_live in Hv as [Hp _].
  pose proof pairing_states_ne as (? & _). congruence.
Qed.

Lemma used_refuses_submit sub id secret now n fl : tables_wf n -> used (SecretDigest sub.(InvitationToken)) n ->
  is_ok (SubmitJoin GenerateIdentity insecure sub id secret now (n, fl)).1 = false.
Proof using PS.
  intros W Hu. destruct (SubmitJoin _ _ _ _ _ _ _) as [[r|e] [n1 fl1]] eqn:H; [exfalso|done].
  unfold SubmitJoin, submit_body in H. sql_inv.
  match goal with H : EnsureIdentity _ _ _ _ = (Ok _, (?m, _)) |- _ =>
    assert (used (SecretDigest sub.(InvitationToken)) m) as Hu' by
      (eapply used_stays; [|exact W|exact Hu]; pose proof (EnsureIdentity_keeps GenerateIdentity "" now n fl) as K; by rewrite H in K) end.
  by eapply used_not_live.
Qed.

Lemma used_refuses_pair token remote o i now n fl : used (SecretDigest token) n ->
  is_ok (Pair GenerateIdentity insecure token remote o i now (n, fl)).1 = false.
Proof using PS.
  intros Hu. destruct (Pair _ _ _ _ _ _ _ _) as [[r|e] [n1 fl1]] eqn:H; [exfalso|done].
  unfold Pair in H. sql_inv. by eapply used_not_live.
Qed.

(** An invitation admits one node.  Once a join request was accepted under a
    token, no sequence of operations, whatever statements the database refuses,
    leads to a state in which the token is accepted again, for a join request
    or for a direct pairing. *)
Theorem invitation_used_once sub id secret now n fl r n1 fl1 n2 :
  tables_wf n ->
  SubmitJoin GenerateIdentity insecure sub id secret now (n, fl) = (Ok r, (n1, fl1)) ->
  steps n1 n2 ->
  forall fl2 now2,
  (forall sub' id' secret', InvitationToken sub' = InvitationToken sub ->
     is_ok (SubmitJoin GenerateIdentity insecure sub' id' secret' now2 (n2, fl2)).1 = false)
  /\ (forall remote o i,
     is_ok (Pair GenerateIdentity insecure sub.(InvitationToken) remote o i now2 (n2, fl2)).1 = false).
Proof using PS.
  intros W H Hs fl2 now2.
  pose proof (SubmitJoin_keeps GenerateIdentity insecure sub id secret now n fl) as K. rewrite H in K.
  destruct (K W) as (W1 & _). pose proof (star_evolves _ _ _ _ _ Hs) as E. destruct (E W1) as (W2 & _).
  assert (used (SecretDigest sub.(InvitationToken)) n2) as Hu.
  { eapply used_stays; [exact E|exact W1|]. by eapply submit_uses. }
  split; [|intros; by apply used_refuses_pair]. intros sub' id' secret' Ht. apply used_refuses_submit; [done|]. by rewrite Ht.
Qed.

(** *** Collection *)

Lemma poll_finds id secret : forall a b, jn_key b = jn_key a ->
  ((jn_id b =?s id) && (jn_hash b =?s SecretDigest secret)) = ((jn_id a =?s id) && (jn_hash a =?s SecretDigest secret)).
Proof. intros a b E. unfold jn_key in E. injection E. congruence. Qed.

Definition collected (id secret : string) (n : node) : Prop := exists j,
  find_first (fun j => (j.(jn_id) =?s id) && (j.(jn_hash) =?s SecretDigest secret)) n.(joins) = Some j
  /\ j.(jn_state) = PairingUsed.

Lemma collected_stays id secret n n' : evolves n n' -> tables_wf n -> collected id secret n -> collected id secret n'.
Proof using PS.
  intros H W (j & Hj & Hs). destruct (evolved_join _ _ _ _ (poll_finds id secret) H W Hj) as (j' & Hj' & _ & P).
  exists j'. split; [done|]. destruct pairing_states_ne as (? & _ & _ & ? & _). destruct P as [P|[[P _]|[P P']]]; congruence.
Qed.

Lemma poll_collects id secret cred now n fl res n1 fl1 :
  PollJoin GenerateIdentity id secret cred now (n, fl) = (Ok res, (n1, fl1)) ->
  res.(ResultState) = PairingApproved -> collected id secret n1.
Proof using PS.
  destruct pairing_states_ne as (N1 & N2 & N3 & N4 & N5 & N6 & N7). unfold PollJoin, poll_body. intros H Hr. sql_inv.
  match goal with E : find_first _ _ = Some ?j |- _ => rename j into j0 end.
  repeat (match goal with H : (if ?b then _ else _) _ = (Ok _, _) |- _ => destruct b eqn:? end; sql_inv; bool_to_prop; cbn in *; try congruence).
  destruct (jn_consumed j0); [done|]. sql_inv.
  exists (with_jstate PairingUsed j0.(jn_decided) (Some now) j0). split; [|done]. cbn.
  rewrite find_first_upd by done. rewrite E. apply find_first_Some in E as [_ E]. bool_to_prop. cbn.
  by rewrite H, String.eqb_refl.
Qed.

(** A credential is handed out once.  After a poll that answered with the
    credential, no sequence of operations leads to a state in which the same
    poll answers with one again: it says that the pairing was used. *)
Theorem credential_collected_once id secret cred now n fl res n1 fl1 n2 :
  tables_wf n ->
  PollJoin GenerateIdentity id secret cred now (n, fl) = (Ok res, (n1, fl1)) ->
  res.(ResultState) = PairingApproved ->
  steps n1 n2 ->
  forall cred2 now2 fl2 res2, (PollJoin GenerateIdentity id secret cred2 now2 (n2, fl2)).1 = Ok res2 ->
  res2 = mk_pairing PairingUsed None "".
Proof using PS.
  intros W H Hr Hs cred2 now2 fl2 res2 H2.
  destruct pairing_states_ne as (N1 & N2 & N3 & N4 & N5 & N6 & N7).
  pose proof (PollJoin_keeps GenerateIdentity id secret cred now n fl) as K. rewrite H in K.
  destruct (K W) as (W1 & _). pose proof (star_evolves _ _ _ _ _ Hs) as Ev. destruct (Ev W1) as (W2 & _).
  pose proof (poll_collects _ _ _ _ _ _ _ _ _ H Hr) as Hc. apply (collected_stays _ _ _ _ Ev W1) in Hc.
  destruct (PollJoin _ _ _ _ _ (n2, fl2)) as [r2 [n3 fl3]] eqn:E2. cbn in H2. subst r2.
  unfold PollJoin, poll_body in E2. sql_inv.
  match goal with H : EnsureIdentity _ _ _ (n2, _) = (Ok _, (?m, _)) |- _ =>
    pose proof (EnsureIdentity_keeps GenerateIdentity "" now2 n2 fl2) as K2; rewrite H in K2; cbn in K2 end.
  destruct (collected_stays _ _ _ _ K2 W2 Hc) as (j1 & Hj & Hu). rewrite Hj in *. simplify_eq.
  repeat (match goal with H : (if ?b then _ else _) _ = (Ok _, _) |- _ => destruct b eqn:? end; sql_inv; bool_to_prop; cbn in *; try congruence).
Qed.

(** *** Identity *)

(** What of an identity never changes. *)
Definition who (i : identity) := (i.(NodeID), i.(InstallationID), i.(PublicKey), i.(CreatedAt)).

Definition identified (k : string * string * string * Z) (n : node) : Prop :=
  exists r rs, n.(identities) = r :: rs /\ who (identity_of r) = k.

Lemma identified_stays k n n' : evolves n n' -> tables_wf n -> identified k n -> identified k n'.
Proof using PS.
  intros H W (r & rs & E & Hk). destruct (H W) as (_ & (m & e & E' & F) & _).
  rewrite E in F. apply Forall2_cons_inv_l in F as (r' & m' & Hr & _ & ->). exists r', (m' ++ e)%list.
  split; [by rewrite E'|]. rewrite <- Hk. unfold id_ev in Hr. unfold who, identity_of. cbn. congruence.
Qed.

Lemma first_identity_ok g product now n fl i n1 fl1 :
  first_identity g product now (n, fl) = (Ok i, (n1, fl1)) -> identified (who i) n1.
Proof.
  unfold first_identity. intros H. sql_inv. unfold identified. destruct (identities _) as [|r rs]; [done|]. eauto.
  cbn in *. simplify_eq. eauto.
Qed.

Lemma ensure_ok g product now n fl i n1 fl1 :
  EnsureIdentity g product now (n, fl) = (Ok i, (n1, fl1)) -> identified (who i) n1.
Proof.
  unfold EnsureIdentity. intros H. apply bind_ok in H as (r & n0 & fl0 & H1 & H2). apply query_ok in H1 as (-> & -> & ->).
  destruct (List.head (identities n)) as [r|] eqn:E; [|by eapply first_identity_ok].
  injection H2 as <- <- <-. unfold identified. destruct (identities n) as [|r' rs]; [done|]. cbn in E. simplify_eq. eauto.
Qed.

Lemma ensure_identified g product now k n fl i n1 fl1 : identified k n ->
  EnsureIdentity g product now (n, fl) = (Ok i, (n1, fl1)) \/ first_identity g product now (n, fl) = (Ok i, (n1, fl1)) ->
  who i = k.
Proof.
  intros (r & rs & E & Hk) [H|H].
  - unfold EnsureIdentity in H. apply bind_ok in H as (x & n0 & fl0 & H1 & H2). apply query_ok in H1 as (-> & -> & ->).
    rewrite E in H2. cbn in H2. by injection H2 as <- _ _.
  - unfold first_identity in H. sql_inv. unfold insert_identity in *. rewrite E in *. cbn in *. simplify_eq.
    rewrite E in *. cbn in *. by simplify_eq.
Qed.

(** A node has one identity.  Once a call obtained it, every later successful
    call, with whatever fresh keys it draws, obtains the same node, installation,
    public key and creation time, even a call that had found no identity before
    the first was stored and goes on only now. *)
Theorem one_identity product now n fl i n1 fl1 n2 :
  tables_wf n ->
  EnsureIdentity GenerateIdentity product now (n, fl) = (Ok i, (n1, fl1)) ->
  steps n1 n2 ->
  forall g product2 now2 fl2 i2,
  (EnsureIdentity g product2 now2 (n2, fl2)).1 = Ok i2 \/ (first_identity g product2 now2 (n2, fl2)).1 = Ok i2 ->
  i2.(NodeID) = i.(NodeID) /\ i2.(InstallationID) = i.(InstallationID)
  /\ i2.(PublicKey) = i.(PublicKey) /\ i2.(CreatedAt) = i.(CreatedAt).
Proof using PS.
  intros W H Hs g product2 now2 fl2 i2 H2.
  pose proof (EnsureIdentity_keeps GenerateIdentity product now n fl) as K. rewrite H in K.
  destruct (K W) as (W1 & _). pose proof (star_evolves _ _ _ _ _ Hs) as Ev.
  pose proof (identified_stays _ _ _ Ev W1 (ensure_ok _ _ _ _ _ _ _ _ H)) as Hi.
  assert (who i2 = who i) as E; [|unfold who in E; by injection E].
  destruct H2 as [H2|H2]; [destruct (EnsureIdentity g _ _ _) as [r [n3 fl3]] eqn:E|destruct (first_identity g _ _ _) as [r [n3 fl3]] eqn:E];
    cbn in H2; subst r; eapply ensure_identified; eauto.
Qed.

(** *** Revocation *)

(** Every row of the node is revoked, or there is none. *)
Definition outcast (id : string) (n : node) : Prop :=
  forall m, In m n.(members) -> m.(mb_node) = id -> m.(mb_state) = MemberRevoked.
Definition stays_out (id : string) (n n' : node) : Prop := outcast id n -> outcast id n'.

(** The operations that pair the node again. *)
Definition pairs (id : string) (o : op) (n : node) : Prop :=
  match o with
  | OPair _ remote _ _ _ | OAdd remote _ _ _ | OAccept remote _ _ _ => remote.(NodeID) = id
  | ODecide jid approve _ _ => approve = true /\ exists j, pending_join jid n = Some j /\ j.(jn_node) = id
  | OCollect get _ _ => exists u r x res remote, get u r x = Ok res /\ res.(Remote) = Some remote /\ remote.(NodeID) = id
  | _ => False
  end.
Definition quiet_step (id : string) (n n' : node) : Prop :=
  exists o fl, ~ pairs id o n /\ n' = (run_op parse GenerateIdentity insecure o (n, fl)).2.1.
End Properties.

Section Revocation.
Context {GC : GantryCore}.
Variable id : string.

#[export] Instance stays_out_refl : Reflexive (stays_out id).
Proof. intros n H. exact H. Qed.
#[export] Instance stays_out_trans : Transitive (stays_out id).
Proof. intros a b c H1 H2 H. exact (H2 (H1 H)). Qed.

Lemma stays_out_same n n' : n'.(members) = n.(members) -> stays_out id n n'.
Proof. intros E H m. rewrite E. apply H. Qed.

(** An update that keeps the node, and the state unless it revokes or the row
    is not revoked. *)
Lemma stays_out_upd p f n n' : n'.(members) = upd p f n.(members) ->
  (forall m, (f m).(mb_node) = m.(mb_node)) ->
  (forall m, p m = true -> m.(mb_state) = MemberRevoked -> (f m).(mb_state) = MemberRevoked) -> stays_out id n n'.
Proof.
  intros E Hn Hs H m. rewrite E. intros (x & Hx & ->)%in_upd. destruct (p x) eqn:Ep; [|by apply H].
  rewrite Hn. intros Hi. apply Hs; [done|]. by apply H.
Qed.

Lemma stays_out_upd_members p f n v n' : update_members p f n = Some (v, n') ->
  (forall m, (f m).(mb_node) = m.(mb_node)) ->
  (forall m, p m = true -> m.(mb_state) = MemberRevoked -> (f m).(mb_state) = MemberRevoked) -> stays_out id n n'.
Proof. intros [= _ <-]. by apply stays_out_upd. Qed.

Lemma stays_out_insert m n n' : insert_member m n = Some n' -> m.(mb_node) <> id -> stays_out id n n'.
Proof.
  unfold insert_member. intros Hi Hm. case_match; [|done]. injection Hi as <-. intros H0 x. cbn. rewrite In_snoc. intros [Hx| ->]; [by apply H0|done].
Qed.

Lemma stays_out_upsert m n n' : upsert_member m n = Some n' -> m.(mb_node) <> id -> stays_out id n n'.
Proof.
  unfold upsert_member. intros Hi Hm. case_match; [|by eapply stays_out_insert]. case_match; [|done]. injection Hi as <-.
  intros H1 x. cbn. intros (y & Hy & ->)%in_upd. destruct (mb_node y =?s mb_node m) eqn:E; [|by apply H1].
  bool_to_prop. cbn. congruence.
Qed.

Lemma stays_out_delete id' n : stays_out id n (delete_member id' n).2.
Proof. intros H m Hm. cbn in Hm. apply in_del in Hm as [Hm _]. by apply H. Qed.

Ltac out_statement :=
  intros; unfold insert_identity, insert_invitation, use_invitation, insert_join, insert_outbound, promote_pending,
    insert_nonce, purge_nonces, touch_member, upd_member in *;
  repeat case_match; simplify_eq/=; first
  [ by apply stays_out_same
  | eapply stays_out_insert; [eassumption|done]
  | eapply stays_out_upsert; [eassumption|done]
  | eapply stays_out_upd; [reflexivity|done|done]
  | eapply stays_out_upd_members; [eassumption|done|done] ].
Ltac solve_out := solve_within; try out_statement.

Variable parse : string -> option url.
Variable GenerateIdentity : string -> Z -> result (identity * string).
Variable insecure : bool.
Abbreviation out := (within (stays_out id)).

Lemma EnsureIdentity_out product now : out (EnsureIdentity GenerateIdentity product now).
Proof. unfold EnsureIdentity, first_identity. solve_out. Qed.

Lemma UpdateIdentity_out a b c now : out (UpdateIdentity parse GenerateIdentity insecure a b c now).
Proof. unfold UpdateIdentity. solve_out. Qed.

Lemma SubmitJoin_out s jid secret now : out (SubmitJoin GenerateIdentity insecure s jid secret now).
Proof. unfold SubmitJoin, submit_body. solve_out. Qed.

Lemma SetEnabled_out a b : out (SetEnabled a b).
Proof.
  unfold SetEnabled, one_row. solve_out. intros. eapply stays_out_upd_members; [eassumption|done|].
  intros m Hm Hs. unfold not_revoked in Hm. bool_to_prop. done.
Qed.

Lemma Revoke_out a now : out (Revoke a now).
Proof. unfold Revoke, one_row. solve_out. Qed.

Lemma Remove_out a : out (Remove a).
Proof. unfold Remove, one_row. solve_out. intros s x s' [= _ <-]. exact (stays_out_delete a s). Qed.

Lemma PollJoin_out jid secret cred now : out (PollJoin GenerateIdentity jid secret cred now).
Proof. unfold PollJoin, poll_body. solve_out. Qed.

Lemma BeginOutbound_out post a b c d now : out (BeginOutbound parse GenerateIdentity insecure post a b c d now).
Proof. unfold BeginOutbound. solve_out. Qed.

Lemma Authenticate_out rq cap now : out (Authenticate rq cap now).
Proof. unfold Authenticate. solve_out. Qed.

Lemma Pair_out a remote o i now : remote.(NodeID) <> id -> out (Pair GenerateIdentity insecure a remote o i now).
Proof. intros Hr. unfold Pair. solve_out. Qed.

Lemma AddMember_out remote o i now : remote.(NodeID) <> id -> out (AddMember remote o i now).
Proof. intros Hr. unfold AddMember. solve_out. Qed.

Lemma AcceptRemote_out remote o i now : remote.(NodeID) <> id -> out (AcceptRemote insecure remote o i now).
Proof. intros Hr. unfold AcceptRemote. solve_out. Qed.

(** The rows a decision or a collection pairs depend on the tables. *)
Lemma DecideJoin_out jid approve ph now n fl :
  ~ pairs id (ODecide jid approve ph now) n -> stays_out id n (DecideJoin jid approve ph now (n, fl)).2.1.
Proof.
  intros Hp. unfold DecideJoin.
  assert (forall fl, stays_out id n (decide_body jid approve ph now (n, fl)).2.1) as B.
  { clear fl. intros fl. unfold decide_body, bind at 1.
    destruct (or_fail _ _ _) as [[r|e] [s1 fl1]] eqn:E.
    - apply or_fail_ok, query_ok in E as (-> & -> & ->). destruct (pending_join jid n) as [j|] eqn:Ej; [|cbn; reflexivity].
      destruct (jn_expires j <=? now); [cbn; reflexivity|].
      enough (within (stays_out id) ((if approve then lift (Compatible core_protocol (jn_protocol j) DefaultCapabilities (jn_caps j) "") ;;;
         exec_opt (upsert_member (approved_member j ph now)) else ret tt))) as K.
      { set (m := (if approve then _ else _)) in *. clearbody m.
        match goal with |- stays_out _ _ (bind m ?k _).2.1 => assert (within (stays_out id) (bind m k)) as G end.
        { apply within_bind; [apply _|exact K|]. intros ?. solve_out. }
        apply G. }
      destruct approve; solve_out. intros s s' Hs. eapply stays_out_upsert; [exact Hs|]. cbn. intros Hn. apply Hp. cbn. eauto.
    - unfold or_fail, query, stmt in E. destruct fl as [|[] fl]; cbn in E; simplify_eq; cbn; reflexivity. }
  unfold transact. specialize (B (List.tl fl)).
  destruct fl as [|[] fl]; [|cbn; reflexivity|]; destruct (decide_body _ _ _ _ _) as [[[a []]|e] [s1 fl1]]; cbn in *; try reflexivity;
    by destruct fl1 as [|[] ?].
Qed.

Lemma CollectOutbound_out get jid now n fl :
  ~ pairs id (OCollect get jid now) n -> stays_out id n (CollectOutbound insecure get jid now (n, fl)).2.1.
Proof.
  intros Hp. assert (out (CollectOutbound insecure get jid now)) as K; [|apply K].
  unfold CollectOutbound. apply within_bind; [apply _|solve_out|]. intros [o|]; [|solve_out].
  destruct (negb _); [solve_out|]. apply within_lift; [apply _|]. intros res Hres.
  apply within_bind; [apply _| |intros; solve_out]. destruct (ResultState res =?s PairingApproved); [|solve_out].
  destruct (Remote res) as [remote|] eqn:Er; [|solve_out]. destruct (Credential res =?s ""); [solve_out|].
  apply within_bind; [apply _|apply AcceptRemote_out|intros; solve_out].
  intros Hn. apply Hp. cbn. by exists o.(ob_url), o.(ob_request), o.(ob_secret), res, remote.
Qed.

(** A client's tables stay as well. *)
Section Client.
Context {W : Type}.
Definition stays_with (a b : node * W) : Prop := stays_out id a.1 b.1.
#[export] Instance stays_with_refl : Reflexive stays_with.
Proof. intros [n w]. unfold stays_with. reflexivity. Qed.
#[export] Instance stays_with_trans : Transitive stays_with.
Proof. intros a b c H1 H2. unfold stays_with in *. by etransitivity. Qed.

Lemma on_node_out {A} (m : M node A) : out m -> within stays_with (on_node (W:=W) m).
Proof. intros H [n w] fl. specialize (H n fl). unfold on_node, stays_with. by destruct (m (n, fl)) as [? []]. Qed.

Variable client : string -> request -> W -> result response * W.
Variable uri : string -> option string.
Lemma send_out a b c d e f g now : within stays_with (send client uri a b c d e f g now).
Proof.
  unfold send. solve_within. intros [n w] fl. unfold call, stays_with. destruct (client _ _ _). cbn. reflexivity.
Qed.

Lemma Do_out id' method path cap body d1 d2 now lat :
  within stays_with (Do parse GenerateIdentity insecure client uri id' method path cap body d1 d2 now lat).
Proof.
  unfold Do. solve_within; try apply send_out; apply on_node_out; solve_out.
Qed.

Lemma Rotate_out rb id' sec d1 d2 now lat :
  within stays_with (Rotate parse GenerateIdentity insecure client uri rb id' sec d1 d2 now lat).
Proof.
  unfold Rotate, switch_outbound, one_row. solve_within; try (apply on_node_out; solve_out).
  intros w fl. pose proof (Do_out id' "POST" "/api/cluster/v1/rpc/rotate-inbound" "cluster.health"
      (rb (EncodeToString (SecretDigest sec)) (now + 15 * minute)) d1 d2 now lat w fl) as K.
  by destruct (Do _ _ _ _ _ _ _ _ _ _ _ _ _ _ (w, fl)) as [[] []].
Qed.
End Client.

Lemma alone_out {A} (m : M (node * nat) A) : within stays_with m -> out (alone m).
Proof. intros H n fl. specialize (H (n, O) fl). unfold alone. by destruct (m ((n, O), fl)) as [? [[] ]]. Qed.

Lemma within_silent {A} (m : M node A) : out m -> out (silent m).
Proof. intros H. apply within_bind; [apply _|done|]. intros. solve_out. Qed.

Lemma run_op_out o n fl : ~ pairs id o n -> stays_out id n (run_op parse GenerateIdentity insecure o (n, fl)).2.1.
Proof.
  intros Hp. destruct o; cbn [run_op].
  - apply within_silent, EnsureIdentity_out.
  - apply within_silent, UpdateIdentity_out.
  - apply within_silent. unfold Invite. solve_out.
  - by apply within_silent, Pair_out.
  - by apply AddMember_out.
  - apply SetEnabled_out.
  - apply Revoke_out.
  - apply Remove_out.
  - enough (out (RotateInbound id0 hash expires)) as K by apply K. unfold RotateInbound, one_row. solve_out.
  - apply within_silent, SubmitJoin_out.
  - by apply DecideJoin_out.
  - apply within_silent, PollJoin_out.
  - by apply AcceptRemote_out.
  - apply within_silent, BeginOutbound_out.
  - pose proof (CollectOutbound_out get id0 now n fl Hp) as K. unfold silent, bind.
    by destruct (CollectOutbound _ _ _ _ _) as [[] [? ?]].
  - apply within_silent, Authenticate_out.
  - apply alone_out, Do_out.
  - apply alone_out, Rotate_out.
  - enough (out (Audit known actor org action target request now)) as K by apply K. unfold Audit. solve_out.
Qed.
End Revocation.

Section Revoked.
Context {GC : GantryCore} {MS : MemberStates} {VF : Verifies}.
Variable parse : string -> option url.
Variable GenerateIdentity : string -> Z -> result (identity * string).
Variable insecure : bool.

Lemma states_differ : MemberActive <> MemberRevoked /\ MemberDisabled <> MemberRevoked.
Proof using MS. rewrite active_is, revoked_is, disabled_is. by split. Qed.

Lemma star_outcast id n n' : star (quiet_step parse GenerateIdentity insecure id) n n' -> outcast id n -> outcast id n'.
Proof.
  intros H Ho. eapply (star_invariant _ (outcast id)); [|exact Ho|exact H].
  intros x y Hx (o & fl & Hp & ->). exact (run_op_out id parse GenerateIdentity insecure o x fl Hp Hx).
Qed.

Lemma member_outcast id n m : outcast id n -> member_by id n = Some m -> m.(mb_state) = MemberRevoked.
Proof. intros H Hm. apply find_first_Some in Hm as [Hin E]. bool_to_prop. by apply H. Qed.

Lemma revoke_outcasts id now n fl n1 fl1 :
  Revoke id now (n, fl) = (Ok tt, (n1, fl1)) -> outcast id n1.
Proof.
  unfold Revoke, one_row. intros H. apply bind_ok in H as (c & n4 & fl4 & E1 & E2). apply stmt_ok in E1 as [E1 _].
  injection E1 as <- <-. destruct (_ =? 1) in E2; [|done]. injection E2 as <- _.
  intros m Hm Hid. cbn in Hm. apply in_upd in Hm as (x & Hx & ->).
  destruct (not_revoked id x) eqn:E; [done|]. unfold not_revoked in E. rewrite Hid, String.eqb_refl in E.
  cbn in E. bool_to_prop. done.
Qed.

Lemma outcast_updates id n f fl : outcast id n ->
  let m := (let* c := stmt (update_members (fun m => (m.(mb_node) =?s id) && (m.(mb_state) =?s MemberActive)) f) in one_row "cluster member unavailable" c) in
  is_ok (m (n, fl)).1 = false /\ (m (n, fl)).2.1 = n.
Proof using MS.
  intros Ho. set (p := fun m : member_row => _ && _). assert (forall m, In m n.(members) -> p m = false) as No.
  { intros m Hm. unfold p. destruct (mb_node m =?s id) eqn:E; [|done]. bool_to_prop. rewrite (Ho m Hm E). apply String.eqb_neq. by destruct states_differ. }
  assert (update_members p f n = Some (0, n)) as E by (unfold update_members, count; rewrite filter_none, upd_none by done; by destruct n).
  unfold bind, stmt. rewrite E. by destruct fl as [|[] fl].
Qed.
Lemma refuses_sending id n : outcast id n -> forall W (client : string -> request -> W -> result response * W) uri w method path cap body d1 d2 now lat fl,
  exists e fl3, Do parse GenerateIdentity insecure client uri id method path cap body d1 d2 now lat ((n, w), fl) = (Err e, ((n, w), fl3)).
Proof using MS.
  intros Ho. destruct states_differ as [Ha Hd].
  intros W client uri w method path cap body d1 d2 now lat fl2. unfold Do, bind at 1, on_node at 1, query, stmt.
  destruct fl2 as [|[] fl2]; cbn [List.tl]; try (eexists _, _; reflexivity).
  all: destruct (member_by id n) as [m|] eqn:E; [|eexists _, _; reflexivity].
  all: rewrite (member_outcast _ _ _ Ho E), (proj2 (String.eqb_neq _ _)) by congruence; eexists _, _; reflexivity.
Qed.

(** C30: a revoked member stays out.  After a revocation, in any state that any
    operations lead to which do not pair the node again, its requests are not
    authenticated whatever credential they carry, it cannot be enabled, it is
    not eligible as a voter, nothing is sent to it, and neither the credential it
    would use nor the one it is sent is rotated: not by a call of [Rotate], which
    changes nothing, nor by a rotation that its revocation overtook. *)
Theorem revoked_member_stays_out id now n fl n1 fl1 n2 :
  Revoke id now (n, fl) = (Ok tt, (n1, fl1)) ->
  star (quiet_step parse GenerateIdentity insecure id) n1 n2 ->
  forall now2 fl2,
  (forall rq cap e, ReadEnvelope rq.(rq_header) now2 = Ok e -> e_node e = id ->
     is_ok (Authenticate rq cap now2 (n2, fl2)).1 = false)
  /\ (forall b, is_ok (SetEnabled id b (n2, fl2)).1 = false)
  /\ is_ok (EligibleVoter id (n2, fl2)).1 = false
  /\ (forall W (client : string -> request -> W -> result response * W) uri w method path cap body d1 d2 lat,
        exists e fl3, Do parse GenerateIdentity insecure client uri id method path cap body d1 d2 now2 lat ((n2, w), fl2)
          = (Err e, ((n2, w), fl3)))
  /\ (forall W (client : string -> request -> W -> result response * W) uri rb w sec d1 d2 lat,
        exists e fl3, Rotate parse GenerateIdentity insecure client uri rb id sec d1 d2 now2 lat ((n2, w), fl2) = (Err e, ((n2, w), fl3)))
  /\ (forall sec current, is_ok (switch_outbound id sec current (n2, fl2)).1 = false /\ (switch_outbound id sec current (n2, fl2)).2.1 = n2)
  /\ (forall hash expires, is_ok (RotateInbound id hash expires (n2, fl2)).1 = false /\ (RotateInbound id hash expires (n2, fl2)).2.1 = n2).
Proof using MS VF.
  intros H Hs now2 fl2. pose proof (star_outcast _ _ _ Hs (revoke_outcasts _ _ _ _ _ _ H)) as Ho.
  destruct states_differ as [Ha Hd]. split_and!; [| | | | |intros; by apply outcast_updates|intros; by apply outcast_updates].
  - intros rq cap e He Hid. destruct (Authenticate _ _ _ _) as [[r|e'] [n3 fl3]] eqn:E; [exfalso|done].
    unfold Authenticate in E. destruct (rq_body rq) as [body|]; [|done]. sql_inv.
    match goal with H : ReadEnvelope _ _ = Ok ?x |- _ => assert (x = e) by congruence; subst x end.
    match goal with E : member_by _ _ = Some ?m, V : VerifyIncoming _ = Ok _ |- _ =>
      apply verify_active in V; cbn in V; pose proof (member_outcast _ _ _ Ho E) end. congruence.
  - intros b. destruct (SetEnabled _ _ _) as [[r|e'] [n3 fl3]] eqn:E; [exfalso|done].
    unfold SetEnabled, one_row in E. apply bind_ok in E as (c & n4 & fl4 & E1 & E2). apply stmt_ok in E1 as [E1 _].
    injection E1 as <- <-. destruct (count (not_revoked id) (members n2) =? 1) eqn:Ec; [|done].
    unfold count in Ec. rewrite filter_none in Ec; [done|]. intros m Hm. unfold not_revoked.
    destruct (mb_node m =?s id) eqn:En; [|done]. bool_to_prop. rewrite (Ho m Hm En), String.eqb_refl. done.
  - destruct (EligibleVoter _ _) as [[r|e'] [n3 fl3]] eqn:E; [exfalso|done].
    unfold EligibleVoter in E. sql_inv. bool_to_prop.
    match goal with E : member_by _ _ = Some ?m |- _ => pose proof (member_outcast _ _ _ Ho E) end. congruence.
  - intros. by apply refuses_sending.
  - intros W client uri rb w sec d1 d2 lat. unfold Rotate, bind at 1, or_fail, on_node at 1, query, stmt.
    destruct fl2 as [|[] fl2]; cbn [List.tl]; try (eexists _, _; reflexivity).
    all: destruct (member_by id n2) as [m|] eqn:E; [|eexists _, _; reflexivity].
    all: unfold bind at 1; match goal with |- context [Do _ _ _ _ _ _ _ _ _ _ _ _ _ _ (?x, ?fl)] =>
      destruct (refuses_sending _ _ Ho _ client uri w "POST" "/api/cluster/v1/rpc/rotate-inbound" "cluster.health"
        (rb (EncodeToString (SecretDigest sec)) (now2 + 15 * minute)) d1 d2 now2 lat fl) as (e & fl3 & ->) end; eexists _, _; reflexivity.
Qed.
End Revoked.

(** *** The two ends of a pairing *)

Section Agreement.
Context {GC : GantryCore} {MS : MemberStates} {PS : PairingStates}.
Variable parse : string -> option url.
(** The generators and the transport policies of the host and the joiner. *)
Variable gh gj : string -> Z -> result (identity * string).
Variable insecure : bool.

(** An upsert leaves one active row of the node with the new credentials. *)
Lemma upsert_finds m n n' : upsert_member m n = Some n' -> m.(mb_state) = MemberActive ->
  exists x, member_by m.(mb_node) n' = Some x /\ x.(mb_state) = MemberActive
    /\ x.(mb_outbound) = m.(mb_outbound) /\ x.(mb_inbound) = m.(mb_inbound).
Proof using MS.
  unfold upsert_member, member_by. intros H Hs. destruct (existsb _ _) eqn:E in H.
  - destruct (_ && _) in H; [|done]. injection H as <-. cbn. rewrite find_first_upd by done.
    apply existsb_exists in E as (y & Hy & Ey).
    destruct (find_first (fun x => mb_node x =?s mb_node m) (members n)) as [x|] eqn:F.
    + apply find_first_Some in F as [_ Fx]. cbn. rewrite Fx. exists (repair m x). repeat split. by rewrite active_is.
    + pose proof (proj1 (find_first_None _ _) F y Hy) as G. cbn in G. congruence.
  - unfold insert_member in H. destruct (_ && _) in H; [|done]. injection H as <-. cbn.
    rewrite find_first_app. destruct (find_first _ _) as [x|] eqn:F.
    + apply find_first_Some in F as [Fi Fx]. pose proof (proj1 (existsb_none_iff _ _) E x Fi) as G. cbn in G. congruence.
    + cbn. rewrite String.eqb_refl. by exists m.
Qed.

(** A computation that leaves members and joins alone. *)
Lemma ensure_frame g product now n fl i n1 fl1 :
  EnsureIdentity g product now (n, fl) = (Ok i, (n1, fl1)) -> n1.(members) = n.(members) /\ n1.(joins) = n.(joins).
Proof.
  unfold EnsureIdentity, first_identity. intros H. apply bind_ok in H as (r & n0 & fl0 & H1 & H2).
  apply query_ok in H1 as (-> & -> & ->). destruct (List.head _); [by injection H2 as _ <- _|]. sql_inv.
  unfold insert_identity. by destruct (identities n).
Qed.

(** The request of a submission, by its id and secret. *)
Definition by_secret (id secret : string) (n : node) : option join_row :=
  find_first (fun j => (j.(jn_id) =?s id) && (j.(jn_hash) =?s SecretDigest secret)) n.(joins).

Lemma inserted_join_found j secret n n' : insert_join j n = Some n' -> j.(jn_hash) = SecretDigest secret ->
  by_secret j.(jn_id) secret n' = Some j.
Proof.
  unfold insert_join, by_secret. intros H Hh. destruct (_ || _) eqn:E in H; [done|]. injection H as <-. cbn.
  rewrite find_first_app. apply orb_false_iff in E as [E _]. destruct (find_first _ _) as [y|] eqn:F.
  - apply find_first_Some in F as [Fi Fx]. pose proof (proj1 (existsb_none_iff _ _) E y Fi) as G. cbn in G.
    apply orb_false_iff in G as [G _]. rewrite G in Fx. done.
  - cbn. by rewrite String.eqb_refl, Hh, String.eqb_refl.
Qed.

Lemma submit_stores sub id secret now n fl r n1 fl1 :
  SubmitJoin gh insecure sub id secret now (n, fl) = (Ok r, (n1, fl1)) ->
  r = mk_receipt id secret PairingPending /\ exists j, by_secret id secret n1 = Some j
  /\ j.(jn_node) = sub.(SubIdentity).(NodeID) /\ j.(jn_credential) = sub.(CredentialForHost).
Proof.
  unfold SubmitJoin, submit_body. intros H. sql_inv. destruct (DecodeString _) as [pub ok]. sql_inv. split; [done|].
  match goal with H : insert_join ?j _ = Some _ |- _ => exists j; split; [|done]; exact (inserted_join_found j _ _ _ H eq_refl) end.
Qed.

(** The approval of a request pairs its node with its credential. *)
Lemma approval_pairs id secret ph now n fl n1 fl1 j : tables_wf n -> by_secret id secret n = Some j ->
  DecideJoin id true ph now (n, fl) = (Ok tt, (n1, fl1)) ->
  (exists j', by_secret id secret n1 = Some j' /\ jn_key j' = jn_key j /\ j'.(jn_state) = PairingApproved)
  /\ exists m, member_by j.(jn_node) n1 = Some m /\ m.(mb_state) = MemberActive /\ m.(mb_outbound) = j.(jn_credential).
Proof using MS PS.
  intros [W _] Hj H. unfold DecideJoin, decide_body in H. sql_inv.
  match goal with E : pending_join _ _ = Some ?x |- _ => unfold pending_join in E; apply find_first_Some in E as [Hi E]; rename x into y end.
  pose proof Hj as Hj'. apply find_first_Some in Hj' as [Hji Hjx]. bool_to_prop.
  assert (y = j) as -> by (eapply NoDup_map_inj; [exact W|done|done|congruence]).
  match goal with H : upsert_member _ _ = Some _ |- _ => pose proof (upsert_finds _ _ _ H eq_refl) as (m & Hm & Hs & Ho & _);
    apply upsert_member_other in H as (_ & _ & Hjs & _) end.
  split; [|by exists m].
  exists (with_jstate PairingApproved (Some now) j.(jn_consumed) j). split; [|done].
  unfold by_secret in *. cbn. rewrite find_first_upd by done. rewrite Hjs, Hj. cbn.
  subst. by rewrite !String.eqb_refl, (proj2 (String.eqb_eq _ _) H4).
Qed.

(** The poll of an approved request gives its node a new credential. *)
Lemma poll_credits id secret cred now n fl res n1 fl1 j m :
  by_secret id secret n = Some j -> j.(jn_state) = PairingApproved -> member_by j.(jn_node) n = Some m ->
  PollJoin gh id secret cred now (n, fl) = (Ok res, (n1, fl1)) ->
  (exists host, res = mk_pairing PairingApproved (Some host) cred /\ identified (who host) n1)
  /\ member_by j.(jn_node) n1 = Some (with_inbound (SecretDigest cred) m).
Proof using PS.
  intros Hj Hs Hm H. destruct pairing_states_ne as (N1 & N2 & N3 & N4 & N5 & N6 & N7).
  unfold PollJoin, poll_body in H. sql_inv.
  match goal with H : EnsureIdentity _ _ _ _ = _ |- _ => pose proof (ensure_frame _ _ _ _ _ _ _ _ H) as [Fm Fj];
    apply ensure_ok in H; rename H into Hid end.
  unfold by_secret in Hj. rewrite Fj, Hj in *. simplify_eq.
  rewrite Hs in *. rewrite (proj2 (String.eqb_neq PairingApproved PairingPending)),
    (proj2 (String.eqb_neq PairingApproved PairingRejected)) in * by congruence. cbn [andb] in *.
  rewrite String.eqb_refl in *. cbn [negb] in *. destruct (jn_consumed _); [done|]. sql_inv.
  split; [eexists; split; [done|]; done|]. unfold member_by in *. cbn. rewrite find_first_upd by done.
  rewrite Fm, Hm. apply find_first_Some in Hm as [_ Hm]. cbn in *. by rewrite Hm.
Qed.

Lemma accept_pairs remote o i now n fl n1 fl1 :
  AcceptRemote insecure remote o i now (n, fl) = (Ok tt, (n1, fl1)) ->
  exists m, member_by remote.(NodeID) n1 = Some m /\ m.(mb_state) = MemberActive /\ m.(mb_outbound) = o
    /\ m.(mb_inbound) = SecretDigest i.
Proof using MS.
  unfold AcceptRemote. intros H. sql_inv. destruct (DecodeString _) as [pub ok]. sql_inv.
  match goal with H : upsert_member _ _ = Some _ |- _ => exact (upsert_finds _ _ _ H eq_refl) end.
Qed.

Definition outbound_by (oid : string) (n : node) : option outbound_row :=
  find_first (fun o => o.(ob_id) =?s oid) n.(outbounds).

Lemma begin_stores post raw token inb oid now n fl out n1 fl1 local n0 fl0 :
  EnsureIdentity gj "" now (n, fl) = (Ok local, (n0, fl0)) ->
  BeginOutbound parse gj insecure post raw token inb oid now (n, fl) = (Ok out, (n1, fl1)) ->
  exists u r o, post u (mk_submission token local inb) = Ok r /\ outbound_by oid n1 = Some o
    /\ o.(ob_request) = r.(RequestID) /\ o.(ob_secret) = r.(RequestSecret) /\ o.(ob_inbound) = inb.
Proof.
  intros Hl H. unfold BeginOutbound in H. sql_inv. rewrite Hl in *. simplify_eq.
  match goal with H : post ?u _ = Ok ?r |- _ => exists u, r end.
  match goal with H : insert_outbound ?o _ = Some _ |- _ => exists o; unfold insert_outbound in H; destruct (existsb _ _) eqn:E' in H; [done|]; injection H as <- end.
  repeat split; [done|]. unfold outbound_by. cbn. rewrite find_first_app. cbn. rewrite String.eqb_refl.
  cbn in E'. by rewrite (proj2 (find_first_None _ _) (proj1 (existsb_none_iff _ _) E')).
Qed.

Lemma evolved_outbound n n' oid o : evolves n n' -> tables_wf n -> outbound_by oid n = Some o ->
  exists o', outbound_by oid n' = Some o' /\ ob_ev o o'.
Proof.
  intros H W Ho. destruct (H W) as (_ & _ & _ & _ & G). eapply grows_find; [|exact G|exact Ho].
  intros a b E. unfold ob_ev, ob_key in E. cbn. congruence.
Qed.

(** A collection of an approval pairs the host. *)
Lemma collect_pairs get oid now n fl out n1 fl1 o host cred :
  outbound_by oid n = Some o -> o.(ob_state) = PairingPending ->
  get o.(ob_url) o.(ob_request) o.(ob_secret) = Ok (mk_pairing PairingApproved (Some host) cred) ->
  CollectOutbound insecure get oid now (n, fl) = (Ok out, (n1, fl1)) ->
  out.(oj_state) = PairingApproved /\
  exists m, member_by host.(NodeID) n1 = Some m /\ m.(mb_state) = MemberActive /\ m.(mb_outbound) = cred
    /\ m.(mb_inbound) = SecretDigest o.(ob_inbound).
Proof using MS.
  intros Ho Hs Hg H. unfold CollectOutbound in H. apply bind_ok in H as (r & n0 & fl0 & H1 & H).
  apply or_fail_ok, query_ok in H1 as (-> & -> & ->). unfold outbound_by in Ho. rewrite Ho in H.
  rewrite Hs, String.eqb_refl, Hg in H. cbn [negb lift ResultState Remote Credential] in H.
  unfold bind at 1 in H. cbn [ret] in H. rewrite String.eqb_refl in H. sql_inv.
  match goal with H : AcceptRemote _ _ _ _ _ _ = (Ok ?u, _) |- _ => destruct u; pose proof (accept_pairs _ _ _ _ _ _ _ _ H) as Hm end.
  cbn in *. simplify_eq. by split.
Qed.

(** C15: the two ends of a pairing agree.  A node sends a join request to a host and
    keeps a credential of its own; the host approves it, possibly after any other
    operations, and answers the poll; the node collects the answer, possibly
    after any other operations.  When these calls succeed, each node is an active
    member at the other, what each sends is what the other accepts, and the joined
    node knows the host by the host's identity. *)
Theorem pairing_agrees j flj local j0 flj0 h fl rid secret t1 rc h1 fl1 token inb oid raw t0 out j1 flj1
    h2 ph t2 fl2 h3 fl3 cred t3 fl4 res h4 fl5 j2 flj2 t4 out2 j3 flj3 :
  tables_wf h -> tables_wf j ->
  (** the join request *)
  EnsureIdentity gj "" t0 (j, flj) = (Ok local, (j0, flj0)) ->
  SubmitJoin gh insecure (mk_submission token local inb) rid secret t1 (h, fl) = (Ok rc, (h1, fl1)) ->
  BeginOutbound parse gj insecure (fun _ s => (SubmitJoin gh insecure s rid secret t1 (h, fl)).1) raw token inb oid t0 (j, flj)
    = (Ok out, (j1, flj1)) ->
  (** the decision and the poll *)
  star (step parse gh insecure) h1 h2 ->
  DecideJoin rc.(RequestID) true ph t2 (h2, fl2) = (Ok tt, (h3, fl3)) ->
  PollJoin gh rc.(RequestID) rc.(RequestSecret) cred t3 (h3, fl4) = (Ok res, (h4, fl5)) ->
  (** the collection *)
  star (step parse gj insecure) j1 j2 ->
  (forall o, find_first (fun o => o.(ob_id) =?s oid) j2.(outbounds) = Some o -> o.(ob_state) = PairingPending) ->
  CollectOutbound insecure (fun _ i s => (PollJoin gh i s cred t3 (h3, fl4)).1) oid t4 (j2, flj2) = (Ok out2, (j3, flj3)) ->
  out2.(oj_state) = PairingApproved /\
  exists host at_host at_joiner, identified (who host) h4
    /\ member_by local.(NodeID) h4 = Some at_host /\ member_by host.(NodeID) j3 = Some at_joiner
    /\ at_host.(mb_state) = MemberActive /\ at_joiner.(mb_state) = MemberActive
    /\ matches_current (material_of at_joiner) at_host.(mb_outbound) = true
    /\ matches_current (material_of at_host) at_joiner.(mb_outbound) = true.
Proof using MS PS.
  intros Wh Wj Hl Hs Hb Sh Hd Hp Sj Hpend Hc.
  (* the host *)
  destruct (submit_stores _ _ _ _ _ _ _ _ _ Hs) as (-> & jr & Hjr & Hn & Hcr). cbn in Hd, Hp, Hn, Hcr.
  pose proof (SubmitJoin_keeps gh insecure (mk_submission token local inb) rid secret t1 h fl) as K. rewrite Hs in K.
  destruct (K Wh) as (Wh1 & _). pose proof (star_evolves _ _ _ _ _ Sh) as Eh. destruct (Eh Wh1) as (Wh2 & _).
  destruct (evolved_join _ _ _ _ (poll_finds rid secret) Eh Wh1 Hjr) as (j' & Hj' & Hk & _).
  destruct (approval_pairs _ _ _ _ _ _ _ _ _ Wh2 Hj' Hd) as ((j'' & Hj'' & Hk' & Hst) & m & Hm & Hms & Hmo).
  assert (jn_node j' = NodeID local /\ jn_credential j' = inb /\ jn_node j'' = NodeID local) as (Hn1 & Hc1 & Hn2).
  { unfold jn_key in Hk, Hk'. split_and!; congruence. }
  rewrite Hn1 in Hm. rewrite <- Hn2 in Hm.
  destruct (poll_credits _ _ _ _ _ _ _ _ _ _ _ Hj'' Hst Hm Hp) as ((host & -> & Hid) & Hmh). rewrite Hn2 in Hmh.
  (* the joiner *)
  destruct (begin_stores _ _ _ _ _ _ _ _ _ _ _ _ _ _ Hl Hb) as (u & r & o & Hr & Ho & Ho1 & Ho2 & Ho3).
  rewrite Hs in Hr. injection Hr as <-.
  pose proof (BeginOutbound_keeps parse gj insecure (fun _ s => (SubmitJoin gh insecure s rid secret t1 (h, fl)).1) raw token inb oid t0 j flj) as Kj.
  rewrite Hb in Kj. destruct (Kj Wj) as (Wj1 & _). pose proof (star_evolves _ _ _ _ _ Sj) as Ej.
  destruct (evolved_outbound _ _ _ _ Ej Wj1 Ho) as (o' & Ho' & Ek). unfold ob_ev, ob_key in Ek.
  set (get := fun _ i s => (PollJoin gh i s cred t3 (h3, fl4)).1) in *.
  assert (get (ob_url o') (ob_request o') (ob_secret o') = Ok (mk_pairing PairingApproved (Some host) cred)) as Hg.
  { unfold get. assert (ob_request o' = rid /\ ob_secret o' = secret) as [-> ->] by (cbn in *; split; congruence). by rewrite Hp. }
  destruct (collect_pairs get oid t4 j2 flj2 out2 j3 flj3 o' host cred Ho' (Hpend _ Ho') Hg Hc) as (Hout & mj & Hmj & Hsj & Hoj & Hij).
  split; [done|]. exists host, (with_inbound (SecretDigest cred) m), mj.
  repeat split; try done; unfold matches_current; cbn; apply String.eqb_eq.
  - rewrite Hij, Hmo. do 2 f_equal. unfold jn_key in Hk'. cbn in *. congruence.
  - by rewrite Hoj.
Qed.
End Agreement.

(** ** Witnesses *)

Import Gantry.Toy.

Definition demo_parse (u : string) : option url := Some (mk_url "https" false "example.org" "" "" "").
Definition demo_gen (name : string) (product : string) (now : Z) : result (identity * string) :=
  Ok (mk_identity name (name ++ "-installation") "" "" "AQID" ["replication"] 1 product now, "private").
Definition blank : node := mk_node [] [] [] [] [] [] [] empty_db ∅ 0.
Definition named (name : string) : node :=
  (UpdateIdentity demo_parse (demo_gen name) false name ("https://" ++ name ++ ".example") "1" 0 (blank, [])).2.1.
Definition demo_joiner : node := named "joiner".
Definition demo_host : node := (Invite "inv" "pending" 0 (15 * minute) "token" (named "host", [])).2.1.

Definition demo_local : identity :=
  mk_identity "joiner" "joiner-installation" "joiner" "https://joiner.example" "AQID" ["replication"] 1 "1" 0.
Definition demo_sub : submission := mk_submission "token" demo_local "kept-by-joiner".
Definition demo_submit (s : submission) (h : node) := SubmitJoin (demo_gen "host") false s "req" "req-secret" second (h, []).
Definition demo_h1 : node := (demo_submit demo_sub demo_host).2.1.
Definition demo_h3 : node := (DecideJoin "req" true "nobody" (2 * second) (demo_h1, [])).2.1.
Definition demo_poll (i s : string) := PollJoin (demo_gen "host") i s "from-host" (3 * second) (demo_h3, []).
Definition demo_j1 : node :=
  (BeginOutbound demo_parse (demo_gen "joiner") false (fun _ s => (demo_submit s demo_host).1)
     "https://host.example/" "token" "kept-by-joiner" "out" 0 (demo_joiner, [])).2.1.
Definition demo_j3 : node := (CollectOutbound false (fun _ i s => (demo_poll i s).1) "out" (4 * second) (demo_j1, [])).2.1.

Lemma demo_wf : tables_wf demo_host /\ tables_wf demo_joiner.
Proof. split; (split; [constructor|vm_compute; lia]). Qed.

Definition demo_receipt : receipt := mk_receipt "req" "req-secret" "pending".
Definition demo_hostid : identity :=
  mk_identity "host" "host-installation" "host" "https://host.example" "AQID" ["replication"] 1 "1" 0.
Definition demo_result : pairing_result := mk_pairing "approved" (Some demo_hostid) "from-host".
Definition demo_h4 : node := (demo_poll "req" "req-secret").2.1.

Lemma demo_ensured : EnsureIdentity (demo_gen "joiner") "" 0 (demo_joiner, []) = (Ok demo_local, (demo_joiner, [])).
Proof. vm_compute. reflexivity. Qed.
Lemma demo_submitted : demo_submit demo_sub demo_host = (Ok demo_receipt, (demo_h1, [])).
Proof. vm_compute. reflexivity. Qed.
Lemma demo_begun : BeginOutbound demo_parse (demo_gen "joiner") false (fun _ s => (demo_submit s demo_host).1)
     "https://host.example/" "token" "kept-by-joiner" "out" 0 (demo_joiner, [])
  = (Ok (mk_ojoin "out" "https://host.example" "req" "pending" 0 0 ""), (demo_j1, [])).
Proof. vm_compute. reflexivity. Qed.
Lemma demo_decided : DecideJoin "req" true "nobody" (2 * second) (demo_h1, []) = (Ok tt, (demo_h3, [])).
Proof. vm_compute. reflexivity. Qed.
Lemma demo_polled : demo_poll "req" "req-secret" = (Ok demo_result, (demo_h4, [])).
Proof. vm_compute. reflexivity. Qed.
Lemma demo_pending o : find_first (fun o => o.(ob_id) =?s "out") demo_j1.(outbounds) = Some o -> o.(ob_state) = "pending".
Proof. vm_compute. by intros [= <-]. Qed.
Lemma demo_collected : CollectOutbound false (fun _ i s => (demo_poll i s).1) "out" (4 * second) (demo_j1, [])
  = (Ok (mk_ojoin "out" "https://host.example" "req" "approved" 0 (4 * second) ""), (demo_j3, [])).
Proof. vm_compute. reflexivity. Qed.
Lemma demo_revoked : exists n1, Revoke "joiner" (5 * second) (demo_h3, []) = (Ok tt, (n1, [])).
Proof. eexists. vm_compute. reflexivity. Qed.
Lemma demo_named k : identified k demo_h4 -> k = who demo_hostid.
Proof. intros (r & rs & E & <-). vm_compute in E. by injection E as <- _. Qed.
Definition blank_named : node := (EnsureIdentity (demo_gen "host") "1" 0 (blank, [])).2.1.
Lemma blank_ensured : EnsureIdentity (demo_gen "host") "1" 0 (blank, [])
  = (Ok (mk_identity "host" "host-installation" "" "" "AQID" ["replication"] 1 "1" 0), (blank_named, [])).
Proof. vm_compute. reflexivity. Qed.

Lemma invitation_used_once_witness :
  is_ok (demo_submit demo_sub demo_host).1 = true /\
  (is_ok (SubmitJoin (demo_gen "host") false demo_sub "req2" "secret2" (5 * second) (demo_h1, [])).1 = false
   /\ is_ok (Pair (demo_gen "host") false "token" demo_local "a" "b" (5 * second) (demo_h1, [])).1 = false).
Proof.
  split; [by rewrite demo_submitted|].
  destruct (invitation_used_once demo_parse (demo_gen "host") false demo_sub "req" "req-secret" second demo_host []
    demo_receipt demo_h1 [] demo_h1 (proj1 demo_wf) demo_submitted (star_refl _ _) [] (5 * second)) as [H1 H2].
  split; [by apply H1|apply H2].
Defined.

Lemma credential_collected_once_witness :
  (demo_poll "req" "req-secret").1 = Ok demo_result
  /\ forall res, (PollJoin (demo_gen "host") "req" "req-secret" "again" (4 * second) (demo_h4, [])).1 = Ok res ->
     res = mk_pairing "used" None "".
Proof.
  assert (tables_wf demo_h3) as W by (split; [apply NoDup_singleton|vm_compute; lia]).
  split; [by rewrite demo_polled|]. intros res H.
  exact (credential_collected_once demo_parse (demo_gen "host") false "req" "req-secret" "from-host" (3 * second) demo_h3 []
    demo_result demo_h4 [] demo_h4 W demo_polled eq_refl (star_refl _ _) "again" (4 * second) [] res H).
Defined.

Lemma one_identity_witness :
  exists i, (first_identity (demo_gen "late") "1" 7 (blank_named, [])).1 = Ok i /\ NodeID i = "host".
Proof.
  assert (tables_wf blank) as W by (split; [constructor|cbn; lia]).
  eexists. split; [vm_compute; reflexivity|].
  refine (proj1 (one_identity demo_parse (demo_gen "host") false "1" 0 blank [] _ blank_named [] blank_named W blank_ensured
    (star_refl _ _) (demo_gen "late") "1" 7 [] _ (or_intror _))). vm_compute. reflexivity.
Defined.

Lemma revoked_member_stays_out_witness :
  exists n1, Revoke "joiner" (5 * second) (demo_h3, []) = (Ok tt, (n1, []))
  /\ is_ok (SetEnabled "joiner" true (n1, [])).1 = false.
Proof.
  destruct demo_revoked as [n1 H]. exists n1. split; [exact H|].
  exact (proj1 (proj2 (revoked_member_stays_out demo_parse (demo_gen "host") false "joiner" (5 * second) demo_h3 [] n1 [] n1
    H (star_refl _ _) (6 * second) [])) true).
Defined.

Lemma pairing_agrees_witness :
  exists at_host at_joiner, member_by "joiner" demo_h4 = Some at_host
    /\ member_by "host" demo_j3 = Some at_joiner
    /\ matches_current (material_of at_joiner) at_host.(mb_outbound) = true
    /\ matches_current (material_of at_host) at_joiner.(mb_outbound) = true.
Proof.
  destruct (pairing_agrees demo_parse (demo_gen "host") (demo_gen "joiner") false demo_joiner [] demo_local demo_joiner []
    demo_host [] "req" "req-secret" second demo_receipt demo_h1 [] "token" "kept-by-joiner" "out"
    "https://host.example/" 0 _ demo_j1 [] demo_h1 "nobody" (2 * second) [] demo_h3 []
    "from-host" (3 * second) [] demo_result demo_h4 [] demo_j1 [] (4 * second) _ demo_j3 []
    (proj1 demo_wf) (proj2 demo_wf) demo_ensured demo_submitted demo_begun (star_refl _ _) demo_decided demo_polled
    (star_refl _ _) demo_pending demo_collected)
    as (_ & host & m & m' & Hid & H1 & H2 & _ & _ & H3 & H4).
  exists m, m'. split_and!; [exact H1| |exact H3|exact H4].
  apply demo_named in Hid. injection Hid as Hn _ _ _. by rewrite Hn in H2.
Defined.
