(* ===== verification/Credentials.v ===== *)
(** What protects the signed requests between two nodes: a captured request is
    accepted once, and the rotation of a credential leaves the pair able to
    talk.  The rotation is the composition of [Transport.Do] and
    [Transport.Rotate] on one node with the handlers of [Transport] on the
    other, over a network that may lose either message. *)
From S2P Require Import Prelude GoStr TimeText Base64 SqlM FleetDb Claims Sites Gantry Cluster Pairing Transport ClusterLife.
Open Scope string_scope.
Open Scope Z_scope.
Open Scope wf_scope.
Open Scope sql_scope.

(** ** Definitions *)

Section Replay.
Context {GC : GantryCore}.
Variable parse : string -> option url.
Variable GenerateIdentity : string -> Z -> result (identity * string).
Variable insecure : bool.

(** The operations up to the instant [t] that do not remove the member [id]. *)
Definition calm (id : string) (t : Z) (o : op) : Prop :=
  match o with
  | OAuthenticate _ _ now => now <= t
  | ORemove id' => id' <> id
  | _ => True
  end.
Definition calm_step (id : string) (t : Z) (n n' : node) : Prop :=
  exists o fl, calm id t o /\ n' = (run_op parse GenerateIdentity insecure o (n, fl)).2.1.
End Replay.

(** *** Rotation *)

Section Peers.
Context {GC : GantryCore}.
(** What becomes of a request: it is lost, or it reaches the peer, whose
    database refuses the given statements, and its answer arrives or not. *)
Inductive fate := Lost | Reaches (refused : faults) (answered : bool).
Record peer := mk_peer { p_node : node; p_fates : list fate }.

Variable GenerateIdentity : string -> Z -> result (identity * string).
Variable decode_rotation : string -> option (string * option Z).
Variable show_summary : Summary -> string.
Variable show_comparison : Comparison -> string.

(** The client of a node whose only peer this is; an empty list of fates is a
    network that works. *)
Definition wire (now : Z) (target : string) (rq : request) (w : peer) : result response * peer :=
  match w.(p_fates) with
  | Lost :: fs => (Err "connection lost", mk_peer w.(p_node) fs)
  | Reaches fl answered :: fs =>
      let '(r, (n, _)) := serve_rpc GenerateIdentity decode_rotation show_summary show_comparison rq now (w.(p_node), fl) in
      (if answered then r else Err "connection lost", mk_peer n fs)
  | [] =>
      let '(r, (n, _)) := serve_rpc GenerateIdentity decode_rotation show_summary show_comparison rq now (w.(p_node), []) in
      (r, mk_peer n [])
  end.
End Peers.

(** ** Lemmas *)

Section ReplayLemmas.
Context {GC : GantryCore} {EV : Envelopes}.
Variable parse : string -> option url.
Variable GenerateIdentity : string -> Z -> result (identity * string).
Variable insecure : bool.
(** The nonce [nonce] of [id], seen at [t1], and the present [t2]. *)
Variable c : nonce_row.
Variable t2 : Z.
Hypothesis not_purged : forall t, t <= t2 -> text_ltb c.(nc_seen) (t - 2 * ClockSkew) = false.

Definition remembers (n n' : node) : Prop := In c n.(nonces) -> In c n'.(nonces).
#[export] Instance remembers_refl : Reflexive remembers.
Proof. intros n H. exact H. Qed.
#[export] Instance remembers_trans : Transitive remembers.
Proof. intros a b d H1 H2 H. exact (H2 (H1 H)). Qed.

Lemma remembers_same n n' : n'.(nonces) = n.(nonces) -> remembers n n'.
Proof. intros E H. by rewrite E. Qed.

Lemma remembers_purge t n : t <= t2 -> remembers n (purge_nonces t n).
Proof using not_purged. intros Ht H. unfold purge_nonces. cbn. apply in_del. split; [done|]. by apply not_purged. Qed.

Lemma remembers_insert id nonce t n n' : insert_nonce id nonce t n = Some n' -> remembers n n'.
Proof. unfold insert_nonce. case_match; [done|]. intros [= <-] G. cbn. apply in_or_app. by left. Qed.

Lemma remembers_delete id n : id <> c.(nc_node) -> remembers n (delete_member id n).2.
Proof.
  intros Hid H. unfold delete_member. cbn. apply in_del. split; [done|]. apply existsb_none_iff. intros m _.
  destruct (mb_node m =?s id) eqn:E1; [|done]. cbn. destruct (mb_node m =?s nc_node c) eqn:E2; [|by rewrite andb_false_r].
  bool_to_prop. congruence.
Qed.

Ltac nonce_statement :=
  intros; first [ eapply remembers_insert; eassumption | apply remembers_purge; assumption | idtac ];
  unfold insert_identity, insert_invitation, use_invitation, insert_join, insert_outbound, promote_pending,
    touch_member, upd_member, upsert_member, insert_member, update_members in *;
  repeat case_match; simplify_eq/=; by apply remembers_same.

Definition remembers_with {W} (a b : node * W) : Prop := remembers a.1 b.1.
#[export] Instance remembers_with_refl {W} : Reflexive (remembers_with (W:=W)).
Proof. intros [n w]. unfold remembers_with. reflexivity. Qed.
#[export] Instance remembers_with_trans {W} : Transitive (remembers_with (W:=W)).
Proof. intros x y z H1 H2. unfold remembers_with in *. by etransitivity. Qed.

Lemma on_node_remembers {W A} (m : M node A) : within remembers m -> within remembers_with (on_node (W:=W) m).
Proof. intros H [n w] fl. specialize (H n fl). unfold on_node, remembers_with. by destruct (m (n, fl)) as [? []]. Qed.

Lemma Do_remembers {W} (client : string -> request -> W -> result response * W) uri id method path cap body d1 d2 now lat :
  within remembers_with (Do parse GenerateIdentity insecure client uri id method path cap body d1 d2 now lat).
Proof.
  unfold Do, send, EnsureIdentity, first_identity. solve_within;
    try (apply on_node_remembers; solve_within; nonce_statement).
  all: intros [n w] fl; unfold call, remembers_with; destruct (client _ _ _); cbn; reflexivity.
Qed.

Lemma Rotate_remembers {W} (client : string -> request -> W -> result response * W) uri rb id sec d1 d2 now lat :
  within remembers_with (Rotate parse GenerateIdentity insecure client uri rb id sec d1 d2 now lat).
Proof.
  unfold Rotate, switch_outbound, one_row. solve_within; try (apply on_node_remembers; solve_within; nonce_statement).
  intros w fl. pose proof (Do_remembers client uri id "POST" "/api/cluster/v1/rpc/rotate-inbound" "cluster.health"
      (rb (EncodeToString (SecretDigest sec)) (now + 15 * minute)) d1 d2 now lat w fl) as K.
  by destruct (Do _ _ _ _ _ _ _ _ _ _ _ _ _ _ (w, fl)) as [[] []].
Qed.

Lemma alone_remembers {A} (m : M (node * nat) A) : within remembers_with m -> within remembers (alone m).
Proof. intros H n fl. specialize (H (n, O) fl). unfold alone. by destruct (m ((n, O), fl)) as [? [[] ]]. Qed.

Lemma run_op_remembers o : calm c.(nc_node) t2 o -> within remembers (run_op parse GenerateIdentity insecure o).
Proof using not_purged.
  intros Hc. destruct o; cbn [run_op calm] in *;
    try (apply alone_remembers; first [apply Do_remembers|apply Rotate_remembers]);
    unfold silent, UpdateIdentity, EnsureIdentity, first_identity, Invite, Pair, AddMember, SetEnabled, Revoke, RotateInbound,
      SubmitJoin, submit_body, DecideJoin, decide_body, PollJoin, poll_body, AcceptRemote, BeginOutbound, CollectOutbound,
      Authenticate, Audit, one_row; try (solve_within; nonce_statement).
  unfold Remove, one_row. solve_within. intros s a s' [= _ <-]. by apply remembers_delete.
Qed.
End ReplayLemmas.

Section ReplayTheorem.
Context {GC : GantryCore} {EV : Envelopes}.
Variable parse : string -> option url.
Variable GenerateIdentity : string -> Z -> result (identity * string).
Variable insecure : bool.

Lemma star_remembers c t2 n n' : (forall t, t <= t2 -> text_ltb c.(nc_seen) (t - 2 * ClockSkew) = false) ->
  star (calm_step parse GenerateIdentity insecure c.(nc_node) t2) n n' -> In c n.(nonces) -> In c n'.(nonces).
Proof.
  intros Hp H. induction H as [|x y z _ IH (o & fl & Hc & ->)]; [done|]. intros Hx.
  exact (run_op_remembers parse GenerateIdentity insecure c t2 Hp o Hc y fl (IH Hx)).
Qed.

Lemma insert_nonce_inv id nonce now n n' : insert_nonce id nonce now n = Some n' ->
  (forall seen, ~ In (mk_nonce id nonce seen) n.(nonces)) /\ n'.(nonces) = (n.(nonces) ++ [mk_nonce id nonce now])%list.
Proof.
  unfold insert_nonce. intros H. destruct (_ || _) eqn:E in H; [done|]. injection H as <-. split; [|done].
  intros seen Hin. apply orb_false_iff in E as [E _]. pose proof (proj1 (existsb_none_iff _ _) E _ Hin) as G. cbn in G.
  by rewrite !String.eqb_refl in G.
Qed.

(** An accepted request leaves its nonce. *)
Lemma authenticate_stores rq cap now n fl r n1 fl1 e :
  Authenticate rq cap now (n, fl) = (Ok r, (n1, fl1)) -> ReadEnvelope rq.(rq_header) now = Ok e ->
  In (mk_nonce (e_node e) (e_nonce e) now) n1.(nonces).
Proof.
  unfold Authenticate. intros H He. destruct (rq_body rq) as [body|]; [|done]. sql_inv.
  match goal with H : ReadEnvelope _ _ = Ok ?x |- _ => assert (x = e) by congruence; subst x end.
  match goal with H : insert_nonce _ _ _ _ = Some ?m, H' : ignore tt (exec (touch_member _ _)) _ = _ |- _ =>
    assert (n1.(nonces) = m.(nonces)) as -> by
      (unfold ignore, exec, stmt, touch_member in H'; repeat case_match; by simplify_eq/=);
    apply insert_nonce_inv in H as [_ ->] end.
  apply in_or_app. right. by left.
Qed.

(** A stored nonce that the purge of the same call keeps refuses the request. *)
Lemma authenticate_refuses rq cap now n fl e seen :
  ReadEnvelope rq.(rq_header) now = Ok e -> In (mk_nonce (e_node e) (e_nonce e) seen) n.(nonces) ->
  text_ltb seen (now - 2 * ClockSkew) = false ->
  is_ok (Authenticate rq cap now (n, fl)).1 = false.
Proof.
  intros He Hin Hp. destruct (Authenticate _ _ _ _) as [[r|e'] [n1 fl1]] eqn:H; [exfalso|done].
  unfold Authenticate in H. destruct (rq_body rq) as [body|]; [|done]. sql_inv.
  match goal with H : ReadEnvelope _ _ = Ok ?x |- _ => assert (x = e) by congruence; subst x end.
  match goal with H : (if ?b then _ else _) (n, _) = (Ok _, (?m, _)) |- _ => rename m into n2; assert (n2.(nonces) = n.(nonces)) as E2 end.
  { match goal with H : (if ?b then _ else _) (n, _) = _ |- _ => destruct b; [|by injection H as _ <- _] end.
    sql_inv. unfold promote_pending in *. case_match; by simplify_eq/=. }
  match goal with H : ignore tt (exec (purge_nonces _)) _ = (Ok _, (?m, _)) |- _ => rename m into n3; rename H into Hpurge end.
  assert (In (mk_nonce (e_node e) (e_nonce e) seen) n3.(nonces)) as Hin3.
  { unfold ignore, exec, stmt in Hpurge. repeat case_match; simplify_eq/=; try (by rewrite E2).
    all: apply in_del; split; [by rewrite E2|done]. }
  match goal with H : insert_nonce _ _ _ _ = Some _ |- _ => apply insert_nonce_inv in H as [Hf _] end. by eapply Hf.
Qed.

(** C14: a captured request is accepted once.  A request that was authenticated at
    [t1] is refused at every later [t2], for any route, after any operations in
    between that do not remove the member, unless the sender's clock was ahead by
    almost the whole skew: more than the skew less one second, the precision of
    the stored text by which old nonces are purged. *)
Theorem replay_refused rq cap t1 n fl r n1 fl1 n2 e t2 :
  Authenticate rq cap t1 (n, fl) = (Ok r, (n1, fl1)) ->
  ReadEnvelope rq.(rq_header) t1 = Ok e ->
  e_at e <= t1 + ClockSkew - second ->
  star (calm_step parse GenerateIdentity insecure (e_node e) t2) n1 n2 ->
  forall cap2 fl2, is_ok (Authenticate rq cap2 t2 (n2, fl2)).1 = false.
Proof using EV.
  intros H He Hat Hs cap2 fl2.
  destruct (ReadEnvelope (rq_header rq) t2) as [e2|err] eqn:E2.
  - assert (e2 = e) as -> by (eapply read_fixed; eassumption).
    pose proof (read_recent _ _ _ E2) as [Hr _].
    assert (forall t, t <= t2 -> text_ltb t1 (t - 2 * ClockSkew) = false) as Hp.
    { intros t Ht. destruct (text_ltb _ _) eqn:E; [|done]. apply text_ltb_skew in E. lia. }
    apply (authenticate_refuses rq cap2 t2 n2 fl2 e t1 E2); [|by apply Hp].
    eapply (star_remembers (mk_nonce (e_node e) (e_nonce e) t1) t2); [exact Hp|exact Hs|].
    by eapply authenticate_stores.
  - clear H Hs. destruct (Authenticate _ _ _ _) as [[r2|e2] [n3 fl3]] eqn:E; [exfalso|done].
    unfold Authenticate in E. destruct (rq_body rq); [|done]. sql_inv. congruence.
Qed.
End ReplayTheorem.

(** *** The peer's side of a request *)

Section Serving.
Context {GC : GantryCore} {VF : Verifies}.
Variable ida : string.

(** The member row of the sender, as far as the protocol is concerned. *)
Definition b_key (m : member_row) := (m.(mb_node), m.(mb_state), m.(mb_protocol), m.(mb_caps)).

(** The sender stays a member, with its old credential or the digest of
    [secret]. *)
Definition cred_rel (secret : string) (b b' : node) : Prop := forall m, member_by ida b = Some m ->
  exists m', member_by ida b' = Some m' /\ b_key m' = b_key m
    /\ (m'.(mb_inbound) = m.(mb_inbound) \/ m'.(mb_inbound) = SecretDigest secret).
Definition same_cred (b b' : node) : Prop := forall m, member_by ida b = Some m ->
  exists m', member_by ida b' = Some m' /\ b_key m' = b_key m /\ m'.(mb_inbound) = m.(mb_inbound).

#[export] Instance same_cred_refl : Reflexive same_cred.
Proof. intros b m Hm. by exists m. Qed.
#[export] Instance same_cred_trans : Transitive same_cred.
Proof.
  intros x y z H1 H2 m Hm. destruct (H1 m Hm) as (m1 & Hm1 & E1 & I1). destruct (H2 m1 Hm1) as (m2 & Hm2 & E2 & I2).
  exists m2. split_and!; [done|congruence|congruence].
Qed.
Lemma same_cred_rel secret b b' : same_cred b b' -> cred_rel secret b b'.
Proof. intros H m Hm. destruct (H m Hm) as (m' & H1 & H2 & H3). exists m'. by auto. Qed.
#[export] Instance cred_rel_refl secret : Reflexive (cred_rel secret).
Proof. intros b. apply same_cred_rel. reflexivity. Qed.
#[export] Instance cred_rel_trans secret : Transitive (cred_rel secret).
Proof.
  intros x y z H1 H2 m Hm. destruct (H1 m Hm) as (m1 & Hm1 & E1 & I1). destruct (H2 m1 Hm1) as (m2 & Hm2 & E2 & I2).
  exists m2. split_and!; [done|congruence|]. destruct I2 as [-> |]; auto.
Qed.

Lemma same_cred_members b b' : b'.(members) = b.(members) -> same_cred b b'.
Proof. intros E m Hm. exists m. unfold member_by in *. by rewrite E. Qed.

(** An update of members that keeps the keys and the inbound credential. *)
Lemma same_cred_upd p f b b' : b'.(members) = upd p f b.(members) ->
  (forall m, b_key (f m) = b_key m /\ (f m).(mb_inbound) = m.(mb_inbound)) -> same_cred b b'.
Proof.
  intros E Hf m Hm. unfold member_by in *. rewrite E, find_first_upd.
  - rewrite Hm. cbn. destruct (p m); [exists (f m)|exists m]; destruct (Hf m); auto.
  - intros x _. destruct (Hf x) as [K _]. unfold b_key in K. congruence.
Qed.

Lemma member_by_node id n m : member_by id n = Some m -> m.(mb_node) = id.
Proof. intros H. apply find_first_Some in H as [_ H]. by bool_to_prop. Qed.

Lemma promoted_row id b b' : promote_pending id b = Some b' ->
  forall m, member_by id b = Some m -> exists p m', m.(mb_pending) = Some p /\ member_by id b' = Some m'
    /\ b_key m' = b_key m /\ m'.(mb_inbound) = p /\ m'.(mb_pending) = None.
Proof.
  unfold promote_pending. destruct (existsb _ _) eqn:E; [done|]. intros [= <-] m Hm.
  pose proof (member_by_node _ _ _ Hm) as Hid. pose proof Hm as Hm'. apply find_first_Some in Hm' as [Hin _].
  pose proof (proj1 (existsb_none_iff _ _) E m Hin) as G. cbn in G. rewrite Hid, String.eqb_refl in G. cbn in G.
  destruct (mb_pending m) as [p|] eqn:Ep; [|done]. eexists p, _. split; [done|].
  unfold member_by in *. cbn. rewrite find_first_upd by done. rewrite Hm. cbn. rewrite Hid, String.eqb_refl. split; [done|].
  cbn. by rewrite Ep.
Qed.

Lemma promote_other id b b' : promote_pending id b = Some b' -> id <> ida -> same_cred b b'.
Proof.
  unfold promote_pending. destruct (existsb _ _) eqn:E; [done|]. intros [= <-] Hid m Hm.
  pose proof (member_by_node _ _ _ Hm) as Hn. exists m. unfold member_by in *. cbn. rewrite find_first_upd by done.
  rewrite Hm. cbn. by rewrite (proj2 (String.eqb_neq (mb_node m) id)) by congruence.
Qed.

Ltac cred_statement :=
  intros; unfold insert_identity, insert_nonce, purge_nonces, touch_member, update_members in *;
  repeat case_match; simplify_eq/=; first
  [ by apply same_cred_members | eapply same_cred_upd; [reflexivity|done] ].

Definition secret_of (rq : request) : string := trim_prefix rq.(rq_auth) "Bearer ".

(** What follows the promotion in [Authenticate]. *)
Lemma auth_tail_same env body now :
  within same_cred (ignore tt (exec (purge_nonces now)) ;;;
    or_fail (exec_opt (insert_nonce (e_node env) (e_nonce env) now)) "cluster replay rejected" ;;;
    ignore tt (exec (touch_member (e_node env) now)) ;;; ret (S:=node) (A:=string * string) (body, e_request env)).
Proof. solve_within; cred_statement. Qed.

(** The sender has the digest of [secret]. *)
Definition credited (secret : string) (b b' : node) : Prop := forall m, member_by ida b = Some m ->
  exists m', member_by ida b' = Some m' /\ b_key m' = b_key m /\ m'.(mb_inbound) = SecretDigest secret.

Lemma credited_same secret b b1 b2 : credited secret b b1 -> same_cred b1 b2 -> credited secret b b2.
Proof.
  intros H1 H2 m Hm. destruct (H1 m Hm) as (m1 & Hm1 & E1 & I1). destruct (H2 m1 Hm1) as (m2 & Hm2 & E2 & I2).
  exists m2. split_and!; [done|congruence|congruence].
Qed.

(** What an authentication does to the credential of the sender, and what its
    success says. *)
Definition auth_post (rq : request) (now : Z) (b : node) {A} (r : result A) (b' : node) : Prop :=
  cred_rel (secret_of rq) b b' /\
  (is_ok r = true -> forall e, ReadEnvelope rq.(rq_header) now = Ok e -> e_node e = ida -> credited (secret_of rq) b b').

Lemma promotion_step rq cap now b env m promote body :
  member_by (e_node env) b = Some m ->
  VerifyIncoming (mk_input (material_of m) cap (secret_of rq) rq.(rq_method) rq.(rq_uri) env body now) = Ok promote ->
  triple (eq b) (if promote then exec_opt (promote_pending (e_node env)) else ret tt)
    (fun r b' => cred_rel (secret_of rq) b b' /\ (is_ok r = true -> e_node env = ida -> credited (secret_of rq) b b')).
Proof using VF.
  intros Hm Hv. apply verify_secret in Hv. cbn in Hv. destruct promote.
  - unfold matches_pending in Hv. cbn in Hv. destruct (mb_pending m) as [p|] eqn:Ep; [|done].
    destruct (mb_pending_expires m); [|done]. bool_to_prop.
    apply triple_stmt; [|by intros ? e <-].
    intros ? u b' <- Hp. destruct (promote_pending (e_node env) b) as [b1|] eqn:E; [|done]. injection Hp as _ <-.
    destruct (String.eqb_spec (e_node env) ida) as [Hid|Hid].
    + enough (credited (secret_of rq) b b1) as C.
      { split; [|done]. intros x Hx. destruct (C x Hx) as (x' & ? & ? & ?). exists x'. auto. }
      intros x Hx. rewrite Hid in *. assert (x = m) as -> by congruence.
      destruct (promoted_row _ _ _ E _ Hx) as (p' & m' & Ep' & Hm' & K & I & _). exists m'. split_and!; congruence.
    + split; [|done]. apply same_cred_rel. by eapply promote_other.
  - apply triple_ret. intros ? <-. split; [reflexivity|]. intros _ Hid x Hx. rewrite Hid in *. assert (x = m) as -> by congruence.
    exists m. unfold matches_current in Hv. cbn in Hv. bool_to_prop. auto.
Qed.

Lemma authenticate_cred rq cap now b : triple (eq b) (Authenticate rq cap now) (auth_post rq now b).
Proof using VF.
  unfold Authenticate. assert (forall A e, auth_post rq now b (A:=A) (Err e) b) as E0 by (intros; split; [reflexivity|done]).
  destruct (rq_body rq) as [body|]; [|apply triple_throw; by intros ? <-].
  destruct (_ <? _); [apply triple_throw; by intros ? <-|].
  apply triple_bind_lift; [|by intros ? ? <-]. intros env He. destruct (_ =?s _); [apply triple_throw; by intros ? <-|].
  apply triple_bind_query; [|done]. destruct (member_by (e_node env) b) as [m|] eqn:Hm; [|apply triple_throw; by intros ? <-].
  apply triple_bind_lift; [|by intros ? ? <-]. intros promote Hv.
  apply triple_bind with (P' := fun _ b' => cred_rel (secret_of rq) b b' /\ (e_node env = ida -> credited (secret_of rq) b b')).
  - eapply triple_conseq; [by eapply promotion_step|done|]. intros [u|e] b' [H1 H2]; [by split; [|apply H2]|]. by split.
  - intros _ b1 fl [H1 H2]. pose proof (auth_tail_same env body now b1 fl) as K.
    match type of K with same_cred _ (?x).2.1 => destruct x as [r [b2 fl2]] end. cbn in *. split; [etransitivity; [exact H1|by apply same_cred_rel]|].
    intros _ e He' Hid. assert (e = env) as -> by congruence. eapply credited_same; [by apply H2|done].
Qed.

Variable GenerateIdentity : string -> Z -> result (identity * string).
Variable decode_rotation : string -> option (string * option Z).
Variable show_summary : Summary -> string.
Variable show_comparison : Comparison -> string.
Abbreviation serve := (serve_rpc GenerateIdentity decode_rotation show_summary show_comparison).

Lemma within_answer {A} (R : node -> node -> Prop) `{!Transitive R} (m : M node A) code k :
  within R m -> (forall a, within R (k a)) -> within R (answer m code k).
Proof using.
  intros Hm Hk s fl. unfold answer. specialize (Hm s fl). destruct (m (s, fl)) as [[a|e] [s1 fl1]]; [|done].
  cbn in Hm. etransitivity; [exact Hm|]. apply (Hk a s1 fl1).
Qed.

(** What a served request says: an answer below 400 was authenticated. *)
Definition serve_post (rq : request) (now : Z) (b : node) (r : result response) (b' : node) : Prop :=
  cred_rel (secret_of rq) b b' /\
  (forall resp, r = Ok resp -> resp.(rs_status) < 400 ->
     forall e, ReadEnvelope rq.(rq_header) now = Ok e -> e_node e = ida -> credited (secret_of rq) b b').

Lemma answer_post rq cap now b k :
  (forall a, within same_cred (k a)) ->
  triple (eq b) (answer (Authenticate rq cap now) 401 k) (serve_post rq now b).
Proof using VF.
  intros Hk s fl <-. unfold answer. pose proof (authenticate_cred rq cap now b b fl eq_refl) as [H1 H2].
  destruct (Authenticate rq cap now (b, fl)) as [[a|e] [b1 fl1]]; cbn in *.
  - specialize (Hk a b1 fl1). destruct (k a (b1, fl1)) as [r [b2 fl2]]. cbn in *.
    split; [etransitivity; [exact H1|by apply same_cred_rel]|].
    intros resp _ _ e He Hid. eapply credited_same; [by eapply H2|done].
  - split; [done|]. intros resp [= <-] Hs. cbn in Hs. lia.
Qed.

Lemma EnsureIdentity_same product now : within same_cred (EnsureIdentity GenerateIdentity product now).
Proof. unfold EnsureIdentity, first_identity. solve_within; cred_statement. Qed.

Lemma serve_cred rq now b : triple (eq b) (serve rq now) (serve_post rq now b).
Proof using VF.
  unfold serve_rpc, handleClusterRPCSummary, handleClusterRPCCompare, handleClusterRPCRotateInbound.
  repeat case_match.
  - apply answer_post. intros _. apply within_answer; [apply _| |intros; solve_within].
    unfold LocalSummary. solve_within; cred_statement.
  - apply answer_post. intros _. apply within_answer; [apply _| |intros; solve_within].
    unfold LocalComparison. solve_within; cred_statement.
  - apply answer_post. intros [body rid]. destruct (decode_rotation body) as [[text e]|]; [|solve_within].
    destruct (DecodeString text) as [h ok]. destruct (_ || _); [solve_within|]. destruct e as [e|]; [|solve_within].
    apply within_answer; [apply _| |intros; solve_within]. unfold RotateInbound, one_row. solve_within; cred_statement.
  - apply triple_ret. intros ? <-. split; [reflexivity|]. intros resp [= <-] Hs. cbn in Hs. lia.
Qed.

(** The same through the network, whatever becomes of the messages. *)
Lemma wire_cred now target rq w r w' :
  wire GenerateIdentity decode_rotation show_summary show_comparison now target rq w = (r, w') ->
  serve_post rq now w.(p_node) r w'.(p_node).
Proof using VF.
  unfold wire. pose proof (fun fl => serve_cred rq now w.(p_node) w.(p_node) fl eq_refl) as S.
  destruct (p_fates w) as [|[|fl answered] fs].
  - specialize (S []). destruct (serve _ _ _) as [x [n y]]. by intros [= <- <-].
  - intros [= <- <-]. split; [cbn; reflexivity|done].
  - specialize (S fl). destruct (serve _ _ _) as [x [n y]]. destruct S as [S1 S2]. intros [= <- <-].
    split; [done|]. by destruct answered.
Qed.
End Serving.

(** *** The two ends together *)

Section Rotating.
Context {GC : GantryCore} {EV : Envelopes} {VF : Verifies}.
Variable serves : string -> Z -> list string -> string -> Prop.
Context {SG : Signs serves}.
Variable parse : string -> option url.
Variable ga gb : string -> Z -> result (identity * string).
Variable insecure : bool.
Variable decode_rotation : string -> option (string * option Z).
Variable show_summary : Summary -> string.
Variable show_comparison : Comparison -> string.
Variable request_uri : string -> option string.
Variable rotation_body : string -> Z -> string.
(** The ids of the two nodes. *)
Variable ida idb : string.

Abbreviation serve := (serve_rpc gb decode_rotation show_summary show_comparison).
Abbreviation net now := (wire gb decode_rotation show_summary show_comparison now).
Abbreviation ask now := (Do parse ga insecure (net now) request_uri).
Abbreviation rotate now := (Rotate parse ga insecure (net now) request_uri rotation_body).

(** The sender's row of the peer, as far as the protocol is concerned. *)
Definition a_key (m : member_row) := (m.(mb_node), m.(mb_state), m.(mb_protocol), m.(mb_endpoint)).

(** The peer's current credential is the sender's, or the one it had before. *)
Definition usable (ma : member_row) (inbound : string) : Prop :=
  ma.(mb_outbound) <> "" /\
  (inbound = SecretDigest ma.(mb_outbound) \/
   exists p, ma.(mb_previous) = Some p /\ p <> "" /\ p <> ma.(mb_outbound) /\ inbound = SecretDigest p).

(** Two nodes that know each other under these keys and can talk. *)
Definition linked (ka kb : string * string * Z * _) (a b : node) : Prop :=
  (exists r, List.head a.(identities) = Some r /\ r.(id_node) = ida)
  /\ exists ma mb, member_by idb a = Some ma /\ member_by ida b = Some mb
     /\ a_key ma = ka /\ b_key mb = kb /\ usable ma mb.(mb_inbound).

(** The peer would let the sender's credential in at [now]. *)
Definition accepted (ma mb : member_row) (now : Z) : Prop :=
  mb.(mb_inbound) = SecretDigest ma.(mb_outbound) \/
  exists e, mb.(mb_pending) = Some (SecretDigest ma.(mb_outbound)) /\ mb.(mb_pending_expires) = Some e /\ now < e.

Lemma ensure_known g product now a r : List.head a.(identities) = Some r ->
  forall fl, (EnsureIdentity g product now (a, fl)).2.1 = a /\
  forall i, (EnsureIdentity g product now (a, fl)).1 = Ok i -> i = identity_of r.
Proof.
  intros Hr fl. unfold EnsureIdentity, bind, query, stmt. destruct fl as [|[] fl]; cbn; rewrite ?Hr; cbn; split; try done; by intros i [= <-].
Qed.

(** One attempt: the sender's tables stay, the peer's credential stays or becomes
    the one presented; an answer below 400 says it became it. *)
Lemma send_post target method cap body cred draw now a w fl r a' w' fl' m :
  send (net now) request_uri ida target method cap body cred draw now ((a, w), fl) = (r, ((a', w'), fl')) ->
  member_by ida w.(p_node) = Some m ->
  a' = a /\ exists m', member_by ida w'.(p_node) = Some m' /\ b_key m' = b_key m
    /\ (m'.(mb_inbound) = m.(mb_inbound) \/ m'.(mb_inbound) = SecretDigest cred)
    /\ forall resp, r = Ok resp -> resp.(rs_status) < 400 -> m'.(mb_inbound) = SecretDigest cred.
Proof using VF EV SG.
  unfold send. destruct (request_uri target) as [uri|]; [|intros [= <- <- <- <-] Hm; split; [done|]; exists m; split_and!; [done|done|by left|done]].
  unfold call. destruct (wire _ _ _ _ _ _ _ _) as [x y] eqn:E. intros [= <- <- <- <-] Hm. split; [done|].
  apply (wire_cred ida) in E as [H1 H2]. unfold secret_of in *. cbn [rq_auth rq_header] in *. rewrite trim_prefix_app in *.
  destruct (H1 m Hm) as (m' & Hm' & K & I). exists m'. split_and!; try done. intros resp -> Hs.
  destruct (read_written ida cred method uri cap core_protocol body now draw.1 draw.2 now) as (e & He & Hid & _).
  { pose proof skew_pos. unfold second in *. lia. }
  destruct (H2 resp eq_refl Hs e He Hid m Hm) as (m2 & Hm2 & _ & I2). congruence.
Qed.

Definition sent (cred : string) (m : member_row) (a : node) (r : result response) (s : node * peer) : Prop :=
  exists w1 m1, s = (a, w1) /\ member_by ida w1.(p_node) = Some m1 /\ b_key m1 = b_key m
    /\ (m1.(mb_inbound) = m.(mb_inbound) \/ m1.(mb_inbound) = SecretDigest cred)
    /\ forall resp, r = Ok resp -> resp.(rs_status) < 400 -> m1.(mb_inbound) = SecretDigest cred.

Lemma send_sent target method cap body cred draw now a w m : member_by ida w.(p_node) = Some m ->
  triple (eq (a, w)) (send (net now) request_uri ida target method cap body cred draw now) (sent cred m a).
Proof using VF EV SG.
  intros Hm ? fl <-. destruct (send _ _ _ _ _ _ _ _ _ _ _) as [r [[a' w'] fl']] eqn:E.
  destruct (send_post _ _ _ _ _ _ _ _ _ _ _ _ _ _ _ E Hm) as (-> & m' & H). cbn. by exists w', m'.
Qed.

(** The two ends after the sender, whose row was [ma], has done something. *)
Definition still (ma : member_row) (kb : string * string * Z * list string) (s : node * peer) : Prop :=
  (exists r, List.head s.1.(identities) = Some r /\ r.(id_node) = ida)
  /\ exists ma' mb', member_by idb s.1 = Some ma' /\ member_by ida s.2.(p_node) = Some mb'
     /\ a_key ma' = a_key ma /\ ma'.(mb_outbound) = ma.(mb_outbound) /\ b_key mb' = kb
     /\ usable ma' mb'.(mb_inbound).

Lemma still_linked ma kb s : still ma kb s -> linked (a_key ma) kb s.1 s.2.(p_node).
Proof. intros (Hr & ma' & mb' & H1 & H2 & H3 & H4 & H5 & H6). split; [done|]. by exists ma', mb'. Qed.

(** A refused or executed update of the sender's row of the peer. *)
Lemma touch_still ma kb f a w :
  still ma kb (a, w) -> (forall x, a_key (f x) = a_key x /\ (f x).(mb_outbound) = x.(mb_outbound)) ->
  (forall ma' mb', member_by idb a = Some ma' -> member_by ida w.(p_node) = Some mb' ->
     usable ma' mb'.(mb_inbound) -> usable (f ma') mb'.(mb_inbound)) ->
  triple (eq (a, w)) (ignore tt (on_node (exec (upd_member idb f)))) (fun _ => still ma kb).
Proof using.
  intros S Hf Hu. apply triple_ignore. intros ? fl <-. unfold on_node, exec, stmt.
  assert (still ma kb (upd_member idb f a, w)) as G; [|destruct fl as [|[] fl]; cbn; done].
  destruct S as (Hr & ma' & mb' & H1 & H2 & H3 & H4 & H5 & H6). split; [done|]. cbn [fst snd] in *.
  pose proof (member_by_node _ _ _ H1) as Hid.
  exists (f ma'), mb'. destruct (Hf ma') as [K O]. split_and!; try done; try congruence; [|by apply Hu].
  unfold upd_member, member_by in *. cbn. rewrite find_first_upd.
  - rewrite H1. cbn. by rewrite Hid, String.eqb_refl.
  - intros x _. destruct (Hf x) as [Kx _]. unfold a_key in Kx. congruence.
Qed.

Lemma usable_seen f ma inb : (f ma).(mb_outbound) = ma.(mb_outbound) -> (f ma).(mb_previous) = ma.(mb_previous) ->
  usable ma inb -> usable (f ma) inb.
Proof using. unfold usable. intros -> ->. done. Qed.

Lemma usable_first ma inb inb' : usable ma inb -> inb' = inb \/ inb' = SecretDigest ma.(mb_outbound) -> usable ma inb'.
Proof using. intros U [-> | ->]; [done|]. split; [apply U|by left]. Qed.

(** The peer's current credential is now the sender's. *)
Definition got (cred : string) (s : node * peer) : Prop :=
  exists mb', member_by ida s.2.(p_node) = Some mb' /\ mb'.(mb_inbound) = SecretDigest cred.

(** The first attempt of a request was answered 401 or 403. *)
Definition turned_away (ma : member_row) (method path cap body : string) (d1 : string * string) (now : Z) (a : node) (w : peer) : Prop :=
  exists fl resp s, send (net now) request_uri ida (trim_slash ma.(mb_endpoint) ++ path) method cap body
    ma.(mb_outbound) d1 now ((a, w), fl) = (Ok resp, s) /\ (resp.(rs_status) = 401 \/ resp.(rs_status) = 403).

(** The state after the last update of [Do]. *)
Lemma touch_got ma kb f a w cred :
  still ma kb (a, w) -> (forall x, a_key (f x) = a_key x /\ (f x).(mb_outbound) = x.(mb_outbound)) ->
  (forall ma' mb', member_by idb a = Some ma' -> member_by ida w.(p_node) = Some mb' ->
     usable ma' mb'.(mb_inbound) -> usable (f ma') mb'.(mb_inbound)) ->
  triple (eq (a, w)) (ignore tt (on_node (exec (upd_member idb f)))) (fun _ s => still ma kb s /\ (got cred (a, w) -> got cred s)).
Proof using.
  intros S Hf Hu ? fl <-. split; [exact (touch_still ma kb f a w S Hf Hu (a, w) fl eq_refl)|].
  unfold ignore, on_node, exec, stmt. by destruct fl as [|[] fl].
Qed.

Lemma Do_still id' ma kb a w method path cap body d1 d2 now lat :
  id' = idb -> has_prefix path "/" = true -> member_by idb a = Some ma -> still ma kb (a, w) ->
  triple (eq (a, w)) (ask now id' method path cap body d1 d2 now lat)
    (fun r s => still ma kb s /\ forall resp, r = Ok resp -> resp.(rs_status) < 400 ->
       got ma.(mb_outbound) s \/ turned_away ma method path cap body d1 now a w).
Proof using VF EV SG.
  intros -> Hpath Hma S. unfold Do.
  assert (forall e : string, still ma kb (a, w) /\ forall resp, Err e = Ok resp -> resp.(rs_status) < 400 ->
    got ma.(mb_outbound) (a, w) \/ turned_away ma method path cap body d1 now a w) as E0 by done.
  eapply triple_bind with (P' := fun r s => (a, w) = s /\ r = Some ma).
  { intros ? fl <-. unfold on_node, query, stmt. rewrite Hma. destruct fl as [|[] fl]; cbn; done. }
  intros r. apply triple_pre. intros s [<- ->].
  destruct (_ || _); [apply triple_throw; by intros ? <-|]. apply triple_bind_lift; [|by intros ? ? <-]. intros _ _.
  destruct S as ((ri & Hri & Hida) & ma0 & mb & H1 & H2 & H3 & H4 & H5 & H6) eqn:ES. clear ES.
  cbn [fst snd] in H1, H2, Hri. assert (ma0 = ma) as -> by congruence. clear H1 H3 H4.
  eapply triple_bind with (P' := fun i s => (a, w) = s /\ i.(NodeID) = ida).
  { intros ? fl <-. unfold on_node. pose proof (ensure_known ga "" now a ri Hri fl) as [K1 K2].
    destruct (EnsureIdentity ga "" now (a, fl)) as [[i|e] [a1 fl1]]; cbn in *; subst a1; [|done].
    split; [done|]. rewrite (K2 i eq_refl). exact Hida. }
  intros i. apply triple_pre. intros s [<- Hi]. rewrite Hi, Hpath.
  assert (forall w1 m1, member_by ida w1.(p_node) = Some m1 -> b_key m1 = b_key mb -> usable ma m1.(mb_inbound) ->
    still ma kb (a, w1)) as At.
  { intros w1 m1 G1 G2 G3. split; [by exists ri|]. exists ma, m1. split_and!; try done. congruence. }
  (* the first attempt *)
  eapply triple_bind with (P' := fun resp s => sent ma.(mb_outbound) mb a (Ok resp) s /\ exists fl fl',
     send (net now) request_uri ida (trim_slash ma.(mb_endpoint) ++ path) method cap body ma.(mb_outbound) d1 now ((a, w), fl) = (Ok resp, (s, fl'))).
  { eapply triple_conseq; [by apply triple_run, send_sent|done|]. intros [resp|e] s [H Hrun]; [done|].
    destruct H as (w1 & m1 & -> & G1 & G2 & G3 & _). split; [|done]. apply (At w1 m1); [done|done|by apply (usable_first ma (mb_inbound mb))]. }
  intros resp. apply triple_pre. intros s [(w1 & m1 & -> & G1 & G2 & G3 & G4) (fl0 & fl0' & Hrun)].
  assert (usable ma (mb_inbound m1)) as U1 by by apply (usable_first ma (mb_inbound mb)).
  destruct (_ && _) eqn:Efall.
  - (* the second, with the previous credential *)
    apply andb_true_iff in Efall as [Efall Est]. apply andb_true_iff in Efall as [Ep1 Ep2].
    assert (turned_away ma method path cap body d1 now a w) as T.
    { exists fl0, resp, ((a, w1), fl0'). split; [done|]. apply orb_true_iff in Est as [?|?]; [left|right]; by apply Z.eqb_eq. }
    bool_to_prop. destruct (mb_previous ma) as [p|] eqn:Ep; [|done].
    eapply triple_bind with (P' := fun _ s => still ma kb s /\ exists w2, s = (a, w2)).
    { eapply triple_conseq; [by apply send_sent|done|]. intros r2 s (w2 & m2 & -> & K1 & K2 & K3 & _).
      assert (still ma kb (a, w2)); [|destruct r2; [split; [done|by exists w2]|done]].
      apply (At w2 m2); [done|congruence|]. split; [apply U1|]. destruct K3 as [-> | ->]; [apply U1|right; by exists p]. }
    intros resp2. apply triple_pre. intros s [S2 [w2 ->]].
    eapply triple_bind with (P' := fun _ => still ma kb); [|intros _; apply triple_ret; intros s Hs; by split; [|right]].
    eapply triple_conseq with (Q := fun _ => still ma kb); [|done|by intros [] s Hs].
    destruct (_ <? _); [|by apply triple_ret; intros ? <-].
    apply (touch_still ma kb); [exact S2|done|intros; by apply usable_seen].
  - assert (still ma kb (a, w1)) as S1 by by apply (At w1 m1).
    assert (rs_status resp < 400 -> got (mb_outbound ma) (a, w1)) as Got by (intros ?; exists m1; split; [done|by apply (G4 resp)]).
    eapply triple_bind with (P' := fun _ s => still ma kb s /\ (got (mb_outbound ma) (a, w1) -> got (mb_outbound ma) s)).
    + eapply triple_conseq with (Q := fun _ s => still ma kb s /\ (got (mb_outbound ma) (a, w1) -> got (mb_outbound ma) s)); [|done|by intros [] s [? ?]].
      destruct ((rs_status resp <? 400) && _) eqn:Edrop.
      * apply andb_true_iff in Edrop as [Elow _]. bool_to_prop. apply touch_got; [exact S1|done|].
        intros ma' mb' Q1 Q2 [Q3 _]. assert (ma' = ma) as -> by congruence. assert (mb' = m1) as -> by congruence.
        split; [done|]. left. cbn. by apply (G4 resp).
      * apply touch_got; [exact S1|done|intros; by apply usable_seen].
    + intros _. apply triple_ret. intros s [Hs Hg]. split; [done|]. intros resp' [= <-] Hlow. left. by apply Hg, Got.
Qed.

(** *** A request that nothing disturbs *)

Definition matches (mb : member_row) (cred : string) (now : Z) : bool :=
  matches_current (material_of mb) cred || matches_pending (material_of mb) cred now.

Definition fresh (nonce : string) (b : node) : Prop :=
  forall c, In c b.(nonces) -> c.(nc_node) = ida -> c.(nc_nonce) <> nonce.
Definition unique_nodes (b : node) : Prop := NoDup (List.map mb_node b.(members)).

(** The peer, if it would serve the sender under a capability. *)
Definition serving (mb : member_row) (cap : string) : Prop :=
  serves mb.(mb_state) mb.(mb_protocol) mb.(mb_caps) cap /\ mb.(mb_protocol) = core_protocol.

Definition signed (method uri cap cred body : string) (draw : string * string) (now : Z) : request :=
  mk_request method uri ("Bearer " ++ cred)
    (WriteEnvelope ida cred method uri cap core_protocol body now draw.1 draw.2) (Some body).

Lemma unique_member b id m x : unique_nodes b -> member_by id b = Some m -> In x b.(members) -> x.(mb_node) = id -> x = m.
Proof using.
  intros U Hm Hx Hid. pose proof (member_by_node _ _ _ Hm). apply find_first_Some in Hm as [Hin _].
  eapply NoDup_map_inj; [exact U|done|done|congruence].
Qed.

Lemma promote_runs b id m : unique_nodes b -> member_by id b = Some m -> is_Some m.(mb_pending) ->
  is_Some (promote_pending id b).
Proof using.
  intros U Hm [p Hp]. unfold promote_pending. destruct (existsb _ _) eqn:E; [|by eexists]. exfalso. apply existsb_exists in E as (x & Hx & E).
  bool_to_prop. assert (x = m) as -> by (eapply unique_member; eassumption). by rewrite Hp in *.
Qed.

Lemma insert_nonce_runs id nonce now b m : (forall c, In c b.(nonces) -> c.(nc_node) = id -> c.(nc_nonce) <> nonce) ->
  member_by id b = Some m -> is_Some (insert_nonce id nonce now b).
Proof using.
  intros F Hm. pose proof (member_by_node _ _ _ Hm) as Hid. apply find_first_Some in Hm as [Hin _].
  unfold insert_nonce. rewrite (proj2 (existsb_none_iff _ _)).
  - cbn. assert (existsb (fun m => mb_node m =?s id) (members b) = true) as ->; [|done].
    apply existsb_exists. exists m. split; [done|]. by apply String.eqb_eq.
  - intros c Hc. destruct (nc_node c =?s id) eqn:E; [|done]. bool_to_prop. cbn. apply String.eqb_neq. by apply F.
Qed.

(** Authentication of a signed request without refused statements: let in, or
    turned away with the tables as they were because no credential matches. *)
Lemma auth_free b mb method uri cap cred body draw now :
  member_by ida b = Some mb -> unique_nodes b -> serving mb cap -> cred <> "" -> len body <= MaxRequestBytes ->
  fresh draw.1 b ->
  (exists x b', Authenticate (signed method uri cap cred body draw now) cap now (b, []) = (Ok x, (b', [])) /\ x.1 = body)
  \/ (matches mb cred now = false /\
      exists e, Authenticate (signed method uri cap cred body draw now) cap now (b, []) = (Err e, (b, []))).
Proof using EV VF SG.
  intros Hm U [Hs Hp] Hc Hb F.
  destruct (read_written ida cred method uri cap core_protocol body now draw.1 draw.2 now) as (e & He & Hid & Hn & _).
  { pose proof skew_pos. unfold second in *. lia. }
  pose proof (verify_written (material_of mb) cap cred ida method uri core_protocol body now draw.1 draw.2 now e He Hs (eq_sym Hp)) as V.
  unfold Authenticate, signed. cbn [rq_body rq_header rq_auth rq_method rq_uri].
  rewrite (proj2 (Z.ltb_ge _ _)) by lia. unfold bind at 1. rewrite He. cbn [lift ret]. rewrite trim_prefix_app.
  rewrite (proj2 (String.eqb_neq cred "")) by done. unfold bind at 1. cbn. rewrite Hid, Hm.
  destruct (VerifyIncoming _) as [p|err] eqn:EV'.
  - left. assert (exists b1, (if p then exec_opt (promote_pending ida) else ret tt) (b, []) = (Ok tt, (b1, []))
      /\ nonces b1 = nonces b /\ is_Some (member_by ida b1)) as (b1 & E1 & En & m1 & Em).
    { pose proof (verify_secret _ _ EV') as Vs. cbn in Vs. destruct p; [|exists b; by rewrite Hm].
      unfold matches_pending in Vs. cbn in Vs. destruct (mb_pending mb) as [pd|] eqn:Epd; [|done].
      destruct (promote_runs b ida mb U Hm) as [b1 Hb1]; [by rewrite Epd|].
      exists b1. unfold exec_opt, stmt. rewrite Hb1. split; [done|].
      destruct (promoted_row _ _ _ Hb1 _ Hm) as (? & m' & _ & Hm' & _). rewrite Hm'.
      split; [|done]. unfold promote_pending in Hb1. case_match; [done|]. by injection Hb1 as <-. }
    unfold bind. cbn [lift ret]. rewrite E1. unfold ignore, exec at 1, stmt at 1. cbn [List.tl].
    destruct (insert_nonce_runs ida (e_nonce e) now (purge_nonces now b1) m1) as [b2 Hb2]; [|done|].
    { intros c Hin. unfold purge_nonces in Hin. cbn in Hin. apply in_del in Hin as [Hin _]. rewrite En in Hin. rewrite Hn. by apply F. }
    unfold or_fail, exec_opt, stmt. rewrite Hb2. cbn. by eexists _, _.
  - right. split; [|unfold bind; cbn; by eexists]. unfold matches. destruct (matches_current _ _); [done|].
    by destruct (matches_pending _ _ _).
Qed.

(** *** Rotation *)

Definition rotate_path : string := "/api/cluster/v1/rpc/rotate-inbound".
Definition summary_path : string := "/api/cluster/v1/rpc/summary".

(** The network may lose messages while the peer's database works. *)
Definition steady (fs : list fate) : Prop :=
  Forall (fun f => match f with Lost => True | Reaches fl _ => fl = [] end) fs.

Lemma serve_rotation b mb cred body draw now :
  member_by ida b = Some mb -> unique_nodes b -> serving mb "cluster.health" -> cred <> "" -> len body <= MaxRequestBytes ->
  fresh draw.1 b -> matches mb cred now = true ->
  exists resp b', serve (signed "POST" rotate_path "cluster.health" cred body draw now) now (b, []) = (Ok resp, (b', []))
    /\ (resp.(rs_status) = 200 \/ resp.(rs_status) = 400 \/ resp.(rs_status) = 409).
Proof using EV VF SG.
  intros Hm U Hs Hc Hb F Hmt.
  destruct (auth_free b mb "POST" rotate_path "cluster.health" cred body draw now Hm U Hs Hc Hb F) as
    [([bd rid] & b' & E & Ebd)|[E _]]; [|congruence].
  unfold serve_rpc, signed. cbn [rq_method rq_uri]. change ("POST" =?s "GET") with false.
  change ("POST" =?s "POST") with true. change (rotate_path =?s "/api/cluster/v1/rpc/rotate-inbound") with true. cbn [andb].
  unfold handleClusterRPCRotateInbound, answer at 1. unfold signed in E. rewrite E.
  destruct (decode_rotation bd) as [[text e]|]; [|by eexists _, _; split; [reflexivity|cbn; auto]].
  destruct (DecodeString text) as [h ok]. destruct (_ || _); [by eexists _, _; split; [reflexivity|cbn; auto]|].
  destruct e as [e|]; [|by eexists _, _; split; [reflexivity|cbn; auto]].
  unfold answer, RotateInbound, update_members, one_row, bind, stmt. cbn [List.tl].
  destruct (_ =? 1); by eexists _, _; split; [reflexivity|cbn; auto].
Qed.

Lemma not_turned_away ma mb a w body d1 now :
  member_by ida w.(p_node) = Some mb -> unique_nodes w.(p_node) -> serving mb "cluster.health" -> ma.(mb_outbound) <> "" ->
  len body <= MaxRequestBytes -> fresh d1.1 w.(p_node) -> matches mb ma.(mb_outbound) now = true -> steady w.(p_fates) ->
  request_uri (trim_slash ma.(mb_endpoint) ++ rotate_path) = Some rotate_path ->
  ~ turned_away ma "POST" rotate_path "cluster.health" body d1 now a w.
Proof using EV VF SG.
  intros Hm U Hs Hc Hb F Hmt Hst Hu (fl & resp & s & H & Hcode).
  destruct (serve_rotation (p_node w) mb (mb_outbound ma) body d1 now Hm U Hs Hc Hb F Hmt) as (resp0 & b' & E & Hok).
  unfold send in H. rewrite Hu in H. unfold call, wire in H. fold (signed "POST" rotate_path "cluster.health" (mb_outbound ma) body d1 now) in H.
  unfold steady in Hst. destruct (p_fates w) as [|f fs].
  - rewrite E in H. injection H as <- _. lia.
  - apply Forall_cons in Hst as [Hf _]. destruct f as [|fl' ans]; [done|]. subst fl'. rewrite E in H.
    destruct ans; [|done]. injection H as <- _. lia.
Qed.

(** The sender's switch to its new credential, once the peer has the old one as
    its current. *)
Lemma switch_linked ma kb a w sec :
  still ma kb (a, w) -> got ma.(mb_outbound) (a, w) -> ma.(mb_outbound) <> "" -> sec <> "" ->
  linked (a_key ma) kb (set_members (upd (fun x => (x.(mb_node) =?s idb) && (x.(mb_state) =?s MemberActive))
    (with_outbound sec (Some ma.(mb_outbound))) a.(members)) a) w.(p_node).
Proof using.
  intros (Hr & m1 & b1 & Q1 & Q2 & Q3 & Q4 & Q5 & Q6) (b2 & R1 & R2) Hne Hsec. cbn [fst snd] in *.
  assert (b2 = b1) as -> by congruence. split; [done|].
  exists (if (mb_node m1 =?s idb) && (mb_state m1 =?s MemberActive) then with_outbound sec (Some ma.(mb_outbound)) m1 else m1), b1.
  unfold member_by in *. cbn [members set_members]. rewrite find_first_upd, Q1 by done. split_and!; try done.
  - by destruct (_ && _).
  - destruct (_ && _); [|done]. split; [done|]. cbn. destruct (String.eqb_spec (mb_outbound ma) sec) as [Hd|Hd]; [left; congruence|].
    right. exists (mb_outbound ma). by split_and!.
Qed.

(** A rotation that starts while the peer lets the sender's credential in leaves
    the two ends able to talk. *)
Lemma Rotate_linked ma mb a w sec d1 d2 now lat :
  member_by idb a = Some ma -> still ma (b_key mb) (a, w) -> member_by ida w.(p_node) = Some mb -> unique_nodes w.(p_node) ->
  serving mb "cluster.health" -> len (rotation_body (EncodeToString (SecretDigest sec)) (now + 15 * minute)) <= MaxRequestBytes ->
  fresh d1.1 w.(p_node) -> matches mb ma.(mb_outbound) now = true -> steady w.(p_fates) -> sec <> "" ->
  request_uri (trim_slash ma.(mb_endpoint) ++ rotate_path) = Some rotate_path ->
  triple (eq (a, w)) (rotate now idb sec d1 d2 now lat) (fun _ s => linked (a_key ma) (b_key mb) s.1 s.2.(p_node)).
Proof using VF EV SG.
  intros Hma S Hm U Hs Hb F Hmt Hst Hsec Hu. unfold Rotate, switch_outbound.
  assert (linked (a_key ma) (b_key mb) (a, w).1 (p_node (a, w).2)) as L0 by by apply (still_linked ma).
  pose proof S as (_ & ma0 & mb0 & Q1 & _ & _ & _ & _ & Q2). cbn in Q1. assert (ma0 = ma) as -> by congruence.
  destruct Q2 as [Hne _].
  eapply triple_bind with (P' := fun r s => (a, w) = s /\ r = Some ma).
  { apply triple_or_fail. intros ? fl <-. unfold on_node, query, stmt. rewrite Hma. destruct fl as [|[] fl]; cbn; done. }
  intros r. apply triple_pre. intros s [<- ->].
  eapply triple_bind with (P' := fun resp s => still ma (b_key mb) s /\ (resp.(rs_status) = 200 -> got (mb_outbound ma) s)).
  { intros ? fl <-. pose proof (Do_still idb ma (b_key mb) a w "POST" rotate_path "cluster.health"
      (rotation_body (EncodeToString (SecretDigest sec)) (now + 15 * minute)) d1 d2 now lat eq_refl eq_refl Hma S (a, w) fl eq_refl) as [K1 K2].
    change "/api/cluster/v1/rpc/rotate-inbound" with rotate_path.
    destruct (Do _ _ _ _ _ _ _ _ _ _ _ _ _ _ ((a, w), fl)) as [[resp|e] [s1 fl1]]; cbn in *.
    - split; [done|]. intros H200. destruct (K2 resp eq_refl) as [G|G]; [lia|done|].
      exfalso. eapply not_turned_away; [..|exact G]; done.
    - by apply (still_linked ma). }
  intros resp. apply triple_pre. intros s [S1 G].
  destruct (negb _) eqn:E200; [apply triple_throw; intros ? <-; by apply (still_linked ma)|]. bool_to_prop.
  eapply triple_bind with (P' := fun _ s => linked (a_key ma) (b_key mb) s.1 s.2.(p_node)); [|intros _; by apply triple_ret].
  apply triple_const. destruct s as [a1 w1]. intros ? fl <-. unfold on_node, bind, stmt, update_members, one_row.
  pose proof (still_linked ma _ _ S1) as L1.
  pose proof (switch_linked ma (b_key mb) a1 w1 sec S1 (G E200) Hne Hsec) as L2.
  destruct fl as [|[] fl]; cbn [List.tl]; try done; by destruct (_ =? 1).
Qed.

(** *** The peer's table keeps its members *)

Definition same_nodes (b b' : node) : Prop := List.map mb_node b'.(members) = List.map mb_node b.(members).
#[export] Instance same_nodes_refl : Reflexive same_nodes.
Proof using. by intros b. Qed.
#[export] Instance same_nodes_trans : Transitive same_nodes.
Proof using. intros x y z H1 H2. unfold same_nodes in *. congruence. Qed.

Lemma same_nodes_upd p f l : (forall m, (f m).(mb_node) = m.(mb_node)) -> List.map mb_node (upd p f l) = List.map mb_node l.
Proof using. intros H. unfold upd. rewrite List.map_map. apply map_ext. intros m. by destruct (p m). Qed.

Lemma serve_nodes rq now : within same_nodes (serve rq now).
Proof using.
  unfold serve_rpc, handleClusterRPCSummary, handleClusterRPCCompare, handleClusterRPCRotateInbound.
  assert (forall cap, within same_nodes (Authenticate rq cap now)) as A.
  { intros cap. unfold Authenticate, promote_pending, insert_nonce, purge_nonces, touch_member.
    solve_within; intros; unfold same_nodes; repeat case_match; simplify_eq/=; rewrite ?same_nodes_upd; done. }
  repeat case_match; [| | |solve_within].
  - apply within_answer; [apply _|apply A|]. intros _. apply within_answer; [apply _| |intros; solve_within].
    unfold LocalSummary. solve_within. intros s. unfold insert_identity. by case_match.
  - apply within_answer; [apply _|apply A|]. intros _. apply within_answer; [apply _| |intros; solve_within].
    unfold LocalComparison. solve_within. intros s. unfold insert_identity. by case_match.
  - apply within_answer; [apply _|apply A|]. intros [body rid]. destruct (decode_rotation body) as [[text e]|]; [|solve_within].
    destruct (DecodeString text) as [h ok]. destruct (_ || _); [solve_within|]. destruct e as [e|]; [|solve_within].
    apply within_answer; [apply _| |intros; solve_within]. unfold RotateInbound, one_row. solve_within.
    intros s n s' [= _ <-]. unfold same_nodes. cbn. by rewrite same_nodes_upd.
Qed.

Definition peer_nodes (x y : node * peer) : Prop := same_nodes x.2.(p_node) y.2.(p_node).
#[export] Instance peer_nodes_refl : Reflexive peer_nodes.
Proof using. by intros x. Qed.
#[export] Instance peer_nodes_trans : Transitive peer_nodes.
Proof using. intros x y z H1 H2. unfold peer_nodes in *. by etransitivity. Qed.

Lemma on_node_peer {A} (m : M node A) : within peer_nodes (on_node (W:=peer) m).
Proof using. intros [n w] fl. unfold on_node, peer_nodes. destruct (m (n, fl)) as [? []]. cbn. reflexivity. Qed.

Lemma send_peer now a b c d e f g t : within peer_nodes (send (net now) request_uri a b c d e f g t).
Proof using.
  unfold send. destruct (request_uri b); [|solve_within]. intros [n w] fl. unfold call, wire, peer_nodes.
  match goal with |- context [serve ?rq now (_, [])] => pose proof (fun fl => serve_nodes rq now w.(p_node) fl) as K; set (rq0 := rq) in * end.
  destruct (p_fates w) as [|[|fl' ans] fs].
  - specialize (K []). destruct (serve rq0 now (p_node w, [])) as [? [? ?]]. done.
  - cbn. reflexivity.
  - specialize (K fl'). destruct (serve rq0 now (p_node w, fl')) as [? [? ?]]. done.
Qed.

Lemma ask_peer now id' method path cap body d1 d2 t lat : within peer_nodes (Do parse ga insecure (net now) request_uri id' method path cap body d1 d2 t lat).
Proof using. unfold Do. solve_within; try apply send_peer; apply on_node_peer. Qed.

Lemma rotate_peer now id' sec d1 d2 t lat :
  within peer_nodes (Rotate parse ga insecure (net now) request_uri rotation_body id' sec d1 d2 t lat).
Proof using.
  unfold Rotate, switch_outbound, one_row. solve_within; try apply on_node_peer.
  intros w fl. pose proof (ask_peer now id' "POST" "/api/cluster/v1/rpc/rotate-inbound" "cluster.health"
      (rotation_body (EncodeToString (SecretDigest sec)) (t + 15 * minute)) d1 d2 t lat w fl) as K.
  by destruct (Do _ _ _ _ _ _ _ _ _ _ _ _ _ _ (w, fl)) as [[] []].
Qed.

(** *** Talking *)

(** The two nodes, and what they may do: the sender sends any request or rotates
    its credential, at any time, over any network, with any statements refused;
    but it starts a rotation only while the peer would let it in, and during a
    rotation the peer's database works. *)
Inductive talk : node * node -> node * node -> Prop :=
| talk_ask a b now method path cap body d1 d2 lat fates fl :
    has_prefix path "/" = true ->
    talk (a, b) (let s := (ask now idb method path cap body d1 d2 now lat ((a, mk_peer b fates), fl)).2.1 in (s.1, s.2.(p_node)))
| talk_rotate a b ma mb now sec d1 d2 lat fates fl :
    member_by idb a = Some ma -> member_by ida b = Some mb -> matches mb ma.(mb_outbound) now = true ->
    len (rotation_body (EncodeToString (SecretDigest sec)) (now + 15 * minute)) <= MaxRequestBytes ->
    fresh d1.1 b -> steady fates -> sec <> "" ->
    talk (a, b) (let s := (rotate now idb sec d1 d2 now lat ((a, mk_peer b fates), fl)).2.1 in (s.1, s.2.(p_node))).

Section Pair.
Variables (ep st : string) (caps : list string).
Hypothesis endpoint_ok : validateEndpointScheme parse insecure ep = Ok tt.
Hypothesis uri_ok : forall path, path = rotate_path \/ path = summary_path -> request_uri (trim_slash ep ++ path) = Some path.
Hypothesis serves_ok : forall cap, cap = "cluster.health" \/ cap = "cluster.webfleet.summary" -> serves st core_protocol caps cap.
Hypothesis keys_drawn : forall product now, is_ok (gb product now) = true.
Hypothesis room : 0 <= MaxRequestBytes.

Definition ka : string * string * Z * string := (idb, MemberActive, core_protocol, ep).
Definition kb : string * string * Z * list string := (ida, st, core_protocol, caps).

Lemma key_serving mb cap : b_key mb = kb -> cap = "cluster.health" \/ cap = "cluster.webfleet.summary" -> serving mb cap.
Proof using serves_ok. unfold b_key, kb, serving. intros [= _ -> -> ->] Hc. split; [by apply serves_ok|done]. Qed.

Lemma talk_linked x y : talk x y -> linked ka kb x.1 x.2 /\ unique_nodes x.2 -> linked ka kb y.1 y.2 /\ unique_nodes y.2.
Proof using VF EV SG serves_ok uri_ok.
  intros T [L U]. destruct T as [a b now method path cap body d1 d2 lat fates fl Hp|a b ma mb now sec d1 d2 lat fates fl Hma Hmb Hmt Hb F Hst Hsec];
    cbn [fst snd] in *; destruct L as (Hr & ma0 & mb0 & Q1 & Q2 & Q3 & Q4 & Q5).
  - split.
    + rewrite <- Q3, <- Q4. apply still_linked.
      apply (Do_still idb ma0 (b_key mb0) a (mk_peer b fates) method path cap body d1 d2 now lat eq_refl Hp Q1); [|done].
      split; [done|]. exists ma0, mb0. done.
    + unfold unique_nodes. rewrite (ask_peer now idb method path cap body d1 d2 now lat (a, mk_peer b fates) fl). exact U.
  - simplify_eq. split.
    + rewrite <- Q3, <- Q4.
      refine (Rotate_linked ma mb a (mk_peer b fates) sec d1 d2 now lat Hma _ Hmb U _ Hb F Hmt Hst Hsec _ _ fl eq_refl).
      * split; [done|]. exists ma, mb. done.
      * apply key_serving; auto.
      * unfold a_key, ka in Q3. injection Q3 as _ _ _ ->. apply uri_ok. auto.
    + unfold unique_nodes. rewrite (rotate_peer now idb sec d1 d2 now lat (a, mk_peer b fates) fl). exact U.
Qed.

Lemma summary_runs b now : exists v b', LocalSummary gb now (b, []) = (Ok v, (b', [])).
Proof using keys_drawn.
  unfold LocalSummary. assert (exists i b', EnsureIdentity gb "" now (b, []) = (Ok i, (b', []))) as (i & b' & E).
  { unfold EnsureIdentity, first_identity, bind. cbn. destruct (head (identities b)) as [r|] eqn:E; [by eexists _, _|].
    pose proof (keys_drawn "" now) as K. destruct (gb "" now) as [g|]; [|done]. cbn. unfold insert_identity.
    destruct (identities b); [|done]. by eexists _, _. }
  unfold bind. rewrite E. cbn. by eexists _, _.
Qed.

(** A summary request is answered, or turned away without a trace. *)
Lemma serve_summary b mb cred draw now :
  member_by ida b = Some mb -> unique_nodes b -> serving mb "cluster.webfleet.summary" -> cred <> "" -> fresh draw.1 b ->
  (exists resp b', serve (signed "GET" summary_path "cluster.webfleet.summary" cred "" draw now) now (b, []) = (Ok resp, (b', []))
     /\ resp.(rs_status) = 200)
  \/ (matches mb cred now = false /\ exists e,
     serve (signed "GET" summary_path "cluster.webfleet.summary" cred "" draw now) now (b, []) = (Ok (mk_response 401 e), (b, []))).
Proof using EV VF SG keys_drawn room.
  intros Hm U Hs Hc F.
  assert (forall s, serve (signed "GET" summary_path "cluster.webfleet.summary" cred "" draw now) now s
    = handleClusterRPCSummary gb show_summary (signed "GET" summary_path "cluster.webfleet.summary" cred "" draw now) now s) as -> by done.
  unfold handleClusterRPCSummary, answer at 1.
  destruct (auth_free b mb "GET" summary_path "cluster.webfleet.summary" cred "" draw now Hm U Hs Hc room F) as
    [([bd rid] & b' & E & _)|[Hn (e & E)]]; unfold signed in *; rewrite E.
  - left. destruct (summary_runs b' now) as (v & b2 & E2). unfold answer. rewrite E2. by eexists _, _.
  - right. split; [exact Hn|]. exists e. unfold answer. by rewrite E.
Qed.

(** C13: talking never strands the pair.  Two nodes that can talk go on being able to,
    whatever requests and rotations have been made, whatever messages were lost
    and whatever statements the sender's database refused, if each rotation was
    started while the peer let the sender in and the peer's own database refused
    nothing during it: a request over a working network is then answered, with the
    new credential or the one before it.  (A peer whose database refuses the
    promotion in the middle of a rotation may strand the pair.) *)
Theorem pair_never_stranded a b a' b' :
  linked ka kb a b -> unique_nodes b -> star talk (a, b) (a', b') ->
  forall now d1 d2 lat, fresh d1.1 b' -> fresh d2.1 b' ->
  exists resp s, ask now idb "GET" summary_path "cluster.webfleet.summary" "" d1 d2 now lat ((a', mk_peer b' []), []) = (Ok resp, s)
    /\ resp.(rs_status) = 200.
Proof using EV VF SG endpoint_ok uri_ok serves_ok keys_drawn room.
  intros L U T now d1 d2 lat F1 F2.
  assert (linked ka kb a' b' /\ unique_nodes b') as [L' U'].
  { refine (star_invariant talk (fun x => linked ka kb x.1 x.2 /\ unique_nodes x.2) (a, b) (a', b') _ (conj L U) T).
    intros x y Hx Hxy. by eapply talk_linked. }
  clear L U T. destruct L' as ((r & Hr & Hid) & ma & mb & Hma & Hmb & Hka & Hkb & Hne & Hus).
  unfold a_key, ka in Hka. injection Hka as _ Hact Hpro Hep.
  pose proof (key_serving mb _ Hkb (or_intror eq_refl)) as Sv.
  unfold Do, bind at 1, on_node at 1, query, stmt. cbn [List.tl]. rewrite Hma, Hact, String.eqb_refl, Hpro, Z.eqb_refl. cbn [negb orb].
  unfold bind at 1. rewrite Hep, endpoint_ok. cbn [lift ret].
  unfold bind at 1. unfold on_node at 1, EnsureIdentity, bind at 1, query, stmt. cbn [List.tl]. rewrite Hr. cbn [ret].
  unfold bind at 1, send at 1. change (has_prefix summary_path "/") with true. cbn [NodeID identity_of]. rewrite Hid, uri_ok by by right.
  unfold call, wire. cbn [p_fates p_node].
  change (mk_request "GET" summary_path ("Bearer " ++ mb_outbound ma) _ _) with (signed "GET" summary_path "cluster.webfleet.summary" (mb_outbound ma) "" d1 now).
  destruct (serve_summary b' mb (mb_outbound ma) d1 now Hmb U' Sv Hne F1) as [(resp & b1 & -> & H200)|[Hno (e & ->)]].
  - rewrite H200. cbn [orb Z.eqb]. rewrite andb_false_r. unfold bind, ignore, on_node, exec, stmt. cbn.
    destruct (negb _); cbn; by eexists _, _.
  - cbn [rs_status]. unfold matches in Hno. apply orb_false_iff in Hno as [Hno _]. unfold matches_current in Hno. cbn in Hno.
    destruct Hus as [Hus|(p & Hp & Hp1 & Hp2 & Hin)]; [by rewrite Hus, String.eqb_refl in Hno|].
    rewrite Hp, (proj2 (String.eqb_neq p "")), (proj2 (String.eqb_neq p (mb_outbound ma))) by done. cbn [negb andb orb Z.eqb].
    unfold bind at 1, send. rewrite uri_ok by by right. unfold call, wire. cbn [p_fates p_node].
    change (mk_request "GET" summary_path ("Bearer " ++ p) _ _) with (signed "GET" summary_path "cluster.webfleet.summary" p "" d2 now).
    cbn [Pos.eqb orb p_fates p_node]. destruct (serve_summary b' mb p d2 now Hmb U' Sv Hp1 F2) as [(resp & b1 & -> & H200)|[Hno2 _]].
    + rewrite H200. by eexists _, _.
    + unfold matches, matches_current in Hno2. cbn in Hno2. by rewrite Hin, String.eqb_refl in Hno2.
Qed.
End Pair.

(** *** A stranded pair *)

(** No credential the sender keeps is one the peer takes at or after [t]. *)
Definition stranded (ma mb : member_row) (t : Z) : Prop :=
  exists p, ma.(mb_previous) = Some p /\ p <> "" /\ p <> ma.(mb_outbound)
  /\ forall now, t <= now -> matches mb ma.(mb_outbound) now = false /\ matches mb p now = false.

Lemma auth_refuses b mb rq cap cred now fl e :
  ReadEnvelope rq.(rq_header) now = Ok e -> e_node e = ida -> secret_of rq = cred ->
  member_by ida b = Some mb -> matches mb cred now = false ->
  exists err fl', Authenticate rq cap now (b, fl) = (Err err, (b, fl')).
Proof using VF.
  intros He Hid Hsec Hm Hno. unfold Authenticate. destruct (rq_body rq) as [body|]; [|by eexists _, _].
  destruct (_ <? _); [by eexists _, _|]. unfold bind at 1. rewrite He. cbn [lift ret]. fold (secret_of rq). rewrite Hsec.
  destruct (cred =?s ""); [by eexists _, _|]. unfold bind at 1, or_fail, query, stmt. rewrite Hid, Hm.
  destruct fl as [|[] fl]; cbn [List.tl]; try (by eexists _, _).
  all: destruct (VerifyIncoming _) as [pr|err] eqn:V; [|by eexists _, _].
  all: apply verify_secret in V; cbn [vi_material vi_secret vi_now] in V; unfold matches in Hno; apply orb_false_iff in Hno as [N1 N2]; destruct pr; congruence.
Qed.

Lemma serve_refuses b mb rq cred now fl e :
  ReadEnvelope rq.(rq_header) now = Ok e -> e_node e = ida -> secret_of rq = cred ->
  member_by ida b = Some mb -> matches mb cred now = false ->
  exists resp fl', serve rq now (b, fl) = (Ok resp, (b, fl')) /\ 400 <= resp.(rs_status).
Proof using VF.
  intros He Hid Hsec Hm Hno.
  assert (forall cap k, exists resp fl', answer (Authenticate rq cap now) 401 k (b, fl) = (Ok resp, (b, fl')) /\ 400 <= resp.(rs_status)) as A.
  { intros cap k. unfold answer. destruct (auth_refuses b mb rq cap cred now fl e He Hid Hsec Hm Hno) as (err & fl' & ->).
    eexists _, _. split; [reflexivity|]. cbn. lia. }
  unfold serve_rpc, handleClusterRPCSummary, handleClusterRPCCompare, handleClusterRPCRotateInbound.
  repeat case_match; try apply A. eexists _, _. split; [reflexivity|]. cbn. lia.
Qed.

Lemma send_refused target method cap body cred draw now a w fl mb :
  member_by ida w.(p_node) = Some mb -> matches mb cred now = false ->
  exists r w' fl', send (net now) request_uri ida target method cap body cred draw now ((a, w), fl) = (r, ((a, w'), fl'))
    /\ w'.(p_node) = w.(p_node) /\ forall resp, r = Ok resp -> 400 <= resp.(rs_status).
Proof using EV VF SG.
  intros Hm Hno. unfold send. destruct (request_uri target) as [uri|]; [|by eexists _, _, _].
  destruct (read_written ida cred method uri cap core_protocol body now draw.1 draw.2 now) as (e & He & Hid & _).
  { pose proof skew_pos. unfold second in *. lia. }
  unfold call, wire. set (rq := mk_request _ _ _ _ _).
  assert (forall fl, exists resp fl', serve rq now (p_node w, fl) = (Ok resp, (p_node w, fl')) /\ 400 <= resp.(rs_status)) as K.
  { intros fl0. eapply (serve_refuses _ mb rq cred now fl0 e); try done. unfold secret_of. cbn. apply trim_prefix_app. }
  destruct (p_fates w) as [|[|fl0 ans] fs].
  - destruct (K []) as (resp & fl' & -> & Hr). eexists _, _, _. split; [reflexivity|]. split; [done|]. by intros ? [= <-].
  - by eexists _, _, _.
  - destruct (K fl0) as (resp & fl' & -> & Hr). eexists _, _, _. split; [reflexivity|]. split; [done|].
    destruct ans; [by intros ? [= <-]|done].
Qed.

(** Two nodes whose pair is stranded at [t]. *)
Definition stuck_at (t : Z) (a b : node) : Prop :=
  (exists r, List.head a.(identities) = Some r /\ r.(id_node) = ida)
  /\ exists ma mb, member_by idb a = Some ma /\ member_by ida b = Some mb /\ stranded ma mb t.

(** The exchange is over with an error and neither node has changed. *)
Ltac unanswered :=
  eexists _, _, _, _; split; [reflexivity|]; split; [|done];
  match goal with S : stuck_at _ _ _ |- _ => first [exact S | cbn [p_node] in *; congruence
    | match goal with W : p_node _ = _ |- _ => rewrite W; exact S end] end.

Lemma stuck_touch t a b f : stuck_at t a b ->
  (forall m, (f m).(mb_node) = m.(mb_node) /\ (f m).(mb_outbound) = m.(mb_outbound) /\ (f m).(mb_previous) = m.(mb_previous)) ->
  stuck_at t (upd_member idb f a) b.
Proof using.
  intros (Hr & ma & mb & Hma & Hmb & St) Hf. split; [exact Hr|]. exists (f ma), mb.
  assert (mb_node ma = idb) as Hn by by apply member_by_node in Hma.
  split; [|split; [exact Hmb|]].
  - unfold upd_member, member_by in *. cbn. rewrite find_first_upd.
    + rewrite Hma. cbn. by rewrite Hn, String.eqb_refl.
    + intros x _. destruct (Hf x) as [K _]. congruence.
  - destruct (Hf ma) as (_ & Ho & Hp). unfold stranded in *. by rewrite Ho, Hp.
Qed.

(** Nothing the sender asks a stranded peer is answered, and the pair stays so. *)
Lemma stranded_stays t a b : stuck_at t a b ->
  forall now method path cap body d1 d2 lat fates fl, t <= now ->
  exists r a' w fl', ask now idb method path cap body d1 d2 now lat ((a, mk_peer b fates), fl) = (r, ((a', w), fl'))
    /\ stuck_at t a' w.(p_node) /\ forall resp, r = Ok resp -> 400 <= resp.(rs_status).
Proof using EV VF SG.
  intros St. pose proof St as ((r0 & Hr & Hid) & ma & mb & Hma & Hmb & p & Hp & Hp1 & Hp2 & Hno).
  intros now method path cap body d1 d2 lat fates fl Ht.
  destruct (Hno now Ht) as [No1 No2].
  unfold Do, bind at 1, on_node at 1, query, stmt.
  destruct fl as [|[] fl]; cbn [List.tl]; [|unanswered|].
  all: rewrite Hma; destruct (_ || _); [unanswered|].
  all: destruct (validateEndpointScheme _ _ _) as [u|e]; [|unanswered]; unfold bind at 1; cbn [lift ret].
  all: unfold bind at 1, on_node at 1.
  all: match goal with |- context [EnsureIdentity ?g "" ?n (?x, ?l)] => pose proof (ensure_known g "" n x r0 Hr l) as [K1 K2];
         destruct (EnsureIdentity g "" n (x, l)) as [[i|e] [a1 fl1]] end; cbn in K1, K2; subst a1; [|unanswered].
  all: rewrite (K2 i eq_refl); cbn [NodeID identity_of]; rewrite Hid; unfold bind at 1.
  all: match goal with |- context [send _ _ _ ?tg ?me ?c ?bo ?cr ?dr ?n ((?x, ?w), ?l)] =>
         destruct (send_refused tg me c bo cr dr n x w l mb Hmb No1) as (r1 & w1 & fl2 & -> & Hw & Hr1) end;
       cbn in Hw; destruct r1 as [resp|e]; [|unanswered]; specialize (Hr1 resp eq_refl).
  all: rewrite Hp, (proj2 (String.eqb_neq p "")), (proj2 (String.eqb_neq p (mb_outbound ma))) by done; cbn [negb andb].
  all: assert (stuck_at t a (p_node w1)) as St1 by (rewrite Hw; exact St); rewrite <- Hw in Hmb.
  all: pose proof (proj2 (Z.ltb_ge (rs_status resp) 400) Hr1) as Hlow.
  all: destruct ((rs_status resp =? 401) || (rs_status resp =? 403)).
  2,4: rewrite Hlow; cbn [andb]; unfold bind at 1, ignore, on_node, exec, stmt; destruct fl2 as [|[] fl2]; cbn [List.tl];
       eexists _, _, _, _; (split; [reflexivity|split; [first [exact St1 | by apply stuck_touch]|by intros ? [= <-]]]).
  all: unfold bind at 1;
       match goal with |- context [send _ _ _ ?tg ?me ?c ?bo ?cr ?dr ?n ((?x, ?w), ?l)] =>
         destruct (send_refused tg me c bo cr dr n x w l mb Hmb No2) as (r2 & w2 & fl3 & -> & Hw2 & Hr2) end.
  all: assert (stuck_at t a (p_node w2)) as St2 by (rewrite Hw2; exact St1); destruct r2 as [resp2|e];
       [|eexists _, _, _, _; (split; [reflexivity|split; [exact St2|done]])].
  all: specialize (Hr2 resp2 eq_refl); rewrite (proj2 (Z.ltb_ge (rs_status resp2) 400) Hr2);
       eexists _, _, _, _; (split; [reflexivity|split; [exact St2|by intros ? [= <-]]]).
Qed.
End Rotating.


(** ** Two nodes that have paired *)

Import Gantry.Toy.

(** A rotation's body as the digest's 43 characters and the expiry. *)
Definition demo_body (h : string) (e : Z) : string := h ++ format_int e.
Definition demo_decode (s : string) : option (string * option Z) :=
  Some (substring 0 43 s, parse_int (substring 43 100 s)).
Definition demo_uri (t : string) : option string := Some (substring 20 100 t).
Definition demo_net : Z -> string -> request -> peer -> result response * peer :=
  wire (demo_gen "host") demo_decode (fun _ => "summary") (fun _ => "comparison").
Definition demo_rotate (sec : string) (now : Z) (x : node * node) : result string * (node * node) :=
  let '(r, ((a, w), _)) := Rotate demo_parse (demo_gen "joiner") false (demo_net now) demo_uri demo_body
    "host" sec (sec ++ "-n1", "r1") (sec ++ "-n2", "r2") now 0 ((x.1, mk_peer x.2 []), []) in
  (r, (a, w.(p_node))).
Definition demo_ask (method path cap body : string) (d1 d2 : string * string) (now lat : Z) (fates : list fate) (fl : faults)
    (x : node * node) : result response * (node * node) :=
  let '(r, ((a, w), _)) := Do demo_parse (demo_gen "joiner") false (demo_net now) demo_uri
    "host" method path cap body d1 d2 now lat ((x.1, mk_peer x.2 fates), fl) in
  (r, (a, w.(p_node))).

(** A request of any kind sent no earlier than [t]. *)
Definition asked (t : Z) (x y : node * node) : Prop :=
  exists method path cap body d1 d2 now lat fates fl, t <= now
    /\ y = (demo_ask method path cap body d1 d2 now lat fates fl x).2.

Definition demo_pair : node * node := (demo_j3, demo_h4).
Definition demo_once : node * node := (demo_rotate "second" minute demo_pair).2.
Definition demo_twice : node * node := (demo_rotate "third" (17 * minute) demo_once).2.

Lemma demo_rotations :
  (demo_rotate "second" minute demo_pair).1 = Ok "second" /\ (demo_rotate "third" (17 * minute) demo_once).1 = Ok "third".
Proof. split; vm_compute; reflexivity. Qed.

Lemma demo_stuck : stuck_at "joiner" "host" (32 * minute) demo_twice.1 demo_twice.2.
Proof.
  split; [eexists; split; vm_compute; reflexivity|].
  eexists _, _. split; [vm_compute; reflexivity|]. split; [vm_compute; reflexivity|].
  exists "second". split_and!; try done; intros now Hn.
  all: unfold matches, matches_current, matches_pending; cbn; rewrite ?(proj2 (Z.ltb_ge _ _)) by (unfold minute, second in *; lia); done.
Qed.

Lemma demo_stuck_stays t x y : star (asked t) x y ->
  stuck_at "joiner" "host" t x.1 x.2 -> stuck_at "joiner" "host" t y.1 y.2.
Proof.
  intros H S. refine (star_invariant (asked t) (fun z => stuck_at "joiner" "host" t z.1 z.2) x y _ S H).
  intros u v Su (method & path & cap & body & d1 & d2 & now & lat & fates & fl & Ht & ->). unfold demo_ask, demo_net.
  destruct (stranded_stays (fun st _ _ _ => st = "active") demo_parse (demo_gen "joiner") (demo_gen "host") false
    demo_decode (fun _ => "summary") (fun _ => "comparison") demo_uri "joiner" "host" t u.1 u.2 Su now method path cap body d1 d2 lat
    fates fl Ht) as (r & a' & w & fl' & -> & S' & _). exact S'.
Qed.

(** Two rotations that are not confirmed in time strand the pair.  A rotation
    whose credential was not used for fifteen minutes leaves the pair able to
    talk with the one before it; but a second rotation then forgets that one,
    and once its own fifteen minutes have passed, too, the peer lets in neither
    credential the sender has kept: no request is ever answered again, whatever
    is sent and however the network behaves. *)
Theorem expired_rotations_strand_pair :
  (demo_rotate "second" minute demo_pair).1 = Ok "second"
  /\ (demo_rotate "third" (17 * minute) demo_once).1 = Ok "third"
  /\ forall later, star (asked (32 * minute)) demo_twice later ->
     forall now method path cap body d1 d2 lat fates fl resp, 32 * minute <= now ->
     (demo_ask method path cap body d1 d2 now lat fates fl later).1 = Ok resp -> 400 <= resp.(rs_status).
Proof.
  destruct demo_rotations as [R1 R2]. split; [exact R1|]. split; [exact R2|].
  intros later H now method path cap body d1 d2 lat fates fl resp Ht.
  pose proof (demo_stuck_stays _ _ _ H demo_stuck) as S. unfold demo_ask, demo_net.
  destruct (stranded_stays (fun st _ _ _ => st = "active") demo_parse (demo_gen "joiner") (demo_gen "host") false
    demo_decode (fun _ => "summary") (fun _ => "comparison") demo_uri "joiner" "host" (32 * minute) later.1 later.2 S now
    method path cap body d1 d2 lat fates fl Ht) as (r & a' & w & fl' & -> & _ & Hr). exact (Hr resp).
Qed.

Lemma demo_talked :
  talk demo_parse (demo_gen "joiner") (demo_gen "host") false demo_decode (fun _ => "summary") (fun _ => "comparison")
    demo_uri demo_body "joiner" "host" (demo_j3, demo_h4) (demo_once.1, demo_once.2).
Proof.
  eassert (forall x y z, x = y -> talk demo_parse (demo_gen "joiner") (demo_gen "host") false demo_decode (fun _ => "summary")
    (fun _ => "comparison") demo_uri demo_body "joiner" "host" z y -> talk _ _ _ _ _ _ _ _ _ _ _ z x) as K by (intros x y z ->; exact id).
  refine (K _ _ _ _ (talk_rotate _ _ _ _ _ _ _ _ _ _ _ demo_j3 demo_h4 _ _ minute "second" ("second-n1", "r1") ("second-n2", "r2") 0 [] []
    _ _ _ _ _ _ _)).
  - vm_compute. reflexivity.
  - vm_compute. reflexivity.
  - vm_compute. reflexivity.
  - vm_compute. reflexivity.
  - vm_compute. discriminate.
  - by intros c Hc.
  - constructor.
  - done.
Qed.
Lemma demo_linked : linked "joiner" "host" (ka "host" "https://host.example") (kb "joiner" "active" ["replication"]) demo_j3 demo_h4.
Proof.
  split; [eexists; split; vm_compute; reflexivity|]. eexists _, _. split_and!; [vm_compute; reflexivity..|].
  vm_compute. split; [done|]. by left.
Qed.

Lemma pair_never_stranded_witness :
  (demo_rotate "second" minute demo_pair).1 = Ok "second"
  /\ exists resp s, Do demo_parse (demo_gen "joiner") false (demo_net hour) demo_uri "host" "GET" summary_path
       "cluster.webfleet.summary" "" ("n3", "r3") ("n4", "r4") hour 0 ((demo_once.1, mk_peer demo_once.2 []), []) = (Ok resp, s)
       /\ resp.(rs_status) = 200.
Proof.
  split; [exact (proj1 demo_rotations)|].
  refine (pair_never_stranded (fun st _ _ _ => st = "active") demo_parse (demo_gen "joiner") (demo_gen "host") false demo_decode
    (fun _ => "summary") (fun _ => "comparison") demo_uri demo_body "joiner" "host" "https://host.example" "active" ["replication"]
    _ _ _ _ _ demo_j3 demo_h4 demo_once.1 demo_once.2 demo_linked _ (star_step _ _ _ _ (star_refl _ _) demo_talked)
    hour ("n3", "r3") ("n4", "r4") 0 _ _).
  - reflexivity.
  - intros path [-> | ->]; vm_compute; reflexivity.
  - done.
  - done.
  - vm_compute. discriminate.
  - vm_compute. apply NoDup_singleton.
  - intros c Hc. vm_compute in Hc. by destruct Hc as [<-|[]].
  - intros c Hc. vm_compute in Hc. by destruct Hc as [<-|[]].
Defined.

(** A request of the joiner's, stamped at [at_] by its clock. *)
Definition demo_request (at_ : Z) : request :=
  signed "joiner" "GET" summary_path "cluster.webfleet.summary" "from-host" "" ("n1", "r1") at_.
Definition demo_auth (at_ now : Z) (n : node) := Authenticate (demo_request at_) "cluster.webfleet.summary" now (n, []).

Lemma demo_authenticated : demo_auth (5 * second) (5 * second) demo_h4 = (Ok ("", "r1"), ((demo_auth (5 * second) (5 * second) demo_h4).2.1, [])).
Proof. vm_compute. reflexivity. Qed.

Lemma replay_refused_witness :
  is_ok (demo_auth (5 * second) (5 * second) demo_h4).1 = true
  /\ is_ok (demo_auth (5 * second) (6 * second) (demo_auth (5 * second) (5 * second) demo_h4).2.1).1 = false.
Proof.
  split; [vm_compute; reflexivity|].
  refine (replay_refused demo_parse (demo_gen "host") false (demo_request (5 * second)) "cluster.webfleet.summary" (5 * second)
    demo_h4 [] _ _ [] _ (mk_envelope "joiner" "n1" "r1" (5 * second)) (6 * second) demo_authenticated _ _ (star_refl _ _)
    "cluster.webfleet.summary" []).
  - vm_compute. reflexivity.
  - vm_compute. discriminate.
Defined.

(** The excepted second: a request stamped five minutes ahead and let in at half
    a second past the sixth minute is let in again ten minutes later, since
    [...:00.5Z] sorts before [...:00Z] and its nonce is purged before it is
    looked up. *)
Example replay_within_precision :
  is_ok (demo_auth (11 * minute) (6 * minute + second / 2) demo_h4).1 = true
  /\ is_ok (demo_auth (11 * minute) (16 * minute) (demo_auth (11 * minute) (6 * minute + second / 2) demo_h4).2.1).1 = true.
Proof. vm_compute. split; reflexivity. Qed.
