(* ===== verification/Handshake.v ===== *)
(** The handshakes of the consensus connections
    ([internal/replicated/authenticator.go]) and what a node is checked for when
    its replication starts ([NewReplication] of [internal/runtime/replication.go]).

    Parameters: the signature check of gantry-core's replication, SHA-256, and
    the interface of [Gantry], whose digest of a secret is what pairing stores.
    A Raft server id and address are texts. *)
From S2P Require Import Prelude GoStr TimeText Base64 SqlM FleetDb Claims Sites Gantry Cluster Pairing Transport ClusterLife Credentials.
Open Scope string_scope.
Open Scope Z_scope.
Open Scope wf_scope.
Open Scope sql_scope.

(** ** Definitions *)

Definition replicationCapability : string := "replication".

(** [replication.AuthRequest], as far as it is read here. *)
Record AuthRequest := mk_auth_request {
  ar_node : string; ar_server : string; ar_addr : string; ar_protocol : Z; ar_secret : string; ar_nonce : string; ar_signature : string }.
(** [Authenticator], but for its database. *)
Record Authenticator := mk_authenticator { au_protocol : Z; au_local : string; au_caps_ : list string }.
Inductive membership_state := MembershipActive | MembershipDisabled | MembershipRevoked.
Record MembershipStatus := mk_status { ms_state : membership_state; ms_protocol : Z; ms_enabled : bool }.

(** [NewAuthenticator]: without an identity row the fields stay empty. *)
Definition NewAuthenticator (protocol : Z) : M node Authenticator :=
  let* r := ignore None (query (fun n => List.head n.(identities))) in
  ret (match r with
       | Some i => mk_authenticator protocol i.(id_node) i.(id_caps)
       | None => mk_authenticator protocol "" []
       end).

(** [equal], in constant time: the differences of all bytes or-ed together. *)
Fixpoint differences (a b : string) : Z :=
  match a, b with
  | String x a, String y b => Z.lor (Z.lxor (Z.of_nat (nat_of_ascii x)) (Z.of_nat (nat_of_ascii y))) (differences a b)
  | _, _ => 0
  end.
Definition equal (a b : string) : bool := if negb (len a =? len b) then false else differences a b =? 0.

Definition hasCap (caps : list string) : bool := Smem replicationCapability caps.

Definition member (id : string) : M node member_row :=
  let* r := query (member_by id) in
  match r with Some m => ret m | None => throw "sql: no rows in result set" end.
Definition OutboundCredential (peer : string) : M node string :=
  let* m := member peer in ret m.(mb_outbound).

Definition consume (id nonce : string) (now : Z) : M node unit :=
  if nonce =?s "" then throw "replication nonce required"
  else or_fail (exec_opt (insert_nonce id ("repl-handshake:" ++ nonce) now)) "replication replay rejected".

Section Handshake.
Context {GC : GantryCore}.
Variable sha256 : string -> string.
Variable VerifyHandshakeSignature : string -> AuthRequest -> bool.

(** The checks that [Authenticate] and [VerifyPeer] share, once the identities
    have been compared. *)
Definition admitted (a : Authenticator) (id : string) (r : AuthRequest) (now : Z) : M node unit :=
  if negb (r.(ar_protocol) =? a.(au_protocol)) then throw "incompatible replication protocol" else
  let* m := or_fail (member id) "replication member unavailable" in
  if negb (m.(mb_state) =?s "active") || negb (hasCap m.(mb_caps)) then throw "replication member unavailable" else
  if negb (equal (sha256 r.(ar_secret)) m.(mb_inbound)) || negb (VerifyHandshakeSignature r.(ar_secret) r)
  then throw "replication credential rejected"
  else consume id r.(ar_nonce) now.

Definition Authenticate_ (a : Authenticator) (r : AuthRequest) (now : Z) : M node string :=
  if negb (r.(ar_node) =?s r.(ar_server)) then throw "raft identity mismatch" else
  admitted a r.(ar_node) r now ;;; ret r.(ar_addr).

Definition VerifyPeer (a : Authenticator) (expected : string) (r : AuthRequest) (now : Z) : M node unit :=
  if negb (r.(ar_node) =?s expected) || negb (r.(ar_server) =?s expected) then throw "peer identity mismatch"
  else admitted a expected r now.

Definition Membership (a : Authenticator) (id : string) : M node MembershipStatus :=
  if id =?s a.(au_local) then ret (mk_status MembershipActive a.(au_protocol) (hasCap a.(au_caps_))) else
  let* m := member id in
  ret (mk_status (if m.(mb_state) =?s "revoked" then MembershipRevoked
                  else if m.(mb_state) =?s "disabled" then MembershipDisabled else MembershipActive)
         a.(au_protocol) (hasCap m.(mb_caps))).

(** [CapabilitiesOf]: whether the node is known; what it can do is fixed. *)
Definition CapabilitiesOf (a : Authenticator) (id : string) : M node bool :=
  if id =?s a.(au_local) then ret true
  else let* r := attempt (member id) in ret (match r with Ok _ => true | Err _ => false end).

(** What [NewReplication] asks of the tables: every site and group is
    clustered, and an id for the node. *)
Definition start_checks (nodeID : string) : M node string :=
  let* legacy := query (fun n => count (fun s => match s.(s_cluster) with None => true | Some _ => false end) n.(fleet).(sites)
                              + count (fun g => match g.(g_cluster) with None => true | Some _ => false end) n.(fleet).(groups)) in
  if negb (legacy =? 0)
  then throw ("Webfleet clustering requires a clean fleet configuration; found " ++ format_int legacy ++ " pre-cluster site/group rows")
  else if nodeID =?s "" then
    let* r := query (fun n => List.head n.(identities)) in
    match r with Some i => ret i.(id_node) | None => throw "sql: no rows in result set" end
  else ret nodeID.
End Handshake.

(** ** Lemmas *)

Lemma differences_nonneg a b : 0 <= differences a b.
Proof.
  revert b. induction a as [|x a IH]; intros [|y b]; cbn; try lia.
  apply Z.lor_nonneg. split; [apply Z.lxor_nonneg; lia|apply IH].
Qed.

Lemma equal_spec a b : equal a b = true <-> a = b.
Proof.
  unfold equal, len. destruct (Z.eqb_spec (Z.of_nat (String.length a)) (Z.of_nat (String.length b))) as [E|E]; cbn [negb].
  2: { split; [done|]. intros ->. done. }
  rewrite Z.eqb_eq. revert b E. induction a as [|x a IH]; intros [|y b] E; cbn in *; try done; try lia.
  rewrite Z.lor_eq_0_iff, Z.lxor_eq_0_iff, IH by lia. split.
  - intros [H ->]. f_equal. apply Nat2Z.inj in H. by rewrite <- (ascii_nat_embedding x), H, ascii_nat_embedding.
  - by intros [= -> ->].
Qed.

Lemma count_zero {A} (p : A -> bool) l : count p l = 0 <-> forall x, In x l -> p x = false.
Proof.
  unfold count. rewrite <- (existsb_none_iff p l). induction l as [|x l IH]; [done|]. cbn. destruct (p x); cbn; [split; [lia|done]|exact IH].
Qed.

Definition hs_nonce (nonce : string) : string := "repl-handshake:" ++ nonce.

Section HandshakeLemmas.
Context {GC : GantryCore} (sha256 : string -> string) (sign : string -> AuthRequest -> bool).

(** Whom a handshake lets in: an active member with the capability, who presents
    the credential that is current for it, in a request signed with it and
    under a nonce that is not stored. *)
Definition entitled (a : Authenticator) (id : string) (r : AuthRequest) (n : node) : Prop :=
  exists m, r.(ar_protocol) = a.(au_protocol) /\ member_by id n = Some m /\ m.(mb_state) = "active"
    /\ In replicationCapability m.(mb_caps) /\ sha256 r.(ar_secret) = m.(mb_inbound) /\ sign r.(ar_secret) r = true
    /\ r.(ar_nonce) <> "" /\ forall seen, ~ In (mk_nonce id (hs_nonce r.(ar_nonce)) seen) n.(nonces).
Definition with_nonce (id nonce : string) (now : Z) (n : node) : node := set_nonces (n.(nonces) ++ [mk_nonce id nonce now])%list n.

Lemma insert_nonce_iff id nonce now n n' m : member_by id n = Some m ->
  insert_nonce id nonce now n = Some n' <-> (forall seen, ~ In (mk_nonce id nonce seen) n.(nonces)) /\ n' = with_nonce id nonce now n.
Proof using.
  intros Hm. unfold insert_nonce. pose proof (find_first_Some _ _ _ Hm) as [Hin Hp].
  assert (existsb (fun m => m.(mb_node) =?s id) n.(Cluster.members) = true) as -> by (apply existsb_exists; eauto).
  rewrite orb_false_r. destruct (existsb _ n.(nonces)) eqn:E.
  - split; [done|]. intros [H _]. apply existsb_exists in E as ([x y z] & Hc & E). bool_to_prop. cbn in *. subst. by destruct (H z).
  - split; [|by intros [_ ->]]. intros [= <-]. split; [|done]. intros seen Hc.
    pose proof (proj1 (existsb_none_iff _ _) E _ Hc) as G. cbn in G. by rewrite !String.eqb_refl in G.
Qed.

Lemma member_readonly id : readonly (member id).
Proof using. unfold member. solve_readonly. Qed.

Lemma admitted_ok a id r now n fl n' fl' : admitted sha256 sign a id r now (n, fl) = (Ok tt, (n', fl')) ->
  entitled a id r n /\ n' = with_nonce id (hs_nonce r.(ar_nonce)) now n.
Proof using.
  unfold admitted, member, consume. intros H.
  destruct (Z.eqb_spec (ar_protocol r) (au_protocol a)) as [Ep|Ep]; cbn [negb] in H; [|done]. sql_inv.
  match goal with H : member_by id ?x = Some ?y |- _ => rename y into m, H into Em, x into nn end.
  bool_to_prop. apply (insert_nonce_iff _ _ _ _ _ m Em) in H as [H ->]. split; [|done].
  exists m. split_and!; try done. 
  - by apply Smem_In.
  - by apply equal_spec.
Qed.

Lemma atomic_bind {S A B} (m : M S A) (k : A -> M S B) : readonly m -> (forall x, atomic (k x)) -> atomic (bind m k).
Proof using.
  intros Hm Hk s fl e s' fl' H. unfold bind in H. destruct (m (s, fl)) as [[x|e1] [s1 fl1]] eqn:E; apply Hm in E as ->; [by eapply Hk|].
  by injection H as _ <- _.
Qed.
Lemma atomic_throw {S A} e : atomic (throw (S:=S) (A:=A) e).
Proof using. by intros s fl e' s' fl' [= _ <- _]. Qed.
Lemma atomic_or_fail {S A} (m : M S A) msg : atomic m -> atomic (or_fail m msg).
Proof using.
  intros H s fl e s' fl' E. unfold or_fail in E. destruct (m (s, fl)) as [[x|e1] [s1 fl1]] eqn:E1; [done|].
  injection E as _ <- _. by eapply H.
Qed.

Lemma admitted_atomic a id r now : atomic (admitted sha256 sign a id r now).
Proof using.
  unfold admitted. destruct (negb _); [apply atomic_throw|]. apply atomic_bind; [apply readonly_or_fail, member_readonly|]. intros m.
  destruct (_ || _); [apply atomic_throw|]. destruct (_ || _); [apply atomic_throw|]. unfold consume.
  destruct (_ =?s ""); [apply atomic_throw|]. apply atomic_or_fail. unfold exec_opt. apply atomic_stmt.
Qed.

Lemma admitted_free a id r now n : entitled a id r n ->
  admitted sha256 sign a id r now (n, []) = (Ok tt, (with_nonce id (hs_nonce r.(ar_nonce)) now n, [])).
Proof using.
  intros (m & Hp & Hm & Hs & Hc & Hi & Hv & Hn & Hf). unfold admitted, member, consume, or_fail. rewrite (proj2 (Z.eqb_eq _ _) Hp).
  cbn [negb]. unfold bind. rewrite query_nil, Hm. cbn [ret]. rewrite Hs. unfold hasCap. rewrite (proj2 (Smem_In _ _) Hc).
  rewrite (proj2 (equal_spec _ _) Hi), Hv. cbn. rewrite (proj2 (String.eqb_neq _ _) Hn). unfold exec_opt. rewrite stmt_nil.
  by rewrite (proj2 (insert_nonce_iff _ _ _ _ _ m Hm) (conj Hf eq_refl)).
Qed.

(** A handshake lets in exactly whom it may.  [Authenticate], for any statements
    that are refused, answers with the address of a peer only if the peer names
    itself consistently, speaks the protocol, is an active member with the
    replication capability, signs with the credential that is current for it and
    uses a new nonce, and then it stores that nonce and nothing else; otherwise
    it changes nothing.  When nothing is refused those conditions are enough. *)
Theorem handshake_is_checked a r now n fl :
  let '(x, (n', _)) := Authenticate_ sha256 sign a r now (n, fl) in
  match x with
  | Ok addr => addr = r.(ar_addr) /\ r.(ar_node) = r.(ar_server) /\ entitled a r.(ar_node) r n
               /\ n' = with_nonce r.(ar_node) (hs_nonce r.(ar_nonce)) now n
  | Err _ => n' = n /\ (fl = [] -> ~ (r.(ar_node) = r.(ar_server) /\ entitled a r.(ar_node) r n))
  end.
Proof using.
  unfold Authenticate_. destruct (String.eqb_spec (ar_node r) (ar_server r)) as [Es|Es]; cbn [negb].
  2: { split; [done|]. by intros _ [? _]. }
  unfold bind. destruct (admitted sha256 sign a (ar_node r) r now (n, fl)) as [[[]|e] [n' fl']] eqn:E.
  - apply admitted_ok in E as [He ->]. done.
  - split; [by apply admitted_atomic in E|]. intros -> [_ He]. rewrite (admitted_free a _ r now n He) in E. done.
Qed.

(** A handshake on either side. *)
Inductive hs_step (t : Z) (n n' : node) : Prop :=
| HsIn a r now fl : now <= t -> n' = (Authenticate_ sha256 sign a r now (n, fl)).2.1 -> hs_step t n n'
| HsOut a x r now fl : now <= t -> n' = (VerifyPeer sha256 sign a x r now (n, fl)).2.1 -> hs_step t n n'.

Lemma admitted_keeps a id r now n fl c : In c n.(nonces) -> In c (admitted sha256 sign a id r now (n, fl)).2.1.(nonces).
Proof using.
  intros H. destruct (admitted sha256 sign a id r now (n, fl)) as [[[]|e] [n' fl']] eqn:E; cbn.
  - apply admitted_ok in E as [_ ->]. apply in_or_app. by left.
  - by apply admitted_atomic in E as ->.
Qed.

Lemma hs_step_keeps t n n' c : hs_step t n n' -> In c n.(nonces) -> In c n'.(nonces).
Proof using.
  intros [a r now fl _ ->|a x r now fl _ ->] H.
  - unfold Authenticate_. destruct (negb _); [done|]. unfold bind. pose proof (admitted_keeps a (ar_node r) r now n fl c H) as K.
    by destruct (admitted _ _ _ _ _ _ _) as [[[]|e] [n' fl']].
  - unfold VerifyPeer. destruct (_ || _); [done|]. by apply admitted_keeps.
Qed.
End HandshakeLemmas.

Section HandshakeReplay.
Context {GC : GantryCore} {EV : Envelopes} (sha256 : string -> string) (sign : string -> AuthRequest -> bool).
Context (parse : string -> option url) (GenerateIdentity : string -> Z -> result (identity * string)) (insecure : bool).

(** A captured handshake is good once, for a while.  After a handshake has been
    let in, its replay is refused by [Authenticate] and [VerifyPeer] alike,
    whatever signed requests and handshakes happen in between and whatever they
    change, as long as the member is not removed and no signed request has
    arrived twice the clock skew after it, for that request may purge the nonce. *)
Theorem handshake_accepted_once a r t1 n fl addr n1 fl1 n2 t2 :
  Authenticate_ sha256 sign a r t1 (n, fl) = (Ok addr, (n1, fl1)) ->
  t2 <= t1 + 2 * ClockSkew - second ->
  star (fun x y => calm_step parse GenerateIdentity insecure r.(ar_node) t2 x y \/ hs_step sha256 sign t2 x y) n1 n2 ->
  forall a' now fl', is_ok (Authenticate_ sha256 sign a' r now (n2, fl')).1 = false
    /\ is_ok (VerifyPeer sha256 sign a' r.(ar_node) r now (n2, fl')).1 = false.
Proof using EV.
  intros H Ht Hs a' now fl'.
  pose proof (handshake_is_checked sha256 sign a r t1 n fl) as Hc. rewrite H in Hc. destruct Hc as (_ & _ & _ & ->).
  set (c := mk_nonce (ar_node r) (hs_nonce (ar_nonce r)) t1).
  assert (forall t, t <= t2 -> text_ltb c.(nc_seen) (t - 2 * ClockSkew) = false) as Hp.
  { intros t Hle. destruct (text_ltb _ _) eqn:E; [|done]. apply text_ltb_skew in E. cbn in E. lia. }
  assert (In c n2.(nonces)) as Hin.
  { clear H. refine (star_invariant _ (fun n => In c n.(nonces)) _ n2 _ _ Hs).
    - intros x y Hx [(o & fo & Ho & ->)|Hh]; [by apply (run_op_remembers parse GenerateIdentity insecure c t2 Hp o Ho)|by eapply hs_step_keeps].
    - apply in_or_app. right. by left. }
  assert (forall id, id = ar_node r -> is_ok (admitted sha256 sign a' id r now (n2, fl')).1 = false) as K.
  { intros id ->. destruct (admitted sha256 sign a' (ar_node r) r now (n2, fl')) as [[[]|e] w] eqn:E; [exfalso|done].
    destruct w as [n3 fl3]. apply admitted_ok in E as [(m & _ & _ & _ & _ & _ & _ & _ & Hf) _]. by apply (Hf t1). }
  split.
  - unfold Authenticate_. destruct (negb _); [done|]. unfold bind. specialize (K _ eq_refl).
    by destruct (admitted sha256 sign a' (ar_node r) r now (n2, fl')) as [[[]|e] w].
  - unfold VerifyPeer. destruct (_ || _); [done|]. by apply K.
Qed.
End HandshakeReplay.

Section Rotated.
Context {GC : GantryCore} (sha256 : string -> string) (sign : string -> AuthRequest -> bool).

(** A rotation breaks handshakes until a signed request follows it.  Right after
    a node has accepted the digest of a new credential from a member, and so
    while the member already sends that credential, it refuses every handshake
    with it: handshakes look at the current credential only, and it becomes
    current only with the next signed request. *)
Theorem rotation_breaks_handshakes a r now n fl n1 fl1 h e :
  RotateInbound r.(ar_node) h e (n, fl) = (Ok tt, (n1, fl1)) -> sha256 r.(ar_secret) = h ->
  (forall m, member_by r.(ar_node) n = Some m -> m.(mb_inbound) <> h) ->
  forall fl', is_ok (Authenticate_ sha256 sign a r now (n1, fl')).1 = false
    /\ is_ok (VerifyPeer sha256 sign a r.(ar_node) r now (n1, fl')).1 = false.
Proof using.
  intros H Hh Hm fl'.
  assert (is_ok (admitted sha256 sign a (ar_node r) r now (n1, fl')).1 = false) as K.
  { destruct (admitted sha256 sign a (ar_node r) r now (n1, fl')) as [[[]|e'] [n2 fl2]] eqn:E; [exfalso|done].
    apply admitted_ok in E as [(m & _ & Em & _ & _ & Hs & _) _]. unfold RotateInbound in H. sql_inv.
    unfold one_row in H. destruct (_ =? 1) in H; [|done]. injection H as -> _.
    match goal with H : update_members _ _ _ = Some _ |- _ => unfold update_members in H; injection H as _ <- end.
    unfold member_by in Em. cbn [Cluster.members set_members] in Em. rewrite find_first_upd in Em by done.
    unfold member_by in Hm. destruct (find_first _ (Cluster.members n)) as [m0|]; [|done]. specialize (Hm m0 eq_refl).
    injection Em as <-. destruct (_ && _) in Hs; cbn in Hs; congruence. }
  split.
  - unfold Authenticate_. destruct (negb _); [done|]. unfold bind. by destruct (admitted _ _ _ _ _ _ _) as [[[]|e'] w].
  - unfold VerifyPeer. by destruct (_ || _).
Qed.
End Rotated.

(** A node that passes the checks of its start has only clustered rows, as the
    state machine of [ReplicatedView] supposes. *)
Theorem start_checks_clean nodeID n fl id n' fl' : start_checks nodeID (n, fl) = (Ok id, (n', fl')) ->
  n' = n /\ (forall s, In s n.(fleet).(sites) -> s.(s_cluster) <> None) /\ (forall g, In g n.(fleet).(groups) -> g.(g_cluster) <> None).
Proof.
  intros H. unfold start_checks in H. sql_inv. unfold negb in *.
  match goal with H : context [count ?p _ + count ?q _] |- _ => rename H into Hz end.
  destruct (Z.eqb_spec (count (fun s => match s.(s_cluster) with None => true | Some _ => false end) (sites (fleet n))
    + count (fun g => match g.(g_cluster) with None => true | Some _ => false end) (groups (fleet n))) 0) as [E|E]; [|done].
  pose proof (count_nonneg (fun s => match s.(s_cluster) with None => true | Some _ => false end) (sites (fleet n))).
  pose proof (count_nonneg (fun g => match g.(g_cluster) with None => true | Some _ => false end) (groups (fleet n))).
  split; [by destruct (nodeID =?s ""); [sql_inv; destruct (head _); sql_inv|sql_inv]|].
  split; intros x Hx Hn.
  - pose proof (proj1 (count_zero _ _) (ltac:(lia) : count (fun s => match s.(s_cluster) with None => true | Some _ => false end) (sites (fleet n)) = 0) x Hx) as K.
    cbn in K. by rewrite Hn in K.
  - pose proof (proj1 (count_zero _ _) (ltac:(lia) : count (fun g => match g.(g_cluster) with None => true | Some _ => false end) (groups (fleet n)) = 0) x Hx) as K.
    cbn in K. by rewrite Hn in K.
Qed.

(** ** Witnesses *)

Import Gantry.Toy.

Definition demo_auth_host : Authenticator := mk_authenticator 1 "host" ["replication"].
Definition demo_hello (secret nonce : string) : AuthRequest := mk_auth_request "joiner" "joiner" "10.0.0.2:7000" 1 secret nonce "".
Definition demo_shake (secret nonce : string) (now : Z) (n : node) :=
  Authenticate_ pad (fun _ _ => true) demo_auth_host (demo_hello secret nonce) now (n, []).

Lemma demo_shaken : demo_shake "from-host" "x" 1 demo_h4 = (Ok "10.0.0.2:7000", ((demo_shake "from-host" "x" 1 demo_h4).2.1, [])).
Proof. vm_compute. reflexivity. Qed.

Lemma handshake_accepted_once_witness :
  is_ok (demo_shake "from-host" "x" 1 demo_h4).1 = true
  /\ is_ok (demo_shake "from-host" "x" minute (demo_shake "from-host" "x" 1 demo_h4).2.1).1 = false.
Proof.
  split; [vm_compute; reflexivity|].
  refine (proj1 (handshake_accepted_once pad (fun _ _ => true) demo_parse (demo_gen "host") false demo_auth_host (demo_hello "from-host" "x")
    1 demo_h4 [] _ _ [] _ minute demo_shaken _ (star_refl _ _) demo_auth_host minute [])).
  vm_compute. discriminate.
Defined.

Definition demo_rotated : node := (RotateInbound "joiner" (pad "second") hour (demo_h4, [])).2.1.
Lemma demo_rotated_eq : RotateInbound "joiner" (pad "second") hour (demo_h4, []) = (Ok tt, (demo_rotated, [])).
Proof. vm_compute. reflexivity. Qed.

Lemma rotation_breaks_handshakes_witness :
  is_ok (demo_shake "from-host" "x" 1 demo_h4).1 = true /\ is_ok (demo_shake "second" "y" 2 demo_rotated).1 = false.
Proof.
  split; [vm_compute; reflexivity|].
  refine (proj1 (rotation_breaks_handshakes pad (fun _ _ => true) demo_auth_host (demo_hello "second" "y") 2 demo_h4 [] demo_rotated []
    (pad "second") hour demo_rotated_eq eq_refl _ [])).
  intros m Hm. vm_compute in Hm. injection Hm as <-. vm_compute. discriminate.
Defined.

(** The same on a pair: after [Rotate] the joiner presents the new credential and
    is refused; once it has sent a signed request it is let in. *)
Example handshakes_after_rotation :
  (run (OutboundCredential "host") demo_once.1).1 = Ok "second"
  /\ is_ok (demo_shake "second" "y" (2 * minute) demo_once.2).1 = false
  /\ let later := (demo_ask "GET" summary_path "cluster.webfleet.summary" "" ("n3", "r3") ("n4", "r4") (3 * minute) 0 [] [] demo_once).2 in
     is_ok (demo_shake "second" "z" (4 * minute) later.2).1 = true.
Proof. vm_compute. split_and!; reflexivity. Qed.

(** And a replay is let in again once a signed request has purged its nonce. *)
Example handshake_replayed_later :
  let once := (demo_shake "from-host" "x" 1 demo_h4).2.1 in
  let purged := (Authenticate (signed "joiner" "GET" summary_path "cluster.webfleet.summary" "from-host" "" ("n1", "r1") hour)
    "cluster.webfleet.summary" hour (once, [])).2.1 in
  is_ok (demo_shake "from-host" "x" minute once).1 = false /\ is_ok (demo_shake "from-host" "x" hour purged).1 = true.
Proof. vm_compute. split; reflexivity. Qed.
