(* ===== verification/Propagation.v ===== *)
(** Propagation of definitions between nodes ([internal/propagation]): the
    export of the sites and monitors of a node as a bundle of envelopes, their
    application on another node, the rollback of one of them, the policy of the
    kinds, and the stored profiles and history.

    Parameters: the validation of envelopes by gantry-core, which may also fill
    in their digest, and the JSON codecs of the two payloads and of the two
    lists of a profile.  [time.Now] is an argument. *)
From S2P Require Import Prelude GoStr TimeText SqlM FleetDb Sites.
Open Scope string_scope.
Open Scope Z_scope.
Open Scope wf_scope.
Open Scope sql_scope.

(** ** Definitions *)

Record Actor := mk_actor { ac_kind : string; ac_id : string; ac_permission : string }.

(** [core.Envelope], [core.AppliedRevision] and [core.ObjectState], as far as
    the adapter sets or reads them. *)
Record Envelope := mk_env {
  en_kind : string; en_id : string; en_schema : Z; en_revision : Z; en_source : string;
  en_created : Z; en_target : string; en_conflict : string; en_actor : Actor; en_payload : string;
  en_deps : list string; en_digest : string }.
Record AppliedRevision := mk_applied {
  ap_kind : string; ap_id : string; ap_before : Z; ap_after : Z; ap_reversible : bool }.
Record ObjectState := mk_object {
  ob_kind : string; ob_oid : string; ob_digest : string; ob_revision : Z; ob_payload : string; ob_reversible : bool }.
Record TargetState := mk_target_state {
  ts_existing : gmap string ObjectState; ts_schemas : list (string * Z);
  ts_deps : gset string; ts_permissions : gset string }.

(** *** Policies *)

Record KindPolicy := mk_kind_policy {
  kp_kind : string; kp_reversible : bool; kp_mergeable : bool; kp_permission : string }.
Definition Policy (kind : string) : option KindPolicy :=
  if kind =?s "request-definition" then Some (mk_kind_policy "request-definition" true false "sites.update")
  else if kind =?s "monitor-definition" then Some (mk_kind_policy "monitor-definition" true false "monitors.update")
  else None.
Definition Kinds : list string := ["monitor-definition"; "request-definition"].

Record requestPayload := mk_request_payload {
  rp_org : Z; rp_name : string; rp_url : string; rp_enabled : bool; rp_group : string }.
Record monitorPayload := mk_monitor_payload {
  mp_site : Z; mp_kind : string; mp_timeout : Z; mp_min : Z; mp_max : Z }.

Definition want (kinds : list string) (k : string) : bool :=
  match kinds with [] => true | _ => Smem k kinds end.
(** [rev] of the stored text of an instant; [None] is text that is no instant. *)
Definition rev (t : option Z) : Z :=
  match t with
  | Some t => if wrap64 t <? 1 then 1 else wrap64 t
  | None => 1
  end.
Definition max1 (v : Z) : Z := if v <? 1 then 1 else v.

(** *** Statements *)

Definition COALESCE_group (d : db) (g : option Z) : string :=
  match g with
  | Some g => match group_by_id g d with Some r => r.(g_name) | None => "" end
  | None => ""
  end.
Definition request_of (d : db) (s : site_row) : requestPayload :=
  mk_request_payload s.(s_org) s.(s_name) s.(s_url) s.(s_enabled) (COALESCE_group d s.(s_group)).
Definition monitor_of (m : monitor_row) : monitorPayload :=
  mk_monitor_payload m.(m_site) m.(m_kind) m.(m_timeout) m.(m_min) m.(m_max).

(** A row with an explicit id takes its place in the table. *)
Fixpoint place {A} (key : A -> Z) (x : A) (l : list A) : list A :=
  match l with
  | [] => [x]
  | y :: l' => if key y <? key x then y :: place key x l' else x :: l
  end.

(** [INSERT INTO sites(id,...) ... ON CONFLICT(id) DO UPDATE SET ...]. *)
Definition upsert_site (id : Z) (p : requestPayload) (grp : option Z) (now : Z) (d : db) : option db :=
  if org_exists p.(rp_org) d && group_ref_ok grp d then
    Some (set_sites
      (if site_exists id d then
         upd (fun s => s.(s_id) =? id)
           (fun s => mk_site id p.(rp_org) p.(rp_name) p.(rp_url) p.(rp_enabled) grp s.(s_archived) s.(s_created) now s.(s_cluster))
           d.(sites)
       else place s_id (mk_site id p.(rp_org) p.(rp_name) p.(rp_url) p.(rp_enabled) grp None now now None) d.(sites)) d)
  else None.

Definition monitor_exists (id : Z) (d : db) : bool := existsb (fun m => m.(m_id) =? id) d.(monitors).
Definition upsert_monitor (id : Z) (p : monitorPayload) (now : Z) (d : db) : option db :=
  if site_exists p.(mp_site) d
     && negb (existsb (fun m => negb (m.(m_id) =? id) && (m.(m_site) =? p.(mp_site)) && (m.(m_kind) =?s p.(mp_kind))) d.(monitors))
  then Some (set_monitors
    (if monitor_exists id d then
       upd (fun m => m.(m_id) =? id)
         (fun m => mk_monitor id p.(mp_site) p.(mp_kind) p.(mp_timeout) p.(mp_min) p.(mp_max) m.(m_created)) d.(monitors)
     else place m_id (mk_monitor id p.(mp_site) p.(mp_kind) p.(mp_timeout) p.(mp_min) p.(mp_max) now) d.(monitors)) d)
  else None.

(** *** The adapter *)

Definition bundle_less (a b : Envelope) : bool :=
  if a.(en_kind) =?s b.(en_kind) then String.ltb a.(en_id) b.(en_id) else String.ltb b.(en_kind) a.(en_kind).

Section Adapter.
Variable Validate : Envelope -> result Envelope.
Variable encode_request : requestPayload -> string.
Variable decode_request : string -> result requestPayload.
Variable encode_monitor : monitorPayload -> string.
Variable decode_monitor : string -> result monitorPayload.
(** [Adapter.replicated]. *)
Variable replicated : bool.

Definition ValidateEnvelope (e : Envelope) : result unit :=
  match Policy e.(en_kind) with
  | None => Err "webfleet propagation kind is not supported"
  | Some p =>
      if negb (e.(en_actor).(ac_permission) =?s "") && negb (e.(en_actor).(ac_permission) =?s p.(kp_permission))
      then Err "permission does not match"
      else match Validate e with Ok _ => Ok tt | Err m => Err m end
  end.

Definition mk (kind id : string) (revision : Z) (target : string) (actor : Actor) (payload : string)
    (deps : list string) (now : Z) : result Envelope :=
  Validate (mk_env kind id 1 (max1 revision) "webfleet-local" now target "source-wins" actor payload deps "").

(** The loops over the rows: the first error ends the export. *)
Fixpoint collect {A B} (f : A -> result B) (l : list A) : result (list B) :=
  match l with
  | [] => Ok []
  | x :: l' => match f x with
               | Err e => Err e
               | Ok y => match collect f l' with Err e => Err e | Ok ys => Ok (y :: ys) end
               end
  end.

Definition request_envelope (d : db) (actor : Actor) (target : string) (now : Z) (s : site_row) : result Envelope :=
  mk "request-definition" (format_int s.(s_id)) (rev (Some s.(s_updated))) target
     (mk_actor actor.(ac_kind) actor.(ac_id) "sites.update") (encode_request (request_of d s)) [] now.
Definition monitor_envelope (actor : Actor) (target : string) (now : Z) (m : monitor_row) : result Envelope :=
  mk "monitor-definition" (format_int m.(m_id)) (rev (Some m.(m_created))) target
     (mk_actor actor.(ac_kind) actor.(ac_id) "monitors.update") (encode_monitor (monitor_of m))
     ["site:" ++ format_int m.(m_site)] now.

Definition Export (kinds : list string) (actor : Actor) (target : string) (now : Z) : M db (list Envelope) :=
  let* reqs := (if want kinds "request-definition" then
    let* d := query (fun d => d) in
    lift (collect (request_envelope d actor target now) (List.filter unarchived d.(sites))) else ret []) in
  let* mons := (if want kinds "monitor-definition" then
    let* ms := query monitors in lift (collect (monitor_envelope actor target now) ms) else ret []) in
  ret (sort_less bundle_less (reqs ++ mons)).

Definition object_key (e : Envelope) : string := e.(en_kind) ++ "/" ++ e.(en_id).
Definition object_of (e : Envelope) : ObjectState :=
  mk_object e.(en_kind) e.(en_id) e.(en_digest) e.(en_revision) e.(en_payload) true.
Definition Snapshot (kinds : list string) (now : Z) : M db (gmap string ObjectState) :=
  let* envs := Export kinds (mk_actor "" "" "") "local" now in
  ret (List.fold_left (fun out e => <[object_key e := object_of e]> out) envs ∅).

Definition is_request (kind : string) : bool := kind =?s "request-definition".
Definition TargetState_ (src : list Envelope) (now : Z) : M db TargetState :=
  let* snap := Snapshot [] now in
  let held : list string := List.map (fun o => "site:" ++ o.(ob_oid))
    (List.filter (fun o => is_request o.(ob_kind)) (List.map snd (map_to_list snap))) in
  let brought := List.map (fun e => "site:" ++ e.(en_id)) (List.filter (fun e => is_request e.(en_kind)) src) in
  let perms := List.filter (fun p => negb (p =?s "")) (List.map (fun e => e.(en_actor).(ac_permission)) src) in
  ret (mk_target_state snap [("request-definition", 1); ("monitor-definition", 1)]
         (list_to_set (held ++ brought)) (list_to_set perms)).

(** The group a site belongs to, made when it is missing. *)
Definition resolve_group (org : Z) (name : string) (now : Z) : M db (option Z) :=
  if name =?s "" then ret None else
  let* g := query (group_by_name org name) in
  match g with
  | Some g => ret (Some g.(g_id))
  | None =>
      stmt (insert_group org name now None) ;;;
      let* g := query (group_by_name org name) in
      match g with Some g => ret (Some g.(g_id)) | None => throw "sql: no rows in result set" end
  end.

Definition apply_request (e : Envelope) (id now : Z) : M db AppliedRevision :=
  let* p := lift (decode_request e.(en_payload)) in
  let* grp := resolve_group p.(rp_org) p.(rp_group) now in
  let* before := ignore None (query (fun d => s_updated <$> site_by_id id d)) in
  exec_opt (upsert_site id p grp now) ;;;
  ret (mk_applied e.(en_kind) e.(en_id) (rev before) e.(en_revision) true).

Definition apply_monitor (e : Envelope) (id now : Z) : M db AppliedRevision :=
  let* p := lift (decode_monitor e.(en_payload)) in
  let* exists_ := ignore 0 (query (fun d => count (fun m => m.(m_id) =? id) d.(monitors))) in
  exec_opt (upsert_monitor id p now) ;;;
  ret (mk_applied e.(en_kind) e.(en_id) exists_ e.(en_revision) true).

Definition Apply (e : Envelope) (now : Z) : M db AppliedRevision :=
  lift (ValidateEnvelope e) ;;;
  if replicated && is_request e.(en_kind)
  then throw "site/request propagation is disabled while Raft replication owns fleet topology" else
  match parse_int e.(en_id) with
  | None => throw "invalid numeric id"
  | Some id =>
      if is_request e.(en_kind) then apply_request e id now
      else if e.(en_kind) =?s "monitor-definition" then apply_monitor e id now
      else throw "unsupported kind"
  end.

Definition rollback_envelope (s : ObjectState) : Envelope :=
  mk_env s.(ob_kind) s.(ob_oid) 1 (max1 s.(ob_revision)) "rollback" 0 "local" "source-wins"
    (mk_actor "" "" (if is_request s.(ob_kind) then "sites.update" else "monitors.update")) s.(ob_payload) [] "".

Definition Restore (s : ObjectState) (now : Z) : M db unit :=
  match parse_int s.(ob_oid) with
  | None => throw "invalid syntax"
  | Some id =>
      let again := Apply (rollback_envelope s) now ;;; ret tt in
      if (s.(ob_revision) =? 0) && (s.(ob_payload) =?s "") then
        if s.(ob_kind) =?s "monitor-definition" then exec (delete_monitors (fun m => m.(m_id) =? id))
        else if is_request s.(ob_kind) then exec (delete_sites (fun x => x.(s_id) =? id))
        else again
      else again
  end.

(** A bundle applied in its order, up to the first error. *)
Definition apply_all (bundle : list Envelope) (now : Z) : M db unit :=
  for_each bundle (fun e => Apply e now ;;; ret tt).
End Adapter.

(** *** The state store *)

Record Profile := mk_profile {
  pf_id : string; pf_name : string; pf_selector : string; pf_kinds : list string; pf_mode : string;
  pf_schedule : string; pf_window : string; pf_enabled : bool; pf_last_run : option Z }.
Record profile_row := mk_profile_row {
  pr_id : string; pr_name : string; pr_selector : string; pr_kinds : string; pr_mode : string;
  pr_schedule : string; pr_window : string; pr_enabled : bool; pr_last_run : option Z; pr_created : Z; pr_updated : Z }.
Record HistoryRecord := mk_history {
  hr_id : string; hr_plan : string; hr_actor : string; hr_target : string; hr_status : string;
  hr_applied : Z; hr_failed : Z; hr_rolled : Z; hr_detail : string; hr_created : Z }.
Record pstore := mk_pstore { profiles : list profile_row; history : list HistoryRecord }.

Section StateStore.
(** [json.Marshal] and [json.Unmarshal] of a selector and of the kinds; a
    selector is its canonical text here. *)
Variable encode_selector : string -> result string.
Variable decode_selector : string -> result string.
Variable encode_kinds : list string -> result string.
Variable decode_kinds : string -> result (list string).

Definition SaveProfile (p : Profile) (now : Z) : M pstore unit :=
  let* sel := lift (encode_selector p.(pf_selector)) in
  let* ks := lift (encode_kinds p.(pf_kinds)) in
  exec (fun s =>
    let row created := mk_profile_row p.(pf_id) p.(pf_name) sel ks p.(pf_mode) p.(pf_schedule) p.(pf_window)
                         p.(pf_enabled) p.(pf_last_run) created now in
    mk_pstore (if existsb (fun r => r.(pr_id) =?s p.(pf_id)) s.(profiles)
               then upd (fun r => r.(pr_id) =?s p.(pf_id)) (fun r => row r.(pr_created)) s.(profiles)
               else s.(profiles) ++ [row now]) s.(history)).
Definition DeleteProfile (id : string) : M pstore unit :=
  exec (fun s => mk_pstore (del (fun r => r.(pr_id) =?s id) s.(profiles)) s.(history)).

Definition profile_less (a b : profile_row) : bool :=
  if a.(pr_name) =?s b.(pr_name) then String.ltb a.(pr_id) b.(pr_id) else String.ltb a.(pr_name) b.(pr_name).
Definition profile_of (r : profile_row) : result Profile :=
  match decode_selector r.(pr_selector), decode_kinds r.(pr_kinds) with
  | Ok sel, Ok ks => Ok (mk_profile r.(pr_id) r.(pr_name) sel ks r.(pr_mode) r.(pr_schedule) r.(pr_window)
                           r.(pr_enabled) r.(pr_last_run))
  | Err e, _ | _, Err e => Err e
  end.
Definition ListProfiles : M pstore (list Profile) :=
  let* rs := query (fun s => sort_less profile_less s.(profiles)) in lift (collect profile_of rs).

Definition RecordHistory (h : HistoryRecord) : M pstore unit :=
  exec (fun s => mk_pstore s.(profiles)
    (if existsb (fun r => r.(hr_id) =?s h.(hr_id)) s.(history)
     then upd (fun r => r.(hr_id) =?s h.(hr_id))
       (fun r => mk_history r.(hr_id) r.(hr_plan) r.(hr_actor) r.(hr_target) h.(hr_status) h.(hr_applied)
                   h.(hr_failed) h.(hr_rolled) h.(hr_detail) r.(hr_created)) s.(history)
     else s.(history) ++ [h])).
(** [ORDER BY created_at DESC]: by the stored text. *)
Definition ListHistory (limit : Z) : M pstore (list HistoryRecord) :=
  let limit := if (limit <=? 0) || (200 <? limit) then 50 else limit in
  query (fun s => firstn (Z.to_nat limit)
    (sort_less (fun a b => text_ltb b.(hr_created) a.(hr_created)) s.(history))).
End StateStore.

(** *** Definitions of a node *)

(** The propagated definition of a site and of a monitor. *)
Definition request_at (d : db) (id : Z) : option requestPayload :=
  s ← site_by_id id d; if unarchived s then Some (request_of d s) else None.
Definition monitor_at (d : db) (id : Z) : option monitorPayload :=
  monitor_of <$> find_first (fun m => m.(m_id) =? id) d.(monitors).

(** What the schema guarantees of the fleet tables. *)
Record fleet_ok (d : db) : Prop := {
  fo_sites : NoDup (List.map s_id d.(sites));
  fo_monitors : NoDup (List.map m_id d.(monitors));
  fo_kinds : NoDup (List.map (fun m => (m.(m_site), m.(m_kind))) d.(monitors));
  fo_groups : NoDup (List.map g_id d.(groups));
  fo_org : forall s, In s d.(sites) -> org_exists s.(s_org) d = true;
  fo_group : forall s, In s d.(sites) -> group_ref_ok s.(s_group) d = true;
  fo_site : forall m, In m d.(monitors) -> site_exists m.(m_site) d = true }.

(** ** Lemmas *)

(** *** Ordering *)

Lemma insert_less_last {A} (less : A -> A -> bool) x l1 l2 : (forall y, In y l1 -> less x y = false) ->
  insert_less less x (l1 ++ l2)%list = (l1 ++ insert_less less x l2)%list.
Proof.
  induction l1 as [|y l1 IH]; intros H; [done|]. cbn. rewrite (H y (or_introl eq_refl)). f_equal. apply IH.
  intros z Hz. apply H. by right.
Qed.

Lemma insert_less_first {A} (less : A -> A -> bool) x l1 l2 : (forall y, In y l2 -> less x y = true) ->
  insert_less less x (l1 ++ l2)%list = (insert_less less x l1 ++ l2)%list.
Proof.
  intros H. induction l1 as [|y l1 IH]; cbn.
  - destruct l2 as [|y l2]; cbn; [done|]. by rewrite (H y (or_introl eq_refl)).
  - destruct (less x y); [done|]. by rewrite IH.
Qed.

Definition requests_of (l : list Envelope) : Prop := forall e, In e l -> e.(en_kind) = "request-definition".
Definition monitors_of (l : list Envelope) : Prop := forall e, In e l -> e.(en_kind) = "monitor-definition".

(** A sorted bundle has its sites before its monitors. *)
Lemma bundle_split reqs mons : requests_of reqs -> monitors_of mons ->
  exists rs ms, sort_less bundle_less (reqs ++ mons)%list = (rs ++ ms)%list /\ Permutation rs reqs /\ Permutation ms mons.
Proof.
  intros Hr Hm. unfold sort_less. rewrite List.fold_left_app.
  assert (forall l acc, requests_of l -> requests_of acc ->
    let r := List.fold_left (fun acc x => insert_less bundle_less x acc) l acc in Permutation r (l ++ acc)%list) as K.
  { induction l as [|x l IH]; intros acc Hl Ha; [done|]. cbn. rewrite IH.
    - rewrite insert_less_perm. by rewrite <- Permutation_middle.
    - intros e He. apply Hl. by right.
    - intros e He. apply (Permutation_in _ (insert_less_perm _ _ _)) in He as [<-|He]; [apply Hl; by left|by apply Ha]. }
  set (rs := List.fold_left _ reqs []). assert (Permutation rs reqs) as P.
  { unfold rs. transitivity (reqs ++ [])%list; [apply K; [done|by intros ? []]|by rewrite app_nil_r]. }
  assert (requests_of rs) as Hrs by (intros e He; apply Hr; by apply (Permutation_in _ P)). clear K.
  assert (forall l acc, monitors_of l -> monitors_of acc -> exists ms,
    List.fold_left (fun acc x => insert_less bundle_less x acc) l (rs ++ acc)%list = (rs ++ ms)%list /\ Permutation ms (l ++ acc)%list) as K.
  { induction l as [|x l IH]; intros acc Hl Ha; [by exists acc|]. cbn [List.fold_left].
    rewrite insert_less_last.
    - destruct (IH (insert_less bundle_less x acc)) as (ms & E & Pm).
      + intros e He. apply Hl. by right.
      + intros e He. apply (Permutation_in _ (insert_less_perm _ _ _)) in He as [<-|He]; [apply Hl; by left|by apply Ha].
      + exists ms. split; [done|]. rewrite Pm, insert_less_perm. by rewrite <- Permutation_middle.
    - intros y Hy. unfold bundle_less. rewrite (Hl x (or_introl eq_refl)), (Hrs y Hy). done. }
  destruct (K mons [] Hm ltac:(by intros ? [])) as (ms & E & Pm). exists rs, ms.
  rewrite app_nil_r in E, Pm. rewrite E. done.
Qed.

(** *** Tables *)

Lemma place_perm {A} (key : A -> Z) x l : Permutation (place key x l) (x :: l).
Proof. induction l as [|y l IH]; cbn; [done|]. destruct (_ <? _); [|done]. rewrite IH. apply perm_swap. Qed.

Lemma find_place {A} (key : A -> Z) x l p : (p x = true -> forall y, In y l -> p y = false) ->
  find_first p (place key x l) = if p x then Some x else find_first p l.
Proof.
  intros H. unfold find_first. induction l as [|y l IH]; cbn; [done|]. destruct (_ <? _); cbn; [|done].
  rewrite IH by (intros Hp z Hz; apply H; [done|by right]). destruct (p x) eqn:E; [|done].
  by rewrite (H eq_refl y (or_introl eq_refl)).
Qed.

Lemma parse_int_format z : 0 <= z <= int64_max -> parse_int (format_int z) = Some z.
Proof.
  intros Hz. pose proof (parse_udec_format z (proj1 Hz)) as E.
  assert (in_int64 z = true) as Hi by (unfold in_int64, int64_min; apply andb_true_iff; split; apply Z.leb_le; lia).
  unfold parse_int. destruct (format_int z) as [|c s]; [done|].
  assert (c <> "-"%char /\ c <> "+"%char) as [N1 N2] by (split; intros ->; cbn in E; done).
  destruct c as [[] [] [] [] [] [] [] []]; try (by rewrite E, Hi); exfalso; auto.
Qed.

Lemma NoDup_map_upd {A B} (key : A -> B) p (g : A -> A) v l :
  NoDup (List.map key l) -> (forall x y, In x l -> In y l -> p x = true -> p y = true -> x = y) ->
  (forall x, In x l -> p x = false -> key x <> v) -> (forall x, p x = true -> key (g x) = v) ->
  NoDup (List.map key (upd p g l)).
Proof.
  induction l as [|x l IH]; intros Hn Hu Hf Hg; [constructor|]. cbn in *. apply NoDup_cons in Hn as [Hx Hn].
  assert (NoDup (List.map key (upd p g l))) as IH' by (apply IH; [done|..]; intros; auto).
  apply NoDup_cons. split; [|exact IH']. rewrite list_elem_of_In, in_map_iff. intros (y & E & Hy).
  apply in_upd in Hy as (z & Hz & ->). destruct (p x) eqn:Px.
  - rewrite (Hg x Px) in E. destruct (p z) eqn:Pz.
    + apply Hx. rewrite list_elem_of_In. rewrite (Hu x z) by auto. by apply in_map.
    + by apply (Hf z); auto.
  - destruct (p z) eqn:Pz.
    + rewrite (Hg z Pz) in E. by apply (Hf x); auto.
    + apply Hx. rewrite list_elem_of_In, <- E. by apply in_map.
Qed.

Lemma site_by_In id d s : site_by_id id d = Some s -> In s d.(sites) /\ s.(s_id) = id.
Proof. intros H. apply find_first_Some in H as [H E]. split; [done|]. by apply Z.eqb_eq. Qed.

Lemma site_exists_iff id d : site_exists id d = true <-> exists s, In s d.(sites) /\ s.(s_id) = id.
Proof.
  split.
  - unfold site_exists. destruct (site_by_id id d) as [s|] eqn:E; [|done]. intros _. exists s. by apply site_by_In.
  - intros (s & Hs & <-). by apply site_exists_In.
Qed.

(** *** Groups *)

(** Groups have been added. *)
Definition grown (d d' : db) : Prop :=
  exists gs, d' = set_groups (d.(groups) ++ gs)%list d /\ NoDup (List.map g_id d'.(groups)).

Lemma grown_refl d : NoDup (List.map g_id d.(groups)) -> grown d d.
Proof. intros H. exists []. split; [|done]. rewrite app_nil_r. by destruct d. Qed.

Lemma grown_group d d' g r : grown d d' -> group_by_id g d = Some r -> group_by_id g d' = Some r.
Proof. intros (gs & -> & _) H. unfold group_by_id in *. cbn. by rewrite find_first_app, H. Qed.

Lemma grown_ref d d' g : grown d d' -> group_ref_ok g d = true ->
  group_ref_ok g d' = true /\ COALESCE_group d' g = COALESCE_group d g.
Proof.
  intros G H. destruct g as [g|]; [|done]. cbn in *. destruct (group_by_id g d) as [r|] eqn:E; [|done].
  by rewrite (grown_group d d' g r G E).
Qed.

Lemma group_by_name_id org name d g : NoDup (List.map g_id d.(groups)) -> group_by_name org name d = Some g ->
  group_by_id g.(g_id) d = Some g /\ g.(g_name) = name.
Proof.
  intros Hn H. apply find_first_Some in H as [Hg E]. bool_to_prop. split; [|done].
  apply find_first_unique; [|done|apply Z.eqb_refl]. intros y Hy Ey. apply Z.eqb_eq in Ey.
  by apply (NoDup_map_inj g_id d.(groups)).
Qed.

(** The group of a site is found or made, whatever the tables. *)
Lemma resolve_group_run org name now d : NoDup (List.map g_id d.(groups)) ->
  (group_by_name org name d = None -> org_exists org d = true) ->
  exists grp d', resolve_group org name now (d, []) = (Ok grp, (d', []))
    /\ grown d d' /\ group_ref_ok grp d' = true /\ COALESCE_group d' grp = name.
Proof.
  intros Hn Ho. unfold resolve_group. destruct (String.eqb_spec name "") as [->|Hne].
  { exists None, d. split_and!; try done. by apply grown_refl. }
  unfold bind at 1, query, stmt. cbn [List.tl]. destruct (group_by_name org name d) as [g|] eqn:E.
  - destruct (group_by_name_id _ _ _ _ Hn E) as [E1 E2]. eexists _, d. split; [reflexivity|].
    split; [by apply grown_refl|]. cbn. by rewrite E1.
  - unfold bind at 1, insert_group. rewrite (Ho eq_refl), E. cbn [andb List.tl].
    set (r := mk_group _ _ _ _ _). set (d' := set_groups _ d).
    assert (NoDup (List.map g_id d'.(groups))) as Hn' by (apply NoDup_map_snoc; [done|apply fresh_id_notin]).
    assert (group_by_name org name d' = Some r) as E'.
    { unfold group_by_name in *. cbn. rewrite find_first_app, E. cbn. by rewrite Z.eqb_refl, String.eqb_refl. }
    unfold bind. cbn [List.tl]. rewrite E'. destruct (group_by_name_id _ _ _ _ Hn' E') as [E1 E2].
    eexists _, d'. split; [reflexivity|]. split; [by exists [r]|]. unfold group_ref_ok, COALESCE_group. by rewrite E1.
Qed.

Lemma resolve_group_honest org name now : honest (resolve_group org name now).
Proof. unfold resolve_group. solve_honest. Qed.

(** *** What an application installs *)

Record installed (d : db) (id : Z) (p : requestPayload) (d' : db) : Prop := {
  in_ok : fleet_ok d';
  in_orgs : d'.(orgs) = d.(orgs);
  in_monitors : d'.(monitors) = d.(monitors);
  in_archived : (s_archived <$> site_by_id id d') = Some (s ← site_by_id id d; s.(s_archived));
  in_this : (request_of d' <$> site_by_id id d') = Some p;
  in_other : forall k, k <> id -> site_by_id k d' = site_by_id k d
    /\ (request_of d' <$> site_by_id k d') = (request_of d <$> site_by_id k d) }.

Lemma request_grown d d' s : grown d d' -> group_ref_ok s.(s_group) d = true -> request_of d' s = request_of d s.
Proof. intros G H. unfold request_of. by rewrite (proj2 (grown_ref d d' _ G H)). Qed.

Lemma upsert_site_installed d d1 id p grp now d2 : fleet_ok d -> grown d d1 -> group_ref_ok grp d1 = true ->
  COALESCE_group d1 grp = p.(rp_group) -> upsert_site id p grp now d1 = Some d2 -> installed d id p d2.
Proof.
  intros F G Hg Hc H. unfold upsert_site in H. destruct (org_exists _ _ && _) eqn:E in H; [|done]. bool_to_prop. injection H as <-.
  pose proof G as (gs & -> & Hn). pose proof (fo_sites d F) as Hs. cbn [sites groups set_groups set_sites] in *.
  set (new := fun s => mk_site id _ _ _ _ grp (s_archived s) _ now _). set (row := mk_site id _ _ _ _ grp None now now None).
  set (sites2 := if site_exists id _ then _ else _).
  assert (forall k, find_first (fun s => s_id s =? k) sites2 =
    if k =? id then Some (match site_by_id id d with Some s => new s | None => row end) else site_by_id k d) as Look.
  { intros k. unfold sites2, site_exists, site_by_id. cbn [sites set_groups].
    destruct (find_first (fun s => s_id s =? id) (sites d)) as [s|] eqn:Es.
    - destruct (Z.eqb_spec k id) as [->|Hk].
      + rewrite find_first_upd by (intros x Ex; rewrite Ex; apply Z.eqb_refl). rewrite Es. cbn.
        apply find_first_Some in Es as [_ Es]. by rewrite Es.
      + rewrite find_first_upd.
        * destruct (find_first (fun s => s_id s =? k) (sites d)) as [y|] eqn:Ey; [|done]. apply find_first_Some in Ey as [_ Ey].
          bool_to_prop. apply (f_equal Some). by destruct (Z.eqb_spec (s_id y) id); [congruence|].
        * intros x Ex. change (s_id (new x)) with id. bool_to_prop. by rewrite Ex.
    - rewrite find_place.
      + cbn. rewrite Z.eqb_sym. by destruct (Z.eqb_spec k id).
      + cbn. intros E y Hy. apply Z.eqb_eq in E as <-. by apply (proj1 (find_first_None _ _) Es). }
  assert (forall s, In s sites2 -> In s d.(sites) \/ (s.(s_id) = id /\ s.(s_org) = p.(rp_org) /\ s.(s_group) = grp)) as Mem.
  { intros s Hin. unfold sites2 in Hin. destruct (site_exists _ _).
    - apply in_upd in Hin as (x & Hx & ->). destruct (_ =? _); [by right|by left].
    - apply (Permutation_in _ (place_perm _ _ _)) in Hin as [<-|Hin]; [by right|by left]. }
  constructor; try done.
  - constructor; try done; cbn [sites monitors groups orgs set_sites set_groups].
    + unfold sites2. destruct (site_exists _ _) eqn:Ex.
      * apply (NoDup_map_upd _ _ _ id); try done.
        -- intros x y Hx Hy Px Py. bool_to_prop. apply (NoDup_map_inj s_id d.(sites)); try done. congruence.
        -- intros x _ Px. by bool_to_prop.
      * rewrite (Permutation_map s_id (place_perm s_id _ _)). cbn. apply NoDup_cons. split; [|done].
        rewrite list_elem_of_In, in_map_iff. intros (s & Es & Hin). apply not_true_iff_false in Ex. apply Ex.
        apply site_exists_iff. by exists s.
    + apply (fo_monitors d F).
    + apply (fo_kinds d F).
    + intros s Hin. destruct (Mem s Hin) as [Hin'|(_ & -> & _)]; [by apply (fo_org d F)|done].
    + intros s Hin. change (group_ref_ok (s_group s) (set_groups (groups d ++ gs)%list d) = true).
      destruct (Mem s Hin) as [Hin'|(_ & _ & ->)]; [|done]. by apply (grown_ref d _ _ G), (fo_group d F).
    + intros m Hm. pose proof (fo_site d F m Hm) as Em. unfold site_exists at 1, site_by_id at 1. cbn [sites set_sites].
      rewrite Look. destruct (_ =? _); [done|]. exact Em.
  - unfold site_by_id at 1. cbn [sites set_sites]. rewrite Look, Z.eqb_refl. cbn. by destruct (site_by_id id d).
  - unfold site_by_id at 1. cbn [sites set_sites]. rewrite Look, Z.eqb_refl. cbn. f_equal.
    assert (forall x, s_group x = grp -> s_org x = rp_org p -> s_name x = rp_name p -> s_url x = rp_url p -> s_enabled x = rp_enabled p ->
      request_of (set_sites sites2 (set_groups (groups d ++ gs)%list d)) x = p) as K.
    { intros x E1 E2 E3 E4 E5. unfold request_of.
      change (COALESCE_group (set_sites _ ?d) ?g) with (COALESCE_group d g). rewrite E1, E2, E3, E4, E5, Hc. by destruct p. }
    by destruct (site_by_id id d); apply K.
  - intros k Hk. assert (site_by_id k (set_sites sites2 (set_groups (groups d ++ gs)%list d)) = site_by_id k d) as ->.
    { unfold site_by_id at 1. cbn [sites set_sites]. rewrite Look. by destruct (Z.eqb_spec k id). }
    split; [done|]. destruct (site_by_id k d) as [s|] eqn:Es; [|done]. cbn. f_equal.
    apply (request_grown d _ s G). apply (fo_group d F). exact (proj1 (site_by_In _ _ _ Es)).
Qed.

(** The same for a monitor. *)
Record installed_monitor (d : db) (id : Z) (p : monitorPayload) (d' : db) : Prop := {
  im_ok : fleet_ok d';
  im_rest : set_monitors [] d' = set_monitors [] d;
  im_this : monitor_at d' id = Some p;
  im_other : forall k, k <> id -> monitor_at d' k = monitor_at d k }.

Lemma upsert_monitor_installed d id p now d' : fleet_ok d -> upsert_monitor id p now d = Some d' -> installed_monitor d id p d'.
Proof.
  intros F H. unfold upsert_monitor in H. destruct (site_exists _ _ && _) eqn:E in H; [|done]. apply andb_true_iff in E as [Ex Ek].
  apply negb_true_iff in Ek. pose proof (proj1 (existsb_none_iff _ _) Ek) as Kinds_free. injection H as <-.
  set (new := fun m => mk_monitor id _ _ _ _ _ (m_created m)). set (row := mk_monitor id _ _ _ _ _ now).
  set (ms := if monitor_exists id d then _ else _). pose proof (fo_monitors d F) as Hm.
  assert (forall m, In m d.(monitors) -> (m_id m =? id) = false -> (m_site m, m_kind m) <> (mp_site p, mp_kind p)) as Free.
  { intros m Hin Hid [= E1 E2]. specialize (Kinds_free m Hin). cbv beta in Kinds_free. rewrite Hid, E1, E2, Z.eqb_refl, String.eqb_refl in Kinds_free. done. }
  assert (forall m, In m ms -> In m d.(monitors) \/ m.(m_site) = p.(mp_site)) as Mem.
  { intros m Hin. unfold ms in Hin. destruct (monitor_exists id d).
    - apply in_upd in Hin as (x & Hx & ->). destruct (_ =? _); [by right|by left].
    - apply (Permutation_in _ (place_perm _ _ _)) in Hin as [<-|Hin]; [by right|by left]. }
  assert (forall x y, In x d.(monitors) -> In y d.(monitors) -> (m_id x =? id) = true -> (m_id y =? id) = true -> x = y) as Uniq.
  { intros x y Hx Hy Px Py. bool_to_prop. apply (NoDup_map_inj m_id d.(monitors)); try done. congruence. }
  assert (monitor_exists id d = false -> forall m, In m d.(monitors) -> (m_id m =? id) = false) as Absent by (intros A; by apply existsb_none_iff).
  constructor; [| |unfold monitor_at..]; cbn [monitors set_monitors]; [constructor; cbn [sites monitors groups orgs set_monitors]| | |].
  - apply (fo_sites d F).
  - unfold ms. destruct (monitor_exists _ _) eqn:A.
    + apply (NoDup_map_upd _ _ _ id); try done. intros x _ Px. by bool_to_prop.
    + rewrite (Permutation_map m_id (place_perm m_id _ _)). cbn. apply NoDup_cons. split; [|done].
      rewrite list_elem_of_In, in_map_iff. intros (m & Em & Hin). specialize (Absent eq_refl m Hin). bool_to_prop. done.
  - unfold ms. destruct (monitor_exists _ _) eqn:A.
    + apply (NoDup_map_upd _ _ _ (mp_site p, mp_kind p)); try done. apply (fo_kinds d F).
    + rewrite (Permutation_map _ (place_perm m_id _ _)). cbn. apply NoDup_cons. split; [|apply (fo_kinds d F)].
      rewrite list_elem_of_In, in_map_iff. intros (m & Em & Hin). by apply (Free m Hin); [apply Absent|].
  - apply (fo_groups d F).
  - apply (fo_org d F).
  - apply (fo_group d F).
  - intros m Hin. destruct (Mem m Hin) as [Hin'| ->]; [by apply (fo_site d F)|done].
  - done.
  - unfold ms. destruct (monitor_exists id d) eqn:A.
    + rewrite find_first_upd by (intros x Px; rewrite Px; apply Z.eqb_refl).
      apply existsb_exists in A as (m & Hin & Px). rewrite (find_first_unique _ _ m); [|by intros y Hy Py; apply Uniq|done|done].
      cbn. rewrite Px. by destruct p.
    + rewrite find_place by (intros _; by apply Absent). cbn [m_id row]. rewrite Z.eqb_refl. by destruct p.
  - intros k Hk. f_equal. unfold ms. destruct (monitor_exists id d) eqn:A.
    + rewrite find_first_upd.
      * destruct (find_first (fun m => m_id m =? k) (monitors d)) as [y|] eqn:Ey; [|done]. apply find_first_Some in Ey as [_ Ey].
        bool_to_prop. apply (f_equal Some). by destruct (Z.eqb_spec (m_id y) id); [congruence|].
      * intros x Px. change (m_id (new x)) with id. bool_to_prop. by rewrite Px.
    + rewrite find_place.
      * cbn [m_id row]. rewrite Z.eqb_sym. by destruct (Z.eqb_spec k id).
      * cbn [m_id row]. intros Pk. apply Z.eqb_eq in Pk. congruence.
Qed.

Lemma resolve_group_ok org name now d fl grp d' fl' : NoDup (List.map g_id d.(groups)) ->
  resolve_group org name now (d, fl) = (Ok grp, (d', fl')) ->
  grown d d' /\ group_ref_ok grp d' = true /\ COALESCE_group d' grp = name.
Proof.
  intros Hn H. apply resolve_group_honest in H. destruct (String.eqb_spec name "") as [->|Hne].
  { injection H as <- <-. split; [by apply grown_refl|done]. }
  destruct (resolve_group_run org name now d Hn) as (g & d1 & E & R).
  - intros E. unfold resolve_group in H. rewrite (proj2 (String.eqb_neq name "")) in H by done. unfold bind at 1, query, stmt in H.
    rewrite E in H. unfold bind at 1, insert_group in H. rewrite E in H. by destruct (org_exists org d).
  - rewrite E in H. by injection H as <- <-.
Qed.

(** *** Applying an envelope *)

Lemma ignore_query_same {S A} (a : A) (f : S -> A) s fl r s' fl' : ignore a (query f) (s, fl) = (r, (s', fl')) -> s' = s.
Proof. unfold ignore, query, stmt. destruct fl as [|[] fl]; by intros [= _ <- _]. Qed.


Section Laws.
Variable Validate : Envelope -> result Envelope.
Variable encode_request : requestPayload -> string.
Variable decode_request : string -> result requestPayload.
Variable encode_monitor : monitorPayload -> string.
Variable decode_monitor : string -> result monitorPayload.

(** What validation leaves alone. *)
Definition content (e : Envelope) := (e.(en_kind), e.(en_id), e.(en_revision), e.(en_actor), e.(en_payload)).

Hypothesis validate_keeps : forall e e', Validate e = Ok e' -> content e' = content e.
Hypothesis validate_stable : forall e e', Validate e = Ok e' -> is_ok (Validate e') = true.
Hypothesis request_codec : forall p, decode_request (encode_request p) = Ok p.
Hypothesis monitor_codec : forall p, decode_monitor (encode_monitor p) = Ok p.

Abbreviation apply := (Apply Validate decode_request decode_monitor).

Lemma apply_request_installs rep e now d fl r d' fl' : fleet_ok d -> e.(en_kind) = "request-definition" ->
  apply rep e now (d, fl) = (Ok r, (d', fl')) ->
  exists id p, parse_int e.(en_id) = Some id /\ decode_request e.(en_payload) = Ok p /\ installed d id p d'.
Proof using.
  intros F Hk H. unfold Apply in H. rewrite Hk in H. sql_inv. destruct rep; [done|].
  change (is_request _) with true in H. cbn iota in H. unfold apply_request in H. sql_inv.
  match goal with H : resolve_group _ _ _ _ = (Ok _, (?x, _)) |- _ => rename x into d1; apply resolve_group_ok in H as (G & R & C); [|apply (fo_groups d F)] end.
  match goal with H : ignore _ _ (d1, _) = _ |- _ => apply ignore_query_same in H; subst end.
  eexists _, _. split; [done|]. split; [eassumption|]. eapply upsert_site_installed; eassumption.
Qed.

Lemma apply_monitor_installs rep e now d fl r d' fl' : fleet_ok d -> e.(en_kind) = "monitor-definition" ->
  apply rep e now (d, fl) = (Ok r, (d', fl')) ->
  exists id p, parse_int e.(en_id) = Some id /\ decode_monitor e.(en_payload) = Ok p /\ installed_monitor d id p d'.
Proof using.
  intros F Hk H. unfold Apply in H. rewrite Hk in H. change (is_request "monitor-definition") with false in H.
  rewrite andb_false_r in H. sql_inv. change ("monitor-definition" =?s "monitor-definition") with true in H. cbn iota in H.
  unfold apply_monitor in H. sql_inv.
  match goal with H : ignore _ _ _ = _ |- _ => apply ignore_query_same in H; subst end.
  eexists _, _. split; [done|]. split; [eassumption|]. eapply upsert_monitor_installed; eassumption.
Qed.

Lemma validates e : is_ok (Validate e) = true ->
  e.(en_kind) = "request-definition" /\ e.(en_actor).(ac_permission) = "sites.update" \/
  e.(en_kind) = "monitor-definition" /\ e.(en_actor).(ac_permission) = "monitors.update" ->
  ValidateEnvelope Validate e = Ok tt.
Proof using.
  intros V H. unfold ValidateEnvelope, Policy. destruct (Validate e) as [e'|]; [|done].
  by destruct H as [[-> ->]|[-> ->]].
Qed.

(** With nothing refused, what can be applied is. *)
Lemma apply_request_run e now d id p : fleet_ok d -> e.(en_kind) = "request-definition" ->
  ValidateEnvelope Validate e = Ok tt -> parse_int e.(en_id) = Some id -> decode_request e.(en_payload) = Ok p ->
  org_exists p.(rp_org) d = true -> exists r d', apply false e now (d, []) = (Ok r, (d', [])) /\ installed d id p d'.
Proof using.
  intros F Hk V Hid Hp Ho.
  assert (exists r d', apply false e now (d, []) = (Ok r, (d', []))) as (r & d' & E).
  { unfold Apply. rewrite V, Hk, Hid. unfold bind at 1. cbn [lift ret andb]. change (is_request "request-definition") with true. cbn iota.
    unfold apply_request, bind at 1. rewrite Hp. cbn [lift ret]. unfold bind at 1.
    destruct (resolve_group_run p.(rp_org) p.(rp_group) now d (fo_groups d F) (fun _ => Ho)) as (grp & d1 & -> & (gs & -> & _) & R & _).
    unfold bind at 1, ignore, query, stmt. cbn [List.tl]. unfold bind, exec_opt, stmt, upsert_site. cbn [List.tl].
    change (org_exists (rp_org p) (set_groups _ d)) with (org_exists (rp_org p) d). rewrite Ho, R. cbn. by eexists _, _. }
  exists r, d'. split; [done|]. destruct (apply_request_installs _ _ _ _ _ _ _ _ F Hk E) as (id' & p' & E1 & E2 & I). congruence.
Qed.

Lemma apply_monitor_run e now d id p : fleet_ok d -> e.(en_kind) = "monitor-definition" ->
  ValidateEnvelope Validate e = Ok tt -> parse_int e.(en_id) = Some id -> decode_monitor e.(en_payload) = Ok p ->
  site_exists p.(mp_site) d = true ->
  (forall m, In m d.(monitors) -> m.(m_id) <> id -> (m.(m_site), m.(m_kind)) <> (p.(mp_site), p.(mp_kind))) ->
  exists r d', forall rep, apply rep e now (d, []) = (Ok r, (d', [])) /\ installed_monitor d id p d'.
Proof using.
  intros F Hk V Hid Hp Hs Hf.
  assert (exists r d', forall rep, apply rep e now (d, []) = (Ok r, (d', []))) as (r & d' & E).
  { unfold Apply. rewrite V, Hk, Hid. unfold bind at 1. cbn [lift ret]. change (is_request "monitor-definition") with false.
    eexists _, _. intros rep. rewrite andb_false_r. change ("monitor-definition" =?s "monitor-definition") with true. cbn iota.
    unfold apply_monitor, bind at 1. rewrite Hp. cbn [lift ret]. unfold bind at 1, ignore, query, stmt. cbn [List.tl].
    unfold bind, exec_opt, stmt, upsert_monitor. cbn [List.tl]. rewrite Hs.
    rewrite (proj2 (existsb_none_iff _ _)); [cbn; reflexivity|].
    intros m Hm. destruct (Z.eqb_spec (m_id m) id) as [|N]; [done|]. specialize (Hf m Hm N). cbn.
    apply not_true_iff_false. intros B. bool_to_prop. congruence. }
  exists r, d'. intros rep. split; [done|]. destruct (apply_monitor_installs _ _ _ _ _ _ _ _ F Hk (E rep)) as (id' & p' & E1 & E2 & I). congruence.
Qed.

(** *** Exporting *)

Lemma collect_forall {A B} (f : A -> result B) l ys : collect f l = Ok ys -> Forall2 (fun x y => f x = Ok y) l ys.
Proof using.
  revert ys. induction l as [|x l IH]; intros ys; cbn; [intros [= <-]; constructor|].
  destruct (f x) as [y|] eqn:E; [|done]. destruct (collect f l) as [zs|]; [|done]. intros [= <-]. constructor; auto.
Qed.

(** An envelope of the site [s] of [d], and of a monitor. *)
Definition site_envelope (d : db) (s : site_row) (e : Envelope) : Prop :=
  content e = ("request-definition", format_int s.(s_id), max1 (rev (Some s.(s_updated))), e.(en_actor), encode_request (request_of d s))
  /\ e.(en_actor).(ac_permission) = "sites.update" /\ is_ok (Validate e) = true.
Definition mon_envelope (m : monitor_row) (e : Envelope) : Prop :=
  content e = ("monitor-definition", format_int m.(m_id), max1 (rev (Some m.(m_created))), e.(en_actor), encode_monitor (monitor_of m))
  /\ e.(en_actor).(ac_permission) = "monitors.update" /\ is_ok (Validate e) = true.

Lemma request_envelope_ok d actor target now s e :
  request_envelope Validate encode_request d actor target now s = Ok e -> site_envelope d s e.
Proof using validate_keeps validate_stable.
  unfold request_envelope, mk. intros H. pose proof (validate_keeps _ _ H) as C. apply validate_stable in H.
  unfold site_envelope, content in *. cbn in C. by injection C as -> -> -> -> ->.
Qed.
Lemma monitor_envelope_ok actor target now m e :
  monitor_envelope Validate encode_monitor actor target now m = Ok e -> mon_envelope m e.
Proof using validate_keeps validate_stable.
  unfold monitor_envelope, mk. intros H. pose proof (validate_keeps _ _ H) as C. apply validate_stable in H.
  unfold mon_envelope, content in *. cbn in C. by injection C as -> -> -> -> ->.
Qed.

(** A complete bundle: the envelopes of the live sites, then those of the
    monitors, in some order each. *)
Lemma export_bundle actor target now d fl bundle d' fl' :
  Export Validate encode_request encode_monitor [] actor target now (d, fl) = (Ok bundle, (d', fl')) ->
  d' = d /\ exists ss ms rs mes, bundle = (rs ++ mes)%list
    /\ Permutation ss (List.filter unarchived d.(sites)) /\ Permutation ms d.(monitors)
    /\ Forall2 (site_envelope d) ss rs /\ Forall2 mon_envelope ms mes.
Proof using validate_keeps validate_stable.
  unfold Export. cbn [want]. intros H. sql_inv.
  match goal with H : collect (request_envelope _ _ _ _ _ _) _ = Ok ?x |- _ => rename x into reqs; apply collect_forall in H; rename H into Hr end.
  match goal with H : collect (monitor_envelope _ _ _ _ _) _ = Ok ?x |- _ => rename x into mons; apply collect_forall in H; rename H into Hm end.
  split; [done|].
  destruct (bundle_split reqs mons) as (rs & mes & E & Pr & Pm).
  { intros e He. destruct (Forall2_in_r _ _ _ _ Hr He) as (s & _ & Es).
    apply request_envelope_ok in Es as [C _]. by injection C as ->. }
  { intros e He. destruct (Forall2_in_r _ _ _ _ Hm He) as (s & _ & Es).
    apply monitor_envelope_ok in Es as [C _]. by injection C as ->. }
  apply Forall2_flip in Hr, Hm. symmetry in Pr, Pm.
  destruct (Permutation_Forall2 Pr Hr) as (ss & Ps & Hr'). destruct (Permutation_Forall2 Pm Hm) as (ms & Pms & Hm').
  exists ss, ms, rs, mes. split_and!; [done|by symmetry|by symmetry| |].
  - apply Forall2_flip. eapply Forall2_impl; [exact Hr'|]. intros x y. cbn. apply request_envelope_ok.
  - apply Forall2_flip. eapply Forall2_impl; [exact Hm'|]. intros x y. cbn. apply monitor_envelope_ok.
Qed.

(** *** Applying a bundle *)

Lemma installed_request d id p d' : installed d id p d' ->
  (forall x, site_by_id id d = Some x -> unarchived x = true) ->
  forall k, request_at d' k = if k =? id then Some p else request_at d k.
Proof using.
  intros I Hu k. unfold request_at. destruct (Z.eqb_spec k id) as [->|Hk].
  - pose proof (in_this _ _ _ _ I) as Ht. pose proof (in_archived _ _ _ _ I) as Ha.
    destruct (site_by_id id d') as [s|]; [|done]. cbn in *. injection Ht as <-. injection Ha as Ha.
    assert (unarchived s = true) as ->; [|done]. unfold unarchived. rewrite Ha.
    destruct (site_by_id id d) as [x|] eqn:E; [|done]. cbn. exact (Hu x eq_refl).
  - destruct (in_other _ _ _ _ I k Hk) as [E1 E2]. rewrite E1 in E2 |- *. destruct (site_by_id k d) as [s|]; [|done].
    change (Some (request_of d' s) = Some (request_of d s)) in E2. cbn [mbind option_bind]. by destruct (unarchived s).
Qed.

Definition in_range (id : Z) : Prop := 0 <= id <= int64_max.

Lemma apply_requests d now ss rs : Forall2 (site_envelope d) ss rs -> forall dst, fleet_ok dst ->
  NoDup (List.map s_id ss) -> (forall s, In s ss -> in_range s.(s_id) /\ org_exists s.(s_org) dst = true) ->
  (forall s x, In s ss -> site_by_id s.(s_id) dst = Some x -> unarchived x = true) ->
  exists d1, apply_all Validate decode_request decode_monitor false rs now (dst, []) = (Ok tt, (d1, []))
    /\ fleet_ok d1 /\ d1.(monitors) = dst.(monitors)
    /\ (forall s, In s ss -> request_at d1 s.(s_id) = Some (request_of d s))
    /\ (forall k, ~ In k (List.map s_id ss) -> request_at d1 k = request_at dst k /\ site_by_id k d1 = site_by_id k dst).
Proof using request_codec.
  induction 1 as [|s e ss rs (C & Hp & V) _ IH]; intros dst F Hn Hr Hu.
  { exists dst. split_and!; try done. }
  cbn in Hn. apply NoDup_cons in Hn as [Hs Hn]. rewrite list_elem_of_In in Hs.
  unfold content in C. injection C as Ck Ci _ Cp.
  destruct (Hr s (or_introl eq_refl)) as [Hrange Ho].
  destruct (apply_request_run e now dst s.(s_id) (request_of d s) F Ck) as (r & d0 & E & I).
  { apply validates; auto. } { by rewrite Ci, parse_int_format. } { by rewrite Cp. } { done. }
  destruct (IH d0) as (d1 & E1 & F1 & M1 & A1 & O1).
  { apply (in_ok _ _ _ _ I). } { done. }
  { intros x Hx. destruct (Hr x (or_intror Hx)). split; [done|]. unfold org_exists. by rewrite (in_orgs _ _ _ _ I). }
  { intros x y Hx Hy. assert (s_id x <> s_id s) as N by (intros N; apply Hs; rewrite <- N; by apply in_map).
    rewrite (proj1 (in_other _ _ _ _ I _ N)) in Hy. by apply (Hu x y (or_intror Hx)). }
  pose proof (installed_request _ _ _ _ I (fun x => Hu s x (or_introl eq_refl))) as Look.
  exists d1. split_and!; [|done|by rewrite M1, (in_monitors _ _ _ _ I)| |].
  - unfold apply_all. cbn [for_each]. unfold bind at 1, bind at 1. rewrite E. exact E1.
  - intros x [<-|Hx]; [|by apply A1]. rewrite (proj1 (O1 _ Hs)), Look. by rewrite Z.eqb_refl.
  - intros k Hk. cbn in Hk. destruct (O1 k ltac:(by intros H; apply Hk; right)) as [-> ->].
    assert (k <> s_id s) as N by (intros ->; apply Hk; by left).
    rewrite Look, (proj2 (Z.eqb_neq _ _) N). split; [done|]. by apply (in_other _ _ _ _ I).
Qed.

Lemma monitor_at_In d m : NoDup (List.map m_id d.(monitors)) -> In m d.(monitors) -> monitor_at d m.(m_id) = Some (monitor_of m).
Proof using.
  intros Hn Hm. unfold monitor_at. rewrite (find_first_unique _ _ m); [done| |done|apply Z.eqb_refl].
  intros y Hy E. apply Z.eqb_eq in E. by apply (NoDup_map_inj m_id d.(monitors)).
Qed.

Lemma apply_monitors now ms mes : Forall2 mon_envelope ms mes -> forall dst, fleet_ok dst ->
  NoDup (List.map m_id ms) -> NoDup (List.map (fun m => (m.(m_site), m.(m_kind))) ms) ->
  (forall m, In m ms -> in_range m.(m_id) /\ site_exists m.(m_site) dst = true) ->
  (forall m k q, In m ms -> k <> m.(m_id) -> monitor_at dst k = Some q -> (q.(mp_site), q.(mp_kind)) <> (m.(m_site), m.(m_kind))) ->
  exists d1, apply_all Validate decode_request decode_monitor false mes now (dst, []) = (Ok tt, (d1, []))
    /\ fleet_ok d1 /\ set_monitors [] d1 = set_monitors [] dst
    /\ (forall m, In m ms -> monitor_at d1 m.(m_id) = Some (monitor_of m))
    /\ (forall k, ~ In k (List.map m_id ms) -> monitor_at d1 k = monitor_at dst k).
Proof using monitor_codec.
  induction 1 as [|m e ms mes (C & Hp & V) _ IH]; intros dst F Hn Hk Hr Hf.
  { exists dst. split_and!; try done. }
  cbn in Hn, Hk. apply NoDup_cons in Hn as [Hm Hn]. apply NoDup_cons in Hk as [Hkm Hk]. rewrite list_elem_of_In in Hm. rename Hkm into Hkm'. pose proof (fun H => Hkm' (proj2 (list_elem_of_In _ _) H)) as Hkm.
  unfold content in C. injection C as Ck Ci _ Cp.
  destruct (Hr m (or_introl eq_refl)) as [Hrange Hs].
  destruct (apply_monitor_run e now dst m.(m_id) (monitor_of m) F Ck) as (r & d0 & EI).
  { apply validates; auto. } { by rewrite Ci, parse_int_format. } { by rewrite Cp. } { done. }
  { intros x Hx Hid. refine (Hf m x.(m_id) (monitor_of x) (or_introl eq_refl) Hid _). apply monitor_at_In; [apply (fo_monitors _ F)|done]. }
  destruct (EI false) as [E I].
  destruct (IH d0) as (d1 & E1 & F1 & M1 & A1 & O1).
  { apply (im_ok _ _ _ _ I). } { done. } { done. }
  { intros x Hx. destruct (Hr x (or_intror Hx)) as [R S]. split; [done|].
    change (site_exists (m_site x) (set_monitors [] d0) = true). by rewrite (im_rest _ _ _ _ I). }
  { intros x k q Hx Hq Hat. destruct (Z.eq_dec k m.(m_id)) as [->|N].
    - rewrite (im_this _ _ _ _ I) in Hat. injection Hat as <-. cbn. intros Heq. apply Hkm. rewrite Heq.
      by apply (in_map (fun m => (m.(m_site), m.(m_kind)))).
    - rewrite (im_other _ _ _ _ I k N) in Hat. by apply (Hf x k q (or_intror Hx)). }
  exists d1. split_and!; [|done|by rewrite M1, (im_rest _ _ _ _ I)| |].
  - unfold apply_all. cbn [for_each]. unfold bind at 1, bind at 1. rewrite E. exact E1.
  - intros x [<-|Hx]; [|by apply A1]. rewrite (O1 _ Hm). apply (im_this _ _ _ _ I).
  - intros k Hkn. cbn in Hkn. rewrite (O1 k ltac:(by intros H; apply Hkn; right)).
    apply (im_other _ _ _ _ I). intros ->. apply Hkn. by left.
Qed.

Lemma NoDup_map_filter {A B} (key : A -> B) p l : NoDup (List.map key l) -> NoDup (List.map key (List.filter p l)).
Proof using.
  intros H. replace (List.filter p l) with (del (fun x => negb (p x)) l); [by apply NoDup_map_del|].
  unfold del. apply List.filter_ext. intros x. by rewrite negb_involutive.
Qed.

Lemma request_at_iff d k p : NoDup (List.map s_id d.(sites)) ->
  request_at d k = Some p <-> exists s, In s d.(sites) /\ unarchived s = true /\ s.(s_id) = k /\ request_of d s = p.
Proof using.
  intros Hn. unfold request_at. split.
  - destruct (site_by_id k d) as [s|] eqn:E; [|done]. cbn. destruct (unarchived s) eqn:U; [|done]. intros [= <-].
    exists s. apply site_by_In in E as []. done.
  - intros (s & Hs & U & <- & <-). unfold site_by_id. rewrite (find_first_unique _ _ s); [cbn; by rewrite U| |done|apply Z.eqb_refl].
    intros y Hy E. apply Z.eqb_eq in E. by apply (NoDup_map_inj s_id d.(sites)).
Qed.

(** C31: a bundle reproduces the definitions of its source.  What a node exports whose
    monitors all belong to sites that are not archived, and whose ids are not negative
    in 64 bits, is accepted, in the order of the bundle and when no statement is
    refused, by any other node that has the organizations, on which none of the ids is
    an archived site and no monitor of another id checks the same site in the same way;
    afterwards that node defines each exported site and monitor as the source does, and
    everything else as before.  (A monitor of an archived site makes the bundle fail:
    [archived_sites_defeat_propagation].) *)
Theorem propagation_reproduces d fl actor target t bundle d0 fl0 dst now :
  fleet_ok d -> (forall s, In s d.(sites) -> in_range s.(s_id)) -> (forall m, In m d.(monitors) -> in_range m.(m_id)) ->
  (forall m, In m d.(monitors) -> exists s, In s d.(sites) /\ s.(s_id) = m.(m_site) /\ unarchived s = true) ->
  Export Validate encode_request encode_monitor [] actor target t (d, fl) = (Ok bundle, (d0, fl0)) ->
  fleet_ok dst -> (forall s, In s d.(sites) -> org_exists s.(s_org) dst = true) ->
  (forall s x, In s d.(sites) -> site_by_id s.(s_id) dst = Some x -> unarchived x = true) ->
  (forall m x, In m d.(monitors) -> In x dst.(monitors) -> (x.(m_site), x.(m_kind)) = (m.(m_site), m.(m_kind)) -> x.(m_id) = m.(m_id)) ->
  exists dst', apply_all Validate decode_request decode_monitor false bundle now (dst, []) = (Ok tt, (dst', []))
    /\ (forall k, request_at dst' k = match request_at d k with Some p => Some p | None => request_at dst k end)
    /\ (forall k, monitor_at dst' k = match monitor_at d k with Some p => Some p | None => monitor_at dst k end).
Proof using validate_keeps validate_stable request_codec monitor_codec.
  intros F Rs Rm Live H Fd Ho Hu Hc. apply export_bundle in H as (_ & ss & ms & rs & mes & -> & Ps & Pm & Hrs & Hms).
  pose proof (fo_sites _ F) as Ns. pose proof (fo_monitors _ F) as Nm.
  assert (forall s, In s ss <-> In s d.(sites) /\ unarchived s = true) as Iss.
  { intros s. rewrite <- filter_In. split; apply Permutation_in; [done|by symmetry]. }
  assert (forall m, In m ms <-> In m d.(monitors)) as Ims by (intros m; split; apply Permutation_in; [done|by symmetry]).
  destruct (apply_requests d now ss rs Hrs dst Fd) as (d1 & E1 & F1 & M1 & A1 & O1).
  { rewrite (Permutation_map s_id Ps). by apply NoDup_map_filter. }
  { intros s Hs. apply Iss in Hs as [Hs _]. split; auto. }
  { intros s x Hs. apply Iss in Hs as [Hs _]. by apply Hu. }
  assert (forall k, monitor_at d1 k = monitor_at dst k) as Mon1 by (intros k; unfold monitor_at; by rewrite M1).
  destruct (apply_monitors now ms mes Hms d1 F1) as (d2 & E2 & F2 & R2 & A2 & O2).
  { by rewrite (Permutation_map m_id Pm). }
  { rewrite (Permutation_map _ Pm). apply (fo_kinds _ F). }
  { intros m Hm. apply Ims in Hm. split; [auto|]. destruct (Live m Hm) as (s & Hs & Es & Us).
    assert (request_at d1 (m_site m) <> None) as G by (rewrite <- Es; rewrite (A1 s); [done|by apply Iss]).
    unfold site_exists. unfold request_at in G. by destruct (site_by_id _ d1). }
  { intros m k q Hm Hk Hq Heq. rewrite Mon1 in Hq. unfold monitor_at in Hq.
    destruct (find_first _ (monitors dst)) as [x|] eqn:Ex; [|done]. injection Hq as <-. apply find_first_Some in Ex as [Hx Ex].
    apply Z.eqb_eq in Ex. apply Ims in Hm. specialize (Hc m x Hm Hx Heq). congruence. }
  exists d2. split_and!.
  - unfold apply_all in *. rewrite for_each_app. unfold bind at 1. by rewrite E1.
  - intros k. assert (request_at d2 k = request_at d1 k) as -> by (change (request_at (set_monitors [] d2) k = request_at d1 k); by rewrite R2).
    destruct (request_at d k) as [p|] eqn:E.
    + apply request_at_iff in E as (s & Hs & U & <- & <-); [|done]. apply A1. by apply Iss.
    + apply O1. rewrite in_map_iff. intros (s & <- & Hs). apply Iss in Hs as [Hs U].
      assert (request_at d (s_id s) = Some (request_of d s)) by (apply request_at_iff; [done|by exists s]). congruence.
  - intros k. destruct (monitor_at d k) as [q|] eqn:E.
    + unfold monitor_at in E. destruct (find_first _ _) as [m|] eqn:Em in E; [|done]. injection E as <-.
      apply find_first_Some in Em as [Hm Em]. apply Z.eqb_eq in Em as <-. apply A2. by apply Ims.
    + rewrite <- Mon1. apply O2. rewrite in_map_iff. intros (m & <- & Hm). apply Ims in Hm.
      pose proof (monitor_at_In d m Nm Hm). congruence.
Qed.

(** *** Rolling back *)

Lemma fold_insert_lookup {A V} (key : A -> string) (val : A -> V) l (m : gmap string V) k :
  List.fold_left (fun out e => <[key e := val e]> out) l m !! k
  = match find_last (fun e => key e =?s k) l with Some e => Some (val e) | None => m !! k end.
Proof using.
  induction l as [|e l IH] using rev_ind; [done|]. rewrite List.fold_left_app, find_last_app. cbn.
  destruct (String.eqb_spec (key e) k) as [->|N]; [by rewrite lookup_insert_eq|]. by rewrite lookup_insert_ne.
Qed.

Lemma key_inj kind a b : (kind ++ "/" ++ a)%string = (kind ++ "/" ++ b)%string -> a = b.
Proof using. intros H. by apply String.app_inj, String.app_inj in H. Qed.

Lemma snapshot_site d t snap w id : NoDup (List.map s_id d.(sites)) ->
  Snapshot Validate encode_request encode_monitor [] t (d, []) = (Ok snap, w) ->
  match snap !! ("request-definition/" ++ format_int id)%string with
  | Some o => exists s e, In s d.(sites) /\ unarchived s = true /\ s.(s_id) = id /\ o = object_of e /\ site_envelope d s e
  | None => forall s, In s d.(sites) -> s.(s_id) = id -> unarchived s = false
  end.
Proof using validate_keeps validate_stable.
  intros Hn H. unfold Snapshot in H. destruct w as [d' fl']. sql_inv.
  match goal with H : Export _ _ _ _ _ _ _ _ = (Ok _, (_, _)) |- _ => apply export_bundle in H as (_ & ss & ms & rs & mes & -> & Ps & Pm & Hrs & Hms) end.
  rewrite fold_insert_lookup. destruct (find_last _ _) as [e|] eqn:E.
  - apply find_last_Some in E as [He Ek]. apply String.eqb_eq in Ek. apply in_app_or in He as [He|He].
    + destruct (Forall2_in_r _ _ _ _ Hrs He) as (s & Hs & Se). exists s, e. apply (Permutation_in _ Ps), filter_In in Hs as [Hs U].
      split_and!; try done. pose proof Se as [C _]. unfold content in C. injection C as Ck Ci _ _. unfold object_key in Ek. rewrite Ck, Ci in Ek.
      apply (key_inj "request-definition") in Ek. by apply pretty_Z_inj.
    + destruct (Forall2_in_r _ _ _ _ Hms He) as (m & _ & C & _). unfold content in C. injection C as Ck _ _ _. unfold object_key in Ek. by rewrite Ck in Ek.
  - rewrite lookup_empty. intros s Hs <-. destruct (unarchived s) eqn:U; [exfalso|done].
    assert (In s ss) as Hss by (apply (Permutation_in _ (symmetry Ps)), filter_In; done).
    destruct (Forall2_in_l _ _ _ _ Hrs Hss) as (e & He & C & _). unfold content in C. injection C as Ck Ci _ _.
    pose proof (proj1 (find_last_None _ _) E e (in_or_app _ _ _ (or_introl He))) as Hk. cbn in Hk.
    unfold object_key in Hk. rewrite Ck, Ci in Hk. by rewrite String.eqb_refl in Hk.
Qed.

Lemma snapshot_monitor d t snap w id :
  Snapshot Validate encode_request encode_monitor [] t (d, []) = (Ok snap, w) ->
  match snap !! ("monitor-definition/" ++ format_int id)%string with
  | Some o => exists m e, In m d.(monitors) /\ m.(m_id) = id /\ o = object_of e /\ mon_envelope m e
  | None => forall m, In m d.(monitors) -> m.(m_id) <> id
  end.
Proof using validate_keeps validate_stable.
  intros H. unfold Snapshot in H. destruct w as [d' fl']. sql_inv.
  match goal with H : Export _ _ _ _ _ _ _ _ = (Ok _, (_, _)) |- _ => apply export_bundle in H as (_ & ss & ms & rs & mes & -> & Ps & Pm & Hrs & Hms) end.
  rewrite fold_insert_lookup. destruct (find_last _ _) as [e|] eqn:E.
  - apply find_last_Some in E as [He Ek]. apply String.eqb_eq in Ek. apply in_app_or in He as [He|He].
    + destruct (Forall2_in_r _ _ _ _ Hrs He) as (s & _ & C & _). unfold content in C. injection C as Ck _ _ _. unfold object_key in Ek. by rewrite Ck in Ek.
    + destruct (Forall2_in_r _ _ _ _ Hms He) as (m & Hm & Se). exists m, e. apply (Permutation_in _ Pm) in Hm.
      split_and!; try done. pose proof Se as [C _]. unfold content in C. injection C as Ck Ci _ _. unfold object_key in Ek. rewrite Ck, Ci in Ek.
      apply (key_inj "monitor-definition") in Ek. by apply pretty_Z_inj.
  - rewrite lookup_empty. intros m Hm <-. assert (In m ms) as Hmm by by apply (Permutation_in _ (symmetry Pm)).
    destruct (Forall2_in_l _ _ _ _ Hms Hmm) as (e & He & C & _). unfold content in C. injection C as Ck Ci _ _.
    pose proof (proj1 (find_last_None _ _) E e (in_or_app _ _ _ (or_intror He))) as Hk. cbn in Hk.
    unfold object_key in Hk. rewrite Ck, Ci in Hk. by rewrite String.eqb_refl in Hk.
Qed.

(** The envelope a rollback makes of an exported object is valid. *)
Hypothesis rollback_valid : forall e, is_ok (Validate e) = true -> is_ok (Validate (rollback_envelope (object_of e))) = true.

Definition in_range_id (s : string) : Prop := exists id, parse_int s = Some id.
Abbreviation restore := (Restore Validate decode_request decode_monitor false).

Lemma restore_again e now d r d' : in_range_id e.(en_id) -> 1 <= e.(en_revision) ->
  apply false (rollback_envelope (object_of e)) now (d, []) = (Ok r, (d', [])) -> restore (object_of e) now (d, []) = (Ok tt, (d', [])).
Proof using.
  intros [id Hid] Hr H. unfold Restore. cbn [ob_oid object_of ob_revision]. rewrite Hid.
  rewrite (proj2 (Z.eqb_neq (en_revision e) 0)) by lia. cbn [andb]. unfold bind. by rewrite H.
Qed.

Lemma max1_pos v : 1 <= max1 v.
Proof using. unfold max1. destruct (Z.ltb_spec v 1); lia. Qed.

Lemma delete_site_at d id : fleet_ok d -> (forall m, In m d.(monitors) -> m.(m_site) <> id) ->
  let d' := delete_sites (fun s => s.(s_id) =? id) d in
  (forall k, request_at d' k = if k =? id then None else request_at d k) /\ forall k, monitor_at d' k = monitor_at d k.
Proof using.
  intros F Hm d'. split; intros k.
  - unfold request_at, site_by_id. change (sites d') with (del (fun s => s.(s_id) =? id) d.(sites)).
    change (request_of d') with (request_of d). destruct (Z.eqb_spec k id) as [->|N].
    + by rewrite find_first_del_gone.
    + rewrite find_first_del_keep; [done|]. intros s _ E. bool_to_prop. apply Z.eqb_neq. congruence.
  - unfold monitor_at. f_equal. f_equal. unfold d', delete_sites. cbn [monitors set_tags set_hobs set_hexp set_alerts set_incidents set_healths set_checks set_monitors].
    apply del_none. intros m Hin. apply not_true_iff_false. unfold Zmem. rewrite existsb_exists. intros (x & Hx & E).
    apply in_map_iff in Hx as (s & <- & Hs). apply filter_In in Hs as [_ Hs]. bool_to_prop. by apply (Hm m Hin); congruence.
Qed.

Lemma delete_monitor_at d id :
  let d' := delete_monitors (fun m => m.(m_id) =? id) d in
  (forall k, request_at d' k = request_at d k) /\ forall k, monitor_at d' k = if k =? id then None else monitor_at d k.
Proof using.
  split; intros k; [done|]. unfold monitor_at. cbn [monitors delete_monitors set_monitors].
  destruct (Z.eqb_spec k id) as [->|N]; [by rewrite find_first_del_gone|].
  rewrite find_first_del_keep; [done|]. intros m _ E. bool_to_prop. apply Z.eqb_neq. congruence.
Qed.

(** The object a snapshot holds under a key; an absent one is the zero object. *)
Definition prior (snap : gmap string ObjectState) (kind id : string) : ObjectState :=
  default (mk_object kind id "" 0 "" true) (snap !! (kind ++ "/" ++ id)%string).

Lemma rollback_request d t snap w e id now fl r d1 fl1 now' :
  fleet_ok d -> in_range id -> e.(en_kind) = "request-definition" -> e.(en_id) = format_int id ->
  (forall x, site_by_id id d = Some x -> unarchived x = true) ->
  Snapshot Validate encode_request encode_monitor [] t (d, []) = (Ok snap, w) ->
  apply false e now (d, fl) = (Ok r, (d1, fl1)) ->
  exists d2, restore (prior snap e.(en_kind) e.(en_id)) now' (d1, []) = (Ok tt, (d2, []))
    /\ (forall k, request_at d2 k = request_at d k) /\ (forall k, monitor_at d2 k = monitor_at d k).
Proof using validate_keeps validate_stable request_codec rollback_valid.
  intros F Hr Hk Hi Hu Hs Ha. destruct (apply_request_installs _ _ _ _ _ _ _ _ F Hk Ha) as (id' & p & Hid & _ & I).
  rewrite Hi, parse_int_format in Hid by done. injection Hid as <-.
  pose proof (installed_request _ _ _ _ I Hu) as Look. pose proof (snapshot_site _ _ _ _ id (fo_sites _ F) Hs) as S.
  unfold prior. rewrite Hk, Hi. change ("request-definition" ++ "/" ++ format_int id)%string with ("request-definition/" ++ format_int id)%string.
  assert (forall k, monitor_at d1 k = monitor_at d k) as Mon by (intros k; unfold monitor_at; by rewrite (in_monitors _ _ _ _ I)).
  destruct (snap !! _) as [o|]; cbn [default].
  - destruct S as (s & e0 & Hin & U & <- & -> & C & _ & V). unfold content in C. injection C as Ck Ci Cr Cp.
    destruct (apply_request_run (rollback_envelope (object_of e0)) now' d1 s.(s_id) (request_of d s)) as (r2 & d2 & E2 & I2).
    { apply (in_ok _ _ _ _ I). } { done. }
    { apply validates; [by apply rollback_valid|]. left. cbn. by rewrite Ck. }
    { cbn. by rewrite Ci, parse_int_format. } { cbn. by rewrite Cp. }
    { unfold org_exists. rewrite (in_orgs _ _ _ _ I). by apply (fo_org _ F). }
    exists d2. split; [apply (restore_again _ _ _ r2); [exists (s_id s); by rewrite Ci, parse_int_format|rewrite Cr; apply max1_pos|exact E2]|].
    assert (site_by_id (s_id s) d = Some s) as Es.
    { apply find_first_unique; [|done|apply Z.eqb_refl]. intros y Hy E. apply Z.eqb_eq in E. by apply (NoDup_map_inj s_id d.(sites) y s (fo_sites _ F)). }
    split; intros k.
    + rewrite (installed_request _ _ _ _ I2).
      * rewrite Look. destruct (Z.eqb_spec k (s_id s)) as [->|]; [|done]. unfold request_at. rewrite Es. cbn. by rewrite U.
      * intros x Hx. pose proof (in_archived _ _ _ _ I) as A. rewrite Hx, Es in A. cbn in A. injection A as A.
        unfold unarchived in *. by rewrite A.
    + rewrite <- Mon. unfold monitor_at. by rewrite (in_monitors _ _ _ _ I2).
  - assert (site_by_id id d = None) as Abs.
    { destruct (site_by_id id d) as [s|] eqn:E; [|done]. pose proof (Hu s eq_refl) as U. apply site_by_In in E as [Hin Eid].
      by rewrite (S s Hin Eid) in U. }
    destruct (delete_site_at d1 id) as [R M].
    { apply (in_ok _ _ _ _ I). }
    { intros m Hm E. rewrite (in_monitors _ _ _ _ I) in Hm. pose proof (fo_site _ F m Hm) as X. unfold site_exists in X. by rewrite E, Abs in X. }
    exists (delete_sites (fun s => s.(s_id) =? id) d1). split; [|split; intros k].
    + unfold Restore. cbn [ob_oid ob_revision ob_payload ob_kind]. by rewrite parse_int_format.
    + rewrite R, Look. destruct (Z.eqb_spec k id) as [->|]; [|done]. unfold request_at. by rewrite Abs.
    + by rewrite M, Mon.
Qed.

Lemma monitor_at_inv d k q : monitor_at d k = Some q -> exists m, In m d.(monitors) /\ m.(m_id) = k /\ monitor_of m = q.
Proof using.
  unfold monitor_at. destruct (find_first _ _) as [m|] eqn:E; [|done]. intros [= <-]. apply find_first_Some in E as [Hm E].
  apply Z.eqb_eq in E. by exists m.
Qed.

Lemma rollback_monitor d t snap w e id now fl r d1 fl1 now' :
  fleet_ok d -> in_range id -> e.(en_kind) = "monitor-definition" -> e.(en_id) = format_int id ->
  Snapshot Validate encode_request encode_monitor [] t (d, []) = (Ok snap, w) ->
  apply false e now (d, fl) = (Ok r, (d1, fl1)) ->
  exists d2, restore (prior snap e.(en_kind) e.(en_id)) now' (d1, []) = (Ok tt, (d2, []))
    /\ (forall k, request_at d2 k = request_at d k) /\ (forall k, monitor_at d2 k = monitor_at d k).
Proof using validate_keeps validate_stable monitor_codec rollback_valid.
  intros F Hr Hk Hi Hs Ha. destruct (apply_monitor_installs _ _ _ _ _ _ _ _ F Hk Ha) as (id' & p & Hid & _ & I).
  rewrite Hi, parse_int_format in Hid by done. injection Hid as <-.
  pose proof (snapshot_monitor _ _ _ _ id Hs) as S.
  unfold prior. rewrite Hk, Hi. change ("monitor-definition" ++ "/" ++ format_int id)%string with ("monitor-definition/" ++ format_int id)%string.
  assert (forall k, request_at d1 k = request_at d k) as Req.
  { intros k. change (request_at (set_monitors [] d1) k = request_at d k). by rewrite (im_rest _ _ _ _ I). }
  assert (forall k, site_exists k d1 = site_exists k d) as Ex.
  { intros k. change (site_exists k (set_monitors [] d1) = site_exists k d). by rewrite (im_rest _ _ _ _ I). }
  destruct (snap !! _) as [o|]; cbn [default].
  - destruct S as (m & e0 & Hin & <- & -> & C & _ & V). unfold content in C. injection C as Ck Ci Cr Cp.
    destruct (apply_monitor_run (rollback_envelope (object_of e0)) now' d1 m.(m_id) (monitor_of m)) as (r2 & d2 & E2).
    { apply (im_ok _ _ _ _ I). } { done. }
    { apply validates; [by apply rollback_valid|]. right. cbn. by rewrite Ck. }
    { cbn. by rewrite Ci, parse_int_format. } { cbn. by rewrite Cp. }
    { rewrite Ex. by apply (fo_site _ F). }
    { intros x Hx N Heq. pose proof (monitor_at_In d1 x (fo_monitors _ (im_ok _ _ _ _ I)) Hx) as At.
      rewrite (im_other _ _ _ _ I _ N) in At. apply monitor_at_inv in At as (y & Hy & Ey & Eo). apply N.
      assert (m_site y = m_site x /\ m_kind y = m_kind x) as [Y1 Y2] by (unfold monitor_of in Eo; by injection Eo as -> -> _ _ _).
      rewrite <- Ey. f_equal. apply (NoDup_map_inj (fun m => (m_site m, m_kind m)) d.(monitors) y m (fo_kinds _ F)); try done.
      rewrite Y1, Y2. exact Heq. }
    destruct (E2 false) as [E I2]. exists d2.
    split; [apply (restore_again _ _ _ r2); [exists (m_id m); by rewrite Ci, parse_int_format|rewrite Cr; apply max1_pos|exact E]|].
    split; intros k.
    + rewrite <- Req. change (request_at (set_monitors [] d2) k = request_at d1 k). by rewrite (im_rest _ _ _ _ I2).
    + destruct (Z.eq_dec k (m_id m)) as [->|N].
      * rewrite (im_this _ _ _ _ I2). symmetry. by apply monitor_at_In; [apply (fo_monitors _ F)|].
      * by rewrite (im_other _ _ _ _ I2 k N), (im_other _ _ _ _ I k N).
  - destruct (delete_monitor_at d1 id) as [R M].
    exists (delete_monitors (fun m => m.(m_id) =? id) d1). split; [|split; intros k].
    + unfold Restore. cbn [ob_oid ob_revision ob_payload ob_kind]. by rewrite parse_int_format.
    + by rewrite R.
    + rewrite M. destruct (Z.eqb_spec k id) as [->|N]; [|by apply (im_other _ _ _ _ I)].
      symmetry. unfold monitor_at. rewrite (proj2 (find_first_None _ _)); [done|]. intros m Hm. apply Z.eqb_neq. by apply S.
Qed.

(** A rollback restores the definitions.  When an envelope has been applied,
    whatever statements were refused, and the object the snapshot of the tables
    before held under its kind and id is restored, then every site and monitor
    is defined as before, if the envelope did not reach an archived site. *)
Theorem rollback_restores d t snap w e id now fl r d1 fl1 now' :
  fleet_ok d -> in_range id -> In e.(en_kind) Kinds -> e.(en_id) = format_int id ->
  (e.(en_kind) = "request-definition" -> forall x, site_by_id id d = Some x -> unarchived x = true) ->
  Snapshot Validate encode_request encode_monitor [] t (d, []) = (Ok snap, w) ->
  apply false e now (d, fl) = (Ok r, (d1, fl1)) ->
  exists d2, restore (prior snap e.(en_kind) e.(en_id)) now' (d1, []) = (Ok tt, (d2, []))
    /\ (forall k, request_at d2 k = request_at d k) /\ (forall k, monitor_at d2 k = monitor_at d k).
Proof using validate_keeps validate_stable request_codec monitor_codec rollback_valid.
  intros F Hr [Hk|[Hk|[]]] Hi Hu Hs Ha; symmetry in Hk.
  - by eapply rollback_monitor.
  - eapply rollback_request; eauto.
Qed.
End Laws.

(** ** Two nodes *)

#[export] Instance requestPayload_eq_dec : EqDecision requestPayload.
Proof. solve_decision. Defined.
#[export] Instance monitorPayload_eq_dec : EqDecision monitorPayload.
Proof. solve_decision. Defined.
#[export] Instance requestPayload_countable : Countable requestPayload.
Proof.
  refine (inj_countable' (fun p => (rp_org p, rp_name p, rp_url p, rp_enabled p, rp_group p))
    (fun '(a, b, c, d, e) => mk_request_payload a b c d e) _). by intros [].
Defined.
#[export] Instance monitorPayload_countable : Countable monitorPayload.
Proof.
  refine (inj_countable' (fun p => (mp_site p, mp_kind p, mp_timeout p, mp_min p, mp_max p))
    (fun '(a, b, c, d, e) => mk_monitor_payload a b c d e) _). by intros [].
Defined.

(** A codec: the number of a payload, in decimal. *)
Definition demo_encode {A} `{Countable A} (a : A) : string := format_int (Z.pos (encode a)).
Definition demo_decode {A} `{Countable A} (s : string) : result A :=
  match z ← parse_udec s; decode (Z.to_pos z) with Some a => Ok a | None => Err "invalid" end.
Lemma demo_codec {A} `{Countable A} (a : A) : demo_decode (demo_encode a) = Ok a.
Proof. unfold demo_decode, demo_encode. rewrite parse_udec_format by lia. cbn. by rewrite decode_encode. Qed.

Definition demo_source : db :=
  set_orgs [1] (set_groups [mk_group 3 1 "shops" 0 None]
  (set_sites [mk_site 7 1 "shop" "https://shop.example/" true (Some 3) None 0 5 None]
  (set_monitors [mk_monitor 10 7 "http" 10000 200 399 0] empty_db))).
(** The same with an archived site. *)
Definition demo_archived : db :=
  set_sites (demo_source.(sites) ++ [mk_site 8 1 "old" "https://old.example/" true None (Some 4) 0 5 None])%list
  (set_monitors (demo_source.(monitors) ++ [mk_monitor 11 8 "http" 10000 200 399 0])%list demo_source).
Definition demo_fresh : db := set_orgs [1] empty_db.
Definition demo_export (d : db) := Export Ok demo_encode demo_encode [] (mk_actor "user" "1" "") "members" 9 (d, []).
Definition demo_bundle (d : db) : list Envelope := match (demo_export d).1 with Ok b => b | Err _ => [] end.
Definition demo_apply_all (b : list Envelope) (d : db) := apply_all Ok demo_decode demo_decode false b 9 (d, []).

Lemma demo_exported d b : (demo_export d).1 = Ok b -> demo_export d = (Ok (demo_bundle d), (demo_export d).2).
Proof. unfold demo_bundle. intros H. rewrite H. destruct (demo_export d). cbn in H. by subst. Qed.

Definition demo_taken (d : db) : gmap string ObjectState :=
  match (Snapshot Ok demo_encode demo_encode [] 9 (d, [])).1 with Ok s => s | Err _ => ∅ end.
Definition demo_apply (e : Envelope) (d : db) := Apply Ok demo_decode demo_decode false e 9 (d, []).
Definition demo_restore (o : ObjectState) (d : db) := Restore Ok demo_decode demo_decode false o 10 (d, []).

(** A site of the same id, as another node exports it, and the tables after it
    was applied over the archived site. *)
Definition demo_hit : Envelope := mk_env "request-definition" "8" 1 5 "webfleet-local" 9 "members" "source-wins"
  (mk_actor "user" "1" "sites.update") (demo_encode (mk_request_payload 1 "new" "https://new.example/" true "")) [] "".
Definition demo_overwritten : db := (demo_apply demo_hit demo_archived).2.1.

(** Archived sites defeat propagation.  The bundle of a node that has an
    archived site carries the monitors of the site but not the site, and a fresh
    node stops at the foreign key; and rolling back an envelope that reached an
    archived site deletes that site with its monitors. *)
Theorem archived_sites_defeat_propagation :
  (is_ok (demo_export demo_archived).1 = true
   /\ is_ok (demo_apply_all (demo_bundle demo_archived) demo_fresh).1 = false)
  /\ (demo_bundle (set_sites [mk_site 8 1 "new" "https://new.example/" true None None 0 5 None] demo_fresh) = [demo_hit]
      /\ is_ok (demo_apply demo_hit demo_archived).1 = true
      /\ site_exists 8 demo_overwritten = true /\ is_Some (monitor_at demo_overwritten 11))
  /\ (let back := demo_restore (prior (demo_taken demo_archived) demo_hit.(en_kind) demo_hit.(en_id)) demo_overwritten in
      is_ok back.1 = true /\ site_exists 8 back.2.1 = false /\ monitor_at back.2.1 11 = None).
Proof.
  split; [split; vm_compute; reflexivity|]. split; [split_and!; [vm_compute; reflexivity..|vm_compute; by eexists]|].
  split_and!; vm_compute; reflexivity.
Qed.

Lemma demo_source_ok : fleet_ok demo_source.
Proof.
  constructor; try (apply (bool_decide_unpack _); vm_compute; exact I); intros ? [<-|[]]; reflexivity.
Qed.
Lemma demo_fresh_ok : fleet_ok demo_fresh.
Proof. constructor; try (apply (bool_decide_unpack _); vm_compute; exact I); by intros ? []. Qed.
Lemma demo_ranges : (forall s, In s demo_source.(sites) -> in_range s.(s_id)) /\ (forall m, In m demo_source.(monitors) -> in_range m.(m_id)).
Proof. split; intros ? [<-|[]]; unfold in_range, int64_max; cbn; lia. Qed.

Lemma propagation_reproduces_witness :
  exists dst', demo_apply_all (demo_bundle demo_source) demo_fresh = (Ok tt, (dst', []))
    /\ request_at dst' 7 = Some (mk_request_payload 1 "shop" "https://shop.example/" true "shops")
    /\ monitor_at dst' 10 = Some (mk_monitor_payload 7 "http" 10000 200 399).
Proof.
  destruct (propagation_reproduces Ok demo_encode demo_decode demo_encode demo_decode
    (fun e e' H => f_equal content (eq_sym (f_equal (fun r => match r with Ok x => x | Err _ => e end) H)))
    (fun _ _ _ => eq_refl) demo_codec demo_codec demo_source [] (mk_actor "user" "1" "") "members" 9
    (demo_bundle demo_source) demo_source [] demo_fresh 9 demo_source_ok (proj1 demo_ranges) (proj2 demo_ranges)) as (dst' & E & R & M).
  - intros m [<-|[]]. by eexists; split; [left|].
  - vm_compute. reflexivity.
  - apply demo_fresh_ok.
  - by intros s [<-|[]].
  - by intros s x _.
  - by intros m x _ [].
  - exists dst'. split; [exact E|]. split; [rewrite R|rewrite M]; vm_compute; reflexivity.
Defined.

Definition demo_edit : Envelope := mk_env "request-definition" "7" 1 9 "n" 0 "all" "source-wins" (mk_actor "user" "1" "sites.update")
  (demo_encode (mk_request_payload 1 "renamed" "https://new.example/" false "other")) [] "".
Definition demo_edited : db := (demo_apply demo_edit demo_source).2.1.

Lemma demo_snapshot_taken : Snapshot Ok demo_encode demo_encode [] 9 (demo_source, []) = (Ok (demo_taken demo_source), (demo_source, [])).
Proof. vm_compute. reflexivity. Qed.
Lemma demo_edit_applied : demo_apply demo_edit demo_source = (Ok (mk_applied "request-definition" "7" 5 9 true), (demo_edited, [])).
Proof. vm_compute. reflexivity. Qed.

Lemma rollback_restores_witness :
  request_at demo_edited 7 = Some (mk_request_payload 1 "renamed" "https://new.example/" false "other")
  /\ exists d2, Restore Ok demo_decode demo_decode false (prior (demo_taken demo_source) "request-definition" "7") 10 (demo_edited, []) = (Ok tt, (d2, []))
     /\ request_at d2 7 = Some (mk_request_payload 1 "shop" "https://shop.example/" true "shops").
Proof.
  split; [vm_compute; reflexivity|].
  destruct (rollback_restores Ok demo_encode demo_decode demo_encode demo_decode
    (fun e e' H => f_equal content (eq_sym (f_equal (fun r => match r with Ok x => x | Err _ => e end) H)))
    (fun _ _ _ => eq_refl) demo_codec demo_codec (fun _ _ => eq_refl) demo_source 9 (demo_taken demo_source) (demo_source, []) demo_edit 7 9 [] (mk_applied "request-definition" "7" 5 9 true) demo_edited [] 10
    demo_source_ok) as (d2 & E & R & _); [..|exists d2; split; [exact E|rewrite R; vm_compute; reflexivity]].
  - unfold in_range, int64_max. lia.
  - right. left. reflexivity.
  - reflexivity.
  - intros _ x H. vm_compute in H. by injection H as <-.
  - exact demo_snapshot_taken.
  - exact demo_edit_applied.
Defined.

(** In replicated mode an adapter refuses to apply a site, but its rollback of
    an object the snapshot did not hold deletes one all the same. *)
Example replicated_rollback_deletes_a_site :
  is_ok (Apply Ok demo_decode demo_decode true demo_edit 9 (demo_source, [])).1 = false
  /\ site_exists 7 (Restore Ok demo_decode demo_decode true (mk_object "request-definition" "7" "" 0 "" true) 9 (demo_source, [])).2.1 = false.
Proof. vm_compute. split; reflexivity. Qed.
