(* ===== verification/Geo.v ===== *)
(** The country database ([internal/geo/geo.go]): the rows of the file as sorted
    address ranges, the lookup by binary search, networks as ranges, and the
    manager that installs and refreshes the file.

    Parameters: the CSV reader, whose records end with an error or the end of
    the file; [netip.ParseAddr], [netip.ParsePrefix] and [Addr.String]; gzip;
    the text of instants.  The download and each operation on the disk may
    fail; one refresh runs at a time. *)
From Stdlib Require Import Sorting.Sorted.
From S2P Require Import Prelude GoStr TimeText Netguard.
Open Scope string_scope.
Open Scope Z_scope.
Open Scope wf_scope.

(** ** Definitions *)

(** *** Addresses ([net/netip]) *)

(** [Addr.Compare]: by length, then value, then zone. *)
Definition addr_cmp (a b : addr) : comparison :=
  match a, b with
  | V4 x, V4 y => Z.compare x y
  | V4 _, V6 _ _ => Lt
  | V6 _ _, V4 _ => Gt
  | V6 x z, V6 y z' => match Z.compare x y with Eq => String.compare z z' | c => c end
  end.
Definition is_lt (c : comparison) : bool := match c with Lt => true | _ => false end.
Definition is_gt (c : comparison) : bool := match c with Gt => true | _ => false end.
Definition Less (a b : addr) : bool := is_lt (addr_cmp a b).
Definition Is4 (a : addr) : bool := match a with V4 _ => true | V6 _ _ => false end.
Definition bit_len (a : addr) : Z := if Is4 a then 32 else 128.
Definition value (a : addr) : Z := match a with V4 x | V6 x _ => x end.
Definition with_value (a : addr) (v : Z) : addr := match a with V4 _ => V4 v | V6 _ _ => V6 v "" end.

(** [Prefix.Masked]. *)
Definition Masked (p : prefix) : prefix :=
  let host := bit_len p.(p_addr) - p.(p_bits) in
  mk_prefix (with_value p.(p_addr) (Z.shiftl (Z.shiftr (value p.(p_addr)) host) host)) p.(p_bits).

(** [AsSlice], the last byte first, and back. *)
Fixpoint slice_rev (n : nat) (a : Z) : list Z :=
  match n with O => [] | S n => Z.land a 255 :: slice_rev n (Z.shiftr a 8) end.
Fixpoint from_slice (rb : list Z) : Z :=
  match rb with [] => 0 | b :: rb => Z.lor b (Z.shiftl (from_slice rb) 8) end.

(** The loop of [lastAddr], from the last byte on. *)
Fixpoint fill (rb : list Z) (host : Z) : list Z :=
  match rb with
  | [] => []
  | b :: rb' =>
      if host <=? 0 then rb else
      let n := if 8 <? host then 8 else host in
      Z.lor b (Z.shiftr 255 (8 - n)) :: fill rb' (host - n)
  end.
Definition lastAddr (p : prefix) : addr :=
  let a := p.(p_addr) in
  with_value a (from_slice (fill (slice_rev (if Is4 a then 4 else 16) (value a)) (bit_len a - p.(p_bits)))).

(** *** The database *)

Record rangeEntry := mk_range { start : addr; end_ : addr; country : string }.
Record DB := mk_DB { db_v4 : list rangeEntry; db_v6 : list rangeEntry }.
Definition Ranges (d : DB) : Z := Z.of_nat (length d.(db_v4) + length d.(db_v6)).

Definition range_less (a b : rangeEntry) : bool := Less a.(start) b.(start).
Definition add_range (e : rangeEntry) (d : DB) : DB :=
  if Is4 e.(start) then mk_DB (d.(db_v4) ++ [e]) d.(db_v6) else mk_DB d.(db_v4) (d.(db_v6) ++ [e]).
(** The index: both families sorted by their first address. *)
Definition index (d : DB) : DB := mk_DB (sort_less range_less d.(db_v4)) (sort_less range_less d.(db_v6)).

(** [sort.Search]: the loop, with the distance as fuel. *)
Fixpoint search_loop (fuel : nat) (f : nat -> bool) (i j : nat) : nat :=
  match fuel with
  | O => i
  | S fuel =>
      if (i <? j)%nat then
        let h := Nat.div2 (i + j) in
        if f h then search_loop fuel f i h else search_loop fuel f (S h) j
      else i
  end.
Definition Search (n : nat) (f : nat -> bool) : nat := search_loop n f 0 n.

Section Parsing.
Variable ParseAddr : string -> option addr.
Variable ParsePrefix : string -> option prefix.
Variable addr_string : addr -> string.
(** [csv.Reader.Read] until the end of the file; an error ends it too. *)
Variable records : string -> list (result (list string)).

Definition range_of (s e c : string) : option rangeEntry :=
  if (s =?s "") || (e =?s "") || negb (len c =? 2) then None else
  match ParseAddr s, ParseAddr e with
  | Some sa, Some ea => Some (mk_range sa ea c)
  | _, _ => None
  end.

(** One record: its range, if it has one. *)
Definition row_range (row : list string) : result (option rangeEntry) :=
  match row with
  | f0 :: f1 :: f2 :: _ =>
      if contains f0 "/" then
        match ParsePrefix f0 with
        | None => Err ("geoip csv: bad network " ++ f0)
        | Some p => let p := Masked p in Ok (range_of (addr_string p.(p_addr)) (addr_string (lastAddr p)) f2)
        end
      else Ok (range_of f0 f1 f2)
  | _ => Ok None
  end.

Definition is_heading (row : list string) : bool :=
  match row with f0 :: _ => equal_fold f0 "start_ip" || equal_fold f0 "network" | [] => false end.

Fixpoint parse_rows (first : bool) (rows : list (result (list string))) (d : DB) : result DB :=
  match rows with
  | [] => Ok d
  | Err e :: _ => Err ("geoip csv: " ++ e)
  | Ok row :: rows =>
      if first && is_heading row then parse_rows false rows d else
      match row_range row with
      | Err e => Err e
      | Ok None => parse_rows false rows d
      | Ok (Some r) => parse_rows false rows (add_range r d)
      end
  end.

Definition ParseCSV (text : string) : result DB :=
  match parse_rows true (records text) (mk_DB [] []) with
  | Err e => Err e
  | Ok d => if (length d.(db_v4) + length d.(db_v6) =? 0)%nat then Err "geoip csv: no valid country ranges" else Ok (index d)
  end.

Definition lookup_in (l : list rangeEntry) (a : addr) : string :=
  let i := Search (length l) (fun i => match nth_error l i with Some e => is_gt (addr_cmp e.(start) a) | None => false end) in
  match i with
  | O => ""
  | S i => match nth_error l i with
           | Some e => if is_gt (addr_cmp a e.(end_)) then "" else e.(country)
           | None => ""
           end
  end.
Definition Lookup (d : DB) (ip : string) : string :=
  match ParseAddr ip with
  | None => ""
  | Some a => lookup_in (if Is4 a then d.(db_v4) else d.(db_v6)) a
  end.

(** *** The manager *)

(** The files of the database: the CSV, its replacement while it is written,
    and the time of the last install. *)
Record disk := mk_disk { f_csv : option string; f_tmp : option string; f_updated : option string }.
Record Manager := mk_manager { m_db : option DB; m_updated : string }.

(** What the operations of a refresh on the disk do: [None] works, [Some s]
    fails and leaves [s] in the file. *)
Record io := mk_io { mkdir_ok : bool; tmp_write : option string; rename_ok : bool; updated_write : option string }.

(** [gzip]: the decompressed bytes of a payload. *)
Variable gunzip : string -> result string.
(** The RFC 3339 text of an instant, to the second, and back. *)
Variable format_time : Z -> string.
Variable parse_time : string -> option Z.

Definition isGzipBytes (b : string) : bool :=
  (2 <? len b) && has_prefix b (String (ascii_of_N 31) (String (ascii_of_N 139) "")).
Definition decompressPayload (body : string) : result string :=
  if isGzipBytes body then match gunzip body with Ok s => Ok s | Err e => Err ("geoip gzip: " ++ e) end else Ok body.
Definition parsePayload (body : string) : result DB :=
  match decompressPayload body with Ok s => ParseCSV s | Err e => Err e end.

Definition isGzip (path : string) : bool := has_suffix (to_lower path) ".gz".
Definition dbName : string := "dbip-country-lite.csv".
(** [LoadCSV], the content of the file given. *)
Definition LoadCSV (path : string) (content : option string) : result DB :=
  match content with
  | None => Err "no such file"
  | Some text => if isGzip path then match gunzip text with Ok s => ParseCSV s | Err e => Err ("read gzip: " ++ e) end
                 else ParseCSV text
  end.

Definition refreshInterval : Z := 30 * 24 * hour.
Definition NeedsRefresh (m : Manager) (now : Z) : bool :=
  match m.(m_db) with
  | None => true
  | Some _ =>
      if m.(m_updated) =?s "" then true else
      match parse_time m.(m_updated) with
      | None => true
      | Some t => refreshInterval <=? now - t
      end
  end.

Definition LoadExisting (m : Manager) (d : disk) : bool * Manager :=
  let upd := match d.(f_updated) with Some s => trim_space s | None => m.(m_updated) end in
  match LoadCSV dbName d.(f_csv) with
  | Ok db => (true, mk_manager (Some db) upd)
  | Err _ => (false, mk_manager None upd)
  end.

(** [fetch]; [response] is the answer to the download, or [None] when the URL
    makes no request. *)
Definition fetch (url : string) (response : option (result (Z * result string))) (f : io) (now : Z)
    (m : Manager) (d : disk) : result unit * (Manager * disk) :=
  let fail e := (Err e, (m, d)) in
  if url =?s "" then fail "no GeoIP database URL configured" else
  match response with
  | None => fail "invalid URL"
  | Some (Err e) => fail e
  | Some (Ok (status, body)) =>
      if negb (status =? 200) then fail ("geoip download " ++ format_int status) else
      match body with
      | Err e => fail e
      | Ok body =>
          match decompressPayload (limit_read (2 ^ 28) body) with
          | Err e => fail e
          | Ok plain =>
              match ParseCSV plain with
              | Err e => fail ("geoip payload invalid: " ++ e)
              | Ok db =>
                  if negb f.(mkdir_ok) then fail "mkdir" else
                  match f.(tmp_write) with
                  | Some part => (Err "write", (m, mk_disk d.(f_csv) (Some part) d.(f_updated)))
                  | None =>
                      if negb f.(rename_ok) then (Err "rename", (m, mk_disk d.(f_csv) None d.(f_updated))) else
                      let text := format_time now in
                      (Ok tt, (mk_manager (Some db) text,
                        mk_disk (Some plain) None (Some (match f.(updated_write) with None => text | Some part => part end))))
                  end
              end
          end
      end
  end.

Definition Update := fetch.
Definition EnsureCurrent (url : string) (response : option (result (Z * result string))) (f : io) (now : Z)
    (m : Manager) (d : disk) : result unit * (Manager * disk) :=
  if NeedsRefresh m now then fetch url response f now m d else (Ok tt, (m, d)).
End Parsing.

(** ** Lemmas *)

(** *** Order of addresses *)

Lemma ascii_cmp_lt_trans a b c : Ascii.compare a b = Lt -> Ascii.compare b c = Lt -> Ascii.compare a c = Lt.
Proof. unfold Ascii.compare. rewrite !N.compare_lt_iff. lia. Qed.

Lemma string_cmp_refl s : String.compare s s = Eq.
Proof. pose proof (String.compare_antisym s s) as H. by destruct (String.compare s s). Qed.

Lemma string_cmp_lt_trans a b c : String.compare a b = Lt -> String.compare b c = Lt -> String.compare a c = Lt.
Proof.
  revert b c. induction a as [|x a IH]; intros [|y b] [|z c]; cbn; try done.
  destruct (Ascii.compare x y) eqn:E1; try done; destruct (Ascii.compare y z) eqn:E2; try done.
  - apply Ascii.compare_eq_iff in E1, E2. subst. intros H1 H2.
    replace (Ascii.compare z z) with Eq by (unfold Ascii.compare; by rewrite N.compare_refl). by eapply IH.
  - apply Ascii.compare_eq_iff in E1. subst. by rewrite E2.
  - apply Ascii.compare_eq_iff in E2. subst. by rewrite E1.
  - by rewrite (ascii_cmp_lt_trans _ _ _ E1 E2).
Qed.

Lemma addr_cmp_antisym a b : addr_cmp b a = CompOpp (addr_cmp a b).
Proof.
  destruct a as [x|x z], b as [y|y z']; cbn; try done; rewrite (Z.compare_antisym x y); [done|].
  destruct (x ?= y); cbn; [apply String.compare_antisym|done..].
Qed.
Lemma addr_cmp_eq a b : addr_cmp a b = Eq -> a = b.
Proof.
  destruct a as [x|x z], b as [y|y z']; cbn; try done.
  - intros H. by apply Z.compare_eq in H as ->.
  - destruct (x ?= y) eqn:E; try done. apply Z.compare_eq in E as ->. intros H. by apply String.compare_eq_iff in H as ->.
Qed.
Lemma addr_cmp_refl a : addr_cmp a a = Eq.
Proof. destruct a; cbn; rewrite Z.compare_refl; [done|]. apply string_cmp_refl. Qed.
Lemma addr_lt_trans a b c : addr_cmp a b = Lt -> addr_cmp b c = Lt -> addr_cmp a c = Lt.
Proof.
  destruct a as [x|x z1], b as [y|y z2], c as [w|w z3]; cbn; try done.
  - rewrite !Z.compare_lt_iff. lia.
  - destruct (x ?= y) eqn:E1; try done; destruct (y ?= w) eqn:E2; try done.
    + apply Z.compare_eq in E1, E2. subst. rewrite Z.compare_refl. apply string_cmp_lt_trans.
    + apply Z.compare_eq in E1. subst. by rewrite E2.
    + apply Z.compare_eq in E2. subst. by rewrite E1.
    + rewrite Z.compare_lt_iff in E1, E2. by replace (x ?= w) with Lt by (symmetry; apply Z.compare_lt_iff; lia).
Qed.

(** [a <= b]. *)
Definition le (a b : addr) : Prop := addr_cmp a b <> Gt.
Lemma le_or_gt a b : is_gt (addr_cmp a b) = true \/ le a b.
Proof. unfold le. destruct (addr_cmp a b); auto; by right. Qed.
Lemma le_gt a b : is_gt (addr_cmp a b) = false <-> le a b.
Proof. unfold le. by destruct (addr_cmp a b). Qed.
Lemma gt_lt a b : addr_cmp a b = Gt <-> addr_cmp b a = Lt.
Proof. rewrite addr_cmp_antisym. by destruct (addr_cmp b a). Qed.
Lemma le_trans a b c : le a b -> le b c -> le a c.
Proof.
  unfold le. intros H1 H2 H3. apply gt_lt in H3. destruct (addr_cmp a b) eqn:E1; [|clear H1|done].
  - apply addr_cmp_eq in E1. subst. by apply gt_lt in H3.
  - apply H2, gt_lt. eapply addr_lt_trans; eassumption.
Qed.
Lemma le_total a b : le a b \/ le b a.
Proof. unfold le. rewrite (addr_cmp_antisym a b). destruct (addr_cmp a b); cbn; auto; by left. Qed.
Lemma lt_le a b : addr_cmp a b = Lt -> le a b.
Proof. unfold le. by intros ->. Qed.
Lemma le_lt_eq a b : le a b -> addr_cmp a b = Lt \/ a = b.
Proof. unfold le. destruct (addr_cmp a b) eqn:E; [|by left|done]. intros _. right. by apply addr_cmp_eq. Qed.

(** *** Binary search *)

(** The index is the first one at which a monotone test holds. *)
Lemma search_loop_spec f n : (forall i j, (i <= j < n)%nat -> f i = true -> f j = true) ->
  forall fuel i j, (j <= n)%nat -> (i <= j)%nat -> (j - i <= fuel)%nat ->
  (forall k, (k < i)%nat -> f k = false) -> (forall k, (j <= k < n)%nat -> f k = true) ->
  let r := search_loop fuel f i j in
  (r <= n)%nat /\ (forall k, (k < r)%nat -> f k = false) /\ (forall k, (r <= k < n)%nat -> f k = true).
Proof.
  intros Mono. induction fuel as [|fuel IH]; intros i j Hj Hij Hf Lo Hi; cbn [search_loop]; cbv zeta.
  { assert (i = j) as -> by lia. by split_and!. }
  destruct (Nat.ltb_spec i j) as [L|L]; [|assert (i = j) as -> by lia; by split_and!].
  set (h := Nat.div2 (i + j)). assert (i <= h < j)%nat as Hh.
  { unfold h. rewrite Nat.div2_div. split; [apply Nat.div_le_lower_bound; lia|apply Nat.Div0.div_lt_upper_bound; lia]. }
  destruct (f h) eqn:E; apply IH; try lia; try done.
  - intros k Hk. apply (Mono h k); [lia|done].
  - intros k Hk. destruct (f k) eqn:Ek; [|done]. rewrite <- E. symmetry. apply (Mono k h); [lia|done].
Qed.

Lemma Search_spec f n : (forall i j, (i <= j < n)%nat -> f i = true -> f j = true) ->
  (Search n f <= n)%nat /\ (forall k, (k < Search n f)%nat -> f k = false) /\ (forall k, (Search n f <= k < n)%nat -> f k = true).
Proof. intros Mono. apply search_loop_spec; try lia; try done. all: intros; lia. Qed.

(** *** Sorted ranges *)

Definition starts_le (x y : rangeEntry) : Prop := le x.(start) y.(start).

Lemma insert_sorted_range x l : StronglySorted starts_le l -> StronglySorted starts_le (insert_less range_less x l).
Proof.
  induction 1 as [|y l Hs IH Hy]; cbn; [by repeat constructor|]. unfold range_less, Less.
  destruct (addr_cmp (start x) (start y)) eqn:E; cbn.
  - constructor; [exact IH|]. rewrite insert_less_perm. constructor; [|done]. apply addr_cmp_eq in E. unfold starts_le, le.
    by rewrite E, addr_cmp_refl.
  - constructor; [by constructor|]. constructor; [by apply lt_le|].
    eapply Forall_impl; [exact Hy|]. intros z. apply le_trans. by apply lt_le.
  - constructor; [exact IH|]. rewrite insert_less_perm. constructor; [|done]. apply gt_lt in E. by apply lt_le.
Qed.

Lemma sort_sorted_range l : StronglySorted starts_le (sort_less range_less l).
Proof.
  unfold sort_less. cut (forall acc, StronglySorted starts_le acc ->
    StronglySorted starts_le (List.fold_left (fun acc x => insert_less range_less x acc) l acc)); [intros H; by apply H; constructor|].
  induction l as [|x l IH]; intros acc Ha; [done|]. cbn. by apply IH, insert_sorted_range.
Qed.

Lemma sorted_nth {A} (R : A -> A -> Prop) l i j x y : StronglySorted R l -> (i < j)%nat ->
  nth_error l i = Some x -> nth_error l j = Some y -> R x y.
Proof.
  intros Hs. revert i j. induction Hs as [|z l Hs IH Hz]; intros i j Hij Hi Hj; [by destruct i|].
  destruct i as [|i], j as [|j]; try lia; cbn in *.
  - injection Hi as ->. apply nth_error_In in Hj. rewrite Forall_forall in Hz. apply Hz. by apply list_elem_of_In.
  - eapply IH; [|eassumption..]. lia.
Qed.

(** An address is in a range. *)
Definition covers (a : addr) (e : rangeEntry) : bool :=
  negb (is_gt (addr_cmp e.(start) a)) && negb (is_gt (addr_cmp a e.(end_))).
Lemma covers_le a e : covers a e = true <-> le e.(start) a /\ le a e.(end_).
Proof. unfold covers. rewrite andb_true_iff, !negb_true_iff, !le_gt. done. Qed.

(** No address is in two different ranges, and no range is empty. *)
Definition disjoint (l : list rangeEntry) : Prop :=
  (forall e, In e l -> le e.(start) e.(end_))
  /\ forall x y a, In x l -> In y l -> covers a x = true -> covers a y = true -> x = y.

Definition scan (l : list rangeEntry) (a : addr) : string :=
  match find_first (covers a) l with Some e => e.(country) | None => "" end.

Lemma scan_found l a e : disjoint l -> In e l -> covers a e = true -> scan l a = e.(country).
Proof.
  intros [_ D] He Hc. unfold scan. rewrite (find_first_unique _ _ e); [done| |done|done].
  intros y Hy Hyc. by apply (D y e a).
Qed.
Lemma scan_none l a : (forall e, In e l -> covers a e = false) -> scan l a = "".
Proof. intros H. unfold scan. by rewrite (proj2 (find_first_None _ _) H). Qed.

Lemma lookup_scan l a : disjoint l -> lookup_in (sort_less range_less l) a = scan l a.
Proof.
  intros D. set (s := sort_less range_less l). pose proof (sort_sorted_range l : StronglySorted starts_le s) as Hs.
  assert (forall e, In e s <-> In e l) as Mem by (intros e; split; apply Permutation_in; [|symmetry]; apply sort_less_perm).
  set (f := fun i => match nth_error s i with Some e => is_gt (addr_cmp (start e) a) | None => false end).
  destruct (Search_spec f (length s)) as (Hle & Lo & Hi).
  { unfold f. intros i j Hij Hfi. destruct (nth_error s j) as [y|] eqn:Ej; [|apply nth_error_None in Ej; lia].
    destruct (nth_error s i) as [x|] eqn:Ei; [|done]. destruct (Nat.eq_dec i j) as [->|N]; [congruence|].
    assert (starts_le x y) as Hxy by (apply (sorted_nth _ s i j); [done|lia|done|done]).
    destruct (le_or_gt (start y) a) as [|L]; [done|]. pose proof (le_trans _ _ _ Hxy L) as L'. apply le_gt in L'. congruence. }
  unfold lookup_in. fold f. set (i := Search (length s) f) in *.
  assert (forall j e, nth_error s j = Some e -> covers a e = true -> (j < i)%nat) as Below.
  { intros j e Ej Hc. destruct (le_lt_dec i j) as [L|]; [|done].
    assert (f j = true) as Hf by (apply Hi; split; [done|]; apply nth_error_Some; congruence).
    unfold f in Hf. rewrite Ej in Hf. apply covers_le in Hc as [Hc _]. apply le_gt in Hc. congruence. }
  destruct i as [|k] eqn:Ek.
  { symmetry. apply scan_none. intros e He. apply Mem, In_nth_error in He as [j Ej]. apply not_true_iff_false. intros Hc.
    specialize (Below j e Ej Hc). lia. }
  destruct (nth_error s k) as [e|] eqn:Ee; [|apply nth_error_None in Ee; lia].
  assert (In e l) as He by (apply Mem; by eapply nth_error_In).
  assert (le (start e) a) as Hsa by (specialize (Lo k ltac:(lia)); unfold f in Lo; rewrite Ee in Lo; by apply le_gt).
  destruct (is_gt (addr_cmp a (end_ e))) eqn:G.
  - symmetry. apply scan_none. intros x Hx. apply not_true_iff_false. intros Hc. pose proof Hx as Hx'.
    apply Mem, In_nth_error in Hx as [j Ej]. pose proof (Below j x Ej Hc) as Hj.
    assert (x = e) as ->.
    { destruct (Nat.eq_dec j k) as [->|N]; [congruence|]. destruct D as [W D]. apply (D x e (start e) Hx' He).
      - apply covers_le. apply covers_le in Hc as [_ Hc]. split; [|by eapply le_trans].
        change (starts_le x e). apply (sorted_nth _ s j k); [done|lia|done|done].
      - apply covers_le. split; [unfold le; by rewrite addr_cmp_refl|by apply W]. }
    apply covers_le in Hc as [_ Hc]. apply le_gt in Hc. congruence.
  - symmetry. apply scan_found; [done..|]. apply covers_le. split; [done|]. by apply le_gt.
Qed.

(** *** The file *)

Section Files.
Variable ParseAddr : string -> option addr.
Variable ParsePrefix : string -> option prefix.
Variable addr_string : addr -> string.
Variable records : string -> list (result (list string)).

Abbreviation ranges_row := (row_range ParseAddr ParsePrefix addr_string).

(** The ranges of the records, in the order of the file. *)
Fixpoint ranges_of (first : bool) (rows : list (result (list string))) : list rangeEntry :=
  match rows with
  | Ok row :: rows =>
      if first && is_heading row then ranges_of false rows
      else match ranges_row row with Ok (Some r) => r :: ranges_of false rows | _ => ranges_of false rows end
  | _ => []
  end.

Lemma parse_rows_ranges rows first d d' : parse_rows ParseAddr ParsePrefix addr_string first rows d = Ok d' ->
  d'.(db_v4) = (d.(db_v4) ++ List.filter (fun e => Is4 e.(start)) (ranges_of first rows))%list
  /\ d'.(db_v6) = (d.(db_v6) ++ List.filter (fun e => negb (Is4 e.(start))) (ranges_of first rows))%list.
Proof using.
  revert first d. induction rows as [|[row|e] rows IH]; intros first d; cbn; [|destruct (first && is_heading row); [apply IH|]|done].
  - intros [= <-]. by rewrite !app_nil_r.
  - destruct (row_range _ _ _ row) as [[r|]|e]; [|apply IH|done]. intros H. apply IH in H as [-> ->].
    cbn. unfold add_range. by destruct (Is4 (start r)); cbn; rewrite <- ?app_assoc.
Qed.

Definition same_family (e : rangeEntry) : Prop := Is4 e.(start) = Is4 e.(end_).

Lemma covers_family a e : same_family e -> covers a e = true -> Is4 e.(start) = Is4 a.
Proof using.
  unfold same_family, covers. destruct e as [[x|x z] [y|y z'] c], a as [w|w z2]; cbn; try done.
Qed.

Lemma disjoint_filter p l : disjoint l -> disjoint (List.filter p l).
Proof using.
  intros [W D]. split.
  - intros e He. apply filter_In in He as [He _]. by apply W.
  - intros x y a Hx Hy. apply filter_In in Hx as [Hx _], Hy as [Hy _]. by apply D.
Qed.

Lemma scan_family l a : (forall e, In e l -> same_family e) ->
  scan (List.filter (fun e => eqb (Is4 e.(start)) (Is4 a)) l) a = scan l a.
Proof using.
  intros F. unfold scan. enough (find_first (covers a) (List.filter (fun e => eqb (Is4 e.(start)) (Is4 a)) l) = find_first (covers a) l) as ->; [done|].
  unfold find_first. induction l as [|e l IH]; [done|]. cbn.
  assert (List.find (covers a) (List.filter (fun e => eqb (Is4 (start e)) (Is4 a)) l) = List.find (covers a) l) as IH' by
    (apply IH; intros x Hx; apply F; by right).
  destruct (eqb (Is4 (start e)) (Is4 a)) eqn:E; cbn; [by rewrite IH'|]. rewrite IH'.
  destruct (covers a e) eqn:C; [|done]. apply covers_family in C; [|by apply F; left]. rewrite C in E. by rewrite eqb_reflx in E.
Qed.

(** C32: a lookup finds the country of the address.  In a database whose ranges are
    not empty, stay in one address family and do not overlap, the answer of the
    binary search is that of a scan of the file: the country of the range that
    holds the address, or nothing when no range does. *)
Theorem lookup_is_a_scan text d ip a :
  ParseCSV ParseAddr ParsePrefix addr_string records text = Ok d -> ParseAddr ip = Some a ->
  (forall e, In e (ranges_of true (records text)) -> same_family e) -> disjoint (ranges_of true (records text)) ->
  Lookup ParseAddr d ip = scan (ranges_of true (records text)) a.
Proof using.
  intros H Ha F D. unfold ParseCSV in H. destruct (parse_rows _ _ _ _ _ _) as [d'|] eqn:E in H; [|done].
  destruct (_ =? 0)%nat in H; [done|]. injection H as <-. apply parse_rows_ranges in E as [E4 E6]. cbn [db_v4 db_v6 app] in E4, E6.
  unfold Lookup. rewrite Ha. cbn [db_v4 db_v6 index]. rewrite E4, E6, <- (scan_family _ a F).
  destruct (Is4 a) eqn:A; rewrite lookup_scan by by apply disjoint_filter.
  all: f_equal; try (apply List.filter_ext; intros e; by destruct (Is4 (start e))).
Qed.
End Files.

(** *** Networks as ranges *)

Fixpoint val (rb : list Z) : Z := match rb with [] => 0 | b :: rb => b + 256 * val rb end.
Definition bytes (rb : list Z) : Prop := Forall (fun b => 0 <= b < 256) rb.

Lemma val_range rb : bytes rb -> 0 <= val rb < 256 ^ Z.of_nat (length rb).
Proof.
  induction 1 as [|b rb Hb _ IH]; cbn [val length]; [done|]. rewrite Nat2Z.inj_succ, Z.pow_succ_r by lia. lia.
Qed.

Lemma lor_low b h : 0 <= b < 256 -> Z.lor b (Z.shiftl h 8) = b + 256 * h.
Proof.
  intros Hb. pose proof (Z.add_lor_land b (Z.shiftl h 8)) as H. rewrite Z.shiftl_mul_pow2 in * by lia.
  assert (Z.land b (h * 2 ^ 8) = 0) as E; [|change (2 ^ 8) with 256 in *; lia].
  replace b with (Z.land b (Z.ones 8)) by (rewrite Z.land_ones by lia; by apply Z.mod_small).
  rewrite <- Z.land_assoc, (Z.land_comm (Z.ones 8)), Z.land_ones, Z.mod_mul by done. apply Z.land_0_r.
Qed.

Lemma from_slice_val rb : bytes rb -> from_slice rb = val rb.
Proof. induction 1 as [|b rb Hb _ IH]; [done|]. cbn [from_slice val]. by rewrite lor_low, IH. Qed.

Lemma slice_bytes n a : bytes (slice_rev n a).
Proof.
  revert a. induction n as [|n IH]; intros a; constructor; [|apply IH]. rewrite land_255. by apply Z.mod_pos_bound.
Qed.
Lemma slice_length n a : length (slice_rev n a) = n.
Proof. revert a. induction n as [|n IH]; intros a; cbn; [done|]. by rewrite IH. Qed.
Lemma slice_val n a : 0 <= a < 256 ^ Z.of_nat n -> val (slice_rev n a) = a.
Proof.
  revert a. induction n as [|n IH]; intros a Ha; [cbn in *; lia|]. cbn [slice_rev val].
  rewrite Nat2Z.inj_succ, Z.pow_succ_r in Ha by lia. rewrite land_255, Z.shiftr_div_pow2 by lia. change (2 ^ 8) with 256.
  rewrite IH.
  - pose proof (Z.div_mod a 256 ltac:(lia)). lia.
  - split; [apply Z.div_pos; lia|]. apply Z.div_lt_upper_bound; lia.
Qed.

Lemma byte_fill b n : 0 <= b < 256 -> 0 <= n <= 8 -> Z.lor b (Z.shiftr 255 (8 - n)) = b / 2 ^ n * 2 ^ n + (2 ^ n - 1).
Proof.
  intros Hb Hn.
  assert (forallb (fun n => forallb (fun b => Z.lor b (Z.shiftr 255 (8 - n)) =? b / 2 ^ n * 2 ^ n + (2 ^ n - 1)) (zseq 256 0)) (zseq 9 0) = true)
    as K by (vm_compute; reflexivity).
  rewrite forallb_forall in K. specialize (K n (in_zseq 9 0 n ltac:(lia))). rewrite forallb_forall in K.
  specialize (K b (in_zseq 256 0 b ltac:(lia))). by apply Z.eqb_eq in K.
Qed.

(** The loop sets the host bits and no others. *)
Lemma fill_val rb host : bytes rb -> 0 <= host <= 8 * Z.of_nat (length rb) ->
  bytes (fill rb host) /\ val (fill rb host) = val rb / 2 ^ host * 2 ^ host + (2 ^ host - 1).
Proof.
  intros Hb. revert host. induction Hb as [|b rb Hb Hbs IH]; intros host Hh; cbn [fill].
  { cbn in Hh. assert (host = 0) as -> by lia. split; [constructor|done]. }
  destruct (Z.leb_spec host 0) as [L|L].
  { assert (host = 0) as -> by lia. split; [by constructor|]. rewrite Z.pow_0_r, Z.div_1_r. lia. }
  cbn [length] in Hh. set (n := if 8 <? host then 8 else host).
  assert (0 <= n <= 8 /\ (n = 8 /\ 8 <= host \/ n = host)) as [Hn Hc] by (unfold n; destruct (Z.ltb_spec 8 host); lia).
  clearbody n. assert (0 < 2 ^ n) as Pn by (apply Z.pow_pos_nonneg; lia).
  destruct (IH (host - n)) as [Hf Hv]; [lia|].
  pose proof (byte_fill b n Hb Hn) as Bf. split.
  - constructor; [|done]. rewrite Bf. assert (2 ^ n <= 256) by (change 256 with (2 ^ 8); apply Z.pow_le_mono_r; lia).
    pose proof (Z.div_pos b (2 ^ n) ltac:(lia) Pn). split; [nia|].
    assert (b / 2 ^ n < 2 ^ (8 - n)) by (apply Z.div_lt_upper_bound; [done|]; rewrite <- Z.pow_add_r by lia; replace (n + (8 - n)) with 8 by lia; lia).
    assert (2 ^ n * 2 ^ (8 - n) = 256) by (rewrite <- Z.pow_add_r by lia; by replace (n + (8 - n)) with 8 by lia). nia.
  - cbn [val]. rewrite Bf, Hv. destruct Hc as [[-> H8]| ->].
    + assert (2 ^ host = 256 * 2 ^ (host - 8)) as -> by (change 256 with (2 ^ 8); rewrite <- Z.pow_add_r by lia; f_equal; lia).
      assert (0 < 2 ^ (host - 8)) as Pp by (apply Z.pow_pos_nonneg; lia). change (2 ^ 8) with 256 in *.
      rewrite (Z.div_small b 256) by lia. rewrite <- Z.div_div by lia.
      replace ((b + 256 * val rb) / 256) with (val rb) by (rewrite (Z.mul_comm 256), Z.div_add by lia; rewrite Z.div_small by lia; lia). lia.
    + rewrite Z.sub_diag, Z.pow_0_r, Z.div_1_r.
      assert (256 = 2 ^ (8 - host) * 2 ^ host) as E by (rewrite <- Z.pow_add_r by lia; by replace (8 - host + host) with 8 by lia).
      replace (b + 256 * val rb) with (b + 2 ^ (8 - host) * val rb * 2 ^ host) by (rewrite E; ring).
      rewrite Z.div_add by lia. rewrite E. ring.
Qed.

Definition zone_free (a : addr) : Prop := match a with V4 _ => True | V6 _ z => z = "" end.
Definition prefix_ok (p : prefix) : Prop :=
  addr_ok p.(p_addr) /\ zone_free p.(p_addr) /\ 0 <= p.(p_bits) <= bit_len p.(p_addr).

Lemma masked_value p : prefix_ok p ->
  let host := bit_len p.(p_addr) - p.(p_bits) in
  let lo := value p.(p_addr) / 2 ^ host * 2 ^ host in
  (Masked p).(p_addr) = with_value p.(p_addr) lo /\ lastAddr (Masked p) = with_value p.(p_addr) (lo + (2 ^ host - 1)).
Proof.
  destruct p as [a bits]. unfold prefix_ok. cbn [p_addr p_bits]. intros (Ha & Hz & Hb). cbv zeta.
  set (host := bit_len a - bits). assert (0 <= host <= bit_len a) as Hh by (unfold host; lia).
  assert (0 <= value a < 2 ^ bit_len a) as Hv by (by destruct a).
  assert (0 < 2 ^ host) as P by (apply Z.pow_pos_nonneg; lia).
  set (lo := value a / 2 ^ host * 2 ^ host).
  assert (0 <= lo <= value a) as Hlo by (unfold lo; pose proof (Z.mul_div_le (value a) (2 ^ host) P); pose proof (Z.div_pos (value a) (2 ^ host) ltac:(lia) P); nia).
  assert ((Masked (mk_prefix a bits)).(p_addr) = with_value a lo) as E.
  { unfold Masked. cbn [p_addr p_bits]. fold host. f_equal. by rewrite Z.shiftr_div_pow2, Z.shiftl_mul_pow2 by lia. }
  split; [exact E|]. unfold lastAddr. rewrite E. cbn [p_bits Masked].
  assert (Is4 (with_value a lo) = Is4 a /\ bit_len (with_value a lo) = bit_len a /\ value (with_value a lo) = lo
    /\ forall v, with_value (with_value a lo) v = with_value a v) as (E1 & E2 & E3 & E4) by by destruct a.
  rewrite E1, E2, E3, E4. fold host. f_equal. set (n := if Is4 a then 4%nat else 16%nat).
  assert (8 * Z.of_nat n = bit_len a) as Hn by by destruct a.
  destruct (fill_val (slice_rev n lo) host (slice_bytes n lo)) as [Fb Fv]; [rewrite slice_length; lia|].
  rewrite (from_slice_val _ Fb), Fv, slice_val.
  - unfold lo at 1. by rewrite Z.div_mul by lia.
  - replace (256 ^ Z.of_nat n) with (2 ^ bit_len a); [lia|]. change 256 with (2 ^ 8). rewrite <- Z.pow_mul_r by lia. by rewrite <- Hn.
Qed.

Lemma network_interval n v host a : 0 < 2 ^ host -> n = v / 2 ^ host * 2 ^ host ->
  n <= a /\ a <= n + (2 ^ host - 1) <-> a / 2 ^ host = v / 2 ^ host.
Proof.
  intros P ->. split.
  - intros [H1 H2]. symmetry. apply (Z.div_unique a (2 ^ host) _ (a - v / 2 ^ host * 2 ^ host)); lia.
  - intros E. rewrite <- E. pose proof (Z.div_mod a (2 ^ host) ltac:(lia)). pose proof (Z.mod_pos_bound a (2 ^ host) P). lia.
Qed.

Lemma masked_covers p a c : prefix_ok p -> zone_free a ->
  covers a (mk_range (Masked p).(p_addr) (lastAddr (Masked p)) c) = Contains p a.
Proof.
  intros Hp Ha. destruct (masked_value p Hp) as [E1 E2]. cbv zeta in E1, E2.
  destruct Hp as (Hok & Hz & Hb). destruct p as [pa bits]. cbn [p_addr p_bits] in *. unfold covers. cbn [start end_]. rewrite E1, E2.
  set (host := bit_len pa - bits) in *. assert (0 <= host) as Hh by (unfold host; lia).
  assert (0 < 2 ^ host) as P by (apply Z.pow_pos_nonneg; lia).
  apply eq_true_iff_eq. rewrite andb_true_iff, !negb_true_iff, !le_gt. unfold le.
  destruct pa as [v|v z], a as [w|w z']; cbn [with_value addr_cmp value] in *; cbn [bit_len Is4] in host.
  - rewrite contains4, Z.eqb_eq by lia. change (32 - bits) with host. rewrite <- (network_interval _ _ _ w P eq_refl). reflexivity.
  - split; [by intros [_ H]|done].
  - split; [by intros [H _]|done].
  - cbn in Hz, Ha. subst z z'. rewrite contains6 by lia. rewrite Z.eqb_eq. change (128 - bits) with host.
    rewrite <- (network_interval _ _ _ w P eq_refl). unfold Z.le. rewrite string_cmp_refl.
    by destruct (_ ?= w), (w ?= _).
Qed.

(** A network row is the range of its addresses.  The range that is stored for
    a network, with its host bits cleared and then set byte by byte, holds
    exactly the addresses of the network, in both families. *)
Theorem network_rows_are_networks ParseAddr ParsePrefix addr_string net x c p rest a :
  (forall b, addr_ok b -> zone_free b -> ParseAddr (addr_string b) = Some b /\ addr_string b <> "") ->
  contains net "/" = true -> ParsePrefix net = Some p -> prefix_ok p -> len c = 2 -> zone_free a ->
  exists r, row_range ParseAddr ParsePrefix addr_string (net :: x :: c :: rest) = Ok (Some r)
    /\ r.(country) = c /\ covers a r = Contains p a.
Proof.
  intros Print Hc Hp Ok Hl Ha. unfold row_range. rewrite Hc, Hp. destruct (masked_value p Ok) as [E1 E2]. cbv zeta in E1, E2.
  pose proof Ok as (Hok & Hz & Hb). set (host := bit_len (p_addr p) - p_bits p) in *.
  assert (0 < 2 ^ host) as P by (apply Z.pow_pos_nonneg; unfold host; lia).
  assert (0 <= value (p_addr p) < 2 ^ bit_len (p_addr p)) as Hv by (by destruct (p_addr p)).
  set (lo := value (p_addr p) / 2 ^ host * 2 ^ host) in *.
  assert (0 <= lo /\ lo + (2 ^ host - 1) < 2 ^ bit_len (p_addr p)) as [L1 L2].
  { assert (2 ^ bit_len (p_addr p) = 2 ^ p_bits p * 2 ^ host) as E by (rewrite <- Z.pow_add_r by lia; f_equal; unfold host; lia).
    pose proof (Z.div_pos (value (p_addr p)) (2 ^ host) ltac:(lia) P).
    assert (value (p_addr p) / 2 ^ host < 2 ^ p_bits p) by (apply Z.div_lt_upper_bound; [done|]; rewrite Z.mul_comm; lia).
    unfold lo. rewrite E. nia. }
  assert (forall v, 0 <= v < 2 ^ bit_len (p_addr p) -> addr_ok (with_value (p_addr p) v) /\ zone_free (with_value (p_addr p) v)) as W by by destruct (p_addr p).
  rewrite E1, E2. unfold range_of.
  destruct (W lo) as [W1 W2]; [lia|]. destruct (W (lo + (2 ^ host - 1))) as [W3 W4]; [lia|].
  destruct (Print _ W1 W2) as [P1 N1], (Print _ W3 W4) as [P2 N2].
  rewrite (proj2 (String.eqb_neq _ _) N1), (proj2 (String.eqb_neq _ _) N2), Hl, P1, P2. cbn [orb negb Z.eqb Pos.eqb].
  eexists. split; [reflexivity|]. split; [done|]. rewrite <- E1, <- E2. by apply masked_covers.
Qed.

(** *** The life of the manager *)

Section Life.
Variable ParseAddr : string -> option addr.
Variable ParsePrefix : string -> option prefix.
Variable addr_string : addr -> string.
Variable records : string -> list (result (list string)).
Variable gunzip : string -> result string.
Variable format_time : Z -> string.
Variable parse_time : string -> option Z.

Abbreviation parse_csv := (ParseCSV ParseAddr ParsePrefix addr_string records).
Abbreviation refresh := (fetch ParseAddr ParsePrefix addr_string records gunzip format_time).
Abbreviation load := (LoadExisting ParseAddr ParsePrefix addr_string records gunzip).

Definition no_manager : Manager := mk_manager None "".
(** The process starts, refreshes when it is due, is told to refresh. *)
Inductive mstep : Manager * disk -> Manager * disk -> Prop :=
| mstep_start m d : mstep (m, d) ((load no_manager d).2, d)
| mstep_ensure m d url r f now :
    mstep (m, d) (EnsureCurrent ParseAddr ParsePrefix addr_string records gunzip format_time parse_time url r f now m d).2
| mstep_update m d url r f now :
    mstep (m, d) (Update ParseAddr ParsePrefix addr_string records gunzip format_time url r f now m d).2.

(** The database in memory is the one on the disk. *)
Definition in_step (w : Manager * disk) : Prop :=
  match w.2.(f_csv) with
  | None => w.1.(m_db) = None
  | Some text => exists db, parse_csv text = Ok db /\ w.1.(m_db) = Some db
  end.

Lemma fetch_result url r f now m d :
  match refresh url r f now m d with
  | (Err _, (m', d')) => m' = m /\ d'.(f_csv) = d.(f_csv) /\ d'.(f_updated) = d.(f_updated)
  | (Ok _, (m', d')) => exists text db, d'.(f_csv) = Some text /\ parse_csv text = Ok db /\ m' = mk_manager (Some db) (format_time now)
  end.
Proof using.
  unfold fetch. destruct (url =?s ""); [done|]. destruct r as [[[status body]|e]|]; [|done..].
  destruct (negb _); [done|]. destruct body as [body|e]; [|done]. destruct (decompressPayload _ _) as [plain|e]; [|done].
  destruct (ParseCSV _ _ _ _ plain) as [db|e] eqn:E; [|done]. destruct (negb _); [done|]. destruct (tmp_write f); [done|].
  destruct (negb _); [done|]. by exists plain, db.
Qed.

Lemma load_in_step m d : in_step (m, d) -> (load no_manager d).2.(m_db) = m.(m_db) /\ in_step ((load no_manager d).2, d).
Proof using.
  unfold in_step, LoadExisting, LoadCSV. cbn [fst snd]. change (isGzip dbName) with false. cbn iota.
  destruct (f_csv d) as [text|] eqn:E; [|by intros ->].
  intros (db & Hp & ->). rewrite Hp. cbn. split; [done|]. by exists db.
Qed.

Lemma mstep_in_step w w' : mstep w w' -> in_step w -> in_step w'.
Proof using.
  assert (forall url r f now m d, in_step (m, d) -> in_step (refresh url r f now m d).2) as K.
  { intros url r f now m d Hi. pose proof (fetch_result url r f now m d) as R. unfold in_step in *.
    destruct (refresh _ _ _ _ _ _) as [[[]|e] [m' d']]; cbn [fst snd] in *.
    - destruct R as (text & db & -> & Hp & ->). by exists db.
    - destruct R as (-> & -> & _). done. }
  intros [m d|m d url r f now|m d url r f now] Hi.
  - by apply (load_in_step m d).
  - unfold EnsureCurrent. destruct (NeedsRefresh _ _ _); [by apply K|done].
  - by apply K.
Qed.

(** A failed refresh keeps the database.  After any starts and refreshes from an
    empty data directory, whatever was downloaded and whichever operation on the
    disk failed: the file on the disk is a valid database and is the one in
    memory, so a restart loads the same one; a refresh that reports an error
    changes neither it nor its time, and one that reports success installs what
    it parsed. *)
Theorem refresh_is_atomic m d : star mstep (no_manager, mk_disk None None None) (m, d) ->
  (load no_manager d).2.(m_db) = m.(m_db)
  /\ forall url r f now, match Update ParseAddr ParsePrefix addr_string records gunzip format_time url r f now m d with
     | (Err _, (m', d')) => m' = m /\ d'.(f_csv) = d.(f_csv) /\ d'.(f_updated) = d.(f_updated)
     | (Ok _, (m', d')) => exists text db, d'.(f_csv) = Some text /\ parse_csv text = Ok db /\ m' = mk_manager (Some db) (format_time now)
     end.
Proof using.
  intros H. assert (in_step (m, d)) as Hi.
  { refine (star_invariant mstep in_step _ _ _ _ H); [|done]. intros x y Hx Hxy. by eapply mstep_in_step. }
  split; [by apply load_in_step|]. intros url r f now. apply fetch_result.
Qed.
End Life.

(** ** An example *)

(** Addresses in decimal, a slash before the length of a network, one record a
    line with its fields separated by commas. *)
Definition demo_addr (s : string) : option addr :=
  match parse_udec s with
  | Some v => Some (V4 v)
  | None => (fun v => V6 v "") <$> parse_udec (trim_prefix s "v6:")
  end.
Definition demo_print (a : addr) : string := match a with V4 v => format_int v | V6 v z => "v6:" ++ format_int v end.
Definition demo_records (text : string) : list (result (list string)) :=
  List.map (fun line => Ok (split_on "," line)) (split_on ";" text).
Definition demo_text : string := "start_ip,end_ip,country;300,399,DE;100,199,AU;200,250,FR".
Definition demo_prefix (s : string) : option prefix :=
  match split_on "/" s with
  | [a; b] => a ← demo_addr a; b ← parse_udec b; Some (mk_prefix a b)
  | _ => None
  end.

Lemma demo_print_parses b : addr_ok b -> zone_free b -> demo_addr (demo_print b) = Some b /\ demo_print b <> "".
Proof.
  unfold demo_addr, demo_print. destruct b as [v|v z]; cbn [addr_ok zone_free]; intros Hb Hz.
  - rewrite parse_udec_format by lia. split; [done|]. intros E. pose proof (parse_udec_format v (proj1 Hb)) as H. by rewrite E in H.
  - subst z. change (parse_udec ("v6:" ++ format_int v)) with (@None Z). cbn iota. rewrite trim_prefix_app, parse_udec_format by lia. done.
Qed.

Lemma demo_file_ranges : ranges_of demo_addr demo_prefix demo_print true (demo_records demo_text)
  = [mk_range (V4 300) (V4 399) "DE"; mk_range (V4 100) (V4 199) "AU"; mk_range (V4 200) (V4 250) "FR"].
Proof. vm_compute. reflexivity. Qed.
Definition demo_DB : DB :=
  mk_DB [mk_range (V4 100) (V4 199) "AU"; mk_range (V4 200) (V4 250) "FR"; mk_range (V4 300) (V4 399) "DE"] [].
Lemma demo_parsed : ParseCSV demo_addr demo_prefix demo_print demo_records demo_text = Ok demo_DB.
Proof. vm_compute. reflexivity. Qed.

Lemma le_v4 x y : le (V4 x) (V4 y) <-> x <= y.
Proof. reflexivity. Qed.

Lemma demo_disjoint : disjoint (ranges_of demo_addr demo_prefix demo_print true (demo_records demo_text)).
Proof.
  rewrite demo_file_ranges. split.
  - intros e [<-|[<-|[<-|[]]]]; done.
  - intros x y a Hx Hy Cx Cy. apply covers_le in Cx as [A1 A2], Cy as [B1 B2]. destruct a as [a|a z]; [|by destruct Hx as [<-|[<-|[<-|[]]]]].
    destruct Hx as [<-|[<-|[<-|[]]]], Hy as [<-|[<-|[<-|[]]]]; try done; cbn [start end_] in *; rewrite le_v4 in *; exfalso; lia.
Qed.

Lemma lookup_is_a_scan_witness :
  Lookup demo_addr demo_DB "225" = "FR" /\ Lookup demo_addr demo_DB "275" = "" /\
  Lookup demo_addr demo_DB "225" = scan (ranges_of demo_addr demo_prefix demo_print true (demo_records demo_text)) (V4 225).
Proof.
  split; [vm_compute; reflexivity|]. split; [vm_compute; reflexivity|].
  refine (lookup_is_a_scan demo_addr demo_prefix demo_print demo_records demo_text demo_DB "225" (V4 225) demo_parsed _ _ demo_disjoint).
  - vm_compute. reflexivity.
  - rewrite demo_file_ranges. intros e [<-|[<-|[<-|[]]]]; reflexivity.
Defined.

Lemma network_rows_are_networks_witness :
  exists r, row_range demo_addr demo_prefix demo_print ["167837955/24"; "x"; "AU"] = Ok (Some r)
    /\ r.(country) = "AU" /\ covers (V4 167838000) r = Contains (mk_prefix (V4 167837955) 24) (V4 167838000).
Proof.
  refine (network_rows_are_networks demo_addr demo_prefix demo_print "167837955/24" "x" "AU" (mk_prefix (V4 167837955) 24) []
    (V4 167838000) demo_print_parses _ _ _ _ _); [vm_compute; reflexivity|vm_compute; reflexivity| |reflexivity|exact I].
  unfold prefix_ok. cbn. lia.
Defined.

Definition demo_io : io := mk_io true None true None.
Definition demo_stamp (t : Z) : string := format_int (t / second).
Definition demo_install (r : option (result (Z * result string))) (f : io) (w : Manager * disk) : Manager * disk :=
  (Update demo_addr demo_prefix demo_print demo_records (fun _ => Err "gzip") demo_stamp "https://db.example/" r f second w.1 w.2).2.
Definition demo_installed : Manager * disk :=
  demo_install (Some (Ok (200, Ok demo_text))) demo_io (no_manager, mk_disk None None None).

Lemma refresh_is_atomic_witness :
  demo_installed.1.(m_db) = Some demo_DB
  /\ (LoadExisting demo_addr demo_prefix demo_print demo_records (fun _ => Err "gzip") no_manager demo_installed.2).2.(m_db) = Some demo_DB.
Proof.
  assert (demo_installed.1.(m_db) = Some demo_DB) as E by (vm_compute; reflexivity).
  split; [exact E|]. rewrite <- E.
  refine (proj1 (refresh_is_atomic demo_addr demo_prefix demo_print demo_records (fun _ => Err "gzip") demo_stamp parse_udec
    demo_installed.1 demo_installed.2 (star_step _ _ _ _ (star_refl _ _) _))).
  rewrite <- surjective_pairing. exact (mstep_update _ _ _ _ _ _ _ no_manager (mk_disk None None None) "https://db.example/"
    (Some (Ok (200, Ok demo_text))) demo_io second).
Defined.

(** A range that holds another hides behind it: past the end of the inner one
    the search does not find the outer one. *)
Example nested_ranges_hide :
  let l := [mk_range (V4 100) (V4 199) "AU"; mk_range (V4 120) (V4 129) "NZ"] in
  scan l (V4 150) = "AU" /\ lookup_in (sort_less range_less l) (V4 150) = "".
Proof. vm_compute. split; reflexivity. Qed.
