(* ===== verification/Oidc.v ===== *)
(** OpenID Connect ([internal/oidc/oidc.go]): the stored configuration, the
    authorization transactions bound to a browser, the callback that verifies
    the token and finds or provisions the account.

    Parameters: discovery, the endpoints of a provider, the HTTP client, the
    verification of ID tokens by go-oidc, the JSON of the two answers, the
    encoding of form values, and the account model of [Auth].  The random
    state, nonce and session tokens are arguments. *)
From S2P Require Import Prelude GoStr TimeText SqlM Access Auth.
Open Scope string_scope.
Open Scope Z_scope.
Open Scope wf_scope.
Open Scope sql_scope.

(** ** Definitions *)

Record Config := mk_config {
  Issuer : string; ClientID : string; ClientSecret : string; Enabled : bool; AutoProvision : bool }.
Record state_row := mk_state { st_state : string; st_nonce : string; st_browser : string; st_expires : Z }.
(** A verified ID token: its nonce, and its email claims if they decode. *)
Record id_token := mk_id_token { it_nonce : string; it_claims : result (string * bool) }.

Section Oidc.
Variable Provider : Type.
Variable AuthURL : Provider -> string.
Variable TokenURL : Provider -> string.
Variable UserInfoEndpoint : Provider -> string.

(** The tables, and the providers the service has discovered. *)
Record odb := mk_odb {
  o_ident : adb; o_config : option Config; o_states : list state_row; o_prov : gmap string Provider }.
Definition set_ident (v : adb) (s : odb) : odb := mk_odb v s.(o_config) s.(o_states) s.(o_prov).
Definition set_config (v : option Config) (s : odb) : odb := mk_odb s.(o_ident) v s.(o_states) s.(o_prov).
Definition set_states (v : list state_row) (s : odb) : odb := mk_odb s.(o_ident) s.(o_config) v s.(o_prov).
Definition set_prov (v : gmap string Provider) (s : odb) : odb := mk_odb s.(o_ident) s.(o_config) s.(o_states) v.

Definition on_ident {A} (m : M adb A) : M odb A := fun '(s, fl) =>
  let '(r, (d, fl')) := m (s.(o_ident), fl) in (r, (set_ident d s, fl')).
(** A step in memory, which no database refuses. *)
Definition in_memory {A} (f : odb -> A * odb) : M odb A := fun '(s, fl) => let '(a, s') := f s in (Ok a, (s', fl)).

Variable NewProvider : string -> result Provider.
Variable encode_values : list (string * string) -> string.
(** [client.Do] of a form posted to, or a bearer request to, a URL: the status
    and the body; the body of a token answer as (access token, ID token), that
    of a userinfo answer as (email, verified, issuer). *)
Variable post_form : string -> string -> result (Z * string).
Variable get_bearer : string -> string -> result (Z * string).
Variable decode_tokens : string -> option (string * string).
Variable decode_userinfo : string -> option (string * bool * string).
Variable VerifyID : Provider -> string -> string -> result id_token.
(** The account model and the hash of session tokens, as in [Auth]. *)
Variable accept : list account -> result unit.
Variable sha : string -> string.

Definition rowConfig : M odb Config :=
  query (fun s => match s.(o_config) with Some c => c | None => mk_config "" "" "" false false end).

Definition Config_ : M odb Config :=
  let* c := rowConfig in ret (mk_config c.(Issuer) c.(ClientID) "" c.(Enabled) c.(AutoProvision)).

Definition provider (issuer : string) : M odb Provider :=
  let* p := in_memory (fun s => (s.(o_prov) !! issuer, s)) in
  match p with
  | Some p => ret p
  | None =>
      let* p := lift (NewProvider issuer) in
      in_memory (fun s => (p, set_prov (<[issuer := p]> s.(o_prov)) s))
  end.
Definition dropProvider (issuer : string) : M odb unit :=
  in_memory (fun s => (tt, set_prov (delete issuer s.(o_prov)) s)).

Definition Save (c : Config) : M odb unit :=
  let issuer := trim_right (fun ch => Ascii.eqb ch "/") (trim_space c.(Issuer)) in
  if negb (has_prefix issuer "https://") || (c.(ClientID) =?s "") || (c.(ClientSecret) =?s "")
  then throw "OIDC requires HTTPS issuer, client id and secret" else
  or_fail (provider issuer) "OIDC discovery failed" ;;;
  exec (set_config (Some (mk_config issuer c.(ClientID) c.(ClientSecret) c.(Enabled) c.(AutoProvision)))) ;;;
  dropProvider issuer.

(** [INSERT INTO oidc_states]: the state is the primary key. *)
Definition insert_state (r : state_row) (s : odb) : option odb :=
  if existsb (fun x => x.(st_state) =?s r.(st_state)) s.(o_states) then None
  else Some (set_states (s.(o_states) ++ [r]) s).

Definition Begin (redirect browser state nonce : string) (now : Z) : M odb string :=
  let* c := or_fail rowConfig "OIDC is not enabled" in
  if negb c.(Enabled) then throw "OIDC is not enabled" else
  let* p := provider c.(Issuer) in
  exec_opt (insert_state (mk_state state nonce browser (now + 10 * minute))) ;;;
  ret (AuthURL p ++ "?" ++ encode_values
    [("client_id", c.(ClientID)); ("response_type", "code"); ("scope", "openid email profile");
     ("redirect_uri", redirect); ("state", state); ("nonce", nonce)]).

(** [DELETE FROM oidc_states WHERE state=? AND browser=? RETURNING ...]. *)
Definition is_state (state browser : string) (r : state_row) : bool :=
  (r.(st_state) =?s state) && (r.(st_browser) =?s browser).
Definition consume_state (state browser : string) : M odb (option state_row) :=
  stmt (fun s => Some (find_first (is_state state browser) s.(o_states),
                       set_states (del (is_state state browser) s.(o_states)) s)).

Definition exchangeCode (p : Provider) (c : Config) (code redirect : string) : result (string * string) :=
  match post_form (TokenURL p) (encode_values
      [("grant_type", "authorization_code"); ("code", code); ("redirect_uri", redirect);
       ("client_id", c.(ClientID)); ("client_secret", c.(ClientSecret))]) with
  | Err e => Err e
  | Ok (status, body) =>
      if negb (status =? 200) then Err "OIDC token exchange failed" else
      match decode_tokens (limit_read (2 ^ 20) body) with
      | Some (access, id) => if id =?s "" then Err "OIDC token exchange failed" else Ok (id, access)
      | None => Err "OIDC token exchange failed"
      end
  end.

Definition userinfo (p : Provider) (access issuer : string) : result (string * bool) :=
  if UserInfoEndpoint p =?s "" then Err "OIDC provider has no userinfo endpoint" else
  match get_bearer (UserInfoEndpoint p) access with
  | Err e => Err e
  | Ok (status, body) =>
      if negb (status =? 200) then Err "OIDC userinfo failed" else
      match decode_userinfo (limit_read (2 ^ 20) body) with
      | None => Err "OIDC userinfo failed"
      | Some (email, verified, iss) =>
          if negb (iss =?s "") && negb (iss =?s issuer) then Err "OIDC userinfo issuer mismatch" else Ok (email, verified)
      end
  end.

(** [INSERT INTO users(username,email,password_hash,role,...)]: the email is unique. *)
Definition insert_user (name email : string) (now : Z) (d : adb) : option (user_row * adb) :=
  if existsb (fun u => u.(u_email) =?s email) d.(users) then None else
  let u := mk_user (fresh_id (List.map u_id d.(users))) name email "" "viewer" now in
  Some (u, set_users (d.(users) ++ [u])%list d).

(** The account of a verified email, made when it may be. *)
Definition find_account (auto : bool) (email : string) (now : Z) : M adb user_row :=
  let* u := query (fun d => find_first (fun u => equal_fold u.(u_email) email) d.(users)) in
  match u with
  | Some u => ret u
  | None =>
      if negb auto then throw "OIDC account is not provisioned" else
      let* org := PrimaryOrgID in
      let* u := stmt (insert_user (to_lower (split2 "@" email).1) (to_lower email) now) in
      ignore tt (exec_opt (insert_member org u.(u_id) "viewer" now)) ;;;
      ret u
  end.

(** The email of the token, or else of the userinfo answer, if it is verified. *)
Definition verified_email (p : Provider) (access issuer : string) (t : id_token) : result string :=
  match t.(it_claims) with
  | Err e => Err ("OIDC claims invalid: " ++ e)
  | Ok claims =>
      match (if claims.1 =?s "" then userinfo p access issuer else Ok claims) with
      | Err e => Err e
      | Ok (email, verified) =>
          if (email =?s "") || negb verified then Err "OIDC verified email required" else Ok email
      end
  end.

(** The callback once its transaction has been consumed; [raw] and [csrf] are
    the tokens of the session. *)
Definition complete (row : state_row) (code redirect raw csrf : string) (now : Z) : M odb (string * session) :=
  if row.(st_expires) <? now then throw "expired OIDC state" else
  let* c := or_fail rowConfig "OIDC disabled" in
  if negb c.(Enabled) then throw "OIDC disabled" else
  let* p := provider c.(Issuer) in
  let* tokens := lift (exchangeCode p c code redirect) in
  let* idt := lift (match VerifyID p c.(ClientID) tokens.1 with
                    | Ok t => Ok t | Err e => Err ("OIDC ID token verification failed: " ++ e) end) in
  if negb (idt.(it_nonce) =?s row.(st_nonce)) then throw "OIDC nonce mismatch" else
  let* email := lift (verified_email p tokens.2 c.(Issuer) idt) in
  let* u := on_ident (find_account c.(AutoProvision) email now) in
  on_ident (CreateSessionForUser accept sha u.(u_id) u.(u_email) raw csrf now).

Definition Callback (state code redirect browser raw csrf : string) (now : Z) : M odb (string * session) :=
  if (trim_space state =?s "") || (trim_space code =?s "") then throw "OIDC callback is missing state or code" else
  let* r := or_fail (consume_state state browser) "invalid OIDC state" in
  match r with
  | None => throw "invalid OIDC state"
  | Some row => complete row code redirect raw csrf now
  end.

(** *** Runs *)

(** What happens to the service: anything to the accounts, sessions and
    organizations, and its own operations. *)
Inductive oop :=
| OIdent (d : adb)
| OSave (c : Config)
| OBegin (redirect browser state nonce : string) (now : Z)
| OCallback (state code redirect browser raw csrf : string) (now : Z).

Definition run_oop (o : oop) : M odb unit :=
  match o with
  | OIdent d => in_memory (fun s => (tt, set_ident d s))
  | OSave c => Save c
  | OBegin r b st n now => Begin r b st n now ;;; ret tt
  | OCallback st co r b raw csrf now => Callback st co r b raw csrf now ;;; ret tt
  end.
Definition draws (state : string) (o : oop) : bool :=
  match o with OBegin _ _ st _ _ => st =?s state | _ => false end.
(** A step that does not draw [state] again. *)
Definition ostep (state : string) (s s' : odb) : Prop :=
  exists o fl, draws state o = false /\ s' = (run_oop o (s, fl)).2.1.

(** ** Lemmas *)

Lemma on_ident_ok {A} (m : M adb A) s fl a s' fl' : on_ident m (s, fl) = (Ok a, (s', fl')) ->
  exists d, m (s.(o_ident), fl) = (Ok a, (d, fl')) /\ s' = set_ident d s.
Proof using.
  unfold on_ident. destruct (m _) as [[x|e] [d fl2]]; [|done]. intros [= -> <- <-]. by exists d.
Qed.

Lemma provider_ok issuer s fl p s' fl' : provider issuer (s, fl) = (Ok p, (s', fl')) ->
  (s.(o_prov) !! issuer = Some p \/ NewProvider issuer = Ok p) /\ exists v, s' = set_prov v s.
Proof using.
  unfold provider, bind, in_memory. destruct (o_prov s !! issuer) as [q|] eqn:E.
  - intros [= <- <- _]. split; [by left|]. exists s.(o_prov). by destruct s.
  - destruct (NewProvider issuer) as [q|e]; [|done]. cbn. intros [= <- <- _]. split; [by right|]. by eexists.
Qed.

Lemma joined org u role now d fl r d' fl' : ignore tt (exec_opt (insert_member org u role now)) (d, fl) = (r, (d', fl')) ->
  d' = d \/ d' = set_members (d.(members) ++ [mk_member org u role now])%list d.
Proof using.
  unfold ignore, exec_opt, stmt, insert_member, upsert_member. destruct fl as [|[] fl]; cbn; try by intros [= _ <- _]; left.
  all: destruct (existsb _ _); cbn; [by intros [= _ <- _]; left|]; destruct (_ && _); cbn; intros [= _ <- _]; auto.
Qed.

(** The account that was found or made, and the tables after. *)
Definition account_found (auto : bool) (email : string) (now : Z) (d : adb) (u : user_row) (d' : adb) : Prop :=
  (In u d.(users) /\ equal_fold u.(u_email) email = true /\ d' = d)
  \/ (auto = true /\ (forall x, In x d.(users) -> equal_fold x.(u_email) email = false)
     /\ u.(u_role) = "viewer" /\ u.(u_hash) = "" /\ u.(u_email) = to_lower email
     /\ d'.(users) = (d.(users) ++ [u])%list /\ d'.(sessions) = d.(sessions) /\ d'.(tokens) = d.(tokens)
     /\ (d'.(members) = d.(members) \/ exists org, d'.(members) = (d.(members) ++ [mk_member org u.(u_id) "viewer" now])%list)).

Lemma find_account_ok auto email now d fl u d' fl' :
  find_account auto email now (d, fl) = (Ok u, (d', fl')) -> account_found auto email now d u d'.
Proof using.
  unfold find_account. intros H. sql_inv. destruct (find_first _ _) as [x|] eqn:E.
  - injection H as <- <- _. left. by apply find_first_Some in E as [].
  - destruct auto; [|done]. cbn [negb] in H. unfold PrimaryOrgID in H. sql_inv.
    match goal with H : insert_user _ _ _ _ = Some _ |- _ => unfold insert_user in H; destruct (existsb _ _); [done|]; injection H as <- <- end.
    match goal with H : ignore _ _ _ = _ |- _ => apply joined in H as [->| ->] end.
    all: right; split; [done|]; split; [by apply find_first_None|]; split_and!; try done; cbn; auto.
    right. by eexists.
Qed.

(** The provider vouches for the email: its token says so, or, when the token
    names none, its userinfo answer, which does not name another issuer. *)
Definition vouched (p : Provider) (access issuer : string) (t : id_token) (email : string) : Prop :=
  email <> "" /\
  (t.(it_claims) = Ok (email, true)
   \/ (exists v, t.(it_claims) = Ok ("", v)) /\ exists body iss,
      get_bearer (UserInfoEndpoint p) access = Ok (200, body)
      /\ decode_userinfo (limit_read (2 ^ 20) body) = Some (email, true, iss) /\ (iss = "" \/ iss = issuer)).

Lemma verified_email_ok p access issuer t email : verified_email p access issuer t = Ok email -> vouched p access issuer t email.
Proof using.
  unfold verified_email, vouched, userinfo. destruct (it_claims t) as [[em v]|e]; [|done]. cbn [fst].
  destruct (em =?s "") eqn:E.
  - apply String.eqb_eq in E as ->. destruct (UserInfoEndpoint p =?s ""); [done|].
    destruct (get_bearer _ access) as [[status body]|e] eqn:G; [|done]. destruct (status =? 200) eqn:S; [|done]. cbn [negb].
    apply Z.eqb_eq in S as ->. destruct (decode_userinfo _) as [[[em ver] iss]|] eqn:D; [|done].
    destruct (negb (iss =?s "") && negb (iss =?s issuer)) eqn:I; [done|].
    destruct ((em =?s "") || negb ver) eqn:B; [done|]. intros [= <-]. bool_to_prop. split; [done|]. right.
    split; [by eexists|]. exists body, iss. destruct ver; [|done]. split; [done|]. split; [done|].
    destruct (iss =?s "") eqn:J; [left; by apply String.eqb_eq|]. right. destruct (iss =?s issuer) eqn:K; [by apply String.eqb_eq|done].
  - destruct (_ || negb v) eqn:B; [done|]. intros [= <-]. apply String.eqb_neq in E. split; [done|]. left. by destruct v; bool_to_prop.
Qed.

Lemma session_for_user user email raw csrf now d fl r d' fl' :
  CreateSessionForUser accept sha user email raw csrf now (d, fl) = (Ok r, (d', fl')) ->
  r = (raw, mk_sess user email csrf (now + 24 * hour)) /\ d'.(users) = d.(users) /\ d'.(members) = d.(members)
  /\ exists x, d'.(sessions) = (d.(sessions) ++ [x])%list /\ x.(se_user) = user /\ x.(se_hash) = sha raw.
Proof using.
  unfold CreateSessionForUser. intros H. unfold Reload, LoadAccounts in H. sql_inv.
  match goal with H : (match accept ?l with _ => _ end) _ = _ |- _ => destruct (accept l); [|done] end. sql_inv.
  match goal with H : insert_session _ _ _ _ _ _ _ = Some _ |- _ => unfold insert_session in H; destruct (_ && _); [|done]; injection H as <- end.
  assert (forall (f : adb -> adb) d fl r w, ignore tt (exec f) (d, fl) = (r, w) -> w.1 = d \/ w.1 = f d) as K.
  { intros f d0 fl0 r0 w. unfold ignore, exec, stmt. destruct fl0 as [|[] fl0]; intros [= _ <-]; auto. }
  match goal with H : ignore tt _ _ = _ |- _ => apply K in H; cbn [fst] in H; destruct H as [->| ->] end; cbn; split_and!; try done; by eexists.
Qed.

(** C33: a callback logs in whom the provider has verified.  A callback that
    succeeds, whatever statements were refused, consumed an unexpired
    transaction begun by the same browser: its row is gone, and no other; the ID token it exchanged the code
    for was verified for this client and carries the nonce of the transaction;
    the email is a verified one of the token, or of the provider's answer when
    the token has none; and the session is for the account with that email: one
    that existed, or, only when provisioning is on and there was none, a new
    account without a password whose only role is viewer. *)
Theorem callback_is_checked state code redirect browser raw csrf now s fl tok sess s' fl' :
  Callback state code redirect browser raw csrf now (s, fl) = (Ok (tok, sess), (s', fl')) ->
  exists row c p access id t email u,
    In row s.(o_states) /\ row.(st_state) = state /\ row.(st_browser) = browser /\ now <= row.(st_expires)
    /\ s'.(o_states) = del (is_state state browser) s.(o_states)
    /\ s.(o_config) = Some c /\ c.(Enabled) = true
    /\ (s.(o_prov) !! c.(Issuer) = Some p \/ NewProvider c.(Issuer) = Ok p)
    /\ exchangeCode p c code redirect = Ok (id, access)
    /\ VerifyID p c.(ClientID) id = Ok t /\ t.(it_nonce) = row.(st_nonce)
    /\ vouched p access c.(Issuer) t email
    /\ exists d, account_found c.(AutoProvision) email now s.(o_ident) u d
       /\ sess.(UserID) = u.(u_id) /\ tok = raw /\ s'.(o_ident).(users) = d.(users) /\ s'.(o_ident).(members) = d.(members).
Proof using.
  unfold Callback, complete. intros H. destruct (_ || _); [done|]. unfold consume_state, rowConfig in H. sql_inv.
  match goal with H : Some _ = Some _ |- _ => injection H as Hrow <- end.
  match goal with H : find_first _ _ = Some ?r |- _ => rename r into row; apply find_first_Some in H as [Hin Hst] end.
  unfold is_state in Hst. apply andb_true_iff in Hst as [Hs1 Hs2]. apply String.eqb_eq in Hs1, Hs2.
  cbn [o_config set_states] in *. destruct (o_config s) as [c|] eqn:Ec; [|done].
  match goal with H : provider _ _ = _ |- _ => apply provider_ok in H as [Hp (v & ->)] end. sql_inv.
  match goal with H : exchangeCode _ _ _ _ = Ok ?x |- _ => destruct x as [id access] end. cbn [fst snd] in *.
  match goal with H : match VerifyID ?a ?b ?c with _ => _ end = _ |- _ => destruct (VerifyID a b c) as [t|] eqn:Ev; [|done]; injection H as <- end.
  sql_inv.
  repeat match goal with H : on_ident _ _ = _ |- _ => apply on_ident_ok in H as (? & ? & ->) end.
  match goal with H : find_account _ _ _ _ = (Ok ?u, _) |- _ => apply find_account_ok in H; rename u into usr end.
  match goal with H : CreateSessionForUser _ _ _ _ _ _ _ _ = _ |- _ => apply session_for_user in H as ([= -> ->] & Hu & Hm & _) end.
  eexists row, c, _, access, id, t, _, usr. split_and!; try eassumption.
  - match goal with H : (_ <? _) = false |- _ => by apply Z.ltb_ge in H end.
  - done.
  - reflexivity.
  - match goal with H : negb (Enabled c) = false |- _ => by apply negb_false_iff in H end.
  - match goal with H : negb (it_nonce t =?s _) = false |- _ => by apply negb_false_iff, String.eqb_eq in H end.
  - by apply verified_email_ok.
  - eexists. split; [eassumption|]. done.
Qed.

(** No transaction has this state. *)
Definition spent (state : string) (s : odb) : Prop := forall r, In r s.(o_states) -> r.(st_state) <> state.
Definition stays_spent (state : string) (s s' : odb) : Prop := spent state s -> spent state s'.

#[local] Instance stays_spent_refl state : Reflexive (stays_spent state).
Proof using. intros s H. exact H. Qed.
#[local] Instance stays_spent_trans state : Transitive (stays_spent state).
Proof using. intros a b c H1 H2 H. auto. Qed.

Lemma spent_same state s s' : s'.(o_states) = s.(o_states) -> stays_spent state s s'.
Proof using. intros E H r. rewrite E. apply H. Qed.

Lemma in_memory_spent {A} state (f : odb -> A * odb) : (forall s, (f s).2.(o_states) = s.(o_states)) -> within (stays_spent state) (in_memory f).
Proof using.
  intros Hf s fl. unfold in_memory. pose proof (Hf s) as E. destruct (f s) as [a s1]. by apply spent_same.
Qed.
Lemma on_ident_spent {A} state (m : M adb A) : within (stays_spent state) (on_ident m).
Proof using. intros s fl. unfold on_ident. destruct (m _) as [r [d fl']]. by apply spent_same. Qed.
Lemma provider_spent state issuer : within (stays_spent state) (provider issuer).
Proof using.
  unfold provider. apply within_bind; [apply _|by apply in_memory_spent|]. intros [p|]; [apply within_ret; apply _|].
  apply within_lift; [apply _|]. intros p _. by apply in_memory_spent.
Qed.
Lemma consume_spent state st b : within (stays_spent state) (consume_state st b).
Proof using.
  apply within_stmt; [apply _|]. intros s a s' [= _ <-] H r Hr. apply in_del in Hr as [Hr _]. by apply H.
Qed.

Lemma rowConfig_spent state : within (stays_spent state) rowConfig.
Proof using. apply within_readonly; [apply _|apply readonly_query]. Qed.

Lemma complete_spent state row code redirect raw csrf now : within (stays_spent state) (complete row code redirect raw csrf now).
Proof using.
  unfold complete. destruct (_ <? _); [apply within_throw; apply _|].
  apply within_bind; [apply _|apply within_or_fail, rowConfig_spent|]. intros c.
  destruct (negb _); [apply within_throw; apply _|]. apply within_bind; [apply _|apply provider_spent|]. intros p.
  apply within_lift; [apply _|]. intros tokens _. apply within_lift; [apply _|]. intros t _.
  destruct (negb _); [apply within_throw; apply _|]. apply within_lift; [apply _|]. intros email _.
  apply within_bind; [apply _|apply on_ident_spent|]. intros u. apply on_ident_spent.
Qed.

Lemma run_oop_spent state o : draws state o = false -> within (stays_spent state) (run_oop o).
Proof using.
  intros Hd. destruct o as [d|c|r b st n now|st co r b raw csrf now]; cbn [run_oop].
  - by apply in_memory_spent.
  - unfold Save. destruct (_ || _); [apply within_throw; apply _|].
    repeat (apply within_bind; [apply _| |intros ?]).
    + apply within_or_fail, provider_spent.
    + apply within_exec; [apply _|]. intros s. by apply spent_same.
    + by apply in_memory_spent.
  - unfold Begin. apply within_bind; [apply _| |intros ?; apply within_ret; apply _].
    apply within_bind; [apply _|apply within_or_fail, rowConfig_spent|]. intros c.
    destruct (negb _); [apply within_throw; apply _|]. apply within_bind; [apply _|apply provider_spent|]. intros p.
    apply within_bind; [apply _| |intros ?; apply within_ret; apply _].
    apply within_exec_opt; [apply _|]. intros s s' Hi H x Hx. unfold insert_state in Hi. destruct (existsb _ _); [done|].
    injection Hi as <-. apply In_snoc in Hx as [Hx| ->]; [by apply H|]. cbn in Hd |- *. by apply String.eqb_neq in Hd.
  - apply within_bind; [apply _| |intros ?; apply within_ret; apply _]. unfold Callback.
    destruct (_ || _); [apply within_throw; apply _|].
    apply within_bind; [apply _|apply within_or_fail, consume_spent|]. intros [row|]; [|by apply within_throw; apply _].
    apply complete_spent.
Qed.

Lemma spent_refuses state code redirect browser raw csrf now s fl :
  spent state s -> is_ok (Callback state code redirect browser raw csrf now (s, fl)).1 = false.
Proof using.
  intros H. destruct (Callback _ _ _ _ _ _ _ _) as [[r|e] w] eqn:E; [|done]. exfalso. destruct w as [s' fl'].
  unfold Callback in E. destruct (_ || _); [done|]. unfold consume_state in E. sql_inv.
  match goal with H : Some _ = Some _ |- _ => injection H as Hrow _ end.
  match goal with H : find_first _ _ = Some ?r |- _ => apply find_first_Some in H as [Hin Hst] end.
  unfold is_state in Hst. apply andb_true_iff in Hst as [Hs _]. apply String.eqb_eq in Hs. by apply (H _ Hin).
Qed.

(** A login transaction is good for one callback, of the browser that began it.
    After a callback with its state has succeeded, every later one with that
    state fails, whatever has happened to the accounts and the configuration and
    whichever other logins were begun since; and a callback from another browser
    fails and leaves the transaction to the browser it belongs to. *)
Theorem transaction_used_once state s : NoDup (List.map st_state s.(o_states)) ->
  (forall code redirect browser raw csrf now fl r s1 fl1 s2,
     Callback state code redirect browser raw csrf now (s, fl) = (Ok r, (s1, fl1)) -> star (ostep state) s1 s2 ->
     forall code2 redirect2 browser2 raw2 csrf2 now2 fl2,
     is_ok (Callback state code2 redirect2 browser2 raw2 csrf2 now2 (s2, fl2)).1 = false)
  /\ (forall row, In row s.(o_states) -> row.(st_state) = state ->
     forall code redirect browser raw csrf now fl, browser <> row.(st_browser) ->
     let '(r, (s', _)) := Callback state code redirect browser raw csrf now (s, fl) in is_ok r = false /\ s'.(o_states) = s.(o_states)).
Proof using.
  intros Hn. split.
  - intros code redirect browser raw csrf now fl r s1 fl1 s2 H Hs code2 redirect2 browser2 raw2 csrf2 now2 fl2. apply spent_refuses.
    refine (star_invariant (ostep state) (spent state) s1 s2 _ _ Hs).
    { intros x y Hx (o & fl0 & Hd & ->). pose proof (run_oop_spent state o Hd x fl0) as W. destruct (run_oop o (x, fl0)) as [? [? ?]]. by apply W. }
    unfold Callback in H. destruct (_ || _); [done|]. apply bind_ok in H as (row & x & y & Hc & H). apply or_fail_ok in Hc.
    destruct row as [row|]; [|done].
    assert (spent state x) as Hx.
    { unfold consume_state in Hc. apply stmt_ok in Hc as [Hc _]. injection Hc as Hf <-.
      apply find_first_Some in Hf as [Hin Hst]. pose proof Hst as Hst'. unfold is_state in Hst. apply andb_true_iff in Hst as [E1 _]. apply String.eqb_eq in E1.
      intros z Hz Ez. apply in_del in Hz as [Hz Nz]. assert (z = row) as -> by (apply (NoDup_map_inj st_state s.(o_states)); congruence). congruence. }
    assert (forall m : M odb (string * session), within (stays_spent state) m -> m (x, y) = (Ok r, (s1, fl1)) -> spent state s1) as K.
    { intros m W E. specialize (W x y). rewrite E in W. by apply W. }
    eapply K; [|exact H]. apply complete_spent.
  - intros row Hin Hrow code redirect browser raw csrf now fl Hb. unfold Callback.
    destruct (_ || _); [done|]. unfold bind at 1, or_fail, consume_state, stmt.
    assert (forall z, In z s.(o_states) -> is_state state browser z = false) as No.
    { intros z Hz. apply not_true_iff_false. unfold is_state. intros E. bool_to_prop.
      assert (z = row) as -> by (apply (NoDup_map_inj st_state s.(o_states)); congruence). congruence. }
    rewrite (proj2 (find_first_None _ _) No), (del_none _ _ No). by destruct fl as [|[] fl].
Qed.
End Oidc.

(** ** Witnesses *)

(** A provider whose tokens hold the nonce ["non"] and the email ["Eve@X.example"]. *)
Definition demo_callback := Callback string (fun p => (p ++ "/token")%string) (fun p => (p ++ "/userinfo")%string)
  (fun i => Ok i) (fun l => String.concat "&" (List.map (fun x => (x.1 ++ "=" ++ x.2)%string) l))
  (fun _ _ => Ok (200, "body")) (fun _ _ => Err "unreachable") (fun _ => Some ("access", "id")) (fun _ => None)
  (fun _ _ _ => Ok (mk_id_token "non" (Ok ("Eve@X.example", true)))) (fun _ => Ok tt) (fun x => x).
Definition demo_odb : odb string :=
  mk_odb string empty_adb (Some (mk_config "https://i" "cid" "sec" true true))
    [mk_state "st1" "non" "b1" minute; mk_state "st2" "x" "b2" minute] ∅.
Definition demo_session : string * session := ("raw", mk_sess 1 "eve@x.example" "csrf" (hour + 23 * hour + second)).
Definition demo_logged_in := demo_callback "st1" "code" "r" "b1" "raw" "csrf" second (demo_odb, []).

Lemma demo_login : demo_logged_in = (Ok demo_session, demo_logged_in.2).
Proof. vm_compute. reflexivity. Qed.
Lemma demo_login' : demo_logged_in = (Ok demo_session, (demo_logged_in.2.1, demo_logged_in.2.2)).
Proof. vm_compute. reflexivity. Qed.

Lemma callback_is_checked_witness :
  demo_logged_in.1 = Ok demo_session
  /\ exists row c, In row demo_odb.(o_states _) /\ demo_odb.(o_config _) = Some c /\ c.(AutoProvision) = true /\ row.(st_browser) = "b1".
Proof.
  split; [by rewrite demo_login|].
  destruct (callback_is_checked _ _ _ _ _ _ _ _ _ _ _ _ _ _ _ _ _ _ _ _ _ _ _ _ _ demo_login')
    as (row & c & p & access & id & t & email & u & Hin & _ & Hb & _ & _ & Hc & _).
  exists row, c. split; [done|]. split; [done|]. split; [|done]. by injection Hc as <-.
Defined.

Lemma transaction_used_once_witness :
  demo_logged_in.1 = Ok demo_session
  /\ is_ok (demo_callback "st1" "code2" "r" "b1" "raw9" "csrf9" (2 * second) (demo_logged_in.2.1, [])).1 = false
  /\ is_ok (demo_callback "st2" "code2" "r" "b1" "raw9" "csrf9" (2 * second) (demo_odb, [])).1 = false.
Proof.
  split; [by rewrite demo_login|].
  split.
  - assert (NoDup (List.map st_state demo_odb.(o_states _))) as Hn by (cbn; repeat constructor; set_solver).
    eapply (proj1 (transaction_used_once string (fun p => p) _ _ _ _ _ _ _ _ _ _ _ "st1" demo_odb Hn) _ _ _ _ _ _ _ _ _ _ _ demo_login').
    apply star_refl.
  - by vm_compute.
Defined.
