(* ===== verification/SiteApi.v ===== *)
(** The handlers of [internal/server/server.go] for sites, groups and tags, on a
    single node and on a node of a replicated fleet, with the proposals of
    [internal/replicated/controller.go] and the answers of
    [internal/server/replication.go].

    A handler gets the principal [Routes.authorize] found, the parts of the
    request it reads and the values it draws, and answers with a status and a
    body.  Parameters: the URL functions, the codec of operations, and what the
    consensus library makes of a proposal. *)
From S2P Require Import Prelude GoStr TimeText SqlM FleetDb Access Routes Sites Replicated ReplicatedView.
Open Scope string_scope.
Open Scope Z_scope.
Open Scope wf_scope.
Open Scope sql_scope.

(** ** Definitions *)

Inductive answer :=
| AError (msg : string)
| AOk
| AGroup (g : Z * string)
| AGroups (l : list (Z * string * Z))
| ASite (s : Site)
| AList (l : listing)
| ATags (l : list string).
Record reply := mk_reply { status : Z; body : answer }.
Definition writeError (code : Z) (msg : string) : reply := mk_reply code (AError (trim_space msg)).
Definition success (r : reply) : bool := (200 <=? r.(status)) && (r.(status) <? 300).

(** What a handler reads and draws besides its JSON body: the path id, the
    [Idempotency-Key], the time, and the ids that are drawn for a new object and
    for an operation. *)
Record call := mk_call { cl_id : string; cl_key : string; cl_now : Z; cl_cid : string; cl_op : string }.

Record site_input := mk_site_input { in_name : string; in_url : string; in_group : Z; in_enabled : bool }.
(** The query of [GET /api/sites]. *)
Record site_query := mk_site_query {
  q_text : string; q_group : string; q_page : string; q_size : string; q_tag : string; q_archived : string }.

(** What becomes of a proposal: the library refuses it, or commits a log entry
    for it, which this node applies after the entries before it. *)
Inductive commitment :=
| Refused (e : string)
| Committed (before : list (log * faults)) (l : log) (fl : faults).

(** A computation on the tables of the node. *)
Definition with_db (d : db) (f : fsm) : fsm := mk_fsm d f.(f_applied) f.(f_index) f.(f_term) f.(f_failure).
Definition on_store {A} (m : M db A) : M fsm A := fun '(f, fl) =>
  let '(r, (d, fl')) := m (f.(f_db), fl) in (r, (with_db d f, fl')).

(** [replicationRequestContext] and the id [Controller.Propose] makes up. *)
Definition request_id (c : call) : string :=
  let id := trim_space c.(cl_key) in if (id =?s "") || (200 <? len id) then c.(cl_op) else id.

Definition replicationUnavailable (e : string) : bool :=
  contains e "context deadline exceeded" || contains e "replication" || contains e "leader" || contains e "readiness".
Definition replicationHTTPStatus (e : string) : Z :=
  let msg := to_lower e in
  if contains msg "operation id reused" || contains msg "group conflict" then 409
  else if replicationUnavailable e then 503 else 400.

(** [x, err := m; if err != nil { writeError(...) }]. *)
Definition checked {A} (m : M db A) (code : Z) (msg : string -> string) (k : A -> M fsm reply) : M fsm reply :=
  let* r := attempt (on_store m) in
  match r with Err e => ret (writeError code (msg e)) | Ok a => k a end.
Definition same (e : string) : string := e.
Definition says (msg : string) (_ : string) : string := msg.

(** [pathSiteID] and [Server.site]. *)
Definition with_site (p : principal) (c : call) (k : Z -> Site -> M fsm reply) : M fsm reply :=
  match ParseID c.(cl_id) with
  | Err _ => ret (writeError 400 "invalid site id")
  | Ok id => checked (GetForOrg p.(pr_org) id) 404 (says "site not found") (k id)
  end.
(** [decodeJSON]. *)
Definition with_body {A} (b : option A) (k : A -> M fsm reply) : M fsm reply :=
  match b with None => ret (writeError 400 "invalid JSON request") | Some x => k x end.

Section Handlers.
Variable parse : string -> option url.
Variable hostname : url -> string.
Variable url_string : url -> string.
Variable DecodeOperation : string -> result operation.
Variable Digest : operation -> result string.
Variable decode_group : string -> result GroupPayload.
Variable decode_site : string -> result SitePayload.
Variable decode_tags : string -> result TagsPayload.
Variable encode_group : GroupPayload -> string.
Variable encode_site : SitePayload -> string.
Variable encode_tags : TagsPayload -> string.
Variable encode_delete : string.
Variable commit : operation -> fsm -> commitment.
(** [s.replication != nil]. *)
Variable replicated : bool.

(** [Controller.Propose]. *)
Definition Propose (id kind obj payload : string) : M fsm unit := fun '(f, fl) =>
  match commit (mk_op id kind obj payload) f with
  | Refused e => (Err e, (f, fl))
  | Committed before l lfl =>
      let f := (apply_log DecodeOperation Digest decode_group decode_site decode_tags before f).2 in
      match Apply DecodeOperation Digest decode_group decode_site decode_tags l f lfl with
      | (Ok _, f) => (Ok tt, (f, fl))
      | (Err e, f) => (Err e, (f, fl))
      end
  end.
Definition proposed (c : call) (kind obj payload : string) (k : M fsm reply) : M fsm reply :=
  let* r := attempt (Propose (request_id c) kind obj payload) in
  match r with Err e => ret (writeError (replicationHTTPStatus e) e) | Ok _ => k end.

Definition handleGroups (p : principal) : M fsm reply :=
  checked (Groups p.(pr_org)) 500 (says "groups unavailable") (fun l => ret (mk_reply 200 (AGroups l))).

Definition handleCreateGroup (p : principal) (c : call) (b : option string) : M fsm reply :=
  with_body b (fun name =>
  if replicated then
    let name := trim_space name in
    if (name =?s "") || (80 <? len name) then ret (writeError 400 "group name must be 1..80 characters") else
    proposed c KindGroupPut c.(cl_cid) (encode_group (mk_gp c.(cl_cid) p.(pr_org) name c.(cl_now)))
      (checked (GroupByClusterID p.(pr_org) c.(cl_cid)) 503 same (fun g => ret (mk_reply 201 (AGroup g))))
  else checked (CreateGroup p.(pr_org) name c.(cl_now)) 400 same (fun g => ret (mk_reply 201 (AGroup g)))).

Definition handleSites (p : principal) (q : site_query) : M fsm reply :=
  let group := parse_int_val q.(q_group) in
  let page := parse_int_val q.(q_page) in
  let size := parse_int_val q.(q_size) in
  checked (if negb (q.(q_tag) =?s "") && negb (q.(q_archived) =?s "1")
           then ListByTag p.(pr_org) q.(q_text) group q.(q_tag) page size
           else List_ p.(pr_org) q.(q_text) group page size (q.(q_archived) =?s "1"))
    500 (says "sites unavailable") (fun l => ret (mk_reply 200 (AList l))).

Definition name_ok (name : string) : bool := negb ((name =?s "") || (120 <? len name)).

Definition handleCreateSite (p : principal) (c : call) (b : option site_input) : M fsm reply :=
  with_body b (fun i =>
  if replicated then
    let name := trim_space i.(in_name) in
    if negb (name_ok name) then ret (writeError 400 "site name must be 1..120 characters") else
    match CanonicalURL parse hostname url_string i.(in_url) with
    | Err e => ret (writeError 400 e)
    | Ok u =>
        checked (ClusterIDForGroup p.(pr_org) i.(in_group)) 400 same (fun gcid =>
        proposed c KindSitePut c.(cl_cid)
          (encode_site (mk_sp c.(cl_cid) p.(pr_org) name u gcid true false c.(cl_now) c.(cl_now)))
          (checked (GetByClusterID p.(pr_org) c.(cl_cid)) 503 same (fun s => ret (mk_reply 201 (ASite s)))))
    end
  else checked (Create parse hostname url_string p.(pr_org) i.(in_name) i.(in_url) i.(in_group) c.(cl_now)) 400 same
         (fun s => ret (mk_reply 201 (ASite s)))).

Definition handleSite (p : principal) (c : call) : M fsm reply :=
  with_site p c (fun _ s => ret (mk_reply 200 (ASite s))).

Definition handleUpdateSite (p : principal) (c : call) (b : option site_input) : M fsm reply :=
  with_site p c (fun id _ => with_body b (fun i =>
  if replicated then
    checked (GetForOrg p.(pr_org) id) 400 same (fun old =>
    checked (ClusterIDForSite p.(pr_org) id) 400 same (fun cid =>
    checked (ClusterIDForGroup p.(pr_org) i.(in_group)) 400 same (fun gcid =>
    let name := trim_space i.(in_name) in
    if negb (name_ok name) then ret (writeError 400 "site name must be 1..120 characters") else
    match CanonicalURL parse hostname url_string i.(in_url) with
    | Err e => ret (writeError 400 e)
    | Ok u =>
        proposed c KindSitePut cid
          (encode_site (mk_sp cid p.(pr_org) name u gcid i.(in_enabled) old.(st_archived) old.(st_created) c.(cl_now)))
          (checked (GetByClusterID p.(pr_org) cid) 503 same (fun s => ret (mk_reply 200 (ASite s))))
    end)))
  else checked (Update parse hostname url_string p.(pr_org) id i.(in_name) i.(in_url) i.(in_group) i.(in_enabled) c.(cl_now)) 400 same
         (fun s => ret (mk_reply 200 (ASite s))))).

Definition handleArchiveSite (p : principal) (c : call) (b : option bool) : M fsm reply :=
  with_site p c (fun id _ => with_body b (fun archived =>
  if replicated then
    checked (ClusterIDForSite p.(pr_org) id) 400 same (fun cid =>
    proposed c KindSiteArchive cid (encode_site (mk_sp cid 0 "" "" "" false archived 0 c.(cl_now))) (ret (mk_reply 200 AOk)))
  else checked (Archive p.(pr_org) id archived c.(cl_now)) 400 same (fun _ => ret (mk_reply 200 AOk)))).

Definition handleDeleteSite (p : principal) (c : call) : M fsm reply :=
  with_site p c (fun id _ =>
  if replicated then
    checked (GetForOrg p.(pr_org) id) 400 same (fun s =>
    if negb s.(st_archived) then ret (writeError 400 "archive site before deleting it") else
    checked (ClusterIDForSite p.(pr_org) id) 400 same (fun cid =>
    proposed c KindSiteDelete cid encode_delete (ret (mk_reply 200 AOk))))
  else checked (Delete p.(pr_org) id) 400 same (fun _ => ret (mk_reply 200 AOk))).

Definition handleSiteTags (p : principal) (c : call) : M fsm reply :=
  with_site p c (fun id _ =>
  checked (Tags p.(pr_org) id) 500 (says "tags unavailable") (fun l => ret (mk_reply 200 (ATags l)))).

Definition handleSiteTagsUpdate (p : principal) (c : call) (b : option (list string)) : M fsm reply :=
  with_site p c (fun id _ => with_body b (fun tags =>
  if replicated then
    checked (ClusterIDForSite p.(pr_org) id) 400 same (fun cid =>
    proposed c KindTagsSet cid (encode_tags (mk_tp cid tags)) (ret (mk_reply 200 AOk)))
  else checked (SetTags p.(pr_org) id tags) 400 same (fun _ => ret (mk_reply 200 AOk)))).

(** The requests that write, with their bodies. *)
Inductive write :=
| WCreateGroup (b : option string)
| WCreateSite (b : option site_input)
| WUpdateSite (b : option site_input)
| WArchiveSite (b : option bool)
| WDeleteSite
| WTags (b : option (list string)).
Definition handle (w : write) (p : principal) (c : call) : M fsm reply :=
  match w with
  | WCreateGroup b => handleCreateGroup p c b
  | WCreateSite b => handleCreateSite p c b
  | WUpdateSite b => handleUpdateSite p c b
  | WArchiveSite b => handleArchiveSite p c b
  | WDeleteSite => handleDeleteSite p c
  | WTags b => handleSiteTagsUpdate p c b
  end.
End Handlers.

(** ** Lemmas *)

(** The tables but for what only a replicated node keeps: cluster ids, the time
    of archiving (an update of an archived site moves it) and the meta table. *)
Definition plain_group (g : group_row) : group_row := mk_group g.(g_id) g.(g_org) g.(g_name) g.(g_created) None.
Definition plain_site (s : site_row) : site_row :=
  mk_site s.(s_id) s.(s_org) s.(s_name) s.(s_url) s.(s_enabled) s.(s_group) ((fun _ => 0) <$> s.(s_archived))
    s.(s_created) s.(s_updated) None.
Definition erase (d : db) : db :=
  set_meta [] (set_groups (List.map plain_group d.(groups)) (set_sites (List.map plain_site d.(sites)) d)).

(** A node of a replicated fleet: its tables are well formed, every site has a
    cluster id, cluster ids are not empty and group ids are positive. *)
Record replica (d : db) : Prop := {
  re_wf : node_wf d;
  re_sites : forall s, In s d.(sites) -> s.(s_cluster) <> None;
  re_cids : forall g, In g d.(groups) -> g.(g_cluster) <> Some "";
  re_ids : forall g, In g d.(groups) -> 0 < g.(g_id) }.

Lemma with_db_id f : with_db f.(f_db) f = f.
Proof. by destruct f. Qed.

Lemma checked_run {A} (m : M db A) code msg k f : honest m ->
  run (checked m code msg k) f =
  match run m f.(f_db) with
  | (Ok a, d) => run (k a) (with_db d f)
  | (Err e, d) => (Ok (writeError code (msg e)), with_db d f)
  end.
Proof.
  intros H. unfold run at 1, checked. rewrite bind_attempt. unfold on_store.
  destruct (m (f_db f, [])) as [[a|e] [d fl]] eqn:E; unfold run at 1; rewrite E; [|done].
  pose proof (H _ _ _ _ _ E) as H1. rewrite E in H1. injection H1 as ->. done.
Qed.

Lemma GetForOrg_honest org id : honest (GetForOrg org id).
Proof. unfold GetForOrg. solve_honest. Qed.

Lemma with_site_run p c k f :
  run (with_site p c k) f =
  match ParseID c.(cl_id) with
  | Err _ => (Ok (writeError 400 "invalid site id"), f)
  | Ok id => match find_first (own p.(pr_org) id) f.(f_db).(sites) with
             | None => (Ok (writeError 404 "site not found"), f)
             | Some s => run (k id (site_view f.(f_db) s)) f
             end
  end.
Proof.
  unfold with_site. destruct (ParseID _) as [id|]; [|done]. rewrite checked_run by apply GetForOrg_honest.
  rewrite GetForOrg_run. by destruct (find_first _ _); rewrite with_db_id.
Qed.

Lemma failing_status e : success (writeError (replicationHTTPStatus e) e) = false.
Proof. unfold replicationHTTPStatus. by destruct (_ || _); [|destruct (replicationUnavailable e)]. Qed.

(** Two runs of a request that end alike. *)
Definition agree (x y : result reply * fsm) : Prop :=
  exists a b, x.1 = Ok a /\ y.1 = Ok b /\ success a = success b /\ (success a = true -> a = b)
    /\ erase x.2.(f_db) = erase y.2.(f_db).

Lemma agree_refl a f : agree (Ok a, f) (Ok a, f).
Proof. by exists a, a. Qed.
Lemma agree_fail a b f f1 f2 : success a = false -> success b = false -> f1.(f_db) = f.(f_db) -> f2.(f_db) = f.(f_db) ->
  agree (Ok a, f1) (Ok b, f2).
Proof. intros Ha Hb H1 H2. exists a, b. cbn. rewrite Ha, Hb, H1, H2. by split_and!. Qed.
Lemma agree_ok a f1 f2 : erase f1.(f_db) = erase f2.(f_db) -> agree (Ok a, f1) (Ok a, f2).
Proof. intros H. by exists a, a. Qed.

Section Agreement.
Context (parse : string -> option url) (hostname url_string : url -> string)
  (dec : string -> result operation) (digest : operation -> result string)
  (dg : string -> result GroupPayload) (ds : string -> result SitePayload) (dt : string -> result TagsPayload)
  (eg : GroupPayload -> string) (es : SitePayload -> string) (et : TagsPayload -> string) (edel : string)
  (commit : operation -> fsm -> commitment).
(** The codec reads back what it writes, every operation has a digest, and the
    library commits what is proposed at once and alone. *)
Hypothesis decodes_group : forall p, dg (eg p) = Ok p.
Hypothesis decodes_site : forall p, ds (es p) = Ok p.
Hypothesis decodes_tags : forall p, dt (et p) = Ok p.
Hypothesis digests : forall op, is_ok (digest op) = true.
Hypothesis commits : forall op f, exists l, commit op f = Committed [] l [] /\ dec l.(l_data) = Ok op.

Let hand (r : bool) := handle parse hostname url_string dec digest dg ds dt eg es et edel commit r.
Let propose := proposed dec digest dg ds dt commit.

(** The node may take an operation with the id of the request. *)
Definition ready (c : call) (f : fsm) : Prop := f.(f_failure) = None /\ f.(f_applied) !! request_id c = None.

Lemma recorded_meta op h l d : exists m, recorded op h l d = set_meta m d.
Proof using. unfold recorded, put_meta. eexists. reflexivity. Qed.

Lemma Propose_run c kind obj payload f : ready c f ->
  let op := mk_op (request_id c) kind obj payload in
  match run (materialize dg ds dt op) f.(f_db) with
  | (Ok _, d1) => exists f', Propose dec digest dg ds dt commit (request_id c) kind obj payload (f, []) = (Ok tt, (f', []))
                    /\ exists m, f'.(f_db) = set_meta m d1
  | (Err e, _) => exists f', Propose dec digest dg ds dt commit (request_id c) kind obj payload (f, []) = (Err e, (f', []))
                    /\ f'.(f_db) = f.(f_db)
  end.
Proof using digests commits.
  intros [Hf Hn] op. destruct (commits op f) as (l & Hc & Hl).
  assert (exists h, digest op = Ok h) as [h Hh] by (specialize (digests op); destruct (digest op); [eauto|done]).
  unfold Propose. fold op. rewrite Hc. cbn [apply_log snd].
  unfold Apply. rewrite Hl, Hf, Hh. change (op_id op) with (request_id c). rewrite Hn.
  destruct (run (materialize dg ds dt op) (f_db f)) as [[[]|e] d1] eqn:E.
  - rewrite (transact_run_ok _ _ _ op h l _ d1 E). eexists. split; [reflexivity|]. apply recorded_meta.
  - assert (H1 : (run (materialize dg ds dt op) (f_db f)).1 = Err e) by by rewrite E.
    rewrite (transact_run_err dg ds dt op h l (f_db f) e H1). destruct (e =?s ErrGroupConflict); by eexists.
Qed.

Lemma proposed_run c kind obj payload k f : ready c f ->
  match run (materialize dg ds dt (mk_op (request_id c) kind obj payload)) f.(f_db) with
  | (Ok _, d1) => exists f', run (propose c kind obj payload k) f = run k f' /\ exists m, f'.(f_db) = set_meta m d1
  | (Err e, _) => exists f', run (propose c kind obj payload k) f = (Ok (writeError (replicationHTTPStatus e) e), f')
                    /\ f'.(f_db) = f.(f_db)
  end.
Proof using digests commits.
  intros Hr. pose proof (Propose_run c kind obj payload f Hr) as H. cbv zeta in H.
  destruct (run (materialize _ _ _ _) _) as [[[]|e] d1]; destruct H as (f' & H & H2); exists f'; (split; [|done]);
    unfold propose, proposed, run; rewrite bind_attempt, H; done.
Qed.

(** What the operations of the handlers materialize. *)
Lemma mat_group i o p d : run (materialize dg ds dt (mk_op i KindGroupPut o (eg p))) d = run (put_group p) d.
Proof using decodes_group. unfold run, materialize. cbn [op_kind op_payload]. cbn [String.eqb]. by rewrite decodes_group. Qed.
Lemma mat_site i o p d : run (materialize dg ds dt (mk_op i KindSitePut o (es p))) d = run (put_site p) d.
Proof using decodes_site. unfold run, materialize. cbn [op_kind op_payload]. cbn [String.eqb]. by rewrite decodes_site. Qed.
Lemma mat_archive i o p d : run (materialize dg ds dt (mk_op i KindSiteArchive o (es p))) d = run (archive_site p) d.
Proof using decodes_site. unfold run, materialize. cbn [op_kind op_payload]. cbn [String.eqb]. by rewrite decodes_site. Qed.
Lemma mat_delete i o p d : run (materialize dg ds dt (mk_op i KindSiteDelete o p)) d = run (delete_site o) d.
Proof using. reflexivity. Qed.
Lemma mat_tags i o p d : run (materialize dg ds dt (mk_op i KindTagsSet o (et p))) d = run (set_site_tags p) d.
Proof using decodes_tags. unfold run, materialize. cbn [op_kind op_payload]. cbn [String.eqb]. by rewrite decodes_tags. Qed.

(** A row of the organization, and the one with its cluster id. *)
Lemma own_cluster d org id s : replica d -> find_first (own org id) d.(sites) = Some s ->
  exists cid, s.(s_cluster) = Some cid /\ site_by_cluster cid d = Some s /\ In s d.(sites) /\ s.(s_id) = id /\ s.(s_org) = org
    /\ run (ClusterIDForSite org id) d = (Ok cid, d).
Proof using.
  intros Hr H. pose proof (find_first_Some _ _ _ H) as [Hin Hp]. apply own_spec in Hp as [Hi Ho].
  destruct (s_cluster s) as [cid|] eqn:E; [|by apply (re_sites _ Hr s Hin) in E]. exists cid. split_and!; try done.
  - by apply site_by_cluster_Some; [apply Hr|].
  - unfold run, ClusterIDForSite, bind, or_fail. rewrite query_nil. rewrite H. cbn. by rewrite E.
Qed.

Lemma group_taken_fresh d org name cid : replica d -> (forall g, In g d.(groups) -> g.(g_cluster) <> Some cid) ->
  group_taken org name cid d = match group_by_name org name d with Some _ => true | None => false end.
Proof using.
  intros Hr Hc. unfold group_taken. destruct (group_by_name org name d) as [g|] eqn:E; [|done].
  apply find_first_Some in E as [Hin _]. pose proof (nw_no_local _ (re_wf _ Hr) g Hin) as Hn. specialize (Hc g Hin).
  destruct (g_cluster g) as [c|]; [|done]. apply negb_true_iff, String.eqb_neq. congruence.
Qed.

Lemma group_by_cluster_fresh d cid : (forall g, In g d.(groups) -> g.(g_cluster) <> Some cid) -> group_by_cluster cid d = None.
Proof using.
  intros H. apply find_first_None. intros g Hg. specialize (H g Hg). apply not_true_iff_false. intros E. by apply opt_eqb_spec in E.
Qed.
Lemma site_by_cluster_fresh d cid : (forall s, In s d.(sites) -> s.(s_cluster) <> Some cid) -> site_by_cluster cid d = None.
Proof using.
  intros H. apply find_first_None. intros g Hg. specialize (H g Hg). apply not_true_iff_false. intros E. by apply opt_eqb_spec in E.
Qed.

Lemma CreateGroup_run org name now d :
  run (CreateGroup org name now) d =
  (let n := trim_space name in
   if (n =?s "") || (80 <? len n) then (Err "group name must be 1..80 characters", d) else
   match insert_group org n now None d with Some (id, d') => (Ok (id, n), d') | None => (Err "constraint failed", d) end).
Proof using.
  unfold run, CreateGroup. destruct (_ || _); [done|]. unfold bind. rewrite stmt_nil. by destruct (insert_group _ _ _ _ _) as [[]|].
Qed.

Lemma put_new_group_run p d : group_by_cluster p.(gp_cid) d = None ->
  run (put_group p) d =
  if group_taken p.(gp_org) p.(gp_name) p.(gp_cid) d then (Err ErrGroupConflict, d) else
  match insert_group p.(gp_org) p.(gp_name) p.(gp_created) (Some p.(gp_cid)) d with
  | Some (_, d') => (Ok tt, d') | None => (Err "constraint failed", d) end.
Proof using.
  intros H. unfold run, put_group, bind. rewrite query_nil. destruct (group_taken _ _ _ d); [done|].
  rewrite query_nil, H, stmt_nil. by destruct (insert_group _ _ _ _ _) as [[]|].
Qed.

Lemma GroupByClusterID_run org cid d g :
  find_first (fun g => opt_eqb g.(g_cluster) cid && (g.(g_org) =? org)) d.(groups) = Some g ->
  run (GroupByClusterID org cid) d = (Ok (g.(g_id), g.(g_name)), d).
Proof using. intros H. unfold run, GroupByClusterID, bind, or_fail. rewrite query_nil, H. done. Qed.

Lemma create_group_agrees p c b f : replica f.(f_db) -> ready c f ->
  (forall g, In g f.(f_db).(groups) -> g.(g_cluster) <> Some c.(cl_cid)) ->
  agree (run (hand false (WCreateGroup b) p c) f) (run (hand true (WCreateGroup b) p c) f).
Proof using decodes_group digests commits.
  intros Hr Hd Hc. unfold hand, handle, handleCreateGroup. destruct b as [name|]; cbn [with_body]; [|apply agree_refl].
  set (d := f_db f) in *. set (n := trim_space name).
  assert (honest (CreateGroup (pr_org p) name (cl_now c))) as Hh by (unfold CreateGroup; destruct (_ || _); solve_honest).
  rewrite checked_run by done. fold d. rewrite CreateGroup_run. cbv zeta. fold n. destruct ((n =?s "") || (80 <? len n)) eqn:En.
  { eapply agree_fail with (f := f); done. }
  pose proof (proposed_run c KindGroupPut (cl_cid c) (eg (mk_gp (cl_cid c) (pr_org p) n (cl_now c)))
    (checked (GroupByClusterID (pr_org p) (cl_cid c)) 503 same (fun g => ret (mk_reply 201 (AGroup g)))) f Hd) as HP.
  unfold propose in HP. fold d in HP. rewrite mat_group, put_new_group_run in HP by by apply group_by_cluster_fresh.
  cbn [gp_cid gp_org gp_name gp_created] in HP. rewrite group_taken_fresh in HP by done.
  unfold insert_group in *. rewrite (group_by_cluster_fresh d _ Hc) in HP.
  destruct (group_by_name (pr_org p) n d) as [g|]; cbn [andb] in *; rewrite ?andb_true_r, ?andb_false_r in *.
  { destruct HP as (f' & -> & Hf'). eapply agree_fail with (f := f); [done|apply failing_status|done|done]. }
  destruct (org_exists (pr_org p) d); cbn [andb] in *.
  2: { destruct HP as (f' & -> & Hf'). eapply agree_fail with (f := f); [done|apply failing_status|done|done]. }
  destruct HP as (f' & -> & m & Hf'). rewrite checked_run by (unfold GroupByClusterID; solve_honest).
  erewrite GroupByClusterID_run.
  2: { rewrite Hf'. cbn [groups set_groups set_meta]. rewrite find_first_app.
       rewrite (proj2 (find_first_None _ (groups d))); [unfold find_first; cbn; by rewrite String.eqb_refl, Z.eqb_refl|].
       intros g Hg. apply andb_false_iff. left. apply not_true_iff_false. rewrite opt_eqb_spec. by apply Hc. }
  apply agree_ok. cbn [f_db with_db]. rewrite Hf'. unfold erase. cbn. by rewrite !List.map_app.
Qed.

Lemma ClusterIDForGroup_run org gid d :
  run (ClusterIDForGroup org gid) d =
  (if gid =? 0 then Ok "" else
   match find_first (fun g => (g.(g_id) =? gid) && (g.(g_org) =? org)) d.(groups) with
   | Some g => match g.(g_cluster) with Some c => Ok c | None => Err "group is not cluster-managed" end
   | None => Err "group is not cluster-managed"
   end, d).
Proof using.
  unfold run, ClusterIDForGroup. destruct (gid =? 0); [done|]. unfold bind, or_fail. rewrite query_nil.
  destruct (find_first _ (groups d)) as [g|]; [|done]. cbn. by destruct (g_cluster g).
Qed.

(** The group of a request is the organization's in both modes or in neither. *)
Inductive group_choice (org gid : Z) (d : db) : Prop :=
| GroupChosen (gcid : string) : run (ClusterIDForGroup org gid) d = (Ok gcid, d) -> run (check_group org gid) d = (Ok tt, d) ->
    group_ref gcid d = Some (nullif0 gid) -> group_ref_ok (nullif0 gid) d = true -> group_choice org gid d
| NoGroup (e : string) : run (ClusterIDForGroup org gid) d = (Err e, d) ->
    (exists e', run (check_group org gid) d = (Err e', d))
    \/ run (check_group org gid) d = (Ok tt, d) /\ group_ref_ok (nullif0 gid) d = false -> group_choice org gid d.

Lemma choose_group org gid d : replica d -> group_choice org gid d.
Proof using.
  intros Hr. pose proof (ClusterIDForGroup_run org gid d) as H1. pose proof (check_group_run org gid d) as H2. unfold nullif0.
  destruct (Z.eqb_spec gid 0) as [->|Hz].
  { by apply (GroupChosen _ _ _ ""). }
  destruct (find_first _ (groups d)) as [g|] eqn:E.
  - apply find_first_Some in E as [Hin Hp]. apply andb_true_iff in Hp as [Hi Ho]. apply Z.eqb_eq in Hi. subst gid.
    destruct (g_cluster g) as [c|] eqn:Ec; [|by destruct (nw_no_local _ (re_wf _ Hr) g Hin)].
    pose proof (re_ids _ Hr g Hin). pose proof (re_cids _ Hr g Hin) as Hne.
    assert (existsb (fun x => (x.(g_id) =? g.(g_id)) && (x.(g_org) =? org)) d.(groups) = true) as Hx.
    { apply existsb_exists. exists g. by rewrite Z.eqb_refl, Ho. }
    rewrite Hx in H2. apply (GroupChosen _ _ _ c); [done|by destruct (0 <? _)| |].
    + unfold group_ref. destruct (String.eqb_spec c "") as [->|]; [done|].
      rewrite (proj2 (group_by_cluster_Some d c g (re_wf _ Hr)) (conj Hin Ec)). unfold nullif0. cbn. by destruct (Z.eqb_spec (g_id g) 0).
    + unfold nullif0. destruct (Z.eqb_spec (g_id g) 0); [done|]. cbn. by rewrite (group_by_id_Some d g (re_wf _ Hr) Hin).
  - eapply NoGroup; [exact H1|].
    assert (existsb (fun g => (g.(g_id) =? gid) && (g.(g_org) =? org)) d.(groups) = false) as Hx.
    { apply existsb_none_iff. exact (proj1 (find_first_None _ _) E). }
    rewrite Hx in H2. destruct (Z.ltb_spec 0 gid); [left; by eexists|right]. split; [done|]. unfold nullif0.
    destruct (Z.eqb_spec gid 0); [done|]. cbn. unfold group_by_id. rewrite (proj2 (find_first_None _ _)); [done|].
    intros g Hg. apply Z.eqb_neq. pose proof (re_ids _ Hr g Hg). lia.
Qed.

Lemma check_group_honest org gid : honest (check_group org gid).
Proof using. unfold check_group. solve_honest. Qed.
Lemma ClusterIDForGroup_honest org gid : honest (ClusterIDForGroup org gid).
Proof using. unfold ClusterIDForGroup. solve_honest. Qed.
Lemma ClusterIDForSite_honest org id : honest (ClusterIDForSite org id).
Proof using. unfold ClusterIDForSite. solve_honest. Qed.
Lemma GetByClusterID_honest org cid : honest (GetByClusterID org cid).
Proof using. unfold GetByClusterID, GetForOrg. solve_honest. Qed.
Lemma Create_honest org name raw gid now : honest (Create parse hostname url_string org name raw gid now).
Proof using. unfold Create, lift, check_group, GetForOrg. solve_honest. Qed.
Lemma Update_honest org id name raw gid en now : honest (Update parse hostname url_string org id name raw gid en now).
Proof using. unfold Update, lift, check_group, GetForOrg. solve_honest. Qed.

Lemma GetByClusterID_run org cid d s :
  find_first (fun s => opt_eqb s.(s_cluster) cid && (s.(s_org) =? org)) d.(sites) = Some s ->
  find_first (own org s.(s_id)) d.(sites) = Some s ->
  run (GetByClusterID org cid) d = (Ok (site_view d s), d).
Proof using.
  intros H1 H2. unfold GetByClusterID. rewrite (run_bind _ _ d (Some s) d); [by rewrite GetForOrg_run, H2|solve_honest|].
  unfold run, or_fail. rewrite query_nil. by rewrite H1.
Qed.

(** [Create], as its checks and then the rows. *)
Lemma Create_run org name raw gid now d :
  run (Create parse hostname url_string org name raw gid now) d =
  (if negb (name_ok (trim_space name)) then (Err "site name must be 1..120 characters", d) else
   match CanonicalURL parse hostname url_string raw with
   | Err e => (Err e, d)
   | Ok u => match run (check_group org gid) d with
             | (Err e, d') => (Err e, d')
             | (Ok _, d') => run (create_tail org (trim_space name) u gid now) d'
             end
   end).
Proof using.
  unfold Create, name_ok. rewrite negb_involutive. destruct (_ || _); [done|].
  destruct (CanonicalURL _ _ _ _) as [u|e]; [|done]. cbn [lift].
  match goal with |- ?L = _ => change L with (run (check_group org gid ;;; create_tail org (trim_space name) u gid now) d) end.
  destruct (run (check_group org gid) d) as [[[]|e] d'] eqn:E.
  - by erewrite run_bind; [|apply check_group_honest|exact E].
  - unfold run, bind in *. destruct (check_group org gid (d, [])) as [[|] []]; [done|]. by injection E as -> ->.
Qed.

Definition new_clustered (org : Z) (name u : string) (gid now : Z) (cid : string) (d : db) : site_row :=
  mk_site (fresh_id (List.map s_id d.(sites))) org name u true (nullif0 gid) None now now (Some cid).

Lemma put_new_site_run d org name u gid now cid gcid : replica d -> group_ref gcid d = Some (nullif0 gid) ->
  group_ref_ok (nullif0 gid) d = true -> (forall s, In s d.(sites) -> s.(s_cluster) <> Some cid) ->
  let s := new_clustered org name u gid now cid d in
  run (put_site (mk_sp cid org name u gcid true false now now)) d =
  if org_exists org d then (Ok tt, new_rows s.(s_id) now (set_sites (d.(sites) ++ [s]) d)) else (Err "constraint failed", d).
Proof using.
  intros Hr Hg Hok Hc s. unfold run. rewrite put_site_start. cbn [sp_group sp_cid sp_org sp_name sp_url sp_enabled sp_created sp_updated].
  rewrite Hg, (site_by_cluster_fresh d cid Hc).
  unfold bind at 1. rewrite stmt_nil. unfold insert_site. rewrite Hok, (site_by_cluster_fresh d cid Hc), !andb_true_r.
  destruct (org_exists org d); [|done].
  change (mk_site _ _ _ _ _ _ _ _ _ _) with s. change (fresh_id _) with s.(s_id).
  rewrite bind_tail, (new_rows_run _ s now d (nw_rows d (re_wf _ Hr)) eq_refl). done.
Qed.

Lemma not_yet d org s cid : s.(s_id) = fresh_id (List.map s_id d.(sites)) -> s.(s_org) = org -> s.(s_cluster) = Some cid ->
  (forall x, In x d.(sites) -> x.(s_cluster) <> Some cid) ->
  find_first (fun x => opt_eqb x.(s_cluster) cid && (x.(s_org) =? org)) (d.(sites) ++ [s]) = Some s
  /\ find_first (own org s.(s_id)) (d.(sites) ++ [s]) = Some s.
Proof using.
  intros Hi Ho Hs Hc. rewrite !find_first_app. split.
  - rewrite (proj2 (find_first_None _ d.(sites))); [unfold find_first; cbn; by rewrite Hs, Ho; cbn; rewrite String.eqb_refl, Z.eqb_refl|].
    intros x Hx. apply andb_false_iff. left. apply not_true_iff_false. rewrite opt_eqb_spec. by apply Hc.
  - rewrite (proj2 (find_first_None _ d.(sites))); [unfold find_first, own; cbn; by rewrite Ho, !Z.eqb_refl|].
    intros x Hx. unfold own. apply andb_false_iff. left. apply Z.eqb_neq. rewrite Hi. intros E.
    apply (fresh_id_notin (List.map s_id d.(sites))). rewrite <- E. by apply in_map.
Qed.

Lemma create_site_agrees p c b f : replica f.(f_db) -> ready c f ->
  (forall s, In s f.(f_db).(sites) -> s.(s_cluster) <> Some c.(cl_cid)) ->
  agree (run (hand false (WCreateSite b) p c) f) (run (hand true (WCreateSite b) p c) f).
Proof using decodes_site digests commits.
  intros Hr Hd Hc. unfold hand, handle, handleCreateSite. destruct b as [i|]; cbn [with_body]; [|apply agree_refl].
  set (d := f_db f) in *. set (n := trim_space (in_name i)). rewrite checked_run by apply Create_honest. fold d. rewrite Create_run. fold n.
  destruct (negb (name_ok n)); [by eapply agree_fail with (f := f)|].
  destruct (CanonicalURL _ _ _ _) as [u|e]; [|by eapply agree_fail with (f := f)].
  rewrite checked_run by apply ClusterIDForGroup_honest. fold d.
  destruct (choose_group (pr_org p) (in_group i) d Hr) as [gcid G1 G2 G3 G4|e G1 [(e' & G2)|[G2 G3]]]; rewrite G1, G2.
  2: by eapply agree_fail with (f := f).
  2: { rewrite create_tail_run, G3, andb_false_r by apply Hr. by eapply agree_fail with (f := f). }
  rewrite (with_db_id f : with_db d f = f), create_tail_run, G4, andb_true_r by apply Hr.
  pose proof (proposed_run c KindSitePut (cl_cid c) (es (mk_sp (cl_cid c) (pr_org p) n u gcid true false (cl_now c) (cl_now c)))
    (checked (GetByClusterID (pr_org p) (cl_cid c)) 503 same (fun s => ret (mk_reply 201 (ASite s)))) f Hd) as HP.
  unfold propose in HP. fold d in HP. rewrite mat_site, (put_new_site_run d _ _ _ _ _ _ gcid Hr G3 G4 Hc) in HP.
  destruct (org_exists (pr_org p) d).
  2: { destruct HP as (f' & -> & Hf'). eapply agree_fail with (f := f); [done|apply failing_status|done|done]. }
  destruct HP as (f' & -> & m & Hf'). rewrite checked_run by apply GetByClusterID_honest.
  set (s := new_clustered _ _ _ _ _ _ _) in *.
  destruct (not_yet d (pr_org p) s (cl_cid c) eq_refl eq_refl eq_refl Hc) as [N1 N2].
  erewrite GetByClusterID_run; [|rewrite Hf'; exact N1|rewrite Hf'; exact N2]. rewrite Hf'.
  apply agree_ok. cbn [f_db with_db]. unfold erase. cbn. by rewrite !List.map_app.
Qed.

(** [Update], as its checks and then the statement. *)
Lemma Update_run org id name raw gid en now d s : find_first (own org id) d.(sites) = Some s ->
  run (Update parse hostname url_string org id name raw gid en now) d =
  (if negb (name_ok (trim_space name)) then (Err "site name must be 1..120 characters", d) else
   match CanonicalURL parse hostname url_string raw with
   | Err e => (Err e, d)
   | Ok u => match run (check_group org gid) d with
             | (Err e, d') => (Err e, d')
             | (Ok _, d') => run (exec_opt (update_site org id (trim_space name) u (nullif0 gid) en now) ;;; GetForOrg org id) d'
             end
   end).
Proof using.
  intros Hs. unfold Update, name_ok. rewrite negb_involutive.
  rewrite (run_bind _ _ d (site_view d s) d) by (apply GetForOrg_honest || by rewrite GetForOrg_run, Hs).
  destruct (_ || _); [done|].
  destruct (CanonicalURL _ _ _ _) as [u|e]; [|done]. cbn [lift].
  match goal with |- ?L = _ => change L with (run (check_group org gid ;;;
    exec_opt (update_site org id (trim_space name) u (nullif0 gid) en now) ;;; GetForOrg org id) d) end.
  destruct (run (check_group org gid) d) as [[[]|e] d'] eqn:E.
  - by erewrite run_bind; [|apply check_group_honest|exact E].
  - unfold run, bind in *. destruct (check_group org gid (d, [])) as [[|] []]; [done|]. by injection E as -> ->.
Qed.

(** The rows that [WHERE id=? AND organization_id=?], [WHERE id=?] and
    [WHERE cluster_id=?] select are the same one. *)
Lemma same_row d org id s cid : replica d -> find_first (own org id) d.(sites) = Some s -> s.(s_cluster) = Some cid ->
  forall x, In x d.(sites) -> own org id x = (x.(s_id) =? s.(s_id)) /\ own org id x = opt_eqb x.(s_cluster) cid.
Proof using.
  intros Hr H Hs x Hx. pose proof (find_first_Some _ _ _ H) as [Hin Hp]. pose proof Hp as Hp'. apply own_spec in Hp as [Hi Ho].
  destruct (decide (x = s)) as [->|N].
  - rewrite Hp', Z.eqb_refl, Hs. cbn. by rewrite String.eqb_refl.
  - assert (x.(s_id) <> s.(s_id)) as Ni.
    { intros E. apply N, (NoDup_map_inj s_id d.(sites)); [apply Hr|done..]. }
    assert (own org id x = false) as ->.
    { apply not_true_iff_false. intros E. apply own_spec in E as [E _]. congruence. }
    split; symmetry; [by apply Z.eqb_neq|]. apply not_true_iff_false. intros E. apply opt_eqb_spec in E.
    by apply N, (nw_site_clusters d (re_wf _ Hr) x s cid).
Qed.

Lemma upd_ext {A} (p q : A -> bool) f g l : (forall x, In x l -> p x = q x) -> (forall x, In x l -> p x = true -> f x = g x) ->
  upd p f l = upd q g l.
Proof using.
  intros H1 H2. unfold upd. apply List.map_ext_in. intros x Hx. rewrite <- (H1 x Hx). destruct (p x) eqn:E; [by apply H2|done].
Qed.

Lemma found_again d org id s f : find_first (own org id) d.(sites) = Some s -> (forall x, (f x).(s_id) = x.(s_id) /\ (f x).(s_org) = x.(s_org)) ->
  find_first (own org id) (upd (own org id) f d.(sites)) = Some (f s).
Proof using.
  intros H Hf. rewrite find_first_upd; [|intros x _; unfold own; by rewrite (proj1 (Hf x)), (proj2 (Hf x))].
  rewrite H. cbn. apply find_first_Some in H as [_ ->]. done.
Qed.

Lemma put_old_site_run d p s gid : site_by_cluster p.(sp_cid) d = Some s -> group_ref p.(sp_group) d = Some gid ->
  run (put_site p) d = (Ok tt, update_by_id s.(s_id) (put_site_row p gid) d).
Proof using. intros H Hg. unfold run. by rewrite put_site_start, Hg, H. Qed.

Definition updated_row (name u : string) (grp : option Z) (en : bool) (now : Z) (s : site_row) : site_row :=
  mk_site s.(s_id) s.(s_org) name u en grp s.(s_archived) s.(s_created) now s.(s_cluster).

Lemma update_tail_run org id name u grp en now d s : find_first (own org id) d.(sites) = Some s ->
  let f := updated_row name u grp en now in
  let d' := set_sites (upd (own org id) f d.(sites)) d in
  run (exec_opt (update_site org id name u grp en now) ;;; GetForOrg org id) d =
  if group_ref_ok grp d then (Ok (site_view d' (f s)), d') else (Err "constraint failed", d).
Proof using.
  intros Hs f d'. unfold run, bind, exec_opt. rewrite stmt_nil. unfold update_site.
  assert (existsb (own org id) d.(sites) = true) as ->.
  { apply existsb_exists. exists s. apply (find_first_Some _ _ _ Hs). }
  destruct (group_ref_ok grp d); [|done]. cbn [negb andb mbind option_bind].
  pose proof (GetForOrg_run org id d') as H. unfold run in H. change (set_sites _ d) with d'. rewrite H.
  change (sites d') with (upd (own org id) f d.(sites)). by rewrite (found_again d org id s f Hs).
Qed.

(** A replicated update and its answer, against the statement of a single node. *)
Lemma put_site_same d org id s cid name u gcid grp en now m : replica d ->
  find_first (own org id) d.(sites) = Some s -> s.(s_cluster) = Some cid ->
  let p := mk_sp cid org name u gcid en (site_view d s).(st_archived) s.(s_created) now in
  let d1 := set_sites (upd (own org id) (updated_row name u grp en now) d.(sites)) d in
  let d2 := set_meta m (update_by_id s.(s_id) (put_site_row p grp) d) in
  erase d1 = erase d2
  /\ run (GetByClusterID org cid) d2 = (Ok (site_view d1 (updated_row name u grp en now s)), d2).
Proof using.
  intros Hr Hs Hc p d1 d2. pose proof (same_row d org id s cid Hr Hs Hc) as Same. pose proof (find_first_Some _ _ _ Hs) as [Hin Ho].
  apply own_spec in Ho as [Hi Ho].
  assert (d2.(sites) = upd (own org id) (put_site_row p grp) d.(sites)) as E2.
  { cbn. apply upd_ext; [|done]. intros x Hx. symmetry. apply (Same x Hx). }
  assert (List.map plain_site (upd (own org id) (updated_row name u grp en now) d.(sites)) = List.map plain_site d2.(sites)) as E.
  { rewrite E2. unfold upd. rewrite !List.map_map. apply List.map_ext_in. intros x Hx. destruct (own org id x) eqn:Ex; [|done].
    rewrite (proj2 (Same x Hx)) in Ex. apply opt_eqb_spec in Ex.
    assert (x = s) as -> by (by apply (nw_site_clusters d (re_wf _ Hr) x s cid)).
    unfold plain_site, put_site_row, archived_at, p. cbn. by destruct (s_archived s). }
  split; [unfold erase; rewrite <- E; reflexivity|].
  rewrite (GetByClusterID_run org cid d2 (put_site_row p grp s)).
  - f_equal. f_equal. unfold site_view, put_site_row, archived_at, p. cbn. by destruct (s_archived s).
  - rewrite E2, find_first_upd by done. rewrite (find_first_unique _ _ s); [|intros y Hy Hp; apply andb_true_iff in Hp as [Hp _]; apply opt_eqb_spec in Hp; by apply (nw_site_clusters d (re_wf _ Hr) y s cid)|done|by rewrite Hc, Ho; cbn; rewrite String.eqb_refl, Z.eqb_refl].
    cbn. apply find_first_Some in Hs as [_ ->]. done.
  - rewrite E2. cbn [s_id put_site_row]. rewrite Hi. by apply found_again.
Qed.

Lemma update_site_agrees p c b f : replica f.(f_db) -> ready c f ->
  agree (run (hand false (WUpdateSite b) p c) f) (run (hand true (WUpdateSite b) p c) f).
Proof using decodes_site digests commits.
  intros Hr Hd. unfold hand, handle, handleUpdateSite. rewrite !with_site_run.
  destruct (ParseID (cl_id c)) as [id|]; [|apply agree_refl]. set (d := f_db f) in *.
  destruct (find_first (own (pr_org p) id) (sites d)) as [s|] eqn:Hs; [|apply agree_refl].
  destruct b as [i|]; cbn [with_body]; [|apply agree_refl]. set (n := trim_space (in_name i)).
  destruct (own_cluster d _ _ s Hr Hs) as (cid & Hc & Hbc & _ & _ & _ & Hcl).
  rewrite (checked_run (Update _ _ _ _ _ _ _ _ _ _)) by apply Update_honest. fold d. rewrite (Update_run _ _ _ _ _ _ _ d s Hs). fold n.
  rewrite checked_run by apply GetForOrg_honest. fold d. rewrite GetForOrg_run, Hs, (with_db_id f : with_db d f = f).
  rewrite checked_run by apply ClusterIDForSite_honest. fold d. rewrite Hcl, (with_db_id f : with_db d f = f).
  rewrite (checked_run (ClusterIDForGroup _ _)) by apply ClusterIDForGroup_honest. fold d.
  destruct (choose_group (pr_org p) (in_group i) d Hr) as [gcid G1 G2 G3 G4|e G1 G2]; rewrite G1.
  2: { destruct (negb (name_ok n)); [by eapply agree_fail with (f := f)|].
       destruct (CanonicalURL _ _ _ _) as [u|e']; [|by eapply agree_fail with (f := f)].
       destruct G2 as [(e' & ->)|[-> G3]]; [by eapply agree_fail with (f := f)|].
       rewrite (update_tail_run _ _ _ _ _ _ _ d s Hs), G3. by eapply agree_fail with (f := f). }
  rewrite G2, (with_db_id f : with_db d f = f). cbv zeta. destruct (negb (name_ok n)); [by eapply agree_fail with (f := f)|].
  destruct (CanonicalURL _ _ _ _) as [u|e]; [|by eapply agree_fail with (f := f)].
  rewrite (update_tail_run _ _ _ _ _ _ _ d s Hs), G4.
  match goal with |- agree _ (run (proposed _ _ _ _ _ _ _ _ _ (es ?q) ?k) _) =>
    pose proof (proposed_run c KindSitePut cid (es q) k f Hd) as HP; set (sp := q) in * end.
  unfold propose in HP. fold d in HP. rewrite mat_site, (put_old_site_run d sp s (nullif0 (in_group i)) Hbc G3) in HP.
  destruct HP as (f' & -> & m & Hf').
  destruct (put_site_same d _ _ s cid n u gcid (nullif0 (in_group i)) (in_enabled i) (cl_now c) m Hr Hs Hc) as [E R].
  rewrite checked_run by apply GetByClusterID_honest. rewrite Hf'. unfold sp. cbn [st_created site_view]. rewrite R.
  apply agree_ok. exact E.
Qed.

Lemma archive_site_agrees p c b f : replica f.(f_db) -> ready c f ->
  agree (run (hand false (WArchiveSite b) p c) f) (run (hand true (WArchiveSite b) p c) f).
Proof using decodes_site digests commits.
  intros Hr Hd. unfold hand, handle, handleArchiveSite. rewrite !with_site_run.
  destruct (ParseID (cl_id c)) as [id|]; [|apply agree_refl]. set (d := f_db f) in *.
  destruct (find_first (own (pr_org p) id) (sites d)) as [s|] eqn:Hs; [|apply agree_refl].
  destruct b as [a|]; cbn [with_body]; [|apply agree_refl].
  destruct (own_cluster d _ _ s Hr Hs) as (cid & Hc & _ & _ & _ & _ & Hcl).
  rewrite (checked_run (Archive _ _ _ _)) by (unfold Archive, GetForOrg; solve_honest). fold d.
  unfold Archive. rewrite (run_bind _ _ d (site_view d s) d) by (apply GetForOrg_honest || by rewrite GetForOrg_run, Hs).
  rewrite run_exec. rewrite checked_run by apply ClusterIDForSite_honest. fold d. rewrite Hcl, (with_db_id f : with_db d f = f).
  match goal with |- agree _ (run (proposed _ _ _ _ _ _ _ _ _ (es ?q) ?k) _) =>
    pose proof (proposed_run c KindSiteArchive cid (es q) k f Hd) as HP; set (sp := q) in * end.
  unfold propose in HP. fold d in HP. rewrite mat_archive in HP. unfold archive_site in HP. rewrite run_exec in HP.
  destruct HP as (f' & -> & m & Hf'). apply agree_ok. rewrite Hf'. cbn [f_db with_db].
  rewrite (upd_ext (own (pr_org p) id) (fun s => opt_eqb s.(s_cluster) (sp_cid sp)) _
    (fun s => mk_site s.(s_id) s.(s_org) s.(s_name) s.(s_url) s.(s_enabled) s.(s_group) (archived_at sp) s.(s_created) (sp_updated sp) s.(s_cluster))).
  - reflexivity.
  - intros x Hx. apply (same_row d _ _ s cid Hr Hs Hc x Hx).
  - done.
Qed.

Lemma delete_sites_ext q1 q2 d : (forall x, In x d.(sites) -> q1 x = q2 x) -> delete_sites q1 d = delete_sites q2 d.
Proof using.
  intros H. unfold delete_sites. rewrite (List.filter_ext_in q1 q2) by done.
  assert (del q1 d.(sites) = del q2 d.(sites)) as ->; [|done].
  unfold del. apply List.filter_ext_in. intros x Hx. by rewrite (H x Hx).
Qed.

Lemma delete_site_agrees p c f : replica f.(f_db) -> ready c f ->
  agree (run (hand false WDeleteSite p c) f) (run (hand true WDeleteSite p c) f).
Proof using digests commits.
  intros Hr Hd. unfold hand, handle, handleDeleteSite. rewrite !with_site_run.
  destruct (ParseID (cl_id c)) as [id|]; [|apply agree_refl]. set (d := f_db f) in *.
  destruct (find_first (own (pr_org p) id) (sites d)) as [s|] eqn:Hs; [|apply agree_refl].
  destruct (own_cluster d _ _ s Hr Hs) as (cid & Hc & _ & _ & _ & _ & Hcl).
  rewrite (checked_run (Delete _ _)) by (unfold Delete, GetForOrg; solve_honest). fold d.
  unfold Delete. rewrite (run_bind _ _ d (site_view d s) d) by (apply GetForOrg_honest || by rewrite GetForOrg_run, Hs).
  rewrite (checked_run (GetForOrg _ _)) by apply GetForOrg_honest. fold d. rewrite GetForOrg_run, Hs, (with_db_id f : with_db d f = f).
  destruct (negb (st_archived (site_view d s))); [by eapply agree_fail with (f := f)|].
  rewrite run_exec. rewrite checked_run by apply ClusterIDForSite_honest. fold d. rewrite Hcl, (with_db_id f : with_db d f = f).
  pose proof (proposed_run c KindSiteDelete cid edel (ret (mk_reply 200 AOk)) f Hd) as HP.
  unfold propose in HP. fold d in HP. rewrite mat_delete in HP. unfold delete_site in HP. rewrite run_exec in HP.
  destruct HP as (f' & -> & m & Hf'). apply agree_ok. rewrite Hf'. cbn [f_db with_db].
  rewrite (delete_sites_ext (own (pr_org p) id) (fun s => opt_eqb s.(s_cluster) cid)); [reflexivity|].
  intros x Hx. apply (same_row d _ _ s cid Hr Hs Hc x Hx).
Qed.

(** Tags as the single node stores them. *)
Definition clean (l : list string) : Prop := norm_tags l [] = (l, true).

Lemma put_tags_honest site l seen : honest (put_tags site l seen).
Proof using.
  revert seen. induction l as [|t l IH]; intros seen; cbn [put_tags]; [apply honest_ret|].
  destruct (_ || _); [apply IH|]. destruct (40 <? _); [apply honest_throw|].
  apply honest_bind; [apply honest_stmt|]. intros _. apply IH.
Qed.
Lemma SetTags_honest org id l : honest (SetTags org id l).
Proof using.
  unfold SetTags. apply honest_bind; [apply GetForOrg_honest|]. intros _.
  apply honest_bind; [apply honest_stmt|]. intros _. apply put_tags_honest.
Qed.

(** The tables with the tags of a site replaced. *)
Definition retagged (id : Z) (l : list string) (d : db) : db :=
  set_tags (del (fun t => t.1 =? id) d.(tags) ++ List.map (pair id) l)%list d.

Lemma SetTags_run org id l d s : find_first (own org id) d.(sites) = Some s -> clean l ->
  run (SetTags org id l) d = (Ok tt, retagged id l d).
Proof using.
  intros Hs Hl. unfold SetTags. rewrite (run_bind _ _ d (site_view d s) d) by (apply GetForOrg_honest || by rewrite GetForOrg_run, Hs).
  unfold run, bind. rewrite exec_nil, put_tags_run; [by rewrite Hl|exact (own_exists org id d s Hs)|].
  intros t Ht Hi. apply in_del in Ht as [_ Ht]. by apply Z.eqb_neq in Ht.
Qed.

Lemma set_site_tags_run cid l d s : site_by_cluster cid d = Some s -> In s d.(sites) -> clean l ->
  run (set_site_tags (mk_tp cid l)) d = (Ok tt, retagged s.(s_id) l d).
Proof using.
  intros Hs Hin Hl. unfold run, set_site_tags, bind. rewrite stmt_nil. cbn [tp_cid tp_tags]. rewrite Hs. cbn [mbind option_bind].
  rewrite exec_nil. pose proof (norm_tags_spec l []) as Hn. rewrite Hl in Hn. destruct Hn as [Hn _].
  pose proof (insert_tags_run s.(s_id) l (delete_tags s.(s_id) d) (del (fun t => t.1 =? s.(s_id)) d.(tags)) []
    (site_exists_In d s Hin)) as H.
  cbn [List.map List.app] in H. rewrite app_nil_r, bool_decide_eq_true_2 in H by done.
  rewrite H; [reflexivity| |done|apply NoDup_nil_2].
  intros t Ht. apply in_del in Ht as [_ Ht]. by apply Z.eqb_neq.
Qed.

Lemma tags_agrees p c b f : replica f.(f_db) -> ready c f -> (forall l, b = Some l -> clean l) ->
  agree (run (hand false (WTags b) p c) f) (run (hand true (WTags b) p c) f).
Proof using decodes_tags digests commits.
  intros Hr Hd Hl. unfold hand, handle, handleSiteTagsUpdate. rewrite !with_site_run.
  destruct (ParseID (cl_id c)) as [id|]; [|apply agree_refl]. set (d := f_db f) in *.
  destruct (find_first (own (pr_org p) id) (sites d)) as [s|] eqn:Hs; [|apply agree_refl].
  destruct b as [l|]; cbn [with_body]; [|apply agree_refl]. specialize (Hl l eq_refl).
  destruct (own_cluster d _ _ s Hr Hs) as (cid & Hc & Hbc & Hin & Hi & _ & Hcl).
  rewrite (checked_run (SetTags _ _ _)) by apply SetTags_honest. fold d. rewrite (SetTags_run _ _ _ d s Hs Hl).
  rewrite checked_run by apply ClusterIDForSite_honest. fold d. rewrite Hcl, (with_db_id f : with_db d f = f).
  pose proof (proposed_run c KindTagsSet cid (et (mk_tp cid l)) (ret (mk_reply 200 AOk)) f Hd) as HP.
  unfold propose in HP. fold d in HP. rewrite mat_tags, (set_site_tags_run cid l d s Hbc Hin Hl) in HP.
  destruct HP as (f' & -> & m & Hf'). apply agree_ok. rewrite Hf', Hi. reflexivity.
Qed.

(** What a request draws is new, and its tags are as the single node keeps them. *)
Definition drawn_new (w : write) (c : call) (d : db) : Prop :=
  match w with
  | WCreateGroup _ => forall g, In g d.(groups) -> g.(g_cluster) <> Some c.(cl_cid)
  | WCreateSite _ => forall s, In s d.(sites) -> s.(s_cluster) <> Some c.(cl_cid)
  | WTags (Some l) => clean l
  | _ => True
  end.

(** C34: the two modes of the server do the same. On a node of a replicated fleet
    with a working consensus library and database, and for a request whose id the log
    has not seen, whose drawn cluster id is new and whose tags are trimmed, not empty,
    in lower case, distinct and of at most 40 bytes, writing a group, a site or tags
    succeeds through the log exactly when the code for a single node would have carried
    it out on the same tables; then both give the same answer, and in any case leave the
    same tables but for the cluster ids, the time of archiving and the log's own
    records. *)
Theorem modes_agree w p c f : replica f.(f_db) -> ready c f -> drawn_new w c f.(f_db) ->
  exists a b, (run (hand false w p c) f).1 = Ok a /\ (run (hand true w p c) f).1 = Ok b
    /\ success a = success b /\ (success a = true -> a = b)
    /\ erase (run (hand false w p c) f).2.(f_db) = erase (run (hand true w p c) f).2.(f_db).
Proof using decodes_group decodes_site decodes_tags digests commits.
  intros Hr Hd Hn. change (agree (run (hand false w p c) f) (run (hand true w p c) f)).
  destruct w as [b|b|b|b| |b].
  - by apply create_group_agrees.
  - by apply create_site_agrees.
  - by apply update_site_agrees.
  - by apply archive_site_agrees.
  - by apply delete_site_agrees.
  - apply tags_agrees; [done|done|]. by intros l ->.
Qed.

(** *** Keys *)

Lemma checked_within {A} R `{!Reflexive R} `{!Transitive R} (m : M db A) code msg k :
  readonly m -> (forall a, within R (k a)) -> within R (checked m code msg k).
Proof using.
  intros Hm Hk. apply within_bind; [done| |].
  - intros f fl. unfold attempt, on_store. destruct (m (f_db f, fl)) as [r [d fl']] eqn:E. cbn. by rewrite (Hm _ _ _ _ _ E), with_db_id.
  - intros [a|e]; [apply Hk|by apply within_ret].
Qed.

Lemma hand_within R `{!Reflexive R} `{!Transitive R} w p c :
  (forall kind obj payload, within R (Propose dec digest dg ds dt commit (request_id c) kind obj payload)) -> within R (hand true w p c).
Proof using.
  intros HP.
  assert (forall kind obj payload k, within R k -> within R (propose c kind obj payload k)) as Hp.
  { intros kind obj payload k Hk. apply within_bind; [done| |].
    - intros f fl. unfold attempt. pose proof (HP kind obj payload f fl). by destruct (Propose _ _ _ _ _ _ _ _ _ _ _) as [? [? ?]].
    - intros [a|e]; [done|by apply within_ret]. }
  assert (forall k, (forall id s, within R (k id s)) -> within R (with_site p c k)) as Hs.
  { intros k Hk. unfold with_site. destruct (ParseID _); [|by apply within_ret]. apply checked_within; [done|done|apply GetForOrg_readonly|done]. }
  assert (forall A (b : option A) k, (forall x, within R (k x)) -> within R (with_body b k)) as Hb.
  { intros A b k Hk. destruct b; [apply Hk|by apply within_ret]. }
  unfold hand, handle, handleCreateGroup, handleCreateSite, handleUpdateSite, handleArchiveSite, handleDeleteSite, handleSiteTagsUpdate.
  unfold propose in Hp.
  destruct w as [b|b|b|b| |b]; repeat first
    [ apply Hb; intros ? | apply Hs; intros ? ? | apply Hp | by apply within_ret
    | apply checked_within; [done|done|unfold GroupByClusterID, GetByClusterID, ClusterIDForGroup, ClusterIDForSite, GetForOrg; solve_readonly|intros ?]
    | match goal with |- within _ (if ?x then _ else _) => destruct x | |- within _ (match ?x with _ => _ end) => destruct x end ].
Qed.

(** The operation stays known; and nothing is done about it. *)
Definition known (id h : string) (f f' : fsm) : Prop :=
  f.(f_applied) !! id = Some h -> f'.(f_applied) !! id = Some h.
Definition spent_key (id h : string) (f f' : fsm) : Prop :=
  f.(f_applied) !! id = Some h -> f'.(f_applied) !! id = Some h /\ f'.(f_db) = f.(f_db).
#[local] Instance known_refl id h : Reflexive (known id h).
Proof using. intros f H. exact H. Qed.
#[local] Instance known_trans id h : Transitive (known id h).
Proof using. intros a b c H1 H2 H. auto. Qed.
#[local] Instance spent_key_refl id h : Reflexive (spent_key id h).
Proof using. intros f H. by split. Qed.
#[local] Instance spent_key_trans id h : Transitive (spent_key id h).
Proof using. intros a b c H1 H2 H. destruct (H1 H) as [H3 E1]. destruct (H2 H3) as [H4 E2]. split; [done|]. by rewrite E2. Qed.

Lemma Propose_known id h i kind obj payload : within (known id h) (Propose dec digest dg ds dt commit i kind obj payload).
Proof using commits.
  intros f fl H. unfold Propose. destruct (commits (mk_op i kind obj payload) f) as (l & -> & Hl). cbn [apply_log snd].
  unfold Apply. rewrite Hl. destruct (f_failure f); [done|]. destruct (digest _) as [d|]; [|done]. cbn [op_id].
  destruct (f_applied f !! i) as [old|] eqn:E; [by destruct (negb _)|].
  destruct (transact _ _) as [[[]|e] [s fl']]; [|by destruct (e =?s _)]. cbn.
  rewrite lookup_insert_ne; [done|]. intros ->. congruence.
Qed.

Lemma Propose_spent id h kind obj payload : within (spent_key id h) (Propose dec digest dg ds dt commit id kind obj payload).
Proof using commits.
  intros f fl H. unfold Propose. destruct (commits (mk_op id kind obj payload) f) as (l & -> & Hl). cbn [apply_log snd].
  unfold Apply. rewrite Hl. destruct (f_failure f); [done|]. destruct (digest _) as [d|]; [|done]. cbn [op_id].
  rewrite H. by destruct (negb _).
Qed.

Lemma Propose_shows i kind obj payload f fl : is_ok (Propose dec digest dg ds dt commit i kind obj payload (f, fl)).1 = true ->
  is_Some ((Propose dec digest dg ds dt commit i kind obj payload (f, fl)).2.1.(f_applied) !! i).
Proof using commits.
  unfold Propose. destruct (commits (mk_op i kind obj payload) f) as (l & -> & Hl). cbn [apply_log snd].
  unfold Apply. rewrite Hl. destruct (f_failure f); [done|]. destruct (digest _) as [d|]; [|done]. cbn [op_id].
  destruct (f_applied f !! i) as [old|] eqn:E.
  - destruct (negb _); [done|]. cbn. by rewrite E.
  - destruct (transact _ _) as [[[]|e] [s fl']]; [|by destruct (e =?s _)]. cbn. by rewrite lookup_insert_eq.
Qed.

(** A request that succeeds has its operation applied. *)
Definition shown (i : string) (r : result reply) (f : fsm) : Prop :=
  forall a, r = Ok a -> success a = true -> is_Some (f.(f_applied) !! i).

Lemma shown_fail i a : success a = false -> triple (fun _ => True) (ret a) (shown i).
Proof using. intros H. apply triple_ret. intros f _ x [= <-]. by rewrite H. Qed.

Lemma checked_shown {A} i (m : M db A) code msg k : (forall e, success (writeError code e) = false) ->
  (forall a, triple (fun _ => True) (k a) (shown i)) -> triple (fun _ => True) (checked m code msg k) (shown i).
Proof using.
  intros Hc Hk. apply (triple_bind _ _ _ (fun _ _ => True)).
  - intros f fl _. unfold attempt. by destruct (on_store m (f, fl)).
  - intros [a|e]; [apply Hk|by apply shown_fail].
Qed.

Lemma proposed_shown c kind obj payload k : (forall h, within (known (request_id c) h) k) ->
  triple (fun _ => True) (propose c kind obj payload k) (shown (request_id c)).
Proof using commits.
  intros Hk. apply (triple_bind _ _ _ (fun r f => is_ok r = true -> is_Some (f.(f_applied) !! request_id c))).
  - intros f fl _. unfold attempt. pose proof (Propose_shows (request_id c) kind obj payload f fl) as H.
    by destruct (Propose _ _ _ _ _ _ _ _ _ _ _) as [r [f' fl']].
  - intros [[]|e] f fl H.
    + intros a _ _. destruct (H eq_refl) as [h Hh]. exists h. by apply Hk.
    + intros a [= <-]. by rewrite failing_status.
Qed.

Lemma hand_shown w p c : triple (fun _ => True) (hand true w p c) (shown (request_id c)).
Proof using commits.
  assert (forall k, (forall id s, triple (fun _ => True) (k id s) (shown (request_id c))) ->
    triple (fun _ => True) (with_site p c k) (shown (request_id c))) as Hs.
  { intros k Hk. unfold with_site. destruct (ParseID _); [|by apply shown_fail]. by apply checked_shown. }
  assert (forall A (b : option A) k, (forall x, triple (fun _ => True) (k x) (shown (request_id c))) ->
    triple (fun _ => True) (with_body b k) (shown (request_id c))) as Hb.
  { intros A b k Hk. destruct b; [apply Hk|by apply shown_fail]. }
  pose proof proposed_shown as Hp. unfold propose in Hp.
  unfold hand, handle, handleCreateGroup, handleCreateSite, handleUpdateSite, handleArchiveSite, handleDeleteSite, handleSiteTagsUpdate.
  destruct w as [b|b|b|b| |b]; repeat first
    [ apply Hb; intros ? | apply Hs; intros ? ? | apply Hp; intros ? | by apply shown_fail
    | apply checked_shown; [done|intros ?] | apply within_ret; apply _
    | apply checked_within; [apply _|apply _|unfold GroupByClusterID, GetByClusterID, GetForOrg; solve_readonly|intros ?]
    | match goal with |- triple _ (if ?x then _ else _) _ => destruct x | |- triple _ (match ?x with _ => _ end) _ => destruct x end ].
Qed.

Lemma request_id_key c : 0 < len (trim_space c.(cl_key)) <= 200 -> request_id c = trim_space c.(cl_key).
Proof using.
  unfold request_id. intros H. destruct (String.eqb_spec (trim_space c.(cl_key)) "") as [E|E]; [rewrite E in H; unfold len in H; cbn in H; lia|].
  destruct (Z.ltb_spec 200 (len (trim_space c.(cl_key)))); [lia|done].
Qed.

(** A request of anyone, with some of its reads refused. *)
Definition request_step (f f' : fsm) : Prop := exists w p c fl, f' = (hand true w p c (f, fl)).2.1.

(** A key is good for one change.  On a node of a replicated fleet, once a
    request has succeeded, any later request with the same [Idempotency-Key]
    of 1 to 200 bytes, whatever it asks for and whatever was done in between,
    leaves the tables as they are. *)
Theorem key_changes_once w p c f fl a f1 fl1 : hand true w p c (f, fl) = (Ok a, (f1, fl1)) -> success a = true ->
  let key := trim_space c.(cl_key) in 0 < len key <= 200 ->
  forall f2, star request_step f1 f2 -> forall w2 p2 c2 fl2, trim_space c2.(cl_key) = key ->
  (hand true w2 p2 c2 (f2, fl2)).2.1.(f_db) = f2.(f_db).
Proof using commits.
  intros H Ha key Hl f2 Hs w2 p2 c2 fl2 Hk.
  assert (request_id c2 = request_id c) as Hc by (rewrite (request_id_key c Hl); subst key; rewrite <- Hk; by rewrite (request_id_key c2); [|rewrite Hk]).
  pose proof (hand_shown w p c f fl I) as Hx. rewrite H in Hx. destruct (Hx a eq_refl Ha) as [h Hh].
  assert (f2.(f_applied) !! request_id c = Some h) as Hh2.
  { refine (star_invariant request_step (fun f => f.(f_applied) !! request_id c = Some h) f1 f2 _ Hh Hs).
    intros x y Hy (w' & p' & c' & fl' & ->). by apply (hand_within (known (request_id c) h) w' p' c' (Propose_known _ _ _)). }
  rewrite <- Hc in Hh2. by apply (hand_within (spent_key (request_id c2) h) w2 p2 c2 (Propose_spent _ _)).
Qed.
End Agreement.

(** ** Witnesses *)

(** A codec: a value is the binary digits of the number [Countable] gives it. *)
Fixpoint write_bits (p : positive) : string :=
  match p with
  | xH => ""
  | xO p => String "0" (write_bits p)
  | xI p => String "1" (write_bits p)
  end.
Fixpoint read_bits (s : string) : positive :=
  match s with
  | EmptyString => xH
  | String c s => if Ascii.eqb c "0" then xO (read_bits s) else xI (read_bits s)
  end.
Definition write_value {A} `{Countable A} (x : A) : string := write_bits (encode x).
Definition read_value {A} `{Countable A} (s : string) : option A := decode (read_bits s).

Lemma read_write {A} `{Countable A} (x : A) : read_value (write_value x) = Some x.
Proof.
  unfold read_value, write_value. assert (forall p, read_bits (write_bits p) = p) as ->; [|apply decode_encode].
  intros p. induction p as [p IH|p IH|]; cbn; by rewrite ?IH.
Qed.

Definition decoded_by {A B} (f : A -> B) (o : option A) : result B := match o with Some a => Ok (f a) | None => Err "invalid JSON" end.
Definition demo_eg (p : GroupPayload) : string := write_value (p.(gp_cid), p.(gp_org), p.(gp_name), p.(gp_created)).
Definition demo_dg (s : string) : result GroupPayload :=
  decoded_by (fun '(a, b, c, d) => mk_gp a b c d) (read_value s).
Definition demo_es (p : SitePayload) : string :=
  write_value (p.(sp_cid), p.(sp_org), p.(sp_name), p.(sp_url), p.(sp_group), (p.(sp_enabled), p.(sp_archived), p.(sp_created), p.(sp_updated))).
Definition demo_ds (s : string) : result SitePayload :=
  decoded_by (fun '(a, b, c, d, e, (f, g, h, i)) => mk_sp a b c d e f g h i) (read_value s).
Definition demo_et (p : TagsPayload) : string := write_value (p.(tp_cid), p.(tp_tags)).
Definition demo_dt (s : string) : result TagsPayload := decoded_by (fun '(a, b) => mk_tp a b) (read_value s).
Definition demo_eop (o : operation) : string := write_value (o.(op_id), o.(op_kind), o.(op_object), o.(op_payload)).
Definition demo_dop (s : string) : result operation := decoded_by (fun '(a, b, c, d) => mk_op a b c d) (read_value s).

Lemma demo_codec_laws : (forall p, demo_dg (demo_eg p) = Ok p) /\ (forall p, demo_ds (demo_es p) = Ok p)
  /\ (forall p, demo_dt (demo_et p) = Ok p) /\ (forall o, demo_dop (demo_eop o) = Ok o).
Proof.
  split_and!; intros []; unfold demo_dg, demo_eg, demo_ds, demo_es, demo_dt, demo_et, demo_dop, demo_eop;
    rewrite read_write; reflexivity.
Qed.

Definition demo_commit (op : operation) (f : fsm) : commitment := Committed [] (mk_log (f.(f_index) + 1) 1 (demo_eop op)) [].
Lemma demo_commits op f : exists l, demo_commit op f = Committed [] l [] /\ demo_dop l.(l_data) = Ok op.
Proof. eexists. split; [reflexivity|]. apply demo_codec_laws. Qed.

Definition demo_parse_url (s : string) : option url := Some (mk_url "https" false "new.example" "/" "" "").
Definition demo_hand (r : bool) : write -> principal -> call -> M fsm reply := handle demo_parse_url u_host (fun _ => "https://new.example/") demo_dop
  (fun op => Ok op.(op_payload)) demo_dg demo_ds demo_dt demo_eg demo_es demo_et "" demo_commit r.

(** A node with one group and one site of organization 1. *)
Definition demo_node : fsm := mk_fsm
  (set_orgs [1] (set_groups [mk_group 1 1 "web" 0 (Some "g1")]
    (set_sites [mk_site 1 1 "shop" "https://shop.example/" true (Some 1) None 0 0 (Some "s1")] empty_db))) ∅ 4 1 None.
Definition demo_principal : principal := mk_principal 1 "" "" 1 "owner".
Definition demo_call (key cid : string) (now : Z) : call := mk_call "1" key now cid "op".
Definition demo_create : write := WCreateSite (Some (mk_site_input " New " "https://new.example/" 1 true)).

Lemma demo_replica : replica demo_node.(f_db).
Proof.
  split; [split|by intros s [<-|[]]..]; cbn.
  1,2,5: repeat constructor; set_solver.
  - by intros g1 g2 [<-|[]] [<-|[]].
  - by intros g [<-|[]].
  - by intros s1 s2 c [<-|[]] [<-|[]].
  - intros s g [<-|[]] [= <-]. by left.
  - by split.
  - done.
Qed.

Definition demo_both : (result reply * fsm) * (result reply * fsm) := (run (demo_hand false demo_create demo_principal (demo_call "" "c9" 5)) demo_node,
                         run (demo_hand true demo_create demo_principal (demo_call "" "c9" 5)) demo_node).

Lemma modes_agree_witness :
  status <$> (match demo_both.1.1 with Ok a => Some a | Err _ => None end) = Some 201
  /\ demo_both.1.1 = demo_both.2.1 /\ erase demo_both.1.2.(f_db) = erase demo_both.2.2.(f_db).
Proof.
  split; [vm_compute; reflexivity|]. destruct demo_codec_laws as (G & S & T & O).
  destruct (modes_agree demo_parse_url u_host (fun _ => "https://new.example/") demo_dop (fun op => Ok op.(op_payload)) demo_dg demo_ds demo_dt
    demo_eg demo_es demo_et "" demo_commit G S T (fun _ => eq_refl) demo_commits demo_create demo_principal (demo_call "" "c9" 5) demo_node
    demo_replica (conj eq_refl eq_refl)) as (a & b & Ha & Hb & _ & Hab & He).
  - intros s [<-|[]]. vm_compute. discriminate.
  - split; [|exact He]. transitivity (Ok a); [exact Ha|]. transitivity (Ok b); [|symmetry; exact Hb]. f_equal. apply Hab.
    vm_compute in Ha. injection Ha as <-. reflexivity.
Defined.

(** The first request with a key, and a retry of it, for which the server draws
    another cluster id: the retry is a conflict and never the answer of the first. *)
Definition demo_first : result reply * (fsm * faults) := demo_hand true demo_create demo_principal (demo_call "key" "c9" 5) (demo_node, []).
Definition demo_made : reply := match demo_first.1 with Ok a => a | Err _ => mk_reply 0 AOk end.
Definition demo_retry : result reply * (fsm * faults) := demo_hand true demo_create demo_principal (demo_call "key" "c8" 6) (demo_first.2.1, []).

Lemma demo_first_eq : demo_first = (Ok demo_made, (demo_first.2.1, demo_first.2.2)).
Proof. vm_compute. reflexivity. Qed.

Example retry_is_a_conflict :
  demo_made.(status) = 201 /\ demo_retry.1 = Ok (mk_reply 409 (AError "operation id reused with different payload")).
Proof. vm_compute. by split. Qed.

Lemma key_changes_once_witness :
  success demo_made = true /\ demo_retry.2.1.(f_db) = demo_first.2.1.(f_db).
Proof.
  split; [vm_compute; reflexivity|].
  exact (key_changes_once demo_parse_url u_host (fun _ => "https://new.example/") demo_dop (fun op => Ok op.(op_payload)) demo_dg demo_ds demo_dt
    demo_eg demo_es demo_et "" demo_commit demo_commits demo_create demo_principal (demo_call "key" "c9" 5) demo_node [] demo_made
    demo_first.2.1 demo_first.2.2 demo_first_eq ltac:(vm_compute; reflexivity) ltac:(split; vm_compute; [reflexivity|discriminate]) demo_first.2.1 (star_refl _ _) demo_create demo_principal
    (demo_call "key" "c8" 6) [] eq_refl).
Defined.
