(* ===== verification/GoPath.v ===== *)
(** The part of Go's [path/filepath] (on Unix), [net] and [fmt] that the command
    line and the service manager use: lexical paths, host and port, [%q]. *)
From S2P Require Import Prelude GoStr.
Open Scope string_scope.
Open Scope wf_scope.

(** ** Definitions *)

Definition nl : ascii := "010"%char.
Definition dquote : ascii := "034"%char.

Fixpoint has_byte (c : ascii) (s : string) : bool :=
  match s with EmptyString => false | String d s' => Ascii.eqb c d || has_byte c s' end.
(** [strings.ContainsAny]. *)
Fixpoint has_any (cs s : string) : bool :=
  match s with EmptyString => false | String d s' => has_byte d cs || has_any cs s' end.

(** What is before and after the first and the last occurrence of a byte. *)
Fixpoint cut (c : ascii) (s : string) : option (string * string) :=
  match s with
  | EmptyString => None
  | String d s' =>
      if Ascii.eqb d c then Some ("", s')
      else match cut c s' with Some (a, b) => Some (String d a, b) | None => None end
  end.
Fixpoint cut_last (c : ascii) (s : string) : option (string * string) :=
  match s with
  | EmptyString => None
  | String d s' =>
      match cut_last c s' with
      | Some (a, b) => Some (String d a, b)
      | None => if Ascii.eqb d c then Some ("", s') else None
      end
  end.

(** *** [filepath] *)

Definition IsAbs (p : string) : bool := match p with String "/"%char _ => true | _ => false end.

(** The components that [Clean] keeps, the last one first. *)
Fixpoint clean_parts (rooted : bool) (parts out : list string) : list string :=
  match parts with
  | [] => out
  | p :: ps =>
      clean_parts rooted ps
        (if (p =?s "") || (p =?s ".") then out
         else if p =?s ".." then
           match out with
           | [] => if rooted then [] else [".."]
           | q :: out' => if q =?s ".." then ".." :: out else out'
           end
         else p :: out)
  end.
Definition Clean (p : string) : string :=
  let rooted := IsAbs p in
  let body := join "/" (List.rev (clean_parts rooted (split_on "/"%char p) [])) in
  if rooted then String "/" body else if body =?s "" then "." else body.

Definition Dir (p : string) : string :=
  match cut_last "/"%char p with Some (a, _) => Clean (a ++ "/") | None => "." end.
Definition Base (p : string) : string :=
  if p =?s "" then "." else
  let q := trim_slash p in
  if q =?s "" then "/" else match cut_last "/"%char q with Some (_, b) => b | None => q end.

(** [filepath.Join] of two elements. *)
Definition Join2 (a b : string) : string :=
  if a =?s "" then if b =?s "" then "" else Clean b else if b =?s "" then Clean a else Clean (a ++ "/" ++ b).

(** *** [net] *)

Definition JoinHostPort (host port : string) : string :=
  if has_byte ":" host then "[" ++ host ++ "]:" ++ port else host ++ ":" ++ port.

Definition addr_error {A} (addr msg : string) : result A := Err (if addr =?s "" then msg else "address " ++ addr ++ ": " ++ msg).
Definition SplitHostPort (hp : string) : result (string * string) :=
  match cut_last ":" hp with
  | None => addr_error hp "missing port in address"
  | Some (before, port) =>
      match hp with
      | String "["%char rest =>
          match cut "]" rest with
          | None => addr_error hp "missing ']' in address"
          | Some (host, after) =>
              if after =?s "" then addr_error hp "missing port in address"
              else if after =?s ":" ++ port then
                if has_byte "[" rest then addr_error hp "unexpected '[' in address"
                else if has_byte "]" after then addr_error hp "unexpected ']' in address"
                else Ok (host, port)
              else match after with
                   | String ":"%char _ => addr_error hp "too many colons in address"
                   | _ => addr_error hp "missing port in address"
                   end
          end
      | _ =>
          if has_byte ":" before then addr_error hp "too many colons in address"
          else if has_byte "[" hp then addr_error hp "unexpected '[' in address"
          else if has_byte "]" hp then addr_error hp "unexpected ']' in address"
          else Ok (before, port)
      end
  end.

(** *** [%q] of a text of ASCII bytes *)

Definition hex_digit (n : nat) : ascii := ascii_of_nat (if (n <? 10)%nat then 48 + n else 87 + n).
Definition quote_byte (c : ascii) : string :=
  let n := nat_of_ascii c in
  let bs := "\"%char in
  if (n =? 34)%nat || (n =? 92)%nat then String bs (String c "")
  else if (n =? 7)%nat then "\a" else if (n =? 8)%nat then "\b" else if (n =? 12)%nat then "\f"
  else if (n =? 10)%nat then "\n" else if (n =? 13)%nat then "\r" else if (n =? 9)%nat then "\t"
  else if (n =? 11)%nat then "\v"
  else if (n <? 32)%nat || (n =? 127)%nat then "\x" ++ String (hex_digit (n / 16)) (String (hex_digit (n mod 16)) "")
  else String c "".
Fixpoint quote_bytes (s : string) : string :=
  match s with EmptyString => "" | String c s' => quote_byte c ++ quote_bytes s' end.
Definition Quote (s : string) : string := String dquote (quote_bytes s ++ String dquote "").

(** ** Examples *)

Example paths_1 : (Clean "/srv//a/./b/../c/", Dir "/srv/a/", Base "/srv/a/", Dir "/srv/a", Base "/srv/a")
  = ("/srv/a/c", "/srv/a", "a", "/srv", "a").
Proof. reflexivity. Qed.
Example paths_2 : (Clean "", Clean "/..", Clean "a/../..", Clean "../x/..", Dir "a", Base "/", Base "") = (".", "/", "..", "..", ".", "/", ".").
Proof. reflexivity. Qed.
Example hosts : (SplitHostPort "[::1]:80", SplitHostPort "a:80", SplitHostPort "::1:80", SplitHostPort "a")
  = (Ok ("::1", "80"), Ok ("a", "80"), Err "address ::1:80: too many colons in address", Err "address a: missing port in address").
Proof. reflexivity. Qed.

(** ** Lemmas *)

Lemma string_app_assoc a b c : (a ++ b) ++ c = a ++ (b ++ c).
Proof. induction a as [|x a IH]; [done|]. by rewrite !append_cons, IH. Qed.
Lemma string_app_nil_r a : a ++ "" = a.
Proof. induction a as [|x a IH]; [done|]. by rewrite append_cons, IH. Qed.

Lemma has_byte_app c a b : has_byte c (a ++ b) = has_byte c a || has_byte c b.
Proof. induction a as [|d a IH]; [done|]. rewrite append_cons. cbn. by rewrite IH, orb_assoc. Qed.

Lemma has_any_byte c cs s : has_any cs s = false -> has_byte c cs = true -> has_byte c s = false.
Proof.
  intros H Hc. induction s as [|d s IH]; [done|]. cbn [has_any has_byte] in *. apply orb_false_iff in H as [H1 H2]. rewrite (IH H2), orb_false_r.
  destruct (Ascii.eqb_spec c d) as [->|]; [by rewrite Hc in H1|done].
Qed.

Lemma cut_spec c a b : has_byte c a = false -> cut c (a ++ String c b) = Some (a, b).
Proof.
  induction a as [|d a IH]; intros H; [rewrite append_nil_l; cbn; by rewrite Ascii.eqb_refl|]. rewrite append_cons. cbn in *. apply orb_false_iff in H as [H1 H2].
  rewrite Ascii.eqb_sym in H1. by rewrite H1, (IH H2).
Qed.
Lemma cut_last_none c s : has_byte c s = false -> cut_last c s = None.
Proof.
  induction s as [|d s IH]; cbn; intros H; [done|]. apply orb_false_iff in H as [H1 H2].
  rewrite (IH H2). rewrite Ascii.eqb_sym in H1. by rewrite H1.
Qed.
Lemma cut_last_spec c a b : has_byte c b = false -> cut_last c (a ++ String c b) = Some (a, b).
Proof.
  intros H. induction a as [|d a IH]; [|rewrite append_cons; cbn; by rewrite IH]. rewrite append_nil_l. cbn. by rewrite (cut_last_none _ _ H), Ascii.eqb_refl.
Qed.

(** A host and a port without brackets come back from their joined form. *)
Lemma split_join_host_port host port :
  has_any "[]" host = false -> has_any ":[]" port = false -> SplitHostPort (JoinHostPort host port) = Ok (host, port).
Proof.
  intros Hh Hp. pose proof (has_any_byte "[" _ _ Hh eq_refl) as Hl. pose proof (has_any_byte "]" _ _ Hh eq_refl) as Hr.
  pose proof (has_any_byte ":" _ _ Hp eq_refl) as Hc. pose proof (has_any_byte "[" _ _ Hp eq_refl) as Hpl.
  pose proof (has_any_byte "]" _ _ Hp eq_refl) as Hpr. unfold JoinHostPort.
  destruct (has_byte ":" host) eqn:E.
  - unfold SplitHostPort.
    replace ("[" ++ host ++ "]:" ++ port)%string with ((("[" ++ host ++ "]") ++ String ":" port)%string) by by rewrite !string_app_assoc.
    rewrite cut_last_spec by done.
    replace (("[" ++ host ++ "]") ++ String ":" port)%string with (String "[" (host ++ String "]" (String ":" port)))
      by by rewrite !string_app_assoc.
    rewrite cut_spec by done. change (":" ++ port) with (String ":" port). rewrite String.eqb_refl.
    replace (String ":" port =?s "") with false by done. rewrite !has_byte_app. cbn. by rewrite Hl, Hpl, Hpr.
  - unfold SplitHostPort. change (":" ++ port) with (String ":" port). rewrite cut_last_spec by done.
    destruct (host ++ String ":" port)%string as [|h r] eqn:F; [by destruct host|].
    assert (has_byte "[" (String h r) = false /\ has_byte "]" (String h r) = false) as [Gl Gr]
      by (rewrite <- F, !has_byte_app; cbn; by rewrite Hl, Hr, Hpl, Hpr).
    rewrite E. assert (h <> "["%char) as Hn by (intros ->; by cbn in Gl).
    assert (forall X Y : result (string * string), (match h with "["%char => X | _ => Y end) = Y) as ->.
    { intros X Y. destruct h as [[] [] [] [] [] [] [] []]; try done. }
    by rewrite Gl, Gr.
Qed.
