(* ===== verification/GoFlag.v ===== *)
(** Go's [flag] package, as the command line uses it: sets of string and boolean
    flags with the empty text and [false] as defaults, [ContinueOnError]. *)
From S2P Require Import Prelude GoStr GoPath.
Open Scope string_scope.
Open Scope wf_scope.

(** ** Definitions *)

Inductive flag_kind := StringFlag | BoolFlag.
(** The flags that a set defines, by name. *)
Abbreviation flag_set := (list (string * flag_kind)).
(** What [Parse] leaves: the flags that were given, with their values, and the
    arguments after them. *)
Record parsed := mk_parsed { actual : gmap string string; rest_args : list string }.

(** [strconv.ParseBool], with the values it stands for. *)
Definition ParseBool (s : string) : option bool :=
  if bool_decide (s ∈ ["1"; "t"; "T"; "true"; "TRUE"; "True"]) then Some true
  else if bool_decide (s ∈ ["0"; "f"; "F"; "false"; "FALSE"; "False"]) then Some false else None.

(** The name of an argument that is a flag, without its minus signs; [None] when
    the flags end. *)
Definition flag_name (s : string) : option string :=
  match s with
  | String "-" (String "-" r) => if r =?s "" then None else Some r
  | String "-" r => if r =?s "" then None else Some r
  | _ => None
  end.
Definition ends_flags (s : string) : bool := s =?s "--".
Definition bad_name (n : string) : bool := has_prefix n "-" || has_prefix n "=" || (n =?s "").
(** The name and the value after the first [=], which is not the first byte. *)
Definition name_value (n : string) : string * option string :=
  match cut "=" n with Some (a, b) => (a, Some b) | None => (n, None) end.

Definition kind_of (fs : flag_set) (n : string) : option flag_kind := snd <$> find_first (fun x => x.1 =?s n) fs.

(** [FlagSet.Parse]. *)
Fixpoint parse_flags (fs : flag_set) (acc : gmap string string) (args : list string) : result parsed :=
  match args with
  | [] => Ok (mk_parsed acc [])
  | s :: rest =>
      if ends_flags s then Ok (mk_parsed acc rest) else
      match flag_name s with
      | None => Ok (mk_parsed acc args)
      | Some n =>
          if bad_name n then Err ("bad flag syntax: " ++ s) else
          let '(name, value) := name_value n in
          match kind_of fs name with
          | None => if (name =?s "help") || (name =?s "h") then Err "flag: help requested" else Err ("flag provided but not defined: -" ++ name)
          | Some BoolFlag =>
              let v := match value with Some v => v | None => "true" end in
              match ParseBool v with
              | Some b => parse_flags fs (<[name := if b then "true" else "false"]> acc) rest
              | None => Err ("invalid boolean value " ++ Quote v ++ " for -" ++ name ++ ": parse error")
              end
          | Some StringFlag =>
              match value with
              | Some v => parse_flags fs (<[name := v]> acc) rest
              | None => match rest with
                        | v :: rest' => parse_flags fs (<[name := v]> acc) rest'
                        | [] => Err ("flag needs an argument: -" ++ name)
                        end
              end
          end
      end
  end.
Definition Parse (fs : flag_set) (args : list string) : result parsed := parse_flags fs ∅ args.
(** [fs.Visit]: whether a flag was given; and its value. *)
Definition flagProvided (p : parsed) (n : string) : bool := match p.(actual) !! n with Some _ => true | None => false end.
Definition flag_value (p : parsed) (n : string) : string := match p.(actual) !! n with Some v => v | None => "" end.

(** ** Examples *)

Example flags_1 : Parse [("host", StringFlag); ("follow", BoolFlag)] ["--host"; "-x"; "-follow"; "--host=a=b"; "y"; "-follow"]
  = Ok (mk_parsed {["host" := "a=b"; "follow" := "true"]} ["y"; "-follow"]).
Proof. vm_compute. reflexivity. Qed.
Example flags_2 : (Parse [("host", StringFlag)] ["--host"], Parse [("host", StringFlag)] ["---host"; "a"], Parse [("host", StringFlag)] ["-p"; "a"])
  = (Err "flag needs an argument: -host", Err "bad flag syntax: ---host", Err "flag provided but not defined: -p").
Proof. vm_compute. reflexivity. Qed.
Example flags_3 : (Parse [("follow", BoolFlag)] ["-follow=maybe"], Parse [] ["-"; "a"], Parse [] ["--"; "-a"], Parse [] ["-h"])
  = (Err ("invalid boolean value " ++ Quote "maybe" ++ " for -follow: parse error"), Ok (mk_parsed ∅ ["-"; "a"]), Ok (mk_parsed ∅ ["-a"]), Err "flag: help requested").
Proof. vm_compute. reflexivity. Qed.
