(* ===== verification/Sha256.v ===== *)
(** SHA-256 ([crypto/sha256]) and [hex.EncodeToString] of its digest, on byte
    strings, so that a digest is evaluated and no law of it is assumed. *)
From S2P Require Import Prelude GoStr GoPath.
Open Scope string_scope.
Open Scope Z_scope.

(** ** Definitions *)

Definition w32 (z : Z) : Z := Z.land z 4294967295.
Definition rotr (n x : Z) : Z := Z.lor (Z.shiftr x n) (w32 (Z.shiftl x (32 - n))).
Definition xor3 (a b c : Z) : Z := Z.lxor a (Z.lxor b c).
Definition big_sigma0 (x : Z) : Z := xor3 (rotr 2 x) (rotr 13 x) (rotr 22 x).
Definition big_sigma1 (x : Z) : Z := xor3 (rotr 6 x) (rotr 11 x) (rotr 25 x).
Definition small_sigma0 (x : Z) : Z := xor3 (rotr 7 x) (rotr 18 x) (Z.shiftr x 3).
Definition small_sigma1 (x : Z) : Z := xor3 (rotr 17 x) (rotr 19 x) (Z.shiftr x 10).
Definition choose (x y z : Z) : Z := Z.lxor (Z.land x y) (Z.land (w32 (Z.lnot x)) z).
Definition majority (x y z : Z) : Z := xor3 (Z.land x y) (Z.land x z) (Z.land y z).

(** The constants: the first 32 bits of the fractions of the cube roots of the first
    64 primes, and of the square roots of the first 8. *)
Definition first_primes (fuel : nat) : list Z :=
  List.filter (fun n => forallb (fun d => negb (n mod Z.of_nat d =? 0)) (seq 2 (Z.to_nat n - 2))) (map Z.of_nat (seq 2 fuel)).
(** The greatest [x < lo + 2 ^ n] with [x ^ 3 <= y], if [lo] is one that is. *)
Fixpoint cube_root (n : nat) (lo y : Z) : Z :=
  match n with
  | O => lo
  | S n' => let x := lo + 2 ^ Z.of_nat n' in cube_root n' (if x * x * x <=? y then x else lo) y
  end.
Definition primes : list Z := Eval vm_compute in first_primes 310.
Definition round_constants : list Z := Eval vm_compute in map (fun p => w32 (cube_root 36 0 (p * 2 ^ 96))) primes.
Definition initial : list Z := Eval vm_compute in map (fun p => w32 (Z.sqrt (p * 2 ^ 64))) (firstn 8 primes).

(** One round on the eight words; [w] holds the next sixteen words of the message
    schedule. *)
Definition sha_round (k : Z) (v w : list Z) : list Z * list Z :=
  match v with
  | [a; b; c; d; e; f; g; h] =>
      let t1 := h + big_sigma1 e + choose e f g + k + nth 0 w 0 in
      let t2 := big_sigma0 a + majority a b c in
      ([w32 (t1 + t2); a; b; c; w32 (d + t1); e; f; g],
       List.tl w ++ [w32 (small_sigma1 (nth 14 w 0) + nth 9 w 0 + small_sigma0 (nth 1 w 0) + nth 0 w 0)])%list
  | _ => (v, w)
  end.
Fixpoint rounds (ks v w : list Z) : list Z :=
  match ks with [] => v | k :: ks' => let '(v', w') := sha_round k v w in rounds ks' v' w' end.
Definition compress (v block : list Z) : list Z :=
  map (fun '(a, b) => w32 (a + b)) (combine v (rounds round_constants v block)).

Fixpoint message_bytes (s : string) : list Z :=
  match s with EmptyString => [] | String c s' => Z.of_nat (nat_of_ascii c) :: message_bytes s' end.
Fixpoint big_endian (n : nat) (z : Z) : list Z :=
  match n with O => [] | S n' => Z.shiftr z (8 * Z.of_nat n') mod 256 :: big_endian n' z end.
Definition padded (s : string) : list Z :=
  (message_bytes s ++ 128 :: repeat 0 (Z.to_nat ((55 - len s) mod 64)) ++ big_endian 8 (8 * len s))%list.

Fixpoint words (l : list Z) : list Z :=
  match l with
  | a :: b :: c :: d :: l' => Z.lor (Z.shiftl a 24) (Z.lor (Z.shiftl b 16) (Z.lor (Z.shiftl c 8) d)) :: words l'
  | _ => []
  end.
Fixpoint blocks (fuel : nat) (v ws : list Z) : list Z :=
  match fuel with
  | O => v
  | S fuel' => match ws with [] => v | _ => blocks fuel' (compress v (firstn 16 ws)) (skipn 16 ws) end
  end.
Definition digest_words (s : string) : list Z := let ws := words (padded s) in blocks (length ws) initial ws.

Definition hex_nibble (z : Z) : ascii := hex_digit (Z.to_nat (z mod 16)).
Fixpoint hex_word (n : nat) (z : Z) : string :=
  match n with O => "" | S n' => String (hex_nibble (Z.shiftr z (4 * Z.of_nat n'))) (hex_word n' z) end.

(** [hex.EncodeToString] of [sha256.Sum256]. *)
Definition hex_sum (s : string) : string := String.concat "" (map (hex_word 8) (digest_words s)).

(** What the regular expression [[0-9a-f]{64}] accepts. *)
Definition is_hex (c : ascii) : bool :=
  let n := nat_of_ascii c in ((48 <=? n)%nat && (n <=? 57)%nat) || ((97 <=? n)%nat && (n <=? 102)%nat).
Fixpoint all_bytes (p : ascii -> bool) (s : string) : bool :=
  match s with EmptyString => true | String c s' => p c && all_bytes p s' end.
Definition is_sum (s : string) : bool := (String.length s =? 64)%nat && all_bytes is_hex s.

(** ** Test vectors *)

Example sum_empty : hex_sum "" = "e3b0c44298fc1c149afbf4c8996fb92427ae41e4649b934ca495991b7852b855".
Proof. vm_compute. reflexivity. Qed.
Example sum_abc : hex_sum "abc" = "ba7816bf8f01cfea414140de5dae2223b00361a396177a9cb410ff61f20015ad".
Proof. vm_compute. reflexivity. Qed.
Example sum_two_blocks : hex_sum "abcdbcdecdefdefgefghfghighijhijkijkljklmklmnlmnomnopnopq"
  = "248d6a61d20638b8e5c026930c3e6039a33ce45964ff2167f6ecedd419db06c1".
Proof. vm_compute. reflexivity. Qed.

(** ** Lemmas *)

Lemma all_bytes_app p a b : all_bytes p (a ++ b) = all_bytes p a && all_bytes p b.
Proof. induction a as [|c a IH]; [done|]. rewrite append_cons. cbn. by rewrite IH, andb_assoc. Qed.

Lemma sha_round_length k v w : length v = 8%nat -> length (sha_round k v w).1 = 8%nat.
Proof. by destruct v as [|? [|? [|? [|? [|? [|? [|? [|? [|? ?]]]]]]]]]. Qed.
Lemma rounds_length ks : forall v w, length v = 8%nat -> length (rounds ks v w) = 8%nat.
Proof.
  induction ks as [|k ks IH]; intros v w H; [done|]. cbn [rounds]. pose proof (sha_round_length k v w H).
  destruct (sha_round k v w) as [v' w']. by apply IH.
Qed.
Lemma compress_length v b : length v = 8%nat -> length (compress v b) = 8%nat.
Proof. intros H. unfold compress. rewrite length_map, length_combine, rounds_length by done. lia. Qed.
Lemma blocks_length n : forall v ws, length v = 8%nat -> length (blocks n v ws) = 8%nat.
Proof.
  induction n as [|n IH]; intros v ws H; [done|]. cbn [blocks]. destruct ws as [|w ws]; [done|].
  apply IH. by apply compress_length.
Qed.

Lemma hex_nibble_ok z : is_hex (hex_nibble z) = true.
Proof.
  unfold hex_nibble. pose proof (Z.mod_pos_bound z 16). assert (Z.to_nat (z mod 16) < 16)%nat as K by lia. revert K.
  generalize (Z.to_nat (z mod 16)). intros n Hn. do 16 (destruct n as [|n]; [done|]). lia.
Qed.
Lemma hex_word_ok n z : all_bytes is_hex (hex_word n z) = true.
Proof. induction n as [|n IH]; cbn [hex_word all_bytes]; [done|]. by rewrite hex_nibble_ok, IH. Qed.
Lemma hex_word_length n z : String.length (hex_word n z) = n.
Proof. induction n as [|n IH]; cbn [hex_word String.length]; [done|]. by rewrite IH. Qed.

Lemma concat_cons x l : String.concat "" (x :: l) = (x ++ String.concat "" l)%string.
Proof. destruct l; [by rewrite string_app_nil_r|]. reflexivity. Qed.

(** A digest is 64 lower-case hexadecimal digits. *)
Lemma hex_sum_is_sum s : is_sum (hex_sum s) = true.
Proof.
  assert (forall l, String.length (String.concat "" (map (hex_word 8) l)) = (8 * length l)%nat
    /\ all_bytes is_hex (String.concat "" (map (hex_word 8) l)) = true) as K.
  { induction l as [|z l [IH1 IH2]]; [done|]. rewrite map_cons, concat_cons, append_length, all_bytes_app, hex_word_length, hex_word_ok, IH1, IH2.
    cbn [length]. split; [lia|done]. }
  unfold is_sum, hex_sum. destruct (K (digest_words s)) as [-> ->]. unfold digest_words. by rewrite blocks_length.
Qed.
