(* ===== verification/UnitFile.v ===== *)
(** The systemd unit of the service ([internal/service/service.go]): its text,
    with the listener and the data directory it was installed with, sealed by a
    digest, and the reader that refuses a unit that is not as it was written. *)
From S2P Require Import Prelude GoStr GoPath Sha256.
Open Scope string_scope.
Open Scope wf_scope.

(** ** Definitions *)

Definition UnitPath : string := "/etc/systemd/system/webfleet.service".
Definition BinaryPath : string := "/usr/local/bin/webfleet".
Definition DefaultDataDir : string := "/var/lib/webfleet".
Definition DefaultListen : string := "127.0.0.1:7336".
Definition modeExplicit : string := "explicit".
Definition modeBootstrap : string := "bootstrap".
Definition ServiceUser : string := "webfleet".
Definition ServiceGroup : string := "webfleet".
Definition unitMarker : string := "# Managed by webfleet. Do not edit manually.".
Definition managedPrefix : string := "# webfleet-managed: ".
Definition errNotManaged : string := "not a managed unit".
Definition errMalformed : string := "malformed managed unit header".
Definition errModified : string := "managed unit body no longer matches its recorded checksum".

Fixpoint systemd_escape (s : string) : string :=
  match s with
  | EmptyString => ""
  | String c s' =>
      (if Ascii.eqb c "%" then "%%"
       else if has_byte c (String dquote "\$`") then String "\" (String c "") else String c "") ++ systemd_escape s'
  end.
Definition systemdQuote (s : string) : string := String dquote (systemd_escape s ++ String dquote "").

Definition is_control (c : ascii) : bool := let n := nat_of_ascii c in (n <? 32)%nat || (n =? 127)%nat.
Definition no_control (s : string) : bool := all_bytes (fun c => negb (is_control c)) s.
Definition validateNoControl (v what : string) : result unit :=
  if no_control v then Ok tt else Err (what ++ " " ++ Quote v ++ " contains a control character").

Record unitMeta := mk_unit_meta { um_data : string; um_listen : string; um_mode : string; um_envfile : string }.

(** The metadata read so far, and how often each line was seen. *)
Record scan := mk_scan { sc_meta : unitMeta; sc_data : Z; sc_listen : Z; sc_mode : Z; sc_envfile : Z }.
Definition scan_line (s : scan) (ln : string) : result scan :=
  let '(mk_scan (mk_unit_meta d l m e) dn lnn mn en) := s in
  let value p := trim_space (trim_prefix ln p) in
  if has_prefix ln "# webfleet-data: " then
    if (1 <? dn + 1)%Z then Err errMalformed else Ok (mk_scan (mk_unit_meta (value "# webfleet-data: ") l m e) (dn + 1) lnn mn en)
  else if has_prefix ln "# webfleet-listen: " then
    if (1 <? lnn + 1)%Z then Err errMalformed else Ok (mk_scan (mk_unit_meta d (value "# webfleet-listen: ") m e) dn (lnn + 1) mn en)
  else if has_prefix ln "# webfleet-listen-mode: " then
    if (1 <? mn + 1)%Z then Err errMalformed else Ok (mk_scan (mk_unit_meta d l (value "# webfleet-listen-mode: ") e) dn lnn (mn + 1) en)
  else if has_prefix ln "# webfleet-envfile: " then
    if (1 <? en + 1)%Z then Err errMalformed else Ok (mk_scan (mk_unit_meta d l m (value "# webfleet-envfile: ")) dn lnn mn (en + 1))
  else Ok s.
Fixpoint scan_lines (s : scan) (ls : list string) : result scan :=
  match ls with [] => Ok s | ln :: ls' => match scan_line s ln with Ok s' => scan_lines s' ls' | Err e => Err e end end.

Definition sealed_sum (ln : string) : option string :=
  let p := managedPrefix ++ "v1 sha256=" in
  if has_prefix ln p then let d := trim_prefix ln p in if is_sum d then Some d else None else None.

(** The checks on the metadata once all lines are read. *)
Definition check_scan (r : result scan) : result unitMeta :=
  match r with
  | Err e => Err e
  | Ok (mk_scan m dn lnn _ _) =>
      if negb (dn =? 1)%Z || negb (lnn =? 1)%Z || (m.(um_data) =?s "") || (m.(um_listen) =?s "") then Err errMalformed else
      if negb (m.(um_mode) =?s modeExplicit) && negb (m.(um_mode) =?s modeBootstrap) then Err errMalformed else
      if negb (no_control m.(um_listen)) || negb (no_control m.(um_data)) then Err errMalformed else
      if negb (m.(um_envfile) =?s "") && (negb (no_control m.(um_envfile)) || has_any "%" m.(um_envfile)) then Err errMalformed else
      Ok m
  end.

Definition readManagedUnit (content : string) : result unitMeta :=
  match split_on nl content with
  | l0 :: l1 :: ((_ :: _) as rest) =>
      if negb (l0 =?s unitMarker) then Err errNotManaged else
      if negb (count (fun ln => has_prefix ln managedPrefix) (l0 :: l1 :: rest) =? 1)%Z || negb (has_prefix l1 managedPrefix) then Err errMalformed else
      match sealed_sum l1 with
      | None => Err errMalformed
      | Some sum =>
          if negb (hex_sum (join (String nl "") rest) =?s sum) then Err errModified else
          check_scan (scan_lines (mk_scan (mk_unit_meta "" "" modeBootstrap "") 0 0 0 0) rest)
      end
  | _ => Err errNotManaged
  end.

(** *** Writing a unit *)

Fixpoint lines (l : list string) : string :=
  match l with [] => "" | x :: l' => x ++ String nl (lines l') end.

Definition unit_head (dataDir : string) : list string :=
  ["[Unit]"; "Description=Web Fleet website monitoring"; "After=network-online.target"; "Wants=network-online.target";
   "StartLimitIntervalSec=60"; "StartLimitBurst=5"; ""; "[Service]"; "Type=simple"; "User=" ++ ServiceUser; "Group=" ++ ServiceGroup;
   "Environment=WEBFLEET_DATA_DIR=" ++ systemdQuote dataDir].
Definition unit_tail (dataDir : string) : list string :=
  ["Restart=on-failure"; "RestartSec=3"; "NoNewPrivileges=true"; "PrivateTmp=true"; "ProtectSystem=strict"; "ProtectHome=true";
   "ReadWritePaths=" ++ systemdQuote dataDir; ""; "[Install]"; "WantedBy=multi-user.target"].
Definition envfile_line (envfile : string) : list string := if envfile =?s "" then [] else ["EnvironmentFile=" ++ systemdQuote envfile].

Definition unitBody (dataDir listen envfile : string) : list string :=
  let dataDir := if dataDir =?s "" then DefaultDataDir else dataDir in
  let listen := if listen =?s "" then DefaultListen else listen in
  (unit_head dataDir ++ ["Environment=WEBFLEET_LISTEN=" +:+ systemdQuote listen] ++ envfile_line envfile
   ++ ["ExecStart=" +:+ BinaryPath] ++ unit_tail dataDir)%list.

Definition unitBodyExplicit (dataDir host port envfile : string) : list string :=
  let dataDir := if dataDir =?s "" then DefaultDataDir else dataDir in
  (unit_head dataDir ++ envfile_line envfile
   ++ ["ExecStart=" +:+ BinaryPath +:+ " " +:+ systemdQuote "--host" +:+ " " +:+ systemdQuote (trim_space host)
        +:+ " " +:+ systemdQuote "--port" +:+ " " +:+ systemdQuote (trim_space port)]
   ++ unit_tail dataDir)%list.

Definition meta_lines (dataDir listen mode envfile : string) : list string :=
  (["# webfleet-data: " +:+ dataDir; "# webfleet-listen: " +:+ listen; "# webfleet-listen-mode: " +:+ mode]
   ++ (if envfile =?s "" then [] else ["# webfleet-envfile: " +:+ envfile]))%list.

Definition seal (content : string) : string :=
  unitMarker ++ String nl (managedPrefix ++ "v1 sha256=" ++ hex_sum content ++ String nl content).

Definition buildUnit (dataDir listen envfile : string) : string :=
  seal (lines (meta_lines dataDir listen modeBootstrap envfile ++ unitBody dataDir listen envfile)%list).
Definition buildUnitExplicit (dataDir host port envfile : string) : string :=
  let listen := JoinHostPort (trim_space host) (trim_space port) in
  seal (lines (meta_lines dataDir listen modeExplicit envfile ++ unitBodyExplicit dataDir host port envfile)%list).

(** [installOptions]. *)
Record installOptions := mk_options { o_data : string; o_listen : string; o_host : string; o_port : string; o_mode : string; o_envfile : string }.
Definition listener (o : installOptions) : string :=
  if negb (o.(o_listen) =?s "") then o.(o_listen) else JoinHostPort (trim_space o.(o_host)) (trim_space o.(o_port)).
Definition unit_text (o : installOptions) : string :=
  if o.(o_mode) =?s modeExplicit
  then buildUnitExplicit o.(o_data) (trim_space o.(o_host)) (trim_space o.(o_port)) o.(o_envfile)
  else buildUnit o.(o_data) (listener o) o.(o_envfile).

(** ** Examples *)

Example read_back : readManagedUnit (buildUnitExplicit "/srv/web fleet" "::1" "80" "/etc/w.env")
  = Ok (mk_unit_meta "/srv/web fleet" "[::1]:80" "explicit" "/etc/w.env").
Proof. vm_compute. reflexivity. Qed.
Example edited : readManagedUnit (buildUnit "/srv/a" "h:1" "" ++ "User=root") = Err errModified.
Proof. vm_compute. reflexivity. Qed.

(** ** Lemmas *)

Definition nl_free (s : string) : Prop := has_byte nl s = false.

Lemma split_nl_free s : nl_free s -> split_on nl s = [s].
Proof.
  unfold nl_free. induction s as [|c s IH]; intros H; [done|]. cbn [has_byte split_on] in *. apply orb_false_iff in H as [H1 H2].
  rewrite Ascii.eqb_sym, H1. by rewrite (IH H2).
Qed.
Lemma split_lines ls : Forall nl_free ls -> split_on nl (lines ls) = (ls ++ [""])%list.
Proof.
  induction 1 as [|x ls Hx _ IH]; [done|]. cbn [lines]. by rewrite split_on_app, (split_nl_free _ Hx), IH.
Qed.

Lemma no_control_nl s : no_control s = true -> nl_free s.
Proof.
  unfold no_control, nl_free. induction s as [|c s IH]; [done|]. cbn [all_bytes has_byte]. intros H. apply andb_true_iff in H as [H1 H2].
  rewrite (IH H2), orb_false_r. destruct (Ascii.eqb_spec nl c) as [<-|]; [done|done].
Qed.
Lemma nl_free_app a b : nl_free a -> nl_free b -> nl_free (a ++ b).
Proof. unfold nl_free. intros Ha Hb. by rewrite has_byte_app, Ha, Hb. Qed.
Lemma nl_free_escape s : nl_free s -> nl_free (systemd_escape s).
Proof.
  unfold nl_free. induction s as [|c s IH]; [done|]. intros H. cbn [has_byte] in H. apply orb_false_iff in H as [H1 H2].
  cbn [systemd_escape]. rewrite has_byte_app, (IH H2), orb_false_r. destruct (Ascii.eqb c "%"); [done|].
  destruct (has_byte c (String dquote "\$`")); cbn [has_byte]; by rewrite H1.
Qed.
Lemma nl_free_quote s : nl_free s -> nl_free (systemdQuote s).
Proof.
  intros H. apply (nl_free_app (String dquote "")); [done|]. apply nl_free_app; [by apply nl_free_escape|done].
Qed.

Lemma no_control_app a b : no_control (a ++ b) = no_control a && no_control b.
Proof. apply all_bytes_app. Qed.
Lemma no_control_join host port : no_control (JoinHostPort host port) = true -> no_control host = true /\ no_control port = true.
Proof.
  unfold JoinHostPort. destruct (has_byte ":" host); rewrite !no_control_app; cbn [no_control all_bytes];
    rewrite ?andb_true_iff; intuition.
Qed.

(** A line that does not begin with [#] says nothing to the reader. *)
Definition plain (s : string) : bool := match s with String c _ => negb (Ascii.eqb c "#") | EmptyString => true end.
Lemma plain_prefix s p : plain s = true -> has_prefix s (String "#" p) = false.
Proof.
  destruct s as [|c s]; [done|]. cbn [plain]. intros H. unfold has_prefix. cbn [String.prefix].
  destruct (ascii_dec "#" c) as [<-|]; done.
Qed.
Lemma scan_plain s ls : Forall (fun l => plain l = true) ls -> scan_lines s ls = Ok s.
Proof.
  induction 1 as [|x ls Hx _ IH]; [done|]. cbn [scan_lines]. unfold scan_line.
  destruct s as [[d l m e] dn lnn mn en]. by rewrite !(plain_prefix x) by done.
Qed.
Lemma count_plain ls : Forall (fun l => plain l = true) ls -> count (fun ln => has_prefix ln managedPrefix) ls = 0%Z.
Proof. induction 1 as [|x ls Hx _ IH]; [done|]. rewrite count_cons, IH. unfold managedPrefix. by rewrite (plain_prefix x). Qed.

Lemma scan_lines_app a : forall s b s', scan_lines s a = Ok s' -> scan_lines s (a ++ b)%list = scan_lines s' b.
Proof.
  induction a as [|x a IH]; intros s b s' H; cbn [scan_lines app] in *; [by injection H as ->|].
  destruct (scan_line s x) as [s1|e]; [|done]. by apply IH.
Qed.

(** The lines of a sealed text. *)
Definition seal_line (ls : list string) : string := managedPrefix ++ "v1 sha256=" ++ hex_sum (lines ls).
Lemma split_seal ls : Forall nl_free ls -> split_on nl (seal (lines ls)) = unitMarker :: seal_line ls :: (ls ++ [""])%list.
Proof.
  intros Hf. unfold seal, seal_line. set (sum := hex_sum (lines ls)).
  assert (nl_free sum) as Hs.
  { pose proof (hex_sum_is_sum (lines ls)) as H. unfold is_sum in H. apply andb_true_iff in H as [_ H]. fold sum in H. clearbody sum.
    unfold nl_free. induction sum as [|c s IH]; [done|]. cbn [all_bytes has_byte] in *. apply andb_true_iff in H as [H1 H2].
    rewrite (IH H2), orb_false_r. destruct (Ascii.eqb_spec nl c) as [<-|]; done. }
  rewrite split_on_app. replace (managedPrefix ++ "v1 sha256=" ++ sum ++ String nl (lines ls))
    with ((managedPrefix ++ "v1 sha256=" ++ sum) ++ String nl (lines ls)) by by rewrite !string_app_assoc.
  rewrite split_on_app, split_lines by done. rewrite (split_nl_free (managedPrefix ++ _)) by (apply nl_free_app; [done|by apply nl_free_app]).
  done.
Qed.

(** What the reader makes of a sealed text whose lines hold no header. *)
Lemma read_sealed ls : Forall nl_free ls -> ls <> [] -> count (fun ln => has_prefix ln managedPrefix) ls = 0%Z ->
  readManagedUnit (seal (lines ls)) = check_scan (scan_lines (mk_scan (mk_unit_meta "" "" modeBootstrap "") 0 0 0 0) (ls ++ [""])%list).
Proof.
  intros Hf Hne Hc. pose proof (split_seal _ Hf) as E. unfold seal_line in E. set (sum := hex_sum (lines ls)) in *.
  unfold readManagedUnit. rewrite E. destruct ls as [|x ls]; [by contradiction (Hne eq_refl)|]. cbn [app]. rewrite String.eqb_refl. cbn [negb].
  assert (has_prefix (managedPrefix ++ "v1 sha256=" ++ sum) managedPrefix = true) as Hp by apply prefix_app.
  replace (count _ _) with 1%Z.
  2: { rewrite !count_cons, Hp, count_app. rewrite count_cons in Hc. replace (has_prefix unitMarker managedPrefix) with false by done.
       replace (count (fun ln => has_prefix ln managedPrefix) [""]) with 0%Z by done. lia. }
  rewrite Hp. cbn [negb orb Z.eqb Pos.eqb]. unfold sealed_sum.
  replace (has_prefix _ (managedPrefix ++ "v1 sha256=")) with true
    by (symmetry; rewrite <- string_app_assoc; apply prefix_app).
  rewrite <- string_app_assoc, trim_prefix_app. unfold sum at 1. rewrite hex_sum_is_sum.
  change (x :: ls ++ [""])%list with ((x :: ls) ++ [""])%list.
  replace (join (String nl "") ((x :: ls) ++ [""])%list) with (lines (x :: ls)).
  2: { rewrite <- (join_split_on nl (lines (x :: ls))). by rewrite split_lines. }
  fold sum. by rewrite String.eqb_refl.
Qed.

(** *** The lines of a unit *)

Lemma unit_head_ok d : nl_free d -> Forall (fun l => nl_free l /\ plain l = true) (unit_head d).
Proof. intros H. repeat constructor. all: try done. apply nl_free_app; [done|by apply nl_free_quote]. Qed.
Lemma unit_tail_ok d : nl_free d -> Forall (fun l => nl_free l /\ plain l = true) (unit_tail d).
Proof. intros H. repeat constructor. all: try done. apply nl_free_app; [done|by apply nl_free_quote]. Qed.
Lemma envfile_line_ok e : nl_free e -> Forall (fun l => nl_free l /\ plain l = true) (envfile_line e).
Proof.
  intros H. unfold envfile_line. destruct (e =?s ""); [constructor|]. repeat constructor. apply nl_free_app; [done|by apply nl_free_quote].
Qed.
Lemma nl_free_default s d : nl_free s -> nl_free d -> nl_free (if s =?s "" then d else s).
Proof. by destruct (s =?s ""). Qed.

Lemma unitBody_ok d l e : nl_free d -> nl_free l -> nl_free e -> Forall (fun l => nl_free l /\ plain l = true) (unitBody d l e).
Proof.
  intros Hd Hl He. unfold unitBody. apply (nl_free_default d DefaultDataDir) in Hd; [|done]. apply (nl_free_default l DefaultListen) in Hl; [|done].
  apply Forall_app; split; [by apply unit_head_ok|]. apply Forall_app; split.
  { repeat constructor. apply nl_free_app; [done|by apply nl_free_quote]. }
  apply Forall_app; split; [by apply envfile_line_ok|]. apply Forall_app; split; [by repeat constructor|by apply unit_tail_ok].
Qed.
Lemma unitBodyExplicit_ok d h p e : nl_free d -> nl_free (trim_space h) -> nl_free (trim_space p) -> nl_free e ->
  Forall (fun l => nl_free l /\ plain l = true) (unitBodyExplicit d h p e).
Proof.
  intros Hd Hh Hp He. unfold unitBodyExplicit. apply (nl_free_default d DefaultDataDir) in Hd; [|done].
  apply Forall_app; split; [by apply unit_head_ok|]. apply Forall_app; split; [by apply envfile_line_ok|].
  apply Forall_app; split; [|by apply unit_tail_ok]. repeat constructor.
  repeat (apply nl_free_app; [by (done || apply nl_free_quote)|]). by apply nl_free_quote.
Qed.

Lemma scan_meta d l m e body : Forall (fun l => nl_free l /\ plain l = true) body ->
  scan_lines (mk_scan (mk_unit_meta "" "" modeBootstrap "") 0 0 0 0) ((meta_lines d l m e ++ body) ++ [""])%list
  = Ok (mk_scan (mk_unit_meta (trim_space d) (trim_space l) (trim_space m) (if e =?s "" then "" else trim_space e)) 1 1 1 (if e =?s "" then 0 else 1)).
Proof.
  intros H. rewrite <- app_assoc. erewrite scan_lines_app; [apply scan_plain|].
  - apply Forall_app; split; [|by repeat constructor]. eapply Forall_impl; [exact H|]. by intros ? [_ ?].
  - unfold meta_lines. destruct (e =?s ""); cbn [app scan_lines]; unfold scan_line at 1;
      rewrite (prefix_app "# webfleet-data: " d : has_prefix _ _ = true), trim_prefix_app; cbn [Z.add Z.ltb Z.compare Pos.compare Pos.compare_cont];
      unfold scan_line at 1; replace (has_prefix ("# webfleet-listen: " ++ l) "# webfleet-data: ") with false by done;
      rewrite (prefix_app "# webfleet-listen: " l : has_prefix _ _ = true), trim_prefix_app; cbn [Z.add Z.ltb Z.compare Pos.compare Pos.compare_cont];
      unfold scan_line at 1; replace (has_prefix ("# webfleet-listen-mode: " ++ m) "# webfleet-data: ") with false by done;
      replace (has_prefix ("# webfleet-listen-mode: " ++ m) "# webfleet-listen: ") with false by done;
      rewrite (prefix_app "# webfleet-listen-mode: " m : has_prefix _ _ = true), trim_prefix_app; cbn [Z.add Z.ltb Z.compare Pos.compare Pos.compare_cont];
      [done|].
    unfold scan_line at 1. replace (has_prefix ("# webfleet-envfile: " ++ e) "# webfleet-data: ") with false by done.
    replace (has_prefix ("# webfleet-envfile: " ++ e) "# webfleet-listen: ") with false by done.
    replace (has_prefix ("# webfleet-envfile: " ++ e) "# webfleet-listen-mode: ") with false by done.
    by rewrite (prefix_app "# webfleet-envfile: " e : has_prefix _ _ = true), trim_prefix_app.
Qed.

Lemma meta_lines_ok d l m e : nl_free d -> nl_free l -> nl_free m -> nl_free e -> Forall nl_free (meta_lines d l m e).
Proof.
  intros Hd Hl Hm He. unfold meta_lines. apply Forall_app; split; [|destruct (e =?s "")]; repeat constructor; by apply nl_free_app.
Qed.
Lemma meta_lines_count d l m e : count (fun ln => has_prefix ln managedPrefix) (meta_lines d l m e) = 0%Z.
Proof. unfold meta_lines. by destruct (e =?s ""). Qed.

(** What the reader makes of a unit as it is written. *)
Lemma read_built d l m e body : nl_free d -> nl_free l -> nl_free m -> nl_free e ->
  Forall (fun l => nl_free l /\ plain l = true) body ->
  readManagedUnit (seal (lines (meta_lines d l m e ++ body)%list))
  = check_scan (Ok (mk_scan (mk_unit_meta (trim_space d) (trim_space l) (trim_space m) (if e =?s "" then "" else trim_space e)) 1 1 1 (if e =?s "" then 0 else 1))).
Proof.
  intros Hd Hl Hm He Hb. rewrite read_sealed.
  - by rewrite scan_meta.
  - apply Forall_app; split; [by apply meta_lines_ok|]. eapply Forall_impl; [exact Hb|]. by intros ? [? _].
  - done.
  - rewrite count_app, meta_lines_count, count_plain; [done|]. eapply Forall_impl; [exact Hb|]. by intros ? [_ ?].
Qed.

(** What [install] may record: a value without control characters, and without
    white space around it, which the reader would drop. *)
Definition recordable (s : string) : Prop := no_control s = true /\ trim_space s = s.
Definition mode_ok (o : installOptions) : Prop := o.(o_mode) = modeBootstrap \/ o.(o_mode) = modeExplicit /\ o.(o_listen) = "".

Lemma read_unit_text o : nl_free o.(o_data) -> no_control (listener o) = true -> nl_free o.(o_envfile) -> mode_ok o ->
  readManagedUnit (unit_text o)
  = check_scan (Ok (mk_scan (mk_unit_meta (trim_space o.(o_data)) (trim_space (listener o)) o.(o_mode)
      (if o.(o_envfile) =?s "" then "" else trim_space o.(o_envfile))) 1 1 1 (if o.(o_envfile) =?s "" then 0 else 1))).
Proof.
  intros Hd Hl He Hm. unfold unit_text. destruct Hm as [Em|[Em Hl']]; rewrite Em.
  - change (modeBootstrap =?s modeExplicit) with false. cbv iota. unfold buildUnit.
    rewrite read_built; [done|done|by apply no_control_nl|done|done|apply unitBody_ok; [done|by apply no_control_nl|done]].
  - rewrite String.eqb_refl. unfold buildUnitExplicit. unfold listener in Hl |- *. rewrite Hl' in *. cbn [String.eqb negb] in *.
    destruct (no_control_join _ _ Hl) as [Hh Hp]. rewrite !trim_space_idem.
    rewrite read_built; [done|done|by apply no_control_nl|done|done|apply unitBodyExplicit_ok; try done]; rewrite !trim_space_idem; by apply no_control_nl.
Qed.

(** What the reader asks of the metadata. *)
Lemma read_meta b m : readManagedUnit b = Ok m -> m.(um_data) <> "" /\ m.(um_listen) <> "" /\ no_control m.(um_listen) = true
  /\ (m.(um_mode) = modeExplicit \/ m.(um_mode) = modeBootstrap).
Proof.
  unfold readManagedUnit. destruct (split_on nl b) as [|l0 [|l1 [|l2 ls]]]; try done. destruct (negb (l0 =?s unitMarker)); [done|].
  destruct (_ || _); [done|]. destruct (sealed_sum l1) as [sum|]; [|done]. destruct (negb (_ =?s sum)); [done|].
  unfold check_scan. destruct (scan_lines _ _) as [[q dn lnn mn en]|]; [|done].
  repeat match goal with |- (if ?b then _ else _) = _ -> _ => destruct b eqn:?; [done|] end. intros [= <-]. bool_to_prop. split_and!; try done.
  match goal with H : _ && negb (um_mode q =?s modeBootstrap) = false |- _ => apply andb_false_iff in H as [H|H]; bool_to_prop; [by left|by right] end.
Qed.

(** What [install] writes reads back. *)
Lemma unit_reads_back o :
  o.(o_data) <> "" -> recordable o.(o_data) -> listener o <> "" -> recordable (listener o) ->
  recordable o.(o_envfile) -> has_any "%" o.(o_envfile) = false -> mode_ok o ->
  readManagedUnit (unit_text o) = Ok (mk_unit_meta o.(o_data) (listener o) o.(o_mode) o.(o_envfile)).
Proof.
  intros Hd0 [Hd Td] Hl0 [Hl Tl] [He Te] Hp Hm. rewrite read_unit_text; try done; try by apply no_control_nl.
  rewrite Td, Tl, Te. replace (if o.(o_envfile) =?s "" then "" else o.(o_envfile)) with o.(o_envfile)
    by (destruct (String.eqb_spec o.(o_envfile) "") as [->|]; done).
  unfold check_scan. cbn [um_data um_listen um_mode um_envfile].
  apply String.eqb_neq in Hd0, Hl0. rewrite Hd0, Hl0, Hl, Hd, He, Hp, andb_false_r.
  by destruct Hm as [->|[-> _]].
Qed.

(** A unit remembers what it was installed with.  Reading the unit that [install]
    writes gives back the data directory, the listener and its form, and the
    environment file, for values without control characters or surrounding
    white space and an environment file without a percent sign. *)
Theorem unit_remembers o :
  o.(o_data) <> "" -> recordable o.(o_data) -> listener o <> "" -> recordable (listener o) ->
  recordable o.(o_envfile) -> has_any "%" o.(o_envfile) = false -> mode_ok o ->
  readManagedUnit (unit_text o) = Ok (mk_unit_meta o.(o_data) (listener o) o.(o_mode) o.(o_envfile)).
Proof. apply unit_reads_back. Qed.

(** A unit with a percent sign is locked out: when the environment file has a
    percent sign, which nothing refuses, the unit that [install] writes is one the
    reader calls malformed. *)
Theorem percent_unit_is_malformed o :
  recordable o.(o_data) -> recordable (listener o) -> recordable o.(o_envfile) -> mode_ok o ->
  has_any "%" o.(o_envfile) = true -> readManagedUnit (unit_text o) = Err errMalformed.
Proof.
  intros [Hd Td] [Hl Tl] [He Te] Hm Hp. rewrite read_unit_text; try done; try by apply no_control_nl.
  assert (o.(o_envfile) <> "") as Hn by (intros E; by rewrite E in Hp). apply String.eqb_neq in Hn.
  unfold check_scan. cbn [um_data um_listen um_mode um_envfile]. rewrite Hn, Td, Tl, Te, Hn, Hp, Hl, Hd, orb_true_r.
  destruct (_ || _); [done|]. by destruct Hm as [->|[-> _]].
Qed.

(** *** Whatever is read was sealed *)

Lemma split_part s x : In x (split_on nl s) -> split_on nl x = [x].
Proof.
  intros H. apply split_nl_free. revert x H. induction s as [|c s IH]; intros x H; [by destruct H as [<-|[]]|].
  cbn [split_on] in H. destruct (Ascii.eqb c nl) eqn:E.
  - destruct H as [<-|H]; [done|by apply IH].
  - destruct (split_on nl s) as [|h t] eqn:F; [by apply split_on_nonempty in F|].
    destruct H as [<-|H]; [|apply IH; by right]. unfold nl_free. cbn [has_byte]. rewrite Ascii.eqb_sym, E. apply (IH h). by left.
Qed.

Lemma scan_lines_data ls : forall m dn ln mn en m' dn' ln' mn' en',
  scan_lines (mk_scan m dn ln mn en) ls = Ok (mk_scan m' dn' ln' mn' en') ->
  (dn <= dn')%Z /\ (dn' = dn -> m'.(um_data) = m.(um_data) /\ count (fun x => has_prefix x "# webfleet-data: ") ls = 0%Z)
  /\ (dn < dn' -> exists x, In x ls /\ has_prefix x "# webfleet-data: " = true /\ m'.(um_data) = trim_space (trim_prefix x "# webfleet-data: "))%Z.
Proof.
  induction ls as [|x ls IH]; intros m dn ln mn en m' dn' ln' mn' en' H; cbn [scan_lines] in H.
  { injection H as <- <- <- <- <-. split_and!; [lia|done|lia]. }
  destruct (scan_line (mk_scan m dn ln mn en) x) as [[m1 dn1 ln1 mn1 en1]|e] eqn:E; [|done].
  destruct (IH _ _ _ _ _ _ _ _ _ _ H) as (K1 & K2 & K3). rewrite count_cons.
  destruct m as [d l mo ev]. unfold scan_line in E. destruct (has_prefix x "# webfleet-data: ") eqn:Ex.
  - destruct (1 <? dn + 1)%Z; [done|]. injection E as <- <- <- <- <-. split_and!; [lia|lia|]. intros _.
    destruct (Z.eq_dec dn' (dn + 1)) as [e|n]; [|destruct K3 as (y & Hy & ?); [lia|]; exists y; split; [by right|done]].
    destruct (K2 e) as [K _]. exists x. split; [by left|done].
  - assert (dn1 = dn /\ m1.(um_data) = d) as [-> <-]
      by (destruct (has_prefix x "# webfleet-listen: "), (has_prefix x "# webfleet-listen-mode: "), (has_prefix x "# webfleet-envfile: "),
            (1 <? ln + 1)%Z, (1 <? mn + 1)%Z, (1 <? en + 1)%Z; try done; injection E as <- <- <- <- <-; done).
    split_and!; [done| |].
    + intros e. destruct (K2 e) as [? ->]. cbn. by split.
    + intros Hlt. destruct (K3 Hlt) as (y & Hy & ?). exists y. split; [by right|done].
Qed.

(** Only sealed texts are accepted: a unit that reads well is, byte for byte, a
    sealed text, and its data directory is the one of a line of that text. *)
Lemma accepted_unit_is_sealed c m : readManagedUnit c = Ok m ->
  exists text, c = seal text
    /\ exists x, In x (split_on nl text) /\ has_prefix x "# webfleet-data: " = true /\ m.(um_data) = trim_space (trim_prefix x "# webfleet-data: ").
Proof.
  unfold readManagedUnit. intros H. destruct (split_on nl c) as [|l0 [|l1 [|l2 ls]]] eqn:E; try done.
  destruct (String.eqb_spec l0 unitMarker) as [->|]; [|done]. cbn [negb] in H.
  destruct (_ || _) in H; [done|]. destruct (sealed_sum l1) as [sum|] eqn:Es; [|done].
  destruct (String.eqb_spec (hex_sum (join (String nl "") (l2 :: ls))) sum) as [Hsum|]; [|done]. cbn [negb] in H.
  assert (l1 = managedPrefix ++ "v1 sha256=" ++ sum) as ->.
  { unfold sealed_sum in Es. destruct (has_prefix l1 _) eqn:Ep; [|done]. apply prefix_spec in Ep as [r ->].
    rewrite trim_prefix_app in Es. destruct (is_sum r); [|done]. injection Es as <-. by rewrite string_app_assoc. }
  exists (join (String nl "") (l2 :: ls)). split.
  - unfold seal. rewrite Hsum, <- (join_split_on nl c), E.
    change (join (String nl "") (unitMarker :: (managedPrefix ++ "v1 sha256=" ++ sum) :: l2 :: ls))
      with (unitMarker ++ String nl ((managedPrefix ++ "v1 sha256=" ++ sum) ++ String nl (join (String nl "") (l2 :: ls)))).
    by rewrite !string_app_assoc.
  - assert (split_on nl (join (String nl "") (l2 :: ls)) = l2 :: ls) as ->.
    { apply split_on_join; [done|]. intros q Hq. apply split_part with c. rewrite E. right. by right. }
    destruct (scan_lines _ _) as [[m' dn ln mn en]|e] eqn:F; [|done]. unfold check_scan in H.
    destruct (_ || _) eqn:G in H; [done|]. apply orb_false_iff in G as [G _]. apply orb_false_iff in G as [G _]. apply orb_false_iff in G as [G _].
    apply negb_false_iff, Z.eqb_eq in G as ->. apply scan_lines_data in F as (_ & _ & F).
    destruct (_ && _) in H; [done|]. destruct (_ || _) in H; [done|]. destruct (_ && _) in H; [done|]. injection H as <-. apply F. lia.
Qed.

Definition demo_unit_options : installOptions := mk_options "/srv/web fleet" "" "::1" " 7336" modeExplicit "/etc/webfleet.env".
Lemma unit_remembers_witness : readManagedUnit (unit_text demo_unit_options) = Ok (mk_unit_meta "/srv/web fleet" "[::1]:7336" modeExplicit "/etc/webfleet.env").
Proof.
  refine (unit_remembers demo_unit_options _ _ _ _ _ _ _); try discriminate; try (split; reflexivity); try reflexivity.
  right. by split.
Defined.
