(* ===== verification/DataDir.v ===== *)
(** The data directory of the service ([internal/service/datadir_linux.go]): its
    inspection before an installation and its creation, relative to descriptors.

    The file system is a table of inodes; directories map names to inode numbers
    and hold [.] and [..].  Other processes may change the table before each of
    our system calls: [others] says how.  [trace] lists the changes this process
    makes.  A system call fails when the fault plan of [SqlM] says so. *)
From S2P Require Import Prelude GoStr GoPath SqlM.
Open Scope string_scope.
Open Scope Z_scope.
Open Scope wf_scope.
Open Scope sql_scope.

(** ** Definitions *)

Inductive kind := KDir (entries : gmap string Z) | KLink (target : string) | KFile.
Record inode := mk_inode { i_kind : kind; i_uid : Z; i_gid : Z; i_mode : Z }.
Abbreviation inodes := (gmap Z inode).
Inductive change :=
| Made (parent : Z) (name : string) (ino : Z)
| ModeSet (ino mode : Z)
| OwnerSet (ino uid gid : Z)
| Removed (parent : Z) (name : string).
Record host := mk_host {
  h_inodes : inodes; h_fds : list (Z * Z); h_group : option Z; h_user : option Z;
  h_others : list (inodes -> inodes); h_trace : list change }.
Definition set_inodes (v : inodes) (h : host) : host := mk_host v h.(h_fds) h.(h_group) h.(h_user) h.(h_others) h.(h_trace).
Definition set_fds (v : list (Z * Z)) (h : host) : host := mk_host h.(h_inodes) v h.(h_group) h.(h_user) h.(h_others) h.(h_trace).
Definition did (c : change) (h : host) : host := mk_host h.(h_inodes) h.(h_fds) h.(h_group) h.(h_user) h.(h_others) (h.(h_trace) ++ [c])%list.

Definition root_ino : Z := 1.
Definition ENOENT : string := "no such file or directory".
Definition EEXIST : string := "file exists".
Definition ENOTDIR : string := "not a directory".
Definition ELOOP : string := "too many levels of symbolic links".
Definition ENOTEMPTY : string := "directory not empty".
Definition EBADF : string := "bad file descriptor".
Definition EIO : string := "input/output error".

(** A system call; the ones that a fault plan refuses return [EIO]. *)
Definition syscall {S A} (f : S -> result A * S) : M S A := fun '(s, fl) =>
  match fl with
  | true :: fl' => (Err EIO, (s, fl'))
  | _ => let '(r, s') := f s in (r, (s', List.tl fl))
  end.
Definition interfere (h : host) : host :=
  match h.(h_others) with
  | [] => h
  | f :: l => mk_host (f h.(h_inodes)) h.(h_fds) h.(h_group) h.(h_user) l h.(h_trace)
  end.
Definition sys {A} (f : host -> result A * host) : M host A := syscall (fun h => f (interfere h)).

Definition fd_ino (fd : Z) (h : host) : option Z := snd <$> find_first (fun x => x.1 =? fd) h.(h_fds).
Definition fd_inode (fd : Z) (h : host) : option (Z * inode) := i ← fd_ino fd h; n ← h.(h_inodes) !! i; Some (i, n).
Definition open_ino (i : Z) (h : host) : Z * host :=
  let fd := fresh_id (map fst h.(h_fds)) in (fd, set_fds ((fd, i) :: h.(h_fds)) h).
Definition closeFdReal (fd : Z) : M host unit := fun '(h, fl) => (Ok tt, (set_fds (del (fun x => x.1 =? fd) h.(h_fds)) h, fl)).
Definition closeFdSeam : Z -> M host unit := closeFdReal.

(** The inode a name stands for in the directory of a descriptor. *)
Definition lookup_at (fd : Z) (name : string) (h : host) : result (Z * inode) :=
  match fd_inode fd h with
  | Some (_, mk_inode (KDir e) _ _ _) =>
      match e !! name with
      | None => Err ENOENT
      | Some i => match h.(h_inodes) !! i with Some n => Ok (i, n) | None => Err ENOENT end
      end
  | Some _ => Err ENOTDIR
  | None => Err EBADF
  end.

(** [unix.Open("/", ...)] and [unix.Openat] with [O_DIRECTORY|O_NOFOLLOW]. *)
Definition open_root : M host Z := sys (fun h => let '(fd, h') := open_ino root_ino h in (Ok fd, h')).
Definition openAtLeafReal (fd : Z) (name : string) : M host Z := sys (fun h =>
  match lookup_at fd name h with
  | Err e => (Err e, h)
  | Ok (i, n) => match n.(i_kind) with
                 | KDir _ => let '(fd', h') := open_ino i h in (Ok fd', h')
                 | KLink _ => (Err ELOOP, h)
                 | KFile => (Err ENOTDIR, h)
                 end
  end).
Definition fstat (fd : Z) : M host (Z * inode) := sys (fun h =>
  (match fd_inode fd h with Some x => Ok x | None => Err EBADF end, h)).

(** [dataLeafInfo] and [statToInfo]. *)
Record dataLeafInfo := mk_info { isDir : bool; isSymlink : bool; l_mode : Z; l_uid : Z }.
Definition statToInfo (n : inode) : dataLeafInfo :=
  mk_info (match n.(i_kind) with KDir _ => true | _ => false end) (match n.(i_kind) with KLink _ => true | _ => false end) n.(i_mode) n.(i_uid).
Definition statDataLeafReal (fd : Z) (name : string) : M host dataLeafInfo := sys (fun h =>
  (match lookup_at fd name h with Ok (_, n) => Ok (statToInfo n) | Err e => Err e end, h)).
Definition fstatLeafReal (fd : Z) : M host dataLeafInfo := let* x := fstat fd in ret (statToInfo x.2).

(** A new directory belongs to root and inherits the set-group-id bit. *)
Definition mkdirAtLeafReal (fd : Z) (name : string) : M host unit := sys (fun h =>
  match lookup_at fd name h with
  | Ok _ => (Err EEXIST, h)
  | Err e =>
      match fd_inode fd h with
      | Some (p, mk_inode (KDir es) u g m) =>
          let i := fresh_id (map fst (map_to_list h.(h_inodes))) in
          let sgid := Z.land m 1024 in
          let n := mk_inode (KDir {["." := i; ".." := p]}) 0 (if sgid =? 0 then 0 else g) (Z.lor 448 sgid) in
          (Ok tt, did (Made p name i) (set_inodes (<[i := n]> (<[p := mk_inode (KDir (<[name := i]> es)) u g m]> h.(h_inodes))) h))
      | _ => (Err e, h)
      end
  end).
Definition fchmodLeafReal (fd : Z) : M host unit := sys (fun h =>
  match fd_inode fd h with
  | Some (i, n) => (Ok tt, did (ModeSet i 448) (set_inodes (<[i := mk_inode n.(i_kind) n.(i_uid) n.(i_gid) 448]> h.(h_inodes)) h))
  | None => (Err EBADF, h)
  end).

(** [lookupServiceIDs]. *)
Definition lookupServiceIDs : M host (Z * Z) :=
  let* g := or_fail (syscall (fun h => (match h.(h_group) with Some g => Ok g | None => Err "unknown group" end, h))) "service group not found" in
  let* u := or_fail (syscall (fun h => (match h.(h_user) with Some u => Ok u | None => Err "unknown user" end, h))) "service user not found" in
  ret (u, g).
Definition serviceUID : M host Z := let* x := lookupServiceIDs in ret x.1.
Definition fchownLeafReal (fd : Z) : M host unit :=
  let* ids := lookupServiceIDs in
  sys (fun h =>
    match fd_inode fd h with
    | Some (i, n) => (Ok tt, did (OwnerSet i ids.1 ids.2) (set_inodes (<[i := mk_inode n.(i_kind) ids.1 ids.2 n.(i_mode)]> h.(h_inodes)) h))
    | None => (Err EBADF, h)
    end).
(** [unlinkat] with [AT_REMOVEDIR]. *)
Definition unlinkAtLeafReal (fd : Z) (name : string) : M host unit := sys (fun h =>
  match lookup_at fd name h with
  | Err e => (Err e, h)
  | Ok (i, mk_inode (KDir es) _ _ _) =>
      match fd_inode fd h with
      | Some (p, mk_inode (KDir ps) u g m) =>
          if (2 <? Z.of_nat (size es)) then (Err ENOTEMPTY, h)
          else (Ok tt, did (Removed p name) (set_inodes (delete i (<[p := mk_inode (KDir (delete name ps)) u g m]> h.(h_inodes))) h))
      | _ => (Err ENOTDIR, h)
      end
  | Ok _ => (Err ENOTDIR, h)
  end).

(** *** The walk to the parent *)

Fixpoint walk (dir : string) (comps : list string) (fd : Z) : M host Z :=
  match comps with
  | [] => ret fd
  | c :: cs =>
      if (c =?s "") || (c =?s ".") then walk dir cs fd else
      let* r := attempt (openAtLeafReal fd c) in
      closeFdReal fd ;;;
      match r with
      | Err e =>
          throw (if e =?s ELOOP then "parent " ++ Quote dir ++ " contains a symlink at " ++ Quote c ++ "; refusing symlinked service-data ancestry"
                 else if e =?s ENOENT then "parent " ++ Quote dir ++ " does not exist; create the parent hierarchy first"
                 else "cannot open parent " ++ Quote dir ++ ": " ++ e)
      | Ok nfd => walk dir cs nfd
      end
  end.
Definition openDataParentReal (leafPath : string) : M host Z :=
  let dir := Clean leafPath in
  if negb (IsAbs dir) then throw ("parent " ++ Quote dir ++ " must be an absolute path") else
  let* r := attempt open_root in
  match r with Err e => throw ("cannot open root: " ++ e) | Ok fd => walk dir (split_on "/" dir) fd end.

Definition dataParentConsistentReal (fd : Z) (leafPath : string) : M host bool :=
  let* r := attempt (openDataParentReal (Dir leafPath)) in
  match r with
  | Err _ => ret false
  | Ok nf =>
      let* a := attempt (fstat fd) in
      match a with
      | Err _ => closeFdReal nf ;;; ret false
      | Ok a =>
          let* b := attempt (fstat nf) in
          closeFdReal nf ;;;
          ret (match b with Err _ => false | Ok b => a.1 =? b.1 end)
      end
  end.

Definition parentSafeReal (fd : Z) : M host unit :=
  let* r := attempt (fstat fd) in
  match r with
  | Err e => throw ("cannot fstat parent descriptor: " ++ e)
  | Ok (_, n) =>
      if negb (n.(i_uid) =? 0)
      then throw ("final data-directory parent is owned by UID " ++ format_int n.(i_uid)
                    ++ "; the installer requires a root-owned parent (e.g. /var/lib or /srv)")
      else if negb (Z.land n.(i_mode) 18 =? 0)
      then throw "final data-directory parent is group- or world-writable; the installer requires a root-owned, non-group/world-writable parent"
      else ret tt
  end.

(** *** Inspection and creation *)

Inductive dataDirStatus := dataDirAcceptFresh | dataDirAcceptExisting.
Record dataDirPlan := mk_plan { p_status : dataDirStatus; p_parent : Z; p_leaf : Z; p_name : string; p_path : string }.
Definition plan_close (p : dataDirPlan) : M host unit :=
  (if 0 <=? p.(p_leaf) then closeFdSeam p.(p_leaf) else ret tt) ;;;
  (if 0 <=? p.(p_parent) then closeFdSeam p.(p_parent) else ret tt).

Definition about (path msg : string) : string := "data directory " ++ Quote path ++ msg.
Definition close_and_throw {A} (fds : list Z) (msg : string) : M host A := for_each fds closeFdSeam ;;; throw msg.

Definition inspectDataDir (path : string) : M host dataDirPlan :=
  let parent := Dir path in
  let* r := attempt (openDataParentReal parent) in
  match r with
  | Err e => throw (about path (": " ++ e))
  | Ok fd =>
      let leafName := Base path in
      let* r := attempt (statDataLeafReal fd leafName) in
      match r with
      | Err e =>
          if e =?s ENOENT then
            let* r := attempt (parentSafeReal fd) in
            match r with
            | Err e => close_and_throw [fd] (about path (": " ++ e))
            | Ok _ => ret (mk_plan dataDirAcceptFresh fd (-1) leafName path)
            end
          else close_and_throw [fd] (about path (": " ++ e))
      | Ok info =>
          if info.(isSymlink) then close_and_throw [fd] (about path " must not be a symlink") else
          let* r := attempt (openAtLeafReal fd leafName) in
          match r with
          | Err e => close_and_throw [fd] (about path (": open existing leaf: " ++ e))
          | Ok leafFd =>
              let fail msg := close_and_throw [fd; leafFd] (about path msg) in
              let* r := attempt (fstatLeafReal leafFd) in
              match r with
              | Err e => fail (": fstat existing leaf: " ++ e)
              | Ok linfo =>
                  if negb linfo.(isDir) then fail " is not a directory" else
                  if negb (Z.land linfo.(l_mode) 18 =? 0) then fail " must not be group- or world-writable" else
                  let* r := attempt serviceUID in
                  match r with
                  | Err e => fail (": cannot validate ownership (service account missing?): " ++ e)
                  | Ok uid =>
                      if negb (linfo.(l_uid) =? uid)
                      then fail (" already exists and is owned by UID " ++ format_int linfo.(l_uid)
                                  ++ "; the webfleet service requires it to be owned by webfleet:webfleet with mode 0700. Move existing data under /var/lib/webfleet or re-home it; the installer will not adopt an existing directory") else
                      let* r := attempt (parentSafeReal fd) in
                      match r with
                      | Err e => fail (": " ++ e)
                      | Ok _ => ret (mk_plan dataDirAcceptExisting fd leafFd leafName path)
                      end
                  end
              end
          end
      end
  end.

Definition cleanupLeafError {A} (path cause : string) (parentFd : Z) (name : string) : M host A :=
  let* r := attempt (unlinkAtLeafReal parentFd name) in
  throw (about path (": " ++ cause ++ (match r with
                                       | Err e => "; partial leaf cleanup incomplete: " ++ e
                                       | Ok _ => "; partial leaf removed"
                                       end))).

(** [%o] and [%v]. *)
Fixpoint octal (fuel : nat) (z : Z) : string :=
  match fuel with
  | O => ""
  | S n => (if z <? 8 then "" else octal n (z / 8)) ++ format_int (z mod 8)
  end.
Definition format_bool (b : bool) : string := if b then "true" else "false".

Definition establishFreshLeaf (parentFd : Z) (name path : string) : M host unit :=
  let* r := attempt (parentSafeReal parentFd) in
  match r with Err e => throw (about path (": " ++ e)) | Ok _ =>
  let* r := attempt (mkdirAtLeafReal parentFd name) in
  match r with Err e => throw (about path (": create leaf: " ++ e)) | Ok _ =>
  let* r := attempt (openAtLeafReal parentFd name) in
  match r with Err e => cleanupLeafError path ("bind created leaf: " ++ e) parentFd name | Ok leafFd =>
  let fail cause := closeFdSeam leafFd ;;; cleanupLeafError path cause parentFd name in
  let* r := attempt (fstatLeafReal leafFd) in
  match r with Err e => fail ("inspect created leaf: " ++ e) | Ok linfo =>
  if negb linfo.(isDir) || linfo.(isSymlink) || negb (linfo.(l_mode) =? 448) 
  then fail ("created leaf identity mismatch (mode " ++ octal 12 linfo.(l_mode) ++ ", dir " ++ format_bool linfo.(isDir)
             ++ ", symlink " ++ format_bool linfo.(isSymlink) ++ ")") else
  let* r := attempt (fchmodLeafReal leafFd) in
  match r with Err e => fail ("set mode 0700: " ++ e) | Ok _ =>
  let* r := attempt (fchownLeafReal leafFd) in
  match r with Err e => fail ("set service ownership: " ++ e) | Ok _ =>
  let* r := attempt (fstatLeafReal leafFd) in
  match r with Err e => fail ("inspect established leaf: " ++ e) | Ok _ => closeFdSeam leafFd
  end end end end end end end.

Definition establishDataDir (plan : dataDirPlan) : M host unit :=
  let* same := dataParentConsistentReal plan.(p_parent) plan.(p_path) in
  if negb same then throw (about plan.(p_path) ": parent changed after validation; refusing") else
  match plan.(p_status) with
  | dataDirAcceptFresh => establishFreshLeaf plan.(p_parent) plan.(p_name) plan.(p_path)
  | dataDirAcceptExisting =>
      let* r := attempt (fchmodLeafReal plan.(p_leaf)) in
      match r with Err e => throw (about plan.(p_path) (": set mode 0700: " ++ e)) | Ok _ => ret tt end
  end.

(** ** Lemmas *)

(** *** What others can do *)

(** An inode of root that nobody else may write. *)
Definition guarded (n : inode) : Prop := n.(i_uid) = 0 /\ Z.land n.(i_mode) 18 = 0.
Definition unprivileged (f : inodes -> inodes) : Prop := forall m i n, m !! i = Some n -> guarded n -> f m !! i = Some n.

(** Only others have done something to the inodes. *)
Record calm (h h' : host) : Prop := mk_calm {
  calm_trace : h'.(h_trace) = h.(h_trace);
  calm_ids : h'.(h_group) = h.(h_group) /\ h'.(h_user) = h.(h_user);
  calm_others : Forall unprivileged h.(h_others) -> Forall unprivileged h'.(h_others)
    /\ forall i n, guarded n -> h.(h_inodes) !! i = Some n -> h'.(h_inodes) !! i = Some n }.

#[export] Instance calm_refl : Reflexive calm.
Proof. intros h. by split. Qed.
#[export] Instance calm_trans : Transitive calm.
Proof.
  intros a b c [A1 [A2 A3] A4] [B1 [B2 B3] B4]. split; [congruence|split; congruence|].
  intros H. destruct (A4 H) as [C1 C2]. destruct (B4 C1) as [D1 D2]. split; [done|]. intros i n Hg Hi. by apply D2, C2.
Qed.
Lemma calm_interfere h : calm h (interfere h).
Proof.
  unfold interfere. destruct h as [m fds g u [|f l] tr]; cbn; [done|]. split; [done|done|]. cbn. intros H.
  inversion H as [|? ? Hf Hl]; subst. split; [done|]. intros i n Hg Hi. by apply Hf.
Qed.
Lemma interfere_fds h : (interfere h).(h_fds) = h.(h_fds).
Proof. unfold interfere. by destruct (h_others h). Qed.

Lemma sys_inv {A} (f : host -> result A * host) h fl r h' fl' : sys f (h, fl) = (r, (h', fl')) ->
  (h' = h /\ r = Err EIO) \/ f (interfere h) = (r, h').
Proof.
  unfold sys, syscall. destruct fl as [|[] fl]; cbn.
  - destruct (f (interfere h)) as [r0 h0]. intros [= <- <- _]. by right.
  - intros [= <- <- _]. by left.
  - destruct (f (interfere h)) as [r0 h0]. intros [= <- <- _]. by right.
Qed.

(** A system call that only looks. *)
Definition looks {A} (m : M host A) : Prop := forall h fl r h' fl', m (h, fl) = (r, (h', fl')) -> calm h h' /\ h'.(h_fds) = h.(h_fds).
Lemma looks_sys {A} (f : host -> result A * host) : (forall h, (f h).2 = h) -> looks (sys f).
Proof.
  intros Hf h fl r h' fl' H. apply sys_inv in H as [[-> _]|H]; [by split|]. pose proof (Hf (interfere h)) as K. rewrite H in K. cbn in K. subst h'.
  split; [apply calm_interfere|apply interfere_fds].
Qed.
Lemma looks_ret {A} (a : A) : looks (ret a).
Proof. intros h fl r h' fl' [= _ <- _]. by split. Qed.
Lemma looks_throw {A} e : looks (throw (S:=host) (A:=A) e).
Proof. intros h fl r h' fl' [= _ <- _]. by split. Qed.
Lemma looks_bind {A B} (m : M host A) (k : A -> M host B) : looks m -> (forall a, looks (k a)) -> looks (bind m k).
Proof.
  intros Hm Hk h fl r h' fl' H. unfold bind in H. destruct (m (h, fl)) as [[a|e] [h1 fl1]] eqn:E.
  - apply Hm in E as [E1 E2]. apply Hk in H as [H1 H2]. split; [by etrans|congruence].
  - injection H as _ <- _. by apply (Hm _ _ _ _ _ E).
Qed.
Lemma looks_attempt {A} (m : M host A) : looks m -> looks (attempt m).
Proof.
  intros Hm h fl r h' fl' H. unfold attempt in H. destruct (m (h, fl)) as [r0 [h1 fl1]] eqn:E. injection H as _ <- _. by apply (Hm _ _ _ _ _ E).
Qed.
Lemma looks_or_fail {A} (m : M host A) msg : looks m -> looks (or_fail m msg).
Proof.
  intros Hm h fl r h' fl' H. unfold or_fail in H. destruct (m (h, fl)) as [[a|e] [h1 fl1]] eqn:E; injection H as _ <- _; by apply (Hm _ _ _ _ _ E).
Qed.
Create HintDb looks.
#[export] Hint Resolve looks_ret looks_throw looks_attempt looks_or_fail looks_bind looks_sys : looks.

Lemma looks_fstat fd : looks (fstat fd).
Proof. by apply looks_sys. Qed.
Lemma looks_fstatLeaf fd : looks (fstatLeafReal fd).
Proof. apply looks_bind; [apply looks_fstat|]. intros x. apply looks_ret. Qed.
Lemma looks_statLeaf fd name : looks (statDataLeafReal fd name).
Proof. by apply looks_sys. Qed.
Lemma looks_ids : looks lookupServiceIDs.
Proof.
  assert (forall A (f : host -> result A), looks (syscall (fun h => (f h, h)))) as K.
  { intros A f h fl r h' fl' H. unfold syscall in H. destruct fl as [|[] fl]; injection H as _ <- _; by split. }
  apply looks_bind; [by apply looks_or_fail|]. intros g. apply looks_bind; [by apply looks_or_fail|]. intros u. apply looks_ret.
Qed.
Lemma looks_parentSafe fd : looks (parentSafeReal fd).
Proof.
  apply looks_bind; [apply looks_attempt, looks_fstat|]. intros [[i n]|e]; [|apply looks_throw].
  destruct (negb _); [apply looks_throw|]. destruct (negb _); [apply looks_throw|apply looks_ret].
Qed.
#[export] Hint Resolve looks_fstat looks_fstatLeaf looks_statLeaf looks_ids looks_parentSafe : looks.

(** *** Descriptors *)

Definition distinct (l : list (Z * Z)) : Prop := NoDup (map fst l) /\ Forall (fun x => 0 < x.1) l.

Lemma distinct_open i h : distinct h.(h_fds) -> distinct ((fresh_id (map fst h.(h_fds)), i) :: h.(h_fds)).
Proof.
  intros [H1 H2]. split.
  - cbn. constructor; [|done]. rewrite list_elem_of_In. apply fresh_id_notin.
  - constructor; [apply fresh_id_pos|done].
Qed.
Lemma distinct_tail x l : distinct (x :: l) -> distinct l.
Proof. intros [H1 H2]. cbn in H1. apply NoDup_cons in H1 as [_ H1]. apply Forall_cons in H2 as [_ H2]. by split. Qed.
Lemma del_head fd i l : distinct ((fd, i) :: l) -> del (fun x => x.1 =? fd) ((fd, i) :: l) = l.
Proof.
  intros [H _]. cbn in H. apply NoDup_cons in H as [H _]. unfold del. cbn. rewrite Z.eqb_refl. cbn.
  apply (del_none (fun x => x.1 =? fd)). intros [fd' j] Hx. cbn. apply Z.eqb_neq. intros ->. apply H. apply list_elem_of_In, in_map_iff. by exists (fd, j).
Qed.
Lemma fd_ino_head fd i l h : h.(h_fds) = (fd, i) :: l -> fd_ino fd h = Some i.
Proof. intros H. unfold fd_ino, find_first. rewrite H. cbn. by rewrite Z.eqb_refl. Qed.

Lemma close_inv fd h fl r h' fl' : closeFdReal fd (h, fl) = (r, (h', fl')) ->
  r = Ok tt /\ fl' = fl /\ h' = set_fds (del (fun x => x.1 =? fd) h.(h_fds)) h.
Proof. by intros [= <- <- <-]. Qed.
Lemma calm_set_fds v h : calm h (set_fds v h).
Proof. by split. Qed.

(** What a call that opens a descriptor does. *)
Definition opens (m : M host Z) : Prop := forall h fl r h' fl', distinct h.(h_fds) -> m (h, fl) = (r, (h', fl')) ->
  calm h h' /\ distinct h'.(h_fds) /\ match r with Ok fd => 0 < fd /\ exists i, h'.(h_fds) = (fd, i) :: h.(h_fds) | Err _ => h'.(h_fds) = h.(h_fds) end.

Lemma opens_sys (f : host -> result Z * host) :
  (forall h, (exists i, f h = (Ok (open_ino i h).1, (open_ino i h).2)) \/ exists e, f h = (Err e, h)) -> opens (sys f).
Proof.
  intros Hf h fl r h' fl' Hd H. apply sys_inv in H as [[-> ->]|H]; [done|].
  destruct (Hf (interfere h)) as [[i E]|[e E]]; rewrite E in H; injection H as <- <-.
  - unfold open_ino. rewrite interfere_fds. cbn. split; [|split; [by apply distinct_open|split; [apply fresh_id_pos|by eexists]]].
    etrans; [apply calm_interfere|apply calm_set_fds].
  - rewrite interfere_fds. split; [apply calm_interfere|done].
Qed.
Lemma opens_root : opens open_root.
Proof. apply opens_sys. intros h. left. by exists root_ino. Qed.
Lemma opens_at fd name : opens (openAtLeafReal fd name).
Proof.
  apply opens_sys. intros h. destruct (lookup_at fd name h) as [[i n]|e]; [|by right; eexists].
  destruct (i_kind n); [left; by exists i|by right; eexists|by right; eexists].
Qed.

(** [m] opens what [fd] leads to, and closes [fd]. *)
Lemma walk_opens dir cs : forall fd h fl r h' fl' i rest, distinct h.(h_fds) -> h.(h_fds) = (fd, i) :: rest ->
  walk dir cs fd (h, fl) = (r, (h', fl')) ->
  calm h h' /\ distinct h'.(h_fds) /\ match r with Ok fd' => 0 < fd' /\ exists j, h'.(h_fds) = (fd', j) :: rest | Err _ => h'.(h_fds) = rest end.
Proof.
  induction cs as [|c cs IH]; intros fd h fl r h' fl' i rest Hd Hf H; cbn [walk] in H.
  { injection H as <- <- _. rewrite Hf in Hd |- *. split; [done|]. split; [done|]. split; [|by exists i]. by destruct Hd as [_ Hd]; apply Forall_cons in Hd as [Hd _]. }
  destruct (_ || _) in H; [by eapply IH|].
  unfold bind at 1, attempt in H. destruct (openAtLeafReal fd c (h, fl)) as [q [h1 fl1]] eqn:E.
  apply opens_at in E as (C1 & D1 & O1); [|done]. unfold bind, closeFdReal in H. destruct q as [nfd|e].
  - destruct O1 as [Hp [j O1]]. rewrite O1 in H, D1. rewrite Hf in H, D1.
    assert (del (fun x => x.1 =? fd) ((nfd, j) :: (fd, i) :: rest) = (nfd, j) :: rest) as Ed.
    { assert (nfd <> fd) as Hn by (destruct D1 as [D1 _]; cbn in D1; apply NoDup_cons in D1 as [D1 _]; intros ->; apply D1; by left).
      pose proof (del_head fd i rest (distinct_tail _ _ D1)) as Hr. unfold del in *. cbn [List.filter fst] in *.
      destruct (Z.eqb_spec nfd fd); [done|]. cbn [negb]. by rewrite Hr. }
    rewrite Ed in H. apply (IH _ _ _ _ _ _ j rest) in H as (C2 & D2 & O2).
    + split; [|done]. etrans; [exact C1|]. etrans; [apply calm_set_fds|exact C2].
    + destruct D1 as [D1 D1']. cbn in D1. apply NoDup_cons in D1 as [N1 D1]. apply NoDup_cons in D1 as [N2 D1]. split.
      * cbn. constructor; [|done]. intros K. apply N1. by right.
      * apply Forall_cons in D1' as [A D1']. apply Forall_cons in D1' as [_ D1']. by constructor.
    + done.
  - cbn in H. rewrite O1, Hf in H. rewrite O1, Hf in D1. rewrite (del_head _ _ _ D1) in H. injection H as <- <- _.
    split; [etrans; [exact C1|apply calm_set_fds]|]. split; [by apply distinct_tail in D1|done].
Qed.

Lemma opens_parent p : opens (openDataParentReal p).
Proof.
  intros h fl r h' fl' Hd H. unfold openDataParentReal in H. destruct (negb _); [by injection H as <- <- _|].
  unfold bind at 1, attempt in H. destruct (open_root (h, fl)) as [q [h1 fl1]] eqn:E. apply opens_root in E as (C1 & D1 & O1); [|done].
  destruct q as [fd|e]; [|by injection H as <- <- _].
  destruct O1 as [_ [i O1]]. apply (walk_opens _ _ _ _ _ _ _ _ i h.(h_fds)) in H as (C2 & D2 & O2); [|done|done].
  split; [by etrans|done].
Qed.

Lemma attempt_bind {S A B} (m : M S A) (k : result A -> M S B) h fl r h' fl' : bind (attempt m) k (h, fl) = (r, (h', fl')) ->
  exists q h1 fl1, m (h, fl) = (q, (h1, fl1)) /\ k q (h1, fl1) = (r, (h', fl')).
Proof. unfold bind, attempt. destruct (m (h, fl)) as [q [h1 fl1]]. intros H. by exists q, h1, fl1. Qed.
Lemma bind_inv {S A B} (m : M S A) (k : A -> M S B) h fl r h' fl' : bind m k (h, fl) = (r, (h', fl')) ->
  (exists a h1 fl1, m (h, fl) = (Ok a, (h1, fl1)) /\ k a (h1, fl1) = (r, (h', fl'))) \/ exists e, m (h, fl) = (Err e, (h', fl')) /\ r = Err e.
Proof.
  unfold bind. destruct (m (h, fl)) as [[a|e] [h1 fl1]]; intros H; [left; by exists a, h1, fl1|]. injection H as <- <- <-. right. by exists e.
Qed.

Lemma looks_consistent fd p h fl r h' fl' : distinct h.(h_fds) -> dataParentConsistentReal fd p (h, fl) = (r, (h', fl')) ->
  calm h h' /\ h'.(h_fds) = h.(h_fds) /\ exists b, r = Ok b.
Proof.
  intros Hd H. unfold dataParentConsistentReal in H. apply attempt_bind in H as (q & h1 & fl1 & E & H).
  apply opens_parent in E as (C1 & D1 & O1); [|done]. destruct q as [nf|e]; [|injection H as <- <- _; by eauto].
  destruct O1 as [_ [j O1]]. apply attempt_bind in H as (a & h2 & fl2 & E2 & H). apply looks_fstat in E2 as [C2 F2].
  assert (forall h3 fl3 b, calm h2 h3 -> h3.(h_fds) = h2.(h_fds) -> (closeFdReal nf ;;; ret b)%sql (h3, fl3) = (r, (h', fl')) ->
    calm h h' /\ h'.(h_fds) = h.(h_fds) /\ exists b, r = Ok b) as K.
  { intros h3 fl3 b C3 F3 G. unfold bind, closeFdReal in G. cbn in G. injection G as <- <- _. cbn. rewrite F3, F2, O1. rewrite O1 in D1.
    rewrite (del_head _ _ _ D1). split; [|by eauto]. etrans; [exact C1|]. etrans; [exact C2|]. etrans; [exact C3|apply calm_set_fds]. }
  destruct a as [a|e]; [|by eapply K; [done|done|]].
  apply attempt_bind in H as (b & h3 & fl3 & E3 & H). apply looks_fstat in E3 as [C3 F3]. by eapply K; [| |exact H].
Qed.

(** Some state between two others. *)
Definition meanwhile (h h' : host) (P : host -> Prop) : Prop := exists hm, calm h hm /\ calm hm h' /\ P hm.
Lemma meanwhile_mono a b c d P : calm a b -> calm c d -> meanwhile b c P -> meanwhile a d P.
Proof. intros H1 H2 (hm & A & B & HP). exists hm. split_and!; [by etrans|by etrans|done]. Qed.
Lemma meanwhile_impl a b (P Q : host -> Prop) : (forall h, P h -> Q h) -> meanwhile a b P -> meanwhile a b Q.
Proof. intros H (hm & A & B & HP). exists hm. by eauto. Qed.

Lemma fstat_ok fd h fl x h' fl' : fstat fd (h, fl) = (Ok x, (h', fl')) -> fd_inode fd h' = Some x.
Proof. intros H. apply sys_inv in H as [[_ ?]|H]; [done|]. destruct (fd_inode fd (interfere h)) eqn:E; [|done]. by injection H as -> <-. Qed.
Lemma fstatLeaf_ok fd h fl x h' fl' : fstatLeafReal fd (h, fl) = (Ok x, (h', fl')) -> exists i n, fd_inode fd h' = Some (i, n) /\ x = statToInfo n.
Proof.
  intros H. apply bind_inv in H as [([i n] & h1 & fl1 & E & H)|(e & _ & ?)]; [|done]. apply fstat_ok in E. injection H as <- <- _. by exists i, n.
Qed.
Lemma fd_inode_ino fd h i n : fd_inode fd h = Some (i, n) -> fd_ino fd h = Some i /\ h.(h_inodes) !! i = Some n.
Proof. unfold fd_inode. destruct (fd_ino fd h) as [j|]; [|done]. cbn. destruct (h_inodes h !! j) eqn:E; [|done]. cbn. intros [= -> ->]. done. Qed.
Lemma parentSafe_ok fd h fl h' fl' : parentSafeReal fd (h, fl) = (Ok tt, (h', fl')) ->
  exists i n, fd_ino fd h' = Some i /\ h'.(h_inodes) !! i = Some n /\ guarded n.
Proof.
  intros H. apply attempt_bind in H as (q & h1 & fl1 & E & H). destruct q as [[i n]|e]; [|done]. apply fstat_ok, fd_inode_ino in E as [E1 E2].
  destruct (Z.eqb_spec (i_uid n) 0); [|done]. destruct (Z.eqb_spec (Z.land (i_mode n) 18) 0); [|done]. cbn in H. injection H as <- _.
  by exists i, n.
Qed.

(** The directory that is inspected may be used as it is. *)
Definition adoptable (n : inode) (h : host) : Prop :=
  (statToInfo n).(isDir) = true /\ Z.land n.(i_mode) 18 = 0 /\ h.(h_user) = Some n.(i_uid).

Lemma ids_ok h fl x h' fl' : lookupServiceIDs (h, fl) = (Ok x, (h', fl')) -> h' = h /\ h.(h_user) = Some x.1 /\ h.(h_group) = Some x.2.
Proof.
  intros H. unfold lookupServiceIDs, or_fail, syscall, bind, ret in H. destruct fl as [|[] [|[] fl]]; cbn in H;
    destruct (h_group h), (h_user h); cbn in H; try done; injection H as <- <- _; done.
Qed.

Lemma close_each fds : forall h fl, for_each fds closeFdSeam (h, fl)
  = (Ok tt, (set_fds (fold_left (fun l fd => del (fun x => x.1 =? fd) l) fds h.(h_fds)) h, fl)).
Proof.
  induction fds as [|fd fds IH]; intros h fl; cbn [for_each fold_left].
  - unfold ret. by destruct h.
  - unfold bind, closeFdSeam at 1, closeFdReal. by rewrite IH.
Qed.
Lemma close_all {A} fds h fl r h' fl' (msg : string) : close_and_throw (A:=A) fds msg (h, fl) = (r, (h', fl')) ->
  r = Err msg /\ h' = set_fds (fold_left (fun l fd => del (fun x => x.1 =? fd) l) fds h.(h_fds)) h.
Proof. unfold close_and_throw, bind. rewrite close_each. intros [= <- <- _]. done. Qed.

(** What an inspection tells and holds. *)
Definition inspected (path : string) (h h' : host) (r : result dataDirPlan) : Prop :=
  match r with
  | Err _ => h'.(h_fds) = h.(h_fds)
  | Ok p =>
      p.(p_name) = Base path /\ p.(p_path) = path /\ 0 < p.(p_parent) /\
      exists P, match p.(p_status) with
      | dataDirAcceptFresh => p.(p_leaf) = -1 /\ h'.(h_fds) = (p.(p_parent), P) :: h.(h_fds)
      | dataDirAcceptExisting => 0 < p.(p_leaf) /\ exists L, h'.(h_fds) = (p.(p_leaf), L) :: (p.(p_parent), P) :: h.(h_fds)
          /\ meanwhile h h' (fun hm => exists n, hm.(h_inodes) !! L = Some n /\ adoptable n hm)
      end
  end.

Lemma inspect_spec path h fl r h' fl' : distinct h.(h_fds) -> inspectDataDir path (h, fl) = (r, (h', fl')) ->
  calm h h' /\ distinct h'.(h_fds) /\ inspected path h h' r.
Proof.
  intros Hd H. unfold inspectDataDir in H. apply attempt_bind in H as (q & h1 & fl1 & E & H).
  apply opens_parent in E as (C1 & D1 & O1); [|done]. destruct q as [fd|e]; [|by injection H as <- <- _].
  destruct O1 as [Hfd [P O1]].
  assert (forall A h2 fl2 (msg : string), calm h1 h2 -> h2.(h_fds) = h1.(h_fds) -> forall (q : result A), close_and_throw [fd] msg (h2, fl2) = (q, (h', fl')) ->
    calm h h' /\ distinct h'.(h_fds) /\ h'.(h_fds) = h.(h_fds) /\ exists e, q = Err e) as K1.
  { intros A h2 fl2 msg C2 F2 q G. apply close_all in G as [-> ->]. cbn [fold_left]. rewrite F2, O1. rewrite O1 in D1. rewrite (del_head _ _ _ D1). cbn.
    split_and!; [|by eapply distinct_tail|done|by eauto]. etrans; [exact C1|]. etrans; [exact C2|apply calm_set_fds]. }
  apply attempt_bind in H as (q & h2 & fl2 & E2 & H). apply looks_statLeaf in E2 as [C2 F2]. destruct q as [info|e].
  2: { destruct (e =?s ENOENT) in H.
    - apply attempt_bind in H as (q & h3 & fl3 & E3 & H). apply looks_parentSafe in E3 as [C3 F3]. destruct q as [[]|e3].
      + injection H as <- <- _. split; [etrans; [exact C1|by etrans]|]. rewrite F3, F2. split; [done|]. unfold inspected. cbn.
        split_and!; [done|done|done|]. exists P. by rewrite F3, F2.
      + apply K1 in H as (A & B & F & e' & ->); [done|by etrans|congruence].
    - apply K1 in H as (A & B & F & e' & ->); done. }
  destruct (isSymlink info) in H; [apply K1 in H as (A & B & F & e' & ->); done|].
  apply attempt_bind in H as (q & h3 & fl3 & E3 & H). rewrite <- F2 in D1. apply opens_at in E3 as (C3 & D3 & O3); [|done].
  assert (calm h h3) as C by (etrans; [exact C1|by etrans]).
  destruct q as [leaf|e]; [|apply K1 in H as (A & B & F & e' & ->); [done|by etrans|congruence]].
  destruct O3 as [Hl [L O3]]. rewrite F2, O1 in O3. clear K1.
  assert (forall h4 fl4 (msg : string), calm h3 h4 -> h4.(h_fds) = h3.(h_fds) -> close_and_throw [fd; leaf] msg (h4, fl4) = (r, (h', fl')) ->
    calm h h' /\ distinct h'.(h_fds) /\ inspected path h h' r) as K.
  { intros h4 fl4 msg C4 F4 G. apply close_all in G as [-> ->]. cbn [fold_left]. rewrite F4, O3. rewrite O3 in D3.
    assert (del (fun x => x.1 =? leaf) (del (fun x => x.1 =? fd) ((leaf, L) :: (fd, P) :: h_fds h)) = h_fds h) as ->.
    { assert (leaf <> fd) as Hn by (destruct D3 as [N _]; cbn in N; apply NoDup_cons in N as [N _]; intros ->; apply N; by left).
      pose proof (del_head fd P _ (distinct_tail _ _ D3)) as E4. unfold del in *. cbn [List.filter fst] in *.
      destruct (Z.eqb_spec leaf fd); [done|]. cbn [negb]. rewrite E4. apply (del_head leaf L). split.
      - destruct D3 as [N _]. cbn in N |- *. apply NoDup_cons in N as [N1 N2]. apply NoDup_cons in N2 as [_ N2]. constructor; [|done]. intros K. apply N1. by right.
      - destruct D3 as [_ N]. apply Forall_cons in N as [N1 N2]. apply Forall_cons in N2 as [_ N2]. by constructor. }
    split_and!; [|by eapply distinct_tail, distinct_tail|done]. etrans; [exact C|]. etrans; [exact C4|apply calm_set_fds]. }
  apply attempt_bind in H as (q & h4 & fl4 & E4 & H). pose proof E4 as S4. apply looks_fstatLeaf in E4 as [C4 F4].
  destruct q as [linfo|e]; [|by eapply K]. apply fstatLeaf_ok in S4 as (j & n & S4 & ->). apply fd_inode_ino in S4 as [S4 N4].
  erewrite fd_ino_head in S4 by (rewrite F4; exact O3). injection S4 as <-.
  destruct (isDir (statToInfo n)) eqn:Hdir; cbn [negb] in H; [|by eapply K].
  destruct (Z.eqb_spec (Z.land (l_mode (statToInfo n)) 18) 0) as [Hm|]; cbn [negb] in H; [|by eapply K].
  apply attempt_bind in H as (q & h5 & fl5 & E5 & H). unfold serviceUID in E5.
  assert (calm h4 h5 /\ h5.(h_fds) = h4.(h_fds) /\ (forall u, q = Ok u -> h5 = h4 /\ h4.(h_user) = Some u)) as (C5 & F5 & U5).
  { apply bind_inv in E5 as [(x & h6 & fl6 & E5 & G)|(e & E5 & ->)].
    - apply ids_ok in E5 as (-> & U & _). injection G as <- <- _. split_and!; [done|done|]. by intros u [= <-].
    - apply looks_ids in E5 as [A B]. done. }
  destruct q as [uid|e]; [|by eapply K; [etrans; [exact C4|exact C5]|congruence|]].
  destruct (U5 uid eq_refl) as [-> Hu]. clear U5 C5 F5.
  destruct (Z.eqb_spec (l_uid (statToInfo n)) uid) as [Ho|]; cbn [negb] in H; [|by eapply K].
  apply attempt_bind in H as (q & h6 & fl6 & E6 & H). apply looks_parentSafe in E6 as [C6 F6].
  destruct q as [[]|e]; [|by eapply K; [etrans; [exact C4|exact C6]|congruence|]].
  injection H as <- <- _. split_and!; [etrans; [exact C|by etrans]|by rewrite F6, F4|].
  unfold inspected. cbn. split_and!; [done|done|done|]. exists P. split; [done|]. exists L. rewrite F6, F4, O3. split; [done|].
  exists h4. split_and!; [by etrans|done|]. exists n. split; [done|]. unfold adoptable. split_and!; [done|done|]. cbn in Ho. by rewrite Ho.
Qed.

(** *** Creating the leaf *)

(** The directory [P], guarded, holds the guarded inode [i] under [name]. *)
Definition holds (P : Z) (name : string) (i : Z) (h : host) : Prop :=
  exists es u g m n, h.(h_inodes) !! P = Some (mk_inode (KDir es) u g m) /\ guarded (mk_inode (KDir es) u g m)
    /\ es !! name = Some i /\ h.(h_inodes) !! i = Some n /\ guarded n.
Lemma calm_holds P name i h h' : Forall unprivileged h.(h_others) -> calm h h' -> holds P name i h -> holds P name i h'.
Proof.
  intros Ho [_ _ C] (es & u & g & m & n & H1 & H2 & H3 & H4 & H5). destruct (C Ho) as [_ K].
  exists es, u, g, m, n. split_and!; [by apply K|done|done|by apply K|done].
Qed.

(** We have changed something, and others perhaps as well. *)
Record acted (c : change) (h h' : host) : Prop := mk_acted {
  acted_trace : h'.(h_trace) = (h.(h_trace) ++ [c])%list;
  acted_ids : h'.(h_group) = h.(h_group) /\ h'.(h_user) = h.(h_user);
  acted_others : Forall unprivileged h.(h_others) -> Forall unprivileged h'.(h_others);
  acted_fds : h'.(h_fds) = h.(h_fds) }.

Lemma fd_inode_calm fd h h' i n : Forall unprivileged h.(h_others) -> calm h h' -> h'.(h_fds) = h.(h_fds) ->
  fd_ino fd h = Some i -> h.(h_inodes) !! i = Some n -> guarded n -> fd_inode fd h' = Some (i, n).
Proof.
  intros Ho C F Hf Hi Hg. unfold fd_inode. replace (fd_ino fd h') with (Some i) by (unfold fd_ino in *; by rewrite F). cbn.
  destruct (calm_others _ _ C Ho) as [_ K]. by rewrite (K _ _ Hg Hi).
Qed.
Lemma interfere_inode fd h i n : Forall unprivileged h.(h_others) -> fd_ino fd h = Some i -> h.(h_inodes) !! i = Some n -> guarded n ->
  fd_inode fd (interfere h) = Some (i, n).
Proof. intros Ho Hf Hi Hg. apply (fd_inode_calm fd h); [done|apply calm_interfere|apply interfere_fds|done|done|done]. Qed.

Lemma mkdir_inv fd name h fl r h' fl' P n : Forall unprivileged h.(h_others) -> fd_ino fd h = Some P -> h.(h_inodes) !! P = Some n -> guarded n ->
  mkdirAtLeafReal fd name (h, fl) = (r, (h', fl')) ->
  match r with
  | Err _ => calm h h' /\ h'.(h_fds) = h.(h_fds)
  | Ok _ => exists i, acted (Made P name i) h h' /\ holds P name i h' /\ P <> i
  end.
Proof.
  intros Ho Hf HP Hg H. apply sys_inv in H as [[-> ->]|H]; [done|]. pose proof (calm_interfere h) as C.
  pose proof (interfere_inode fd h P n Ho Hf HP Hg) as E. pose proof (interfere_fds h) as Ff.
  destruct (calm_others _ _ C Ho) as [Ho' K]. pose proof (K _ _ Hg HP) as HP'.
  destruct (lookup_at fd name (interfere h)) as [x|e]; [by injection H as <- <-|]. rewrite E in H. destruct n as [[es|t|] u g m]; [|by injection H as <- <-..].
  cbv zeta in H. injection H as <- <-. set (i := fresh_id _).
  assert (P <> i) as Hn.
  { intros e'. apply (fresh_id_notin (map fst (map_to_list (h_inodes (interfere h))))). fold i. rewrite <- e'. apply in_map_iff.
    exists (P, mk_inode (KDir es) u g m). split; [done|]. apply list_elem_of_In, elem_of_map_to_list. exact HP'. }
  exists i. split; [|split; [|done]].
  - destruct C as [C1 C2 _]. split; cbn; [by rewrite C1|done|done|done].
  - exists (<[name := i]> es), u, g, m. cbn [h_inodes did set_inodes]. eexists. split_and!.
    + by rewrite lookup_insert_ne, lookup_insert_eq.
    + exact Hg.
    + by rewrite lookup_insert_eq.
    + by rewrite lookup_insert_eq.
    + split; [done|]. cbn. rewrite Z.land_lor_distr_l. change (Z.land 448 18) with 0. rewrite Z.lor_0_l, <- Z.land_assoc.
      change (Z.land 1024 18) with 0. apply Z.land_0_r.
Qed.

Lemma open_held fd name h fl r h' fl' P i : distinct h.(h_fds) -> Forall unprivileged h.(h_others) -> fd_ino fd h = Some P -> holds P name i h ->
  openAtLeafReal fd name (h, fl) = (r, (h', fl')) ->
  calm h h' /\ distinct h'.(h_fds) /\ match r with Ok nfd => h'.(h_fds) = (nfd, i) :: h.(h_fds) | Err _ => h'.(h_fds) = h.(h_fds) end.
Proof.
  intros Hd Ho Hf Hh H. pose proof H as H'. apply opens_at in H' as (C & D & O); [|done]. split; [done|]. split; [done|].
  destruct r as [nfd|e]; [|done]. destruct O as [_ [j O]]. rewrite O. do 2 f_equal.
  apply sys_inv in H as [[_ ?]|H]; [done|].
  destruct Hh as (es & u & g & m & n & H1 & H2 & H3 & H4 & H5).
  pose proof (interfere_inode fd h P _ Ho Hf H1 H2) as E. unfold lookup_at in H. rewrite E, H3 in H.
  destruct (calm_others _ _ (calm_interfere h) Ho) as [_ K]. rewrite (K _ _ H5 H4) in H. destruct (i_kind n); [|done|done].
  unfold open_ino in H. injection H as <- <-. cbn in O. rewrite interfere_fds in O. by injection O as ->.
Qed.

Lemma chmod_inv fd h fl r h' fl' i n : Forall unprivileged h.(h_others) -> fd_ino fd h = Some i -> h.(h_inodes) !! i = Some n -> guarded n ->
  fchmodLeafReal fd (h, fl) = (r, (h', fl')) ->
  match r with
  | Err _ => calm h h' /\ h'.(h_fds) = h.(h_fds)
  | Ok _ => acted (ModeSet i 448) h h' /\ exists n', h'.(h_inodes) !! i = Some n' /\ guarded n'
  end.
Proof.
  intros Ho Hf Hi Hg H. apply sys_inv in H as [[-> ->]|H]; [done|]. rewrite (interfere_inode fd h i n) in H by done.
  injection H as <- <-. destruct (calm_interfere h) as [C1 C2 C3]. split.
  - split; cbn; [by rewrite C1|done|by intros; apply C3|apply interfere_fds].
  - cbn. rewrite lookup_insert_eq. eexists. split; [done|]. destruct Hg as [Hg _]. by split.
Qed.

Lemma chown_inv fd h fl r h' fl' i n : Forall unprivileged h.(h_others) -> fd_ino fd h = Some i -> h.(h_inodes) !! i = Some n -> guarded n ->
  fchownLeafReal fd (h, fl) = (r, (h', fl')) ->
  match r with
  | Err _ => calm h h' /\ h'.(h_fds) = h.(h_fds)
  | Ok _ => exists u g, h.(h_user) = Some u /\ h.(h_group) = Some g /\ acted (OwnerSet i u g) h h'
  end.
Proof.
  intros Ho Hf Hi Hg H. apply bind_inv in H as [([u g] & h1 & fl1 & E & H)|(e & E & ->)]; [|by apply looks_ids in E].
  apply ids_ok in E as (-> & Hu & Hgr). apply sys_inv in H as [[-> ->]|H]; [done|]. rewrite (interfere_inode fd h i n) in H by done.
  injection H as <- <-. exists u, g. split_and!; [done|done|]. destruct (calm_interfere h) as [C1 C2 C3].
  split; cbn; [by rewrite C1|done|by intros; apply C3|apply interfere_fds].
Qed.

Definition leaf_change (P : Z) (name : string) (i : Z) (c : change) : Prop :=
  match c with
  | Made p x j => p = P /\ x = name /\ j = i
  | ModeSet j m => j = i /\ m = 448
  | OwnerSet j _ _ => j = i
  | Removed p x => p = P /\ x = name
  end.

Lemma unlink_inv fd name h fl r h' fl' P : fd_ino fd h = Some P -> unlinkAtLeafReal fd name (h, fl) = (r, (h', fl')) ->
  h'.(h_fds) = h.(h_fds) /\ h'.(h_trace) = (h.(h_trace) ++ (match r with Ok _ => [Removed P name] | Err _ => [] end))%list.
Proof.
  intros Hf H. apply sys_inv in H as [[-> ->]|H]; [by rewrite app_nil_r|]. pose proof (interfere_fds h) as F.
  pose proof (calm_trace _ _ (calm_interfere h)) as T.
  assert (forall e : string, h' = interfere h -> r = Err e -> h'.(h_fds) = h.(h_fds) /\ h'.(h_trace) = (h.(h_trace) ++ (match r with Ok _ => [Removed P name] | Err _ => [] end))%list) as K
    by (intros e -> ->; by rewrite app_nil_r).
  destruct (lookup_at fd name (interfere h)) as [[i [[es|t|] u g m]]|e]; [|by injection H as <- <-; eapply K..].
  destruct (fd_inode fd (interfere h)) as [[p [[ps|t|] pu pg pm]]|] eqn:E; [|by injection H as <- <-; eapply K..].
  destruct (2 <? Z.of_nat (size es)); [by injection H as <- <-; eapply K|]. injection H as <- <-.
  assert (p = P) as -> by (apply fd_inode_ino in E as [E _]; unfold fd_ino in E, Hf; rewrite F in E; congruence).
  cbn. by rewrite T.
Qed.

(** How a creation ends: with the three changes in order; or with an error, after
    changes to nothing but the new leaf, which is gone again or said not to be. *)
Definition ended (P : Z) (name : string) (h h' : host) (r : result unit) : Prop :=
  h'.(h_fds) = h.(h_fds) /\ exists added, h'.(h_trace) = (h.(h_trace) ++ added)%list /\
  match r with
  | Ok _ => exists i u g, h.(h_user) = Some u /\ h.(h_group) = Some g /\ P <> i /\ added = [Made P name i; ModeSet i 448; OwnerSet i u g]
  | Err e => added = [] \/ exists i, P <> i /\ Forall (leaf_change P name i) added
      /\ (In (Removed P name) added \/ contains e "partial leaf cleanup incomplete" = true)
  end.

Lemma cleanup_ended fd leaf i name path cause h0 h1 fl1 r h' fl' P added (closed : bool) :
  fd_ino fd h0 = Some P -> distinct h0.(h_fds) -> P <> i ->
  (if closed then h1.(h_fds) = h0.(h_fds) else distinct h1.(h_fds) /\ h1.(h_fds) = (leaf, i) :: h0.(h_fds)) ->
  h1.(h_trace) = (h0.(h_trace) ++ added)%list -> Forall (leaf_change P name i) added ->
  ((if closed then ret tt else closeFdSeam leaf) ;;; cleanupLeafError path cause fd name)%sql (h1, fl1) = (r, (h', fl')) ->
  ended P name h0 h' r.
Proof.
  intros Hf Hd Hn F T Ha H.
  apply bind_inv in H as [([] & h2 & fl2 & E & H)|(e & E & ->)]; [|by destruct closed].
  assert (h2.(h_fds) = h0.(h_fds) /\ h2.(h_trace) = h1.(h_trace)) as [F2 T2].
  { destruct closed; [by injection E as <- _|]. apply close_inv in E as (_ & _ & ->). destruct F as [D F]. cbn. rewrite F. rewrite F in D.
    by rewrite (del_head _ _ _ D). }
  unfold cleanupLeafError in H. apply attempt_bind in H as (q & h3 & fl3 & E3 & H).
  apply (unlink_inv fd name _ _ _ _ _ P) in E3 as [F3 T3]; [|unfold fd_ino in *; by rewrite F2]. injection H as <- <- _.
  split; [congruence|]. exists (added ++ (match q with Ok _ => [Removed P name] | Err _ => [] end))%list.
  rewrite T3, T2, T, <- app_assoc. split; [done|]. right. exists i. split; [done|]. split.
  - apply Forall_app; split; [done|]. destruct q; by repeat constructor.
  - destruct q; [left; apply in_or_app; right; by left|right]. unfold about.
    replace ("data directory " ++ Quote path ++ ": " ++ cause ++ "; partial leaf cleanup incomplete: " ++ e)
      with (("data directory " ++ Quote path ++ ": " ++ cause ++ "; ") ++ "partial leaf cleanup incomplete" ++ (": " ++ e))
      by by rewrite !string_app_assoc. apply contains_app.
Qed.

Lemma acted_added (P : Z) (name : string) h0 h1 h2 c added : h1.(h_trace) = (h0.(h_trace) ++ added)%list -> acted c h1 h2 ->
  h2.(h_trace) = (h0.(h_trace) ++ (added ++ [c]))%list.
Proof. intros T [T2 _ _ _]. by rewrite T2, T, app_assoc. Qed.

Lemma fresh_spec fd name path h fl r h' fl' P : distinct h.(h_fds) -> fd_ino fd h = Some P -> Forall unprivileged h.(h_others) ->
  establishFreshLeaf fd name path (h, fl) = (r, (h', fl')) -> ended P name h h' r.
Proof.
  intros Hd Hf Ho H. unfold establishFreshLeaf in H.
  assert (forall h1 e, calm h h1 -> h1.(h_fds) = h.(h_fds) -> ended P name h h1 (Err e)) as Q.
  { intros h1 e C F. split; [done|]. exists []. rewrite app_nil_r. split; [apply C|by left]. }
  apply attempt_bind in H as (q & h1 & fl1 & E & H). pose proof E as S. apply looks_parentSafe in S as [C1 F1].
  destruct q as [[]|e]; [|injection H as <- <- _; by apply Q]. apply parentSafe_ok in E as (P' & n & Ef & En & Hg).
  assert (P' = P) as -> by (unfold fd_ino in *; rewrite F1 in Ef; congruence). rename Ef into Hf1.
  destruct (calm_others _ _ C1 Ho) as [Ho1 _].
  apply attempt_bind in H as (q & h2 & fl2 & E & H). apply (mkdir_inv _ _ _ _ _ _ _ P n) in E; [|done..].
  destruct q as [[]|e]; [|injection H as <- <- _; apply Q; [by etrans; [|apply E]|by rewrite (proj2 E)]].
  destruct E as (i & A2 & Hh2 & Hn). pose proof (acted_others _ _ _ A2 Ho1) as Ho2. pose proof (acted_fds _ _ _ A2) as F2.
  assert (h2.(h_trace) = (h.(h_trace) ++ [Made P name i])%list) as T2 by (by rewrite (acted_trace _ _ _ A2), (calm_trace _ _ C1)).
  assert (Forall (leaf_change P name i) [Made P name i]) as L2 by by repeat constructor.
  apply attempt_bind in H as (q & h3 & fl3 & E & H).
  apply (open_held _ _ _ _ _ _ _ P i) in E as (C3 & D3 & F3); [|by rewrite F2, F1|done|by unfold fd_ino in *; rewrite F2|done].
  destruct (calm_others _ _ C3 Ho2) as [Ho3 K3].
  destruct q as [leaf|e].
  2: { apply (cleanup_ended fd 0 i name path ("bind created leaf: " ++ e) h h3 fl3 r h' fl' P [Made P name i] true); try done.
       - by rewrite F3, F2, F1.
       - by rewrite (calm_trace _ _ C3). }
  assert (exists n3, h3.(h_inodes) !! i = Some n3 /\ guarded n3) as (n3 & Hi3 & Hg3).
  { destruct Hh2 as (es & u & g & m & n2 & _ & _ & _ & Hi & Hgi). exists n2. split; [by apply K3|done]. }
  assert (fd_ino leaf h3 = Some i) as Hl3 by (by eapply fd_ino_head).
  assert (forall h4 fl4 cause added, distinct h4.(h_fds) -> h4.(h_fds) = h3.(h_fds) -> h4.(h_trace) = (h.(h_trace) ++ added)%list ->
    Forall (leaf_change P name i) added -> (closeFdSeam leaf ;;; cleanupLeafError path cause fd name)%sql (h4, fl4) = (r, (h', fl')) -> ended P name h h' r) as K.
  { intros h4 fl4 cause added D4 F4 T4 L4. apply (cleanup_ended fd leaf i name path cause h h4 fl4 r h' fl' P added false); try done.
    split; [done|]. by rewrite F4, F3, F2, F1. }
  assert (h3.(h_trace) = (h.(h_trace) ++ [Made P name i])%list) as T3 by by rewrite (calm_trace _ _ C3).
  apply attempt_bind in H as (q & h4 & fl4 & E & H). apply looks_fstatLeaf in E as [C4 F4].
  destruct (calm_others _ _ C4 Ho3) as [Ho4 K4]. rewrite <- (calm_trace _ _ C4) in T3. rewrite <- F4 in D3.
  destruct q as [linfo|e]; [|by eapply K].
  destruct (_ || _) in H; [by eapply K|].
  apply attempt_bind in H as (q & h5 & fl5 & E & H).
  apply (chmod_inv _ _ _ _ _ _ i n3) in E; [|done|by unfold fd_ino in *; rewrite F4|by apply K4|done].
  destruct q as [[]|e]; [|destruct E as [C5 F5]; eapply K; [by rewrite F5|congruence|by rewrite (calm_trace _ _ C5)|done|exact H]].
  destruct E as (A5 & n5 & Hi5 & Hg5). pose proof (acted_others _ _ _ A5 Ho4) as Ho5. pose proof (acted_fds _ _ _ A5) as F5.
  pose proof (acted_added P name _ _ _ _ _ T3 A5) as T5. cbn [app] in T5.
  apply attempt_bind in H as (q & h6 & fl6 & E & H).
  apply (chown_inv _ _ _ _ _ _ i n5) in E; [|done|by unfold fd_ino in *; rewrite F5, F4|done|done].
  assert (Forall (leaf_change P name i) [Made P name i; ModeSet i 448]) as L5 by by repeat constructor.
  destruct q as [[]|e]; [|destruct E as [C6 F6]; eapply K; [by rewrite F6, F5|congruence|by rewrite (calm_trace _ _ C6)|exact L5|exact H]].
  destruct E as (u & g & Hu & Hgr & A6). pose proof (acted_fds _ _ _ A6) as F6.
  pose proof (acted_added P name _ _ _ _ _ T5 A6) as T6. cbn [app] in T6.
  assert (Forall (leaf_change P name i) [Made P name i; ModeSet i 448; OwnerSet i u g]) as L6 by by repeat constructor.
  apply attempt_bind in H as (q & h7 & fl7 & E & H). apply looks_fstatLeaf in E as [C7 F7].
  destruct q as [x|e]; [|eapply K; [by rewrite F7, F6, F5|congruence|by rewrite (calm_trace _ _ C7)|exact L6|exact H]].
  apply close_inv in H as (-> & _ & ->). split.
  - cbn. rewrite F7, F6, F5, F4, F3. rewrite F4, F3 in D3. rewrite (del_head _ _ _ D3). congruence.
  - exists [Made P name i; ModeSet i 448; OwnerSet i u g]. cbn. split; [by rewrite (calm_trace _ _ C7)|].
    exists i, u, g. destruct (calm_ids _ _ C1), (acted_ids _ _ _ A2), (calm_ids _ _ C3), (calm_ids _ _ C4), (acted_ids _ _ _ A5).
    split_and!; [congruence|congruence|done|done].
Qed.

Lemma chmod_any fd h fl r h' fl' L : fd_ino fd h = Some L -> fchmodLeafReal fd (h, fl) = (r, (h', fl')) ->
  h'.(h_fds) = h.(h_fds) /\ h'.(h_trace) = (h.(h_trace) ++ (match r with Ok _ => [ModeSet L 448] | Err _ => [] end))%list.
Proof.
  intros Hf H. apply sys_inv in H as [[-> ->]|H]; [by rewrite app_nil_r|]. pose proof (interfere_fds h) as F.
  pose proof (calm_trace _ _ (calm_interfere h)) as T.
  destruct (fd_inode fd (interfere h)) as [[i n]|] eqn:E; injection H as <- <-; [|by rewrite app_nil_r].
  apply fd_inode_ino in E as [E _]. assert (i = L) as -> by (unfold fd_ino in *; rewrite F in E; congruence). cbn. by rewrite T.
Qed.

Lemma plan_close_fds p l1 l2 h fl P : 0 < p.(p_parent) ->
  (p.(p_status) = dataDirAcceptFresh /\ p.(p_leaf) = -1 /\ l1 = [] \/ exists L, 0 < p.(p_leaf) /\ l1 = [(p.(p_leaf), L)]) ->
  distinct h.(h_fds) -> h.(h_fds) = (l1 ++ (p.(p_parent), P) :: l2)%list ->
  (plan_close p (h, fl)).2.1.(h_fds) = l2.
Proof.
  intros Hp Hl Hd F. unfold plan_close, closeFdSeam. destruct (Z.leb_spec 0 (p_parent p)); [|lia].
  destruct Hl as [(_ & E & ->)|(L & E & ->)]; cbn [app] in F; rewrite F in Hd.
  - rewrite E. cbn. rewrite F. by apply (del_head (p_parent p) P).
  - destruct (Z.leb_spec 0 (p_leaf p)); [|lia]. cbn [bind closeFdReal set_fds h_fds]. unfold bind, closeFdReal. cbn [set_fds h_fds]. rewrite F.
    rewrite (del_head _ _ _ Hd). apply (del_head (p_parent p) P). by eapply distinct_tail.
Qed.

(** C18: the installer touches only the data directory it has inspected.  Whatever
    other processes do, an inspection changes nothing; an existing directory is
    then only set to mode 0700, through the descriptor of the very directory that
    was a directory of the service account and not writable by others when it was
    inspected; and a new one is created, set to mode 0700 and given to the account,
    always the same inode, as long as others do not write to directories of root
    that only root may write.  A failure leaves nothing behind or says so.  In the
    end every descriptor is closed again. *)
Theorem only_the_data_dir_is_touched path h fl plan h1 fl1 h2 fl2 r h3 fl3 :
  distinct h.(h_fds) -> inspectDataDir path (h, fl) = (Ok plan, (h1, fl1)) ->
  h2.(h_fds) = h1.(h_fds) -> Forall unprivileged h2.(h_others) -> establishDataDir plan (h2, fl2) = (r, (h3, fl3)) ->
  h1.(h_trace) = h.(h_trace)
  /\ (plan_close plan (h3, fl3)).2.1.(h_fds) = h.(h_fds)
  /\ exists P, fd_ino plan.(p_parent) h1 = Some P /\
     match plan.(p_status) with
     | dataDirAcceptFresh => ended P (Base path) h2 h3 r
     | dataDirAcceptExisting =>
         exists L, fd_ino plan.(p_leaf) h1 = Some L
           /\ meanwhile h h1 (fun hm => exists n, hm.(h_inodes) !! L = Some n /\ adoptable n hm)
           /\ h3.(h_trace) = (h2.(h_trace) ++ (if is_ok r then [ModeSet L 448] else []))%list
     end.
Proof.
  intros Hd Hi F2 Ho H. apply inspect_spec in Hi as (C1 & D1 & En & Ep & Hp & P & Hs); [|done].
  split; [apply C1|]. unfold establishDataDir in H.
  apply bind_inv in H as [(same & h4 & fl4 & E & H)|(e & E & ->)]; apply looks_consistent in E as (C4 & F4 & bb & Eb); try (by rewrite F2); [|done].
  clear bb Eb. rewrite Ep in H. rewrite En in H.
  destruct (p_status plan) eqn:Es.
  - destruct Hs as [Hl Hf]. assert (fd_ino (p_parent plan) h1 = Some P) as HP by (by eapply fd_ino_head).
    assert (ended P (Base path) h2 h3 r) as Hend.
    { destruct same; cbn [negb] in H.
      - apply (fresh_spec _ _ _ _ _ _ _ _ P) in H as (A & added & T & B).
        + split; [by rewrite A, F4|]. exists added. rewrite T, (calm_trace _ _ C4). split; [done|].
          destruct (calm_ids _ _ C4) as [Eg Eu]. rewrite <- Eg, <- Eu. exact B.
        + by rewrite F4, F2.
        + unfold fd_ino in *. by rewrite F4, F2.
        + by apply C4.
      - injection H as <- <- _. split; [done|]. exists []. rewrite app_nil_r. split; [apply C4|by left]. }
    split; [|exists P; split; [done|exact Hend]].
    destruct Hend as [Ff _]. eapply (plan_close_fds plan []); [done|by left|by rewrite Ff, F2|by rewrite Ff, F2, Hf].
  - destruct Hs as (Hl & L & Hf & Hm). assert (fd_ino (p_leaf plan) h1 = Some L) as HL by (by eapply fd_ino_head).
    assert (fd_ino (p_parent plan) h1 = Some P) as HP.
    { unfold fd_ino, find_first. rewrite Hf. cbn [List.find fst]. rewrite Z.eqb_refl. rewrite Hf in D1. destruct D1 as [N _]. cbn in N. apply NoDup_cons in N as [N _].
      destruct (Z.eqb_spec (p_leaf plan) (p_parent plan)) as [e|]; [|done]. exfalso. apply N. rewrite e. by left. }
    assert (h3.(h_fds) = h2.(h_fds) /\ h3.(h_trace) = (h2.(h_trace) ++ (if is_ok r then [ModeSet L 448] else []))%list) as [Ff T].
    { destruct same; cbn [negb] in H; [|injection H as <- <- _; rewrite app_nil_r; split; [done|apply C4]].
      apply attempt_bind in H as (q & h5 & fl5 & E & H). apply (chmod_any _ _ _ _ _ _ L) in E as [F5 T5]; [|unfold fd_ino in *; by rewrite F4, F2].
      rewrite (calm_trace _ _ C4) in T5. destruct q; injection H as <- <- _; rewrite F5, T5, F4; done. }
    split; [|exists P; split; [done|]; exists L; done].
    eapply (plan_close_fds plan [(p_leaf plan, L)]); [done|right; by exists L|by rewrite Ff, F2|by rewrite Ff, F2, Hf].
Qed.

(** ** Witnesses *)

Definition demo_tree (srv : gmap string Z) : inodes :=
  {[1 := mk_inode (KDir {["." := 1; ".." := 1; "srv" := 2]}) 0 0 493; 2 := mk_inode (KDir srv) 0 0 493;
    3 := mk_inode (KDir {["." := 3; ".." := 2]}) 77 77 448; 4 := mk_inode (KDir {["." := 4; ".." := 2]}) 0 0 493]}.
Definition demo_host (srv : gmap string Z) (others : list (inodes -> inodes)) : host :=
  mk_host (demo_tree srv) [] (Some 77) (Some 77) others [].

(** Another process tries to put a directory of its own in place of each new one,
    which a guarded parent does not let it do. *)
Definition demo_swap : inodes -> inodes := fun m =>
  match m !! 2 with
  | Some (mk_inode (KDir es) u g p) =>
      if (u =? 0) && (Z.land p 18 =? 0) then m else <[2 := mk_inode (KDir (<["web" := 3]> es)) u g p]> m
  | _ => m
  end.
Lemma demo_swap_unprivileged : unprivileged demo_swap.
Proof.
  intros m i n Hi [Hg1 Hg2]. unfold demo_swap. destruct (m !! 2) as [[[es| |] u g p]|] eqn:E; [|done..].
  destruct (Z.eqb_spec u 0) as [->|Hu]; destruct (Z.eqb_spec (Z.land p 18) 0) as [Hp|Hp]; cbn [andb]; try done;
    (destruct (decide (i = 2)) as [->|]; [rewrite E in Hi; injection Hi as <-; cbn in *; done|by rewrite lookup_insert_ne]).
Qed.

Definition demo_fresh : host := demo_host {["." := 2; ".." := 1]} (repeat demo_swap 20).
Definition demo_plan : dataDirPlan := mk_plan dataDirAcceptFresh 2 (-1) "web" "/srv/web".
Definition demo_inspected : host := (inspectDataDir "/srv/web" (demo_fresh, [])).2.1.
Definition demo_between : host := let h := demo_inspected in
  mk_host h.(h_inodes) h.(h_fds) h.(h_group) h.(h_user) (repeat demo_swap 20) h.(h_trace).
Definition demo_made : result unit * (host * faults) := establishDataDir demo_plan (demo_between, []).
Lemma outcome {A B C} (x : A * (B * C)) a c : x.1 = a -> x.2.2 = c -> x = (a, (x.2.1, c)).
Proof. destruct x as [? [? ?]]. cbn. by intros -> ->. Qed.
Lemma demo_inspect_eq : inspectDataDir "/srv/web" (demo_fresh, []) = (Ok demo_plan, (demo_inspected, [])).
Proof. apply outcome; vm_compute; reflexivity. Qed.
Lemma demo_made_eq : establishDataDir demo_plan (demo_between, []) = (Ok tt, (demo_made.2.1, [])).
Proof. apply outcome; vm_compute; reflexivity. Qed.

Lemma only_the_data_dir_is_touched_witness :
  demo_inspected.(h_trace) = [] /\ demo_made.2.1.(h_trace) = [Made 2 "web" 5; ModeSet 5 448; OwnerSet 5 77 77].
Proof.
  split; [|vm_compute; reflexivity].
  refine (proj1 (only_the_data_dir_is_touched "/srv/web" demo_fresh [] demo_plan demo_inspected [] demo_between [] (Ok tt) demo_made.2.1 []
    _ demo_inspect_eq eq_refl _ demo_made_eq)).
  - by split; constructor.
  - apply Forall_forall. intros f Hf. apply list_elem_of_In, repeat_spec in Hf as ->. exact demo_swap_unprivileged.
Defined.

(** With a slash at its end the path of a data directory that exists, or that an
    administrator has made for it, is taken for the path of a directory in it. *)
Example slash_moves_the_leaf :
  let h := demo_host {["." := 2; ".." := 1; "web" := 4]} [] in
  (inspectDataDir "/srv/web" (h, [])).1 <> (inspectDataDir "/srv/web/" (h, [])).1
  /\ (inspectDataDir "/srv/web/" (h, [])).1 = Ok (mk_plan dataDirAcceptFresh 3 (-1) "web" "/srv/web/").
Proof. vm_compute. split; [discriminate|reflexivity]. Qed.
