(* ===== verification/Config.v ===== *)
(** The configuration of the process ([internal/config/config.go]) and the choice
    of the database when it is set up ([internal/databasesetup/setup.go]).

    [ParseDuration], [url.Parse], the parsers of addresses and the JSON codec are
    parameters.  The environment is a map from names to values.  The file
    [database.json] is the only file; a write first empties it, and may stop after a part. *)
From S2P Require Import Prelude GoStr GoPath Netguard Geo SqlM DataDir.
Open Scope string_scope.
Open Scope Z_scope.
Open Scope wf_scope.
Open Scope sql_scope.

(** ** Definitions *)

(** [utf8.ValidString]: so many bytes are still to come, the next one between two. *)
Fixpoint utf8_from (need lo hi : nat) (s : string) : bool :=
  match s with
  | EmptyString => (need =? 0)%nat
  | String c s' =>
      let n := nat_of_ascii c in
      let within a b := (a <=? n)%nat && (n <=? b)%nat in
      match need with
      | S k => within lo hi && utf8_from k 128 191 s'
      | O =>
          if (n <? 128)%nat then utf8_from 0 128 191 s'
          else if within 194%nat 223%nat then utf8_from 1 128 191 s'
          else if (n =? 224)%nat then utf8_from 2 160 191 s'
          else if (n =? 237)%nat then utf8_from 2 128 159 s'
          else if within 225%nat 239%nat then utf8_from 2 128 191 s'
          else if (n =? 240)%nat then utf8_from 3 144 191 s'
          else if within 241%nat 243%nat then utf8_from 3 128 191 s'
          else if (n =? 244)%nat then utf8_from 3 128 143 s' else false
      end
  end.
Definition valid_utf8 (s : string) : bool := utf8_from 0 128 191 s.

Abbreviation environ := (gmap string string).
(** [os.Getenv]. *)
Definition Getenv (env : environ) (k : string) : string := match env !! k with Some v => v | None => "" end.
(** The switches that ["1"] or [true] turns on. *)
Definition env_on (env : environ) (k : string) : bool := (Getenv env k =?s "1") || equal_fold (Getenv env k) "true".

Record ReplicationConfig := mk_repl {
  rc_enabled : bool; rc_node : string; rc_listen : string; rc_bootstrap : bool;
  rc_cert : string; rc_key : string; rc_ca : string; rc_insecure : bool }.
Record Config := mk_config {
  cf_data : string; cf_db : string; cf_listen : string; cf_check : Z; cf_crawl : Z; cf_conc : Z; cf_sandbox : string;
  cf_proxies : list prefix; cf_public : string; cf_server_side : bool; cf_geo_url : string; cf_geo_auto : bool; cf_repl : ReplicationConfig }.
Record DatabaseChoice := mk_choice { ch_provider : string; ch_url : string }.

(** What [validatePublicURL] reads of a URL.  It looks neither at [ForceQuery] nor for
    an empty fragment, so a mark with nothing behind it is as good as none. *)
Record origin := mk_origin { or_scheme : string; or_user : bool; or_host : string; or_path : string; or_query : string; or_fragment : string }.

Section Config.
Variable ParseDuration : string -> result Z.
Variable ParseAddr : string -> option addr.
Variable ParsePrefix : string -> option prefix.
Variable parse_url : string -> result origin.
Variable unmarshal : string -> result DatabaseChoice.
Variable marshal : DatabaseChoice -> string.
(** [os.Getwd]. *)
Variable cwd : option string.

Definition Abs (p : string) : option string :=
  if IsAbs p then Some (Clean p) else d ← cwd; Some (Join2 d p).

(** [netip.PrefixFrom(ip, ip.BitLen())]. *)
Definition host_prefix (ip : addr) : prefix := mk_prefix (with_value ip (value ip)) (bit_len ip).
Definition prefix_of (part : string) : result prefix :=
  if has_byte "/" part
  then match ParsePrefix part with Some p => Ok (Masked p) | None => Err ("invalid prefix " ++ Quote part) end
  else match ParseAddr part with Some ip => Ok (host_prefix ip) | None => Err ("invalid address " ++ Quote part) end.
Fixpoint parse_prefixes (parts : list string) : result (list prefix) :=
  match parts with
  | [] => Ok []
  | part :: l =>
      let part := trim_space part in
      if part =?s "" then parse_prefixes l else
      match prefix_of part with
      | Err e => Err e
      | Ok p => match parse_prefixes l with Ok ps => Ok (p :: ps) | Err e => Err e end
      end
  end.
Definition ParsePrefixList (raw : string) : result (list prefix) := parse_prefixes (split_on "," raw).

Definition validatePublicURL (raw : string) : result unit :=
  match parse_url raw with
  | Err e => Err e
  | Ok u =>
      if (negb (u.(or_scheme) =?s "http") && negb (u.(or_scheme) =?s "https")) || (u.(or_host) =?s "") then Err "must be an http(s) origin" else
      if u.(or_user) || (negb (u.(or_path) =?s "") && negb (u.(or_path) =?s "/")) || negb (u.(or_query) =?s "") || negb (u.(or_fragment) =?s "")
      then Err "must not contain a path, query, fragment or credentials" else Ok tt
  end.

(** *** The choice of the database *)

(** [file] is the content of [database.json]; an unreadable one is an error. *)
Definition choice_of (file : result (option string)) : result DatabaseChoice :=
  match file with
  | Err e => Err e
  | Ok None => Ok (mk_choice "sqlite" "")
  | Ok (Some b) =>
      match unmarshal b with
      | Err e => Err e
      | Ok c => Ok (if c.(ch_provider) =?s "" then mk_choice "sqlite" c.(ch_url) else c)
      end
  end.

(** [os.WriteFile] may write the first bytes only before it fails, so many of them. *)
Variable torn : nat.
(** The running process: its accounts, the database it runs on, the file. *)
Record deployment := mk_deployment { dp_users : Z; dp_postgres : bool; dp_file : option string }.
Definition set_file (f : option string) (d : deployment) : deployment := mk_deployment d.(dp_users) d.(dp_postgres) f.
Definition LoadDatabaseChoice : M deployment DatabaseChoice :=
  let* r := attempt (syscall (fun d => (Ok d.(dp_file), d))) in lift (choice_of r).
Definition SaveDatabaseChoice (c : DatabaseChoice) : M deployment unit :=
  if negb (c.(ch_provider) =?s "sqlite") && negb (c.(ch_provider) =?s "postgres") then throw "unsupported database provider" else
  if (c.(ch_provider) =?s "postgres") && (trim_space c.(ch_url) =?s "") then throw "PostgreSQL URL is required" else
  syscall (fun d => (Ok tt, d)) ;;;
  ignore tt (syscall (fun d => (Ok tt, d))) ;;;
  let b := marshal c ++ String nl "" in
  syscall (fun d => (Ok tt, set_file (Some "") d)) ;;;
  syscall (fun d => (Ok tt, set_file (Some (substring 0 torn b)) d)) ;;;
  syscall (fun d => (Ok tt, set_file (Some b) d)).

(** [databasesetup.State]. *)
Record State := mk_state { sel : bool; provider : string; restart : bool }.
Definition StateFor : M deployment State :=
  let* n := query dp_users in
  let* c := LoadDatabaseChoice in
  let chosen := if c.(ch_provider) =?s "" then "sqlite" else c.(ch_provider) in
  let* pg := fun w => (Ok w.1.(dp_postgres), w) in
  let provider := if pg then "postgres" else chosen in
  let sel := (n =? 0) && negb (chosen =?s "postgres") && negb pg in
  ret (mk_state sel provider ((chosen =?s "postgres") && negb pg)).

(** [reach] says whether PostgreSQL can be opened at a URL. *)
Variable reach : string -> result unit.
Definition Apply (prov url : string) : M deployment State :=
  let* state := StateFor in
  if negb state.(sel) then throw "database provider is locked after administrator creation" else
  let prov := to_lower (trim_space prov) in
  if prov =?s "sqlite" then SaveDatabaseChoice (mk_choice "sqlite" "") ;;; ret (mk_state true "sqlite" false) else
  if prov =?s "postgres" then
    if trim_space url =?s "" then throw "PostgreSQL URL is required" else
    lift (reach url) ;;;
    SaveDatabaseChoice (mk_choice "postgres" url) ;;;
    ret (mk_state false "postgres" true)
  else throw "unsupported database provider".

(** *** Loading *)

Definition or_default (v d : string) : string := if v =?s "" then d else v.
Definition duration (env : environ) (k : string) (d : Z) : result Z :=
  let v := Getenv env k in
  if v =?s "" then Ok d else match ParseDuration v with Ok x => Ok x | Err e => Err (k ++ ": " ++ e) end.
Definition concurrency (env : environ) : result Z :=
  let v := Getenv env "WEBFLEET_CHECK_CONCURRENCY" in
  if v =?s "" then Ok 8 else
  match parse_int v with
  | Some n => if (n <? 1) || (128 <? n) then Err "WEBFLEET_CHECK_CONCURRENCY must be 1..128" else Ok n
  | None => Err "WEBFLEET_CHECK_CONCURRENCY must be 1..128"
  end.
Definition sandbox (env : environ) : result string :=
  let v := Getenv env "WEBFLEET_AUDIT_SANDBOX" in
  if v =?s "" then Ok "strict" else
  if negb (v =?s "strict") && negb (v =?s "allow-no-sandbox") then Err "WEBFLEET_AUDIT_SANDBOX must be strict or allow-no-sandbox" else Ok v.
Definition proxies (env : environ) : result (list prefix) :=
  let v := Getenv env "WEBFLEET_TRUSTED_PROXIES" in
  if v =?s "" then Ok [] else match ParsePrefixList v with Ok l => Ok l | Err e => Err ("WEBFLEET_TRUSTED_PROXIES: " ++ e) end.
Definition public_url (env : environ) : result string :=
  let v := Getenv env "WEBFLEET_PUBLIC_URL" in
  if v =?s "" then Ok "" else match validatePublicURL v with Ok _ => Ok (trim_slash v) | Err e => Err ("WEBFLEET_PUBLIC_URL: " ++ e) end.
Definition replication (env : environ) : ReplicationConfig :=
  let g k := Getenv env ("WEBFLEET_REPLICATION_" ++ k) in
  let on k := env_on env ("WEBFLEET_REPLICATION_" ++ k) in
  mk_repl (on "ENABLED") (g "NODE_ID") (g "LISTEN") (on "BOOTSTRAP") (g "TLS_CERT") (g "TLS_KEY") (g "TLS_CA") (on "INSECURE_PLAINTEXT").
Definition check_replication (db : string) (r : ReplicationConfig) : result unit :=
  if negb r.(rc_enabled) then Ok tt else
  if negb (db =?s "") then Err "Webfleet clustering currently requires SQLite" else
  if trim_space r.(rc_listen) =?s "" then Err "WEBFLEET_REPLICATION_LISTEN is required when replication is enabled" else
  if negb r.(rc_insecure) && ((r.(rc_cert) =?s "") || (r.(rc_key) =?s "") || (r.(rc_ca) =?s "")) then Err "replication TLS cert, key and CA are required" else Ok tt.

(** [read] gives the content of [database.json] in a data directory. *)
Definition Load (env : environ) (read : string -> result (option string)) : result Config :=
  match duration env "WEBFLEET_CHECK_INTERVAL" 60000000000 with Err e => Err e | Ok check =>
  match duration env "WEBFLEET_CRAWL_INTERVAL" 21600000000000 with Err e => Err e | Ok crawl =>
  match concurrency env with Err e => Err e | Ok conc =>
  match sandbox env with Err e => Err e | Ok sb =>
  match proxies env with Err e => Err e | Ok px =>
  match public_url env with Err e => Err e | Ok pub =>
  let data := or_default (Getenv env "WEBFLEET_DATA_DIR") "./data" in
  let data := match Abs data with Some d => d | None => data end in
  let db := Getenv env "WEBFLEET_DATABASE_URL" in
  let db := if db =?s ""
            then match choice_of (read data) with Ok c => if c.(ch_provider) =?s "postgres" then c.(ch_url) else db | Err _ => db end
            else db in
  let geo := Getenv env "WEBFLEET_GEOIP_AUTO_UPDATE" in
  let repl := replication env in
  match check_replication db repl with Err e => Err e | Ok _ =>
  Ok (mk_config data db (or_default (Getenv env "WEBFLEET_LISTEN") "127.0.0.1:7336") check crawl conc sb px pub
        (env_on env "WEBFLEET_ANALYTICS_SERVER_SIDE")
        (or_default (Getenv env "WEBFLEET_GEOIP_URL") "https://download.db-ip.com/free/dbip-country-lite.csv.gz")
        (negb ((geo =?s "0") || equal_fold geo "false")) repl)
  end end end end end end end.
End Config.

(** ** Facts *)

Section Addresses.
Context (ParseAddr : string -> option addr) (ParsePrefix : string -> option prefix).
(** The parsers give addresses of their width and prefixes no longer than them. *)
Hypothesis addr_law : forall s ip, ParseAddr s = Some ip -> addr_ok ip.
Hypothesis prefix_law : forall s p, ParsePrefix s = Some p -> addr_ok p.(p_addr) /\ 0 <= p.(p_bits) <= bit_len p.(p_addr).

(** A network: its host bits are zero. *)
Definition network (p : prefix) : Prop := Masked p = p /\ addr_ok p.(p_addr) /\ 0 <= p.(p_bits) <= bit_len p.(p_addr).
(** The address that an entry without a slash stands for. *)
Definition same_addr (a ip : addr) : bool :=
  match a, ip with V4 x, V4 y => x =? y | V6 x _, V6 y z => (x =? y) && (z =?s "") | _, _ => false end.
(** What an entry of the list says of an address. *)
Definition names (part : string) (ip : addr) : bool :=
  if has_byte "/" part
  then match ParsePrefix part with Some p => Contains p ip | None => false end
  else match ParseAddr part with Some a => same_addr a ip | None => false end.

Lemma shift_back n h : 0 <= h -> Z.shiftr (Z.shiftl (Z.shiftr n h) h) h = Z.shiftr n h.
Proof using. intros H. rewrite Z.shiftr_shiftl_l, Z.sub_diag by done. by rewrite Z.shiftl_0_r. Qed.
Lemma contains_masked p ip : 0 <= p.(p_bits) <= bit_len p.(p_addr) -> Contains (Masked p) ip = Contains p ip.
Proof using.
  intros H. unfold Contains, Masked. destruct p as [[n|n z] bits]; cbn [p_addr p_bits value with_value bit_len Is4] in *; destruct ip as [a|a z']; try done;
    rewrite !Z.shiftr_lxor, shift_back by lia; done.
Qed.
Lemma masked_network p : addr_ok p.(p_addr) -> 0 <= p.(p_bits) <= bit_len p.(p_addr) -> network (Masked p).
Proof using.
  intros Ha Hb. unfold network, Masked. destruct p as [[n|n z] bits]; cbn [p_addr p_bits value with_value bit_len Is4 addr_ok] in *;
    (rewrite shift_back by lia; split; [done|split; [|done]]); rewrite Z.shiftr_div_pow2, Z.shiftl_mul_pow2 by lia;
    match goal with |- 0 <= _ / ?k * ?k < _ => assert (0 < k) by (apply Z.pow_pos_nonneg; lia);
      pose proof (Z.mul_div_le n k ltac:(done)); pose proof (Z.div_pos n k ltac:(lia) ltac:(done)) end; nia.
Qed.
Lemma host_network ip : addr_ok ip -> network (host_prefix ip).
Proof using.
  intros H. unfold network, host_prefix, Masked. destruct ip as [n|n z]; cbn [p_addr p_bits value with_value bit_len Is4 addr_ok] in *;
    rewrite Z.sub_diag, Z.shiftr_0_r, Z.shiftl_0_r; split_and!; try done; lia.
Qed.
Lemma host_contains a ip : addr_ok a -> Contains (host_prefix a) ip = same_addr a ip.
Proof using.
  intros H. unfold Contains, host_prefix, same_addr.
  assert (forall x y, (Z.lxor y x =? 0) = (x =? y)) as K.
  { intros x y. apply eq_true_iff_eq. rewrite !Z.eqb_eq, Z.lxor_eq_0_iff. intuition. }
  destruct a as [x|x z], ip as [y|y z']; cbn [p_addr p_bits value with_value bit_len Is4]; rewrite ?Z.sub_diag, ?Z.shiftr_0_r, ?K; try done. apply andb_comm.
Qed.

Lemma prefix_of_spec part p : prefix_of ParseAddr ParsePrefix part = Ok p -> network p /\ forall ip, Contains p ip = names part ip.
Proof using addr_law prefix_law.
  unfold prefix_of, names. destruct (has_byte "/" part).
  - destruct (ParsePrefix part) as [q|] eqn:E; [|done]. intros [= <-]. apply prefix_law in E as [Ha Hb].
    split; [by apply masked_network|]. intros ip. by apply contains_masked.
  - destruct (ParseAddr part) as [a|] eqn:E; [|done]. intros [= <-]. apply addr_law in E.
    split; [by apply host_network|]. intros ip. by apply host_contains.
Qed.
Lemma parse_prefixes_spec parts : forall ps, parse_prefixes ParseAddr ParsePrefix parts = Ok ps ->
  Forall network ps /\ forall ip, existsb (fun p => Contains p ip) ps = existsb (fun part => negb (trim_space part =?s "") && names (trim_space part) ip) parts.
Proof using addr_law prefix_law.
  induction parts as [|part l IH]; intros ps H; cbn [parse_prefixes] in H; [by injection H as <-|]. cbn [existsb].
  destruct (trim_space part =?s ""); [by apply IH|].
  destruct (prefix_of _ _ _) as [p|] eqn:E; [|done]. destruct (parse_prefixes _ _ l) as [qs|]; [|done]. injection H as <-.
  apply prefix_of_spec in E as [N E]. destruct (IH _ eq_refl) as [Ns Es]. split; [by constructor|]. intros ip. cbn. by rewrite E, Es.
Qed.

(** The trusted proxies are those of the list.  When [ParsePrefixList] accepts a
    list, an address is in one of the prefixes exactly when an entry of the list is
    that address or a network around it. *)
Theorem trusted_proxies_are_listed raw ps ip : ParsePrefixList ParseAddr ParsePrefix raw = Ok ps ->
  existsb (fun p => Contains p ip) ps = existsb (fun part => negb (trim_space part =?s "") && names (trim_space part) ip) (split_on "," raw).
Proof using addr_law prefix_law. intros H. by apply parse_prefixes_spec in H as [_ H]. Qed.
End Addresses.

Section Loading.
Context (ParseDuration : string -> result Z) (ParseAddr : string -> option addr) (ParsePrefix : string -> option prefix).
Context (parse_url : string -> result origin) (unmarshal : string -> result DatabaseChoice) (marshal : DatabaseChoice -> string) (torn : nat).
Context (cwd : option string) (reach : string -> result unit).
Hypothesis addr_law : forall s ip, ParseAddr s = Some ip -> addr_ok ip.
Hypothesis prefix_law : forall s p, ParsePrefix s = Some p -> addr_ok p.(p_addr) /\ 0 <= p.(p_bits) <= bit_len p.(p_addr).
Abbreviation Load_ := (Load ParseDuration ParseAddr ParsePrefix parse_url unmarshal cwd).

(** An HTTP origin: nothing but a scheme and a host. *)
Definition is_origin (u : origin) : Prop :=
  (u.(or_scheme) = "http" \/ u.(or_scheme) = "https") /\ u.(or_host) <> "" /\ u.(or_user) = false /\ (u.(or_path) = "" \/ u.(or_path) = "/")
  /\ u.(or_query) = "" /\ u.(or_fragment) = "".
Definition well_formed (c : Config) : Prop :=
  1 <= c.(cf_conc) <= 128
  /\ (c.(cf_sandbox) = "strict" \/ c.(cf_sandbox) = "allow-no-sandbox")
  /\ Forall network c.(cf_proxies)
  /\ (c.(cf_public) = "" \/ exists raw u, parse_url raw = Ok u /\ is_origin u /\ c.(cf_public) = trim_slash raw)
  /\ c.(cf_listen) <> "" /\ c.(cf_data) <> "" /\ c.(cf_geo_url) <> ""
  /\ (c.(cf_repl).(rc_enabled) = true -> c.(cf_db) = "" /\ trim_space c.(cf_repl).(rc_listen) <> ""
        /\ (c.(cf_repl).(rc_insecure) = true \/ c.(cf_repl).(rc_cert) <> "" /\ c.(cf_repl).(rc_key) <> "" /\ c.(cf_repl).(rc_ca) <> "")).

Lemma public_url_spec env v : public_url parse_url env = Ok v -> v = "" \/ exists raw u, parse_url raw = Ok u /\ is_origin u /\ v = trim_slash raw.
Proof using.
  unfold public_url. destruct (Getenv env _ =?s ""); [intros [= <-]; by left|]. unfold validatePublicURL.
  destruct (parse_url _) as [u|] eqn:E; [|done]. destruct (_ || (or_host u =?s "")) eqn:E1; [done|]. destruct (_ || negb (or_fragment u =?s "")) eqn:E2; [done|].
  intros [= <-]. right. eexists _, u. split; [exact E|]. split; [|done]. bool_to_prop.
  unfold is_origin. split_and!; try done; match goal with H : _ && _ = false |- _ => apply andb_false_iff in H as [H|H]; bool_to_prop; solve [tauto] end.
Qed.
Lemma clean_ne p : Clean p <> "".
Proof using. unfold Clean. destruct (IsAbs p); [done|]. by destruct (String.eqb_spec (join "/" (rev (clean_parts false (split_on "/" p) []))) ""). Qed.
Lemma abs_ne p : p <> "" -> Abs cwd p <> Some "".
Proof using.
  intros Hp. unfold Abs. destruct (IsAbs p); [intros [= H]; by apply clean_ne in H|]. destruct cwd as [d|]; [|done]. cbn. unfold Join2.
  apply String.eqb_neq in Hp. rewrite Hp. destruct (d =?s ""); intros [= H]; by apply clean_ne in H.
Qed.
Lemma check_replication_spec db r : check_replication db r = Ok tt -> r.(rc_enabled) = true -> db = "" /\ trim_space r.(rc_listen) <> ""
  /\ (r.(rc_insecure) = true \/ r.(rc_cert) <> "" /\ r.(rc_key) <> "" /\ r.(rc_ca) <> "").
Proof using.
  unfold check_replication. intros H E. rewrite E in H. cbn [negb] in H. destruct (negb (db =?s "")) eqn:E1; [done|].
  destruct (trim_space (rc_listen r) =?s "") eqn:E2; [done|]. destruct (negb (rc_insecure r) && _) eqn:E3; [done|]. bool_to_prop. split_and!; [done|done|].
  apply andb_false_iff in E3 as [E3|E3]; bool_to_prop; [by left|by right].
Qed.
Lemma or_default_ne v d : d <> "" -> or_default v d <> "".
Proof using. intros H. unfold or_default. destruct (String.eqb_spec v ""); done. Qed.

(** C28: a configuration that loads is sound.  The concurrency is between 1 and 128,
    the sandbox mode one of the two, the trusted proxies are networks, the public URL
    is an HTTP origin without a slash at its end; with replication on, the database
    is SQLite, there is an address, and TLS is complete or switched off on purpose. *)
Theorem loaded_config_is_sound env read c : Load_ env read = Ok c -> well_formed c.
Proof using addr_law prefix_law.
  intros H. pose proof abs_ne as Ha. unfold Load in H.
  destruct (duration _ env "WEBFLEET_CHECK_INTERVAL" _) as [check|]; [|done]. destruct (duration _ env "WEBFLEET_CRAWL_INTERVAL" _) as [crawl|]; [|done].
  destruct (concurrency env) as [conc|] eqn:Ec; [|done]. destruct (sandbox env) as [sb|] eqn:Es; [|done].
  destruct (proxies _ _ env) as [px|] eqn:Ep; [|done]. destruct (public_url _ env) as [pub|] eqn:Eu; [|done]. cbv zeta in H.
  destruct (check_replication _ _) as [[]|] eqn:Er; [|done]. injection H as <-.
  unfold well_formed. cbn [cf_conc cf_sandbox cf_proxies cf_public cf_listen cf_data cf_geo_url cf_repl cf_db].
  split_and!.
  1,2: unfold concurrency in Ec; destruct (_ =?s "") in Ec; [injection Ec as <-; lia|]; destruct (parse_int _) as [n|]; [|done];
    destruct ((n <? 1) || (128 <? n)) eqn:E; [done|]; injection Ec as <-; bool_to_prop; lia.
  - unfold sandbox in Es. destruct (_ =?s "") in Es; [injection Es as <-; by left|]. destruct (negb _ && _) eqn:E; [done|]. injection Es as <-.
    rewrite andb_false_iff, !negb_false_iff, !String.eqb_eq in E. done.
  - unfold proxies in Ep. destruct (_ =?s "") in Ep; [by injection Ep as <-|]. destruct (ParsePrefixList _ _ _) as [l|] eqn:E; [|done]. injection Ep as <-.
    by apply parse_prefixes_spec in E as [? _].
  - by eapply public_url_spec.
  - by apply or_default_ne.
  - destruct (Abs cwd _) eqn:E; [intros ->; revert E; by apply Ha, or_default_ne|]. by apply or_default_ne.
  - by apply or_default_ne.
  - intros En. by apply check_replication_spec in Er.
Qed.
(** *** The choice of the database *)

Abbreviation Apply_ := (Apply unmarshal marshal torn reach).
(** PostgreSQL at [url] is what the next start will run on. *)
Definition committed (url : string) (d : deployment) : Prop :=
  exists b, d.(dp_file) = Some b /\ unmarshal b = Ok (mk_choice "postgres" url).

Lemma LoadDatabaseChoice_inv d fl r d' fl' : LoadDatabaseChoice unmarshal (d, fl) = (r, (d', fl')) ->
  d' = d /\ forall c, r = Ok c -> choice_of unmarshal (Ok d.(dp_file)) = Ok c.
Proof using.
  unfold LoadDatabaseChoice. rewrite bind_attempt. unfold syscall. destruct fl as [|[] fl]; cbn -[choice_of].
  1,3: destruct (choice_of _ _) eqn:E; intros [= <- <- _]; split; try done; intros c' [= <-]; done.
  intros [= <- <- _]. done.
Qed.
Lemma StateFor_inv d fl r d' fl' : StateFor unmarshal (d, fl) = (r, (d', fl')) ->
  d' = d /\ forall s, r = Ok s -> s.(sel) = true -> d.(dp_users) = 0 /\ d.(dp_postgres) = false /\ forall url, ~ committed url d.
Proof using.
  unfold StateFor. intros H. unfold bind at 1 in H.
  destruct (query dp_users (d, fl)) as [[n|e] [d1 fl1]] eqn:E1; pose proof (readonly_query _ _ _ _ _ _ E1) as ->; [|by injection H as <- <- _].
  assert (n = d.(dp_users)) as -> by (unfold query, stmt in E1; destruct fl as [|[] fl]; by inversion E1).
  unfold bind at 1 in H. destruct (LoadDatabaseChoice unmarshal (d, fl1)) as [[c|e] [d2 fl2]] eqn:E2;
    pose proof (LoadDatabaseChoice_inv _ _ _ _ _ E2) as [-> Hc]; [|by injection H as <- <- _].
  specialize (Hc c eq_refl). cbv zeta in H. unfold bind in H. cbn [fst] in H. injection H as <- <- _. split; [done|].
  intros s [= <-]. cbn [sel]. intros Hs. bool_to_prop. split_and!; [done|done|]. intros url (b & Eb & Eu).
  unfold choice_of in Hc. rewrite Eb, Eu in Hc. cbn in Hc. injection Hc as <-. done.
Qed.

Lemma Save_inv c d fl d' fl' : SaveDatabaseChoice marshal torn c (d, fl) = (Ok tt, (d', fl')) ->
  d' = set_file (Some (marshal c ++ String nl "")) d.
Proof using.
  unfold SaveDatabaseChoice. destruct (_ && _); [done|]. destruct (_ && _); [done|]. unfold bind, ignore, syscall.
  destruct fl as [|[] [|[] [|[] [|[] [|[] fl]]]]]; cbn; intros H; inversion H; by destruct d.
Qed.
Lemma Apply_inv prov url d fl r d' fl' : Apply_ prov url (d, fl) = (r, (d', fl')) ->
  (is_ok r = false /\ d' = d) \/
  d.(dp_users) = 0 /\ d.(dp_postgres) = false /\ (forall u, ~ committed u d)
  /\ forall s, r = Ok s -> let p := to_lower (trim_space prov) in
       (p = "sqlite" /\ d' = set_file (Some (marshal (mk_choice "sqlite" "") ++ String nl "")) d /\ s = mk_state true "sqlite" false) \/
       (p = "postgres" /\ d' = set_file (Some (marshal (mk_choice "postgres" url) ++ String nl "")) d /\ s = mk_state false "postgres" true).
Proof using.
  unfold Apply. intros H. unfold bind at 1 in H.
  destruct (StateFor unmarshal (d, fl)) as [[s|e] [d1 fl1]] eqn:E1; apply StateFor_inv in E1 as [-> Hs]; [|injection H as <- <- _; by left].
  destruct (negb s.(sel)) eqn:Es; [injection H as <- <- _; by left|]. apply negb_false_iff in Es. destruct (Hs _ eq_refl Es) as (H1 & H2 & H3).
  right. split_and!; [done..|]. intros s' ->. cbv zeta in *. destruct (String.eqb_spec (to_lower (trim_space prov)) "sqlite") as [->|].
  - left. unfold bind in H. destruct (SaveDatabaseChoice _ _ _ _) as [[[]|] [d2 fl2]] eqn:E2; [|done]. apply Save_inv in E2 as ->. by injection H as <- <- _.
  - right. destruct (String.eqb_spec (to_lower (trim_space prov)) "postgres") as [->|]; [|done]. destruct (trim_space url =?s ""); [done|].
    unfold bind in H. destruct (reach url) as [[]|]; [|done]. cbn [lift] in H. unfold ret at 1 in H.
    destruct (SaveDatabaseChoice _ _ _ _) as [[[]|] [d2 fl2]] eqn:E2; [|done]. apply Save_inv in E2 as ->. by injection H as <- <- _.
Qed.

(** The choice of the database is made once.  As soon as an account exists, or the
    process runs on PostgreSQL, or PostgreSQL has been chosen for the next start,
    [Apply] refuses every request and leaves the choice alone, whatever fails. *)
Theorem database_choice_is_locked prov url d fl :
  d.(dp_users) <> 0 \/ d.(dp_postgres) = true \/ (exists u, committed u d) ->
  is_ok (Apply_ prov url (d, fl)).1 = false /\ (Apply_ prov url (d, fl)).2.1 = d.
Proof using.
  intros H. destruct (Apply_ prov url (d, fl)) as [r [d' fl']] eqn:E. apply Apply_inv in E as [[? ->]|(H1 & H2 & H3 & _)]; [done|].
  exfalso. destruct H as [H|[H|[u H]]]; [done|congruence|by apply (H3 u)].
Qed.

(** [encoding/json] gives back texts that are UTF-8. *)
Hypothesis json_law : forall c, valid_utf8 c.(ch_provider) = true -> valid_utf8 c.(ch_url) = true -> unmarshal (marshal c ++ String nl "") = Ok c.

(** C29: the next start runs on the database that was chosen.  After [Apply] has
    succeeded for a URL in UTF-8, a process that loads its configuration from the same
    data directory and can read the file of the choice there, and whose environment does
    not set [WEBFLEET_DATABASE_URL], uses the URL of the choice; and while it has not
    been restarted, the running process says that it has to be and refuses another
    choice. *)
Theorem chosen_database_is_used prov url d fl s d' fl' env read c : Apply_ prov url (d, fl) = (Ok s, (d', fl')) ->
  valid_utf8 url = true -> Load_ env read = Ok c -> Getenv env "WEBFLEET_DATABASE_URL" = "" -> read c.(cf_data) = Ok d'.(dp_file) ->
  c.(cf_db) = (if s.(restart) then url else "")
  /\ s.(restart) = (to_lower (trim_space prov) =?s "postgres")
  /\ (s.(restart) = true -> forall prov' url' fl1, is_ok (Apply_ prov' url' (d', fl1)).1 = false /\ (Apply_ prov' url' (d', fl1)).2.1 = d').
Proof using json_law.
  intros H Hu HL He Hr. apply Apply_inv in H as [[? _]|(_ & _ & _ & H)]; [done|]. specialize (H s eq_refl). cbv zeta in H.
  assert (c.(cf_db) = match choice_of unmarshal (read c.(cf_data)) with Ok c => if c.(ch_provider) =?s "postgres" then c.(ch_url) else "" | Err _ => "" end) as Ed.
  { unfold Load in HL. destruct (duration _ env "WEBFLEET_CHECK_INTERVAL" _); [|done]. destruct (duration _ env "WEBFLEET_CRAWL_INTERVAL" _); [|done].
    destruct (concurrency env); [|done]. destruct (sandbox env); [|done]. destruct (proxies _ _ env); [|done]. destruct (public_url _ env); [|done].
    cbv zeta in HL. destruct (check_replication _ _); [|done]. injection HL as <-. cbn [cf_db cf_data]. by rewrite He, String.eqb_refl. }
  rewrite Ed, Hr. destruct H as [(Ep & -> & ->)|(Ep & -> & ->)]; cbn [dp_file set_file choice_of restart]; rewrite json_law, Ep by done; split_and!; try done.
  intros _ prov' url' fl1. destruct (Apply_ prov' url' (_, fl1)) as [r [d2 fl2]] eqn:E. apply Apply_inv in E as [[? ->]|(_ & _ & H3 & _)]; [done|].
  exfalso. apply (H3 url). eexists. split; [reflexivity|by apply json_law].
Qed.
End Loading.

(** ** Witnesses *)

Definition demo_duration (s : string) : result Z := if s =?s "30s" then Ok 30000000000 else Err ("time: invalid duration " ++ Quote s).
Definition demo_addr (s : string) : option addr := if s =?s "192.0.2.7" then Some (V4 3221225991) else None.
Definition demo_prefix (s : string) : option prefix := if s =?s "10.1.2.3/8" then Some (mk_prefix (V4 167838211) 8) else None.
Definition demo_url (s : string) : result origin :=
  if s =?s "https://fleet.example.org/" then Ok (mk_origin "https" false "fleet.example.org" "/" "" "") else Err "net/url: invalid".
(** A codec: each byte of the provider after an [x], a bar, the URL. *)
Fixpoint demo_encode (p url : string) : string :=
  match p with EmptyString => String "|" url | String c p' => String "x" (String c (demo_encode p' url)) end.
Definition demo_marshal (c : DatabaseChoice) : string := demo_encode c.(ch_provider) c.(ch_url).
Fixpoint drop_last (s : string) : string :=
  match s with EmptyString => "" | String c s' => match s' with EmptyString => "" | _ => String c (drop_last s') end end.
Fixpoint demo_decode (s : string) : result DatabaseChoice :=
  match s with
  | String "|"%char url => Ok (mk_choice "" (drop_last url))
  | String _ (String c s') => match demo_decode s' with Ok d => Ok (mk_choice (String c d.(ch_provider)) d.(ch_url)) | Err e => Err e end
  | _ => Err "unexpected end of JSON input"
  end.

Lemma demo_addr_law s ip : demo_addr s = Some ip -> addr_ok ip.
Proof. unfold demo_addr. destruct (_ =?s _); [|done]. intros [= <-]. cbn. lia. Qed.
Lemma demo_prefix_law s p : demo_prefix s = Some p -> addr_ok p.(p_addr) /\ 0 <= p.(p_bits) <= bit_len p.(p_addr).
Proof. unfold demo_prefix. destruct (_ =?s _); [|done]. intros [= <-]. cbn. lia. Qed.
Lemma drop_last_app s c : drop_last (s ++ String c "") = s.
Proof. induction s as [|d s IH]; [done|]. rewrite append_cons. cbn [drop_last]. destruct (s ++ String c "") eqn:E; [by destruct s|by rewrite IH]. Qed.
Lemma demo_json_law c : valid_utf8 c.(ch_provider) = true -> valid_utf8 c.(ch_url) = true -> demo_decode (demo_marshal c ++ String nl "") = Ok c.
Proof.
  destruct c as [p url]. intros _ _. unfold demo_marshal. cbn [ch_provider ch_url]. induction p as [|a p IH].
  - cbn [demo_encode]. rewrite append_cons. cbn [demo_decode]. by rewrite drop_last_app.
  - cbn [demo_encode]. rewrite !append_cons. cbn [demo_decode]. by rewrite IH.
Qed.

Definition demo_env : environ := list_to_map [("WEBFLEET_TRUSTED_PROXIES", "10.1.2.3/8, 192.0.2.7"); ("WEBFLEET_PUBLIC_URL", "https://fleet.example.org/");
  ("WEBFLEET_CHECK_INTERVAL", "30s"); ("WEBFLEET_REPLICATION_ENABLED", "TRUE"); ("WEBFLEET_REPLICATION_LISTEN", ":7400"); ("WEBFLEET_REPLICATION_INSECURE_PLAINTEXT", "1")].
Definition demo_load (env : environ) (file : result (option string)) : result Config :=
  Load demo_duration demo_addr demo_prefix demo_url demo_decode (Some "/opt") env (fun p => if p =?s "/opt/data" then file else Err ENOENT).
Definition demo_config : Config := mk_config "/opt/data" "" "127.0.0.1:7336" 30000000000 21600000000000 8 "strict"
  [mk_prefix (V4 167772160) 8; mk_prefix (V4 3221225991) 32] "https://fleet.example.org" false "https://download.db-ip.com/free/dbip-country-lite.csv.gz" true
  (mk_repl true "" ":7400" false "" "" "" true).

Lemma trusted_proxies_are_listed_witness :
  existsb (fun p => Contains p (V4 184549375)) [mk_prefix (V4 167772160) 8] = true.
Proof. exact (trusted_proxies_are_listed demo_addr demo_prefix demo_addr_law demo_prefix_law " 10.1.2.3/8,," [mk_prefix (V4 167772160) 8] (V4 184549375) eq_refl). Defined.
Lemma loaded_config_is_sound_witness : well_formed demo_url demo_config.
Proof.
  exact (loaded_config_is_sound demo_duration demo_addr demo_prefix demo_url demo_decode (Some "/opt") demo_addr_law demo_prefix_law
    demo_env (fun p => if p =?s "/opt/data" then Ok None else Err ENOENT) demo_config eq_refl).
Defined.

Definition demo_fresh_deployment : deployment := mk_deployment 0 false None.
Definition demo_chosen : result State * (deployment * faults) :=
  Apply demo_decode demo_marshal 12 (fun _ => Ok tt) " Postgres" "postgres://db" (demo_fresh_deployment, []).
Lemma database_choice_is_locked_witness :
  is_ok (Apply demo_decode demo_marshal 12 (fun _ => Ok tt) "sqlite" "" (mk_deployment 1 false None, [])).1 = false.
Proof. refine (proj1 (database_choice_is_locked demo_decode demo_marshal 12 (fun _ => Ok tt) "sqlite" "" (mk_deployment 1 false None) [] _)). by left. Defined.
Lemma chosen_database_is_used_witness : match demo_load ∅ (Ok demo_chosen.2.1.(dp_file)) with Ok c => c.(cf_db) = "postgres://db" | Err _ => False end.
Proof.
  refine (proj1 (chosen_database_is_used demo_duration demo_addr demo_prefix demo_url demo_decode demo_marshal 12 (Some "/opt") (fun _ => Ok tt) demo_json_law
    " Postgres" "postgres://db" demo_fresh_deployment [] (mk_state false "postgres" true) demo_chosen.2.1 []
    ∅ (fun p => if p =?s "/opt/data" then Ok demo_chosen.2.1.(dp_file) else Err ENOENT)
    (mk_config "/opt/data" "postgres://db" "127.0.0.1:7336" 60000000000 21600000000000 8 "strict" [] "" false
      "https://download.db-ip.com/free/dbip-country-lite.csv.gz" true (mk_repl false "" "" false "" "" "" false)) _ _ _ _ _)); vm_compute; reflexivity.
Defined.

(** A choice that cannot be read, for example because the process was stopped while
    it was written, is passed over: the next start uses SQLite. *)
Example unreadable_choice_is_ignored :
  (let d := (Apply demo_decode demo_marshal 12 (fun _ => Ok tt) "postgres" "postgres://db" (demo_fresh_deployment, [false; false; false; false; false; false; true])).2.1 in
   d.(dp_file) = Some "xpxoxsxtxgxr" /\ match demo_load ∅ (Ok d.(dp_file)) with Ok c => c.(cf_db) = "" | Err _ => False end)
  /\ match demo_load ∅ (Err EIO) with Ok c => c.(cf_db) = "" | Err _ => False end.
Proof. vm_compute. done. Qed.
