(* ===== verification/Schema.v ===== *)
(** The schema of the database as the migrations of [internal/store/store.go] make
    it: the statements, as texts, and their form for PostgreSQL. *)
From S2P Require Import Prelude GoStr.
Open Scope string_scope.
Open Scope Z_scope.
Open Scope wf_scope.

(** ** Definitions *)

Record migration := mk_migration { mg_version : Z; mg_name : string; mg_stmts : list string }.

(** The migrations up to the roles, and the later ones. *)
Definition base_migrations : list migration := [
  mk_migration 1 "application foundation" [
    "CREATE TABLE _webfleet_schema_migrations(version INTEGER PRIMARY KEY, name TEXT NOT NULL, applied_at TEXT NOT NULL);";
    "CREATE TABLE organizations(id INTEGER PRIMARY KEY, name TEXT NOT NULL, created_at TEXT NOT NULL);";
    "INSERT INTO organizations(name,created_at) VALUES('My Web Fleet', datetime('now'));";
    "CREATE TABLE app_events(id INTEGER PRIMARY KEY, kind TEXT NOT NULL, message TEXT NOT NULL, created_at TEXT NOT NULL);"];
  mk_migration 2 "first administrator authentication" [
    "CREATE TABLE users(id INTEGER PRIMARY KEY, email TEXT NOT NULL UNIQUE, password_hash TEXT NOT NULL, role TEXT NOT NULL, created_at TEXT NOT NULL);";
    "CREATE TABLE sessions(id INTEGER PRIMARY KEY, token_hash BLOB NOT NULL UNIQUE, user_id INTEGER NOT NULL REFERENCES users(id) ON DELETE CASCADE, csrf_token TEXT NOT NULL, expires_at TEXT NOT NULL, created_at TEXT NOT NULL);";
    "CREATE TABLE audit_events(id INTEGER PRIMARY KEY, kind TEXT NOT NULL, detail TEXT NOT NULL DEFAULT '', created_at TEXT NOT NULL);"];
  mk_migration 3 "sites and groups" [
    "CREATE TABLE groups(id INTEGER PRIMARY KEY, organization_id INTEGER NOT NULL DEFAULT 1 REFERENCES organizations(id), name TEXT NOT NULL, created_at TEXT NOT NULL, UNIQUE(organization_id,name));";
    "CREATE TABLE sites(id INTEGER PRIMARY KEY, organization_id INTEGER NOT NULL REFERENCES organizations(id), name TEXT NOT NULL, primary_url TEXT NOT NULL, enabled INTEGER NOT NULL DEFAULT 1, group_id INTEGER REFERENCES groups(id) ON DELETE SET NULL, archived_at TEXT, created_at TEXT NOT NULL, updated_at TEXT NOT NULL);";
    "CREATE INDEX sites_name_idx ON sites(name);";
    "CREATE INDEX sites_group_idx ON sites(group_id);"];
  mk_migration 4 "http monitoring" [
    "CREATE TABLE monitors(id INTEGER PRIMARY KEY, site_id INTEGER NOT NULL REFERENCES sites(id) ON DELETE CASCADE, kind TEXT NOT NULL DEFAULT 'http', timeout_ms INTEGER NOT NULL DEFAULT 10000, expected_min INTEGER NOT NULL DEFAULT 200, expected_max INTEGER NOT NULL DEFAULT 399, created_at TEXT NOT NULL);";
    "CREATE UNIQUE INDEX monitors_site_kind_idx ON monitors(site_id,kind);";
    "INSERT INTO monitors(site_id,kind,timeout_ms,expected_min,expected_max,created_at) SELECT id,'http',10000,200,399,datetime('now') FROM sites;";
    "CREATE TABLE check_results(id INTEGER PRIMARY KEY, site_id INTEGER NOT NULL REFERENCES sites(id) ON DELETE CASCADE, monitor_id INTEGER NOT NULL REFERENCES monitors(id) ON DELETE CASCADE, ok INTEGER NOT NULL, status_code INTEGER NOT NULL DEFAULT 0, latency_ms INTEGER NOT NULL DEFAULT 0, final_url TEXT NOT NULL DEFAULT '', error_class TEXT NOT NULL DEFAULT '', error TEXT NOT NULL DEFAULT '', checked_at TEXT NOT NULL);";
    "CREATE INDEX check_results_site_time_idx ON check_results(site_id,checked_at DESC);"];
  mk_migration 5 "fleet health" [
    "CREATE TABLE site_health(site_id INTEGER PRIMARY KEY REFERENCES sites(id) ON DELETE CASCADE, state TEXT NOT NULL DEFAULT 'unknown', consecutive_failures INTEGER NOT NULL DEFAULT 0, last_check_id INTEGER REFERENCES check_results(id) ON DELETE SET NULL, last_change_at TEXT NOT NULL, last_success_at TEXT, last_failure_at TEXT);";
    "INSERT INTO site_health(site_id,state,last_change_at) SELECT id,'unknown',datetime('now') FROM sites;"];
  mk_migration 6 "incidents and alerts" [
    "CREATE TABLE incidents(id INTEGER PRIMARY KEY, site_id INTEGER NOT NULL REFERENCES sites(id) ON DELETE CASCADE, state TEXT NOT NULL, summary TEXT NOT NULL, opened_at TEXT NOT NULL, closed_at TEXT, acknowledged_at TEXT);";
    "CREATE INDEX incidents_site_time_idx ON incidents(site_id,opened_at DESC);";
    "CREATE TABLE alert_policies(id INTEGER PRIMARY KEY, organization_id INTEGER NOT NULL DEFAULT 1 REFERENCES organizations(id), name TEXT NOT NULL, transport TEXT NOT NULL, enabled INTEGER NOT NULL DEFAULT 1, created_at TEXT NOT NULL);";
    "INSERT INTO alert_policies(organization_id,name,transport,enabled,created_at) VALUES(1,'Dashboard alerts','in_app',1,datetime('now'));";
    "CREATE TABLE alert_deliveries(id INTEGER PRIMARY KEY, incident_id INTEGER NOT NULL REFERENCES incidents(id) ON DELETE CASCADE, site_id INTEGER NOT NULL REFERENCES sites(id) ON DELETE CASCADE, transport TEXT NOT NULL, kind TEXT NOT NULL, status TEXT NOT NULL, created_at TEXT NOT NULL);"];
  mk_migration 7 "tls observations" [
    "CREATE TABLE tls_observations(id INTEGER PRIMARY KEY, site_id INTEGER NOT NULL REFERENCES sites(id) ON DELETE CASCADE, valid INTEGER NOT NULL, hostname_valid INTEGER NOT NULL, issuer TEXT NOT NULL DEFAULT '', subject TEXT NOT NULL DEFAULT '', serial TEXT NOT NULL DEFAULT '', not_before TEXT NOT NULL DEFAULT '', not_after TEXT NOT NULL DEFAULT '', days_remaining INTEGER NOT NULL DEFAULT 0, error_class TEXT NOT NULL DEFAULT '', error TEXT NOT NULL DEFAULT '', checked_at TEXT NOT NULL);";
    "CREATE INDEX tls_observations_site_idx ON tls_observations(site_id,id DESC);"];
  mk_migration 8 "dns observations" [
    "CREATE TABLE dns_observations(id INTEGER PRIMARY KEY, site_id INTEGER NOT NULL REFERENCES sites(id) ON DELETE CASCADE, a_records TEXT NOT NULL DEFAULT '', aaaa_records TEXT NOT NULL DEFAULT '', cname TEXT NOT NULL DEFAULT '', status TEXT NOT NULL, changed INTEGER NOT NULL DEFAULT 0, error TEXT NOT NULL DEFAULT '', checked_at TEXT NOT NULL);";
    "CREATE INDEX dns_observations_site_idx ON dns_observations(site_id,id DESC);"];
  mk_migration 9 "headers and redirects" [
    "CREATE TABLE header_expectations(id INTEGER PRIMARY KEY, site_id INTEGER NOT NULL REFERENCES sites(id) ON DELETE CASCADE, name TEXT NOT NULL, required INTEGER NOT NULL DEFAULT 1, UNIQUE(site_id,name));";
    "INSERT INTO header_expectations(site_id,name,required) SELECT id,'Content-Security-Policy',1 FROM sites;";
    "INSERT INTO header_expectations(site_id,name,required) SELECT id,'Strict-Transport-Security',1 FROM sites;";
    "INSERT INTO header_expectations(site_id,name,required) SELECT id,'X-Content-Type-Options',1 FROM sites;";
    "INSERT INTO header_expectations(site_id,name,required) SELECT id,'Referrer-Policy',1 FROM sites;";
    "CREATE TABLE http_observations(id INTEGER PRIMARY KEY, site_id INTEGER NOT NULL REFERENCES sites(id) ON DELETE CASCADE, check_id INTEGER NOT NULL REFERENCES check_results(id) ON DELETE CASCADE, redirect_chain TEXT NOT NULL DEFAULT '[]', headers_json TEXT NOT NULL DEFAULT '{}', missing_headers TEXT NOT NULL DEFAULT '', changed INTEGER NOT NULL DEFAULT 0, observed_at TEXT NOT NULL);";
    "CREATE INDEX http_observations_site_idx ON http_observations(site_id,id DESC);"];
  mk_migration 10 "crawl and link health" [
    "CREATE TABLE crawl_runs(id INTEGER PRIMARY KEY, site_id INTEGER NOT NULL REFERENCES sites(id) ON DELETE CASCADE, status TEXT NOT NULL, pages_crawled INTEGER NOT NULL DEFAULT 0, internal_links INTEGER NOT NULL DEFAULT 0, external_links INTEGER NOT NULL DEFAULT 0, broken_internal INTEGER NOT NULL DEFAULT 0, broken_external INTEGER NOT NULL DEFAULT 0, new_broken INTEGER NOT NULL DEFAULT 0, robots_found INTEGER NOT NULL DEFAULT 0, sitemap_found INTEGER NOT NULL DEFAULT 0, error TEXT NOT NULL DEFAULT '', started_at TEXT NOT NULL, finished_at TEXT);";
    "CREATE INDEX crawl_runs_site_idx ON crawl_runs(site_id,id DESC);";
    "CREATE TABLE crawl_pages(id INTEGER PRIMARY KEY, run_id INTEGER NOT NULL REFERENCES crawl_runs(id) ON DELETE CASCADE, site_id INTEGER NOT NULL REFERENCES sites(id) ON DELETE CASCADE, url TEXT NOT NULL, status_code INTEGER NOT NULL DEFAULT 0, depth INTEGER NOT NULL DEFAULT 0, error TEXT NOT NULL DEFAULT '');";
    "CREATE INDEX crawl_pages_run_idx ON crawl_pages(run_id);";
    "CREATE TABLE crawl_links(id INTEGER PRIMARY KEY, run_id INTEGER NOT NULL REFERENCES crawl_runs(id) ON DELETE CASCADE, site_id INTEGER NOT NULL REFERENCES sites(id) ON DELETE CASCADE, from_url TEXT NOT NULL, to_url TEXT NOT NULL, kind TEXT NOT NULL, status_code INTEGER NOT NULL DEFAULT 0, broken INTEGER NOT NULL DEFAULT 0, error TEXT NOT NULL DEFAULT '');";
    "CREATE INDEX crawl_links_run_idx ON crawl_links(run_id);"];
  mk_migration 11 "performance history" [
    "ALTER TABLE check_results ADD COLUMN response_bytes INTEGER NOT NULL DEFAULT 0;";
    "CREATE TABLE performance_baselines(site_id INTEGER PRIMARY KEY REFERENCES sites(id) ON DELETE CASCADE, baseline_latency_ms INTEGER NOT NULL DEFAULT 0, baseline_response_bytes INTEGER NOT NULL DEFAULT 0, sample_count INTEGER NOT NULL DEFAULT 0, updated_at TEXT NOT NULL);"];
  mk_migration 12 "manual browser audits" [
    "CREATE TABLE audit_settings(site_id INTEGER PRIMARY KEY REFERENCES sites(id) ON DELETE CASCADE, history_enabled INTEGER NOT NULL DEFAULT 0, pages_json TEXT NOT NULL DEFAULT '[]', updated_at TEXT NOT NULL);";
    "CREATE TABLE audit_runs(id INTEGER PRIMARY KEY, site_id INTEGER NOT NULL REFERENCES sites(id) ON DELETE CASCADE, status TEXT NOT NULL, performance_score INTEGER NOT NULL DEFAULT 0, accessibility_score INTEGER NOT NULL DEFAULT 0, best_practices_score INTEGER NOT NULL DEFAULT 0, discoverability_score INTEGER NOT NULL DEFAULT 0, findings_json TEXT NOT NULL DEFAULT '[]', duration_ms INTEGER NOT NULL DEFAULT 0, audited_url TEXT NOT NULL DEFAULT '', error TEXT NOT NULL DEFAULT '', created_at TEXT NOT NULL);";
    "CREATE INDEX audit_runs_site_idx ON audit_runs(site_id,id DESC);"];
  mk_migration 13 "analytics property and tracker" [
    "CREATE TABLE analytics_properties(id INTEGER PRIMARY KEY, site_id INTEGER NOT NULL UNIQUE REFERENCES sites(id) ON DELETE CASCADE, public_key TEXT NOT NULL UNIQUE, enabled INTEGER NOT NULL DEFAULT 1, allowed_origin TEXT NOT NULL, created_at TEXT NOT NULL);";
    "CREATE TABLE analytics_events(id INTEGER PRIMARY KEY, property_id INTEGER NOT NULL REFERENCES analytics_properties(id) ON DELETE CASCADE, kind TEXT NOT NULL, path TEXT NOT NULL DEFAULT '/', referrer TEXT NOT NULL DEFAULT '', visitor_key TEXT NOT NULL DEFAULT '', user_agent_class TEXT NOT NULL DEFAULT '', country TEXT NOT NULL DEFAULT '', payload_json TEXT NOT NULL DEFAULT '{}', occurred_at TEXT NOT NULL);";
    "CREATE INDEX analytics_events_property_time_idx ON analytics_events(property_id,occurred_at DESC);"];
  mk_migration 14 "analytics rollups" [
    "CREATE TABLE analytics_daily(property_id INTEGER NOT NULL REFERENCES analytics_properties(id) ON DELETE CASCADE, day TEXT NOT NULL, pageviews INTEGER NOT NULL DEFAULT 0, visitors INTEGER NOT NULL DEFAULT 0, PRIMARY KEY(property_id,day));";
    "CREATE TABLE analytics_daily_visitors(property_id INTEGER NOT NULL REFERENCES analytics_properties(id) ON DELETE CASCADE, day TEXT NOT NULL, visitor_key TEXT NOT NULL, PRIMARY KEY(property_id,day,visitor_key));"];
  mk_migration 15 "analytics goals" [
    "CREATE TABLE analytics_goals(id INTEGER PRIMARY KEY, property_id INTEGER NOT NULL REFERENCES analytics_properties(id) ON DELETE CASCADE, name TEXT NOT NULL, event_kind TEXT NOT NULL, path_match TEXT NOT NULL DEFAULT '', created_at TEXT NOT NULL, UNIQUE(property_id,name));"];
  mk_migration 16 "retention and maintenance" [
    "CREATE TABLE maintenance_settings(id INTEGER PRIMARY KEY, check_days INTEGER NOT NULL DEFAULT 90, analytics_raw_days INTEGER NOT NULL DEFAULT 30, audit_days INTEGER NOT NULL DEFAULT 180, updated_at TEXT NOT NULL);";
    "INSERT INTO maintenance_settings(id,check_days,analytics_raw_days,audit_days,updated_at) VALUES(1,90,30,180,CURRENT_TIMESTAMP);"];
  mk_migration 17 "persistent analytics secret" [
    "CREATE TABLE app_settings(key TEXT PRIMARY KEY, value TEXT NOT NULL, updated_at TEXT NOT NULL);"];
  mk_migration 18 "organizations and rbac" [
    "CREATE TABLE organization_memberships(organization_id INTEGER NOT NULL REFERENCES organizations(id) ON DELETE CASCADE, user_id INTEGER NOT NULL REFERENCES users(id) ON DELETE CASCADE, role TEXT NOT NULL CHECK(role IN ('owner','admin','operator','viewer')), created_at TEXT NOT NULL, PRIMARY KEY(organization_id,user_id));";
    "INSERT INTO organization_memberships(organization_id,user_id,role,created_at) SELECT 1,id,'owner',CURRENT_TIMESTAMP FROM users;";
    "CREATE TABLE security_audit(id INTEGER PRIMARY KEY, actor_user_id INTEGER REFERENCES users(id) ON DELETE SET NULL, organization_id INTEGER REFERENCES organizations(id) ON DELETE SET NULL, action TEXT NOT NULL, target TEXT NOT NULL DEFAULT '', detail TEXT NOT NULL DEFAULT '', created_at TEXT NOT NULL);"]].
Definition later_migrations : list migration := [
  mk_migration 19 "api tokens" [
    "CREATE TABLE api_tokens(id INTEGER PRIMARY KEY, user_id INTEGER NOT NULL REFERENCES users(id) ON DELETE CASCADE, organization_id INTEGER NOT NULL REFERENCES organizations(id) ON DELETE CASCADE, name TEXT NOT NULL, token_hash TEXT NOT NULL UNIQUE, prefix TEXT NOT NULL, scopes TEXT NOT NULL, last_used_at TEXT, revoked_at TEXT, created_at TEXT NOT NULL);"];
  mk_migration 20 "oidc configuration" [
    "CREATE TABLE oidc_config(id INTEGER PRIMARY KEY, issuer TEXT NOT NULL, client_id TEXT NOT NULL, client_secret TEXT NOT NULL, enabled INTEGER NOT NULL DEFAULT 0, auto_provision INTEGER NOT NULL DEFAULT 0, updated_at TEXT NOT NULL);";
    "CREATE TABLE oidc_states(state TEXT PRIMARY KEY, nonce TEXT NOT NULL, expires_at TEXT NOT NULL);"];
  mk_migration 21 "deployment observations" [
    "CREATE TABLE deployment_events(id INTEGER PRIMARY KEY, site_id INTEGER NOT NULL REFERENCES sites(id) ON DELETE CASCADE, provider TEXT NOT NULL, external_id TEXT NOT NULL DEFAULT '', revision TEXT NOT NULL DEFAULT '', environment TEXT NOT NULL DEFAULT 'production', status TEXT NOT NULL DEFAULT 'deployed', url TEXT NOT NULL DEFAULT '', metadata_json TEXT NOT NULL DEFAULT '{}', deployed_at TEXT NOT NULL, received_at TEXT NOT NULL, UNIQUE(site_id,provider,external_id));";
    "CREATE INDEX deployment_events_site_time_idx ON deployment_events(site_id,deployed_at DESC);"];
  mk_migration 22 "notification integrations" [
    "CREATE TABLE notification_webhooks(id INTEGER PRIMARY KEY, organization_id INTEGER NOT NULL REFERENCES organizations(id) ON DELETE CASCADE, name TEXT NOT NULL, url TEXT NOT NULL, secret TEXT NOT NULL, enabled INTEGER NOT NULL DEFAULT 1, created_at TEXT NOT NULL);";
    "CREATE TABLE notification_deliveries(id INTEGER PRIMARY KEY, webhook_id INTEGER NOT NULL REFERENCES notification_webhooks(id) ON DELETE CASCADE, event_kind TEXT NOT NULL, status TEXT NOT NULL, attempts INTEGER NOT NULL DEFAULT 0, response_code INTEGER NOT NULL DEFAULT 0, error TEXT NOT NULL DEFAULT '', created_at TEXT NOT NULL, delivered_at TEXT);"];
  mk_migration 23 "site tags" [
    "CREATE TABLE site_tags(site_id INTEGER NOT NULL REFERENCES sites(id) ON DELETE CASCADE, tag TEXT NOT NULL, PRIMARY KEY(site_id,tag));";
    "CREATE INDEX site_tags_tag_idx ON site_tags(tag);"];
  mk_migration 24 "webhook outbox payloads" [
    "ALTER TABLE notification_deliveries ADD COLUMN payload_json TEXT NOT NULL DEFAULT '{}';"];
  mk_migration 25 "oidc browser binding" [
    "ALTER TABLE oidc_states ADD COLUMN browser TEXT NOT NULL DEFAULT '';"];
  mk_migration 26 "scheduler job leases" [
    "CREATE TABLE job_leases(lease_kind TEXT NOT NULL, resource_id INTEGER NOT NULL, owner TEXT NOT NULL, expires_at TEXT NOT NULL, created_at TEXT NOT NULL, PRIMARY KEY(lease_kind, resource_id));"];
  mk_migration 27 "scheduler due claims" [
    "CREATE TABLE scheduler_claims(claim_kind TEXT NOT NULL, site_id INTEGER NOT NULL, next_due_at TEXT NOT NULL, owner TEXT NOT NULL DEFAULT '', generation INTEGER NOT NULL DEFAULT 0, lease_until TEXT NOT NULL DEFAULT '', PRIMARY KEY(claim_kind, site_id));"];
  mk_migration 28 "deployment idempotency partial index" [
    "ALTER TABLE deployment_events RENAME TO deployment_events_old;";
    "CREATE TABLE deployment_events(id INTEGER PRIMARY KEY, site_id INTEGER NOT NULL REFERENCES sites(id) ON DELETE CASCADE, provider TEXT NOT NULL, external_id TEXT NOT NULL DEFAULT '', revision TEXT NOT NULL DEFAULT '', environment TEXT NOT NULL DEFAULT 'production', status TEXT NOT NULL DEFAULT 'deployed', url TEXT NOT NULL DEFAULT '', metadata_json TEXT NOT NULL DEFAULT '{}', deployed_at TEXT NOT NULL, received_at TEXT NOT NULL);";
    "INSERT INTO deployment_events(id,site_id,provider,external_id,revision,environment,status,url,metadata_json,deployed_at,received_at) SELECT id,site_id,provider,external_id,revision,environment,status,url,metadata_json,deployed_at,received_at FROM deployment_events_old;";
    "DROP TABLE deployment_events_old;";
    "CREATE INDEX deployment_events_site_time_idx ON deployment_events(site_id,deployed_at DESC);";
    "CREATE UNIQUE INDEX deployment_events_idem_idx ON deployment_events(site_id,provider,external_id) WHERE external_id <> '';"];
  mk_migration 29 "crawl result transparency" [
    "ALTER TABLE crawl_runs ADD COLUMN pages_discovered INTEGER NOT NULL DEFAULT 0;";
    "ALTER TABLE crawl_runs ADD COLUMN page_limit INTEGER NOT NULL DEFAULT 0;";
    "ALTER TABLE crawl_runs ADD COLUMN limit_reached INTEGER NOT NULL DEFAULT 0;";
    "ALTER TABLE crawl_runs ADD COLUMN sitemap_urls_discovered INTEGER NOT NULL DEFAULT 0;";
    "ALTER TABLE crawl_runs ADD COLUMN current_url TEXT NOT NULL DEFAULT '';"];
  mk_migration 30 "crawl site inventory" [
    "ALTER TABLE crawl_runs ADD COLUMN pages_failed INTEGER NOT NULL DEFAULT 0;";
    "ALTER TABLE crawl_runs ADD COLUMN css_files INTEGER NOT NULL DEFAULT 0;";
    "ALTER TABLE crawl_runs ADD COLUMN javascript_files INTEGER NOT NULL DEFAULT 0;";
    "ALTER TABLE crawl_runs ADD COLUMN image_files INTEGER NOT NULL DEFAULT 0;";
    "ALTER TABLE crawl_runs ADD COLUMN font_files INTEGER NOT NULL DEFAULT 0;";
    "ALTER TABLE crawl_runs ADD COLUMN media_files INTEGER NOT NULL DEFAULT 0;";
    "ALTER TABLE crawl_runs ADD COLUMN document_files INTEGER NOT NULL DEFAULT 0;";
    "ALTER TABLE crawl_runs ADD COLUMN data_feed_files INTEGER NOT NULL DEFAULT 0;";
    "ALTER TABLE crawl_runs ADD COLUMN other_asset_files INTEGER NOT NULL DEFAULT 0;";
    "ALTER TABLE crawl_pages ADD COLUMN kind TEXT NOT NULL DEFAULT 'page';";
    "ALTER TABLE crawl_pages ADD COLUMN asset_class TEXT NOT NULL DEFAULT '';";
    "ALTER TABLE crawl_pages ADD COLUMN origin TEXT NOT NULL DEFAULT 'internal';";
    "ALTER TABLE crawl_pages ADD COLUMN ok INTEGER NOT NULL DEFAULT 1;"];
  mk_migration 31 "audit progress + analytics country" [
    "ALTER TABLE audit_runs ADD COLUMN started_at TEXT NOT NULL DEFAULT '';"];
  mk_migration 32 "instance launcher" [
    "CREATE TABLE launcher_instances(id TEXT PRIMARY KEY, position INTEGER NOT NULL, name TEXT NOT NULL, domain TEXT NOT NULL, port INTEGER);"];
  mk_migration 33 "gantry cluster membership" [
    "CREATE TABLE cluster_identity(singleton INTEGER PRIMARY KEY CHECK(singleton=1), node_id TEXT NOT NULL UNIQUE, installation_id TEXT NOT NULL UNIQUE, display_name TEXT NOT NULL DEFAULT '', public_endpoint TEXT NOT NULL DEFAULT '', public_key BLOB NOT NULL, private_key BLOB NOT NULL, capabilities_json TEXT NOT NULL, protocol_version INTEGER NOT NULL, product_version TEXT NOT NULL DEFAULT '', created_at TEXT NOT NULL);";
    "CREATE TABLE cluster_members(node_id TEXT PRIMARY KEY, installation_id TEXT NOT NULL UNIQUE, display_name TEXT NOT NULL DEFAULT '', public_endpoint TEXT NOT NULL, public_key BLOB NOT NULL, capabilities_json TEXT NOT NULL, protocol_version INTEGER NOT NULL, product_version TEXT NOT NULL DEFAULT '', state TEXT NOT NULL CHECK(state IN ('active','disabled','revoked')), outbound_secret TEXT NOT NULL, inbound_secret_hash BLOB NOT NULL, credential_version INTEGER NOT NULL DEFAULT 1, created_at TEXT NOT NULL, paired_at TEXT NOT NULL, last_seen_at TEXT, last_latency_ms INTEGER, revoked_at TEXT);";
    "CREATE TABLE cluster_invitations(id TEXT PRIMARY KEY, token_hash BLOB NOT NULL UNIQUE, state TEXT NOT NULL, created_at TEXT NOT NULL, expires_at TEXT NOT NULL, used_at TEXT);";
    "CREATE TABLE cluster_nonces(node_id TEXT NOT NULL REFERENCES cluster_members(node_id) ON DELETE CASCADE, nonce TEXT NOT NULL, seen_at TEXT NOT NULL, PRIMARY KEY(node_id,nonce));";
    "CREATE INDEX cluster_nonces_seen ON cluster_nonces(seen_at);"];
  mk_migration 34 "cluster pairing lifecycle" [
    "CREATE TABLE cluster_join_requests(id TEXT PRIMARY KEY, request_secret_hash BLOB NOT NULL UNIQUE, invitation_id TEXT NOT NULL REFERENCES cluster_invitations(id), node_id TEXT NOT NULL, installation_id TEXT NOT NULL, display_name TEXT NOT NULL DEFAULT '', public_endpoint TEXT NOT NULL, public_key BLOB NOT NULL, capabilities_json TEXT NOT NULL DEFAULT '[]', protocol_version INTEGER NOT NULL, product_version TEXT NOT NULL DEFAULT '', credential_for_local TEXT NOT NULL, state TEXT NOT NULL, expires_at TEXT NOT NULL, created_at TEXT NOT NULL, decided_at TEXT, response_consumed_at TEXT);";
    "CREATE TABLE cluster_outbound_joins(id TEXT PRIMARY KEY, remote_url TEXT NOT NULL, request_id TEXT NOT NULL, request_secret TEXT NOT NULL, local_inbound_credential TEXT NOT NULL, state TEXT NOT NULL, created_at TEXT NOT NULL, updated_at TEXT NOT NULL, last_error TEXT NOT NULL DEFAULT '');"];
  mk_migration 35 "propagation profiles and history" [
    "CREATE TABLE propagation_profiles(id TEXT PRIMARY KEY, name TEXT NOT NULL, selector_json TEXT NOT NULL, kinds_json TEXT NOT NULL, mode TEXT NOT NULL, schedule TEXT NOT NULL DEFAULT '', maintenance_window TEXT NOT NULL DEFAULT '', enabled INTEGER NOT NULL DEFAULT 1, created_at TEXT NOT NULL, updated_at TEXT NOT NULL);";
    "CREATE TABLE propagation_history(id TEXT PRIMARY KEY, plan_id TEXT NOT NULL, actor TEXT NOT NULL, target TEXT NOT NULL, status TEXT NOT NULL, applied INTEGER NOT NULL DEFAULT 0, failed INTEGER NOT NULL DEFAULT 0, rolled_back INTEGER NOT NULL DEFAULT 0, detail TEXT NOT NULL DEFAULT '', created_at TEXT NOT NULL);";
    "CREATE INDEX propagation_history_created_idx ON propagation_history(created_at DESC);"];
  mk_migration 36 "propagation scheduling state" [
    "ALTER TABLE propagation_profiles ADD COLUMN last_run_at TEXT;"];
  mk_migration 37 "cluster pending inbound rotation" [
    "ALTER TABLE cluster_members ADD COLUMN pending_inbound_secret_hash BLOB";
    "ALTER TABLE cluster_members ADD COLUMN pending_inbound_expires_at TEXT"];
  mk_migration 38 "cluster outbound rotation overlap" [
    "ALTER TABLE cluster_members ADD COLUMN previous_outbound_secret TEXT"];
  mk_migration 39 "user username" [
    "ALTER TABLE users ADD COLUMN username TEXT";
    "UPDATE users SET username = CASE WHEN instr(email,'@')>0 THEN substr(email,1,instr(email,'@')-1) ELSE email END WHERE username IS NULL OR trim(username)=''"];
  mk_migration 40 "replicated fleet configuration identities" [
    "ALTER TABLE groups ADD COLUMN cluster_id TEXT";
    "ALTER TABLE sites ADD COLUMN cluster_id TEXT";
    "CREATE UNIQUE INDEX groups_cluster_id_idx ON groups(cluster_id) WHERE cluster_id IS NOT NULL";
    "CREATE UNIQUE INDEX sites_cluster_id_idx ON sites(cluster_id) WHERE cluster_id IS NOT NULL"]].
Definition migrations : list migration := base_migrations ++ later_migrations.
Definition schemaVersion : Z := 40.

(** [strings.ReplaceAll] of a text that is not empty. *)
Fixpoint replace_all (fuel : nat) (old new s : string) : string :=
  match fuel with
  | O => s
  | S n =>
      match s with
      | EmptyString => ""
      | String c s' =>
          if has_prefix s old then new ++ replace_all n old new (substring (String.length old) (String.length s - String.length old) s)
          else String c (replace_all n old new s')
      end
  end.
Definition ReplaceAll (s old new : string) : string := replace_all (S (String.length s)) old new s.
Definition postgresSQL (q : string) : string :=
  let q := ReplaceAll q "INTEGER PRIMARY KEY" "SERIAL PRIMARY KEY" in
  let q := ReplaceAll q " BLOB " " BYTEA " in
  let q := ReplaceAll q " BLOB" " BYTEA" in
  let q := ReplaceAll q "BLOB " "BYTEA " in
  let q := ReplaceAll q "datetime('now')" "CURRENT_TIMESTAMP" in
  let q := ReplaceAll q "instr(email,'@')" "position('@' in email)" in
  ReplaceAll q "CURRENT_TIMESTAMP" "CURRENT_TIMESTAMP::text".
Definition history_table : string := "CREATE TABLE _webfleet_schema_migrations".

(** ** Facts *)

Lemma migration_versions : map mg_version migrations = map Z.of_nat (seq 1 40).
Proof. reflexivity. Qed.
Lemma migration_count : length migrations = 40%nat.
Proof. reflexivity. Qed.

(** What SQLite alone understands. *)
Definition sqlite_only : list string := ["BLOB"; "datetime("; "instr("; "AUTOINCREMENT"; "INSERT OR "; "PRAGMA"; "strftime("; "WITHOUT ROWID"].
Lemma postgres_statements : forallb (fun m => forallb (fun q => forallb (fun w => negb (contains (postgresSQL q) w)) sqlite_only) m.(mg_stmts)) migrations = true.
Proof. vm_compute. reflexivity. Qed.
