(* ===== verification/Migrations.v ===== *)
(** Opening the database ([internal/store/store.go]): the history of the migrations,
    the version mirror, databases of before the history, and the migrations that are
    still to run, each in a transaction.

    What a statement does to the tables is a parameter, but for the table of the
    history itself.  The fault plan refuses any statement, begin or commit. *)
From S2P Require Import Prelude GoStr GoPath SqlM Schema.
Open Scope string_scope.
Open Scope Z_scope.
Open Scope wf_scope.
Open Scope sql_scope.

(** ** Definitions *)

(** The history rows, [PRAGMA user_version], the marker of old databases: absent, or
    a table [schema_meta] with or without a row; and the other tables. *)
Record sdb (T : Type) := mk_sdb { sd_history : option (list (Z * string)); sd_mirror : Z; sd_legacy : option (option Z); sd_foreign_keys : bool; sd_tables : T }.
Arguments mk_sdb {T} _ _ _ _ _.
Arguments sd_history {T} _.
Arguments sd_mirror {T} _.
Arguments sd_legacy {T} _.
Arguments sd_foreign_keys {T} _.
Arguments sd_tables {T} _.

Section Migrations.
Context {T : Type}.
(** What SQLite makes of a statement: [None] is an error. *)
Variable exec_sql : string -> T -> option T.

Definition set_history (h : option (list (Z * string))) (d : sdb T) : sdb T := mk_sdb h d.(sd_mirror) d.(sd_legacy) d.(sd_foreign_keys) d.(sd_tables).
Definition set_mirror (v : Z) (d : sdb T) : sdb T := mk_sdb d.(sd_history) v d.(sd_legacy) d.(sd_foreign_keys) d.(sd_tables).
Definition set_legacy (l : option (option Z)) (d : sdb T) : sdb T := mk_sdb d.(sd_history) d.(sd_mirror) l d.(sd_foreign_keys) d.(sd_tables).
Definition set_tables (t : T) (d : sdb T) : sdb T := mk_sdb d.(sd_history) d.(sd_mirror) d.(sd_legacy) d.(sd_foreign_keys) t.

Definition create_history (d : sdb T) : option (sdb T) := match d.(sd_history) with None => Some (set_history (Some []) d) | Some _ => None end.
(** The version is the primary key. *)
Definition insert_history (v : Z) (name : string) (d : sdb T) : option (sdb T) :=
  match d.(sd_history) with
  | Some h => if existsb (fun x => x.1 =? v) h then None else Some (set_history (Some (h ++ [(v, name)])%list) d)
  | None => None
  end.
Definition drop_legacy (d : sdb T) : option (sdb T) := match d.(sd_legacy) with Some _ => Some (set_legacy None d) | None => None end.
Definition run_statement (q : string) (d : sdb T) : option (sdb T) :=
  if contains q history_table then create_history d
  else match exec_sql q d.(sd_tables) with Some t => Some (set_tables t d) | None => None end.

(** An error with what was being done. *)
Definition within_step {S A} (what : string) (m : M S A) : M S A := fun w =>
  match m w with (Err e, w') => (Err (what ++ ": " ++ e), w') | r => r end.
Definition transaction {S A} (begin_ commit_ : string) (body : M S A) : M S A := fun '(s, fl) =>
  match fl with
  | true :: fl' => (Err (begin_ ++ "database error"), (s, fl'))
  | _ => match body (s, List.tl fl) with
         | (Err e, (_, fl')) => (Err e, (s, fl'))
         | (Ok a, (s', fl')) =>
             match fl' with
             | true :: fl'' => (Err (commit_ ++ "database error"), (s, fl''))
             | _ => (Ok a, (s', List.tl fl'))
             end
         end
  end.

(** *** Reading the version *)

Definition legacyVersion : M (sdb T) Z :=
  let* l := query sd_legacy in
  match l with
  | None => ret 0
  | Some row =>
      let* v := within_step "read legacy schema version" (let* _ := query sd_legacy in match row with Some v => ret v | None => throw "sql: no rows in result set" end) in
      if (v <? 0) || (schemaVersion <? v) then throw ("legacy database schema " ++ format_int v ++ " is newer than supported " ++ format_int schemaVersion) else ret v
  end.

Definition importLegacyHistory (version : Z) : M (sdb T) unit :=
  transaction "" "commit legacy schema history import: " (
    within_step "create migration history" (exec_opt create_history) ;;;
    for_each (firstn (Z.to_nat version) migrations) (fun m =>
      within_step ("import migration " ++ format_int m.(mg_version)) (exec_opt (insert_history m.(mg_version) m.(mg_name)))) ;;;
    within_step "remove legacy schema marker" (exec_opt drop_legacy) ;;;
    within_step "set schema version mirror" (exec (set_mirror version))).

(** The rows must be the first migrations, in order: the last version. *)
Fixpoint check_history (expected : Z) (ms : list migration) (rows : list (Z * string)) {struct rows} : result Z :=
  match rows with
  | [] => Ok (expected - 1)
  | (got, name) :: rows' =>
      if schemaVersion <? got then Err ("database schema " ++ format_int got ++ " is newer than supported " ++ format_int schemaVersion) else
      if negb (got =? expected) then Err ("database migration history is not contiguous: expected " ++ format_int expected ++ ", found " ++ format_int got) else
      match ms with
      | m :: ms' => if negb (name =?s m.(mg_name)) then Err ("database migration " ++ format_int got ++ " has unexpected name " ++ Quote name)
                    else check_history (expected + 1) ms' rows'
      | [] => Err ""
      end
  end.

Definition by_version (h : list (Z * string)) : list (Z * string) := sort_less (fun a b => a.1 <? b.1) h.
Definition sqliteVersion : M (sdb T) Z :=
  let* h := within_step "inspect migration history" (query sd_history) in
  match h with
  | None =>
      let* legacy := legacyVersion in
      if 0 <? legacy then importLegacyHistory legacy ;;; ret legacy else
      let* mirror := within_step "read schema version mirror" (query sd_mirror) in
      if schemaVersion <? mirror then throw ("database schema " ++ format_int mirror ++ " is newer than supported " ++ format_int schemaVersion) else
      if negb (mirror =? 0) then throw ("database has schema version marker " ++ format_int mirror ++ " but no migration history") else ret 0
  | Some rows =>
      within_step "read migration history" (query (fun _ => tt)) ;;;
      let* version := lift (check_history 1 migrations (by_version rows)) in
      let* mirror := within_step "read schema version mirror" (query sd_mirror) in
      if schemaVersion <? mirror then throw ("database schema " ++ format_int mirror ++ " is newer than supported " ++ format_int schemaVersion) else
      (if (0 <? version) && (mirror =? 0) then within_step "restore schema version mirror" (exec (set_mirror version))
       else if negb (mirror =? version)
       then throw ("database schema version marker " ++ format_int mirror ++ " does not match migration history version " ++ format_int version)
       else ret tt) ;;;
      ret version
  end.

(** *** Migrating *)

Definition apply (m : migration) : M (sdb T) unit :=
  let v := format_int m.(mg_version) in
  transaction ("begin migration " ++ v ++ ": ") ("commit migration " ++ v ++ ": ") (
    for_each m.(mg_stmts) (fun q => within_step ("apply migration " ++ v ++ " (" ++ m.(mg_name) ++ ")") (exec_opt (run_statement q))) ;;;
    within_step ("record migration " ++ v) (exec_opt (insert_history m.(mg_version) m.(mg_name))) ;;;
    within_step ("set schema version " ++ v) (exec (set_mirror m.(mg_version)))).

Definition initialize : M (sdb T) unit :=
  within_step "ping sqlite database" (query (fun _ => tt)) ;;;
  let* fk := or_fail (query sd_foreign_keys) "sqlite foreign keys are not enabled" in
  if negb fk then throw "sqlite foreign keys are not enabled" else
  let* version := sqliteVersion in
  for_each migrations (fun m => if version <? m.(mg_version) then apply m else ret tt).

(** *** PostgreSQL: the same migrations, without the mirror *)

Fixpoint postgres_version (rows : list (Z * string)) (version : Z) : result Z :=
  match rows with
  | [] => Ok version
  | (v, n) :: rows' =>
      match (if (v <? 1) || (Z.of_nat (length migrations) <? v) then None else nth_error migrations (Z.to_nat (v - 1))) with
      | Some m => if negb (m.(mg_name) =?s n) then Err ("postgres migration history mismatch at " ++ format_int v) else postgres_version rows' v
      | None => Err ("postgres migration history mismatch at " ++ format_int v)
      end
  end.
Definition apply_postgres (m : migration) : M (sdb T) unit :=
  transaction "" "" (
    for_each m.(mg_stmts) (fun q =>
      if contains q history_table then ret tt
      else within_step ("apply postgres migration " ++ format_int m.(mg_version)) (exec_opt (run_statement (postgresSQL q)))) ;;;
    exec_opt (insert_history m.(mg_version) m.(mg_name))).
(** [columns] is what the catalog says of the columns with a sequence. *)
Definition syncSerialSequences (columns : T -> list (string * string)) : M (sdb T) unit :=
  let* cols := query (fun d => columns d.(sd_tables)) in
  for_each cols (fun '(table, column) =>
    within_step ("sync serial sequence for " ++ table ++ "." ++ column) (exec_opt (run_statement
      ("SELECT setval(pg_get_serial_sequence('" ++ table ++ "','" ++ column ++ "'), COALESCE(MAX(" ++ column ++ "),1), true) FROM " ++ table)))).
Definition initializePostgres (columns : T -> list (string * string)) : M (sdb T) unit :=
  exec (fun d => match d.(sd_history) with None => set_history (Some []) d | Some _ => d end) ;;;
  let* rows := query (fun d => match d.(sd_history) with Some h => by_version h | None => [] end) in
  let* version := lift (postgres_version rows 0) in
  for_each migrations (fun m => if m.(mg_version) <=? version then ret tt else apply_postgres m) ;;;
  syncSerialSequences columns.

(** [SchemaVersion]. *)
Definition SchemaVersion : M (sdb T) Z :=
  query (fun d => match d.(sd_history) with Some h => List.fold_left (fun acc x => Z.max acc x.1) h 0 | None => 0 end).
End Migrations.

(** *** What the program makes of a database *)

Definition history_rows : list (Z * string) := map (fun m => (m.(mg_version), m.(mg_name))) migrations.
(** The version of a database the program knows: a new one, one of before the
    history, or one whose history is that of the first migrations and whose mirror
    agrees or was lost. *)
Definition recognised {T} (d : sdb T) : option Z :=
  match d.(sd_history) with
  | None =>
      match d.(sd_legacy) with
      | Some None => None
      | Some (Some v) => if (0 <? v) && (v <=? schemaVersion) then Some v else if (v =? 0) && (d.(sd_mirror) =? 0) then Some 0 else None
      | None => if d.(sd_mirror) =? 0 then Some 0 else None
      end
  | Some h =>
      let n := length h in
      if bool_decide (by_version h = firstn n history_rows) && ((d.(sd_mirror) =? Z.of_nat n) || (d.(sd_mirror) =? 0)) then Some (Z.of_nat n) else None
  end.
(** The tables after these migrations. *)
Fixpoint migrate_tables {T} (exec_sql : string -> T -> option T) (qs : list string) (t : T) : option T :=
  match qs with
  | [] => Some t
  | q :: qs' => if contains q history_table then migrate_tables exec_sql qs' t
                else match exec_sql q t with Some t' => migrate_tables exec_sql qs' t' | None => None end
  end.
Definition statements_between (v v' : nat) : list string := concat (map mg_stmts (firstn (v' - v) (skipn v migrations))).

(** ** Facts *)

Section Steps.
Context {S A : Type}.
Lemma within_step_ok what (m : M S A) w a w' : within_step what m w = (Ok a, w') -> m w = (Ok a, w').
Proof. unfold within_step. by destruct (m w) as [[] []]. Qed.
Lemma honest_within_step what (m : M S A) : honest m -> honest (within_step what m).
Proof. intros H s fl a s' fl' E%within_step_ok. unfold within_step. by rewrite (H _ _ _ _ _ E). Qed.
Lemma atomic_within_step what (m : M S A) : atomic m -> atomic (within_step what m).
Proof. intros H s fl e s' fl' E. unfold within_step in E. destruct (m (s, fl)) as [[a|e1] [s1 fl1]] eqn:E1; [done|]. injection E as _ <- _. by eapply H. Qed.
Lemma readonly_within_step what (m : M S A) : readonly m -> readonly (within_step what m).
Proof. intros H s fl r s' fl' E. unfold within_step in E. destruct (m (s, fl)) as [[a|e1] [s1 fl1]] eqn:E1; injection E as _ <- _; by eapply H. Qed.
(** A step that only reads fails, or is passed. *)
Lemma bind_reads {B} (m : M S B) (k : B -> M S A) s fl r s' fl' : bind m k (s, fl) = (r, (s', fl')) -> readonly m ->
  ((exists e, r = Err e) /\ s' = s) \/ exists b fl1, m (s, fl) = (Ok b, (s, fl1)) /\ k b (s, fl1) = (r, (s', fl')).
Proof.
  unfold bind. intros H R. destruct (m (s, fl)) as [[b|e] [s1 fl1]] eqn:E; pose proof (R _ _ _ _ _ E) as ->.
  - right. by exists b, fl1.
  - injection H as <- <- _. left. split; [by exists e|done].
Qed.
Lemma transaction_ok b c (body : M S A) d fl a d' fl' : transaction b c body (d, fl) = (Ok a, (d', fl')) ->
  exists fl1, body (d, List.tl fl) = (Ok a, (d', fl1)) /\ fl' = List.tl fl1.
Proof.
  unfold transaction. destruct fl as [|[] fl]; [|done|]; cbn [List.tl];
    (destruct (body (d, _)) as [[a1|e] [d1 fl1]] eqn:E; [|done]; destruct fl1 as [|[] fl1]; [|done|]; intros [= <- <- <-]; by eexists).
Qed.
Lemma honest_transaction b c (body : M S A) : honest body -> honest (transaction b c body).
Proof. intros H d fl a d' fl' (fl1 & E & _)%transaction_ok. unfold transaction. cbn. by rewrite (H _ _ _ _ _ E). Qed.
Lemma atomic_transaction b c (body : M S A) : atomic (transaction b c body).
Proof.
  intros d fl e d' fl' H. unfold transaction in H. destruct fl as [|[] fl]; [|congruence|];
    (destruct (body (d, _)) as [[a1|e1] [d1 fl1]]; [destruct fl1 as [|[] fl1]|]; congruence).
Qed.
End Steps.

Ltac solve_steps :=
  repeat (intros; first [ apply readonly_within_step | progress solve_readonly | apply honest_within_step | apply honest_transaction | progress solve_honest ]).

Lemma insert_greatest (x : Z * string) l : Forall (fun y => y.1 < x.1) l -> insert_less (fun a b => a.1 <? b.1) x l = (l ++ [x])%list.
Proof. induction 1 as [|y l Hy _ IH]; [done|]. cbn. replace (x.1 <? y.1) with false by lia. by rewrite IH. Qed.
Lemma by_version_snoc h x : Forall (fun y => y.1 < x.1) h -> by_version (h ++ [x]) = (by_version h ++ [x])%list.
Proof.
  intros H. unfold by_version, sort_less. rewrite fold_left_app. cbn. apply insert_greatest.
  apply (Permutation_Forall (Permutation_sym (sort_less_perm _ h)) H).
Qed.

Lemma nth_error_lookup {A} (l : list A) : forall i, nth_error l i = l !! i.
Proof. induction l as [|x l IH]; intros [|i]; try done. apply IH. Qed.

(** Histories. *)
Lemma history_rows_count : length history_rows = 40%nat.
Proof. reflexivity. Qed.
Lemma history_row i m : nth_error migrations i = Some m -> m.(mg_version) = Z.of_nat i + 1 /\ (i < 40)%nat.
Proof.
  intros H. assert (i < 40)%nat by (rewrite <- migration_count; apply nth_error_Some; congruence).
  split; [|done]. pose proof (map_nth_error mg_version i migrations H) as E. rewrite migration_versions in E.
  rewrite nth_error_map, nth_error_seq in E. case_match; [|done]. cbn in E. injection E as <-. lia.
Qed.
Lemma history_take i m : nth_error migrations i = Some m -> firstn (S i) history_rows = (firstn i history_rows ++ [(m.(mg_version), m.(mg_name))])%list.
Proof.
  intros H. unfold history_rows. rewrite !firstn_map. rewrite (take_S_r _ _ m); [by rewrite map_app|].
  by rewrite <- nth_error_lookup.
Qed.
Lemma check_history_spec rows : forall i v, (i <= 40)%nat ->
  check_history (Z.of_nat i + 1) (skipn i migrations) rows = Ok v <-> rows = firstn (length rows) (skipn i history_rows) /\ v = Z.of_nat (i + length rows).
Proof.
  induction rows as [|[got name] rows IH]; intros i v Hi; cbn [check_history length firstn].
  { rewrite Nat.add_0_r. split; [intros [= <-]; split; [done|lia]|intros [_ ->]; f_equal; lia]. }
  destruct (nth_error migrations i) as [m|] eqn:Em.
  - destruct (history_row _ _ Em) as [Hv Hlt].
    assert (skipn i migrations = m :: skipn (S i) migrations) as -> by (apply drop_S; by rewrite <- nth_error_lookup).
    assert (skipn i history_rows = (m.(mg_version), m.(mg_name)) :: skipn (S i) history_rows) as ->.
    { apply drop_S. rewrite <- nth_error_lookup. unfold history_rows. by rewrite nth_error_map, Em. }
    cbn [firstn]. unfold schemaVersion.
    destruct (decide (got = Z.of_nat i + 1)) as [->|Hne].
    + replace (40 <? Z.of_nat i + 1) with false by lia. rewrite Z.eqb_refl. cbn [negb]. destruct (String.eqb_spec name m.(mg_name)) as [->|Hn]; cbn [negb].
      * replace (Z.of_nat i + 1 + 1) with (Z.of_nat (S i) + 1) by lia. rewrite IH by lia. rewrite Hv. split; [intros [E ->]; split; [congruence|lia]|intros [[= E] ->]; split; [done|lia]].
      * split; [done|]. intros [[=] _]. congruence.
    + split; [repeat case_match; try done; lia|]. intros [[=] _]. congruence.
  - apply nth_error_None in Em. rewrite migration_count in Em.
    rewrite (skipn_all2 migrations) by (rewrite migration_count; lia). rewrite (skipn_all2 history_rows) by (rewrite history_rows_count; lia).
    cbn. split; [|by intros [[=] _]]. repeat case_match; done.
Qed.

Section Upgrade.
Context {T : Type}.
Variable exec_sql : string -> T -> option T.
Implicit Types d : sdb T.

(** A database at version [v], nothing to repair. *)
Definition ready (v : nat) d : Prop :=
  d.(sd_mirror) = Z.of_nat v /\ (v <= 40)%nat /\
  match d.(sd_history) with
  | None => v = 0%nat /\ (d.(sd_legacy) = None \/ d.(sd_legacy) = Some (Some 0))
  | Some h => by_version h = firstn v history_rows
  end.

Lemma firstn_rows_length v : (v <= 40)%nat -> length (firstn v history_rows) = v.
Proof. intros H. rewrite length_firstn, history_rows_count. lia. Qed.
Lemma by_version_length h : length (by_version h) = length h.
Proof. apply Permutation_length, sort_less_perm. Qed.
Lemma check_rows h v : check_history 1 migrations (by_version h) = Ok v -> by_version h = firstn (length h) history_rows /\ v = Z.of_nat (length h) /\ (length h <= 40)%nat.
Proof.
  intros H. apply (check_history_spec _ 0) in H as [E ->]; [|lia]. rewrite by_version_length in *. split; [done|]. split; [done|].
  apply (f_equal length) in E. rewrite by_version_length, length_firstn, length_skipn, history_rows_count in E. lia.
Qed.
Lemma rows_check h v : (v <= 40)%nat -> by_version h = firstn v history_rows -> check_history 1 migrations (by_version h) = Ok (Z.of_nat v) /\ length h = v.
Proof.
  intros Hv E. assert (length h = v) as <- by (rewrite <- by_version_length, E; by apply firstn_rows_length).
  split; [|done]. apply (check_history_spec _ 0); [lia|]. by rewrite by_version_length.
Qed.

Lemma ready_version v d : ready v d -> run sqliteVersion d = (Ok (Z.of_nat v), d).
Proof.
  destruct d as [h mi l fk t]. intros (Hm & Hv & Hh). cbn in *. subst mi. unfold run, sqliteVersion. destruct h as [h|].
  - destruct (rows_check _ _ Hv Hh) as [E _]. unfold bind at 1, within_step at 1. cbn -[check_history by_version migrations]. unfold bind, within_step. cbn -[check_history by_version migrations]. rewrite E. cbn. unfold schemaVersion. replace (40 <? Z.of_nat v) with false by lia.
    rewrite Z.eqb_refl. replace ((0 <? Z.of_nat v) && (Z.of_nat v =? 0)) with false; [done|]. clear. by destruct v.
  - destruct Hh as [-> [-> | ->]]; done.
Qed.

Definition import_rows v d : sdb T := mk_sdb (Some (firstn v history_rows)) (Z.of_nat v) None d.(sd_foreign_keys) d.(sd_tables).
Lemma import_loop l : forall d fl u d' fl' h, for_each l (fun m => within_step ("import migration " ++ format_int m.(mg_version)) (exec_opt (insert_history m.(mg_version) m.(mg_name)))) (d, fl) = (Ok u, (d', fl')) ->
  d.(sd_history) = Some h -> d' = set_history (Some (h ++ map (fun m => (m.(mg_version), m.(mg_name))) l)%list) d.
Proof.
  induction l as [|m l IH]; intros d fl u d' fl' h H E; cbn in H.
  { injection H as _ <- _. rewrite app_nil_r. destruct d. cbn in E. by subst. }
  apply bind_ok in H as (? & d1 & fl1 & [H1 _]%within_step_ok%exec_opt_ok & H). unfold insert_history in H1. rewrite E in H1.
  destruct (existsb _ h); [done|]. injection H1 as <-. rewrite (IH _ _ _ _ _ _ H eq_refl). cbn. by rewrite <- app_assoc.
Qed.
Lemma import_ok v d fl u d' fl' : importLegacyHistory v (d, fl) = (Ok u, (d', fl')) -> 0 <= v -> d' = import_rows (Z.to_nat v) d.
Proof.
  intros (fl1 & H & _)%transaction_ok Hv.
  apply bind_ok in H as (? & d1 & ? & [H1 _]%within_step_ok%exec_opt_ok & H). apply bind_ok in H as (? & d2 & ? & H2 & H).
  apply bind_ok in H as (? & d3 & ? & [H3 _]%within_step_ok%exec_opt_ok & [H4 _]%within_step_ok%exec_ok).
  unfold create_history in H1. destruct (sd_history d); [done|]. injection H1 as <-.
  eapply import_loop in H2; [|done]. unfold drop_legacy in H3. destruct (sd_legacy d2); [|done]. injection H3 as <-. subst d2 d'.
  unfold import_rows, set_mirror, set_legacy, set_history, history_rows. cbn -[migrations]. rewrite firstn_map. f_equal. lia.
Qed.

(** What opening finds. *)
Lemma legacy_inv d fl r d' fl' : legacyVersion (d, fl) = (r, (d', fl')) -> d' = d /\
  match r with
  | Ok v => (v = 0 /\ (d.(sd_legacy) = None \/ d.(sd_legacy) = Some (Some 0))) \/ (0 < v <= 40 /\ d.(sd_legacy) = Some (Some v))
  | Err _ => True
  end.
Proof.
  intros H. split.
  { assert (readonly (legacyVersion (T:=T))) as R by (unfold legacyVersion; solve_steps). by eapply R. }
  destruct r as [v|]; [|done]. apply bind_ok in H as (l & d1 & fl1 & (-> & -> & _)%query_ok & H).
  destruct (sd_legacy d) as [row|]; [|left; injection H as <- _ _; auto].
  apply bind_ok in H as (v1 & d2 & fl2 & H1%within_step_ok & H). apply bind_ok in H1 as (? & d3 & fl3 & _ & H1).
  destruct row as [w|]; [|done]. injection H1 as -> _ _. unfold schemaVersion in H. destruct ((v1 <? 0) || (40 <? v1)) eqn:Hb; [done|].
  injection H as <- _ _. destruct (decide (v1 = 0)) as [->|]; [left; auto|right; split; [lia|done]].
Qed.
Lemma by_version_rows v : by_version (firstn v history_rows) = firstn v history_rows.
Proof. do 41 (destruct v as [|v]; [vm_compute; reflexivity|]). vm_compute. reflexivity. Qed.
Lemma import_ready v d : (v <= 40)%nat -> ready v (import_rows v d).
Proof.
  intros Hv. split; [done|]. split; [done|]. cbn -[history_rows]. apply by_version_rows.
Qed.
Lemma version_inv d fl r d' fl' : sqliteVersion (d, fl) = (r, (d', fl')) ->
  match r with
  | Ok v => recognised d = Some v /\ ready (Z.to_nat v) d' /\ 0 <= v /\ d'.(sd_tables) = d.(sd_tables) /\ d'.(sd_foreign_keys) = d.(sd_foreign_keys)
  | Err _ => d' = d
  end.
Proof.
  intros H. unfold sqliteVersion in H. apply bind_reads in H as [[[e ->] ->]|(h & fl1 & (-> & _)%within_step_ok%query_ok & H)]; [done| |solve_steps].
  unfold recognised. destruct (sd_history d) as [h|] eqn:Hh.
  - apply bind_reads in H as [[[e ->] ->]|(u & fl2 & _ & H)]; [done| |solve_steps].
    apply bind_reads in H as [[[e ->] ->]|(v & fl3 & (E & _ & _)%lift_ok & H)]; [done| |destruct (check_history _ _ _); solve_steps].
    apply check_rows in E as (E & -> & Hlen).
    apply bind_reads in H as [[[e ->] ->]|(mi & fl4 & (-> & _)%within_step_ok%query_ok & H)]; [done| |solve_steps].
    rewrite (bool_decide_true _ E). unfold schemaVersion in H. destruct (40 <? sd_mirror d); [by injection H as <- <- _|].
    unfold bind in H. destruct ((0 <? _) && (sd_mirror d =? 0)) eqn:Hr.
    + destruct (within_step _ _ _) as [[u1|e] [d1 fl5]] eqn:Hw; injection H as <- <- _.
      * apply within_step_ok, exec_ok in Hw as [-> _]. replace (sd_mirror d =? 0) with true by lia. rewrite orb_true_r, Nat2Z.id.
        split_and!; try done; try lia. split; [done|]. split; [done|]. cbn -[history_rows]. by rewrite Hh.
      * by apply (atomic_within_step _ _ (atomic_stmt _)) in Hw.
    + destruct (sd_mirror d =? Z.of_nat (length h)) eqn:Hm; cbn in H; injection H as <- <- _; [|done].
      cbn. rewrite Nat2Z.id. split_and!; try done; try lia. split; [lia|]. split; [done|]. by rewrite Hh.
  - apply bind_reads in H as [[[e ->] ->]|(v & fl2 & Hl & H)]; [done| |unfold legacyVersion; solve_steps].
    apply legacy_inv in Hl as [_ Hl]. destruct (0 <? v) eqn:Hv.
    + destruct Hl as [[-> _]|[Hl ->]]; [done|]. unfold bind in H. destruct (importLegacyHistory v (d, fl2)) as [[u|e] [d1 fl3]] eqn:Hi; injection H as <- <- _.
      * eapply import_ok in Hi as ->; [|lia]. unfold schemaVersion. replace ((0 <? v) && (v <=? 40)) with true by lia.
        split_and!; try done; try lia. apply import_ready. lia.
      * by eapply atomic_transaction.
    + destruct Hl as [[-> Hl]|[Hl _]]; [|lia].
      apply bind_reads in H as [[[e ->] ->]|(mi & fl3 & (-> & _)%within_step_ok%query_ok & H)]; [done| |solve_steps].
      destruct (schemaVersion <? sd_mirror d); [by injection H as <- <- _|].
      destruct (sd_mirror d =? 0) eqn:Hm; cbn in H; injection H as <- <- _; [|done].
      split_and!; try done; [by destruct Hl as [-> | ->]|]. split; [cbn; lia|]. split; [lia|]. rewrite Hh. auto.
Qed.

(** *** One migration *)

Lemma statements_ok what qs : forall d fl u d' fl', for_each qs (fun q => within_step what (exec_opt (run_statement exec_sql q))) (d, fl) = (Ok u, (d', fl')) ->
  (d'.(sd_history) = d.(sd_history) \/ d.(sd_history) = None /\ d'.(sd_history) = Some []) /\ d'.(sd_mirror) = d.(sd_mirror) /\
  d'.(sd_foreign_keys) = d.(sd_foreign_keys) /\ migrate_tables exec_sql qs d.(sd_tables) = Some d'.(sd_tables).
Proof.
  induction qs as [|q qs IH]; intros d fl u d' fl' H; cbn [for_each] in H.
  { injection H as _ <- _. cbn. auto. }
  apply bind_ok in H as (? & d1 & fl1 & [H1 _]%within_step_ok%exec_opt_ok & (Hh & -> & -> & Ht)%IH). cbn [migrate_tables].
  unfold run_statement, create_history in H1. destruct (contains q history_table).
  - destruct (sd_history d) eqn:Hd; [done|]. injection H1 as <-. cbn in *. destruct Hh as [Hh|[Hh _]]; [|done]. split; auto.
  - destruct (exec_sql q (sd_tables d)); [|done]. injection H1 as <-. cbn in *. auto.
Qed.
Lemma honest_apply m : honest (apply exec_sql m).
Proof. unfold apply. solve_steps. Qed.
Lemma apply_inv m v d fl r d' fl' : apply exec_sql m (d, fl) = (r, (d', fl')) -> ready v d -> nth_error migrations v = Some m ->
  match r with
  | Ok _ => ready (S v) d' /\ d'.(sd_foreign_keys) = d.(sd_foreign_keys) /\ migrate_tables exec_sql m.(mg_stmts) d.(sd_tables) = Some d'.(sd_tables)
  | Err _ => d' = d
  end.
Proof.
  intros H (Hm & Hv & Hh) Hn. destruct r as [u|e]; [|by eapply atomic_transaction].
  destruct (history_row _ _ Hn) as [Hver Hlt]. apply transaction_ok in H as (fl1 & H & _).
  apply bind_ok in H as (? & d1 & ? & (Hh1 & _ & Hf & Ht)%statements_ok & H).
  apply bind_ok in H as (? & d2 & ? & [H2 _]%within_step_ok%exec_opt_ok & [-> _]%within_step_ok%exec_ok).
  unfold insert_history in H2. destruct (sd_history d1) as [h|] eqn:E1; [|done].
  destruct (existsb _ h); [done|]. injection H2 as <-. cbn -[history_rows firstn by_version]. split; [|done]. split; [cbn; lia|]. split; [lia|].
  cbn -[history_rows firstn by_version]. rewrite (history_take _ _ Hn).
  assert (by_version h = firstn v history_rows) as E.
  { destruct Hh1 as [E|[E [= ->]]]; rewrite <- ?E in Hh; [done|]. rewrite E in Hh. by destruct Hh as [-> _]. }
  rewrite by_version_snoc, E; [done|]. enough (Forall (fun y => y.1 < m.(mg_version)) (by_version h)) as F by exact (Permutation_Forall (sort_less_perm _ h) F). rewrite E, Hver.
  clear -Hlt. apply Forall_forall. intros [w n] Hin%list_elem_of_In. cbn. unfold history_rows in Hin. rewrite firstn_map in Hin.
  apply in_map_iff in Hin as (m1 & [= <- <-] & Hin). apply In_nth_error in Hin as [i Hi].
  assert (i < v)%nat by (apply nth_error_Some_lt in Hi || (assert (i < length (firstn v migrations))%nat by (apply nth_error_Some; congruence); rewrite length_firstn in *; lia)).
  rewrite nth_error_lookup, lookup_take_lt, <- nth_error_lookup in Hi by done. apply history_row in Hi as [-> _]. lia.
Qed.

(** *** The migrations that are left *)

Definition upgrade (v : nat) : M (sdb T) unit := for_each (skipn v migrations) (apply exec_sql).
Lemma skip_done (v : nat) w : (v <= 40)%nat -> for_each migrations (fun m => if Z.of_nat v <? m.(mg_version) then apply exec_sql m else ret tt) w = upgrade v w.
Proof.
  intros Hv. rewrite <- (firstn_skipn v migrations) at 1. rewrite for_each_app. unfold bind.
  assert (forall l, Forall (fun m => m.(mg_version) <= Z.of_nat v) l ->
    for_each l (fun m => if Z.of_nat v <? m.(mg_version) then apply exec_sql m else ret tt) w = (Ok tt, w)) as Hskip.
  { induction 1 as [|m l Hm _ IH]; [done|]. cbn. replace (Z.of_nat v <? mg_version m) with false by lia. apply IH. }
  rewrite Hskip.
  - unfold upgrade. clear Hskip. assert (Forall (fun m => Z.of_nat v < m.(mg_version)) (skipn v migrations)) as Hl.
    { apply Forall_lookup. intros i m Hi. rewrite lookup_drop, <- nth_error_lookup in Hi. apply history_row in Hi. lia. }
    revert w. induction Hl as [|m l Hm _ IH]; intros w; [done|]. cbn. replace (Z.of_nat v <? mg_version m) with true by lia.
    unfold bind. destruct (apply exec_sql m w) as [[[]|] w1]; [apply IH|done].
  - apply Forall_lookup. intros i m Hi. assert (i < v)%nat by (apply lookup_lt_Some in Hi; rewrite length_firstn in Hi; lia).
    rewrite lookup_take_lt, <- nth_error_lookup in Hi by done. apply history_row in Hi. lia.
Qed.
Lemma migrate_app qs1 qs2 t : migrate_tables exec_sql (qs1 ++ qs2)%list t = match migrate_tables exec_sql qs1 t with Some t' => migrate_tables exec_sql qs2 t' | None => None end.
Proof. revert t. induction qs1 as [|q qs1 IH]; intros t; [done|]. cbn. destruct (contains q history_table); [apply IH|]. destruct (exec_sql q t); [apply IH|done]. Qed.
Lemma skipn_migration v : (v < 40)%nat -> exists m, nth_error migrations v = Some m /\ skipn v migrations = m :: skipn (S v) migrations.
Proof.
  intros Hv. destruct (nth_error migrations v) as [m|] eqn:E; [|by apply nth_error_None in E; rewrite migration_count in E; lia].
  exists m. split; [done|]. apply drop_S. by rewrite <- nth_error_lookup.
Qed.
Lemma statements_step v v' m : nth_error migrations v = Some m -> (v < v')%nat -> statements_between v v' = (m.(mg_stmts) ++ statements_between (S v) v')%list.
Proof.
  intros Hn Hv. unfold statements_between. destruct (history_row _ _ Hn) as [_ Hlt]. destruct (skipn_migration v Hlt) as (m1 & Hn1 & ->).
  rewrite Hn in Hn1. injection Hn1 as <-. by replace (v' - v)%nat with (S (v' - S v)) by lia.
Qed.
Lemma statements_none v : statements_between v v = [].
Proof. unfold statements_between. by rewrite Nat.sub_diag. Qed.
Lemma honest_upgrade v : honest (upgrade v).
Proof. apply honest_for_each. apply honest_apply. Qed.

(** Wherever it stops, what is left to do is what was left to do. *)
Lemma upgrade_inv n : forall v d fl r d' fl', (v + n = 40)%nat -> upgrade v (d, fl) = (r, (d', fl')) -> ready v d ->
  exists v', (v <= v' <= 40)%nat /\ ready v' d' /\ d'.(sd_foreign_keys) = d.(sd_foreign_keys) /\
    migrate_tables exec_sql (statements_between v v') d.(sd_tables) = Some d'.(sd_tables) /\ run (upgrade v') d' = run (upgrade v) d /\ (r = Ok tt -> v' = 40%nat).
Proof.
  induction n as [|n IH]; intros v d fl r d' fl' Hn H Hr.
  { replace v with 40%nat in * by lia. injection H as <- <- _. exists 40%nat. rewrite statements_none. split_and!; try done; lia. }
  destruct (skipn_migration v) as (m & Hm & Hs); [lia|]. unfold upgrade in H. rewrite Hs in H. cbn [for_each] in H. unfold bind in H.
  destruct (apply exec_sql m (d, fl)) as [[u|e] [d1 fl1]] eqn:E; pose proof (apply_inv _ _ _ _ _ _ _ E Hr Hm) as Hi.
  - destruct Hi as (Hr1 & Hf1 & Ht1). apply (IH (S v)) in H as (v' & Hv' & Hr' & Hf' & Ht' & Hu & Hok); [|lia|done].
    exists v'. split; [lia|]. split; [done|]. split; [congruence|]. split; [|split; [|done]].
    + rewrite (statements_step v v' m), migrate_app, Ht1 by (done || lia). done.
    + rewrite Hu. unfold upgrade at 2. rewrite Hs. cbn [for_each]. symmetry. apply run_bind with (a := u); [apply honest_apply|].
      eapply run_honest; [apply honest_apply|exact E].
  - injection H as <- <- _. rewrite Hi. exists v. rewrite statements_none. split_and!; try done; lia.
Qed.
Lemma ready_recognised v d : ready v d -> recognised d = Some (Z.of_nat v).
Proof.
  intros (Hm & Hv & Hh). unfold recognised. destruct (sd_history d) as [h|].
  - destruct (rows_check _ _ Hv Hh) as [_ ->]. by rewrite (bool_decide_true _ Hh), Hm, Z.eqb_refl.
  - destruct Hh as [-> [-> | ->]]; by rewrite Hm.
Qed.
Lemma honest_version : honest (sqliteVersion (T:=T)).
Proof.
  unfold sqliteVersion, legacyVersion, importLegacyHistory. solve_steps. unfold lift. destruct (check_history _ _ _); solve_steps.
Qed.
Lemma initialize_inv d fl r d' fl' : initialize exec_sql (d, fl) = (r, (d', fl')) ->
  (d' = d /\ (exists e, r = Err e)) \/
  exists v fl1 d1, d.(sd_foreign_keys) = true /\ recognised d = Some (Z.of_nat v) /\ ready v d1 /\ d1.(sd_tables) = d.(sd_tables) /\ d1.(sd_foreign_keys) = true /\
    run sqliteVersion d = (Ok (Z.of_nat v), d1) /\ upgrade v (d1, fl1) = (r, (d', fl')).
Proof.
  intros H. unfold initialize in H. apply bind_reads in H as [[[e ->] ->]|(u & fl2 & _ & H)]; [left; eauto| |solve_steps].
  apply bind_reads in H as [[[e ->] ->]|(fk & fl3 & (-> & _)%or_fail_ok%query_ok & H)]; [left; eauto| |solve_readonly].
  destruct (sd_foreign_keys d) eqn:Hf; cbn [negb] in H; [|injection H as <- <- _; left; eauto].
  unfold bind in H. destruct (sqliteVersion (d, fl3)) as [[v|e] [d1 fl4]] eqn:E; pose proof (version_inv _ _ _ _ _ E) as Hv.
  - right. destruct Hv as (Hrec & Hr & Hv & Ht & Hf1). exists (Z.to_nat v), fl4, d1. rewrite Z2Nat.id by done. split_and!; try done; [congruence| |].
    + eapply run_honest; [apply honest_version|exact E].
    + rewrite <- skip_done; [|apply Hr]. by rewrite Z2Nat.id.
  - injection H as <- <- _. left. eauto.
Qed.
Lemma run_initialize v d d1 : d.(sd_foreign_keys) = true -> run sqliteVersion d = (Ok (Z.of_nat v), d1) -> (v <= 40)%nat ->
  run (initialize exec_sql) d = run (upgrade v) d1.
Proof.
  intros Hf Hv Hle. unfold initialize, run at 1, bind, within_step at 1, or_fail. cbn -[sqliteVersion migrations]. rewrite Hf. cbn -[sqliteVersion migrations].
  apply honest_run_nil in Hv; [|apply honest_version]. rewrite Hv. by rewrite skip_done.
Qed.

(** A start-up that stops halfway does no harm: wherever statements were refused,
    opening the database again ends as if the first attempt had not been made, with
    the same error or the same tables. *)
Theorem upgrade_resumes d fl : run (initialize exec_sql) (initialize exec_sql (d, fl)).2.1 = run (initialize exec_sql) d.
Proof.
  destruct (initialize exec_sql (d, fl)) as [r [d' fl']] eqn:E. cbn. apply initialize_inv in E as [[-> _]|(v & fl1 & d1 & Hf & _ & Hr & _ & Hf1 & Hv & H)]; [done|].
  apply (upgrade_inv (40 - v)) in H as (v' & Hv' & Hr' & Hf' & _ & Hu & _); [|destruct Hr as (_ & ? & _); lia|done].
  rewrite (run_initialize v d d1), <- Hu by (done || lia). apply run_initialize; [congruence|by apply ready_version|lia].
Qed.

(** The migrations of this program, by version and name. *)
Definition known_migrations : list (Z * string) := map (fun m => (m.(mg_version), m.(mg_name))) migrations.
Lemma postgres_version_known rows : forall version, (exists v n, In (v, n) rows /\ ~ In (v, n) known_migrations) -> exists e, postgres_version rows version = Err e.
Proof using.
  induction rows as [|[v n] rows IH]; intros version (v' & n' & Hin & Hno); [done|]. cbn [postgres_version].
  destruct ((v <? 1) || (Z.of_nat (length migrations) <? v)) eqn:Eb; [by eexists|]. destruct (nth_error migrations (Z.to_nat (v - 1))) as [m|] eqn:Em; [|by eexists].
  destruct (String.eqb_spec (mg_name m) n) as [En|]; cbn [negb]; [|by eexists]. apply IH. exists v', n'. split; [|done]. destruct Hin as [[= -> ->]|Hin]; [|done]. exfalso. apply Hno.
  apply orb_false_iff in Eb as [Eb _]. apply Z.ltb_ge in Eb. unfold known_migrations. apply in_map_iff. exists m. split; [|by eapply nth_error_In].
  rewrite En. f_equal. assert (forallb (fun k => match nth_error migrations k with Some m => m.(mg_version) =? Z.of_nat k + 1 | None => true end) (seq 0 (length migrations)) = true) as H
    by (vm_compute; reflexivity).
  rewrite forallb_forall in H. specialize (H (Z.to_nat (v' - 1))). rewrite Em in H. apply Z.eqb_eq in H; [lia|]. apply in_seq. split; [lia|]. apply nth_error_Some. congruence.
Qed.
Lemma in_by_version x h : In x h -> In x (by_version h).
Proof using. intros H. unfold by_version. eapply Permutation_in; [|exact H]. apply Permutation_sym, sort_less_perm. Qed.

(** C20: a database that this program does not know is refused, and nothing in it is
    changed, whatever statements are refused.  On SQLite that is one whose history is of
    a newer program, has a hole or another name, or whose mirror disagrees; on PostgreSQL
    it is one whose history has a version or a name that is not of this program (a
    history with a hole is not noticed there). *)
Theorem unknown_database_is_untouched d fl :
  (recognised d = None -> exists e fl', initialize exec_sql (d, fl) = (Err e, (d, fl'))) /\
  (forall columns h v n, d.(sd_history) = Some h -> In (v, n) h -> ~ In (v, n) known_migrations ->
    exists e fl', initializePostgres exec_sql columns (d, fl) = (Err e, (d, fl'))).
Proof.
  split.
  - intros Hn. destruct (initialize exec_sql (d, fl)) as [r [d' fl']] eqn:E.
    apply initialize_inv in E as [[-> [e ->]]|(v & fl1 & d1 & _ & Hs & _)]; [by exists e, fl'|]. congruence.
  - intros columns h v n Hh Hin Hno. destruct (postgres_version_known (by_version h) 0) as [e He]; [exists v, n; split; [by apply in_by_version|done]|].
    unfold initializePostgres, bind, exec, query, stmt. destruct fl as [|[] [|[] fl]]; cbn [List.tl]; rewrite ?Hh, ?He; cbn [lift throw]; by eexists _, _.
Qed.

(** C19: a database that is opened has the whole history, its mirror says so, and its
    tables are those it had with exactly the statements of the migrations it lacked,
    in their order; a database that could not be opened is as it was, or whole
    migrations further. *)
Theorem upgrade_is_stepwise d fl r d' fl' : initialize exec_sql (d, fl) = (r, (d', fl')) ->
  (d' = d /\ exists e, r = Err e) \/
  exists v v', (v <= v' <= 40)%nat /\ recognised d = Some (Z.of_nat v) /\ recognised d' = Some (Z.of_nat v') /\ d'.(sd_mirror) = Z.of_nat v' /\
    migrate_tables exec_sql (statements_between v v') d.(sd_tables) = Some d'.(sd_tables) /\ (r = Ok tt -> v' = 40%nat).
Proof.
  intros E. apply initialize_inv in E as [Hd|(v & fl1 & d1 & _ & Hs & Hr & Ht & _ & _ & H)]; [by left|right].
  apply (upgrade_inv (40 - v)) in H as (v' & Hv' & Hr' & _ & Ht' & _ & Hok); [|destruct Hr as (_ & ? & _); lia|done].
  exists v, v'. rewrite <- Ht. split_and!; try done; try lia; [by apply ready_recognised|apply Hr'].
Qed.
End Upgrade.

(** ** Witnesses *)

(** A database that remembers its statements. *)
Definition demo_exec (q : string) (t : list string) : option (list string) := Some (t ++ [q])%list.
Definition demo_old : sdb (list string) := mk_sdb None 0 (Some (Some 38)) true [].
Definition demo_hole : sdb (list string) := mk_sdb (Some [(1, "application foundation"); (3, "sites and groups")]) 3 None true [].
(** The marker of before the history is replaced, migration 39 runs, migration 40 is
    refused in the middle. *)
Definition demo_plan : faults := (replicate 55 false ++ [true])%list.
Definition demo_halfway : result unit * (sdb (list string) * faults) := initialize demo_exec (demo_old, demo_plan).
Definition demo_message : string := "apply migration 40 (replicated fleet configuration identities): database error".
Lemma demo_halfway_eq : initialize demo_exec (demo_old, demo_plan) = (Err demo_message, (demo_halfway.2.1, [])).
Proof. unfold demo_halfway. vm_compute. reflexivity. Qed.
Lemma upgrade_is_stepwise_witness :
  (demo_halfway.2.1 = demo_old /\ exists e, @Err unit demo_message = Err e) \/
  exists v v', (v <= v' <= 40)%nat /\ recognised demo_old = Some (Z.of_nat v) /\ recognised demo_halfway.2.1 = Some (Z.of_nat v') /\ demo_halfway.2.1.(sd_mirror) = Z.of_nat v' /\
    migrate_tables demo_exec (statements_between v v') demo_old.(sd_tables) = Some demo_halfway.2.1.(sd_tables) /\ (@Err unit demo_message = Ok tt -> v' = 40%nat).
Proof. exact (upgrade_is_stepwise demo_exec demo_old demo_plan (Err demo_message) demo_halfway.2.1 [] demo_halfway_eq). Defined.
Definition demo_newer : sdb (list string) := mk_sdb (Some [(1, "application foundation"); (41, "from the future")]) 0 None true [].
Lemma unknown_database_is_untouched_witness : (exists e fl', initialize demo_exec (demo_hole, [false; false; false]) = (Err e, (demo_hole, fl'))) /\
  (exists e fl', initializePostgres demo_exec (fun _ => []) (demo_newer, []) = (Err e, (demo_newer, fl'))).
Proof.
  split; [exact (proj1 (unknown_database_is_untouched demo_exec demo_hole [false; false; false]) eq_refl)|].
  refine (proj2 (unknown_database_is_untouched demo_exec demo_newer []) (fun _ => []) _ 41 "from the future" eq_refl _ _); [by right; left|].
  intros H. vm_compute in H. repeat destruct H as [H|H]; discriminate || exact H.
Defined.

(** What the refused attempt left is the database of migration 39, and the next one
    finishes. *)
Example halfway_is_finished : recognised demo_halfway.2.1 = Some 39 /\ (run (initialize demo_exec) demo_halfway.2.1).1 = Ok tt.
Proof. split; vm_compute; reflexivity. Qed.
(** A history table without rows is a database of version 0 that cannot be opened:
    the first migration makes the table. *)
Example empty_history_is_not_opened : recognised (mk_sdb (Some []) 0 None true ([] : list string)) = Some 0 /\
  (run (initialize demo_exec) (mk_sdb (Some []) 0 None true [])).1 = Err "apply migration 1 (application foundation): constraint failed".
Proof. split; vm_compute; reflexivity. Qed.
(** On PostgreSQL the rows are compared with the names only: a history with a hole is
    taken for its last version, and the migrations of the hole are never run. *)
Example postgres_history_with_a_hole : let d := mk_sdb (Some [(1, "application foundation"); (40, "replicated fleet configuration identities")]) 0 None true ([] : list string) in
  run (initializePostgres demo_exec (fun _ => [])) d = (Ok tt, d) /\ run (initialize demo_exec) d = (Err "database migration history is not contiguous: expected 2, found 40", d).
Proof. split; vm_compute; reflexivity. Qed.
