(* ===== verification/Service.v ===== *)
(** The management of the systemd service ([internal/service/service.go]):
    installation with its rollback, updates with recovery, rollbacks, the verbs.

    The machine is its files, by path; the part of it that [DataDir] models; and
    the state of systemd and of the commands, which is a parameter, as is the
    health check.  The fault plan of [SqlM] says which operations on files fail;
    a file that is written is first emptied, so a failure can leave it empty.
    Modes and links of files are left out, and so is the path in the error of a
    file operation that is passed on as it is. *)
From S2P Require Import Prelude GoStr GoPath Sha256 UnitFile SqlM DataDir.
Open Scope string_scope.
Open Scope Z_scope.
Open Scope wf_scope.
Open Scope sql_scope.

(** ** Definitions *)

Abbreviation files := (gmap string string).
(** What [Runner.Run] says of a command: its output and exit code, or that it
    could not be launched. *)
Inductive outcome := Exited (out : string) (code : Z) | NotRun (e : string).

(** The world outside of the files. *)
Class System := {
  sysstate : Type;
  command : string -> list string -> files -> sysstate -> outcome * sysstate;
  health : string -> files -> sysstate -> result unit * sysstate;
  sleep : Z -> sysstate -> sysstate;
  clock : sysstate -> Z;
  accounts : sysstate -> option Z * option Z;
  linux : bool;
  isRoot : bool;
  has_systemctl : bool }.

Record machine `{System} := mk_machine { m_files : files; m_host : host; m_sys : sysstate }.
Arguments mk_machine {_} _ _ _.

Section Service.
Context `{SY : System}.

Definition set_files (v : files) (m : machine) : machine := mk_machine v m.(m_host) m.(m_sys).
Definition set_host (v : host) (m : machine) : machine := mk_machine m.(m_files) v m.(m_sys).
Definition set_sys (v : sysstate) (m : machine) : machine :=
  let h := m.(m_host) in
  mk_machine m.(m_files) (mk_host h.(h_inodes) h.(h_fds) (accounts v).1 (accounts v).2 h.(h_others) h.(h_trace)) v.
Definition on_host {A} (c : M host A) : M machine A := fun '(m, fl) =>
  let '(r, (h, fl')) := c (m.(m_host), fl) in (r, (set_host h m, fl')).

(** *** Files: each gives the bare error, to which [path_error] adds the rest *)

Definition path_error (op path e : string) : string := op ++ " " ++ path ++ ": " ++ e.
Definition read_file (p : string) : M machine string := syscall (fun m =>
  (match m.(m_files) !! p with Some c => Ok c | None => Err ENOENT end, m)).
Definition stat_file (p : string) : M machine unit := syscall (fun m =>
  (match m.(m_files) !! p with Some _ => Ok tt | None => Err ENOENT end, m)).
Definition create_file (p : string) : M machine unit := syscall (fun m => (Ok tt, set_files (<[p := ""]> m.(m_files)) m)).
Definition fill_file (p c : string) : M machine unit := syscall (fun m => (Ok tt, set_files (<[p := c]> m.(m_files)) m)).
Definition sync_file : M machine unit := syscall (fun m => (Ok tt, m)).
Definition remove_file (p : string) : M machine unit := syscall (fun m =>
  match m.(m_files) !! p with Some _ => (Ok tt, set_files (delete p m.(m_files)) m) | None => (Err ENOENT, m) end).
Definition rename_file (a b : string) : M machine unit := syscall (fun m =>
  match m.(m_files) !! a with Some c => (Ok tt, set_files (<[b := c]> (delete a m.(m_files))) m) | None => (Err ENOENT, m) end).

(** [os.WriteFile]. *)
Definition write_file (p c : string) : M machine unit := create_file p ;;; fill_file p c.

Definition copyFile (src dst : string) : M machine unit :=
  let tmp := dst ++ ".new" in
  stat_file src ;;;
  create_file tmp ;;;
  let* c := read_file src in
  fill_file tmp c ;;;
  sync_file ;;;
  sync_file ;;;
  rename_file tmp dst.

Definition fileSHA256 (p : string) : M machine string := let* b := read_file p in ret (hex_sum b).

(** *** Commands *)

Definition run_command (name : string) (args : list string) : M machine outcome := fun '(m, fl) =>
  let '(o, s) := command name args m.(m_files) m.(m_sys) in (Ok o, (set_sys s m, fl)).
Definition systemctl : list string -> M machine outcome := run_command "systemctl".
Definition bounded (s : string) : string := if 2000 <? len s then substring 0 2000 s ++ "..." else s.
Definition unit_name : string := "webfleet.service".

Definition systemctlSuccess (args : list string) : M machine unit :=
  let* o := systemctl args in
  match o with
  | NotRun e => throw ("cannot run systemctl " ++ join " " args ++ ": " ++ e)
  | Exited out code =>
      if code =? 0 then ret tt
      else throw ("systemctl " ++ join " " args ++ " exited " ++ format_int code ++ ": " ++ bounded (trim_space out))
  end.
Definition resetFailed : M machine unit :=
  let* o := systemctl ["reset-failed"; unit_name] in
  match o with
  | NotRun e => throw ("cannot run systemctl reset-failed webfleet.service: " ++ e)
  | Exited out code =>
      if code =? 0 then ret tt
      else if contains (to_lower out) "not loaded" then ret tt
      else throw ("systemctl reset-failed webfleet.service exited " ++ format_int code ++ ": " ++ bounded (trim_space out))
  end.
Definition unitStateWord (verb : string) : M machine string :=
  let* o := systemctl [verb; unit_name] in
  match o with
  | NotRun e => throw ("cannot run systemctl " ++ verb ++ ": " ++ e)
  | Exited out _ => ret (trim_space out)
  end.

(** *** Checks *)

Definition requireLinux : M machine unit := if linux then ret tt else throw "service management is supported on Linux only".
Definition requireRoot (verb : string) : M machine unit :=
  if isRoot then ret tt else throw (verb ++ " requires root (sudo webfleet service " ++ verb ++ ")").

Definition managedUnit (path : string) : M machine bool :=
  let* r := attempt (read_file path) in ret (match r with Ok b => contains b unitMarker | Err _ => false end).
Definition requireManaged (verb : string) : M machine unit :=
  let* r := attempt (read_file UnitPath) in
  match r with
  | Err e =>
      if e =?s ENOENT
      then throw ("refusing to " ++ verb ++ " webfleet.service: unit is not installed (run `webfleet service install`)")
      else throw ("refusing to " ++ verb ++ " webfleet.service: " ++ path_error "open" UnitPath e)
  | Ok b => match readManagedUnit b with Err e => throw ("refusing to " ++ verb ++ " webfleet.service: " ++ e) | Ok _ => ret tt end
  end.

(** [InstalledListener]: the listener, whether it is explicit, whether a unit
    exists. *)
Definition InstalledListener : M machine (string * bool * bool) :=
  let* r := attempt (read_file UnitPath) in
  match r with
  | Err e => if e =?s ENOENT then ret ("", false, false) else throw (path_error "open" UnitPath e)
  | Ok b => match readManagedUnit b with Err e => throw e | Ok m => ret (m.(um_listen), m.(um_mode) =?s modeExplicit, true) end
  end.
Definition InstalledDataDir : M machine (string * bool) :=
  let* r := attempt (read_file UnitPath) in
  match r with
  | Err e => if e =?s ENOENT then ret ("", false) else throw ("cannot use installed service configuration: " ++ path_error "open" UnitPath e)
  | Ok b => match readManagedUnit b with
            | Err e => throw ("cannot use installed service configuration: " ++ e)
            | Ok m => ret (if m.(um_data) =?s "" then DefaultDataDir else m.(um_data), true)
            end
  end.

Definition validateReadWritePath (path : string) : result unit :=
  if negb (IsAbs path) then Err ("data directory " ++ Quote path ++ " must be an absolute path") else
  match validateNoControl path "data directory" with Err e => Err e | Ok _ =>
  if has_any "%" path then Err ("data directory " ++ Quote path ++ " must not contain systemd specifiers (% )") else
  if has_any (String dquote "\") path then Err ("data directory " ++ Quote path ++ " cannot be safely quoted in ReadWritePaths") else
  match path with
  | String c _ => if has_byte c "-+!~" then Err ("data directory " ++ Quote path ++ " starts with a ReadWritePaths special prefix; use a plain absolute path") else Ok tt
  | EmptyString => Ok tt
  end end.

Definition systemDataRoots : list string :=
  ["/"; "/bin"; "/boot"; "/dev"; "/etc"; "/home"; "/lib"; "/lib64"; "/opt"; "/proc"; "/root"; "/run"; "/sbin"; "/srv"; "/sys"; "/tmp"; "/usr"; "/var"].
Definition protectedDataHierarchies : list string :=
  ["/bin"; "/boot"; "/dev"; "/etc"; "/lib"; "/lib64"; "/proc"; "/root"; "/run"; "/sbin"; "/sys"; "/tmp"; "/usr"; "/home"].
Definition validateDataDirPath (path : string) : result unit :=
  let clean := Clean path in
  if Smem clean systemDataRoots
  then Err ("data directory " ++ Quote path ++ " is a system directory and cannot be adopted as a service data directory") else
  match find_first (fun p => (clean =?s p) || has_prefix clean (p ++ "/")) protectedDataHierarchies with
  | Some p => Err ("data directory " ++ Quote path ++ " is under the protected system hierarchy " ++ Quote p ++ " and cannot be adopted as a service data directory")
  | None => Ok tt
  end.

(** *** States that can be restored *)

Definition restorableEnabledWord (w : string) : bool := Smem w ["enabled"; "enabled-runtime"; "disabled"].
Definition restorableActiveWord (w : string) : bool := Smem w ["active"; "inactive"].
Definition restorablePriorState (e a : string) : bool := restorableEnabledWord e && restorableActiveWord a.
Definition enableRestoreSteps (word u : string) : list (list string) :=
  if word =?s "enabled" then [["disable"; u]; ["enable"; u]]
  else if word =?s "enabled-runtime" then [["disable"; u]; ["enable"; "--runtime"; u]]
  else [["disable"; u]].
Definition activeRestoreArgs (word u : string) : list string := if word =?s "active" then ["restart"; u] else ["stop"; u].

(** [ensureServiceAccount]. *)
Definition ensureServiceAccount : M machine unit :=
  let made (name : string) (o : outcome) : M machine unit :=
    match o with
    | Exited out code => if (code =? 0) || contains out "exists" then ret tt else throw (name ++ ": " ++ trim_space out)
    | NotRun _ => throw (name ++ ": ")
    end in
  let* o := run_command "groupadd" ["--system"; ServiceGroup] in
  made "groupadd" o ;;;
  let* o := run_command "useradd" ["--system"; "--no-create-home"; "--shell"; "/usr/sbin/nologin"; "--gid"; ServiceGroup; ServiceUser] in
  made "useradd" o.

(** *** Installation *)

Definition preinstall : string := BinaryPath ++ ".preinstall".

(** Runs a step of a rollback and notes its failure. *)
Definition noting (prefix : string) (c : M machine unit) : M machine (list string) :=
  let* r := attempt c in ret (match r with Ok _ => [] | Err e => [prefix ++ e] end).
(** The steps up to the first that fails. *)
Fixpoint in_turn (steps : list (list string)) : M machine unit :=
  match steps with [] => ret tt | a :: l => systemctlSuccess a ;;; in_turn l end.

Definition restore (prior : option (string * (string * string))) (hadBinary : bool) : M machine string :=
  let* e1 := noting "stop failed service: " (systemctlSuccess ["stop"; unit_name]) in
  let* e2 := noting "disable failed service: " (systemctlSuccess ["disable"; unit_name]) in
  let* e3 := (if hadBinary then noting "restore binary: " (copyFile preinstall BinaryPath)
              else ignore [] (remove_file BinaryPath ;;; ret [])) in
  ignore tt (remove_file preinstall) ;;;
  let* e4 := (match prior with
              | Some (text, _) => noting "restore unit: " (write_file UnitPath text)
              | None => ignore [] (remove_file UnitPath ;;; ret [])
              end) in
  let* e5 := noting "reload systemd: " (systemctlSuccess ["daemon-reload"]) in
  let* e6 := (match prior with
              | Some (_, (enabled, active)) =>
                  let* a := noting ("restore enablement " ++ Quote enabled ++ ": ") (in_turn (enableRestoreSteps enabled unit_name)) in
                  let* b := (if active =?s "active" then noting "reset failed state: " resetFailed else ret []) in
                  let* c := noting ("restore active state " ++ Quote active ++ ": ") (systemctlSuccess (activeRestoreArgs active unit_name)) in
                  ret (a ++ b ++ c)%list
              | None => ret []
              end) in
  let errs := (e1 ++ e2 ++ e3 ++ e4 ++ e5 ++ e6)%list in
  ret (match errs with [] => "" | _ => "; rollback incomplete: " ++ join "; " errs end).

(** The calls of systemctl that follow the new unit. *)
Definition install_steps (prior : option (string * (string * string))) : list (list string) :=
  let steps := ["daemon-reload"] ::
    match prior with
    | None => [["enable"; unit_name]; ["start"; unit_name]]
    | Some (_, (enabled, active)) => (enableRestoreSteps enabled unit_name ++ [activeRestoreArgs active unit_name])%list
    end in
  let last := List.last steps [] in
  if (hd "" last =?s "start") || (hd "" last =?s "restart")
  then (removelast steps ++ [["reset-failed"; unit_name]; last])%list else steps.
Fixpoint run_steps (steps : list (list string)) : M machine unit :=
  match steps with
  | [] => ret tt
  | a :: l =>
      let* o := systemctl a in
      match o with
      | NotRun e => throw ("systemctl " ++ join " " a ++ ": : " ++ e ++ " (installation rolled back)")
      | Exited out code =>
          if code =? 0 then run_steps l
          else throw ("systemctl " ++ join " " a ++ ": " ++ bounded (trim_space out) ++ ": exited " ++ format_int code ++ " (installation rolled back)")
      end
  end.

(** The changes of an installation, undone when one fails. *)
Definition install_changes (exe text : string) (prior : option (string * (string * string))) (hadBinary : bool) : M machine unit :=
  (if hadBinary then copyFile BinaryPath preinstall else ret tt) ;;;
  let* r := attempt (copyFile exe BinaryPath ;;; write_file UnitPath text ;;; run_steps (install_steps prior)) in
  match r with
  | Err e => let* rb := restore prior hadBinary in throw (e ++ rb)
  | Ok _ => ignore tt (remove_file preinstall)
  end.

(** The unit that is there, with the state of its service. *)
Definition prior_unit : M machine (option (string * (string * string))) :=
  let* r := attempt (read_file UnitPath) in
  match r with
  | Err e => if e =?s ENOENT then ret None else throw (path_error "open" UnitPath e)
  | Ok b =>
      match readManagedUnit b with
      | Err e => throw ("refusing to reinstall webfleet.service: " ++ e)
      | Ok _ =>
          let refuse e : M machine (option (string * (string * string))) := throw ("refusing to reinstall webfleet.service: " ++ e) in
          let* en := attempt (unitStateWord "is-enabled") in
          match en with Err e => refuse e | Ok en =>
          if negb (restorableEnabledWord en) then refuse ("prior enablement state " ++ Quote en ++ " cannot be restored exactly; disable or unmask it first") else
          let* ac := attempt (unitStateWord "is-active") in
          match ac with Err e => refuse e | Ok ac =>
          if negb (restorableActiveWord ac) then refuse ("prior active state " ++ Quote ac ++ " cannot be restored exactly; stop or restart it first") else
          if negb (restorablePriorState en ac) then refuse ("prior state " ++ en ++ "+" ++ ac ++ " cannot be restored exactly; unmask it first") else
          ret (Some (b, (en, ac)))
          end end
      end
  end.

Definition with_defaults (dataDir : string) (o : installOptions) : installOptions :=
  if (o.(o_mode) =?s modeExplicit)
  then if (trim_space o.(o_host) =?s "") && (trim_space o.(o_port) =?s "")
       then mk_options dataDir o.(o_listen) "127.0.0.1" "7336" o.(o_mode) o.(o_envfile)
       else mk_options dataDir o.(o_listen) o.(o_host) o.(o_port) o.(o_mode) o.(o_envfile)
  else mk_options dataDir (if o.(o_listen) =?s "" then DefaultListen else o.(o_listen)) o.(o_host) o.(o_port) o.(o_mode) o.(o_envfile).

Definition install (exe dataDir : string) (opts : installOptions) : M machine unit :=
  requireLinux ;;;
  if negb isRoot then throw "service install requires root" else
  lift (validateNoControl dataDir "data dir") ;;;
  lift (validateNoControl (listener opts) "listen") ;;;
  let dataDir := if dataDir =?s "" then DefaultDataDir else dataDir in
  let opts := with_defaults dataDir opts in
  lift (validateReadWritePath dataDir) ;;;
  lift (validateDataDirPath dataDir) ;;;
  if negb has_systemctl then throw "systemctl not found; is systemd installed?" else
  let text := unit_text opts in
  let* prior := prior_unit in
  let* r := attempt (fileSHA256 exe) in
  match r with Err e => throw ("read incoming executable: " ++ path_error "open" exe e) | Ok incoming =>
  let* r := attempt (fileSHA256 BinaryPath) in
  let hadBinary := is_ok r in
  let changed := match r with Ok d => negb (incoming =?s d) | Err _ => true end in
  let same_unit := match prior with Some (b, _) => b =?s text | None => false end in
  let* p := attempt (on_host (inspectDataDir dataDir)) in
  match p with Err e => throw ("refusing to install webfleet.service: " ++ e) | Ok plan =>
  let* r := attempt (
    if same_unit && negb changed && (match plan.(p_status) with dataDirAcceptExisting => true | dataDirAcceptFresh => false end) then ret tt else
    ensureServiceAccount ;;;
    on_host (establishDataDir plan) ;;;
    if same_unit && negb changed then ret tt else
    install_changes exe text prior hadBinary) in
  on_host (plan_close plan) ;;;
  lift r
  end end.

Definition Install (exe dataDir listen envfile : string) : M machine unit :=
  install exe dataDir (mk_options dataDir listen "" "" modeBootstrap envfile).
Definition InstallExplicit (exe dataDir host port envfile : string) : M machine unit :=
  install exe dataDir (mk_options dataDir "" host port modeExplicit envfile).

(** *** The verbs *)

Definition lifecycle (verb : string) : M machine unit :=
  requireLinux ;;;
  requireRoot verb ;;;
  requireManaged verb ;;;
  (if (verb =?s "start") || (verb =?s "restart") then resetFailed else ret tt) ;;;
  systemctlSuccess [verb; unit_name].
Definition Start := lifecycle "start".
Definition Stop := lifecycle "stop".
Definition Restart := lifecycle "restart".
Definition Enable := lifecycle "enable".
Definition Disable := lifecycle "disable".

Definition Uninstall : M machine unit :=
  requireLinux ;;;
  requireRoot "uninstall" ;;;
  let* r := attempt (stat_file UnitPath) in
  if (match r with Err e => e =?s ENOENT | Ok _ => false end) then ret tt else
  requireManaged "uninstall" ;;;
  let* r := attempt (systemctlSuccess ["disable"; "--now"; unit_name]) in
  match r with
  | Err e => throw ("uninstall: " ++ e)
  | Ok _ =>
      let* r := attempt (remove_file UnitPath) in
      match r with
      | Err e => if e =?s ENOENT then systemctlSuccess ["daemon-reload"] else throw (path_error "remove" UnitPath e)
      | Ok _ => systemctlSuccess ["daemon-reload"]
      end
  end.

(** *** Health, updates and rollbacks *)

Definition effectiveListen (m : unitMeta) : string := m.(um_listen).
Definition healthCheck (url : string) : M machine unit := fun '(m, fl) =>
  let '(r, s) := health url m.(m_files) m.(m_sys) in (r, (set_sys s m, fl)).
Definition pause : M machine unit := fun '(m, fl) => (Ok tt, (set_sys (sleep 500000000 m.(m_sys)) m, fl)).
Definition time_now : M machine Z := fun '(m, fl) => (Ok (clock m.(m_sys)), (m, fl)).
Definition healthWindow : Z := 30000000000.
Definition unhealthy : string := "service did not become active and healthy within 30s".

(** The polls until the deadline; each that fails is followed by a pause. *)
Fixpoint polls (fuel : nat) (url : string) (deadline : Z) : M machine unit :=
  match fuel with
  | O => throw "out of fuel"
  | S n =>
      let* t := time_now in
      if negb (t <? deadline) then throw unhealthy else
      let* active := ignore "" (unitStateWord "is-active") in
      if trim_space active =?s "active" then
        let* r := attempt (healthCheck url) in
        match r with Ok _ => ret tt | Err _ => pause ;;; polls n url deadline end
      else pause ;;; polls n url deadline
  end.
Definition verifyActiveAndHealthy : M machine unit :=
  let* r := attempt (read_file UnitPath) in
  let listen := match r with
                | Ok b => match readManagedUnit b with
                          | Ok m => if m.(um_listen) =?s "" then DefaultListen else effectiveListen m
                          | Err _ => DefaultListen
                          end
                | Err _ => DefaultListen
                end in
  let* t := time_now in
  polls 61 ("http://" ++ listen ++ "/healthz") (t + healthWindow).

Definition rollback_path : string := BinaryPath ++ ".rollback".
Definition marker_path : string := BinaryPath ++ ".prior-active".
Definition known_state (w : string) : bool := Smem w ["active"; "inactive"; "dead"; "failed"].

Definition Verify (path want : string) : M machine unit :=
  let* b := read_file path in
  if equal_fold (hex_sum b) (trim_space want) then ret tt else throw ("checksum mismatch: got " ++ hex_sum b).

Definition restoreAfterFailedUpdate : M machine unit :=
  let* r := attempt (read_file marker_path) in
  match r with
  | Err e => throw ("recovery: no prior-state marker: " ++ path_error "open" marker_path e)
  | Ok b =>
      let priorActive := trim_space b in
      if negb (known_state priorActive) then throw ("recovery: invalid prior-state marker " ++ Quote priorActive) else
      let* r := attempt (systemctlSuccess ["stop"; unit_name]) in
      match r with Err e => throw ("recovery: stop failed service: " ++ e) | Ok _ =>
      let* r := attempt (copyFile rollback_path BinaryPath) in
      match r with Err e => throw ("recovery: restore old binary: " ++ e) | Ok _ =>
      (if priorActive =?s "active" then
         let* r := attempt resetFailed in
         match r with Err e => throw ("recovery: reset failed state: " ++ e) | Ok _ =>
         let* r := attempt (systemctlSuccess ["restart"; unit_name]) in
         match r with Err e => throw ("recovery: restart old service: " ++ e) | Ok _ =>
         let* r := attempt verifyActiveAndHealthy in
         match r with Err e => throw ("recovery: restored service not healthy: " ++ e) | Ok _ => ret tt end end end
       else ret tt) ;;;
      ignore tt (remove_file marker_path) ;;;
      ignore tt (remove_file rollback_path)
      end end
  end.
(** [updateFailureWithRecovery(updateErr, restoreAfterFailedUpdate())]. *)
Definition recovering (updateErr : string) : M machine unit :=
  let* r := attempt restoreAfterFailedUpdate in
  throw (match r with Err e => updateErr ++ "; recovery also failed: " ++ e | Ok _ => updateErr end).

(** The copy of the binary and of the state that an update starts with. *)
Definition back_up (priorActive : string) : M machine unit :=
  let* r := attempt (stat_file BinaryPath) in
  match r with
  | Err _ => ret tt
  | Ok _ =>
      copyFile BinaryPath rollback_path ;;;
      let* r := attempt (write_file marker_path priorActive) in
      match r with
      | Err e => ignore tt (remove_file rollback_path) ;;; throw ("update: cannot record rollback state: " ++ path_error "open" marker_path e)
      | Ok _ => ret tt
      end
  end.

(** The restart that an update of a running service ends with. *)
Definition restart_updated : M machine unit :=
  let* r := attempt resetFailed in
  match r with Err e => recovering ("restart after update: " ++ e) | Ok _ =>
  let* o := systemctl ["restart"; unit_name] in
  let go := let* r := attempt verifyActiveAndHealthy in
            match r with Err e => recovering ("update: new binary failed to become healthy: " ++ e) | Ok _ => ret tt end in
  match o with
  | NotRun e => recovering ("restart after update: : " ++ e)
  | Exited out code => if code =? 0 then go else recovering ("restart after update: " ++ bounded (trim_space out) ++ ": exited " ++ format_int code)
  end end.

Definition Update (artifact want : string) : M machine unit :=
  requireLinux ;;;
  if negb isRoot then throw "update requires root" else
  requireManaged "update" ;;;
  Verify artifact want ;;;
  let* r := attempt (unitStateWord "is-active") in
  match r with Err e => throw ("update: cannot determine current service state: " ++ e) | Ok priorActive =>
  if negb (known_state priorActive) then throw ("update: unexpected service state " ++ Quote priorActive ++ "; refusing to update") else
  back_up priorActive ;;;
  copyFile artifact BinaryPath ;;;
  if priorActive =?s "active" then restart_updated else ret tt
  end.

Definition failed_path : string := BinaryPath ++ ".failed".
Definition Rollback : M machine unit :=
  requireLinux ;;;
  if negb isRoot then throw "rollback requires root" else
  requireManaged "rollback" ;;;
  let* r := attempt (stat_file rollback_path) in
  match r with Err _ => throw "no rollback binary available" | Ok _ =>
  let* r := attempt (read_file marker_path) in
  match r with Err _ => throw "rollback: no prior-state marker; refusing to guess the service state" | Ok b =>
  let priorActive := trim_space b in
  if negb (known_state priorActive) then throw ("rollback: invalid prior-state marker " ++ Quote priorActive) else
  let wasActive := priorActive =?s "active" in
  (if wasActive then resetFailed else ret tt) ;;;
  ignore tt (remove_file failed_path) ;;;
  rename_file BinaryPath failed_path ;;;
  let* r := attempt (rename_file rollback_path BinaryPath) in
  match r with
  | Err e => ignore tt (rename_file failed_path BinaryPath) ;;; throw e
  | Ok _ =>
      (if wasActive then systemctlSuccess ["restart"; unit_name] ;;; verifyActiveAndHealthy else ret tt) ;;;
      ignore tt (remove_file marker_path) ;;;
      ignore tt (remove_file rollback_path)
  end end end.

(** [Status], with the lines it prints before its verdict, and [Logs]. *)
Definition Status : M machine (list string * result unit) :=
  requireLinux ;;;
  let* r := attempt (read_file UnitPath) in
  match r with
  | Err e => throw (if e =?s ENOENT then "webfleet.service is not installed (run `webfleet service install`)"
                    else "cannot read " ++ UnitPath ++ ": " ++ path_error "open" UnitPath e)
  | Ok b =>
      match readManagedUnit b with
      | Err e => throw ("webfleet.service unit at " ++ UnitPath ++ " is not valid: " ++ e)
      | Ok meta =>
          let* enabled := ignore "" (unitStateWord "is-enabled") in
          let* active := ignore "" (unitStateWord "is-active") in
          let* pid := systemctl ["show"; "-p"; "MainPID"; "--value"; unit_name] in
          let pid := match pid with Exited out _ => out | NotRun _ => "" end in
          let dataDir := if meta.(um_data) =?s "" then DefaultDataDir else meta.(um_data) in
          let listen := if effectiveListen meta =?s "" then DefaultListen else effectiveListen meta in
          let out := ["unit:    webfleet.service"; "file:    " +:+ UnitPath; "enabled: " +:+ trim_space enabled; "active:  " +:+ trim_space active;
                      "pid:     " +:+ trim_space pid; "user:    " +:+ ServiceUser; "data:    " +:+ dataDir; "listen:  " +:+ listen] in
          if negb (trim_space active =?s "active")
          then ret ((out ++ ["health:  not running"])%list, Err ("webfleet.service is " ++ Quote (trim_space active) ++ "; expected active")) else
          let* r := attempt (healthCheck ("http://" ++ listen ++ "/healthz")) in
          match r with
          | Err e => ret ((out ++ ["health:  unreachable (" +:+ e +:+ ")"])%list, Err ("service is active but its health check failed: " ++ e))
          | Ok _ => ret ((out ++ ["health:  ok"])%list, Ok tt)
          end
      end
  end.
Definition Logs (follow : bool) : M machine string :=
  requireLinux ;;;
  requireManaged "view logs for" ;;;
  let* o := run_command "journalctl" (["--unit"; unit_name] ++ (if follow then ["-f"] else []))%list in
  match o with
  | NotRun e => throw (if follow then e else "cannot run journalctl: " ++ e)
  | Exited out code =>
      if code =? 0 then ret (if follow then "" else out)
      else throw (if follow then "journalctl exited with status " ++ format_int code
                  else "journalctl exited " ++ format_int code ++ ": " ++ bounded (trim_space out))
  end.
End Service.
