(* ===== verification/ServiceDemo.v ===== *)
(** A small systemd for the examples of [ServiceFacts] and [ServiceUpdate]: it
    keeps whether the unit is enabled and running and a clock, and cannot start the
    binary ["broken"]; the binary ["sick"] runs and does not answer. *)
From S2P Require Import Prelude GoStr GoPath Sha256 UnitFile SqlM DataDir Service.
Open Scope string_scope.
Open Scope Z_scope.
Open Scope wf_scope.

Inductive enablement := Disabled | Enabled | Runtime.
Record demo_sys := mk_demo { dm_enabled : enablement; dm_active : bool; dm_clock : Z }.
Definition enabled_word (e : enablement) : string := match e with Disabled => "disabled" | Enabled => "enabled" | Runtime => "enabled-runtime" end.
Definition active_word (a : bool) : string := if a then "active" else "inactive".
Definition demo_verb (verb : string) (f : files) (s : demo_sys) : outcome * demo_sys :=
  let done s := (Exited "" 0, s) in
  if verb =?s "is-enabled" then (Exited (enabled_word s.(dm_enabled)) 0, s)
  else if verb =?s "is-active" then (Exited (active_word s.(dm_active)) 0, s)
  else if verb =?s "enable" then done (mk_demo Enabled s.(dm_active) s.(dm_clock))
  else if verb =?s "disable" then done (mk_demo Disabled s.(dm_active) s.(dm_clock))
  else if verb =?s "stop" then done (mk_demo s.(dm_enabled) false s.(dm_clock))
  else if (verb =?s "start") || (verb =?s "restart") then
    match f !! BinaryPath with
    | Some b => if b =?s "broken" then (Exited "Job for webfleet.service failed." 1, mk_demo s.(dm_enabled) false s.(dm_clock))
                else done (mk_demo s.(dm_enabled) true s.(dm_clock))
    | None => (Exited "Unit webfleet.service has a bad unit file setting." 1, s)
    end
  else if verb =?s "reset-failed" then done s
  else (Exited "Unknown command verb." 1, s).
Definition demo_command (name : string) (args : list string) (f : files) (s : demo_sys) : outcome * demo_sys :=
  if negb (name =?s "systemctl") then (Exited "" 0, s) else
  match args with
  | [verb] => if verb =?s "daemon-reload" then (Exited "" 0, s) else (Exited "Too few arguments." 1, s)
  | [verb; u] => if u =?s unit_name then demo_verb verb f s else (Exited "Unit not found." 5, s)
  | [verb; flag; u] =>
      if (verb =?s "enable") && (flag =?s "--runtime") && (u =?s unit_name)
      then (Exited "" 0, match s.(dm_enabled) with Disabled => mk_demo Runtime s.(dm_active) s.(dm_clock) | _ => s end)
      else (Exited "Unknown option." 1, s)
  | _ => (Exited "Too many arguments." 1, s)
  end.
Definition demo_health (url : string) (f : files) (s : demo_sys) : result unit * demo_sys :=
  (if s.(dm_active) && negb (match f !! BinaryPath with Some b => b =?s "sick" | None => true end) then Ok tt else Err "unreachable", s).

#[export] Instance demo_system : System := {
  sysstate := demo_sys;
  command := demo_command;
  health := demo_health;
  sleep d s := mk_demo s.(dm_enabled) s.(dm_active) (s.(dm_clock) + Z.max 0 d);
  clock := dm_clock;
  accounts _ := (Some 77, Some 77);
  linux := true;
  isRoot := true;
  has_systemctl := true }.

(** The service with its data at [/srv/web], and the machine with it. *)
Definition demo_options (envfile : string) : installOptions := mk_options "/srv/web" "127.0.0.1:7336" "" "" modeBootstrap envfile.
Definition demo_machine (f : list (string * string)) (e : enablement) (active : bool) : machine :=
  mk_machine (list_to_map f) (demo_host {["." := 2; ".." := 1; "web" := 3]} []) (mk_demo e active 0).
