(* ===== verification/ServiceFacts.v ===== *)
(** What holds of the installation of the service: units it does not own are left
    alone, an installation is all or nothing and keeps the state of the service. *)
From S2P Require Import Prelude GoStr GoPath Sha256 UnitFile SqlM DataDir Service ServiceDemo.
Open Scope string_scope.
Open Scope Z_scope.
Open Scope wf_scope.
Open Scope sql_scope.

(** ** Frames *)

Create HintDb keeps.

Section Frames.
Context `{SY : System}.

Lemma within_attempt {S A} (R : S -> S -> Prop) (m : M S A) : within R m -> within R (attempt m).
Proof using. intros H s fl. specialize (H s fl). unfold attempt. by destruct (m (s, fl)) as [r [s' fl']]. Qed.
Lemma within_syscall {S A} (R : S -> S -> Prop) `{!Reflexive R} (f : S -> result A * S) : (forall s, R s (f s).2) -> within R (syscall f).
Proof using.
  intros H s fl. specialize (H s). unfold syscall. destruct fl as [|[] fl]; cbn; [|done|]; by destruct (f s) as [r s'].
Qed.

Lemma syscall_inv {S A} (f : S -> result A * S) s fl r s' fl' : syscall f (s, fl) = (r, (s', fl')) ->
  (s' = s /\ r = Err EIO /\ fl <> []) \/ f s = (r, s').
Proof using.
  unfold syscall. destruct fl as [|[] fl]; [destruct (f s); intros [= <- <- _]; by right| |destruct (f s); intros [= <- <- _]; by right].
  intros [= <- <- _]. by left.
Qed.

(** The files of [P] stay as they are. *)
Definition agree (P : string -> Prop) (m m' : machine) : Prop := forall p, P p -> m'.(m_files) !! p = m.(m_files) !! p.
#[export] Instance agree_refl P : Reflexive (agree P).
Proof using. by intros m p _. Qed.
#[export] Instance agree_trans P : Transitive (agree P).
Proof using. intros a b c H1 H2 p Hp. by rewrite H2, H1. Qed.

Section Keeps.
Variable P : string -> Prop.
Abbreviation keeps := (within (agree P)).

Lemma keeps_host {A} (c : M host A) : keeps (on_host c).
Proof using. intros m fl. unfold on_host. by destruct (c (m_host m, fl)) as [r [h fl']]. Qed.
Lemma keeps_command name args : keeps (run_command name args).
Proof using. intros m fl. unfold run_command. by destruct (command name args (m_files m) (m_sys m)). Qed.
Lemma keeps_health url : keeps (healthCheck url).
Proof using. intros m fl. unfold healthCheck. by destruct (health url (m_files m) (m_sys m)). Qed.
Lemma keeps_read p : keeps (read_file p).
Proof using. by apply within_syscall; [apply _|]. Qed.
Lemma keeps_stat p : keeps (stat_file p).
Proof using. by apply within_syscall; [apply _|]. Qed.
Lemma keeps_sync : keeps sync_file.
Proof using. by apply within_syscall; [apply _|]. Qed.
Lemma keeps_create p : ~ P p -> keeps (create_file p).
Proof using. intros H. apply within_syscall; [apply _|]. intros m q Hq. cbn. rewrite lookup_insert_ne; [done|]. by intros ->. Qed.
Lemma keeps_fill p c : ~ P p -> keeps (fill_file p c).
Proof using. intros H. apply within_syscall; [apply _|]. intros m q Hq. cbn. rewrite lookup_insert_ne; [done|]. by intros ->. Qed.
Lemma keeps_remove p : ~ P p -> keeps (remove_file p).
Proof using.
  intros H. apply within_syscall; [apply _|]. intros m q Hq. destruct (m_files m !! p); [|done]. cbn. rewrite lookup_delete_ne; [done|]. by intros ->.
Qed.
Lemma keeps_rename a b : ~ P a -> ~ P b -> keeps (rename_file a b).
Proof using.
  intros Ha Hb. apply within_syscall; [apply _|]. intros m q Hq. destruct (m_files m !! a); [|done]. cbn.
  rewrite lookup_insert_ne, lookup_delete_ne; [done| |]; by intros ->.
Qed.
Lemma keeps_pause : keeps pause.
Proof using. by intros m fl. Qed.
Lemma keeps_now : keeps time_now.
Proof using. by intros m fl. Qed.
End Keeps.
End Frames.

Ltac solve_keeps :=
  repeat (intros; lazymatch goal with
    | |- within _ (ret _) => apply within_ret; apply _
    | |- within _ (throw _) => apply within_throw; apply _
    | |- within _ (bind _ _) => apply within_bind; [apply _| |]
    | |- within _ (attempt _) => apply within_attempt
    | |- within _ (ignore _ _) => apply within_ignore
    | |- within _ (on_host _) => apply keeps_host
    | |- within _ (run_command _ _) => apply keeps_command
    | |- within _ (systemctl _) => apply keeps_command
    | |- within _ (healthCheck _) => apply keeps_health
    | |- within _ (read_file _) => apply keeps_read
    | |- within _ (stat_file _) => apply keeps_stat
    | |- within _ sync_file => apply keeps_sync
    | |- within _ pause => apply keeps_pause
    | |- within _ time_now => apply keeps_now
    | |- within _ (create_file _) => apply keeps_create
    | |- within _ (fill_file _ _) => apply keeps_fill
    | |- within _ (remove_file _) => apply keeps_remove
    | |- within _ (rename_file _ _) => apply keeps_rename
    | |- within _ (match ?x with _ => _ end) => destruct x
    | |- within _ (lift ?x) => destruct x; cbn [lift]
    | |- within _ _ => solve [eauto with keeps]
    end).

Section Frames2.
Context `{SY : System}.

Lemma keeps_write P p c : ~ P p -> within (agree P) (write_file p c).
Proof using. intros H. unfold write_file. by solve_keeps. Qed.
Lemma keeps_copy P src dst : ~ P dst -> ~ P (dst ++ ".new") -> within (agree P) (copyFile src dst).
Proof using. intros H1 H2. unfold copyFile. by solve_keeps. Qed.
Lemma keeps_success P args : within (agree P) (systemctlSuccess args).
Proof using. unfold systemctlSuccess, systemctl. solve_keeps. Qed.
Lemma keeps_reset P : within (agree P) resetFailed.
Proof using. unfold resetFailed, systemctl. solve_keeps. Qed.
Lemma keeps_word P verb : within (agree P) (unitStateWord verb).
Proof using. unfold unitStateWord, systemctl. solve_keeps. Qed.
Lemma keeps_managed P verb : within (agree P) (requireManaged verb).
Proof using. unfold requireManaged. solve_keeps. Qed.
Lemma keeps_prior P : within (agree P) prior_unit.
Proof using. pose proof (keeps_word P). unfold prior_unit. solve_keeps. Qed.
Lemma keeps_account P : within (agree P) ensureServiceAccount.
Proof using. unfold ensureServiceAccount. solve_keeps. Qed.
Lemma keeps_sum P p : within (agree P) (fileSHA256 p).
Proof using. unfold fileSHA256. solve_keeps. Qed.
Lemma keeps_in_turn P l : within (agree P) (in_turn l).
Proof using. induction l as [|a l IH]; cbn; [by solve_keeps|]. pose proof (keeps_success P a). solve_keeps. Qed.
Lemma keeps_steps P l : within (agree P) (run_steps l).
Proof using. induction l as [|a l IH]; cbn; unfold systemctl; solve_keeps. Qed.
Lemma keeps_polls P n : forall url t, within (agree P) (polls n url t).
Proof using. pose proof (keeps_word P). induction n as [|n IH]; intros url t; cbn [polls]; solve_keeps. Qed.
Lemma keeps_verify P : within (agree P) verifyActiveAndHealthy.
Proof using. pose proof (keeps_polls P). unfold verifyActiveAndHealthy. solve_keeps. Qed.
#[local] Hint Resolve keeps_write keeps_copy keeps_success keeps_reset keeps_word keeps_managed keeps_prior keeps_account keeps_sum keeps_in_turn
  keeps_steps keeps_verify : keeps.

Lemma keeps_noting P pre c : within (agree P) c -> within (agree P) (noting pre c).
Proof using. intros H. unfold noting. solve_keeps. Qed.
End Frames2.
#[export] Hint Resolve keeps_write keeps_copy keeps_success keeps_reset keeps_word keeps_managed keeps_prior keeps_account keeps_sum keeps_in_turn
  keeps_steps keeps_verify : keeps.
#[export] Hint Resolve keeps_noting : keeps.

(** ** Units of others *)

(** The commands that change something, and [service logs]. *)
Inductive operation :=
| OInstall (exe dataDir : string) (o : installOptions)
| OVerb (verb : string)
| OUninstall
| OUpdate (artifact want : string)
| ORollback
| OLogs (follow : bool).

Section Foreign.
Context `{SY : System}.

Definition perform (o : operation) : M machine unit :=
  match o with
  | OInstall exe dataDir o => install exe dataDir o
  | OVerb verb => lifecycle verb
  | OUninstall => Uninstall
  | OUpdate artifact want => Update artifact want
  | ORollback => Rollback
  | OLogs follow => let* _ := Logs follow in ret tt
  end.

(** The computation fails and changes nothing. *)
Definition refused {A} (c : M machine A) (m : machine) : Prop := forall fl, is_ok (c (m, fl)).1 = false /\ (c (m, fl)).2.1 = m.
(** It may fail, but it changes nothing. *)
Definition silent {A} (c : M machine A) : Prop := forall m fl, (c (m, fl)).2.1 = m.

Lemma refused_throw {A} e m : refused (throw (A:=A) e) m.
Proof using. done. Qed.
Lemma refused_left {A B} (c : M machine A) (k : A -> M machine B) m : refused c m -> refused (bind c k) m.
Proof using. intros H fl. destruct (H fl) as [H1 H2]. unfold bind. by destruct (c (m, fl)) as [[a|e] [m' fl']]. Qed.
Lemma refused_right {A B} (c : M machine A) (k : A -> M machine B) m : silent c -> (forall a, refused (k a) m) -> refused (bind c k) m.
Proof using.
  intros Hc Hk fl. specialize (Hc m fl). unfold bind. destruct (c (m, fl)) as [[a|e] [m' fl']]; cbn in Hc; subst m'; [apply Hk|done].
Qed.
Lemma silent_lift {A} (r : result A) : silent (lift r).
Proof using. by intros m fl; destruct r. Qed.
Lemma silent_linux : silent requireLinux.
Proof using. intros m fl. unfold requireLinux. by destruct linux. Qed.
Lemma silent_root verb : silent (requireRoot verb).
Proof using. intros m fl. unfold requireRoot. by destruct isRoot. Qed.

Lemma syscall_reads {A} (f : machine -> result A) m fl :
  exists r fl', syscall (fun m => (f m, m)) (m, fl) = (r, (m, fl')) /\ (r = f m \/ r = Err EIO).
Proof using. unfold syscall. destruct fl as [|[] fl]; eexists _, _; split; try done; [by left|by right|by left]. Qed.

Variable m : machine.
Variable b : string.
Hypothesis there : m.(m_files) !! UnitPath = Some b.
Hypothesis foreign : is_ok (readManagedUnit b) = false.

Lemma requireManaged_refused verb : refused (requireManaged verb) m.
Proof using there foreign.
  intros fl. unfold requireManaged, bind, attempt, read_file.
  destruct (syscall_reads (fun m => match m.(m_files) !! UnitPath with Some c => Ok c | None => Err ENOENT end) m fl) as (r & fl' & -> & [->| ->]).
  - rewrite there. by destruct (readManagedUnit b).
  - done.
Qed.
Lemma prior_unit_refused : refused prior_unit m.
Proof using there foreign.
  intros fl. unfold prior_unit, bind, attempt, read_file.
  destruct (syscall_reads (fun m => match m.(m_files) !! UnitPath with Some c => Ok c | None => Err ENOENT end) m fl) as (r & fl' & -> & [->| ->]).
  - rewrite there. by destruct (readManagedUnit b).
  - done.
Qed.

(** Every command refuses a unit that is there and does not read well. *)
Lemma foreign_refused o : refused (perform o) m.
Proof using there foreign.
  pose proof requireManaged_refused as K. pose proof silent_linux as L. pose proof silent_root as R.
  destruct o as [exe d o|verb| |artifact want| |follow]; cbn [perform].
  - apply refused_right; [done|intros _]. destruct (negb isRoot); [apply refused_throw|].
    do 2 (apply refused_right; [apply silent_lift|intros _]). cbv zeta.
    do 2 (apply refused_right; [apply silent_lift|intros _]). destruct (negb has_systemctl); [apply refused_throw|].
    apply refused_left, prior_unit_refused.
  - do 2 (apply refused_right; [done|intros _]). by apply refused_left.
  - do 2 (apply refused_right; [done|intros _]). intros fl. rewrite bind_attempt. unfold stat_file.
    destruct (syscall_reads (fun m => match m.(m_files) !! UnitPath with Some _ => Ok tt | None => Err ENOENT end) m fl) as (r & fl' & -> & [->| ->]).
    + rewrite there. exact (refused_left _ _ m (K "uninstall") fl').
    + exact (refused_left _ _ m (K "uninstall") fl').
  - apply refused_right; [done|intros _]. destruct (negb isRoot); [apply refused_throw|]. by apply refused_left.
  - apply refused_right; [done|intros _]. destruct (negb isRoot); [apply refused_throw|]. by apply refused_left.
  - apply refused_left. apply refused_right; [done|intros _]. by apply refused_left.
Qed.

(** A unit that is not ours is left alone.  When the file of the unit is there
    and is not, byte for byte, a sealed text with sound metadata, no command runs
    a program, changes a file or touches the data directory: each reports an
    error, whatever else fails. *)
Theorem foreign_units_are_left_alone o fl : is_ok (perform o (m, fl)).1 = false /\ (perform o (m, fl)).2.1 = m.
Proof using there foreign. apply foreign_refused. Qed.
End Foreign.

(** ** Runs in which no operation on a file is refused *)

Section Quiet.
Context {S : Type}.
Definition quiet {A} (c : M S A) : Prop := forall s, (c (s, [])).2.2 = [].

Lemma quiet_ret {A} (a : A) : quiet (ret a).
Proof using. done. Qed.
Lemma quiet_throw {A} e : quiet (throw (A:=A) e).
Proof using. done. Qed.
Lemma quiet_lift {A} (r : result A) : quiet (lift r).
Proof using. by destruct r. Qed.
Lemma quiet_bind {A B} (c : M S A) (k : A -> M S B) : quiet c -> (forall a, quiet (k a)) -> quiet (bind c k).
Proof using.
  intros Hc Hk s. specialize (Hc s). unfold bind. destruct (c (s, [])) as [[a|e] [s' fl']]; cbn in *; subst; [apply Hk|done].
Qed.
Lemma quiet_attempt {A} (c : M S A) : quiet c -> quiet (attempt c).
Proof using. intros H s. specialize (H s). unfold attempt. by destruct (c (s, [])) as [r [s' fl']]. Qed.
Lemma quiet_ignore {A} (a : A) (c : M S A) : quiet c -> quiet (ignore a c).
Proof using. intros H s. specialize (H s). unfold ignore. by destruct (c (s, [])) as [[] [s' fl']]. Qed.
Lemma quiet_or_fail {A} (c : M S A) e : quiet c -> quiet (or_fail c e).
Proof using. intros H s. specialize (H s). unfold or_fail. by destruct (c (s, [])) as [[] [s' fl']]. Qed.
Lemma quiet_syscall {A} (f : S -> result A * S) : quiet (syscall f).
Proof using. intros s. unfold syscall. by destruct (f s). Qed.
End Quiet.
Lemma quiet_for_each {S A} (l : list A) (f : A -> M S unit) : (forall x, quiet (f x)) -> quiet (for_each l f).
Proof. intros H. induction l as [|x l IH]; cbn; [done|]. by apply quiet_bind. Qed.

Create HintDb quiet.
Ltac solve_quiet :=
  repeat (intros; lazymatch goal with
    | |- quiet (ret _) => apply quiet_ret
    | |- quiet (throw _) => apply quiet_throw
    | |- quiet (lift _) => apply quiet_lift
    | |- quiet (bind _ _) => apply quiet_bind
    | |- quiet (attempt _) => apply quiet_attempt
    | |- quiet (ignore _ _) => apply quiet_ignore
    | |- quiet (or_fail _ _) => apply quiet_or_fail
    | |- quiet (syscall _) => apply quiet_syscall
    | |- quiet (sys _) => apply quiet_syscall
    | |- quiet (for_each _ _) => apply quiet_for_each
    | |- quiet (match ?x with _ => _ end) => destruct x
    | |- quiet (let '_ := ?x in _) => destruct x
    | |- quiet _ => solve [done | eauto with quiet]
    end).

Lemma quiet_walk dir cs : forall fd, quiet (walk dir cs fd).
Proof. induction cs as [|c cs IH]; intros fd; cbn [walk]; unfold openAtLeafReal, closeFdReal; solve_quiet. Qed.
#[export] Hint Resolve quiet_walk : quiet.
Lemma quiet_parent p : quiet (openDataParentReal p).
Proof. unfold openDataParentReal, open_root. solve_quiet. Qed.
Lemma quiet_ids : quiet lookupServiceIDs.
Proof. unfold lookupServiceIDs. solve_quiet. Qed.
Lemma quiet_fstat fd : quiet (fstatLeafReal fd).
Proof. unfold fstatLeafReal, fstat. solve_quiet. Qed.
Lemma quiet_safe fd : quiet (parentSafeReal fd).
Proof. unfold parentSafeReal, fstat. solve_quiet. Qed.
Lemma quiet_close {A} fds msg : quiet (close_and_throw (A:=A) fds msg).
Proof. unfold close_and_throw, closeFdSeam, closeFdReal. solve_quiet. Qed.
#[export] Hint Resolve quiet_parent quiet_ids quiet_fstat quiet_safe quiet_close : quiet.
Lemma quiet_inspect p : quiet (inspectDataDir p).
Proof. unfold inspectDataDir, statDataLeafReal, openAtLeafReal, serviceUID. cbv zeta. solve_quiet. Qed.
Lemma quiet_consistent fd p : quiet (dataParentConsistentReal fd p).
Proof. unfold dataParentConsistentReal, fstat, closeFdReal. solve_quiet. Qed.
Lemma quiet_cleanup {A} p c fd n : quiet (cleanupLeafError (A:=A) p c fd n).
Proof. unfold cleanupLeafError, unlinkAtLeafReal. solve_quiet. Qed.
#[export] Hint Resolve quiet_consistent quiet_cleanup : quiet.
Lemma quiet_fresh fd n p : quiet (establishFreshLeaf fd n p).
Proof.
  unfold establishFreshLeaf, mkdirAtLeafReal, openAtLeafReal, fchmodLeafReal, fchownLeafReal, closeFdSeam, closeFdReal. cbv zeta. solve_quiet.
Qed.
#[export] Hint Resolve quiet_fresh : quiet.
Lemma quiet_establish plan : quiet (establishDataDir plan).
Proof. unfold establishDataDir, fchmodLeafReal. solve_quiet. Qed.

Section QuietService.
Context `{SY : System}.
Lemma quiet_host {A} (c : M host A) : quiet c -> quiet (on_host c).
Proof using. intros H m. specialize (H (m_host m)). unfold on_host. by destruct (c (m_host m, [])) as [r [h fl']]. Qed.
Lemma quiet_command name args : quiet (run_command name args).
Proof using. intros m. unfold run_command. by destruct (command name args (m_files m) (m_sys m)). Qed.
#[local] Hint Resolve quiet_command quiet_host quiet_inspect quiet_establish : quiet.
Lemma quiet_copy a b : quiet (copyFile a b).
Proof using. unfold copyFile, stat_file, create_file, read_file, fill_file, sync_file, rename_file. solve_quiet. Qed.
Lemma quiet_write a b : quiet (write_file a b).
Proof using. unfold write_file, create_file, fill_file. solve_quiet. Qed.
Lemma quiet_success args : quiet (systemctlSuccess args).
Proof using. unfold systemctlSuccess, systemctl. solve_quiet. Qed.
Lemma quiet_reset : quiet resetFailed.
Proof using. unfold resetFailed, systemctl. solve_quiet. Qed.
Lemma quiet_word v : quiet (unitStateWord v).
Proof using. unfold unitStateWord, systemctl. solve_quiet. Qed.
Lemma quiet_prior : quiet prior_unit.
Proof using. pose proof quiet_word. unfold prior_unit, read_file. cbv zeta. solve_quiet. Qed.
Lemma quiet_account : quiet ensureServiceAccount.
Proof using. unfold ensureServiceAccount. cbv zeta. solve_quiet. Qed.
Lemma quiet_sum p : quiet (fileSHA256 p).
Proof using. unfold fileSHA256, read_file. solve_quiet. Qed.
Lemma quiet_steps l : quiet (run_steps l).
Proof using. induction l as [|a l IH]; cbn; unfold systemctl; solve_quiet. Qed.
Lemma quiet_in_turn l : quiet (in_turn l).
Proof using. pose proof quiet_success. induction l as [|a l IH]; cbn; solve_quiet. Qed.
End QuietService.
#[export] Hint Resolve quiet_command quiet_host quiet_inspect quiet_establish quiet_copy quiet_write quiet_success quiet_reset quiet_word
  quiet_prior quiet_account quiet_sum quiet_steps quiet_in_turn : quiet.

(** ** The course of an installation *)

Lemma within_ok {S A} (R : S -> S -> Prop) (c : M S A) s fl r s' fl' : within R c -> c (s, fl) = (r, (s', fl')) -> R s s'.
Proof. intros H E. specialize (H s fl). by rewrite E in H. Qed.
Lemma lift_err {S A} (q : result A) (s : S) fl e s' fl' : lift q (s, fl) = (Err e, (s', fl')) -> s' = s.
Proof. destruct q; [done|]. by intros [= _ <- _]. Qed.
Lemma lift_done {S A} (q : result A) (s : S) fl a s' fl' : lift q (s, fl) = (Ok a, (s', fl')) -> q = Ok a /\ s' = s /\ fl' = fl.
Proof. destruct q; [|done]. by intros [= <- <- <-]. Qed.
Lemma quiet_nil {S A} (c : M S A) s r s' fl' : quiet c -> c (s, []) = (r, (s', fl')) -> fl' = [].
Proof. intros H E. specialize (H s). by rewrite E in H. Qed.

Section Cases.
Context `{SY : System} (R : machine -> machine -> Prop) `{!Reflexive R} `{!Transitive R}.
Hypothesis Rfiles : forall a b, R a b -> b.(m_files) = a.(m_files).
Hypothesis Rprior : within R prior_unit.
Hypothesis Rsum : forall p, within R (fileSHA256 p).
Hypothesis Rhost : forall A (c : M host A), within R (on_host c).
Hypothesis Raccount : within R ensureServiceAccount.

Lemma sum_nil p (m : machine) : (fileSHA256 p (m, [])).1 = match m.(m_files) !! p with Some c => Ok (hex_sum c) | None => Err ENOENT end.
Proof using. unfold fileSHA256, bind, read_file, syscall. by destruct (m_files m !! p). Qed.

(** An installation stops before it changes a file, or finds nothing to change,
    or makes its changes; around them the machine moves along [R]. *)
Lemma install_cases exe d o m fl r m' fl' : install exe d o (m, fl) = (r, (m', fl')) ->
  let text := unit_text (with_defaults (if d =?s "" then DefaultDataDir else d) o) in
  (exists e, r = Err e /\ R m m') \/
  no_control d = true /\ no_control (listener o) = true /\
  exists prior m1 fl1 had mA flA, prior_unit (m, fl) = (Ok prior, (m1, fl1)) /\ R m mA
    /\ (fl = [] -> flA = [] /\ had = match m.(m_files) !! BinaryPath with Some _ => true | None => false end)
    /\ ((r = Ok tt /\ R mA m' /\ exists x, prior = Some (text, x))
        \/ exists mB flB, install_changes exe text prior had (mA, flA) = (r, (mB, flB)) /\ R mB m').
Proof using All.
  intros H text. unfold install in H. apply bind_inv in H as [([] & m1 & fl1 & E & H)|(e & E & ->)]; pose proof (silent_linux m fl) as S; rewrite E in S; cbn in S; subst.
  2: { left. by eexists. }
  assert (fl1 = fl) as -> by (unfold requireLinux in E; destruct linux; [by injection E as <-|done]). clear E.
  destruct (negb isRoot) in H; [left; injection H as <- <- _; by eexists|].
  apply bind_inv in H as [([] & m1 & fl1 & E & H)|(e & E & ->)]; [|left; eexists; split; [done|]; by rewrite (lift_err _ _ _ _ _ _ E)].
  apply lift_done in E as (V1 & -> & ->).
  apply bind_inv in H as [([] & m1 & fl1 & E & H)|(e & E & ->)]; [|left; eexists; split; [done|]; by rewrite (lift_err _ _ _ _ _ _ E)].
  apply lift_done in E as (V2 & -> & ->). unfold validateNoControl in V1, V2.
  destruct (no_control d); [|done]. destruct (no_control (listener o)); [|done]. cbv zeta in H.
  apply bind_inv in H as [([] & m1 & fl1 & E & H)|(e & E & ->)]; [|left; eexists; split; [done|]; by rewrite (lift_err _ _ _ _ _ _ E)].
  apply lift_done in E as (_ & -> & ->).
  apply bind_inv in H as [([] & m1 & fl1 & E & H)|(e & E & ->)]; [|left; eexists; split; [done|]; by rewrite (lift_err _ _ _ _ _ _ E)].
  apply lift_done in E as (_ & -> & ->).
  destruct (negb has_systemctl) in H; [left; injection H as <- <- _; by eexists|]. fold text in H.
  apply bind_inv in H as [(prior & m1 & fl1 & E1 & H)|(e & E1 & ->)]; [|left; eexists; split; [done|]; by apply (within_ok _ _ _ _ _ _ _ Rprior E1)].
  pose proof (within_ok _ _ _ _ _ _ _ Rprior E1) as R1.
  apply attempt_bind in H as (q & m2 & fl2 & E2 & H). pose proof (within_ok _ _ _ _ _ _ _ (Rsum _) E2) as R2.
  assert (R m m2) as Rm2 by by etrans.
  destruct q as [incoming|e]; [|left; injection H as <- <- _; by eexists].
  apply attempt_bind in H as (q & m3 & fl3 & E3 & H). pose proof (within_ok _ _ _ _ _ _ _ (Rsum _) E3) as R3.
  assert (R m m3) as Rm3 by by etrans. cbv zeta in H.
  apply attempt_bind in H as (p & m4 & fl4 & E4 & H). pose proof (within_ok _ _ _ _ _ _ _ (Rhost _ _) E4) as R4.
  assert (R m m4) as Rm4 by by etrans.
  destruct p as [plan|e]; [|left; injection H as <- <- _; by eexists].
  apply attempt_bind in H as (q' & m5 & fl5 & E5 & H).
  apply bind_inv in H as [([] & m6 & fl6 & E6 & H)|(e & E6 & ->)].
  2: { exfalso. unfold on_host, plan_close, closeFdSeam, closeFdReal, bind in E6. by destruct (0 <=? p_leaf plan), (0 <=? p_parent plan). }
  pose proof (within_ok _ _ _ _ _ _ _ (Rhost _ _) E6) as R6.
  assert (r = q' /\ m' = m6) as [-> ->] by (destruct q'; by injection H as <- <- _). clear H.
  assert (fl = [] -> fl4 = [] /\ is_ok q = match m.(m_files) !! BinaryPath with Some _ => true | None => false end) as Q.
  { intros ->. apply (quiet_nil prior_unit) in E1; [|auto with quiet]. subst fl1. apply (quiet_nil (fileSHA256 exe)) in E2; [|auto with quiet]. subst fl2.
    pose proof (sum_nil BinaryPath m2) as Es. rewrite E3 in Es. apply (quiet_nil (fileSHA256 BinaryPath)) in E3; [|auto with quiet]. subst fl3.
    apply (quiet_nil (on_host (inspectDataDir _))) in E4; [|auto with quiet]. split; [done|]. cbn in Es. rewrite (Rfiles _ _ Rm2) in Es.
    rewrite Es. by destruct (m_files m !! BinaryPath). }
  destruct (match prior with Some (b, _) => b =?s text | None => false end) eqn:Es.
  - destruct prior as [[b x]|]; [|done]. apply String.eqb_eq in Es as ->. cbn [andb] in E5.
    destruct (negb _ && _) in E5.
    { injection E5 as <- <- _. right. split; [done|]. split; [done|]. exists (Some (text, x)), m1, fl1, (is_ok q), m4, fl4.
      split_and!; try done. left. split_and!; [done|done|by eexists]. }
    apply bind_inv in E5 as [([] & m7 & fl7 & E7 & E5)|(e & E7 & ->)]; pose proof (within_ok _ _ _ _ _ _ _ Raccount E7) as R7;
      [|left; eexists; split; [done|]; etrans; [exact Rm4|by etrans]].
    apply bind_inv in E5 as [([] & m8 & fl8 & E8 & E5)|(e & E8 & ->)]; pose proof (within_ok _ _ _ _ _ _ _ (Rhost _ _) E8) as R8;
      [|left; eexists; split; [done|]; etrans; [exact Rm4|etrans; [exact R7|by etrans]]].
    assert (R m m8) as Rm8 by (etrans; [exact Rm4|by etrans]).
    right. split; [done|]. split; [done|]. exists (Some (text, x)), m1, fl1, (is_ok q), m8, fl8. split; [done|]. split; [done|]. split.
    { intros Hn. destruct (Q Hn) as [-> ?]. apply (quiet_nil ensureServiceAccount) in E7; [|auto with quiet]. subst fl7.
      apply (quiet_nil (on_host (establishDataDir _))) in E8; [|auto with quiet]. done. }
    destruct (negb _) in E5.
    + injection E5 as <- <- _. left. split_and!; [done|done|by eexists].
    + right. by exists m5, fl5.
  - cbn [andb] in E5.
    apply bind_inv in E5 as [([] & m7 & fl7 & E7 & E5)|(e & E7 & ->)]; pose proof (within_ok _ _ _ _ _ _ _ Raccount E7) as R7;
      [|left; eexists; split; [done|]; etrans; [exact Rm4|by etrans]].
    apply bind_inv in E5 as [([] & m8 & fl8 & E8 & E5)|(e & E8 & ->)]; pose proof (within_ok _ _ _ _ _ _ _ (Rhost _ _) E8) as R8;
      [|left; eexists; split; [done|]; etrans; [exact Rm4|etrans; [exact R7|by etrans]]].
    assert (R m m8) as Rm8 by (etrans; [exact Rm4|by etrans]).
    right. split; [done|]. split; [done|]. exists prior, m1, fl1, (is_ok q), m8, fl8. split; [done|]. split; [done|]. split.
    { intros Hn. destruct (Q Hn) as [-> ?]. apply (quiet_nil ensureServiceAccount) in E7; [|auto with quiet]. subst fl7.
      apply (quiet_nil (on_host (establishDataDir _))) in E8; [|auto with quiet]. done. }
    right. by exists m5, fl5.
Qed.
End Cases.

Section Installed.
Context `{SY : System}.

Definition same_files (m m' : machine) : Prop := m'.(m_files) = m.(m_files).
#[export] Instance same_files_refl : Reflexive same_files.
Proof using. by intros m. Qed.
#[export] Instance same_files_trans : Transitive same_files.
Proof using. intros a b c H1 H2. unfold same_files in *. congruence. Qed.
Lemma keeps_same {A} (c : M machine A) : within (agree (fun _ => True)) c -> within same_files c.
Proof using. intros H m fl. unfold same_files. apply map_eq. intros p. by apply (H m fl). Qed.

Lemma install_files exe d o m fl r m' fl' : install exe d o (m, fl) = (r, (m', fl')) ->
  let text := unit_text (with_defaults (if d =?s "" then DefaultDataDir else d) o) in
  (exists e, r = Err e /\ same_files m m') \/
  no_control d = true /\ no_control (listener o) = true /\
  exists prior m1 fl1 had mA flA, prior_unit (m, fl) = (Ok prior, (m1, fl1)) /\ same_files m mA
    /\ (fl = [] -> flA = [] /\ had = match m.(m_files) !! BinaryPath with Some _ => true | None => false end)
    /\ ((r = Ok tt /\ same_files mA m' /\ exists x, prior = Some (text, x))
        \/ exists mB flB, install_changes exe text prior had (mA, flA) = (r, (mB, flB)) /\ same_files mB m').
Proof using.
  apply install_cases; try apply _; try done.
  - apply keeps_same, keeps_prior.
  - intros p. apply keeps_same, keeps_sum.
  - intros A c. apply keeps_same, keeps_host.
  - apply keeps_same, keeps_account.
Qed.

Lemma prior_unit_text m fl x m1 fl1 b : prior_unit (m, fl) = (Ok (Some (b, x)), (m1, fl1)) ->
  m.(m_files) !! UnitPath = Some b /\ is_ok (readManagedUnit b) = true.
Proof using.
  intros H. unfold prior_unit in H. apply attempt_bind in H as (q & m2 & fl2 & E & H). unfold read_file in E.
  destruct (syscall_reads (fun m => match m.(m_files) !! UnitPath with Some c => Ok c | None => Err ENOENT end) m fl) as (r & fl' & E' & Hr).
  rewrite E' in E. injection E as <- <- <-. destruct r as [c|e]; [|by destruct (e =?s ENOENT)].
  destruct Hr as [Hr|Hr]; [|done]. destruct (m_files m !! UnitPath) as [c'|]; [|done]. injection Hr as <-.
  destruct (readManagedUnit c) as [meta|e] eqn:Er; [|done]. cbv zeta in H.
  apply attempt_bind in H as (en & m3 & fl3 & E3 & H). destruct en as [en|e]; [|done]. destruct (negb _) in H; [done|].
  apply attempt_bind in H as (ac & m4 & fl4 & E4 & H). destruct ac as [ac|e]; [|done]. destruct (negb _) in H; [done|]. destruct (negb _) in H; [done|].
  injection H as -> _ _ _. by rewrite Er.
Qed.
Lemma prior_unit_none m fl m1 fl1 : prior_unit (m, fl) = (Ok None, (m1, fl1)) -> m.(m_files) !! UnitPath = None.
Proof using.
  intros H. unfold prior_unit in H. apply attempt_bind in H as (q & m2 & fl2 & E & H). unfold read_file in E.
  destruct (syscall_reads (fun m => match m.(m_files) !! UnitPath with Some c => Ok c | None => Err ENOENT end) m fl) as (r & fl' & E' & Hr).
  rewrite E' in E. injection E as <- <- <-. destruct r as [c|e].
  - destruct (readManagedUnit c) as [meta|e]; [|done]. cbv zeta in H.
    apply attempt_bind in H as (en & m3 & fl3 & E3 & H). destruct en as [en|e]; [|done]. destruct (negb _) in H; [done|].
    apply attempt_bind in H as (ac & m4 & fl4 & E4 & H). destruct ac as [ac|e]; [|done]. destruct (negb _) in H; [done|]. by destruct (negb _) in H.
  - destruct Hr as [Hr|Hr]; [destruct (m_files m !! UnitPath); [done|by injection Hr as ->]|]. by injection Hr as ->.
Qed.

Lemma write_ok p c m fl m' fl' : write_file p c (m, fl) = (Ok tt, (m', fl')) -> m'.(m_files) = <[p := c]> m.(m_files) /\ m'.(m_sys) = m.(m_sys).
Proof using.
  intros H. unfold write_file, create_file, fill_file, bind, syscall in H.
  destruct fl as [|[] [|[] fl]]; cbn in H; try done; injection H as <- _; cbn; by rewrite insert_insert_eq.
Qed.

(** After an installation the unit is the one that was asked for. *)
Lemma install_writes exe d o m fl m' fl' : install exe d o (m, fl) = (Ok tt, (m', fl')) ->
  no_control d = true /\ no_control (listener o) = true /\
  m'.(m_files) !! UnitPath = Some (unit_text (with_defaults (if d =?s "" then DefaultDataDir else d) o)).
Proof using.
  intros H. apply install_files in H as [(e & ? & _)|(Hd & Hl & prior & m1 & fl1 & had & mA & flA & Ep & SA & _ & H)]; [done|].
  split; [done|]. split; [done|]. destruct H as [(_ & SB & x & ->)|(mB & flB & H & SB)].
  - apply prior_unit_text in Ep as [Ep _]. unfold same_files in *. congruence.
  - rewrite SB. unfold install_changes in H.
    apply bind_inv in H as [(? & mC & flC & _ & H)|(e & _ & ?)]; [|done]. apply attempt_bind in H as (q & mD & flD & E & H).
    destruct q as [[]|e].
    2: { exfalso. apply bind_inv in H as [(? & ? & ? & _ & ?)|(? & _ & ?)]; done. }
    apply bind_inv in E as [(? & mE & flE & _ & E)|(? & _ & ?)]; [|done].
    apply bind_inv in E as [([] & mF & flF & Ew & E)|(? & _ & ?)]; [|done]. apply write_ok in Ew as [Ew _].
    assert (agree (fun p => p = UnitPath) mF mB) as K.
    { etrans; [exact (within_ok _ _ _ _ _ _ _ (keeps_steps _ _) E)|]. eapply within_ok; [|exact H]. apply within_ignore, keeps_remove. discriminate. }
    rewrite (K UnitPath eq_refl), Ew. apply lookup_insert_eq.
Qed.

(** A percent sign in the path of the environment file locks the service out.
    Nothing refuses it when the service is installed, but from then on no command
    works: not even removing the service or installing it again. *)
Theorem percent_locks_out exe d o m fl m' fl' : install exe d o (m, fl) = (Ok tt, (m', fl')) ->
  trim_space d = d -> trim_space (listener o) = listener o -> recordable o.(o_envfile) -> mode_ok o -> has_any "%" o.(o_envfile) = true ->
  forall op fl1, is_ok (perform op (m', fl1)).1 = false /\ (perform op (m', fl1)).2.1 = m'.
Proof using.
  intros H Td Tl He Hm Hp op fl1. apply install_writes in H as (Hd & Hl & Hu). eapply foreign_refused; [exact Hu|].
  set (d' := if d =?s "" then DefaultDataDir else d).
  assert (recordable d') as Rd by (unfold d'; destruct (d =?s ""); done).
  rewrite percent_unit_is_malformed; [done|..].
  - unfold with_defaults. destruct (_ =?s modeExplicit); [destruct (_ && _)|]; done.
  - assert (recordable (listener o)) as Rl by done. unfold with_defaults, listener in *. destruct Hm as [Em|[Em El]]; rewrite Em.
    + change (modeBootstrap =?s modeExplicit) with false. cbn [o_listen o_host o_port].
      destruct (String.eqb_spec (o_listen o) "") as [E|E]; [done|]. apply String.eqb_neq in E. by rewrite E in *.
    + rewrite String.eqb_refl. destruct (_ && _); cbn [o_listen o_host o_port]; rewrite El in *; done.
  - unfold with_defaults. destruct (_ =?s modeExplicit); [destruct (_ && _)|]; done.
  - unfold with_defaults, mode_ok. destruct Hm as [Em|[Em El]]; rewrite Em.
    + change (modeBootstrap =?s modeExplicit) with false. by left.
    + rewrite String.eqb_refl. right. by destruct (_ && _).
  - unfold with_defaults. destruct (_ =?s modeExplicit); [destruct (_ && _)|]; done.
Qed.
End Installed.

(** ** What systemctl is relied on for *)

(** The effect of a call that exits with 0 on the words that [is-enabled] and
    [is-active] answer. *)
Definition effect (args : list string) (w w' : string * string) : Prop :=
  (args = ["disable"; unit_name] -> w' = ("disabled", w.2)) /\
  (args = ["enable"; unit_name] -> w' = ("enabled", w.2)) /\
  (args = ["enable"; "--runtime"; unit_name] -> w'.2 = w.2 /\ (w.1 = "disabled" -> w'.1 = "enabled-runtime")) /\
  (args = ["start"; unit_name] \/ args = ["restart"; unit_name] -> w' = (w.1, "active")) /\
  (args = ["stop"; unit_name] -> w'.1 = w.1 /\ (restorableActiveWord w.2 = true -> w'.2 = "inactive")) /\
  (args = ["daemon-reload"] \/ args = ["reset-failed"; unit_name] -> w'.1 = w.1 /\ (restorableActiveWord w.2 = true -> w'.2 = w.2)).

(** systemd, as its manual describes it: the state words; a call that fails
    changes nothing, but for one that starts the service, after which the service
    may be in any state. *)
Class Systemd `{SY : System} := {
  words : sysstate -> string * string;
  word_law : forall (enabled : bool) f s,
    let '(o, s') := command "systemctl" [if enabled then "is-enabled" else "is-active"; unit_name] f s in
    words s' = words s /\ forall out code, o = Exited out code -> trim_space out = if enabled then (words s).1 else (words s).2;
  done_law : forall args f s out s', command "systemctl" args f s = (Exited out 0, s') -> effect args (words s) (words s');
  failed_law : forall args f s o s', command "systemctl" args f s = (o, s') -> (forall out, o <> Exited out 0) ->
    (words s').1 = (words s).1 /\ (hd "" args <> "start" -> hd "" args <> "restart" -> (words s').2 = (words s).2);
  other_law : forall name args f s, name <> "systemctl" -> words (command name args f s).2 = words s }.

Section Words.
Context `{SD : Systemd}.

Definition w (m : machine) : string * string := words m.(m_sys).
(** Files and words stay as they are. *)
Definition steady (m m' : machine) : Prop := same_files m m' /\ w m' = w m.
#[export] Instance steady_refl : Reflexive steady.
Proof using. by intros m. Qed.
#[export] Instance steady_trans : Transitive steady.
Proof using. intros a b c [H1 H2] [H3 H4]. split; [by etrans|congruence]. Qed.

Lemma steady_host {A} (c : M host A) : within steady (on_host c).
Proof using. intros m fl. unfold on_host. by destruct (c (m_host m, fl)) as [r [h fl']]. Qed.
Lemma steady_read p : within steady (read_file p).
Proof using. by apply within_syscall; [apply _|]. Qed.
Lemma steady_sum p : within steady (fileSHA256 p).
Proof using. apply within_bind; [apply _|apply steady_read|]. intros b. apply within_ret, _. Qed.
Lemma steady_other name args : name <> "systemctl" -> within steady (run_command name args).
Proof using SD.
  intros H m fl. unfold run_command. pose proof (other_law name args (m_files m) (m_sys m) H) as K.
  by destruct (command name args (m_files m) (m_sys m)).
Qed.
Lemma steady_account : within steady ensureServiceAccount.
Proof using SD.
  unfold ensureServiceAccount. cbv zeta. apply within_bind; [apply _|by apply steady_other|]. intros o.
  assert (forall name o, within steady (match o with
    | Exited out code => if (code =? 0) || contains out "exists" then ret tt else throw (name ++ ": " ++ trim_space out)
    | NotRun _ => throw (name ++ ": ")
    end)) as K.
  { intros name [out code|e]; [destruct (_ || _)|]; first [apply within_ret, _|apply within_throw, _]. }
  apply within_bind; [apply _|apply K|]. intros _. apply within_bind; [apply _|by apply steady_other|]. intros o'. apply K.
Qed.

Lemma word_inv (enabled : bool) m fl r m' fl' : unitStateWord (if enabled then "is-enabled" else "is-active") (m, fl) = (r, (m', fl')) ->
  steady m m' /\ forall x, r = Ok x -> x = if enabled then (w m).1 else (w m).2.
Proof using SD.
  intros H. unfold unitStateWord, systemctl, run_command, bind in H. pose proof (word_law enabled (m_files m) (m_sys m)) as K.
  destruct (command _ _ _ _) as [o s']. destruct K as [K1 K2]. destruct o as [out code|e]; injection H as <- <- _; (split; [by split|]); [|done].
  intros x [= <-]. by apply (K2 out code).
Qed.
Lemma steady_word (enabled : bool) : within steady (unitStateWord (if enabled then "is-enabled" else "is-active")).
Proof using SD. intros m fl. destruct (unitStateWord _ (m, fl)) as [r [m' fl']] eqn:E. apply word_inv in E as [E _]. exact E. Qed.

Lemma prior_inv m fl r m' fl' : prior_unit (m, fl) = (r, (m', fl')) ->
  steady m m' /\ forall x en ac, r = Ok (Some (x, (en, ac))) -> (en, ac) = w m /\ restorableEnabledWord en = true /\ restorableActiveWord ac = true.
Proof using SD.
  intros H. unfold prior_unit in H. apply attempt_bind in H as (q & m1 & fl1 & E & H). pose proof (within_ok _ _ _ _ _ _ _ (steady_read _) E) as S1.
  destruct q as [b|e]; [|by destruct (e =?s ENOENT); injection H as <- <- _].
  destruct (readManagedUnit b) as [meta|e]; [|by injection H as <- <- _]. cbv zeta in H.
  apply attempt_bind in H as (en & m2 & fl2 & E2 & H). apply (word_inv true) in E2 as [S2 K2].
  destruct en as [en|e]; [|injection H as <- <- _; split; [by etrans|done]].
  destruct (restorableEnabledWord en) eqn:Re; cbn [negb] in H; [|injection H as <- <- _; split; [by etrans|done]].
  apply attempt_bind in H as (ac & m3 & fl3 & E3 & H). apply (word_inv false) in E3 as [S3 K3]. assert (steady m m3) as S by (etrans; [|exact S3]; by etrans).
  destruct ac as [ac|e]; [|by injection H as <- <- _].
  destruct (restorableActiveWord ac) eqn:Ra; cbn [negb] in H; [|by injection H as <- <- _].
  destruct (negb _) in H; [by injection H as <- <- _|]. injection H as <- <- _. split; [done|]. intros x en' ac' [= _ <- <-]. split; [|done].
  rewrite (K2 _ eq_refl), (K3 _ eq_refl). destruct S1 as [_ W1], S2 as [_ W2]. rewrite W2, W1. by destruct (w m).
Qed.

Lemma install_steady exe d o m fl r m' fl' : install exe d o (m, fl) = (r, (m', fl')) ->
  let text := unit_text (with_defaults (if d =?s "" then DefaultDataDir else d) o) in
  (exists e, r = Err e /\ steady m m') \/
  no_control d = true /\ no_control (listener o) = true /\
  exists prior m1 fl1 had mA flA, prior_unit (m, fl) = (Ok prior, (m1, fl1)) /\ steady m mA
    /\ (fl = [] -> flA = [] /\ had = match m.(m_files) !! BinaryPath with Some _ => true | None => false end)
    /\ ((r = Ok tt /\ steady mA m' /\ exists x, prior = Some (text, x))
        \/ exists mB flB, install_changes exe text prior had (mA, flA) = (r, (mB, flB)) /\ steady mB m').
Proof using SD.
  apply install_cases; try apply _.
  - by intros a b [H _].
  - intros a fl0. destruct (prior_unit (a, fl0)) as [q [b fl1]] eqn:E. apply prior_inv in E as [E _]. exact E.
  - apply steady_sum.
  - intros A c. apply steady_host.
  - apply steady_account.
Qed.
End Words.

(** ** The state of the service across an installation *)

Section State.
Context `{SD : Systemd}.

(** A call of systemctl that exited with 0. *)
Definition called (args : list string) (m m' : machine) : Prop :=
  same_files m m' /\ exists out, command "systemctl" args m.(m_files) m.(m_sys) = (Exited out 0, m'.(m_sys)).
Lemma called_effect args m m' : called args m m' -> effect args (w m) (w m').
Proof using. intros [_ [out H]]. by apply done_law in H. Qed.

Lemma run_steps_cons a l m fl m' fl' : run_steps (a :: l) (m, fl) = (Ok tt, (m', fl')) ->
  exists m1, called a m m1 /\ run_steps l (m1, fl) = (Ok tt, (m', fl')).
Proof using.
  intros H. cbn [run_steps] in H. unfold bind, systemctl, run_command in H.
  destruct (command "systemctl" a (m_files m) (m_sys m)) as [[out code|e] s] eqn:E; [|done].
  destruct (Z.eqb_spec code 0) as [->|]; [|done]. exists (set_sys s m). split; [|done]. split; [done|]. by exists out.
Qed.
Lemma success_called args m fl m' fl' : systemctlSuccess args (m, fl) = (Ok tt, (m', fl')) -> called args m m' /\ fl' = fl.
Proof using.
  intros H. unfold systemctlSuccess, bind, systemctl, run_command in H.
  destruct (command "systemctl" args (m_files m) (m_sys m)) as [[out code|e] s] eqn:E; [|done].
  destruct (Z.eqb_spec code 0) as [->|]; [|done]. injection H as <- <-. split; [|done]. split; [done|]. by exists out.
Qed.

(** Enablement, when the steps that restore it have been called. *)
Fixpoint all_called (l : list (list string)) (m m' : machine) : Prop :=
  match l with [] => m' = m | a :: l' => exists m1, called a m m1 /\ all_called l' m1 m' end.
Lemma run_steps_called l : forall m fl m' fl', run_steps l (m, fl) = (Ok tt, (m', fl')) -> all_called l m m'.
Proof using.
  induction l as [|a l IH]; intros m fl m' fl' H; [by injection H as <- _|]. apply run_steps_cons in H as (m1 & H1 & H).
  exists m1. split; [done|]. by eapply IH.
Qed.
Lemma in_turn_called l : forall m fl m' fl', in_turn l (m, fl) = (Ok tt, (m', fl')) -> all_called l m m' /\ fl' = fl.
Proof using.
  induction l as [|a l IH]; intros m fl m' fl' H; [by injection H as <- <-|]. cbn [in_turn] in H.
  apply bind_inv in H as [([] & m1 & fl1 & E & H)|(e & _ & ?)]; [|done]. apply success_called in E as [E ->].
  destruct (IH _ _ _ _ H) as [K ->]. split; [|done]. by exists m1.
Qed.
Lemma all_called_app a : forall b m m', all_called (a ++ b)%list m m' -> exists m1, all_called a m m1 /\ all_called b m1 m'.
Proof using.
  induction a as [|x a IH]; intros b m m' H; [by exists m|]. cbn [app all_called] in *. destruct H as (m1 & H1 & H).
  destruct (IH _ _ _ H) as (m2 & H2 & H3). exists m2. split; [|done]. by exists m1.
Qed.

Lemma enable_called en m m' : restorableEnabledWord en = true -> all_called (enableRestoreSteps en unit_name) m m' -> w m' = (en, (w m).2).
Proof using.
  intros Hr H. unfold enableRestoreSteps in H.
  destruct (String.eqb_spec en "enabled") as [->|H1].
  { destruct H as (m1 & C1 & m2 & C2 & ->). apply called_effect in C1 as (E1 & _), C2 as (_ & E2 & _). by rewrite E2, E1. }
  destruct (String.eqb_spec en "enabled-runtime") as [->|H2].
  { destruct H as (m1 & C1 & m2 & C2 & ->). apply called_effect in C1 as (E1 & _), C2 as (_ & _ & E2 & _). specialize (E1 eq_refl).
    destruct (E2 eq_refl) as [E3 E4]. rewrite E1 in E3, E4. rewrite (surjective_pairing (w m2)), E3, E4; done. }
  destruct H as (m1 & C1 & ->). apply called_effect in C1 as (E1 & _). rewrite E1; [|done]. f_equal.
  unfold restorableEnabledWord in Hr. apply Smem_In in Hr. cbn in Hr. intuition congruence.
Qed.

Lemma active_called ac m m' : restorableActiveWord ac = true -> (ac = "inactive" -> restorableActiveWord (w m).2 = true) ->
  called (activeRestoreArgs ac unit_name) m m' -> w m' = ((w m).1, ac).
Proof using.
  intros Hr Hi H. unfold activeRestoreArgs in H. destruct (String.eqb_spec ac "active") as [->|Hn].
  - apply called_effect in H as (_ & _ & _ & E & _). apply E. by right.
  - assert (ac = "inactive") as -> by (unfold restorableActiveWord in Hr; apply Smem_In in Hr; cbn in Hr; intuition congruence).
    apply called_effect in H as (_ & _ & _ & _ & E & _). destruct (E eq_refl) as [E1 E2]. rewrite (surjective_pairing (w m')), E1, E2; [done|by apply Hi].
Qed.

Lemma install_steps_some text en ac : install_steps (Some (text, (en, ac)))
  = (["daemon-reload"] :: enableRestoreSteps en unit_name ++ (if ac =?s "active" then [["reset-failed"; unit_name]] else []) ++ [activeRestoreArgs ac unit_name])%list.
Proof using.
  unfold install_steps, activeRestoreArgs, enableRestoreSteps. cbv zeta.
  destruct (ac =?s "active"), (en =?s "enabled"), (en =?s "enabled-runtime"); reflexivity.
Qed.

Lemma steps_restore text en ac m fl m' fl' : restorableEnabledWord en = true -> restorableActiveWord ac = true -> w m = (en, ac) ->
  run_steps (install_steps (Some (text, (en, ac)))) (m, fl) = (Ok tt, (m', fl')) -> w m' = (en, ac).
Proof using.
  intros He Ha Hw H. apply run_steps_called in H. rewrite install_steps_some in H. destruct H as (m1 & C1 & H).
  apply called_effect in C1 as (_ & _ & _ & _ & _ & E1). destruct (E1 (or_introl eq_refl)) as [E2 E3]. rewrite Hw in E2, E3. cbn [fst snd] in *. specialize (E3 Ha).
  apply all_called_app in H as (m2 & H2 & H). apply enable_called in H2; [|done]. rewrite E3 in H2.
  apply all_called_app in H as (m3 & H3 & H). destruct H as (m4 & H4 & ->).
  assert (w m3 = (en, ac)) as W3.
  { destruct (ac =?s "active") in H3; [|cbn in H3; by subst]. destruct H3 as (m5 & C5 & ->). apply called_effect in C5 as (_ & _ & _ & _ & _ & E5).
    destruct (E5 (or_intror eq_refl)) as [E6 E7]. rewrite H2 in E6, E7. cbn in *. rewrite (surjective_pairing (w m5)), E6, E7; done. }
  apply active_called in H4; [by rewrite H4, W3|done|by rewrite W3].
Qed.

Lemma copy_words src dst m fl r m' fl' : copyFile src dst (m, fl) = (r, (m', fl')) -> w m' = w m.
Proof using.
  assert (within (fun a b => w b = w a) (copyFile src dst)) as K.
  { assert (Reflexive (fun a b => w b = w a)) by done. assert (Transitive (fun a b => w b = w a)) by (intros a b c; congruence).
    assert (forall p, within (fun a b => w b = w a) (stat_file p)) by (intros p; by apply within_syscall).
    assert (forall p, within (fun a b => w b = w a) (create_file p)) by (intros p; by apply within_syscall).
    assert (forall p, within (fun a b => w b = w a) (read_file p)) by (intros p; by apply within_syscall).
    assert (forall p c, within (fun a b => w b = w a) (fill_file p c)) by (intros p c; by apply within_syscall).
    assert (within (fun a b => w b = w a) sync_file) by by apply within_syscall.
    assert (forall a b, within (fun a b => w b = w a) (rename_file a b)) by (intros a b; apply within_syscall; [done|]; intros s; by destruct (m_files s !! a)).
    unfold copyFile. cbv zeta. repeat (apply within_bind; [apply _|done|intros ?]). done. }
  intros H. by apply (within_ok _ _ _ _ _ _ _ K H).
Qed.
Lemma remove_words p m fl r m' fl' : ignore tt (remove_file p) (m, fl) = (r, (m', fl')) -> w m' = w m.
Proof using.
  intros H. unfold ignore, remove_file, syscall in H. destruct fl as [|[] fl]; [|by injection H as _ <- _|]; destruct (m_files m !! p); by injection H as _ <- _.
Qed.
Lemma write_words p c m fl r m' fl' : write_file p c (m, fl) = (r, (m', fl')) -> w m' = w m.
Proof using. intros H. unfold write_file, bind, create_file, fill_file, syscall in H. destruct fl as [|[] [|[] fl]]; cbn in H; by injection H as _ <- _. Qed.

(** An installation leaves the service as it was.  Installing over a unit that
    is there keeps it enabled or disabled, for this boot or for good, running or
    stopped, exactly as it was; a first installation enables and starts it. *)
Theorem install_keeps_the_state exe d o m fl m' fl' : install exe d o (m, fl) = (Ok tt, (m', fl')) ->
  w m' = match m.(m_files) !! UnitPath with Some _ => w m | None => ("enabled", "active") end.
Proof using.
  intros H. apply install_steady in H as [(e & ? & _)|(_ & _ & prior & m1 & fl1 & had & mA & flA & Ep & [_ SA] & _ & H)]; [done|].
  pose proof (prior_inv _ _ _ _ _ Ep) as [_ Kp].
  destruct prior as [[b [en ac]]|].
  - destruct (prior_unit_text _ _ _ _ _ _ Ep) as [-> _]. destruct (Kp _ _ _ eq_refl) as (Ew & He & Ha).
    destruct H as [(_ & [_ SB] & _)|(mB & flB & H & [_ SB])]; [by rewrite SB|]. rewrite SB.
    unfold install_changes in H. apply bind_inv in H as [(? & mC & flC & EC & H)|(e & _ & ?)]; [|done].
    assert (w mC = w mA) as WC by (destruct had; [by apply copy_words in EC|by injection EC as _ <- _]).
    apply attempt_bind in H as (q & mD & flD & E & H). destruct q as [[]|e].
    2: { exfalso. apply bind_inv in H as [(? & ? & ? & _ & ?)|(? & _ & ?)]; done. }
    apply remove_words in H. rewrite H.
    apply bind_inv in E as [(? & mE & flE & EE & E)|(? & _ & ?)]; [|done]. apply copy_words in EE.
    apply bind_inv in E as [(? & mF & flF & EF & E)|(? & _ & ?)]; [|done]. apply write_words in EF.
    apply steps_restore in E; [by rewrite E|done|done|congruence].
  - rewrite (prior_unit_none _ _ _ _ Ep). destruct H as [(_ & _ & x & ?)|(mB & flB & H & [_ SB])]; [done|]. rewrite SB.
    unfold install_changes in H. apply bind_inv in H as [(? & mC & flC & EC & H)|(e & _ & ?)]; [|done].
    apply attempt_bind in H as (q & mD & flD & E & H). destruct q as [[]|e].
    2: { exfalso. apply bind_inv in H as [(? & ? & ? & _ & ?)|(? & _ & ?)]; done. }
    apply remove_words in H. rewrite H.
    apply bind_inv in E as [(? & mE & flE & EE & E)|(? & _ & ?)]; [|done].
    apply bind_inv in E as [(? & mF & flF & EF & E)|(? & _ & ?)]; [|done].
    apply run_steps_called in E. change (install_steps None) with [["daemon-reload"]; ["enable"; unit_name]; ["reset-failed"; unit_name]; ["start"; unit_name]] in E.
    destruct E as (m2 & _ & m3 & C3 & m4 & C4 & m5 & C5 & ->).
    apply called_effect in C3 as (_ & E3 & _), C4 as (_ & _ & _ & _ & _ & E4), C5 as (_ & _ & _ & E5 & _).
    rewrite (E5 (or_introl eq_refl)), (proj1 (E4 (or_intror eq_refl))), (E3 eq_refl). done.
Qed.
End State.

(** ** An installation that fails *)

Section Undo.
Context `{SD : Systemd}.

Lemma noting_inv pre c m fl r m' fl' : noting pre c (m, fl) = (r, (m', fl')) ->
  exists q, r = Ok (match q with Ok _ => [] | Err e => [pre ++ e] end) /\ c (m, fl) = (q, (m', fl')).
Proof using.
  intros H. unfold noting in H. apply attempt_bind in H as (q & m1 & fl1 & E & H). injection H as <- <- <-. exists q. by destruct q.
Qed.
Lemma read_nil p m : read_file p (m, []) = (match m.(m_files) !! p with Some c => Ok c | None => Err ENOENT end, (m, [])).
Proof using. unfold read_file, syscall. by destruct (m_files m !! p). Qed.
Lemma copy_nil src dst (m : machine) c : m.(m_files) !! src = Some c -> src <> dst ++ ".new" ->
  exists m', copyFile src dst (m, []) = (Ok tt, (m', [])) /\ m'.(m_files) !! dst = Some c.
Proof using.
  intros Hc Hn. unfold copyFile. cbv zeta. unfold bind at 1, stat_file, syscall. rewrite Hc. cbn [List.tl].
  unfold bind at 1, create_file, syscall. cbn [List.tl]. unfold bind at 1. rewrite read_nil. cbn [m_files set_files]. rewrite lookup_insert_ne, Hc by done.
  unfold bind at 1, fill_file, syscall. cbn [List.tl]. unfold bind at 1, sync_file at 1, syscall. cbn [List.tl]. unfold bind at 1, sync_file at 1, syscall. cbn [List.tl].
  unfold rename_file, syscall. cbn [m_files set_files]. rewrite lookup_insert_eq. eexists. split; [reflexivity|]. cbn. apply lookup_insert_eq.
Qed.
Lemma remove_nil p (m : machine) m' r fl' : ignore ([] : list string) (remove_file p ;;; ret []) (m, []) = (r, (m', fl')) ->
  r = Ok [] /\ fl' = [] /\ m'.(m_files) !! p = None /\ agree (fun q => q <> p) m m' /\ m'.(m_sys) = m.(m_sys).
Proof using.
  intros H. unfold ignore, bind, remove_file, syscall in H. destruct (m_files m !! p) eqn:E; injection H as <- <- <-; split_and!; try done.
  - cbn. apply lookup_delete_eq.
  - intros q Hq. cbn. by rewrite lookup_delete_ne.
Qed.

(** Where an installation and its rollback write. *)
Definition scratch (p : string) : Prop := p = BinaryPath ++ ".new" \/ p = preinstall \/ p = preinstall ++ ".new".

Definition tame (args : list string) : Prop :=
  args = ["disable"; unit_name] \/ args = ["enable"; unit_name] \/ args = ["enable"; "--runtime"; unit_name] \/ args = ["stop"; unit_name]
  \/ args = ["daemon-reload"] \/ args = ["reset-failed"; unit_name].
(** A service that is stopped stays so. *)
Definition idle (m m' : machine) : Prop := (w m).2 = "inactive" -> (w m').2 = "inactive".
#[export] Instance idle_refl : Reflexive idle.
Proof using. intros m H. exact H. Qed.
#[export] Instance idle_trans : Transitive idle.
Proof using. intros a b c H1 H2 H. by apply H2, H1. Qed.
Lemma idle_words m m' : w m' = w m -> idle m m'.
Proof using. intros E H. by rewrite E. Qed.

Lemma idle_command args m o s : tame args -> command "systemctl" args m.(m_files) m.(m_sys) = (o, s) -> idle m (set_sys s m).
Proof using.
  intros Ht E H. change (w (set_sys s m)) with (words s). change (w m) with (words (m_sys m)) in H.
  assert ((exists out, o = Exited out 0) \/ forall out, o <> Exited out 0) as [[out ->]|Hn].
  { destruct o as [out code|e]; [|by right]. destruct (Z.eq_dec code 0) as [->|]; [left; by eexists|]. right. by intros ? [= _ ?]. }
  - apply done_law in E as (E1 & E2 & E3 & _ & E5 & E6).
    destruct Ht as [Ht|[Ht|[Ht|[Ht|[Ht|Ht]]]]].
    + by rewrite (E1 Ht).
    + by rewrite (E2 Ht).
    + by rewrite (proj1 (E3 Ht)).
    + destruct (E5 Ht) as [_ K]. rewrite K; [done|by rewrite H].
    + destruct (E6 (or_introl Ht)) as [_ K]. rewrite K; [done|by rewrite H].
    + destruct (E6 (or_intror Ht)) as [_ K]. rewrite K; [done|by rewrite H].
  - destruct (failed_law _ _ _ _ _ E Hn) as [_ K]. rewrite K; [done| |];
      destruct Ht as [->|[->|[->|[->|[->| ->]]]]]; discriminate.
Qed.
Lemma idle_success args : tame args -> within idle (systemctlSuccess args).
Proof using.
  intros Ht m fl. unfold systemctlSuccess, bind, systemctl, run_command. destruct (command _ _ _ _) as [o s] eqn:E. apply idle_command in E; [|done].
  destruct o as [out code|e]; [destruct (code =? 0)|]; exact E.
Qed.
Lemma idle_steps l : Forall tame l -> within idle (run_steps l).
Proof using.
  induction 1 as [|a l Ha _ IH]; intros m fl; [apply idle_refl|]. cbn [run_steps]. unfold bind, systemctl, run_command.
  destruct (command _ _ _ _) as [o s] eqn:E. apply idle_command in E; [|done].
  destruct o as [out code|e]; [destruct (code =? 0)|]; try exact E. cbn [fst snd]. etrans; [exact E|]. apply IH.
Qed.
Lemma idle_in_turn l : Forall tame l -> within idle (in_turn l).
Proof using.
  induction 1 as [|a l Ha _ IH]; intros m fl; [apply idle_refl|]. cbn [in_turn]. apply (within_bind idle); [by apply idle_success|by intros _].
Qed.
Lemma tame_enable en : Forall tame (enableRestoreSteps en unit_name).
Proof using. unfold enableRestoreSteps, tame. destruct (en =?s "enabled"); [|destruct (en =?s "enabled-runtime")]; repeat constructor; tauto. Qed.

(** What the rollback of an installation brings back. *)
Lemma restore_inv prior had (m : machine) r m' fl' : restore prior had (m, []) = (r, (m', fl')) ->
  (had = true -> exists c, m.(m_files) !! preinstall = Some c) ->
  agree (fun p => ~ scratch p /\ p <> BinaryPath /\ p <> UnitPath) m m'
  /\ m'.(m_files) !! BinaryPath = (if had then m.(m_files) !! preinstall else None)
  /\ m'.(m_files) !! UnitPath = (fst <$> prior)
  /\ exists s, r = Ok s /\ match prior with
     | None => True
     | Some (_, (en, ac)) => contains s "rollback incomplete" = true
         \/ (restorableEnabledWord en = true -> restorableActiveWord ac = true -> (ac = "inactive" -> (w m).2 = "inactive") -> w m' = (en, ac))
     end.
Proof using.
  intros H Hp. unfold restore in H.
  apply bind_inv in H as [(e1 & m1 & fl1 & E & H)|(e & E & ->)]; apply noting_inv in E as (q1 & Er & E1); [|done].
  pose proof (within_ok _ _ _ _ _ _ _ (keeps_success (fun _ => True) _) E1) as K1. pose proof (within_ok _ _ _ _ _ _ _ (idle_success ["stop"; unit_name] ltac:(unfold tame; tauto)) E1) as I1.
  apply (quiet_nil (systemctlSuccess _)) in E1; [|auto with quiet]. subst fl1.
  apply bind_inv in H as [(e2 & m2 & fl2 & E & H)|(e & E & ->)]; apply noting_inv in E as (q2 & Er2 & E2); [|done].
  pose proof (within_ok _ _ _ _ _ _ _ (keeps_success (fun _ => True) _) E2) as K2. pose proof (within_ok _ _ _ _ _ _ _ (idle_success ["disable"; unit_name] ltac:(unfold tame; tauto)) E2) as I2.
  apply (quiet_nil (systemctlSuccess _)) in E2; [|auto with quiet]. subst fl2.
  assert (agree (fun _ => True) m m2) as K by by etrans. assert (idle m m2) as I by by etrans. clear K1 K2 I1 I2.
  (* the binary *)
  apply bind_inv in H as [(e3 & m3 & fl3 & E3 & H)|(e & E3 & ->)].
  2: { exfalso. destruct had; [by apply noting_inv in E3 as (? & ? & _)|by apply remove_nil in E3 as [? _]]. }
  assert (fl3 = [] /\ m3.(m_files) !! BinaryPath = (if had then m.(m_files) !! preinstall else None)
    /\ agree (fun p => ~ scratch p /\ p <> BinaryPath) m2 m3 /\ w m3 = w m2) as (-> & B3 & K3 & W3).
  { destruct had.
    - destruct (Hp eq_refl) as [c Hc]. apply noting_inv in E3 as (q & El & E3).
      destruct (copy_nil preinstall BinaryPath m2 c) as (mx & Ex & Bx); [by rewrite (K preinstall Logic.I)|discriminate|].
      rewrite Ex in E3. injection E3 as <- <- <-. split; [done|]. rewrite Bx, Hc. split; [done|]. split; [|by eapply copy_words].
      eapply within_ok; [|exact Ex]. apply keeps_copy; [by intros [_ Q]|]. intros [Q _]. apply Q. by left.
    - apply remove_nil in E3 as (_ & -> & B & A & W). split_and!; try done; [|unfold w; by rewrite W].
      intros p [_ Hp']. by apply A. }
  (* the copy of the binary *)
  apply bind_inv in H as [([] & m4 & fl4 & E4 & H)|(e & E4 & ->)].
  2: { exfalso. unfold ignore in E4. by destruct (remove_file preinstall (m3, [])) as [[] []]. }
  assert (agree (fun p => p <> preinstall) m3 m4) as K4 by (eapply within_ok; [|exact E4]; apply within_ignore, keeps_remove; tauto).
  pose proof (remove_words _ _ _ _ _ _ E4) as W4. apply (quiet_nil (ignore tt (remove_file preinstall))) in E4; [|apply quiet_ignore, quiet_syscall]. subst fl4.
  (* the unit *)
  apply bind_inv in H as [(e4 & m5 & fl5 & E5 & H)|(e & E5 & ->)].
  2: { exfalso. destruct prior as [[t x]|]; [by apply noting_inv in E5 as (? & ? & _)|by apply remove_nil in E5 as [? _]]. }
  assert (fl5 = [] /\ m5.(m_files) !! UnitPath = (fst <$> prior) /\ agree (fun p => p <> UnitPath) m4 m5 /\ w m5 = w m4) as (-> & U5 & K5 & W5).
  { destruct prior as [[t x]|].
    - apply noting_inv in E5 as (q & _ & E5). pose proof (write_words _ _ _ _ _ _ _ E5) as W.
      assert (q = Ok tt /\ fl5 = []) as [-> ->] by by injection E5 as <- _ <-. pose proof (write_ok _ _ _ _ _ _ E5) as [F _].
      split_and!; [done|rewrite F; apply lookup_insert_eq| |done]. intros p Hp'. rewrite F. by rewrite lookup_insert_ne.
    - apply remove_nil in E5 as (_ & -> & B & A & W). split_and!; try done. unfold w. by rewrite W. }
  (* systemd *)
  apply bind_inv in H as [(e5 & m6 & fl6 & E & H)|(e & E & ->)]; apply noting_inv in E as (q6 & Er6 & E6); [|done].
  pose proof (within_ok _ _ _ _ _ _ _ (keeps_success (fun _ => True) _) E6) as K6. pose proof (within_ok _ _ _ _ _ _ _ (idle_success ["daemon-reload"] ltac:(unfold tame; tauto)) E6) as I6.
  apply (quiet_nil (systemctlSuccess _)) in E6; [|auto with quiet]. subst fl6.
  assert (idle m m6) as I' by (etrans; [exact I|]; etrans; [|exact I6]; apply idle_words; congruence).
  assert (agree (fun p => ~ scratch p /\ p <> BinaryPath /\ p <> UnitPath) m m6) as K'.
  { intros p (H1 & H2 & H3). rewrite (K6 p Logic.I), (K5 p H3), (K4 p), (K3 p), (K p Logic.I); [done|done|]. intros ->. apply H1. right. by left. }
  assert (m6.(m_files) !! BinaryPath = (if had then m.(m_files) !! preinstall else None)) as B6.
  { rewrite (K6 BinaryPath Logic.I), (K5 BinaryPath), (K4 BinaryPath); [done|discriminate|discriminate]. }
  assert (m6.(m_files) !! UnitPath = (fst <$> prior)) as U6 by by rewrite (K6 UnitPath Logic.I).
  apply bind_inv in H as [(e6 & m7 & fl7 & E7 & H)|(e & E7 & ->)].
  - injection H as <- <- _.
    assert (agree (fun _ => True) m6 m7) as K7.
    { destruct prior as [[t [en ac]]|]; [|by injection E7 as _ <- _]. eapply within_ok; [|exact E7]. solve_keeps. }
    split_and!; [by etrans; [exact K'|]; intros p _; apply K7|by rewrite (K7 BinaryPath Logic.I)|by rewrite (K7 UnitPath Logic.I)|].
    eexists. split; [reflexivity|]. destruct prior as [[t [en ac]]|]; [|done].
    destruct (e1 ++ e2 ++ e3 ++ e4 ++ e5 ++ e6)%list eqn:El.
    2: { left. rewrite <- El. apply (contains_app "; " "rollback incomplete" (": " ++ join "; " _)). }
    right. intros Re Ra Hi. repeat (apply app_eq_nil in El as [_ El]). subst e6.
    apply bind_inv in E7 as [(a & m8 & fl8 & E8 & E7)|(e & _ & ?)]; [|done]. apply noting_inv in E8 as (q8 & Ea & E8). injection Ea as ->.
    apply bind_inv in E7 as [(b & m9 & fl9 & E9 & E7)|(e & _ & ?)]; [|done].
    apply bind_inv in E7 as [(c & m10 & fl10 & E10 & E7)|(e & _ & ?)]; [|done]. apply noting_inv in E10 as (q10 & Ec & E10). injection Ec as ->.
    injection E7 as El <- _. apply app_eq_nil in El as [Ea El]. apply app_eq_nil in El as [Eb Ec].
    destruct q8 as [[]|]; [|done]. destruct q10 as [[]|]; [|done].
    pose proof (within_ok _ _ _ _ _ _ _ (idle_in_turn _ (tame_enable en)) E8) as I8.
    apply in_turn_called in E8 as [E8 _]. apply enable_called in E8; [|done].
    apply success_called in E10 as [E10 _].
    assert (w m9 = w m8 \/ ac = "active" /\ (w m9).1 = (w m8).1) as W9.
    { destruct (String.eqb_spec ac "active") as [Ea'|]; [|injection E9 as _ <- _; by left]. right. split; [done|].
      apply noting_inv in E9 as (q9 & _ & E9). unfold resetFailed, bind, systemctl, run_command in E9.
      destruct (command "systemctl" _ _ _) as [o s] eqn:Eo.
      assert ((words s).1 = (w m8).1) as Ws.
      { destruct o as [out code|e]; [destruct (Z.eq_dec code 0) as [->|]|].
        - apply done_law in Eo as (_ & _ & _ & _ & _ & Eo). apply (Eo (or_intror eq_refl)).
        - apply (failed_law _ _ _ _ _ Eo). by intros ? [= _ ?].
        - apply (failed_law _ _ _ _ _ Eo). done. }
      destruct o as [out code|e]; [destruct (code =? 0); [|destruct (contains _ _)]|]; by injection E9 as _ <- _. }
    apply active_called in E10; [|done|].
    + rewrite E10. f_equal. destruct W9 as [->|[_ ->]]; by rewrite E8.
    + intros ->. destruct W9 as [->|[? _]]; [|done]. rewrite (I8 (I' (Hi eq_refl))). done.
  - exfalso. destruct prior as [[t [en ac]]|]; [|done].
    apply bind_inv in E7 as [(a & m8 & fl8 & E8 & E7)|(e' & E8 & _)]; [|by apply noting_inv in E8 as (? & ? & _)].
    apply bind_inv in E7 as [(b & m9 & fl9 & E9 & E7)|(e' & E9 & _)]; [|destruct (ac =?s "active"); [by apply noting_inv in E9 as (? & ? & _)|done]].
    apply bind_inv in E7 as [(c & m10 & fl10 & E10 & E7)|(e' & E10 & _)]; [done|by apply noting_inv in E10 as (? & ? & _)].
Qed.

Lemma body_idle exe text prior m fl r m' fl' en : (exists t, prior = Some (t, (en, "inactive"))) ->
  (copyFile exe BinaryPath ;;; write_file UnitPath text ;;; run_steps (install_steps prior))%sql (m, fl) = (r, (m', fl')) -> idle m m'.
Proof using.
  intros [t ->] H. apply bind_inv in H as [(? & m1 & fl1 & E & H)|(? & E & _)]; [|by apply idle_words; eapply copy_words].
  apply copy_words in E. apply bind_inv in H as [([] & m2 & fl2 & E2 & H)|(? & E2 & _)]; apply write_words in E2; [|apply idle_words; congruence].
  etrans; [apply idle_words; rewrite E2; exact E|]. eapply within_ok; [|exact H]. apply idle_steps. rewrite install_steps_some.
  constructor; [unfold tame; tauto|]. apply Forall_app; split; [apply tame_enable|]. cbn. constructor; [|constructor]. unfold tame. tauto.
Qed.
Lemma body_keeps exe text prior :
  within (agree (fun p => p <> BinaryPath /\ p <> BinaryPath ++ ".new" /\ p <> UnitPath)) (copyFile exe BinaryPath ;;; write_file UnitPath text ;;; run_steps (install_steps prior)).
Proof using.
  apply within_bind; [apply _|apply keeps_copy; tauto|]. intros _. apply within_bind; [apply _|apply keeps_write; tauto|]. intros _. apply keeps_steps.
Qed.
Lemma not_scratch_paths : ~ scratch BinaryPath /\ ~ scratch UnitPath.
Proof using. split; intros [H|[H|H]]; discriminate H. Qed.

Lemma changes_undone exe text prior had (m : machine) e m' fl' : install_changes exe text prior had (m, []) = (Err e, (m', fl')) ->
  had = (match m.(m_files) !! BinaryPath with Some _ => true | None => false end) -> m.(m_files) !! UnitPath = (fst <$> prior) ->
  (forall p, ~ scratch p -> m'.(m_files) !! p = m.(m_files) !! p)
  /\ match prior with
     | None => True
     | Some (_, (en, ac)) => contains e "rollback incomplete" = true
         \/ (restorableEnabledWord en = true -> restorableActiveWord ac = true -> w m = (en, ac) -> w m' = (en, ac))
     end.
Proof using.
  intros H Hh Hu. unfold install_changes in H. destruct not_scratch_paths as [Nb Nu].
  assert (exists m1, (if had then copyFile BinaryPath preinstall else ret tt) (m, []) = (Ok tt, (m1, []))
    /\ (had = true -> m1.(m_files) !! preinstall = m.(m_files) !! BinaryPath) /\ w m1 = w m /\ agree (fun p => ~ scratch p) m m1) as (m1 & E1 & P1 & W1 & K1).
  { destruct had; [|by exists m]. destruct (m_files m !! BinaryPath) as [old|] eqn:Eo; [|done].
    destruct (copy_nil BinaryPath preinstall m old) as (m1 & E1 & P1); [done|discriminate|]. exists m1. split_and!; [done|done|by eapply copy_words|].
    eapply within_ok; [|exact E1]. apply keeps_copy; intros Q; apply Q; unfold scratch; tauto. }
  unfold bind at 1 in H. rewrite E1 in H.
  apply attempt_bind in H as (q & m2 & fl2 & E2 & H). destruct q as [[]|e0].
  { exfalso. unfold ignore in H. by destruct (remove_file preinstall (m2, fl2)) as [[] []]. }
  pose proof (within_ok _ _ _ _ _ _ _ (body_keeps _ _ _) E2) as K2.
  assert (fl2 = []) as -> by (eapply quiet_nil; [|exact E2]; solve_quiet).
  assert (m2.(m_files) !! preinstall = m1.(m_files) !! preinstall) as P2 by (apply K2; split_and!; discriminate).
  apply bind_inv in H as [(rb & m3 & fl3 & E3 & H)|(e3 & E3 & Hr)].
  - injection H as <- <- _. apply restore_inv in E3 as (K3 & B3 & U3 & s & Es & W3).
    + injection Es as <-. split.
      * intros p Hp. destruct (decide (p = BinaryPath)) as [->|Hb].
        { rewrite B3. destruct had; [by rewrite P2, P1|]. by destruct (m_files m !! BinaryPath). }
        destruct (decide (p = UnitPath)) as [->|Hu']; [by rewrite U3, Hu|].
        rewrite (K3 p), (K2 p), (K1 p); [done|done| |done]. split_and!; [done| |done]. intros ->. apply Hp. by left.
      * destruct prior as [[t [en ac]]|]; [|done]. destruct W3 as [W3|W3].
        { left. revert W3. rewrite contains_spec. intros (a & b & ->). rewrite <- string_app_assoc. apply contains_app. }
        right. intros Re Ra Hw. apply W3; [done|done|]. intros ->.
        apply (body_idle _ _ _ _ _ _ _ _ en) in E2; [|by exists t]. apply E2. by rewrite W1, Hw.
    + intros ->. rewrite P2, P1 by done. destruct (m_files m !! BinaryPath) as [c|]; [by exists c|done].
  - exfalso. apply restore_inv in E3 as (_ & _ & _ & s & Es & _); [done|].
    intros ->. rewrite P2, P1 by done. destruct (m_files m !! BinaryPath) as [c|]; [by exists c|done].
Qed.

(** C17: a failed installation changes nothing.  Whatever systemctl answers, when
    [install] fails and no operation on a file was refused, every file is as it was
    before, but for the copies it works with; and a service that was installed
    before is enabled and running as it was, or the error says that the rollback
    is incomplete. *)
Theorem failed_install_is_undone exe d o m e m' fl' : install exe d o (m, []) = (Err e, (m', fl')) ->
  (forall p, ~ scratch p -> m'.(m_files) !! p = m.(m_files) !! p)
  /\ (m.(m_files) !! UnitPath <> None -> w m' = w m \/ contains e "rollback incomplete" = true).
Proof using.
  intros H. apply install_steady in H as [(e' & _ & [S1 S2])|(_ & _ & prior & m1 & fl1 & had & mA & flA & Ep & [SA WA] & Q & H)].
  { rewrite S1. split; [done|]. intros _. by left. }
  destruct (Q eq_refl) as [-> Hh]. destruct H as [(? & _)|(mB & flB & H & [SB WB])]; [done|].
  pose proof (prior_inv _ _ _ _ _ Ep) as [_ Kp]. rewrite <- SA in Hh |- *. rewrite SB, WB, <- WA.
  assert (mA.(m_files) !! UnitPath = (fst <$> prior)) as Hu.
  { rewrite SA. destruct prior as [[t x]|]; [by destruct (prior_unit_text _ _ _ _ _ _ Ep) as [-> _]|by apply prior_unit_none in Ep]. }
  apply changes_undone in H as [F W]; [|done|done]. split; [done|]. intros Hn.
  destruct prior as [[t [en ac]]|]; [|by rewrite Hu in Hn]. destruct (Kp _ _ _ eq_refl) as (Ew & He & Ha).
  destruct W as [W|W]; [by right|left]. rewrite W; congruence.
Qed.
End Undo.

(** ** Witnesses *)

(** The small systemd keeps the laws. *)
Definition demo_words (s : demo_sys) : string * string := (enabled_word s.(dm_enabled), active_word s.(dm_active)).
Ltac demo_cases :=
  repeat match goal with
    | H : (if ?b then _ else _) = _ |- _ => destruct b eqn:?
    | H : (match ?x !! ?y with _ => _ end) = _ |- _ => destruct (x !! y)
    | H : (match ?x with _ => _ end) = _ |- _ => destruct x
    end.
Lemma demo_failed args f s o s' : demo_command "systemctl" args f s = (o, s') -> (forall out, o <> Exited out 0) ->
  s'.(dm_enabled) = s.(dm_enabled) /\ (hd "" args <> "start" -> hd "" args <> "restart" -> s'.(dm_active) = s.(dm_active)).
Proof.
  intros H Ho. unfold demo_command, demo_verb in H. change (negb ("systemctl" =?s "systemctl")) with false in H. cbv iota zeta in H.
  demo_cases; injection H as <- <-; try done; try (by edestruct Ho).
  split; [done|]. intros N1 N2. exfalso. cbn in N1, N2.
  match goal with H : (_ || _) = true |- _ => apply orb_true_iff in H as [H|H]; by apply String.eqb_eq in H end.
Qed.
#[export, refine] Instance demo_systemd : Systemd := { words := demo_words }.
Proof.
  - intros [] f [e a t].
    + cbn. split; [done|]. intros out code [= <- <-]. by destruct e.
    + cbn. split; [done|]. intros out code [= <- <-]. by destruct a.
  - intros args f [e a t] out s' H. unfold effect, demo_words. cbn [command demo_system] in H.
    split_and!; [intros ->|intros ->|intros ->|intros [-> | ->]|intros ->|intros [-> | ->]]; cbn in H; try (by injection H as <- <-).
    + injection H as <- <-. by destruct e.
    + destruct (f !! _) as [b|]; [|done]. destruct (String.eqb b "broken"); [done|by injection H as <- <-].
    + destruct (f !! _) as [b|]; [|done]. destruct (String.eqb b "broken"); [done|by injection H as <- <-].
  - intros args f s o s' H Ho. apply demo_failed in H as [E A]; [|done]. unfold demo_words. rewrite E. split; [done|].
    intros N1 N2. cbn. by rewrite A.
  - intros name args f s N. cbn [command demo_system]. unfold demo_command. apply String.eqb_neq in N. by rewrite N.
Defined.

Definition demo_unit : string := unit_text (with_defaults "/srv/web" (demo_options "")).
Definition demo_installed (exe : string) : machine := demo_machine [("/tmp/wf", exe); (BinaryPath, "old"); (UnitPath, demo_unit)] Runtime true.

Lemma foreign_units_are_left_alone_witness :
  let m := demo_machine [(UnitPath, "[Unit]")] Enabled true in
  (perform (OInstall "/tmp/wf" "/srv/web" (demo_options "")) (m, [])).2.1 = m.
Proof. refine (proj2 (foreign_units_are_left_alone (demo_machine [(UnitPath, "[Unit]")] Enabled true) "[Unit]" _ _ _ [])); vm_compute; reflexivity. Defined.

(** Installed over, for this boot only, while it runs; a read of the binary is refused. *)
Definition demo_reinstall : result unit * (machine * faults) := install "/tmp/wf" "/srv/web" (demo_options "/etc/wf.env") (demo_installed "new", [false; false; true]).
Lemma demo_reinstall_eq : demo_reinstall = (Ok tt, (demo_reinstall.2.1, [])).
Proof. apply DataDir.outcome; vm_compute; reflexivity. Qed.
Lemma install_keeps_the_state_witness : w demo_reinstall.2.1 = ("enabled-runtime", "active").
Proof. exact (install_keeps_the_state _ _ _ _ _ _ _ demo_reinstall_eq). Defined.

Definition demo_failed_install : result unit * (machine * faults) := install "/tmp/wf" "/srv/web" (demo_options "/etc/wf.env") (demo_installed "broken", []).
Definition demo_error : string := match demo_failed_install.1 with Err e => e | Ok _ => "" end.
Lemma demo_failed_eq : demo_failed_install = (Err demo_error, (demo_failed_install.2.1, [])).
Proof. apply DataDir.outcome; vm_compute; reflexivity. Qed.
Lemma failed_install_is_undone_witness : demo_failed_install.2.1.(m_files) !! BinaryPath = Some "old".
Proof.
  rewrite (proj1 (failed_install_is_undone _ _ _ _ _ _ _ demo_failed_eq) BinaryPath); [vm_compute; reflexivity|].
  intros [H|[H|H]]; discriminate H.
Defined.

Definition demo_percent : result unit * (machine * faults) := install "/tmp/wf" "/srv/web" (demo_options "/etc/wf%.env") (demo_installed "new", []).
Lemma demo_percent_eq : demo_percent = (Ok tt, (demo_percent.2.1, [])).
Proof. apply DataDir.outcome; vm_compute; reflexivity. Qed.
Lemma percent_locks_out_witness : is_ok (Uninstall (demo_percent.2.1, [])).1 = false.
Proof.
  refine (proj1 (percent_locks_out _ _ _ _ _ _ _ demo_percent_eq _ _ _ _ _ OUninstall [])); try (vm_compute; reflexivity).
  - split; vm_compute; reflexivity.
  - by left.
Defined.

(** Reading the binary that is there is refused once: the installer takes it for
    absent, and when the new one cannot be started it removes it. *)
Example unread_binary_is_lost :
  let r := install "/tmp/wf" "/srv/web" (demo_options "/etc/wf.env") (demo_installed "broken", [false; false; true]) in
  (demo_installed "broken").(m_files) !! BinaryPath = Some "old" /\ is_ok r.1 = false /\ r.2.1.(m_files) !! BinaryPath = None.
Proof. vm_compute. done. Qed.
