(* ===== verification/ServiceUpdate.v ===== *)
(** What holds of the updates of the service ([Service]): an update is atomic, a
    rollback takes it back and loses neither version, waiting for health ends. *)
From S2P Require Import Prelude GoStr GoPath Sha256 UnitFile SqlM DataDir Service ServiceDemo ServiceFacts.
Open Scope string_scope.
Open Scope Z_scope.
Open Scope wf_scope.
Open Scope sql_scope.

Section Updates.
Context `{SY : System}.

Lemma string_app_ne (p : string) c s : p <> p ++ String c s.
Proof using.
  intros H. apply (f_equal String.length) in H. rewrite append_length in H. cbn in H. lia.
Qed.

Lemma copy_ok src dst (m : machine) fl m' fl' : copyFile src dst (m, fl) = (Ok tt, (m', fl')) -> src <> dst ++ ".new" ->
  exists c, m.(m_files) !! src = Some c /\ m'.(m_files) !! dst = Some c.
Proof using.
  intros H Hn. unfold copyFile in H. cbv zeta in H.
  apply bind_inv in H as [([] & m1 & fl1 & E1 & H)|(? & _ & ?)]; [|done]. apply syscall_inv in E1 as [(_ & ? & _)|E1]; [done|].
  destruct (m_files m !! src) as [c|] eqn:Ec; [|done]. injection E1 as <-. exists c. split; [done|].
  apply bind_inv in H as [([] & m2 & fl2 & E2 & H)|(? & _ & ?)]; [|done]. apply syscall_inv in E2 as [(_ & ? & _)|E2]; [done|]. injection E2 as <-.
  apply bind_inv in H as [(c' & m3 & fl3 & E3 & H)|(? & _ & ?)]; [|done]. apply syscall_inv in E3 as [(_ & ? & _)|E3]; [done|].
  cbn in E3. rewrite lookup_insert_ne, Ec in E3 by done. injection E3 as <- <-.
  apply bind_inv in H as [([] & m4 & fl4 & E4 & H)|(? & _ & ?)]; [|done]. apply syscall_inv in E4 as [(_ & ? & _)|E4]; [done|]. injection E4 as <-.
  apply bind_inv in H as [([] & m5 & fl5 & E5 & H)|(? & _ & ?)]; [|done]. apply syscall_inv in E5 as [(_ & ? & _)|E5]; [done|]. injection E5 as <-.
  apply bind_inv in H as [([] & m6 & fl6 & E6 & H)|(? & _ & ?)]; [|done]. apply syscall_inv in E6 as [(_ & ? & _)|E6]; [done|]. injection E6 as <-.
  apply syscall_inv in H as [(_ & ? & _)|H]; [done|]. cbn in H. rewrite lookup_insert_eq in H. injection H as <-. cbn. apply lookup_insert_eq.
Qed.

(** A copy that fails has not touched its target. *)
Lemma copy_err src dst (m : machine) fl e m' fl' : copyFile src dst (m, fl) = (Err e, (m', fl')) -> agree (fun p => p <> dst ++ ".new") m m'.
Proof using.
  intros H. unfold copyFile in H. cbv zeta in H. set (P := fun p => p <> dst ++ ".new").
  apply bind_inv in H as [([] & m1 & fl1 & E1 & H)|(? & E1 & _)]; pose proof (within_ok _ _ _ _ _ _ _ (keeps_stat P _) E1) as K1; [|done].
  assert (~ P (dst ++ ".new")) as Hn by (intros Q; by apply Q).
  apply bind_inv in H as [([] & m2 & fl2 & E2 & H)|(? & E2 & _)]; pose proof (within_ok _ _ _ _ _ _ _ (keeps_create P _ Hn) E2) as K2; [|by etrans].
  apply bind_inv in H as [(c & m3 & fl3 & E3 & H)|(? & E3 & _)]; pose proof (within_ok _ _ _ _ _ _ _ (keeps_read P _) E3) as K3; [|etrans; [exact K1|by etrans]].
  apply bind_inv in H as [([] & m4 & fl4 & E4 & H)|(? & E4 & _)]; pose proof (within_ok _ _ _ _ _ _ _ (keeps_fill P _ c Hn) E4) as K4;
    [|etrans; [exact K1|etrans; [exact K2|by etrans]]].
  apply bind_inv in H as [([] & m5 & fl5 & E5 & H)|(? & E5 & _)]; pose proof (within_ok _ _ _ _ _ _ _ (keeps_sync P) E5) as K5;
    [|etrans; [exact K1|etrans; [exact K2|etrans; [exact K3|by etrans]]]].
  apply bind_inv in H as [([] & m6 & fl6 & E6 & H)|(? & E6 & _)]; pose proof (within_ok _ _ _ _ _ _ _ (keeps_sync P) E6) as K6.
  - assert (m' = m6) as ->.
    { apply syscall_inv in H as [(-> & _)|H]; [done|]. cbn in H. destruct (m_files m6 !! (dst ++ ".new")) eqn:En in H; by inversion H. }
    etrans; [exact K1|etrans; [exact K2|etrans; [exact K3|etrans; [exact K4|by etrans]]]].
  - etrans; [exact K1|etrans; [exact K2|etrans; [exact K3|etrans; [exact K4|by etrans]]]].
Qed.

Definition own (p : string) : Prop := p = rollback_path \/ p = rollback_path ++ ".new" \/ p = marker_path.

(** What the copy at the start of an update leaves. *)
Lemma back_up_inv x (m : machine) fl r m' fl' old : back_up x (m, fl) = (r, (m', fl')) -> m.(m_files) !! BinaryPath = Some old ->
  agree (fun p => ~ own p) m m'
  /\ (r = Ok tt -> m'.(m_files) !! rollback_path = Some old /\ m'.(m_files) !! marker_path = Some x \/ m' = m /\ fl <> []).
Proof using.
  intros H Ho. unfold back_up in H. apply attempt_bind in H as (q & m1 & fl1 & E1 & H).
  assert (m1 = m) as -> by (apply syscall_inv in E1 as [(-> & _)|E1]; [done|]; destruct (m_files m !! BinaryPath); by inversion E1).
  destruct q as [[]|e].
  2: { injection H as <- <- _. split; [done|]. intros _. right. split; [done|]. apply syscall_inv in E1 as [(_ & _ & ?)|E1]; [done|]. by rewrite Ho in E1. }
  assert (within (agree (fun p => ~ own p)) (copyFile BinaryPath rollback_path)) as Kc by (apply keeps_copy; intros Q; apply Q; unfold own; tauto).
  apply bind_inv in H as [([] & m2 & fl2 & E2 & H)|(e & E2 & ->)]; pose proof (within_ok _ _ _ _ _ _ _ Kc E2) as K2; [|done].
  apply copy_ok in E2 as (c & Ec & R2); [|discriminate]. rewrite Ho in Ec. injection Ec as <-.
  apply attempt_bind in H as (q & m3 & fl3 & E3 & H).
  assert (agree (fun p => ~ own p) m2 m3) as K3 by (eapply within_ok; [|exact E3]; apply keeps_write; intros Q; apply Q; unfold own; tauto).
  destruct q as [[]|e].
  - injection H as <- <- _. split; [by etrans|]. intros _. left. apply write_ok in E3 as [F _]. rewrite F. split; [by rewrite lookup_insert_ne|apply lookup_insert_eq].
  - apply bind_inv in H as [([] & m4 & fl4 & E4 & H)|(e' & E4 & Hr)].
    + injection H as <- <- _. split; [|done]. etrans; [exact K2|]. etrans; [exact K3|]. eapply within_ok; [|exact E4].
      apply within_ignore, keeps_remove. intros Q. apply Q. unfold own. tauto.
    + exfalso. unfold ignore in E4. by destruct (remove_file rollback_path (m3, fl3)) as [[] []].
Qed.

(** A recovery that reports success has put the copy back. *)
Lemma recovery_inv (m : machine) fl m' fl' : restoreAfterFailedUpdate (m, fl) = (Ok tt, (m', fl')) ->
  exists x c, m.(m_files) !! marker_path = Some x /\ m.(m_files) !! rollback_path = Some c /\ m'.(m_files) !! BinaryPath = Some c.
Proof using.
  intros H. unfold restoreAfterFailedUpdate in H. apply attempt_bind in H as (q & m1 & fl1 & E1 & H). destruct q as [x|e]; [|done].
  apply syscall_inv in E1 as [(_ & ? & _)|E1]; [done|]. destruct (m_files m !! marker_path) as [x'|] eqn:Ex; [|done]. injection E1 as -> <-.
  cbv zeta in H. destruct (negb _) in H; [done|].
  apply attempt_bind in H as (q & m2 & fl2 & E2 & H). destruct q as [[]|e]; [|done].
  pose proof (within_ok _ _ _ _ _ _ _ (keeps_success (fun _ => True) _) E2) as K2.
  apply attempt_bind in H as (q & m3 & fl3 & E3 & H). destruct q as [[]|e]; [|done].
  apply copy_ok in E3 as (c & Ec & Bc); [|discriminate]. rewrite (K2 rollback_path Logic.I) in Ec. exists x, c. split_and!; [done|done|].
  rewrite <- Bc. assert (forall a b, agree (fun p => p = BinaryPath) a b -> b.(m_files) !! BinaryPath = a.(m_files) !! BinaryPath) as K by by intros a b Q; apply Q.
  apply K. clear Bc. revert H. match goal with |- ?c0 _ = _ -> _ => assert (within (agree (fun p => p = BinaryPath)) c0) as W end.
  { solve_keeps; discriminate. }
  intros H. eapply within_ok; [exact W|exact H].
Qed.

Lemma recovering_inv msg (m : machine) fl r m' fl' : recovering msg (m, fl) = (r, (m', fl')) ->
  exists e, r = Err e /\ (contains e "recovery also failed" = true \/ restoreAfterFailedUpdate (m, fl) = (Ok tt, (m', fl'))).
Proof using.
  intros H. unfold recovering in H. apply attempt_bind in H as (q & m1 & fl1 & E & H). injection H as <- <- <-. eexists. split; [reflexivity|].
  destruct q as [[]|e]; [by right|left].
  replace (msg ++ "; recovery also failed: " ++ e) with ((msg ++ "; ") ++ "recovery also failed" ++ (": " ++ e)) by by rewrite !string_app_assoc.
  apply contains_app.
Qed.

(** The restart after an update: it keeps the new binary, or reports an error after
    a recovery. *)
Lemma restart_updated_inv (m : machine) fl r m' fl' : restart_updated (m, fl) = (r, (m', fl')) ->
  (r = Ok tt /\ same_files m m') \/
  exists e, r = Err e /\ (contains e "recovery also failed" = true \/ exists m1 fl1, same_files m m1 /\ restoreAfterFailedUpdate (m1, fl1) = (Ok tt, (m', fl'))).
Proof using.
  intros H. unfold restart_updated in H. apply attempt_bind in H as (q & m1 & fl1 & E1 & H).
  pose proof (within_ok _ _ _ _ _ _ _ (keeps_same _ (keeps_reset _)) E1) as K1.
  assert (forall msg m2 fl2, same_files m m2 -> recovering msg (m2, fl2) = (r, (m', fl')) ->
    exists e, r = Err e /\ (contains e "recovery also failed" = true \/ exists m1 fl1, same_files m m1 /\ restoreAfterFailedUpdate (m1, fl1) = (Ok tt, (m', fl')))) as K.
  { intros msg m2 fl2 S2 G. apply recovering_inv in G as (e & -> & [G|G]); eexists; (split; [reflexivity|]); [by left|right; by exists m2, fl2]. }
  destruct q as [[]|e]; [|right; by eapply K].
  apply bind_inv in H as [(o & m2 & fl2 & E2 & H)|(e & E2 & ->)]; [|unfold systemctl, run_command in E2; by destruct (command _ _ _ _)].
  pose proof (within_ok _ _ _ _ _ _ _ (keeps_same _ (keeps_command _ _ _)) E2) as K2. assert (same_files m m2) as S2 by by etrans.
  cbv zeta in H. destruct o as [out code|e]; [|right; by eapply K]. destruct (code =? 0) in H; [|right; by eapply K].
  apply attempt_bind in H as (q & m3 & fl3 & E3 & H). pose proof (within_ok _ _ _ _ _ _ _ (keeps_same _ (keeps_verify _)) E3) as K3.
  assert (same_files m m3) as S3 by by etrans. destruct q as [[]|e]; [|right; by eapply K]. injection H as <- <- _. by left.
Qed.

Lemma quiet_managed verb : quiet (requireManaged verb).
Proof using. unfold requireManaged, read_file. solve_quiet. Qed.
Lemma quiet_verify_sum p want : quiet (Verify p want).
Proof using. unfold Verify, read_file. solve_quiet. Qed.
Lemma checked_inv artifact want (m : machine) fl m' fl' : Verify artifact want (m, fl) = (Ok tt, (m', fl')) ->
  m' = m /\ exists a, m.(m_files) !! artifact = Some a /\ equal_fold (hex_sum a) (trim_space want) = true.
Proof using.
  intros H. unfold Verify in H. apply bind_inv in H as [(b & m1 & fl1 & E & H)|(? & _ & ?)]; [|done].
  apply syscall_inv in E as [(_ & ? & _)|E]; [done|]. destruct (m_files m !! artifact) as [a|] eqn:Ea; [|done]. injection E as -> <-.
  destruct (equal_fold _ _) eqn:Eq in H; [|done]. injection H as <- <-. split; [done|]. by exists b.
Qed.

Lemma Update_inv artifact want (m : machine) fl r m' fl' old : Update artifact want (m, fl) = (r, (m', fl')) ->
  m.(m_files) !! BinaryPath = Some old ->
  ~ own artifact -> artifact <> BinaryPath ++ ".new" -> (m.(m_files) !! marker_path = None \/ fl = []) ->
  match r with
  | Ok _ => exists a, m.(m_files) !! artifact = Some a /\ m'.(m_files) !! BinaryPath = Some a /\ equal_fold (hex_sum a) (trim_space want) = true
               /\ (fl = [] -> m'.(m_files) !! rollback_path = Some old)
  | Err e => m'.(m_files) !! BinaryPath = Some old \/ contains e "recovery also failed" = true
  end.
Proof using.
  intros H Ho Na Nn Hm. unfold Update in H.
  assert (forall a b, same_files a b -> a.(m_files) !! BinaryPath = Some old -> b.(m_files) !! BinaryPath = Some old) as Same by (intros a b ->; done).
  apply bind_inv in H as [([] & m1 & fl1 & E1 & H)|(e & E1 & ->)]; pose proof (silent_linux m fl) as S; rewrite E1 in S; cbn in S; subst; [|by left].
  assert (fl1 = fl) as -> by (unfold requireLinux in E1; destruct linux; by inversion E1). clear E1.
  destruct (negb isRoot) in H; [injection H as <- <- _; by left|].
  assert (within same_files (requireManaged "update")) as Km by apply keeps_same, keeps_managed.
  apply bind_inv in H as [([] & m1 & fl1 & E1 & H)|(e & E1 & ->)]; pose proof (within_ok _ _ _ _ _ _ _ Km E1) as K1; [|left; by eapply Same].
  apply bind_inv in H as [([] & m2 & fl2 & E2 & H)|(e & E2 & ->)].
  2: { left. eapply Same; [|exact Ho]. etrans; [exact K1|]. eapply within_ok; [|exact E2]. apply keeps_same. unfold Verify. solve_keeps. }
  assert (fl = [] -> fl2 = []) as Q2.
  { intros ->. apply quiet_nil in E1 as ->; [|apply quiet_managed]. eapply quiet_nil; [apply quiet_verify_sum|exact E2]. }
  apply checked_inv in E2 as [-> (a & Ea & Eq)]. rewrite K1 in Ea.
  apply attempt_bind in H as (q & m3 & fl3 & E3 & H). pose proof (within_ok _ _ _ _ _ _ _ (keeps_same _ (keeps_word _ _)) E3) as K3.
  assert (same_files m m3) as S3 by by etrans.
  destruct q as [x|e]; [|injection H as <- <- _; left; by eapply Same].
  destruct (negb (known_state x)) in H; [injection H as <- <- _; left; by eapply Same|].
  assert (m3.(m_files) !! BinaryPath = Some old) as Ho3 by by eapply Same.
  apply bind_inv in H as [([] & m4 & fl4 & E4 & H)|(e & E4 & ->)]; apply (back_up_inv _ _ _ _ _ _ old) in E4 as [K4 R4]; try done.
  2: { left. rewrite K4; [done|]. intros [Q|[Q|Q]]; discriminate Q. }
  specialize (R4 eq_refl).
  assert (fl = [] -> fl3 = []) as Q3.
  { intros N. eapply quiet_nil; [apply (quiet_word "is-active")|]. rewrite <- E3, (Q2 N). reflexivity. }
  assert (m_files m4 !! artifact = Some a) as Ea4 by (rewrite K4, S3; done).
  apply bind_inv in H as [([] & m5 & fl5 & E5 & H)|(e & E5 & ->)].
  2: { left. apply copy_err in E5. rewrite E5, K4; [done| |discriminate]. intros [Q|[Q|Q]]; discriminate Q. }
  assert (agree (fun p => p <> BinaryPath /\ p <> BinaryPath ++ ".new") m4 m5) as K5 by (eapply within_ok; [|exact E5]; apply keeps_copy; tauto).
  apply copy_ok in E5 as (a' & Ea' & B5); [|done]. rewrite Ea4 in Ea'. injection Ea' as <-.
  assert (forall fin, same_files m5 fin -> exists a0, m.(m_files) !! artifact = Some a0 /\ fin.(m_files) !! BinaryPath = Some a0
    /\ equal_fold (hex_sum a0) (trim_space want) = true /\ (fl = [] -> fin.(m_files) !! rollback_path = Some old)) as Done.
  { intros fin F. exists a. rewrite F. split_and!; try done. intros N. rewrite K5 by done. destruct R4 as [[R4 _]|[_ F4]]; [done|exfalso; by apply F4, Q3]. }
  destruct (x =?s "active") in H; [|injection H as <- <- _; by apply Done].
  apply restart_updated_inv in H as [[-> S6]|(e & -> & [C|(m6 & fl6 & S6 & R)])]; [by apply Done|by right|left].
  apply recovery_inv in R as (y & c & Ey & Ec & ->). rewrite S6, K5 in Ey, Ec by done.
  destruct R4 as [[R4 _]|[-> F]]; [by rewrite R4 in Ec|].
  destruct Hm as [Hm|Hm]; [|exfalso; by apply F, Q3].
  by rewrite S3, Hm in Ey.
Qed.

(** The two moves of a rollback, whatever follows. *)
Lemma remove_absent p (m : machine) fl r m' fl' : ignore tt (remove_file p) (m, fl) = (r, (m', fl')) -> m.(m_files) !! p = None -> m' = m.
Proof using.
  unfold ignore, remove_file, syscall. intros H E. destruct fl as [|[] fl]; rewrite ?E in H; by injection H as _ <- _.
Qed.
Lemma rename_inv a b (m : machine) fl r m' fl' : rename_file a b (m, fl) = (r, (m', fl')) ->
  (is_ok r = false /\ m' = m) \/ exists c, r = Ok tt /\ m.(m_files) !! a = Some c /\ m'.(m_files) = <[b := c]> (delete a m.(m_files)).
Proof using.
  intros H. apply syscall_inv in H as [(-> & -> & _)|H]; [by left|].
  destruct (m_files m !! a) as [c|] eqn:E; inversion H; subst; [right; by exists c|by left].
Qed.
Definition kept (cur prev : string) (f : files) : Prop :=
  (f !! BinaryPath = Some cur \/ f !! failed_path = Some cur) /\ (f !! BinaryPath = Some prev \/ f !! rollback_path = Some prev).

Lemma Rollback_inv (m : machine) fl r m' fl' cur prev : Rollback (m, fl) = (r, (m', fl')) ->
  m.(m_files) !! BinaryPath = Some cur -> m.(m_files) !! rollback_path = Some prev ->
  kept cur prev m'.(m_files)
  /\ (r = Ok tt -> m'.(m_files) !! BinaryPath = Some prev /\ m'.(m_files) !! failed_path = Some cur /\ exists x, m.(m_files) !! marker_path = Some x).
Proof using.
  intros H Hb Hr. unfold Rollback in H.
  assert (forall e fin, same_files m fin -> kept cur prev fin.(m_files) /\ (Err e = Ok tt -> fin.(m_files) !! BinaryPath = Some prev
    /\ fin.(m_files) !! failed_path = Some cur /\ exists x, m.(m_files) !! marker_path = Some x)) as Stop.
  { intros e fin ->. split; [split; [by left|by right]|done]. }
  apply bind_inv in H as [([] & m1 & fl1 & E1 & H)|(e & E1 & ->)]; pose proof (silent_linux m fl) as S; rewrite E1 in S; cbn in S; subst; [|by apply Stop].
  destruct (negb isRoot) in H; [injection H as <- <- _; by apply Stop|].
  assert (within same_files (requireManaged "rollback")) as Km by apply keeps_same, keeps_managed.
  apply bind_inv in H as [([] & m2 & fl2 & E2 & H)|(e & E2 & ->)]; pose proof (within_ok _ _ _ _ _ _ _ Km E2) as K2; [|by apply Stop].
  apply attempt_bind in H as (q & m3 & fl3 & E3 & H). pose proof (within_ok _ _ _ _ _ _ _ (keeps_same _ (keeps_stat _ _)) E3) as K3.
  assert (same_files m m3) as S3 by by etrans. destruct q as [[]|e]; [|injection H as <- <- _; by apply Stop].
  apply attempt_bind in H as (q & m4 & fl4 & E4 & H). pose proof (within_ok _ _ _ _ _ _ _ (keeps_same _ (keeps_read _ _)) E4) as K4.
  assert (same_files m m4) as S4 by by etrans. destruct q as [x|e]; [|injection H as <- <- _; by apply Stop].
  assert (exists x, m.(m_files) !! marker_path = Some x) as Hx.
  { apply syscall_inv in E4 as [(_ & ? & _)|E4]; [done|]. rewrite <- S3. destruct (m_files m3 !! marker_path) as [y|] eqn:Ey; [by exists y|done]. }
  cbv zeta in H. destruct (negb (known_state _)) in H; [injection H as <- <- _; by apply Stop|].
  assert (forall b : bool, within same_files (if b then resetFailed else ret tt)) as Kr by (intros []; apply keeps_same; solve_keeps).
  apply bind_inv in H as [([] & m5 & fl5 & E5 & H)|(e & E5 & ->)]; pose proof (within_ok _ _ _ _ _ _ _ (Kr _) E5) as K5; [|apply Stop; by etrans].
  assert (same_files m m5) as S5 by by etrans.
  apply bind_inv in H as [(q & m6 & fl6 & E6 & H)|(e & E6 & ->)].
  2: { exfalso. unfold ignore in E6. by destruct (remove_file failed_path (m5, fl5)) as [[] []]. }
  assert (agree (fun p => p <> failed_path) m5 m6) as K6 by (eapply within_ok; [|exact E6]; apply within_ignore, keeps_remove; tauto).
  assert (m6.(m_files) !! BinaryPath = Some cur /\ m6.(m_files) !! rollback_path = Some prev) as [Hb6 Hr6] by (rewrite !K6, S5 by discriminate; done).
  apply bind_inv in H as [([] & m7 & fl7 & E7 & H)|(e & E7 & ->)]; apply rename_inv in E7 as [[? ->]|(c & ? & Ec & F7)]; try done.
  2: { split; [split; [by left|by right]|done]. }
  rewrite Hb6 in Ec. injection Ec as <-.
  assert (m7.(m_files) !! failed_path = Some cur /\ m7.(m_files) !! rollback_path = Some prev) as [Hf7 Hr7].
  { rewrite F7, lookup_insert_eq, lookup_insert_ne, lookup_delete_ne by discriminate. done. }
  apply attempt_bind in H as (q8 & m8 & fl8 & E8 & H). apply rename_inv in E8 as [[Hq ->]|(c & -> & Ec & F8)].
  - destruct q8 as [[]|e]; [done|]. apply bind_inv in H as [(q9 & m9 & fl9 & E9 & H)|(e' & E9 & ->)].
    + injection H as <- <- _. split; [|done]. unfold ignore in E9. destruct (rename_file failed_path BinaryPath (m7, fl8)) as [r9 [m9' fl9']] eqn:E.
      assert (m9' = m9) as -> by (destruct r9; by inversion E9). apply rename_inv in E as [[_ ->]|(c & _ & Ec & F9)].
      * split; by right.
      * rewrite Hf7 in Ec. injection Ec as <-. split; [left|right]; rewrite F9; [apply lookup_insert_eq|].
        by rewrite lookup_insert_ne, lookup_delete_ne.
    + exfalso. unfold ignore in E9. by destruct (rename_file failed_path BinaryPath (m7, fl8)) as [[] []].
  - rewrite Hr7 in Ec. injection Ec as <-.
    assert (agree (fun p => p = BinaryPath \/ p = failed_path) m8 m') as K9.
    { eapply within_ok; [|exact H]. solve_keeps; intros [Q|Q]; discriminate Q. }
    assert (m'.(m_files) !! BinaryPath = Some prev /\ m'.(m_files) !! failed_path = Some cur) as [B9 F9].
    { rewrite !K9 by tauto. rewrite F8, lookup_insert_eq, lookup_insert_ne, lookup_delete_ne by discriminate. done. }
    split; [split; [by right|by left]|done].
Qed.

(** A rollback loses no version.  Whatever fails on the way, the binary that ran
    is afterwards at its place or at [.failed], and the one from before the update
    is at its place or still at [.rollback]; a rollback that succeeds has swapped
    them in, and only succeeds where an update recorded the state. *)
Theorem rollback_keeps_both_versions (m : machine) fl r m' fl' cur prev : Rollback (m, fl) = (r, (m', fl')) ->
  m.(m_files) !! BinaryPath = Some cur -> m.(m_files) !! rollback_path = Some prev ->
  ((m'.(m_files) !! BinaryPath = Some cur \/ m'.(m_files) !! failed_path = Some cur)
    /\ (m'.(m_files) !! BinaryPath = Some prev \/ m'.(m_files) !! rollback_path = Some prev))
  /\ (r = Ok tt -> m'.(m_files) !! BinaryPath = Some prev /\ m'.(m_files) !! failed_path = Some cur /\ exists x, m.(m_files) !! marker_path = Some x).
Proof using. intros H Hb Hr. by eapply Rollback_inv. Qed.

(** C16: an update is all or nothing.  Where no earlier update has left its marker,
    whatever operation on a file is refused on the way and whatever systemctl answers,
    and where one has, whatever systemctl answers as long as no operation on a file is
    refused: after [Update] succeeded the binary is the file that was to be installed,
    and its digest is the one that was asked for; after it failed the binary is the
    one from before, or the error says that the recovery failed.  The file must not be
    one of the update's own.  (With an old marker and a refused look at the files the
    recovery puts back what the earlier update saved.) *)
Theorem update_is_atomic artifact want (m : machine) fl r m' fl' old : Update artifact want (m, fl) = (r, (m', fl')) ->
  m.(m_files) !! BinaryPath = Some old ->
  ~ own artifact -> artifact <> BinaryPath ++ ".new" -> (m.(m_files) !! marker_path = None \/ fl = []) ->
  match r with
  | Ok _ => exists a, m.(m_files) !! artifact = Some a /\ m'.(m_files) !! BinaryPath = Some a /\ equal_fold (hex_sum a) (trim_space want) = true
  | Err e => m'.(m_files) !! BinaryPath = Some old \/ contains e "recovery also failed" = true
  end.
Proof using.
  intros H Ho Na Nn Hm. apply (Update_inv _ _ _ _ _ _ _ old) in H; try done. destruct r; [|done]. destruct H as (x & ? & ? & ? & _). by exists x.
Qed.

(** A rollback takes an update back.  When an update succeeded and no operation
    on a file was refused in it, a rollback that succeeds puts back the binary from
    before, and keeps the one it takes out at [.failed]. *)
Theorem rollback_undoes_update artifact want (m m1 m2 : machine) fl fl1 fl2 old :
  Update artifact want (m, []) = (Ok tt, (m1, fl1)) -> m.(m_files) !! BinaryPath = Some old -> ~ own artifact -> artifact <> BinaryPath ++ ".new" ->
  Rollback (m1, fl) = (Ok tt, (m2, fl2)) ->
  m2.(m_files) !! BinaryPath = Some old /\ m2.(m_files) !! failed_path = m.(m_files) !! artifact.
Proof using.
  intros H Ho Na Nn G. apply (Update_inv _ _ _ _ _ _ _ old) in H as (a & Ea & Ba & _ & R); [|done..|by right].
  apply (Rollback_inv _ _ _ _ _ a old) in G as [_ G]; [|done|by apply R]. destruct (G eq_refl) as (? & ? & _). split; [done|congruence].
Qed.
End Updates.

(** ** Waiting for health *)

(** Time does not run backwards, and a pause takes at least as long as it says. *)
Class Clock `{SY : System} := {
  sleep_law : forall d s, clock s + d <= clock (sleep d s);
  command_law : forall name args f s, clock s <= clock (command name args f s).2;
  health_law : forall url f s, clock s <= clock (health url f s).2 }.

Section Waiting.
Context `{CL : Clock}.

(** systemd called the service active, and then it answered. *)
Definition found_healthy (url : string) (m m' : machine) : Prop :=
  exists s out code s1, command "systemctl" ["is-active"; unit_name] m.(m_files) s = (Exited out code, s1) /\ trim_space out = "active"
    /\ health url m.(m_files) s1 = (Ok tt, m'.(m_sys)).

Lemma is_active_inv (m : machine) fl x m' fl' : ignore "" (unitStateWord "is-active") (m, fl) = (Ok x, (m', fl')) ->
  same_files m m' /\ clock m.(m_sys) <= clock m'.(m_sys)
  /\ (x <> "" -> exists out code, command "systemctl" ["is-active"; unit_name] m.(m_files) m.(m_sys) = (Exited out code, m'.(m_sys)) /\ x = trim_space out).
Proof using CL.
  unfold ignore, unitStateWord, bind, systemctl, run_command. pose proof (command_law "systemctl" ["is-active"; unit_name] m.(m_files) m.(m_sys)) as L.
  destruct (command _ _ _ _) as [[out code|e] s] eqn:E; intros [= <- <- <-]; (split; [done|]); (split; [exact L|]); [|done].
  intros _. by exists out, code.
Qed.
Lemma health_inv url (m : machine) fl q m' fl' : healthCheck url (m, fl) = (q, (m', fl')) ->
  same_files m m' /\ clock m.(m_sys) <= clock m'.(m_sys) /\ health url m.(m_files) m.(m_sys) = (q, m'.(m_sys)).
Proof using CL.
  unfold healthCheck. pose proof (health_law url m.(m_files) m.(m_sys)) as L.
  destruct (health _ _ _) as [r s] eqn:E; intros [= <- <- <-]. done.
Qed.

(** One poll: the deadline has passed, or the service was found healthy, or a
    pause later the next poll follows. *)
Lemma poll_inv url deadline n (m : machine) fl r m' fl' : polls (S n) url deadline (m, fl) = (r, (m', fl')) ->
  (deadline <= clock m.(m_sys) /\ r = Err unhealthy /\ m' = m) \/
  (same_files m m' /\ r = Ok tt /\ found_healthy url m m') \/
  clock m.(m_sys) < deadline /\
  exists m1 fl1, same_files m m1 /\ clock m.(m_sys) + 500000000 <= clock m1.(m_sys) /\ polls n url deadline (m1, fl1) = (r, (m', fl')).
Proof using CL.
  cbn [polls]. intros H. unfold bind at 1 in H. cbn [time_now] in H. destruct (clock (m_sys m) <? deadline) eqn:E; cbn [negb] in H.
  2: { injection H as <- <- _. left. apply Z.ltb_ge in E. done. }
  right. apply Z.ltb_lt in E. apply bind_inv in H as [(x & m1 & fl1 & E1 & H)|(e & E1 & _)].
  2: { exfalso. unfold ignore in E1. by destruct (unitStateWord "is-active" (m, fl)) as [[] []]. }
  apply is_active_inv in E1 as (S1 & C1 & X1).
  assert (forall m2 fl2, same_files m m2 -> clock (m_sys m) <= clock (m_sys m2) -> (pause ;;; polls n url deadline)%sql (m2, fl2) = (r, (m', fl')) ->
    exists m1 fl1, same_files m m1 /\ clock m.(m_sys) + 500000000 <= clock m1.(m_sys) /\ polls n url deadline (m1, fl1) = (r, (m', fl'))) as Again.
  { intros m2 fl2 S2 C2 G. unfold bind in G. cbn [pause] in G. eexists _, _. split; [|split; [|exact G]]; [done|]. cbn.
    pose proof (sleep_law 500000000 (m_sys m2)). lia. }
  destruct (trim_space x =?s "active") eqn:A in H; [|right; split; [done|by eapply Again]].
  apply String.eqb_eq in A. destruct X1 as (out & code & X1 & ->); [by intros ->|]. rewrite trim_space_idem in A.
  apply attempt_bind in H as (q & m2 & fl2 & E2 & H).
  apply health_inv in E2 as (S2 & C2 & H2). destruct q as [[]|e]; [|right; split; [done|]; eapply Again; [by etrans| |exact H]; lia].
  left. injection H as <- <- _. split; [by etrans|]. split; [done|]. exists (m_sys m), out, code, (m_sys m1). by rewrite S1 in H2.
Qed.
Lemma polls_end url deadline n : forall (m : machine) fl r m' fl', polls (S n) url deadline (m, fl) = (r, (m', fl')) ->
  deadline <= clock m.(m_sys) + Z.of_nat n * 500000000 ->
  same_files m m' /\ (r = Ok tt /\ found_healthy url m m' \/ r = Err unhealthy /\ deadline <= clock m'.(m_sys)).
Proof using CL.
  induction n as [|n IH]; intros m fl r m' fl' H Hn; apply poll_inv in H as [(D & -> & ->)|[(S1 & -> & F)|(D & m1 & fl1 & S1 & C1 & H)]];
    try (split; [done|by left]); try (split; [done|by right]).
  - lia.
  - apply IH in H as (S2 & H); [|lia]. split; [by etrans|]. destruct H as [[-> (s & out & code & s1 & H)]|H]; [left|by right].
    split; [done|]. exists s, out, code, s1. by rewrite <- S1.
Qed.

(** A wait for health ends.  Time permitting, waiting for the service to become
    healthy stops: with success only when systemd called the service active and
    the service then answered, otherwise with an error, once 30 s have passed.  It
    changes no file. *)
Theorem health_wait_ends (m : machine) fl r m' fl' : verifyActiveAndHealthy (m, fl) = (r, (m', fl')) ->
  same_files m m' /\ ((r = Ok tt /\ exists url, found_healthy url m m') \/ (r = Err unhealthy /\ clock m.(m_sys) + healthWindow <= clock m'.(m_sys))).
Proof using CL.
  unfold verifyActiveAndHealthy. intros H. apply attempt_bind in H as (q & m1 & fl1 & E1 & H).
  assert (m1 = m) as -> by (apply syscall_inv in E1 as [(-> & _)|E1]; [done|]; by inversion E1).
  apply bind_inv in H as [(t & m2 & fl2 & E2 & H)|(e & E2 & _)]; [|done]. injection E2 as <- <- <-.
  apply (polls_end _ _ 60) in H as (S & H); [|unfold healthWindow; lia]. split; [done|].
  destruct H as [[-> H]|H]; [left|by right]. split; [done|]. by eexists.
Qed.
End Waiting.

(** ** Witnesses *)

#[export, refine] Instance demo_time : Clock := {}.
Proof.
  - intros d s. cbn. lia.
  - intros name args f s. change (s.(dm_clock) <= (demo_command name args f s).2.(dm_clock)). enough ((demo_command name args f s).2.(dm_clock) = s.(dm_clock)) by lia.
    unfold demo_command, demo_verb. repeat match goal with
      | |- context [if ?b then _ else _] => destruct b
      | |- context [match ?x !! ?y with _ => _ end] => destruct (x !! y)
      | |- context [match ?x with _ => _ end] => destruct x
      end; done.
  - intros url f s. cbn. lia.
Defined.

Definition demo_update (exe : string) : result unit * (machine * faults) := Update "/tmp/wf" (" " ++ hex_sum exe) (demo_installed exe, []).

(** A binary that runs and does not answer is taken out again after 30 s. *)
Definition demo_sick : result unit * (machine * faults) := demo_update "sick".
Definition error_of {A} (r : result A) : string := match r with Err e => e | Ok _ => "" end.
Definition demo_sick_error : string := error_of demo_sick.1.
Lemma demo_sick_eq : Update "/tmp/wf" (" " ++ hex_sum "sick") (demo_installed "sick", []) = (Err demo_sick_error, (demo_sick.2.1, [])).
Proof. unfold demo_sick, demo_update. apply DataDir.outcome; vm_compute; reflexivity. Qed.
Lemma demo_artifact : ~ own "/tmp/wf".
Proof. intros [H|[H|H]]; discriminate H. Qed.
Lemma update_is_atomic_witness : demo_sick.2.1.(m_files) !! BinaryPath = Some "old" \/ contains demo_sick_error "recovery also failed" = true.
Proof.
  refine (update_is_atomic _ _ _ _ _ _ _ "old" demo_sick_eq _ demo_artifact _ _).
  - vm_compute. reflexivity.
  - discriminate.
  - by right.
Defined.

Definition demo_new : result unit * (machine * faults) := demo_update "new".
Definition demo_back : result unit * (machine * faults) := Rollback (demo_new.2.1, []).
Lemma demo_new_eq : demo_new = (Ok tt, (demo_new.2.1, [])).
Proof. apply DataDir.outcome; vm_compute; reflexivity. Qed.
Lemma demo_back_eq : demo_back = (Ok tt, (demo_back.2.1, [])).
Proof. apply DataDir.outcome; vm_compute; reflexivity. Qed.
Lemma rollback_undoes_update_witness : demo_back.2.1.(m_files) !! BinaryPath = Some "old" /\ demo_back.2.1.(m_files) !! failed_path = Some "new".
Proof.
  refine (rollback_undoes_update _ _ _ _ _ _ _ _ "old" demo_new_eq _ demo_artifact _ demo_back_eq); [vm_compute; reflexivity|discriminate].
Defined.

(** The rename that puts the old binary back is refused. *)
Definition demo_stuck : result unit * (machine * faults) :=
  Rollback (demo_new.2.1, [false; false; false; false; false; true]).
Lemma demo_stuck_eq : demo_stuck = (Err EIO, (demo_stuck.2.1, [])).
Proof. apply DataDir.outcome; vm_compute; reflexivity. Qed.
Lemma demo_new_files : demo_new.2.1.(m_files) !! BinaryPath = Some "new" /\ demo_new.2.1.(m_files) !! rollback_path = Some "old".
Proof. vm_compute. done. Qed.
Lemma rollback_keeps_both_versions_witness : demo_stuck.2.1.(m_files) !! BinaryPath = Some "new" \/ demo_stuck.2.1.(m_files) !! failed_path = Some "new".
Proof. exact (proj1 (proj1 (rollback_keeps_both_versions _ _ _ _ _ "new" "old" demo_stuck_eq (proj1 demo_new_files) (proj2 demo_new_files)))). Defined.

Definition demo_ill : machine := demo_machine [(BinaryPath, "sick")] Enabled true.
Definition demo_wait : result unit * (machine * faults) := verifyActiveAndHealthy (demo_ill, []).
Lemma demo_wait_eq : verifyActiveAndHealthy (demo_ill, []) = (Err unhealthy, (demo_wait.2.1, [])).
Proof. unfold demo_wait. apply DataDir.outcome; vm_compute; reflexivity. Qed.
Lemma health_wait_ends_witness : same_files demo_ill demo_wait.2.1 /\
  ((Err (A:=unit) unhealthy = Ok tt /\ exists url, found_healthy url demo_ill demo_wait.2.1)
   \/ (Err (A:=unit) unhealthy = Err unhealthy /\ clock demo_ill.(m_sys) + healthWindow <= clock demo_wait.2.1.(m_sys))).
Proof. exact (health_wait_ends demo_ill [] (Err unhealthy) demo_wait.2.1 [] demo_wait_eq). Defined.

(** An update from the copy that the last update kept says that it succeeded and
    installs nothing: the copy of the binary in place comes first. *)
Example update_from_rollback_does_nothing :
  let m := demo_machine [(rollback_path, "older"); (BinaryPath, "old"); (UnitPath, demo_unit)] Enabled true in
  let r := Update rollback_path (hex_sum "older") (m, []) in
  r.1 = Ok tt /\ r.2.1.(m_files) !! BinaryPath = Some "old" /\ r.2.1.(m_files) !! rollback_path = Some "old".
Proof. vm_compute. done. Qed.

(** A rollback that fails at its restart has used up the copy it puts back: a
    second attempt finds none. *)
Example failed_rollback_is_not_repeatable :
  let m := demo_machine [(rollback_path, "broken"); (marker_path, "active"); (BinaryPath, "old"); (UnitPath, demo_unit)] Enabled true in
  let r := Rollback (m, []) in
  is_ok r.1 = false /\ (Rollback (r.2.1, [])).1 = Err "no rollback binary available".
Proof. vm_compute. done. Qed.
