(* ===== verification/CommandLine.v ===== *)
(** The command line: the listener ([cmd/webfleet/listen.go]) and [webfleet service]
    with the start of the server ([cmd/webfleet/main.go]).

    The commands act on the machine of [Service]; the environment is that of
    [Config]. *)
From S2P Require Import Prelude GoStr GoPath GoFlag Sha256 UnitFile SqlM DataDir Config Service ServiceDemo ServiceFacts.
Open Scope string_scope.
Open Scope Z_scope.
Open Scope wf_scope.
Open Scope sql_scope.

(** ** Definitions *)

(** *** The listener *)

Definition defaultHost : string := "127.0.0.1".
Definition defaultPort : string := "7336".
(** [os.LookupEnv], for whether a variable is there. *)
Definition is_set (env : environ) (k : string) : bool := match env !! k with Some _ => true | None => false end.

Definition validatePort (p : string) : result unit :=
  match parse_int (trim_space p) with
  | Some n => if (n <? 1) || (65535 <? n) then Err ("port must be an integer from 1 through 65535; got " ++ Quote p) else Ok tt
  | None => Err ("port must be an integer from 1 through 65535; got " ++ Quote p)
  end.

Definition resolve_host (env : environ) (hostFlag : string) (hostSet : bool) : result string :=
  if hostSet then (if trim_space hostFlag =?s "" then Err "--host is set but empty" else Ok (trim_space hostFlag))
  else match env !! "WEBFLEET_HOST" with
       | Some v => if trim_space v =?s "" then Err "WEBFLEET_HOST is set but empty" else Ok (trim_space v)
       | None => Ok defaultHost
       end.
Definition resolve_port (env : environ) (portFlag : string) (portSet : bool) : result string :=
  if portSet then match validatePort portFlag with Err e => Err ("--port: " ++ e) | Ok _ => Ok (trim_space portFlag) end
  else match env !! "WEBFLEET_PORT" with
       | Some v => match validatePort v with Err e => Err ("WEBFLEET_PORT: " ++ e) | Ok _ => Ok (trim_space v) end
       | None => Ok defaultPort
       end.
Definition resolveHostPort (env : environ) (hostFlag portFlag : string) (hostSet portSet : bool) : result (string * string) :=
  match resolve_host env hostFlag hostSet with
  | Err e => Err e
  | Ok host => match resolve_port env portFlag portSet with Err e => Err e | Ok port => Ok (host, port) end
  end.
Definition joined (r : result (string * string)) : result string :=
  match r with Ok (host, port) => Ok (JoinHostPort host port) | Err e => Err e end.

Definition resolveListener (env : environ) (hostFlag portFlag listenFlag : string) (hostSet portSet listenSet : bool) : result string :=
  if listenSet then
    if hostSet || portSet then Err "--listen cannot be combined with --host or --port" else
    if trim_space listenFlag =?s "" then Err "--listen is set but empty" else Ok listenFlag
  else if hostSet || portSet then joined (resolveHostPort env hostFlag portFlag hostSet portSet)
  else match env !! "WEBFLEET_LISTEN" with
       | Some v =>
           if is_set env "WEBFLEET_HOST" then Err "WEBFLEET_LISTEN cannot be combined with WEBFLEET_HOST" else
           if is_set env "WEBFLEET_PORT" then Err "WEBFLEET_LISTEN cannot be combined with WEBFLEET_PORT" else
           if trim_space v =?s "" then Err "WEBFLEET_LISTEN is set but empty" else Ok v
       | None => joined (resolveHostPort env hostFlag portFlag hostSet portSet)
       end.

Definition resolveServiceInstall (env : environ) (hostFlag portFlag listenFlag : string) (hostSet portSet listenSet : bool) : result (string * bool) :=
  match resolveListener env hostFlag portFlag listenFlag hostSet portSet listenSet with
  | Err e => Err e
  | Ok addr => Ok (addr, listenSet || (is_set env "WEBFLEET_LISTEN" && negb hostSet && negb portSet))
  end.
Definition listenerSelectionActive (env : environ) (hostSet portSet listenSet : bool) : bool :=
  hostSet || portSet || listenSet || is_set env "WEBFLEET_HOST" || is_set env "WEBFLEET_PORT" || is_set env "WEBFLEET_LISTEN".
Definition listenerOverrideSelected (env : environ) (p : parsed) : bool :=
  flagProvided p "host" || flagProvided p "port" || is_set env "WEBFLEET_HOST" || is_set env "WEBFLEET_PORT".

(** *** Starting the server: the mode and the address it listens on *)

Definition serve_flags : flag_set := [("host", StringFlag); ("port", StringFlag)].
Definition serve_mode (args : list string) : result (string * list string) :=
  match args with
  | a :: l =>
      if (a =?s "serve") || (a =?s "worker") || (a =?s "analytics-ingest") then Ok (a, l)
      else if has_prefix a "-" then Ok ("integrated", args) else Err ("webfleet: unknown command " ++ a)
  | [] => Ok ("integrated", [])
  end.
(** [listen] is the listener of the loaded configuration. *)
Definition serve_listen (env : environ) (listen : string) (args : list string) : result (string * string) :=
  match serve_mode args with
  | Err e => Err e
  | Ok (mode, args) =>
      match Parse serve_flags args with
      | Err e => Err e
      | Ok p =>
          match p.(rest_args) with
          | [] =>
              match resolveListener env (flag_value p "host") (flag_value p "port") "" (flagProvided p "host") (flagProvided p "port") false with
              | Err e => Err e
              | Ok addr => Ok (mode, if listenerOverrideSelected env p then addr else listen)
              end
          | l => Err ("unexpected arguments: " ++ join " " l)
          end
      end
  end.

(** *** [webfleet service] *)

Record serviceCommand := mk_command {
  sc_verb : string; sc_data : string; sc_listen : string; sc_host : string; sc_port : string; sc_envfile : string;
  sc_follow : bool; sc_artifact : string; sc_sha : string }.
Definition bare_command (verb : string) : serviceCommand := mk_command verb "" "" "" "" "" false "" "".

Definition serviceSuccessMessage (c : serviceCommand) : string :=
  let v := c.(sc_verb) in
  if v =?s "install" then "webfleet.service installed."
  else if v =?s "uninstall" then "webfleet.service uninstalled. Persistent data was preserved."
  else if v =?s "start" then "webfleet.service started."
  else if v =?s "stop" then "webfleet.service stopped."
  else if v =?s "restart" then "webfleet.service restarted."
  else if v =?s "enable" then "webfleet.service enabled at boot."
  else if v =?s "disable" then "webfleet.service disabled at boot."
  else if v =?s "update" then "webfleet.service updated."
  else if v =?s "rollback" then "webfleet.service rolled back."
  else "".

Section Commands.
Context `{SY : System}.
(** [service.Executable()]. *)
Variable Executable : string.

(** The text to print, or an error; [Status] has written its lines in both cases. *)
Definition execServiceCommand (c : serviceCommand) : M machine string :=
  let v := c.(sc_verb) in
  let said (m : M machine unit) : M machine string := m ;;; ret (serviceSuccessMessage c) in
  if v =?s "install" then
    said (if negb (c.(sc_listen) =?s "") then Install Executable c.(sc_data) c.(sc_listen) c.(sc_envfile)
          else InstallExplicit Executable c.(sc_data) c.(sc_host) c.(sc_port) c.(sc_envfile))
  else if v =?s "uninstall" then said Uninstall
  else if v =?s "start" then said Start
  else if v =?s "stop" then said Stop
  else if v =?s "restart" then said Restart
  else if v =?s "enable" then said Enable
  else if v =?s "disable" then said Disable
  else if v =?s "status" then
    let* r := Status in
    match r with (out, Ok _) => ret (lines out) | (_, Err e) => throw e end
  else if v =?s "logs" then Logs c.(sc_follow)
  else if v =?s "update" then said (Update c.(sc_artifact) c.(sc_sha))
  else if v =?s "rollback" then said Rollback
  else ret (serviceSuccessMessage c).

Definition install_flags : flag_set :=
  [("data", StringFlag); ("data-dir", StringFlag); ("listen", StringFlag); ("host", StringFlag); ("port", StringFlag); ("env-file", StringFlag)].

(** The listener that the command records: a pair or an address. *)
Definition with_pair (c : serviceCommand) (hp : string * string) : serviceCommand :=
  mk_command c.(sc_verb) c.(sc_data) c.(sc_listen) hp.1 hp.2 c.(sc_envfile) c.(sc_follow) c.(sc_artifact) c.(sc_sha).
Definition with_listen (c : serviceCommand) (l : string) : serviceCommand :=
  mk_command c.(sc_verb) c.(sc_data) l c.(sc_host) c.(sc_port) c.(sc_envfile) c.(sc_follow) c.(sc_artifact) c.(sc_sha).

Definition parse_install (env : environ) (rest : list string) : M machine serviceCommand :=
  match Parse install_flags rest with
  | Err e => throw ("install: " ++ e)
  | Ok p =>
      let set := flagProvided p in let val := flag_value p in
      if negb (bool_decide (p.(rest_args) = [])) then throw ("install takes no positional arguments: " ++ join " " p.(rest_args)) else
      if set "data" && set "data-dir" then throw "install: --data and --data-dir cannot be combined" else
      let data := if negb (val "data-dir" =?s "") then val "data-dir" else val "data" in
      let data := if data =?s "" then DefaultDataDir else data in
      let cmd := mk_command "install" data "" "" "" (val "env-file") false "" "" in
      match resolveServiceInstall env (val "host") (val "port") (val "listen") (set "host") (set "port") (set "listen") with
      | Err e => throw ("install: " ++ e)
      | Ok (addr, legacy) =>
          let resolved : M machine serviceCommand :=
            if legacy then ret (with_listen cmd addr) else
            match SplitHostPort addr with
            | Err e => throw ("install: cannot split resolved listener " ++ Quote addr ++ ": " ++ e)
            | Ok hp => ret (with_pair cmd hp)
            end in
          if listenerSelectionActive env (set "host") (set "port") (set "listen") then resolved else
          let* r := attempt InstalledListener in
          match r with
          | Err e => throw ("install: existing unit is not valid: " ++ e)
          | Ok (existing, explicit, exists_) =>
              if negb exists_ then resolved else
              if explicit then
                match SplitHostPort existing with
                | Err e => throw ("install: existing unit has an invalid recorded listener " ++ Quote existing ++ ": " ++ e)
                | Ok hp => ret (with_pair cmd hp)
                end
              else ret (with_listen cmd existing)
          end
      end
  end.

Definition parseServiceCommand (env : environ) (args : list string) : M machine serviceCommand :=
  let '(verb, rest) := match args with [] => ("status", []) | v :: l => (v, l) end in
  let flag_in := find_first (fun a => has_prefix a "-") rest in
  if verb =?s "install" then parse_install env rest
  else if verb =?s "logs" then
    match Parse [("follow", BoolFlag)] rest with
    | Err e => throw ("logs: " ++ e)
    | Ok p =>
        if negb (bool_decide (p.(rest_args) = [])) then throw ("logs takes no positional arguments: " ++ join " " p.(rest_args)) else
        ret (mk_command verb "" "" "" "" "" (flag_value p "follow" =?s "true") "" "")
    end
  else if verb =?s "update" then
    match flag_in with
    | Some a => throw ("update takes no flags: " ++ a)
    | None => match rest with
              | [artifact; sha] => ret (mk_command verb "" "" "" "" "" false artifact sha)
              | _ => throw "usage: webfleet service update ARTIFACT SHA256"
              end
    end
  else if Smem verb ["uninstall"; "start"; "stop"; "restart"; "enable"; "disable"; "status"; "rollback"] then
    match flag_in with
    | Some a => throw (verb ++ " takes no flags: " ++ a)
    | None => match rest with
              | [] => ret (bare_command verb)
              | _ => throw (verb ++ " takes no positional arguments: " ++ join " " rest)
              end
    end
  else throw ("unknown service command " ++ Quote verb ++ String nl (String nl
         "Usage: webfleet service <install|uninstall|start|stop|restart|status|enable|disable|logs|update|rollback> [flags]")).

(** The exit code, what is printed and the diagnostics. *)
Definition runServiceIO (env : environ) (args : list string) : M machine (Z * string * string) :=
  let* c := attempt (parseServiceCommand env args) in
  match c with
  | Err e => ret (2, "", "webfleet service: " ++ e ++ String nl "")
  | Ok cmd =>
      let* r := attempt (execServiceCommand cmd) in
      match r with
      | Err e => ret (1, "", "webfleet service " ++ cmd.(sc_verb) ++ ": " ++ e ++ String nl "")
      | Ok output => ret (0, if output =?s "" then "" else output ++ String nl "", "")
      end
  end.
End Commands.

(** ** The listener that is recorded is the listener that is bound *)

(** The words that [systemdQuote] leaves as they are between its quotes. *)
Definition plain_word (w : string) : bool := negb (has_any (String dquote "\$`%") w).
(** The command of a unit: the rest of its first line [ExecStart=]. *)
Definition exec_line (unit : string) : option string :=
  (fun l => trim_prefix l "ExecStart=") <$> List.find (fun l => has_prefix l "ExecStart=") (split_on nl unit).
Fixpoint quoted_words (ws : list string) : string := match ws with [] => "" | w :: l => " " ++ systemdQuote w ++ quoted_words l end.

Lemma find_skip {A} (f : A -> bool) pre x post : Forall (fun l => f l = false) pre -> f x = true -> List.find f (pre ++ x :: post)%list = Some x.
Proof. induction 1 as [|y pre Hy _ IH]; intros Hx; cbn; [by rewrite Hx|by rewrite Hy, IH]. Qed.
Lemma exec_line_explicit d h p e : nl_free d -> nl_free h -> nl_free p -> nl_free e -> trim_space h = h -> trim_space p = p ->
  nl_free (JoinHostPort h p) -> exec_line (buildUnitExplicit d h p e) = Some (BinaryPath ++ quoted_words ["--host"; h; "--port"; p]).
Proof.
  intros Hd Hh Hp He Th Tp Hj. unfold exec_line, buildUnitExplicit. rewrite Th, Tp, split_seal.
  2: { apply Forall_app; split; [by apply meta_lines_ok|]. eapply Forall_impl; [apply unitBodyExplicit_ok; try done; by rewrite ?Th, ?Tp|]. by intros ? [? _]. }
  set (sl := seal_line _). unfold unitBodyExplicit. rewrite Th, Tp. set (d' := if d =?s "" then DefaultDataDir else d).
  set (x := "ExecStart=" ++ BinaryPath ++ " " ++ systemdQuote "--host" ++ " " ++ systemdQuote h ++ " " ++ systemdQuote "--port" ++ " " ++ systemdQuote p).
  replace (unitMarker :: sl :: _)%list
    with ((unitMarker :: sl :: meta_lines d (JoinHostPort h p) modeExplicit e ++ unit_head d' ++ envfile_line e) ++ x :: unit_tail d' ++ [""])%list
    by (cbn [app]; by rewrite <- !app_assoc).
  rewrite find_skip.
  - cbn [fmap option_fmap option_map]. unfold x. rewrite trim_prefix_app. cbn [quoted_words]. by rewrite string_app_nil_r.
  - repeat (constructor; [done|]). apply Forall_app; split; [unfold meta_lines; destruct (e =?s ""); by repeat constructor|].
    apply Forall_app; split; [by repeat constructor|]. unfold envfile_line. destruct (e =?s ""); by repeat constructor.
  - apply (prefix_app "ExecStart=").
Qed.

(** What follows [Environment=] in the lines of a unit. *)
Definition env_lines (unit : string) : list string :=
  List.map (fun l => trim_prefix l "Environment=") (List.filter (fun l => has_prefix l "Environment=") (split_on nl unit)).
Lemma filter_plain {A} (f : A -> bool) l : Forall (fun x => f x = false) l -> List.filter f l = [].
Proof. induction 1 as [|x l H _ IH]; [done|]. cbn. by rewrite H. Qed.
Lemma env_lines_bootstrap d l e : nl_free d -> nl_free l -> nl_free e -> d <> "" -> l <> "" ->
  env_lines (buildUnit d l e) = ["WEBFLEET_DATA_DIR=" ++ systemdQuote d; "WEBFLEET_LISTEN=" ++ systemdQuote l].
Proof.
  intros Hd Hl He Nd Nl. unfold env_lines, buildUnit. rewrite split_seal.
  2: { apply Forall_app; split; [by apply meta_lines_ok|]. eapply Forall_impl; [by apply unitBody_ok|]. by intros ? [? _]. }
  set (sl := seal_line _). unfold unitBody. apply String.eqb_neq in Nd, Nl. rewrite Nd, Nl.
  replace (unitMarker :: sl :: _)%list
    with ((unitMarker :: sl :: meta_lines d l modeBootstrap e ++ firstn 11 (unit_head d)) ++ (("Environment=WEBFLEET_DATA_DIR=" +:+ systemdQuote d) :: ("Environment=WEBFLEET_LISTEN=" +:+ systemdQuote l) ::
           envfile_line e ++ ("ExecStart=" +:+ BinaryPath) :: unit_tail d ++ [""]))%list by (unfold unit_head; cbn [app firstn]; rewrite <- !app_assoc; cbn [app]; rewrite <- ?app_assoc; reflexivity).
  rewrite List.filter_app, filter_plain.
  2: { repeat (constructor; [done|]). apply Forall_app; split; [unfold meta_lines; destruct (e =?s ""); by repeat constructor|cbn [firstn unit_head]; by repeat constructor]. }
  cbn [app List.filter]. change (has_prefix ("Environment=WEBFLEET_DATA_DIR=" +:+ _) _) with true. change (has_prefix ("Environment=WEBFLEET_LISTEN=" +:+ _) _) with true. cbv iota.
  rewrite filter_plain.
  2: { apply Forall_app; split; [unfold envfile_line; destruct (e =?s ""); by repeat constructor|by repeat constructor]. }
  cbn [List.map]. change ("Environment=WEBFLEET_DATA_DIR=" +:+ systemdQuote d) with ("Environment=" ++ ("WEBFLEET_DATA_DIR=" ++ systemdQuote d)).
  change ("Environment=WEBFLEET_LISTEN=" +:+ systemdQuote l) with ("Environment=" ++ ("WEBFLEET_LISTEN=" ++ systemdQuote l)). by rewrite !trim_prefix_app.
Qed.

Section Listening.
(** How systemd splits the command of a unit: words in quotes, without characters
    that mean something there, come back as they are. *)
Variable split_command : string -> list string.
Hypothesis split_law : forall path ws, has_any (String dquote "\ $%") path = false -> Forall (fun w => plain_word w = true) ws ->
  split_command (path ++ quoted_words ws) = path :: ws.

(** How systemd reads what follows [Environment=]: a word in quotes without such
    characters is the value of the name before it. *)
Variable assignments : string -> list (string * string).
Hypothesis assignments_law : forall name w, has_any (String dquote "\ =$%") name = false -> plain_word w = true ->
  assignments (name ++ "=" ++ systemdQuote w) = [(name, w)].
(** The environment of the command of a unit: the later line wins, and what is read
    from the file of [EnvironmentFile=] wins over the lines of the unit. *)
Definition unit_environ (unit : string) (file : environ) : environ :=
  file ∪ List.fold_left (fun (m : environ) (nv : string * string) => <[nv.1 := nv.2]> m) (List.flat_map assignments (env_lines unit)) ∅.

(** The options of a unit with a host and a port. *)
Definition pair_options (o : installOptions) : Prop :=
  o.(o_mode) = modeExplicit /\ o.(o_listen) = "" /\ trim_space o.(o_host) <> "" /\ validatePort o.(o_port) = Ok tt
  /\ plain_word (trim_space o.(o_host)) = true /\ plain_word (trim_space o.(o_port)) = true.

Lemma port_trimmed p : validatePort p = Ok tt -> validatePort (trim_space p) = Ok tt.
Proof using. unfold validatePort. rewrite trim_space_idem. destruct (parse_int (trim_space p)) as [n|]; [|done]. by destruct (_ || _). Qed.
Lemma serve_pair env l h p : trim_space h <> "" -> validatePort p = Ok tt ->
  serve_listen env l ["--host"; h; "--port"; p] = Ok ("integrated", JoinHostPort (trim_space h) (trim_space p)).
Proof using.
  intros Hh Hp. unfold serve_listen. change (serve_mode _) with (Ok ("integrated", ["--host"; h; "--port"; p])). cbv iota.
  change (Parse serve_flags ["--host"; h; "--port"; p]) with (Ok (mk_parsed (<["port" := p]> (<["host" := h]> ∅)) [])). cbv iota. cbn [rest_args].
  unfold flagProvided, flag_value, listenerOverrideSelected, flagProvided. cbn [actual]. rewrite lookup_insert_eq, lookup_insert_ne, lookup_insert_eq by done.
  cbv iota. unfold resolveListener. cbn [orb]. unfold resolveHostPort, resolve_host, resolve_port. apply String.eqb_neq in Hh. by rewrite Hh, Hp.
Qed.
Lemma join_ne h p : JoinHostPort h p <> "".
Proof using. unfold JoinHostPort. destruct (has_byte ":" h); [done|]. by destruct h. Qed.

Lemma exec_line_bootstrap d l e : nl_free d -> nl_free l -> nl_free e -> exec_line (buildUnit d l e) = Some BinaryPath.
Proof using.
  intros Hd Hl He. unfold exec_line, buildUnit. rewrite split_seal.
  2: { apply Forall_app; split; [by apply meta_lines_ok|]. eapply Forall_impl; [by apply unitBody_ok|]. by intros ? [? _]. }
  set (sl := seal_line _). unfold unitBody. set (d' := if d =?s "" then _ else d). set (l' := if l =?s "" then _ else l).
  replace (unitMarker :: sl :: _)%list
    with ((unitMarker :: sl :: meta_lines d l modeBootstrap e ++ unit_head d' ++ ["Environment=WEBFLEET_LISTEN=" +:+ systemdQuote l'] ++ envfile_line e) ++ ("ExecStart=" +:+ BinaryPath) :: unit_tail d' ++ [""])%list
    by (cbn [app]; rewrite <- !app_assoc; cbn [app]; rewrite <- ?app_assoc; reflexivity).
  rewrite find_skip; [done| |done].
  repeat (constructor; [done|]). apply Forall_app; split; [unfold meta_lines; destruct (e =?s ""); by repeat constructor|].
  apply Forall_app; split; [by repeat constructor|]. constructor; [done|]. unfold envfile_line. destruct (e =?s ""); by repeat constructor.
Qed.
Lemma serve_recorded env l : l <> "" -> trim_space l <> "" -> env !! "WEBFLEET_LISTEN" = Some l -> env !! "WEBFLEET_HOST" = None -> env !! "WEBFLEET_PORT" = None ->
  serve_listen env (or_default (Getenv env "WEBFLEET_LISTEN") "127.0.0.1:7336") [] = Ok ("integrated", l).
Proof using.
  intros Nl Hn E1 E2 E3. unfold serve_listen. cbn [serve_mode]. change (Parse serve_flags []) with (Ok (mk_parsed ∅ [])). cbv iota. cbn [rest_args].
  unfold flagProvided, flag_value, listenerOverrideSelected, flagProvided. cbn [actual]. rewrite !lookup_empty. unfold resolveListener, is_set. cbn [orb].
  rewrite E1, E2, E3. apply String.eqb_neq in Hn. rewrite Hn. cbn [orb]. unfold Getenv, or_default. rewrite E1. apply String.eqb_neq in Nl. by rewrite Nl.
Qed.

(** C25: a service listens where its unit says, for options that a unit can record (no
    control characters, no white space around them, no per cent sign in the name of the
    environment file).  The command of a unit that was installed with a host and a port
    starts a server that binds the listener the unit records, whatever the environment
    holds.  The command of a unit that was installed with a listener only, started in the
    environment that the lines of the unit and its environment file make, binds the
    listener the unit records, as long as the file sets neither listener, host nor port
    and the data directory and the listener have no characters that systemd unquotes. *)
Theorem service_listens_where_recorded o env l : o.(o_data) <> "" -> recordable o.(o_data) -> recordable (listener o) ->
  recordable o.(o_envfile) -> has_any "%" o.(o_envfile) = false ->
  (pair_options o -> exists command args meta, exec_line (unit_text o) = Some command /\ split_command command = BinaryPath :: args
    /\ readManagedUnit (unit_text o) = Ok meta /\ serve_listen env l args = Ok ("integrated", effectiveListen meta))
  /\ (o.(o_mode) = modeBootstrap -> trim_space (listener o) <> "" -> plain_word o.(o_data) = true -> plain_word (listener o) = true ->
    exists meta, exec_line (unit_text o) = Some BinaryPath /\ readManagedUnit (unit_text o) = Ok meta /\
      forall file, file !! "WEBFLEET_LISTEN" = None -> file !! "WEBFLEET_HOST" = None -> file !! "WEBFLEET_PORT" = None ->
        let env := unit_environ (unit_text o) file in
        serve_listen env (or_default (Getenv env "WEBFLEET_LISTEN") "127.0.0.1:7336") [] = Ok ("integrated", effectiveListen meta)).
Proof using split_law assignments_law.
  intros Hd0 Hd Hl He Hp. split.
  - intros (Hm & Ho & Hh & Hv & Wh & Wp).
    assert (listener o = JoinHostPort (trim_space o.(o_host)) (trim_space o.(o_port))) as El by (unfold listener; by rewrite Ho).
    destruct (no_control_join (trim_space (o_host o)) (trim_space (o_port o))) as [Nh Np]; [by rewrite <- El; destruct Hl|].
    exists (BinaryPath ++ quoted_words ["--host"; trim_space (o_host o); "--port"; trim_space (o_port o)]), ["--host"; trim_space (o_host o); "--port"; trim_space (o_port o)],
      (mk_unit_meta o.(o_data) (listener o) o.(o_mode) o.(o_envfile)). split_and!.
    + unfold unit_text. rewrite Hm, String.eqb_refl. apply exec_line_explicit; rewrite ?trim_space_idem; try done; try by apply no_control_nl.
      * apply no_control_nl, Hd.
      * apply no_control_nl, He.
      * rewrite <- El. apply no_control_nl, Hl.
    + apply split_law; [done|]. by repeat constructor.
    + apply unit_reads_back; try done; [rewrite El; apply join_ne|by right].
    + rewrite serve_pair; [|by rewrite trim_space_idem|by apply port_trimmed]. rewrite !trim_space_idem. unfold effectiveListen. cbn [um_listen]. by rewrite El.
  - intros Hm Hn Pd Pl. exists (mk_unit_meta o.(o_data) (listener o) o.(o_mode) o.(o_envfile)).
    assert (listener o <> "") as Nl by (intros E; by rewrite E in Hn).
    assert (unit_text o = buildUnit o.(o_data) (listener o) o.(o_envfile)) as Eu by (unfold unit_text; by rewrite Hm).
    assert (nl_free o.(o_data) /\ nl_free (listener o) /\ nl_free o.(o_envfile)) as (Fd & Fl & Fe) by (split_and!; apply no_control_nl; [apply Hd|apply Hl|apply He]).
    split; [by rewrite Eu, exec_line_bootstrap|]. split; [apply unit_reads_back; try done; by left|].
    intros file F1 F2 F3. cbv zeta. unfold unit_environ. rewrite Eu, env_lines_bootstrap by done. cbn [List.flat_map].
    rewrite (assignments_law "WEBFLEET_DATA_DIR" (o_data o) eq_refl Pd : assignments ("WEBFLEET_DATA_DIR=" ++ systemdQuote (o_data o)) = _),
      (assignments_law "WEBFLEET_LISTEN" (listener o) eq_refl Pl : assignments ("WEBFLEET_LISTEN=" ++ systemdQuote (listener o)) = _). cbn [app List.fold_left fst snd]. unfold effectiveListen. cbn [um_listen].
    apply serve_recorded; rewrite ?lookup_union, ?F1, ?F2, ?F3; done.
Qed.
End Listening.

(** ** What the commands do *)

Section Cli.
Context `{SY : System}.
Variable Executable : string.
Abbreviation run_service := (runServiceIO Executable).

Definition verbs : list string := ["install"; "uninstall"; "start"; "stop"; "restart"; "enable"; "disable"; "status"; "logs"; "update"; "rollback"].
(** The commands that the parser may hand on. *)
Definition sound_command (c : serviceCommand) : Prop :=
  let v := c.(sc_verb) in
  if v =?s "install" then
    c.(sc_data) <> "" /\ c.(sc_artifact) = "" /\ c.(sc_sha) = ""
    /\ (c.(sc_listen) <> "" /\ c.(sc_host) = "" /\ c.(sc_port) = "" \/ c.(sc_listen) = "" /\ exists addr, SplitHostPort addr = Ok (c.(sc_host), c.(sc_port)))
  else if v =?s "logs" then c = mk_command "logs" "" "" "" "" "" c.(sc_follow) "" ""
  else if v =?s "update" then c = mk_command "update" "" "" "" "" "" false c.(sc_artifact) c.(sc_sha)
    /\ has_prefix c.(sc_artifact) "-" = false /\ has_prefix c.(sc_sha) "-" = false
  else c = bare_command v /\ Smem v verbs = true.

Lemma readonly_attempt {S A} (c : M S A) : readonly c -> readonly (attempt c).
Proof using. intros H s fl r s' fl' E. unfold attempt in E. destruct (c (s, fl)) as [q [s1 fl1]] eqn:F. injection E as _ <- _. by eapply H. Qed.
Lemma readonly_InstalledListener : readonly InstalledListener.
Proof using.
  intros m fl r m' fl' H. unfold InstalledListener in H. rewrite bind_attempt in H.
  destruct (read_file UnitPath (m, fl)) as [q [m1 fl1]] eqn:E.
  assert (m1 = m) as -> by (apply syscall_inv in E as [(-> & _)|E]; [done|]; by inversion E).
  destruct q as [b|e]; [destruct (readManagedUnit b)|destruct (e =?s ENOENT)]; by injection H as _ <- _.
Qed.
Lemma readonly_parse env args : readonly (parseServiceCommand env args).
Proof using.
  pose proof (readonly_attempt _ readonly_InstalledListener) as R. unfold parseServiceCommand, parse_install. cbv zeta.
  repeat (intros; first [apply readonly_ret|apply readonly_throw|exact R|apply readonly_bind|match goal with |- readonly (match ?x with _ => _ end) => destruct x end]).
Qed.
Lemma InstalledListener_inv (m : machine) fl l explicit ex m' fl' : InstalledListener (m, fl) = (Ok (l, explicit, ex), (m', fl')) ->
  (ex = true -> l <> "") /\ forall b meta, m.(m_files) !! UnitPath = Some b -> readManagedUnit b = Ok meta ->
    ex = true /\ l = meta.(um_listen) /\ explicit = (meta.(um_mode) =?s modeExplicit).
Proof using.
  intros H. unfold InstalledListener in H. rewrite bind_attempt in H.
  destruct (read_file UnitPath (m, fl)) as [q [m1 fl1]] eqn:E. apply syscall_inv in E as [(-> & -> & _)|E]; [done|].
  injection E as <- <-. destruct (m_files m !! UnitPath) as [b|] eqn:Eb.
  - destruct (readManagedUnit b) as [meta|] eqn:Em; [|done]. injection H as <- <- <- _ _. split; [intros _; by apply (read_meta b)|].
    intros b' meta' [= <-] E'. rewrite Em in E'. by injection E' as <-.
  - cbn in H. injection H as <- <- <- _ _. done.
Qed.
Lemma resolveListener_ne env h p l hs ps ls addr : resolveListener env h p l hs ps ls = Ok addr -> addr <> "".
Proof using.
  unfold resolveListener, joined. intros H. assert (forall q, joined q = Ok addr -> addr <> "") as K.
  { intros [[host port]|e]; [|done]. intros [= <-]. apply join_ne. }
  destruct ls; [destruct (_ || _); [done|]; destruct (String.eqb_spec (trim_space l) "") as [|N]; [done|]; injection H as <-; intros ->; by apply N|].
  destruct (_ || _); [by eapply K|]. destruct (env !! _) as [v|]; [|by eapply K]. destruct (is_set _ _); [done|]. destruct (is_set _ _); [done|].
  destruct (String.eqb_spec (trim_space v) "") as [|N]; [done|]. injection H as <-. intros ->. by apply N.
Qed.
Lemma parse_install_sound env rest (m : machine) fl c m' fl' : parse_install env rest (m, fl) = (Ok c, (m', fl')) -> sound_command c.
Proof using.
  unfold parse_install. destruct (Parse install_flags rest) as [p|]; [|done]. destruct (negb _); [done|]. destruct (_ && _); [done|]. cbv zeta.
  set (data := if _ =?s "" then DefaultDataDir else _). assert (data <> "") as Hd by (unfold data; by destruct (String.eqb_spec (if negb (flag_value p "data-dir" =?s "") then flag_value p "data-dir" else flag_value p "data") "")).
  unfold resolveServiceInstall. destruct (resolveListener _ _ _ _ _ _ _) as [addr|] eqn:Ea; [|done]. apply resolveListener_ne in Ea.
  set (cmd := mk_command _ _ _ _ _ _ _ _ _). set (resolved := if _ || _ && _ && _ then _ else _).
  assert (forall m fl c m' fl', resolved (m, fl) = (Ok c, (m', fl')) -> sound_command c) as K.
  { intros m0 fl0 c0 m0' fl0'. unfold resolved. destruct (_ || _).
    - intros [= <- _ _]. split_and!; try done. by left.
    - destruct (SplitHostPort addr) as [[h q]|] eqn:E; [|done]. intros [= <- _ _]. split_and!; try done. right. split; [done|by exists addr]. }
  destruct (listenerSelectionActive _ _ _ _); [apply K|]. rewrite bind_attempt.
  destruct (InstalledListener (m, fl)) as [[[[l ex] there]|e] [m1 fl1]] eqn:E; [|done]. apply InstalledListener_inv in E as [El _].
  destruct there; [|apply K]. cbn [negb]. destruct ex.
  - destruct (SplitHostPort l) as [[h q]|] eqn:E; [|done]. intros [= <- _ _]. split_and!; try done. right. split; [done|by exists l].
  - intros [= <- _ _]. split_and!; try done. left. by split; [apply El|].
Qed.
Lemma find_none_prefix l : find_first (fun a => has_prefix a "-") l = None -> Forall (fun a => has_prefix a "-" = false) l.
Proof using. unfold find_first. intros H. apply Forall_forall. intros x Hx. by apply (List.find_none _ _ H), list_elem_of_In. Qed.

(** The parser hands on sound commands only.  A command has a known verb and only
    the values of that verb: an installation a data directory and either one address
    or a host and a port that were split from one, an update a file and a digest that
    are not flags. *)
Theorem parsed_commands_are_sound env args (m : machine) fl c m' fl' : parseServiceCommand env args (m, fl) = (Ok c, (m', fl')) -> sound_command c.
Proof using.
  unfold parseServiceCommand. destruct (match args with [] => _ | _ => _ end) as [verb rest]. cbv zeta.
  destruct (String.eqb_spec verb "install") as [->|N1]; [apply parse_install_sound|].
  destruct (String.eqb_spec verb "logs") as [->|N2].
  { destruct (Parse _ rest) as [p|]; [|done]. destruct (negb _); [done|]. by intros [= <- _ _]. }
  destruct (String.eqb_spec verb "update") as [->|N3].
  { destruct (find_first _ rest) eqn:F; [done|]. apply find_none_prefix in F. destruct rest as [|a [|b [|? ?]]]; try done. intros [= <- _ _].
    rewrite !Forall_cons in F. destruct F as (? & ? & _). by split_and!. }
  destruct (Smem verb _) eqn:E; [|done]. destruct (find_first _ rest); [done|]. destruct rest; [|done]. intros [= <- _ _].
  unfold sound_command. cbn [sc_verb bare_command]. apply String.eqb_neq in N1, N2, N3. rewrite N1, N2, N3. split; [done|].
  unfold Smem in *. cbn [existsb verbs] in *. rewrite !orb_true_iff in *. tauto.
Qed.

(** The exit code tells what happened.  [webfleet service] exits with 2 when its
    arguments are refused, and then nothing was touched and nothing printed; with 1
    when the command failed; and with 0 when the command of the arguments did its
    work, without diagnostics. *)
Theorem exit_code_is_true env args (m : machine) fl r m' fl' : run_service env args (m, fl) = (r, (m', fl')) ->
  exists code out err, r = Ok (code, out, err) /\
    ((code = 2 /\ out = "" /\ m' = m /\ exists e, (parseServiceCommand env args (m, fl)).1 = Err e) \/
     exists c fl1 q, parseServiceCommand env args (m, fl) = (Ok c, (m, fl1)) /\ execServiceCommand Executable c (m, fl1) = (q, (m', fl'))
       /\ match q with Ok _ => code = 0 /\ err = "" | Err _ => code = 1 /\ out = "" end).
Proof using.
  unfold runServiceIO. intros H. rewrite bind_attempt in H.
  destruct (parseServiceCommand env args (m, fl)) as [q [m1 fl1]] eqn:E. pose proof (readonly_parse _ _ _ _ _ _ _ E) as ->.
  destruct q as [c|e]; [|injection H as <- <- <-; eexists _, _, _; split; [reflexivity|]; left; split_and!; try done; by exists e].
  rewrite bind_attempt in H. destruct (execServiceCommand Executable c (m, fl1)) as [q [m2 fl2]] eqn:F.
  destruct q as [out|e]; injection H as <- <- <-; eexists _, _, _; (split; [reflexivity|]); right; eexists _, _, _; split_and!; try done; exact F.
Qed.

(** The options that a command of installation stands for. *)
Definition options_of (c : serviceCommand) : installOptions :=
  if negb (c.(sc_listen) =?s "") then mk_options c.(sc_data) c.(sc_listen) "" "" modeBootstrap c.(sc_envfile)
  else mk_options c.(sc_data) "" c.(sc_host) c.(sc_port) modeExplicit c.(sc_envfile).
Lemma exec_install c w : c.(sc_verb) = "install" ->
  execServiceCommand Executable c w = (install Executable c.(sc_data) (options_of c) ;;; ret (serviceSuccessMessage c)) w.
Proof using. intros E. unfold execServiceCommand, options_of, Install, InstallExplicit. rewrite E. change ("install" =?s "install") with true. cbv iota zeta. by destruct (negb _). Qed.

(** A listener that [net.SplitHostPort] and [net.JoinHostPort] keep. *)
Definition kept_pair (l : string) : Prop :=
  exists h p, l = JoinHostPort h p /\ has_any "[]" h = false /\ has_any ":[]" p = false /\ trim_space h = h /\ trim_space p = p /\ h <> "".

Lemma bare_parse env (m : machine) fl c m' fl' b meta : parseServiceCommand env ["install"] (m, fl) = (Ok c, (m', fl')) ->
  m.(m_files) !! UnitPath = Some b -> readManagedUnit b = Ok meta -> listenerSelectionActive env false false false = false ->
  (meta.(um_mode) = modeExplicit -> kept_pair meta.(um_listen)) ->
  c.(sc_verb) = "install" /\ c.(sc_data) = DefaultDataDir /\ c.(sc_envfile) = ""
  /\ (meta.(um_mode) = modeBootstrap /\ c.(sc_listen) = meta.(um_listen) \/
      meta.(um_mode) = modeExplicit /\ c.(sc_listen) = "" /\ c.(sc_host) <> "" /\ trim_space c.(sc_host) = c.(sc_host) /\ trim_space c.(sc_port) = c.(sc_port)
        /\ meta.(um_listen) = JoinHostPort c.(sc_host) c.(sc_port)).
Proof using.
  intros H Hb Hm He Hk. change (parseServiceCommand env ["install"]) with (parse_install env []) in H. unfold parse_install in H.
  change (Parse install_flags []) with (Ok (mk_parsed ∅ [])) in H. cbv iota zeta in H. cbn [rest_args] in H.
  change (negb (bool_decide ([] = []))) with false in H. cbv iota in H.
  change (flagProvided _ _) with false in H. cbn [andb] in H. unfold flag_value in H. cbn [actual] in H. rewrite !lookup_empty in H.
  destruct (resolveServiceInstall _ _ _ _ _ _ _) as [[addr legacy]|]; [|done]. rewrite He in H. rewrite bind_attempt in H.
  destruct (InstalledListener (m, fl)) as [[[[l ex] there]|e] [m1 fl1]] eqn:E; [|done].
  apply InstalledListener_inv in E as [_ E]. destruct (E _ _ Hb Hm) as (-> & -> & ->). cbn [negb] in H.
  destruct (read_meta _ _ Hm) as (_ & _ & _ & [M|M]); rewrite M in H.
  - change (modeExplicit =?s modeExplicit) with true in H. cbv iota in H. destruct (Hk M) as (h & p & El & Bh & Bp & Th & Tp & Nh).
    rewrite El, split_join_host_port in H by done. injection H as <- _ _. split_and!; try done. by right.
  - change (modeBootstrap =?s modeExplicit) with false in H. cbv iota in H. injection H as <- _ _. split_and!; try done. by left.
Qed.

(** A bare reinstallation keeps the listener, and only that.  Running [service
    install] again, without flags or variables that choose a listener, leaves a unit
    that records the listener of the old one in the same form; its data directory is
    the default one and its environment file is gone, whatever they were. *)
Theorem bare_reinstall_keeps_the_listener env (m : machine) fl out err m' fl' b meta :
  run_service env ["install"] (m, fl) = (Ok (0, out, err), (m', fl')) ->
  m.(m_files) !! UnitPath = Some b -> readManagedUnit b = Ok meta -> listenerSelectionActive env false false false = false ->
  trim_space meta.(um_listen) = meta.(um_listen) -> (meta.(um_mode) = modeExplicit -> kept_pair meta.(um_listen)) ->
  exists b', m'.(m_files) !! UnitPath = Some b' /\ readManagedUnit b' = Ok (mk_unit_meta DefaultDataDir meta.(um_listen) meta.(um_mode) "").
Proof using.
  intros H Hb Hm He Ht Hk. unfold runServiceIO in H. rewrite bind_attempt in H.
  destruct (parseServiceCommand env ["install"] (m, fl)) as [[c|e] [m1 fl1]] eqn:E; [|done]. pose proof (readonly_parse _ _ _ _ _ _ _ E) as ->.
  apply (bare_parse _ _ _ _ _ _ b meta) in E as (Ev & Ed & Ef & El); [|done..].
  rewrite bind_attempt, (exec_install _ _ Ev) in H. unfold bind in H.
  destruct (install Executable (sc_data c) (options_of c) (m, fl1)) as [[[]|e] [m2 fl2]] eqn:F; [|done]. cbn [ret] in H. injection H as _ _ <- _.
  apply install_writes in F as (_ & _ & F). eexists. split; [exact F|]. rewrite Ed. change (DefaultDataDir =?s "") with false. cbv iota.
  destruct (read_meta _ _ Hm) as (_ & Nl & Cl & _).
  destruct El as [[M El]|(M & El & Nh & Th & Tp & Ej)]; unfold options_of, with_defaults; rewrite El, ?Ed, Ef, M.
  - apply String.eqb_neq in Nl. rewrite Nl. cbn [negb o_mode o_listen o_host o_port o_envfile]. change (modeBootstrap =?s modeExplicit) with false. cbv iota. rewrite Nl.
    rewrite unit_reads_back; cbn [o_data o_envfile o_mode]; unfold listener; cbn [o_listen]; rewrite ?Nl; cbn [negb]; try done; try (by apply String.eqb_neq).
    by left.
  - change (negb ("" =?s "")) with false. cbv iota. cbn [o_mode o_listen o_host o_port o_envfile]. rewrite String.eqb_refl, Th.
    apply String.eqb_neq in Nh. rewrite Nh. cbn [andb].
    rewrite unit_reads_back; cbn [o_data o_envfile o_mode]; unfold listener; cbn [o_listen o_host o_port negb]; change (negb ("" =?s "")) with false; cbv iota;
      rewrite ?Th, ?Tp, <- ?Ej; try done. by right.
Qed.
End Cli.

(** ** Witnesses *)

(** A splitter of commands that knows plain words in quotes. *)
Fixpoint demo_words (s : string) (cur : option string) : list string :=
  match s with
  | EmptyString => []
  | String c s' =>
      match cur with
      | None => demo_words s' (if Ascii.eqb c dquote then Some "" else None)
      | Some w => if Ascii.eqb c dquote then w :: demo_words s' None else demo_words s' (Some (w ++ String c ""))
      end
  end.
Definition demo_split (s : string) : list string :=
  match cut " " s with Some (path, rest) => path :: demo_words rest None | None => [s] end.
Lemma demo_word w rest : forall acc, has_byte dquote w = false -> demo_words (w ++ String dquote rest) (Some acc) = (acc ++ w) :: demo_words rest None.
Proof.
  induction w as [|c w IH]; intros acc H; [by rewrite append_nil_l, string_app_nil_r|]. rewrite append_cons. cbn [demo_words].
  cbn [has_byte] in H. apply orb_false_iff in H as [H1 H2]. rewrite Ascii.eqb_sym, H1, (IH _ H2), string_app_assoc. done.
Qed.
Lemma escape_plain w : plain_word w = true -> systemd_escape w = w.
Proof.
  unfold plain_word. intros H. apply negb_true_iff in H. induction w as [|c w IH]; [done|]. cbn [has_any] in H. apply orb_false_iff in H as [H1 H2].
  cbn [systemd_escape]. rewrite (IH H2). cbn [has_byte] in H1 |- *. apply orb_false_iff in H1 as [Ha H1]. apply orb_false_iff in H1 as [Hb H1].
  apply orb_false_iff in H1 as [Hc H1]. apply orb_false_iff in H1 as [Hd H1]. apply orb_false_iff in H1 as [He _]. by rewrite He, Ha, Hb, Hc, Hd.
Qed.
Lemma plain_unquoted w : plain_word w = true -> has_byte dquote w = false.
Proof. unfold plain_word. intros H. apply negb_true_iff in H. by apply (has_any_byte dquote _ _ H). Qed.
Lemma demo_quoted ws : Forall (fun w => plain_word w = true) ws -> demo_words (quoted_words ws) None = ws.
Proof.
  induction 1 as [|w ws Hw _ IH]; [done|]. cbn [quoted_words]. rewrite append_cons, append_nil_l. unfold systemdQuote. rewrite escape_plain by done.
  rewrite append_cons, string_app_assoc. cbn [demo_words]. change (Ascii.eqb " " dquote) with false. cbv iota.
  change (Ascii.eqb dquote dquote) with true. cbv iota. rewrite append_cons, append_nil_l, demo_word by by apply plain_unquoted. by rewrite IH.
Qed.
Lemma demo_split_law path ws : has_any (String dquote "\ $%") path = false -> Forall (fun w => plain_word w = true) ws ->
  demo_split (path ++ quoted_words ws) = path :: ws.
Proof.
  intros Hp Hw. pose proof (has_any_byte " " _ _ Hp eq_refl) as Hs. unfold demo_split. destruct ws as [|w ws].
  - cbn [quoted_words]. rewrite string_app_nil_r.
    assert (forall c s, has_byte c s = false -> cut c s = None) as K.
    { intros c s. induction s as [|d s IH]; [done|]. cbn [has_byte cut]. intros H. apply orb_false_iff in H as [H1 H2].
      rewrite Ascii.eqb_sym in H1. by rewrite H1, (IH H2). }
    by rewrite K.
  - pose proof (demo_quoted _ Hw) as E. cbn [quoted_words] in *. rewrite append_cons, append_nil_l in *. rewrite cut_spec by done. cbn [demo_words] in E.
    change (Ascii.eqb " " dquote) with false in E. cbv iota in E. by rewrite E.
Qed.

(** And a reader of assignments that knows them. *)
Definition demo_assign (s : string) : list (string * string) :=
  match cut "=" s with Some (name, v) => List.map (pair name) (demo_words v None) | None => [] end.
Lemma demo_assign_law name w : has_any (String dquote "\ =$%") name = false -> plain_word w = true -> demo_assign (name ++ "=" ++ systemdQuote w) = [(name, w)].
Proof.
  intros Hn Hw. pose proof (has_any_byte "=" _ _ Hn eq_refl) as He. unfold demo_assign. rewrite append_cons, append_nil_l, cut_spec by done.
  pose proof (demo_quoted [w] ltac:(by repeat constructor)) as E. cbn [quoted_words] in E. rewrite append_cons, append_nil_l, string_app_nil_r in E. cbn [demo_words] in E.
  change (Ascii.eqb " " dquote) with false in E. cbv iota in E. by rewrite E.
Qed.
Definition demo_bootstrap_options : installOptions := mk_options "/srv/web" "0.0.0.0:81" "" "" modeBootstrap "/etc/webfleet.env".

Lemma service_listens_where_recorded_witness :
  (exists command args meta, exec_line (unit_text demo_unit_options) = Some command /\ demo_split command = BinaryPath :: args
    /\ readManagedUnit (unit_text demo_unit_options) = Ok meta
    /\ serve_listen {["WEBFLEET_LISTEN" := "0.0.0.0:80"]} "0.0.0.0:80" args = Ok ("integrated", effectiveListen meta)) /\
  (exists meta, readManagedUnit (unit_text demo_bootstrap_options) = Ok meta /\
    let env := unit_environ demo_assign (unit_text demo_bootstrap_options) {["WEBFLEET_DATA_DIR" := "/srv/other"]} in
    serve_listen env (or_default (Getenv env "WEBFLEET_LISTEN") "127.0.0.1:7336") [] = Ok ("integrated", effectiveListen meta)).
Proof.
  split.
  - refine (proj1 (service_listens_where_recorded demo_split demo_split_law demo_assign demo_assign_law demo_unit_options {["WEBFLEET_LISTEN" := "0.0.0.0:80"]} "0.0.0.0:80" _ _ _ _ _) _);
      try (split; reflexivity); try reflexivity; try discriminate.
    split_and!; try reflexivity; discriminate.
  - destruct (proj2 (service_listens_where_recorded demo_split demo_split_law demo_assign demo_assign_law demo_bootstrap_options ∅ ""
      ltac:(discriminate) (conj eq_refl eq_refl) (conj eq_refl eq_refl) (conj eq_refl eq_refl) eq_refl) eq_refl ltac:(discriminate) eq_refl eq_refl) as (meta & _ & Hm & H).
    exists meta. split; [exact Hm|]. by apply H.
Defined.

Lemma parsed_commands_are_sound_witness :
  sound_command (mk_command "install" "/srv/web" "" "::1" "80" "" false "" "").
Proof.
  refine (parsed_commands_are_sound {["WEBFLEET_HOST" := " ::1 "]} ["install"; "--port=80"; "-data-dir"; "/srv/web"] (demo_machine [] Disabled false) []
    _ (demo_machine [] Disabled false) [] _). vm_compute. reflexivity.
Defined.

Definition demo_refused : result (Z * string * string) :=
  Ok (2, "", "webfleet service: stop takes no flags: --now" ++ String nl "").
Lemma exit_code_is_true_witness : exists code out err, demo_refused = Ok (code, out, err) /\
    ((code = 2 /\ out = "" /\ demo_machine [] Disabled false = demo_machine [] Disabled false
      /\ exists e, (parseServiceCommand (SY:=demo_system) ∅ ["stop"; "--now"] (demo_machine [] Disabled false, [])).1 = Err e) \/
     exists c fl1 q, parseServiceCommand ∅ ["stop"; "--now"] (demo_machine [] Disabled false, []) = (Ok c, (demo_machine [] Disabled false, fl1))
       /\ execServiceCommand "/tmp/wf" c (demo_machine [] Disabled false, fl1) = (q, (demo_machine [] Disabled false, []))
       /\ match q with Ok _ => code = 0 /\ err = "" | Err _ => code = 1 /\ out = "" end).
Proof. exact (exit_code_is_true "/tmp/wf" ∅ ["stop"; "--now"] (demo_machine [] Disabled false) [] demo_refused (demo_machine [] Disabled false) [] eq_refl). Defined.

(** A machine with [/var/lib], and a service with its data elsewhere. *)
Definition demo_root : host :=
  mk_host {[1 := mk_inode (KDir {["." := 1; ".." := 1; "var" := 2]}) 0 0 493; 2 := mk_inode (KDir {["." := 2; ".." := 1; "lib" := 3]}) 0 0 493;
            3 := mk_inode (KDir {["." := 3; ".." := 2]}) 0 0 493]} [] (Some 77) (Some 77) [] [].
Definition demo_old_unit : string := unit_text (mk_options "/srv/data" "" "::1" "80" modeExplicit "/etc/w.env").
Definition demo_before : machine :=
  mk_machine {["/tmp/wf" := "new"; BinaryPath := "old"; UnitPath := demo_old_unit]} demo_root (mk_demo Enabled true 0).
Definition demo_again : result (Z * string * string) * (machine * faults) := runServiceIO "/tmp/wf" ∅ ["install"] (demo_before, []).
Lemma demo_again_eq : demo_again = (Ok (0, "webfleet.service installed." ++ String nl "", ""), (demo_again.2.1, [])).
Proof. apply DataDir.outcome; vm_compute; reflexivity. Qed.
Lemma demo_old_meta : readManagedUnit demo_old_unit = Ok (mk_unit_meta "/srv/data" "[::1]:80" modeExplicit "/etc/w.env").
Proof. vm_compute. reflexivity. Qed.
Lemma bare_reinstall_keeps_the_listener_witness : exists b', demo_again.2.1.(m_files) !! UnitPath = Some b'
  /\ readManagedUnit b' = Ok (mk_unit_meta DefaultDataDir "[::1]:80" modeExplicit "").
Proof.
  refine (bare_reinstall_keeps_the_listener "/tmp/wf" ∅ demo_before [] _ _ demo_again.2.1 [] demo_old_unit
    (mk_unit_meta "/srv/data" "[::1]:80" modeExplicit "/etc/w.env") demo_again_eq _ demo_old_meta _ _ _); try reflexivity.
  intros _. exists "::1", "80". split_and!; try reflexivity. discriminate.
Defined.
