(* ===== verification/Audits.v ===== *)
(** Browser audits as the service runs them ([internal/audit/audit.go]): the claim on
    a site, one run with its row, the history, the choice of the sites of a batch and
    the batch, whose runs share the two slots for browsers.

    A run is [Run], statement by statement; a batch interleaves the steps of its runs
    in any order.  What the browser makes of a page is a parameter. *)
From S2P Require Import Prelude GoStr SqlM FleetDb.
Open Scope string_scope.
Open Scope Z_scope.
Open Scope wf_scope.
Open Scope sql_scope.

(** ** Definitions *)

Record Result := mk_Result {
  rs_id : Z; rs_site : Z; rs_status : string; rs_perf : Z; rs_access : Z; rs_best : Z; rs_disc : Z;
  rs_findings : list string; rs_duration : Z; rs_url : string; rs_error : string; rs_created : Z; rs_started : Z }.
Definition no_result : Result := mk_Result 0 0 "" 0 0 0 0 [] 0 "" "" 0 0.

(** The tables [audit_runs], whose rows are what [History] makes of them, and
    [audit_settings], beside those of the fleet. *)
Record udb := mk_udb { ud_fleet : db; ud_runs : list Result; ud_settings : list (Z * bool) }.
Definition set_runs (l : list Result) (d : udb) : udb := mk_udb d.(ud_fleet) l d.(ud_settings).
Definition set_settings (l : list (Z * bool)) (d : udb) : udb := mk_udb d.(ud_fleet) d.(ud_runs) l.

Definition auditConcurrency : Z := 2.

(** *** The claims, by which a handler keeps a second audit of a site from starting *)

Definition Claim (site : Z) (infl : gset Z) : bool * gset Z := if bool_decide (site ∈ infl) then (false, infl) else (true, {[site]} ∪ infl).
Definition Release (site : Z) (infl : gset Z) : gset Z := infl ∖ {[site]}.

(** *** The statements of a run *)

Definition lookup_site (site : Z) : M udb string :=
  let* r := or_fail (query (fun d => find_first (fun s => (s.(s_id) =? site) && match s.(s_archived) with None => true | Some _ => false end) d.(ud_fleet).(sites))) "site not found" in
  match r with Some s => ret s.(s_url) | None => throw "site not found" end.
Definition insert_run (site now : Z) (d : udb) : option (Z * udb) :=
  if site_exists site d.(ud_fleet)
  then let id := fresh_id (map rs_id d.(ud_runs)) in
       Some (id, set_runs (d.(ud_runs) ++ [mk_Result id site "running" 0 0 0 0 [] 0 "" "" now now]) d)
  else None.
(** [res] with the identity of the run, and its error. *)
Definition finished (row site now : Z) (out : Result * option string) : Result :=
  let r := out.1 in
  let '(status, error) := match out.2 with Some e => ("failed", e) | None => (r.(rs_status), r.(rs_error)) end in
  mk_Result row site status r.(rs_perf) r.(rs_access) r.(rs_best) r.(rs_disc) r.(rs_findings) r.(rs_duration) r.(rs_url) error now r.(rs_started).
Definition update_run (r : Result) (d : udb) : udb :=
  set_runs (upd (fun x => x.(rs_id) =? r.(rs_id)) (fun x =>
    mk_Result x.(rs_id) x.(rs_site) r.(rs_status) r.(rs_perf) r.(rs_access) r.(rs_best) r.(rs_disc) r.(rs_findings) r.(rs_duration) r.(rs_url) r.(rs_error) x.(rs_created) x.(rs_started)) d.(ud_runs)) d.
Definition HistoryEnabled (site : Z) : M udb bool :=
  query (fun d => match find_first (fun x => x.1 =? site) d.(ud_settings) with Some x => x.2 | None => false end).
Definition forget_others (site row : Z) (d : udb) : udb := set_runs (del (fun x => (x.(rs_site) =? site) && negb (x.(rs_id) =? row)) d.(ud_runs)) d.

(** [Run], with what waiting for a slot ends in; it answers a result and an error. *)
Definition Run (site now : Z) (slot : result unit) (run : string -> Result * option string) : M udb (Result * option string) :=
  let* found := attempt (lookup_site site) in
  match found with
  | Err e => ret (no_result, Some e)
  | Ok url =>
      match slot with
      | Err e => ret (no_result, Some e)
      | Ok _ =>
          let* row := attempt (stmt (insert_run site now)) in
          match row with
          | Err e => ret (no_result, Some e)
          | Ok row =>
              let out := run url in
              let r := finished row site now out in
              ignore tt (exec (update_run r)) ;;;
              let* h := ignore false (HistoryEnabled site) in
              (if negb h && negb (r.(rs_status) =?s "running") then ignore tt (exec (forget_others site row)) else ret tt) ;;;
              ret (r, out.2)
          end
      end
  end.

(** *** Settings and reports *)

Definition SetHistory (site : Z) (on : bool) : M udb unit :=
  exec_opt (fun d => if site_exists site d.(ud_fleet) then Some (set_settings ((site, on) :: del (fun x => x.1 =? site) d.(ud_settings)) d) else None).
Definition newest_first (l : list Result) : list Result := sort_less (fun a b => b.(rs_id) <? a.(rs_id)) l.
Definition History (site : Z) : M udb (list Result) :=
  query (fun d => firstn 50 (newest_first (List.filter (fun r => r.(rs_site) =? site) d.(ud_runs)))).

(** *** Batches *)

Record BatchFilter := mk_filter { bf_search : string; bf_group : Z; bf_regex : string; bf_days : Z }.
Definition by_id (l : list site_row) : list site_row := sort_less (fun a b => a.(s_id) <? b.(s_id)) l.
Definition wanted (f : BatchFilter) (rx : option (string -> bool)) (s : site_row) : bool :=
  let q := to_lower (trim_space f.(bf_search)) in
  let hay := s.(s_name) ++ " " ++ s.(s_url) in
  if (0 <? f.(bf_group)) && negb (match s.(s_group) with Some g => g | None => 0 end =? f.(bf_group)) then false else
  if negb (q =?s "") && negb (contains (to_lower hay) q) then false else
  match rx with Some m => m hay | None => true end.
(** [Compile] is [regexp.Compile]. *)
Definition ResolveBatch (Compile : string -> result (string -> bool)) (org : Z) (f : BatchFilter) : M udb (list Z) :=
  let* rows := query (fun d => by_id (List.filter (fun s => match s.(s_archived) with None => true | Some _ => false end && s.(s_enabled) && (s.(s_org) =? org)) d.(ud_fleet).(sites))) in
  let* rx := lift (if trim_space f.(bf_regex) =?s "" then Ok None
                   else match Compile f.(bf_regex) with Ok m => Ok (Some m) | Err e => Err ("invalid regex: " ++ e) end) in
  ret (map s_id (List.filter (wanted f rx) rows)).

Definition owned (org : Z) (ids : list Z) (d : udb) : list Z :=
  map s_id (List.filter (fun s => (s.(s_org) =? org) && Zmem s.(s_id) ids) d.(ud_fleet).(sites)).
Definition filterOwned (org : Z) (ids : list Z) : M udb (list Z) :=
  match ids with [] => ret [] | _ => ignore [] (query (owned org ids)) end.

(** A run of a batch, between two of its steps. *)
Inductive stage :=
| Start
| Queued (url : string)
| Holding (url : string)
| Auditing (row now : Z) (url : string)
| Scored (r : Result) (e : option string)
| Recorded (r : Result) (e : option string)
| Deciding (history : bool) (r : Result) (e : option string)
| Ended (r : Result) (e : option string).
Definition holds_slot (p : Z * stage) : bool :=
  match p.2 with Holding _ | Auditing _ _ _ | Scored _ _ | Recorded _ _ | Deciding _ _ _ => true | _ => false end.
Definition slots (ps : list (Z * stage)) : Z := Z.of_nat (length (List.filter holds_slot ps)).

(** The next step: [free] says whether a slot can be taken, [cancelled] that the
    request is gone, which only a run that waits notices. *)
Definition advance (site now : Z) (run : string -> Result * option string) (free : bool) (cancelled : option string) (st : stage) : option (M udb stage) :=
  match st with
  | Start => Some (let* r := attempt (lookup_site site) in ret (match r with Ok u => Queued u | Err e => Ended no_result (Some e) end))
  | Queued u => match cancelled with
                | Some e => Some (ret (Ended no_result (Some e)))
                | None => if free then Some (ret (Holding u)) else None
                end
  | Holding u => Some (let* r := attempt (stmt (insert_run site now)) in ret (match r with Ok row => Auditing row now u | Err e => Ended no_result (Some e) end))
  | Auditing row t u => let out := run u in Some (ret (Scored (finished row site t out) out.2))
  | Scored r e => Some (ignore tt (exec (update_run r)) ;;; ret (Recorded r e))
  | Recorded r e => Some (let* h := ignore false (HistoryEnabled site) in ret (Deciding h r e))
  | Deciding h r e => Some ((if negb h && negb (r.(rs_status) =?s "running") then ignore tt (exec (forget_others site r.(rs_id))) else ret tt) ;;; ret (Ended r e))
  | Ended _ _ => None
  end.

(** Any run of the batch may make the next step. *)
Inductive bstep : udb * faults * list (Z * stage) -> udb * faults * list (Z * stage) -> Prop :=
| bstep_at i site st now run cancelled m st' w w' ps :
    ps !! i = Some (site, st) ->
    advance site now run (slots ps <? auditConcurrency) cancelled st = Some m ->
    m w = (Ok st', w') ->
    bstep (w, ps) (w', <[i := (site, st')]> ps).
Definition batch_start (ids : list Z) : list (Z * stage) := map (fun id => (id, Start)) ids.
Definition ended (p : Z * stage) : bool := match p.2 with Ended _ _ => true | _ => false end.
(** What [RunBatch] answers once all have ended. *)
Definition answer (r : Result) (e : option string) : Result :=
  match e with
  | Some x => if r.(rs_error) =?s "" then mk_Result r.(rs_id) r.(rs_site) r.(rs_status) r.(rs_perf) r.(rs_access) r.(rs_best) r.(rs_disc) r.(rs_findings) r.(rs_duration) r.(rs_url) x r.(rs_created) r.(rs_started) else r
  | None => r
  end.
Definition batch_results (ps : list (Z * stage)) : option (list Result) :=
  if forallb ended ps then Some (map (fun p => match p.2 with Ended r e => answer r e | _ => no_result end) ps) else None.
(** [RunBatch], as what it may do to the database and answer. *)
Inductive RunBatch (org : Z) (ids : list Z) : udb * faults -> list Result -> udb * faults -> Prop :=
| run_batch w mine w1 ps w2 out :
    filterOwned org ids w = (Ok mine, w1) ->
    rtc bstep (w1, batch_start mine) (w2, ps) ->
    batch_results ps = Some out ->
    RunBatch org ids w out w2.

(** ** Facts *)

(** A run by its steps, alone. *)
Fixpoint walk (n : nat) (site now : Z) (slot : result unit) (run : string -> Result * option string) (st : stage) : M udb (Result * option string) :=
  match st, n with
  | Ended r e, _ => ret (r, e)
  | _, O => throw "not ended"
  | _, S n => match advance site now run (is_ok slot) (match slot with Err e => Some e | Ok _ => None end) st with
              | Some m => let* st' := m in walk n site now slot run st'
              | None => throw "stuck"
              end
  end.

Lemma attempt_ok {S A} (m : M S A) w : exists r w', attempt m w = (Ok r, w').
Proof. unfold attempt. destruct (m w) as [r w']. by exists r, w'. Qed.
Lemma ignore_ok {S A} (a : A) (m : M S A) w : exists r w', ignore a m w = (Ok r, w').
Proof. unfold ignore. destruct (m w) as [[r|e] w']; eauto. Qed.

Section Walk.
Context (site now : Z) (slot : result unit) (run : string -> Result * option string).
Abbreviation next := (advance site now run (is_ok slot) (match slot with Err e => Some e | Ok _ => None end)).
Lemma walk_ended n r e w : walk n site now slot run (Ended r e) w = (Ok (r, e), w).
Proof. by destruct n. Qed.
Lemma walk_step n st m w st' w' : next st = Some m -> m w = (Ok st', w') -> walk (S n) site now slot run st w = walk n site now slot run st' w'.
Proof. intros Hm Hw. destruct st; cbn [walk]; try (rewrite Hm; unfold bind; by rewrite Hw). done. Qed.

(** From the row on. *)
Lemma walk_from_row row url w : walk 4 site now slot run (Auditing row now url) w =
  (let r := finished row site now (run url) in
   ignore tt (exec (update_run r)) ;;;
   let* h := ignore false (HistoryEnabled site) in
   (if negb h && negb (r.(rs_status) =?s "running") then ignore tt (exec (forget_others site row)) else ret tt) ;;;
   ret (r, (run url).2)) w.
Proof.
  set (r := finished row site now (run url)). assert (rs_id r = row) as Hr by (unfold r, finished; by destruct ((run url).2)).
  erewrite walk_step; [|reflexivity|reflexivity]. fold r. cbv zeta. unfold bind at 1.
  destruct (ignore tt (exec (update_run r)) w) as [[[]|e] w1] eqn:E1; [|by destruct (ignore_ok tt (exec (update_run r)) w) as (? & ? & ?); congruence].
  erewrite walk_step; [|reflexivity|unfold bind; rewrite E1; reflexivity]. unfold bind at 1.
  destruct (ignore false (HistoryEnabled site) w1) as [[h|e] w2] eqn:E2; [|by destruct (ignore_ok false (HistoryEnabled site) w1) as (? & ? & ?); congruence].
  erewrite walk_step; [|reflexivity|unfold bind; rewrite E2; reflexivity]. unfold bind at 1.
  destruct ((if negb h && negb (rs_status r =?s "running") then ignore tt (exec (forget_others site row)) else ret tt) w2) as [[[]|e] w3] eqn:E3.
  - erewrite walk_step; [|reflexivity|unfold bind; rewrite Hr, E3; reflexivity]. apply walk_ended.
  - destruct (negb h && _); [|done]. destruct (ignore_ok tt (exec (forget_others site row)) w2) as (? & ? & ?); congruence.
Qed.
End Walk.

(** A the steps that a batch interleaves are those of [Run]: taken one after the
    other they answer the same and leave the same, whatever the database refuses. *)
Theorem run_is_its_steps site now slot run w : walk 7 site now slot run Start w = Run site now slot run w.
Proof.
  unfold Run. unfold bind at 1. destruct (attempt (lookup_site site) w) as [r1 w1] eqn:E1.
  destruct (attempt_ok (lookup_site site) w) as (f1 & w1' & E1'). rewrite E1' in E1. injection E1 as <- <-.
  erewrite walk_step; [|reflexivity|unfold bind; rewrite E1'; reflexivity]. destruct f1 as [url|e]; [|apply walk_ended].
  destruct slot as [[]|e].
  - erewrite walk_step; [|reflexivity|reflexivity]. unfold bind at 1.
    destruct (attempt_ok (stmt (insert_run site now)) w1') as (f2 & w2 & E2). rewrite E2.
    erewrite walk_step; [|reflexivity|unfold bind; rewrite E2; reflexivity]. destruct f2 as [row|e]; [apply walk_from_row|apply walk_ended].
  - erewrite walk_step; [|reflexivity|reflexivity]. apply walk_ended.
Qed.

(** Every step of a run succeeds: what the database refuses is answered or dropped. *)
Lemma advance_ok site now run free c st m w : advance site now run free c st = Some m -> exists st' w', m w = (Ok st', w').
Proof.
  destruct st as [|u|u|row t u|r e|r e|h r e|r e]; cbn; intros H; simplify_eq; unfold bind.
  - destruct (attempt_ok (lookup_site site) w) as (r & w' & ->). by eexists _, _.
  - destruct c; [|destruct free; [|done]]; simplify_eq; by eexists _, _.
  - destruct (attempt_ok (stmt (insert_run site now)) w) as (r & w' & ->). by eexists _, _.
  - by eexists _, _.
  - destruct (ignore_ok tt (exec (update_run r)) w) as (x & w' & ->). by eexists _, _.
  - destruct (ignore_ok false (HistoryEnabled site) w) as (x & w' & ->). by eexists _, _.
  - destruct (_ && _); [destruct (ignore_ok tt (exec (forget_others site (rs_id r))) w) as (x & w' & ->)|]; by eexists _, _.
Qed.

(** *** Slots *)

Lemma slots_insert ps i p q : ps !! i = Some p -> slots (<[i := q]> ps) = slots ps - (if holds_slot p then 1 else 0) + (if holds_slot q then 1 else 0).
Proof.
  unfold slots. revert i. induction ps as [|x ps IH]; intros [|i] H; try done; cbn -[Z.of_nat holds_slot] in *.
  - injection H as ->. destruct (holds_slot p), (holds_slot q); cbn -[Z.of_nat holds_slot]; lia.
  - specialize (IH i H). destruct (holds_slot x); cbn -[Z.of_nat holds_slot]; [|exact IH]. rewrite !Nat2Z.inj_succ. etransitivity; [exact (f_equal Z.succ IH)|unfold Z.succ; ring].
Qed.
Lemma advance_slot site now run free c st m w st' w' : advance site now run free c st = Some m -> m w = (Ok st', w') ->
  holds_slot (site, st') = true -> holds_slot (site, st) = true \/ free = true.
Proof.
  destruct st as [|u|u|row t u|r e|r e|h r e|r e]; cbn; intros H Hm Hs; simplify_eq; auto; unfold bind in Hm.
  - destruct (attempt_ok (lookup_site site) w) as (r & w1 & Hr). rewrite Hr in Hm. injection Hm as <- _. by destruct r.
  - destruct c; [simplify_eq; injection Hm as <- _; done|]. destruct free; [auto|done].
Qed.
Lemma slots_start ids : slots (batch_start ids) = 0.
Proof. unfold slots, batch_start. induction ids; [done|]. cbn. done. Qed.
Lemma bstep_slots c c' : bstep c c' -> slots c.2 <= auditConcurrency -> slots c'.2 <= auditConcurrency.
Proof.
  intros [i site st now run cc m st' w w' ps Hi Ha Hm] Hs. cbn in *. rewrite (slots_insert _ _ _ _ Hi).
  pose proof (advance_slot _ _ _ _ _ _ _ _ _ _ Ha Hm) as H. unfold auditConcurrency in *.
  destruct (holds_slot (site, st')); [|destruct (holds_slot (site, st)); lia].
  destruct (H eq_refl) as [-> |Hf]; [lia|]. destruct (holds_slot _); lia.
Qed.

(** C40: a never more than two browsers run for a batch, however many sites it has,
    in whatever order its runs make their steps. *)
Theorem at_most_two_browsers w ids w' ps : rtc bstep (w, batch_start ids) (w', ps) ->
  Z.of_nat (length (List.filter (fun p => match p.2 with Auditing _ _ _ => true | _ => false end) ps)) <= 2.
Proof.
  intros H. assert (slots ps <= 2) as Hs.
  { change (slots (w', ps).2 <= auditConcurrency). remember (w, batch_start ids) as c eqn:Hc.
    assert (slots c.2 <= auditConcurrency) as Hc' by (subst; cbn; rewrite slots_start; done). clear Hc.
    induction H; [done|]. apply IHrtc, (bstep_slots x); [done|]. by subst. }
  unfold slots in Hs. etransitivity; [|exact Hs]. apply Nat2Z.inj_le. clear. induction ps as [|[s st] ps IH]; [done|].
  cbn. destruct st; cbn; lia.
Qed.

(** *** Batches end *)

Definition left_to_do (p : Z * stage) : nat :=
  match p.2 with Start => 7 | Queued _ => 6 | Holding _ => 5 | Auditing _ _ _ => 4 | Scored _ _ => 3 | Recorded _ _ => 2 | Deciding _ _ _ => 1 | Ended _ _ => 0 end.
Definition work (ps : list (Z * stage)) : nat := list_sum (map left_to_do ps).
Lemma work_insert ps i p q : ps !! i = Some p -> (left_to_do q < left_to_do p)%nat -> (work (<[i := q]> ps) < work ps)%nat.
Proof.
  unfold work. revert i. induction ps as [|x ps IH]; intros [|i] H Hlt; try done; cbn -[left_to_do] in *.
  - injection H as ->. lia.
  - specialize (IH i H Hlt). apply Nat.add_lt_mono_l. exact IH.
Qed.
Lemma advance_works site now run free c st m w st' w' : advance site now run free c st = Some m -> m w = (Ok st', w') -> (left_to_do (site, st') < left_to_do (site, st))%nat.
Proof.
  destruct st as [|u|u|row t u|r e|r e|h r e|r e]; cbn; intros H Hm; simplify_eq; unfold bind in Hm.
  - destruct (attempt_ok (lookup_site site) w) as (r & w1 & Hr). rewrite Hr in Hm. injection Hm as <- _. destruct r; cbn; lia.
  - destruct c; [|destruct free; [|done]]; simplify_eq; injection Hm as <- _; cbn; lia.
  - destruct (attempt_ok (stmt (insert_run site now)) w) as (r & w1 & Hr). rewrite Hr in Hm. injection Hm as <- _. destruct r; cbn; lia.
  - injection Hm as <- _. cbn. lia.
  - destruct (ignore tt (exec (update_run r)) w) as [[] w1]; [|done]. injection Hm as <- _. cbn. lia.
  - destruct (ignore false (HistoryEnabled site) w) as [[] w1]; [|done]. injection Hm as <- _. cbn. lia.
  - destruct (negb h && _); [destruct (ignore tt (exec (forget_others site (rs_id r))) w) as [[] w1]; [|done]|]; injection Hm as <- _; cbn; lia.
Qed.
Lemma bstep_works c c' : bstep c c' -> (work c'.2 < work c.2)%nat.
Proof. intros [i site st now run cc m st' w w' ps Hi Ha Hm]. cbn. eapply work_insert; [exact Hi|]. by eapply advance_works. Qed.

(** While one has not ended, one can step: the slots are held by runs that can. *)
Lemma bstep_progress w ps : forallb ended ps = false -> exists c, bstep (w, ps) c.
Proof.
  intros H. set (run0 := fun _ : string => (no_result, @None string)).
  assert (forall i site st, ps !! i = Some (site, st) -> advance site 0 run0 (slots ps <? auditConcurrency) None st <> None -> exists c, bstep (w, ps) c) as Hgo.
  { intros i site st Hi Ha. destruct (advance _ _ _ _ _ st) as [m|] eqn:E; [|done].
    destruct (advance_ok _ _ _ _ _ _ _ w E) as (st' & w' & Hm). eexists. by eapply bstep_at. }
  destruct (List.filter holds_slot ps) as [|p l] eqn:Eh.
  - assert (exists i site st, ps !! i = Some (site, st) /\ ended (site, st) = false) as (i & site & st & Hi & He).
    { clear -H. induction ps as [|[site st] ps IH]; [done|]. cbn in H. destruct (ended (site, st)) eqn:E.
      - destruct IH as (i & s & t & Hi & He); [done|]. by exists (S i), s, t.
      - by exists 0%nat, site, st. }
    apply (Hgo i site st Hi). unfold slots. rewrite Eh. cbn. by destruct st.
  - assert (In p (List.filter holds_slot ps)) as Hp by (rewrite Eh; by left). apply filter_In in Hp as [Hp Hs].
    apply list_elem_of_In, list_elem_of_lookup in Hp as [i Hi]. destruct p as [site st]. apply (Hgo i site st Hi). by destruct st.
Qed.

(** A batch ends: it makes at most seven steps for each site, and while it has not
    ended there is a step to make, whatever the database refuses and in whatever
    order its runs proceed. *)
Theorem batch_ends w ids :
  (forall n c, nsteps bstep n (w, batch_start ids) c -> (n <= 7 * length ids)%nat) /\
  (forall w' ps, rtc bstep (w, batch_start ids) (w', ps) -> (forall c, ~ bstep (w', ps) c) -> exists out, batch_results ps = Some out).
Proof.
  split.
  - assert (work (batch_start ids) = 7 * length ids)%nat as Hw by (induction ids as [|x l IH]; [done|]; change (7 + work (batch_start l) = 7 * S (length l))%nat; rewrite IH; lia).
    intros n c H. rewrite <- Hw. change (batch_start ids) with (w, batch_start ids).2. clear Hw. induction H as [|n c1 c2 c3 Hs _ IH]; [lia|].
    apply bstep_works in Hs. lia.
  - intros w' ps _ Hn. unfold batch_results. destruct (forallb ended ps) eqn:E; [eauto|]. destruct (bstep_progress w' ps E) as [c Hc]. by destruct (Hn c).
Qed.

(** *** The runs of a site *)

Definition runs_of (site : Z) (d : udb) : list Result := List.filter (fun r => r.(rs_site) =? site) d.(ud_runs).
Definition begun (row site now : Z) : Result := mk_Result row site "running" 0 0 0 0 [] 0 "" "" now now.
(** The row that a result leaves. *)
Definition stored (r : Result) : Result :=
  mk_Result r.(rs_id) r.(rs_site) r.(rs_status) r.(rs_perf) r.(rs_access) r.(rs_best) r.(rs_disc) r.(rs_findings) r.(rs_duration) r.(rs_url) r.(rs_error) r.(rs_created) r.(rs_created).
Definition keeps_history (site : Z) (d : udb) : bool := match find_first (fun x => x.1 =? site) d.(ud_settings) with Some x => x.2 | None => false end.
(** The old runs that stay after the result [r]. *)
Definition kept (site : Z) (d : udb) (r : Result) : list Result := if keeps_history site d || (r.(rs_status) =?s "running") then runs_of site d else [].

Lemma runs_of_id site d r : In r (runs_of site d) -> In r d.(ud_runs) /\ r.(rs_site) = site.
Proof. unfold runs_of. rewrite filter_In, Z.eqb_eq. done. Qed.
Lemma runs_insert site site' row now d : runs_of site (set_runs (d.(ud_runs) ++ [begun row site' now]) d) = (runs_of site d ++ if site' =? site then [begun row site' now] else [])%list.
Proof. unfold runs_of. cbn. rewrite List.filter_app. cbn. by destruct (site' =? site). Qed.
Lemma filter_upd {A} (q p : A -> bool) f l : (forall x, q (f x) = q x) -> List.filter q (upd p f l) = upd p f (List.filter q l).
Proof.
  intros Hq. unfold upd. induction l as [|x l IH]; [done|]. cbn. assert (q (if p x then f x else x) = q x) as -> by by destruct (p x).
  destruct (q x); cbn; by rewrite IH.
Qed.
Lemma runs_update site r d : runs_of site (update_run r d) = ud_runs (update_run r (set_runs (runs_of site d) d)).
Proof. unfold runs_of, update_run. by apply filter_upd. Qed.
Lemma update_absent r d : (forall x, In x d.(ud_runs) -> x.(rs_id) <> r.(rs_id)) -> ud_runs (update_run r d) = d.(ud_runs).
Proof. intros H. cbn. apply upd_none. intros x Hx. apply Z.eqb_neq. by apply H. Qed.
Lemma runs_forget site row d old x : runs_of site d = (old ++ [x])%list -> x.(rs_id) = row -> (forall y, In y old -> y.(rs_id) <> row) -> runs_of site (forget_others site row d) = [x].
Proof.
  intros H Hx Ho. unfold runs_of, forget_others in *. cbn.
  assert (List.filter (fun r => rs_site r =? site) (del (fun y => (rs_site y =? site) && negb (rs_id y =? row)) (ud_runs d)) =
    List.filter (fun y => rs_id y =? row) (List.filter (fun r => rs_site r =? site) (ud_runs d))) as ->.
  { clear. unfold del. induction (ud_runs d) as [|y l IH]; [done|]. cbn. destruct (rs_site y =? site) eqn:E; cbn.
    - destruct (rs_id y =? row); cbn; by rewrite ?E, IH.
    - by rewrite E. }
  rewrite H, List.filter_app. cbn. rewrite Hx, Z.eqb_refl. rewrite filter_none; [done|]. intros y Hy. apply Z.eqb_neq. by apply Ho.
Qed.
Lemma runs_forget_other site site' row d : site' <> site -> runs_of site (forget_others site' row d) = runs_of site d.
Proof.
  intros Hne. unfold runs_of, forget_others, del. cbn. induction (ud_runs d) as [|y l IH]; [done|]. cbn.
  destruct (rs_site y =? site') eqn:E; cbn; [|by rewrite IH]. assert ((rs_site y =? site) = false) as Hy by lia. rewrite Hy.
  destruct (rs_id y =? row); cbn; rewrite ?Hy; done.
Qed.

(** What the database holds of a site whose run is at a stage. *)
Definition at_stage (d0 d : udb) (site : Z) (st : stage) : Prop :=
  match st with
  | Start | Queued _ | Holding _ => runs_of site d = runs_of site d0
  | Auditing row t _ => runs_of site d = (runs_of site d0 ++ [begun row site t])%list
  | Scored r _ => r.(rs_site) = site /\ runs_of site d = (runs_of site d0 ++ [begun r.(rs_id) site r.(rs_created)])%list
  | Recorded r _ => r.(rs_site) = site /\ runs_of site d = (runs_of site d0 ++ [stored r])%list
  | Deciding h r _ => r.(rs_site) = site /\ runs_of site d = (runs_of site d0 ++ [stored r])%list /\ h = keeps_history site d0
  | Ended r e => (r = no_result /\ is_Some e /\ runs_of site d = runs_of site d0) \/ (r.(rs_site) = site /\ runs_of site d = (kept site d0 r ++ [stored r])%list)
  end.
Definition sound_runs (d : udb) : Prop := NoDup (map rs_id d.(ud_runs)).
Definition same_rest (d0 d : udb) : Prop := d.(ud_fleet) = d0.(ud_fleet) /\ d.(ud_settings) = d0.(ud_settings).

Lemma sound_unique d x y : sound_runs d -> In x d.(ud_runs) -> In y d.(ud_runs) -> x.(rs_id) = y.(rs_id) -> x = y.
Proof.
  unfold sound_runs. induction (ud_runs d) as [|z l IH]; [done|]. cbn. intros [Hz Hl]%NoDup_cons [->|Hx] [->|Hy] E; try done.
  - destruct Hz. apply list_elem_of_In, in_map_iff. by exists y.
  - destruct Hz. apply list_elem_of_In, in_map_iff. by exists x.
  - by apply IH.
Qed.
(** The last row of a site, apart from its other rows and those of other sites. *)
Lemma last_row d site old x : sound_runs d -> runs_of site d = (old ++ [x])%list ->
  (forall y, In y old -> y.(rs_id) <> x.(rs_id)) /\ (forall s y, s <> site -> In y (runs_of s d) -> y.(rs_id) <> x.(rs_id)).
Proof.
  intros Hd H. assert (In x (runs_of site d)) as Hx by (rewrite H; apply in_app_iff; right; by left). apply runs_of_id in Hx as [Hx Hs]. split.
  - intros y Hy E. assert (NoDup (map rs_id (runs_of site d))) as Hn.
    { unfold runs_of. rewrite (List.filter_ext _ (fun r => negb (negb (rs_site r =? site)))) by (intros; by rewrite negb_involutive). by apply (NoDup_map_del rs_id). }
    rewrite H, map_app in Hn. apply NoDup_app in Hn as (_ & Hn & _). apply (Hn (rs_id y)); [apply list_elem_of_In, in_map_iff; by exists y|].
    rewrite E. cbn. apply list_elem_of_here.
  - intros s y Hne Hy E. apply runs_of_id in Hy as [Hy Hsy]. apply Hne. rewrite <- Hsy, <- Hs. by rewrite (sound_unique d y x).
Qed.

Lemma at_stage_ext d0 d d' site st : runs_of site d' = runs_of site d -> at_stage d0 d site st -> at_stage d0 d' site st.
Proof. intros E H. destruct st; cbn in *; by rewrite E. Qed.
Lemma history_setting_kept d0 d site : same_rest d0 d -> keeps_history site d = keeps_history site d0.
Proof. intros [_ H]. unfold keeps_history. by rewrite H. Qed.

(** One run's step, seen from its site and from the others. *)
Definition moved (d0 d d' : udb) (site : Z) (st' : stage) : Prop :=
  sound_runs d' /\ same_rest d0 d' /\ at_stage d0 d' site st' /\ forall s, s <> site -> runs_of s d' = runs_of s d.
Lemma moved_still d0 d site st' : sound_runs d -> same_rest d0 d -> at_stage d0 d site st' -> moved d0 d d site st'.
Proof. by intros. Qed.

Lemma insert_moves d0 d site now d' row u : sound_runs d -> same_rest d0 d -> runs_of site d = runs_of site d0 ->
  insert_run site now d = Some (row, d') -> moved d0 d d' site (Auditing row now u).
Proof.
  intros Hd Hs Hr H. unfold insert_run in H. destruct (site_exists site (ud_fleet d)); [|done]. set (id := fresh_id _) in H. injection H as <- <-.
  fold (begun id site now). split; [|split; [done|split]].
  - unfold sound_runs. cbn. by apply NoDup_map_snoc, fresh_id_notin.
  - cbn [at_stage]. rewrite runs_insert, Z.eqb_refl, Hr. done.
  - intros s Hne. rewrite runs_insert. replace (site =? s) with false by lia. apply app_nil_r.
Qed.
Lemma update_moves d0 d site r e : sound_runs d -> same_rest d0 d -> at_stage d0 d site (Scored r e) -> moved d0 d (update_run r d) site (Recorded r e).
Proof.
  intros Hd Hs [Hr H]. destruct (last_row _ _ _ _ Hd H) as [Hold Hother]. split; [|split; [done|split]].
  - unfold sound_runs. replace (map rs_id (ud_runs (update_run r d))) with (map rs_id (ud_runs d)); [done|].
    cbn. unfold upd. rewrite List.map_map. apply List.map_ext. intros x. by destruct (rs_id x =? rs_id r).
  - split; [done|]. rewrite runs_update, H. unfold update_run. cbn [ud_runs set_runs]. rewrite upd_app.
    rewrite (upd_none _ _ (runs_of site d0)) by (intros y Hy; apply Z.eqb_neq; by apply Hold).
    f_equal. cbn. rewrite Z.eqb_refl. unfold stored. by rewrite Hr.
  - intros s Hne. rewrite runs_update. rewrite update_absent; [done|]. intros y Hy. by apply (Hother s).
Qed.
Lemma forget_moves d0 d site r e h : sound_runs d -> same_rest d0 d -> at_stage d0 d site (Deciding h r e) ->
  moved d0 d (if negb h && negb (r.(rs_status) =?s "running") then forget_others site r.(rs_id) d else d) site (Ended r e).
Proof.
  intros Hd Hs (Hr & H & ->). assert (rs_id (stored r) = rs_id r) as Hid by done. destruct (last_row _ _ _ _ Hd H) as [Hold _].
  rewrite <- negb_orb. destruct (keeps_history site d0 || (rs_status r =?s "running")) eqn:Hk; cbn [negb].
  - apply moved_still; try done. right. split; [done|]. unfold kept. by rewrite Hk.
  - split; [|split; [done|split]].
    + by apply NoDup_map_del.
    + right. split; [done|]. unfold kept. rewrite Hk. eapply runs_forget; [exact H|done|exact Hold].
    + intros s Hne. apply runs_forget_other. congruence.
Qed.
Lemma advance_moves d0 d fl' site now run free c st m st' d' : advance site now run free c st = Some m -> m (d, []) = (Ok st', (d', fl')) ->
  sound_runs d -> same_rest d0 d -> at_stage d0 d site st -> fl' = [] /\ moved d0 d d' site st'.
Proof.
  intros Ha Hm Hd Hs Hst. destruct st as [|u|u|row t u|r e|r e|h r e|r e]; cbn [advance] in Ha; simplify_eq.
  - unfold bind, attempt in Hm. destruct (lookup_site site (d, [])) as [f [d1 fl1]] eqn:E.
    assert (d1 = d /\ fl1 = []) as [-> ->].
    { unfold lookup_site, bind, or_fail in E. cbn in E. destruct (find_first _ _); by injection E as _ <- <-. }
    destruct f as [u|e]; injection Hm as <- <- <-; (split; [done|]); apply moved_still; try done. left. eauto.
  - destruct c as [e|]; [|destruct free; [|done]]; simplify_eq; injection Hm as <- <- <-; (split; [done|]); apply moved_still; try done. left. eauto.
  - unfold bind, attempt, stmt in Hm. cbn [List.tl] in Hm. destruct (insert_run site now d) as [[row d1]|] eqn:E; injection Hm as <- <- <-; (split; [done|]).
    + by apply insert_moves.
    + apply moved_still; try done. left. eauto.
  - injection Hm as <- <- <-. split; [done|]. apply moved_still; try done. cbn in *. unfold finished. destruct (run u).2; cbn; by split.
  - injection Hm as <- <- <-. split; [done|]. by apply update_moves.
  - injection Hm as <- <- <-. split; [done|]. apply moved_still; try done. cbn in *. destruct Hst. split_and!; try done. by apply history_setting_kept.
  - pose proof (forget_moves d0 d site r e h Hd Hs Hst) as G. destruct (negb h && _); injection Hm as <- <- <-; done.
Qed.

Definition batch_inv (d0 : udb) (c : udb * faults * list (Z * stage)) : Prop :=
  c.1.2 = [] /\ sound_runs c.1.1 /\ same_rest d0 c.1.1 /\ NoDup (map fst c.2) /\ (forall i site st, c.2 !! i = Some (site, st) -> at_stage d0 c.1.1 site st) /\
  forall s, ~ In s (map fst c.2) -> runs_of s c.1.1 = runs_of s d0.
Lemma map_fst_insert {A B} (ps : list (A * B)) i a b b' : ps !! i = Some (a, b) -> map fst (<[i := (a, b')]> ps) = map fst ps.
Proof. revert i. induction ps as [|x ps IH]; intros [|i] H; try done; cbn in *; [by injection H as ->|]. f_equal. by apply IH. Qed.
Lemma bstep_inv d0 c c' : bstep c c' -> batch_inv d0 c -> batch_inv d0 c'.
Proof.
  intros [i site st now run cc m st' [d fl] [d' fl'] ps Hi Ha Hm] (Hf & Hd & Hs & Hn & Hall & Hout). cbn in *. subst fl.
  destruct (advance_moves d0 _ _ _ _ _ _ _ _ _ _ _ Ha Hm Hd Hs (Hall _ _ _ Hi)) as (-> & Hd' & Hs' & Hst & Ho). split_and!; try done; cbn.
  - by rewrite (map_fst_insert _ _ _ _ _ Hi).
  - intros j s st1 Hj. destruct (decide (j = i)) as [->|Hne].
    + rewrite list_lookup_insert_eq in Hj by (by eapply lookup_lt_Some). by injection Hj as <- <-.
    + rewrite list_lookup_insert_ne in Hj by done. apply (at_stage_ext _ d); [|by apply (Hall j)]. apply Ho. intros ->.
      apply Hne, (NoDup_lookup (map fst ps) j i site Hn); rewrite list_lookup_fmap; [by rewrite Hj|by rewrite Hi].
  - intros s Hin. rewrite (map_fst_insert _ _ _ _ _ Hi) in Hin. rewrite <- (Hout s Hin). apply Ho. intros ->. apply Hin, list_elem_of_In, (list_elem_of_lookup_2 _ i).
    by rewrite list_lookup_fmap, Hi.
Qed.

(** *** Batches, whatever the database refuses *)

(** The row that a run has inserted. *)
Definition row_of (st : stage) : option Z :=
  match st with Auditing row _ _ => Some row | Scored r _ | Recorded r _ | Deciding _ r _ => Some r.(rs_id) | _ => None end.
Definition has_row (d : udb) (p : Z * stage) : Prop :=
  forall row, row_of p.2 = Some row -> exists x, In x d.(ud_runs) /\ x.(rs_id) = row /\ x.(rs_site) = p.1.
Definition confined (site : Z) (d d' : udb) : Prop :=
  same_rest d d' /\ sound_runs d' /\ forall q : Z -> bool, q site = false -> List.filter (fun r => q r.(rs_site)) d'.(ud_runs) = List.filter (fun r => q r.(rs_site)) d.(ud_runs).
Lemma confined_refl site d : sound_runs d -> confined site d d.
Proof. intros H. split; [by split|by split]. Qed.
Lemma confined_has_row site d d' p : confined site d d' -> p.1 <> site -> has_row d p -> has_row d' p.
Proof.
  intros (_ & _ & H) Hp Hd row Hr. destruct (Hd row Hr) as (x & Hx & Hid & Hs). exists x. split; [|done].
  assert (In x (List.filter (fun r => rs_site r =? p.1) (ud_runs d))) as Hin by (apply filter_In; split; [done|by apply Z.eqb_eq]).
  specialize (H (fun s => s =? p.1)). cbv beta in H. rewrite <- H in Hin by lia. by apply filter_In in Hin as [Hin _].
Qed.
Lemma update_confined site r e d : sound_runs d -> has_row d (site, Scored r e) -> confined site d (update_run r d) /\ has_row (update_run r d) (site, Recorded r e).
Proof.
  intros Hd Hr. destruct (Hr _ eq_refl) as (x & Hx & Hid & Hs). cbn in Hs.
  assert (map rs_id (ud_runs (update_run r d)) = map rs_id (ud_runs d)) as Hm.
  { cbn. unfold upd. rewrite List.map_map. apply List.map_ext. intros y. by destruct (rs_id y =? rs_id r). }
  split; [split; [by split|split]|].
  - unfold sound_runs. by rewrite Hm.
  - intros q Hq. cbn. unfold upd. assert (forall y, In y (ud_runs d) -> (rs_id y =? rs_id r) = true -> q (rs_site y) = false) as Hy.
    { intros y Hy E. apply Z.eqb_eq in E. rewrite (sound_unique d y x); try done; congruence. }
    revert Hy. generalize (ud_runs d). induction l as [|y l IH]; intros Hy; [done|]. cbn. rewrite IH by (intros z Hz; apply Hy; by right).
    destruct (rs_id y =? rs_id r) eqn:E; [|done]. cbn. by rewrite (Hy y (or_introl eq_refl) E).
  - intros row [= <-]. eexists. split; [cbn; apply in_map_iff; exists x; split; [reflexivity|exact Hx]|]. cbv beta. by destruct (_ =? _).
Qed.
Lemma forget_confined site row d : sound_runs d -> confined site d (forget_others site row d).
Proof.
  intros Hd. split; [by split|split; [by apply NoDup_map_del|]]. intros q Hq. cbn. unfold del. induction (ud_runs d) as [|y l IH]; [done|]. cbn.
  destruct (rs_site y =? site) eqn:E; cbn; [|by rewrite IH]. apply Z.eqb_eq in E. rewrite E, Hq. destruct (rs_id y =? row); cbn; rewrite ?E, ?Hq; done.
Qed.
Lemma advance_confined site now run free c st m d fl r d' fl' : advance site now run free c st = Some m -> m (d, fl) = (r, (d', fl')) ->
  sound_runs d -> has_row d (site, st) -> confined site d d' /\ forall st', r = Ok st' -> has_row d' (site, st').
Proof.
  intros Ha Hm Hd Hst. pose proof (confined_refl site d Hd) as Hsame.
  destruct st as [|u|u|row t u|x e|x e|h x e|x e]; cbn [advance] in Ha; simplify_eq.
  - unfold bind, attempt in Hm. destruct (lookup_site site (d, fl)) as [f [d1 fl1]] eqn:E.
    assert (d1 = d) as ->. { unfold lookup_site, bind, or_fail, query, stmt in E. destruct fl as [|[] fl]; cbn in E; try (by injection E as _ <- _); destruct (find_first _ _); by injection E as _ <- _. }
    injection Hm as <- <- _. split; [done|]. intros st' [= <-]. by destruct f.
  - destruct c as [e|]; [|destruct free; [|done]]; simplify_eq; injection Hm as <- <- _; (split; [done|]); by intros st' [= <-].
  - unfold bind, attempt, stmt in Hm. destruct fl as [|[] fl]; cbn [List.tl] in Hm; [|by injection Hm as <- <- _; split; [|intros st' [= <-]]|];
      (destruct (insert_run site now d) as [[row d1]|] eqn:E; injection Hm as <- <- _; [|by split; [|intros st' [= <-]]]);
      unfold insert_run in E; (destruct (site_exists site (ud_fleet d)); [|done]); set (id := fresh_id _) in E; injection E as <- <-.
    all: split; [split; [by split|split]|].
    all: try (intros q Hq; cbn; rewrite List.filter_app; cbn; by rewrite Hq, app_nil_r).
    all: try (unfold sound_runs; cbn; by apply NoDup_map_snoc, fresh_id_notin).
    all: intros st' [= <-] row [= <-]; eexists; split; [cbn; apply in_app_iff; right; by left|done].
  - injection Hm as <- <- _. split; [done|]. intros st' [= <-] row' [= <-]. cbn. destruct (Hst row eq_refl) as (y & Hy & Hid & Hs). exists y. split; [done|]. split; [|done]. rewrite Hid. unfold finished. by destruct (run u).2.
  - destruct (update_confined site x e d Hd Hst) as [H1 H2]. unfold bind, ignore, exec, stmt in Hm.
    destruct fl as [|[] fl]; injection Hm as <- <- _; split; try done; intros st' [= <-]; try done; exact Hst.
  - unfold bind, ignore, HistoryEnabled, query, stmt in Hm. destruct fl as [|[] fl]; injection Hm as <- <- _; (split; [done|]); intros st' [= <-]; exact Hst.
  - assert (d' = d \/ d' = forget_others site x.(rs_id) d) as Hd'.
    { destruct (negb h && _); [|injection Hm as _ <- _; by left]. unfold bind, ignore, exec, stmt in Hm. destruct fl as [|[] fl]; injection Hm as _ <- _; auto. }
    assert (forall st', r = Ok st' -> st' = Ended x e) as Hr.
    { intros st' ->. destruct (negb h && _); [|by injection Hm as <- _ _]. unfold bind, ignore, exec, stmt in Hm. destruct fl as [|[] fl]; by injection Hm as <- _ _. }
    split; [destruct Hd' as [-> | ->]; [done|by apply forget_confined]|]. intros st' E. by rewrite (Hr st' E).
Qed.
(** A batch changes the runs of its sites, and nothing else. *)
Definition at_rows (d : udb) (ps : list (Z * stage)) : Prop := sound_runs d /\ NoDup (map fst ps) /\ forall i p, ps !! i = Some p -> has_row d p.
Lemma batch_confined c c' : rtc bstep c c' -> at_rows c.1.1 c.2 -> map fst c'.2 = map fst c.2 /\ at_rows c'.1.1 c'.2 /\ same_rest c.1.1 c'.1.1 /\
  forall q : Z -> bool, (forall s, In s (map fst c.2) -> q s = false) -> List.filter (fun r => q r.(rs_site)) c'.1.1.(ud_runs) = List.filter (fun r => q r.(rs_site)) c.1.1.(ud_runs).
Proof.
  induction 1 as [c|c1 c2 c3 Hs _ IH]; intros H; [by split_and!|].
  assert (map fst c2.2 = map fst c1.2 /\ at_rows c2.1.1 c2.2 /\ same_rest c1.1.1 c2.1.1 /\
    forall q : Z -> bool, (forall s, In s (map fst c1.2) -> q s = false) -> List.filter (fun r => q r.(rs_site)) c2.1.1.(ud_runs) = List.filter (fun r => q r.(rs_site)) c1.1.1.(ud_runs)) as (E & H2 & [F1 F2] & Hq).
  { destruct Hs as [i site st now run cc m st' [d fl] [d' fl'] ps Hi Ha Hm]. cbn in *. destruct H as (Hd & Hn & Hall).
    destruct (advance_confined _ _ _ _ _ _ _ _ _ _ _ _ Ha Hm Hd (Hall _ _ Hi)) as [Hc Hst]. pose proof Hc as (Hr & Hd' & Hf).
    split; [by apply (map_fst_insert _ _ _ st)|]. split; [split_and!; [done|by rewrite (map_fst_insert _ _ _ st)|]|split; [done|]].
    - intros j p Hj. destruct (decide (j = i)) as [->|Hne].
      + rewrite list_lookup_insert_eq in Hj by (by eapply lookup_lt_Some). injection Hj as <-. by apply Hst.
      + rewrite list_lookup_insert_ne in Hj by done. apply (confined_has_row site d); [done| |by apply (Hall j)]. intros E.
        apply Hne, (NoDup_lookup (map fst ps) j i site Hn); rewrite list_lookup_fmap; [by rewrite Hj, <- E|by rewrite Hi].
    - intros q Hq. apply Hf, Hq. apply list_elem_of_In, (list_elem_of_lookup_2 _ i). by rewrite list_lookup_fmap, Hi. }
  destruct (IH H2) as (E3 & H3 & [G1 G2] & Hq3). split; [congruence|]. split; [done|]. split; [split; congruence|].
  intros q Hq'. rewrite Hq3, Hq; [done|done|]. intros s Hs'. apply Hq'. by rewrite <- E.
Qed.

Lemma owned_nothing org d : owned org [] d = [].
Proof. unfold owned. rewrite filter_none; [done|]. intros x _. cbn. by rewrite andb_false_r. Qed.
Lemma NoDup_owned org ids d : NoDup (map s_id d.(ud_fleet).(sites)) -> NoDup (owned org ids d).
Proof.
  intros H. unfold owned. rewrite (List.filter_ext _ (fun s => negb (negb ((s_org s =? org) && Zmem (s_id s) ids)))) by (intros; by rewrite negb_involutive).
  by apply (NoDup_map_del s_id).
Qed.

(** C23: the runs of a batch do not disturb one another: in whatever order their steps
    fall, when no statement is refused and nothing else audits these sites meanwhile,
    each site that was audited has its old runs, where its history is kept, and then
    the result that is answered for it; a site that could not be audited, and a site
    that is not of the organization or not asked for, has the runs it had.  (Another
    audit of a site at the same time may leave it without a run:
    [two_audits_of_a_site_leave_none].) *)
Theorem batch_results_are_kept org ids d d' fl' out : RunBatch org ids (d, []) out (d', fl') ->
  sound_runs d -> NoDup (map s_id d.(ud_fleet).(sites)) ->
  Forall2 (fun site r =>
    (exists e, r = answer no_result (Some e) /\ runs_of site d' = runs_of site d) \/
    (exists x e, r = answer x e /\ runs_of site d' = (kept site d x ++ [stored x])%list)) (owned org ids d) out /\
  forall site, ~ In site (owned org ids d) -> runs_of site d' = runs_of site d.
Proof.
  intros H Hd Hn. inversion H as [w mine [d1 fl1] ps w2 out' Hf Hr Ho]; subst.
  assert (mine = owned org ids d /\ d1 = d /\ fl1 = []) as (-> & -> & ->).
  { unfold filterOwned in Hf. destruct ids as [|i ids]; [|by injection Hf as <- <- <-]. injection Hf as <- <- <-. by rewrite owned_nothing. }
  assert (batch_inv d (d, [], batch_start (owned org ids d))) as Hi.
  { assert (map fst (batch_start (owned org ids d)) = owned org ids d) as Hm by (unfold batch_start; rewrite List.map_map; apply map_id).
    split_and!; try done; cbn; [rewrite Hm; by apply NoDup_owned|]. intros i site st Hj. unfold batch_start in Hj. rewrite list_lookup_fmap in Hj.
    destruct (owned org ids d !! i); [|done]. by injection Hj as <- <-. }
  assert (map fst ps = owned org ids d /\ batch_inv d (d', fl', ps)) as [Hm (_ & _ & _ & _ & Hall & Hout)].
  { assert (map fst (batch_start (owned org ids d)) = owned org ids d) as Hm by (unfold batch_start; rewrite List.map_map; apply map_id).
    rewrite <- Hm at 1. change ps with (d', fl', ps).2 at 1. change (batch_start (owned org ids d)) with (d, @nil bool, batch_start (owned org ids d)).2 at 1.
    clear -Hr Hi. induction Hr as [|c1 c2 c3 Hs _ IH]; [done|]. destruct (IH (bstep_inv _ _ _ Hs Hi)) as [E ?]. split; [|done]. rewrite E.
    inversion Hs; subst; cbn. by erewrite map_fst_insert. }
  cbn in *. rewrite <- Hm. split; [|done]. unfold batch_results in Ho. destruct (forallb ended ps) eqn:Hend; [|done]. injection Ho as <-.
  rewrite Forall2_fmap. apply Forall2_same_length_lookup_2; [done|]. intros i [site st] [? ?] Hk Hk'. rewrite Hk in Hk'. injection Hk' as <- <-. cbn [fst snd].
  assert (ended (site, st) = true) as He by (rewrite forallb_forall in Hend; apply Hend, list_elem_of_In; by eapply list_elem_of_lookup_2).
  destruct st as [| | | | | | |r e]; try done. destruct (Hall _ _ _ Hk) as [(-> & [x ->] & H1)|[_ H1]]; [left; by exists x|right; by exists r, e].
Qed.

(** ** Witnesses *)

(** Runs a schedule: who makes the next step. *)
Fixpoint play (now : Z) (run : Z -> string -> Result * option string) (schedule : list nat) (c : udb * faults * list (Z * stage)) : option (udb * faults * list (Z * stage)) :=
  match schedule with
  | [] => Some c
  | i :: l =>
      match c.2 !! i with
      | Some (site, st) =>
          match advance site now (run site) (slots c.2 <? auditConcurrency) None st with
          | Some m => match m c.1 with (Ok st', w') => play now run l (w', <[i := (site, st')]> c.2) | _ => None end
          | None => None
          end
      | None => None
      end
  end.
Lemma play_sound now run schedule : forall c c', play now run schedule c = Some c' -> rtc bstep c c'.
Proof.
  induction schedule as [|i l IH]; intros [w ps] c' H; cbn in H; [injection H as <-; done|].
  destruct (ps !! i) as [[site st]|] eqn:Hi; [|done]. destruct (advance _ _ _ _ _ st) as [m|] eqn:Ha; [|done].
  destruct (m w) as [[st'|] w'] eqn:Hm; [|done]. eapply rtc_l; [by eapply bstep_at|by apply IH].
Qed.

Definition demo_site (id org : Z) (url : string) : site_row := mk_site id org "site" url true None None 0 0 None.
Definition demo_scored (n : Z) (url : string) : Result * option string := (mk_Result 0 0 "complete" n 100 100 100 [] 40 url "" 0 0, None).
Definition demo_run (site : Z) (url : string) : Result * option string := if site =? 3 then (no_result, Some "browser audit timed out after 45s") else demo_scored (90 + site) url.
Definition demo_udb : udb := mk_udb (set_sites [demo_site 1 1 "https://a.example"; demo_site 2 1 "https://b.example"; demo_site 3 1 "https://c.example"; demo_site 4 2 "https://d.example"] empty_db)
  [mk_Result 5 1 "complete" 50 50 50 50 [] 9 "https://a.example" "" 3 3; mk_Result 6 4 "complete" 70 50 50 50 [] 9 "https://d.example" "" 3 3] [(1, true)].
(** Sites 1 to 3, with a fourth that is another organization's; the third waits until
    the second has ended. *)
Definition demo_schedule : list nat := [0; 0; 1; 1; 2; 0; 1; 1; 0; 1; 1; 1; 2; 2; 0; 2; 2; 0; 2; 2; 0]%nat.
Definition demo_batch : option (udb * faults * list (Z * stage)) := play 7 demo_run demo_schedule (demo_udb, [], batch_start [1; 2; 3]).
Definition demo_after : udb := match demo_batch with Some c => c.1.1 | None => demo_udb end.
Definition demo_answers : list Result := match demo_batch with Some c => default [] (batch_results c.2) | None => [] end.
Lemma demo_batch_eq : play 7 demo_run demo_schedule (demo_udb, [], batch_start [1; 2; 3]) = Some (demo_after, [], match demo_batch with Some c => c.2 | None => [] end).
Proof. vm_compute. reflexivity. Qed.
Lemma demo_batch_runs : RunBatch 1 [4; 3; 2; 1] (demo_udb, []) demo_answers (demo_after, []).
Proof. apply (run_batch _ _ _ [1; 2; 3] (demo_udb, []) (match demo_batch with Some c => c.2 | None => [] end)); [vm_compute; reflexivity|eapply play_sound, demo_batch_eq|vm_compute; reflexivity]. Qed.
Lemma batch_results_are_kept_witness :
  Forall2 (fun site r =>
    (exists e, r = answer no_result (Some e) /\ runs_of site demo_after = runs_of site demo_udb) \/
    (exists x e, r = answer x e /\ runs_of site demo_after = (kept site demo_udb x ++ [stored x])%list)) (owned 1 [4; 3; 2; 1] demo_udb) demo_answers /\
  forall site, ~ In site (owned 1 [4; 3; 2; 1] demo_udb) -> runs_of site demo_after = runs_of site demo_udb.
Proof.
  apply (batch_results_are_kept 1 [4; 3; 2; 1] demo_udb demo_after [] demo_answers demo_batch_runs).
  - apply (bool_decide_unpack _). vm_compute. exact I.
  - apply (bool_decide_unpack _). vm_compute. exact I.
Defined.
Lemma at_most_two_browsers_witness :
  Z.of_nat (length (List.filter (fun p => match p.2 with Auditing _ _ _ => true | _ => false end) (match demo_batch with Some c => c.2 | None => [] end))) <= 2.
Proof. exact (at_most_two_browsers (demo_udb, []) [1; 2; 3] (demo_after, []) _ (play_sound _ _ _ _ _ demo_batch_eq)). Defined.

(** What the demonstration answers: the third audit failed, the first keeps the old
    run of its site. *)
Example demo_batch_answers : map (fun r => (r.(rs_site), r.(rs_perf), r.(rs_error))) demo_answers = [(1, 91, ""); (2, 92, ""); (3, 0, "browser audit timed out after 45s")]
  /\ map (fun r => (r.(rs_id), r.(rs_site), r.(rs_status))) demo_after.(ud_runs) = [(5, 1, "complete"); (6, 4, "complete"); (7, 1, "complete"); (8, 2, "complete"); (9, 3, "failed")].
Proof. vm_compute. split; reflexivity. Qed.
(** A batch does not claim its sites, so it can audit a site that an operator is
    auditing.  Each run then deletes the row of the other: both audits are complete
    and no result is left. *)
Definition demo_twice : option (udb * faults * list (Z * stage)) :=
  play 7 (fun _ => demo_scored 92) [0; 0; 1; 1; 0; 1; 0; 1; 0; 0; 0; 1; 1; 1]%nat (demo_udb, [], batch_start [2; 2]).
Example two_audits_of_a_site_leave_none : match demo_twice with
  | Some c => map (fun r => (r.(rs_status), r.(rs_perf))) (default [] (batch_results c.2)) = [("complete", 92); ("complete", 92)] /\ runs_of 2 c.1.1 = []
  | None => False
  end.
Proof. vm_compute. split; reflexivity. Qed.
(** A filter by the days since the last audit does not filter. *)
Lemma last_audited_is_ignored Compile org f days w : ResolveBatch Compile org (mk_filter f.(bf_search) f.(bf_group) f.(bf_regex) days) w = ResolveBatch Compile org f w.
Proof. by destruct f. Qed.
