(* ===== verification/AuditBrowser.v ===== *)
(** The browser of an audit ([internal/audit/browser.go]) and the proxy in front of it
    ([internal/audit/proxy.go]): the command line, the capture of the output, the
    scores, the requests of the browser and the life of the proxy's connections.

    The parser of URLs, the resolver, the network and the processes of the system
    are parameters. *)
From S2P Require Import Prelude GoStr GoPath Netguard SqlM FleetDb Audits.
Open Scope string_scope.
Open Scope Z_scope.
Open Scope wf_scope.

(** ** Definitions *)

Definition defaultAuditTimeout : Z := 45000000000.
Definition maxDOMOutput : Z := Z.shiftl 16 20.

(** *** The output of the browser *)

Record limitedBuffer := mk_buffer { lb_buf : string; lb_limit : Z }.
(** [Write], and the number of bytes that it says it took. *)
Definition lb_write (p : string) (b : limitedBuffer) : Z * limitedBuffer :=
  if b.(lb_limit) <=? len b.(lb_buf) then (len p, b) else
  let room := b.(lb_limit) - len b.(lb_buf) in
  if room <? len p then (len p, mk_buffer (b.(lb_buf) ++ substring 0 (Z.to_nat room) p) b.(lb_limit))
  else (len p, mk_buffer (b.(lb_buf) ++ p) b.(lb_limit)).
Definition captured (limit : Z) (chunks : list string) : string :=
  lb_buf (List.fold_left (fun b p => (lb_write p b).2) chunks (mk_buffer "" limit)).

(** *** The scores of a page, which is in lower case *)

Definition quoted_description (q : string) : string := "name=" ++ q ++ "description" ++ q.
Definition scoreRendered (html : string) (durationMS : Z) (u : string) : Result :=
  let has := contains html in
  let no_title := negb (has "<title") in
  let no_meta := negb (has (quoted_description (String dquote ""))) && negb (has (quoted_description "'")) in
  let no_alt := has "<img" && negb (has " alt=") in
  let no_lang := negb (has "<html lang=") in
  let insecure := has "http://" in
  let minus (c : bool) (n : Z) := if c then n else 0 in
  let note (c : bool) (t : string) := if c then [t] else [] in
  let perf := 100 - Z.quot durationMS 50 in
  let perf := if perf <? 20 then 20 else perf in
  let perf := if 100 <? perf then 100 else perf in
  mk_Result 0 0 "complete" perf (100 - minus no_alt 15 - minus no_lang 10) (100 - minus insecure 15) (100 - minus no_title 20 - minus no_meta 15)
    (note no_title "Missing document title" ++ note no_meta "Missing meta description" ++ note no_alt "Images may be missing alt text"
      ++ note no_lang "Missing document language" ++ note insecure "Rendered document contains insecure HTTP references")%list
    durationMS u "" 0 0.

(** *** Running the browser *)

Definition browserArgs (sandbox proxyAddr target : string) : list string :=
  (["--headless=new"; "--disable-gpu"; "--disable-dev-shm-usage"; "--disable-quic"; "--disable-background-networking"; "--disable-component-update";
    "--disable-sync"; "--no-first-run"; "--no-default-browser-check"; ("--proxy-server=http://" ++ proxyAddr)%string; "--proxy-bypass-list=<-loopback>"; "--dump-dom"]
   ++ (if sandbox =?s "allow-no-sandbox" then ["--no-sandbox"] else []) ++ [target])%list.

Record BrowserRunner := mk_runner { br_binary : string; br_sandbox : string; br_timeout : Z; br_max : Z }.
(** The resolver is always there: [normalized] gives the default one. *)
Definition normalized (b : BrowserRunner) : BrowserRunner :=
  mk_runner b.(br_binary) (if b.(br_sandbox) =?s "" then "strict" else b.(br_sandbox))
    (if b.(br_timeout) <=? 0 then defaultAuditTimeout else b.(br_timeout)) (if b.(br_max) <=? 0 then maxDOMOutput else b.(br_max)).
Definition browsers : list string := ["chromium"; "chromium-browser"; "google-chrome"; "google-chrome-stable"].

(** What a started process does: its writes, the error it ends with, whether the time
    was up then, and how long it took. *)
Record execution := mk_execution { ex_out : list string; ex_error : option string; ex_late : bool; ex_ms : Z }.

Section Runner.
(** [url.Parse]: the scheme and the name of the host. *)
Variable parse_url : string -> result (string * string).
Variable LookupNetIP : string -> result (list addr).
Variable AllowPrivate : bool.
Variable addr_string : addr -> string.
Variable LookPath : string -> option string.
Variable proxy : result string.
Variable start : string -> list string -> result execution.
Variable duration_string : Z -> string.

(** [BrowserRunner.Run], with the command lines it starts. *)
Definition browser_run (b : BrowserRunner) (raw : string) : result Result * list (string * list string) :=
  let b := normalized b in
  match parse_url raw with
  | Err e => (Err ("audit target: " ++ e), [])
  | Ok (scheme, host) =>
      match ValidateURL LookupNetIP AllowPrivate addr_string scheme host with
      | Err e => (Err ("audit target blocked: " ++ e), [])
      | Ok _ =>
          let bin := if b.(br_binary) =?s "" then default "" (head (omap LookPath browsers)) else b.(br_binary) in
          if bin =?s "" then (Err "browser audit runtime is not installed", []) else
          match proxy with
          | Err e => (Err ("start audit proxy: " ++ e), [])
          | Ok addr =>
              let args := browserArgs b.(br_sandbox) addr raw in
              (match start bin args with
               | Err e => Err ("browser audit: " ++ e)
               | Ok x => match x.(ex_error) with
                         | Some e => if x.(ex_late) then Err ("browser audit timed out after " ++ duration_string b.(br_timeout)) else Err ("browser audit: " ++ e)
                         | None => Ok (scoreRendered (to_lower (captured b.(br_max) x.(ex_out))) x.(ex_ms) raw)
                         end
               end, [(bin, args)])
          end
      end
  end.
(** As [Audits] sees it: a result and an error. *)
Definition browser_outcome (b : BrowserRunner) (raw : string) : Result * option string :=
  match (browser_run b raw).1 with Ok r => (r, None) | Err e => (no_result, Some e) end.
End Runner.

(** *** The requests of the browser *)

(** The target of a request in absolute form: scheme, host name, host and port. *)
Record target := mk_target { tg_scheme : string; tg_host : string; tg_addr : string }.
Record request := mk_request { rq_connect : bool; rq_host : string; rq_url : option target; rq_gone : bool }.
Inductive reply := Refused (status : Z) (message : string) | Established | Forwarded (response : string).

Section Proxy.
Context {Conn : Type}.
(** What a name resolves to, lookup by lookup: each may be answered differently. *)
Variable LookupNetIP : nat -> string -> result (list addr).
Variable AllowPrivate : bool.
Variable addr_string : addr -> string.
Variable dial : addr -> string -> result Conn.
(** What comes back over a connection, and whether the transport keeps it. *)
Variable round_trip : Conn -> request -> result string.
Variable keeps : string -> Conn -> bool.

Abbreviation Dial n := (DialContext (LookupNetIP n) AllowPrivate addr_string Conn dial).
(** Replies, the addresses that were dialed, and the upstream of a tunnel; the check is
    lookup [n] and the dial the next one. *)
Definition handleConnect (n : nat) (rq : request) : list reply * list addr * option Conn :=
  if rq.(rq_host) =?s "" then ([Refused 400 "missing host"], [], None) else
  match SplitHostPort rq.(rq_host) with
  | Err _ => ([Refused 400 "invalid host"], [], None)
  | Ok (h, port) =>
      if h =?s "" then ([Refused 400 "missing hostname"], [], None) else
      match ValidateHost (LookupNetIP n) AllowPrivate addr_string h with
      | Err _ => ([Refused 403 "audit target is not a public address"], [], None)
      | Ok _ => match Dial (S n) (SplitHostPort (JoinHostPort h port)) with
                | (Err _, tried) => ([Refused 502 "cannot reach audit target"], tried, None)
                | (Ok c, tried) => if rq.(rq_gone) then ([], tried, None) else ([Established], tried, Some c)
                end
      end
  end.
(** The connections that the transport keeps, by host and port; what comes back, the
    addresses that were dialed and the connections that carried the request. *)
Definition RoundTrip (n : nat) (pool : list (string * Conn)) (hostport : string) (rq : request) : result string * list addr * list Conn * list (string * Conn) :=
  match find_first (fun x => x.1 =?s hostport) pool with
  | Some (_, c) => (round_trip c rq, [], [c], pool)
  | None => match Dial n (SplitHostPort hostport) with
            | (Ok c, tried) => (round_trip c rq, tried, [c], if keeps hostport c then (hostport, c) :: pool else pool)
            | (Err e, tried) => (Err e, tried, [], pool)
            end
  end.
(** What a connection of the browser made happen; [tf_go] says whether it goes on. *)
Record traffic := mk_traffic { tf_go : bool; tf_replies : list reply; tf_dialed : list addr; tf_used : list Conn; tf_pool : list (string * Conn) }.
Definition refuse (pool : list (string * Conn)) (status : Z) (msg : string) : traffic := mk_traffic false [Refused status msg] [] [] pool.
Definition handleHTTP (n : nat) (pool : list (string * Conn)) (rq : request) : traffic :=
  match rq.(rq_url) with
  | None => refuse pool 400 "absolute URI required"
  | Some t =>
      if negb (t.(tg_scheme) =?s "http") && negb (t.(tg_scheme) =?s "https") then refuse pool 403 "scheme not allowed" else
      match ValidateURL (LookupNetIP n) AllowPrivate addr_string t.(tg_scheme) t.(tg_host) with
      | Err _ => refuse pool 403 "audit target is not a public address"
      | Ok _ => match RoundTrip (S n) pool t.(tg_addr) rq with
                | (Err _, tried, used, pool) => mk_traffic false [Refused 502 "cannot reach audit target"] tried used pool
                | (Ok resp, tried, used, pool) => if rq.(rq_gone) then mk_traffic false [] tried used pool else mk_traffic true [Forwarded resp] tried used pool
                end
      end
  end.
(** The requests of one connection, up to the first that cannot be read. *)
Fixpoint handle (n : nat) (pool : list (string * Conn)) (rqs : list request) : traffic :=
  match rqs with
  | [] => mk_traffic false [] [] [] pool
  | rq :: rqs' =>
      if rq.(rq_connect) then
        let '(rs, tried, c) := handleConnect n rq in mk_traffic false rs tried (match c with Some c => [c] | None => [] end) pool
      else
        let t := handleHTTP n pool rq in
        if t.(tf_go) then
          let t' := handle (S (S n)) t.(tf_pool) rqs' in
          mk_traffic false (t.(tf_replies) ++ t'.(tf_replies))%list (t.(tf_dialed) ++ t'.(tf_dialed))%list (t.(tf_used) ++ t'.(tf_used))%list t'.(tf_pool)
        else t
  end.
End Proxy.
Arguments tf_go {Conn} _.
Arguments tf_replies {Conn} _.
Arguments tf_dialed {Conn} _.
Arguments tf_used {Conn} _.
Arguments tf_pool {Conn} _.

(** *** The connections of the proxy *)

(** [px_accepted] was accepted and is not tracked yet; [px_closing] is the snapshot
    that [Close] works through; [px_open] are the connections that are open. *)
Record proxy_state := mk_proxy { px_closed : bool; px_listening : bool; px_accepted : option Z; px_conns : gset Z; px_closing : gset Z; px_open : gset Z }.
Definition NewGuardedProxy : proxy_state := mk_proxy false true None ∅ ∅ ∅.
Inductive pstep : proxy_state -> proxy_state -> Prop :=
| p_accept s c : s.(px_listening) = true -> s.(px_accepted) = None -> c ∉ s.(px_open) ->
    pstep s (mk_proxy s.(px_closed) true (Some c) s.(px_conns) s.(px_closing) ({[c]} ∪ s.(px_open)))
| p_track s c : s.(px_accepted) = Some c -> s.(px_closed) = false ->
    pstep s (mk_proxy false s.(px_listening) None ({[c]} ∪ s.(px_conns)) s.(px_closing) s.(px_open))
| p_reject s c : s.(px_accepted) = Some c -> s.(px_closed) = true ->
    pstep s (mk_proxy true false None s.(px_conns) s.(px_closing) (s.(px_open) ∖ {[c]}))
| p_done s c : c ∈ s.(px_conns) ∪ s.(px_closing) -> pstep s (mk_proxy s.(px_closed) s.(px_listening) s.(px_accepted) (s.(px_conns) ∖ {[c]}) s.(px_closing) (s.(px_open) ∖ {[c]}))
| p_close s : pstep s (mk_proxy true s.(px_listening) s.(px_accepted) ∅ (s.(px_closing) ∪ s.(px_conns)) s.(px_open))
| p_close_listener s : s.(px_closed) = true -> pstep s (mk_proxy true false s.(px_accepted) s.(px_conns) s.(px_closing) s.(px_open))
| p_close_conn s c : c ∈ s.(px_closing) -> pstep s (mk_proxy s.(px_closed) s.(px_listening) s.(px_accepted) s.(px_conns) (s.(px_closing) ∖ {[c]}) (s.(px_open) ∖ {[c]})).

(** ** Facts *)

Lemma substring_front n : forall a b, substring 0 n (a ++ b) = substring 0 n a ++ substring 0 (n - String.length a) b.
Proof.
  induction n as [|n IH]; intros a b; [by destruct a, b|]. destruct a as [|c a].
  - by destruct b.
  - rewrite append_cons. cbn [substring String.length]. rewrite IH, append_cons. done.
Qed.
Lemma substring_zero s : substring 0 0 s = "".
Proof. by destruct s. Qed.
Lemma substring_long s : forall n, (String.length s <= n)%nat -> substring 0 n s = s.
Proof. induction s as [|c s IH]; intros [|n] H; cbn in *; try done; try lia. f_equal. apply IH. lia. Qed.
Lemma substring_len n : forall s, String.length (substring 0 n s) = Nat.min n (String.length s).
Proof. induction n as [|n IH]; intros [|c s]; cbn; try done. by rewrite IH. Qed.
Lemma write_takes limit p x : 0 <= limit ->
  (lb_write p (mk_buffer (substring 0 (Z.to_nat limit) x) limit)).2 = mk_buffer (substring 0 (Z.to_nat limit) (x ++ p)) limit.
Proof.
  intros Hl. rewrite substring_front. unfold lb_write, len. cbn [lb_buf lb_limit]. rewrite substring_len.
  destruct (limit <=? _) eqn:E1; cbn [snd]; f_equal.
  - apply Z.leb_le in E1. replace (Z.to_nat limit - String.length x)%nat with 0%nat by lia. rewrite substring_zero. symmetry. apply string_app_nil_r.
  - apply Z.leb_gt in E1. destruct (_ <? _) eqn:E2; [apply Z.ltb_lt in E2|apply Z.ltb_ge in E2]; cbn [snd]; f_equal; f_equal.
    + f_equal. lia.
    + symmetry. apply substring_long. lia.
Qed.

(** A what is kept of the output of a browser is its first bytes, up to the limit,
    however the output is cut into writes, and every write is taken whole. *)
Theorem captured_output_is_bounded limit chunks : 0 <= limit ->
  captured limit chunks = substring 0 (Z.to_nat limit) (List.fold_left append chunks "") /\ len (captured limit chunks) <= limit /\
  forall b p, (lb_write p b).1 = len p.
Proof.
  intros Hl.
  assert (forall l x, List.fold_left (fun b p => (lb_write p b).2) l (mk_buffer (substring 0 (Z.to_nat limit) x) limit)
    = mk_buffer (substring 0 (Z.to_nat limit) (List.fold_left append l x)) limit) as Hfold.
  { induction l as [|p l IH]; intros x; [done|]. cbn [List.fold_left]. rewrite write_takes by done. apply IH. }
  assert (captured limit chunks = substring 0 (Z.to_nat limit) (List.fold_left append chunks "")) as E.
  { unfold captured. specialize (Hfold chunks ""). assert (substring 0 (Z.to_nat limit) "" = "") as E0 by by destruct (Z.to_nat limit). rewrite E0 in Hfold. by rewrite Hfold. }
  split_and!; [done| |].
  - rewrite E. unfold len. rewrite substring_len. lia.
  - intros b p. unfold lb_write. by repeat case_match.
Qed.

(** *** The browser *)

Lemma validate_url_ok R str scheme host : ValidateURL R false str scheme host = Ok tt ->
  (scheme = "http" \/ scheme = "https") /\ exists ips, R host = Ok ips /\ ips <> [] /\ forall ip, In ip ips -> Blocked ip = false.
Proof.
  unfold ValidateURL, ValidateHost. intros H. split.
  - destruct (String.eqb_spec scheme "http"), (String.eqb_spec scheme "https"); auto. done.
  - destruct (_ && _); [done|]. destruct (host =?s ""); [done|]. destruct (R host) as [[|ip ips]|e]; try done. pose proof (proj1 (validate_ips_ok false str (ip :: ips)) H) as Hall. by exists (ip :: ips).
Qed.

(** A browser is started only for a page on http or https of a host all of whose
    addresses are public, with every connection through the proxy, loopback ones
    included, and without its sandbox only where the operator said so. *)
Theorem browser_is_confined parse R str look proxy start dur b raw r bin args l :
  browser_run parse R false str look proxy start dur b raw = (r, l) -> In (bin, args) l ->
  (exists scheme host, parse raw = Ok (scheme, host) /\ (scheme = "http" \/ scheme = "https") /\
     exists ips, R host = Ok ips /\ ips <> [] /\ forall ip, In ip ips -> Blocked ip = false) /\
  (exists addr, proxy = Ok addr /\ In ("--proxy-server=http://" ++ addr) args /\ In "--proxy-bypass-list=<-loopback>" args) /\
  (In "--no-sandbox" args -> b.(br_sandbox) = "allow-no-sandbox" \/ raw = "--no-sandbox") /\
  l = [(bin, args)].
Proof.
  unfold browser_run. destruct (parse raw) as [[scheme host]|e]; [|by intros [= _ <-]].
  destruct (ValidateURL R false str scheme host) as [[]|e] eqn:Ev; [|by intros [= _ <-]].
  destruct ((if br_binary (normalized b) =?s "" then _ else _) =?s ""); [by intros [= _ <-]|].
  destruct proxy as [addr|e]; [|by intros [= _ <-]]. intros [= _ <-] [[= <- <-]|[]].
  apply validate_url_ok in Ev. split; [by exists scheme, host|]. split; [|split; [|done]].
  - exists addr. split; [done|]. split; [do 9 right; by left|do 10 right; by left].
  - unfold browserArgs. rewrite !in_app_iff. intros [H|[H|[H|[]]]]; [|left|by right].
    + exfalso. cbn [In] in H. do 9 (destruct H as [H|H]; [discriminate H|]). destruct H as [H|[H|[H|[]]]]; [|discriminate H|discriminate H].
      rewrite !append_cons in H. discriminate H.
    + unfold normalized in H. cbn [br_sandbox] in H. destruct (String.eqb_spec (if br_sandbox b =?s "" then "strict" else br_sandbox b) "allow-no-sandbox") as [E|]; [|done].
      by destruct (br_sandbox b =?s "").
Qed.

(** *** The proxy *)

Section ProxyFacts.
Context {Conn : Type} (R : nat -> string -> result (list addr)) (str : addr -> string) (dial : addr -> string -> result Conn).
Context (trip : Conn -> request -> result string) (keeps : string -> Conn -> bool).

(** A connection that was made to a public address. *)
Definition public_conn (c : Conn) : Prop := exists ip port, Blocked ip = false /\ dial ip port = Ok c.
Definition public_pool (pool : list (string * Conn)) : Prop := Forall (fun x => public_conn x.2) pool.
Lemma dial_public n hp r tried : DialContext (R n) false str Conn dial hp = (r, tried) ->
  Forall (fun ip => Blocked ip = false) tried /\ forall c, r = Ok c -> public_conn c.
Proof.
  unfold DialContext. destruct hp as [[host port]|e]; [|by intros [= <- <-]]. destruct (R n host) as [[|ip ips]|e]; [by intros [= <- <-]| |by intros [= <- <-]].
  destruct (partition_ips false (ip :: ips) None []) as [[b|] l] eqn:E; [by intros [= <- <-]|]. apply partition_ips_none in E as (_ & -> & Hall). cbn [List.app].
  pose proof (dial_loop_spec Conn dial (List.map Unmap (ip :: ips)) port "no usable target addresses") as Hd.
  cbn [List.map] in *. destruct (dial_loop _ _ _ _ _) as [r' tried']. intros [= <- <-]. destruct Hd as (rest & Hl & Hr).
  assert (forall x, In x tried' -> Blocked x = false) as Hp.
  { intros x Hx. assert (In x (List.map Unmap (ip :: ips))) as Hin by (cbn [List.map]; rewrite Hl; apply in_app_iff; by left).
    apply in_map_iff in Hin as (y & <- & Hy). rewrite Blocked_Unmap. by apply Hall. }
  split; [by apply Forall_forall; intros x Hx; apply Hp, list_elem_of_In|]. intros c ->. destruct Hr as (pre & x & -> & Hc & _).
  exists x, port. split; [|done]. apply Hp, in_app_iff. right. by left.
Qed.

Definition public_traffic (t : traffic) : Prop :=
  Forall (fun ip => Blocked ip = false) t.(tf_dialed) /\ Forall public_conn t.(tf_used) /\ public_pool t.(tf_pool).
Lemma http_public n pool rq : public_pool pool -> public_traffic (handleHTTP R false str dial trip keeps n pool rq).
Proof.
  intros Hp. unfold handleHTTP. destruct (rq_url rq) as [t|]; [|by split_and!]. destruct (_ && _); [by split_and!|].
  destruct (ValidateURL _ _ _ _ _); [|by split_and!]. unfold RoundTrip. destruct (find_first _ pool) as [[h c]|] eqn:Ef.
  - apply find_first_Some in Ef as [Hin _]. assert (public_conn c) as Hc by (apply (proj1 (Forall_forall _ _) Hp (h, c)), list_elem_of_In, Hin).
    destruct (trip c rq); [destruct (rq_gone rq)|]; split_and!; try done; by apply Forall_singleton.
  - destruct (DialContext _ _ _ _ _ _) as [[c|e] tried] eqn:Ed; apply dial_public in Ed as [Ht Hc]; [|by split_and!].
    assert (public_pool (if keeps (tg_addr t) c then (tg_addr t, c) :: pool else pool)) as Hp' by (destruct (keeps _ c); [apply Forall_cons; split; [by apply Hc|]|]; done).
    destruct (trip c rq); [destruct (rq_gone rq)|]; split_and!; try done; apply Forall_singleton; by apply Hc.
Qed.

(** C24: whatever a page makes the browser ask of the proxy, and however names resolve
    from one lookup to the next, also between the check of a request and its dial, every address that the proxy dials is
    public, and so is the other end of every connection that carries a request or a
    tunnel, the kept ones included. *)
Theorem proxy_reaches_public_only n pool rqs : public_pool pool -> public_traffic (handle R false str dial trip keeps n pool rqs).
Proof.
  revert n pool. induction rqs as [|rq rqs IH]; intros n pool Hp; [by split_and!|]. cbn [handle]. destruct (rq_connect rq).
  - unfold handleConnect. destruct (rq_host rq =?s ""); [by split_and!|]. destruct (SplitHostPort _) as [[h port]|]; [|by split_and!].
    destruct (h =?s ""); [by split_and!|]. destruct (ValidateHost _ _ _ _); [|by split_and!].
    destruct (DialContext _ _ _ _ _ _) as [[c|e] tried] eqn:Ed; apply dial_public in Ed as [Ht Hc]; [|by split_and!].
    destruct (rq_gone rq); split_and!; try done. apply Forall_singleton. by apply Hc.
  - pose proof (http_public n pool rq Hp) as Hh. destruct (tf_go _); [|done]. destruct Hh as (H1 & H2 & H3). destruct (IH (S (S n)) _ H3) as (G1 & G2 & G3).
    split_and!; [by apply Forall_app| by apply Forall_app|done].
Qed.
End ProxyFacts.

(** Every connection that is open is known: about to be tracked, tracked, or in the
    snapshot of [Close]. *)
Definition px_inv (s : proxy_state) : Prop :=
  (forall c, c ∈ s.(px_open) -> s.(px_accepted) = Some c \/ c ∈ s.(px_conns) \/ c ∈ s.(px_closing)) /\ (s.(px_closed) = true -> s.(px_conns) = ∅).
Lemma pstep_inv s s' : pstep s s' -> px_inv s -> px_inv s'.
Proof.
  intros Hs [Ho Hc]. destruct Hs as [s c Hl Ha Hn|s c Ha Hcl|s c Ha Hcl|s c Hin|s|s Hcl|s c Hin]; split; cbn in *; try done; try (intros x Hx; destruct (Ho x) as [E|[?|?]]; [set_solver|..]; clear Ho Hc; set_solver).
  - intros x Hx. apply elem_of_union in Hx as [->%elem_of_singleton|Hx]; [by left|]. destruct (Ho x Hx) as [E|?]; [congruence|by right].
  - intros E. rewrite Hc by done. set_solver.
  - intros E. rewrite Hc by done. set_solver.
  - intros E. rewrite Hc by done. set_solver.
Qed.

(** A no tunnel of a page outlives the proxy: once [Close] has worked through its
    connections, and the one that was being accepted has been refused, none is open,
    whatever connections came and went meanwhile. *)
Theorem closed_proxy_is_closed s : rtc pstep NewGuardedProxy s ->
  s.(px_closed) = true -> s.(px_accepted) = None -> s.(px_closing) = ∅ -> s.(px_open) = ∅.
Proof.
  intros H. assert (px_inv s) as [Ho Hc].
  { assert (px_inv NewGuardedProxy) as Hi by (split; [cbn; set_solver|done]). revert Hi. induction H as [|a b c Hs _ IH]; [done|]. intros Ha. by apply IH, (pstep_inv a). }
  intros E1 E2 E3. apply set_eq. intros c. split; [|set_solver]. intros Hx. destruct (Ho c Hx) as [?|[Hx'|Hx']]; [congruence|rewrite Hc in Hx' by done; set_solver|by rewrite E3 in Hx'].
Qed.

(** A the scores of a page are within bounds, and each point that is missing from
    one of its three checks is explained by a finding. *)
Theorem scores_are_explained html ms u : let r := scoreRendered html ms u in
  20 <= r.(rs_perf) <= 100 /\ 75 <= r.(rs_access) <= 100 /\ 85 <= r.(rs_best) <= 100 /\ 65 <= r.(rs_disc) <= 100 /\
  (r.(rs_findings) = [] <-> r.(rs_access) = 100 /\ r.(rs_best) = 100 /\ r.(rs_disc) = 100).
Proof.
  unfold scoreRendered. cbn [rs_perf rs_access rs_best rs_disc rs_findings].
  split; [destruct (100 - Z.quot ms 50 <? 20) eqn:E1; [done|]; destruct (100 <? 100 - Z.quot ms 50) eqn:E2; lia|].
  destruct (negb (contains html "<title")), (negb (contains html (quoted_description _)) && _), (contains html "<img" && _), (negb (contains html "<html lang=")), (contains html "http://");
    cbn; split_and!; try lia; (split; [done|]; intros (? & ? & ?); done).
Qed.

(** ** Witnesses *)

Definition demo_parse (s : string) : result (string * string) := if s =?s "https://a.example/" then Ok ("https", "a.example") else Ok ("file", "").
Definition demo_public (host : string) : result (list addr) := Ok [V4 (quad 93 184 216 34)].
Definition demo_start (bin : string) (args : list string) : result execution := Ok (mk_execution ["<HTML lang=en><title>A</title>"; "<img alt=x>"] None false 700).
Definition demo_browser (r : BrowserRunner) : result Result * list (string * list string) :=
  browser_run demo_parse demo_public false (fun _ => "ip") (fun x => if x =?s "google-chrome" then Some "/usr/bin/google-chrome" else None) (Ok "127.0.0.1:4000") demo_start (fun _ => "45s") r "https://a.example/".
Definition demo_args : list string := browserArgs "strict" "127.0.0.1:4000" "https://a.example/".
Lemma demo_browser_eq : demo_browser (mk_runner "" "" 0 0) =
  (Ok (mk_Result 0 0 "complete" 86 100 100 85 ["Missing meta description"] 700 "https://a.example/" "" 0 0), [("/usr/bin/google-chrome", demo_args)]).
Proof. vm_compute. reflexivity. Qed.
Lemma browser_is_confined_witness :
  (exists scheme host, demo_parse "https://a.example/" = Ok (scheme, host) /\ (scheme = "http" \/ scheme = "https") /\
     exists ips, demo_public host = Ok ips /\ ips <> [] /\ forall ip, In ip ips -> Blocked ip = false) /\
  (exists addr, @Ok string "127.0.0.1:4000" = Ok addr /\ In ("--proxy-server=http://" ++ addr) demo_args /\ In "--proxy-bypass-list=<-loopback>" demo_args) /\
  (In "--no-sandbox" demo_args -> "" = "allow-no-sandbox" \/ "https://a.example/" = "--no-sandbox") /\
  [("/usr/bin/google-chrome", demo_args)] = [("/usr/bin/google-chrome", demo_args)].
Proof. exact (browser_is_confined _ _ _ _ _ _ _ (mk_runner "" "" 0 0) _ _ _ _ _ demo_browser_eq (or_introl eq_refl)). Defined.

(** A host that resolves to a public address for the check and to loopback for the
    dial is not reached, by a request or by a tunnel. *)
Definition demo_rebinding (n : nat) (host : string) : result (list addr) :=
  if (host =?s "rebind") && Nat.odd n then Ok [V4 (quad 127 0 0 1)] else demo_resolver "a.example".
Definition demo_handle (rqs : list request) : traffic :=
  handle demo_rebinding false (fun _ => "ip") demo_dial (fun _ _ => Ok "HTTP/1.1 200 OK") (fun _ _ => true) 0 [("b.example:80", V4 (quad 93 184 216 35))] rqs.
Definition demo_requests : list request :=
  [mk_request false "" (Some (mk_target "http" "a.example" "a.example:80")) false; mk_request true "rebind:443" None false].
Lemma proxy_reaches_public_only_witness : public_traffic demo_dial (demo_handle demo_requests).
Proof.
  apply (proxy_reaches_public_only demo_rebinding (fun _ => "ip") demo_dial (fun _ _ => Ok "HTTP/1.1 200 OK") (fun _ _ => true) 0 [("b.example:80", V4 (quad 93 184 216 35))] demo_requests).
  apply Forall_singleton. exists (V4 (quad 93 184 216 35)), "80". split; vm_compute; reflexivity.
Defined.
Example demo_traffic_replies : (demo_handle demo_requests).(tf_replies) = [Forwarded "HTTP/1.1 200 OK"; Refused 502 "cannot reach audit target"] /\
  (demo_handle [mk_request false "" (Some (mk_target "http" "rebind" "rebind:80")) false]).(tf_dialed) = [] /\ (demo_handle [mk_request true "a.example:443" None false]).(tf_replies) = [Established].
Proof. split_and!; vm_compute; reflexivity. Qed.

(** A connection is tracked, another is being accepted when [Close] takes its snapshot. *)
Lemma demo_proxy_steps : rtc pstep NewGuardedProxy (mk_proxy true false None ∅ (({[1]} ∪ ∅ ∪ ∅) ∖ {[1]}) ((({[2]} ∪ ({[1]} ∪ ∅)) ∖ {[2]}) ∖ {[1]})).
Proof.
  eapply rtc_l; [apply (p_accept _ 1); [done|done|set_solver]|]. eapply rtc_l; [apply (p_track _ 1); done|].
  eapply rtc_l; [apply (p_accept _ 2); [done|done|set_solver]|]. eapply rtc_l; [apply p_close|]. eapply rtc_l; [apply (p_reject _ 2); done|].
  eapply rtc_l; [apply (p_close_conn _ 1); cbn; set_solver|]. cbn. replace (∅ ∪ ({[1]} ∪ ∅)) with ({[1]} ∪ ∅ ∪ ∅ : gset Z) by set_solver. apply rtc_refl.
Qed.
Lemma closed_proxy_is_closed_witness : (({[2]} ∪ ({[1]} ∪ ∅)) ∖ {[2]}) ∖ {[1]} = (∅ : gset Z).
Proof. apply (closed_proxy_is_closed _ demo_proxy_steps); [reflexivity|reflexivity|vm_compute; reflexivity]. Defined.
Lemma captured_output_is_bounded_witness : captured 5 ["ab"; "cdef"; "g"] = substring 0 (Z.to_nat 5) (List.fold_left append ["ab"; "cdef"; "g"] "") /\
  len (captured 5 ["ab"; "cdef"; "g"]) <= 5 /\ forall b p, (lb_write p b).1 = len p.
Proof. apply (captured_output_is_bounded 5 ["ab"; "cdef"; "g"]). lia. Defined.
