(* ===== verification/Reports.v ===== *)
(** Reports over the tables: the performance of a site
    ([internal/performance/performance.go]), its deployments
    ([internal/deployments/deployments.go]), the state of the fleet
    ([internal/fleet/fleet.go]), and what lies between the statements and the
    database: the values of a row ([internal/sqlite/sqlite.go]) and the placeholders
    and arguments of a dialect ([internal/database/database.go]). *)
From stdpp Require Import sorting.
From S2P Require Import Prelude GoStr TimeText SqlM FleetDb RateLimit Sites Analytics GoPath.
Open Scope string_scope.
Open Scope Z_scope.
Open Scope wf_scope.
Open Scope sql_scope.

(** ** Definitions *)

Module Rows.
(** What a driver gives for a column; a [REAL] is a fraction. *)
Inductive sqlvalue := SNull | SInt (z : Z) | SReal (num den : Z) | SBool (b : bool) | SBytes (s : string) | SText (s : string).
Record Value := mk_Value { Text : string; Int64 : Z; Float : Z * Z; Null : bool; Kind : Z }.
Definition Value_of (v : sqlvalue) : Value :=
  match v with
  | SNull => mk_Value "" 0 (0, 1) true 0
  | SInt z => mk_Value "" z (0, 1) false 1
  | SReal n d => mk_Value "" 0 (n, d) false 2
  | SBool b => mk_Value "" (if b then 1 else 0) (0, 1) false 1
  | SBytes s | SText s => mk_Value s 0 (0, 1) false 3
  end.

(** [Rebind]: [n] is the next placeholder, [inSingle] whether a literal is open. *)
Fixpoint rebind (q : string) (n : Z) (inSingle : bool) : string :=
  match q with
  | EmptyString => ""
  | String c q' =>
      if Ascii.eqb c "'" then String c (rebind q' n (negb inSingle))
      else if Ascii.eqb c "?" && negb inSingle then "$" ++ format_int n ++ rebind q' (n + 1) inSingle
      else String c (rebind q' n inSingle)
  end.
Definition Rebind (q : string) : string := rebind q 1 false.
Definition dialect_query (dialect q : string) : string := if dialect =?s "postgres" then Rebind q else q.
Definition normalizeArgs (args : list sqlvalue) : list sqlvalue := map (fun a => match a with SBool b => SInt (if b then 1 else 0) | _ => a end) args.
End Rows.

Module Performance.
Record Point := mk_point { LatencyMS : Z; ResponseBytes : Z; CheckedAt : Z }.
Record Summary := mk_perf {
  Samples : Z; MedianLatencyMS : Z; P95LatencyMS : Z; MedianResponseBytes : Z; BaselineLatencyMS : Z; BaselineResponseBytes : Z;
  LatencyRegression : bool; SizeRegression : bool; History : list Point }.

(** [sort64]: the inner loop, [j] being one more than Go's, and the outer one. *)
Fixpoint shift_greater (j : nat) (v : Z) (a : list Z) : list Z :=
  match j with
  | O => <[0%nat := v]> a
  | S j' => let x := nth j' a 0 in if v <? x then shift_greater j' v (<[j := x]> a) else <[j := v]> a
  end.
Definition sort64 (a : list Z) : list Z := List.fold_left (fun a i => shift_greater i (nth i a 0) a) (List.seq 1 (length a - 1)) a.

(** [float64(n)*p], [p] being [m] over [2^53], rounded to 53 bits, ties to even; and
    its ceiling. *)
Definition round_even (num den : Z) : Z :=
  let q := num / den in let r := num mod den in
  if 2 * r <? den then q else if den <? 2 * r then q + 1 else if Z.even q then q else q + 1.
Definition ceil_product (n m : Z) : Z :=
  let p := n * m in
  let s := Z.max 0 (Z.log2 p - 52) in
  let f := round_even p (2 ^ s) * 2 ^ s in
  - ((- f) / 2 ^ 53).
(** [.5] and [.95]. *)
Definition half : Z := 4503599627370496.
Definition most : Z := 8556839292003942.
Definition rank (n p : Z) : Z :=
  let i := ceil_product n p - 1 in
  let i := if i <? 0 then 0 else i in
  if n <=? i then n - 1 else i.
Definition percentile (a : list Z) (p : Z) : Z :=
  match a with [] => 0 | _ => nth (Z.to_nat (rank (Z.of_nat (length a)) p)) a 0 end.

Definition clamp_limit (limit : Z) : Z := let limit := if limit <? 1 then 100 else limit in if 500 <? limit then 500 else limit.
Definition recent_checks (site limit : Z) (d : db) : list check_row :=
  firstn (Z.to_nat limit) (sort_less (fun a b => b.(c_id) <? a.(c_id)) (List.filter (fun c => (c.(c_site) =? site) && c.(c_ok)) d.(checks))).
Definition mean (l : list Z) : Z := Z.quot (List.fold_left Z.add l 0) (Z.of_nat (length l)).
Definition regressed (median baseline : Z) : bool := (0 <? baseline) && (Z.quot (baseline * 3) 2 <? median).
Definition summary_of (rows : list check_row) : Summary :=
  let points := map (fun c => mk_point c.(c_latency) c.(c_bytes) c.(c_checked_at)) rows in
  match rows with
  | [] => mk_perf 0 0 0 0 0 0 false false []
  | _ =>
      let lats := sort64 (map c_latency rows) in
      let sizes := sort64 (map c_bytes rows) in
      let base := skipn (length rows - Nat.min 20 (length rows)) rows in
      let bl := mean (map c_latency base) in
      let bs := mean (map c_bytes base) in
      mk_perf (Z.of_nat (length rows)) (percentile lats half) (percentile lats most) (percentile sizes half) bl bs
        (regressed (percentile lats half) bl) (regressed (percentile sizes half) bs) points
  end.
Definition ForSite (site limit : Z) : M db Summary := let* rows := query (recent_checks site (clamp_limit limit)) in ret (summary_of rows).
End Performance.

Module Deployments.
Import Rows.
(** Times are the texts they are sent and stored as; the metadata is its JSON. *)
Record Event := mk_event {
  ID : Z; SiteID : Z; Provider : string; ExternalID : string; Revision : string; Environment : string; Status : string; URL : string; Metadata : string;
  DeployedAt : string; ReceivedAt : string }.
(** The table, beside those of the fleet and of the analytics. *)
Record ddb := mk_ddb { dd_rest : adb; dd_events : list Event }.
Definition set_events (l : list Event) (d : ddb) : ddb := mk_ddb d.(dd_rest) l.

Section Deployments.
(** Whether [time.Parse] takes a text for RFC 3339, with or without a fraction; and
    how an instant is written. *)
Variable is_time : string -> bool.
Variable Format : Z -> string.

Definition same_event (e x : Event) : bool :=
  negb (e.(ExternalID) =?s "") && (x.(SiteID) =? e.(SiteID)) && (x.(Provider) =?s e.(Provider)) && (x.(ExternalID) =?s e.(ExternalID)).
(** The upsert: a repeated delivery of a provider's event is one row. *)
Definition upsert_event (e : Event) (d : ddb) : option (Z * ddb) :=
  if negb (site_exists e.(SiteID) d.(dd_rest).(a_fleet)) then None else
  match find_first (same_event e) d.(dd_events) with
  | Some x => Some (x.(ID), set_events (upd (same_event e) (fun x =>
      mk_event x.(ID) x.(SiteID) x.(Provider) x.(ExternalID) e.(Revision) x.(Environment) e.(Status) e.(URL) e.(Metadata) e.(DeployedAt) x.(ReceivedAt)) d.(dd_events)) d)
  | None => let id := fresh_id (map ID d.(dd_events)) in
            Some (id, set_events (d.(dd_events) ++ [mk_event id e.(SiteID) e.(Provider) e.(ExternalID) e.(Revision) e.(Environment) e.(Status) e.(URL) e.(Metadata) e.(DeployedAt) e.(ReceivedAt)]) d)
  end.
Definition Record_ (e : Event) (now : Z) : M ddb Event :=
  let provider := trim_space (to_lower e.(Provider)) in
  if (provider =?s "") || (e.(SiteID) <? 1) then throw "provider and site are required" else
  let environment := if e.(Environment) =?s "" then "production" else e.(Environment) in
  let status := if e.(Status) =?s "" then "deployed" else e.(Status) in
  if negb (e.(DeployedAt) =?s "") && negb (is_time e.(DeployedAt)) then throw "invalid deployed_at" else
  let at_ := if e.(DeployedAt) =?s "" then Format now else e.(DeployedAt) in
  let e := mk_event e.(ID) e.(SiteID) provider e.(ExternalID) e.(Revision) environment status e.(URL) e.(Metadata) at_ (Format now) in
  let* id := stmt (upsert_event e) in
  ret (mk_event id e.(SiteID) e.(Provider) e.(ExternalID) e.(Revision) e.(Environment) e.(Status) e.(URL) e.(Metadata) e.(DeployedAt) e.(ReceivedAt)).

(** [ORDER BY deployed_at DESC LIMIT 100], by the texts. *)
Definition latest_first (l : list Event) : list Event := sort_less (fun a b => String.ltb b.(DeployedAt) a.(DeployedAt)) l.
Definition History (site : Z) : M ddb (list Event) := query (fun d => firstn 100 (latest_first (List.filter (fun e => e.(SiteID) =? site) d.(dd_events)))).

Record Correlation := mk_correlation { Deployment : Event; ChecksAfter : Z; FailuresAfter : Z; MedianLatencyAfter : Z; AnalyticsPageviewsAfter : Z }.
Definition checks_since (site : Z) (at_ : string) (d : ddb) : list check_row :=
  List.filter (fun c => (c.(c_site) =? site) && String.leb at_ (Format c.(c_checked_at))) d.(dd_rest).(a_fleet).(checks).
(** The three columns: a count, a sum and a mean of no row. *)
Definition check_columns (l : list check_row) : sqlvalue * sqlvalue * sqlvalue :=
  let n := Z.of_nat (length l) in
  match l with
  | [] => (SInt 0, SNull, SInt 0)
  | _ => (SInt n, SInt (count (fun c => negb c.(c_ok)) l), SReal (List.fold_left Z.add (map c_latency l) 0) n)
  end.
Definition pageviews_since (site : Z) (at_ : string) (d : ddb) : Z :=
  count (fun e => existsb (fun p => (p.(ap_id) =? e.(ev_pid)) && (p.(ap_site) =? site)) d.(dd_rest).(props) && String.leb at_ (Format e.(ev_at)) && (e.(ev_kind) =?s "pageview")) d.(dd_rest).(Analytics.events).
Definition Correlate (site : Z) : M ddb (option Correlation) :=
  let* h := History site in
  match h with
  | [] => ret None
  | x :: _ =>
      let* row := query (fun d => check_columns (checks_since site x.(DeployedAt) d)) in
      let '(n, failures, latency) := row in
      let* views := ignore 0 (query (pageviews_since site x.(DeployedAt))) in
      ret (Some (mk_correlation x (Value_of n).(Int64) (Value_of failures).(Int64) (Value_of latency).(Int64) views))
  end.
End Deployments.
End Deployments.

Module Fleet.
Record Summary := mk_fleet { Total : Z; Healthy : Z; Degraded : Z; Warning : Z; Down : Z; Unknown : Z; Attention : list Site }.
Definition fleet_sites (org : Z) (d : db) : list site_row := List.filter (fun s => unarchived s && (s.(s_org) =? org)) d.(sites).
Definition state_of (d : db) (s : site_row) : option string := h_state <$> find_first (fun h => h.(h_site) =? s.(s_id)) d.(healths).
Definition in_state (st : string) (d : db) (s : site_row) : bool := match state_of d s with Some x => x =?s st | None => false end.
Definition unknown_state (d : db) (s : site_row) : bool := match state_of d s with Some x => x =?s "unknown" | None => true end.
Definition needs_attention (s : Site) : bool := (s.(st_health) =?s "down") || (s.(st_health) =?s "warning") || (s.(st_health) =?s "degraded").
Definition SummaryFor (org : Z) : M db Summary :=
  let* x := query (fun d => let l := fleet_sites org d in
    (count (fun _ => true) l, count (in_state "healthy" d) l, count (in_state "degraded" d) l, count (in_state "warning" d) l, count (in_state "down" d) l, count (unknown_state d) l)) in
  let '(total, healthy, degraded, warning, down, unknown) := x in
  let* page := List_ org "" 0 1 100 false in
  ret (mk_fleet total healthy degraded warning down unknown (firstn 20 (List.filter needs_attention page.(pg_sites)))).
End Fleet.

(** ** Facts *)

(** *** Sorting and ranks *)

Module Ranks.
Import Performance.
Fixpoint ins (v : Z) (l : list Z) : list Z := match l with [] => [v] | x :: l' => if v <? x then v :: l else x :: ins v l' end.
Lemma ins_perm v l : Permutation (ins v l) (v :: l).
Proof. induction l as [|x l IH]; cbn; [done|]. destruct (v <? x); [done|]. rewrite IH. apply perm_swap. Qed.
Lemma ins_sorted v l : StronglySorted Z.le l -> StronglySorted Z.le (ins v l).
Proof.
  induction 1 as [|x l Hl IH Hx]; cbn; [by repeat constructor|]. destruct (v <? x) eqn:E.
  - apply Z.ltb_lt in E. constructor; [by constructor|]. constructor; [lia|]. eapply Forall_impl; [exact Hx|]. cbn. lia.
  - apply Z.ltb_ge in E. constructor; [done|]. rewrite ins_perm. by constructor.
Qed.
Lemma ins_snoc v l y : StronglySorted Z.le (l ++ [y])%list -> ins v (l ++ [y])%list = if v <? y then (ins v l ++ [y])%list else ((l ++ [y]) ++ [v])%list.
Proof.
  induction l as [|x l IH]; intros H; cbn; [by destruct (v <? y)|]. inversion H as [|? ? Hl Hx]; subst. rewrite IH by done.
  destruct (v <? x) eqn:E; [|by destruct (v <? y)].
  assert (x <= y) as Hxy by (apply (proj1 (Forall_forall _ _) Hx), elem_of_app; right; apply list_elem_of_here).
  replace (v <? y) with true by (symmetry; apply Z.ltb_lt; apply Z.ltb_lt in E; lia). done.
Qed.
Lemma nth_middle_ (p : list Z) x r : nth (length p) (p ++ x :: r)%list 0 = x.
Proof. rewrite app_nth2 by lia. by rewrite Nat.sub_diag. Qed.
Lemma insert_middle_ (p : list Z) x y r : <[length p := y]> (p ++ x :: r)%list = (p ++ y :: r)%list.
Proof. rewrite insert_app_r_alt by lia. by rewrite Nat.sub_diag. Qed.

(** One round of the outer loop puts its element where it belongs in the sorted part. *)
Lemma shift_inserts v r : forall p x, StronglySorted Z.le p -> shift_greater (length p) v (p ++ x :: r)%list = (ins v p ++ r)%list.
Proof.
  intros p. revert r. induction p as [|y p IH] using rev_ind; intros r x Hp; [done|].
  rewrite length_app, Nat.add_1_r. cbn [shift_greater]. rewrite <- app_assoc. cbn [app]. rewrite nth_middle_, ins_snoc by done.
  assert (<[S (length p) := y]> (p ++ y :: x :: r)%list = (p ++ y :: y :: r)%list) as E1.
  { rewrite insert_app_r_alt by lia. by replace (S (length p) - length p)%nat with 1%nat by lia. }
  assert (<[S (length p) := v]> (p ++ y :: x :: r)%list = (p ++ y :: v :: r)%list) as E2.
  { rewrite insert_app_r_alt by lia. by replace (S (length p) - length p)%nat with 1%nat by lia. }
  destruct (v <? y).
  - rewrite E1, IH; [by rewrite <- app_assoc|]. exact (StronglySorted_app_1_l _ _ _ Hp).
  - rewrite E2. by rewrite <- !app_assoc.
Qed.
Lemma sort_rounds k : forall p r, StronglySorted Z.le p -> (k <= length r)%nat ->
  exists q r', List.fold_left (fun a i => shift_greater i (nth i a 0) a) (List.seq (length p) k) (p ++ r)%list = (q ++ r')%list /\
    StronglySorted Z.le q /\ length q = (length p + k)%nat /\ Permutation (q ++ r')%list (p ++ r)%list.
Proof.
  induction k as [|k IH]; intros p r Hp Hk; [exists p, r; split_and!; try done; lia|]. destruct r as [|x r]; [cbn in Hk; lia|].
  cbn [List.seq List.fold_left]. rewrite nth_middle_, shift_inserts by done.
  assert (length (ins x p) = S (length p)) as Hl by (rewrite (Permutation_length (ins_perm x p)); done).
  destruct (IH (ins x p) r (ins_sorted x p Hp)) as (q & r' & E & Hq & Hlq & Hperm); [cbn in Hk; lia|]. rewrite Hl in E. exists q, r'.
  split_and!; [exact E|done|lia|]. rewrite Hperm, ins_perm. cbn. apply Permutation_middle.
Qed.
Lemma sort64_spec a : StronglySorted Z.le (sort64 a) /\ Permutation (sort64 a) a.
Proof.
  destruct a as [|x a]; [by repeat constructor|]. destruct (sort_rounds (length a) [x] a) as (q & r' & E & Hq & Hl & Hp); [by repeat constructor|done|].
  assert (sort64 (x :: a) = (q ++ r')%list) as ->.
  { unfold sort64. replace (length (x :: a) - 1)%nat with (length a) by (cbn; lia). exact E. }
  assert (r' = []) as ->. { apply Permutation_length in Hp. rewrite !length_app in Hp. cbn in Hp, Hl. destruct r'; [done|cbn in *; lia]. }
  rewrite app_nil_r in *. done.
Qed.

(** The double that [float64(n)*p] is, for every number of samples there can be. *)
Lemma forallb_range_ (P : Z -> bool) k n : forallb (fun i => P (Z.of_nat (S i))) (List.seq 0 k) = true -> 0 < n <= Z.of_nat k -> P n = true.
Proof.
  rewrite forallb_forall. intros H Hn. specialize (H (Z.to_nat (n - 1))). replace (Z.of_nat (S (Z.to_nat (n - 1)))) with n in H by lia. apply H, in_seq. lia.
Qed.
Lemma rank_most n : 0 < n <= 500 -> rank n most = (95 * n + 99) / 100 - 1.
Proof.
  intros H. apply Z.eqb_eq. apply (forallb_range_ (fun n => (rank n most =? (95 * n + 99) / 100 - 1)) 500%nat); [vm_compute; reflexivity|lia].
Qed.
Lemma rank_half n : 0 < n <= 500 -> rank n half = (n + 1) / 2 - 1.
Proof.
  intros H. apply Z.eqb_eq. apply (forallb_range_ (fun n => (rank n half =? (n + 1) / 2 - 1)) 500%nat); [vm_compute; reflexivity|lia].
Qed.

Lemma count_all {A} (p : A -> bool) l : (forall x, In x l -> p x = true) -> count p l = Z.of_nat (length l).
Proof. intros H. unfold count. f_equal. induction l as [|x l IH]; [done|]. cbn. rewrite (H x) by by left. cbn. rewrite IH; [done|]. intros y Hy. apply H. by right. Qed.
Lemma count_none {A} (p : A -> bool) l : (forall x, In x l -> p x = false) -> count p l = 0.
Proof. intros H. unfold count. by rewrite filter_none. Qed.
Lemma count_bounds {A} (p : A -> bool) l : 0 <= count p l <= Z.of_nat (length l).
Proof. unfold count. pose proof (List.filter_length_le p l). lia. Qed.

(** The element of a sorted list at a place, and how many are not above and below it. *)
Lemma sorted_place s i : StronglySorted Z.le s -> (i < length s)%nat ->
  Z.of_nat i + 1 <= count (fun y => y <=? nth i s 0) s /\ count (fun y => y <? nth i s 0) s <= Z.of_nat i.
Proof.
  intros Hs Hi. pose proof (firstn_skipn i s) as E. destruct (skipn i s) as [|x r] eqn:Er; [apply (f_equal length) in Er; rewrite length_skipn in Er; cbn in Er; lia|].
  assert (length (firstn i s) = i) as Hl by (rewrite length_firstn; lia). assert (nth i s 0 = x) as Hx by (rewrite <- E, <- Hl at 1; apply nth_middle_).
  rewrite Hx. rewrite <- E in Hs |- *.
  assert (forall y, In y (firstn i s) -> y <= x) as H1.
  { intros y Hy. eapply StronglySorted_app_1_elem_of; [exact Hs|by apply list_elem_of_In|apply list_elem_of_here]. }
  apply StronglySorted_app_1_r, StronglySorted_cons in Hs as [Hr _]. rewrite Forall_forall in Hr.
  rewrite !count_app. rewrite (count_all _ (firstn i s)), Hl by (intros y Hy; apply Z.leb_le; by apply H1). split.
  - change (x :: r) with ([x] ++ r)%list. rewrite count_app. pose proof (count_bounds (fun y => y <=? x) r). rewrite (count_all _ [x]); [cbn; lia|].
    intros y [<-|[]]. apply Z.leb_refl.
  - rewrite (count_none _ (x :: r)); [pose proof (count_bounds (fun y => y <? x) (firstn i s)); lia|].
    intros y [<-|Hy]; apply Z.ltb_ge; [lia|]. apply Hr. by apply list_elem_of_In.
Qed.
Lemma percentile_place l p i : l <> [] -> rank (Z.of_nat (length l)) p = i -> 0 <= i < Z.of_nat (length l) ->
  let x := percentile (sort64 l) p in i + 1 <= count (fun y => y <=? x) l /\ count (fun y => y <? x) l <= i.
Proof.
  intros Hl Hr Hi. destruct (sort64_spec l) as [Hs Hp]. pose proof (Permutation_length Hp) as Hlen. cbv zeta.
  assert (percentile (sort64 l) p = nth (Z.to_nat i) (sort64 l) 0) as ->.
  { unfold percentile. destruct (sort64 l) as [|y k] eqn:E; [destruct l; [done|cbn in Hlen; lia]|]. rewrite Hlen, Hr. done. }
  rewrite <- !(count_perm _ _ _ Hp). destruct (sorted_place (sort64 l) (Z.to_nat i) Hs); lia.
Qed.
End Ranks.

(** A the percentiles of a site are those of its latest checks that succeeded, at
    most five hundred: half of the samples are not above the median and fewer than
    half are below it, and so for the 95 of 100, although the rank is computed in
    floating point and the samples are sorted by hand. *)
Theorem percentiles_are_true site limit d fl s d' fl' :
  Performance.ForSite site limit (d, fl) = (Ok s, (d', fl')) ->
  let l := Performance.recent_checks site (Performance.clamp_limit limit) d in
  let n := Z.of_nat (length l) in
  let below p (f : check_row -> Z) x := count (fun c => p (f c) x) l in
  s.(Performance.Samples) = n /\ n <= 500 /\ (l <> [] ->
    (n <= 2 * below Z.leb c_latency s.(Performance.MedianLatencyMS) /\ 2 * below Z.ltb c_latency s.(Performance.MedianLatencyMS) < n) /\
    (95 * n <= 100 * below Z.leb c_latency s.(Performance.P95LatencyMS) /\ 100 * below Z.ltb c_latency s.(Performance.P95LatencyMS) < 95 * n) /\
    (n <= 2 * below Z.leb c_bytes s.(Performance.MedianResponseBytes) /\ 2 * below Z.ltb c_bytes s.(Performance.MedianResponseBytes) < n)).
Proof.
  unfold Performance.ForSite. intros H. apply bind_ok in H as (rows & d1 & fl1 & (-> & -> & _)%query_ok & H). injection H as <- _ _.
  set (l := Performance.recent_checks _ _ _). cbv zeta. assert (Z.of_nat (length l) <= 500) as Hn.
  { unfold l, Performance.recent_checks. rewrite length_firstn. unfold Performance.clamp_limit. destruct (500 <? (if limit <? 1 then 100 else limit)) eqn:E; lia. }
  assert (forall (f : check_row -> Z) (p : Z -> Z -> bool) x, count (fun c => p (f c) x) l = count (fun y => p y x) (map f l)) as Hmap.
  { intros f p x. unfold count. f_equal. clear. induction l as [|c l IH]; [done|]. cbn. destruct (p (f c) x); cbn; by rewrite IH. }
  split; [by destruct l|]. split; [done|]. intros Hl. rewrite !Hmap.
  assert (0 < Z.of_nat (length l)) as Hpos by (destruct l; [done|cbn; lia]).
  assert (forall f : check_row -> Z, map f l <> [] /\ length (map f l) = length l) as Hf by (intros f; split; [by destruct l|apply length_map]).
  replace (Performance.MedianLatencyMS _) with (Performance.percentile (Performance.sort64 (map c_latency l)) Performance.half) by by destruct l.
  replace (Performance.P95LatencyMS _) with (Performance.percentile (Performance.sort64 (map c_latency l)) Performance.most) by by destruct l.
  replace (Performance.MedianResponseBytes _) with (Performance.percentile (Performance.sort64 (map c_bytes l)) Performance.half) by by destruct l.
  assert (forall f : check_row -> Z, let x := Performance.percentile (Performance.sort64 (map f l)) Performance.half in
    Z.of_nat (length l) <= 2 * count (fun y => y <=? x) (map f l) /\ 2 * count (fun y => y <? x) (map f l) < Z.of_nat (length l)) as Hmedian.
  { intros f. destruct (Hf f) as [H1 H2]. pose proof (Ranks.percentile_place (map f l) Performance.half _ H1 eq_refl) as G. rewrite H2, Ranks.rank_half in G by lia.
    cbv zeta in *. destruct G as [G1 G2]; [split; Z.div_mod_to_equations; lia|]. split; Z.div_mod_to_equations; lia. }
  split_and!; try apply Hmedian.
  - destruct (Hf c_latency) as [H1 H2]. pose proof (Ranks.percentile_place (map c_latency l) Performance.most _ H1 eq_refl) as G. rewrite H2, Ranks.rank_most in G by lia.
    cbv zeta in *. destruct G as [G1 _]; [split; Z.div_mod_to_equations; lia|]. Z.div_mod_to_equations; lia.
  - destruct (Hf c_latency) as [H1 H2]. pose proof (Ranks.percentile_place (map c_latency l) Performance.most _ H1 eq_refl) as G. rewrite H2, Ranks.rank_most in G by lia.
    cbv zeta in *. destruct G as [_ G2]; [split; Z.div_mod_to_equations; lia|]. Z.div_mod_to_equations; lia.
Qed.

(** *** Placeholders *)

Module Placeholders.
Import Rows.
(** What a statement means with the texts of its arguments in place: SQLite takes
    the next one for each [?], PostgreSQL the one that [$n] names; neither in a
    literal. *)
Fixpoint bind_sqlite (args : list string) (q : string) (inSingle : bool) : string :=
  match q with
  | EmptyString => ""
  | String c q' =>
      if Ascii.eqb c "'" then String c (bind_sqlite args q' (negb inSingle))
      else if Ascii.eqb c "?" && negb inSingle then default "" (head args) ++ bind_sqlite (tail args) q' inSingle
      else String c (bind_sqlite args q' inSingle)
  end.
Definition arg (args : list string) (n : Z) : string := default "" (head (drop (Z.to_nat (n - 1)) args)).
(** [num] is the number that is being read after a [$]. *)
Fixpoint bind_postgres (args : list string) (q : string) (inSingle : bool) (num : option Z) : string :=
  let flush := match num with Some n => arg args n | None => "" end in
  match q with
  | EmptyString => flush
  | String c q' =>
      match num with
      | Some n => if is_digit c then bind_postgres args q' inSingle (Some (n * 10 + digit_val c))
                  else flush ++ (if Ascii.eqb c "'" then String c (bind_postgres args q' (negb inSingle) None)
                                 else if Ascii.eqb c "$" && negb inSingle then bind_postgres args q' inSingle (Some 0)
                                 else String c (bind_postgres args q' inSingle None))
      | None => if Ascii.eqb c "'" then String c (bind_postgres args q' (negb inSingle) None)
                else if Ascii.eqb c "$" && negb inSingle then bind_postgres args q' inSingle (Some 0)
                else String c (bind_postgres args q' inSingle None)
      end
  end.
(** No [$] of its own, and no digit behind a [?], outside of literals. *)
Definition starts_digit (q : string) : bool := match q with String c _ => is_digit c | EmptyString => false end.
Fixpoint portable (q : string) (inSingle : bool) : bool :=
  match q with
  | EmptyString => true
  | String c q' =>
      if Ascii.eqb c "'" then portable q' (negb inSingle)
      else (inSingle || negb (Ascii.eqb c "$")) && negb (Ascii.eqb c "?" && negb inSingle && starts_digit q') && portable q' inSingle
  end.

Lemma read_number args rest inS s : forall acc n, digits_val acc s = Some n -> bind_postgres args (s ++ rest) inS (Some acc) = bind_postgres args rest inS (Some n).
Proof.
  induction s as [|c s IH]; intros acc n H; [by injection H as ->|]. rewrite append_cons. cbn in *. destruct (is_digit c); [|done]. by apply IH.
Qed.
Lemma flush_number args rest inS n : starts_digit rest = false -> bind_postgres args rest inS (Some n) = arg args n ++ bind_postgres args rest inS None.
Proof. destruct rest as [|c rest]; intros H; [cbn; by rewrite string_app_nil_r|]. cbn in H |- *. by rewrite H. Qed.
Lemma rebind_starts q n inS : starts_digit q = false -> starts_digit (rebind q n inS) = false.
Proof.
  destruct q as [|c q]; [done|]. cbn. intros H. destruct (Ascii.eqb c "'"); [done|]. destruct (Ascii.eqb c "?" && negb inS); done.
Qed.
Lemma format_digits n : 0 <= n -> digits_val 0 (format_int n) = Some n.
Proof. intros Hn. pose proof (parse_udec_format n Hn) as H. unfold parse_udec in H. by destruct (format_int n). Qed.
Lemma rebind_binds args q : forall n inS, 1 <= n -> portable q inS = true ->
  bind_postgres args (rebind q n inS) inS None = bind_sqlite (drop (Z.to_nat (n - 1)) args) q inS.
Proof.
  induction q as [|c q IH]; intros n inS Hn Hp; [done|]. cbn in Hp. cbn [rebind bind_sqlite].
  destruct (Ascii.eqb c "'") eqn:Eq; [cbn; rewrite Eq; f_equal; by apply IH|].
  apply andb_true_iff in Hp as [[Hd Hq]%andb_true_iff Hp]. destruct (Ascii.eqb c "?" && negb inS) eqn:Ec.
  - apply andb_true_iff in Ec as [_ Hi]. destruct inS; [done|]. rewrite append_cons, append_nil_l. cbn.
    rewrite (read_number _ _ _ _ _ n) by (apply format_digits; lia). cbn in Hq. apply negb_true_iff in Hq.
    rewrite flush_number by (by apply rebind_starts). unfold arg. f_equal. rewrite IH by (done || lia). f_equal.
    replace (Z.to_nat (n + 1 - 1)) with (S (Z.to_nat (n - 1))) by lia. rewrite <- Nat.add_1_r, <- drop_drop. by destruct (drop _ args).
  - cbn. rewrite Eq. destruct (Ascii.eqb c "$" && negb inS) eqn:E2; [|f_equal; by apply IH].
    apply andb_true_iff in E2 as [E2 E3]. rewrite E2 in Hd. by destruct inS.
Qed.
End Placeholders.

(** A statement means the same to both databases: with [$1], [$2] and so on in
    place of its placeholders, PostgreSQL puts each argument where SQLite does, and
    literals are left alone. *)
Theorem rebound_statement_means_the_same args q : Placeholders.portable q false = true ->
  Placeholders.bind_postgres args (Rows.Rebind q) false None = Placeholders.bind_sqlite args q false.
Proof. intros H. unfold Rows.Rebind. by rewrite (Placeholders.rebind_binds args q 1 false). Qed.

(** *** Deployments *)

Section DeploymentFacts.
Import Deployments.
Context (is_time : string -> bool) (Format : Z -> string).

(** The latency after a deployment is read as an integer from a column that holds a
    mean, which SQLite gives as a real number. *)
Theorem latency_after_is_zero site d fl c d' fl' : Correlate Format site (d, fl) = (Ok (Some c), (d', fl')) -> c.(MedianLatencyAfter) = 0.
Proof.
  unfold Correlate. intros H. apply bind_ok in H as (h & d1 & fl1 & _ & H). destruct h as [|x h]; [done|].
  apply bind_ok in H as (row & d2 & fl2 & (-> & _ & _)%query_ok & H). unfold check_columns in H.
  destruct (checks_since _ _ _ _); cbn in H; apply bind_ok in H as (v & d3 & fl3 & _ & H); by injection H as <- _ _.
Qed.

(** At most one row for each event of a provider that has an identity. *)
Definition one_row_each (d : ddb) : Prop := forall e, count (same_event e) d.(dd_events) <= 1.
Lemma same_event_key e x : same_event e x = true -> forall y, same_event x y = same_event e y.
Proof.
  unfold same_event. intros H y. apply andb_true_iff in H as [[[H1 H2]%andb_true_iff H3]%andb_true_iff H4].
  apply Z.eqb_eq in H2. apply String.eqb_eq in H3, H4. by rewrite H2, H3, H4.
Qed.
Lemma upsert_spec e d id d' : upsert_event e d = Some (id, d') -> one_row_each d ->
  one_row_each d' /\ (e.(ExternalID) <> "" ->
    exists x, In x d'.(dd_events) /\ x.(ID) = id /\ same_event e x = true /\ count (same_event e) d'.(dd_events) = 1 /\
      (x.(Revision), x.(Status), x.(URL), x.(Metadata), x.(DeployedAt)) = (e.(Revision), e.(Status), e.(URL), e.(Metadata), e.(DeployedAt))).
Proof.
  unfold upsert_event. intros H Hd. destruct (site_exists _ _); [|done]. cbn [negb] in H. set (f := fun x => _) in H. destruct (find_first (same_event e) _) as [x|] eqn:Ef.
  - injection H as <- <-. cbn. assert (forall g y, same_event g (f y) = same_event g y) as Hf by done.
    assert (forall g, count (same_event g) (upd (same_event e) f (dd_events d)) = count (same_event g) (dd_events d)) as Hc.
    { intros g. unfold count. f_equal. unfold upd. clear -Hf. induction (dd_events d) as [|y l IH]; [done|]. cbn [map List.filter].
      assert (same_event g (if same_event e y then f y else y) = same_event g y) as -> by (destruct (same_event e y); [apply Hf|done]).
      destruct (same_event g y); cbn [length]; by rewrite IH. }
    split; [intros g; rewrite Hc; apply Hd|]. intros Hx. apply find_first_Some in Ef as [Hin Hs]. exists (f x). split_and!; try done.
    + apply in_upd. exists x. by rewrite Hs.
    + rewrite Hc. pose proof (Hd e). assert (0 < count (same_event e) (dd_events d)); [|lia]. unfold count.
      assert (In x (List.filter (same_event e) (dd_events d))) as Hf' by (apply filter_In; done). destruct (List.filter _ _); [done|cbn; lia].
  - injection H as <- <-. cbn. set (y := mk_event _ _ _ _ _ _ _ _ _ _ _). rewrite find_first_None in Ef.
    assert (forall g, same_event g y = true -> forall z, same_event g z = same_event e z) as Hy.
    { intros g Hg z. transitivity (same_event y z); [symmetry; by apply same_event_key|done]. }
    split.
    + intros g. cbn [set_events dd_events]. rewrite count_snoc. destruct (same_event g y) eqn:Eg; [|rewrite Z.add_0_r; apply Hd].
      rewrite (Ranks.count_none (same_event g)); [done|]. intros z Hz. rewrite (Hy g Eg). by apply Ef.
    + intros Hx. assert (same_event e y = true) as Hs.
      { unfold same_event, y. cbn. apply String.eqb_neq in Hx. by rewrite Hx, Z.eqb_refl, !String.eqb_refl. }
      exists y. split_and!; try done; [apply in_app_iff; right; by left|]. rewrite count_snoc, Hs, (Ranks.count_none (same_event e)); [done|]. intros z Hz. by apply Ef.
Qed.

Lemma upsert_site e d id d' : upsert_event e d = Some (id, d') -> site_exists e.(SiteID) d'.(dd_rest).(a_fleet) = true.
Proof. unfold upsert_event. destruct (site_exists _ _) eqn:E; [|done]. cbn. destruct (find_first _ _); intros H; by injection H as _ <-. Qed.
Lemma only_one e d x : In x d.(dd_events) -> same_event e x = true -> count (same_event e) d.(dd_events) = 1 -> List.filter (same_event e) d.(dd_events) = [x].
Proof.
  intros Hin Hs Hc. assert (In x (List.filter (same_event e) (dd_events d))) as Hi by (apply filter_In; done). unfold count in Hc.
  destruct (List.filter (same_event e) (dd_events d)) as [|y [|z l]]; [done| |cbn in Hc; lia]. by destruct Hi as [->|[]].
Qed.
Lemma upsert_again e d x : site_exists e.(SiteID) d.(dd_rest).(a_fleet) = true -> List.filter (same_event e) d.(dd_events) = [x] ->
  (x.(Revision), x.(Status), x.(URL), x.(Metadata), x.(DeployedAt)) = (e.(Revision), e.(Status), e.(URL), e.(Metadata), e.(DeployedAt)) ->
  upsert_event e d = Some (x.(ID), d).
Proof.
  intros Hsite Hf [= H1 H2 H3 H4 H5]. unfold upsert_event. rewrite Hsite. cbn [negb]. set (f := fun y => _).
  assert (forall y, In y d.(dd_events) -> same_event e y = true -> y = x) as Honly.
  { intros y Hy Hs. assert (In y [x]) as Hi by (rewrite <- Hf; by apply filter_In). by destruct Hi as [->|[]]. }
  assert (In x (List.filter (same_event e) (dd_events d))) as [Hin Hs]%filter_In by (rewrite Hf; by left).
  destruct (find_first (same_event e) (dd_events d)) as [y|] eqn:Ef; [|by rewrite find_first_None in Ef; rewrite Ef in Hs].
  apply find_first_Some in Ef as [Hy Hsy]. rewrite (Honly y Hy Hsy). do 2 f_equal. destruct d as [rest l]. unfold set_events. f_equal. cbn in *.
  assert (f x = x) as Hfx by (unfold f; rewrite <- H1, <- H2, <- H3, <- H4, <- H5; by destruct x).
  unfold upd. rewrite <- (List.map_id l) at 2. apply List.map_ext_in. intros z Hz. destruct (same_event e z) eqn:Ez; [|done]. by rewrite (Honly z Hz Ez), Hfx.
Qed.

(** A deliveries of a provider's event can be repeated: there is one row for it,
    which says what the last delivery said, and a delivery that is repeated word for
    word changes nothing and is answered with the same row. *)
Theorem redelivery_is_one_row e now d fl r d' fl' : Record_ is_time Format e now (d, fl) = (Ok r, (d', fl')) -> one_row_each d ->
  one_row_each d' /\ (e.(ExternalID) <> "" ->
    (exists x, List.filter (same_event r) d'.(dd_events) = [x] /\ x.(ID) = r.(ID) /\
      (x.(Revision), x.(Status), x.(URL), x.(Metadata), x.(DeployedAt)) = (r.(Revision), r.(Status), r.(URL), r.(Metadata), r.(DeployedAt))) /\
    (e.(DeployedAt) <> "" -> forall later, exists r', run (Record_ is_time Format e later) d' = (Ok r', d') /\ r'.(ID) = r.(ID))).
Proof.
  intros H Hd. unfold Record_ in H. destruct ((_ =?s "") || (SiteID e <? 1)) eqn:E1; [done|].
  destruct (negb (DeployedAt e =?s "") && negb (is_time (DeployedAt e))) eqn:E2; [done|]. set (e1 := mk_event _ _ _ _ _ _ _ _ _ _ (Format now)) in H.
  apply bind_ok in H as (id & d1 & fl1 & [Hu _]%stmt_ok & H). injection H as <- <- _. pose proof (upsert_site _ _ _ _ Hu) as Hsite. apply upsert_spec in Hu as [Hd' Hu]; [|done].
  split; [done|]. intros Hx. destruct (Hu Hx) as (x & Hin & Hid & Hs & Hc & Hf). pose proof (only_one _ _ _ Hin Hs Hc) as Hone. split; [by exists x|].
  intros Ht later. unfold Record_. rewrite E1, E2. apply String.eqb_neq in Ht. rewrite Ht. unfold e1 in *. rewrite Ht in *.
  set (e2 := mk_event _ _ _ _ _ _ _ _ _ _ (Format later)). assert (upsert_event e2 d1 = Some (x.(ID), d1)) as Hagain by by apply upsert_again.
  unfold run, bind, stmt. rewrite Hagain. by eexists.
Qed.
End DeploymentFacts.

(** *** The fleet *)

Section FleetFacts.
Import Fleet.
Definition health_states : list string := ["healthy"; "degraded"; "warning"; "down"; "unknown"].
Definition known_states (d : db) : Prop := forall h, In h d.(healths) -> In h.(h_state) health_states.
Lemma state_known d s : known_states d -> match state_of d s with Some x => In x health_states | None => True end.
Proof. intros H. unfold state_of. destruct (find_first _ _) as [h|] eqn:E; [|done]. cbn. apply H. by apply find_first_Some in E as [? _]. Qed.
Lemma counts_add_up d l : known_states d ->
  count (fun _ => true) l = count (in_state "healthy" d) l + count (in_state "degraded" d) l + count (in_state "warning" d) l + count (in_state "down" d) l + count (unknown_state d) l.
Proof.
  intros H. induction l as [|s l IH]; [done|]. rewrite !count_cons, IH. unfold in_state, unknown_state.
  pose proof (state_known d s H) as Hs. destruct (state_of d s) as [x|]; [|cbn; lia].
  destruct Hs as [<-|[<-|[<-|[<-|[<-|[]]]]]]; cbn; lia.
Qed.
Lemma attention_state d s : needs_attention (site_view d s) = in_state "down" d s || in_state "warning" d s || in_state "degraded" d s.
Proof. unfold needs_attention, in_state, state_of, site_view. cbn. by destruct (find_first _ _). Qed.
Lemma list_all org s d : list_sel org "" 0 false d s = unarchived s && (s.(s_org) =? org).
Proof. unfold list_sel. cbn. rewrite !andb_true_r. apply andb_comm. Qed.

(** A the counts of the fleet are of different sites and miss none; and where the
    fleet has no more than a hundred sites, one is shown for attention exactly when
    one is down, degraded or has a warning. *)
Theorem fleet_summary_is_true org d fl s d' fl' : SummaryFor org (d, fl) = (Ok s, (d', fl')) -> known_states d ->
  s.(Total) = s.(Healthy) + s.(Degraded) + s.(Warning) + s.(Down) + s.(Unknown) /\
  (forall x, In x s.(Attention) -> needs_attention x = true /\ exists r, In r (fleet_sites org d) /\ x = site_view d r) /\
  (s.(Total) <= 100 -> (s.(Attention) = [] <-> s.(Degraded) + s.(Warning) + s.(Down) = 0)).
Proof.
  intros H Hk. unfold SummaryFor in H. apply bind_ok in H as (c & d1 & fl1 & (-> & -> & _)%query_ok & H). apply bind_ok in H as (pg & d2 & fl2 & Hp & H).
  injection H as <- _ _. cbn [Total Healthy Degraded Warning Down Unknown Attention]. set (l := fleet_sites org d). split; [by apply counts_add_up|].
  assert (exists k, pg.(pg_sites) = map (site_view d) k /\ (forall r, In r k -> In r l) /\ (Z.of_nat (length l) <= 100 -> Permutation k l)) as (k & -> & Hin & Hperm).
  { unfold List_, paged in Hp. apply bind_ok in Hp as (t & d3 & fl3 & (-> & -> & _)%query_ok & Hp). apply bind_ok in Hp as (rows & d4 & fl4 & (-> & _ & _)%query_ok & Hp).
    injection Hp as <- _ _. cbn [pg_sites]. assert (List.filter (list_sel org "" 0 false d) (sites d) = l) as El by (apply List.filter_ext; intros r; apply list_all).
    rewrite El. set (sorted := sort_by _ l). assert (Permutation sorted l) as Hs by apply sort_by_perm.
    assert (count (list_sel org "" 0 false d) (sites d) = Z.of_nat (length l)) as Ec by (unfold count; by rewrite El). rewrite Ec.
    change (clamp_size 100) with 100. set (q := Z.quot _ 100).
    assert ((if (if q <? 1 then 1 else q) <? 1 then if q <? 1 then 1 else q else 1) = 1) as -> by (destruct (q <? 1) eqn:Eq; [done|by rewrite Eq]).
    change (Z.to_nat ((1 - 1) * 100)) with 0%nat. rewrite drop_0. change (Z.to_nat 100) with 100%nat. exists (firstn 100 sorted). split; [done|]. split.
    - intros r Hr. apply (Permutation_in _ Hs). rewrite <- (firstn_skipn 100 sorted). apply in_app_iff. by left.
    - intros Hl. rewrite firstn_all2; [done|]. rewrite (Permutation_length Hs). lia. }
  split.
  - intros x Hx. assert (In x (List.filter needs_attention (map (site_view d) k))) as [Hm Hn]%filter_In.
    { rewrite <- (firstn_skipn 20 (List.filter _ _)). apply in_app_iff. by left. }
    split; [done|]. apply in_map_iff in Hm as (r & <- & Hr). exists r. auto.
  - intros Ht. assert (count (fun _ => true) l = Z.of_nat (length l)) as Hc by (apply Ranks.count_all; done). rewrite Hc in Ht. specialize (Hperm Ht).
    assert (length (List.filter needs_attention (map (site_view d) k)) = length (List.filter (fun s => needs_attention (site_view d s)) k)) as Hlen.
    { clear. induction k as [|r k IH]; [done|]. cbn. destruct (needs_attention (site_view d r)); cbn; by rewrite IH. }
    assert (count (fun s => needs_attention (site_view d s)) l = count (in_state "degraded" d) l + count (in_state "warning" d) l + count (in_state "down" d) l) as Hsum.
    { clear. induction l as [|r l IH]; [done|]. rewrite !count_cons, IH, attention_state. unfold in_state. destruct (state_of d r) as [x|]; [|cbn; lia].
      destruct (String.eqb_spec x "down") as [->|]; [cbn; lia|]. destruct (String.eqb_spec x "warning") as [->|]; [cbn; lia|]. destruct (x =?s "degraded"); cbn; lia. }
    rewrite <- Hsum, <- (count_perm _ _ _ Hperm). unfold count. rewrite <- Hlen.
    destruct (List.filter needs_attention (map (site_view d) k)); cbn; split; done || lia.
Qed.
End FleetFacts.

(** ** Witnesses *)

Definition demo_checks : list check_row :=
  map (fun i => mk_check i 1 1 true 200 (7 * i mod 40) (100 * i) "" "" "" (i * second)) [1; 2; 3; 4; 5; 6; 7; 8; 9; 10; 11; 12; 13; 14; 15; 16; 17; 18; 19; 20; 21].
Definition demo_measured : db := set_checks demo_checks (set_sites [mk_site 1 1 "a" "https://a.example" true None None 0 0 None] empty_db).
Definition demo_performance : Performance.Summary := Performance.summary_of (Performance.recent_checks 1 500 demo_measured).
Lemma percentiles_are_true_witness :
  let l := Performance.recent_checks 1 (Performance.clamp_limit 900) demo_measured in
  let n := Z.of_nat (length l) in
  let below p (f : check_row -> Z) x := count (fun c => p (f c) x) l in
  demo_performance.(Performance.Samples) = n /\ n <= 500 /\ (l <> [] ->
    (n <= 2 * below Z.leb c_latency demo_performance.(Performance.MedianLatencyMS) /\ 2 * below Z.ltb c_latency demo_performance.(Performance.MedianLatencyMS) < n) /\
    (95 * n <= 100 * below Z.leb c_latency demo_performance.(Performance.P95LatencyMS) /\ 100 * below Z.ltb c_latency demo_performance.(Performance.P95LatencyMS) < 95 * n) /\
    (n <= 2 * below Z.leb c_bytes demo_performance.(Performance.MedianResponseBytes) /\ 2 * below Z.ltb c_bytes demo_performance.(Performance.MedianResponseBytes) < n)).
Proof. exact (percentiles_are_true 1 900 demo_measured [] demo_performance demo_measured [] eq_refl). Defined.
Example demo_performance_is : (demo_performance.(Performance.Samples), demo_performance.(Performance.MedianLatencyMS), demo_performance.(Performance.P95LatencyMS),
    demo_performance.(Performance.BaselineResponseBytes), demo_performance.(Performance.SizeRegression)) = (21, 20, 37, 1050, false).
Proof. vm_compute. reflexivity. Qed.

Definition demo_statement : string := "SELECT '?' FROM sites WHERE id=? AND name=?".
Lemma rebound_statement_means_the_same_witness :
  Placeholders.bind_postgres ["7"; "'a'"] (Rows.Rebind demo_statement) false None = Placeholders.bind_sqlite ["7"; "'a'"] demo_statement false.
Proof. apply (rebound_statement_means_the_same ["7"; "'a'"] demo_statement). reflexivity. Defined.
Example demo_statement_is : Rows.Rebind demo_statement = "SELECT '?' FROM sites WHERE id=$1 AND name=$2".
Proof. vm_compute. reflexivity. Qed.

Definition demo_deployments : Deployments.ddb :=
  Deployments.mk_ddb (mk_adb demo_measured [] [] [] [] [] [] [] (mk_retention 0 0 0) (newRateLimiter 0 0 0) (newRateLimiter 0 0 0)) [].
Definition demo_format (t : Z) : string := "2026-01-01T00:00:" ++ format_int (10 + secs t) ++ "Z".
Definition demo_event (revision : string) : Deployments.Event := Deployments.mk_event 0 1 " GitHub" "rev-1" revision "" "" "" "{}" "2026-01-01T00:00:20Z" "".
Definition demo_recorded (d : Deployments.ddb) (revision : string) : result Deployments.Event * (Deployments.ddb * faults) :=
  Deployments.Record_ (fun _ => true) demo_format (demo_event revision) (40 * second) (d, []).
Definition demo_event_1 : Deployments.Event := Deployments.mk_event 1 1 "github" "rev-1" "abc" "production" "deployed" "" "{}" "2026-01-01T00:00:20Z" "2026-01-01T00:00:50Z".
Definition demo_deployed : Deployments.ddb := (demo_recorded demo_deployments "abc").2.1.
Lemma demo_recorded_eq : Deployments.Record_ (fun _ => true) demo_format (demo_event "abc") (40 * second) (demo_deployments, []) = (Ok demo_event_1, (demo_deployed, [])).
Proof. vm_compute. reflexivity. Qed.
Lemma redelivery_is_one_row_witness : one_row_each demo_deployed /\ ("rev-1" <> "" ->
    (exists x, List.filter (Deployments.same_event demo_event_1) demo_deployed.(Deployments.dd_events) = [x] /\ x.(Deployments.ID) = 1 /\
      (x.(Deployments.Revision), x.(Deployments.Status), x.(Deployments.URL), x.(Deployments.Metadata), x.(Deployments.DeployedAt)) = ("abc", "deployed", "", "{}", "2026-01-01T00:00:20Z")) /\
    ("2026-01-01T00:00:20Z" <> "" -> forall later, exists r', run (Deployments.Record_ (fun _ => true) demo_format (demo_event "abc") later) demo_deployed = (Ok r', demo_deployed) /\ r'.(Deployments.ID) = 1)).
Proof. apply (redelivery_is_one_row (fun _ => true) demo_format (demo_event "abc") (40 * second) demo_deployments [] demo_event_1 demo_deployed [] demo_recorded_eq). intros e. done. Defined.
(** Eleven checks after the deployment, of 0 to 39 ms, and the latency is 0. *)
Example demo_correlation : match (run (Deployments.Correlate demo_format 1) demo_deployed).1 with
  | Ok (Some c) => (c.(Deployments.ChecksAfter), c.(Deployments.FailuresAfter), c.(Deployments.MedianLatencyAfter)) = (12, 0, 0)
  | _ => False
  end.
Proof. vm_compute. reflexivity. Qed.
(** The texts of the times are compared: a deployment at ten in the morning of UTC
    that is reported with another offset comes after one at eleven. *)
Definition demo_offsets : Deployments.ddb :=
  Deployments.set_events [Deployments.mk_event 1 1 "a" "1" "" "" "" "" "" "2026-01-01T12:00:00+02:00" ""; Deployments.mk_event 2 1 "a" "2" "" "" "" "" "" "2026-01-01T11:00:00Z" ""] demo_deployments.
Example offsets_are_not_read : match (run (Deployments.History 1) demo_offsets).1 with Ok l => map Deployments.ID l = [1; 2] | Err _ => False end.
Proof. vm_compute. reflexivity. Qed.

(** A hundred and one sites, of which the last by name is down. *)
Definition demo_large : db :=
  set_healths [mk_health 101 "down" 3 None 0 None None]
    (set_sites (map (fun i => mk_site (Z.of_nat i) 1 (if (i =? 101)%nat then "z" else "a") "https://a.example" true None None 0 0 None) (List.seq 1 101)) empty_db).
Definition demo_summary (d : db) : Fleet.Summary := match (run (Fleet.SummaryFor 1) d).1 with Ok s => s | Err _ => Fleet.mk_fleet 0 0 0 0 0 0 [] end.
Example attention_stops_at_a_hundred : (demo_summary demo_large).(Fleet.Total) = 101 /\ (demo_summary demo_large).(Fleet.Down) = 1 /\ (demo_summary demo_large).(Fleet.Attention) = [].
Proof. vm_compute. split_and!; reflexivity. Qed.
Definition demo_small : db := set_healths [mk_health 1 "down" 3 None 0 None None] demo_measured.
Lemma fleet_summary_is_true_witness : let s := demo_summary demo_small in
  s.(Fleet.Total) = s.(Fleet.Healthy) + s.(Fleet.Degraded) + s.(Fleet.Warning) + s.(Fleet.Down) + s.(Fleet.Unknown) /\
  (forall x, In x s.(Fleet.Attention) -> Fleet.needs_attention x = true /\ exists r, In r (Fleet.fleet_sites 1 demo_small) /\ x = site_view demo_small r) /\
  (s.(Fleet.Total) <= 100 -> (s.(Fleet.Attention) = [] <-> s.(Fleet.Degraded) + s.(Fleet.Warning) + s.(Fleet.Down) = 0)).
Proof.
  apply (fleet_summary_is_true 1 demo_small [] (demo_summary demo_small) demo_small []); [vm_compute; reflexivity|].
  intros h [<-|[]]. cbn. auto.
Defined.
