(* ===== verification/Observe.v ===== *)
(** What the workers observe of a site beside its pages: the certificate
    ([internal/tlshealth/tlshealth.go]) and the names
    ([internal/dnsobs/dns.go]).

    The parser of URLs, the resolver, the network, the TLS handshake and the
    verification of a certificate's host are parameters. *)
From stdpp Require Import sorting.
From S2P Require Import Prelude GoStr GoPath TimeText SqlM FleetDb Netguard Sites Reports.
Open Scope string_scope.
Open Scope Z_scope.
Open Scope wf_scope.
Open Scope sql_scope.

(** ** Definitions *)

(** The fields of a URL that are read: scheme, host name and port. *)
Record location := mk_location { lo_scheme : string; lo_host : string; lo_port : string }.

Module Tls.
Record Observation := mk_tls {
  ID : Z; SiteID : Z; Valid : bool; HostnameValid : bool; Issuer : string; Subject : string; Serial : string; NotBefore : string; NotAfter : string;
  DaysRemaining : Z; ErrorClass : string; Error : string; CheckedAt : Z }.
(** A certificate, with the texts of its names and its number, and its instants. *)
Record certificate := mk_cert { ce_issuer : string; ce_subject : string; ce_serial : string; ce_before : Z; ce_after : Z }.
Record tdb := mk_tdb { td_fleet : db; td_rows : list Observation }.

(** The double nearest to a positive fraction, as a fraction. *)
Definition double (num den : Z) : Z * Z :=
  if num =? 0 then (0, 1) else
  let e := Z.log2 num - Z.log2 den - 53 in
  let scale (e : Z) : Z * Z := if 0 <=? e then (num, den * 2 ^ e) else (num * 2 ^ (- e), den) in
  let e := let '(n, d) := scale e in if 2 ^ 53 * d <=? n then e + 1 else e in
  let '(n, d) := scale e in
  let m := Performance.round_even n d in
  if 0 <=? e then (m * 2 ^ e, 1) else (m, 2 ^ (- e)).
(** [int(d.Hours() / 24)] of a duration in nanoseconds. *)
Definition whole_days (d : Z) : Z :=
  let a := Z.abs d in
  let '(hn, hd) := double (a / hour) 1 in
  let '(fn, fd) := double (a mod hour) 3600000000000 in
  let '(sn, sd) := double (hn * fd + fn * hd) (hd * fd) in
  let '(qn, qd) := double sn (sd * 24) in
  Z.sgn d * (qn / qd).
(** [time.Until], which stays within the durations there are. *)
Definition Until (t now : Z) : Z := Z.max int64_min (Z.min int64_max (t - now)).

Section Tls.
Variable parse_url : string -> result location.
Variable LookupNetIP : string -> result (list addr).
Variable AllowPrivate : bool.
Variable addr_string : addr -> string.
Context {Conn : Type}.
Variable dial : addr -> string -> result Conn.
(** The certificates of the peer, once the handshake for a server name succeeded. *)
Variable handshake : Conn -> string -> result (list certificate).
Variable VerifyHostname : certificate -> string -> bool.
Variable FormatSeconds : Z -> string.

Definition failed (site now : Z) (class error : string) : Observation := mk_tls 0 site false false "" "" "" "" "" 0 class error now.
Definition seen (site now : Z) (c : certificate) (host : string) : Observation :=
  let ok := VerifyHostname c host in
  mk_tls 0 site ok ok c.(ce_issuer) c.(ce_subject) c.(ce_serial) (FormatSeconds c.(ce_before)) (FormatSeconds c.(ce_after)) (whole_days (Until c.(ce_after) now))
    (if ok then "" else "hostname") (if ok then "" else "certificate hostname mismatch") now.
(** What is observed of the host of a URL. *)
Definition inspect (site now : Z) (u : location) : Observation :=
  if negb (u.(lo_scheme) =?s "https") then failed site now "not_https" "site does not use HTTPS" else
  match ValidateHost LookupNetIP AllowPrivate addr_string u.(lo_host) with
  | Err e => failed site now "blocked" e
  | Ok _ =>
      let port := if u.(lo_port) =?s "" then "443" else u.(lo_port) in
      match (DialContext LookupNetIP AllowPrivate addr_string Conn dial (SplitHostPort (JoinHostPort u.(lo_host) port))).1 with
      | Err e => failed site now "connection" e
      | Ok c => match handshake c u.(lo_host) with
                | Err e => failed site now "tls" e
                | Ok [] => failed site now "tls" "server returned no certificate"
                | Ok (cert :: _) => seen site now cert u.(lo_host)
                end
      end
  end.
Definition persist (o : Observation) : M tdb Observation :=
  stmt (fun d => if site_exists o.(SiteID) d.(td_fleet)
    then let o := mk_tls (fresh_id (map ID d.(td_rows))) o.(SiteID) o.(Valid) o.(HostnameValid) o.(Issuer) o.(Subject) o.(Serial) o.(NotBefore) o.(NotAfter) o.(DaysRemaining) o.(ErrorClass) o.(Error) o.(CheckedAt) in
         Some (o, mk_tdb d.(td_fleet) (d.(td_rows) ++ [o])%list)
    else None).
Definition site_url (site : Z) : M tdb string :=
  let* r := or_fail (query (fun d => site_by_id site d.(td_fleet))) "site not found" in
  match r with Some s => ret s.(s_url) | None => throw "site not found" end.
Definition InspectSite (site now : Z) : M tdb Observation :=
  let* raw := site_url site in
  let* u := lift (parse_url raw) in
  persist (inspect site now u).
Definition Latest (site : Z) : M tdb Observation :=
  let* r := or_fail (query (fun d => find_first (fun o => o.(SiteID) =? site) (sort_less (fun a b => b.(ID) <? a.(ID)) d.(td_rows)))) "no TLS observation" in
  match r with Some o => ret o | None => throw "no TLS observation" end.
(** The last observation of each site of the organization, where it is not valid or
    has no more than these days. *)
Definition is_latest (d : tdb) (o : Observation) : bool := forallb (fun x => negb (x.(SiteID) =? o.(SiteID)) || (x.(ID) <=? o.(ID))) d.(td_rows).
Definition of_org (org : Z) (d : tdb) (site : Z) : bool := match site_by_id site d.(td_fleet) with Some s => s.(s_org) =? org | None => false end.
Definition FleetWarnings (org days : Z) : M tdb (list Observation) :=
  let days := if days <? 1 then 30 else days in
  query (fun d => sort_less (fun a b => a.(DaysRemaining) <? b.(DaysRemaining))
    (List.filter (fun o => is_latest d o && of_org org d o.(SiteID) && (negb o.(Valid) || (o.(DaysRemaining) <=? days))) d.(td_rows))).
End Tls.
End Tls.

Module Dns.
Record Observation := mk_dns { ID : Z; SiteID : Z; A : list string; AAAA : list string; CNAME : string; Status : string; Error : string; CheckedAt : Z; Changed : bool }.
(** A row holds its addresses as one text each. *)
Record dns_row := mk_row { dr_id : Z; dr_site : Z; dr_a : string; dr_aaaa : string; dr_cname : string; dr_status : string; dr_error : string; dr_at : Z; dr_changed : bool }.
Record ndb := mk_ndb { nd_fleet : db; nd_rows : list dns_row }.

Definition split_records (s : string) : list string := if s =?s "" then [] else split_on "," s.
Definition row (r : dns_row) : Observation := mk_dns r.(dr_id) r.(dr_site) (split_records r.(dr_a)) (split_records r.(dr_aaaa)) r.(dr_cname) r.(dr_status) r.(dr_error) r.(dr_at) r.(dr_changed).
Definition row_of (id : Z) (o : Observation) : dns_row :=
  mk_row id o.(SiteID) (join "," o.(A)) (join "," o.(AAAA)) o.(CNAME) o.(Status) o.(Error) o.(CheckedAt) o.(Changed).
Definition newest_first (l : list dns_row) : list dns_row := sort_less (fun a b => b.(dr_id) <? a.(dr_id)) l.
Definition sort_strings (l : list string) : list string := sort_by (fun s => s) l.

Section Dns.
Variable parse_url : string -> result location.
Variable LookupNetIP : string -> result (list addr).
Variable LookupCNAME : string -> result string.
Variable AllowPrivate : bool.
Variable addr_string : addr -> string.

(** The loop over the answer: the addresses of each family so far, and whether one
    was blocked. *)
Fixpoint gather (ips : list addr) (a aaaa : list string) : list string * list string * bool :=
  match ips with
  | [] => (a, aaaa, false)
  | ip :: ips' =>
      if negb AllowPrivate && Blocked ip then (a, aaaa, true) else
      match Unmap ip with
      | V4 _ => gather ips' (a ++ [addr_string (Unmap ip)])%list aaaa
      | V6 _ _ => gather ips' a (aaaa ++ [addr_string (Unmap ip)])%list
      end
  end.
Definition no_dot (s : string) : string := trim_suffix s ".".
Definition cname_of (host : string) : string :=
  match LookupCNAME host with
  | Ok c => if no_dot (to_lower c) =?s no_dot (to_lower host) then "" else no_dot c
  | Err _ => ""
  end.
Definition persist (o : Observation) : M ndb Observation :=
  stmt (fun d => if site_exists o.(SiteID) d.(nd_fleet)
    then let id := fresh_id (map dr_id d.(nd_rows)) in
         Some (mk_dns id o.(SiteID) o.(A) o.(AAAA) o.(CNAME) o.(Status) o.(Error) o.(CheckedAt) o.(Changed), mk_ndb d.(nd_fleet) (d.(nd_rows) ++ [row_of id o])%list)
    else None).
Definition latest_where (p : dns_row -> bool) (site : Z) (message : string) : M ndb Observation :=
  let* r := or_fail (query (fun d => find_first (fun r => (r.(dr_site) =? site) && p r) (newest_first d.(nd_rows)))) message in
  match r with Some r => ret (row r) | None => throw message end.
Definition Latest (site : Z) : M ndb Observation := latest_where (fun _ => true) site "no DNS observation".
Definition LatestSuccessful (site : Z) : M ndb Observation := latest_where (fun r => r.(dr_status) =?s "ok") site "no successful DNS observation".
Definition History (site : Z) : M ndb (list Observation) :=
  query (fun d => map row (firstn 50 (List.filter (fun r => r.(dr_site) =? site) (newest_first d.(nd_rows))))).
Definition no_observation : Observation := mk_dns 0 0 [] [] "" "" "" 0 false.
Definition differs (prev o : Observation) : bool :=
  negb (join "," prev.(A) =?s join "," o.(A)) || negb (join "," prev.(AAAA) =?s join "," o.(AAAA)) || negb (prev.(CNAME) =?s o.(CNAME)).
Definition site_url (site : Z) : M ndb string :=
  let* r := or_fail (query (fun d => site_by_id site d.(nd_fleet))) "site not found" in
  match r with Some s => ret s.(s_url) | None => throw "site not found" end.
Definition ObserveSite (site now : Z) : M ndb Observation :=
  let* raw := site_url site in
  let* u := lift (parse_url raw) in
  match LookupNetIP u.(lo_host) with
  | Err e => persist (mk_dns 0 site [] [] "" "error" e now false)
  | Ok ips =>
      let '(a, aaaa, blocked) := gather ips [] [] in
      if blocked then persist (mk_dns 0 site a aaaa "" "blocked" "hostname resolved to a private/reserved address" now false) else
      let o := mk_dns 0 site (sort_strings a) (sort_strings aaaa) (cname_of u.(lo_host)) "ok" "" now false in
      let* prev := ignore no_observation (LatestSuccessful site) in
      persist (if 0 <? prev.(ID) then mk_dns 0 site o.(A) o.(AAAA) o.(CNAME) "ok" "" now (differs prev o) else o)
  end.
End Dns.
End Dns.

(** ** Facts *)

(** *** The order of names *)

Lemma string_leb_trans a : forall b c, String.leb a b = true -> String.leb b c = true -> String.leb a c = true.
Proof.
  unfold String.leb. induction a as [|x a IH]; intros [|y b] [|z c]; cbn; try done. unfold Ascii.compare.
  destruct (N.compare_spec (N_of_ascii x) (N_of_ascii y)) as [E1|L1|L1], (N.compare_spec (N_of_ascii y) (N_of_ascii z)) as [E2|L2|L2]; try done; intros H1 H2.
  all: destruct (N.compare_spec (N_of_ascii x) (N_of_ascii z)) as [E3|L3|L3]; try done; try lia.
  by apply (IH b c).
Qed.
Definition string_le (a b : string) : Prop := String.leb a b = true.
#[export] Instance string_le_antisym : AntiSymm (=) string_le.
Proof. intros a b. apply String.leb_antisym. Qed.
Lemma insert_strings_sorted x l : StronglySorted string_le l -> StronglySorted string_le (insert_by (fun s => s) x l).
Proof.
  induction 1 as [|y l Hl IH Hy]; cbn; [by repeat constructor|]. destruct (String.leb y x) eqn:E.
  - constructor; [done|]. rewrite insert_by_perm. by constructor.
  - assert (string_le x y) as Hxy by (destruct (String.leb_total x y); [done|congruence]).
    constructor; [by constructor|]. constructor; [done|]. eapply Forall_impl; [exact Hy|]. intros z Hz. by eapply string_leb_trans.
Qed.
Lemma sort_strings_sorted l : StronglySorted string_le (Dns.sort_strings l).
Proof.
  unfold Dns.sort_strings, sort_by. assert (StronglySorted string_le []) as H by constructor. revert H. generalize (@nil string).
  induction l as [|x l IH]; intros acc H; [done|]. cbn. apply IH. by apply insert_strings_sorted.
Qed.
Lemma sort_strings_perm l k : Permutation l k -> Dns.sort_strings l = Dns.sort_strings k.
Proof. intros H. apply (StronglySorted_unique string_le); [apply sort_strings_sorted|apply sort_strings_sorted|]. unfold Dns.sort_strings. by rewrite !sort_by_perm. Qed.

(** *** Names *)

Section DnsFacts.
Import Dns.
Context (addr_string : addr -> string) (parse_url : string -> result location) (LookupCNAME : string -> result string) (AllowPrivate : bool).
Abbreviation bad := (fun ip => negb AllowPrivate && Blocked ip).
Definition is4 (ip : addr) : bool := match Unmap ip with V4 _ => true | V6 _ _ => false end.
Definition texts (ips : list addr) : list string := map (fun ip => addr_string (Unmap ip)) ips.

Lemma gather_spec ips : forall a b, existsb bad ips = false ->
  gather AllowPrivate addr_string ips a b = ((a ++ texts (List.filter is4 ips))%list, (b ++ texts (List.filter (fun ip => negb (is4 ip)) ips))%list, false).
Proof.
  induction ips as [|ip ips IH]; intros a b H; cbn; [by rewrite !app_nil_r|]. cbn in H. apply orb_false_iff in H as [-> H].
  destruct (is4 ip) eqn:E; cbn [negb]; unfold is4 in E; destruct (Unmap ip) eqn:Eu; try done; rewrite IH by done; cbn [texts map]; rewrite Eu, <- app_assoc; done.
Qed.
Lemma gather_blocked ips : forall a b, (gather AllowPrivate addr_string ips a b).2 = existsb bad ips.
Proof. induction ips as [|ip ips IH]; intros a b; [done|]. cbn. destruct (bad ip); [done|]. destruct (Unmap ip); apply IH. Qed.
Lemma filter_perm {T} (p : T -> bool) l k : Permutation l k -> Permutation (List.filter p l) (List.filter p k).
Proof. induction 1 as [|x l k _ IH|x y l|]; cbn; [done| | |by etransitivity]; [by destruct (p x); [constructor|]|]. destruct (p x), (p y); try done. apply perm_swap. Qed.
Lemma existsb_perm {T} (p : T -> bool) l k : Permutation l k -> existsb p l = existsb p k.
Proof. induction 1 as [|x l k _ IH|x y l|]; cbn; [done|by rewrite IH|by destruct (p x), (p y)|congruence]. Qed.

Lemma newest_snoc l x : (forall y, In y l -> y.(dr_id) < x.(dr_id)) -> newest_first (l ++ [x]) = x :: newest_first l.
Proof.
  intros H. unfold newest_first at 1, sort_less. rewrite fold_left_app. cbn. fold (sort_less (fun a b => dr_id b <? dr_id a) l). fold (newest_first l).
  destruct (newest_first l) as [|y k] eqn:E; [done|]. cbn. assert (In y l) as Hy.
  { apply (Permutation_in y (sort_less_perm (fun a b => dr_id b <? dr_id a) l)). fold (newest_first l). rewrite E. by left. }
  specialize (H y Hy). by replace (dr_id y <? dr_id x) with true by (symmetry; apply Z.ltb_lt; lia).
Qed.
Lemma join_read s : join "," (split_records s) = s.
Proof. unfold split_records. destruct (String.eqb_spec s "") as [->|]; [done|]. apply (join_split_on ","). Qed.

(** What a successful observation leaves, and what the next one finds. *)
Lemma persist_ok o d fl o' d' fl' : persist o (d, fl) = (Ok o', (d', fl')) ->
  d'.(nd_fleet) = d.(nd_fleet) /\ (exists id, 0 < id /\ newest_first d'.(nd_rows) = row_of id o :: newest_first d.(nd_rows)) /\
  (o'.(A), o'.(AAAA), o'.(CNAME), o'.(Status), o'.(Changed)) = (o.(A), o.(AAAA), o.(CNAME), o.(Status), o.(Changed)).
Proof.
  intros [H _]%stmt_ok. destruct (site_exists _ _); [|done]. set (id := fresh_id _) in H. injection H as <- <-. split; [done|]. split; [|done].
  exists id. split; [apply fresh_id_pos|]. cbn. apply newest_snoc. intros y Hy. apply fresh_id_gt, in_map_iff. by exists y.
Qed.
Lemma site_url_ok site d fl u d' fl' : site_url site (d, fl) = (Ok u, (d', fl')) -> d' = d /\ exists s, site_by_id site d.(nd_fleet) = Some s /\ u = s.(s_url).
Proof.
  intros H. apply bind_ok in H as (r & d1 & fl1 & (-> & -> & _)%or_fail_ok%query_ok & H).
  destruct (site_by_id site (nd_fleet d)) as [s|]; [|done]. injection H as <- <- _. split; [done|by exists s].
Qed.
(** A successful observation, apart from [Changed]. *)
Lemma observe_ok R site now d fl o d' fl' : ObserveSite parse_url R LookupCNAME AllowPrivate addr_string site now (d, fl) = (Ok o, (d', fl')) -> o.(Status) = "ok" ->
  exists s u ips id, site_by_id site d.(nd_fleet) = Some s /\ parse_url s.(s_url) = Ok u /\ R u.(lo_host) = Ok ips /\ existsb bad ips = false /\
    d'.(nd_fleet) = d.(nd_fleet) /\ 0 < id /\
    (o.(A), o.(AAAA), o.(CNAME)) = (sort_strings (texts (List.filter is4 ips)), sort_strings (texts (List.filter (fun ip => negb (is4 ip)) ips)), cname_of LookupCNAME u.(lo_host)) /\
    exists changed, newest_first d'.(nd_rows) = mk_row id site (join "," o.(A)) (join "," o.(AAAA)) o.(CNAME) "ok" "" now changed :: newest_first d.(nd_rows).
Proof.
  intros H Hs. unfold ObserveSite in H. apply bind_ok in H as (raw & d1 & fl1 & [-> (s & Hsite & ->)]%site_url_ok & H).
  apply bind_ok in H as (u & d2 & fl2 & (Hu & -> & _)%lift_ok & H). destruct (R (lo_host u)) as [ips|e] eqn:ER.
  2: { apply persist_ok in H as (_ & _ & [= _ _ _ E _]). congruence. }
  pose proof (gather_blocked ips [] []) as Hb. destruct (gather _ _ ips [] []) as [[a aaaa] blocked] eqn:Eg. cbn in Hb. subst blocked.
  destruct (existsb bad ips) eqn:Hbad; [apply persist_ok in H as (_ & _ & [= _ _ _ E _]); congruence|].
  rewrite gather_spec in Eg by done. injection Eg as <- <-. apply bind_ok in H as (prev & d3 & fl3 & Hp & H).
  assert (d3 = d) as ->.
  { unfold ignore in Hp. destruct (LatestSuccessful site (d, fl2)) as [q [d4 fl4]] eqn:E. assert (d4 = d) as ->.
    { assert (readonly (LatestSuccessful site)) as Hr by (unfold LatestSuccessful, latest_where; solve_readonly). by eapply Hr. }
    destruct q; by injection Hp as _ <- _. }
  apply persist_ok in H as (Hf & (id & Hid & Hn) & E). exists s, u, ips, id. cbn [app] in *.
  destruct (0 <? ID prev); cbn in E; injection E as E1 E2 E3 _ _; rewrite E1, E2, E3; split_and!; try done; eexists; exact Hn.
Qed.
End DnsFacts.

(** A name server that answers the same addresses in another order is no change:
    the second observation has the same records and is not marked as changed, however
    old the other rows of the site are. *)
Theorem answer_order_is_no_change str parse R1 R2 cn priv site now later d fl o1 d1 fl1 o2 d2 fl2 :
  Dns.ObserveSite parse R1 cn priv str site now (d, fl) = (Ok o1, (d1, fl1)) -> o1.(Dns.Status) = "ok" ->
  (forall host ips, R1 host = Ok ips -> exists ips', R2 host = Ok ips' /\ Permutation ips ips') ->
  Dns.ObserveSite parse R2 cn priv str site later (d1, []) = (Ok o2, (d2, fl2)) ->
  o2.(Dns.Status) = "ok" /\ o2.(Dns.Changed) = false /\ (o2.(Dns.A), o2.(Dns.AAAA), o2.(Dns.CNAME)) = (o1.(Dns.A), o1.(Dns.AAAA), o1.(Dns.CNAME)).
Proof.
  intros H1 Hs Hperm H2. destruct (observe_ok _ _ _ _ _ _ _ _ _ _ _ _ H1 Hs) as (s & u & ips & id & Hsite & Hu & HR & Hbad & Hf & Hid & E & changed & Hn).
  injection E as EA EAAAA EC. destruct (Hperm _ _ HR) as (ips' & HR' & Hp). unfold Dns.ObserveSite in H2.
  apply bind_ok in H2 as (raw & d3 & fl3 & [-> (s' & Hsite' & ->)]%site_url_ok & H2). rewrite Hf, Hsite in Hsite'. injection Hsite' as <-.
  apply bind_ok in H2 as (u' & d4 & fl4 & (Hu' & -> & _)%lift_ok & H2). rewrite Hu in Hu'. injection Hu' as <-. rewrite HR' in H2.
  rewrite gather_spec in H2 by (by rewrite <- (existsb_perm _ _ _ Hp)). cbn [app Dns.A Dns.AAAA Dns.CNAME] in H2.
  assert (forall p, Dns.sort_strings (texts str (List.filter p ips')) = Dns.sort_strings (texts str (List.filter p ips))) as Hsort.
  { intros p. apply sort_strings_perm, Permutation_map, filter_perm. by symmetry. }
  rewrite !Hsort, <- EA, <- EAAAA, <- EC in H2. apply bind_ok in H2 as (prev & d5 & fl5 & Hl & H2).
  apply persist_ok in H2 as (_ & _ & E2). destruct (0 <? Dns.ID prev) eqn:Hprev; cbn in E2; injection E2 as E1 E3 E4 E5 E6; rewrite E1, E3, E4, E5, E6; [|done].
  split_and!; try done. unfold ignore in Hl. destruct (Dns.LatestSuccessful site (d1, fl4)) as [q [d6 fl6]] eqn:Eq. destruct q as [q|]; [|by injection Hl as <- _ _].
  injection Hl as -> _ _. apply bind_ok in Eq as (r & d7 & fl7 & (-> & _ & _)%or_fail_ok%query_ok & Eq). rewrite Hn in Eq. cbn in Eq. rewrite Z.eqb_refl in Eq. cbn in Eq. injection Eq as <- _ _.
  unfold Dns.differs, Dns.row. cbn. by rewrite !join_read, !String.eqb_refl.
Qed.

(** *** Certificates *)

Lemma insert_key_sorted {T} (key : T -> Z) x l : StronglySorted (fun a b => key a <= key b) l -> StronglySorted (fun a b => key a <= key b) (insert_less (fun a b => key a <? key b) x l).
Proof.
  induction 1 as [|y l Hl IH Hy]; cbn; [by repeat constructor|]. destruct (key x <? key y) eqn:E; bool_to_prop.
  - constructor; [by constructor|]. constructor; [lia|]. eapply Forall_impl; [exact Hy|]. cbn. lia.
  - constructor; [done|]. rewrite insert_less_perm. constructor; [lia|done].
Qed.
Lemma sort_key_sorted {T} (key : T -> Z) l : StronglySorted (fun a b => key a <= key b) (sort_less (fun a b => key a <? key b) l).
Proof.
  unfold sort_less. assert (StronglySorted (fun a b => key a <= key b) []) as H by constructor. revert H. generalize (@nil T).
  induction l as [|x l IH]; intros acc H; [done|]. cbn. apply IH. by apply insert_key_sorted.
Qed.
Lemma NoDup_by_other {T U V} (f : T -> U) (g : T -> V) l : NoDup (map f l) -> (forall x y, In x l -> In y l -> g x = g y -> f x = f y) -> NoDup (map g l).
Proof.
  induction l as [|x l IH]; cbn; intros Hn H; [constructor|]. apply NoDup_cons in Hn as [Hx Hn]. apply NoDup_cons. split; [|apply IH; auto].
  intros Hin. apply list_elem_of_In, in_map_iff in Hin as (y & E & Hy). apply Hx, list_elem_of_In, in_map_iff. exists y. split; [|done]. apply H; auto.
Qed.

Section TlsFacts.
Import Tls.
(** A client that checks the name of the server during the handshake, as this one
    does, never sees a certificate for another host: the error class [hostname] is
    not stored. *)
Theorem hostname_mismatch_is_never_seen R priv str Conn (dial : addr -> string -> result Conn) handshake verify fmt site now u :
  (forall c host cert certs, handshake c host = Ok (cert :: certs) -> verify cert host = true) ->
  let o := inspect R priv str dial handshake verify fmt site now u in o.(ErrorClass) <> "hostname" /\ o.(Valid) = o.(HostnameValid).
Proof.
  intros Hlaw. cbv zeta. unfold inspect. destruct (negb _); [done|]. destruct (ValidateHost _ _ _ _); [|done]. destruct (DialContext _ _ _ _ _ _).1 as [c|]; [|done].
  destruct (handshake c (lo_host u)) as [[|cert certs]|] eqn:E; [done| |done]. unfold seen. by rewrite (Hlaw _ _ _ _ E).
Qed.

(** A the warnings of the fleet are the latest observations, each of another site
    of the organization, that are not valid or whose certificate runs out within the
    days asked for: none is missing, and the most urgent come first. *)
Theorem warnings_are_the_latest org days d fl l d' fl' : FleetWarnings org days (d, fl) = (Ok l, (d', fl')) -> NoDup (map ID d.(td_rows)) ->
  let within := if days <? 1 then 30 else days in
  (forall o, In o l <-> In o d.(td_rows) /\ (forall x, In x d.(td_rows) -> x.(SiteID) = o.(SiteID) -> x.(ID) <= o.(ID)) /\
     of_org org d o.(SiteID) = true /\ (o.(Valid) = false \/ o.(DaysRemaining) <= within)) /\
  NoDup (map SiteID l) /\ StronglySorted (fun a b => a.(DaysRemaining) <= b.(DaysRemaining)) l.
Proof.
  intros (-> & _ & _)%query_ok Hn. cbv zeta. set (within := if days <? 1 then 30 else days). set (sel := fun o => _ && _ && _).
  assert (forall o, sel o = true <-> (forall x, In x d.(td_rows) -> x.(SiteID) = o.(SiteID) -> x.(ID) <= o.(ID)) /\ of_org org d o.(SiteID) = true /\ (o.(Valid) = false \/ o.(DaysRemaining) <= within)) as Hsel.
  { intros o. unfold sel, is_latest. rewrite !andb_true_iff, orb_true_iff, negb_true_iff, Z.leb_le, forallb_forall.
    assert ((forall x, In x (td_rows d) -> negb (SiteID x =? SiteID o) || (ID x <=? ID o) = true) <-> (forall x, In x (td_rows d) -> SiteID x = SiteID o -> ID x <= ID o)) as ->; [|tauto].
    split; intros H x Hx; specialize (H x Hx); destruct (SiteID x =? SiteID o) eqn:E; cbn in *; bool_to_prop; [intros _; lia|done|apply Z.leb_le; by apply H|done]. }
  pose proof (sort_less_perm (fun a b => DaysRemaining a <? DaysRemaining b) (List.filter sel (td_rows d))) as Hp. split_and!.
  - intros o. split; intros H.
    + apply (Permutation_in o Hp), filter_In in H as [Hin Ho]. apply Hsel in Ho as (? & ? & ?). done.
    + destruct H as (Hin & H). apply (Permutation_in o (Permutation_sym Hp)), filter_In. split; [done|]. by apply Hsel.
  - rewrite Hp. apply (NoDup_by_other ID).
    + rewrite (List.filter_ext _ (fun r => negb (negb (sel r)))) by (intros; by rewrite negb_involutive). by apply (NoDup_map_del ID).
    + intros x y [Hx Hsx]%filter_In [Hy Hsy]%filter_In E. apply Hsel in Hsx as (H1 & _), Hsy as (H2 & _). pose proof (H1 y Hy (eq_sym E)). pose proof (H2 x Hx E). lia.
  - apply sort_key_sorted.
Qed.
End TlsFacts.

(** ** Witnesses *)

Definition demo_host (s : string) : result location := if s =?s "https://a.example" then Ok (mk_location "https" "a.example" "") else Err "parse error".
Definition demo_answer (l : list Z) (host : string) : result (list addr) := Ok (map (fun n => V4 (quad 93 184 216 n)) l).
Definition demo_text (ip : addr) : string := match ip with V4 a => "93.184.216." ++ format_int (v4 a 3) | V6 _ _ => "" end.
Definition demo_names : Dns.ndb := Dns.mk_ndb (set_sites [mk_site 1 1 "a" "https://a.example" true None None 0 0 None] empty_db) [Dns.mk_row 4 1 "93.184.216.1" "" "" "ok" "" 1 false].
Definition demo_observe (answer : list Z) (now : Z) (d : Dns.ndb) : result Dns.Observation * (Dns.ndb * faults) :=
  Dns.ObserveSite demo_host (demo_answer answer) (fun _ => Err "no such host") false demo_text 1 now (d, []).
Definition demo_first : Dns.ndb := (demo_observe [34; 7; 9] 10 demo_names).2.1.
Definition demo_observed (id now : Z) (changed : bool) : Dns.Observation := Dns.mk_dns id 1 ["93.184.216.34"; "93.184.216.7"; "93.184.216.9"] [] "" "ok" "" now changed.
Lemma demo_first_answer : demo_observe [34; 7; 9] 10 demo_names = (Ok (demo_observed 5 10 true), (demo_first, [])).
Proof. vm_compute. reflexivity. Qed.
Definition demo_second : Dns.ndb := (demo_observe [9; 34; 7] 20 demo_first).2.1.
Lemma demo_second_eq : demo_observe [9; 34; 7] 20 demo_first = (Ok (demo_observed 6 20 false), (demo_second, [])).
Proof. vm_compute. reflexivity. Qed.
Lemma answer_order_is_no_change_witness : "ok" = "ok" /\ false = false /\
  (["93.184.216.34"; "93.184.216.7"; "93.184.216.9"], @nil string, "") = (["93.184.216.34"; "93.184.216.7"; "93.184.216.9"], [], "").
Proof.
  refine (answer_order_is_no_change demo_text demo_host (demo_answer [34; 7; 9]) (demo_answer [9; 34; 7]) (fun _ => Err "no such host") false 1 10 20
    demo_names [] (demo_observed 5 10 true) demo_first [] (demo_observed 6 20 false) demo_second [] demo_first_answer eq_refl _ demo_second_eq).
  intros host ips [= <-]. eexists. split; [reflexivity|]. exact (Permutation_sym (Permutation_middle [_; _] [] _)).
Defined.

Definition demo_certificates : Tls.tdb :=
  let o id site valid days := Tls.mk_tls id site valid valid "CA" "" "" "" "" days "" "" id in
  Tls.mk_tdb (set_sites (map (fun i => mk_site i (if i =? 4 then 2 else 1) "a" "https://a.example" true None None 0 0 None) [1; 2; 3; 4]) empty_db)
    [o 1 1 true 5; o 2 2 true 20; o 3 1 true 90; o 4 3 false 0; o 5 4 false 0; o 6 2 true 19].
Definition demo_warnings : list Tls.Observation := match (run (Tls.FleetWarnings 1 0) demo_certificates).1 with Ok l => l | Err _ => [] end.
Example demo_warnings_are : map Tls.ID demo_warnings = [4; 6].
Proof. vm_compute. reflexivity. Qed.
Lemma warnings_are_the_latest_witness : let within := if 0 <? 1 then 30 else 0 in
  (forall o, In o demo_warnings <-> In o demo_certificates.(Tls.td_rows) /\ (forall x, In x demo_certificates.(Tls.td_rows) -> x.(Tls.SiteID) = o.(Tls.SiteID) -> x.(Tls.ID) <= o.(Tls.ID)) /\
     Tls.of_org 1 demo_certificates o.(Tls.SiteID) = true /\ (o.(Tls.Valid) = false \/ o.(Tls.DaysRemaining) <= within)) /\
  NoDup (map Tls.SiteID demo_warnings) /\ StronglySorted (fun a b => a.(Tls.DaysRemaining) <= b.(Tls.DaysRemaining)) demo_warnings.
Proof.
  apply (warnings_are_the_latest 1 0 demo_certificates [] demo_warnings demo_certificates []); [vm_compute; reflexivity|].
  apply (bool_decide_unpack _). vm_compute. exact I.
Defined.
(** Thirty days less a nanosecond are 29 days, but nine hundred are rounded up. *)
Example days_left : (Tls.whole_days (30 * day - 1), Tls.whole_days (30 * day), Tls.whole_days (900 * day - 1), Tls.whole_days (- 36 * hour)) = (29, 30, 900, -1).
Proof. vm_compute. reflexivity. Qed.
