(* ===== verification/Parts.v ===== *)
(** Services that keep their tables in a part of a larger state: the class of parts, a
    computation of a service on the whole, and how what is known of the service
    carries over. *)
From S2P Require Import Prelude SqlM.
From S2P Require Analytics.
Open Scope wf_scope.
Open Scope sql_scope.

(** ** Definitions *)

Class Part (S T : Type) := {
  part : T -> S;
  with_part : S -> T -> T;
  part_with s t : part (with_part s t) = s;
  with_same t : with_part (part t) t = t;
  with_twice s s' t : with_part s' (with_part s t) = with_part s' t }.
(** A computation of a service, on the whole. *)
Definition on {S T A} `{Part S T} (m : M S A) : M T A := fun '(t, fl) =>
  let '(r, (s, fl')) := m (part t, fl) in (r, (with_part s t, fl')).

(** ** Facts *)

(** *** Computations on a part *)

Section Parts.
Context {S T : Type} `{Part S T}.
(** [R], as the part sees it. *)
Definition lifted (R : T -> T -> Prop) (x y : S) : Prop := forall t, part t = x -> R t (with_part y t).
#[export] Instance lifted_refl R : Reflexive R -> Reflexive (lifted R).
Proof. intros HR x t <-. by rewrite with_same. Qed.
#[export] Instance lifted_trans R : Transitive R -> Transitive (lifted R).
Proof. intros HR x y z H1 H2 t Ht. etransitivity; [by apply H1|]. rewrite <- (with_twice y z t). apply H2, part_with. Qed.
Lemma within_on {A} R (m : M S A) : within (lifted R) m -> within R (on m).
Proof. intros Hm t fl. unfold on. specialize (Hm (part t) fl). destruct (m (part t, fl)) as [r [s fl']]. by apply Hm. Qed.
Lemma on_readonly {A} (m : M S A) : readonly m -> readonly (on m).
Proof.
  intros Hm t fl r t' fl' E. unfold on in E. destruct (m (part t, fl)) as [q [s f]] eqn:Em. apply Hm in Em as ->.
  injection E as _ <- _. apply with_same.
Qed.
End Parts.

Lemma attempt_readonly {S A} (m : M S A) : readonly m -> readonly (attempt m).
Proof. intros Hm s fl r s' fl' E. unfold attempt in E. destruct (m (s, fl)) as [q [t f]] eqn:Em. apply Hm in Em as ->. by injection E as _ <- _. Qed.
Lemma readonly_ignore {S A} a (m : M S A) : readonly m -> readonly (ignore a m).
Proof. intros Hm s fl r s' fl' E. unfold ignore in E. destruct (m (s, fl)) as [[q|e] [t f]] eqn:Em; apply Hm in Em as ->; by injection E as _ <- _. Qed.
Lemma attempt_within {S A} (R : S -> S -> Prop) (m : M S A) : within R m -> within R (attempt m).
Proof. intros Hm s fl. specialize (Hm s fl). unfold attempt. by destruct (m (s, fl)) as [r [t f]]. Qed.
Lemma within_act {S A} (R : S -> S -> Prop) (f : S -> A * S) : (forall s, R s (f s).2) -> within R (Analytics.act f).
Proof. intros H s fl. specialize (H s). unfold Analytics.act. by destruct (f s). Qed.
(** After a read the rest runs on what was read. *)
Lemma within_read {S A B} (R : S -> S -> Prop) `{!Reflexive R} (f : S -> A) (k : A -> M S B) :
  (forall s fl, R s (k (f s) (s, fl)).2.1) -> within R (bind (query f) k).
Proof. intros H s fl. unfold bind, query, stmt. destruct fl as [|[] fl]; [apply H|cbn; reflexivity|apply H]. Qed.
Lemma within_read_or {S A B} (R : S -> S -> Prop) `{!Reflexive R} (f : S -> A) msg (k : A -> M S B) :
  (forall s fl, R s (k (f s) (s, fl)).2.1) -> within R (bind (or_fail (query f) msg) k).
Proof. intros H s fl. unfold bind, or_fail, query, stmt. destruct fl as [|[] fl]; [apply H|cbn; reflexivity|apply H]. Qed.
(** What a computation returns may be used. *)
Lemma within_bind_of {S A B} (R : S -> S -> Prop) `{!Transitive R} (P : A -> Prop) (m : M S A) (k : A -> M S B) :
  within R m -> (forall w a w', m w = (Ok a, w') -> P a) -> (forall a, P a -> within R (k a)) -> within R (bind m k).
Proof.
  intros Hm HP Hk s fl. unfold bind. specialize (Hm s fl). destruct (m (s, fl)) as [[a|e] [t f]] eqn:E; [|done].
  cbn in Hm. etransitivity; [exact Hm|]. apply Hk. by eapply HP.
Qed.
Lemma exec_at {S} (R : S -> S -> Prop) `{!Reflexive R} (f : S -> S) s fl : R s (f s) -> R s (exec f (s, fl)).2.1.
Proof. intros H. unfold exec, stmt. destruct fl as [|[] fl]; cbn; done. Qed.
Lemma stmt_at {S A} (R : S -> S -> Prop) `{!Reflexive R} (f : S -> option (A * S)) s fl : (forall a s', f s = Some (a, s') -> R s s') -> R s (stmt f (s, fl)).2.1.
Proof. intros H. unfold stmt. destruct fl as [|[] fl]; cbn; try done; destruct (f s) as [[a s']|] eqn:E; cbn; try done; by eapply H. Qed.

Lemma bind_at {S A B} (R : S -> S -> Prop) `{!Transitive R} (m : M S A) (k : A -> M S B) s fl :
  R s (m (s, fl)).2.1 -> (forall a, within R (k a)) -> R s (bind m k (s, fl)).2.1.
Proof. intros Hm Hk. unfold bind. destruct (m (s, fl)) as [[a|e] [t f]]; [|done]. cbn in Hm. etransitivity; [exact Hm|]. apply Hk. Qed.
