(* ===== verification/SiteHandlers.v ===== *)
(** The handlers of [internal/server/server.go] for what is known of the sites and
    of the fleet: analytics, audits, crawls, checks, certificates, names, incidents,
    deployments, webhooks and retention.

    The state of the server is the tables of all these services together; a service
    works on its own part of it.  The body of a request is the value [decodeJSON]
    made of it, or none.  A handler that leaves work to a goroutine puts it into the
    list of jobs. *)
From stdpp Require Import gmap.
From S2P Require Import Prelude GoStr GoPath TimeText SqlM FleetDb Incidents Monitor Netguard RateLimit Routes Sites SiteApi Parts.
From S2P Require Crawler Requestmeta Analytics Notifications Audits Reports Observe.
Open Scope string_scope.
Open Scope Z_scope.
Open Scope wf_scope.
Open Scope sql_scope.
Import Reports.

(** ** Definitions *)

(** *** The state of the server *)

(** What a goroutine was started for. *)
Inductive job := JAudit (site : Z) | JCrawl (site : Z) | JCountries.
#[export] Instance job_eq_dec : EqDecision job.
Proof. solve_decision. Defined.

Record server := mk_server {
  sv_ana : Analytics.adb; sv_deploys : list Deployments.Event;
  sv_runs : list Audits.Result; sv_settings : list (Z * bool);
  sv_crawls : list Crawler.Run; sv_pages : list (Z * Crawler.Page); sv_links : list (Z * Crawler.Link);
  sv_tls : list Observe.Tls.Observation; sv_dns : list Observe.Dns.dns_row;
  sv_auditing : gset Z; sv_crawling : gset Z; sv_jobs : list job }.
Definition sv_fleet (s : server) : db := s.(sv_ana).(Analytics.a_fleet).
Definition set_ana (a : Analytics.adb) (s : server) : server :=
  mk_server a s.(sv_deploys) s.(sv_runs) s.(sv_settings) s.(sv_crawls) s.(sv_pages) s.(sv_links) s.(sv_tls) s.(sv_dns) s.(sv_auditing) s.(sv_crawling) s.(sv_jobs).
Definition put_fleet (d : db) (s : server) : server := set_ana (Analytics.set_fleet d s.(sv_ana)) s.
Definition put_runs (r : list Audits.Result) (h : list (Z * bool)) (s : server) : server :=
  mk_server s.(sv_ana) s.(sv_deploys) r h s.(sv_crawls) s.(sv_pages) s.(sv_links) s.(sv_tls) s.(sv_dns) s.(sv_auditing) s.(sv_crawling) s.(sv_jobs).
Definition start_audit (infl : gset Z) (site : Z) (s : server) : server :=
  mk_server s.(sv_ana) s.(sv_deploys) s.(sv_runs) s.(sv_settings) s.(sv_crawls) s.(sv_pages) s.(sv_links) s.(sv_tls) s.(sv_dns) infl s.(sv_crawling) (s.(sv_jobs) ++ [JAudit site]).
Definition start_crawl (infl : gset Z) (site : Z) (s : server) : server :=
  mk_server s.(sv_ana) s.(sv_deploys) s.(sv_runs) s.(sv_settings) s.(sv_crawls) s.(sv_pages) s.(sv_links) s.(sv_tls) s.(sv_dns) s.(sv_auditing) infl (s.(sv_jobs) ++ [JCrawl site]).
Definition start_countries (s : server) : server :=
  mk_server s.(sv_ana) s.(sv_deploys) s.(sv_runs) s.(sv_settings) s.(sv_crawls) s.(sv_pages) s.(sv_links) s.(sv_tls) s.(sv_dns) s.(sv_auditing) s.(sv_crawling) (s.(sv_jobs) ++ [JCountries]).

#[export] Instance part_analytics : Part Analytics.adb server.
Proof. refine {| part := sv_ana; with_part := set_ana |}; [done|by intros []|done]. Defined.
#[export] Instance part_fleet : Part db server.
Proof. refine {| part := sv_fleet; with_part := put_fleet |}; [done|by intros [[]]|done]. Defined.
#[export] Instance part_deployments : Part Deployments.ddb server.
Proof.
  refine {| part s := Deployments.mk_ddb s.(sv_ana) s.(sv_deploys);
    with_part d s := mk_server d.(Deployments.dd_rest) d.(Deployments.dd_events) s.(sv_runs) s.(sv_settings) s.(sv_crawls) s.(sv_pages) s.(sv_links) s.(sv_tls) s.(sv_dns) s.(sv_auditing) s.(sv_crawling) s.(sv_jobs) |}; [by intros []|by intros []|done].
Defined.
#[export] Instance part_audits : Part Audits.udb server.
Proof.
  refine {| part s := Audits.mk_udb (sv_fleet s) s.(sv_runs) s.(sv_settings);
    with_part d s := put_runs d.(Audits.ud_runs) d.(Audits.ud_settings) (put_fleet d.(Audits.ud_fleet) s) |}; [by intros []|by intros [[]]|done].
Defined.
#[export] Instance part_crawler : Part Crawler.cdb server.
Proof.
  refine {| part s := Crawler.mk_cdb (sv_fleet s) s.(sv_crawls) s.(sv_pages) s.(sv_links);
    with_part d s := mk_server (Analytics.set_fleet d.(Crawler.c_fleet) s.(sv_ana)) s.(sv_deploys) s.(sv_runs) s.(sv_settings) d.(Crawler.c_runs) d.(Crawler.c_pages) d.(Crawler.c_links) s.(sv_tls) s.(sv_dns) s.(sv_auditing) s.(sv_crawling) s.(sv_jobs) |}; [by intros []|by intros [[]]|done].
Defined.
#[export] Instance part_tls : Part Observe.Tls.tdb server.
Proof.
  refine {| part s := Observe.Tls.mk_tdb (sv_fleet s) s.(sv_tls);
    with_part d s := mk_server (Analytics.set_fleet d.(Observe.Tls.td_fleet) s.(sv_ana)) s.(sv_deploys) s.(sv_runs) s.(sv_settings) s.(sv_crawls) s.(sv_pages) s.(sv_links) d.(Observe.Tls.td_rows) s.(sv_dns) s.(sv_auditing) s.(sv_crawling) s.(sv_jobs) |}; [by intros []|by intros [[]]|done].
Defined.
#[export] Instance part_dns : Part Observe.Dns.ndb server.
Proof.
  refine {| part s := Observe.Dns.mk_ndb (sv_fleet s) s.(sv_dns);
    with_part d s := mk_server (Analytics.set_fleet d.(Observe.Dns.nd_fleet) s.(sv_ana)) s.(sv_deploys) s.(sv_runs) s.(sv_settings) s.(sv_crawls) s.(sv_pages) s.(sv_links) s.(sv_tls) d.(Observe.Dns.nd_rows) s.(sv_auditing) s.(sv_crawling) s.(sv_jobs) |}; [by intros []|by intros [[]]|done].
Defined.

(** *** Answers *)

Inductive content :=
| CError (msg : string) | COk | CNothing | CStatus (word : string) | CScript
| CGoals (l : list (Analytics.goal_row * Z)) | CGoal (g : Analytics.goal_row) | CSummary (x : Analytics.Summary)
| CProperty (p : option Analytics.Property) (snippet : option string) | CPages (x : Analytics.PageViews)
| CCountries (installed : option (string * Z)) (x : Analytics.PageViews) | CTraffic (x : Z * Z * Z)
| CAudits (history : bool) (runs : list Audits.Result) | CSites (ids : list Z) | CResults (l : list Audits.Result)
| CCrawl (x : option Crawler.Detail) | CRegressions (l : list (Site * Crawler.Run))
| CHttp (l : list hobs_row) | CExpectations (l : list (string * bool)) | CChecks (l : list check_row) | CCheck (c : check_row)
| CNames (l : list Observe.Dns.Observation) | CName (o : Observe.Dns.Observation)
| CCertificate (o : option Observe.Tls.Observation) | CCertificates (l : list Observe.Tls.Observation)
| CIncidents (l : list incident_row) | CFleet (x : Fleet.Summary) | CPerformance (x : Performance.Summary)
| CDeployments (l : list Deployments.Event) | CDeployment (e : Deployments.Event) | CCorrelation (x : option Deployments.Correlation)
| CWebhooks (l : list webhook_row) | CWebhook (w : webhook_row) (secret : string) | CDeliveries (l : list delivery_row)
| CMaintenance (x : Analytics.retention * Z * Z * Z).
Record served := mk_served { sd_status : Z; sd_content : content }.
Definition refused (status : Z) (msg : string) : served := mk_served status (CError (trim_space msg)).
Definition answered (c : content) : served := mk_served 200 c.

(** What the handlers read of a request beside its body: the id in its path and its
    [Host]; and the clock. *)
Record visit := mk_visit { vi_id : string; vi_host : string; vi_now : Z }.

Section Handlers.
(** The parameters of the services: see there. *)
Variable parse_origin : string -> option (string * string).
Variable parse_location : string -> result Observe.location.
Variable parse_webhook : string -> option (string * string * string).
Variable scheme_of : string -> option string.
Variable LookupNetIP : string -> result (list addr).
Variable LookupCNAME : string -> result string.
Variable addr_string : addr -> string.
Context {Conn : Type}.
Variable dial : addr -> string -> result Conn.
Variable handshake : Conn -> string -> result (list Observe.Tls.certificate).
Variable VerifyHostname : Observe.Tls.certificate -> string -> bool.
Variable FormatSeconds : Z -> string.
Variable is_time : string -> bool.
Variable Format : Z -> string.
Variable Compile : string -> result (string -> bool).
(** [cfg.PublicURL]; and the country database: [None] without one, or when it was
    installed and how many ranges it has. *)
Variable PublicURL : string.
Variable countries : option (string * Z).

(** [x, err := m; if err != nil { writeError(...) }]. *)
Definition or_refuse {S A} `{Part S server} (m : M S A) (status : Z) (msg : string -> string) (k : A -> M server served) : M server served :=
  let* r := attempt (on m) in
  match r with Err e => ret (refused status (msg e)) | Ok a => k a end.
(** [x, _ := m], with the value [x] has then. *)
Definition or_else {S A} `{Part S server} (m : M S A) (a : A) : M server A := ignore a (on m).
(** [pathSiteID] and [Server.site]. *)
Definition at_site (p : principal) (v : visit) (k : Z -> M server served) : M server served :=
  match ParseID v.(vi_id) with
  | Err _ => ret (refused 400 "invalid site id")
  | Ok id => or_refuse (GetForOrg p.(pr_org) id) 404 (says "site not found") (fun _ => k id)
  end.
(** [decodeJSON]. *)
Definition decoded {A} (b : option A) (k : A -> M server served) : M server served :=
  match b with None => ret (refused 400 "invalid JSON request") | Some x => k x end.

(** *** Analytics *)

Definition snippet_of (v : visit) (p : Analytics.Property) : string :=
  Analytics.TrackerSnippet (if PublicURL =?s "" then "https://" ++ v.(vi_host) else PublicURL) p.(Analytics.ap_key).
Definition handleAnalyticsGoals (p : principal) (v : visit) : M server served :=
  at_site p v (fun id => or_refuse (Analytics.Goals id) 500 (says "analytics goals unavailable") (fun g => ret (answered (CGoals g)))).
Definition handleCreateAnalyticsGoal (p : principal) (v : visit) (b : option (string * string * string)) : M server served :=
  at_site p v (fun id => decoded b (fun '(name, kind, path) =>
  or_refuse (Analytics.CreateGoal id name kind path v.(vi_now)) 400 same (fun g => ret (mk_served 201 (CGoal g))))).
Definition handleAnalyticsSummary (p : principal) (v : visit) (days : string) : M server served :=
  at_site p v (fun id => or_refuse (Analytics.SummaryOf id (parse_int_val days) v.(vi_now)) 500 (says "analytics summary unavailable") (fun x => ret (answered (CSummary x)))).
Definition handleAnalyticsProperty (p : principal) (v : visit) : M server served :=
  at_site p v (fun id => or_refuse (Analytics.PropertyOf id) 500 (says "analytics unavailable") (fun prop =>
  ret (answered (CProperty prop (match prop with Some x => if x.(Analytics.ap_enabled) then Some (snippet_of v x) else None | None => None end))))).
(** [key] is the public key that is drawn for a new property. *)
Definition handleEnableAnalytics (p : principal) (v : visit) (key : string) : M server served :=
  at_site p v (fun id => or_refuse (Analytics.Enable parse_origin id key v.(vi_now)) 400 same (fun prop =>
  ret (mk_served 201 (CProperty (Some prop) (Some (snippet_of v prop)))))).
Definition handleDisableAnalytics (p : principal) (v : visit) : M server served :=
  at_site p v (fun id => or_refuse (Analytics.Disable id) 400 same (fun _ => ret (answered COk))).
Definition handleAnalyticsPages (p : principal) (v : visit) (days page size : string) : M server served :=
  at_site p v (fun id =>
  or_refuse (Analytics.Pages id (parse_int_val days) (parse_int_val page) (parse_int_val size) v.(vi_now)) 500 (says "analytics pages unavailable") (fun x => ret (answered (CPages x)))).
Definition handleAnalyticsCountries (p : principal) (v : visit) (days page size : string) : M server served :=
  at_site p v (fun id =>
  or_refuse (Analytics.Countries id (parse_int_val days) (parse_int_val page) (parse_int_val size) v.(vi_now)) 500 (says "analytics countries unavailable")
    (fun x => ret (answered (CCountries countries x)))).
Definition handleFleetAnalytics (p : principal) (v : visit) (days : string) : M server served :=
  or_refuse (Analytics.Fleet p.(pr_org) (parse_int_val days) v.(vi_now)) 500 (says "fleet analytics unavailable") (fun x => ret (answered (CTraffic x))).
Definition handleGeoUpdate : M server served :=
  Analytics.act (fun s => (tt, start_countries s)) ;;; ret (mk_served 202 (CStatus "installing")).

(** *** Audits *)

Definition handleAudit (p : principal) (v : visit) : M server served :=
  at_site p v (fun id => or_refuse (Audits.History id) 500 (says "audit unavailable") (fun runs =>
  let* hist := or_else (Audits.HistoryEnabled id) false in ret (answered (CAudits hist runs)))).
Definition handleRunAudit (p : principal) (v : visit) : M server served :=
  at_site p v (fun id =>
  let* ok := Analytics.act (fun s => let '(ok, infl) := Audits.Claim id s.(sv_auditing) in (ok, if ok then start_audit infl id s else s)) in
  ret (if ok then mk_served 202 (CStatus "running") else refused 409 "an audit is already running for this site")).
Definition handleAuditHistorySetting (p : principal) (v : visit) (b : option bool) : M server served :=
  at_site p v (fun id => decoded b (fun enabled =>
  or_refuse (Audits.SetHistory id enabled) 500 (says "audit setting unavailable") (fun _ => ret (answered COk)))).
Definition handleResolveAudits (p : principal) (b : option Audits.BatchFilter) : M server served :=
  decoded b (fun f => or_refuse (Audits.ResolveBatch Compile p.(pr_org) f) 400 same (fun ids => ret (answered (CSites ids)))).
(** A batch is what its runs make of the tables, in one of the orders of their steps. *)
Inductive handleBatchAudits (p : principal) (b : option (list Z)) : server * faults -> served -> server * faults -> Prop :=
| batch_undecoded w : b = None -> handleBatchAudits p b w (refused 400 "invalid JSON request") w
| batch_too_long w ids : b = Some ids -> (100 < length ids)%nat -> handleBatchAudits p b w (refused 400 "batch audit limit is 100 sites") w
| batch_run s fl ids d fl' out : b = Some ids -> (length ids <= 100)%nat ->
    Audits.RunBatch p.(pr_org) ids (part s, fl) out (d, fl') ->
    handleBatchAudits p b (s, fl) (answered (CResults out)) (with_part d s, fl').

(** *** Crawls *)

Definition handleSiteCrawl (p : principal) (v : visit) : M server served :=
  at_site p v (fun id =>
  let* r := attempt (on (Crawler.LatestDetail id)) in
  ret (answered (CCrawl (match r with Ok x => Some x | Err _ => None end)))).
Definition handleCrawlSite (p : principal) (v : visit) : M server served :=
  at_site p v (fun id =>
  let* ok := Analytics.act (fun s => let '(ok, infl) := Crawler.Claim id s.(sv_crawling) in (ok, if ok then start_crawl infl id s else s)) in
  ret (if ok then mk_served 202 (CStatus "running") else refused 409 "a crawl is already in progress for this site")).
(** The loop over the runs: the site of each, which may be gone. *)
Fixpoint with_sites (org : Z) (runs : list Crawler.Run) : M server (list (Site * Crawler.Run)) :=
  match runs with
  | [] => ret []
  | x :: runs' =>
      let* s := attempt (on (GetForOrg org x.(Crawler.r_site))) in
      let* rest := with_sites org runs' in
      ret (match s with Ok s => (s, x) :: rest | Err _ => rest end)
  end.
Definition handleFleetLinkRegressions (p : principal) : M server served :=
  or_refuse (Crawler.FleetRegressions p.(pr_org)) 500 (says "link regressions unavailable") (fun runs =>
  let* l := with_sites p.(pr_org) runs in ret (answered (CRegressions l))).

(** *** Checks, names and certificates *)

Definition handleHTTPObservations (p : principal) (v : visit) : M server served :=
  at_site p v (fun id => or_refuse (HTTPHistory id) 500 (says "HTTP observations unavailable") (fun l => ret (answered (CHttp l)))).
Definition handleHeaderExpectations (p : principal) (v : visit) : M server served :=
  at_site p v (fun id => or_refuse (HeaderExpectations id) 500 (says "header expectations unavailable") (fun l => ret (answered (CExpectations l)))).
Definition handleHeaderExpectationUpdate (p : principal) (v : visit) (b : option (string * bool)) : M server served :=
  at_site p v (fun id => decoded b (fun '(name, required) =>
  or_refuse (SetHeaderExpectation id name required) 400 same (fun _ => ret (answered COk)))).
Definition handleSiteDNS (p : principal) (v : visit) : M server served :=
  at_site p v (fun id => or_refuse (Observe.Dns.History id) 500 (says "DNS history unavailable") (fun l => ret (answered (CNames l)))).
Definition observe (site now : Z) : M Observe.Dns.ndb Observe.Dns.Observation :=
  Observe.Dns.ObserveSite parse_location LookupNetIP LookupCNAME false addr_string site now.
Definition handleObserveDNS (p : principal) (v : visit) : M server served :=
  at_site p v (fun id => or_refuse (observe id v.(vi_now)) 400 same (fun o => ret (answered (CName o)))).
Definition handleSiteTLS (p : principal) (v : visit) : M server served :=
  at_site p v (fun id =>
  let* r := attempt (on (Observe.Tls.Latest id)) in
  ret (answered (CCertificate (match r with Ok o => Some o | Err _ => None end)))).
Definition inspect_site (site now : Z) : M Observe.Tls.tdb Observe.Tls.Observation :=
  Observe.Tls.InspectSite parse_location LookupNetIP false addr_string dial handshake VerifyHostname FormatSeconds site now.
Definition handleInspectTLS (p : principal) (v : visit) : M server served :=
  at_site p v (fun id => or_refuse (inspect_site id v.(vi_now)) 400 same (fun o => ret (answered (CCertificate (Some o))))).
Definition handleFleetTLS (p : principal) : M server served :=
  or_refuse (Observe.Tls.FleetWarnings p.(pr_org) 30) 500 (says "TLS warnings unavailable") (fun l => ret (answered (CCertificates l))).
(** [pr] is what the network makes of the request of the check. *)
Definition handleCheckSite (p : principal) (v : visit) (pr : probe) : M server served :=
  at_site p v (fun id => or_refuse (CheckSite scheme_of id v.(vi_now) pr) 400 same (fun res =>
  attempt (on (inspect_site id v.(vi_now))) ;;;
  attempt (on (observe id v.(vi_now))) ;;;
  ret (answered (CCheck res)))).
Definition handleSiteChecks (p : principal) (v : visit) : M server served :=
  at_site p v (fun id => or_refuse (Recent id 50) 500 (says "check history unavailable") (fun l => ret (answered (CChecks l)))).
Definition handleSitePerformance (p : principal) (v : visit) : M server served :=
  at_site p v (fun id => or_refuse (Performance.ForSite id 200) 500 (says "performance history unavailable") (fun x => ret (answered (CPerformance x)))).

(** *** Incidents, deployments and the fleet *)

Definition handleSiteIncidents (p : principal) (v : visit) : M server served :=
  at_site p v (fun id => or_refuse (Incidents.List_ id) 500 (says "incident history unavailable") (fun l => ret (answered (CIncidents l)))).
Definition handleAckIncident (p : principal) (v : visit) : M server served :=
  match ParseID v.(vi_id) with
  | Err _ => ret (refused 400 "invalid incident id")
  | Ok id => or_refuse (Acknowledge p.(pr_org) id v.(vi_now)) 404 same (fun _ => ret (answered COk))
  end.
Definition handleFleet (p : principal) : M server served :=
  or_refuse (Fleet.SummaryFor p.(pr_org)) 500 (says "fleet summary unavailable") (fun x => ret (answered (CFleet x))).
Definition handleDeployments (p : principal) (v : visit) : M server served :=
  at_site p v (fun id => or_refuse (Deployments.History id) 500 (says "deployments unavailable") (fun l => ret (answered (CDeployments l)))).
Definition for_site (id : Z) (e : Deployments.Event) : Deployments.Event :=
  Deployments.mk_event e.(Deployments.ID) id e.(Deployments.Provider) e.(Deployments.ExternalID) e.(Deployments.Revision) e.(Deployments.Environment) e.(Deployments.Status) e.(Deployments.URL) e.(Deployments.Metadata) e.(Deployments.DeployedAt) e.(Deployments.ReceivedAt).
Definition handleDeploymentRecord (p : principal) (v : visit) (b : option Deployments.Event) : M server served :=
  at_site p v (fun id => decoded b (fun e =>
  or_refuse (Deployments.Record_ is_time Format (for_site id e) v.(vi_now)) 400 same (fun x => ret (mk_served 201 (CDeployment x))))).
Definition handleDeploymentCorrelation (p : principal) (v : visit) : M server served :=
  at_site p v (fun id => or_refuse (Deployments.Correlate Format id) 500 (says "deployment correlation unavailable") (fun x => ret (answered (CCorrelation x)))).

(** *** Webhooks and retention *)

Definition handleWebhooks (p : principal) : M server served :=
  or_refuse (Notifications.List_ p.(pr_org)) 500 (says "webhooks unavailable") (fun l => ret (answered (CWebhooks l))).
(** [secret] is drawn. *)
Definition handleWebhookCreate (p : principal) (v : visit) (b : option (string * string)) (secret : string) : M server served :=
  decoded b (fun '(name, url) =>
  or_refuse (Notifications.Create parse_webhook LookupNetIP addr_string p.(pr_org) name url secret v.(vi_now)) 400 same
    (fun x => ret (mk_served 201 (CWebhook x.1 x.2)))).
Definition handleNotificationDeliveries (p : principal) : M server served :=
  or_refuse (Notifications.History p.(pr_org)) 500 (says "delivery history unavailable") (fun l => ret (answered (CDeliveries l))).

(** Retention looks at the audits by their site and time. *)
Definition on_retention {A} (m : M Analytics.adb A) : M server A := fun '(s, fl) =>
  let times := map (fun r => (r.(Audits.rs_site), r.(Audits.rs_created))) s.(sv_runs) in
  let kept := map fst (List.filter snd s.(sv_settings)) in
  let a := s.(sv_ana) in
  let a' := Analytics.mk_adb a.(Analytics.a_fleet) a.(Analytics.props) a.(Analytics.events) a.(Analytics.daily) a.(Analytics.seen_visitors) a.(Analytics.goals) times kept a.(Analytics.kept_for) a.(Analytics.validLim) a.(Analytics.badLim) in
  let '(r, (d, fl')) := m (a', fl) in
  (r, (put_runs (List.filter (fun r => bool_decide ((r.(Audits.rs_site), r.(Audits.rs_created)) ∈ d.(Analytics.audits))) s.(sv_runs)) s.(sv_settings) (set_ana d s), fl')).
Definition handleMaintenance : M server served :=
  let* r := attempt (on_retention Analytics.StatusOf) in
  ret (match r with Ok x => answered (CMaintenance x) | Err _ => refused 500 "maintenance status unavailable" end).
Definition handleMaintenanceUpdate (b : option Analytics.retention) : M server served :=
  decoded b (fun x => or_refuse (Analytics.Set_ x) 400 same (fun _ => ret (answered COk))).
Definition handleMaintenanceRun (v : visit) : M server served :=
  let* r := attempt (on_retention (Analytics.Maintain v.(vi_now))) in
  ret (match r with Ok _ => answered COk | Err e => refused 500 e end).

(** *** The public routes of the analytics *)

Variable hmac : string -> string -> string.
Variable ParseAddr ParseAddrPort : string -> option string.
Variable json_valid : string -> bool.
Variable gdb : option (string -> string).
Variable salt : string.
Variable AllowNoOrigin : bool.
(** [s.proxy.ClientIP]. *)
Variable ClientIP : Requestmeta.request -> string.

Definition handleTracker : M server served := ret (answered CScript).
(** The address of the sender; the instants are those of [Ingest]. *)
Definition sender (rq : Requestmeta.request) : string :=
  let ip := ClientIP rq in
  if negb (ip =?s "") then ip else
  match SplitHostPort rq.(Requestmeta.RemoteAddr) with Ok (h, _) => h | Err _ => rq.(Requestmeta.RemoteAddr) end.
Definition handleAnalyticsEvent (rq : Requestmeta.request) (origin ua : string) (t now at_ : Z) (b : option Analytics.Event) : M server served :=
  decoded b (fun ev =>
  or_refuse (Analytics.Ingest hmac ParseAddr ParseAddrPort json_valid gdb salt AllowNoOrigin ev origin (sender rq) ua t now at_) 400 same
    (fun _ => ret (mk_served 204 CNothing))).

(** *** The requests of a principal *)

Inductive site_request :=
| GetGoals | PostGoal (b : option (string * string * string)) | GetSummary (days : string) | GetProperty
| PostAnalytics (key : string) | PostDisable | GetPages (days page size : string) | GetCountries (days page size : string)
| GetAudit | PostAudit | PutAuditHistory (b : option bool) | GetCrawl | PostCrawl
| GetHttp | GetExpectations | PutExpectation (b : option (string * bool)) | GetNames | PostNames | GetCertificate | PostCertificate
| PostCheck (pr : probe) | GetChecks | GetPerformance | GetIncidents
| GetDeployments | PostDeployment (b : option Deployments.Event) | GetCorrelation.
Definition serve_site (q : site_request) (p : principal) (v : visit) : M server served :=
  match q with
  | GetGoals => handleAnalyticsGoals p v
  | PostGoal b => handleCreateAnalyticsGoal p v b
  | GetSummary days => handleAnalyticsSummary p v days
  | GetProperty => handleAnalyticsProperty p v
  | PostAnalytics key => handleEnableAnalytics p v key
  | PostDisable => handleDisableAnalytics p v
  | GetPages days page size => handleAnalyticsPages p v days page size
  | GetCountries days page size => handleAnalyticsCountries p v days page size
  | GetAudit => handleAudit p v
  | PostAudit => handleRunAudit p v
  | PutAuditHistory b => handleAuditHistorySetting p v b
  | GetCrawl => handleSiteCrawl p v
  | PostCrawl => handleCrawlSite p v
  | GetHttp => handleHTTPObservations p v
  | GetExpectations => handleHeaderExpectations p v
  | PutExpectation b => handleHeaderExpectationUpdate p v b
  | GetNames => handleSiteDNS p v
  | PostNames => handleObserveDNS p v
  | GetCertificate => handleSiteTLS p v
  | PostCertificate => handleInspectTLS p v
  | PostCheck pr => handleCheckSite p v pr
  | GetChecks => handleSiteChecks p v
  | GetPerformance => handleSitePerformance p v
  | GetIncidents => handleSiteIncidents p v
  | GetDeployments => handleDeployments p v
  | PostDeployment b => handleDeploymentRecord p v b
  | GetCorrelation => handleDeploymentCorrelation p v
  end.

(** The requests that name no site. *)
Inductive fleet_request :=
| GetTraffic (days : string) | PostCountries | ResolveAudits (b : option Audits.BatchFilter) | GetRegressions | GetWarnings
| AckIncident | GetFleet | GetWebhooks | PostWebhook (b : option (string * string)) (secret : string) | GetDeliveries
| GetMaintenance | PutMaintenance (b : option Analytics.retention) | RunMaintenance.
Definition serve_fleet (q : fleet_request) (p : principal) (v : visit) : M server served :=
  match q with
  | GetTraffic days => handleFleetAnalytics p v days
  | PostCountries => handleGeoUpdate
  | ResolveAudits b => handleResolveAudits p b
  | GetRegressions => handleFleetLinkRegressions p
  | GetWarnings => handleFleetTLS p
  | AckIncident => handleAckIncident p v
  | GetFleet => handleFleet p
  | GetWebhooks => handleWebhooks p
  | PostWebhook b secret => handleWebhookCreate p v b secret
  | GetDeliveries => handleNotificationDeliveries p
  | GetMaintenance => handleMaintenance
  | PutMaintenance b => handleMaintenanceUpdate b
  | RunMaintenance => handleMaintenanceRun v
  end.
Inductive request := ForSite (q : site_request) | ForFleet (q : fleet_request).
Definition serve (q : request) (p : principal) (v : visit) : M server served :=
  match q with ForSite q => serve_site q p v | ForFleet q => serve_fleet q p v end.
End Handlers.

(** A request of a principal, a batch of audits included, with its answer and what it
    leaves. *)
Inductive asked := Asks (q : request) | AsksBatch (b : option (list Z)).
Inductive answers (serving : request -> principal -> visit -> M server served) : asked -> principal -> visit -> server * faults -> result served -> server * faults -> Prop :=
| answers_request q p v w : answers serving (Asks q) p v w (serving q p v w).1 (serving q p v w).2
| answers_batch b p v w a w' : handleBatchAudits p b w a w' -> answers serving (AsksBatch b) p v w (Ok a) w'.

(** *** The jobs *)

Fixpoint drop_job (j : job) (l : list job) : list job :=
  match l with [] => [] | x :: l' => if decide (x = j) then l' else x :: drop_job j l' end.
(** A job ends: the deferred [Release]. *)
Definition end_job (j : job) (s : server) : server :=
  mk_server s.(sv_ana) s.(sv_deploys) s.(sv_runs) s.(sv_settings) s.(sv_crawls) s.(sv_pages) s.(sv_links) s.(sv_tls) s.(sv_dns)
    (match j with JAudit site => Audits.Release site s.(sv_auditing) | _ => s.(sv_auditing) end)
    (match j with JCrawl site => Crawler.Release site s.(sv_crawling) | _ => s.(sv_crawling) end)
    (drop_job j s.(sv_jobs)).
Definition same_jobs (s s' : server) : Prop := s'.(sv_jobs) = s.(sv_jobs) /\ s'.(sv_auditing) = s.(sv_auditing) /\ s'.(sv_crawling) = s.(sv_crawling).
(** What happens to the server: a request is served, a job, a batch of audits or a
    worker works on the tables, a job ends.  A batch takes no claims. *)
Inductive happens (serving : request -> principal -> visit -> M server served) : server -> server -> Prop :=
| is_asked q p v s fl r s' fl' : answers serving q p v (s, fl) r (s', fl') -> happens serving s s'
| works s s' : same_jobs s s' -> happens serving s s'
| job_ends j s : In j s.(sv_jobs) -> happens serving s (end_job j s).
