(* ===== verification/Tenants.v ===== *)
(** The handlers of [SiteHandlers]: organizations are apart from one another, and the
    jobs that the handlers start do not run twice for a site. *)
From stdpp Require Import gmap.
From S2P Require Import Prelude GoStr GoPath TimeText SqlM FleetDb Incidents Monitor Netguard RateLimit Routes Sites SiteApi Parts.
From S2P Require Crawler Requestmeta Analytics Notifications Audits Reports Observe.
From S2P Require Import SiteHandlers.
Open Scope string_scope.
Open Scope Z_scope.
Open Scope wf_scope.
Open Scope sql_scope.
Import Reports.

(** ** Facts *)

(** *** What a tenant has *)

(** Whether a site, a property of the analytics and a webhook are an organization's. *)
Definition site_of (B : Z) (d : db) (site : Z) : bool := match site_by_id site d with Some s => s.(s_org) =? B | None => false end.
Definition property_of (B : Z) (a : Analytics.adb) (pid : Z) : bool :=
  existsb (fun p => (p.(Analytics.ap_id) =? pid) && site_of B a.(Analytics.a_fleet) p.(Analytics.ap_site)) a.(Analytics.props).
Definition hook_of (B : Z) (d : db) (w : Z) : bool := existsb (fun x => (x.(w_id) =? w) && (x.(w_org) =? B)) d.(webhooks).
Definition run_of (B : Z) (s : server) (run : Z) : bool := existsb (fun x => (x.(Crawler.r_id) =? run) && site_of B (sv_fleet s) x.(Crawler.r_site)) s.(sv_crawls).

Record holdings := mk_holdings {
  ho_groups : list group_row; ho_sites : list site_row; ho_monitors : list monitor_row; ho_checks : list check_row; ho_healths : list health_row;
  ho_incidents : list incident_row; ho_alerts : list alert_row; ho_hooks : list webhook_row; ho_deliveries : list delivery_row;
  ho_expected : list hexp_row; ho_observed : list hobs_row; ho_tags : list (Z * string);
  ho_props : list Analytics.Property; ho_events : list Analytics.event_row; ho_daily : list Analytics.daily_row; ho_visitors : list (Z * Z * string); ho_goals : list Analytics.goal_row;
  ho_deploys : list Deployments.Event; ho_runs : list Audits.Result; ho_settings : list (Z * bool);
  ho_crawls : list Crawler.Run; ho_pages : list (Z * Crawler.Page); ho_links : list (Z * Crawler.Link);
  ho_certificates : list Observe.Tls.Observation; ho_names : list Observe.Dns.dns_row }.
(** The rows of an organization, of every table. *)
Definition holdings_of (B : Z) (s : server) : holdings :=
  let a := s.(sv_ana) in let d := sv_fleet s in
  let mine {X} (site : X -> Z) (l : list X) := List.filter (fun x => site_of B d (site x)) l in
  let measured {X} (pid : X -> Z) (l : list X) := List.filter (fun x => property_of B a (pid x)) l in
  mk_holdings (List.filter (fun g => g.(g_org) =? B) d.(groups)) (List.filter (fun x => x.(s_org) =? B) d.(sites)) (mine m_site d.(monitors)) (mine c_site d.(checks)) (mine h_site d.(healths))
    (mine i_site d.(incidents)) (mine a_site d.(alerts)) (List.filter (fun w => w.(w_org) =? B) d.(webhooks)) (List.filter (fun r => hook_of B d r.(d_webhook)) d.(deliveries))
    (mine e_site d.(hexp)) (mine o_site d.(hobs)) (mine fst d.(tags))
    (mine Analytics.ap_site a.(Analytics.props)) (measured Analytics.ev_pid a.(Analytics.events)) (measured Analytics.dy_pid a.(Analytics.daily))
    (measured (fun x => x.1.1) a.(Analytics.seen_visitors)) (measured Analytics.gl_pid a.(Analytics.goals))
    (mine Deployments.SiteID s.(sv_deploys)) (mine Audits.rs_site s.(sv_runs)) (mine fst s.(sv_settings))
    (mine Crawler.r_site s.(sv_crawls)) (List.filter (fun x => run_of B s x.1) s.(sv_pages)) (List.filter (fun x => run_of B s x.1) s.(sv_links))
    (mine Observe.Tls.SiteID s.(sv_tls)) (mine Observe.Dns.dr_site s.(sv_dns)).

(** The keys of the tables. *)
Record tidy (s : server) : Prop := {
  ti_sites : NoDup (map s_id (sv_fleet s).(sites));
  ti_incidents : NoDup (map i_id (sv_fleet s).(incidents));
  ti_hooks : NoDup (map w_id (sv_fleet s).(webhooks));
  ti_props : NoDup (map Analytics.ap_id s.(sv_ana).(Analytics.props));
  ti_measured : NoDup (map Analytics.ap_site s.(sv_ana).(Analytics.props));
  ti_runs : NoDup (map Audits.rs_id s.(sv_runs)) }.
(** The state of a request of organization [A], for one of its sites. *)
Definition good (A : Z) (site : option Z) (s : server) : Prop :=
  tidy s /\ match site with Some id => site_of A (sv_fleet s) id = true | None => True end.
(** A step that leaves the others alone. *)
Definition apart (A : Z) (site : option Z) (s s' : server) : Prop :=
  good A site s -> good A site s' /\ forall B, B <> A -> holdings_of B s' = holdings_of B s.
#[export] Instance apart_refl A site : Reflexive (apart A site).
Proof. by intros s H. Qed.
#[export] Instance apart_trans A site : Transitive (apart A site).
Proof. intros s1 s2 s3 H1 H2 Hg. destruct (H1 Hg) as [G1 E1], (H2 G1) as [G2 E2]. split; [done|]. intros B HB. by rewrite E2, E1. Qed.

Lemma site_of_other A B d id : site_of A d id = true -> B <> A -> site_of B d id = false.
Proof. unfold site_of. destruct (site_by_id id d); [|done]. intros E HB. bool_to_prop. apply Z.eqb_neq. lia. Qed.
Lemma filter_snoc_out {X} (p : X -> bool) l x : p x = false -> List.filter p (l ++ [x]) = List.filter p l.
Proof. intros H. rewrite List.filter_app. cbn. by rewrite H, app_nil_r. Qed.
Lemma filter_upd_out {X} (p q : X -> bool) f l : (forall x, In x l -> q x = true -> p x = false /\ p (f x) = false) -> List.filter p (upd q f l) = List.filter p l.
Proof.
  unfold upd. induction l as [|x l IH]; intros H; [done|]. cbn. rewrite IH by (intros y Hy; apply H; by right).
  destruct (q x) eqn:E; [|done]. destruct (H x (or_introl eq_refl) E) as [-> ->]. done.
Qed.
Lemma filter_del_out {X} (p q : X -> bool) l : (forall x, In x l -> q x = true -> p x = false) -> List.filter p (del q l) = List.filter p l.
Proof.
  unfold del. induction l as [|x l IH]; intros H; [done|]. cbn. specialize (IH (fun y Hy => H y (or_intror Hy))).
  destruct (q x) eqn:E; cbn; [by rewrite IH, (H x (or_introl eq_refl) E)|by rewrite IH].
Qed.

(** A step on the tables of a site: the keys are kept, and what is not the site's. *)
Ltac frame_step :=
  intros ? <- [[] Hown];
  split; [split; [constructor; cbn in *; try assumption | exact Hown] | intros B HB; pose proof (site_of_other _ B _ _ Hown HB) as Hout; unfold holdings_of; cbn in *; f_equal; try reflexivity].

Section Frames.
Context (A site : Z).
Abbreviation R := (apart A (Some site)).

Lemma frame_health_inserted h d u d' : h.(h_site) = site -> insert_health h d = Some (u, d') -> lifted R d d'.
Proof.
  intros Hh E. unfold insert_health in E. destruct (_ && _); [|done]. injection E as _ <-. frame_step. apply filter_snoc_out. by rewrite Hh.
Qed.
Lemma frame_health_updated f d : (forall h, (f h).(h_site) = h.(h_site)) ->
  lifted R d (set_healths (upd (fun h => h.(h_site) =? site) f d.(healths)) d).
Proof. intros Hf. frame_step. apply filter_upd_out. intros h _ E. bool_to_prop. by rewrite Hf, E. Qed.
Lemma frame_check c : c.(c_site) = site -> within (lifted R) (stmt (insert_check c)).
Proof.
  intros Hc. apply within_stmt; [apply _|]. intros d a d' E. unfold insert_check in E. destruct (_ && _); [|done]. injection E as _ <-.
  frame_step. apply filter_snoc_out. cbn. by rewrite Hc.
Qed.
Lemma frame_alert inc kind at_ : within (lifted R) (recordDelivery inc site kind at_).
Proof.
  apply within_stmt; [apply _|]. intros d [] d' E. unfold insert_alert in E. destruct (_ && _); [|done]. injection E as <-.
  frame_step. by apply filter_snoc_out.
Qed.
Lemma enqueued_hooks ws kind pl at_ : forall next r, In r (enqueue_rows ws next kind pl at_) -> exists w, In w ws /\ r.(d_webhook) = w.(w_id).
Proof.
  induction ws as [|w ws IH]; intros next r; [done|]. intros [<-|H]; [exists w; split; [by left|done]|]. destruct (IH _ _ H) as (x & ? & ?). exists x. split; [by right|done].
Qed.
Lemma filter_app_out {X} (p : X -> bool) l k : (forall x, In x k -> p x = false) -> List.filter p (l ++ k) = List.filter p l.
Proof. intros H. by rewrite List.filter_app, (filter_none p k H), app_nil_r. Qed.
Lemma frame_hooks inc kind st summary at_ : within (lifted R) (enqueueWebhooks site inc kind st summary at_).
Proof.
  apply within_exec; [apply _|]. intros d t <- [[T1 T2 T3 T4 T5 T6] Hown].
  split; [split; [by constructor|exact Hown]|]. intros B HB. pose proof (site_of_other _ B _ _ Hown HB) as Hout. unfold holdings_of. cbn in *. f_equal.
  apply filter_app_out. intros r Hr. destruct (enqueued_hooks _ _ _ _ _ _ Hr) as (w & Hw & ->). unfold webhooks_for, site_of in *.
  destruct (site_by_id site (sv_fleet t)) as [s|]; [|done]. apply filter_In in Hw as [Hw E]. bool_to_prop. unfold hook_of. cbn.
  apply not_true_iff_false. intros (x & Hx & Hb)%existsb_exists. bool_to_prop. assert (x = w) as -> by by apply (NoDup_map_inj w_id (webhooks (sv_fleet t))). congruence.
Qed.
Lemma frame_incident st summary at_ : within (lifted R) (stmt (insert_incident site st summary at_)).
Proof.
  apply within_stmt; [apply _|]. intros d a d' E. unfold insert_incident in E. destruct (site_exists site d); [|done]. injection E as _ <-.
  frame_step; [apply NoDup_map_snoc; [done|apply fresh_id_notin]|]. by apply filter_snoc_out.
Qed.
Lemma frame_incident_update f i d : (forall x, (f x).(i_id) = x.(i_id) /\ (f x).(i_site) = x.(i_site)) -> In i d.(incidents) -> i.(i_site) = site ->
  lifted R d (set_incidents (upd (fun x => x.(i_id) =? i.(i_id)) f d.(incidents)) d).
Proof.
  intros Hf Hi Hs. frame_step.
  - assert (map i_id (upd (fun x => i_id x =? i_id i) f (incidents (sv_fleet t))) = map i_id (incidents (sv_fleet t))) as ->; [|done].
    unfold upd. rewrite List.map_map. apply List.map_ext. intros x. destruct (_ =? _); [apply Hf|done].
  - apply filter_upd_out. intros x Hx E. bool_to_prop. assert (x = i) as -> by by apply (NoDup_map_inj i_id (incidents (sv_fleet t))).
    destruct (Hf i) as [_ ->]. by rewrite Hs.
Qed.
Lemma frame_open_update {B} f (k : unit -> M db B) d fl : let id := match find_last (is_open site) d.(incidents) with Some i => i.(i_id) | None => 0 end in
  id <> 0 -> (forall x, (f x).(i_id) = x.(i_id) /\ (f x).(i_site) = x.(i_site)) -> (forall u, within (lifted R) (k u)) ->
  lifted R d (bind (exec (fun x => set_incidents (upd (fun i => i.(i_id) =? id) f x.(incidents)) x)) k (d, fl)).2.1.
Proof.
  intros id Hid Hf Hk. apply bind_at; [apply _| |done]. apply exec_at; [apply _|]. unfold id in *. destruct (find_last _ _) as [i|] eqn:E; [|done].
  apply find_last_Some in E as [Hin Ho]. unfold is_open in Ho. apply frame_incident_update; [done|done|]. bool_to_prop. done.
Qed.
Lemma frame_transition prev next at_ : within (lifted R) (Transition site prev next at_).
Proof.
  unfold Transition. destruct (_ || _); [apply within_ret; apply _|]. apply within_transact; [apply _|]. unfold transition_body, openID.
  assert (forall inc kind kind' st summary (x : unit * bool), within (lifted R) (recordDelivery inc site kind at_ ;;; enqueueWebhooks site inc kind' st summary at_ ;;; ret x)) as Htell.
  { intros. apply within_bind; [apply _|apply frame_alert|]. intros _. apply within_bind; [apply _|apply frame_hooks|]. intros _. apply within_ret. apply _. }
  apply within_read; [apply _|]. intros d fl. set (id := match find_last _ _ with Some _ => _ | None => _ end).
  destruct (next =?s "healthy"); [destruct (id =? 0) eqn:E|destruct (0 <? id) eqn:E].
  - apply within_ret. apply _.
  - bool_to_prop. apply frame_open_update; [done|done|]. intros _. apply Htell.
  - bool_to_prop. apply frame_open_update; [lia|done|]. intros _. apply within_ret. apply _.
  - apply (within_bind (lifted R) (stmt (insert_incident site next (opened_summary next) at_))); [apply frame_incident|]. intros id'. apply Htell.
Qed.
Lemma frame_checked scheme_of now pr : within (lifted R) (CheckSite scheme_of site now pr).
Proof.
  unfold CheckSite. apply within_bind; [apply _|apply within_readonly; [apply _|apply readonly_query]|]. intros [[m s]|]; [|apply within_throw; apply _].
  unfold check. destruct (check_result _ _ _ _ _ _ _) as [res|] eqn:E; [|apply within_throw; apply _].
  assert (res.(c_site) = site) as Hr by (unfold check_result in E; destruct pr; [done|by injection E as <-|done|by injection E as <-|by injection E as <-]).
  assert (forall c, c.(c_site) = site -> within (lifted R) (updateHealth c)) as Hh.
  { intros c Hc. unfold updateHealth. rewrite Hc. apply within_bind; [apply _|apply within_readonly; [apply _|apply readonly_query]|]. intros row.
    destruct (next_health _ _ _ _) as [next fails]. apply within_bind; [apply _| |].
    - destruct row.
      + apply within_exec_opt; [apply _|]. intros d d' Eh. destruct (check_stored _ _); [|done]. injection Eh as <-. by apply frame_health_updated.
      + apply within_stmt; [apply _|]. intros d u d' Eh. destruct (check_stored _ _); [|done]. eapply frame_health_inserted; [|exact Eh]; done.
    - intros _. destruct (negb _); [apply frame_transition|apply within_ret; apply _]. }
  apply (within_bind_of (lifted R) (fun c => c.(c_site) = site)).
  - unfold persist. apply (within_bind_of (lifted R) (fun c => c.(c_site) = site)); [by apply frame_check| |].
    + intros [d fl] c [d' fl'] H. apply stmt_ok in H as [H _]. unfold insert_check in H. destruct (_ && _); [|done]. by injection H as <- _.
    + intros c Hc. apply within_bind; [apply _|by apply Hh|]. intros _. apply within_ret. apply _.
  - intros [d fl] c [d' fl'] H. unfold persist in H. apply bind_ok in H as (c' & d1 & fl1 & H & H2). apply stmt_ok in H as [H _].
    unfold insert_check in H. destruct (_ && _); [|done]. injection H as <- _. apply bind_ok in H2 as (u & d2 & fl2 & _ & H2). by injection H2 as <- _ _.
  - intros c Hc. destruct pr; try (apply within_ret; apply _). apply within_bind; [apply _| |intros _; apply within_ret; apply _].
    unfold persistHTTPObservation. apply within_bind; [apply _|apply within_readonly; [apply _|apply readonly_query]|]. intros exp.
    apply within_bind; [apply _|apply within_readonly; [apply _|apply readonly_ignore, readonly_query]|]. intros prev.
    apply within_stmt; [apply _|]. intros d o d' H. destruct (_ && _); [|done]. injection H as _ <-. frame_step. apply filter_snoc_out. cbn. by rewrite Hc.
Qed.
Lemma frame_expectation name required : within (lifted R) (SetHeaderExpectation site name required).
Proof.
  unfold SetHeaderExpectation. destruct (Smem _ _); [|apply within_throw; apply _]. apply within_exec_opt; [apply _|]. intros d d' E. unfold upsert_hexp in E.
  destruct (site_exists site d); [|done]. injection E as <-. frame_step. destruct (existsb _ _); [|by apply filter_snoc_out].
  apply filter_upd_out. intros x _ Hx. bool_to_prop. cbn. by subst.
Qed.

Lemma frame_name o : o.(Observe.Dns.SiteID) = site -> within (lifted R) (Observe.Dns.persist o).
Proof.
  intros Ho. apply within_stmt; [apply _|]. intros d a d' E. destruct (site_exists _ _); [|done]. injection E as _ <-.
  frame_step. apply filter_snoc_out. cbn. by rewrite Ho.
Qed.
Lemma frame_observed parse look cname str now : within (lifted R) (observe parse look cname str site now).
Proof.
  unfold observe, Observe.Dns.ObserveSite, Observe.Dns.site_url. apply within_bind; [apply _|solve_within|]. intros raw. apply within_bind; [apply _|solve_within|]. intros u.
  destruct (look _); [|by apply frame_name]. destruct (Observe.Dns.gather _ _ _ _ _) as [[x y] []]; [by apply frame_name|].
  apply within_bind; [apply _|unfold Observe.Dns.LatestSuccessful, Observe.Dns.latest_where; solve_within|]. intros prev. destruct (_ <? _); by apply frame_name.
Qed.
Lemma frame_certificate o : o.(Observe.Tls.SiteID) = site -> within (lifted R) (Observe.Tls.persist o).
Proof.
  intros Ho. apply within_stmt; [apply _|]. intros d a d' E. destruct (site_exists _ _); [|done]. injection E as _ <-.
  frame_step. apply filter_snoc_out. cbn. by rewrite Ho.
Qed.
Lemma frame_inspected {Conn} parse look str (dial : addr -> string -> result Conn) hs verify fmt now : within (lifted R) (inspect_site parse look str dial hs verify fmt site now).
Proof.
  unfold inspect_site, Observe.Tls.InspectSite, Observe.Tls.site_url. apply within_bind; [apply _|solve_within|]. intros raw. apply within_bind; [apply _|solve_within|]. intros u.
  apply frame_certificate. unfold Observe.Tls.inspect. destruct (negb _); [done|]. destruct (ValidateHost _ _ _ _); [|done]. destruct (DialContext _ _ _ _ _ _).1; [|done]. by destruct (hs _ _) as [[]|].
Qed.

Lemma property_of_filter B a pid : property_of B a pid =
  existsb (fun p => p.(Analytics.ap_id) =? pid) (List.filter (fun p => site_of B a.(Analytics.a_fleet) p.(Analytics.ap_site)) a.(Analytics.props)).
Proof.
  unfold property_of. induction (Analytics.props a) as [|p l IH]; [done|]. cbn [existsb List.filter]. rewrite IH.
  destruct (site_of B _ _) eqn:E; cbn [existsb]; [by rewrite andb_true_r|by rewrite andb_false_r].
Qed.
(** A step on the properties of the analytics. *)
Lemma frame_props a l : (forall t, t.(sv_ana) = a -> good A (Some site) t ->
    NoDup (map Analytics.ap_id l) /\ NoDup (map Analytics.ap_site l) /\
    forall B, B <> A -> let mine p := site_of B a.(Analytics.a_fleet) p.(Analytics.ap_site) in List.filter mine l = List.filter mine a.(Analytics.props)) ->
  lifted R a (Analytics.set_props l a).
Proof.
  intros H t Ht Hg. destruct (H t Ht Hg) as (H1 & H2 & H3). cbn in Ht. subst a. destruct Hg as [[T1 T2 T3 T4 T5 T6] Hown]. split; [split; [by constructor|exact Hown]|].
  intros B HB. specialize (H3 B HB). cbn in H3. assert (forall pid, property_of B (Analytics.set_props l (sv_ana t)) pid = property_of B (sv_ana t) pid) as Hp.
  { intros pid. rewrite !property_of_filter. cbn. by rewrite H3. }
  unfold holdings_of. cbn in *. f_equal; try done; apply List.filter_ext; intros x; apply Hp.
Qed.
Lemma only_property p q l : NoDup (map Analytics.ap_site l) -> In p l -> In q l -> p.(Analytics.ap_site) = q.(Analytics.ap_site) -> p = q.
Proof. apply NoDup_map_inj. Qed.
Lemma map_upd_same {X Y} (k : X -> Y) q f l : (forall x, In x l -> q x = true -> k (f x) = k x) -> map k (upd q f l) = map k l.
Proof. intros H. unfold upd. rewrite List.map_map. apply List.map_ext_in. intros x Hx. destruct (q x) eqn:E; [by apply H|done]. Qed.

Lemma frame_enable parse key now : within (lifted R) (Analytics.Enable parse site key now).
Proof.
  unfold Analytics.Enable. apply within_bind; [apply _|solve_within|]. intros [s|]; [|apply within_throw; apply _]. destruct (parse _) as [[scheme host]|]; [|apply within_throw; apply _].
  apply within_stmt; [apply _|]. intros a r a' E. destruct (find_first _ _) as [p|] eqn:Ep.
  - injection E as _ <-. apply find_first_Some in Ep as [Hp Hs]. apply frame_props. intros t <- [[T1 T2 T3 T4 T5 T6] Hown]. bool_to_prop. split_and!.
    + rewrite map_upd_same; [done|]. intros x Hx Ex. bool_to_prop. cbn. f_equal. apply (only_property p x (Analytics.props (sv_ana t))); try done. congruence.
    + rewrite map_upd_same; [done|]. intros x Hx Ex. bool_to_prop. cbn. congruence.
    + intros B HB. pose proof (site_of_other _ B _ _ Hown HB). apply filter_upd_out. intros x Hx Ex. bool_to_prop. cbn. by rewrite Ex.
  - destruct (existsb _ _); [done|]. injection E as _ <-. rewrite find_first_None in Ep. apply frame_props. intros t <- [[T1 T2 T3 T4 T5 T6] Hown]. split_and!.
    + apply NoDup_map_snoc; [done|apply fresh_id_notin].
    + apply NoDup_map_snoc; [done|]. cbn. intros (x & Ex & Hx)%in_map_iff. apply Ep in Hx. bool_to_prop. congruence.
    + intros B HB. pose proof (site_of_other _ B _ _ Hown HB). by apply filter_snoc_out.
Qed.
Lemma frame_disable : within (lifted R) (Analytics.Disable site).
Proof.
  unfold Analytics.Disable, Analytics.PropertyOf. apply within_read_or; [apply _|]. intros a fl. destruct (find_first _ _) as [p|] eqn:Ep; [|apply within_throw; apply _].
  apply find_first_Some in Ep as [Hp Hs]. apply exec_at; [apply _|]. apply frame_props. intros t <- [[T1 T2 T3 T4 T5 T6] Hown]. bool_to_prop. split_and!.
  - by rewrite map_upd_same.
  - by rewrite map_upd_same.
  - intros B HB. pose proof (site_of_other _ B _ _ Hown HB). apply filter_upd_out. intros x Hx Ex. bool_to_prop. cbn.
    assert (x = p) as -> by by apply (NoDup_map_inj Analytics.ap_id (Analytics.props (sv_ana t))). rewrite Hs. done.
Qed.
Lemma frame_goal name kind path now : within (lifted R) (Analytics.CreateGoal site name kind path now).
Proof.
  unfold Analytics.CreateGoal, Analytics.PropertyOf. destruct (_ || _); [apply within_throw; apply _|]. apply within_read_or; [apply _|]. intros a fl.
  destruct (find_first _ _) as [p|] eqn:Ep; [|apply within_throw; apply _]. apply find_first_Some in Ep as [Hp Hs]. apply stmt_at; [apply _|].
  intros g a' E. destruct (existsb _ _); [done|]. injection E as _ <-. frame_step. apply filter_snoc_out. cbn. apply not_true_iff_false.
  intros (x & Hx & Ex)%existsb_exists. bool_to_prop. assert (x = p) as -> by by apply (NoDup_map_inj Analytics.ap_id (Analytics.props (sv_ana t))). unfold sv_fleet in Hout. congruence.
Qed.
Lemma frame_history on_ : within (lifted R) (Audits.SetHistory site on_).
Proof.
  apply within_exec_opt; [apply _|]. intros d d' E. destruct (site_exists _ _); [|done]. injection E as <-. frame_step. cbn. rewrite Hout.
  apply filter_del_out. intros [x h] _ Ex. bool_to_prop. cbn in *. by subst.
Qed.
Lemma frame_deployment ok fmt e now : e.(Deployments.SiteID) = site -> within (lifted R) (Deployments.Record_ ok fmt e now).
Proof.
  intros He. unfold Deployments.Record_. destruct (_ || _); [apply within_throw; apply _|]. destruct (_ && _); [apply within_throw; apply _|].
  set (e' := Deployments.mk_event _ _ _ _ _ _ _ _ _ _ _). assert (e'.(Deployments.SiteID) = site) as He' by done. apply within_bind; [apply _| |intros id; apply within_ret; apply _].
  apply within_stmt; [apply _|]. intros d id d' E. unfold Deployments.upsert_event in E. destruct (negb _); [done|]. destruct (find_first _ _) as [x|].
  - injection E as _ <-. frame_step. apply filter_upd_out. intros y _ Hy. apply andb_true_iff in Hy as [[[_ Hy]%andb_true_iff _]%andb_true_iff _]. apply Z.eqb_eq in Hy. cbn in *. assert (Deployments.SiteID y = site) as -> by congruence. done.
  - injection E as _ <-. frame_step. apply filter_snoc_out. cbn. by rewrite He.
Qed.
End Frames.

(** *** The requests *)

Section Requests.
Context (A : Z).
Lemma lifted_fleet site d d' : site_of A d site = true -> lifted (T := server) (apart A (Some site)) d d' -> lifted (T := server) (apart A None) d d'.
Proof. intros Hs H t Ht [Hg _]. destruct (H t Ht) as [[Hg' _] Hh]; [split; [done|]|by split]. cbn in Ht. by rewrite Ht. Qed.
Lemma frame_acknowledge id now : within (lifted (T := server) (apart A None)) (Acknowledge A id now).
Proof.
  unfold Acknowledge. apply within_read_or; [apply _|]. intros d fl. set (l := List.filter _ _). destruct l as [|i l'] eqn:El; [apply within_throw; apply _|].
  assert (In i l) as [Hi E]%filter_In by (rewrite El; by left). apply andb_true_iff in E as [Ei Es]. apply Z.eqb_eq in Ei. subst id.
  apply exec_at; [apply _|]. apply (lifted_fleet i.(i_site)); [exact Es|]. by apply frame_incident_update.
Qed.
Lemma frame_webhook parse look str name url secret now : within (lifted (T := server) (apart A None)) (Notifications.Create parse look str A name url secret now).
Proof.
  unfold Notifications.Create. destruct (parse url) as [[[scheme host] hostname]|]; [|apply within_throw; apply _]. destruct (_ || _); [apply within_throw; apply _|].
  destruct (ValidateHost _ _ _ _); [|apply within_throw; apply _]. apply within_bind; [apply _| |intros id; apply within_ret; apply _].
  apply within_stmt; [apply _|]. intros d id d' E. destruct (org_exists _ _); [|done]. injection E as _ <-.
  intros t <- [[T1 T2 T3 T4 T5 T6] _]. split; [split; [|done]; constructor; cbn in *; try done; apply NoDup_map_snoc; [done|apply fresh_id_notin]|].
  intros B HB. assert ((A =? B) = false) as Ho by (apply Z.eqb_neq; lia). unfold holdings_of. cbn in *. f_equal; [by apply filter_snoc_out|].
  apply List.filter_ext. intros r. unfold hook_of. cbn. rewrite existsb_app. cbn. by rewrite Ho, andb_false_r, !orb_false_r.
Qed.

Context {site : option Z}.
Abbreviation R := (apart A site).
Lemma within_or_refuse {S X} `{Part S server} (m : M S X) status msg k : within (lifted R) m -> (forall x, within R (k x)) -> within R (or_refuse m status msg k).
Proof.
  intros Hm Hk. unfold or_refuse. apply within_bind; [apply _|by apply attempt_within, within_on|]. intros [x|e]; [apply Hk|apply within_ret; apply _].
Qed.
Lemma within_decoded {X} (b : option X) k : (forall x, within R (k x)) -> within R (decoded b k).
Proof. intros Hk. destruct b; [apply Hk|apply within_ret; apply _]. Qed.
Lemma within_at_site p v k : p.(pr_org) = A -> (forall id, within (apart A (Some id)) (k id)) -> within (apart A None) (at_site p v k).
Proof.
  intros Hp Hk. unfold at_site. destruct (ParseID _) as [id|e]; [|apply within_ret; apply _]. intros s fl [Hs _].
  unfold or_refuse, bind, attempt, on. destruct (GetForOrg (pr_org p) id (part s, fl)) as [r [d fl']] eqn:E. pose proof (GetForOrg_readonly _ _ _ _ _ _ _ E) as ->.
  rewrite with_same. destruct r as [x|e]; [|by split]. assert (site_of A (sv_fleet s) id = true) as Ho.
  { unfold GetForOrg in E. apply bind_ok in E as (q & d1 & fl1 & (-> & -> & _)%or_fail_ok%query_ok & E). destruct (find_first _ _) as [y|] eqn:Ey; [|done].
    apply find_first_Some in Ey as [Hy Ey]. bool_to_prop. unfold site_of, site_by_id. destruct (find_first (fun z => s_id z =? id) (sites (sv_fleet s))) as [z|] eqn:Ez.
    - apply find_first_Some in Ez as [Hz Ez]. bool_to_prop. assert (z = y) as ->; [|apply Z.eqb_eq; congruence].
      apply (NoDup_map_inj s_id (sites (sv_fleet s))); try done; [by destruct Hs|congruence].
    - rewrite find_first_None in Ez. apply Ez in Hy. bool_to_prop. done. }
  destruct (Hk id s fl') as [[Hg _] Hh]; [done|]. by split.
Qed.
End Requests.

(** The services' reads. *)
Ltac solve_reads :=
  repeat (intros; first
    [ apply readonly_ret | apply readonly_throw | apply readonly_query | apply readonly_bind | apply readonly_or_fail | apply readonly_ignore | apply attempt_readonly
    | match goal with
      | |- readonly (match ?x with _ => _ end) => destruct x
      | |- readonly (lift ?x) => destruct x; cbn [lift]
      end ]).

Section Reads.
Context (site org : Z).
Lemma goals_read : readonly (Analytics.Goals site).
Proof. unfold Analytics.Goals, Analytics.PropertyOf. solve_reads. Qed.
Lemma summary_read days now : readonly (Analytics.SummaryOf site days now).
Proof. unfold Analytics.SummaryOf, Analytics.PropertyOf. solve_reads. Qed.
Lemma property_read : readonly (Analytics.PropertyOf site).
Proof. unfold Analytics.PropertyOf. solve_reads. Qed.
Lemma pages_read days page size now : readonly (Analytics.Pages site days page size now).
Proof. unfold Analytics.Pages, Analytics.PropertyOf. solve_reads. Qed.
Lemma countries_read days page size now : readonly (Analytics.Countries site days page size now).
Proof. unfold Analytics.Countries, Analytics.PropertyOf. solve_reads. Qed.
Lemma traffic_read days now : readonly (Analytics.Fleet org days now).
Proof. unfold Analytics.Fleet. solve_reads. Qed.
Lemma audits_read : readonly (Audits.History site).
Proof. unfold Audits.History. solve_reads. Qed.
Lemma setting_read : readonly (Audits.HistoryEnabled site).
Proof. unfold Audits.HistoryEnabled. solve_reads. Qed.
Lemma batch_read compile f : readonly (Audits.ResolveBatch compile org f).
Proof. unfold Audits.ResolveBatch. solve_reads. Qed.
Lemma crawl_read : readonly (Crawler.LatestDetail site).
Proof. unfold Crawler.LatestDetail, Crawler.Latest, Crawler.DetailOf. solve_reads. Qed.
Lemma regressions_read : readonly (Crawler.FleetRegressions org).
Proof. unfold Crawler.FleetRegressions. solve_reads. Qed.
Lemma http_read : readonly (HTTPHistory site).
Proof. unfold HTTPHistory. solve_reads. Qed.
Lemma expectations_read : readonly (HeaderExpectations site).
Proof. unfold HeaderExpectations. solve_reads. Qed.
Lemma names_read : readonly (Observe.Dns.History site).
Proof. unfold Observe.Dns.History. solve_reads. Qed.
Lemma certificate_read : readonly (Observe.Tls.Latest site).
Proof. unfold Observe.Tls.Latest. solve_reads. Qed.
Lemma warnings_read days : readonly (Observe.Tls.FleetWarnings org days).
Proof. unfold Observe.Tls.FleetWarnings. solve_reads. Qed.
Lemma checks_read limit : readonly (Recent site limit).
Proof. unfold Recent. solve_reads. Qed.
Lemma performance_read limit : readonly (Performance.ForSite site limit).
Proof. unfold Performance.ForSite. solve_reads. Qed.
Lemma incidents_read : readonly (Incidents.List_ site).
Proof. unfold Incidents.List_. solve_reads. Qed.
Lemma deployments_read : readonly (Deployments.History site).
Proof. unfold Deployments.History. solve_reads. Qed.
Lemma correlation_read fmt : readonly (Deployments.Correlate fmt site).
Proof. unfold Deployments.Correlate, Deployments.History. solve_reads. Qed.
Lemma fleet_read : readonly (Fleet.SummaryFor org).
Proof. unfold Fleet.SummaryFor, Sites.List_, Sites.paged. solve_reads. Qed.
Lemma hooks_read : readonly (Notifications.List_ org).
Proof. unfold Notifications.List_. solve_reads. Qed.
Lemma deliveries_read : readonly (Notifications.History org).
Proof. unfold Notifications.History. solve_reads. Qed.
End Reads.
Create HintDb frames.
#[export] Hint Resolve goals_read summary_read property_read pages_read countries_read traffic_read audits_read setting_read batch_read crawl_read regressions_read
  http_read expectations_read names_read certificate_read warnings_read checks_read performance_read incidents_read deployments_read correlation_read fleet_read
  hooks_read deliveries_read GetForOrg_readonly : frames.
#[export] Hint Resolve frame_checked frame_expectation frame_observed frame_inspected frame_enable frame_disable frame_goal frame_history frame_acknowledge frame_webhook : frames.
#[export] Hint Extern 3 (within _ _) => (apply within_readonly; [apply _|]) : frames.

Lemma with_sites_read org runs : readonly (with_sites org runs).
Proof.
  induction runs as [|x runs IH]; [apply readonly_ret|]. cbn [with_sites]. apply readonly_bind; [by apply attempt_readonly, on_readonly, GetForOrg_readonly|].
  intros s. apply readonly_bind; [exact IH|]. intros rest. apply readonly_ret.
Qed.
#[export] Hint Resolve with_sites_read : frames.

Ltac solve_serve :=
  repeat (intros; first
    [ apply within_decoded | apply within_or_refuse | apply within_ret; apply _
    | match goal with
      | |- within _ (match ?x with _ => _ end) => destruct x
      | |- within _ (or_else _ _) => apply within_ignore, within_on
      | |- within _ (bind _ _) => apply within_bind; [apply _| |]
      | |- within _ (attempt (on _)) => apply attempt_within, within_on
      | |- within _ (Analytics.act _) => apply within_act
      end ]);
  eauto with frames.

Lemma answers_of serving q p v w r w' : serving q p v w = (r, w') -> answers serving (Asks q) p v w r w'.
Proof. intros H. pose proof (answers_request serving q p v w) as A. by rewrite H in A. Qed.

Section Serving.
Context (parse_origin : string -> option (string * string)) (parse_location : string -> result Observe.location) (parse_webhook : string -> option (string * string * string))
  (scheme_of : string -> option string) (LookupNetIP : string -> result (list addr)) (LookupCNAME : string -> result string) (addr_string : addr -> string)
  {Conn : Type} (dial : addr -> string -> result Conn) (handshake : Conn -> string -> result (list Observe.Tls.certificate))
  (VerifyHostname : Observe.Tls.certificate -> string -> bool) (FormatSeconds : Z -> string) (is_time : string -> bool) (Format : Z -> string)
  (Compile : string -> result (string -> bool)) (PublicURL : string) (countries : option (string * Z)).
Abbreviation site_served := (serve_site parse_origin parse_location scheme_of LookupNetIP LookupCNAME addr_string dial handshake VerifyHostname FormatSeconds is_time Format PublicURL countries).
Abbreviation fleet_served := (serve_fleet parse_webhook LookupNetIP addr_string Compile).
Abbreviation serving := (serve parse_origin parse_location parse_webhook scheme_of LookupNetIP LookupCNAME addr_string dial handshake VerifyHostname FormatSeconds is_time Format Compile PublicURL countries).

Lemma start_job_apart A site k : (forall s, sv_fleet (k s) = sv_fleet s /\ sv_ana (k s) = sv_ana s /\ sv_runs (k s) = sv_runs s /\ (forall B, holdings_of B (k s) = holdings_of B s)) -> forall s, apart A site s (k s).
Proof.
  intros H s [[T1 T2 T3 T4 T5 T6] Hs]. destruct (H s) as (E1 & E2 & E4 & E3). split; [|by intros B _; apply E3]. split; [constructor; by rewrite ?E1, ?E2, ?E4|by rewrite E1].
Qed.
Lemma claim_step A site (f : server -> bool * gset Z) k : (forall infl s, sv_ana (k infl s) = sv_ana s /\ sv_runs (k infl s) = sv_runs s /\ (forall B, holdings_of B (k infl s) = holdings_of B s)) ->
  forall s, apart A site s (let '(ok, infl) := f s in (ok, if ok then k infl s else s)).2.
Proof.
  intros H s. destruct (f s) as [[] infl]; [|done]. cbn. apply (start_job_apart A site (k infl)). intros t. destruct (H infl t) as (E1 & E2 & E3). unfold sv_fleet. by rewrite E1.
Qed.
Lemma site_request_apart q p v : within (apart p.(pr_org) None) (site_served q p v).
Proof.
  destruct q; (apply within_at_site; [done|]); intros id; solve_serve.
  - by apply (claim_step _ _ (fun s => Audits.Claim id (sv_auditing s)) (fun infl => start_audit infl id)).
  - by apply (claim_step _ _ (fun s => Crawler.Claim id (sv_crawling s)) (fun infl => start_crawl infl id)).
  - by apply frame_deployment.
Qed.
Lemma retention_read {X} A (m : M Analytics.adb X) : readonly m -> within (apart A None) (on_retention m).
Proof.
  intros Hm s fl Hs. unfold on_retention. destruct (m _) as [r [d fl']] eqn:E. apply Hm in E. subst d. cbn [fst snd].
  rewrite List.forallb_filter_id. 2: { apply forallb_forall. intros x Hx. apply bool_decide_eq_true_2, list_elem_of_In, in_map_iff. by exists x. }
  destruct Hs as [[T1 T2 T3 T4 T5 T6] _]. split; [by split|done].
Qed.
Lemma fleet_request_apart q p v : q <> RunMaintenance -> within (apart p.(pr_org) None) (fleet_served q p v).
Proof.
  intros Hq. destruct q; try done; unfold fleet_served, handleFleetAnalytics, handleResolveAudits, handleFleetLinkRegressions, handleFleetTLS, handleAckIncident, handleFleet, handleWebhooks, handleWebhookCreate,
    handleNotificationDeliveries, handleGeoUpdate, handleMaintenance, handleMaintenanceUpdate; solve_serve.
  - intros s. by apply (start_job_apart _ _ start_countries).
  - apply attempt_within, retention_read. unfold Analytics.StatusOf, Analytics.Settings. solve_reads.
  - unfold Analytics.Set_. destruct (_ || _); [apply within_throw; apply _|]. apply within_exec; [apply _|]. intros d t <- [[T1 T2 T3 T4 T5 T6] _]. by split; [split; [constructor|]|].
Qed.
Lemma owned_site org ids d id : NoDup (map s_id d.(Audits.ud_fleet).(sites)) -> In id (Audits.owned org ids d) -> site_of org d.(Audits.ud_fleet) id = true.
Proof.
  intros Hn (x & <- & Hx)%in_map_iff. apply filter_In in Hx as [Hx E]. bool_to_prop. unfold site_of, site_by_id. destruct (find_first _ _) as [y|] eqn:Ey.
  - apply find_first_Some in Ey as [Hy Ey]. bool_to_prop. assert (y = x) as -> by by apply (NoDup_map_inj s_id (sites (Audits.ud_fleet d))). by apply Z.eqb_eq.
  - rewrite find_first_None in Ey. apply Ey in Hx. by rewrite Z.eqb_refl in Hx.
Qed.
Lemma batch_apart p b w a w' : handleBatchAudits p b w a w' -> apart p.(pr_org) None w.1 w'.1.
Proof.
  intros [ | |s fl ids d fl' out _ _ H]; [done|done|]. cbn [fst]. intros [[T1 T2 T3 T4 T5 T6] _].
  inversion H as [w0 mine [d1 fl1] ps w2 out' Hf Hr _]; subst.
  assert (d1 = part s /\ (mine = [] \/ mine = Audits.owned p.(pr_org) ids (part s))) as [-> Hmine].
  { unfold Audits.filterOwned, ignore, query, stmt in Hf. destruct ids; [by injection Hf as <- <- _; auto|]. destruct fl as [|[] fl]; injection Hf as <- <- _; auto. }
  assert (map fst (Audits.batch_start mine) = mine) as Hfst by (unfold Audits.batch_start; rewrite List.map_map; apply map_id).
  assert (forall id, In id mine -> site_of p.(pr_org) (sv_fleet s) id = true) as Hown.
  { intros id Hid. destruct Hmine as [->| ->]; [done|]. exact (owned_site p.(pr_org) ids (part s) id T1 Hid). }
  destruct (Audits.batch_confined _ _ Hr) as (_ & [Hd _] & [F1 F2] & Hq).
  { split; [exact T6|]. cbn [snd]. rewrite Hfst. split; [destruct Hmine as [->| ->]; [constructor|exact (Audits.NoDup_owned p.(pr_org) ids (part s) T1)]|].
    intros i x Hx row Hrow. unfold Audits.batch_start in Hx. rewrite list_lookup_fmap in Hx. destruct (mine !! i); [|done]. by injection Hx as <-. }
  cbn in Hq, F1, F2, Hd. destruct d as [fleet runs settings]. cbn in *. subst fleet settings. destruct s as [[]]. cbn in *.
  split; [by split|]. intros B HB. unfold holdings_of. cbn. f_equal. apply (Hq (fun id => site_of B _ id)). intros id Hid. rewrite Hfst in Hid.
  eapply site_of_other; [by apply Hown|done].
Qed.
(** A site of another organization, and one that is not there. *)
Lemma absent_site p v k s fl id : ParseID v.(vi_id) = Ok id -> find_first (own p.(pr_org) id) (sv_fleet s).(sites) = None ->
  exists fl', at_site p v k (s, fl) = (Ok (refused 404 "site not found"), (s, fl')).
Proof.
  intros Hv Hn. unfold at_site. rewrite Hv. unfold or_refuse, bind, attempt, on. destruct (GetForOrg_none (pr_org p) id (sv_fleet s) fl Hn) as [fl' E]. exists fl'. cbn. rewrite E. by destruct s as [[]].
Qed.

Lemma absent_served q p v s fl id : ParseID v.(vi_id) = Ok id -> find_first (own p.(pr_org) id) (sv_fleet s).(sites) = None ->
  exists fl', site_served q p v (s, fl) = (Ok (refused 404 "site not found"), (s, fl')).
Proof. intros Hv Hn. destruct q; by apply (absent_site p v _ s fl id). Qed.

(** C6: organizations do not get in each other's way: whatever a member of one asks of
    the routes of the checks, audits and their batches, crawls, names, certificates,
    analytics, incidents, deployments, webhooks, retention settings and the fleet, and
    whatever the database refuses, the rows of every other organization, of any table,
    stay as they were; and a site of another organization is to them like a site that
    does not exist, with the same answer and nothing changed.  The run of the
    retention, which is for the whole instance, is left out. *)
Theorem tenants_are_separate q p v s fl r s' fl' : answers serving q p v (s, fl) r (s', fl') -> q <> Asks (ForFleet RunMaintenance) -> tidy s ->
  tidy s' /\ (forall B, B <> p.(pr_org) -> holdings_of B s' = holdings_of B s) /\
  (forall x id, q = Asks (ForSite x) -> ParseID v.(vi_id) = Ok id -> (forall y, In y (sv_fleet s).(sites) -> y.(s_id) = id -> y.(s_org) <> p.(pr_org)) ->
     r = Ok (refused 404 "site not found") /\ s' = s).
Proof.
  intros H Hq Hs. assert (apart p.(pr_org) None s s') as Ha.
  { inversion H as [q' p' v' w E1 E2 E3 E4 E5 E6|b p' v' w a w' Hb]; subst; [|by apply batch_apart in Hb]. apply (f_equal (fun w => w.1)) in E6. cbn [fst] in E6. rewrite <- E6.
    destruct q' as [x|x]; [apply site_request_apart|apply fleet_request_apart]. intros ->. done. }
  destruct Ha as [[Ht _] Hh]; [done|]. split; [done|]. split; [done|]. intros x id -> Hv Hother.
  assert (find_first (own p.(pr_org) id) (sv_fleet s).(sites) = None) as Hn.
  { rewrite find_first_None. intros y Hy. unfold own. destruct (s_id y =? id) eqn:E; [|done]. bool_to_prop. apply Z.eqb_neq. by apply Hother. }
  destruct (absent_served x p v s fl id Hv Hn) as [fl1 E]. inversion H as [q' p' v' w E1 E2 E3 E4 E5 E6|]; subst. cbn [serve] in *. rewrite E in *. by injection E6 as <- _.
Qed.

End Serving.

(** *** The jobs *)

(** The sites of the audits and of the crawls that run, and the claims. *)
Definition exclusive (s : server) : Prop :=
  NoDup (List.filter (fun j => match j with JCountries => false | _ => true end) s.(sv_jobs)) /\
  (forall site, In (JAudit site) s.(sv_jobs) <-> site ∈ s.(sv_auditing)) /\ (forall site, In (JCrawl site) s.(sv_jobs) <-> site ∈ s.(sv_crawling)).
Definition stays_exclusive (s s' : server) : Prop := exclusive s -> exclusive s'.
#[local] Instance stays_exclusive_refl : Reflexive stays_exclusive.
Proof. intros s H. exact H. Qed.
#[local] Instance stays_exclusive_trans : Transitive stays_exclusive.
Proof. intros a b c H1 H2 H. exact (H2 (H1 H)). Qed.
Lemma same_jobs_exclusive s s' : same_jobs s s' -> stays_exclusive s s'.
Proof. intros (E1 & E2 & E3). unfold stays_exclusive, exclusive. by rewrite E1, E2, E3. Qed.
Lemma jobs_on {S X} `{Part S server} (m : M S X) : (forall y t, same_jobs t (with_part y t)) -> within stays_exclusive (on m).
Proof. intros Hk t fl. unfold on. destruct (m (part t, fl)) as [r [y f]]. apply same_jobs_exclusive, Hk. Qed.
Lemma jobs_or_refuse {S X} `{Part S server} (m : M S X) status msg k :
  (forall y t, same_jobs t (with_part y t)) -> (forall x, within stays_exclusive (k x)) -> within stays_exclusive (or_refuse m status msg k).
Proof.
  intros Hp Hk. unfold or_refuse. apply within_bind; [apply _|by apply attempt_within, jobs_on|]. intros [x|e]; [apply Hk|apply within_ret; apply _].
Qed.
Ltac solve_jobs :=
  repeat (intros; first
    [ apply jobs_or_refuse; [done|] | apply within_ret; apply _
    | match goal with
      | |- within _ (match ?x with _ => _ end) => destruct x
      | |- within _ (decoded ?b _) => destruct b; cbn [decoded]
      | |- within _ (at_site _ _ _) => unfold at_site
      | |- within _ (or_else _ _) => apply within_ignore, jobs_on; done
      | |- within _ (bind _ _) => apply within_bind; [apply _| |]
      | |- within _ (attempt (on _)) => apply attempt_within, jobs_on; done
      | |- within _ (with_sites _ _) => apply within_readonly; [apply _|apply with_sites_read]
      | |- within _ (Analytics.act _) => apply within_act
      end ]).
Lemma started_audit site s : exclusive s -> site ∉ s.(sv_auditing) -> exclusive (start_audit ({[site]} ∪ s.(sv_auditing)) site s).
Proof.
  intros (H1 & H2 & H3) Hn. unfold exclusive. cbn. split_and!.
  - rewrite List.filter_app. cbn. apply NoDup_app. split_and!; [done| |apply NoDup_singleton]. intros x Hx Hy. apply list_elem_of_singleton in Hy as ->.
    apply list_elem_of_In, filter_In in Hx as [Hx _]. by apply H2 in Hx.
  - intros x. rewrite in_app_iff, H2. cbn. split; [intros [?|[[= ->]|[]]]; set_solver|]. intros [->%elem_of_singleton|?]%elem_of_union; auto.
  - intros x. rewrite in_app_iff, H3. cbn. split; [by intros [?|[?|[]]]|auto].
Qed.
Lemma started_crawl site s : exclusive s -> site ∉ s.(sv_crawling) -> exclusive (start_crawl ({[site]} ∪ s.(sv_crawling)) site s).
Proof.
  intros (H1 & H2 & H3) Hn. unfold exclusive. cbn. split_and!.
  - rewrite List.filter_app. cbn. apply NoDup_app. split_and!; [done| |apply NoDup_singleton]. intros x Hx Hy. apply list_elem_of_singleton in Hy as ->.
    apply list_elem_of_In, filter_In in Hx as [Hx _]. by apply H3 in Hx.
  - intros x. rewrite in_app_iff, H2. cbn. split; [by intros [?|[?|[]]]|auto].
  - intros x. rewrite in_app_iff, H3. cbn. split; [intros [?|[[= ->]|[]]]; set_solver|]. intros [->%elem_of_singleton|?]%elem_of_union; auto.
Qed.

Lemma drop_job_in j l x : In x (drop_job j l) -> In x l.
Proof. induction l as [|y l IH]; [done|]. cbn. case_decide; [by right|]. intros [->|Hi]; [by left|right; auto]. Qed.
Lemma drop_job_other j l x : x <> j -> In x l -> In x (drop_job j l).
Proof. intros Hx. induction l as [|y l IH]; [done|]. cbn. case_decide; intros [->|Hi]; try done; [by left|right; auto]. Qed.
Lemma drop_job_filter (P : job -> bool) j l : P j = true -> NoDup (List.filter P l) -> NoDup (List.filter P (drop_job j l)) /\ ~ In j (drop_job j l).
Proof.
  intros Hj. induction l as [|y l IH]; cbn; [by split; [|intros []]|]. intros Hn. case_decide as E.
  - subst. rewrite Hj in Hn. apply NoDup_cons in Hn as [Hy Hn]. split; [done|]. intros Hi. apply Hy, list_elem_of_In, filter_In. done.
  - destruct (P y) eqn:Ey; cbn; rewrite ?Ey.
    + apply NoDup_cons in Hn as [Hy Hn]. destruct (IH Hn) as [H1 H2]. split; [|by intros [?|?]]. apply NoDup_cons. split; [|done].
      intros Hi. apply Hy. apply list_elem_of_In in Hi. apply list_elem_of_In. apply filter_In in Hi as [Hi _]. apply filter_In. split; [by eapply drop_job_in|done].
    + destruct (IH Hn) as [H1 H2]. split; [done|by intros [?|?]].
Qed.
Lemma filter_counted (P : job -> bool) j l : P j = true -> NoDup (List.filter P l) -> count (fun x => bool_decide (x = j)) l <= 1.
Proof.
  intros Hj. assert (~ In j l -> count (fun x => bool_decide (x = j)) l = 0) as H0.
  { intros Hn. unfold count. rewrite filter_none; [done|]. intros x Hx. apply bool_decide_eq_false. by intros ->. }
  revert H0. induction l as [|x l IH]; intros H0 Hn; [done|]. rewrite count_cons. cbn in Hn. assert (~ In j l -> count (fun x => bool_decide (x = j)) l = 0) as H0'.
  { intros Hl. unfold count. rewrite filter_none; [done|]. intros y Hy. apply bool_decide_eq_false. by intros ->. }
  case_bool_decide as E.
  - subst. rewrite Hj in Hn. apply NoDup_cons in Hn as [Hx _]. rewrite H0'; [lia|]. intros Hl. apply Hx, list_elem_of_In, filter_In. done.
  - assert (NoDup (List.filter P l)) as Hl by (destruct (P x); [by apply NoDup_cons in Hn as [_ ?]|done]). specialize (IH H0' Hl). lia.
Qed.
Lemma drop_job_countries l : List.filter (fun j => match j with JCountries => false | _ => true end) (drop_job JCountries l) = List.filter (fun j => match j with JCountries => false | _ => true end) l.
Proof. induction l as [|y l IH]; [done|]. cbn. case_decide; [by subst|]. cbn. by rewrite IH. Qed.
Lemma ended_exclusive j s : exclusive s -> exclusive (end_job j s).
Proof.
  intros (H1 & H2 & H3). unfold exclusive, end_job, Audits.Release, Crawler.Release. destruct j as [site|site|]; cbn.
  - destruct (drop_job_filter _ (JAudit site) _ eq_refl H1) as [G1 G2]. split_and!; [done| |].
    + intros x. destruct (decide (x = site)) as [->|Hx]; [set_solver|]. rewrite elem_of_difference, elem_of_singleton, <- H2. split; [intros Hi; split; [by eapply drop_job_in|done]|].
      intros [Hi _]. apply drop_job_other; [congruence|done].
    + intros x. rewrite <- H3. split; [apply drop_job_in|by apply drop_job_other].
  - destruct (drop_job_filter _ (JCrawl site) _ eq_refl H1) as [G1 G2]. split_and!; [done| |].
    + intros x. rewrite <- H2. split; [apply drop_job_in|by apply drop_job_other].
    + intros x. destruct (decide (x = site)) as [->|Hx]; [set_solver|]. rewrite elem_of_difference, elem_of_singleton, <- H3. split; [intros Hi; split; [by eapply drop_job_in|done]|].
      intros [Hi _]. apply drop_job_other; [congruence|done].
  - split_and!; [by rewrite drop_job_countries| |]; intros x; [rewrite <- H2|rewrite <- H3]; (split; [apply drop_job_in|by apply drop_job_other]).
Qed.

Section Jobs.
Context (parse_origin : string -> option (string * string)) (parse_location : string -> result Observe.location) (parse_webhook : string -> option (string * string * string))
  (scheme_of : string -> option string) (LookupNetIP : string -> result (list addr)) (LookupCNAME : string -> result string) (addr_string : addr -> string)
  {Conn : Type} (dial : addr -> string -> result Conn) (handshake : Conn -> string -> result (list Observe.Tls.certificate))
  (VerifyHostname : Observe.Tls.certificate -> string -> bool) (FormatSeconds : Z -> string) (is_time : string -> bool) (Format : Z -> string)
  (Compile : string -> result (string -> bool)) (PublicURL : string) (countries : option (string * Z)).
Abbreviation site_served := (serve_site parse_origin parse_location scheme_of LookupNetIP LookupCNAME addr_string dial handshake VerifyHostname FormatSeconds is_time Format PublicURL countries).
Abbreviation fleet_served := (serve_fleet parse_webhook LookupNetIP addr_string Compile).
Abbreviation serving := (serve parse_origin parse_location parse_webhook scheme_of LookupNetIP LookupCNAME addr_string dial handshake VerifyHostname FormatSeconds is_time Format Compile PublicURL countries).


Lemma retention_jobs {X} (m : M Analytics.adb X) : within stays_exclusive (on_retention m).
Proof. intros s fl. unfold on_retention. destruct (m _) as [r [d fl']]. by apply same_jobs_exclusive. Qed.
Lemma started_countries s : exclusive s -> exclusive (start_countries s).
Proof.
  intros (G1 & G2 & G3). unfold exclusive. cbn. rewrite List.filter_app, app_nil_r.
  split_and!; [done| |]; intros x; rewrite in_app_iff; [rewrite <- G2|rewrite <- G3]; cbn; (split; [by intros [?|[?|[]]]|auto]).
Qed.
Lemma request_exclusive q p v : within stays_exclusive (serving q p v).
Proof.
  destruct q as [q|q]; destruct q; cbn [serve serve_site serve_fleet];
    unfold handleAnalyticsGoals, handleCreateAnalyticsGoal, handleAnalyticsSummary, handleAnalyticsProperty, handleEnableAnalytics, handleDisableAnalytics, handleAnalyticsPages,
      handleAnalyticsCountries, handleAudit, handleRunAudit, handleAuditHistorySetting, handleSiteCrawl, handleCrawlSite, handleHTTPObservations, handleHeaderExpectations,
      handleHeaderExpectationUpdate, handleSiteDNS, handleObserveDNS, handleSiteTLS, handleInspectTLS, handleCheckSite, handleSiteChecks, handleSitePerformance, handleSiteIncidents,
      handleDeployments, handleDeploymentRecord, handleDeploymentCorrelation, handleFleetAnalytics, handleResolveAudits, handleFleetLinkRegressions, handleFleetTLS, handleAckIncident,
      handleFleet, handleWebhooks, handleWebhookCreate, handleNotificationDeliveries, handleGeoUpdate, handleMaintenance, handleMaintenanceUpdate, handleMaintenanceRun; solve_jobs.
  - intros w. unfold Audits.Claim. case_bool_decide as E; cbn; intros Hs; [exact Hs|by apply started_audit].
  - intros w. unfold Crawler.Claim. case_bool_decide as E; cbn; intros Hs; [exact Hs|by apply started_crawl].
  - intros w. exact (started_countries w).
  - apply attempt_within, retention_jobs.
  - apply attempt_within, retention_jobs.
Qed.
Lemma answers_exclusive q p v w r w' : answers serving q p v w r w' -> stays_exclusive w.1 w'.1.
Proof.
  intros [q' p' v' [s fl]|b p' v' w0 a w1 Hb]; [apply request_exclusive|]. destruct Hb as [| |s fl ids d fl' out _ _ _]; [done|done|]. by apply same_jobs_exclusive.
Qed.
(** C7: of the audits and crawls that the routes of a site start, no two of one site run
    at the same time, in whatever order requests come, jobs end and the tables change;
    and once those of a site have ended a new one is let in.  A batch of audits is one of
    the requests: it neither looks at the claims nor takes one, so its audits can run
    beside the one of a site. *)
Theorem jobs_are_exclusive s s' : rtc (happens serving) s s' -> exclusive s ->
  (forall j site, j = JAudit site \/ j = JCrawl site -> (count (fun x => bool_decide (x = j)) s'.(sv_jobs) <= 1)) /\
  (forall site, ~ In (JAudit site) s'.(sv_jobs) -> (Audits.Claim site s'.(sv_auditing)).1 = true) /\
  (forall site, ~ In (JCrawl site) s'.(sv_jobs) -> (Crawler.Claim site s'.(sv_crawling)).1 = true).
Proof.
  intros H Hs. assert (exclusive s') as (H1 & H2 & H3).
  { induction H as [|a b c Hab _ IH]; [done|]. apply IH. destruct Hab as [q p v a fl r b fl' E|a b Hj|j a _].
    - apply answers_exclusive in E. by apply E.
    - by apply (same_jobs_exclusive a).
    - by apply ended_exclusive. }
  split_and!.
  - intros j site Hj. apply (filter_counted _ j _) in H1; [done|]. by destruct Hj as [->| ->].
  - intros site Hn. unfold Audits.Claim. case_bool_decide as E; [|done]. by apply H2 in E.
  - intros site Hn. unfold Crawler.Claim. case_bool_decide as E; [|done]. by apply H3 in E.
Qed.
End Jobs.

(** ** Witnesses *)

(** Two organizations with a site each; the site of the first is found down. *)
Definition two_tenants : server :=
  let site i org := mk_site i org "a" "https://a.example" true None None 0 0 None in
  let d := set_healths [mk_health 2 "down" 3 None 0 None None] (set_incidents [mk_incident 1 2 "down" "Website entered down state" 5 None None]
    (set_webhooks [mk_webhook 1 1 "a" "https://hooks.example" "s" true 0; mk_webhook 2 2 "b" "https://hooks.example" "s" true 0]
    (set_monitors [mk_monitor 1 1 "http" 60 10 200 399; mk_monitor 2 2 "http" 60 10 200 399] (set_sites [site 1 1; site 2 2] (set_orgs [1; 2] empty_db))))) in
  mk_server (Analytics.mk_adb d [] [] [] [] [] [] [] (Analytics.mk_retention 90 90 90) (newRateLimiter 0 0 0) (newRateLimiter 0 0 0)) [] [] [] [] [] [] [] [] ∅ ∅ [].
Definition no_dial (_ : addr) (_ : string) : result unit := Err "unreachable".
Abbreviation demo_serve := (serve (fun _ => None) (fun _ => Err "no") (fun _ => None) (fun _ => Some "https") (fun _ => Err "no such host") (fun _ => Err "no such host") (fun _ => "")
    no_dial (fun _ _ => Err "no") (fun _ _ => false) (fun _ => "") (fun _ => true) (fun _ => "") (fun _ => Err "no") "" None).
Definition member_of (org : Z) : principal := mk_principal 7 "a@example.org" "" org "operator".
Definition failing_check : request := ForSite (PostCheck (PFailed 10 false "connection refused")).
Definition tenants_after : server := (demo_serve failing_check (member_of 1) (mk_visit "1" "" 9) (two_tenants, [])).2.1.
Definition tenants_answer : result served := (demo_serve failing_check (member_of 1) (mk_visit "1" "" 9) (two_tenants, [])).1.
Example check_opens_an_incident : map i_site (sv_fleet tenants_after).(incidents) = [2; 1] /\ map d_webhook (sv_fleet tenants_after).(deliveries) = [1].
Proof. vm_compute. split; reflexivity. Qed.
Lemma demo_serve_eq : demo_serve failing_check (member_of 1) (mk_visit "1" "" 9) (two_tenants, []) = (tenants_answer, (tenants_after, [])).
Proof. vm_compute. reflexivity. Qed.
Lemma tenants_are_separate_witness :
  tidy tenants_after /\ (forall B, B <> 1 -> holdings_of B tenants_after = holdings_of B two_tenants) /\
  (forall x id, Asks failing_check = Asks (ForSite x) -> ParseID "1" = Ok id -> (forall y, In y (sv_fleet two_tenants).(sites) -> y.(s_id) = id -> y.(s_org) <> 1) ->
     tenants_answer = Ok (refused 404 "site not found") /\ tenants_after = two_tenants).
Proof.
  refine (tenants_are_separate (fun _ => None) (fun _ => Err "no") (fun _ => None) (fun _ => Some "https") (fun _ => Err "no such host") (fun _ => Err "no such host") (fun _ => "")
    no_dial (fun _ _ => Err "no") (fun _ _ => false) (fun _ => "") (fun _ => true) (fun _ => "") (fun _ => Err "no") "" None (Asks failing_check) (member_of 1) (mk_visit "1" "" 9) two_tenants [] tenants_answer tenants_after [] (answers_of _ _ _ _ _ _ _ demo_serve_eq) _ _); [discriminate|].
  constructor; apply (bool_decide_unpack _); vm_compute; exact I.
Defined.

Definition audit_started : server := (demo_serve (ForSite PostAudit) (member_of 1) (mk_visit "1" "" 9) (two_tenants, [])).2.1.
Lemma jobs_are_exclusive_witness :
  (forall j site, j = JAudit site \/ j = JCrawl site -> (count (fun x => bool_decide (x = j)) audit_started.(sv_jobs) <= 1)) /\
  (forall site, ~ In (JAudit site) audit_started.(sv_jobs) -> (Audits.Claim site audit_started.(sv_auditing)).1 = true) /\
  (forall site, ~ In (JCrawl site) audit_started.(sv_jobs) -> (Crawler.Claim site audit_started.(sv_crawling)).1 = true).
Proof.
  refine (jobs_are_exclusive (fun _ => None) (fun _ => Err "no") (fun _ => None) (fun _ => Some "https") (fun _ => Err "no such host") (fun _ => Err "no such host") (fun _ => "")
    no_dial (fun _ _ => Err "no") (fun _ _ => false) (fun _ => "") (fun _ => true) (fun _ => "") (fun _ => Err "no") "" None two_tenants audit_started _ _).
  - eapply rtc_l; [|apply rtc_once]; eapply (is_asked demo_serve (Asks (ForSite PostAudit)) (member_of 1) (mk_visit "1" "" 9) _ []), answers_of; vm_compute; reflexivity.
  - split_and!; [constructor|intros site..]; cbn; (split; [done|set_solver]).
Defined.
