(* ===== verification/AccountHandlers.v ===== *)
(** The handlers of [internal/server/server.go] for accounts: the setup of the first
    administrator and of the database, login and logout, passwords, OpenID Connect,
    API tokens and members.

    The state is the tables of the accounts with the providers that OpenID Connect
    has discovered, and the three limiters of attempts.  An answer may set cookies
    and may send the browser elsewhere. *)
From stdpp Require Import gmap.
From S2P Require Import Prelude GoStr TimeText SqlM RateLimit Access Auth Routes SiteApi Parts.
From S2P Require Requestmeta Oidc Config.
Open Scope string_scope.
Open Scope Z_scope.
Open Scope wf_scope.
Open Scope sql_scope.

(** ** Definitions *)

(** *** Answers *)

Inductive content :=
| CError (msg : string) | COk
| CSetupStatus (needs_setup : bool) (min_length : Z) | CDatabase (s : Config.State)
| CLogin (email csrf : string) | CSession (email csrf role : string) (org : Z)
| CConfig (c : option Oidc.Config)
| CToken (t : Z * string * string * string * list string) | CMembers (l : list (Z * string * string)) (role : string)
| CRedirect.
(** Of the attributes, [Path], [HttpOnly] and [SameSite] are constants. *)
Record cookie := mk_cookie { ck_name : string; ck_value : string; ck_secure : bool; ck_max_age : Z }.
Record knocked := mk_knocked { kd_status : Z; kd_content : content; kd_cookies : list cookie; kd_location : string }.
Definition refused (status : Z) (msg : string) : knocked := mk_knocked status (CError (trim_space msg)) [] "".
Definition answered (status : Z) (c : content) : knocked := mk_knocked status c [] "".

(** What a handler reads of a request beside its body and its query, and the clock:
    what [requestmeta] looks at, and the cookies. *)
Record knock := mk_knock { kn_meta : Requestmeta.request; kn_session : option string; kn_binding : option string; kn_now : Z }.

Section Accounts.
(** The parameters of the services: see there. *)
Variable Provider : Type.
Variable AuthURL TokenURL UserInfoEndpoint : Provider -> string.
Variable NewProvider : string -> result Provider.
Variable encode_values : list (string * string) -> string.
Variable post_form get_bearer : string -> string -> result (Z * string).
Variable decode_tokens : string -> option (string * string).
Variable decode_userinfo : string -> option (string * bool * string).
Variable VerifyID : Provider -> string -> string -> result Oidc.id_token.
Variable accept : list account -> result unit.
Variable AuthenticatePassword : list account -> string -> string -> option account.
Variable Hash : string -> result string.
Variable Verify : string -> string -> bool.
Variable sha hash : string -> string.
(** [s.proxy.ClientIP] and [s.proxy.Secure]; [cfg.PublicURL]. *)
Variable ClientIP : Requestmeta.request -> string.
Variable Secure : Requestmeta.request -> bool.
Variable PublicURL : string.

Abbreviation oidc_db := (Oidc.odb Provider).
Record front := mk_front { fr_oidc : oidc_db; fr_login : rateLimiter; fr_setup : rateLimiter; fr_password : rateLimiter }.
(** The limiters of [New]. *)
Definition new_front (o : oidc_db) : front := mk_front o (newRateLimiter minute 10 10000) (newRateLimiter minute 5 1000) (newRateLimiter minute 10 10000).
#[export] Instance part_oidc : Part oidc_db front.
Proof. refine {| part := fr_oidc; with_part o f := mk_front o f.(fr_login) f.(fr_setup) f.(fr_password) |}; [done|by intros []|done]. Defined.
#[export] Instance part_accounts : Part adb front.
Proof.
  refine {| part f := f.(fr_oidc).(Oidc.o_ident Provider);
    with_part d f := mk_front (Oidc.set_ident Provider d f.(fr_oidc)) f.(fr_login) f.(fr_setup) f.(fr_password) |}; [done|by intros [[]]|done].
Defined.

(** [Allow] of a limiter, in memory. *)
Definition allow_login (key : string) (now : Z) : M front bool := fun '(f, fl) =>
  let '(ok, l) := Allow key now f.(fr_login) in (Ok ok, (mk_front f.(fr_oidc) l f.(fr_setup) f.(fr_password), fl)).
Definition allow_setup (key : string) (now : Z) : M front bool := fun '(f, fl) =>
  let '(ok, l) := Allow key now f.(fr_setup) in (Ok ok, (mk_front f.(fr_oidc) f.(fr_login) l f.(fr_password), fl)).
Definition allow_password (key : string) (now : Z) : M front bool := fun '(f, fl) =>
  let '(ok, l) := Allow key now f.(fr_password) in (Ok ok, (mk_front f.(fr_oidc) f.(fr_login) f.(fr_setup) l, fl)).

(** [x, err := m; if err != nil { writeError(...) }]. *)
Definition or_refuse {S A} `{Part S front} (m : M S A) (status : string -> Z) (msg : string -> string) (k : A -> M front knocked) : M front knocked :=
  let* r := attempt (on m) in
  match r with Err e => ret (refused (status e) (msg e)) | Ok a => k a end.
Definition always (status : Z) (_ : string) : Z := status.
(** [decodeJSON]. *)
Definition decoded {A} (b : option A) (k : A -> M front knocked) : M front knocked :=
  match b with None => ret (refused 400 "invalid JSON request") | Some x => k x end.

Definition setSessionCookie (k : knock) (token : string) : cookie := mk_cookie "webfleet_session" token (Secure k.(kn_meta)) 86400.
Definition with_session (k : knock) (token : string) (r : knocked) : knocked :=
  mk_knocked r.(kd_status) r.(kd_content) (r.(kd_cookies) ++ [setSessionCookie k token]) r.(kd_location).

(** *** Setup and sessions; [raw] and [csrf] are drawn for the session. *)

Definition handleSetupStatus : M front knocked :=
  or_refuse (NeedsSetup accept) (always 500) (says "setup status unavailable") (fun need => ret (answered 200 (CSetupStatus need MinPasswordLength))).
Definition handleSetup (k : knock) (b : option (string * string * string)) (raw csrf : string) : M front knocked :=
  let* ok := allow_setup ("setup:" ++ ClientIP k.(kn_meta)) k.(kn_now) in
  if negb ok then ret (refused 429 "too many setup attempts, try again later") else
  decoded b (fun '(username, email, pw) =>
  or_refuse (CreateAdmin accept Hash username email pw k.(kn_now)) (always 400) same (fun _ =>
  or_refuse (Login accept AuthenticatePassword sha email pw raw csrf k.(kn_now)) (always 500) (says "admin created but login failed") (fun '(token, sess) =>
  ret (with_session k token (answered 201 (CLogin sess.(Email) sess.(Auth.CSRF))))))).
Definition handleLogin (k : knock) (b : option (string * string)) (raw csrf : string) : M front knocked :=
  let* ok := allow_login ("login:" ++ ClientIP k.(kn_meta)) k.(kn_now) in
  if negb ok then ret (refused 429 "too many login attempts, try again later") else
  decoded b (fun '(email, pw) =>
  or_refuse (Login accept AuthenticatePassword sha email pw raw csrf k.(kn_now)) (always 401) (says "invalid credentials") (fun '(token, sess) =>
  ret (with_session k token (answered 200 (CLogin sess.(Email) sess.(Auth.CSRF)))))).
Definition handleLogout (k : knock) : M front knocked :=
  match k.(kn_session) with Some c => ignore tt (on (Logout sha c k.(kn_now))) | None => ret tt end ;;;
  ret (mk_knocked 200 COk [mk_cookie "webfleet_session" "" (Secure k.(kn_meta)) (-1)] "").
Definition handleSession (p : principal) : M front knocked := ret (answered 200 (CSession p.(pr_email) p.(pr_csrf) p.(pr_role) p.(pr_org))).
Definition handleChangePassword (p : principal) (k : knock) (b : option (string * string)) : M front knocked :=
  let* ok := allow_password ("password:" ++ ClientIP k.(kn_meta)) k.(kn_now) in
  if negb ok then ret (refused 429 "too many password attempts, try again later") else
  decoded b (fun '(current, new) =>
  match k.(kn_session) with
  | None => ret (refused 401 "authentication required")
  | Some c =>
      or_refuse (ChangePassword accept Hash Verify sha p.(pr_user) current new c k.(kn_now))
        (fun e => if e =?s "current password is incorrect" then 401 else 400) same (fun _ => ret (answered 200 COk))
  end).

(** *** OpenID Connect *)

Definition oidcBindingCookie : string := "wf_oidc_binding".
Definition oidcRedirect : string := if PublicURL =?s "" then "" else PublicURL ++ "/api/oidc/callback".
Definition oidcOriginReady : bool := negb (PublicURL =?s "").
Definition no_origin : knocked := refused 400 "OIDC requires WEBFLEET_PUBLIC_URL (canonical external origin)".
(** [browser] is drawn for the binding, [state] and [nonce] by the service. *)
Definition handleOIDCLogin (k : knock) (browser : result string) (state nonce : string) : M front knocked :=
  if negb oidcOriginReady then ret no_origin else
  match browser with
  | Err _ => ret (refused 500 "OIDC login unavailable")
  | Ok browser =>
      or_refuse (Oidc.Begin Provider AuthURL NewProvider encode_values oidcRedirect browser state nonce k.(kn_now)) (always 400) same (fun u =>
      ret (mk_knocked 302 CRedirect [mk_cookie oidcBindingCookie browser (Secure k.(kn_meta)) 600] u))
  end.
(** The query of the callback. *)
Record callback_query := mk_callback { cb_error : string; cb_state : string; cb_code : string }.
Definition handleOIDCCallback (k : knock) (q : callback_query) (raw csrf : string) : M front knocked :=
  if negb (q.(cb_error) =?s "") then ret (refused 401 "OIDC authorization failed") else
  if negb oidcOriginReady then ret no_origin else
  let browser := match k.(kn_binding) with Some c => c | None => "" end in
  or_refuse (Oidc.Callback Provider TokenURL UserInfoEndpoint NewProvider encode_values post_form get_bearer decode_tokens decode_userinfo VerifyID accept sha
               q.(cb_state) q.(cb_code) oidcRedirect browser raw csrf k.(kn_now)) (always 401) same (fun '(token, _) =>
  ret (with_session k token (mk_knocked 302 CRedirect [mk_cookie oidcBindingCookie "" (Secure k.(kn_meta)) (-1)] "/"))).
Definition handleOIDCConfig : M front knocked :=
  let* r := attempt (on (Oidc.Config_ Provider)) in
  ret (answered 200 (CConfig (match r with Ok c => Some c | Err _ => None end))).
Definition handleOIDCConfigSave (b : option Oidc.Config) : M front knocked :=
  decoded b (fun c =>
  if c.(Oidc.Enabled) && negb oidcOriginReady then ret no_origin else
  or_refuse (Oidc.Save Provider NewProvider c) (always 400) same (fun _ => ret (answered 200 COk))).

(** *** Tokens and members *)

(** [tok] is drawn. *)
Definition handleCreateToken (p : principal) (k : knock) (b : option (string * list string)) (tok : string) : M front knocked :=
  decoded b (fun '(name, scopes) =>
  or_refuse (Create hash p.(pr_user) p.(pr_org) name scopes tok k.(kn_now)) (always 400) same (fun x => ret (answered 201 (CToken x)))).
Definition handleRevokeToken (p : principal) (k : knock) (id : string) : M front knocked :=
  match parse_int id with
  | None => ret (refused 400 "invalid token id")
  | Some id => or_refuse (Revoke id p.(pr_user) p.(pr_org) k.(kn_now)) (always 400) same (fun _ => ret (answered 200 COk))
  end.
Definition handleMembers (p : principal) : M front knocked :=
  or_refuse (Members p.(pr_org)) (always 500) (says "members unavailable") (fun l => ret (answered 200 (CMembers l p.(pr_role)))).
Definition handleMemberUpdate (p : principal) (k : knock) (b : option (string * string)) : M front knocked :=
  decoded b (fun '(email, role) =>
  or_refuse (Add p.(pr_user) p.(pr_org) email role k.(kn_now)) (always 400) same (fun _ => ret (answered 200 COk))).

(** *** The choice of the database *)

Variable unmarshal : string -> result Config.DatabaseChoice.
Variable marshal : Config.DatabaseChoice -> string.
Variable torn : nat.
Variable reach : string -> result unit.
Definition handleDatabaseSetupStatus : M Config.deployment knocked :=
  let* r := attempt (Config.StateFor unmarshal) in
  ret (match r with Ok x => answered 200 (CDatabase x) | Err _ => refused 500 "database setup unavailable" end).
Definition handleDatabaseSetup (b : option (string * string)) : M Config.deployment knocked :=
  match b with
  | None => ret (refused 400 "invalid JSON request")
  | Some (provider, url) =>
      let* r := attempt (Config.Apply unmarshal marshal torn reach provider url) in
      ret (match r with Ok x => answered 200 (CDatabase x) | Err e => refused 400 e end)
  end.

(** *** All requests *)

Inductive front_request :=
| SetupStatus | Setup (k : knock) (b : option (string * string * string)) (raw csrf : string)
| LogIn (k : knock) (b : option (string * string)) (raw csrf : string) | LogOut (k : knock) | SessionOf (p : principal)
| NewPassword (p : principal) (k : knock) (b : option (string * string))
| OidcLogin (k : knock) (browser : result string) (state nonce : string) | OidcCallback (k : knock) (q : callback_query) (raw csrf : string)
| OidcConfig | OidcSave (b : option Oidc.Config)
| NewToken (p : principal) (k : knock) (b : option (string * list string)) (tok : string) | RevokeToken (p : principal) (k : knock) (id : string)
| GetMembers (p : principal) | PutMember (p : principal) (k : knock) (b : option (string * string)).
Definition serve_front (q : front_request) : M front knocked :=
  match q with
  | SetupStatus => handleSetupStatus
  | Setup k b raw csrf => handleSetup k b raw csrf
  | LogIn k b raw csrf => handleLogin k b raw csrf
  | LogOut k => handleLogout k
  | SessionOf p => handleSession p
  | NewPassword p k b => handleChangePassword p k b
  | OidcLogin k browser state nonce => handleOIDCLogin k browser state nonce
  | OidcCallback k q raw csrf => handleOIDCCallback k q raw csrf
  | OidcConfig => handleOIDCConfig
  | OidcSave b => handleOIDCConfigSave b
  | NewToken p k b tok => handleCreateToken p k b tok
  | RevokeToken p k id => handleRevokeToken p k id
  | GetMembers p => handleMembers p
  | PutMember p k b => handleMemberUpdate p k b
  end.
(** Requests one after the other, each with the statements that are refused. *)
Fixpoint serve_all (l : list (front_request * faults)) (f : front) : list (result knocked) * front :=
  match l with
  | [] => ([], f)
  | (q, fl) :: l' =>
      let '(r, (f1, _)) := serve_front q (f, fl) in
      let '(rs, f2) := serve_all l' f1 in (r :: rs, f2)
  end.
End Accounts.
