(* ===== verification/FrontDoor.v ===== *)
(** The handlers of [AccountHandlers]: attempts are limited, a login is recognised by
    the routes until the logout, and the setup happens once. *)
From stdpp Require Import gmap.
From S2P Require Import Prelude GoStr TimeText SqlM RateLimit Access Auth Routes SiteApi Parts.
From S2P Require Requestmeta Oidc Config.
From S2P Require Import AccountHandlers.
Open Scope string_scope.
Open Scope Z_scope.
Open Scope wf_scope.
Open Scope sql_scope.

(** ** Facts *)

(** The three doors at which attempts are counted. *)
Inductive door := DLogin | DSetup | DPassword.
#[export] Instance door_eq_dec : EqDecision door.
Proof. solve_decision. Defined.
Definition door_limit (d : door) : Z := match d with DSetup => 5 | _ => 10 end.
Definition door_key (d : door) (client : string) : string := match d with DLogin => "login:" | DSetup => "setup:" | DPassword => "password:" end ++ client.

(** Tables that have a user keep having one. *)
Definition kept (d d' : adb) : Prop := d.(users) <> [] -> d'.(users) <> [].
#[export] Instance kept_refl : Reflexive kept.
Proof. intros d H. exact H. Qed.
#[export] Instance kept_trans : Transitive kept.
Proof. intros a b c H1 H2 H. exact (H2 (H1 H)). Qed.
Lemma same_users d d' : d'.(users) = d.(users) -> kept d d'.
Proof. by intros E; unfold kept; rewrite E. Qed.
Ltac frame_users := solve [try (apply within_exec; [apply _|]); intros; apply same_users; reflexivity].
Lemma insert_member_keeps org u role now d d' : insert_member org u role now d = Some d' -> kept d d'.
Proof.
  unfold insert_member, upsert_member. destruct (existsb _ _); [done|]. destruct (_ && _); [|done]. intros [= <-]. frame_users.
Qed.
Lemma insert_session_keeps sha raw u csrf exp now d d' : insert_session sha raw u csrf exp now d = Some d' -> kept d d'.
Proof. unfold insert_session. destruct (_ && _); [|done]. intros [= <-]. frame_users. Qed.
Lemma Reload_keeps accept : within kept (Reload accept).
Proof. apply within_readonly; [apply _|apply Reload_readonly]. Qed.
Lemma login_keeps accept au sha email pw raw csrf now : within kept (Login accept au sha email pw raw csrf now).
Proof.
  unfold Login. apply within_bind; [apply _|apply Reload_keeps|]. intros l. solve_within.
  - by apply insert_session_keeps.
  - frame_users.
Qed.
Lemma session_keeps accept sha u email raw csrf now : within kept (CreateSessionForUser accept sha u email raw csrf now).
Proof.
  unfold CreateSessionForUser. apply within_bind; [apply _|apply Reload_keeps|]. intros l. solve_within.
  - by apply insert_session_keeps.
  - frame_users.
Qed.
Lemma find_account_keeps auto email now : within kept (Oidc.find_account auto email now).
Proof.
  unfold Oidc.find_account. apply within_bind; [apply _|apply within_readonly; [apply _|apply readonly_query]|]. intros [u|]; [apply within_ret; apply _|].
  destruct (negb auto); [apply within_throw; apply _|]. apply within_bind; [apply _|apply within_readonly; [apply _|apply PrimaryOrgID_readonly]|]. intros org. solve_within.
  - intros d u d' E. unfold Oidc.insert_user in E. destruct (existsb _ _); [done|]. injection E as _ <-. intros _. cbn. by destruct (users d).
  - by apply insert_member_keeps.
Qed.
Lemma logout_keeps sha raw now : within kept (Logout sha raw now).
Proof. unfold Logout. solve_within; frame_users. Qed.
Lemma password_keeps accept Hash Verify sha u current new keep now : within kept (ChangePassword accept Hash Verify sha u current new keep now).
Proof.
  unfold ChangePassword, change_body. destruct (_ <? _); [apply within_throw; apply _|]. apply within_bind; [apply _|apply within_or_fail, within_readonly; [apply _|apply readonly_query]|].
  intros row. destruct (negb _); [apply within_throw; apply _|]. destruct (Hash new); [|apply within_throw; apply _].
  apply within_bind; [apply _| |intros _; apply within_bind; [apply _|apply Reload_keeps|intros _; apply within_ret; apply _]].
  solve_within; try frame_users. intros d Hd. cbn. by destruct (users d).
Qed.
Lemma member_keeps org actor email role now : within kept (Add actor org email role now).
Proof.
  unfold Add. solve_within.
  - unfold upsert_member. intros d d' E. destruct (_ && _); [|done]. injection E as <-. frame_users.
  - unfold insert_saudit. intros d d' E. destruct (_ && _); [|done]. injection E as <-. frame_users.
Qed.
Lemma token_keeps hash user org name scopes tok now : within kept (Create hash user org name scopes tok now).
Proof.
  unfold Create. solve_within. unfold insert_token. intros d x d' E. destruct (_ && _); [|done]. injection E as _ <-. frame_users.
Qed.
Lemma revoke_keeps id user org now : within kept (Revoke id user org now).
Proof. unfold Revoke. frame_users. Qed.
Lemma members_keep org : within kept (Members org).
Proof. apply within_readonly; [apply _|apply readonly_query]. Qed.
Lemma need_keeps accept : within kept (NeedsSetup accept).
Proof. unfold NeedsSetup. apply within_bind; [apply _|apply Reload_keeps|]. intros l. apply within_ret; apply _. Qed.
Lemma admin_keeps accept Hash n e pw now : within kept (CreateAdmin accept Hash n e pw now).
Proof.
  intros d fl. pose proof (CreateAdmin_cases accept Hash n e pw now d fl) as H. destruct (CreateAdmin _ _ _ _ _ _ _) as [r [d' f']].
  destruct H as [[-> _]|(_ & org & h & x & _ & -> & _)]; [done|]. by intros _.
Qed.

(** A session stays: its row is the one row with the hash of its cookie, and the account
    of the row is there, with the same email address. *)
Section Lasting.
Context (accept : list account -> result unit) (AuthenticatePassword : list account -> string -> string -> option account)
  (Hash : string -> result string) (Verify : string -> string -> bool) (sha hash : string -> string) (raw : string) (x : session_row) (email : string).
Definition only_row (l : list session_row) : Prop := find_first (fun y => y.(se_hash) =?s sha raw) l = Some x /\ forall y, In y l -> y.(se_hash) = sha raw -> y = x.
Definition held (d : adb) : Prop := only_row d.(sessions) /\ exists u, user_by_id x.(se_user) d = Some u /\ u.(u_email) = email.
Definition lasting (d d' : adb) : Prop := held d -> held d'.
#[export] Instance lasting_refl : Reflexive lasting.
Proof using. intros d H. exact H. Qed.
#[export] Instance lasting_trans : Transitive lasting.
Proof using. intros a b c H1 H2 H. exact (H2 (H1 H)). Qed.
Lemma same_sessions d d' : d'.(sessions) = d.(sessions) -> d'.(users) = d.(users) -> lasting d d'.
Proof using. intros E1 E2. unfold lasting, held, user_by_id. by rewrite E1, E2. Qed.
Ltac frame_rows := solve [try (apply within_exec; [apply _|]); intros; apply same_sessions; reflexivity].
Lemma find_first_del (p q : session_row -> bool) l y : find_first p l = Some y -> q y = false -> find_first p (del q l) = Some y.
Proof using.
  unfold find_first, del. intros H Hq. induction l as [|a l IH]; [done|]. cbn in *. destruct (p a) eqn:Ep.
  - injection H as ->. rewrite Hq. cbn. by rewrite Ep.
  - destruct (negb (q a)); [cbn; rewrite Ep|]; by apply IH.
Qed.
Lemma only_row_hash l : only_row l -> x.(se_hash) = sha raw.
Proof using. intros [H _]. apply find_first_Some in H as [_ H]. by apply String.eqb_eq. Qed.
Lemma only_row_del (q : session_row -> bool) l : only_row l -> q x = false -> only_row (del q l).
Proof using.
  intros [H1 H2] Hq. split; [by apply find_first_del|]. intros y Hy. apply in_del in Hy as [Hy _]. by apply H2.
Qed.
(** And when the row goes, nothing is left under the hash. *)
Lemma only_row_gone (q : session_row -> bool) l : only_row l -> q x = true -> find_first (fun y => y.(se_hash) =?s sha raw) (del q l) = None.
Proof using.
  intros [_ H] Hq. apply find_first_None. intros y Hy. apply in_del in Hy as [Hy Hd]. apply String.eqb_neq. intros E. rewrite (H y Hy E), Hq in Hd. done.
Qed.
Lemma insert_member_lasting org u role now d d' : insert_member org u role now d = Some d' -> lasting d d'.
Proof using.
  unfold insert_member, upsert_member. destruct (existsb _ _); [done|]. destruct (_ && _); [|done]. intros [= <-]. frame_rows.
Qed.
Lemma insert_session_lasting raw' u csrf exp now d d' : insert_session sha raw' u csrf exp now d = Some d' -> lasting d d'.
Proof using.
  unfold insert_session. destruct (user_exists u d); [|done]. destruct (existsb _ _) eqn:Ex; [done|]. intros [= <-] [[H H2] Hu]. split; [|exact Hu]. cbn [sessions set_sessions].
  split; [by rewrite find_first_app, H|]. intros y [Hy|[<-|[]]]%in_app_or; [by apply H2|]. cbn [se_hash]. intros E. exfalso.
  apply find_first_Some in H as [Hx H]. apply String.eqb_eq in H. pose proof (proj1 (existsb_none_iff _ _) Ex x Hx) as Hne. apply String.eqb_neq in Hne. congruence.
Qed.
Lemma Reload_lasting : within lasting (Reload accept).
Proof using. apply within_readonly; [apply _|apply Reload_readonly]. Qed.
Lemma login_lasting e pw raw' csrf now : within lasting (Login accept AuthenticatePassword sha e pw raw' csrf now).
Proof using.
  unfold Login. apply within_bind; [apply _|apply Reload_lasting|]. intros l. solve_within; [by apply insert_session_lasting|frame_rows].
Qed.
Lemma session_lasting u e raw' csrf now : within lasting (CreateSessionForUser accept sha u e raw' csrf now).
Proof using.
  unfold CreateSessionForUser. apply within_bind; [apply _|apply Reload_lasting|]. intros l. solve_within; [by apply insert_session_lasting|frame_rows].
Qed.
Lemma find_account_lasting auto e now : within lasting (Oidc.find_account auto e now).
Proof using.
  unfold Oidc.find_account. apply within_bind; [apply _|apply within_readonly; [apply _|apply readonly_query]|]. intros [u|]; [apply within_ret; apply _|].
  destruct (negb auto); [apply within_throw; apply _|]. apply within_bind; [apply _|apply within_readonly; [apply _|apply PrimaryOrgID_readonly]|]. intros org. solve_within.
  - intros d u d' E. unfold Oidc.insert_user in E. destruct (existsb _ _); [done|]. injection E as _ <-. intros [H (v & Hv & He)]. split; [exact H|]. exists v. split; [|done].
    unfold user_by_id in *. cbn [users set_users]. by rewrite find_first_app, Hv.
  - by apply insert_member_lasting.
Qed.
Lemma member_lasting org actor e role now : within lasting (Add actor org e role now).
Proof using.
  unfold Add. solve_within.
  - unfold upsert_member. intros d d' E. destruct (_ && _); [|done]. injection E as <-. frame_rows.
  - unfold insert_saudit. intros d d' E. destruct (_ && _); [|done]. injection E as <-. frame_rows.
Qed.
Lemma token_lasting user org name scopes tok now : within lasting (Create hash user org name scopes tok now).
Proof using.
  unfold Create. solve_within. unfold insert_token. intros d y d' E. destruct (_ && _); [|done]. injection E as _ <-. frame_rows.
Qed.
Lemma revoke_lasting id user org now : within lasting (Revoke id user org now).
Proof using. unfold Revoke. frame_rows. Qed.
Lemma admin_lasting n e pw now : within lasting (CreateAdmin accept Hash n e pw now).
Proof using.
  intros d fl. pose proof (CreateAdmin_cases accept Hash n e pw now d fl) as H. destruct (CreateAdmin _ _ _ _ _ _ _) as [r [d' f']].
  destruct H as [[-> _]|(Hu & _)]; [done|]. intros [_ (u & H & _)]. unfold user_by_id in H. by rewrite Hu in H.
Qed.
(** A logout with another cookie, and a password change of somebody else or from this session. *)
Lemma logout_lasting c now : sha c <> sha raw -> within lasting (Logout sha c now).
Proof using.
  intros Hc. unfold Logout. solve_within; [|frame_rows]. intros d [H Hu]. split; [|exact Hu]. cbn [sessions set_sessions delete_session]. apply only_row_del; [done|].
  rewrite (only_row_hash _ H). apply String.eqb_neq. congruence.
Qed.
Lemma password_lasting user current new c now : user <> x.(se_user) \/ sha c = sha raw -> within lasting (ChangePassword accept Hash Verify sha user current new c now).
Proof using.
  intros Hc d fl. pose proof (ChangePassword_cases accept Hash Verify sha user current new c now d fl) as H. destruct (ChangePassword _ _ _ _ _ _ _ _ _ _) as [r [d' f']].
  destruct H as [[-> _]|(_ & u & h & _ & _ & _ & ->)]; [done|]. intros [H (v & Hv & He)]. split.
  - apply only_row_del; [done|]. rewrite (only_row_hash _ H). destruct Hc as [Hc| ->]; [|by rewrite String.eqb_refl, andb_false_r]. apply andb_false_intro1, Z.eqb_neq. congruence.
  - assert (user_by_id (se_user x) (changed_db sha user h c now d) = (fun u => if u.(u_id) =? user then with_hash h u else u) <$> user_by_id (se_user x) d) as E
      by apply (user_by_id_with_hash user h (se_user x) d []).
    exists (if u_id v =? user then with_hash h v else v). split; [refine (eq_trans E _); rewrite Hv; reflexivity|]. by destruct (_ =? _).
Qed.
(** A look at the session in its time, and one at any other session. *)
Lemma Session_lasting c now : now <= x.(se_expires) \/ sha c <> sha raw -> within lasting (Session sha c now).
Proof using.
  intros Hc d fl. unfold Session. destruct (c =?s ""); [done|]. unfold bind at 1. destruct (or_fail _ _ (d, fl)) as [[r|e] [d1 f1]] eqn:E;
    pose proof (readonly_or_fail _ _ (readonly_query _) _ _ _ _ _ E); subst d1; [|done]. destruct r as [[y u]|]; [|done]. destruct (Z.ltb_spec (se_expires y) now); [|done].
  intros Hd. unfold bind, ignore, exec, stmt. destruct (decide (sha c = sha raw)) as [Es|Es].
  - destruct Hc as [Hc|Hc]; [|done]. exfalso. assert (y = x) as ->; [|lia]. destruct Hd as [[Hd _] _]. unfold or_fail, query, stmt in E. rewrite Es, Hd in E.
    destruct fl as [|[] fl]; cbn in E; try done; (destruct (user_by_id (se_user x) d); [|done]); by injection E.
  - assert (held (delete_session sha c d)); [|by destruct f1 as [|[] f1]]. destruct Hd as [Hd Hu]. split; [|exact Hu]. cbn [sessions set_sessions delete_session].
    apply only_row_del; [done|]. rewrite (only_row_hash _ Hd). apply String.eqb_neq. congruence.
Qed.
Lemma authorize_lasting rt rq now w fl : now <= x.(se_expires) -> lasting w.(w_db) (authorize sha hash rt rq now (w, fl)).2.1.(w_db).
Proof using.
  intros Hn. set (R := fun w w' : world => lasting w.(w_db) w'.(w_db)). assert (Reflexive R) by (intros v H; exact H). assert (Transitive R) by (intros a b c H1 H2 H3; exact (H2 (H1 H3))).
  assert (forall A (m : M adb A), within lasting m -> within R (on_db m)) as Hdb.
  { intros A m Hm v gl. unfold on_db, R. specialize (Hm v.(w_db) gl). by destruct (m _) as [r [d g]]. }
  enough (within R (authorize sha hash rt rq now)) as H1 by apply (H1 w fl).
  assert (forall key, within R (token_allow key now)) as Hallow by (intros key v gl; unfold token_allow; destruct (Allow _ _ _); exact (fun Hv => Hv)).
  unfold authorize, tokenPrincipal. repeat (intros; match goal with |- within R (ret _) => apply within_ret; apply _ | |- within R (bind _ _) => apply within_bind; [apply _| |]
    | |- within _ (match ?y with _ => _ end) => destruct y | |- within _ (attempt _) => apply attempt_within, Hdb end); try apply Hallow.
  - apply Session_lasting. by left.
  - apply within_readonly; [apply _|]. unfold Resolve. solve_readonly.
  - unfold Authenticate. solve_within. frame_rows.
Qed.
End Lasting.

Section Front.
Context (Provider : Type) (AuthURL TokenURL UserInfoEndpoint : Provider -> string) (NewProvider : string -> result Provider) (encode_values : list (string * string) -> string)
  (post_form get_bearer : string -> string -> result (Z * string)) (decode_tokens : string -> option (string * string)) (decode_userinfo : string -> option (string * bool * string))
  (VerifyID : Provider -> string -> string -> result Oidc.id_token) (accept : list account -> result unit) (AuthenticatePassword : list account -> string -> string -> option account)
  (Hash : string -> result string) (Verify : string -> string -> bool) (sha hash : string -> string) (ClientIP : Requestmeta.request -> string) (Secure : Requestmeta.request -> bool) (PublicURL : string).
Abbreviation front := (front Provider).
Abbreviation serving := (serve_front Provider AuthURL TokenURL UserInfoEndpoint NewProvider encode_values post_form get_bearer decode_tokens decode_userinfo VerifyID accept AuthenticatePassword
  Hash Verify sha hash ClientIP Secure PublicURL).
Abbreviation serving_all := (serve_all Provider AuthURL TokenURL UserInfoEndpoint NewProvider encode_values post_form get_bearer decode_tokens decode_userinfo VerifyID accept AuthenticatePassword
  Hash Verify sha hash ClientIP Secure PublicURL).

(** *** Attempts *)

Definition limiter_at (d : door) (f : front) : rateLimiter := match d with DLogin => f.(fr_login Provider) | DSetup => f.(fr_setup Provider) | DPassword => f.(fr_password Provider) end.
(** The door a request knocks at, as which client and when. *)
Definition knocks (q : front_request) : option (door * string * Z) :=
  match q with
  | LogIn k _ _ _ => Some (DLogin, ClientIP k.(kn_meta), k.(kn_now))
  | Setup k _ _ _ => Some (DSetup, ClientIP k.(kn_meta), k.(kn_now))
  | NewPassword _ k _ => Some (DPassword, ClientIP k.(kn_meta), k.(kn_now))
  | _ => None
  end.
Definition same_limiters (f f' : front) : Prop := forall d, limiter_at d f' = limiter_at d f.
#[local] Instance same_limiters_refl : Reflexive same_limiters.
Proof using. by intros f d. Qed.
#[local] Instance same_limiters_trans : Transitive same_limiters.
Proof using. intros a b c H1 H2 d. by rewrite H2, H1. Qed.
Lemma limiters_on {S X} `{Part S front} (m : M S X) : (forall y f, same_limiters f (with_part y f)) -> within same_limiters (on m).
Proof using. intros Hk f fl. unfold on. destruct (m (part f, fl)) as [r [y g]]. apply Hk. Qed.
Lemma limiters_oidc y f : same_limiters f (with_part (Part := part_oidc Provider) y f).
Proof using. by intros []. Qed.
Lemma limiters_accounts y f : same_limiters f (with_part (Part := part_accounts Provider) y f).
Proof using. by intros []. Qed.
Lemma limiters_or_refuse {S X} `{Part S front} (m : M S X) status msg k :
  (forall y f, same_limiters f (with_part y f)) -> (forall x, within same_limiters (k x)) -> within same_limiters (or_refuse Provider m status msg k).
Proof using.
  intros Hp Hk. unfold or_refuse. apply within_bind; [apply _|by apply attempt_within, limiters_on|]. intros [x|e]; [apply Hk|apply within_ret; apply _].
Qed.
Ltac solve_limiters :=
  repeat (intros; first
    [ apply limiters_or_refuse; [apply limiters_oidc || apply limiters_accounts|] | apply within_ret; apply _
    | match goal with
      | |- within _ (match ?x with _ => _ end) => destruct x
      | |- within _ (decoded _ ?b _) => destruct b; cbn [decoded]
      | |- within _ (ignore _ (on _)) => apply within_ignore, limiters_on, limiters_accounts
      | |- within _ (bind _ _) => apply within_bind; [apply _| |]
      | |- within _ (attempt (on _)) => apply attempt_within, limiters_on; (apply limiters_oidc || apply limiters_accounts)
      end ]).

(** A request counts at its door, and only there; turned away it gets a 429. *)
Lemma serve_door q f fl : let r := (serving q (f, fl)).1 in let f' := (serving q (f, fl)).2.1 in
  match knocks q with
  | None => same_limiters f f'
  | Some (d, client, now) =>
      let a := Allow (door_key d client) now (limiter_at d f) in
      limiter_at d f' = a.2 /\ (forall d', d' <> d -> limiter_at d' f' = limiter_at d' f) /\
      (a.1 = false -> exists msg, r = Ok (refused 429 msg) /\ f'.(fr_oidc Provider) = f.(fr_oidc Provider))
  end.
Proof using.
  assert (forall (d : door) allow key now msg (k : M front knocked) m,
    (forall f fl, allow key now (f, fl) = let a := Allow key now (limiter_at d f) in (Ok a.1, (m a.2 f, fl))) ->
    (forall l f, limiter_at d (m l f) = l /\ (forall d', d' <> d -> limiter_at d' (m l f) = limiter_at d' f) /\ fr_oidc Provider (m l f) = fr_oidc Provider f) ->
    within same_limiters k ->
    let p := (bind (allow key now) (fun ok : bool => if negb ok then ret (refused 429 msg) else k)) (f, fl) in
    let a := Allow key now (limiter_at d f) in
    limiter_at d p.2.1 = a.2 /\ (forall d', d' <> d -> limiter_at d' p.2.1 = limiter_at d' f) /\ (a.1 = false -> exists msg, p.1 = Ok (refused 429 msg) /\ p.2.1.(fr_oidc Provider) = f.(fr_oidc Provider))) as Hdoor.
  { intros d allow key now msg k m Hallow Hm Hk. cbv zeta. unfold bind. rewrite Hallow. cbv zeta. destruct (Allow key now (limiter_at d f)) as [ok l]. cbn [fst snd].
    destruct (Hm l f) as (H1 & H2 & H3). destruct ok; cbn [negb].
    - specialize (Hk (m l f) fl). split_and!; [by rewrite Hk|intros d' Hd; by rewrite Hk, H2|done].
    - cbn. split_and!; [done|done|]. intros _. by eexists. }
  destruct q; cbn [knocks serve_front]; try (intros; match goal with |- same_limiters f (?m (f, fl)).2.1 => enough (within same_limiters m) as Hw by apply Hw end;
    unfold handleSetupStatus, handleLogout, handleSession, handleOIDCLogin, handleOIDCCallback, handleOIDCConfig, handleOIDCConfigSave, handleCreateToken, handleRevokeToken, handleMembers, handleMemberUpdate; solve_limiters).
  - apply (Hdoor DSetup (allow_setup Provider) _ _ _ _ (fun l f => mk_front Provider f.(fr_oidc Provider) f.(fr_login Provider) l f.(fr_password Provider))).
    + intros g gl. unfold allow_setup. by destruct (Allow _ _ _).
    + intros l g. split_and!; try done. by intros [].
    + solve_limiters.
  - apply (Hdoor DLogin (allow_login Provider) _ _ _ _ (fun l f => mk_front Provider f.(fr_oidc Provider) l f.(fr_setup Provider) f.(fr_password Provider))).
    + intros g gl. unfold allow_login. by destruct (Allow _ _ _).
    + intros l g. split_and!; try done. by intros [].
    + solve_limiters.
  - apply (Hdoor DPassword (allow_password Provider) _ _ _ _ (fun l f => mk_front Provider f.(fr_oidc Provider) f.(fr_login Provider) f.(fr_setup Provider) l)).
    + intros g gl. unfold allow_password. by destruct (Allow _ _ _).
    + intros l g. split_and!; try done. by intros [].
    + solve_limiters.
Qed.

(** The calls of a limiter that requests make. *)
Definition call_at (d : door) (q : front_request) : option (Z * string) :=
  match knocks q with Some (d', client, now) => if decide (d' = d) then Some (now, door_key d client) else None | None => None end.
Definition calls_at (d : door) (l : list (front_request * faults)) : list (Z * string) := omap (fun x => call_at d x.1) l.
(** An attempt of a client that got beyond the door. *)
Definition let_in (d : door) (client : string) (x : front_request * faults) (r : result knocked) : bool :=
  match call_at d x.1 with Some c => c.2 =?s door_key d client | None => false end &&
  negb (match r with Ok a => a.(kd_status) =? 429 | Err _ => false end).
Fixpoint let_ins (d : door) (client : string) (l : list (front_request * faults)) (rs : list (result knocked)) : Z :=
  match l, rs with
  | x :: l', r :: rs' => (if let_in d client x r then 1 else 0) + let_ins d client l' rs'
  | _, _ => 0
  end.
Lemma serve_step d q fl f : let f' := (serving q (f, fl)).2.1 in let r := (serving q (f, fl)).1 in
  match call_at d q with
  | Some (now, key) => limiter_at d f' = (Allow key now (limiter_at d f)).2 /\ ((Allow key now (limiter_at d f)).1 = false -> exists msg, r = Ok (refused 429 msg))
  | None => limiter_at d f' = limiter_at d f
  end.
Proof using.
  cbv zeta. pose proof (serve_door q f fl) as H. cbv zeta in H. unfold call_at. destruct (knocks q) as [[[d' client] now]|]; [|apply H].
  destruct H as (H1 & H2 & H3). case_decide as E; [subst; split; [done|intros Ha; destruct (H3 Ha) as (msg & ? & _); by exists msg]|]. apply H2. congruence.
Qed.
Lemma serve_all_limiter d l : forall f, limiter_at d (serving_all l f).2 = (allow_all (calls_at d l) (limiter_at d f)).2.
Proof using.
  induction l as [|[q fl] l IH]; intros f; [done|]. cbn [serve_all]. pose proof (serve_step d q fl f) as H. cbv zeta in H.
  destruct (serving q (f, fl)) as [r [f1 fl1]] eqn:E. cbn [fst snd] in *. specialize (IH f1). destruct (serving_all l f1) as [rs f2]. cbn [snd] in *. rewrite IH.
  change (calls_at d ((q, fl) :: l)) with (omap (fun x => call_at d x.1) ((q, fl) :: l)). cbn [omap list_omap fst]. fold (calls_at d l). destruct (call_at d q) as [[now key]|]; [|by rewrite H].
  destruct H as [-> _]. cbn [allow_all]. destruct (Allow key now (limiter_at d f)) as [ok l1]. cbn [snd]. destruct (allow_all (calls_at d l) l1). reflexivity.
Qed.
Lemma let_ins_granted d client l : forall f, let_ins d client l (serving_all l f).1 <= grants (door_key d client) (allow_all (calls_at d l) (limiter_at d f)).1.
Proof using.
  induction l as [|[q fl] l IH]; intros f; [done|]. cbn [serve_all]. pose proof (serve_step d q fl f) as H. cbv zeta in H.
  destruct (serving q (f, fl)) as [r [f1 fl1]] eqn:E. cbn [fst snd] in *. specialize (IH f1). destruct (serving_all l f1) as [rs f2]. cbn [fst let_ins] in *.
  change (calls_at d ((q, fl) :: l)) with (omap (fun x => call_at d x.1) ((q, fl) :: l)). cbn [omap list_omap fst]. fold (calls_at d l). unfold let_in. cbn [fst].
  destruct (call_at d q) as [[now key]|]; [|rewrite H in IH; cbn; lia].
  destruct H as [H1 H2]. rewrite H1 in IH. cbn [allow_all]. destruct (Allow key now (limiter_at d f)) as [ok l1]. cbn [fst snd] in *.
  destruct (allow_all (calls_at d l) l1) as [out l2]. cbn [fst] in *. rewrite grants_cons. destruct (key =?s door_key d client) eqn:Ek; cbn [andb]; [|lia].
  destruct ok; [destruct (negb _); lia|]. destruct H2 as [msg ->]; [done|]. cbn. lia.
Qed.

(** C10: a passwords cannot be guessed quickly: within any minute, whatever was asked
    before and is asked meanwhile, at most twenty login attempts of one client get to
    the accounts, ten attempts to set up and twenty to change a password; all the
    others are answered with a 429. *)
Theorem attempts_are_bounded o before during d client t0 :
  (forall c, In c (calls_at d during) -> t0 <= c.1 <= t0 + minute) ->
  let_ins d client during (serving_all during (serving_all before (new_front Provider o)).2).1 <= 2 * door_limit d.
Proof using.
  intros Ht. etransitivity; [apply let_ins_granted|]. rewrite serve_all_limiter.
  assert (limiter_at d (new_front Provider o) = newRateLimiter minute (door_limit d) (match d with DSetup => 1000 | _ => 10000 end)) as -> by by destruct d.
  etransitivity; [by apply (limiter_window_bound minute _ _ _ _ t0)|]. by destruct d.
Qed.

(** *** What requests do to the tables of the accounts *)

Definition accounts_in (f : front) : adb := f.(fr_oidc Provider).(Oidc.o_ident Provider).

(** What every call of the services does to these tables, every request does: [R] is
    a relation between the tables before and after. *)
Section Over.
Context (R : adb -> adb -> Prop) {RR : Reflexive R} {RT : Transitive R}
  (admin_R : forall n e pw now, within R (CreateAdmin accept Hash n e pw now))
  (login_R : forall e pw raw csrf now, within R (Login accept AuthenticatePassword sha e pw raw csrf now))
  (session_R : forall u e raw csrf now, within R (CreateSessionForUser accept sha u e raw csrf now))
  (find_account_R : forall auto e now, within R (Oidc.find_account auto e now))
  (member_R : forall org actor e role now, within R (Add actor org e role now))
  (token_R : forall user org name scopes tok now, within R (Create hash user org name scopes tok now))
  (revoke_R : forall id user org now, within R (Revoke id user org now)).
Definition over (f f' : front) : Prop := R (accounts_in f) (accounts_in f').
#[local] Instance over_refl : Reflexive over.
Proof using RR. intros f. unfold over. reflexivity. Qed.
#[local] Instance over_trans : Transitive over.
Proof using RT. intros a b c H1 H2. unfold over in *. by etransitivity. Qed.
Definition okept (o o' : Oidc.odb Provider) : Prop := R (Oidc.o_ident Provider o) (Oidc.o_ident Provider o').
#[local] Instance okept_refl : Reflexive okept.
Proof using RR. intros d. unfold okept. reflexivity. Qed.
#[local] Instance okept_trans : Transitive okept.
Proof using RT. intros a b c H1 H2. unfold okept in *. by etransitivity. Qed.
Lemma accounts_over {A} (m : M adb A) : within R m -> within over (on m).
Proof using. intros H f fl. unfold on. specialize (H (part f) fl). destruct (m (part f, fl)) as [r [d gl]]. exact H. Qed.
Lemma oidc_over {A} (m : M (Oidc.odb Provider) A) : within okept m -> within over (on m).
Proof using. intros H f fl. unfold on. specialize (H (part f) fl). destruct (m (part f, fl)) as [r [d gl]]. exact H. Qed.
Lemma ident_keeps {A} (m : M adb A) : within R m -> within okept (Oidc.on_ident Provider m).
Proof using.
  intros H o fl. unfold Oidc.on_ident. specialize (H (Oidc.o_ident Provider o) fl). destruct (m (Oidc.o_ident Provider o, fl)) as [r [d gl]]. exact H.
Qed.
Ltac frame_oidc :=
  repeat (match goal with
  | |- forall _, _ => intro
  | |- within _ (ret _) => apply within_ret; apply _
  | |- within _ (throw _) => apply within_throw; apply _
  | |- within _ (bind _ _) => apply within_bind; [apply _| |]
  | |- within _ (query _) => apply within_readonly; [apply _|apply readonly_query]
  | |- within _ (or_fail _ _) => apply within_or_fail
  | |- within _ (match ?x with _ => _ end) => destruct x
  | |- within _ (lift ?x) => destruct x; cbn [lift]
  | |- within _ (Oidc.on_ident _ _) => apply ident_keeps
  | |- within _ (exec _) => apply within_exec; [apply _|by intros s; unfold okept; cbn; reflexivity]
  end).
Lemma in_memory_keeps {A} (f : Oidc.odb Provider -> A * Oidc.odb Provider) :
  (forall o, Oidc.o_ident Provider (f o).2 = Oidc.o_ident Provider o) -> within okept (Oidc.in_memory Provider f).
Proof using RR RT. intros H o fl. unfold Oidc.in_memory. specialize (H o). destruct (f o) as [a o']. cbn in *. unfold okept. rewrite H. reflexivity. Qed.
Lemma provider_keeps issuer : within okept (Oidc.provider Provider NewProvider issuer).
Proof using RR RT. unfold Oidc.provider. frame_oidc; (intros; apply in_memory_keeps; reflexivity). Qed.
Lemma begin_keeps redirect browser state nonce now : within okept (Oidc.Begin Provider AuthURL NewProvider encode_values redirect browser state nonce now).
Proof using RR RT.
  unfold Oidc.Begin, Oidc.rowConfig. frame_oidc; [apply provider_keeps|]. intros. apply within_exec_opt; [apply _|].
  intros o o' E. unfold Oidc.insert_state in E. destruct (existsb _ _); [done|]. injection E as <-. unfold okept; cbn; reflexivity.
Qed.
Lemma save_keeps c : within okept (Oidc.Save Provider NewProvider c).
Proof using RR RT. unfold Oidc.Save, Oidc.dropProvider. frame_oidc; [apply provider_keeps|intros; apply in_memory_keeps; reflexivity]. Qed.
Lemma callback_keeps state code redirect browser raw csrf now :
  within okept (Oidc.Callback Provider TokenURL UserInfoEndpoint NewProvider encode_values post_form get_bearer decode_tokens decode_userinfo VerifyID accept sha
    state code redirect browser raw csrf now).
Proof using RR RT find_account_R session_R.
  unfold Oidc.Callback, Oidc.complete, Oidc.consume_state, Oidc.rowConfig. frame_oidc; [|intros; apply provider_keeps|intros; apply find_account_R|intros; apply session_R].
  intros; apply within_stmt; [apply _|]. intros o x o' [= _ <-]. unfold okept; cbn; reflexivity.
Qed.
Lemma over_refuse_accounts {A} (m : M adb A) status msg k : within R m -> (forall x, within over (k x)) -> within over (or_refuse Provider m status msg k).
Proof using RR RT. intros Hm Hk. unfold or_refuse. apply within_bind; [apply _|by apply attempt_within, accounts_over|]. intros [x|e]; [apply Hk|apply within_ret; apply _]. Qed.
Lemma over_refuse_oidc {A} (m : M (Oidc.odb Provider) A) status msg k : within okept m -> (forall x, within over (k x)) -> within over (or_refuse Provider m status msg k).
Proof using RR RT. intros Hm Hk. unfold or_refuse. apply within_bind; [apply _|by apply attempt_within, oidc_over|]. intros [x|e]; [apply Hk|apply within_ret; apply _]. Qed.
Lemma members_R org : within R (Members org).
Proof using RR RT. apply within_readonly; [apply _|apply readonly_query]. Qed.
Lemma need_R : within R (NeedsSetup accept).
Proof using RR RT. unfold NeedsSetup. apply within_bind; [apply _|apply within_readonly; [apply _|apply Reload_readonly]|]. intros l. apply within_ret; apply _. Qed.
Ltac solve_over :=
  repeat (match goal with
  | |- forall _, _ => intro
  | |- within over (or_refuse _ (S := adb) _ _ _ _) => apply over_refuse_accounts
  | |- within over (or_refuse _ (S := Oidc.odb _) _ _ _ _) => apply over_refuse_oidc
  | |- within _ (ret _) => apply within_ret; apply _
  | |- within _ (match ?x with _ => _ end) => destruct x eqn:?
  | |- within _ (decoded _ ?b _) => destruct b; cbn [decoded]
  | |- within _ (ignore _ (on _)) => apply within_ignore, accounts_over
  | |- within _ (bind _ _) => apply within_bind; [apply _| |]
  | |- within _ (attempt (on _)) => apply attempt_within, oidc_over
  | |- within R _ => first [apply admin_R | apply login_R | apply token_R | apply revoke_R | apply member_R | apply members_R | apply need_R | eauto; fail]
  | |- within over _ => intros f fl; unfold allow_login, allow_setup, allow_password; destruct (Allow _ _ _); unfold over, accounts_in; reflexivity
  | |- within okept _ => first [apply begin_keeps | apply save_keeps | apply callback_keeps | apply within_readonly; [apply _|unfold Oidc.Config_, Oidc.rowConfig; solve_readonly]]
  end).
Lemma handleSetup_rest_over k email pw raw csrf : within over (or_refuse Provider (Login accept AuthenticatePassword sha email pw raw csrf k.(kn_now)) (always 500) (says "admin created but login failed")
  (fun '(token, sess) => ret (with_session Secure k token (answered 201 (CLogin sess.(Email) sess.(Auth.CSRF)))))).
Proof using RR RT login_R. solve_over. Qed.
Lemma serve_over q :
  (forall k c, q = LogOut k -> k.(kn_session) = Some c -> within R (Logout sha c k.(kn_now))) ->
  (forall p k b c current new, q = NewPassword p k b -> k.(kn_session) = Some c -> within R (ChangePassword accept Hash Verify sha p.(pr_user) current new c k.(kn_now))) ->
  within over (serving q).
Proof using All.
  intros Hout Hpw.
  destruct q; cbn [serve_front]; unfold handleSetupStatus, handleSetup, handleLogin, handleChangePassword, handleLogout, handleSession, handleOIDCLogin, handleOIDCCallback, handleOIDCConfig,
    handleOIDCConfigSave, handleCreateToken, handleRevokeToken, handleMembers, handleMemberUpdate; solve_over.
Qed.
End Over.

(** *** Sessions *)

Abbreviation logging_in := (handleLogin Provider accept AuthenticatePassword sha ClientIP Secure).
Abbreviation logging_out := (handleLogout Provider sha Secure).
(** What a route answers to a member of no organization, or of one. *)
Definition let_in_as (rt : routeDef) (s : session) (d : adb) : outcome :=
  match lowest_org (List.filter (fun m => m.(mb_user) =? s.(UserID)) d.(members)) with
  | None => Reject 403 "no organization membership"
  | Some m => if negb (rt.(rt_action) =?s "session") && negb (Can m.(mb_role) rt.(rt_action)) then Reject 403 "permission denied"
              else Serve (mk_principal s.(UserID) s.(Email) s.(Auth.CSRF) m.(mb_org) m.(mb_role))
  end.
Lemma authorize_with_session rt rq now w raw s : rq.(rq_cookie) = Some raw -> rq.(rq_csrf) = s.(Auth.CSRF) -> run (Session sha raw now) w.(w_db) = (Ok s, w.(w_db)) ->
  run (authorize sha hash rt rq now) w = (Ok (let_in_as rt s w.(w_db)), w).
Proof using.
  intros Hc Hcsrf Hs. unfold run, authorize. rewrite Hc, bind_attempt. unfold on_db. cbv beta iota. rewrite Session_nil, Hs, Hcsrf, String.eqb_refl, andb_false_r.
  rewrite bind_attempt. cbv beta iota. cbn [w_db]. rewrite Resolve_nil. unfold let_in_as. destruct (lowest_org _) as [m|]; [|by destruct w].
  destruct (negb _ && negb _); by destruct w.
Qed.
Lemma authorize_no_session rt rq now w raw e : rq.(rq_cookie) = Some raw -> (run (Session sha raw now) w.(w_db)).1 = Err e ->
  (run (authorize sha hash rt rq now) w).1 = Ok (Reject 401 "authentication required").
Proof using.
  intros Hc Hs. unfold run, authorize. rewrite Hc, bind_attempt. unfold on_db. cbv beta iota. rewrite Session_nil. destruct (run (Session sha raw now) (w_db w)) as [r d]. cbn in Hs. by subst r.
Qed.
Lemma login_ok k email pw raw csrf f r f' : run (logging_in k (Some (email, pw)) raw csrf) f = (Ok r, f') -> r.(kd_status) = 200 ->
  exists s, run (Login accept AuthenticatePassword sha email pw raw csrf k.(kn_now)) (accounts_in f) = (Ok (raw, s), accounts_in f') /\
    r.(kd_content) = CLogin s.(Email) s.(Auth.CSRF) /\ r.(kd_cookies) = [setSessionCookie Secure k raw].
Proof using.
  unfold run, handleLogin, bind at 1, allow_login. destruct (Allow _ _ _) as [[] lim]; [|intros [= <- _] H; done]. cbn [negb decoded]. unfold or_refuse. rewrite bind_attempt. unfold on.
  cbn [part part_accounts fr_oidc]. change (Oidc.o_ident Provider (fr_oidc Provider f)) with (accounts_in f).
  destruct (Login accept AuthenticatePassword sha email pw raw csrf (kn_now k) (accounts_in f, [])) as [[[token s]|e] [d fl]] eqn:E; [|intros [= <- _] H; done].
  intros [= <- <-] _. assert (token = raw) as ->.
  { unfold Login in E. apply bind_ok in E as (l & d1 & fl1 & _ & E). destruct (AuthenticatePassword l email pw); [|done]. apply bind_ok in E as (u & d2 & fl2 & _ & E).
    apply bind_ok in E as (u' & d3 & fl3 & _ & E). by injection E as <- _ _ _. }
  exists s. by split_and!.
Qed.

(** What a login leaves: the row of its session. *)
Lemma login_holds email pw raw csrf now d raw' s d1 : run (Login accept AuthenticatePassword sha email pw raw csrf now) d = (Ok (raw', s), d1) ->
  exists a u x, AuthenticatePassword (accounts_of d) email pw = Some a /\ user_by_id a.(ac_id) d = Some u /\ s = mk_sess a.(ac_id) a.(ac_display) csrf (now + 24 * hour) /\
    x.(se_user) = a.(ac_id) /\ x.(se_csrf) = csrf /\ x.(se_expires) = now + 24 * hour /\ held sha raw x u.(u_email) d1.
Proof using.
  intros H. unfold Login in H. pose proof (Reload_run_cases accept d) as HR. destruct (accept (accounts_of d)) as [[]|e] eqn:Ea.
  2: { unfold run, bind in *. destruct (Reload accept (d, [])) as [[l0|e0] [d0 fl0]]; discriminate. }
  rewrite (run_bind _ _ _ _ _ (Reload_honest accept) HR) in H. destruct (AuthenticatePassword _ _ _) as [a|] eqn:Hauth; [|done].
  unfold run, bind, exec_opt in H. rewrite stmt_nil in H. destruct (insert_session sha raw (ac_id a) csrf (now + 24 * hour) now d) as [di|] eqn:Ei; [|done]. cbn in H. injection H as <- <- <-.
  pose proof (insert_session_Some _ _ _ _ _ _ _ _ Ei) as (u & Hu & _ & Hus). set (x := mk_session (fresh_id (List.map se_id d.(sessions))) (sha raw) (ac_id a) csrf (now + 24 * hour) now).
  exists a, u, x. split_and!; try done. unfold insert_session in Ei. destruct (user_exists _ d); [|done]. destruct (existsb _ _) eqn:Ex; [done|]. injection Ei as <-.
  pose proof (proj1 (existsb_none_iff _ _) Ex) as Hno. split; [|by exists u]. cbn [sessions set_sessions insert_audit set_audits]. split.
  - rewrite find_first_app, (proj2 (find_first_None _ _) Hno). cbn. by rewrite String.eqb_refl.
  - intros y [Hy|[<-|[]]]%in_app_or; [|done]. intros E. specialize (Hno y Hy). apply String.eqb_neq in Hno. congruence.
Qed.
Lemma held_session raw x email d later : raw <> "" -> held sha raw x email d ->
  (later <= x.(se_expires) -> run (Session sha raw later) d = (Ok (mk_sess x.(se_user) email x.(se_csrf) x.(se_expires)), d)) /\
  (x.(se_expires) < later -> (run (Session sha raw later) d).1 = Err "expired session").
Proof using.
  intros Hraw [[H _] (u & Hu & <-)]. apply String.eqb_neq in Hraw.
  assert (session_of sha raw d = Some (x, u)) as Hs by (unfold session_of; rewrite H; cbn [option_bind mbind]; by rewrite Hu).
  rewrite Session_run, Hraw, Hs. split; intros Ht; [|by apply Z.ltb_lt in Ht as ->]. by assert ((se_expires x <? later) = false) as -> by by apply Z.ltb_ge.
Qed.

(** The requests that end the session of the cookie [raw] and the account [user]: its
    logout, and a password change of the account from another session. *)
Definition ends (raw : string) (user : Z) (q : front_request) : bool :=
  match q with
  | LogOut k => match k.(kn_session) with Some c => sha c =?s sha raw | None => false end
  | NewPassword p k _ => (p.(pr_user) =? user) && match k.(kn_session) with Some c => negb (sha c =?s sha raw) | None => false end
  | _ => false
  end.
(** What may go on while the session is good: the other requests for accounts, and the
    checks of the routes, with any statements refused. *)
Inductive meanwhile (raw : string) (user expires : Z) : front -> front -> Prop :=
| served q fl f : ends raw user q = false -> meanwhile raw user expires f (serving q (f, fl)).2.1
| checked rt rq now lim fl f : now <= expires -> meanwhile raw user expires f (with_part (authorize sha hash rt rq now (mk_world (accounts_in f) lim, fl)).2.1.(w_db) f).
Lemma meanwhile_holds raw x email f f' : star (meanwhile raw x.(se_user) x.(se_expires)) f f' -> held sha raw x email (accounts_in f) -> held sha raw x email (accounts_in f').
Proof using.
  intros Hs Hf. refine (star_invariant _ (fun f => held sha raw x email (accounts_in f)) f f' _ Hf Hs). clear f f' Hf Hs. intros f f' Hf Hm. destruct Hm as [q fl f Hq|rt rq now lim fl f Hn].
  - enough (within (over (lasting sha raw x email)) (serving q)) as Hw by apply (Hw f fl Hf).
    apply serve_over; try apply _; intros; first [apply admin_lasting | apply login_lasting | apply session_lasting | apply find_account_lasting | apply member_lasting | apply token_lasting | apply revoke_lasting | idtac].
    + apply logout_lasting. subst q. cbn in Hq. rewrite H0 in Hq. by apply String.eqb_neq.
    + apply password_lasting. subst q. cbn in Hq. rewrite H0 in Hq. apply andb_false_iff in Hq as [Hq|Hq]; [left; by apply Z.eqb_neq|right]. apply String.eqb_eq. by destruct (_ =?s _).
  - by apply (authorize_lasting sha hash raw x email rt rq now (mk_world (accounts_in f) lim) fl Hn).
Qed.

Abbreviation changing := (handleChangePassword Provider accept Hash Verify sha ClientIP).
(** C8: a a login is what the routes recognise: an answer of 200 sets one cookie.  From
    then on, whatever else is asked of the accounts and checked in the meantime and
    whatever statements are refused, as long as it is neither a logout with that cookie
    nor a password change of the same account from another session, a request with the
    cookie and the CSRF token of the answer is let in on every route as the account
    that logged in, with the rights its membership has by then, until twenty-four hours
    are over, and not any longer.  A logout ends it, and so does a password change of
    the account from another session that is answered with 200. *)
Theorem login_is_recognised k email pw raw csrf f r f' : run (logging_in k (Some (email, pw)) raw csrf) f = (Ok r, f') -> r.(kd_status) = 200 -> raw <> "" ->
  exists a u, AuthenticatePassword (accounts_of (accounts_in f)) email pw = Some a /\ user_by_id a.(ac_id) (accounts_in f) = Some u /\
    r.(kd_content) = CLogin a.(ac_display) csrf /\ map ck_value r.(kd_cookies) = [raw] /\
    forall f2, star (meanwhile raw a.(ac_id) (k.(kn_now) + 24 * hour)) f' f2 -> forall rt rq lim later, rq.(rq_cookie) = Some raw -> rq.(rq_csrf) = csrf ->
      (later <= k.(kn_now) + 24 * hour ->
        (run (authorize sha hash rt rq later) (mk_world (accounts_in f2) lim)).1 =
          Ok (let_in_as rt (mk_sess a.(ac_id) u.(u_email) csrf (k.(kn_now) + 24 * hour)) (accounts_in f2))) /\
      (k.(kn_now) + 24 * hour < later ->
        (run (authorize sha hash rt rq later) (mk_world (accounts_in f2) lim)).1 = Ok (Reject 401 "authentication required")) /\
      (forall k' f3, k'.(kn_session) = Some raw -> f3 = (run (logging_out k') f2).2 ->
        (run (authorize sha hash rt rq later) (mk_world (accounts_in f3) lim)).1 = Ok (Reject 401 "authentication required")) /\
      (forall p k' c current new r' f3, p.(pr_user) = a.(ac_id) -> k'.(kn_session) = Some c -> sha c <> sha raw ->
        run (changing p k' (Some (current, new))) f2 = (Ok r', f3) -> r'.(kd_status) = 200 ->
        (run (authorize sha hash rt rq later) (mk_world (accounts_in f3) lim)).1 = Ok (Reject 401 "authentication required")).
Proof using.
  intros H Hr Hraw. apply login_ok in H as (s & H & Hc & Hk); [|done]. apply login_holds in H as (a & u & x & Ha & Hu & -> & Hxu & Hxc & Hxe & Hd).
  exists a, u. split; [done|]. split; [done|]. split; [by rewrite Hc|]. split; [by rewrite Hk|]. intros f2 Hm rt rq lim later Hcookie Hq.
  rewrite <- Hxu, <- Hxe in *. pose proof (meanwhile_holds raw x u.(u_email) f' f2 Hm Hd) as H2. clear Hm Hd. destruct (held_session raw x _ _ later Hraw H2) as [H3 H4]. split_and!.
  - intros Ht. rewrite <- Hxc. refine (f_equal fst (authorize_with_session rt rq later (mk_world (accounts_in f2) lim) raw _ Hcookie _ (H3 Ht))). by rewrite Hq.
  - intros Ht. apply (authorize_no_session rt rq later (mk_world (accounts_in f2) lim) raw "expired session" Hcookie). by apply H4.
  - intros k' f3 Hk' ->. apply (authorize_no_session rt rq later (mk_world _ lim) raw "invalid session" Hcookie). cbn [w_db].
    assert (session_of sha raw (accounts_in (run (logging_out k') f2).2) = None) as Hn; [|by rewrite Session_run, (proj2 (String.eqb_neq _ _) Hraw), Hn].
    unfold run, handleLogout. rewrite Hk'. exact (session_deleted sha raw (accounts_in f2)).
  - intros p k' c current new r' f3 Hp Hk' Hcr Hrun Hr'. apply (authorize_no_session rt rq later (mk_world _ lim) raw "invalid session" Hcookie). cbn [w_db].
    assert (session_of sha raw (accounts_in f3) = None) as Hn; [|by rewrite Session_run, (proj2 (String.eqb_neq _ _) Hraw), Hn].
    unfold run, handleChangePassword, bind at 1, allow_password in Hrun. destruct (Allow _ _ _) as [[] l]; [|by injection Hrun as <- _]. cbn [negb decoded] in Hrun. rewrite Hk' in Hrun.
    unfold or_refuse in Hrun. rewrite bind_attempt in Hrun. unfold on in Hrun. cbn [part part_accounts fr_oidc] in Hrun. change (Oidc.o_ident Provider (fr_oidc Provider f2)) with (accounts_in f2) in Hrun.
    pose proof (ChangePassword_cases accept Hash Verify sha (pr_user p) current new c (kn_now k') (accounts_in f2) []) as HC. destruct (ChangePassword _ _ _ _ _ _ _ _ _ _) as [[[]|e] [d g]].
    2: { injection Hrun as <- _. cbn in Hr'. by destruct (_ =?s _). }
    injection Hrun as <- <-. destruct HC as [[_ HC]|(_ & v & h & _ & _ & _ & ->)]; [done|]. unfold session_of. cbn -[changed_db].
    match goal with |- context [find_first ?q (sessions (changed_db ?sh ?us ?hh ?kp ?nw ?dd))] =>
      assert (find_first q (sessions (changed_db sh us hh kp nw dd)) = None) as -> end; [|done].
    destruct H2 as [H2 _]. apply (only_row_gone sha raw x _ _ H2). rewrite Hp, Z.eqb_refl, (only_row_hash _ _ _ _ H2). apply negb_true_iff. apply String.eqb_neq. congruence.
Qed.

(** *** The setup *)

Abbreviation peopled := (over kept).
Lemma serve_peopled q : within peopled (serving q).
Proof using.
  apply serve_over; try apply _; intros; first [apply admin_keeps | apply login_keeps | apply session_keeps | apply find_account_keeps | apply member_keeps | apply token_keeps | apply revoke_keeps | apply logout_keeps | apply password_keeps].
Qed.

(** The setups that were answered with a session. *)
Definition set_up (x : front_request * faults) (r : result knocked) : bool :=
  match x.1, r with Setup _ _ _ _, Ok a => a.(kd_status) =? 201 | _, _ => false end.
Fixpoint setups (l : list (front_request * faults)) (rs : list (result knocked)) : Z :=
  match l, rs with
  | x :: l', r :: rs' => (if set_up x r then 1 else 0) + setups l' rs'
  | _, _ => 0
  end.
Lemma set_up_once q fl f : set_up (q, fl) (serving q (f, fl)).1 = true -> (accounts_in f).(users) = [] /\ (accounts_in (serving q (f, fl)).2.1).(users) <> [].
Proof using.
  destruct q; try done. unfold set_up. cbn [fst serve_front]. unfold handleSetup, bind at 1 2, allow_setup. destruct (Allow _ _ _) as [[] lim]; [|done]. cbn [negb].
  destruct b as [[[username email] pw]|]; [|done]. cbn [decoded]. unfold or_refuse at 1 3. rewrite !bind_attempt. unfold on at 1 2. cbn [part part_accounts fr_oidc].
  fold (accounts_in f). pose proof (CreateAdmin_cases accept Hash username email pw (kn_now k) (accounts_in f) fl) as H.
  destruct (CreateAdmin _ _ _ _ _ _ _) as [[[]|e] [d1 fl1]]; [|done]. destruct H as [[_ H]|(Hu & org & h & x & _ & -> & _)]; [done|]. intros _. split; [done|].
  match goal with |- context [or_refuse _ ?m ?s ?g ?kk (?f1, ?fl1)] => assert (within peopled (or_refuse Provider m s g kk)) as Hp by (apply handleSetup_rest_over; [apply _|apply _|apply login_keeps]); apply (Hp f1 fl1) end.
  done.
Qed.

(** C9: a the setup happens once: of all the requests that are ever served, one after the
    other and with whatever failing statements, at most one is answered with the
    session of a first administrator, and none when the deployment had a user. *)
Theorem setup_happens_once l f : 0 <= setups l (serving_all l f).1 <= match (accounts_in f).(users) with [] => 1 | _ => 0 end.
Proof using.
  revert f. induction l as [|[q fl] l IH]; intros f; [cbn; by destruct (users _)|]. cbn [serve_all]. pose proof (set_up_once q fl f) as H1. pose proof (serve_peopled q f fl) as H2.
  destruct (serving q (f, fl)) as [r [f1 fl1]]. cbn [fst snd] in *. specialize (IH f1). destruct (serving_all l f1) as [rs f2]. cbn [fst setups] in *. unfold over, kept in H2.
  destruct (set_up (q, fl) r); [destruct (H1 eq_refl) as [-> Hn]; destruct (users (accounts_in f1)); [done|lia]|].
  destruct (users (accounts_in f)); [destruct (users (accounts_in f1)); lia|]. destruct (users (accounts_in f1)); [by destruct H2|lia].
Qed.
End Front.

(** ** Witnesses *)

Definition demo_meta (client : string) : Requestmeta.request := Requestmeta.mk_request client false "" "".
Definition demo_knock (session : option string) (now : Z) : knock := mk_knock (demo_meta "10.0.0.1") session None now.
(** A deployment with one account and no OpenID Connect. *)
Definition demo_front (d : adb) : front string := new_front string (Oidc.mk_odb string d None [] ∅).
Abbreviation at_demo f := (f string (fun p => p) (fun p => p) (fun p => p) (fun _ => Err "none") (fun _ => "") (fun _ _ => Err "none") (fun _ _ => Err "none") (fun _ => None) (fun _ => None)
  (fun _ _ _ => Err "none") demo_accept demo_authenticate demo_hash demo_verify id id Requestmeta.RemoteAddr Requestmeta.TLS "") (only parsing).
(** Guesses, and one right password among them. *)
Definition demo_guesses : list (front_request * faults) :=
  replicate 12 (LogIn (demo_knock None second) (Some ("ann@example.com", "guess")) "raw" "csrf", []) ++
  [(LogIn (demo_knock None second) (Some ("ann@example.com", "secret12")) "raw" "csrf", [])].

Lemma attempts_are_bounded_witness :
  let_ins Requestmeta.RemoteAddr DLogin "10.0.0.1" demo_guesses
    (at_demo serve_all demo_guesses (at_demo serve_all [] (new_front string (Oidc.mk_odb string demo_adb None [] ∅))).2).1 <= 2 * door_limit DLogin.
Proof.
  apply (at_demo attempts_are_bounded (Oidc.mk_odb string demo_adb None [] ∅) [] demo_guesses DLogin "10.0.0.1" second).
  intros c Hc. vm_compute in Hc. repeat destruct Hc as [<-|Hc]; try done; cbn; lia.
Defined.

Definition demo_route : routeDef := mk_route "GET" "/api/sites" "site.read" false ["sites:read"].
Abbreviation demo_login_call := (handleLogin string demo_accept demo_authenticate id Requestmeta.RemoteAddr Requestmeta.TLS (demo_knock None second) (Some ("ann@example.com", "secret12")) "raw" "csrf").
Abbreviation demo_before := (new_front string (Oidc.mk_odb string demo_adb None [] ∅)).
Lemma demo_login_run : run demo_login_call demo_before = (Ok (mk_knocked 200 (CLogin "ann" "csrf") [mk_cookie "webfleet_session" "raw" false 86400] ""), (run demo_login_call demo_before).2).
Proof. vm_compute. reflexivity. Qed.
(** Somebody else logs out meanwhile, and a statement of that is refused. *)
Definition demo_meanwhile : front_request := LogOut (demo_knock (Some "other") minute).
Abbreviation demo_later := (at_demo serve_front demo_meanwhile ((run demo_login_call demo_before).2, [false; true])).2.1.
Lemma login_is_recognised_witness :
  exists a u, demo_authenticate (accounts_of (accounts_in string demo_before)) "ann@example.com" "secret12" = Some a /\ user_by_id a.(ac_id) (accounts_in string demo_before) = Some u /\
    (run (authorize id id demo_route (mk_request (Some "raw") "csrf" "" "") hour) (mk_world (accounts_in string demo_later) (newRateLimiter minute 20 10000))).1 =
      Ok (let_in_as demo_route (mk_sess a.(ac_id) u.(u_email) "csrf" (second + 24 * hour)) (accounts_in string demo_later)).
Proof.
  destruct (at_demo login_is_recognised _ _ _ _ _ _ _ _ demo_login_run) as (a & u & Ha & Hu & _ & _ & H).
  - reflexivity.
  - discriminate.
  - exists a, u. split; [exact Ha|]. split; [exact Hu|].
    apply (H demo_later (star_step _ _ _ _ (star_refl _ _) (at_demo served "raw" a.(ac_id) (second + 24 * hour) demo_meanwhile [false; true] _ eq_refl))
      demo_route (mk_request (Some "raw") "csrf" "" "") (newRateLimiter minute 20 10000) hour eq_refl eq_refl). discriminate.
Defined.
