(* ===== verification/Backups.v ===== *)
(** Backups ([internal/store/store.go]: [Backup], [ValidateDatabase], [Restore];
    [internal/store/pgbackup.go]): the copy of a SQLite database and its return, the
    dump of a PostgreSQL database with the provider's tools.

    The disk is the list of its files and folders, by path.  A database file is what
    [Migrations] opens, next to what the integrity check says of it.  The log that
    SQLite keeps beside an open database is not part of it.  The fault plan refuses
    any system call; a file that is written is first emptied.  The tools of
    PostgreSQL are parameters. *)
From S2P Require Import Prelude GoStr GoPath SqlM DataDir Schema Migrations.
Open Scope string_scope.
Open Scope Z_scope.
Open Scope wf_scope.
Open Scope sql_scope.

(** ** Definitions *)

(** A user and a group. *)
Abbreviation ids := (Z * Z)%type.
Definition EISDIR : string := "is a directory".
Definition ENOTEMPTY : string := "directory not empty".

Section Disk.
Context {T : Type}.

Inductive content := Bytes (b : string) | Sqlite (integrity : string) (d : sdb T).
Inductive fnode := Folder (owner : ids) (mode : Z) | File (owner : ids) (mode : Z) (c : content).
Abbreviation disk := (list (string * fnode)).

Definition at_path (p : string) (fs : disk) : option fnode := snd <$> find_first (fun x => x.1 =?s p) fs.
Definition drop_path (p : string) (fs : disk) : disk := del (fun x => x.1 =?s p) fs.
Definition put_path (p : string) (n : fnode) (fs : disk) : disk := (p, n) :: drop_path p fs.
Definition file_at (p : string) (fs : disk) : option content := match at_path p fs with Some (File _ _ c) => Some c | _ => None end.
(** Strictly inside of a folder. *)
Definition inside (dir p : string) : bool := has_prefix p (dir ++ "/").
Definition folder_empty (dir : string) (fs : disk) : bool := negb (existsb (fun x => inside dir x.1) fs).
Definition is_folder (p : string) (fs : disk) : bool := match at_path p fs with Some (Folder _ _) => true | _ => false end.
Definition in_folder (p : string) (fs : disk) : bool := is_folder (Dir p) fs.

(** *** System calls; [me] is the user and the group of the process *)

Variable me : ids.
Definition stat_path (p : string) : M disk fnode := syscall (fun fs => (match at_path p fs with Some n => Ok n | None => Err ENOENT end, fs)).
Definition mkdir (mode : Z) (p : string) : M disk unit := syscall (fun fs =>
  match at_path p fs with
  | Some (Folder _ _) => (Ok tt, fs)
  | Some (File _ _ _) => (Err ENOTDIR, fs)
  | None => (Ok tt, put_path p (Folder me mode) fs)
  end).
Fixpoint ancestors_from (dir : string) (parts : list string) : list string :=
  match parts with
  | [] => []
  | x :: l => let p := dir ++ "/" ++ x in p :: ancestors_from p l
  end.
(** [os.MkdirAll] of an absolute path. *)
Definition MkdirAll (p : string) (mode : Z) : M disk unit := for_each (ancestors_from "" (List.tl (split_on "/" p))) (mkdir mode).
Definition chmod (p : string) (mode : Z) : M disk unit := syscall (fun fs =>
  match at_path p fs with
  | Some (Folder o _) => (Ok tt, put_path p (Folder o mode) fs)
  | Some (File o _ c) => (Ok tt, put_path p (File o mode c) fs)
  | None => (Err ENOENT, fs)
  end).
Definition chown (p : string) (owner : ids) : M disk unit := syscall (fun fs =>
  match at_path p fs with
  | Some (Folder _ m) => (Ok tt, put_path p (Folder owner m) fs)
  | Some (File _ m c) => (Ok tt, put_path p (File owner m c) fs)
  | None => (Err ENOENT, fs)
  end).
Definition remove (p : string) : M disk unit := syscall (fun fs =>
  match at_path p fs with
  | Some (Folder _ _) => if folder_empty p fs then (Ok tt, drop_path p fs) else (Err ENOTEMPTY, fs)
  | Some (File _ _ _) => (Ok tt, drop_path p fs)
  | None => (Err ENOENT, fs)
  end).
Definition read_path (p : string) : M disk content := syscall (fun fs =>
  (match at_path p fs with Some (File _ _ c) => Ok c | Some (Folder _ _) => Err EISDIR | None => Err ENOENT end, fs)).
(** Opening for writing empties the file and leaves the mode of one that exists. *)
Definition create_path (p : string) (mode : Z) : M disk unit := syscall (fun fs =>
  match at_path p fs with
  | Some (File o m _) => (Ok tt, put_path p (File o m (Bytes "")) fs)
  | Some (Folder _ _) => (Err EISDIR, fs)
  | None => if in_folder p fs then (Ok tt, put_path p (File me mode (Bytes "")) fs) else (Err ENOENT, fs)
  end).
Definition fill_path (p : string) (c : content) : M disk unit := syscall (fun fs =>
  match at_path p fs with Some (File o m _) => (Ok tt, put_path p (File o m c) fs) | _ => (Err ENOENT, fs) end).
Definition write_path (p : string) (c : content) (mode : Z) : M disk unit := create_path p mode ;;; fill_path p c.
(** [rename(2)]: a file replaces a file, a folder an empty folder; what is inside of
    a folder goes with it. *)
Definition moved (a b : string) (p : string) : string :=
  if p =?s a then b else if inside a p then b ++ substring (String.length a) (String.length p - String.length a) p else p.
Definition renamed (a b : string) (fs : disk) : result unit * disk :=
  match at_path a fs with
  | None => (Err ENOENT, fs)
  | Some (File o m c) =>
      if is_folder b fs then (Err EISDIR, fs) else
      if negb (in_folder b fs) then (Err ENOENT, fs) else (Ok tt, put_path b (File o m c) (drop_path a fs))
  | Some (Folder _ _) =>
      if match at_path b fs with Some (File _ _ _) => true | _ => false end then (Err ENOTDIR, fs) else
      if a =?s b then (Ok tt, fs) else
      if inside a b then (Err "invalid argument", fs) else
      if negb (in_folder b fs) then (Err ENOENT, fs) else
      if negb (folder_empty b fs) then (Err ENOTEMPTY, fs) else
      (Ok tt, List.map (fun x => (moved a b x.1, x.2)) (drop_path b fs))
  end.
Definition rename (a b : string) : M disk unit := syscall (renamed a b).

(** *** SQLite *)

Variable cwd : option string.
(** [filepath.Abs]. *)
Definition abs_path (p : string) : result string :=
  if IsAbs p then Ok (Clean p) else match cwd with Some d => Ok (Join2 d p) | None => Err "getwd: no such file or directory" end.

(** [strings.ReplaceAll(abs, ', '')], and SQLite's reading of the literal: the text
    up to the closing quote. *)
Definition apostrophe : ascii := "039"%char.
Fixpoint double_quotes (s : string) : string :=
  match s with
  | "" => ""
  | String c s' => if Ascii.eqb c apostrophe then String c (String c (double_quotes s')) else String c (double_quotes s')
  end.
Fixpoint read_literal (s : string) : option (string * string) :=
  match s with
  | "" => None
  | String c s' =>
      if Ascii.eqb c apostrophe then
        match s' with
        | String c' s'' => if Ascii.eqb c' apostrophe then (fun x => (String c x.1, x.2)) <$> read_literal s'' else Some ("", s')
        | "" => Some ("", "")
        end
      else (fun x => (String c x.1, x.2)) <$> read_literal s'
  end.
Definition vacuum_into (path : string) : string := "VACUUM INTO '" ++ double_quotes path ++ "'".
(** The statement writes the rows of the open database to a new file. *)
Definition exec_vacuum (st : sdb T) (q : string) : M disk unit :=
  match read_literal (trim_prefix q "VACUUM INTO '") with
  | Some (path, "") =>
      let* c := attempt (read_path path) in
      match c with
      | Ok (Bytes "") | Err _ => create_path path 420 ;;; fill_path path (Sqlite "ok" st)
      | Ok _ => throw "output file already exists"
      end
  | _ => throw "syntax error"
  end.

(** [Backup] of the open database [st]. *)
Definition Backup (st : sdb T) (destination : string) : M disk unit :=
  if trim_space destination =?s "" then throw "backup destination is required" else
  let* abs := lift (abs_path destination) in
  MkdirAll (Dir abs) 448 ;;;
  ignore tt (remove abs) ;;;
  within_step "backup sqlite database" (exec_vacuum st (vacuum_into abs)) ;;;
  within_step "secure backup" (chmod abs 384).

Definition ValidateDatabase (path : string) : M disk unit :=
  let* _n := stat_path path in
  let* c := read_path path in
  match c with
  | Bytes "" => ret tt
  | Bytes _ => throw "file is not a database"
  | Sqlite ok d =>
      if negb (ok =?s "ok") then throw ("sqlite integrity check failed: " ++ ok) else
      if schemaVersion <? d.(sd_mirror)
      then throw ("backup schema " ++ format_int d.(sd_mirror) ++ " is newer than supported " ++ format_int schemaVersion) else ret tt
  end.

Definition db_path (dataDir : string) : string := Join2 dataDir "webfleet.db".
(** The part of [Restore] about the database there is. *)
Definition put_old_aside (dst tmp bak : string) : M disk unit :=
  let* old := attempt (stat_path dst) in
  match old with
  | Ok _ =>
      let* r := attempt (rename dst bak) in
      match r with Ok _ => ret tt | Err e => ignore tt (remove tmp) ;;; throw e end
  | Err _ => ret tt
  end.
(** [Restore]; [stamp] is the second it runs in. *)
Definition Restore (dataDir source stamp : string) : M disk unit :=
  within_step "validate restore source" (ValidateDatabase source) ;;;
  MkdirAll dataDir 448 ;;;
  ignore tt (chmod dataDir 448) ;;;
  let dst := db_path dataDir in
  let tmp := dst ++ ".restore" in
  let* b := read_path source in
  write_path tmp b 384 ;;;
  put_old_aside dst tmp (dst ++ ".before-restore-" ++ stamp) ;;;
  rename tmp dst.

(** *** PostgreSQL *)

(** What [parsePGDSN] reads of a URL. *)
Record pg_url := mk_pg_url { pu_host : string; pu_port : string; pu_user : string; pu_path : string; pu_password : option string; pu_sslmode : string }.
Record pgEndpoint := mk_endpoint { ep_host : string; ep_port : string; ep_user : string; ep_pass : string; ep_db : string; ep_sslmode : string }.
Variable parse_dsn : string -> result pg_url.
Definition parsePGDSN (dsn : string) : result pgEndpoint :=
  match parse_dsn dsn with
  | Err e => Err ("parse PostgreSQL DSN: " ++ e)
  | Ok u =>
      let db := trim_prefix u.(pu_path) "/" in
      if (u.(pu_user) =?s "") || (db =?s "") then Err "PostgreSQL DSN must include user and database" else
      Ok (mk_endpoint u.(pu_host) (if u.(pu_port) =?s "" then "5432" else u.(pu_port)) u.(pu_user)
        (match u.(pu_password) with Some p => p | None => "" end) db u.(pu_sslmode))
  end.
Definition pgToolEnv (environ : list string) (ep : pgEndpoint) : list string :=
  (environ ++ [("PGPASSWORD=" ++ ep.(ep_pass))%string] ++ (if ep.(ep_sslmode) =?s "" then [] else [("PGSSLMODE=" ++ ep.(ep_sslmode))%string]))%list.
(** [exec.LookPath]; [os.Environ]; what a tool with its arguments and environment
    leaves in the file it writes, if it gets there, and, when it fails, the error and
    what it printed. *)
Variable look_path : string -> bool.
Variable environ : list string.
Variable pg_tool : string -> list string -> list string -> option content * option (string * string).
Definition connection (ep : pgEndpoint) : list string := ["-h"; ep.(ep_host); "-p"; ep.(ep_port); "-U"; ep.(ep_user); "-d"; ep.(ep_db)].
Definition ended (name : string) (failure : option (string * string)) : M disk unit :=
  match failure with None => ret tt | Some (e, printed) => throw (name ++ " failed: " ++ e ++ ": " ++ trim_space printed) end.

Definition dump_to (ep : pgEndpoint) (tmp abs : string) : M disk unit :=
  let '(out, r) := pg_tool "pg_dump" (connection ep ++ ["-F"; "c"; "-f"; tmp; "--no-owner"; "--no-privileges"])%list (pgToolEnv environ ep) in
  match out with Some c => ignore tt (write_path tmp c 420) | None => ret tt end ;;;
  ended "pg_dump" r ;;;
  chmod tmp 384 ;;;
  rename tmp abs.
Definition PostgresBackup (dsn dest : string) : M disk unit :=
  let* ep := lift (parsePGDSN dsn) in
  if negb (look_path "pg_dump") then throw "pg_dump not found: PostgreSQL backup requires the PostgreSQL client tools" else
  let* abs := lift (abs_path dest) in
  MkdirAll (Dir abs) 448 ;;;
  let* r := attempt (dump_to ep (abs ++ ".tmp") abs) in
  ignore tt (remove (abs ++ ".tmp")) ;;;
  lift r.
Definition PostgresRestore (dsn src : string) : M disk unit :=
  let* ep := lift (parsePGDSN dsn) in
  if negb (look_path "pg_restore") then throw "pg_restore not found: PostgreSQL restore requires the PostgreSQL client tools" else
  ended "pg_restore" (pg_tool "pg_restore" (connection ep ++ ["--clean"; "--if-exists"; "--no-owner"; "--no-privileges"; src])%list (pgToolEnv environ ep)).2.
End Disk.

(** ** Lemmas *)

(** *** Paths *)

Lemma longer_path (p s : string) : s <> "" -> p ++ s <> p.
Proof. intros H E. apply (f_equal String.length) in E. rewrite append_length in E. destruct s; [done|cbn in E; lia]. Qed.
Lemma other_suffix (p s t : string) : s <> t -> p ++ s <> p ++ t.
Proof. intros H E. apply H. induction p as [|c p IH]; [done|]. injection E as E. auto. Qed.
Lemma read_doubled (p rest : string) : has_prefix rest (String apostrophe "") = false ->
  read_literal (double_quotes p ++ String apostrophe rest) = Some (p, rest).
Proof.
  intros H. induction p as [|c p IH]; cbn [double_quotes].
  - destruct rest as [|d rest]; [done|]. change ("" ++ String apostrophe (String d rest)) with (String apostrophe (String d rest)). cbn [read_literal]. rewrite Ascii.eqb_refl.
    destruct (Ascii.eqb_spec d apostrophe) as [->|Hd]; [by destruct rest|done].
  - destruct (Ascii.eqb_spec c apostrophe) as [->|Hc].
    + rewrite !append_cons. cbn [read_literal]. by rewrite !Ascii.eqb_refl, IH.
    + rewrite append_cons. cbn [read_literal]. destruct (Ascii.eqb_spec c apostrophe); [done|]. by rewrite IH.
Qed.
Lemma vacuum_path (p : string) : read_literal (trim_prefix (vacuum_into p) "VACUUM INTO '") = Some (p, "").
Proof. unfold vacuum_into. rewrite trim_prefix_app. by apply read_doubled. Qed.

(** *** Files *)

Section DiskLemmas.
Context {T : Type}.
Abbreviation disk := (list (string * fnode (T := T))).
Lemma at_put p n q (fs : disk) : at_path q (put_path p n fs) = if q =?s p then Some n else at_path q fs.
Proof.
  unfold at_path, put_path, drop_path. cbn. rewrite String.eqb_sym. destruct (q =?s p) eqn:E; [done|]. f_equal. apply find_first_del_keep.
  intros x _ Hx. apply String.eqb_neq in E. destruct (x.1 =?s p) eqn:Ep; [|done]. apply String.eqb_eq in Ep, Hx. congruence.
Qed.
Lemma at_drop p q (fs : disk) : at_path q (drop_path p fs) = if q =?s p then None else at_path q fs.
Proof.
  unfold at_path, drop_path. destruct (q =?s p) eqn:E.
  - apply String.eqb_eq in E as ->. by rewrite find_first_del_gone.
  - f_equal. apply find_first_del_keep. intros x _ Hx. apply String.eqb_neq in E. destruct (x.1 =?s p) eqn:Ep; [|done]. apply String.eqb_eq in Ep, Hx. congruence.
Qed.
Definition content_of (n : fnode (T := T)) : option (content (T := T)) := match n with File _ _ c => Some c | Folder _ _ => None end.
Lemma file_at_of q (fs : disk) : file_at q fs = at_path q fs ≫= content_of.
Proof. unfold file_at. by destruct (at_path q fs) as [[]|]. Qed.
Lemma file_put p n q (fs : disk) : file_at q (put_path p n fs) = if q =?s p then content_of n else file_at q fs.
Proof. rewrite !file_at_of, at_put. by destruct (q =?s p). Qed.
Lemma file_drop p q (fs : disk) : file_at q (drop_path p fs) = if q =?s p then None else file_at q fs.
Proof. rewrite !file_at_of, at_drop. by destruct (q =?s p). Qed.
Lemma inside_spec d p : inside d p = true <-> exists r, p = d ++ String "/" r.
Proof.
  unfold inside, has_prefix. rewrite prefix_spec. split; intros (r & ->); exists r; by rewrite string_app_assoc.
Qed.
(** Two folders with a path in common are one, or one is in the other. *)
Lemma prefixes_meet a : forall b r s, a ++ String "/" r = b ++ String "/" s -> a = b \/ inside a b = true \/ inside b a = true.
Proof.
  induction a as [|c a IH]; intros [|d b] r s E; [by left| | |].
  - right. left. injection E as <- E. apply inside_spec. by exists b.
  - right. right. injection E as -> E. apply inside_spec. by exists a.
  - injection E as <- E. rewrite !inside_spec. destruct (IH b r s E) as [->|[H|H]]; [by left|right; left|right; right]; apply inside_spec in H as (t & ->); by exists t.
Qed.
Lemma moved_inside a b r : moved a b (a ++ String "/" r) = b ++ String "/" r.
Proof.
  unfold moved. assert ((a ++ String "/" r =? a)%string = false) as -> by by apply String.eqb_neq, longer_path.
  rewrite (proj2 (inside_spec a _) (ex_intro _ r eq_refl)). f_equal. rewrite append_length.
  replace (String.length a + String.length (String "/" r) - String.length a)%nat with (String.length (String "/" r)) by lia. by rewrite substring_app, substring_all.
Qed.
Lemma moved_self a b : moved a b a = b.
Proof. unfold moved. by rewrite String.eqb_refl. Qed.
Lemma moved_other a b p : p <> a -> inside a p = false -> moved a b p = p.
Proof. intros Hp Hi. unfold moved. apply String.eqb_neq in Hp. by rewrite Hp, Hi. Qed.
Lemma moved_cases a b p : (p = a /\ moved a b p = b) \/ (exists r, p = a ++ String "/" r /\ moved a b p = b ++ String "/" r) \/ (p <> a /\ inside a p = false /\ moved a b p = p).
Proof.
  destruct (String.eqb_spec p a) as [->|Hp]; [left; by rewrite moved_self|]. right. destruct (inside a p) eqn:E; [left|right; by rewrite moved_other].
  apply inside_spec in E as (r & ->). exists r. by rewrite moved_inside.
Qed.
Lemma at_map_moved a b q q' (fs : disk) : (forall x, In x fs -> (moved a b x.1 =? q)%string = (x.1 =? q')%string) ->
  at_path q (List.map (fun x => (moved a b x.1, x.2)) fs) = at_path q' fs.
Proof.
  intros H. unfold at_path, find_first. induction fs as [|x fs IH]; [done|]. cbn [List.map List.find fst]. rewrite (H x (or_introl eq_refl)).
  destruct (x.1 =? q')%string; [done|]. apply IH. intros y Hy. apply H. by right.
Qed.
Lemma folder_empty_spec b (fs : disk) x : folder_empty b fs = true -> In x fs -> inside b x.1 = false.
Proof. unfold folder_empty. rewrite negb_true_iff, existsb_none_iff. auto. Qed.
(** After a folder was renamed: what was in it is at the new place. *)
Lemma at_renamed a b r (fs : disk) : folder_empty b fs = true -> inside a b = false -> a <> b ->
  at_path (b ++ String "/" r) (List.map (fun x => (moved a b x.1, x.2)) (drop_path b fs)) = at_path (a ++ String "/" r) fs.
Proof.
  intros He Hi Hab. rewrite (at_map_moved a b _ (a ++ String "/" r)).
  - rewrite at_drop. destruct (String.eqb_spec (a ++ String "/" r) b) as [E|]; [|done]. by rewrite <- E, (proj2 (inside_spec a _)) in Hi by by exists r.
  - intros x Hx. apply in_del in Hx as [Hx _]. pose proof (folder_empty_spec _ _ _ He Hx) as Hb.
    destruct (moved_cases a b x.1) as [[-> ->]|[(s & -> & ->)|(Hn & Hia & ->)]].
    + rewrite !(proj2 (String.eqb_neq _ _)); [done| |]; intros E; symmetry in E; by apply longer_path in E.
    + destruct (String.eqb_spec (b ++ String "/" s) (b ++ String "/" r)) as [E|E], (String.eqb_spec (a ++ String "/" s) (a ++ String "/" r)) as [E'|E']; try done.
      * destruct (string_dec (String "/" s) (String "/" r)) as [D|D]; [by injection D as ->|]. by apply (other_suffix b) in D.
      * destruct (string_dec (String "/" s) (String "/" r)) as [D|D]; [by injection D as ->|]. by apply (other_suffix a) in D.
    + rewrite !(proj2 (String.eqb_neq _ _)); [done| |]; intros E.
      * by rewrite E, (proj2 (inside_spec a _)) in Hia by by exists r.
      * by rewrite E, (proj2 (inside_spec b _)) in Hb by by exists r.
Qed.
Lemma at_renamed_self a b (fs : disk) : inside a b = false -> a <> b ->
  at_path b (List.map (fun x => (moved a b x.1, x.2)) (drop_path b fs)) = at_path a fs.
Proof.
  intros Hi Hab. rewrite (at_map_moved a b _ a).
  - rewrite at_drop. by rewrite (proj2 (String.eqb_neq _ _) Hab).
  - intros x Hx. apply in_del in Hx as [_ Hx]. apply String.eqb_neq in Hx. destruct (moved_cases a b x.1) as [[-> ->]|[(s & -> & ->)|(Hn & Hia & ->)]].
    + by rewrite !String.eqb_refl.
    + by rewrite !(proj2 (String.eqb_neq _ _)) by by apply longer_path.
    + by rewrite !(proj2 (String.eqb_neq _ _)).
Qed.
(** What is neither at the old nor at the new place stays. *)
Lemma at_not_renamed a b q (fs : disk) : q <> a -> q <> b -> inside a q = false -> inside b q = false ->
  at_path q (List.map (fun x => (moved a b x.1, x.2)) (drop_path b fs)) = at_path q fs.
Proof.
  intros Ha Hb Hia Hib. rewrite (at_map_moved a b _ q).
  - rewrite at_drop. by rewrite (proj2 (String.eqb_neq _ _) Hb).
  - intros x Hx. destruct (moved_cases a b x.1) as [[-> ->]|[(s & -> & ->)|(Hn & Hi & ->)]]; [| |done].
    + by rewrite !(proj2 (String.eqb_neq _ _)).
    + rewrite !(proj2 (String.eqb_neq _ _)); [done| |]; intros E; subst q; [by rewrite (proj2 (inside_spec a _)) in Hia by by exists s|by rewrite (proj2 (inside_spec b _)) in Hib by by exists s].
Qed.
Lemma at_renamed_gone a b r (fs : disk) : folder_empty b fs = true -> inside a b = false -> inside b a = false -> a <> b ->
  at_path (a ++ String "/" r) (List.map (fun x => (moved a b x.1, x.2)) (drop_path b fs)) = None.
Proof.
  intros He Hi Hi' Hab. unfold at_path. destruct (find_first _ _) as [y|] eqn:E; [|done]. exfalso. apply find_first_Some in E as [Hy Hq]. apply String.eqb_eq in Hq.
  apply List.in_map_iff in Hy as (x & <- & Hx). cbn [fst] in Hq. apply in_del in Hx as [Hx _].
  destruct (moved_cases a b x.1) as [[_ Hm]|[(s & _ & Hm)|(Hn & Hia & Hm)]]; rewrite Hm in Hq.
  - by rewrite Hq, (proj2 (inside_spec a _)) in Hi by by exists r.
  - destruct (prefixes_meet a b r s (eq_sym Hq)) as [->|[H|H]]; congruence.
  - by rewrite Hq, (proj2 (inside_spec a _)) in Hia by by exists r.
Qed.
Lemma suffix_not_inside d s : has_prefix s "/" = false -> inside d (d ++ s) = false.
Proof.
  intros Hs. apply not_true_iff_false. rewrite inside_spec. intros (r & E). destruct (string_dec s (String "/" r)) as [->|D]; [|by apply (other_suffix d) in D].
  cbn in Hs. by destruct r.
Qed.
End DiskLemmas.

(** *** Runs *)

(** [m] from a state that satisfies [P]; when [quiet], no call is refused. *)
Definition reaches {S A} (quiet : bool) (P : S -> Prop) (m : M S A) (Q : result A -> S -> Prop) : Prop :=
  forall s fl, (quiet = true -> fl = []) -> P s -> Q (m (s, fl)).1 (m (s, fl)).2.1 /\ (quiet = true -> (m (s, fl)).2.2 = []).
Section Reaches.
Context {S : Type} (quiet : bool).
Lemma reaches_ret {A} (P : S -> Prop) (a : A) (Q : result A -> S -> Prop) : (forall s, P s -> Q (Ok a) s) -> reaches quiet P (ret a) Q.
Proof. intros H s fl Hf Hs. split; [by apply H|done]. Qed.
Lemma reaches_throw {A} (P : S -> Prop) e (Q : result A -> S -> Prop) : (forall s, P s -> Q (Err e) s) -> reaches quiet P (throw e) Q.
Proof. intros H s fl Hf Hs. split; [by apply H|done]. Qed.
Lemma reaches_lift {A} (P : S -> Prop) (r : result A) (Q : result A -> S -> Prop) : (forall s, P s -> Q r s) -> reaches quiet P (lift r) Q.
Proof. intros H s fl Hf Hs. destruct r; split; try done; by apply H. Qed.
Lemma reaches_bind {A B} (P : S -> Prop) (m : M S A) (k : A -> M S B) (P' : A -> S -> Prop) (Q : result B -> S -> Prop) :
  reaches quiet P m (fun r s => match r with Ok a => P' a s | Err e => Q (Err e) s end) ->
  (forall a, reaches quiet (P' a) (k a) Q) -> reaches quiet P (bind m k) Q.
Proof.
  intros Hm Hk s fl Hf Hs. unfold bind. destruct (Hm s fl Hf Hs) as [H1 H2]. destruct (m (s, fl)) as [[a|e] [t g]]; [|by split].
  by apply Hk.
Qed.
Lemma reaches_syscall {A} (P : S -> Prop) (f : S -> result A * S) (Q : result A -> S -> Prop) :
  (forall s, P s -> Q (f s).1 (f s).2) -> (quiet = false -> forall s, P s -> Q (Err EIO) s) -> reaches quiet P (syscall f) Q.
Proof.
  intros H He s fl Hf Hs. unfold syscall. destruct fl as [|[] fl].
  - specialize (H s Hs). by destruct (f s).
  - destruct quiet; [by specialize (Hf eq_refl)|]. split; [by apply He|done].
  - specialize (H s Hs). destruct (f s) as [r t]. split; [done|]. intros Hq. by specialize (Hf Hq).
Qed.
Lemma reaches_attempt {A} (P : S -> Prop) (m : M S A) (Q : result A -> S -> Prop) :
  reaches quiet P m Q -> reaches quiet P (attempt m) (fun r s => match r with Ok x => Q x s | Err _ => False end).
Proof. intros H s fl Hf Hs. destruct (H s fl Hf Hs) as [H1 H2]. unfold attempt. by destruct (m (s, fl)) as [r [t g]]. Qed.
Lemma reaches_ignore {A} (P : S -> Prop) (a : A) (m : M S A) (Q : S -> Prop) :
  reaches quiet P m (fun _ => Q) -> reaches quiet P (ignore a m) (fun r s => match r with Ok _ => Q s | Err _ => False end).
Proof. intros H s fl Hf Hs. destruct (H s fl Hf Hs) as [H1 H2]. unfold ignore. by destruct (m (s, fl)) as [[x|e] [t g]]. Qed.
Lemma reaches_step {A} (P : S -> Prop) what (m : M S A) (Q : result A -> S -> Prop) :
  reaches quiet P m (fun r s => match r with Ok a => Q (Ok a) s | Err e => Q (Err (what ++ ": " ++ e)) s end) -> reaches quiet P (within_step what m) Q.
Proof. intros H s fl Hf Hs. destruct (H s fl Hf Hs) as [H1 H2]. unfold within_step. by destruct (m (s, fl)) as [[x|e] [t g]]. Qed.
Lemma reaches_conseq {A} (P P' : S -> Prop) (m : M S A) (Q Q' : result A -> S -> Prop) :
  reaches quiet P m Q -> (forall s, P' s -> P s) -> (forall r s, Q r s -> Q' r s) -> reaches quiet P' m Q'.
Proof. intros H HP HQ s fl Hf Hs. destruct (H s fl Hf (HP s Hs)) as [H1 H2]. split; [by apply HQ|done]. Qed.
Lemma reaches_for_each {A} (I : S -> Prop) (Q : result unit -> S -> Prop) (l : list A) (f : A -> M S unit) :
  (forall x, reaches quiet I (f x) (fun r s => match r with Ok _ => I s | Err e => Q (Err e) s end)) -> (forall s, I s -> Q (Ok tt) s) -> reaches quiet I (for_each l f) Q.
Proof.
  intros Hf HQ. induction l as [|x l IH]; cbn [for_each]; [by apply reaches_ret|]. eapply reaches_bind; [apply Hf|]. intros u. apply IH.
Qed.
Lemma reaches_assuming {A} (P : S -> Prop) (X : Prop) (m : M S A) (Q : result A -> S -> Prop) : (X -> reaches quiet P m Q) -> reaches quiet (fun s => P s /\ X) m Q.
Proof. intros H s fl Hf [Hs Hx]. by apply H. Qed.
End Reaches.

(** *** Restoring *)

Section Restoring.
Context {T : Type} (me : ids) (cwd : option string).
Abbreviation disk := (list (string * fnode (T := T))).
(** An assertion about the contents of files, and nothing else. *)
Definition about_files (A : disk -> Prop) : Prop := forall fs fs', (forall p, file_at p fs' = file_at p fs) -> A fs -> A fs'.
Lemma looks_keep {X} quiet (A : disk -> Prop) (f : disk -> result X) :
  reaches quiet A (syscall (fun fs => (f fs, fs))) (fun r fs => A fs /\ match r with Ok x => f fs = Ok x | Err _ => quiet = true -> is_ok (f fs) = false end).
Proof. apply reaches_syscall; [|intros -> fs Hs; by split]. intros fs Hs. cbn. split; [done|]. by destruct (f fs). Qed.
Lemma mkdir_keeps quiet A mode p : about_files A -> reaches quiet A (mkdir me mode p) (fun _ => A).
Proof.
  intros HA. apply reaches_syscall; [|done]. intros fs Hs. destruct (at_path p fs) as [[]|] eqn:E; try done. cbn. apply (HA fs); [|done].
  intros q. rewrite file_put. destruct (String.eqb_spec q p) as [->|]; [|done]. unfold file_at. by rewrite E.
Qed.
Lemma MkdirAll_keeps quiet A p mode : about_files A -> reaches quiet A (MkdirAll me p mode) (fun _ => A).
Proof.
  intros HA. unfold MkdirAll. apply reaches_for_each; [|done]. intros x. eapply reaches_conseq; [by apply mkdir_keeps|done|]. by intros [].
Qed.
Lemma chmod_keeps quiet A p mode : about_files A -> reaches quiet A (chmod p mode) (fun _ => A).
Proof.
  intros HA. apply reaches_syscall; [|done]. intros fs Hs. destruct (at_path p fs) as [n|] eqn:E; [|done].
  destruct n; cbn; (apply (HA fs); [|done]); intros q; rewrite file_put; (destruct (String.eqb_spec q p) as [->|]; [|done]); unfold file_at; by rewrite E.
Qed.
Definition usable (c : content (T := T)) : Prop :=
  match c with Bytes b => b = "" | Sqlite ok d => ok = "ok" /\ d.(sd_mirror) <= schemaVersion end.
Lemma ValidateDatabase_keeps quiet (A : disk -> Prop) path : reaches quiet A (ValidateDatabase path) (fun r fs => A fs /\ match r with Ok _ => exists c, file_at path fs = Some c /\ usable c | Err _ => True end).
Proof.
  unfold ValidateDatabase. eapply reaches_bind with (P' := fun _ => A).
  - eapply reaches_conseq; [apply looks_keep|done|]. intros [x|e] fs [H _]; [exact H|by split].
  - intros n. eapply reaches_bind with (P' := fun c fs => A fs /\ file_at path fs = Some c).
    + eapply reaches_conseq; [apply looks_keep|done|]. intros [x|e] fs [H E]; split; try done. cbn in E. unfold file_at. destruct (at_path path fs) as [[]|]; congruence.
    + intros [b|ok d].
      * destruct b; [apply reaches_ret|apply reaches_throw]; intros fs [H E]; split; try done. by eexists.
      * destruct (negb (ok =?s "ok")) eqn:Eok; [apply reaches_throw; by intros fs []|]. destruct (schemaVersion <? sd_mirror d) eqn:Ev; [apply reaches_throw; by intros fs []|].
        apply reaches_ret. intros fs [H E]. split; [done|]. eexists. split; [exact E|]. apply negb_false_iff, String.eqb_eq in Eok. apply Z.ltb_ge in Ev. by split.
Qed.
Lemma write_keeps quiet (fs0 : disk) p c mode : reaches quiet (fun fs => forall q, q <> p -> file_at q fs = file_at q fs0) (write_path me p c mode)
  (fun r fs => (forall q, q <> p -> file_at q fs = file_at q fs0) /\ match r with Ok _ => file_at p fs = Some c | Err _ => True end).
Proof.
  assert (forall n (fs : disk), (forall q, q <> p -> file_at q fs = file_at q fs0) -> forall q, q <> p -> file_at q (put_path p n fs) = file_at q fs0) as Hput.
  { intros n fs H q Hq. rewrite file_put, (proj2 (String.eqb_neq _ _) Hq). by apply H. }
  unfold write_path. eapply reaches_bind with (P' := fun _ fs => forall q, q <> p -> file_at q fs = file_at q fs0).
  - apply reaches_syscall; [|done]. intros fs H. destruct (at_path p fs) as [[]|]; [by split|cbn [fst snd]; by apply Hput|]. destruct (in_folder p fs); [cbn [fst snd]; by apply Hput|by split].
  - intros _. apply reaches_syscall; [|done]. intros fs H. destruct (at_path p fs) as [[]|]; [done| |done]. cbn [fst snd]. split; [by apply Hput|]. by rewrite file_put, String.eqb_refl.
Qed.
(** A rename either does nothing, or moves a file, or moves a folder. *)
Lemma renamed_cases a b (fs : disk) : let r := (renamed a b fs).1 in let fs' := (renamed a b fs).2 in
  fs' = fs /\ (r = Ok tt -> file_at a fs = None /\ a = b) \/
  r = Ok tt /\ (exists c, file_at a fs = Some c /\ forall q, file_at q fs' = if q =? b then Some c else if q =? a then None else file_at q fs)%string \/
  r = Ok tt /\ file_at a fs = None /\ (forall q, q <> a -> q <> b -> inside a q = false -> inside b q = false -> file_at q fs' = file_at q fs).
Proof.
  unfold renamed. destruct (at_path a fs) as [[o m|o m c]|] eqn:Ea; [| |by left].
  - assert (file_at a fs = None) as Hn by (unfold file_at; by rewrite Ea). destruct (match at_path b fs with Some (File _ _ _) => true | _ => false end); [by left|].
    destruct (String.eqb_spec a b) as [->|Hab]; [by left|]. destruct (inside a b); [by left|]. destruct (negb (in_folder b fs)); [by left|]. destruct (negb (folder_empty b fs)); [by left|].
    right. right. split; [done|]. split; [done|]. intros q H1 H2 H3 H4. cbn [snd]. rewrite !file_at_of. by rewrite at_not_renamed.
  - destruct (is_folder b fs); [by left|]. destruct (negb (in_folder b fs)); [by left|]. right. left. split; [done|]. exists c.
    split; [unfold file_at; by rewrite Ea|]. intros q. cbn [snd]. by rewrite file_put, file_drop.
Qed.
End Restoring.

(** ** Properties *)

Section Restore.
Context {T : Type} (me : ids).
Abbreviation disk := (list (string * fnode (T := T))).
Section Names.
Context (dst tmp bak source : string) (fs0 : disk).
(** Everything else is as it was. *)
Definition others_same (fs : disk) : Prop :=
  forall p, p <> dst -> p <> tmp -> p <> bak -> inside dst p = false -> inside bak p = false -> file_at p fs = file_at p fs0.
(** The database there was is where it was, or put aside. *)
Definition still_there (fs : disk) : Prop := forall x, file_at dst fs0 = Some x -> file_at dst fs = Some x \/ file_at bak fs = Some x.
Definition put_aside (fs : disk) : Prop := forall x, file_at dst fs0 = Some x -> file_at bak fs = Some x.
(** The copy is written, the database is put aside. *)
Definition ready_to_swap (quiet : bool) (c : content) (fs : disk) : Prop :=
  others_same fs /\ file_at tmp fs = Some c /\ still_there fs /\ (quiet = true -> put_aside fs).
Hypothesis tmp_dst : tmp <> dst.
Hypothesis bak_dst : bak <> dst.
Hypothesis tmp_bak : tmp <> bak.
Hypothesis tmp_in_dst : inside dst tmp = false.
Hypothesis tmp_in_bak : inside bak tmp = false.
Lemma save_old quiet c : reaches quiet (fun fs => (forall q, q <> tmp -> file_at q fs = file_at q fs0) /\ file_at tmp fs = Some c)
  (put_old_aside dst tmp bak) (fun r fs => match r with Ok _ => ready_to_swap quiet c fs | Err _ => others_same fs /\ still_there fs end).
Proof using tmp_in_dst tmp_in_bak tmp_dst tmp_bak bak_dst.
  set (A := fun fs : disk => (forall q, q <> tmp -> file_at q fs = file_at q fs0) /\ file_at tmp fs = Some c).
  assert (forall fs, A fs -> others_same fs) as Hothers by (intros fs [H _] p _ Hp _ _ _; by apply H).
  assert (forall fs, A fs -> still_there fs) as Hstill by (intros fs [H _] x Hx; left; rewrite H; [done|by apply not_eq_sym]).
  unfold put_old_aside. eapply reaches_bind with (P' := fun r fs => A fs /\ match r with Ok _ => True | Err _ => quiet = true -> file_at dst fs0 = None end).
  - eapply reaches_conseq; [apply reaches_attempt, (looks_keep quiet A)|done|]. intros [[n|e]|e] fs; [by intros [H _]| |done]. intros [H Hq]. split; [done|]. intros Hquiet.
    specialize (Hq Hquiet). destruct H as [H _]. rewrite <- H by by apply not_eq_sym. unfold file_at. by destruct (at_path dst fs).
  - intros [n|e].
    + eapply reaches_bind with (P' := fun r fs => match r with Ok _ => ready_to_swap quiet c fs | Err _ => A fs end).
      * eapply reaches_conseq with (P := A); [apply reaches_attempt, (reaches_syscall quiet A _ (fun r fs => match r with Ok _ => ready_to_swap quiet c fs | Err _ => A fs end))|by intros fs []|by intros [[]|]].
        -- intros fs HA. destruct (renamed_cases dst bak fs) as [[Hfs Hr]|[(Hr & x & Hx & Hq)|(Hr & Hn & Hq)]].
           ++ rewrite Hfs. destruct (renamed dst bak fs).1 as [[]|e]; [|done]. destruct (Hr eq_refl) as [_ E]. by rewrite E in bak_dst.
           ++ rewrite Hr. assert (file_at dst fs0 = Some x) as Hx0 by (destruct HA as [H _]; rewrite <- H; [done|by apply not_eq_sym]).
              assert (file_at bak (renamed dst bak fs).2 = Some x) as Hb by by rewrite Hq, String.eqb_refl.
              split_and!.
              ** intros p H1 H2 H3 _ _. rewrite Hq, !(proj2 (String.eqb_neq _ _)) by done. by apply HA.
              ** rewrite Hq, !(proj2 (String.eqb_neq _ _)) by done. apply HA.
              ** intros y Hy. right. congruence.
              ** intros _ y Hy. congruence.
           ++ rewrite Hr. assert (file_at dst fs0 = None) as Hx0 by (destruct HA as [H _]; rewrite <- H; [done|by apply not_eq_sym]).
              split_and!.
              ** intros p H1 H2 H3 H4 H5. rewrite Hq by done. by apply HA.
              ** rewrite Hq by done. apply HA.
              ** intros y Hy. congruence.
              ** intros _ y Hy. congruence.
        -- done.
      * intros [u|e]; [by apply reaches_ret|]. eapply reaches_bind with (P' := fun _ fs => others_same fs /\ still_there fs).
        -- eapply reaches_conseq with (P := A); [apply reaches_ignore, (reaches_syscall quiet A _ (fun _ fs => others_same fs /\ still_there fs))|done|by intros []].
           ++ assert (forall fs, A fs -> others_same (drop_path tmp fs) /\ still_there (drop_path tmp fs)) as Hdrop.
              { intros fs HA. split.
                - intros p H1 H2 H3 H4 H5. rewrite file_drop, (proj2 (String.eqb_neq _ _)) by done. by apply Hothers.
                - intros x Hx. left. rewrite file_drop, (proj2 (String.eqb_neq _ _)) by (by apply not_eq_sym). destruct HA as [H _]. rewrite H; [done|by apply not_eq_sym]. }
              intros fs HA. destruct (at_path tmp fs) as [[]|]; [destruct (folder_empty tmp fs)| |]; cbn [snd]; auto.
           ++ intros _ fs HA. auto.
        -- intros _. by apply reaches_throw.
    + apply reaches_ret. intros fs [HA Hq]. split_and!; [auto|apply HA|auto|]. intros Hquiet x Hx. rewrite (Hq Hquiet) in Hx. done.
Qed.
Lemma swap_in quiet c : reaches quiet (ready_to_swap quiet c) (rename tmp dst) (fun r fs => others_same fs /\
  match r with Ok _ => file_at dst fs = Some c /\ (quiet = true -> put_aside fs) | Err _ => still_there fs end).
Proof using tmp_bak bak_dst.
  apply reaches_syscall.
  - intros fs (Ho & Ht & Hs & Hp). destruct (renamed_cases tmp dst fs) as [[-> Hr]|[(-> & x & Hx & Hq)|(_ & Hn & _)]]; [| |congruence].
    + destruct (renamed tmp dst fs).1 as [[]|e]; [|done]. destruct (Hr eq_refl) as [Hn _]. congruence.
    + split_and!.
      * intros p H1 H2 H3 H4 H5. rewrite Hq, !(proj2 (String.eqb_neq _ _)) by done. by apply Ho.
      * rewrite Hq, String.eqb_refl. congruence.
      * intros Hquiet y Hy. rewrite Hq, !(proj2 (String.eqb_neq _ _)) by (done || by apply not_eq_sym). by apply Hp.
  - intros _ fs (Ho & Ht & Hs & Hp). done.
Qed.
End Names.

Lemma restore_run dataDir source stamp fs fl quiet : (quiet = true -> fl = []) ->
  let dst := db_path dataDir in let tmp := dst ++ ".restore" in let bak := dst ++ ".before-restore-" ++ stamp in
  let r := (Restore me dataDir source stamp (fs, fl)).1 in let fs' := (Restore me dataDir source stamp (fs, fl)).2.1 in
  others_same dst tmp bak fs fs' /\
  match r with
  | Ok _ => file_at dst fs' = file_at source fs /\ (exists c, file_at source fs = Some c /\ usable c) /\ (quiet = true -> put_aside dst bak fs fs')
  | Err _ => still_there dst bak fs fs'
  end.
Proof.
  intros Hquiet dst tmp bak. set (A := fun fs' : disk => forall p, file_at p fs' = file_at p fs).
  assert (about_files A) as HA by (intros a b Hab Ha p; by rewrite Hab).
  assert (forall s : string, s <> "" -> dst ++ s <> dst) as Hlong by (intros s; apply longer_path).
  assert (tmp <> dst) as Htd by by apply Hlong.
  assert (bak <> dst) as Hbd by by apply Hlong.
  assert (tmp <> bak) as Htb by by apply other_suffix.
  assert (inside dst tmp = false) as Hin by by apply suffix_not_inside.
  assert (inside bak tmp = false) as Hin2.
  { apply not_true_iff_false. rewrite inside_spec. intros (t & E). unfold tmp, bak in E. rewrite string_app_assoc in E. by apply other_suffix in E. }
  assert (forall fs', A fs' -> others_same dst tmp bak fs fs' /\ still_there dst bak fs fs') as Hkeep.
  { intros fs' Ha. split; [by intros p _ _ _ _ _|]. intros x Hx. left. by rewrite Ha. }
  assert (forall fs', (forall q, q <> tmp -> file_at q fs' = file_at q fs) -> others_same dst tmp bak fs fs' /\ still_there dst bak fs fs') as Hkeep2.
  { intros fs' Ha. split; [by intros p _ Hp _ _ _; apply Ha|]. intros x Hx. left. rewrite Ha; [done|]. by apply not_eq_sym, Hlong. }
  set (Q := fun (r : result unit) (fs' : disk) => others_same dst tmp bak fs fs' /\
    match r with
    | Ok _ => file_at dst fs' = file_at source fs /\ (exists c, file_at source fs = Some c /\ usable c) /\ (quiet = true -> put_aside dst bak fs fs')
    | Err _ => still_there dst bak fs fs'
    end).
  enough (reaches quiet A (Restore me dataDir source stamp) Q) as H by (by apply (H fs fl)).
  unfold Restore. fold dst. fold tmp. fold bak.
  eapply reaches_bind with (P' := fun _ fs' => A fs' /\ exists c, file_at source fs = Some c /\ usable c).
  { apply reaches_step. eapply reaches_conseq; [apply ValidateDatabase_keeps|done|]. intros [u|e] fs' [Ha Hr]; [|by apply Hkeep]. split; [done|]. by rewrite <- Ha. }
  intros _. apply reaches_assuming. intros Hs.
  eapply reaches_bind with (P' := fun _ => A). { eapply reaches_conseq; [by apply (MkdirAll_keeps me quiet A)|done|]. intros [u|e]; [done|by apply Hkeep]. }
  intros _. eapply reaches_bind with (P' := fun _ => A). { eapply reaches_conseq; [by apply reaches_ignore, (chmod_keeps quiet A)|done|]. by intros []. }
  intros _. eapply reaches_bind with (P' := fun c fs' => A fs' /\ file_at source fs = Some c).
  { eapply reaches_conseq; [apply looks_keep|done|]. intros [c|e] fs' [Ha Hr]; [|by apply Hkeep]. split; [done|]. rewrite <- Ha. cbn in Hr. unfold file_at. destruct (at_path source fs') as [[]|]; congruence. }
  intros c. apply reaches_assuming. intros Hc.
  eapply reaches_bind with (P' := fun _ fs' => (forall q, q <> tmp -> file_at q fs' = file_at q fs) /\ file_at tmp fs' = Some c).
  { eapply reaches_conseq; [apply (write_keeps me quiet fs)|by intros fs' Ha q _|]. intros [u|e] fs' [Ha Hr]; [by split|by apply Hkeep2]. }
  intros _. eapply reaches_bind with (P' := fun _ => ready_to_swap dst tmp bak fs quiet c).
  { eapply reaches_conseq; [by apply (save_old dst tmp bak fs) with (c := c)|done|]. by intros []. }
  intros _. eapply reaches_conseq; [by apply (swap_in dst tmp bak fs) with (c := c)|done|]. intros [u|e] fs' [Ho Hr]; (split; [done|]); [|done]. destruct Hr as [Hd Hp]. split_and!; [by rewrite Hc|done|done].
Qed.
(** C21: a restore that fails loses nothing: whatever is refused, the database that was
    there is at its place or beside it.  A restore that succeeds has put the backup in
    place, which was found to be a sound database of a known schema; when no call was
    refused, the database that was there is then beside it.  In every case every other
    file is as it was.  (When the look at the old database is refused, a restore
    succeeds and overwrites it: [unseen_database_is_overwritten].) *)
Theorem restore_keeps_every_version dataDir source stamp fs fl :
  let dst := db_path dataDir in let tmp := dst ++ ".restore" in let bak := dst ++ ".before-restore-" ++ stamp in
  let r := (Restore me dataDir source stamp (fs, fl)).1 in let fs' := (Restore me dataDir source stamp (fs, fl)).2.1 in
  others_same dst tmp bak fs fs' /\
  match r with
  | Ok _ => file_at dst fs' = file_at source fs /\ (exists c, file_at source fs = Some c /\ usable c)
  | Err _ => still_there dst bak fs fs'
  end /\
  (fl = [] -> is_ok r = true -> put_aside dst bak fs fs').
Proof.
  intros dst tmp bak r fs'. destruct (restore_run dataDir source stamp fs fl false ltac:(done)) as [Ho Hr]. fold dst tmp bak r fs' in Ho, Hr. split; [done|]. split.
  - destruct r as [u|e]; [|done]. by destruct Hr as (? & ? & _).
  - intros Hf Hok. destruct (restore_run dataDir source stamp fs fl true (fun _ => Hf)) as [_ Hq]. fold dst tmp bak r fs' in Hq. destruct r as [u|e]; [|done]. by apply Hq.
Qed.

(** A backup writes one file: the rows of the database. *)
Lemma backup_run cwd (st : sdb T) dest abs (fs : disk) fl : abs_path cwd dest = Ok abs ->
  let r := (Backup me cwd st dest (fs, fl)).1 in let fs' := (Backup me cwd st dest (fs, fl)).2.1 in
  (forall p, p <> abs -> file_at p fs' = file_at p fs) /\ match r with Ok _ => file_at abs fs' = Some (Sqlite "ok" st) | Err _ => True end.
Proof.
  intros Habs. set (A := fun fs' : disk => forall p, p <> abs -> file_at p fs' = file_at p fs).
  assert (about_files A) as HA by (intros a b Hab Ha p Hp; by rewrite Hab, Ha).
  set (F := fun fs' : disk => file_at abs fs' = Some (Sqlite "ok" st)).
  assert (about_files (fun fs' => A fs' /\ F fs')) as HF by (intros a b Hab [Ha Hf]; split; [by apply (HA a)|unfold F; by rewrite Hab]).
  assert (forall p n fs', p = abs -> A fs' -> A (put_path p n fs')) as Hput by (intros p n fs' -> Ha q Hq; rewrite file_put, (proj2 (String.eqb_neq _ _)) by done; by apply Ha).
  enough (reaches false A (Backup me cwd st dest) (fun r fs' => A fs' /\ match r with Ok _ => F fs' | Err _ => True end)) as H by (by apply (H fs fl)).
  unfold Backup. destruct (trim_space dest =? "")%string; [by apply reaches_throw|].
  rewrite Habs. eapply reaches_bind with (P' := fun a fs' => A fs' /\ a = abs); [by apply reaches_lift|]. intros a. apply reaches_assuming. intros ->.
  eapply reaches_bind with (P' := fun _ => A). { eapply reaches_conseq; [by apply (MkdirAll_keeps me false A)|done|]. by intros [u|e]. }
  intros _. eapply reaches_bind with (P' := fun _ => A).
  { eapply reaches_conseq; [apply reaches_ignore, (reaches_syscall false A _ (fun _ => A))|done|by intros []]; [|done].
    assert (forall fs', A fs' -> A (drop_path abs fs')) as Hdrop by (intros fs' Ha q Hq; rewrite file_drop, (proj2 (String.eqb_neq _ _)) by done; by apply Ha).
    intros fs' Ha. destruct (at_path abs fs') as [[]|]; [destruct (folder_empty abs fs')| |]; cbn [snd]; auto. }
  intros _. eapply reaches_bind with (P' := fun _ fs' => A fs' /\ F fs').
  - apply reaches_step. unfold exec_vacuum. rewrite vacuum_path.
    assert (reaches false A (create_path me abs 420 ;;; fill_path abs (Sqlite "ok" st)) (fun r fs' => match r with Ok _ => A fs' /\ F fs' | Err _ => A fs' /\ True end)) as Hw.
    { eapply reaches_conseq; [apply (write_keeps me false fs)|done|]. by intros [u|e] fs' []. }
    eapply reaches_bind with (P' := fun _ => A).
    + eapply reaches_conseq; [apply reaches_attempt, (looks_keep false A)|done|]. by intros [[|]|] fs' []; try done.
    + intros [[[|]|]|e]; [exact Hw|by apply reaches_throw|by apply reaches_throw|exact Hw].
  - intros _. apply reaches_step. eapply reaches_conseq; [by apply (chmod_keeps false _ abs 384 HF)|done|]. intros [u|e] fs' []; by split.
Qed.

(** C27: a a backup can be restored: the file a backup has made of a database becomes, by
    a restore, the database of a data directory, with every row and the history of
    its migrations; the backup has changed no other file. *)
Theorem backup_restores cwd (st : sdb T) dest abs (fs : disk) fl fs1 fl1 dataDir stamp fl2 fs2 fl3 : abs_path cwd dest = Ok abs ->
  Backup me cwd st dest (fs, fl) = (Ok tt, (fs1, fl1)) -> Restore me dataDir abs stamp (fs1, fl2) = (Ok tt, (fs2, fl3)) ->
  file_at (db_path dataDir) fs2 = Some (Sqlite "ok" st) /\ st.(sd_mirror) <= schemaVersion /\ (forall p, p <> abs -> file_at p fs1 = file_at p fs).
Proof.
  intros Habs Hb Hr. destruct (backup_run cwd st dest abs fs fl Habs) as [H1 H2]. rewrite Hb in H1, H2. cbn in H1, H2.
  destruct (restore_run dataDir abs stamp fs1 fl2 false ltac:(done)) as [_ H3]. rewrite Hr in H3. cbn in H3. destruct H3 as (H3 & (c & Hc & Hu) & _).
  rewrite H2 in H3, Hc. injection Hc as <-. split; [done|]. split; [apply Hu|done].
Qed.
End Restore.

(** ** Remarks *)

(** The log that SQLite keeps beside a database in use is not put aside with it: it
    stays beside the database that takes its place. *)
Lemma restore_leaves_the_log {T} me dataDir source stamp (fs : list (string * fnode (T := T))) fl :
  let log := db_path dataDir ++ "-wal" in file_at log (Restore me dataDir source stamp (fs, fl)).2.1 = file_at log fs.
Proof.
  intros log. destruct (restore_run me dataDir source stamp fs fl false ltac:(done)) as [Ho _]. unfold log. apply Ho.
  - by apply longer_path.
  - by apply other_suffix.
  - by apply other_suffix.
  - by apply suffix_not_inside.
  - apply not_true_iff_false. rewrite inside_spec. intros (t & E). rewrite string_app_assoc in E. by apply other_suffix in E.
Qed.
(** A dump that fails leaves the one from before. *)
Lemma pg_backup_is_atomic {T} me cwd parse_dsn look_path environ pg_tool dsn dest abs (fs : list (string * fnode (T := T))) fl : abs_path cwd dest = Ok abs ->
  let r := (PostgresBackup me cwd parse_dsn look_path environ pg_tool dsn dest (fs, fl)).1 in
  is_ok r = false -> file_at abs (PostgresBackup me cwd parse_dsn look_path environ pg_tool dsn dest (fs, fl)).2.1 = file_at abs fs.
Proof.
  intros Habs. set (tmp := abs ++ ".tmp"). assert (tmp <> abs) as Hne by by apply longer_path.
  set (A := fun fs' : list (string * fnode (T := T)) => file_at abs fs' = file_at abs fs).
  assert (about_files A) as HA by (intros a b Hab Ha; unfold A; by rewrite Hab).
  assert (forall n fs', A fs' -> A (put_path tmp n fs')) as Hput by (intros n fs' Ha; unfold A; by rewrite file_put, (proj2 (String.eqb_neq _ _)) by by apply not_eq_sym).
  assert (forall fs', A fs' -> A (drop_path tmp fs')) as Hdrop by (intros fs' Ha; unfold A; by rewrite file_drop, (proj2 (String.eqb_neq _ _)) by by apply not_eq_sym).
  set (Q := fun (r : result unit) fs' => match r with Ok _ => True | Err _ => A fs' end).
  enough (reaches false A (PostgresBackup me cwd parse_dsn look_path environ pg_tool dsn dest) Q) as H.
  { intros r Hr. destruct (H fs fl ltac:(done) eq_refl) as [H1 _]. fold r in H1. by destruct r. }
  unfold PostgresBackup. eapply reaches_bind with (P' := fun _ => A); [apply reaches_lift; by destruct (parsePGDSN _ _)|]. intros ep.
  destruct (negb (look_path _)); [by apply reaches_throw|]. rewrite Habs.
  eapply reaches_bind with (P' := fun a fs' => A fs' /\ a = abs); [by apply reaches_lift|]. intros a. apply reaches_assuming. intros ->.
  eapply reaches_bind with (P' := fun _ => A). { eapply reaches_conseq; [by apply (MkdirAll_keeps me false A)|done|]. by intros [u|e]. }
  intros _. fold tmp. eapply reaches_bind with (P' := fun r fs' => Q r fs').
  - eapply reaches_conseq; [apply reaches_attempt with (Q := Q)|done|by intros [[]|]].
    unfold dump_to. destruct (pg_tool _ _ _) as [out failure].
    assert (reaches false A (ended "pg_dump" failure ;;; chmod tmp 384 ;;; rename tmp abs) Q) as Htail.
    { eapply reaches_bind with (P' := fun _ => A); [unfold ended; destruct failure as [[]|]; [by apply reaches_throw|by apply reaches_ret]|]. intros _.
      eapply reaches_bind with (P' := fun _ => A). { eapply reaches_conseq; [by apply (chmod_keeps false A)|done|]. by intros []. }
      intros _. apply reaches_syscall; [|done]. intros fs' Ha. destruct (renamed_cases tmp abs fs') as [[-> _]|[(-> & _)|(-> & _)]]; [by destruct (renamed tmp abs fs').1|done|done]. }
    destruct out as [c|]; [|eapply reaches_bind with (P' := fun _ => A); [by apply reaches_ret|by intros _]].
    eapply reaches_bind with (P' := fun _ => A); [|by intros _].
    eapply reaches_conseq; [apply reaches_ignore with (Q := A)|done|by intros []]. unfold write_path.
    eapply reaches_bind with (P' := fun _ => A).
    + apply reaches_syscall; [|done]. intros fs' Ha. destruct (at_path tmp fs') as [[]|]; [done|cbn [fst snd]; by apply Hput|]. destruct (in_folder tmp fs'); [cbn [fst snd]; by apply Hput|done].
    + intros _. apply reaches_syscall; [|done]. intros fs' Ha. destruct (at_path tmp fs') as [[]|]; [done|cbn [fst snd]; by apply Hput|done].
  - intros r. eapply reaches_bind with (P' := fun _ => Q r).
    + eapply reaches_conseq; [apply reaches_ignore with (Q := Q r)|done|by intros []].
      apply reaches_syscall; [|done]. intros fs' Hq. destruct r as [u|e]; [done|]. cbn in Hq. destruct (at_path tmp fs') as [[]|]; [destruct (folder_empty tmp fs')| |]; first [exact Hq|exact (Hdrop _ Hq)].
    + intros _. apply reaches_lift. intros fs' Hq. by destruct r.
Qed.

(** ** Witnesses *)

Definition demo_db (rows : list string) : sdb (list string) := mk_sdb None 40 None true rows.
Definition demo_tree : list (string * fnode (T := list string)) :=
  [("/", Folder (0, 0) 493); ("/srv", Folder (0, 0) 493); ("/srv/data", Folder (7, 7) 448); ("/srv/data/webfleet.db", File (7, 7) 384 (Sqlite "ok" (demo_db ["old"])));
   ("/srv/a'b.db", File (7, 7) 384 (Sqlite "ok" (demo_db ["last backup"])))].
Abbreviation demo_backup := (Backup (7, 7) None (demo_db ["new"]) "/srv/a'b.db").
Lemma demo_backed_up : demo_backup (demo_tree, []) = (Ok tt, ((demo_backup (demo_tree, [])).2.1, [])).
Proof. vm_compute. reflexivity. Qed.
Lemma demo_restored : Restore (7, 7) "/srv/data" "/srv/a'b.db" "S" ((demo_backup (demo_tree, [])).2.1, []) =
  (Ok tt, ((Restore (7, 7) "/srv/data" "/srv/a'b.db" "S" ((demo_backup (demo_tree, [])).2.1, [])).2.1, [])).
Proof. vm_compute. reflexivity. Qed.
Lemma backup_restores_witness :
  file_at (db_path "/srv/data") (Restore (7, 7) "/srv/data" "/srv/a'b.db" "S" ((demo_backup (demo_tree, [])).2.1, [])).2.1 = Some (Sqlite "ok" (demo_db ["new"])) /\
  (demo_db ["new"]).(sd_mirror) <= schemaVersion /\
  (forall p, p <> "/srv/a'b.db" -> file_at p (demo_backup (demo_tree, [])).2.1 = file_at p demo_tree).
Proof. exact (backup_restores (7, 7) None (demo_db ["new"]) "/srv/a'b.db" "/srv/a'b.db" demo_tree [] _ _ "/srv/data" "S" [] _ _ eq_refl demo_backed_up demo_restored). Defined.
Lemma restore_keeps_every_version_witness :
  let fs' := (Restore (7, 7) "/srv/data" "/srv/a'b.db" "S" (demo_tree, [])).2.1 in file_at "/srv/data/webfleet.db.before-restore-S" fs' = Some (Sqlite "ok" (demo_db ["old"])).
Proof.
  exact (proj2 (proj2 (restore_keeps_every_version (7, 7) "/srv/data" "/srv/a'b.db" "S" demo_tree [])) eq_refl eq_refl _ eq_refl).
Defined.

(** A backup that fails has removed the one from before. *)
Example failed_backup_loses_the_last : let w := demo_backup (demo_tree, [false; false; false; true]) in
  is_ok w.1 = false /\ file_at "/srv/a'b.db" w.2.1 = None.
Proof. split; vm_compute; reflexivity. Qed.
(** When the database cannot be looked at, which is not the same as its absence, it
    is replaced and no copy is kept. *)
Example unseen_database_is_overwritten : let w := Restore (7, 7) "/srv/data" "/srv/a'b.db" "S" (demo_tree, [false; false; false; false; false; false; false; false; true]) in
  is_ok w.1 = true /\ file_at "/srv/data/webfleet.db" w.2.1 = Some (Sqlite "ok" (demo_db ["last backup"])) /\ file_at "/srv/data/webfleet.db.before-restore-S" w.2.1 = None.
Proof. split_and!; vm_compute; reflexivity. Qed.
