(* ===== verification/Contracts.v ===== *)
(** The declared operations of the program ([internal/operations/contracts.go]): one
    contract for each route, with its command, its boundary and its token scopes; the
    inventory of the routes ([internal/server/server.go]); the resources of the
    command line. *)
From S2P Require Import Prelude GoStr Access Routes.
Open Scope string_scope.
Open Scope Z_scope.
Open Scope wf_scope.

(** ** Definitions *)

(** The kinds, boundaries and automations of [gantry-core] that the table names. *)
Inductive operation_kind := Read | Mutation | Destructive.
Inductive operation_boundary := Public | Session | Capability | Service.
Inductive operation_automation := Automatable | BrowserProtocol | ServiceProtocol.
#[export] Instance operation_kind_eq_dec : EqDecision operation_kind.
Proof. solve_decision. Defined.
#[export] Instance operation_boundary_eq_dec : EqDecision operation_boundary.
Proof. solve_decision. Defined.

Record spec := mk_spec {
  sp_id : string; sp_method : string; sp_path : string; sp_resource : string; sp_verb : string; sp_capability : string; sp_test : string;
  sp_kind : operation_kind; sp_boundary : operation_boundary; sp_scopes : list string; sp_automation : operation_automation;
  sp_website : bool; sp_secrets : list string }.
Definition specs : list spec :=
  [mk_spec "webfleet.healthz.get" "GET" "/healthz" "healthz" "get" "" "internal/server/route_inventory_test.go" Read Public [] Automatable true [];
   mk_spec "webfleet.wf.js.get" "GET" "/wf.js" "" "" "" "internal/server/route_inventory_test.go" Read Public [] BrowserProtocol false [];
   mk_spec "webfleet.api.analytics.event.post" "POST" "/api/analytics/event" "" "" "" "internal/server/route_inventory_test.go" Mutation Public [] ServiceProtocol false [];
   mk_spec "webfleet.setup.status.get" "GET" "/api/setup/status" "setup-status" "get" "" "internal/server/route_inventory_test.go" Read Public [] Automatable true [];
   mk_spec "webfleet.setup.database.get" "GET" "/api/setup/database" "setup-database" "get" "" "internal/server/route_inventory_test.go" Read Public [] Automatable true [];
   mk_spec "webfleet.setup.database.create" "POST" "/api/setup/database" "setup-database" "create" "" "internal/server/route_inventory_test.go" Mutation Public [] Automatable true [];
   mk_spec "webfleet.setup.create" "POST" "/api/setup" "setup" "create" "" "internal/server/route_inventory_test.go" Mutation Public [] Automatable true ["/password"];
   mk_spec "webfleet.login.create" "POST" "/api/login" "login" "create" "" "internal/server/route_inventory_test.go" Mutation Public [] Automatable true ["/password"];
   mk_spec "webfleet.api.oidc.login.get" "GET" "/api/oidc/login" "" "" "" "internal/server/route_inventory_test.go" Read Public [] BrowserProtocol true [];
   mk_spec "webfleet.api.oidc.callback.get" "GET" "/api/oidc/callback" "" "" "" "internal/server/route_inventory_test.go" Read Public [] BrowserProtocol false [];
   mk_spec "webfleet.oidc.config.get" "GET" "/api/oidc/config" "oidc-config" "get" "organization.read" "internal/server/route_inventory_test.go" Read Capability [] Automatable true [];
   mk_spec "webfleet.oidc.config.update" "PUT" "/api/oidc/config" "oidc-config" "update" "organization.update" "internal/server/route_inventory_test.go" Mutation Capability [] Automatable true [];
   mk_spec "webfleet.logout.create" "POST" "/api/logout" "logout" "create" "" "internal/server/route_inventory_test.go" Mutation Session [] Automatable true [];
   mk_spec "webfleet.session.get" "GET" "/api/session" "session" "get" "" "internal/server/route_inventory_test.go" Read Session [] Automatable true [];
   mk_spec "webfleet.launcher.instances.list" "GET" "/api/launcher/instances" "launcher-instances" "list" "" "internal/server/route_inventory_test.go" Read Public [] Automatable true [];
   mk_spec "webfleet.launcher.config.update" "PUT" "/api/launcher/config" "launcher-config" "update" "launcher.configure.all" "internal/server/route_inventory_test.go" Mutation Capability [] Automatable true [];
   mk_spec "webfleet.cluster.identity.get" "GET" "/api/cluster/v1/identity" "cluster-identity" "get" "organization.read" "internal/cluster/cluster_test.go" Read Capability [] Automatable true [];
   mk_spec "webfleet.cluster.members.list" "GET" "/api/cluster/v1/members" "cluster-members" "list" "organization.read" "internal/cluster/cluster_test.go" Read Capability [] Automatable true [];
   mk_spec "webfleet.cluster.invitations.create" "POST" "/api/cluster/v1/invitations" "cluster-invitations" "create" "membership.update" "internal/cluster/cluster_test.go" Mutation Capability [] Automatable true [];
   mk_spec "webfleet.cluster.joins.list" "GET" "/api/cluster/v1/joins" "cluster-joins" "list" "organization.read" "internal/cluster/cluster_test.go" Read Capability [] Automatable true [];
   mk_spec "webfleet.cluster.joins.create" "POST" "/api/cluster/v1/joins/{id}/{action}" "cluster-joins" "create" "membership.update" "internal/cluster/cluster_test.go" Mutation Capability [] Automatable true [];
   mk_spec "webfleet.cluster.outbound.list" "GET" "/api/cluster/v1/outbound" "cluster-outbound" "list" "organization.read" "internal/cluster/cluster_test.go" Read Capability [] Automatable true [];
   mk_spec "webfleet.cluster.outbound.create" "POST" "/api/cluster/v1/outbound" "cluster-outbound" "create" "membership.update" "internal/cluster/cluster_test.go" Mutation Capability [] Automatable true [];
   mk_spec "webfleet.cluster.outbound.collect.collect" "POST" "/api/cluster/v1/outbound/{id}/collect" "cluster-outbound-collect" "collect" "membership.update" "internal/cluster/cluster_test.go" Mutation Capability [] Automatable true [];
   mk_spec "webfleet.cluster.members.create" "POST" "/api/cluster/v1/members/{id}/{action}" "cluster-members" "create" "membership.update" "internal/cluster/cluster_test.go" Mutation Capability [] Automatable true [];
   mk_spec "webfleet.cluster.status.get" "GET" "/api/cluster/v1/status" "cluster-status" "get" "organization.read" "internal/cluster/cluster_test.go" Read Capability [] Automatable true [];
   mk_spec "webfleet.cluster.audit.get" "GET" "/api/cluster/v1/audit" "cluster-audit" "get" "organization.read" "internal/cluster/cluster_test.go" Read Capability [] Automatable true [];
   mk_spec "webfleet.cluster.compare.get" "GET" "/api/cluster/v1/compare" "cluster-compare" "get" "organization.read" "internal/cluster/cluster_test.go" Read Capability [] Automatable true [];
   mk_spec "webfleet.cluster.propagation.kinds.list" "GET" "/api/cluster/v1/propagation/kinds" "cluster-propagation" "kinds" "organization.read" "internal/server/propagation.go" Read Capability [] Automatable true [];
   mk_spec "webfleet.cluster.propagation.export" "POST" "/api/cluster/v1/propagation/export" "cluster-propagation" "export" "membership.update" "internal/server/propagation.go" Mutation Capability [] Automatable true [];
   mk_spec "webfleet.cluster.propagation.preview" "POST" "/api/cluster/v1/propagation/preview" "cluster-propagation" "preview" "membership.update" "internal/server/propagation.go" Read Capability [] Automatable true [];
   mk_spec "webfleet.cluster.propagation.apply" "POST" "/api/cluster/v1/propagation/apply" "cluster-propagation" "apply" "membership.update" "internal/server/propagation.go" Mutation Capability [] Automatable true [];
   mk_spec "webfleet.cluster.propagation.propagate" "POST" "/api/cluster/v1/propagation/propagate" "cluster-propagation" "propagate" "membership.update" "internal/server/propagation.go" Mutation Capability [] Automatable true [];
   mk_spec "webfleet.cluster.propagation.history.list" "GET" "/api/cluster/v1/propagation/history" "cluster-propagation-history" "list" "organization.read" "internal/server/propagation.go" Read Capability [] Automatable true [];
   mk_spec "webfleet.cluster.propagation.profiles.list" "GET" "/api/cluster/v1/propagation/profiles" "cluster-propagation-profiles" "list" "organization.read" "internal/server/propagation.go" Read Capability [] Automatable true [];
   mk_spec "webfleet.cluster.propagation.profiles.update" "PUT" "/api/cluster/v1/propagation/profiles/{id}" "cluster-propagation-profiles" "update" "membership.update" "internal/server/propagation.go" Mutation Capability [] Automatable true [];
   mk_spec "webfleet.cluster.propagation.profiles.delete" "DELETE" "/api/cluster/v1/propagation/profiles/{id}" "cluster-propagation-profiles" "delete" "membership.update" "internal/server/propagation.go" Destructive Capability [] Automatable true [];
   mk_spec "webfleet.cluster.propagation.profiles.run-due" "POST" "/api/cluster/v1/propagation/profiles/run-due" "cluster-propagation-profiles" "run-due" "membership.update" "internal/server/propagation.go" Mutation Capability [] Automatable true [];
   mk_spec "webfleet.me.password.create" "POST" "/api/me/password" "me-password" "create" "" "internal/server/route_inventory_test.go" Mutation Session [] Automatable true ["/current_password"; "/new_password"];
   mk_spec "webfleet.tokens.create" "POST" "/api/tokens" "tokens" "create" "tokens.manage" "internal/server/route_inventory_test.go" Mutation Capability [] Automatable true [];
   mk_spec "webfleet.tokens.delete" "DELETE" "/api/tokens/{id}" "tokens" "delete" "tokens.manage" "internal/server/route_inventory_test.go" Destructive Capability [] Automatable true [];
   mk_spec "webfleet.notifications.webhooks.list" "GET" "/api/notifications/webhooks" "notifications-webhooks" "list" "webhooks.read" "internal/server/route_inventory_test.go" Read Capability [] Automatable true [];
   mk_spec "webfleet.notifications.webhooks.create" "POST" "/api/notifications/webhooks" "notifications-webhooks" "create" "webhooks.manage" "internal/server/route_inventory_test.go" Mutation Capability [] Automatable true [];
   mk_spec "webfleet.notifications.deliveries.list" "GET" "/api/notifications/deliveries" "notifications-deliveries" "list" "webhooks.read" "internal/server/route_inventory_test.go" Read Capability [] Automatable true [];
   mk_spec "webfleet.organization.members.list" "GET" "/api/organization/members" "organization-members" "list" "organization.read" "internal/server/route_inventory_test.go" Read Capability [] Automatable true [];
   mk_spec "webfleet.organization.members.create" "POST" "/api/organization/members" "organization-members" "create" "membership.update" "internal/server/route_inventory_test.go" Mutation Capability [] Automatable true [];
   mk_spec "webfleet.groups.list" "GET" "/api/groups" "groups" "list" "site.read" "internal/server/route_inventory_test.go" Read Capability ["sites:read"] Automatable true [];
   mk_spec "webfleet.groups.create" "POST" "/api/groups" "groups" "create" "site.create" "internal/server/route_inventory_test.go" Mutation Capability ["sites:write"] Automatable true [];
   mk_spec "webfleet.sites.list" "GET" "/api/sites" "sites" "list" "site.read" "internal/server/route_inventory_test.go" Read Capability ["sites:read"] Automatable true [];
   mk_spec "webfleet.sites.create" "POST" "/api/sites" "sites" "create" "site.create" "internal/server/route_inventory_test.go" Mutation Capability ["sites:write"] Automatable true [];
   mk_spec "webfleet.sites.tags.get" "GET" "/api/sites/{id}/tags" "sites-tags" "get" "site.read" "internal/server/route_inventory_test.go" Read Capability ["sites:read"] Automatable true [];
   mk_spec "webfleet.sites.tags.update" "PUT" "/api/sites/{id}/tags" "sites-tags" "update" "site.update" "internal/server/route_inventory_test.go" Mutation Capability ["sites:write"] Automatable true [];
   mk_spec "webfleet.sites.get" "GET" "/api/sites/{id}" "sites" "get" "site.read" "internal/server/route_inventory_test.go" Read Capability ["sites:read"] Automatable true [];
   mk_spec "webfleet.sites.update" "PUT" "/api/sites/{id}" "sites" "update" "site.update" "internal/server/route_inventory_test.go" Mutation Capability ["sites:write"] Automatable true [];
   mk_spec "webfleet.sites.archive.archive" "POST" "/api/sites/{id}/archive" "sites-archive" "archive" "site.archive" "internal/server/route_inventory_test.go" Destructive Capability ["sites:write"] Automatable true [];
   mk_spec "webfleet.sites.delete" "DELETE" "/api/sites/{id}" "sites" "delete" "site.delete" "internal/server/route_inventory_test.go" Destructive Capability ["sites:write"] Automatable true [];
   mk_spec "webfleet.sites.analytics.get" "GET" "/api/sites/{id}/analytics" "sites-analytics" "get" "analytics.read" "internal/server/route_inventory_test.go" Read Capability ["analytics:read"] Automatable true [];
   mk_spec "webfleet.sites.analytics.create" "POST" "/api/sites/{id}/analytics" "sites-analytics" "create" "analytics.manage" "internal/server/route_inventory_test.go" Mutation Capability ["sites:write"] Automatable true [];
   mk_spec "webfleet.sites.analytics.summary.get" "GET" "/api/sites/{id}/analytics/summary" "sites-analytics-summary" "get" "analytics.read" "internal/server/route_inventory_test.go" Read Capability ["analytics:read"] Automatable true [];
   mk_spec "webfleet.sites.analytics.pages.get" "GET" "/api/sites/{id}/analytics/pages" "sites-analytics-pages" "get" "analytics.read" "internal/server/route_inventory_test.go" Read Capability ["analytics:read"] Automatable true [];
   mk_spec "webfleet.sites.analytics.countries.get" "GET" "/api/sites/{id}/analytics/countries" "sites-analytics-countries" "get" "analytics.read" "internal/server/route_inventory_test.go" Read Capability ["analytics:read"] Automatable true [];
   mk_spec "webfleet.sites.analytics.disable.disable" "POST" "/api/sites/{id}/analytics/disable" "sites-analytics-disable" "disable" "analytics.manage" "internal/server/route_inventory_test.go" Destructive Capability ["sites:write"] Automatable true [];
   mk_spec "webfleet.analytics.geo.update.create" "POST" "/api/analytics/geo/update" "analytics-geo-update" "create" "analytics.manage" "internal/server/route_inventory_test.go" Mutation Capability ["sites:write"] Automatable true [];
   mk_spec "webfleet.sites.analytics.goals.get" "GET" "/api/sites/{id}/analytics/goals" "sites-analytics-goals" "get" "analytics.read" "internal/server/route_inventory_test.go" Read Capability ["analytics:read"] Automatable true [];
   mk_spec "webfleet.sites.analytics.goals.create" "POST" "/api/sites/{id}/analytics/goals" "sites-analytics-goals" "create" "analytics.manage" "internal/server/route_inventory_test.go" Mutation Capability ["sites:write"] Automatable true [];
   mk_spec "webfleet.maintenance.get" "GET" "/api/maintenance" "maintenance" "get" "maintenance.read" "internal/server/route_inventory_test.go" Read Capability [] Automatable true [];
   mk_spec "webfleet.maintenance.update" "PUT" "/api/maintenance" "maintenance" "update" "maintenance.manage" "internal/server/route_inventory_test.go" Mutation Capability [] Automatable true [];
   mk_spec "webfleet.maintenance.run.run" "POST" "/api/maintenance/run" "maintenance-run" "run" "maintenance.manage" "internal/server/route_inventory_test.go" Mutation Capability [] Automatable true [];
   mk_spec "webfleet.fleet.get" "GET" "/api/fleet" "fleet" "get" "fleet.read" "internal/server/route_inventory_test.go" Read Capability ["fleet:read"] Automatable true [];
   mk_spec "webfleet.fleet.analytics.list" "GET" "/api/fleet/analytics" "fleet-analytics" "list" "analytics.read" "internal/server/route_inventory_test.go" Read Capability ["analytics:read"] Automatable true [];
   mk_spec "webfleet.sites.audit.get" "GET" "/api/sites/{id}/audit" "sites-audit" "get" "audit.read" "internal/server/route_inventory_test.go" Read Capability ["sites:read"] Automatable true [];
   mk_spec "webfleet.sites.audit.create" "POST" "/api/sites/{id}/audit" "sites-audit" "create" "audit.run" "internal/server/route_inventory_test.go" Mutation Capability ["audit:run"] Automatable true [];
   mk_spec "webfleet.sites.audit.history.update" "PUT" "/api/sites/{id}/audit/history" "sites-audit-history" "update" "audit.configure" "internal/server/route_inventory_test.go" Mutation Capability ["sites:write"] Automatable true [];
   mk_spec "webfleet.audits.resolve.resolve" "POST" "/api/audits/resolve" "audits-resolve" "resolve" "audit.read" "internal/server/route_inventory_test.go" Mutation Capability ["audit:run"] Automatable true [];
   mk_spec "webfleet.audits.batch.batch" "POST" "/api/audits/batch" "audits-batch" "batch" "audit.run" "internal/server/route_inventory_test.go" Mutation Capability ["audit:run"] Automatable true [];
   mk_spec "webfleet.sites.check.check" "POST" "/api/sites/{id}/check" "sites-check" "check" "monitor.run" "internal/server/route_inventory_test.go" Mutation Capability ["sites:write"] Automatable true [];
   mk_spec "webfleet.sites.deployments.get" "GET" "/api/sites/{id}/deployments" "sites-deployments" "get" "deployments.read" "internal/server/route_inventory_test.go" Read Capability ["sites:read"] Automatable true [];
   mk_spec "webfleet.sites.deployments.create" "POST" "/api/sites/{id}/deployments" "sites-deployments" "create" "deployments.record" "internal/server/route_inventory_test.go" Mutation Capability ["sites:write"] Automatable true [];
   mk_spec "webfleet.sites.deployments.correlation.get" "GET" "/api/sites/{id}/deployments/correlation" "sites-deployments-correlation" "get" "deployments.read" "internal/server/route_inventory_test.go" Read Capability ["sites:read"] Automatable true [];
   mk_spec "webfleet.sites.checks.get" "GET" "/api/sites/{id}/checks" "sites-checks" "get" "monitor.read" "internal/server/route_inventory_test.go" Read Capability ["sites:read"] Automatable true [];
   mk_spec "webfleet.sites.performance.get" "GET" "/api/sites/{id}/performance" "sites-performance" "get" "monitor.read" "internal/server/route_inventory_test.go" Read Capability ["sites:read"] Automatable true [];
   mk_spec "webfleet.sites.incidents.get" "GET" "/api/sites/{id}/incidents" "sites-incidents" "get" "incidents.read" "internal/server/route_inventory_test.go" Read Capability ["sites:read"] Automatable true [];
   mk_spec "webfleet.incidents.ack.ack" "POST" "/api/incidents/{id}/ack" "incidents-ack" "ack" "incidents.acknowledge" "internal/server/route_inventory_test.go" Destructive Capability ["sites:write"] Automatable true [];
   mk_spec "webfleet.sites.tls.get" "GET" "/api/sites/{id}/tls" "sites-tls" "get" "tls.read" "internal/server/route_inventory_test.go" Read Capability ["sites:read"] Automatable true [];
   mk_spec "webfleet.sites.tls.inspect.inspect" "POST" "/api/sites/{id}/tls/inspect" "sites-tls-inspect" "inspect" "tls.run" "internal/server/route_inventory_test.go" Mutation Capability ["sites:write"] Automatable true [];
   mk_spec "webfleet.fleet.tls.list" "GET" "/api/fleet/tls" "fleet-tls" "list" "tls.read" "internal/server/route_inventory_test.go" Read Capability ["fleet:read"] Automatable true [];
   mk_spec "webfleet.sites.dns.get" "GET" "/api/sites/{id}/dns" "sites-dns" "get" "dns.read" "internal/server/route_inventory_test.go" Read Capability ["sites:read"] Automatable true [];
   mk_spec "webfleet.sites.dns.observe.observe" "POST" "/api/sites/{id}/dns/observe" "sites-dns-observe" "observe" "dns.run" "internal/server/route_inventory_test.go" Mutation Capability ["sites:write"] Automatable true [];
   mk_spec "webfleet.sites.http.observations.get" "GET" "/api/sites/{id}/http-observations" "sites-http-observations" "get" "monitor.read" "internal/server/route_inventory_test.go" Read Capability ["sites:read"] Automatable true [];
   mk_spec "webfleet.sites.crawl.get" "GET" "/api/sites/{id}/crawl" "sites-crawl" "get" "crawl.read" "internal/server/route_inventory_test.go" Read Capability ["sites:read"] Automatable true [];
   mk_spec "webfleet.sites.crawl.create" "POST" "/api/sites/{id}/crawl" "sites-crawl" "create" "crawl.run" "internal/server/route_inventory_test.go" Mutation Capability ["sites:write"] Automatable true [];
   mk_spec "webfleet.fleet.link.regressions.list" "GET" "/api/fleet/link-regressions" "fleet-link-regressions" "list" "crawl.read" "internal/server/route_inventory_test.go" Read Capability ["fleet:read"] Automatable true [];
   mk_spec "webfleet.sites.header.expectations.get" "GET" "/api/sites/{id}/header-expectations" "sites-header-expectations" "get" "monitor.read" "internal/server/route_inventory_test.go" Read Capability ["sites:read"] Automatable true [];
   mk_spec "webfleet.sites.header.expectations.update" "PUT" "/api/sites/{id}/header-expectations" "sites-header-expectations" "update" "monitor.update" "internal/server/route_inventory_test.go" Mutation Capability ["sites:write"] Automatable true [];
   mk_spec "webfleet.service.api.cluster.v1.join.post" "POST" "/api/cluster/v1/join" "" "" "" "internal/cluster/cluster_test.go" Mutation Service [] ServiceProtocol false [];
   mk_spec "webfleet.service.api.cluster.v1.join.id.get" "GET" "/api/cluster/v1/join/{id}" "" "" "" "internal/cluster/cluster_test.go" Read Service [] ServiceProtocol false [];
   mk_spec "webfleet.service.api.cluster.v1.rpc.summary.get" "GET" "/api/cluster/v1/rpc/summary" "" "" "" "internal/cluster/cluster_test.go" Read Service [] ServiceProtocol false [];
   mk_spec "webfleet.service.api.cluster.v1.rpc.compare.get" "GET" "/api/cluster/v1/rpc/compare" "" "" "" "internal/cluster/cluster_test.go" Read Service [] ServiceProtocol false [];
   mk_spec "webfleet.service.api.cluster.v1.rpc.propagation.preview" "POST" "/api/cluster/v1/rpc/propagation/preview" "" "" "" "internal/server/propagation.go" Read Service [] ServiceProtocol false [];
   mk_spec "webfleet.service.api.cluster.v1.rpc.propagation.apply" "POST" "/api/cluster/v1/rpc/propagation/apply" "" "" "" "internal/server/propagation.go" Mutation Service [] ServiceProtocol false [];
   mk_spec "webfleet.service.api.cluster.v1.rpc.rotate-inbound" "POST" "/api/cluster/v1/rpc/rotate-inbound" "" "" "" "internal/server/cluster.go" Mutation Service [] ServiceProtocol false [];
   mk_spec "webfleet.service.api.cluster.v1.replication.propose" "POST" "/api/cluster/v1/replication/propose" "" "" "" "internal/server/replication.go" Mutation Service [] ServiceProtocol false [];
   mk_spec "webfleet.cluster.replication.status.get" "GET" "/api/cluster/v1/replication/status" "cluster-replication" "status" "membership.update" "internal/server/replication.go" Read Capability [] Automatable true [];
   mk_spec "webfleet.cluster.replication.join.create" "POST" "/api/cluster/v1/replication/join" "cluster-replication" "join" "membership.update" "internal/server/replication.go" Mutation Capability [] Automatable true [];
   mk_spec "webfleet.cluster.replication.snapshot.create" "POST" "/api/cluster/v1/replication/snapshot" "cluster-replication" "snapshot" "membership.update" "internal/server/replication.go" Mutation Capability [] Automatable true []].

(** [operation.Contract]; the version of the schema is a constant of [gantry-core]. *)
Record contract := mk_contract {
  co_id : string; co_kind : operation_kind; co_method : string; co_path : string; co_cli : option (string * string);
  co_boundary : operation_boundary; co_capability : string; co_scopes : list string; co_input : string; co_output : string;
  co_audit : option string; co_retry_safe : bool; co_automation : operation_automation; co_secrets : list string }.
Definition build_contract (s : spec) : contract :=
  let read := bool_decide (s.(sp_kind) = Read) in
  mk_contract s.(sp_id) s.(sp_kind) s.(sp_method) s.(sp_path)
    (if s.(sp_resource) =?s "" then None else Some (s.(sp_resource), s.(sp_verb)))
    s.(sp_boundary) s.(sp_capability) s.(sp_scopes)
    (if read then "" else s.(sp_id) ++ ".request.v1") (s.(sp_id) ++ ".response.v1")
    (if read then None else Some (s.(sp_id) ++ ".performed")) read s.(sp_automation) s.(sp_secrets).
Definition buildContracts : list contract := List.map build_contract specs.
Definition Contracts : list contract := buildContracts.

(** [contracttest.Manifest]: routes, commands, operations of the web site, and the
    evidence by operation. *)
Record manifest := mk_manifest {
  mf_operations : list contract; mf_routes : list (string * string); mf_commands : list (string * string);
  mf_website : list string; mf_evidence : list (string * (bool * list string)) }.
Definition Manifest : manifest :=
  mk_manifest Contracts (List.map (fun c => (c.(co_method), c.(co_path))) Contracts) (omap co_cli Contracts)
    (omap (fun s => if s.(sp_website) then Some s.(sp_id) else None) specs)
    (List.map (fun s => (s.(sp_id), (s.(sp_website), [s.(sp_test)]))) specs).
Definition AdoptionManifest : manifest := Manifest.

(** [functionalCLIResource] of the command line. *)
Definition functionalCLIResource (resource : string) : bool :=
  existsb (fun c => match c.(co_cli) with Some (r, _) => r =?s resource | None => false end) Contracts.

(** The routes that run: those of the table and those between nodes. *)
Record OperationRoute := mk_oroute { or_method : string; or_path : string; or_action : string; or_csrf : bool; or_scopes : list string; or_service : bool }.
Definition node_route (method path : string) : OperationRoute := mk_oroute method path "" false [] true.
Definition OperationRouteInventory : list OperationRoute :=
  List.map (fun d => mk_oroute d.(rt_method) d.(rt_path) d.(rt_action) d.(rt_csrf) d.(rt_scopes) false) apiRouteDefs ++
  [node_route "POST" "/api/cluster/v1/join"; node_route "GET" "/api/cluster/v1/join/{id}"; node_route "GET" "/api/cluster/v1/rpc/summary";
   node_route "GET" "/api/cluster/v1/rpc/compare"; node_route "POST" "/api/cluster/v1/rpc/propagation/preview";
   node_route "POST" "/api/cluster/v1/rpc/propagation/apply"; node_route "POST" "/api/cluster/v1/rpc/rotate-inbound";
   node_route "POST" "/api/cluster/v1/replication/propose"].

(** What the multiplexer runs for a pattern: a handler anybody reaches, one behind
    [authorize] with its arguments, one that asks for the credential of a node itself,
    a page of the embedded files, a redirection, the launcher. *)
Inductive registration :=
  | Open | Guarded (action : string) (csrf : bool) (scopes : list string) | Node
  | Static | RedirectTo (target : string) | Launcher.
#[export] Instance registration_dec : EqDecision registration.
Proof. solve_decision. Defined.
Definition node_routes : list (string * registration) :=
  [("POST /api/cluster/v1/join", Node); ("GET /api/cluster/v1/join/{id}", Node); ("GET /api/cluster/v1/rpc/summary", Node);
   ("GET /api/cluster/v1/rpc/compare", Node); ("POST /api/cluster/v1/rpc/propagation/preview", Node);
   ("POST /api/cluster/v1/rpc/propagation/apply", Node); ("POST /api/cluster/v1/rpc/rotate-inbound", Node);
   ("POST /api/cluster/v1/replication/propose", Node)].
Definition page_routes : list (string * registration) :=
  [("/assets/", Static); ("/launcher.css", Static); ("/launcher.js", Static); ("/manage.css", Static); ("/manage.js", Static);
   ("/app", RedirectTo "/app/"); ("/app/", Static); ("/manage", RedirectTo "/manage/");
   ("GET /manage/", Guarded "membership.update" false []); ("/", Launcher)].
(** [Server.routes]. *)
Definition routes : list (string * registration) :=
  node_routes ++
  List.map (fun d => (d.(rt_method) ++ " " ++ d.(rt_path),
                      if d.(rt_action) =?s "" then Open else Guarded d.(rt_action) d.(rt_csrf) d.(rt_scopes))) apiRouteDefs ++
  page_routes.

(** ** Properties *)

(** The access that a contract promises of a route. *)
Definition promised_action (c : contract) : string := match c.(co_boundary) with Capability => c.(co_capability) | Session => "session" | _ => "" end.
Definition promises (c : contract) (r : OperationRoute) : Prop :=
  c.(co_method) = r.(or_method) /\ c.(co_path) = r.(or_path) /\ r.(or_action) = promised_action c /\ r.(or_scopes) = c.(co_scopes) /\
  r.(or_service) = bool_decide (c.(co_boundary) = Service) /\
  (r.(or_csrf) = false -> c.(co_kind) = Read \/ c.(co_boundary) = Public \/ c.(co_boundary) = Service).
#[export] Instance promises_dec c r : Decision (promises c r).
Proof. unfold promises. apply _. Defined.
(** Whoever gets through a route with a token needs a scope, of the known ones. *)
Definition known_scopes (r : OperationRoute) : Prop := forall s, In s r.(or_scopes) -> In s token_scopes.

(** What a route of the inventory has to be registered as. *)
Definition registered (r : OperationRoute) : registration :=
  if r.(or_service) then Node else if r.(or_action) =?s "" then Open else Guarded r.(or_action) r.(or_csrf) r.(or_scopes).
Definition pattern_of (r : OperationRoute) : string := r.(or_method) ++ " " ++ r.(or_path).
(** What shows a page: anybody gets the embedded files, the launcher and the
    redirections, and the management page is behind a permission. *)
Definition shows_a_page (g : registration) : bool :=
  match g with
  | Static | Launcher | RedirectTo _ => true
  | Guarded action _ _ => action =?s "membership.update"
  | Open | Node => false
  end.

(** C26: the contracts are what the routes do: every route that runs, those between the
    nodes included, is the route of exactly one contract, and every contract has its
    route; the permission, the token scopes and the boundary are those the route
    enforces, and a route that changes something for a session or a token asks for the
    CSRF token of a session.  No two contracts share an id or a command.  The inventory
    is what the multiplexer serves: each route of it is registered, under a pattern of
    its own, behind exactly the access it declares, and whatever else is registered
    shows a page. *)
Theorem contracts_are_the_routes :
  (forall r, In r OperationRouteInventory -> exists c, In c Contracts /\ promises c r /\ forall c', In c' Contracts -> (c'.(co_method), c'.(co_path)) = (r.(or_method), r.(or_path)) -> c' = c) /\
  (forall c, In c Contracts -> exists r, In r OperationRouteInventory /\ promises c r) /\
  NoDup (List.map co_id Contracts) /\ NoDup (omap co_cli Contracts) /\ (forall r, In r OperationRouteInventory -> known_scopes r) /\
  (forall r, In r OperationRouteInventory -> In (pattern_of r, registered r) routes) /\
  (forall p g, In (p, g) routes -> (exists r, In r OperationRouteInventory /\ (pattern_of r, registered r) = (p, g)) \/ shows_a_page g = true) /\
  NoDup (List.map fst routes).
Proof.
  assert (Forall (fun r => Exists (fun c => promises c r) Contracts) OperationRouteInventory) as H1 by (apply (bool_decide_unpack _); vm_compute; exact I).
  assert (Forall (fun c => Exists (fun r => promises c r) OperationRouteInventory) Contracts) as H2 by (apply (bool_decide_unpack _); vm_compute; exact I).
  assert (NoDup (List.map (fun c => (c.(co_method), c.(co_path))) Contracts)) as H3 by (apply (bool_decide_unpack _); vm_compute; exact I).
  assert (Forall (fun r => Forall (fun s => In s token_scopes) r.(or_scopes)) OperationRouteInventory) as H4 by (apply (bool_decide_unpack _); vm_compute; exact I).
  assert (Forall (fun r => (pattern_of r, registered r) ∈ routes) OperationRouteInventory) as H5 by (apply (bool_decide_unpack _); vm_compute; exact I).
  assert (Forall (fun e => Exists (fun r => (pattern_of r, registered r) = e) OperationRouteInventory \/ shows_a_page e.2 = true) routes) as H6 by (apply (bool_decide_unpack _); vm_compute; exact I).
  rewrite Forall_forall in H1. rewrite Forall_forall in H2. rewrite Forall_forall in H4. rewrite Forall_forall in H5. rewrite Forall_forall in H6. split_and!.
  - intros r Hr. apply list_elem_of_In, H1, Exists_exists in Hr as (c & Hc & Hp). apply list_elem_of_In in Hc. exists c. split_and!; try done.
    intros c' Hc' E. apply (NoDup_map_inj (fun c => (c.(co_method), c.(co_path))) Contracts); try done. destruct Hp as (-> & -> & _). done.
  - intros c Hc. apply list_elem_of_In, H2, Exists_exists in Hc as (r & Hr & Hp). apply list_elem_of_In in Hr. by exists r.
  - apply (bool_decide_unpack _). vm_compute. exact I.
  - apply (bool_decide_unpack _). vm_compute. exact I.
  - intros r Hr s Hs. apply list_elem_of_In, H4 in Hr. rewrite Forall_forall in Hr. by apply Hr, list_elem_of_In.
  - intros r Hr. apply list_elem_of_In, H5, list_elem_of_In. exact Hr.
  - intros p g Hg. apply list_elem_of_In, H6 in Hg as [(r & Hr & E)%Exists_exists | Hg]; [left | right; exact Hg].
    exists r. split; [by apply list_elem_of_In | exact E].
  - apply (bool_decide_unpack _). vm_compute. exact I.
Qed.
