(* ===== verification/Admin.v ===== *)
(** The commands of the administrator on the machine ([cmd/webfleet/control.go], the
    backup and restore commands and the dispatch of [cmd/webfleet/main.go], opening a
    database in [internal/store/store.go]): [setup], [config show], [reset], [backup],
    [restore].

    The machine is the environment of the process, the disk of [Backups], and the
    PostgreSQL databases by their URL.  The parameters are those of [Config], of
    [Migrations] and of [Auth]; the tables of the accounts are a part of the tables of
    the database.  The path in the error of a file operation is left out. *)
From stdpp Require Import gmap.
From S2P Require Import Prelude GoStr GoPath GoFlag UnitFile SqlM DataDir Netguard Schema Access Auth Parts Migrations Backups CommandLine Contracts.
From S2P Require Config.
Open Scope string_scope.
Open Scope Z_scope.
Open Scope wf_scope.
Open Scope sql_scope.

(** ** Definitions *)

(** What a command prints, prints as diagnostics, and exits with. *)
Record exit := mk_exit { ex_code : Z; ex_out : string; ex_err : string }.
Definition line (s : string) : string := s ++ String nl "".
Definition failed (e : string) : exit := mk_exit 1 "" (line ("webfleet: " ++ e)).
Definition usage (s : string) : exit := mk_exit 2 "" (line ("usage: " ++ s)).

Section Commands.
Context {T : Type} `{HT : !Part adb T}.
Abbreviation disk := (list (string * fnode (T := T))).
Record host := mk_host { hs_env : Config.environ; hs_disk : disk; hs_pg : gmap string (sdb T) }.

(** The parameters of [Backups], [Config], [Migrations] and [Auth]; [fresh] is a
    database without tables, [reach] whether PostgreSQL answers at a URL. *)
Variable me : ids.
Variable cwd : option string.
Variable ParseDuration : string -> result Z.
Variable ParseAddr : string -> option addr.
Variable ParsePrefix : string -> option prefix.
Variable parse_url : string -> result Config.origin.
Variable unmarshal : string -> result Config.DatabaseChoice.
Variable exec_sql : string -> T -> option T.
Variable columns : T -> list (string * string).
Variable fresh : T.
Variable reach : string -> result unit.
Variable accept : list account -> result unit.
Variable Hash : string -> result string.

Definition on_disk {A} (m : M disk A) : M host A := fun '(h, fl) =>
  let '(r, (d, fl')) := m (h.(hs_disk), fl) in (r, (mk_host h.(hs_env) d h.(hs_pg), fl')).
Definition setenv (v : option string) : M host unit := fun '(h, fl) =>
  (Ok tt, (mk_host (match v with Some v => <["WEBFLEET_DATA_DIR" := v]> h.(hs_env) | None => delete "WEBFLEET_DATA_DIR" h.(hs_env) end) h.(hs_disk) h.(hs_pg), fl)).

(** *** Databases *)

(** Statements on the database in a file. *)
Definition on_file {A} (path : string) (m : M (sdb T) A) : M disk A := fun '(fs, fl) =>
  match at_path path fs with
  | Some (File o mode (Sqlite i d)) => let '(r, (d', fl')) := m (d, fl) in (r, (put_path path (File o mode (Sqlite i d')) fs, fl'))
  | _ => (Err "file is not a database", (fs, fl))
  end.
(** SQLite makes the file of a database that is not there; an empty one is a database
    without tables. *)
Definition new_database : sdb T := mk_sdb None 0 None true fresh.
Definition create_database (path : string) : M disk unit := syscall (fun fs =>
  match at_path path fs with
  | None => if in_folder path fs then (Ok tt, put_path path (File me 420 (Sqlite "ok" new_database)) fs) else (Err "unable to open database file", fs)
  | Some (File o mode (Bytes "")) => (Ok tt, put_path path (File o mode (Sqlite "ok" new_database)) fs)
  | _ => (Ok tt, fs)
  end).
(** [Open]. *)
Definition OpenSqlite (dataDir : string) : M disk unit :=
  within_step "create data directory" (MkdirAll me dataDir 448) ;;;
  within_step "secure data directory" (chmod dataDir 448) ;;;
  within_step "ping sqlite database" (create_database (db_path dataDir)) ;;;
  on_file (db_path dataDir) (initialize exec_sql).
Definition on_server {A} (dsn : string) (m : M (sdb T) A) : M host A := fun '(h, fl) =>
  match h.(hs_pg) !! dsn with
  | Some d => let '(r, (d', fl')) := m (d, fl) in (r, (mk_host h.(hs_env) h.(hs_disk) (<[dsn := d']> h.(hs_pg)), fl'))
  | None => (Err "database does not exist", (h, fl))
  end.
Definition OpenPostgres (dsn : string) : M host unit :=
  if trim_space dsn =?s "" then throw "postgres DSN is required" else
  match reach dsn with
  | Err e => throw ("ping postgres: " ++ e)
  | Ok _ => on_server dsn (initializePostgres exec_sql columns)
  end.
(** The database that a configuration names, opened; and statements on it. *)
Definition open_store (c : Config.Config) : M host unit :=
  if negb (c.(Config.cf_db) =?s "") then OpenPostgres c.(Config.cf_db) else on_disk (OpenSqlite c.(Config.cf_data)).
Definition on_store {A} (c : Config.Config) (m : M (sdb T) A) : M host A :=
  if negb (c.(Config.cf_db) =?s "") then on_server c.(Config.cf_db) m else on_disk (on_file (db_path c.(Config.cf_data)) m).
Definition on_tables {A} (m : M adb A) : M (sdb T) A := fun '(d, fl) =>
  let '(r, (t, fl')) := on m (d.(sd_tables), fl) in (r, (set_tables t d, fl')).
(** [store.Provider]. *)
Definition Provider (databaseURL : string) : string := if negb (trim_space databaseURL =?s "") then "postgres" else "sqlite".

(** *** The instance *)

(** [config.Load] with the file of the data directory. *)
Definition choice_file (fs : disk) (dataDir : string) : result (option string) :=
  match at_path (Join2 dataDir "database.json") fs with
  | None => Ok None
  | Some (File _ _ (Bytes b)) => Ok (Some b)
  | Some (File _ _ (Sqlite _ _)) => Err "invalid character 'S' looking for beginning of value"
  | Some (Folder _ _) => Err EISDIR
  end.
Definition load : M host Config.Config := fun '(h, fl) =>
  (Config.Load ParseDuration ParseAddr ParsePrefix parse_url unmarshal cwd h.(hs_env) (choice_file h.(hs_disk)), (h, fl)).
(** [service.InstalledDataDir]: see [Service]. *)
Definition InstalledDataDir : M host (string * bool) :=
  let* r := attempt (on_disk (read_path UnitPath)) in
  match r with
  | Err e => if e =?s ENOENT then ret ("", false) else throw ("cannot use installed service configuration: " ++ e)
  | Ok (Sqlite _ _) => throw "cannot use installed service configuration: not a unit"
  | Ok (Bytes b) =>
      match readManagedUnit b with
      | Err e => throw ("cannot use installed service configuration: " ++ e)
      | Ok m => ret (if m.(um_data) =?s "" then DefaultDataDir else m.(um_data), true)
      end
  end.
(** [withInstalledDataDir] around the rest of a command, and its deferred cleanup. *)
Definition withInstalledDataDir (k : M host exit) : M host exit := fun w =>
  (if negb (trim_space (Config.Getenv w.1.(hs_env) "WEBFLEET_DATA_DIR") =?s "") then k else
   let* r := attempt InstalledDataDir in
   match r with
   | Err e => ret (failed e)
   | Ok (_, false) => k
   | Ok (d, true) => setenv (Some d) ;;; let* x := attempt k in setenv None ;;; lift x
   end) w.
(** [if err != nil { print; return 1 }]. *)
Definition or_exit {A} (m : M host A) (what : string) (k : A -> M host exit) : M host exit :=
  let* r := attempt m in
  match r with Err e => ret (failed (what ++ e)) | Ok a => k a end.

(** *** [setup] *)

Definition setup_flags : flag_set := [("email", StringFlag); ("email-file", StringFlag); ("username", StringFlag); ("password-file", StringFlag)].
Definition setup_usage : exit := usage "webfleet setup (--email ADDRESS|--email-file FILE) --username NAME --password-file FILE".
Definition read_text (path : string) : M host string :=
  let* c := on_disk (read_path path) in match c with Bytes b => ret b | Sqlite _ _ => ret "SQLite format 3" end.
Definition is_newline (c : ascii) : bool := Ascii.eqb c "013"%char || Ascii.eqb c nl.
Definition create_admin (username email password : string) (now : Z) : M host exit :=
  withInstalledDataDir (
    or_exit load "" (fun c =>
    or_exit (open_store c) "" (fun _ =>
    or_exit (on_store c (on_tables (CreateAdmin accept Hash username email (trim_right is_newline password) now))) "" (fun _ =>
    ret (mk_exit 0 (line "Webfleet administrator configured.") ""))))).
Definition runSetup (args : list string) (now : Z) : M host exit :=
  match Parse setup_flags args with
  | Err _ => ret setup_usage
  | Ok p =>
      if negb (match p.(rest_args) with [] => true | _ => false end) || (flag_value p "password-file" =?s "") then ret setup_usage else
      let email_file := flag_value p "email-file" in
      or_exit (if email_file =?s "" then ret (flag_value p "email") else let* b := read_text email_file in ret (trim_space b)) "" (fun email =>
      if email =?s "" then ret (mk_exit 2 "" (line "webfleet: --email or --email-file is required")) else
      or_exit (read_text (flag_value p "password-file")) "" (fun password => create_admin (flag_value p "username") email password now))
  end.

(** *** [config show] *)

Variable show_json : list (string * string) -> string.
Definition runConfig (args : list string) : M host exit :=
  let bad := usage "webfleet config show [--json]" in
  match Parse [("json", BoolFlag)] args with
  | Err _ => ret bad
  | Ok p =>
      if negb (match p.(rest_args) with ["show"] => true | _ => false end) then ret bad else
      withInstalledDataDir (or_exit load "" (fun c =>
      let db := Provider c.(Config.cf_db) in
      ret (mk_exit 0
        (if flag_value p "json" =?s "true"
         then line (show_json [("project", "webfleet"); ("dataDir", c.(Config.cf_data)); ("databaseProvider", db); ("listen", c.(Config.cf_listen))])
         else line ("Data directory: " ++ c.(Config.cf_data)) ++ line ("Database: " ++ db) ++ line ("Listen: " ++ c.(Config.cf_listen))) "")))
  end.

(** *** [reset] *)

(** [stdin] is what the operator types. *)
Definition first_line (s : string) : string := match cut nl s with Some (a, _) => a | None => s end.
Definition confirmWebfleet (want supplied stdin : string) : bool :=
  if negb (supplied =?s "") then supplied =?s want else trim_space (first_line stdin) =?s want.
Definition prompt (want supplied : string) : string := if negb (supplied =?s "") then "" else "Type " ++ Quote want ++ " to continue: ".
Definition prompted (want supplied : string) (m : M host exit) : M host exit :=
  let* x := m in ret (mk_exit x.(ex_code) x.(ex_out) (prompt want supplied ++ x.(ex_err))).
Definition owner_of (n : fnode (T := T)) : ids := match n with Folder o _ | File o _ _ => o end.
(** [preserveResetDirOwner]. *)
Definition preserveResetDirOwner (dir : string) (info : fnode (T := T)) : M disk unit := chown dir (owner_of info).
Definition reset_done (mode : string) : exit := mk_exit 0 (line ("Webfleet " ++ mode ++ " reset complete. A timestamped backup was retained.")) "".
Definition replace_dir (dataDir stamp : string) (info : fnode) : M host exit :=
  or_exit (on_disk (rename dataDir (dataDir ++ ".reset-" ++ stamp))) "back up data directory: " (fun _ =>
  or_exit (on_disk (MkdirAll me dataDir 448)) "" (fun _ =>
  or_exit (on_disk (preserveResetDirOwner dataDir info)) "preserve data directory ownership: " (fun _ =>
  ret (reset_done "all")))).
Definition reset_all (dataDir stamp : string) : M host exit :=
  let* s := attempt (on_disk (stat_path dataDir)) in
  if match s with Err e => e =?s ENOENT | Ok _ => false end then ret (mk_exit 0 "" "") else
  let* info := attempt (on_disk (stat_path dataDir)) in
  match info with Err _ => ret (mk_exit 1 "" "") | Ok info => replace_dir dataDir stamp info end.
(** The transaction that forgets the accounts; what refers to them goes with them. *)
Definition forget_accounts : M (sdb T) unit :=
  transaction "" "" (
    exec_opt (run_statement exec_sql "DELETE FROM sessions") ;;;
    exec_opt (run_statement exec_sql "DELETE FROM users")).
(** [Backup] of the open database in a file. *)
Definition backup_file (path destination : string) : M disk unit := fun '(fs, fl) =>
  match at_path path fs with
  | Some (File _ _ (Sqlite _ d)) => Backup me cwd d destination (fs, fl)
  | _ => (Err "file is not a database", (fs, fl))
  end.
Definition reset_auth (dataDir stamp : string) : M host exit :=
  or_exit (on_disk (OpenSqlite dataDir)) "" (fun _ =>
  or_exit (on_disk (backup_file (db_path dataDir) (dataDir ++ "/reset-auth-" ++ stamp ++ ".db"))) "back up database: " (fun _ =>
  or_exit (on_disk (on_file (db_path dataDir) forget_accounts)) "" (fun _ =>
  ret (reset_done "auth")))).
Definition reset_usage : exit := usage "webfleet reset (--auth|--all) [--confirm 'WEBFLEET AUTH|WEBFLEET ALL']".
Definition runReset (args : list string) (stdin stamp : string) : M host exit :=
  match Parse [("auth", BoolFlag); ("all", BoolFlag); ("confirm", StringFlag)] args with
  | Err _ => ret reset_usage
  | Ok p =>
      let auth := flag_value p "auth" =?s "true" in
      let all := flag_value p "all" =?s "true" in
      if negb (match p.(rest_args) with [] => true | _ => false end) || Bool.eqb auth all then ret reset_usage else
      withInstalledDataDir (or_exit load "" (fun c =>
      let want := "WEBFLEET " ++ (if all then "ALL" else "AUTH") in
      prompted want (flag_value p "confirm") (
      if negb (confirmWebfleet want (flag_value p "confirm") stdin) then ret (mk_exit 1 "" (line "webfleet: confirmation did not match; nothing changed")) else
      if negb (c.(Config.cf_db) =?s "")
      then ret (mk_exit 1 "" (line "webfleet: reset currently requires the SQLite provider; use a database-native backup/reset workflow for PostgreSQL")) else
      if all then reset_all c.(Config.cf_data) stamp else reset_auth c.(Config.cf_data) stamp)))
  end.

(** *** [backup] and [restore] *)

Variable parse_dsn : string -> result pg_url.
Variable look_path : string -> bool.
Variable os_environ : list string.
Variable pg_tool : string -> list string -> list string -> option (content (T := T)) * option (string * string).
(** A record of the log: level, message, fields. *)
Variable slog : string -> string -> list (string * string) -> string.
Definition or_log {A} (m : M host A) (what : string) (k : A -> M host exit) : M host exit :=
  let* r := attempt m in
  match r with Err e => ret (mk_exit 1 (line (slog "ERROR" what [("error", e)])) "") | Ok a => k a end.
Definition runBackup (c : Config.Config) (dest : string) : M host exit :=
  let provider := Provider c.(Config.cf_db) in
  let done := ret (mk_exit 0 (line (slog "INFO" "backup complete" [("provider", provider); ("path", dest)])) "") in
  if provider =?s "postgres"
  then or_log (on_disk (PostgresBackup me cwd parse_dsn look_path os_environ pg_tool c.(Config.cf_db) dest)) "postgres backup failed" (fun _ => done)
  else or_log (on_disk (OpenSqlite c.(Config.cf_data))) "database failed" (fun _ =>
       or_log (on_disk (backup_file (db_path c.(Config.cf_data)) dest)) "backup failed" (fun _ => done)).
Definition runRestore (c : Config.Config) (source stamp : string) : M host exit :=
  let provider := Provider c.(Config.cf_db) in
  let done := ret (mk_exit 0 (line (slog "INFO" "restore complete" [("provider", provider); ("source", source)])) "") in
  if provider =?s "postgres"
  then or_log (on_disk (PostgresRestore parse_dsn look_path os_environ pg_tool c.(Config.cf_db) source)) "postgres restore failed" (fun _ => done)
  else or_log (on_disk (Restore me c.(Config.cf_data) source stamp)) "restore failed" (fun _ => done).

(** *** The dispatch of [main] *)

(** What the process does: it has finished; a command that has its own model; or a
    server that starts. *)
Inductive action :=
| Finished (x : exit) | ServiceCommand (args : list string) | ClusterCommand (args : list string) | ReplicateCommand (args : list string)
| FunctionalCommand (args : list string) | Serve (mode addr : string) (c : Config.Config).
Variable version : string.
Definition finish (m : M host exit) : M host action := let* x := m in ret (Finished x).
(** What is printed after the version has been logged. *)
Definition announced (a : action) : action :=
  match a with Finished x => Finished (mk_exit x.(ex_code) (line (slog "INFO" "webfleet version" [("version", version)]) ++ x.(ex_out)) x.(ex_err)) | _ => a end.
(** The commands that load the configuration and are neither [backup] nor [restore]. *)
Definition arguments_fit (args : list string) : bool :=
  match Parse serve_flags args with Ok p => match p.(rest_args) with [] => true | _ => false end | Err _ => false end.
Definition serve_command (c : Config.Config) (args : list string) : M host action := fun w =>
  (match serve_mode args with
   | Err e => ret (Finished (mk_exit 2 "" (line e)))
   | Ok (_, rest) =>
       match serve_listen w.1.(hs_env) c.(Config.cf_listen) args with
       | Err e => ret (Finished (mk_exit 2 (line (slog "ERROR" (if arguments_fit rest then "listener" else "arguments") [("error", e)])) ""))
       | Ok (mode, addr) => ret (Serve mode addr c)
       end
   end) w.
Definition configured (args : list string) (stamp : string) : M host action :=
  let* r := attempt load in
  match r with
  | Err e => ret (Finished (mk_exit 1 (line (slog "ERROR" "configuration failed" [("error", e)])) ""))
  | Ok c =>
      let* a := (match args with
                 | "backup" :: dest :: _ => finish (runBackup c dest)
                 | "restore" :: source :: _ => finish (runRestore c source stamp)
                 | _ => serve_command c args
                 end) in
      ret (announced a)
  end.
Definition main (args : list string) (stdin stamp : string) (now : Z) : M host action :=
  match args with
  | "service" :: rest => ret (ServiceCommand rest)
  | "cluster" :: rest => ret (ClusterCommand rest)
  | "replicate" :: rest => ret (ReplicateCommand rest)
  | "reset" :: rest => finish (runReset rest stdin stamp)
  | "config" :: rest => finish (runConfig rest)
  | "setup" :: rest => finish (runSetup rest now)
  | ["version"] | ["--version"] => ret (Finished (mk_exit 0 (line version) ""))
  | resource :: _ => if functionalCLIResource resource then ret (FunctionalCommand args) else configured args stamp
  | [] => configured args stamp
  end.

(** What runs in a server that starts: the scheduler and the webhook worker, the HTTP
    server, whole or for events alone, the replication. *)
Record running := mk_running { rn_background : bool; rn_http : option bool; rn_replication : bool }.
Definition start (mode : string) (c : Config.Config) : result running :=
  let background := (mode =?s "integrated") || (mode =?s "worker") in
  let repl := c.(Config.cf_repl).(Config.rc_enabled) in
  let only := "replication is only supported by the integrated Webfleet server" in
  if mode =?s "worker" then if repl then Err only else Ok (mk_running background None false) else
  if mode =?s "analytics-ingest" then if repl then Err only else Ok (mk_running background (Some false) false) else
  Ok (mk_running background (Some true) repl).
End Commands.

(** ** Lemmas *)

Section Facts.
Context {T : Type} `{HT : !Part adb T} (me : ids).
Abbreviation disk := (list (string * fnode (T := T))).
Abbreviation host := (host (T := T)).
Lemma reaches_disk {A} quiet (P : disk -> Prop) (m : M disk A) (Q : result A -> disk -> Prop) :
  reaches quiet P m Q -> reaches quiet (fun h : host => P (hs_disk h)) (on_disk m) (fun r h => Q r (hs_disk h)).
Proof.
  intros H h fl Hf Hh. destruct (H (hs_disk h) fl Hf Hh) as [H1 H2]. unfold on_disk. by destruct (m (hs_disk h, fl)) as [r [d g]].
Qed.
Lemma reaches_or_exit {A} quiet (P : host -> Prop) (m : M host A) what (k : A -> M host exit) (P' : A -> host -> Prop) (Q : result exit -> host -> Prop) :
  reaches quiet P m (fun r h => match r with Ok a => P' a h | Err e => Q (Ok (failed (what ++ e))) h end) ->
  (forall a, reaches quiet (P' a) (k a) Q) -> reaches quiet P (or_exit m what k) Q.
Proof.
  intros Hm Hk. unfold or_exit. eapply reaches_bind with (P' := fun r h => match r with Ok a => P' a h | Err e => Q (Ok (failed (what ++ e))) h end).
  - eapply reaches_conseq; [apply reaches_attempt, Hm|done|]. by intros [r|e].
  - intros [a|e]; [apply Hk|by apply reaches_ret].
Qed.

(** *** Folders *)

Lemma last_ancestor parts : forall d, parts <> [] -> exists l, ancestors_from d parts = (l ++ [(d ++ "/" ++ join "/" parts)%string])%list.
Proof.
  induction parts as [|x parts IH]; intros d H; [done|]. cbn [ancestors_from]. destruct parts as [|y parts].
  - exists []. done.
  - destruct (IH (d ++ "/" ++ x) ltac:(done)) as (l & ->). exists ((d ++ "/" ++ x) :: l). cbn [app]. do 2 f_equal. change (join "/" (x :: y :: parts)) with (x ++ "/" ++ join "/" (y :: parts)).
    by rewrite !string_app_assoc.
Qed.
Lemma ancestors_end p : IsAbs p = true -> exists l, ancestors_from "" (List.tl (split_on "/"%char p)) = (l ++ [p])%list.
Proof.
  intros H. destruct p as [|c p]; [done|]. assert (c = "/"%char) as -> by (destruct c as [[] [] [] [] [] [] [] []]; done).
  assert (split_on "/"%char (String "/" p) = "" :: split_on "/"%char p) as E by done. rewrite E. cbn [List.tl].
  destruct (last_ancestor (split_on "/"%char p) "" (split_on_nonempty _ _)) as (l & ->). exists l. rewrite (join_split_on "/"%char). done.
Qed.
Lemma MkdirAll_makes quiet (A : disk -> Prop) p mode : about_files A -> IsAbs p = true ->
  reaches quiet A (MkdirAll me p mode) (fun r fs => A fs /\ match r with Ok _ => is_folder p fs = true | Err _ => True end).
Proof.
  intros HA Hp. unfold MkdirAll. destruct (ancestors_end p Hp) as (l & ->).
  assert (reaches quiet A (mkdir me mode p) (fun r fs => A fs /\ match r with Ok _ => is_folder p fs = true | Err _ => True end)) as Hlast.
  { intros fs fl Hf Hs. destruct (mkdir_keeps me quiet A mode p HA fs fl Hf Hs) as [H1 H2]. split; [|done]. split; [done|]. clear H1 H2. unfold mkdir, syscall.
    destruct fl as [|[] fl]; [|done|]; unfold is_folder; destruct (at_path p fs) as [[]|] eqn:E; cbn [fst snd]; try done; try (by rewrite E); by rewrite at_put, String.eqb_refl. }
  induction l as [|x l IH]; cbn [app for_each].
  - eapply reaches_bind with (P' := fun _ fs => A fs /\ is_folder p fs = true); [|intros _; by apply reaches_ret].
    eapply reaches_conseq; [exact Hlast|done|]. by intros [].
  - eapply reaches_bind with (P' := fun _ => A); [|by intros _]. eapply reaches_conseq; [by apply (mkdir_keeps me quiet A mode x)|done|]. by intros [].
Qed.
Lemma at_path_none p (fs : disk) : (forall x, In x fs -> x.1 <> p) -> at_path p fs = None.
Proof. intros H. unfold at_path. rewrite (proj2 (find_first_None _ _)); [done|]. intros x Hx. by apply String.eqb_neq, H. Qed.
(** What was in a folder is at another place, and nothing else has changed. *)
Definition relocated (a b : string) (fs0 fs : disk) : Prop :=
  (forall r, file_at (a ++ String "/" r) fs = None) /\ (forall r, file_at (b ++ String "/" r) fs = file_at (a ++ String "/" r) fs0) /\
  (forall q, inside a q = false -> inside b q = false -> file_at q fs = file_at q fs0).
Lemma relocated_about a b fs0 : about_files (relocated a b fs0).
Proof. intros fs fs' H (H1 & H2 & H3). split_and!; intros; rewrite H; auto. Qed.
Lemma folder_relocated a s o m (fs0 : disk) : at_path a fs0 = Some (Folder o m) -> has_prefix s "/" = false -> s <> "" ->
  let b := a ++ s in let w := renamed a b fs0 in match w.1 with Ok _ => relocated a b fs0 w.2 /\ folder_empty b fs0 = true | Err _ => w.2 = fs0 end.
Proof.
  intros Ha Hs Hne b w. subst w. unfold renamed. rewrite Ha. destruct (at_path b fs0) as [[ob mb|ob mb cb]|] eqn:Eb; [|done|].
  all: assert (a <> b) as Hab by (apply not_eq_sym; by apply longer_path).
  all: assert (inside a b = false) as Hin by by apply suffix_not_inside.
  all: assert (inside b a = false) as Hin' by (apply not_true_iff_false; rewrite inside_spec; intros (r & E); unfold b in E; rewrite string_app_assoc in E; symmetry in E; apply longer_path in E; [done|by destruct s]).
  all: rewrite (proj2 (String.eqb_neq _ _) Hab), Hin; destruct (negb (in_folder b fs0)); [done|]; destruct (folder_empty b fs0) eqn:He; [|done]; cbn [negb fst snd].
  all: split; [|done]; split_and!; [intros r; rewrite file_at_of, at_renamed_gone by done; done|intros r; rewrite !file_at_of, at_renamed by done; done|].
  all: intros q H1 H2; rewrite !file_at_of; destruct (String.eqb_spec q b) as [->|Hqb]; [by rewrite at_renamed_self, Ha, Eb by done|].
  all: destruct (String.eqb_spec q a) as [->|Hqa]; [rewrite Ha|by rewrite at_not_renamed].
  all: rewrite at_path_none; [done|].
  all: intros x Hx E; apply List.in_map_iff in Hx as (y & <- & Hy); cbn [fst] in E; destruct (moved_cases a b y.1) as [[_ Hm]|[(r & _ & Hm)|(Hn & _ & Hm)]]; rewrite Hm in E; [congruence| |congruence].
  all: by rewrite <- E, (proj2 (inside_spec b _)) in Hin' by by exists r.
Qed.
End Facts.

(** ** Properties *)

Section Reset.
Context {T : Type} `{HT : !Part adb T} (me : ids).
Abbreviation disk := (list (string * fnode (T := T))).
Abbreviation host := (host (T := T)).
(** Every file is where it was, or at its place in the copy of the data directory. *)
Definition nothing_lost (dataDir copy : string) (fs0 fs : disk) : Prop :=
  forall p c, file_at p fs0 = Some c -> file_at p fs = Some c \/ exists r, p = dataDir ++ String "/" r /\ file_at (copy ++ String "/" r) fs = Some c.
Lemma relocated_loses_nothing a b fs0 fs : relocated a b fs0 fs -> folder_empty b fs0 = true -> nothing_lost a b fs0 fs.
Proof.
  intros (H1 & H2 & H3) He p c Hp. destruct (inside a p) eqn:Ea; [right; apply inside_spec in Ea as (r & ->); exists r; by rewrite H2|]. left.
  destruct (inside b p) eqn:Eb; [|by rewrite H3]. exfalso. unfold file_at, at_path in Hp. destruct (find_first _ fs0) as [x|] eqn:E; [|done].
  apply find_first_Some in E as [Hx Hq]. apply String.eqb_eq in Hq. pose proof (folder_empty_spec _ _ _ He Hx). congruence.
Qed.

(** C22: a [webfleet reset --all] loses nothing: whatever is refused on the way, every file
    of the machine is where it was or at its place in the copy of the data directory
    beside it; and when it exits with 0 the data directory is there again, empty, with
    the owner it had. *)
Theorem reset_all_loses_nothing dataDir stamp h fl o m : IsAbs dataDir = true -> at_path dataDir (hs_disk h) = Some (Folder o m) ->
  let w := reset_all me dataDir stamp (h, fl) in let fs := hs_disk w.2.1 in
  nothing_lost dataDir (dataDir ++ ".reset-" ++ stamp) (hs_disk h) fs /\
  exists x, w.1 = Ok x /\ (x.(ex_code) = 0 -> (exists m', at_path dataDir fs = Some (Folder o m')) /\ forall r, file_at (dataDir ++ String "/" r) fs = None).
Proof.
  intros Habs Hdir w fs. subst w fs. set (fs0 := hs_disk h). fold fs0 in Hdir. set (copy := dataDir ++ ".reset-" ++ stamp).
  set (done_well := fun fs : disk => (exists m', at_path dataDir fs = Some (Folder o m')) /\ forall r, file_at (dataDir ++ String "/" r) fs = None).
  set (Q := fun (r : result exit) (h : host) => nothing_lost dataDir copy fs0 (hs_disk h) /\ exists x, r = Ok x /\ (x.(ex_code) = 0 -> done_well (hs_disk h))).
  enough (reaches false (fun h : host => hs_disk h = fs0) (reset_all me dataDir stamp) Q) as H by (by apply (H h fl)).
  assert (nothing_lost dataDir copy fs0 fs0) as Hsame by (intros p c Hp; by left).
  assert (forall (f : disk -> result (fnode (T := T))), reaches false (fun h : host => hs_disk h = fs0) (attempt (on_disk (syscall (fun fs => (f fs, fs)))))
     (fun r h => match r with Ok x => hs_disk h = fs0 /\ (x = f fs0 \/ x = Err EIO) | Err _ => False end)) as Hlook.
  { intros f. eapply reaches_conseq; [apply reaches_attempt, (reaches_disk false (eq fs0) _ (fun r fs => fs = fs0 /\ (r = f fs0 \/ r = Err EIO)))|intros h' Hh; by symmetry|by intros []].
    apply reaches_syscall; [intros ? <-; auto|intros _ ? <-; auto]. }
  specialize (Hlook (fun fs => match at_path dataDir fs with Some n => Ok n | None => Err ENOENT end)). cbv beta in Hlook. rewrite Hdir in Hlook.
  unfold reset_all. eapply reaches_bind with (P' := fun s0 h => hs_disk h = fs0 /\ (s0 = Ok (Folder o m) \/ s0 = Err EIO)).
  { eapply reaches_conseq; [exact Hlook|done|]. by intros []. }
  intros s0. apply reaches_assuming. intros Hs0.
  assert ((match s0 with Err e => e =? ENOENT | Ok _ => false end)%string = false) as -> by by destruct Hs0 as [->| ->].
  eapply reaches_bind with (P' := fun s1 h => hs_disk h = fs0 /\ (s1 = Ok (Folder o m) \/ s1 = Err EIO)).
  { eapply reaches_conseq; [exact Hlook|done|]. by intros []. }
  intros s1. apply reaches_assuming. intros Hs1. destruct s1 as [n|e].
  2: { apply reaches_ret. intros h' Hh. unfold Q. rewrite Hh. split; [done|]. by eexists. }
  assert (n = Folder o m) as -> by (destruct Hs1; congruence). unfold replace_dir.
  assert (forall (fs : disk) e, nothing_lost dataDir copy fs0 fs -> forall h' : host, hs_disk h' = fs -> Q (Ok (failed e)) h') as Hfail.
  { intros fs e Hl h' <-. split; [done|]. eexists. by split. }
  set (R := fun fs => relocated dataDir copy fs0 fs /\ folder_empty copy fs0 = true).
  assert (about_files R) as HR by (intros a b Hab [Ha Hb]; split; [by apply (relocated_about _ _ _ a)|done]).
  assert (forall fs, R fs -> nothing_lost dataDir copy fs0 fs) as Hkept by (intros fs [H1 H2]; by apply relocated_loses_nothing).
  eapply reaches_or_exit with (P' := fun _ h => R (hs_disk h)).
  { eapply reaches_conseq; [apply (reaches_disk false (eq fs0) _ (fun r fs => match r with Ok _ => R fs | Err _ => fs = fs0 end))|intros h' Hh; by symmetry|].
    - apply reaches_syscall; [|by intros _ ? <-]. intros ? <-. pose proof (folder_relocated dataDir (".reset-" ++ stamp) o m fs0 Hdir eq_refl ltac:(done)) as H. exact H.
    - intros [u|e] h' H; [done|]. apply (Hfail (hs_disk h')); [by rewrite H|done]. }
  intros _. eapply reaches_or_exit with (P' := fun _ h => R (hs_disk h) /\ is_folder dataDir (hs_disk h) = true).
  { eapply reaches_conseq; [apply (reaches_disk false R _ _ (MkdirAll_makes me false R dataDir 448 HR Habs))|done|].
    intros [u|e] h' [H1 H2]; [by split|]. apply (Hfail (hs_disk h')); [by apply Hkept|done]. }
  intros _. eapply reaches_or_exit with (P' := fun _ h => R (hs_disk h) /\ exists m', at_path dataDir (hs_disk h) = Some (Folder o m')).
  - eapply reaches_conseq with (P := fun h => R (hs_disk h) /\ is_folder dataDir (hs_disk h) = true);
      [apply (reaches_disk false (fun fs => R fs /\ is_folder dataDir fs = true) _ (fun r fs => R fs /\ (is_ok r = true -> exists m', at_path dataDir fs = Some (Folder o m'))))|done|].
    + apply reaches_syscall; [|by intros _ fs []]. intros fs [H1 H2]. unfold is_folder in H2. destruct (at_path dataDir fs) as [[o' m'|]|] eqn:E; [|done|done]. cbn [fst snd owner_of]. split.
      * apply (HR fs); [|done]. intros q. rewrite file_put. destruct (String.eqb_spec q dataDir) as [->|]; [|done]. unfold file_at. by rewrite E.
      * intros _. exists m'. by rewrite at_put, String.eqb_refl.
    + intros [u|e] h' [H1 H2]; [split; [done|by apply H2]|]. apply (Hfail (hs_disk h')); [by apply Hkept|done].
  - intros _. apply reaches_ret. intros h' [H1 H2]. split; [by apply Hkept|]. eexists. split; [done|]. intros _. split; [done|]. by apply H1.
Qed.

Context (cwd : option string) (exec_sql : string -> T -> option T) (fresh : T).
(** What opening a database may have made of it. *)
Definition opened (d0 d : sdb T) : Prop := d = d0 \/ exists r fl0 fl1, initialize exec_sql (d0, fl0) = (r, (d, fl1)).
(** A database with its rows in a file, and the other files but one. *)
Definition holds_at (db other i : string) (fs0 : disk) (d : sdb T) (fs : disk) : Prop :=
  file_at db fs = Some (Sqlite i d) /\ forall p, p <> db -> p <> other -> file_at p fs = file_at p fs0.
Lemma holds_about db other i fs0 d : about_files (holds_at db other i fs0 d).
Proof using. intros fs fs' H [H1 H2]. split; [by rewrite H|]. intros p Hp Ho. rewrite H. by apply H2. Qed.
Lemma reaches_on_file {A} db other i fs0 d0 (m : M (sdb T) A) : reaches false (holds_at db other i fs0 d0) (on_file db m)
  (fun r fs => exists d fl0 fl1, m (d0, fl0) = (r, (d, fl1)) /\ holds_at db other i fs0 d fs).
Proof using.
  intros fs fl _ [H1 H2]. split; [|done]. unfold on_file. unfold file_at in H1. destruct (at_path db fs) as [[o mo|o mo c]|] eqn:E; [done| |done]. injection H1 as ->.
  destruct (m (d0, fl)) as [r [d fl1]] eqn:Em. exists d, fl, fl1. split; [done|]. split.
  - cbn [fst snd]. by rewrite file_put, String.eqb_refl.
  - intros p Hp Ho. cbn [fst snd]. rewrite file_put, (proj2 (String.eqb_neq _ _) Hp). by apply H2.
Qed.
Lemma transaction_cases {S A} b c (body : M S A) s fl : let w := transaction b c body (s, fl) in
  match w.1 with Err _ => w.2.1 = s | Ok a => exists fl0 fl1, body (s, fl0) = (Ok a, (w.2.1, fl1)) end.
Proof using.
  unfold transaction. destruct fl as [|[] fl]; [|done|]; cbn [List.tl]; match goal with |- context [body (s, ?f)] => destruct (body (s, f)) as [[a|e] [t g]] eqn:E end; try done;
    destruct g as [|[] g]; cbn; try done; by eexists _, _.
Qed.
Lemma forgotten d fl : let w := forget_accounts exec_sql (d, fl) in
  match w.1 with
  | Err _ => w.2.1 = d
  | Ok _ => exists t1 t2, exec_sql "DELETE FROM sessions" d.(sd_tables) = Some t1 /\ exec_sql "DELETE FROM users" t1 = Some t2 /\ w.2.1 = set_tables t2 d
  end.
Proof using.
  intros w. subst w. unfold forget_accounts. match goal with |- context [transaction ?b ?c ?m _] => pose proof (transaction_cases b c m d fl) as H; cbv zeta in H; destruct (transaction b c m (d, fl)) as [[u|e] [d' g]] end; [|done].
  cbn [fst snd] in *. destruct H as (fl0 & fl1 & H). sql_inv.
  unfold run_statement in *.
  repeat match goal with H : context [contains ?q history_table] |- _ => assert (contains q history_table = false) as E by (vm_compute; reflexivity); rewrite E in H; clear E end.
  repeat match goal with H : match exec_sql ?q ?t with _ => _ end = Some _ |- _ => destruct (exec_sql q t) eqn:?; [|done]; injection H as <- end.
  eexists _, _. by split_and!.
Qed.

(** Opening a database keeps it, but for what the migrations make of it. *)
Lemma opening_keeps dataDir other i fs0 d0 : let S := holds_at (db_path dataDir) other i fs0 in
  reaches false (S d0) (OpenSqlite me exec_sql fresh dataDir) (fun _ fs => exists d, opened d0 d /\ S d fs).
Proof.
  set (db := db_path dataDir). intros S.
  assert (forall A (m : M disk A), reaches false (S d0) m (fun _ => S d0) -> reaches false (S d0) m (fun r fs => match r with Ok _ => S d0 fs | Err _ => exists d, opened d0 d /\ S d fs end)) as Hkeep.
  { intros A m Hm. eapply reaches_conseq; [exact Hm|done|]. intros [r|e] fs Hs; [done|]. exists d0. split; [by left|done]. }
  unfold OpenSqlite. fold db. eapply reaches_bind with (P' := fun _ => S d0); [apply reaches_step, Hkeep, MkdirAll_keeps, holds_about|]. intros _.
  eapply reaches_bind with (P' := fun _ => S d0); [apply reaches_step, Hkeep, chmod_keeps, holds_about|]. intros _.
  eapply reaches_bind with (P' := fun _ => S d0); [apply reaches_step, Hkeep|].
  - apply reaches_syscall; [|done]. intros fs Hs. destruct Hs as [H1 H2]. unfold file_at in H1. destruct (at_path db fs) as [[o mo|o mo c]|] eqn:E; [done| |done]. injection H1 as ->. split; [|done]. cbn. unfold file_at. by rewrite E.
  - intros _. eapply reaches_conseq; [apply reaches_on_file|done|]. intros r fs (d & fl0 & fl1 & Hi & Hs). exists d. split; [right; by eexists _, _, _|done].
Qed.

(** A [webfleet reset --auth] loses nothing either: it exits with 0 when the accounts
    and the sessions are deleted and the database of before, opened, is in the backup;
    otherwise the database is as it was, opened; and no other file has changed. *)
Theorem reset_auth_loses_nothing dataDir stamp h fl abs i d0 : abs_path cwd (dataDir ++ "/reset-auth-" ++ stamp ++ ".db") = Ok abs -> abs <> db_path dataDir ->
  file_at (db_path dataDir) (hs_disk h) = Some (Sqlite i d0) ->
  let w := reset_auth me cwd exec_sql fresh dataDir stamp (h, fl) in let fs := hs_disk w.2.1 in
  exists x d, w.1 = Ok x /\ opened d0 d /\ (forall p, p <> db_path dataDir -> p <> abs -> file_at p fs = file_at p (hs_disk h)) /\
    (x.(ex_code) <> 0 -> file_at (db_path dataDir) fs = Some (Sqlite i d)) /\
    (x.(ex_code) = 0 -> file_at abs fs = Some (Sqlite "ok" d) /\ exists t1 t2, exec_sql "DELETE FROM sessions" d.(sd_tables) = Some t1 /\
       exec_sql "DELETE FROM users" t1 = Some t2 /\ file_at (db_path dataDir) fs = Some (Sqlite i (set_tables t2 d))).
Proof.
  intros Habs Hne H0 w fs. subst w fs. set (fs0 := hs_disk h). fold fs0 in H0. set (db := db_path dataDir). fold db in Hne, H0. set (S := holds_at db abs i fs0).
  set (Q := fun (r : result exit) (h : host) => exists x d, r = Ok x /\ opened d0 d /\ (forall p, p <> db -> p <> abs -> file_at p (hs_disk h) = file_at p fs0) /\
    (x.(ex_code) <> 0 -> file_at db (hs_disk h) = Some (Sqlite i d)) /\
    (x.(ex_code) = 0 -> file_at abs (hs_disk h) = Some (Sqlite "ok" d) /\ exists t1 t2, exec_sql "DELETE FROM sessions" d.(sd_tables) = Some t1 /\
       exec_sql "DELETE FROM users" t1 = Some t2 /\ file_at db (hs_disk h) = Some (Sqlite i (set_tables t2 d)))).
  enough (reaches false (fun h : host => hs_disk h = fs0) (reset_auth me cwd exec_sql fresh dataDir stamp) Q) as H by (by apply (H h fl)).
  assert (forall d (h' : host) e, opened d0 d -> S d (hs_disk h') -> Q (Ok (failed e)) h') as Hfail by (intros d h' e Hd [H1 H2]; exists (failed e), d; by split_and!).
  unfold reset_auth. eapply reaches_or_exit with (P' := fun _ h => exists d, opened d0 d /\ S d (hs_disk h)).
  { eapply reaches_conseq; [apply (reaches_disk false (S d0) _ (fun _ fs => exists d, opened d0 d /\ S d fs))|intros h' Hh; cbv beta; rewrite Hh; by split|].
    - apply opening_keeps.
    - intros [u|e] h' (d & Hd & Hs); [by exists d|]. by apply (Hfail d). }
  intros _. eapply reaches_or_exit with (P' := fun _ h => exists d, opened d0 d /\ S d (hs_disk h) /\ file_at abs (hs_disk h) = Some (Sqlite "ok" d)).
  { eapply reaches_conseq; [apply (reaches_disk false (fun fs => exists d, opened d0 d /\ S d fs) _
       (fun r fs => exists d, opened d0 d /\ S d fs /\ match r with Ok _ => file_at abs fs = Some (Sqlite "ok" d) | Err _ => True end))|done|].
    - intros fs fl0 _ (d & Hd & Hs). split; [|done]. exists d. split; [done|]. unfold backup_file. fold db. pose proof Hs as [H1 H2]. unfold file_at in H1.
      destruct (at_path db fs) as [[o mo|o mo c]|] eqn:E; [done| |done]. injection H1 as ->.
      destruct (backup_run me cwd d (dataDir ++ "/reset-auth-" ++ stamp ++ ".db") abs fs fl0 Habs) as [B1 B2]. split; [|exact B2]. split.
      + rewrite B1 by by apply not_eq_sym. by destruct Hs.
      + intros p Hp Hpa. rewrite B1 by done. by apply H2.
    - intros [u|e] h' (d & Hd & Hs & Hb); [by exists d|]. by apply (Hfail d). }
  intros _. eapply reaches_or_exit with (P' := fun _ h => Q (Ok (reset_done "auth")) h); [|intros _; by apply reaches_ret].
  intros h' fl0 _ (d & Hd & Hs & Hb). split; [|done]. unfold on_disk, on_file. fold db. pose proof Hs as [H1 H2]. unfold file_at in H1.
  destruct (at_path db (hs_disk h')) as [[o mo|o mo c]|] eqn:E; [done| |done]. injection H1 as ->. pose proof (forgotten d fl0) as Hf. cbv zeta in Hf.
  destruct (forget_accounts exec_sql (d, fl0)) as [[u|e] [d' g]]; cbn [fst snd] in Hf |- *.
  - destruct Hf as (t1 & t2 & Ht1 & Ht2 & ->). exists (reset_done "auth"), d. cbn [hs_disk]. split_and!; try done.
    + intros p Hp Hpa. rewrite file_put, (proj2 (String.eqb_neq _ _) Hp). by apply H2.
    + intros _. rewrite !file_put, String.eqb_refl, (proj2 (String.eqb_neq _ _) Hne). split; [done|]. by exists t1, t2.
  - subst d'. apply (Hfail d); [done|]. cbn [hs_disk]. split; [by rewrite file_put, String.eqb_refl|]. intros p Hp Hpa. rewrite file_put, (proj2 (String.eqb_neq _ _) Hp). by apply H2.
Qed.
End Reset.

(** ** Witnesses *)

Definition demo_host (fs : list (string * fnode (T := list string))) : host (T := list string) := mk_host ∅ fs ∅.
Definition demo_old_db : sdb (list string) := mk_sdb None 0 (Some (Some 38)) true ["an account"].
Definition demo_instance : list (string * fnode (T := list string)) :=
  [("/", Folder (0, 0) 493); ("/srv", Folder (0, 0) 493); ("/srv/data", Folder (33, 33) 448); ("/srv/data/webfleet.db", File (33, 33) 384 (Sqlite "ok" demo_old_db)); ("/srv/data/reports", Folder (33, 33) 448);
   ("/srv/data/reports/a.json", File (33, 33) 384 (Bytes "{}"))].
(** The process runs as another user than the owner of the data; the change of the owner
    is refused. *)
Definition demo_reset (fl : faults) : result exit * (host * faults) := reset_all (0, 0) "/srv/data" "S" (demo_host demo_instance, fl).
Lemma reset_all_loses_nothing_witness :
  nothing_lost "/srv/data" "/srv/data.reset-S" demo_instance (hs_disk (demo_reset []).2.1) /\
  (exists m', at_path "/srv/data" (hs_disk (demo_reset []).2.1) = Some (Folder (33, 33) m')) /\
  nothing_lost "/srv/data" "/srv/data.reset-S" demo_instance (hs_disk (demo_reset [false; false; false; false; false; true]).2.1).
Proof.
  destruct (reset_all_loses_nothing (0, 0) "/srv/data" "S" (demo_host demo_instance) [] (33, 33) 448 eq_refl eq_refl) as (H1 & x & Hx & H2).
  split; [exact H1|]. split.
  - apply H2. assert ((demo_reset []).1 = Ok (reset_done "all")) as E by (vm_compute; reflexivity). pose proof (eq_trans (eq_sym E) Hx) as Hy. injection Hy as <-. reflexivity.
  - exact (proj1 (reset_all_loses_nothing (0, 0) "/srv/data" "S" (demo_host demo_instance) [false; false; false; false; false; true] (33, 33) 448 eq_refl eq_refl)).
Defined.
Definition demo_forget (fl : faults) : result exit * (host * faults) := reset_auth (33, 33) None demo_exec [] "/srv/data" "S" (demo_host demo_instance, fl).
Lemma reset_auth_loses_nothing_witness : exists d, opened demo_exec demo_old_db d /\ file_at "/srv/data/reset-auth-S.db" (hs_disk (demo_forget []).2.1) = Some (Sqlite "ok" d).
Proof.
  destruct (reset_auth_loses_nothing (33, 33) None demo_exec [] "/srv/data" "S" (demo_host demo_instance) [] "/srv/data/reset-auth-S.db" "ok" demo_old_db eq_refl ltac:(discriminate) eq_refl)
    as (x & d & Hx & Hd & _ & _ & H). exists d. split; [exact Hd|]. apply H.
  assert ((demo_forget []).1 = Ok (reset_done "auth")) as E by (vm_compute; reflexivity). pose proof (eq_trans (eq_sym E) Hx) as Hy. injection Hy as <-. reflexivity.
Defined.
(** A reset of a machine on which nothing is refused. *)
Example reset_well : is_ok (demo_reset []).1 = true /\ file_at "/srv/data.reset-S/reports/a.json" (hs_disk (demo_reset []).2.1) = Some (Bytes "{}") /\
  (demo_reset [false; false; false; false; false; true]).1 = Ok (failed "preserve data directory ownership: input/output error").
Proof. split_and!; vm_compute; reflexivity. Qed.

(** *** The commands, on a machine with a service *)

#[local] Instance part_all : Part adb adb.
Proof. refine {| part := id; with_part d _ := d |}; done. Defined.
Definition demo_machine : host (T := adb) := mk_host ∅
  [("/", Folder (0, 0) 493); ("/etc", Folder (0, 0) 493); ("/etc/systemd", Folder (0, 0) 493); ("/etc/systemd/system", Folder (0, 0) 493); (UnitPath, File (0, 0) 420 (Bytes demo_old_unit)); ("/srv", Folder (0, 0) 493);
   ("/srv/data", Folder (33, 33) 448); ("/srv/data/webfleet.db", File (33, 33) 384 (Sqlite "ok" (mk_sdb None 40 (Some (Some 40)) true demo_adb)));
   ("/root", Folder (0, 0) 448); ("/root/email", File (0, 0) 384 (Bytes "ann@example.com")); ("/root/password", File (0, 0) 384 (Bytes "secret12"))] ∅.
Definition demo_main (args : list string) : result action * (host (T := adb) * faults) :=
  main (0, 0) (Some "/root") Config.demo_duration Config.demo_addr Config.demo_prefix Config.demo_url Config.demo_decode (fun _ d => Some d) (fun _ => []) empty_adb (fun _ => Err "connection refused")
    demo_accept demo_hash (fun _ => "{}") (fun _ => Err "no URL") (fun _ => false) [] (fun _ _ _ => (None, None)) (fun _ m _ => m) "1.0" args "" "S" 5 (demo_machine, []).
(** [backup] and [restore] do not look for the installed service: the backup is that of
    a new database in the working directory. *)
Example backup_of_another_database :
  (demo_main ["backup"; "/root/w.db"]).1 = Ok (Finished (mk_exit 0 (line "webfleet version" ++ line "backup complete") "")) /\
  (match file_at "/root/w.db" (hs_disk (demo_main ["backup"; "/root/w.db"]).2.1) with Some (Sqlite _ d) => match d.(sd_tables).(users) with [] => true | _ => false end | _ => false end) = true /\
  (demo_main ["config"; "show"]).1 = Ok (Finished (mk_exit 0 (line "Data directory: /srv/data" ++ line "Database: sqlite" ++ line "Listen: 127.0.0.1:7336") "")).
Proof. split_and!; vm_compute; reflexivity. Qed.
(** The command of the README has no name for the account. *)
Example setup_needs_a_name :
  (demo_main ["setup"; "--email-file"; "/root/email"; "--password-file"; "/root/password"]).1 =
    Ok (Finished (failed "valid username, email and password of at least 7 characters required")) /\
  (demo_main ["setup"; "create"]).1 = Ok (Finished setup_usage).
Proof. split; vm_compute; reflexivity. Qed.
